(* ===== verification/_CoqProject ===== *)
-Q . S2P
Prelude.v
RustStd.v
ContractTypes.v
Validation.v
SignalContract.v
FindingContract.v
RuleContract.v
DetectionAst.v
EventPipeline.v
EventSignal.v
Threshold.v
ThresholdSpec.v
Correlation.v
CorrelationSpec.v
Sigma.v
Effects.v
Database.v
Repository.v
RepositorySpec.v
RepositoryTheorems.v
Replay.v
MvpRules.v
MvpRulesSpec.v
MvpBatch.v
MvpBatchSpec.v
RustText.v
CanonicalJson.v
CanonicalJsonSpec.v
Parser.v
ParserSpec.v
ParserFormats.v
ParserFormatsSpec.v
SourceTime.v
SourceTimeSpec.v
Mapping.v
RetryState.v
Metrics.v
NormalizerWorld.v
NormalizerCore.v
RetryStore.v
RetryStoreSpec.v
RetryDouble.v
RetryConcurrency.v
RuntimeConfig.v
RawStore.v
EventBus.v
ClickHouse.v
DeadLetter.v
Runtime.v
NormalizerCoreSpec.v
Traces.v
DeliverySpec.v
DeliveryLiveness.v
StoredRowSpec.v
Derivations.v
DeadLetterSpec.v
PipelineSpec.v
NormalizerMain.v
RuntimeSample.v
DerivationSample.v
Contracts.v
Tui.v
TuiSpec.v
EndToEnd.v
EndToEndSample.v
DetectionTests.v
NormalizerTests.v
RuleTests.v
CrateRoots.v
