(* ===== verification/Prelude.v ===== *)
(** * CERBERO: verification of the Rust crates

    CERBERO is a SIEM.  Its Rust crates hold the contracts that every service
    shares, the normalizer that turns raw log lines into OCSF events, the
    detection engine, the runtime that makes detections durable, and a terminal
    interface to the search service.  This library models the five of them and
    proves what they promise.

    ** The program and the files that model it

    Paths are below src/crates/.  Each file models the code it names; a file
    whose name ends in [Spec] or [Theorems] holds the specification and the
    proofs of the file before it.

    - [Prelude]: outcomes of Rust calls ([Ok], [Err], panics as values), the
      error monad with its notation [let? x := r in k], fallible loops, and the
      automation ([ok_iff], [no_panic]).
    - [RustStd]: what the code uses of the standard library: machine integers
      with checked operations and [try_from], strings as UTF-8 bytes, [Ord],
      stable [sort_by], [BTreeMap] as a sorted association list.
    - [ContractTypes], [Contracts]: the messages of cerbero-common/src/generated,
      with their fields, and every enumeration with its numbers and names.
    - [Validation], [SignalContract], [FindingContract]: the validators of
      cerbero-common/src/contracts (validation.rs, signal_validation.rs,
      finding_validation.rs).
    - [RuleContract]: rule identities, statuses and the STABLE gate
      (cerbero-detection-core/src/rule_contract.rs).
    - [DetectionAst]: ast.rs, validator.rs, type_checker.rs and
      compiler_contract.rs: the rule AST, its structural validation and typing.
    - [EventPipeline]: event_compiler.rs, event_optimizer.rs, execution_plan.rs,
      event_evaluator.rs and normalized_event.rs: lowering, the compilation
      pipeline, the evaluator and the resolution of OCSF fields.
    - [EventSignal]: event_signal.rs and event_signal_materializer.rs.
    - [Threshold], [ThresholdSpec]: threshold.rs: compilation, the sliding-window
      evaluation per group, and THRESHOLD Signals.
    - [Correlation], [CorrelationSpec]: correlation.rs and
      correlation_finding_materializer.rs: SEQUENCE plans, the greedy selection
      and CORRELATION Findings.
    - [Sigma]: sigma.rs: the import of the governed Sigma subset.
    - [Effects], [Database]: state-passing effects, the PostgreSQL tables of
      migrations/postgres and the statements of the runtime.
    - [Repository], [RepositorySpec], [RepositoryTheorems]:
      cerbero-detection-runtime/src/lib.rs: logical keys, envelopes,
      [persist_signal] and [persist_finding].
    - [Replay]: a relational logic for runs that only add to the store.
    - [MvpRules], [MvpRulesSpec], [MvpBatch], [MvpBatchSpec]: mvp_batch.rs: the
      frozen rule pack and its policies, the ClickHouse loader, and [execute].
    - [RustText]: UTF-8 decoding, [str] searches, splits and slices with their
      panics at character boundaries, decimal texts.

    The normalizer, cerbero-normalizer/src:
    - [CanonicalJson], [CanonicalJsonSpec]: canonical.rs.
    - [Parser], [ParserSpec]: parser.rs: the registry, its selection and the
      linux/sshd parsers.  [ParserFormats], [ParserFormatsSpec]:
      parser_formats.rs: JSON, journald, RFC 5424 and RFC 3164.
    - [SourceTime], [SourceTimeSpec]: source_time.rs.  [Mapping]: mapping.rs.
    - [RetryState]: retry_state.rs.  [Metrics]: metrics.rs.
    - [NormalizerWorld]: what the runtime reads and writes outside its memory,
      as one state: the retry table, the metrics, and the log of effects on NATS
      and ClickHouse, with an [Outside] that decides how each exchange ends.
    - [NormalizerCore], [NormalizerCoreSpec]: core.rs and system_id.rs.
    - [RetryStore], [RetryStoreSpec]: retry_state_postgres.rs.  [RetryDouble]: the
      trait of the store, the in-memory double of the unit tests, and both suites.
      [RetryConcurrency]: several clients of the table at once, statement by statement.
    - [RuntimeConfig], [RawStore], [EventBus], [ClickHouse], [DeadLetter]:
      runtime_config.rs, raw_store.rs, eventbus.rs, clickhouse.rs and
      dead_letter.rs.
    - [Runtime]: runtime.rs: a delivery from the message to its settlement, and
      the loop of the service.
    - [NormalizerMain]: the process: main.rs, its signal task and exit codes.
    - [Traces]: the logic of effect logs.  [DeliverySpec], [DeliveryLiveness],
      [StoredRowSpec], [DeadLetterSpec]: what deliveries guarantee.  [Derivations],
      [DerivationSample]: many deliveries of one raw event, by several workers.
    - [PipelineSpec]: the normalizer composed with the detection rules.
    - [RuntimeSample]: a concrete runtime to which the theorems are applied.
    - [EndToEnd], [EndToEndSample]: the stored row read back by the detection
      runtime, and rejected passwords from the log line to the alert.

    The terminal interface, cerbero-tui/src/main.rs:
    - [Tui], [TuiSpec]: the command line, the API client, the state of the views,
      the key map, what the widgets say, and the loop with its worker thread.

    [CrateRoots]: the identities in the crate roots, and the agent, which prints one line.

    The unit tests of the crates:
    - [DetectionTests], [RuleTests], [NormalizerTests], and a module of [RetryDouble]
      and of [TuiSpec]: the tests and their fixtures as definitions that the model
      computes, the datasets of tests/detections/CER-DET-000001 included.

    The normalizer consumes handoffs from NATS.  [handle_message] loads the retry
    lifecycle of the message, reads its bytes from the Raw Store, derives an
    identity, looks the identity up in ClickHouse, normalizes and stores when
    nothing is found, publishes the stored event, and settles the message; a
    failure is recorded and the message given back, and an exhausted or permanent
    failure becomes a dead letter.  The detection runtime reads the stored events.

    The batch driver [execute] loads normalized events, runs the EVENT rules, the
    THRESHOLD rule and the SEQUENCE rule of the detection core under the MVP
    policies, turns matches into Signals and Findings through the materializers,
    and stores each of them through the repository before it returns them.  The
    traits through which the core meets its clients are type classes
    ([EventLeafEvaluationPolicy], [ThresholdEvaluationPolicy],
    [SequenceCorrelationEvaluationPolicy], the resolvers and compilation stages):
    the core's theorems are proved for every instance, and the runtime's
    theorems use them at the MVP instances.

    ** What the theorems show

    - Contracts: every validator accepts exactly the messages a declarative
      predicate describes, and never panics; numbers and names of the enumerations
      round trip, and the field tags of a message are distinct and valid.
    - EVENT: a compiled plan computes the meaning of the source rule; OCSF paths
      resolve as documented; matches materialize to valid Signals.
    - THRESHOLD: the sliding window finds the first qualifying block; every
      reported group has enough distinct events of its own within the window,
      and every group that has them is reported; the order of the batch does not
      matter when there are no conflicting duplicates, and does otherwise.
    - SEQUENCE: every match is a strictly ordered sequence within the window,
      and when time follows the order every group with a sequence is reported;
      without that the greedy search misses sequences that are there.
    - Sigma: an accepted pack is exactly a governed pair of documents, its
      filter means its selection, and the imported rule compiles; one class of
      inputs makes the timespan parser panic.
    - Persistence: the repository refines an append-only log of distinct
      artifacts whatever statement or commit fails; stored rows, inputs and
      outbox messages stay consistent through every history; a repeated Signal
      is answered with the stored one.  The logical key separates Signals whose
      texts avoid the separator, and is ambiguous in general.
    - MVP batch: the frozen rules compile and detect exactly what they are named
      after; results are durable before they are returned; running a batch again
      returns the same results and changes no table; the loader drops nothing.
    - Parsers: selection returns the strictly best parser or fails; no built-in
      parser panics; the sshd and RFC 5424 parsers read back what was written,
      with a characterization of structured data; the JSON limits are exact; a
      user name can forge the source address of an sshd line.
    - Source time and canonical JSON: a resolved RFC 3164 time is the nearest
      possible one; two values have one canonical form exactly when they differ
      in the order of members.
    - Core and rows: the identity computed before the lookup is the identity of
      the plan; the stored row decodes to the plan, and is recognized on a
      redelivery exactly when the raw event identity is in lower case.
    - Retry store: the SQL implements the lifecycle transitions as a map from
      keys, and every history leaves valid lifecycles; the in-memory double
      answers every regular history like the database, so the unit tests speak
      for both.  Several instances may use the table at once: every interleaving of
      their statements is a sequential history of the double, at the precision of the
      database, and the one trace of a race is the error of a failure that was refused anyway.
    - Derivations: all normalized events published for one raw event, by any worker and
      on any delivery, have one payload and one message identity; but of two workers that
      normalize it at the same time, one sends its delivery to the dead letters.
    - Deliveries, whatever the environment answers: at most one settlement, of
      the delivered message, acknowledged only after the stream stored the event of
      the raw event it hands over, terminated only after the stream stored its dead
      letter; over a whole run of the process, whatever its configuration, no message
      is lost, each of these settlements has a publication of its own, and the exit code tells a clean stop; an isolated message is never processed again.
    - Deliveries in a healthy environment: each one settles when the message is
      orderly (handling it does not panic and its error texts can be stored); an
      unprocessable orderly message is a dead letter within its retry budget.  Two
      kinds of input escape this, and are proved to: an error text with a NUL
      character, and a declared length that overflows.
    - Raw Store: reads never leave the configured root.
    - Composition: a rejected password in a log line becomes an event that the
      failed-login rules count, for its tenant, user, address and time; the event the
      detection runtime reads back is the event the normalizer stored; and ten
      rejected passwords of one user from one address within five minutes, in well
      formed lines, raise the burst alert whenever the batch evaluates.
    - Terminal interface: for every schedule of keys, answers and ticks, the view
      stays in range, requests are answered in the order they were sent, and once the
      API answers and no key comes the screen settles; the terminal mode is restored
      when the session ran; the command line and typed queries are read back.  Four
      shortcomings are proved: a stale answer shown as current, a cancelled edit that
      stays, a URL that passes the loopback check, and raw mode left on.
    - Test suites: every unit test of the modelled files passes on the model.  This
      checks the definitions against the behaviour the authors recorded.

    ** Parameters, bounds and fuel

    Code outside the repository is a parameter: SHA-256 ([Sha256], 32 bytes per
    digest), [serde_yaml] ([SerdeYaml]), [serde_json] ([SerdeJson]), [reqwest]
    ([HttpClient], a function of the request, so one answer per query), [prost]
    encodings ([Prost]), PostgreSQL failures and fresh UUIDs ([Environment]), and
    the standard library's [{:?}] of strings ([DebugStr]).  For the normalizer:
    [serde_json] values ([JsonCodec]), rows ([RowCodec]) and dead letters
    ([DeadLetterCodec]), base64 and RFC 3339 ([FormatCodec]), the calendar
    ([TimeCrate]), [uuid] and the resolution of [timestamptz] ([RetryCodec], of times in
    the range of the column),
    prost ([ProstCodec]), the file system ([RawFiles], with one answer per read),
    and everything NATS, ClickHouse, PostgreSQL and the clock answer ([Outside],
    a decision per step, which may report an error for an exchange that took
    effect).  NATS headers are taken to accept the values the code gives them,
    and the end of the PostgreSQL connection is observed between messages.  For the
    terminal interface: the clock and RFC 3339 ([UtcClock]), the replies of the API and
    the calls of crossterm, which a session takes as inputs.  A
    theorem that needs
    more of one of them has it as a hypothesis, and a witness that shows the
    hypothesis can hold.  The theorem on redeliveries needs of ClickHouse that the table
    keeps the first row of a logical key ([timeline], [reads_from]): the insert carries the
    key as its deduplication token, and the table deduplicates within a window of 1000
    inserts (migrations/clickhouse/000002).

    Integers are [Z] with the range of their Rust type checked where the code
    checks it, and with [Panic] where unchecked arithmetic or indexing could
    fail.  Recursion is structural except for [advance_left], which has fuel
    [S (S right)]: the left edge moves at most [right + 1] times, and the
    theorems show that neither the fuel nor the index arithmetic ever fails, and
    for [scan_elements], whose fuel is one more than the length of the text: every element
    consumes a character, and the grammar theorem shows that it suffices.
    Floating-point numbers are [spec_float] data; comparisons and the cast the
    code makes are exact integer computations on mantissa and exponent.
    Within one service the modelled code is sequential: the repository holds a mutex over
    its connection, and PostgreSQL transactions are atomic steps.  Between the instances
    of the normalizer, a statement is the unit of interleaving ([RetryConcurrency.step]),
    and deliveries on different workers have each an [Outside] of their own.
    The terminal interface has a second thread: its two channels are
    queues, and a session is any interleaving of the moves of both threads.  The
    settling theorem bounds the remaining moves by three per outstanding request and
    two more: the worker takes it, the API answers, and the loop applies the answer.

    ** Not modelled

    The layout of the areas and the styles of the terminal interface (ratatui); module
    declarations and re-exports; the Go services and the Python tooling, in other
    languages; indexes, roles and grants of the migrations.  prost's wire format, SHA-256,
    serde and the clients of NATS, PostgreSQL and ClickHouse are libraries.  The test
    programs in the tests directories of the crates are outside the crates they test, and
    several need running services; what they check (contracts, the detection pipeline,
    redelivery, the retry budget, dead letters) is
    stated as theorems about the runtime instead of as runs.  The lines of the crates
    that no definition translates are imports, attributes, documentation and fixtures
    that one test file repeats from another. *)

From Stdlib Require Export Ascii String ZArith Lia.
From stdpp Require Export base list strings gmap sorting pretty.

#[global] Set Default Goal Selector "!".

(** ** Outcomes of Rust calls

    A Rust call returns [Ok], returns [Err], or panics.  Panics are values of
    the model, because the absence of panics is a property worth proving and
    because the parser registry observes them through [catch_unwind]. *)

Inductive result (A E : Type) : Type :=
| Ok (a : A)
| Err (e : E)
| Panic (message : string).
Arguments Ok {A E} a.
Arguments Err {A E} e.
Arguments Panic {A E} message.

Definition bind {A B E} (r : result A E) (k : A -> result B E) : result B E :=
  match r with
  | Ok a => k a
  | Err e => Err e
  | Panic m => Panic m
  end.

Definition map_err {A E F} (f : E -> F) (r : result A E) : result A F :=
  match r with
  | Ok a => Ok a
  | Err e => Err (f e)
  | Panic m => Panic m
  end.

Definition ok_or {A E} (o : option A) (e : E) : result A E :=
  match o with
  | Some a => Ok a
  | None => Err e
  end.

(** [if bad { return Err(e); }] *)
Definition reject_if {E} (bad : bool) (e : E) : result unit E :=
  if bad then Err e else Ok tt.

(** [slice[index]] *)
Definition index {A E} (l : list A) (i : nat) : result A E :=
  match l !! i with
  | Some a => Ok a
  | None => Panic "index out of bounds"
  end.

Declare Scope rust_scope.
Delimit Scope rust_scope with rust.

Notation "'let?' x ':=' c 'in' k" := (bind c (fun x => k))
  (at level 10, x name, c at level 100, k at level 200,
   format "'[v' 'let?'  x  ':='  c  'in' '/' k ']'") : rust_scope.
Notation "'let?' ' p ':=' c 'in' k" := (bind c (fun p => k))
  (at level 10, p strict pattern, c at level 100, k at level 200) : rust_scope.
Notation "c ;;? k" := (bind c (fun _ => k))
  (at level 100, k at level 200, right associativity) : rust_scope.

#[global] Open Scope rust_scope.

(** ** Loops with early return *)

Section Loops.
Context {A B S E : Type}.

(** [for x in l { f(x)?; }] *)
Section Iter.
Variable f : A -> result unit E.
Fixpoint iter_m (l : list A) : result unit E :=
  match l with
  | [] => Ok tt
  | x :: l => f x ;;? iter_m l
  end.
End Iter.

(** [for x in l { if !f(x)? { return Ok(false); } } Ok(true)] *)
Section AllAny.
Variable f : A -> result bool E.
Fixpoint all_m (l : list A) : result bool E :=
  match l with
  | [] => Ok true
  | x :: l => let? b := f x in if b then all_m l else Ok false
  end.
(** [for x in l { if f(x)? { return Ok(true); } } Ok(false)] *)
Fixpoint any_m (l : list A) : result bool E :=
  match l with
  | [] => Ok false
  | x :: l => let? b := f x in if b then Ok true else any_m l
  end.
End AllAny.

(** [for x in l { s = f(s, x)?; }] *)
Section Fold.
Variable f : S -> A -> result S E.
Fixpoint fold_m (l : list A) (s : S) : result S E :=
  match l with
  | [] => Ok s
  | x :: l => bind (f s x) (fold_m l)
  end.
End Fold.

(** [l.iter().map(f).collect::<Result<Vec<_>, _>>()] *)
Section MapM.
Variable f : A -> result B E.
Fixpoint map_m (l : list A) : result (list B) E :=
  match l with
  | [] => Ok []
  | x :: l => let? y := f x in let? ys := map_m l in Ok (y :: ys)
  end.
End MapM.

End Loops.

(** ** Machine integers, as [Z] with their ranges *)

Definition in_range (lo hi z : Z) : bool := (lo <=? z)%Z && (z <=? hi)%Z.
Definition u8_max : Z := 255.
Definition u16_max : Z := 65535.
Definition u32_max : Z := 4294967295.
Definition i32_min : Z := -2147483648.
Definition i32_max : Z := 2147483647.
Definition u64_max : Z := 18446744073709551615.
Definition i64_min : Z := -9223372036854775808.
Definition i64_max : Z := 9223372036854775807.
(** The supported targets are 64-bit. *)
Definition usize_max : Z := u64_max.

Definition in_u8 : Z -> bool := in_range 0 u8_max.
Definition in_u32 : Z -> bool := in_range 0 u32_max.
Definition in_i32 : Z -> bool := in_range i32_min i32_max.
Definition in_u64 : Z -> bool := in_range 0 u64_max.
Definition in_i64 : Z -> bool := in_range i64_min i64_max.
Definition in_usize : Z -> bool := in_range 0 usize_max.

(** [T::try_from(z)] as an option *)
Definition try_from (in_t : Z -> bool) (z : Z) : option Z :=
  if in_t z then Some z else None.
Definition checked_mul (in_t : Z -> bool) (a b : Z) : option Z := try_from in_t (a * b).
Definition checked_add (in_t : Z -> bool) (a b : Z) : option Z := try_from in_t (a + b).

(** [matches!(x, lo..=hi)] *)
Definition matches_range (x lo hi : Z) : bool := in_range lo hi x.

(** [iter().enumerate()] *)
Definition enumerate {A} (l : list A) : list (nat * A) := imap pair l.

(** The length of a collection as an integer. *)
Definition zlen {A} (l : list A) : Z := Z.of_nat (length l).

(** ** Lemmas on outcomes *)

Definition no_panic {A E} (r : result A E) : Prop := forall m, r <> Panic m.

Create HintDb cerbero.
Create HintDb nopanic.
Create Rewrite HintDb ok_iff.

Section ResultLemmas.
Context {A B E F : Type}.

Lemma bind_ok_iff (r : result A E) (k : A -> result B E) b :
  bind r k = Ok b <-> exists a, r = Ok a /\ k a = Ok b.
Proof. destruct r; simpl; naive_solver. Qed.

Lemma bind_unit_ok_iff (r : result unit E) (k : result B E) b :
  (r ;;? k) = Ok b <-> r = Ok tt /\ k = Ok b.
Proof. destruct r as [[]| |]; simpl; naive_solver. Qed.

Lemma reject_if_ok_iff b (e : E) : reject_if b e = Ok tt <-> b = false.
Proof. destruct b; simpl; naive_solver. Qed.

Lemma map_err_ok_iff (f : E -> F) (r : result A E) a : map_err f r = Ok a <-> r = Ok a.
Proof. destruct r; simpl; naive_solver. Qed.

Lemma ok_or_ok_iff (o : option A) (e : E) a : ok_or o e = Ok a <-> o = Some a.
Proof. destruct o; simpl; naive_solver. Qed.

Lemma index_ok_iff (l : list A) i a : index (E := E) l i = Ok a <-> l !! i = Some a.
Proof. unfold index. destruct (l !! i); naive_solver. Qed.

Lemma ok_inj_iff (a a' : A) : @Ok A E a = Ok a' <-> a = a'.
Proof. naive_solver. Qed.

Lemma no_panic_ok (a : A) : no_panic (@Ok A E a).
Proof. by intros m. Qed.
Lemma no_panic_err (e : E) : no_panic (@Err A E e).
Proof. by intros m. Qed.
Lemma no_panic_reject_if b (e : E) : no_panic (reject_if b e).
Proof. by destruct b. Qed.
Lemma no_panic_ok_or (o : option A) (e : E) : no_panic (ok_or o e).
Proof. by destruct o. Qed.
Lemma no_panic_map_err (f : E -> F) (r : result A E) : no_panic r -> no_panic (map_err f r).
Proof. destruct r as [| |m]; intros H m'; [done..|]. by destruct (H m). Qed.
Lemma no_panic_bind (r : result A E) (k : A -> result B E) :
  no_panic r -> (forall a, r = Ok a -> no_panic (k a)) -> no_panic (bind r k).
Proof. destruct r as [| |m]; intros H Hk m'; [by apply Hk|done|]. by destruct (H m). Qed.
Lemma no_panic_index (l : list A) i : i < length l -> no_panic (index (E := E) l i).
Proof. intros [x Hx]%lookup_lt_is_Some m. unfold index. by rewrite Hx. Qed.
Lemma no_panic_if (b : bool) (r1 r2 : result A E) :
  (b = true -> no_panic r1) -> (b = false -> no_panic r2) -> no_panic (if b then r1 else r2).
Proof. destruct b; auto. Qed.

End ResultLemmas.

Section LoopLemmas.
Context {A B S E : Type}.

Lemma iter_m_ok_iff (f : A -> result unit E) l :
  iter_m f l = Ok tt <-> Forall (fun x => f x = Ok tt) l.
Proof.
  induction l as [|x l IH]; simpl; [by split|].
  by rewrite bind_unit_ok_iff, Forall_cons, IH.
Qed.

Lemma iter_m_err (f : A -> result unit E) l e :
  iter_m f l = Err e -> exists x, (x ∈ l) /\ f x = Err e.
Proof.
  induction l as [|x l IH]; simpl; [done|].
  destruct (f x) as [[]| |] eqn:Hx; simpl; [|intros [= ->]|done].
  - intros (y & Hy & ?)%IH. exists y. by split; [right|].
  - exists x. by split; [left|].
Qed.

Lemma iter_m_app (f : A -> result unit E) l1 l2 :
  iter_m f (l1 ++ l2) = (iter_m f l1 ;;? iter_m f l2).
Proof. induction l1 as [|x l1 IH]; simpl; [done|]. by destruct (f x) as [[]| |]. Qed.

Lemma iter_m_join (f : A -> result unit E) (g : B -> result unit E) (h : B -> list A) l :
  Forall (fun x => g x = iter_m f (h x)) l -> iter_m g l = iter_m f (mjoin (h <$> l)).
Proof.
  intros Hg. induction Hg as [|x l Hx Hl IH]; simpl; [done|]. rewrite iter_m_app, Hx.
  by destruct (iter_m f (h x)).
Qed.

Lemma map_m_ok_iff (f : A -> result B E) l l' :
  map_m f l = Ok l' <-> Forall2 (fun x y => f x = Ok y) l l'.
Proof.
  revert l'. induction l as [|x l IH]; intros l'; simpl.
  - split; [by intros [= <-]|]. by intros ->%Forall2_nil_inv_l.
  - rewrite bind_ok_iff. setoid_rewrite bind_ok_iff. setoid_rewrite IH.
    split; [naive_solver|]. intros (y & k & ? & ? & ->)%Forall2_cons_inv_l. eauto.
Qed.

Lemma map_m_pure (f : A -> result B E) (g : A -> B) l :
  (forall x, x ∈ l -> f x = Ok (g x)) -> map_m f l = Ok (g <$> l).
Proof.
  intros H. apply map_m_ok_iff, Forall2_fmap_r, Forall_Forall2_diag, Forall_forall.
  intros x Hx. by apply H.
Qed.

Lemma all_m_pure (f : A -> result bool E) (g : A -> bool) l :
  Forall (fun x => f x = Ok (g x)) l -> all_m f l = Ok (forallb g l).
Proof. induction 1 as [|x l Hx Hl IH]; simpl; [done|]. rewrite Hx, IH. by destruct (g x). Qed.

Lemma any_m_pure (f : A -> result bool E) (g : A -> bool) l :
  Forall (fun x => f x = Ok (g x)) l -> any_m f l = Ok (existsb g l).
Proof. induction 1 as [|x l Hx Hl IH]; simpl; [done|]. rewrite Hx, IH. by destruct (g x). Qed.

Lemma all_m_err (f : A -> result bool E) l e :
  all_m f l = Err e -> exists x, (x ∈ l) /\ f x = Err e.
Proof.
  induction l as [|x l IH]; simpl; [done|].
  destruct (f x) as [[]| |] eqn:Hx; simpl; [|done|intros [= ->]|done].
  - intros (y & Hy & ?)%IH. exists y. by split; [right|].
  - exists x. by split; [left|].
Qed.

Lemma any_m_err (f : A -> result bool E) l e :
  any_m f l = Err e -> exists x, (x ∈ l) /\ f x = Err e.
Proof.
  induction l as [|x l IH]; simpl; [done|].
  destruct (f x) as [[]| |] eqn:Hx; simpl; [done| |intros [= ->]|done].
  - intros (y & Hy & ?)%IH. exists y. by split; [right|].
  - exists x. by split; [left|].
Qed.

Lemma all_m_ext (f g : A -> result bool E) l :
  Forall (fun x => f x = g x) l -> all_m f l = all_m g l.
Proof. induction 1 as [|x l Hx Hl IH]; simpl; [done|]. by rewrite Hx, IH. Qed.

Lemma any_m_ext (f g : A -> result bool E) l :
  Forall (fun x => f x = g x) l -> any_m f l = any_m g l.
Proof. induction 1 as [|x l Hx Hl IH]; simpl; [done|]. by rewrite Hx, IH. Qed.

Lemma fold_m_app (f : S -> A -> result S E) l1 l2 s :
  fold_m f (l1 ++ l2) s = bind (fold_m f l1 s) (fold_m f l2).
Proof. revert s. induction l1 as [|x l1 IH]; intros s; simpl; [done|]. by destruct (f s x); simpl. Qed.

Lemma fold_m_inv (P : list A -> S -> Prop) (f : S -> A -> result S E) l s s' :
  fold_m f l s = Ok s' -> P [] s ->
  (forall pre x t t', P pre t -> f t x = Ok t' -> P (pre ++ [x]) t') -> P l s'.
Proof.
  intros Hf H0 Hstep. cut (forall pre, P pre s -> P (pre ++ l) s'); [by intros H; apply (H [])|].
  clear H0. revert s Hf. induction l as [|x l IH]; intros s Hf pre Hpre; simpl in *.
  - rewrite app_nil_r. by simplify_eq.
  - apply bind_ok_iff in Hf as (t & Ht & Hf). rewrite cons_middle, app_assoc. eauto.
Qed.

Lemma fold_m_no_panic (f : S -> A -> result S E) l s :
  (forall t x, x ∈ l -> no_panic (f t x)) -> no_panic (fold_m f l s).
Proof.
  revert s. induction l as [|x l IH]; intros s H; simpl; [by intros m|].
  apply no_panic_bind; [set_solver|]. intros; apply IH. set_solver.
Qed.

Lemma iter_m_no_panic (f : A -> result unit E) l :
  (forall x, x ∈ l -> no_panic (f x)) -> no_panic (iter_m f l).
Proof.
  induction l as [|x l IH]; intros H; simpl; [by intros m|].
  apply no_panic_bind; [set_solver|]. intros; apply IH. set_solver.
Qed.

End LoopLemmas.

#[export] Hint Rewrite @bind_unit_ok_iff @reject_if_ok_iff @map_err_ok_iff @ok_or_ok_iff
  @iter_m_ok_iff @ok_inj_iff : ok_iff.
#[export] Hint Resolve no_panic_ok no_panic_err no_panic_reject_if no_panic_ok_or
  no_panic_map_err no_panic_index : nopanic.

(** Turns a hypothesis [bind .. = Ok _] into its successful intermediate steps. *)
Ltac ok_inv H :=
  repeat match type of H with
  | bind ?r (fun _ => ?k) = Ok _ => apply bind_unit_ok_iff in H; destruct H as [? H]
  | bind _ _ = Ok _ => let x := fresh "x" in let Hx := fresh "Hok" in
      apply bind_ok_iff in H; destruct H as (x & Hx & H); simpl in H
  | map_err _ _ = Ok _ => apply map_err_ok_iff in H
  | reject_if _ _ = Ok _ => apply reject_if_ok_iff in H
  | ok_or _ _ = Ok _ => apply ok_or_ok_iff in H
  | Ok _ = Ok _ => injection H as H
  end.

(** Goals [no_panic _] of straight-line code. *)
Ltac no_panic :=
  repeat (simpl; first
    [ solve [eauto with nopanic]
    | apply no_panic_map_err
    | apply no_panic_bind; [|intros]
    | apply no_panic_if; intros
    | match goal with |- no_panic (match ?x with _ => _ end) => destruct x end ]).

(** ** Integer lemmas *)

Lemma in_range_spec lo hi z : in_range lo hi z = true <-> (lo <= z <= hi)%Z.
Proof. unfold in_range. rewrite andb_true_iff, !Z.leb_le. lia. Qed.

Lemma in_range_false lo hi z : in_range lo hi z = false <-> (z < lo \/ hi < z)%Z.
Proof. unfold in_range. rewrite andb_false_iff, !Z.leb_gt. lia. Qed.

Lemma try_from_some in_t z z' : try_from in_t z = Some z' <-> in_t z = true /\ z' = z.
Proof. unfold try_from. destruct (in_t z); naive_solver. Qed.

(** ** List lemmas *)

Lemma existsb_false_iff {A} (f : A -> bool) l :
  existsb f l = false <-> Forall (fun x => f x = false) l.
Proof.
  induction l as [|x l IH]; simpl; [by split|].
  by rewrite orb_false_iff, Forall_cons, IH.
Qed.

Lemma forallb_true_iff {A} (f : A -> bool) l :
  forallb f l = true <-> Forall (fun x => f x = true) l.
Proof.
  induction l as [|x l IH]; simpl; [by split|].
  by rewrite andb_true_iff, Forall_cons, IH.
Qed.

Lemma StronglySorted_weaken {A} (R S : A -> A -> Prop) l :
  (forall x y, R x y -> S x y) -> StronglySorted R l -> StronglySorted S l.
Proof. intros HRS. induction 1; constructor; [done|]. eapply Forall_impl; [done|]. auto. Qed.

Lemma Forall_enumerate {A} (P : nat * A -> Prop) l :
  Forall P (enumerate l) <-> forall i x, l !! i = Some x -> P (i, x).
Proof.
  rewrite Forall_lookup. unfold enumerate. split; intros HP i x Hx.
  - apply (HP i). by rewrite list_lookup_imap, Hx.
  - rewrite list_lookup_imap in Hx. destruct (l !! i) eqn:E; naive_solver.
Qed.

Lemma elem_of_enumerate {A} (l : list A) i x : (i, x) ∈ enumerate l <-> l !! i = Some x.
Proof.
  unfold enumerate. rewrite list_elem_of_lookup. setoid_rewrite list_lookup_imap.
  split.
  - intros [j Hj]. destruct (l !! j) eqn:E; naive_solver.
  - intros Hx. exists i. by rewrite Hx.
Qed.

Lemma enumerate_snd {A} (l : list A) : (enumerate l).*2 = l.
Proof.
  apply list_eq. intros i. unfold enumerate. rewrite list_lookup_fmap, list_lookup_imap.
  by destruct (l !! i).
Qed.

Lemma length_filter_fmap {A B} (g : A -> B) (f : B -> bool) l :
  length (List.filter (fun x => f (g x)) l) = length (List.filter f (g <$> l)).
Proof. induction l as [|x l IH]; simpl; [done|]. destruct (f (g x)); simpl; by rewrite IH. Qed.

Lemma length_enumerate {A} (l : list A) : length (enumerate l) = length l.
Proof. apply length_imap. Qed.

(** ** Loops that collect keys in a [HashSet] and reject a repeated key

    [for x in l { check(x)?; if !seen.insert(key(x)) { return Err(dup); } s = post(s, x)?; }] *)

Section UniqueLoop.
Context {A K S E : Type} `{Countable K}.
Variables (check : A -> result unit E) (key : A -> K) (dup : E) (post : S -> A -> result S E).

Definition unique_step (st : gset K * S) (x : A) : result (gset K * S) E :=
  let '(seen, s) := st in
  check x ;;?
  reject_if (bool_decide (key x ∈ seen)) dup ;;?
  let? s' := post s x in
  Ok ({[key x]} ∪ seen, s').

Definition unique_loop (l : list A) (s : S) : result S E :=
  let? st := fold_m unique_step l (∅, s) in Ok st.2.

Lemma unique_fold_ok_iff l seen s st :
  fold_m unique_step l (seen, s) = Ok st <->
  Forall (fun x => check x = Ok tt) l /\ NoDup (key <$> l) /\
  Forall (fun x => key x ∉ seen) l /\
  fold_m post l s = Ok st.2 /\ st.1 = seen ∪ list_to_set (key <$> l).
Proof.
  revert seen s. induction l as [|x l IH]; intros seen s; simpl.
  - rewrite NoDup_nil. destruct st as [seen' s']; simpl. split.
    + intros [= <- <-]. split_and!; try done. set_solver.
    + intros (_ & _ & _ & [= ->] & ->). do 2 f_equal. set_solver.
  - rewrite bind_ok_iff, !Forall_cons, NoDup_cons, bind_ok_iff.
    assert (forall t, unique_step (seen, s) x = Ok t <->
      check x = Ok tt /\ (key x ∉ seen) /\
      (exists s2, post s x = Ok s2 /\ t = ({[key x]} ∪ seen, s2)))
      as Hstep.
    { intros t. unfold unique_step.
      rewrite !bind_unit_ok_iff, bind_ok_iff, reject_if_ok_iff, bool_decide_eq_false. naive_solver. }
    setoid_rewrite Hstep. split.
    + intros (t & (Hc & Hk & s2 & Hp & ->) & Hr).
      apply IH in Hr as (? & ? & Hns & ? & ->). rewrite Forall_forall in Hns.
      split_and!; try done; [| |by eauto|set_solver].
      * intros (y & Heq & Hy)%list_elem_of_fmap. specialize (Hns y Hy). set_solver.
      * apply Forall_forall. intros y Hy. specialize (Hns y Hy). set_solver.
    + intros ([? ?] & [Hkl ?] & [? Hns] & (s2 & ? & ?) & Hst). rewrite Forall_forall in Hns.
      eexists. split; [split_and!; eauto|]. apply IH. split_and!; try done.
      * apply Forall_forall. intros y Hy. apply not_elem_of_union. split; [|by apply Hns].
        intros Heq%elem_of_singleton. apply Hkl, list_elem_of_fmap. eauto.
      * rewrite Hst. set_solver.
Qed.

Lemma unique_loop_ok_iff l s s' :
  unique_loop l s = Ok s' <->
  Forall (fun x => check x = Ok tt) l /\ NoDup (key <$> l) /\ fold_m post l s = Ok s'.
Proof.
  unfold unique_loop. rewrite bind_ok_iff. setoid_rewrite unique_fold_ok_iff.
  setoid_rewrite ok_inj_iff. split; [naive_solver|].
  intros (? & ? & ?). exists (∅ ∪ list_to_set (key <$> l), s'). split_and!; try done.
  apply Forall_forall. set_solver.
Qed.

Lemma unique_loop_no_panic l s :
  (forall x, x ∈ l -> no_panic (check x)) -> (forall s x, no_panic (post s x)) ->
  no_panic (unique_loop l s).
Proof.
  intros Hc Hp. unfold unique_loop. apply no_panic_bind; [|by intros ???].
  apply fold_m_no_panic. intros [seen t] x Hx. unfold unique_step.
  repeat (apply no_panic_bind; [solve [auto with nopanic]|intros]). by intros m.
Qed.

End UniqueLoop.

Lemma all_m_fmap {A C E} (h : C -> A) (f : A -> result bool E) l :
  all_m f (h <$> l) = all_m (fun x => f (h x)) l.
Proof. induction l as [|x l IH]; [done|]. rewrite fmap_cons. cbn [all_m]. by rewrite IH. Qed.

Lemma any_m_fmap {A C E} (h : C -> A) (f : A -> result bool E) l :
  any_m f (h <$> l) = any_m (fun x => f (h x)) l.
Proof. induction l as [|x l IH]; [done|]. rewrite fmap_cons. cbn [any_m]. by rewrite IH. Qed.

Lemma fold_m_pure {A S E} (f : S -> A -> S) l (s : S) :
  fold_m (E := E) (fun s x => Ok (f s x)) l s = Ok (foldl f s l).
Proof. revert s. induction l as [|x l IH]; intros s; simpl; [done|]. apply IH. Qed.

(** [for x in l { if let Some(y) = f(x)? { out.push(y); } }] *)
Lemma fold_m_collect {A B E} (f : A -> result (option B) E) l (out out' : list B) :
  fold_m (fun out x => let? o := f x in
    match o with None => Ok out | Some y => Ok (out ++ [y]) end) l out = Ok out' <->
  exists os, map_m f l = Ok os /\ out' = out ++ omap id os.
Proof.
  revert out. induction l as [|x l IH]; intros out; simpl.
  - split; [intros [= <-]; exists []; by rewrite app_nil_r|].
    intros (os & [= <-] & ->). by rewrite app_nil_r.
  - destruct (f x) as [o| |]; simpl; [|naive_solver..].
    destruct o as [y|]; simpl; rewrite IH.
    + setoid_rewrite bind_ok_iff. split.
      * intros (os & ? & ->). exists (Some y :: os). simpl. rewrite <-app_assoc. eauto.
      * intros (? & (os & ? & [= <-]) & ->). exists os. simpl. by rewrite <-app_assoc.
    + setoid_rewrite bind_ok_iff. split.
      * intros (os & ? & ->). exists (None :: os). eauto.
      * intros (? & (os & ? & [= <-]) & ->). exists os. done.
Qed.

Lemma fold_m_Forall2 {A B S E} (f : S -> A -> result S E) (g : S -> B -> result S E) l k s :
  Forall2 (fun x y => forall s, f s x = g s y) l k -> fold_m f l s = fold_m g k s.
Proof.
  intros Hlk. revert s. induction Hlk as [|x y l k Hxy Hlk IH]; intros s; simpl; [done|].
  rewrite Hxy. destruct (g s y); simpl; auto.
Qed.

(** A non-empty list has a least element of a total preorder. *)
Lemma list_least {A} (R : A -> A -> Prop) l :
  (forall x y, R x y \/ R y x) -> (forall x y z, R x y -> R y z -> R x z) ->
  l <> [] -> exists m, (m ∈ l) /\ Forall (R m) l.
Proof.
  intros Htot Htr. induction l as [|y l IH]; [done|]. intros _.
  assert (R y y) by (destruct (Htot y y); done). destruct l as [|z l].
  { exists y. split; [by left|by repeat constructor]. }
  destruct IH as (m & Hm & Hmin); [done|]. destruct (Htot m y).
  - exists m. split; [by right|by constructor].
  - exists y. split; [by left|]. constructor; [done|].
    eapply Forall_impl; [exact Hmin|]. eauto.
Qed.

Lemma all_m_no_panic {A E} (f : A -> result bool E) l :
  Forall (fun x => no_panic (f x)) l -> no_panic (all_m f l).
Proof.
  induction 1 as [|x l Hx Hl IH]; simpl; [by intros m|].
  apply no_panic_bind; [done|]. intros b _. by apply no_panic_if.
Qed.

Lemma any_m_no_panic {A E} (f : A -> result bool E) l :
  Forall (fun x => no_panic (f x)) l -> no_panic (any_m f l).
Proof.
  induction 1 as [|x l Hx Hl IH]; simpl; [by intros m|].
  apply no_panic_bind; [done|]. intros b _. by apply no_panic_if.
Qed.

Lemma map_m_Forall2 {A B C E} (f : A -> result C E) (g : B -> result C E) l l' :
  Forall2 (fun x y => f x = g y) l l' -> map_m f l = map_m g l'.
Proof. induction 1 as [|x y l l' Hxy Hl IH]; simpl; [done|]. by rewrite Hxy, IH. Qed.
