(* ===== verification/RustStd.v ===== *)
(** * The Rust standard library, as far as the modelled crates use it

    UTF-8 strings are [string] (a sequence of bytes), [&[u8]] is [list ascii],
    [Ord] is a type class with the laws Rust documents for it, [BTreeMap] is a
    key-sorted association list (so that iteration is in key order), and
    [slice::sort_by] is a stable sort. *)

From S2P Require Import Prelude.

(** ** Bytes and strings *)

Definition str_bytes (s : string) : list ascii := list_ascii_of_string s.
Definition str_of_bytes (l : list ascii) : string := string_of_list_ascii l.
(** [str::len]: the length in bytes *)
Definition str_len (s : string) : nat := length (str_bytes s).
Definition is_empty (s : string) : bool :=
  match s with EmptyString => true | String _ _ => false end.

Definition byte_val (a : ascii) : Z := Z.of_N (N_of_ascii a).
Definition byte_in (lo hi : Z) (a : ascii) : bool := in_range lo hi (byte_val a).

Definition is_ascii_digit : ascii -> bool := byte_in 48 57.
Definition is_ascii_uppercase : ascii -> bool := byte_in 65 90.
Definition is_ascii_lowercase : ascii -> bool := byte_in 97 122.
Definition is_ascii_hexdigit (a : ascii) : bool :=
  is_ascii_digit a || byte_in 65 70 a || byte_in 97 102 a.
Definition is_ascii_alphabetic (c : ascii) : bool := is_ascii_uppercase c || is_ascii_lowercase c.
Definition is_ascii_alphanumeric (c : ascii) : bool := is_ascii_alphabetic c || is_ascii_digit c.
Definition to_ascii_lowercase (a : ascii) : ascii :=
  if is_ascii_uppercase a then ascii_of_N (N_of_ascii a + 32) else a.
Definition to_ascii_uppercase (a : ascii) : ascii :=
  if is_ascii_lowercase a then ascii_of_N (N_of_ascii a - 32) else a.
Definition str_to_ascii_uppercase (s : string) : string :=
  str_of_bytes (to_ascii_uppercase <$> str_bytes s).

(** [{:?}] of a [str]: quoted and escaped by the standard library *)
Class DebugStr := debug_str : string -> string.

(** [str::strip_prefix] *)
Fixpoint strip_prefix (p s : string) : option string :=
  match p, s with
  | EmptyString, _ => Some s
  | String a p, String b s => if Ascii.eqb a b then strip_prefix p s else None
  | String _ _, EmptyString => None
  end.

(** [str::contains(char)] for an ASCII character *)
Definition contains_char (c : ascii) (s : string) : bool := existsb (Ascii.eqb c) (str_bytes s).

(** [str::split(char)] for an ASCII character: never empty *)
Fixpoint split_char (c : ascii) (s : string) : list string :=
  match s with
  | EmptyString => [EmptyString]
  | String a s =>
      if Ascii.eqb a c then EmptyString :: split_char c s
      else match split_char c s with
           | seg :: segs => String a seg :: segs
           | [] => [String a EmptyString]
           end
  end.

(** The UTF-8 encodings of the characters with the [White_Space] property, by
    length: [char::is_whitespace]. *)
Definition ws1 (a : ascii) : bool := byte_in 9 13 a || byte_in 32 32 a.
Definition ws2 (a b : ascii) : bool :=
  (byte_val a =? 194)%Z && ((byte_val b =? 133)%Z || (byte_val b =? 160)%Z).
Definition ws3 (a b c : ascii) : bool :=
  let a := byte_val a in let b := byte_val b in let c := byte_val c in
  ((a =? 225) && (b =? 154) && (c =? 128)
   || (a =? 226) && (b =? 128) && (in_range 128 138 c || (c =? 168) || (c =? 169) || (c =? 175))
   || (a =? 226) && (b =? 129) && (c =? 159)
   || (a =? 227) && (b =? 128) && (c =? 128))%Z.

Fixpoint trim_start_bytes (l : list ascii) : list ascii :=
  match l with
  | [] => []
  | a :: l1 =>
      if ws1 a then trim_start_bytes l1 else
      match l1 with
      | [] => l
      | b :: l2 =>
          if ws2 a b then trim_start_bytes l2 else
          match l2 with
          | [] => l
          | c :: l3 => if ws3 a b c then trim_start_bytes l3 else l
          end
      end
  end.

(** The same from the end, on the reversed bytes. *)
Fixpoint trim_end_rev (l : list ascii) : list ascii :=
  match l with
  | [] => []
  | c :: l1 =>
      if ws1 c then trim_end_rev l1 else
      match l1 with
      | [] => l
      | b :: l2 =>
          if ws2 b c then trim_end_rev l2 else
          match l2 with
          | [] => l
          | a :: l3 => if ws3 a b c then trim_end_rev l3 else l
          end
      end
  end.

(** [str::trim] *)
Definition trim (s : string) : string :=
  str_of_bytes (reverse (trim_end_rev (reverse (trim_start_bytes (str_bytes s))))).

(** [str::is_char_boundary] on a well-formed UTF-8 string *)
Definition is_char_boundary (s : string) (i : nat) : bool :=
  match str_bytes s !! i with
  | Some b => negb (byte_in 128 191 b)
  | None => (i =? str_len s)%nat
  end.

(** [str::split_at]: panics off a character boundary *)
Definition split_at {E} (s : string) (i : nat) : result (string * string) E :=
  if is_char_boundary s i
  then Ok (str_of_bytes (take i (str_bytes s)), str_of_bytes (drop i (str_bytes s)))
  else Panic "split_at: not a character boundary".

(** [str::parse::<uN>()]: an optional ['+'], at least one digit, in range *)
Definition digit_val (a : ascii) : Z := byte_val a - 48.
Fixpoint parse_digits (in_t : Z -> bool) (acc : Z) (l : list ascii) : option Z :=
  match l with
  | [] => Some acc
  | a :: l =>
      if is_ascii_digit a then
        match try_from in_t (acc * 10 + digit_val a) with
        | Some acc => parse_digits in_t acc l
        | None => None
        end
      else None
  end.
Definition parse_unsigned (in_t : Z -> bool) (s : string) : option Z :=
  match str_bytes s with
  | [] => None
  | a :: l =>
      if Ascii.eqb a "+" then
        match l with [] => None | _ => parse_digits in_t 0 l end
      else parse_digits in_t 0 (a :: l)
  end.

(** A parsed number is in the range of its type. *)
Lemma parse_digits_in in_t acc l z : in_t acc = true -> parse_digits in_t acc l = Some z -> in_t z = true.
Proof.
  revert acc. induction l as [|a l IH]; intros acc Hacc; simpl; [by intros [= <-]|].
  destruct (is_ascii_digit a); [|done]. unfold try_from. destruct (in_t (acc * 10 + digit_val a)%Z) eqn:E; [|done].
  by apply IH.
Qed.

Lemma parse_unsigned_in in_t s z : in_t 0%Z = true -> parse_unsigned in_t s = Some z -> in_t z = true.
Proof.
  intros H0. unfold parse_unsigned. destruct (str_bytes s) as [|a l]; [done|].
  destruct (Ascii.eqb a "+"); [destruct l; [done|]|]; by apply parse_digits_in.
Qed.

(** ** Total orders: [std::cmp::Ord] *)

Class Ord (A : Type) := {
  cmp : A -> A -> comparison;
  cmp_eq_iff x y : cmp x y = Eq <-> x = y;
  cmp_antisym x y : cmp y x = CompOpp (cmp x y);
  cmp_lt_trans x y z : cmp x y = Lt -> cmp y z = Lt -> cmp x z = Lt;
}.

(** [Ordering::then_with] *)
Definition then_with (c d : comparison) : comparison :=
  match c with Eq => d | _ => c end.

Definition cmp_le {A} `{Ord A} (x y : A) : bool :=
  match cmp x y with Gt => false | _ => true end.
Definition cmp_lt {A} `{Ord A} (x y : A) : bool :=
  match cmp x y with Lt => true | _ => false end.

(** ** [slice::sort_by]: a stable sort by a comparison function *)

Section SortBy.
Context {A : Type} (c : A -> A -> comparison).

Fixpoint sort_insert (x : A) (l : list A) : list A :=
  match l with
  | [] => [x]
  | y :: l => match c x y with Gt => y :: sort_insert x l | _ => x :: y :: l end
  end.

Fixpoint sort_by (l : list A) : list A :=
  match l with
  | [] => []
  | x :: l => sort_insert x (sort_by l)
  end.

End SortBy.

(** ** [BTreeMap] *)

Definition BTreeMap (K V : Type) : Type := list (K * V).

Section BTreeMap.
Context {K V : Type} `{Ord K}.

Fixpoint bt_get (k : K) (m : BTreeMap K V) : option V :=
  match m with
  | [] => None
  | (k', v) :: m =>
      match cmp k k' with
      | Lt => None
      | Eq => Some v
      | Gt => bt_get k m
      end
  end.

(** The [entry] interface: replace the value at [k] by [f] of the old one. *)
Fixpoint bt_upsert (k : K) (f : option V -> V) (m : BTreeMap K V) : BTreeMap K V :=
  match m with
  | [] => [(k, f None)]
  | (k', v) :: m' =>
      match cmp k k' with
      | Lt => (k, f None) :: m
      | Eq => (k', f (Some v)) :: m'
      | Gt => (k', v) :: bt_upsert k f m'
      end
  end.

Definition bt_insert (k : K) (v : V) : BTreeMap K V -> BTreeMap K V := bt_upsert k (fun _ => v).
Definition bt_values (m : BTreeMap K V) : list V := snd <$> m.

Definition key_lt (p q : K * V) : Prop := cmp p.1 q.1 = Lt.
Definition bt_sorted (m : BTreeMap K V) : Prop := StronglySorted key_lt m.
End BTreeMap.

(** [map.entry(k).or_default().push(x)] *)
Definition bt_push {K V} `{Ord K} (k : K) (x : V) (m : BTreeMap K (list V)) : BTreeMap K (list V) :=
  bt_upsert k (fun o => default [] o ++ [x]) m.

(** ** Lemmas on orders *)

Section OrdLemmas.
Context {A : Type} `{Ord A}.
Implicit Types x y z : A.

Lemma cmp_refl x : cmp x x = Eq.
Proof. by apply cmp_eq_iff. Qed.

Lemma cmp_gt_lt x y : cmp x y = Gt <-> cmp y x = Lt.
Proof. rewrite (cmp_antisym x y). destruct (cmp x y); naive_solver. Qed.

Lemma cmp_le_not_lt x y : cmp_le x y = negb (cmp_lt y x).
Proof. unfold cmp_le, cmp_lt. rewrite (cmp_antisym x y). by destruct (cmp x y). Qed.

Lemma cmp_le_iff x y : cmp_le x y = true <-> cmp x y = Lt \/ x = y.
Proof.
  unfold cmp_le. rewrite <-(cmp_eq_iff x y). destruct (cmp x y); naive_solver.
Qed.

Lemma cmp_lt_iff x y : cmp_lt x y = true <-> cmp x y = Lt.
Proof. unfold cmp_lt. destruct (cmp x y); naive_solver. Qed.

Lemma cmp_lt_le x y : cmp_lt x y = true -> cmp_le x y = true.
Proof. rewrite cmp_lt_iff, cmp_le_iff. by left. Qed.

Lemma cmp_le_trans x y z : cmp_le x y = true -> cmp_le y z = true -> cmp_le x z = true.
Proof.
  rewrite !cmp_le_iff. intros [Hxy| ->] [Hyz| ->]; eauto using cmp_lt_trans.
Qed.

Lemma cmp_le_lt_trans x y z : cmp_le x y = true -> cmp_lt y z = true -> cmp_lt x z = true.
Proof. rewrite cmp_le_iff, !cmp_lt_iff. intros [?| ->]; eauto using cmp_lt_trans. Qed.

Lemma cmp_le_total x y : cmp_le x y = true \/ cmp_le y x = true.
Proof. unfold cmp_le. rewrite (cmp_antisym x y). destruct (cmp x y); auto. Qed.

Lemma cmp_le_antisymm x y : cmp_le x y = true -> cmp_le y x = true -> x = y.
Proof.
  rewrite !cmp_le_iff. intros [H1|] [H2|]; try done.
  apply cmp_gt_lt in H1. congruence.
Qed.
End OrdLemmas.

Section OrdInstances.

#[global] Program Instance Ord_Z : Ord Z := {| cmp := Z.compare |}.
Next Obligation. intros; apply Z.compare_eq_iff. Qed.
Next Obligation. intros; apply Z.compare_antisym. Qed.
Next Obligation. intros x y z; rewrite !Z.compare_lt_iff; lia. Qed.

#[global] Program Instance Ord_N : Ord N := {| cmp := N.compare |}.
Next Obligation. intros; apply N.compare_eq_iff. Qed.
Next Obligation. intros; apply N.compare_antisym. Qed.
Next Obligation. intros x y z; rewrite !N.compare_lt_iff; lia. Qed.

Lemma string_compare_refl s : String.compare s s = Eq.
Proof. induction s as [|a s IH]; simpl; [done|]. unfold Ascii.compare. by rewrite N.compare_refl. Qed.

Lemma string_compare_trans s1 s2 s3 :
  String.compare s1 s2 = Lt -> String.compare s2 s3 = Lt -> String.compare s1 s3 = Lt.
Proof.
  revert s2 s3. induction s1 as [|a s1 IH]; intros [|b s2] [|c s3]; simpl; try done.
  unfold Ascii.compare.
  destruct (N.compare_spec (N_of_ascii a) (N_of_ascii b));
  destruct (N.compare_spec (N_of_ascii b) (N_of_ascii c));
  destruct (N.compare_spec (N_of_ascii a) (N_of_ascii c)); try lia; try done. eauto.
Qed.

#[global] Program Instance Ord_string : Ord string := {| cmp := String.compare |}.
Next Obligation.
  intros x y; split; [apply String.compare_eq_iff|]. intros ->. apply string_compare_refl.
Qed.
Next Obligation. intros x y. apply String.compare_antisym. Qed.
Next Obligation. intros x y z. apply string_compare_trans. Qed.

Context {A B : Type} `{Ord A} `{Ord B}.

#[global] Program Instance Ord_prod : Ord (A * B) :=
  {| cmp p q := then_with (cmp p.1 q.1) (cmp p.2 q.2) |}.
Next Obligation.
  intros [x1 x2] [y1 y2]; simpl.
  destruct (cmp x1 y1) eqn:E; simpl; [|split; [done|]..].
  - apply cmp_eq_iff in E as ->. rewrite cmp_eq_iff. naive_solver.
  - intros [= -> ->]. by rewrite cmp_refl in E.
  - intros [= -> ->]. by rewrite cmp_refl in E.
Qed.
Next Obligation.
  intros [x1 x2] [y1 y2]; simpl. rewrite (cmp_antisym x1 y1), (cmp_antisym x2 y2).
  by destruct (cmp x1 y1).
Qed.
Next Obligation.
  intros [x1 x2] [y1 y2] [z1 z2]; simpl.
  destruct (cmp x1 y1) eqn:E1; simpl; [apply cmp_eq_iff in E1 as ->| |done].
  - destruct (cmp y1 z1) eqn:E2; simpl; try done. apply cmp_lt_trans.
  - destruct (cmp y1 z1) eqn:E2; simpl; [|by rewrite (cmp_lt_trans _ _ _ E1 E2)|done].
    apply cmp_eq_iff in E2 as ->. by rewrite E1.
Qed.

Fixpoint list_cmp (l1 l2 : list A) : comparison :=
  match l1, l2 with
  | [], [] => Eq
  | [], _ => Lt
  | _, [] => Gt
  | x :: l1, y :: l2 => then_with (cmp x y) (list_cmp l1 l2)
  end.

#[global] Program Instance Ord_list : Ord (list A) := {| cmp := list_cmp |}.
Next Obligation.
  intros l1. induction l1 as [|x l1 IH]; intros [|y l2]; simpl; try done.
  destruct (cmp x y) eqn:E; simpl; [|split; [done|]..].
  - apply cmp_eq_iff in E as ->. rewrite IH. naive_solver.
  - intros [= -> ->]. by rewrite cmp_refl in E.
  - intros [= -> ->]. by rewrite cmp_refl in E.
Qed.
Next Obligation.
  intros l1. induction l1 as [|x l1 IH]; intros [|y l2]; simpl; try done.
  rewrite (cmp_antisym x y), IH. by destruct (cmp x y).
Qed.
Next Obligation.
  intros l1. induction l1 as [|x l1 IH]; intros [|y l2] [|z l3]; simpl; try done.
  destruct (cmp x y) eqn:E1; simpl; [apply cmp_eq_iff in E1 as ->| |done].
  - destruct (cmp y z) eqn:E2; simpl; try done. apply IH.
  - destruct (cmp y z) eqn:E2; simpl; [|by rewrite (cmp_lt_trans _ _ _ E1 E2)|done].
    apply cmp_eq_iff in E2 as ->. by rewrite E1.
Qed.

End OrdInstances.

(** ** Lemmas on [sort_by] *)

Section SortByLemmas.
Context {A K : Type} `{Ord K} (key : A -> K).
Let c (x y : A) : comparison := cmp (key x) (key y).
Let le (x y : A) : Prop := cmp_le (key x) (key y) = true.

Lemma sort_insert_perm x l : sort_insert c x l ≡ₚ x :: l.
Proof.
  induction l as [|y l IH]; simpl; [done|].
  destruct (c x y); try done. rewrite IH. by constructor.
Qed.

Lemma sort_by_perm l : sort_by c l ≡ₚ l.
Proof. induction l as [|x l IH]; simpl; [done|]. by rewrite sort_insert_perm, IH. Qed.

Lemma sort_insert_sorted x l : StronglySorted le l -> StronglySorted le (sort_insert c x l).
Proof.
  induction 1 as [|y l Hl IH Hy]; simpl; [by repeat constructor|].
  destruct (c x y) eqn:E; simpl.
  1,2: assert (le x y) as Hxy by (unfold le, cmp_le; unfold c in E; by rewrite E);
    constructor; [by constructor|]; constructor; [done|];
    eapply Forall_impl; [exact Hy|]; intros z Hz; by eapply cmp_le_trans.
  constructor; [done|]. rewrite sort_insert_perm. constructor; [|done].
  unfold le, cmp_le. unfold c in E. apply cmp_gt_lt in E. by rewrite E.
Qed.

Lemma sort_by_sorted l : StronglySorted le (sort_by c l).
Proof. induction l as [|x l IH]; simpl; [constructor|]. by apply sort_insert_sorted. Qed.

(** The result of sorting depends on the multiset of elements only, when the
    key identifies an element. *)
Lemma sort_by_unique l1 l2 :
  l1 ≡ₚ l2 -> (forall x y, x ∈ l1 -> y ∈ l1 -> key x = key y -> x = y) ->
  sort_by c l1 = sort_by c l2.
Proof.
  intros Hp Hinj. apply (StronglySorted_unique_strong le); try apply sort_by_sorted.
  - intros x y Hx Hy Hxy Hyx. apply Hinj.
    + by rewrite <-(sort_by_perm l1).
    + by rewrite Hp, <-(sort_by_perm l2).
    + by apply cmp_le_antisymm.
  - by rewrite !sort_by_perm.
Qed.

(** Stability: elements with the same key keep their relative order. *)
Lemma sort_insert_filter (k : K) x l :
  StronglySorted le l ->
  List.filter (fun y => match cmp (key y) k with Eq => true | _ => false end) (sort_insert c x l)
  = List.filter (fun y => match cmp (key y) k with Eq => true | _ => false end) (x :: l).
Proof.
  induction l as [|y l IH]; intros Hs; [done|]. inversion Hs as [|?? Hl Hy]; subst.
  simpl sort_insert. destruct (c x y) eqn:E; [done..|].
  cbn [List.filter]. rewrite IH by done. cbn [List.filter].
  destruct (cmp (key x) k) eqn:Ex; try done. destruct (cmp (key y) k) eqn:Ey; try done.
  apply cmp_eq_iff in Ex, Ey. unfold c in E. by rewrite Ex, Ey, cmp_refl in E.
Qed.

Lemma sort_by_stable (k : K) l :
  List.filter (fun y => match cmp (key y) k with Eq => true | _ => false end) (sort_by c l)
  = List.filter (fun y => match cmp (key y) k with Eq => true | _ => false end) l.
Proof.
  induction l as [|x l IH]; [done|]. simpl sort_by.
  rewrite sort_insert_filter by apply sort_by_sorted. simpl. by rewrite IH.
Qed.

End SortByLemmas.

(** ** Lemmas on [BTreeMap] *)

Section BTreeMapLemmas.
Context {K V : Type} `{Ord K}.
Implicit Types (m : BTreeMap K V) (k : K).

Lemma bt_sorted_nil : bt_sorted ([] : BTreeMap K V).
Proof. constructor. Qed.

Lemma bt_get_None_lt k m :
  Forall (fun q => cmp k q.1 = Lt) m -> bt_get k m = None.
Proof. destruct m as [|[k' v] m]; simpl; [done|]. intros [E ?]%Forall_cons. simpl in E. by rewrite E. Qed.

Lemma bt_upsert_Forall (P : K -> Prop) k f m :
  P k -> Forall (fun q => P q.1) m -> Forall (fun q => P q.1) (bt_upsert k f m).
Proof.
  intros Hk. induction 1 as [|[k' v] m Hk' Hm IH]; simpl; [by repeat constructor|].
  destruct (cmp k k'); repeat constructor; done.
Qed.

Lemma bt_upsert_sorted k f m : bt_sorted m -> bt_sorted (bt_upsert k f m).
Proof.
  induction 1 as [|[k' v] m Hm IH Hk']; simpl; [by repeat constructor|].
  destruct (cmp k k') eqn:E.
  - by constructor.
  - constructor; [by constructor|]. constructor; [done|].
    eapply Forall_impl; [exact Hk'|]. intros [k2 v2]. by apply cmp_lt_trans.
  - constructor; [done|]. apply cmp_gt_lt in E.
    apply (bt_upsert_Forall (fun q => cmp k' q = Lt)); done.
Qed.

Lemma bt_get_upsert_eq k f m :
  bt_sorted m -> bt_get k (bt_upsert k f m) = Some (f (bt_get k m)).
Proof.
  induction 1 as [|[k' v] m Hm IH Hk']; simpl; [by rewrite cmp_refl|].
  destruct (cmp k k') eqn:E; simpl; [by rewrite E|by rewrite cmp_refl|].
  by rewrite E.
Qed.

Lemma bt_get_upsert_ne k k' f m :
  k' <> k -> bt_sorted m -> bt_get k' (bt_upsert k f m) = bt_get k' m.
Proof.
  intros Hne. induction 1 as [|[k2 v] m Hm IH Hk2]; simpl.
  - destruct (cmp k' k) eqn:E; [|done..]. by apply cmp_eq_iff in E.
  - destruct (cmp k k2) eqn:E; simpl.
    + apply cmp_eq_iff in E as ->. destruct (cmp k' k2) eqn:E1; [|done..].
      by apply cmp_eq_iff in E1.
    + destruct (cmp k' k) eqn:E1; [by apply cmp_eq_iff in E1| |done].
      by rewrite (cmp_lt_trans _ _ _ E1 E).
    + by rewrite IH.
Qed.

Lemma bt_get_lookup k v m : bt_sorted m -> bt_get k m = Some v <-> (k, v) ∈ m.
Proof.
  induction 1 as [|[k' v'] m Hm IH Hk']; simpl; [by rewrite elem_of_nil|].
  rewrite elem_of_cons.
  assert ((k, v) ∈ m -> cmp k' k = Lt) as Hin.
  { intros Hin. rewrite Forall_forall in Hk'. by apply (Hk' (k, v)). }
  destruct (cmp k k') eqn:E.
  - apply cmp_eq_iff in E as ->. split; [naive_solver|].
    intros [|Hc%Hin]; [naive_solver|]. by rewrite cmp_refl in Hc.
  - split; [done|]. intros [[= -> ->]|Hc%Hin]; [by rewrite cmp_refl in E|].
    apply cmp_gt_lt in Hc. congruence.
  - rewrite IH. split; [naive_solver|].
    intros [[= -> ->]|?]; [by rewrite cmp_refl in E|done].
Qed.

Lemma bt_sorted_NoDup_keys m : bt_sorted m -> NoDup (m.*1).
Proof.
  induction 1 as [|[k v] m Hm IH Hk]; simpl; constructor; [|done].
  intros ([k2 v2] & -> & Hin)%list_elem_of_fmap. rewrite Forall_forall in Hk.
  specialize (Hk _ Hin). unfold key_lt in Hk. simpl in Hk. by rewrite cmp_refl in Hk.
Qed.

(** Maps are determined by their lookups. *)
Lemma bt_ext m1 m2 :
  bt_sorted m1 -> bt_sorted m2 -> (forall k, bt_get k m1 = bt_get k m2) -> m1 = m2.
Proof.
  intros H1 H2 Hext. apply (StronglySorted_unique_strong key_lt); [|done..|].
  - intros x y _ _ Hxy Hyx. unfold key_lt in *. apply cmp_gt_lt in Hxy. congruence.
  - apply NoDup_Permutation; [eapply NoDup_fmap_1, bt_sorted_NoDup_keys; done..|].
    intros [k v]. by rewrite <-!bt_get_lookup, Hext.
Qed.

End BTreeMapLemmas.

Lemma bt_push_sorted {K V} `{Ord K} k (x : V) (m : BTreeMap K (list V)) :
  bt_sorted m -> bt_sorted (bt_push k x m).
Proof. apply bt_upsert_sorted. Qed.

(** ** Grouping: repeated [entry(k).or_default().push(x)] *)

Section Grouping.
Context {K V : Type} `{Ord K}.
Implicit Types (pairs : list (K * V)) (k : K).

Definition bt_group pairs : BTreeMap K (list V) :=
  foldl (fun m p => bt_push p.1 p.2 m) [] pairs.
Definition group_of k pairs : list V :=
  omap (fun p => match cmp k p.1 with Eq => Some p.2 | _ => None end) pairs.

Lemma bt_group_snoc pairs p : bt_group (pairs ++ [p]) = bt_push p.1 p.2 (bt_group pairs).
Proof. unfold bt_group. by rewrite foldl_app. Qed.

Lemma bt_group_sorted pairs : bt_sorted (bt_group pairs).
Proof.
  induction pairs as [|p pairs IH] using rev_ind; [constructor|].
  rewrite bt_group_snoc. by apply bt_push_sorted.
Qed.

Lemma bt_get_group k pairs :
  bt_get k (bt_group pairs) = match group_of k pairs with [] => None | l => Some l end.
Proof.
  induction pairs as [|[k' v] pairs IH] using rev_ind; [done|].
  rewrite bt_group_snoc. unfold group_of, bt_push in *. rewrite omap_app. simpl.
  destruct (cmp k k') eqn:E; simpl.
  - apply cmp_eq_iff in E as ->. rewrite bt_get_upsert_eq by apply bt_group_sorted. rewrite IH.
    by destruct (omap _ pairs).
  - rewrite app_nil_r, bt_get_upsert_ne; [done| |apply bt_group_sorted].
    intros ->. by rewrite cmp_refl in E.
  - rewrite app_nil_r, bt_get_upsert_ne; [done| |apply bt_group_sorted].
    intros ->. by rewrite cmp_refl in E.
Qed.

Lemma elem_of_group k v pairs : v ∈ group_of k pairs <-> (k, v) ∈ pairs.
Proof.
  unfold group_of. rewrite list_elem_of_omap. split.
  - intros ([k' v'] & Hin & Hv). simpl in Hv. destruct (cmp k k') eqn:E; try done.
    apply cmp_eq_iff in E as ->. by injection Hv as ->.
  - intros Hin. exists (k, v). simpl. by rewrite cmp_refl.
Qed.

Lemma group_of_NoDup {B} (f : V -> B) k pairs :
  NoDup (f <$> pairs.*2) -> NoDup (f <$> group_of k pairs).
Proof.
  induction pairs as [|[k' v] pairs IH]; [done|]. rewrite !fmap_cons, NoDup_cons. intros [Hn Hnd].
  unfold group_of. simpl. destruct (cmp k k'); [|by apply IH..]. rewrite fmap_cons, NoDup_cons.
  split; [|by apply IH]. intros (v' & Hv & Hin%elem_of_group)%list_elem_of_fmap.
  apply Hn, list_elem_of_fmap. exists v'. split; [done|]. apply list_elem_of_fmap. by exists (k, v').
Qed.

Lemma bt_group_lookup k l pairs :
  (k, l) ∈ bt_group pairs <-> l = group_of k pairs /\ l <> [].
Proof.
  rewrite <-bt_get_lookup by apply bt_group_sorted. rewrite bt_get_group.
  destruct (group_of k pairs); naive_solver.
Qed.
End Grouping.

(** Maps with related lookups are related entry by entry. *)
Lemma bt_Forall2 {K V W} `{Ord K} (R : V -> W -> Prop) (m1 : BTreeMap K V) (m2 : BTreeMap K W) :
  bt_sorted m1 -> bt_sorted m2 ->
  (forall k, option_Forall2 R (bt_get k m1) (bt_get k m2)) ->
  Forall2 (fun p q => p.1 = q.1 /\ R p.2 q.2) m1 m2.
Proof.
  intros H1. revert m2. induction H1 as [|[k v] m1 Hm1 IH Hk1]; intros m2 H2 HR.
  - destruct m2 as [|[k w] m2]; [done|]. specialize (HR k). simpl in HR.
    rewrite cmp_refl in HR. inversion HR.
  - destruct H2 as [|[k' w] m2 Hm2 Hk2].
    { specialize (HR k). simpl in HR. rewrite cmp_refl in HR. inversion HR. }
    assert (k = k') as <-.
    { destruct (cmp k k') eqn:E; [by apply cmp_eq_iff| |].
      - specialize (HR k). simpl in HR. rewrite cmp_refl, E in HR. inversion HR.
      - apply cmp_gt_lt in E. specialize (HR k'). simpl in HR. rewrite cmp_refl, E in HR. inversion HR. }
    constructor; [split; [done|]|apply IH; [done|]].
    + specialize (HR k). simpl in HR. rewrite cmp_refl in HR. by inversion HR.
    + intros k2. specialize (HR k2). simpl in HR. destruct (cmp k2 k) eqn:E; [| |done].
      * apply cmp_eq_iff in E as ->. rewrite !bt_get_None_lt; [constructor|done..].
      * rewrite !bt_get_None_lt; [constructor| |];
          (eapply Forall_impl; [eassumption|]); intros q Hq; by eapply cmp_lt_trans.
Qed.

Lemma bt_group_perm {K V} `{Ord K} (p1 p2 : list (K * V)) :
  p1 ≡ₚ p2 ->
  Forall2 (fun g h => g.1 = h.1 /\ g.2 ≡ₚ h.2) (bt_group p1) (bt_group p2).
Proof.
  intros Hp. apply bt_Forall2; [apply bt_group_sorted..|]. intros k. rewrite !bt_get_group.
  assert (group_of k p1 ≡ₚ group_of k p2) as Hg by (unfold group_of; by rewrite Hp).
  destruct (group_of k p1) as [|x l]; [apply Permutation_nil_l in Hg as <-; constructor|].
  destruct (group_of k p2); [by apply Permutation_nil_r in Hg|]. by constructor.
Qed.

(** ** Lemmas on strings *)

Lemma str_of_bytes_inv l : str_bytes (str_of_bytes l) = l.
Proof. apply list_ascii_of_string_of_list_ascii. Qed.
Lemma str_bytes_inv s : str_of_bytes (str_bytes s) = s.
Proof. apply string_of_list_ascii_of_string. Qed.
Lemma str_bytes_inj s1 s2 : str_bytes s1 = str_bytes s2 -> s1 = s2.
Proof. intros E%(f_equal str_of_bytes). by rewrite !str_bytes_inv in E. Qed.
Lemma str_bytes_app s1 s2 : str_bytes (s1 +:+ s2) = str_bytes s1 ++ str_bytes s2.
Proof. induction s1 as [|a s1 IH]; simpl; [done|]. unfold str_bytes in *. by rewrite IH. Qed.

Lemma is_empty_spec s : is_empty s = true <-> s = "".
Proof. by destruct s. Qed.

Lemma strip_prefix_Some p s t : strip_prefix p s = Some t <-> s = p +:+ t.
Proof.
  revert s. induction p as [|a p IH]; intros s; simpl.
  - change ("" +:+ t)%string with t. naive_solver.
  - change (String a p +:+ t)%string with (String a (p +:+ t)).
    destruct s as [|b s]; [naive_solver|].
    destruct (Ascii.eqb_spec a b) as [->|Hne]; [rewrite IH|]; naive_solver.
Qed.

Lemma split_char_nonempty c s : split_char c s <> [].
Proof. destruct s as [|a s]; simpl; [done|]. destruct (Ascii.eqb a c); [done|]. by destruct (split_char c s). Qed.

(** Graphic ASCII bytes are neither white space nor part of it. *)
Lemma graphic_not_space b :
  byte_in 33 126 b = true ->
  ws1 b = false /\ (forall c, ws2 b c = false) /\ (forall c, ws2 c b = false) /\
  (forall c d, ws3 b c d = false) /\ (forall c d, ws3 c d b = false).
Proof.
  unfold byte_in. intros Hb%in_range_spec. unfold ws1, ws2, ws3, byte_in. split_and!; intros.
  - rewrite orb_false_iff, !in_range_false. lia.
  - assert ((byte_val b =? 194)%Z = false) as -> by lia. done.
  - assert ((byte_val b =? 133)%Z = false) as -> by lia. assert ((byte_val b =? 160)%Z = false) as -> by lia.
    by rewrite andb_false_r.
  - assert ((byte_val b =? 225)%Z = false) as -> by lia. assert ((byte_val b =? 226)%Z = false) as -> by lia.
    assert ((byte_val b =? 227)%Z = false) as -> by lia. done.
  - assert (in_range 128 138 (byte_val b) = false) as -> by (apply in_range_false; lia).
    repeat match goal with |- context [(byte_val b =? ?k)%Z] =>
      assert ((byte_val b =? k)%Z = false) as -> by lia end.
    by rewrite !andb_false_r.
Qed.

Lemma trim_start_graphic b l : byte_in 33 126 b = true -> trim_start_bytes (b :: l) = b :: l.
Proof.
  intros (H1 & H2 & _ & H3 & _)%graphic_not_space. simpl. rewrite H1.
  destruct l as [|c [|d l]]; [done|by rewrite H2|by rewrite H2, H3].
Qed.

Lemma trim_end_graphic b l : byte_in 33 126 b = true -> trim_end_rev (b :: l) = b :: l.
Proof.
  intros (H1 & _ & H2 & _ & H3)%graphic_not_space. simpl. rewrite H1.
  destruct l as [|c [|d l]]; [done|by rewrite H2|by rewrite H2, H3].
Qed.

Lemma trim_graphic s :
  Forall (fun b => byte_in 33 126 b = true) (str_bytes s) -> trim s = s.
Proof.
  intros Hs. unfold trim. assert (trim_start_bytes (str_bytes s) = str_bytes s) as ->.
  { destruct (str_bytes s) as [|b l]; [done|]. apply Forall_cons in Hs as [Hb _].
    by apply trim_start_graphic. }
  assert (trim_end_rev (reverse (str_bytes s)) = reverse (str_bytes s)) as ->.
  { apply Forall_reverse in Hs. destruct (reverse (str_bytes s)) as [|b l]; [done|].
    apply Forall_cons in Hs as [Hb _]. by apply trim_end_graphic. }
  by rewrite reverse_involutive, str_bytes_inv.
Qed.

Lemma split_char_app c a b : split_char c (a +:+ String c b) = split_char c a ++ split_char c b.
Proof.
  induction a as [|x a IH]; simpl; [by rewrite Ascii.eqb_refl|].
  fold (String.append a (String c b)). rewrite IH. destruct (Ascii.eqb x c); [done|].
  pose proof (split_char_nonempty c a). by destruct (split_char c a).
Qed.

Lemma contains_char_cons c x s : contains_char c (String x s) = Ascii.eqb c x || contains_char c s.
Proof. done. Qed.

Lemma contains_char_app c a b : contains_char c (a +:+ b) = contains_char c a || contains_char c b.
Proof. unfold contains_char. by rewrite str_bytes_app, existsb_app. Qed.

Lemma split_char_free c s : contains_char c s = false -> split_char c s = [s].
Proof.
  induction s as [|x s IH]; [done|]. rewrite contains_char_cons, orb_false_iff, Ascii.eqb_sym.
  intros [Hx Hs]. simpl. by rewrite Hx, IH.
Qed.

(** The text before the first separator is determined. *)
Lemma append_sep_inj c a a' b b' :
  contains_char c a = false -> contains_char c a' = false ->
  a +:+ String c b = a' +:+ String c b' -> a = a' /\ b = b'.
Proof.
  revert a'. induction a as [|x a IH]; intros [|x' a']; rewrite ?contains_char_cons, ?orb_false_iff;
    simpl; intros Ha Ha' Heq.
  - by simplify_eq.
  - destruct Ha' as [Hx _]. apply Ascii.eqb_neq in Hx. by simplify_eq.
  - destruct Ha as [Hx _]. apply Ascii.eqb_neq in Hx. by simplify_eq.
  - simplify_eq. destruct (IH a') as [-> ->]; tauto.
Qed.

(** Decimal numerals hold only digits and a sign. *)
Lemma pretty_N_go_free c x s :
  is_ascii_digit c = false -> contains_char c s = false -> contains_char c (pretty_N_go x s) = false.
Proof.
  intros Hc. revert s. induction (N.lt_wf_0 x) as [x _ IH]; intros s Hs.
  assert (x = 0 \/ 0 < x)%N as [->|?] by lia; [done|]. rewrite pretty_N_go_step by done.
  apply IH; [by apply N.div_lt|]. rewrite contains_char_cons, Hs, orb_false_r. apply Ascii.eqb_neq.
  intros ->. revert Hc. unfold pretty_N_char. by repeat case_match.
Qed.

Lemma pretty_Z_free c (z : Z) :
  is_ascii_digit c = false -> c <> "-"%char -> contains_char c (pretty z) = false.
Proof.
  intros Hc Hd. unfold pretty, pretty_Z. destruct z as [|p|p].
  - unfold contains_char. simpl. rewrite orb_false_r. apply Ascii.eqb_neq. by intros ->.
  - by apply pretty_N_go_free.
  - rewrite contains_char_app. apply orb_false_iff. split; [|by apply pretty_N_go_free].
    unfold contains_char. simpl. rewrite orb_false_r. by apply Ascii.eqb_neq.
Qed.

(** [for x in l { if let Some((k, v)) = f(x)? { groups.entry(k).or_default().push(v); } }] *)
Lemma fold_group_ok_iff {A K V E} `{Ord K} (f : A -> result (option (K * V)) E) l g0 g :
  fold_m (fun groups x =>
      let? o := f x in
      match o with None => Ok groups | Some (k, v) => Ok (bt_push k v groups) end) l g0 = Ok g <->
  Forall (fun x => exists o, f x = Ok o) l /\
  g = foldl (fun m p => bt_push p.1 p.2 m) g0
        (omap (fun x => match f x with Ok o => o | _ => None end) l).
Proof.
  revert g0. induction l as [|x l IH]; intros g0.
  - split; [intros [= <-]; by split|]. by intros [_ ->].
  - rewrite Forall_cons. simpl. destruct (f x) as [[[k v]|]| |] eqn:E1; simpl.
    + rewrite IH. naive_solver.
    + rewrite IH. naive_solver.
    + split; [done|]. intros [[[o Ho] _] _]. done.
    + split; [done|]. intros [[[o Ho] _] _]. done.
Qed.
