(* ===== verification/ContractTypes.v ===== *)
(** * CERBERO v1 wire contracts

    The generated Protobuf bindings of [cerbero.contracts.v1]
    (crates/cerbero-common/src/generated) that the modelled code reads or
    builds, and the Protobuf well-known types they embed.  Messages are
    records with the source's field names behind a short prefix, open enums
    are [Z] (prost keeps them as [i32]) next to the Rust enum type and its
    discriminant. *)

From Stdlib Require Import SpecFloat.
From S2P Require Import Prelude RustStd.

(** ** Protobuf well-known types *)

Record Timestamp := mkTimestamp {
  ts_seconds : Z;   (* i64 *)
  ts_nanos : Z;     (* i32 *)
}.

(** [google.protobuf.Value]; an [f64] is an IEEE 754 datum. *)
Definition f64 : Type := spec_float.

Inductive Value : Type :=
| mkValue (kind : option Kind)
with Kind : Type :=
| NullValue (n : Z)                 (* i32, 0 is the only member of NullValue *)
| NumberValue (x : f64)
| StringValue (s : string)
| BoolValue (b : bool)
| StructValue (s : Struct)
| ListValue (values : list Value)
with Struct : Type :=
| mkStruct (fields : list (string * Value)).   (* BTreeMap<String, Value> *)

Definition value_kind (v : Value) : option Kind := let (k) := v in k.
Definition struct_fields (s : Struct) : BTreeMap string Value := let (f) := s in f.

Record Any := mkAny { any_type_url : string; any_value : list ascii }.

(** ** Enumerations *)

Inductive ExecutionMode : Set :=
| ExecutionMode_Unspecified | ExecutionMode_Live | ExecutionMode_Replay | ExecutionMode_Test.

Definition ExecutionMode_as_i32 (m : ExecutionMode) : Z :=
  match m with
  | ExecutionMode_Unspecified => 0
  | ExecutionMode_Live => 1
  | ExecutionMode_Replay => 2
  | ExecutionMode_Test => 3
  end.

(** [ExecutionMode::try_from], of the [prost] enumeration *)
Definition ExecutionMode_try_from (n : Z) : option ExecutionMode :=
  match n with
  | 0%Z => Some ExecutionMode_Unspecified
  | 1%Z => Some ExecutionMode_Live
  | 2%Z => Some ExecutionMode_Replay
  | 3%Z => Some ExecutionMode_Test
  | _ => None
  end.

Definition ExecutionMode_as_str_name (m : ExecutionMode) : string :=
  match m with
  | ExecutionMode_Unspecified => "EXECUTION_MODE_UNSPECIFIED"
  | ExecutionMode_Live => "EXECUTION_MODE_LIVE"
  | ExecutionMode_Replay => "EXECUTION_MODE_REPLAY"
  | ExecutionMode_Test => "EXECUTION_MODE_TEST"
  end.

Definition ExecutionMode_from_str_name (value : string) : option ExecutionMode :=
  if String.eqb value "EXECUTION_MODE_UNSPECIFIED" then Some ExecutionMode_Unspecified
  else if String.eqb value "EXECUTION_MODE_LIVE" then Some ExecutionMode_Live
  else if String.eqb value "EXECUTION_MODE_REPLAY" then Some ExecutionMode_Replay
  else if String.eqb value "EXECUTION_MODE_TEST" then Some ExecutionMode_Test
  else None.

Inductive SignalRuleType : Set :=
| SignalRuleType_Unspecified | SignalRuleType_Event | SignalRuleType_Threshold
| SignalRuleType_Correlation.

Definition SignalRuleType_as_i32 (t : SignalRuleType) : Z :=
  match t with
  | SignalRuleType_Unspecified => 0
  | SignalRuleType_Event => 1
  | SignalRuleType_Threshold => 2
  | SignalRuleType_Correlation => 3
  end.

Inductive SignalStatus : Set :=
| SignalStatus_Unspecified | SignalStatus_Active | SignalStatus_Suppressed
| SignalStatus_Promoted | SignalStatus_Invalidated.

Definition SignalStatus_as_i32 (s : SignalStatus) : Z :=
  match s with
  | SignalStatus_Unspecified => 0
  | SignalStatus_Active => 1
  | SignalStatus_Suppressed => 2
  | SignalStatus_Promoted => 3
  | SignalStatus_Invalidated => 4
  end.

Inductive SignalInputType : Set :=
| SignalInputType_Unspecified | SignalInputType_NormalizedEvent | SignalInputType_Signal
| SignalInputType_Entity.

Definition SignalInputType_as_i32 (t : SignalInputType) : Z :=
  match t with
  | SignalInputType_Unspecified => 0
  | SignalInputType_NormalizedEvent => 1
  | SignalInputType_Signal => 2
  | SignalInputType_Entity => 3
  end.

Inductive DetectionExecutionBackend : Set :=
| DetectionExecutionBackend_Unspecified | DetectionExecutionBackend_Clickhouse
| DetectionExecutionBackend_Stream.

Definition DetectionExecutionBackend_as_i32 (b : DetectionExecutionBackend) : Z :=
  match b with
  | DetectionExecutionBackend_Unspecified => 0
  | DetectionExecutionBackend_Clickhouse => 1
  | DetectionExecutionBackend_Stream => 2
  end.

Inductive FindingType : Set :=
| FindingType_Unspecified | FindingType_Detection | FindingType_Threshold
| FindingType_Correlation | FindingType_Analytical.

Definition FindingType_as_i32 (t : FindingType) : Z :=
  match t with
  | FindingType_Unspecified => 0
  | FindingType_Detection => 1
  | FindingType_Threshold => 2
  | FindingType_Correlation => 3
  | FindingType_Analytical => 4
  end.

Inductive FindingStatus : Set :=
| FindingStatus_Unspecified | FindingStatus_Open | FindingStatus_Acknowledged
| FindingStatus_Suppressed | FindingStatus_Resolved | FindingStatus_Invalidated.

Definition FindingStatus_as_i32 (s : FindingStatus) : Z :=
  match s with
  | FindingStatus_Unspecified => 0
  | FindingStatus_Open => 1
  | FindingStatus_Acknowledged => 2
  | FindingStatus_Suppressed => 3
  | FindingStatus_Resolved => 4
  | FindingStatus_Invalidated => 5
  end.

Inductive FindingDisposition : Set :=
| FindingDisposition_Unspecified | FindingDisposition_Undetermined
| FindingDisposition_TruePositive | FindingDisposition_BenignTruePositive
| FindingDisposition_FalsePositive | FindingDisposition_Duplicate
| FindingDisposition_TestActivity.

Definition FindingDisposition_as_i32 (d : FindingDisposition) : Z :=
  match d with
  | FindingDisposition_Unspecified => 0
  | FindingDisposition_Undetermined => 1
  | FindingDisposition_TruePositive => 2
  | FindingDisposition_BenignTruePositive => 3
  | FindingDisposition_FalsePositive => 4
  | FindingDisposition_Duplicate => 5
  | FindingDisposition_TestActivity => 6
  end.

(** ** Signals *)

Record SignalProvenance := mkSignalProvenance {
  sp_evaluated_at : option Timestamp;
  sp_execution_backend : Z;           (* i32 *)
}.

Record SignalInput := mkSignalInput {
  si_signal_id : string;
  si_input_type : Z;                  (* i32 *)
  si_input_id : string;
  si_relation : string;
  si_ordinal : Z;                     (* u32 *)
}.

Record Signal := mkSignal {
  sg_signal_id : string;
  sg_tenant_id : string;
  sg_rule_id : string;
  sg_rule_version : string;
  sg_rule_type : Z;                   (* i32 *)
  sg_severity : string;
  sg_confidence : option string;
  sg_status : Z;                      (* i32 *)
  sg_first_observed_at : option Timestamp;
  sg_last_observed_at : option Timestamp;
  sg_created_at : option Timestamp;
  sg_execution_mode : Z;              (* i32 *)
  sg_source_count : Z;                (* u64 *)
  sg_event_count : Z;                 (* u64 *)
  sg_summary : string;
  sg_provenance : option SignalProvenance;
  sg_inputs : list SignalInput;
}.

(** ** Findings *)

Record FindingInput := mkFindingInput {
  fi_finding_id : string;
  fi_input_type : string;
  fi_input_id : string;
  fi_relation : string;
}.

Record FindingCorrelationProvenance := mkFindingCorrelationProvenance {
  fp_correlation_rule_id : string;
  fp_correlation_rule_version : string;
  fp_window_start : option Timestamp;
  fp_window_end : option Timestamp;
  fp_input_ids : list string;
  fp_output_finding_id : string;
  fp_execution_backend : Z;           (* i32 *)
  fp_execution_mode : Z;              (* i32 *)
  fp_configuration_hash : string;
}.

Record Finding := mkFinding {
  fd_finding_id : string;
  fd_tenant_id : string;
  fd_finding_type : Z;                (* i32 *)
  fd_status : Z;                      (* i32 *)
  fd_severity : string;
  fd_confidence : option string;
  fd_title : string;
  fd_description : string;
  fd_first_seen : option Timestamp;
  fd_last_seen : option Timestamp;
  fd_created_at : option Timestamp;
  fd_updated_at : option Timestamp;
  fd_primary_rule_id : option string;
  fd_primary_rule_version : option string;
  fd_correlation_rule_id : option string;
  fd_correlation_rule_version : option string;
  fd_disposition : Z;                 (* i32 *)
  fd_metadata : option Struct;
  fd_execution_mode : Z;              (* i32 *)
  fd_inputs : list FindingInput;
  fd_correlation_provenance : option FindingCorrelationProvenance;
}.

(** ** Events and their transformations *)

Record Producer := mkProducer {
  pd_component : string;
  pd_component_version : string;
  pd_instance_id : string;
}.

Record CerberoEnvelope := mkCerberoEnvelope {
  ce_contract_version : string;
  ce_message_id : string;
  ce_message_type : string;
  ce_tenant_id : string;
  ce_producer : option Producer;
  ce_emitted_at : option Timestamp;
  ce_trace_id : string;
  ce_causation_id : string;
  ce_correlation_id : string;
  ce_payload_schema : string;
  ce_payload : option Any;
}.

Record CerberoError := mkCerberoError {
  er_code : string;
  er_category : Z;                    (* i32 *)
  er_message : string;
  er_retryable : bool;
  er_component : string;
  er_request_id : string;
  er_metadata : gmap string string;
}.

Record NormalizedEvent := mkNormalizedEvent {
  ne_normalized_event_id : string;
  ne_raw_event_id : string;
  ne_tenant_id : string;
  ne_normalized_at : option Timestamp;
  ne_ocsf_version : string;
  ne_class_uid : Z;                   (* u32 *)
  ne_category_uid : Z;                (* u32 *)
  ne_severity : option Z;             (* u32 *)
  ne_activity_id : option Z;          (* u32 *)
  ne_ocsf_event : option Struct;
  ne_parser_id : string;
  ne_parser_version : string;
  ne_normalization_status : Z;        (* i32 *)
  ne_normalized_hash_algorithm : string;
  ne_normalized_hash : string;
  ne_pipeline_version : string;
}.

Record RawEvent := mkRawEvent {
  re_event_id : string;
  re_tenant_id : string;
  re_source_id : string;
  re_sensor_id : string;
  re_event_time : option Timestamp;
  re_ingest_time : option Timestamp;
  re_content_type : string;
  re_encoding : string;
  re_raw_payload : list ascii;
  re_raw_size : Z;                    (* u64 *)
  re_raw_hash_algorithm : string;
  re_raw_hash : string;
  re_transport : string;
  re_remote_identity : string;
  re_sequence_number : option Z;      (* u64 *)
  re_integrity_status : Z;            (* i32 *)
  re_pipeline_version : string;
}.

Record RawEventPersisted := mkRawEventPersisted {
  rp_event_id : string;
  rp_tenant_id : string;
  rp_source_id : string;
  rp_sensor_id : string;
  rp_event_time : option Timestamp;
  rp_ingest_time : option Timestamp;
  rp_content_type : string;
  rp_encoding : string;
  rp_raw_size : Z;                    (* u64 *)
  rp_raw_hash_algorithm : string;
  rp_raw_hash : string;
  rp_transport : string;
  rp_remote_identity : string;
  rp_sequence_number : option Z;      (* u64 *)
  rp_integrity_status : Z;            (* i32 *)
  rp_pipeline_version : string;
  rp_storage_uri : string;
  rp_segment_id : string;
  rp_offset : Z;                      (* u64 *)
  rp_length : Z;                      (* u64 *)
  rp_persisted_at : option Timestamp;
}.

Record Transformation := mkTransformation {
  tr_transformation_id : string;
  tr_input_object_id : string;
  tr_input_object_type : string;
  tr_output_object_id : string;
  tr_output_object_type : string;
  tr_component : string;
  tr_component_version : string;
  tr_configuration_hash : string;
  tr_started_at : option Timestamp;
  tr_completed_at : option Timestamp;
  tr_status : Z;                      (* i32 *)
  tr_error : option CerberoError;
  tr_execution_mode : Z;              (* i32 *)
}.

(** ** Decidable equality ([#[derive(PartialEq, Eq)]]) *)

#[global] Instance Timestamp_eq_dec : EqDecision Timestamp.
Proof. solve_decision. Defined.
#[global] Instance ExecutionMode_eq_dec : EqDecision ExecutionMode.
Proof. solve_decision. Defined.
#[global] Instance SignalProvenance_eq_dec : EqDecision SignalProvenance.
Proof. solve_decision. Defined.
#[global] Instance SignalInput_eq_dec : EqDecision SignalInput.
Proof. solve_decision. Defined.
#[global] Instance Signal_eq_dec : EqDecision Signal.
Proof. solve_decision. Defined.
