(* ===== verification/Validation.v ===== *)
(** * Contract validation helpers

    crates/cerbero-common/src/contracts/validation.rs: identities, timestamps,
    SHA-256 metadata, envelopes, raw events, normalized events and
    transformations.  Every validator comes with the contract it enforces as a
    predicate, and the theorem that it accepts exactly what the contract
    admits. *)

From S2P Require Import Prelude RustStd ContractTypes.

Definition PROTO_TIMESTAMP_MIN_SECONDS : Z := -62135596800.
Definition PROTO_TIMESTAMP_MAX_SECONDS : Z := 253402300799.
Definition PROTO_TIMESTAMP_MAX_NANOS : Z := 999999999.

Record ContractViolation := mkContractViolation {
  cv_field : string;
  cv_reason : string;
}.

Definition violation (field reason : string) : ContractViolation := mkContractViolation field reason.

Definition ContractViolation_display (v : ContractViolation) : string :=
  cv_field v +:+ ": " +:+ cv_reason v.

Abbreviation validated := (result unit ContractViolation).

(** [bytes[i] == c], read only where the index is in range *)
Definition byte_is (bytes : list ascii) (i : nat) (c : ascii) : bool :=
  match bytes !! i with Some b => Ascii.eqb b c | None => false end.

Definition is_hyphen_index (i : nat) : bool :=
  (i =? 8)%nat || (i =? 13)%nat || (i =? 18)%nat || (i =? 23)%nat.

Definition is_rfc_variant (b : ascii) : bool :=
  let b := to_ascii_lowercase b in
  Ascii.eqb b "8" || Ascii.eqb b "9" || Ascii.eqb b "a" || Ascii.eqb b "b".

Definition validate_uuid_v7 (field value : string) : validated :=
  let bytes := str_bytes value in
  reject_if (negb (length bytes =? 36)%nat
             || negb (byte_is bytes 8 "-") || negb (byte_is bytes 13 "-")
             || negb (byte_is bytes 18 "-") || negb (byte_is bytes 23 "-"))
    (violation field "must be a canonical UUID string") ;;?
  iter_m (fun '(i, byte) =>
      if is_hyphen_index i then Ok tt
      else reject_if (negb (is_ascii_hexdigit byte))
             (violation field "contains non-hexadecimal characters"))
    (enumerate bytes) ;;?
  let? b14 := index bytes 14 in
  reject_if (negb (Ascii.eqb b14 "7")) (violation field "must use UUID version 7") ;;?
  let? b19 := index bytes 19 in
  reject_if (negb (is_rfc_variant b19)) (violation field "must use the RFC UUID variant") ;;?
  Ok tt.

Definition validate_timestamp (field : string) (timestamp : Timestamp) : validated :=
  reject_if (negb (in_range PROTO_TIMESTAMP_MIN_SECONDS PROTO_TIMESTAMP_MAX_SECONDS (ts_seconds timestamp)))
    (violation field "seconds are outside the Protobuf Timestamp range") ;;?
  reject_if (negb (in_range 0 PROTO_TIMESTAMP_MAX_NANOS (ts_nanos timestamp)))
    (violation field "nanoseconds must be between 0 and 999999999") ;;?
  Ok tt.

Definition validate_required_timestamp (field : string) (timestamp : option Timestamp) : validated :=
  let? timestamp := ok_or timestamp (violation field "is required") in
  validate_timestamp field timestamp.

(** ** SHA-256

    The [sha2] crate is a parameter: a digest function whose results are 32
    bytes long. *)

Class Sha256 := {
  sha256_digest : list ascii -> list ascii;
  sha256_digest_length bytes : length (sha256_digest bytes) = 32;
}.

Definition hex_digit (n : N) : ascii :=
  if (n <? 10)%N then ascii_of_N (48 + n) else ascii_of_N (87 + n).
(** [write!("{byte:02x}")] *)
Definition hex_byte (b : ascii) : list ascii :=
  [hex_digit (N_of_ascii b / 16); hex_digit (N_of_ascii b mod 16)].

Definition sha256_lower_hex `{Sha256} (bytes : list ascii) : string :=
  str_of_bytes (mjoin (hex_byte <$> sha256_digest bytes)).

Definition is_lower_hex (b : ascii) : bool := is_ascii_digit b || byte_in 97 102 b.

Definition validate_sha256_metadata (algorithm_field hash_field algorithm hash : string) : validated :=
  reject_if (negb (String.eqb algorithm "sha256")) (violation algorithm_field "must equal sha256") ;;?
  reject_if (negb (str_len hash =? 64)%nat || negb (forallb is_lower_hex (str_bytes hash)))
    (violation hash_field "must be a 64-character lowercase hexadecimal SHA-256 digest") ;;?
  Ok tt.

Definition validate_sha256 `{Sha256} (algorithm_field hash_field algorithm hash : string)
    (bytes : list ascii) : validated :=
  validate_sha256_metadata algorithm_field hash_field algorithm hash ;;?
  reject_if (negb (String.eqb (sha256_lower_hex bytes) hash))
    (violation hash_field "does not match the exact raw payload bytes") ;;?
  Ok tt.

(** ** Messages *)

Definition validate_envelope (envelope : CerberoEnvelope) : validated :=
  reject_if (negb (String.eqb (ce_contract_version envelope) "1"))
    (violation "contract_version" "must equal 1 for v1 envelopes") ;;?
  validate_uuid_v7 "message_id" (ce_message_id envelope) ;;?
  reject_if (is_empty (ce_message_type envelope)) (violation "message_type" "is required") ;;?
  let? producer := ok_or (ce_producer envelope) (violation "producer" "is required") in
  reject_if (is_empty (pd_component producer)) (violation "producer.component" "is required") ;;?
  reject_if (is_empty (pd_component_version producer))
    (violation "producer.component_version" "is required") ;;?
  validate_required_timestamp "emitted_at" (ce_emitted_at envelope) ;;?
  reject_if (is_empty (ce_payload_schema envelope)) (violation "payload_schema" "is required") ;;?
  reject_if (match ce_payload envelope with None => true | Some _ => false end)
    (violation "payload" "is required") ;;?
  Ok tt.

Definition validate_raw_event `{Sha256} (event : RawEvent) : validated :=
  validate_uuid_v7 "event_id" (re_event_id event) ;;?
  match re_event_time event with
  | Some event_time => validate_timestamp "event_time" event_time
  | None => Ok tt
  end ;;?
  validate_required_timestamp "ingest_time" (re_ingest_time event) ;;?
  let? payload_len := ok_or (try_from in_u64 (zlen (re_raw_payload event)))
    (violation "raw_size" "payload length does not fit uint64") in
  reject_if (negb (re_raw_size event =? payload_len)%Z)
    (violation "raw_size" "does not match raw_payload byte length") ;;?
  validate_sha256 "raw_hash_algorithm" "raw_hash" (re_raw_hash_algorithm event)
    (re_raw_hash event) (re_raw_payload event).

Definition validate_raw_event_persisted (event : RawEventPersisted) : validated :=
  validate_uuid_v7 "event_id" (rp_event_id event) ;;?
  iter_m (fun '(field, value) => reject_if (is_empty value) (violation field "is required"))
    [("tenant_id", rp_tenant_id event); ("source_id", rp_source_id event);
     ("pipeline_version", rp_pipeline_version event); ("storage_uri", rp_storage_uri event);
     ("segment_id", rp_segment_id event)] ;;?
  match rp_event_time event with
  | Some event_time => validate_timestamp "event_time" event_time
  | None => Ok tt
  end ;;?
  validate_required_timestamp "ingest_time" (rp_ingest_time event) ;;?
  validate_required_timestamp "persisted_at" (rp_persisted_at event) ;;?
  validate_sha256_metadata "raw_hash_algorithm" "raw_hash" (rp_raw_hash_algorithm event)
    (rp_raw_hash event) ;;?
  reject_if (negb (rp_length event =? rp_raw_size event)%Z) (violation "length" "must equal raw_size") ;;?
  Ok tt.

Definition validate_normalized_event (event : NormalizedEvent) : validated :=
  validate_uuid_v7 "normalized_event_id" (ne_normalized_event_id event) ;;?
  validate_uuid_v7 "raw_event_id" (ne_raw_event_id event) ;;?
  validate_required_timestamp "normalized_at" (ne_normalized_at event).

Definition validate_transformation (transformation : Transformation) : validated :=
  validate_uuid_v7 "transformation_id" (tr_transformation_id transformation) ;;?
  validate_required_timestamp "started_at" (tr_started_at transformation) ;;?
  validate_required_timestamp "completed_at" (tr_completed_at transformation) ;;?
  reject_if (tr_status transformation =? 0)%Z (violation "status" "must not be unspecified") ;;?
  reject_if (tr_execution_mode transformation =? 0)%Z
    (violation "execution_mode" "must distinguish LIVE, REPLAY, or TEST") ;;?
  reject_if ((tr_status transformation =? 2)%Z
             && match tr_error transformation with None => true | Some _ => false end)
    (violation "error" "is required when transformation status is FAILED") ;;?
  Ok tt.

(** ** Contracts *)

(** RFC 9562 version 7, canonical hyphenated form. *)
Definition uuid_v7 (value : string) : Prop :=
  let bytes := str_bytes value in
  length bytes = 36 /\
  (forall i c, bytes !! i = Some c ->
     if is_hyphen_index i then c = "-"%char else is_ascii_hexdigit c = true) /\
  bytes !! 14 = Some "7"%char /\
  (exists c, bytes !! 19 = Some c /\ c ∈ str_bytes "89abAB").

Lemma uuid_v7_not_empty value : uuid_v7 value -> value <> "".
Proof. by intros [Hlen _] ->. Qed.

(** The range of [google.protobuf.Timestamp]: years 1 to 9999. *)
Definition timestamp_ok (t : Timestamp) : Prop :=
  (PROTO_TIMESTAMP_MIN_SECONDS <= ts_seconds t <= PROTO_TIMESTAMP_MAX_SECONDS)%Z /\
  (0 <= ts_nanos t <= PROTO_TIMESTAMP_MAX_NANOS)%Z.

Definition some_and {A} (P : A -> Prop) (o : option A) : Prop := exists a, o = Some a /\ P a.
Definition if_some {A} (P : A -> Prop) (o : option A) : Prop := forall a, o = Some a -> P a.

Definition lower_hex_digest (hash : string) : Prop :=
  str_len hash = 64 /\ Forall (fun b => is_lower_hex b = true) (str_bytes hash).

Definition envelope_ok (e : CerberoEnvelope) : Prop :=
  ce_contract_version e = "1" /\ uuid_v7 (ce_message_id e) /\ ce_message_type e <> "" /\
  some_and (fun p => pd_component p <> "" /\ pd_component_version p <> "") (ce_producer e) /\
  some_and timestamp_ok (ce_emitted_at e) /\
  ce_payload_schema e <> "" /\ is_Some (ce_payload e).

Definition raw_event_ok `{Sha256} (e : RawEvent) : Prop :=
  uuid_v7 (re_event_id e) /\ if_some timestamp_ok (re_event_time e) /\
  some_and timestamp_ok (re_ingest_time e) /\
  re_raw_size e = zlen (re_raw_payload e) /\ (zlen (re_raw_payload e) <= u64_max)%Z /\
  re_raw_hash_algorithm e = "sha256" /\
  re_raw_hash e = sha256_lower_hex (re_raw_payload e).

Definition raw_event_persisted_ok (e : RawEventPersisted) : Prop :=
  uuid_v7 (rp_event_id e) /\ rp_tenant_id e <> "" /\ rp_source_id e <> "" /\
  rp_pipeline_version e <> "" /\ rp_storage_uri e <> "" /\ rp_segment_id e <> "" /\
  if_some timestamp_ok (rp_event_time e) /\ some_and timestamp_ok (rp_ingest_time e) /\
  some_and timestamp_ok (rp_persisted_at e) /\
  rp_raw_hash_algorithm e = "sha256" /\ lower_hex_digest (rp_raw_hash e) /\
  rp_length e = rp_raw_size e.

Definition normalized_event_ok (e : NormalizedEvent) : Prop :=
  uuid_v7 (ne_normalized_event_id e) /\ uuid_v7 (ne_raw_event_id e) /\
  some_and timestamp_ok (ne_normalized_at e).

Definition transformation_ok (t : Transformation) : Prop :=
  uuid_v7 (tr_transformation_id t) /\ some_and timestamp_ok (tr_started_at t) /\
  some_and timestamp_ok (tr_completed_at t) /\ tr_status t <> 0%Z /\
  tr_execution_mode t <> 0%Z /\ (tr_status t = 2%Z -> is_Some (tr_error t)).

(** ** The validators accept exactly the contracts *)

Lemma byte_is_true bytes i c : byte_is bytes i c = true <-> bytes !! i = Some c.
Proof.
  unfold byte_is. destruct (bytes !! i) as [b|]; [|naive_solver].
  rewrite Ascii.eqb_eq. naive_solver.
Qed.

Lemma is_rfc_variant_spec c : is_rfc_variant c = bool_decide (c ∈ str_bytes "89abAB").
Proof. destruct c as [[] [] [] [] [] [] [] []]; vm_compute; reflexivity. Qed.

Lemma is_hyphen_index_true i : is_hyphen_index i = true <-> i = 8 \/ i = 13 \/ i = 18 \/ i = 23.
Proof. unfold is_hyphen_index. rewrite !orb_true_iff, !Nat.eqb_eq. lia. Qed.

Lemma uuid_layout_ok_iff bytes :
  negb (length bytes =? 36)%nat || negb (byte_is bytes 8 "-") || negb (byte_is bytes 13 "-")
  || negb (byte_is bytes 18 "-") || negb (byte_is bytes 23 "-") = false <->
  length bytes = 36 /\
  (forall i c, bytes !! i = Some c -> is_hyphen_index i = true -> c = "-"%char).
Proof.
  rewrite !orb_false_iff, !negb_false_iff, !byte_is_true, Nat.eqb_eq. split.
  - intros [[[[Hlen H8] H13] H18] H23]. split; [done|].
    intros i c Hc [-> |[-> |[-> | ->]]]%is_hyphen_index_true; naive_solver.
  - intros [Hlen Hhy].
    assert (forall i, is_hyphen_index i = true -> bytes !! i = Some "-"%char) as Hall.
    { intros i Hi. assert (i < length bytes) as [c Hc]%lookup_lt_is_Some.
      { apply is_hyphen_index_true in Hi. lia. }
      rewrite Hc. f_equal. eauto. }
    rewrite !Hall by done. done.
Qed.

Lemma validate_uuid_v7_ok_iff field value : validate_uuid_v7 field value = Ok tt <-> uuid_v7 value.
Proof.
  unfold validate_uuid_v7, uuid_v7. set (bytes := str_bytes value).
  rewrite bind_unit_ok_iff, reject_if_ok_iff, uuid_layout_ok_iff, bind_unit_ok_iff, iter_m_ok_iff,
    Forall_enumerate, bind_ok_iff. setoid_rewrite index_ok_iff.
  setoid_rewrite bind_unit_ok_iff. setoid_rewrite reject_if_ok_iff.
  setoid_rewrite bind_ok_iff. setoid_rewrite index_ok_iff. setoid_rewrite bind_unit_ok_iff.
  setoid_rewrite reject_if_ok_iff. setoid_rewrite negb_false_iff.
  setoid_rewrite Ascii.eqb_eq. setoid_rewrite is_rfc_variant_spec.
  setoid_rewrite bool_decide_eq_true. split.
  - intros ([Hlen Hhy] & Hhex & ? & ? & -> & c & ? & ? & _). split_and!; [done| |done|eauto].
    intros i b Hb. specialize (Hhy i b Hb). specialize (Hhex i b Hb). simpl in Hhex.
    destruct (is_hyphen_index i); [by apply Hhy|].
    by apply reject_if_ok_iff, negb_false_iff in Hhex.
  - intros (Hlen & Hall & H14 & c & Hc & Hv). split_and!; [done| | |].
    + intros i b Hb Hi. specialize (Hall i b Hb). by rewrite Hi in Hall.
    + intros i b Hb. specialize (Hall i b Hb). simpl. destruct (is_hyphen_index i); [done|].
      by apply reject_if_ok_iff, negb_false_iff.
    + eexists. split_and!; eauto.
Qed.

Lemma validate_uuid_v7_no_panic field value : no_panic (validate_uuid_v7 field value).
Proof.
  unfold validate_uuid_v7. apply no_panic_bind; [auto with nopanic|].
  intros [] [Hlen _]%reject_if_ok_iff%uuid_layout_ok_iff.
  apply no_panic_bind; [apply iter_m_no_panic; intros [i b] _; no_panic|]. intros _ _.
  apply no_panic_bind; [apply no_panic_index; lia|]. intros b14 _.
  apply no_panic_bind; [auto with nopanic|]. intros _ _.
  apply no_panic_bind; [apply no_panic_index; lia|]. intros b19 _. no_panic.
Qed.

Lemma validate_timestamp_ok_iff field t : validate_timestamp field t = Ok tt <-> timestamp_ok t.
Proof.
  unfold validate_timestamp, timestamp_ok.
  rewrite !bind_unit_ok_iff, !reject_if_ok_iff, !negb_false_iff, !in_range_spec. naive_solver.
Qed.

Lemma validate_timestamp_no_panic field t : no_panic (validate_timestamp field t).
Proof. unfold validate_timestamp. no_panic. Qed.

(** [let a = o.ok_or(e)?; k(a)] *)
Lemma required_ok_iff {A B E} (o : option A) (e : E) (k : A -> result B E) b :
  bind (ok_or o e) k = Ok b <-> some_and (fun a => k a = Ok b) o.
Proof. unfold some_and. rewrite bind_ok_iff. by setoid_rewrite ok_or_ok_iff. Qed.

#[export] Instance some_and_proper {A} :
  Proper (pointwise_relation A iff ==> (=) ==> iff) some_and.
Proof. intros P Q HPQ o _ <-. unfold some_and. by setoid_rewrite HPQ. Qed.

Lemma validate_required_timestamp_ok_iff field t :
  validate_required_timestamp field t = Ok tt <-> some_and timestamp_ok t.
Proof.
  unfold validate_required_timestamp. rewrite required_ok_iff.
  f_equiv. intros a. apply validate_timestamp_ok_iff.
Qed.

Lemma validate_optional_timestamp_ok_iff field t :
  match t with Some t => validate_timestamp field t | None => Ok tt end = Ok tt
  <-> if_some timestamp_ok t.
Proof.
  unfold if_some. destruct t; [|naive_solver]. rewrite validate_timestamp_ok_iff. naive_solver.
Qed.

Lemma not_empty_iff s : is_empty s = false <-> s <> "".
Proof. destruct s; naive_solver. Qed.

Lemma ok_tt_iff : @Ok unit ContractViolation tt = Ok tt <-> True.
Proof. done. Qed.

#[export] Hint Rewrite validate_uuid_v7_ok_iff validate_timestamp_ok_iff
  validate_required_timestamp_ok_iff validate_optional_timestamp_ok_iff not_empty_iff
  ok_tt_iff negb_false_iff String.eqb_eq Z.eqb_eq Nat.eqb_eq : ok_iff.
#[export] Hint Resolve validate_uuid_v7_no_panic validate_timestamp_no_panic : nopanic.

(** [= Ok tt] of straight-line validators as a conjunction *)
Ltac ok_iff := autorewrite with ok_iff.

Lemma validate_sha256_metadata_ok_iff af hf algorithm hash :
  validate_sha256_metadata af hf algorithm hash = Ok tt <->
  algorithm = "sha256" /\ lower_hex_digest hash.
Proof.
  unfold validate_sha256_metadata, lower_hex_digest. ok_iff.
  rewrite orb_false_iff, !negb_false_iff, Nat.eqb_eq, forallb_true_iff. tauto.
Qed.

Lemma hex_digit_lower n : (n < 16)%N -> is_lower_hex (hex_digit n) = true.
Proof.
  intros Hn. destruct n as [|p]; [done|].
  do 4 (try destruct p as [p|p|]); try reflexivity; lia.
Qed.

Lemma sha256_lower_hex_digest `{Sha256} bytes : lower_hex_digest (sha256_lower_hex bytes).
Proof.
  unfold lower_hex_digest, sha256_lower_hex, str_len. rewrite str_of_bytes_inv. split.
  - rewrite length_join. rewrite <-list_fmap_compose.
    replace (length ∘ hex_byte <$> sha256_digest bytes) with (replicate 32 2); [done|].
    rewrite <-(sha256_digest_length bytes). induction (sha256_digest bytes); simpl; [done|by f_equal].
  - apply Forall_forall. intros b (l & Hb & (c & -> & _)%list_elem_of_fmap)%list_elem_of_join.
    pose proof (N_ascii_bounded c).
    apply elem_of_cons in Hb as [-> | ->%list_elem_of_singleton]; apply hex_digit_lower.
    + apply N.Div0.div_lt_upper_bound. lia.
    + by apply N.mod_lt.
Qed.

Lemma validate_sha256_ok_iff `{Sha256} af hf algorithm hash bytes :
  validate_sha256 af hf algorithm hash bytes = Ok tt <->
  algorithm = "sha256" /\ hash = sha256_lower_hex bytes.
Proof.
  unfold validate_sha256. ok_iff. rewrite validate_sha256_metadata_ok_iff.
  split; [naive_solver|]. intros [-> ->]. naive_solver eauto using sha256_lower_hex_digest.
Qed.

Lemma validate_envelope_ok_iff e : validate_envelope e = Ok tt <-> envelope_ok e.
Proof.
  unfold validate_envelope, envelope_ok, some_and. ok_iff. rewrite bind_ok_iff.
  repeat setoid_rewrite bind_unit_ok_iff. setoid_rewrite ok_or_ok_iff.
  repeat setoid_rewrite reject_if_ok_iff. setoid_rewrite not_empty_iff.
  setoid_rewrite validate_required_timestamp_ok_iff. unfold some_and.
  destruct (ce_payload e); unfold is_Some; naive_solver.
Qed.

Lemma validate_raw_event_ok_iff `{Sha256} e : validate_raw_event e = Ok tt <-> raw_event_ok e.
Proof.
  unfold validate_raw_event, raw_event_ok. ok_iff. rewrite bind_ok_iff.
  setoid_rewrite ok_or_ok_iff. setoid_rewrite bind_unit_ok_iff.
  setoid_rewrite reject_if_ok_iff. setoid_rewrite negb_false_iff. setoid_rewrite Z.eqb_eq.
  setoid_rewrite validate_sha256_ok_iff. setoid_rewrite try_from_some.
  unfold in_u64. setoid_rewrite in_range_spec. unfold zlen. split; [naive_solver|].
  intros (?&?&?&?&?&?&?). split_and!; [done..|]. eexists. split_and!; try done. lia.
Qed.

Lemma validate_raw_event_persisted_ok_iff e :
  validate_raw_event_persisted e = Ok tt <-> raw_event_persisted_ok e.
Proof.
  unfold validate_raw_event_persisted, raw_event_persisted_ok. ok_iff.
  rewrite !Forall_cons, Forall_nil, validate_sha256_metadata_ok_iff. ok_iff. naive_solver.
Qed.

Lemma validate_normalized_event_ok_iff e :
  validate_normalized_event e = Ok tt <-> normalized_event_ok e.
Proof. unfold validate_normalized_event, normalized_event_ok. by ok_iff. Qed.

Lemma validate_transformation_ok_iff t :
  validate_transformation t = Ok tt <-> transformation_ok t.
Proof.
  unfold validate_transformation, transformation_ok. ok_iff.
  rewrite !Z.eqb_neq, andb_false_iff, Z.eqb_neq.
  destruct (tr_error t); unfold is_Some; [naive_solver|].
  destruct (decide (tr_status t = 2%Z)); naive_solver.
Qed.

(** ** Properties *)

(** The identity check accepts exactly the canonical hyphenated RFC 9562
    version 7 UUIDs (any letter case), and its fixed-position byte reads never
    go out of bounds, whatever the input. *)
Theorem validate_uuid_v7_spec (field value : string) :
  (validate_uuid_v7 field value = Ok tt <-> uuid_v7 value) /\ no_panic (validate_uuid_v7 field value).
Proof. split; [apply validate_uuid_v7_ok_iff|apply validate_uuid_v7_no_panic]. Qed.

(** A RawEvent validates exactly when its identity and times are valid, its
    declared size is the payload's length, its algorithm is sha256 and its hash
    is the lowercase hexadecimal digest of the payload; the hash format check
    is subsumed by the digest comparison. *)
Theorem validate_raw_event_spec `{Sha256} (e : RawEvent) :
  validate_raw_event e = Ok tt <-> raw_event_ok e.
Proof. apply validate_raw_event_ok_iff. Qed.

(** The envelope, persisted-event, normalized-event and transformation
    validators accept exactly the messages that meet their lifecycle contract. *)
Theorem lifecycle_validators_spec :
  (forall e, validate_envelope e = Ok tt <-> envelope_ok e) /\
  (forall e, validate_raw_event_persisted e = Ok tt <-> raw_event_persisted_ok e) /\
  (forall e, validate_normalized_event e = Ok tt <-> normalized_event_ok e) /\
  (forall t, validate_transformation t = Ok tt <-> transformation_ok t).
Proof.
  split_and!; [apply validate_envelope_ok_iff|apply validate_raw_event_persisted_ok_iff|
    apply validate_normalized_event_ok_iff|apply validate_transformation_ok_iff].
Qed.
