(* ===== verification/SignalContract.v ===== *)
(** * Canonical Signal v1 validation

    crates/cerbero-common/src/contracts/signal_validation.rs, with the Signal
    contract as a predicate. *)

From S2P Require Import Prelude RustStd ContractTypes Validation.

Definition RULE_ID_PREFIX : string := "CER-DET-".
Definition RULE_ID_DIGITS : nat := 6.
Definition SIGNAL_RULE_TYPE_EVENT : Z := 1.
Definition SIGNAL_RULE_TYPE_THRESHOLD : Z := 2.
Definition SIGNAL_RULE_TYPE_CORRELATION : Z := 3.
Definition SIGNAL_INPUT_NORMALIZED_EVENT : Z := 1.

Definition require_text (field value : string) : validated :=
  reject_if (is_empty (trim value)) (violation field "is required") ;;? Ok tt.

(** [suffix.len() == 6 && suffix.bytes().all(is_ascii_digit)] *)
Definition six_digits (suffix : string) : bool :=
  (str_len suffix =? RULE_ID_DIGITS)%nat && forallb is_ascii_digit (str_bytes suffix).

Definition validate_detection_rule_id (value : string) : validated :=
  match strip_prefix RULE_ID_PREFIX value with
  | None => Err (violation "rule_id" "must match CER-DET-XXXXXX with exactly six ASCII digits")
  | Some suffix =>
      reject_if (negb (six_digits suffix))
        (violation "rule_id" "must match CER-DET-XXXXXX with exactly six ASCII digits") ;;?
      Ok tt
  end.

(** [(left.seconds, left.nanos) <= (right.seconds, right.nanos)] *)
Definition timestamp_le (left right : Timestamp) : bool :=
  cmp_le (ts_seconds left, ts_nanos left) (ts_seconds right, ts_nanos right).

Definition validate_signal_input (signal_id : string) (input : SignalInput) (expected_ordinal : nat)
    : validated :=
  reject_if (negb (String.eqb (si_signal_id input) signal_id))
    (violation "inputs.signal_id" "must equal the containing Signal.signal_id") ;;?
  reject_if (negb (matches_range (si_input_type input) 1 3))
    (violation "inputs.input_type" "must be NORMALIZED_EVENT, SIGNAL, or ENTITY") ;;?
  validate_uuid_v7 "inputs.input_id" (si_input_id input) ;;?
  require_text "inputs.relation" (si_relation input) ;;?
  let? expected_ordinal := ok_or (try_from in_u32 (Z.of_nat expected_ordinal))
    (violation "inputs.ordinal" "input list exceeds uint32 ordinal capacity") in
  reject_if (negb (si_ordinal input =? expected_ordinal)%Z)
    (violation "inputs.ordinal" ("must equal zero-based input position " +:+ pretty expected_ordinal)) ;;?
  Ok tt.

Definition validate_signal_identity (signal : Signal) : validated :=
  validate_uuid_v7 "signal_id" (sg_signal_id signal) ;;?
  validate_uuid_v7 "tenant_id" (sg_tenant_id signal) ;;?
  validate_detection_rule_id (sg_rule_id signal) ;;?
  require_text "rule_version" (sg_rule_version signal) ;;?
  reject_if (negb ((sg_rule_type signal =? SIGNAL_RULE_TYPE_EVENT)%Z
                   || (sg_rule_type signal =? SIGNAL_RULE_TYPE_THRESHOLD)%Z
                   || (sg_rule_type signal =? SIGNAL_RULE_TYPE_CORRELATION)%Z))
    (violation "rule_type" "must be EVENT, THRESHOLD, or CORRELATION") ;;?
  require_text "severity" (sg_severity signal) ;;?
  match sg_confidence signal with
  | Some confidence => require_text "confidence" confidence
  | None => Ok tt
  end ;;?
  reject_if (negb (matches_range (sg_status signal) 1 4))
    (violation "status" "must be ACTIVE, SUPPRESSED, PROMOTED, or INVALIDATED") ;;?
  reject_if (negb (matches_range (sg_execution_mode signal) 1 3))
    (violation "execution_mode" "must distinguish LIVE, REPLAY, or TEST") ;;?
  Ok tt.

Definition validate_signal_times (signal : Signal) : validated :=
  match sg_first_observed_at signal, sg_last_observed_at signal with
  | None, None => Ok tt
  | Some first, Some last =>
      validate_timestamp "first_observed_at" first ;;?
      validate_timestamp "last_observed_at" last ;;?
      reject_if (negb (timestamp_le first last))
        (violation "first_observed_at" "must be less than or equal to last_observed_at") ;;?
      Ok tt
  | _, _ =>
      Err (violation "first_observed_at"
             "first_observed_at and last_observed_at must both be present or both be absent")
  end ;;?
  let? created_at := ok_or (sg_created_at signal) (violation "created_at" "is required") in
  validate_timestamp "created_at" created_at.

Definition validate_signal_provenance (signal : Signal) : validated :=
  let? provenance := ok_or (sg_provenance signal) (violation "provenance" "is required") in
  let? evaluated_at := ok_or (sp_evaluated_at provenance)
    (violation "provenance.evaluated_at" "is required") in
  validate_timestamp "provenance.evaluated_at" evaluated_at ;;?
  reject_if (negb (matches_range (sp_execution_backend provenance) 1 2))
    (violation "provenance.execution_backend" "must be CLICKHOUSE or STREAM") ;;?
  Ok tt.

Definition validate_signal_counts (signal : Signal) : validated :=
  reject_if (sg_source_count signal =? 0)%Z (violation "source_count" "must be greater than zero") ;;?
  reject_if (sg_event_count signal =? 0)%Z (violation "event_count" "must be greater than zero") ;;?
  require_text "summary" (sg_summary signal).

(** The number of inputs seen so far that are NORMALIZED_EVENTs *)
Definition count_normalized (n : Z) (p : nat * SignalInput) : Z :=
  if (si_input_type p.2 =? SIGNAL_INPUT_NORMALIZED_EVENT)%Z then n + 1 else n.

Definition input_key (p : nat * SignalInput) : Z * string := (si_input_type p.2, si_input_id p.2).

Definition validate_signal_inputs (signal : Signal) : result Z ContractViolation :=
  reject_if (match sg_inputs signal with [] => true | _ => false end)
    (violation "inputs" "must preserve at least one contributing object") ;;?
  unique_loop
    (fun '(i, input) => validate_signal_input (sg_signal_id signal) input i)
    input_key
    (violation "inputs" "must not contain duplicate input_type/input_id pairs")
    (fun n p => Ok (count_normalized n p))
    (enumerate (sg_inputs signal)) 0%Z.

Definition validate_signal_rule_counts (signal : Signal) (normalized_event_inputs : Z) : validated :=
  let source_check :=
    reject_if (sg_event_count signal <? sg_source_count signal)%Z
      (violation "source_count" "cannot exceed event_count for EVENT or THRESHOLD Signals") ;;?
    Ok tt in
  if (sg_rule_type signal =? SIGNAL_RULE_TYPE_EVENT)%Z then
    reject_if (negb (normalized_event_inputs =? 1)%Z || negb (sg_event_count signal =? 1)%Z)
      (violation "event_count"
         "EVENT Signals require exactly one NORMALIZED_EVENT input and event_count = 1") ;;?
    source_check
  else if (sg_rule_type signal =? SIGNAL_RULE_TYPE_THRESHOLD)%Z then
    reject_if ((normalized_event_inputs =? 0)%Z
               || negb (normalized_event_inputs =? sg_event_count signal)%Z)
      (violation "event_count" "THRESHOLD Signals require one input per contributing NormalizedEvent") ;;?
    source_check
  else if (sg_rule_type signal =? SIGNAL_RULE_TYPE_CORRELATION)%Z then Ok tt
  else Panic "rule_type was validated above".

Definition validate_signal (signal : Signal) : validated :=
  validate_signal_identity signal ;;?
  validate_signal_times signal ;;?
  validate_signal_counts signal ;;?
  validate_signal_provenance signal ;;?
  let? normalized_event_inputs := validate_signal_inputs signal in
  validate_signal_rule_counts signal normalized_event_inputs.

(** ** The Signal contract *)

Definition has_text (value : string) : Prop := trim value <> "".

Definition detection_rule_id (value : string) : Prop :=
  exists suffix, value = RULE_ID_PREFIX +:+ suffix /\ six_digits suffix = true.

(** Observation times come in pairs, in order, in the Timestamp range. *)
Definition interval_ok (first last : option Timestamp) : Prop :=
  match first, last with
  | None, None => True
  | Some first, Some last => timestamp_ok first /\ timestamp_ok last /\ timestamp_le first last = true
  | _, _ => False
  end.

Definition signal_input_ok (signal_id : string) (i : nat) (input : SignalInput) : Prop :=
  si_signal_id input = signal_id /\ (1 <= si_input_type input <= 3)%Z /\
  uuid_v7 (si_input_id input) /\ has_text (si_relation input) /\
  si_ordinal input = Z.of_nat i /\ (Z.of_nat i <= u32_max)%Z.

Definition normalized_inputs (signal : Signal) : list SignalInput :=
  List.filter (fun input => (si_input_type input =? SIGNAL_INPUT_NORMALIZED_EVENT)%Z) (sg_inputs signal).

Definition signal_identity_ok (s : Signal) : Prop :=
  uuid_v7 (sg_signal_id s) /\ uuid_v7 (sg_tenant_id s) /\ detection_rule_id (sg_rule_id s) /\
  has_text (sg_rule_version s) /\ (1 <= sg_rule_type s <= 3)%Z /\ has_text (sg_severity s) /\
  if_some has_text (sg_confidence s) /\ (1 <= sg_status s <= 4)%Z /\
  (1 <= sg_execution_mode s <= 3)%Z.

Definition signal_inputs_ok (s : Signal) : Prop :=
  sg_inputs s <> [] /\
  (forall i input, sg_inputs s !! i = Some input -> signal_input_ok (sg_signal_id s) i input) /\
  NoDup ((fun input => (si_input_type input, si_input_id input)) <$> sg_inputs s).

Definition signal_rule_counts_ok (s : Signal) : Prop :=
  (sg_rule_type s = SIGNAL_RULE_TYPE_EVENT ->
     zlen (normalized_inputs s) = 1%Z /\ sg_event_count s = 1%Z) /\
  (sg_rule_type s = SIGNAL_RULE_TYPE_THRESHOLD -> zlen (normalized_inputs s) = sg_event_count s) /\
  (sg_rule_type s <> SIGNAL_RULE_TYPE_CORRELATION -> (sg_source_count s <= sg_event_count s)%Z).

Definition signal_ok (s : Signal) : Prop :=
  signal_identity_ok s /\
  interval_ok (sg_first_observed_at s) (sg_last_observed_at s) /\
  some_and timestamp_ok (sg_created_at s) /\
  sg_source_count s <> 0%Z /\ sg_event_count s <> 0%Z /\ has_text (sg_summary s) /\
  some_and (fun p => some_and timestamp_ok (sp_evaluated_at p) /\
                     (1 <= sp_execution_backend p <= 2)%Z) (sg_provenance s) /\
  signal_inputs_ok s /\ signal_rule_counts_ok s.

(** ** Lemmas *)

Lemma require_text_ok_iff field value : require_text field value = Ok tt <-> has_text value.
Proof. unfold require_text, has_text. ok_iff. naive_solver. Qed.

Lemma require_optional_text_ok_iff field value :
  match value with Some v => require_text field v | None => Ok tt end = Ok tt <->
  if_some has_text value.
Proof. unfold if_some. destruct value; [rewrite require_text_ok_iff|]; naive_solver. Qed.

Lemma require_text_no_panic field value : no_panic (require_text field value).
Proof. unfold require_text. no_panic. Qed.

Lemma validate_detection_rule_id_ok_iff value :
  validate_detection_rule_id value = Ok tt <-> detection_rule_id value.
Proof.
  unfold validate_detection_rule_id, detection_rule_id. destruct (strip_prefix _ _) as [suffix|] eqn:E.
  - apply strip_prefix_Some in E as ->. ok_iff. split; [naive_solver|].
    intros (suffix' & Heq & ?). apply (inj (String.append _)) in Heq. naive_solver.
  - split; [done|]. intros (suffix & Heq & _). apply strip_prefix_Some in Heq. congruence.
Qed.

Lemma interval_checks_ok_iff ff fl fd fr m first last :
  match first, last with
  | None, None => Ok tt
  | Some first, Some last =>
      validate_timestamp ff first ;;? validate_timestamp fl last ;;?
      reject_if (negb (timestamp_le first last)) (violation fd fr) ;;? Ok tt
  | _, _ => Err (violation fd m)
  end = Ok tt <-> interval_ok first last.
Proof. unfold interval_ok. destruct first, last; ok_iff; naive_solver. Qed.

Lemma matches_range_true x lo hi : matches_range x lo hi = true <-> (lo <= x <= hi)%Z.
Proof. apply in_range_spec. Qed.

#[export] Hint Rewrite require_text_ok_iff require_optional_text_ok_iff
  validate_detection_rule_id_ok_iff interval_checks_ok_iff matches_range_true : ok_iff.
#[export] Hint Resolve require_text_no_panic : nopanic.

Lemma validate_signal_input_ok_iff signal_id input i :
  validate_signal_input signal_id input i = Ok tt <-> signal_input_ok signal_id i input.
Proof.
  unfold validate_signal_input, signal_input_ok. ok_iff. rewrite bind_ok_iff.
  setoid_rewrite ok_or_ok_iff. setoid_rewrite try_from_some. setoid_rewrite bind_unit_ok_iff.
  setoid_rewrite reject_if_ok_iff. setoid_rewrite negb_false_iff. setoid_rewrite Z.eqb_eq.
  unfold in_u32. setoid_rewrite in_range_spec. split; [naive_solver|].
  intros (?&?&?&?&?&?). split_and!; try (done || lia). eexists. split_and!; try done; lia.
Qed.

Lemma validate_signal_identity_ok_iff s : validate_signal_identity s = Ok tt <-> signal_identity_ok s.
Proof.
  unfold validate_signal_identity, signal_identity_ok. ok_iff.
  rewrite !orb_true_iff, !Z.eqb_eq.
  unfold SIGNAL_RULE_TYPE_EVENT, SIGNAL_RULE_TYPE_THRESHOLD, SIGNAL_RULE_TYPE_CORRELATION.
  assert ((sg_rule_type s = 1 \/ sg_rule_type s = 2) \/ sg_rule_type s = 3 <->
          1 <= sg_rule_type s <= 3)%Z as -> by lia. tauto.
Qed.

Lemma count_normalized_spec n (l : list (nat * SignalInput)) :
  foldl count_normalized n l =
  (n + zlen (List.filter (fun p => (si_input_type p.2 =? SIGNAL_INPUT_NORMALIZED_EVENT)%Z) l))%Z.
Proof.
  revert n. induction l as [|p l IH]; intros n; simpl; [unfold zlen; simpl; lia|].
  rewrite IH. unfold count_normalized. destruct (_ =? _)%Z; unfold zlen; simpl; lia.
Qed.

Lemma validate_signal_inputs_ok_iff s n :
  validate_signal_inputs s = Ok n <-> signal_inputs_ok s /\ n = zlen (normalized_inputs s).
Proof.
  unfold validate_signal_inputs, signal_inputs_ok.
  rewrite bind_unit_ok_iff, reject_if_ok_iff, unique_loop_ok_iff, fold_m_pure, ok_inj_iff,
    count_normalized_spec, Forall_enumerate.
  setoid_rewrite validate_signal_input_ok_iff.
  assert (input_key <$> enumerate (sg_inputs s) =
    (fun input => (si_input_type input, si_input_id input)) <$> sg_inputs s) as ->.
  { rewrite <-(enumerate_snd (sg_inputs s)) at 2. by rewrite <-list_fmap_compose. }
  assert (zlen (List.filter (fun p => (si_input_type p.2 =? SIGNAL_INPUT_NORMALIZED_EVENT)%Z)
    (enumerate (sg_inputs s))) = zlen (normalized_inputs s)) as ->.
  { unfold zlen, normalized_inputs.
    rewrite (length_filter_fmap snd (fun i => (si_input_type i =? SIGNAL_INPUT_NORMALIZED_EVENT)%Z)).
    by rewrite enumerate_snd. }
  destruct (sg_inputs s); naive_solver.
Qed.

Lemma validate_signal_rule_counts_ok_iff s :
  (1 <= sg_rule_type s <= 3)%Z -> sg_event_count s <> 0%Z ->
  validate_signal_rule_counts s (zlen (normalized_inputs s)) = Ok tt <-> signal_rule_counts_ok s.
Proof.
  intros Ht Hc. unfold validate_signal_rule_counts, signal_rule_counts_ok,
    SIGNAL_RULE_TYPE_EVENT, SIGNAL_RULE_TYPE_THRESHOLD, SIGNAL_RULE_TYPE_CORRELATION.
  destruct (Z.eqb_spec (sg_rule_type s) 1); [|destruct (Z.eqb_spec (sg_rule_type s) 2);
    [|destruct (Z.eqb_spec (sg_rule_type s) 3); [|lia]]].
  - rewrite !bind_unit_ok_iff, !reject_if_ok_iff, orb_false_iff, !negb_false_iff, !Z.eqb_eq,
      Z.ltb_ge. split; [intuition lia|]. intros (H1 & _ & H3). split_and!; [naive_solver..| |done].
    apply H3. lia.
  - rewrite !bind_unit_ok_iff, !reject_if_ok_iff, orb_false_iff, negb_false_iff, Z.eqb_eq, Z.eqb_neq,
      Z.ltb_ge. split; [intuition lia|]. intros (_ & H2 & H3). rewrite H2 by done.
    split_and!; [done..| |done]. apply H3. lia.
  - split; [intuition lia|done].
Qed.

Lemma validate_signal_times_ok_iff s :
  validate_signal_times s = Ok tt <->
  interval_ok (sg_first_observed_at s) (sg_last_observed_at s) /\
  some_and timestamp_ok (sg_created_at s).
Proof.
  unfold validate_signal_times. rewrite bind_unit_ok_iff, interval_checks_ok_iff, required_ok_iff.
  f_equiv. f_equiv. intros a. apply validate_timestamp_ok_iff.
Qed.

Lemma validate_signal_counts_ok_iff s :
  validate_signal_counts s = Ok tt <->
  sg_source_count s <> 0%Z /\ sg_event_count s <> 0%Z /\ has_text (sg_summary s).
Proof. unfold validate_signal_counts. ok_iff. by rewrite !Z.eqb_neq. Qed.

Lemma validate_signal_provenance_ok_iff s :
  validate_signal_provenance s = Ok tt <->
  some_and (fun p => some_and timestamp_ok (sp_evaluated_at p) /\
                     (1 <= sp_execution_backend p <= 2)%Z) (sg_provenance s).
Proof.
  unfold validate_signal_provenance. rewrite required_ok_iff. f_equiv. intros p.
  rewrite required_ok_iff. unfold some_and. split.
  - intros (t & ? & Ht). autorewrite with ok_iff in Ht. naive_solver.
  - intros ((t & ? & ?) & ?). exists t. ok_iff. naive_solver.
Qed.

Lemma validate_signal_ok_iff s : validate_signal s = Ok tt <-> signal_ok s.
Proof.
  unfold validate_signal, signal_ok. ok_iff.
  rewrite validate_signal_identity_ok_iff, validate_signal_times_ok_iff,
    validate_signal_counts_ok_iff, validate_signal_provenance_ok_iff, bind_ok_iff.
  setoid_rewrite validate_signal_inputs_ok_iff. split.
  - intros (Hid & (? & ?) & (? & ? & ?) & ? & n & (? & ->) & Hr).
    rewrite validate_signal_rule_counts_ok_iff in Hr by (unfold signal_identity_ok in Hid; tauto).
    done.
  - intros (Hid & ? & ? & ? & ? & ? & ? & ? & Hr). split_and!; try done.
    eexists. split; [done|].
    rewrite validate_signal_rule_counts_ok_iff by (unfold signal_identity_ok in Hid; tauto). done.
Qed.

Lemma validate_detection_rule_id_no_panic value : no_panic (validate_detection_rule_id value).
Proof. unfold validate_detection_rule_id. no_panic. Qed.

#[export] Hint Resolve validate_detection_rule_id_no_panic : nopanic.

Lemma validate_signal_no_panic s : no_panic (validate_signal s).
Proof.
  unfold validate_signal. apply no_panic_bind; [unfold validate_signal_identity; no_panic|].
  intros [] Hid%validate_signal_identity_ok_iff.
  apply no_panic_bind; [unfold validate_signal_times; no_panic|]. intros _ _.
  apply no_panic_bind; [unfold validate_signal_counts; no_panic|]. intros _ _.
  apply no_panic_bind; [unfold validate_signal_provenance; no_panic|]. intros _ _.
  apply no_panic_bind.
  - unfold validate_signal_inputs. apply no_panic_bind; [auto with nopanic|]. intros _ _.
    apply unique_loop_no_panic; [|by intros ???].
    intros [i input] _. unfold validate_signal_input. no_panic.
  - intros n _. destruct Hid as (_ & _ & _ & _ & Ht & _). unfold validate_signal_rule_counts.
    destruct (Z.eqb_spec (sg_rule_type s) SIGNAL_RULE_TYPE_EVENT); [no_panic|].
    destruct (Z.eqb_spec (sg_rule_type s) SIGNAL_RULE_TYPE_THRESHOLD); [no_panic|].
    destruct (Z.eqb_spec (sg_rule_type s) SIGNAL_RULE_TYPE_CORRELATION); [no_panic|].
    unfold SIGNAL_RULE_TYPE_EVENT, SIGNAL_RULE_TYPE_THRESHOLD, SIGNAL_RULE_TYPE_CORRELATION in *. lia.
Qed.

(** ** Properties *)

(** C30: the Signal validator accepts exactly the Signals that meet the Signal v1
    contract (identity, paired and ordered observation times, counts,
    provenance, ordinal and unique inputs, and the per-type count rules), and it
    never panics: the branch after the rule type check is unreachable. *)
Theorem validate_signal_spec (s : Signal) :
  (validate_signal s = Ok tt <-> signal_ok s) /\ no_panic (validate_signal s).
Proof. split; [apply validate_signal_ok_iff|apply validate_signal_no_panic]. Qed.
