(* ===== verification/FindingContract.v ===== *)
(** * Canonical Finding v1 validation

    crates/cerbero-common/src/contracts/finding_validation.rs.  Its private
    [violation], [require_text] and [timestamp_le] have the bodies of the
    Signal validator's and are shared with it. *)

From S2P Require Import Prelude RustStd ContractTypes Validation SignalContract.

Definition FINDING_TYPE_DETECTION : Z := 1.
Definition FINDING_TYPE_THRESHOLD : Z := 2.
Definition FINDING_TYPE_CORRELATION : Z := 3.
Definition FINDING_TYPE_ANALYTICAL : Z := 4.

Definition is_none {A} (o : option A) : bool := match o with None => true | Some _ => false end.
Definition is_some {A} (o : option A) : bool := negb (is_none o).

Definition validate_optional_pair (first_field : string) (first : option string)
    (second_field : string) (second : option string) : validated :=
  match first, second with
  | None, None => Ok tt
  | Some first, Some second => require_text first_field first ;;? require_text second_field second
  | _, _ =>
      Err (violation first_field
             (first_field +:+ " and " +:+ second_field +:+ " must both be present or both be absent"))
  end.

Definition validate_seen_pair (finding : Finding) : validated :=
  match fd_first_seen finding, fd_last_seen finding with
  | None, None => Ok tt
  | Some first, Some last =>
      validate_timestamp "first_seen" first ;;?
      validate_timestamp "last_seen" last ;;?
      reject_if (negb (timestamp_le first last))
        (violation "first_seen" "must be less than or equal to last_seen") ;;?
      Ok tt
  | _, _ =>
      Err (violation "first_seen" "first_seen and last_seen must both be present or both be absent")
  end.

Definition validate_required_times (finding : Finding) : validated :=
  let? created_at := ok_or (fd_created_at finding) (violation "created_at" "is required") in
  validate_timestamp "created_at" created_at ;;?
  let? updated_at := ok_or (fd_updated_at finding) (violation "updated_at" "is required") in
  validate_timestamp "updated_at" updated_at.

Definition validate_finding_input (finding_id : string) (input : FindingInput) : validated :=
  reject_if (negb (String.eqb (fi_finding_id input) finding_id))
    (violation "inputs.finding_id" "must equal the containing Finding.finding_id") ;;?
  require_text "inputs.input_type" (fi_input_type input) ;;?
  validate_uuid_v7 "inputs.input_id" (fi_input_id input) ;;?
  require_text "inputs.relation" (fi_relation input).

Definition exact_relation (input : FindingInput) : string * string * string :=
  (fi_input_type input, fi_input_id input, fi_relation input).

Definition validate_inputs (finding : Finding) : result (gset string) ContractViolation :=
  reject_if (match fd_inputs finding with [] => true | _ => false end)
    (violation "inputs" "must preserve at least one contributing object") ;;?
  unique_loop (validate_finding_input (fd_finding_id finding)) exact_relation
    (violation "inputs" "must not contain duplicate input_type/input_id/relation entries")
    (fun input_ids input => Ok ({[fi_input_id input]} ∪ input_ids))
    (fd_inputs finding) ∅.

Definition validate_correlation_provenance (finding : Finding)
    (provenance : FindingCorrelationProvenance) (finding_input_ids : gset string) : validated :=
  let? correlation_rule_id := ok_or (fd_correlation_rule_id finding)
    (violation "correlation_rule_id" "is required for CORRELATION Findings") in
  let? correlation_rule_version := ok_or (fd_correlation_rule_version finding)
    (violation "correlation_rule_version" "is required for CORRELATION Findings") in
  reject_if (negb (String.eqb (fp_correlation_rule_id provenance) correlation_rule_id))
    (violation "correlation_provenance.correlation_rule_id" "must equal Finding.correlation_rule_id") ;;?
  reject_if (negb (String.eqb (fp_correlation_rule_version provenance) correlation_rule_version))
    (violation "correlation_provenance.correlation_rule_version"
       "must equal Finding.correlation_rule_version") ;;?
  let? window_start := ok_or (fp_window_start provenance)
    (violation "correlation_provenance.window_start" "is required") in
  let? window_end := ok_or (fp_window_end provenance)
    (violation "correlation_provenance.window_end" "is required") in
  validate_timestamp "correlation_provenance.window_start" window_start ;;?
  validate_timestamp "correlation_provenance.window_end" window_end ;;?
  reject_if (negb (timestamp_le window_start window_end))
    (violation "correlation_provenance.window_start" "must be less than or equal to window_end") ;;?
  reject_if (match fp_input_ids provenance with [] => true | _ => false end)
    (violation "correlation_provenance.input_ids"
       "must preserve at least one contributing object identity") ;;?
  unique_loop (validate_uuid_v7 "correlation_provenance.input_ids") (fun input_id => input_id)
    (violation "correlation_provenance.input_ids" "must not contain duplicate object identities")
    (fun s input_id =>
       reject_if (negb (bool_decide (input_id ∈ finding_input_ids)))
         (violation "correlation_provenance.input_ids"
            "every correlation input_id must be backed by Finding.inputs") ;;?
       Ok s)
    (fp_input_ids provenance) tt ;;?
  reject_if (negb (String.eqb (fp_output_finding_id provenance) (fd_finding_id finding)))
    (violation "correlation_provenance.output_finding_id" "must equal Finding.finding_id") ;;?
  reject_if (negb (matches_range (fp_execution_backend provenance) 1 2))
    (violation "correlation_provenance.execution_backend" "must be CLICKHOUSE or STREAM") ;;?
  reject_if (negb (fp_execution_mode provenance =? fd_execution_mode finding)%Z)
    (violation "correlation_provenance.execution_mode" "must equal Finding.execution_mode") ;;?
  require_text "correlation_provenance.configuration_hash" (fp_configuration_hash provenance).

Definition validate_type_specific_provenance (finding : Finding) (finding_input_ids : gset string)
    : validated :=
  if (fd_finding_type finding =? FINDING_TYPE_DETECTION)%Z
     || (fd_finding_type finding =? FINDING_TYPE_THRESHOLD)%Z then
    reject_if (is_none (fd_primary_rule_id finding) || is_none (fd_primary_rule_version finding))
      (violation "primary_rule_id"
         "DETECTION and THRESHOLD Findings require primary rule identity/version") ;;?
    reject_if (is_some (fd_correlation_provenance finding))
      (violation "correlation_provenance" "is only valid for CORRELATION Findings") ;;?
    Ok tt
  else if (fd_finding_type finding =? FINDING_TYPE_CORRELATION)%Z then
    let? provenance := ok_or (fd_correlation_provenance finding)
      (violation "correlation_provenance" "is required for CORRELATION Findings") in
    validate_correlation_provenance finding provenance finding_input_ids
  else if (fd_finding_type finding =? FINDING_TYPE_ANALYTICAL)%Z then
    reject_if (is_some (fd_correlation_provenance finding))
      (violation "correlation_provenance" "is only valid for CORRELATION Findings") ;;?
    Ok tt
  else Panic "finding_type was validated above".

Definition validate_finding (finding : Finding) : validated :=
  validate_uuid_v7 "finding_id" (fd_finding_id finding) ;;?
  validate_uuid_v7 "tenant_id" (fd_tenant_id finding) ;;?
  reject_if (negb (matches_range (fd_finding_type finding) 1 4))
    (violation "finding_type" "must be DETECTION, THRESHOLD, CORRELATION, or ANALYTICAL") ;;?
  reject_if (negb (matches_range (fd_status finding) 1 5))
    (violation "status" "must be OPEN, ACKNOWLEDGED, SUPPRESSED, RESOLVED, or INVALIDATED") ;;?
  require_text "severity" (fd_severity finding) ;;?
  match fd_confidence finding with
  | Some confidence => require_text "confidence" confidence
  | None => Ok tt
  end ;;?
  require_text "title" (fd_title finding) ;;?
  require_text "description" (fd_description finding) ;;?
  validate_seen_pair finding ;;?
  validate_required_times finding ;;?
  validate_optional_pair "primary_rule_id" (fd_primary_rule_id finding)
    "primary_rule_version" (fd_primary_rule_version finding) ;;?
  validate_optional_pair "correlation_rule_id" (fd_correlation_rule_id finding)
    "correlation_rule_version" (fd_correlation_rule_version finding) ;;?
  reject_if (negb (matches_range (fd_disposition finding) 1 6))
    (violation "disposition"
       "must be UNDETERMINED, TRUE_POSITIVE, BENIGN_TRUE_POSITIVE, FALSE_POSITIVE, DUPLICATE, or TEST_ACTIVITY") ;;?
  reject_if (negb (matches_range (fd_execution_mode finding) 1 3))
    (violation "execution_mode" "must distinguish LIVE, REPLAY, or TEST") ;;?
  let? finding_input_ids := validate_inputs finding in
  validate_type_specific_provenance finding finding_input_ids.

(** ** The Finding contract *)

Definition text_pair_ok (first second : option string) : Prop :=
  match first, second with
  | None, None => True
  | Some first, Some second => has_text first /\ has_text second
  | _, _ => False
  end.

Definition finding_input_ok (finding_id : string) (input : FindingInput) : Prop :=
  fi_finding_id input = finding_id /\ has_text (fi_input_type input) /\
  uuid_v7 (fi_input_id input) /\ has_text (fi_relation input).

Definition finding_inputs_ok (f : Finding) : Prop :=
  fd_inputs f <> [] /\ Forall (finding_input_ok (fd_finding_id f)) (fd_inputs f) /\
  NoDup (exact_relation <$> fd_inputs f).

(** The correlation record of a Finding agrees with the Finding it is in, and
    every input it names is an input of the Finding. *)
Definition correlation_provenance_ok (f : Finding) (p : FindingCorrelationProvenance) : Prop :=
  fd_correlation_rule_id f = Some (fp_correlation_rule_id p) /\
  fd_correlation_rule_version f = Some (fp_correlation_rule_version p) /\
  (exists ws we, fp_window_start p = Some ws /\ fp_window_end p = Some we /\
     timestamp_ok ws /\ timestamp_ok we /\ timestamp_le ws we = true) /\
  fp_input_ids p <> [] /\ Forall uuid_v7 (fp_input_ids p) /\ NoDup (fp_input_ids p) /\
  fp_input_ids p ⊆ fi_input_id <$> fd_inputs f /\
  fp_output_finding_id p = fd_finding_id f /\ (1 <= fp_execution_backend p <= 2)%Z /\
  fp_execution_mode p = fd_execution_mode f /\ has_text (fp_configuration_hash p).

Definition type_specific_ok (f : Finding) : Prop :=
  (fd_finding_type f = FINDING_TYPE_CORRELATION ->
     some_and (correlation_provenance_ok f) (fd_correlation_provenance f)) /\
  (fd_finding_type f <> FINDING_TYPE_CORRELATION -> fd_correlation_provenance f = None) /\
  (fd_finding_type f = FINDING_TYPE_DETECTION \/ fd_finding_type f = FINDING_TYPE_THRESHOLD ->
     is_Some (fd_primary_rule_id f) /\ is_Some (fd_primary_rule_version f)).

Definition finding_ok (f : Finding) : Prop :=
  uuid_v7 (fd_finding_id f) /\ uuid_v7 (fd_tenant_id f) /\ (1 <= fd_finding_type f <= 4)%Z /\
  (1 <= fd_status f <= 5)%Z /\ has_text (fd_severity f) /\ if_some has_text (fd_confidence f) /\
  has_text (fd_title f) /\ has_text (fd_description f) /\
  interval_ok (fd_first_seen f) (fd_last_seen f) /\
  some_and timestamp_ok (fd_created_at f) /\ some_and timestamp_ok (fd_updated_at f) /\
  text_pair_ok (fd_primary_rule_id f) (fd_primary_rule_version f) /\
  text_pair_ok (fd_correlation_rule_id f) (fd_correlation_rule_version f) /\
  (1 <= fd_disposition f <= 6)%Z /\ (1 <= fd_execution_mode f <= 3)%Z /\
  finding_inputs_ok f /\ type_specific_ok f.

(** ** Lemmas *)

Lemma validate_optional_pair_ok_iff ff first sf second :
  validate_optional_pair ff first sf second = Ok tt <-> text_pair_ok first second.
Proof. unfold validate_optional_pair, text_pair_ok. destruct first, second; ok_iff; naive_solver. Qed.

Lemma validate_finding_input_ok_iff finding_id input :
  validate_finding_input finding_id input = Ok tt <-> finding_input_ok finding_id input.
Proof. unfold validate_finding_input, finding_input_ok. by ok_iff. Qed.

Lemma validate_required_times_ok_iff f :
  validate_required_times f = Ok tt <->
  some_and timestamp_ok (fd_created_at f) /\ some_and timestamp_ok (fd_updated_at f).
Proof.
  unfold validate_required_times. rewrite required_ok_iff. unfold some_and at 1.
  setoid_rewrite bind_unit_ok_iff. setoid_rewrite required_ok_iff.
  setoid_rewrite validate_timestamp_ok_iff. unfold some_and. naive_solver.
Qed.

Lemma fold_input_ids l (s : gset string) :
  foldl (fun input_ids input => {[fi_input_id input]} ∪ input_ids) s l =
  s ∪ list_to_set (fi_input_id <$> l).
Proof. revert s. induction l as [|x l IH]; intros s; simpl; [set_solver|]. rewrite IH. set_solver. Qed.

Lemma validate_inputs_ok_iff f ids :
  validate_inputs f = Ok ids <->
  finding_inputs_ok f /\ ids = list_to_set (fi_input_id <$> fd_inputs f).
Proof.
  unfold validate_inputs, finding_inputs_ok.
  rewrite bind_unit_ok_iff, reject_if_ok_iff, unique_loop_ok_iff, fold_m_pure, ok_inj_iff, fold_input_ids.
  setoid_rewrite validate_finding_input_ok_iff. rewrite (left_id_L ∅ (∪)).
  destruct (fd_inputs f); naive_solver.
Qed.

Lemma fold_backed_ok_iff (ids : gset string) (e : ContractViolation) l :
  fold_m (fun (s : unit) input_id =>
    reject_if (negb (bool_decide (input_id ∈ ids))) e ;;? Ok s) l tt = Ok tt <->
  Forall (fun x => x ∈ ids) l.
Proof.
  induction l as [|x l IH]; simpl; [by rewrite Forall_nil|]. rewrite Forall_cons, <-IH.
  destruct (decide (x ∈ ids)) as [Hx|Hx];
    [rewrite bool_decide_true by done|rewrite bool_decide_false by done]; simpl; naive_solver.
Qed.

Lemma validate_correlation_provenance_ok_iff f p :
  validate_correlation_provenance f p (list_to_set (fi_input_id <$> fd_inputs f)) = Ok tt <->
  correlation_provenance_ok f p.
Proof.
  unfold validate_correlation_provenance, correlation_provenance_ok.
  rewrite required_ok_iff. unfold some_and at 1. setoid_rewrite required_ok_iff.
  unfold some_and at 1. setoid_rewrite bind_unit_ok_iff. setoid_rewrite bind_unit_ok_iff.
  setoid_rewrite required_ok_iff. unfold some_and at 1. setoid_rewrite required_ok_iff.
  unfold some_and. repeat setoid_rewrite reject_if_ok_iff. repeat setoid_rewrite negb_false_iff.
  repeat setoid_rewrite String.eqb_eq. split.
  - intros (rid & ? & rv & ? & ? & ? & ws & ? & we & ? & Hr). autorewrite with ok_iff in Hr.
    rewrite unique_loop_ok_iff, fold_backed_ok_iff in Hr.
    destruct Hr as (? & ? & ? & Hne & (Hu & Hnd & Hin) & ? & ? & ? & ?). subst.
    setoid_rewrite validate_uuid_v7_ok_iff in Hu. rewrite list_fmap_id in Hnd.
    rewrite Forall_forall in Hin. setoid_rewrite elem_of_list_to_set in Hin.
    split_and!; try (done || lia); [naive_solver|]. by destruct (fp_input_ids p).
  - intros (? & ? & (ws & we & ? & ? & ? & ? & ?) & Hne & Hu & Hnd & Hin & ? & ? & ? & ?).
    do 2 (eexists; split; [done|]). do 2 (split; [done|]). do 2 (eexists; split; [done|]).
    ok_iff. rewrite unique_loop_ok_iff, fold_backed_ok_iff, list_fmap_id.
    setoid_rewrite validate_uuid_v7_ok_iff.
    split_and!; try (done || lia); [by destruct (fp_input_ids p)|].
    apply Forall_forall. setoid_rewrite elem_of_list_to_set. intros x Hx. by apply Hin.
Qed.

Lemma is_none_false {A} (o : option A) : is_none o = false <-> is_Some o.
Proof. destruct o; simpl; unfold is_Some; naive_solver. Qed.
Lemma is_some_false {A} (o : option A) : is_some o = false <-> o = None.
Proof. destruct o; simpl; naive_solver. Qed.

Lemma validate_type_specific_ok_iff f :
  (1 <= fd_finding_type f <= 4)%Z ->
  validate_type_specific_provenance f (list_to_set (fi_input_id <$> fd_inputs f)) = Ok tt <->
  type_specific_ok f.
Proof.
  intros Ht. unfold validate_type_specific_provenance, type_specific_ok,
    FINDING_TYPE_DETECTION, FINDING_TYPE_THRESHOLD, FINDING_TYPE_CORRELATION, FINDING_TYPE_ANALYTICAL.
  destruct (Z.eqb_spec (fd_finding_type f) 1) as [E|]; [|destruct (Z.eqb_spec (fd_finding_type f) 2)
    as [E|]; [|destruct (Z.eqb_spec (fd_finding_type f) 3) as [E|];
    [|destruct (Z.eqb_spec (fd_finding_type f) 4) as [E|]; [|lia]]]]; simpl.
  1,2: ok_iff; rewrite orb_false_iff, !is_none_false, is_some_false, E; naive_solver.
  - rewrite required_ok_iff. split.
    + intros (p & Hp & H%validate_correlation_provenance_ok_iff).
      split_and!; [by exists p|lia|lia].
    + intros (Hc & _ & _). destruct (Hc E) as (p & Hp & H). exists p. split; [done|].
      by apply validate_correlation_provenance_ok_iff.
  - ok_iff. rewrite is_some_false, E. split; [|naive_solver]. intros [? _].
    split_and!; [lia|done|lia].
Qed.

Lemma validate_finding_ok_iff f : validate_finding f = Ok tt <-> finding_ok f.
Proof.
  unfold validate_finding, finding_ok, validate_seen_pair. ok_iff.
  rewrite !validate_optional_pair_ok_iff, validate_required_times_ok_iff, bind_ok_iff.
  setoid_rewrite validate_inputs_ok_iff. split.
  - intros (?&?&Ht&?&?&?&?&?&?&(?&?)&?&?&?&?&ids&(?&->)&Hp).
    rewrite validate_type_specific_ok_iff in Hp by done. tauto.
  - intros (?&?&Ht&?&?&?&?&?&?&?&?&?&?&?&?&?&Hp).
    rewrite <-validate_type_specific_ok_iff in Hp by done. split_and!; try (done || lia). eauto.
Qed.

Lemma validate_finding_no_panic f : no_panic (validate_finding f).
Proof.
  unfold validate_finding. do 2 (apply no_panic_bind; [auto with nopanic|intros _ _]).
  apply no_panic_bind; [auto with nopanic|]. intros [] Ht.
  apply reject_if_ok_iff, negb_false_iff, matches_range_true in Ht.
  repeat (apply no_panic_bind; [unfold validate_seen_pair, validate_required_times,
    validate_optional_pair; no_panic|intros _ _]).
  apply no_panic_bind.
  - unfold validate_inputs. apply no_panic_bind; [auto with nopanic|]. intros _ _.
    apply unique_loop_no_panic; [|by intros ???]. intros x _. unfold validate_finding_input. no_panic.
  - intros ids _. unfold validate_type_specific_provenance, FINDING_TYPE_DETECTION,
      FINDING_TYPE_THRESHOLD, FINDING_TYPE_CORRELATION, FINDING_TYPE_ANALYTICAL.
    destruct (Z.eqb_spec (fd_finding_type f) 1); [no_panic|].
    destruct (Z.eqb_spec (fd_finding_type f) 2); [no_panic|].
    destruct (Z.eqb_spec (fd_finding_type f) 3); [|destruct (Z.eqb_spec (fd_finding_type f) 4);
      [no_panic|lia]]. simpl.
    apply no_panic_bind; [auto with nopanic|]. intros p _. unfold validate_correlation_provenance.
    repeat (apply no_panic_bind; [first [solve [auto with nopanic] |
      apply unique_loop_no_panic; [auto with nopanic|intros; no_panic]]|intros]).
    auto with nopanic.
Qed.

(** ** Properties *)

(** C31: the Finding validator accepts exactly the Findings that meet the Finding
    v1 contract, including that a CORRELATION Finding's provenance agrees with
    it and only names inputs of the Finding, and it never panics. *)
Theorem validate_finding_spec (f : Finding) :
  (validate_finding f = Ok tt <-> finding_ok f) /\ no_panic (validate_finding f).
Proof. split; [apply validate_finding_ok_iff|apply validate_finding_no_panic]. Qed.
