(* ===== verification/RuleContract.v ===== *)
(** * Detection rule identity and lifecycle

    crates/cerbero-detection-core/src/rule_contract.rs. *)

From S2P Require Import Prelude RustStd ContractTypes Validation SignalContract.

(** [RuleId] is opaque in Rust: [from_str] is its only constructor, so a
    [RuleId] in the program always came out of it. *)
Record RuleId := mkRuleId { RuleId_as_str : string }.

Inductive RuleContractError : Set := InvalidRuleId | StableRequiresAutomatedTests.

Definition RuleId_from_str (value : string) : result RuleId RuleContractError :=
  match strip_prefix "CER-DET-" value with
  | None => Err InvalidRuleId
  | Some suffix =>
      reject_if (negb (str_len suffix =? 6)%nat || negb (forallb is_ascii_digit (str_bytes suffix)))
        InvalidRuleId ;;?
      Ok (mkRuleId value)
  end.

Definition RuleId_fmt (r : RuleId) : string := RuleId_as_str r.

Inductive RuleStatus : Set := Experimental | Testing | Stable | Deprecated | Disabled.

Definition RuleStatus_as_str (s : RuleStatus) : string :=
  match s with
  | Experimental => "EXPERIMENTAL"
  | Testing => "TESTING"
  | Stable => "STABLE"
  | Deprecated => "DEPRECATED"
  | Disabled => "DISABLED"
  end.

Record AutomatedTestCoverage := mkAutomatedTestCoverage {
  positive : bool;
  negative : bool;
  edge_cases : bool;
}.

Definition AutomatedTestCoverage_complete : AutomatedTestCoverage :=
  mkAutomatedTestCoverage true true true.

Definition is_complete (c : AutomatedTestCoverage) : bool :=
  positive c && negative c && edge_cases c.

Definition RuleContractError_fmt (e : RuleContractError) : string :=
  match e with
  | InvalidRuleId => "detection rule id must match CER-DET-XXXXXX with exactly six ASCII digits"
  | StableRequiresAutomatedTests =>
      "STABLE detection rules require positive, negative, and edge-case automated tests"
  end.

#[global] Instance RuleStatus_eq_dec : EqDecision RuleStatus.
Proof. solve_decision. Defined.
#[global] Instance RuleId_eq_dec : EqDecision RuleId.
Proof. solve_decision. Defined.

Definition validate_rule_status (status : RuleStatus) (test_coverage : AutomatedTestCoverage)
    : result unit RuleContractError :=
  reject_if (bool_decide (status = Stable) && negb (is_complete test_coverage))
    StableRequiresAutomatedTests ;;?
  Ok tt.

(** ** Lemmas *)

Lemma RuleId_from_str_ok_iff value r :
  RuleId_from_str value = Ok r <-> detection_rule_id value /\ r = mkRuleId value.
Proof.
  rewrite <-validate_detection_rule_id_ok_iff.
  unfold RuleId_from_str, validate_detection_rule_id, six_digits, RULE_ID_PREFIX, RULE_ID_DIGITS.
  destruct (strip_prefix _ _) as [suffix|]; [|naive_solver].
  rewrite !bind_unit_ok_iff, !reject_if_ok_iff, !negb_andb, ok_inj_iff. naive_solver.
Qed.

(** A [RuleId] renders to a string that parses back to it: the rule identity
    written into a Signal is the identity of the plan's rule. *)
Lemma RuleId_roundtrip value r :
  RuleId_from_str value = Ok r -> RuleId_from_str (RuleId_fmt r) = Ok r.
Proof. intros [H ->]%RuleId_from_str_ok_iff. by apply RuleId_from_str_ok_iff. Qed.

Lemma validate_rule_status_ok_iff status c :
  validate_rule_status status c = Ok tt <-> (status = Stable -> c = AutomatedTestCoverage_complete).
Proof.
  unfold validate_rule_status, is_complete, AutomatedTestCoverage_complete.
  rewrite bind_unit_ok_iff, reject_if_ok_iff, andb_false_iff, bool_decide_eq_false, negb_false_iff,
    !andb_true_iff.
  destruct c as [p n e]; simpl. destruct (decide (status = Stable)); naive_solver.
Qed.

(** ** Properties *)

(** [RuleId::from_str] accepts exactly the rule identities the Signal
    contract accepts, so a Signal materialized from a plan never fails on its
    rule identity; and an accepted identity prints back unchanged. *)
Theorem rule_id_agrees_with_signal_contract (value : string) :
  (validate_detection_rule_id value = Ok tt <->
     exists r, RuleId_from_str value = Ok r /\ RuleId_fmt r = value) /\
  (forall r, RuleId_from_str value = Ok r -> RuleId_from_str (RuleId_fmt r) = Ok r).
Proof.
  split; [|intros r; apply RuleId_roundtrip]. rewrite validate_detection_rule_id_ok_iff.
  setoid_rewrite RuleId_from_str_ok_iff. naive_solver.
Qed.
