(* ===== verification/DetectionAst.v ===== *)
(** * The detection AST, its validator and its type checker

    crates/cerbero-detection-core/src/{ast,compiler_contract,validator,type_checker}.rs. *)

From S2P Require Import Prelude RustStd.

(** ** ast.rs *)

Inductive DetectionExpressionKind : Set :=
| Kind_Boolean | Kind_Comparison | Kind_Exists | Kind_Selection | Kind_Threshold
| Kind_Aggregation | Kind_Sequence | Kind_Join | Kind_Absence.

Definition DetectionExpressionKind_as_str (k : DetectionExpressionKind) : string :=
  match k with
  | Kind_Boolean => "BOOLEAN"
  | Kind_Comparison => "COMPARISON"
  | Kind_Exists => "EXISTS"
  | Kind_Selection => "SELECTION"
  | Kind_Threshold => "THRESHOLD"
  | Kind_Aggregation => "AGGREGATION"
  | Kind_Sequence => "SEQUENCE"
  | Kind_Join => "JOIN"
  | Kind_Absence => "ABSENCE"
  end.

Inductive BooleanOperator : Set := BooleanOperator_And | BooleanOperator_Or | BooleanOperator_Not.

Definition BooleanOperator_as_str (o : BooleanOperator) : string :=
  match o with
  | BooleanOperator_And => "AND"
  | BooleanOperator_Or => "OR"
  | BooleanOperator_Not => "NOT"
  end.

Inductive ComparisonOperator : Set :=
| Op_Eq | Op_Ne | Op_Gt | Op_Gte | Op_Lt | Op_Lte | Op_In | Op_NotIn
| Op_Contains | Op_StartsWith | Op_EndsWith | Op_Matches.

Definition ComparisonOperator_as_str (o : ComparisonOperator) : string :=
  match o with
  | Op_Eq => "EQ"
  | Op_Ne => "NE"
  | Op_Gt => "GT"
  | Op_Gte => "GTE"
  | Op_Lt => "LT"
  | Op_Lte => "LTE"
  | Op_In => "IN"
  | Op_NotIn => "NOT_IN"
  | Op_Contains => "CONTAINS"
  | Op_StartsWith => "STARTS_WITH"
  | Op_EndsWith => "ENDS_WITH"
  | Op_Matches => "MATCHES"
  end.

#[global] Instance ComparisonOperator_eq_dec : EqDecision ComparisonOperator.
Proof. solve_decision. Defined.

Record ComparisonExpression (Field Value : Type) := mkComparisonExpression {
  cx_field : Field;
  cx_operator : ComparisonOperator;
  cx_value : Value;
}.
Arguments mkComparisonExpression {Field Value}.
Arguments cx_field {Field Value}.
Arguments cx_operator {Field Value}.
Arguments cx_value {Field Value}.

Record ExistsExpression (Field : Type) := mkExistsExpression { ex_field : Field }.
Arguments mkExistsExpression {Field}.
Arguments ex_field {Field}.

Inductive DetectionExpression (Field Value : Type) : Type :=
| Expr_Boolean (boolean : BooleanExpression Field Value)
| Expr_Comparison (comparison : ComparisonExpression Field Value)
| Expr_Exists (exists_ : ExistsExpression Field)
with BooleanExpression (Field Value : Type) : Type :=
| Bool_And (children : list (DetectionExpression Field Value))
| Bool_Or (children : list (DetectionExpression Field Value))
| Bool_Not (child : DetectionExpression Field Value).
Arguments Expr_Boolean {Field Value}.
Arguments Expr_Comparison {Field Value}.
Arguments Expr_Exists {Field Value}.
Arguments Bool_And {Field Value}.
Arguments Bool_Or {Field Value}.
Arguments Bool_Not {Field Value}.

Definition BooleanExpression_operator {Field Value} (b : BooleanExpression Field Value)
    : BooleanOperator :=
  match b with
  | Bool_And _ => BooleanOperator_And
  | Bool_Or _ => BooleanOperator_Or
  | Bool_Not _ => BooleanOperator_Not
  end.

Definition DetectionExpression_kind {Field Value} (e : DetectionExpression Field Value)
    : DetectionExpressionKind :=
  match e with
  | Expr_Boolean _ => Kind_Boolean
  | Expr_Comparison _ => Kind_Comparison
  | Expr_Exists _ => Kind_Exists
  end.

(** ** compiler_contract.rs *)

Inductive RuleCompilationErrorKind : Set :=
| SyntaxError | UnknownField | TypeError | InvalidOperator | InvalidWindow
| UnsupportedBackend | InvalidMapping | ResourcePolicyViolation.

Definition RuleCompilationErrorKind_as_str (k : RuleCompilationErrorKind) : string :=
  match k with
  | SyntaxError => "SYNTAX_ERROR"
  | UnknownField => "UNKNOWN_FIELD"
  | TypeError => "TYPE_ERROR"
  | InvalidOperator => "INVALID_OPERATOR"
  | InvalidWindow => "INVALID_WINDOW"
  | UnsupportedBackend => "UNSUPPORTED_BACKEND"
  | InvalidMapping => "INVALID_MAPPING"
  | ResourcePolicyViolation => "RESOURCE_POLICY_VIOLATION"
  end.

(** [AsRef<str>] *)
Class AsRefStr (Field : Type) := as_ref : Field -> string.
#[global] Instance AsRefStr_string : AsRefStr string := fun s => s.

Class FieldTypeResolver (R FieldType : Type) := resolve_field_type : R -> string -> option FieldType.

Definition require_field_type {R FieldType} `{FieldTypeResolver R FieldType}
    (resolver : R) (field : string) : result FieldType RuleCompilationErrorKind :=
  ok_or (resolve_field_type resolver field) UnknownField.

(** ** type_checker.rs *)

Class ValueTypeResolver (R Value ValueType : Type) := resolve_value_type : R -> Value -> ValueType.

Class ComparisonTypePolicy (P FieldType ValueType : Type) :=
  validate_comparison :
    P -> FieldType -> ComparisonOperator -> ValueType -> result unit RuleCompilationErrorKind.

Section TypeChecker.
Context {Field Value FieldType ValueType FR VR P : Type}.
Context `{AsRefStr Field} `{FieldTypeResolver FR FieldType} `{ValueTypeResolver VR Value ValueType}.
Context `{ComparisonTypePolicy P FieldType ValueType}.
Variables (field_resolver : FR) (value_resolver : VR) (policy : P).

Fixpoint type_check_expression (expression : DetectionExpression Field Value)
    : result unit RuleCompilationErrorKind :=
  match expression with
  | Expr_Boolean boolean =>
      match boolean with
      | Bool_And children | Bool_Or children => iter_m type_check_expression children
      | Bool_Not child => type_check_expression child
      end
  | Expr_Comparison comparison =>
      let? field_type := require_field_type field_resolver (as_ref (cx_field comparison)) in
      let value_type := resolve_value_type value_resolver (cx_value comparison) in
      validate_comparison policy field_type (cx_operator comparison) value_type
  | Expr_Exists exists_ =>
      let? _t := require_field_type field_resolver (as_ref (ex_field exists_)) in Ok tt
  end.
End TypeChecker.

(** ** validator.rs *)

Inductive AstValidationError : Set := EmptyBooleanExpression (operator : BooleanOperator).

Definition AstValidationError_fmt (e : AstValidationError) : string :=
  let '(EmptyBooleanExpression operator) := e in
  BooleanOperator_as_str operator +:+ " detection expression requires at least one child".

Section Validator.
Context {Field Value : Type}.

Fixpoint validate_expression (expression : DetectionExpression Field Value)
    : result unit AstValidationError :=
  match expression with
  | Expr_Boolean boolean => validate_boolean_expression boolean
  | Expr_Comparison _ | Expr_Exists _ => Ok tt
  end
with validate_boolean_expression (expression : BooleanExpression Field Value)
    : result unit AstValidationError :=
  let operator := BooleanExpression_operator expression in
  match expression with
  | Bool_And children | Bool_Or children =>
      reject_if (match children with [] => true | _ => false end) (EmptyBooleanExpression operator) ;;?
      iter_m validate_expression children
  | Bool_Not child => validate_expression child
  end.
End Validator.

(** ** Induction over expressions *)

Section ExpressionInd.
Context {Field Value : Type} (P : DetectionExpression Field Value -> Prop).
Hypotheses
  (HAnd : forall l, Forall P l -> P (Expr_Boolean (Bool_And l)))
  (HOr : forall l, Forall P l -> P (Expr_Boolean (Bool_Or l)))
  (HNot : forall e, P e -> P (Expr_Boolean (Bool_Not e)))
  (HComparison : forall c, P (Expr_Comparison c))
  (HExists : forall x, P (Expr_Exists x)).

Fixpoint expression_ind (e : DetectionExpression Field Value) : P e :=
  let go := fix go (l : list (DetectionExpression Field Value)) : Forall P l :=
    match l with
    | [] => Forall_nil_2 P
    | e :: l => Forall_cons_2 P e l (expression_ind e) (go l)
    end in
  match e with
  | Expr_Boolean (Bool_And l) => HAnd l (go l)
  | Expr_Boolean (Bool_Or l) => HOr l (go l)
  | Expr_Boolean (Bool_Not e) => HNot e (expression_ind e)
  | Expr_Comparison c => HComparison c
  | Expr_Exists x => HExists x
  end.
End ExpressionInd.

(** ** Specification *)

(** Every boolean node has a child. *)
Inductive well_formed {Field Value} : DetectionExpression Field Value -> Prop :=
| wf_comparison c : well_formed (Expr_Comparison c)
| wf_exists x : well_formed (Expr_Exists x)
| wf_and l : l <> [] -> Forall well_formed l -> well_formed (Expr_Boolean (Bool_And l))
| wf_or l : l <> [] -> Forall well_formed l -> well_formed (Expr_Boolean (Bool_Or l))
| wf_not e : well_formed e -> well_formed (Expr_Boolean (Bool_Not e)).

(** [sub e e']: [e] occurs in [e']. *)
Inductive subexpression {Field Value} (e : DetectionExpression Field Value)
    : DetectionExpression Field Value -> Prop :=
| sub_refl : subexpression e e
| sub_and l x : x ∈ l -> subexpression e x -> subexpression e (Expr_Boolean (Bool_And l))
| sub_or l x : x ∈ l -> subexpression e x -> subexpression e (Expr_Boolean (Bool_Or l))
| sub_not x : subexpression e x -> subexpression e (Expr_Boolean (Bool_Not x)).

(** The comparison and existence nodes, from left to right. *)
Fixpoint leaves {Field Value} (e : DetectionExpression Field Value)
    : list (ComparisonExpression Field Value + ExistsExpression Field) :=
  match e with
  | Expr_Boolean (Bool_And l) | Expr_Boolean (Bool_Or l) => mjoin (leaves <$> l)
  | Expr_Boolean (Bool_Not e) => leaves e
  | Expr_Comparison c => [inl c]
  | Expr_Exists x => [inr x]
  end.

Section AstLemmas.
Context {Field Value : Type}.
Implicit Types e : DetectionExpression Field Value.

Lemma validate_children_ok_iff op (l : list (DetectionExpression Field Value)) :
  (reject_if (match l with [] => true | _ => false end) (EmptyBooleanExpression op) ;;?
   iter_m validate_expression l) = Ok tt <->
  l <> [] /\ Forall (fun e => validate_expression e = Ok tt) l.
Proof. rewrite bind_unit_ok_iff, reject_if_ok_iff, iter_m_ok_iff. destruct l; naive_solver. Qed.

Lemma validate_expression_ok_iff e : validate_expression e = Ok tt <-> well_formed e.
Proof.
  induction e as [l IH|l IH|e IH|c|x] using expression_ind; simpl.
  1,2: rewrite validate_children_ok_iff; split;
    [intros [Hne Hall]; constructor; [done|]|intros Hwf; inversion Hwf as [| |? Hne Hall|? Hne Hall|];
     subst; split; [done|]];
    rewrite Forall_forall in IH, Hall |- *; intros y Hy; by apply IH, Hall.
  - rewrite IH. split; [by constructor|]. by inversion 1.
  - split; [constructor|done].
  - split; [constructor|done].
Qed.

(** The error names the operator of an empty node of the expression. *)
Definition empty_node_in (op : BooleanOperator) e : Prop :=
  match op with
  | BooleanOperator_And => subexpression (Expr_Boolean (Bool_And [])) e
  | BooleanOperator_Or => subexpression (Expr_Boolean (Bool_Or [])) e
  | BooleanOperator_Not => False
  end.

Lemma empty_node_in_and op e l :
  e ∈ l -> empty_node_in op e -> empty_node_in op (Expr_Boolean (Bool_And l)).
Proof. destruct op; simpl; intros; [by eapply sub_and..|done]. Qed.
Lemma empty_node_in_or op e l :
  e ∈ l -> empty_node_in op e -> empty_node_in op (Expr_Boolean (Bool_Or l)).
Proof. destruct op; simpl; intros; [by eapply sub_or..|done]. Qed.

Lemma validate_expression_err e op :
  validate_expression e = Err (EmptyBooleanExpression op) -> empty_node_in op e.
Proof.
  induction e as [l IH|l IH|e IH|c|x] using expression_ind; simpl.
  - destruct l as [|y l]; [intros [= <-]; constructor|].
    rewrite Forall_forall in IH. intros (x & Hx & ?%IH)%iter_m_err; [|done].
    by eapply empty_node_in_and.
  - destruct l as [|y l]; [intros [= <-]; constructor|].
    rewrite Forall_forall in IH. intros (x & Hx & ?%IH)%iter_m_err; [|done].
    by eapply empty_node_in_or.
  - intros ?%IH. destruct op; simpl in *; [by apply sub_not..|done].
  - done.
  - done.
Qed.

Lemma validate_expression_no_panic e : no_panic (validate_expression e).
Proof.
  induction e as [l IH|l IH|e IH|c|x] using expression_ind; simpl; try by auto with nopanic.
  all: apply no_panic_bind; [auto with nopanic|]; intros _ _; apply iter_m_no_panic;
    by apply Forall_forall.
Qed.

Section TypeCheckLemmas.
Context {FieldType ValueType FR VR P : Type}.
Context `{AsRefStr Field} `{FieldTypeResolver FR FieldType} `{ValueTypeResolver VR Value ValueType}.
Context `{ComparisonTypePolicy P FieldType ValueType}.
Variables (field_resolver : FR) (value_resolver : VR) (policy : P).

(** The check of one leaf: its field resolves, and the policy admits the
    comparison at the resolved types. *)
Definition leaf_typed (leaf : ComparisonExpression Field Value + ExistsExpression Field) : Prop :=
  match leaf with
  | inl c => exists t, resolve_field_type field_resolver (as_ref (cx_field c)) = Some t /\
      validate_comparison policy t (cx_operator c) (resolve_value_type value_resolver (cx_value c)) = Ok tt
  | inr x => is_Some (resolve_field_type field_resolver (as_ref (ex_field x)))
  end.

Abbreviation type_check := (type_check_expression field_resolver value_resolver policy).
Definition type_check_leaf (leaf : ComparisonExpression Field Value + ExistsExpression Field)
    : result unit RuleCompilationErrorKind :=
  match leaf with
  | inl c => type_check (Expr_Comparison c)
  | inr x => type_check (Expr_Exists x)
  end.

Lemma type_check_leaves e : type_check e = iter_m type_check_leaf (leaves e).
Proof.
  induction e as [l IH|l IH|e IH|c|x] using expression_ind.
  1,2: cbn [type_check_expression leaves]; by apply iter_m_join.
  - apply IH.
  - cbn [leaves iter_m type_check_leaf]. by destruct (type_check (Expr_Comparison c)) as [[]| |].
  - cbn [leaves iter_m type_check_leaf]. by destruct (type_check (Expr_Exists x)) as [[]| |].
Qed.

Lemma type_check_leaf_ok_iff leaf : type_check_leaf leaf = Ok tt <-> leaf_typed leaf.
Proof.
  destruct leaf as [c|x]; simpl; unfold require_field_type.
  - rewrite bind_ok_iff. by setoid_rewrite ok_or_ok_iff.
  - rewrite bind_ok_iff. setoid_rewrite ok_or_ok_iff. unfold is_Some. naive_solver.
Qed.

Lemma type_check_ok_iff e : type_check e = Ok tt <-> Forall leaf_typed (leaves e).
Proof.
  rewrite type_check_leaves, iter_m_ok_iff. by setoid_rewrite type_check_leaf_ok_iff.
Qed.

End TypeCheckLemmas.

End AstLemmas.

(** ** Properties *)

