(* ===== verification/EventPipeline.v ===== *)
(** * EVENT rules: compilation and evaluation

    crates/cerbero-detection-core/src/{execution_plan,event_evaluator,
    event_optimizer,event_compiler,normalized_event}.rs.  Rust traits are type
    classes over the implementing type; associated types are parameters. *)

From S2P Require Import Prelude RustStd ContractTypes Validation RuleContract DetectionAst.

(** ** execution_plan.rs *)

Inductive ExecutionBackend : Set := ClickHouse | Stream.

Definition ExecutionBackend_as_str (b : ExecutionBackend) : string :=
  match b with ClickHouse => "CLICKHOUSE" | Stream => "STREAM" end.

#[global] Instance ExecutionBackend_eq_dec : EqDecision ExecutionBackend.
Proof. solve_decision. Defined.

Record ExecutionBackendCapabilities := mkExecutionBackendCapabilities {
  bc_clickhouse : bool;
  bc_stream : bool;
}.

Definition supports (c : ExecutionBackendCapabilities) (backend : ExecutionBackend) : bool :=
  match backend with ClickHouse => bc_clickhouse c | Stream => bc_stream c end.

Record ExecutionPlan (PlanId RuleVersion RequiredFields Predicates Grouping Window
                      ResourceLimits PlanHash : Type) := mkExecutionPlan {
  pl_plan_id : PlanId;
  pl_rule_id : RuleId;
  pl_rule_version : RuleVersion;
  pl_backend : ExecutionBackend;
  pl_required_fields : RequiredFields;
  pl_predicates : Predicates;
  pl_grouping : Grouping;
  pl_window : Window;
  pl_resource_limits : ResourceLimits;
  pl_plan_hash : PlanHash;
}.
Arguments mkExecutionPlan {_ _ _ _ _ _ _ _}.
Arguments pl_plan_id {_ _ _ _ _ _ _ _}.
Arguments pl_rule_id {_ _ _ _ _ _ _ _}.
Arguments pl_rule_version {_ _ _ _ _ _ _ _}.
Arguments pl_backend {_ _ _ _ _ _ _ _}.
Arguments pl_predicates {_ _ _ _ _ _ _ _}.

(** ** event_evaluator.rs *)

Inductive EventFieldState (Value : Type) : Type :=
| Present (v : Value) | Absent | Null | Malformed.
Arguments Present {Value}.
Arguments Absent {Value}.
Arguments Null {Value}.
Arguments Malformed {Value}.

Inductive EventPredicate (Field RuleValue : Type) : Type :=
| Pred_And (children : list (EventPredicate Field RuleValue))
| Pred_Or (children : list (EventPredicate Field RuleValue))
| Pred_Not (child : EventPredicate Field RuleValue)
| Pred_Comparison (field : Field) (operator : ComparisonOperator) (value : RuleValue)
| Pred_Exists (field : Field).
Arguments Pred_And {Field RuleValue}.
Arguments Pred_Or {Field RuleValue}.
Arguments Pred_Not {Field RuleValue}.
Arguments Pred_Comparison {Field RuleValue}.
Arguments Pred_Exists {Field RuleValue}.

Inductive EventEvaluationResult : Set := Match | NoMatch.

Class EventFieldView (View Field Value : Type) := field_state : View -> Field -> EventFieldState Value.

Class EventLeafEvaluationPolicy (Policy Field RuleValue EventValue Error : Type) := {
  evaluate_exists : Policy -> Field -> EventFieldState EventValue -> result bool Error;
  evaluate_comparison :
    Policy -> Field -> EventFieldState EventValue -> ComparisonOperator -> RuleValue -> result bool Error;
}.

Class EventExecutionPlanView (Plan Field RuleValue : Type) :=
  event_predicates : Plan -> EventPredicate Field RuleValue.

#[global] Instance ExecutionPlan_view
    {PlanId RuleVersion RequiredFields Field RuleValue Grouping Window ResourceLimits PlanHash} :
  EventExecutionPlanView
    (ExecutionPlan PlanId RuleVersion RequiredFields (EventPredicate Field RuleValue) Grouping Window
       ResourceLimits PlanHash) Field RuleValue := fun plan => pl_predicates plan.

Section Evaluator.
Context {Field RuleValue EventValue Error View Policy : Type}.
Context `{EventFieldView View Field EventValue}.
Context `{EventLeafEvaluationPolicy Policy Field RuleValue EventValue Error}.
Variables (event : View) (policy : Policy).

Fixpoint evaluate_predicate (predicate : EventPredicate Field RuleValue) : result bool Error :=
  match predicate with
  | Pred_And children => all_m evaluate_predicate children
  | Pred_Or children => any_m evaluate_predicate children
  | Pred_Not child => let? b := evaluate_predicate child in Ok (negb b)
  | Pred_Comparison field operator value =>
      evaluate_comparison policy field (field_state event field) operator value
  | Pred_Exists field => evaluate_exists policy field (field_state event field)
  end.

Definition evaluate_event_execution_plan {Plan} `{EventExecutionPlanView Plan Field RuleValue}
    (plan : Plan) : result EventEvaluationResult Error :=
  let? b := evaluate_predicate (event_predicates plan) in
  if b then Ok Match else Ok NoMatch.
End Evaluator.

(** ** event_optimizer.rs *)

Class EventAstOptimizer (Optimizer Field Value : Type) :=
  optimize_event_ast :
    Optimizer -> DetectionExpression Field Value ->
    result (DetectionExpression Field Value) RuleCompilationErrorKind.

Inductive IdentityEventAstOptimizer : Set := mkIdentityEventAstOptimizer.

#[global] Instance IdentityEventAstOptimizer_optimizer {Field Value} :
  EventAstOptimizer IdentityEventAstOptimizer Field Value := fun _ expression => Ok expression.

(** ** event_compiler.rs *)

Record EventFieldProfile (RequiredFields OptionalFields FieldTypes : Type) := mkEventFieldProfile {
  required_fields : RequiredFields;
  optional_fields : OptionalFields;
  field_types : FieldTypes;
}.

Class EventFieldProfileResolver (Resolver Field Value Profile : Type) :=
  resolve_event_field_profile :
    Resolver -> DetectionExpression Field Value -> result Profile RuleCompilationErrorKind.

Class EventExecutionPlanCompiler (Compiler Field Value Profile Plan : Type) := {
  supported_backends_of :
    Compiler -> EventPredicate Field Value -> Profile ->
    result ExecutionBackendCapabilities RuleCompilationErrorKind;
  compile_event_plan :
    Compiler -> ExecutionBackend -> EventPredicate Field Value -> Profile ->
    result Plan RuleCompilationErrorKind;
}.

Record CompiledEventExecutionPlan (Plan Profile : Type) := mkCompiledEventExecutionPlan {
  cp_plan : Plan;
  cp_field_profile : Profile;
  cp_supported_backends : ExecutionBackendCapabilities;
}.
Arguments mkCompiledEventExecutionPlan {Plan Profile}.
Arguments cp_plan {Plan Profile}.
Arguments cp_field_profile {Plan Profile}.
Arguments cp_supported_backends {Plan Profile}.

Record EventCompilationStages (Optimizer ProfileResolver PlanCompiler : Type) := mkStages {
  st_optimizer : Optimizer;
  st_profile_resolver : ProfileResolver;
  st_plan_compiler : PlanCompiler;
}.
Arguments mkStages {_ _ _}.
Arguments st_optimizer {_ _ _}.
Arguments st_profile_resolver {_ _ _}.
Arguments st_plan_compiler {_ _ _}.

Fixpoint lower_event_predicate {Field Value} (expression : DetectionExpression Field Value)
    : EventPredicate Field Value :=
  match expression with
  | Expr_Boolean boolean =>
      match boolean with
      | Bool_And children => Pred_And (lower_event_predicate <$> children)
      | Bool_Or children => Pred_Or (lower_event_predicate <$> children)
      | Bool_Not child => Pred_Not (lower_event_predicate child)
      end
  | Expr_Comparison c => Pred_Comparison (cx_field c) (cx_operator c) (cx_value c)
  | Expr_Exists x => Pred_Exists (ex_field x)
  end.

Section Compiler.
Context {Field Value FieldType ValueType Profile Plan : Type}.
Context {FR VR P Optimizer ProfileResolver PlanCompiler : Type}.
Context `{AsRefStr Field} `{FieldTypeResolver FR FieldType} `{ValueTypeResolver VR Value ValueType}.
Context `{ComparisonTypePolicy P FieldType ValueType}.
Context `{EventAstOptimizer Optimizer Field Value}.
Context `{EventFieldProfileResolver ProfileResolver Field Value Profile}.
Context `{EventExecutionPlanCompiler PlanCompiler Field Value Profile Plan}.

Definition compile_event_execution_plan (expression : DetectionExpression Field Value)
    (backend : ExecutionBackend) (field_resolver : FR) (value_resolver : VR) (policy : P)
    (stages : EventCompilationStages Optimizer ProfileResolver PlanCompiler)
    : result (CompiledEventExecutionPlan Plan Profile) RuleCompilationErrorKind :=
  map_err (fun _ => SyntaxError) (validate_expression expression) ;;?
  type_check_expression field_resolver value_resolver policy expression ;;?
  let? optimized_expression := optimize_event_ast (st_optimizer stages) expression in
  map_err (fun _ => SyntaxError) (validate_expression optimized_expression) ;;?
  type_check_expression field_resolver value_resolver policy optimized_expression ;;?
  let? field_profile :=
    resolve_event_field_profile (st_profile_resolver stages) optimized_expression in
  let predicate := lower_event_predicate optimized_expression in
  let? supported_backends :=
    supported_backends_of (st_plan_compiler stages) predicate field_profile in
  if negb (supports supported_backends backend) then Err UnsupportedBackend else
  let? plan := compile_event_plan (st_plan_compiler stages) backend predicate field_profile in
  Ok (mkCompiledEventExecutionPlan plan field_profile supported_backends).
End Compiler.

(** ** normalized_event.rs *)

Record NormalizedEventFieldView := mkNormalizedEventFieldView { view_event : NormalizedEvent }.

Definition classify_value (value : Value) : EventFieldState Value :=
  match value_kind value with
  | Some (NullValue n) => if (n =? 0)%Z then Null else Malformed
  | None => Malformed
  | Some _ => Present value
  end.

Fixpoint resolve_segments (segments : list string) (current : Struct) : EventFieldState Value :=
  match segments with
  | [] => Malformed
  | segment :: segments =>
      if is_empty segment then Malformed else
      match bt_get segment (struct_fields current) with
      | None => Absent
      | Some value =>
          match segments with
          | [] => classify_value value
          | _ =>
              match value_kind value with
              | Some (StructValue next) => resolve_segments segments next
              | Some (NullValue n) => if (n =? 0)%Z then Null else Malformed
              | _ => Malformed
              end
          end
      end
  end.

Definition resolve_ocsf_field (root : Struct) (path : string) : EventFieldState Value :=
  if is_empty path then Malformed else resolve_segments (split_char "." path) root.

#[global] Instance NormalizedEventFieldView_view {Field} `{AsRefStr Field} :
  EventFieldView NormalizedEventFieldView Field Value :=
  fun view field =>
    match ne_ocsf_event (view_event view) with
    | None => Malformed
    | Some root => resolve_ocsf_field root (as_ref field)
    end.

(** ** Reference semantics *)

Section PredicateInd.
Context {Field RuleValue : Type} (Q : EventPredicate Field RuleValue -> Prop).
Hypotheses
  (HAnd : forall l, Forall Q l -> Q (Pred_And l))
  (HOr : forall l, Forall Q l -> Q (Pred_Or l))
  (HNot : forall p, Q p -> Q (Pred_Not p))
  (HComparison : forall f o v, Q (Pred_Comparison f o v))
  (HExists : forall f, Q (Pred_Exists f)).

Fixpoint predicate_ind (p : EventPredicate Field RuleValue) : Q p :=
  let go := fix go (l : list (EventPredicate Field RuleValue)) : Forall Q l :=
    match l with
    | [] => Forall_nil_2 Q
    | p :: l => Forall_cons_2 Q p l (predicate_ind p) (go l)
    end in
  match p with
  | Pred_And l => HAnd l (go l)
  | Pred_Or l => HOr l (go l)
  | Pred_Not p => HNot p (predicate_ind p)
  | Pred_Comparison f o v => HComparison f o v
  | Pred_Exists f => HExists f
  end.
End PredicateInd.

Fixpoint predicate_leaves {Field RuleValue} (p : EventPredicate Field RuleValue)
    : list (EventPredicate Field RuleValue) :=
  match p with
  | Pred_And l | Pred_Or l => mjoin (predicate_leaves <$> l)
  | Pred_Not p => predicate_leaves p
  | Pred_Comparison _ _ _ | Pred_Exists _ => [p]
  end.

(** The two-valued meaning of a predicate under a valuation of its leaves. *)
Fixpoint denote {Field RuleValue} (leaf : EventPredicate Field RuleValue -> bool)
    (p : EventPredicate Field RuleValue) : bool :=
  match p with
  | Pred_And l => forallb (denote leaf) l
  | Pred_Or l => existsb (denote leaf) l
  | Pred_Not p => negb (denote leaf p)
  | Pred_Comparison _ _ _ | Pred_Exists _ => leaf p
  end.

Section Semantics.
Context {Field RuleValue EventValue Error View Policy : Type}.
Context `{EventFieldView View Field EventValue}.
Context `{EventLeafEvaluationPolicy Policy Field RuleValue EventValue Error}.
Variables (event : View) (policy : Policy).

(** The meaning of a detection expression, read off the AST. *)
Fixpoint evaluate_expression (e : DetectionExpression Field RuleValue) : result bool Error :=
  match e with
  | Expr_Boolean (Bool_And l) => all_m evaluate_expression l
  | Expr_Boolean (Bool_Or l) => any_m evaluate_expression l
  | Expr_Boolean (Bool_Not e) => let? b := evaluate_expression e in Ok (negb b)
  | Expr_Comparison c =>
      evaluate_comparison policy (cx_field c) (field_state event (cx_field c)) (cx_operator c) (cx_value c)
  | Expr_Exists x => evaluate_exists policy (ex_field x) (field_state event (ex_field x))
  end.

Definition to_evaluation_result (b : bool) : EventEvaluationResult := if b then Match else NoMatch.

Lemma evaluate_lowered e :
  evaluate_predicate event policy (lower_event_predicate e) = evaluate_expression e.
Proof.
  induction e as [l IH|l IH|e IH|c|x] using expression_ind; simpl.
  - rewrite all_m_fmap. by apply all_m_ext.
  - rewrite any_m_fmap. by apply any_m_ext.
  - by rewrite IH.
  - done.
  - done.
Qed.

Lemma predicate_leaves_child l (p : EventPredicate Field RuleValue) q :
  p ∈ l -> q ∈ predicate_leaves p -> q ∈ mjoin (predicate_leaves <$> l).
Proof.
  intros Hp Hq. apply list_elem_of_join. exists (predicate_leaves p). split; [done|].
  apply list_elem_of_fmap. eauto.
Qed.

Lemma evaluate_predicate_total leaf p :
  Forall (fun q => evaluate_predicate event policy q = Ok (leaf q)) (predicate_leaves p) ->
  evaluate_predicate event policy p = Ok (denote leaf p).
Proof.
  induction p as [l IH|l IH|p IH|f o v|f] using predicate_ind; simpl; intros Hl.
  - apply all_m_pure. rewrite Forall_forall in IH, Hl |- *. intros p Hp.
    apply (IH p Hp), Forall_forall. intros q Hq. eauto using predicate_leaves_child.
  - apply any_m_pure. rewrite Forall_forall in IH, Hl |- *. intros p Hp.
    apply (IH p Hp), Forall_forall. intros q Hq. eauto using predicate_leaves_child.
  - by rewrite IH.
  - apply Forall_inv in Hl. exact Hl.
  - apply Forall_inv in Hl. exact Hl.
Qed.

Lemma evaluate_predicate_err p er :
  evaluate_predicate event policy p = Err er ->
  exists q, (q ∈ predicate_leaves p) /\ evaluate_predicate event policy q = Err er.
Proof.
  induction p as [l IH|l IH|p IH|f o v|f] using predicate_ind; simpl; intros He.
  - apply all_m_err in He as (p & Hp & He). rewrite Forall_forall in IH.
    apply IH in He as (q & ? & ?); [|done]. eauto using predicate_leaves_child.
  - apply any_m_err in He as (p & Hp & He). rewrite Forall_forall in IH.
    apply IH in He as (q & ? & ?); [|done]. eauto using predicate_leaves_child.
  - apply IH. by destruct (evaluate_predicate event policy p) as [[]| |].
  - eexists. split; [by apply list_elem_of_singleton|done].
  - eexists. split; [by apply list_elem_of_singleton|done].
Qed.

(** A policy whose leaf callbacks never panic. *)
Definition leaf_policy_no_panic : Prop :=
  (forall f st, no_panic (evaluate_exists policy f st)) /\
  (forall f st op v, no_panic (evaluate_comparison policy f st op v)).

Lemma evaluate_predicate_no_panic p :
  leaf_policy_no_panic -> no_panic (evaluate_predicate event policy p).
Proof.
  intros [He Hc]. induction p as [l IH|l IH|p IH|f o v|f] using predicate_ind; simpl; auto.
  - by apply all_m_no_panic.
  - by apply any_m_no_panic.
  - apply no_panic_bind; [done|]. intros. by apply no_panic_ok.
Qed.

Lemma evaluate_plan_spec {Plan} `{EventExecutionPlanView Plan Field RuleValue} (plan : Plan) :
  evaluate_event_execution_plan event policy plan =
  (let? b := evaluate_predicate event policy (event_predicates plan) in Ok (to_evaluation_result b)).
Proof. unfold evaluate_event_execution_plan. by destruct (evaluate_predicate _ _ _) as [[]| |]. Qed.

End Semantics.

(** ** Compilation lemmas *)

Section CompilerLemmas.
Context {Field Value FieldType ValueType Profile Plan : Type}.
Context {FR VR P Optimizer ProfileResolver PlanCompiler : Type}.
Context `{AsRefStr Field} `{FieldTypeResolver FR FieldType} `{ValueTypeResolver VR Value ValueType}.
Context `{ComparisonTypePolicy P FieldType ValueType}.
Context `{EventAstOptimizer Optimizer Field Value}.
Context `{EventFieldProfileResolver ProfileResolver Field Value Profile}.
Context `{EventExecutionPlanCompiler PlanCompiler Field Value Profile Plan}.

(** The stages of a successful compilation. *)
Lemma compile_event_ok_iff e backend (fr : FR) (vr : VR) (policy : P)
    (stages : EventCompilationStages Optimizer ProfileResolver PlanCompiler)
    (c : CompiledEventExecutionPlan Plan Profile) :
  compile_event_execution_plan e backend fr vr policy stages = Ok c <->
  well_formed e /\ Forall (leaf_typed fr vr policy) (leaves e) /\
  exists e', optimize_event_ast (st_optimizer stages) e = Ok e' /\
    well_formed e' /\ Forall (leaf_typed fr vr policy) (leaves e') /\
    resolve_event_field_profile (st_profile_resolver stages) e' = Ok (cp_field_profile c) /\
    supported_backends_of (st_plan_compiler stages) (lower_event_predicate e') (cp_field_profile c)
      = Ok (cp_supported_backends c) /\
    supports (cp_supported_backends c) backend = true /\
    compile_event_plan (st_plan_compiler stages) backend (lower_event_predicate e')
      (cp_field_profile c) = Ok (cp_plan c).
Proof.
  unfold compile_event_execution_plan.
  rewrite !bind_unit_ok_iff, map_err_ok_iff, validate_expression_ok_iff, type_check_ok_iff.
  f_equiv. f_equiv. rewrite bind_ok_iff. f_equiv. intros e'. f_equiv.
  rewrite !bind_unit_ok_iff, map_err_ok_iff, validate_expression_ok_iff, type_check_ok_iff.
  f_equiv. f_equiv. split.
  - intros (profile & Hp & (caps & Hc & Hr)%bind_ok_iff)%bind_ok_iff.
    destruct (supports caps backend) eqn:E; simpl in Hr; [|done].
    apply bind_ok_iff in Hr as (plan & ? & [= <-]). done.
  - intros (Hp & Hc & Hs & Hplan). rewrite Hp. simpl. rewrite Hc. simpl. rewrite Hs. simpl.
    rewrite Hplan. by destruct c.
Qed.
End CompilerLemmas.

(** ** OCSF field paths *)

(** [denotes root path v]: the non-empty segments of [path] lead through nested
    objects to the member [v]. *)
Inductive denotes : Struct -> list string -> Value -> Prop :=
| denotes_last s k v : k <> "" -> bt_get k (struct_fields s) = Some v -> denotes s [k] v
| denotes_down s k s' ks v :
    k <> "" -> bt_get k (struct_fields s) = Some (mkValue (Some (StructValue s'))) ->
    denotes s' ks v -> denotes s (k :: ks) v.

Definition is_value (v : Value) : Prop :=
  exists k, value_kind v = Some k /\ forall n, k <> NullValue n.
Definition is_null (v : Value) : Prop := value_kind v = Some (NullValue 0).

(** [object_at root path s]: [path] leads to the object [s]; the empty path is the root. *)
Definition object_at (root : Struct) (path : list string) (s : Struct) : Prop :=
  path = [] /\ s = root \/ denotes root path (mkValue (Some (StructValue s))).

Lemma classify_Present v v' : classify_value v = Present v' <-> v' = v /\ is_value v.
Proof.
  unfold classify_value, is_value. destruct v as [[k|]]; simpl; [|naive_solver].
  destruct k; try naive_solver. destruct (n =? 0)%Z; naive_solver.
Qed.

Lemma resolve_Present segments s v :
  resolve_segments segments s = Present v <-> denotes s segments v /\ is_value v.
Proof.
  revert s. induction segments as [|k ks IH]; intros s; simpl.
  - split; [done|]. intros [Hd _]. inversion Hd.
  - destruct (is_empty k) eqn:Ek.
    { apply is_empty_spec in Ek as ->. split; [done|]. intros [Hd _]. by inversion Hd. }
    apply not_empty_iff in Ek. destruct (bt_get k (struct_fields s)) as [w|] eqn:Eg.
    2: { split; [done|]. intros [Hd _]. inversion Hd; congruence. }
    destruct ks as [|k' ks].
    { rewrite classify_Present. split.
      - intros [-> Hw]. by split; [constructor|].
      - intros [Hd Hw]. inversion Hd as [|? ? ? ? ? ? ? Hd2]; subst; [naive_solver|inversion Hd2]. }
    split.
    + destruct w as [[[n| | | |s'|]|]]; simpl; try done; [by destruct (n =? 0)%Z|].
      intros [Hd Hv]%IH. by split; [econstructor|].
    + intros [Hd Hv]. inversion Hd as [|? ? s' ? ? ? Hs Hd2]; subst.
      rewrite Eg in Hs. injection Hs as ->. simpl. by apply IH.
Qed.

Lemma is_null_iff v : is_null v <-> classify_value v = Null.
Proof.
  unfold is_null, classify_value. destruct v as [[[n| | | | |]|]]; simpl; try naive_solver.
  destruct (Z.eqb_spec n 0); naive_solver.
Qed.

Lemma resolve_Null segments s :
  resolve_segments segments s = Null <->
  exists pre post v, segments = pre ++ post /\ denotes s pre v /\ is_null v.
Proof.
  revert s. induction segments as [|k ks IH]; intros s; simpl.
  - split; [done|]. intros (pre & post & v & Hs & Hd & _). destruct pre; [inversion Hd|done].
  - destruct (is_empty k) eqn:Ek.
    { apply is_empty_spec in Ek as ->. split; [done|]. intros (pre & post & v & Hs & Hd & _).
      inversion Hd; subst; naive_solver. }
    apply not_empty_iff in Ek. destruct (bt_get k (struct_fields s)) as [w|] eqn:Eg.
    2: { split; [done|]. intros (pre & post & v & Hs & Hd & _). inversion Hd; subst; naive_solver. }
    assert (is_null w -> exists pre post v, k :: ks = pre ++ post /\ denotes s pre v /\ is_null v) as Hw.
    { intros Hw. exists [k], ks, w. split_and!; [done|by constructor|done]. }
    assert (forall pre post v, k :: ks = pre ++ post -> denotes s pre v -> is_null v ->
      is_null w \/ exists s' pre', w = mkValue (Some (StructValue s')) /\ ks = pre' ++ post /\
        denotes s' pre' v) as Hinv.
    { intros pre post v Hs Hd Hv. inversion Hd as [|? ? s' ks' ? ? Hg Hd2]; subst.
      - left. naive_solver.
      - right. exists s', ks'. naive_solver. }
    destruct ks as [|k' ks].
    { rewrite <-is_null_iff. split; [done|]. intros (pre & post & v & Hs & Hd & Hv).
      destruct (Hinv _ _ _ Hs Hd Hv) as [|(s' & pre' & -> & Hp & Hd')]; [done|].
      destruct pre'; [inversion Hd'|done]. }
    split.
    + destruct w as [[[n| | | |s'|]|]]; simpl; try done.
      * destruct (Z.eqb_spec n 0) as [->|]; [|done]. intros _. by apply Hw.
      * intros (pre & post & v & -> & Hd & Hv)%IH. exists (k :: pre), post, v.
        split_and!; [done| |done]. by econstructor.
    + intros (pre & post & v & Hs & Hd & Hv).
      destruct (Hinv _ _ _ Hs Hd Hv) as [Hn|(s' & pre' & -> & Hp & Hd')].
      * unfold is_null in Hn. by rewrite Hn.
      * simpl. apply IH. eauto 10.
Qed.

Lemma resolve_Absent segments s :
  resolve_segments segments s = Absent <->
  exists pre k post o, segments = pre ++ k :: post /\ object_at s pre o /\ k <> "" /\
    bt_get k (struct_fields o) = None.
Proof.
  unfold object_at. revert s. induction segments as [|k ks IH]; intros s; simpl.
  - split; [done|]. by intros ([] & k & post & o & Hs & _).
  - destruct (is_empty k) eqn:Ek.
    { apply is_empty_spec in Ek as ->. split; [done|].
      intros (pre & k & post & o & Hs & [[-> ->]|Hd] & Hk & _); [naive_solver|].
      inversion Hd; subst; naive_solver. }
    apply not_empty_iff in Ek. destruct (bt_get k (struct_fields s)) as [w|] eqn:Eg.
    2: { split; [|done]. intros _. exists [], k, ks, s. naive_solver. }
    assert (forall pre k' post o, k :: ks = pre ++ k' :: post ->
      pre = [] /\ o = s \/ denotes s pre (mkValue (Some (StructValue o))) ->
      bt_get k' (struct_fields o) = None ->
      exists s' pre', w = mkValue (Some (StructValue s')) /\ ks = pre' ++ k' :: post /\
        (pre' = [] /\ o = s' \/ denotes s' pre' (mkValue (Some (StructValue o))))) as Hinv.
    { intros pre k' post o Hs [[-> ->]|Hd] Hg; [naive_solver|].
      inversion Hd as [|? ? s' ks' ? ? Hg2 Hd2]; subst; simplify_eq/=.
      - exists o, []. naive_solver.
      - exists s', ks'. naive_solver. }
    destruct ks as [|k' ks].
    { split.
      - unfold classify_value. destruct w as [[[n| | | | |]|]]; simpl; try done. by destruct (n =? 0)%Z.
      - intros (pre & k' & post & o & Hs & Ho & Hk & Hg).
        destruct (Hinv _ _ _ _ Hs Ho Hg) as (s' & pre' & _ & Hp & _). by destruct pre'. }
    split.
    + destruct w as [[[n| | | |s'|]|]]; simpl; try done; [by destruct (n =? 0)%Z|].
      intros (pre & k2 & post & o & -> & Ho & ? & ?)%IH. exists (k :: pre), k2, post, o.
      split_and!; [done| |done|done]. right.
      destruct Ho as [[-> ->]|Ho]; [by constructor|by econstructor].
    + intros (pre & k2 & post & o & Hs & Ho & Hk & Hg).
      destruct (Hinv _ _ _ _ Hs Ho Hg) as (s' & pre' & -> & Hp & Ho'). simpl. apply IH. eauto 10.
Qed.

(** ** A small concrete instance: string fields, string rule values, the
    identity optimizer, and a plan that is its predicate *)

Module Sample.

Inductive Env : Set := env.

#[global] Instance fields : FieldTypeResolver Env unit :=
  fun _ f => if decide (f = "user.name") then Some () else None.
#[global] Instance values : ValueTypeResolver Env string unit := fun _ _ => ().
#[global] Instance comparisons : ComparisonTypePolicy Env unit unit :=
  fun _ _ op _ => if decide (op = Op_Eq) then Ok tt else Err InvalidOperator.
#[global] Instance profiles : EventFieldProfileResolver Env string string unit := fun _ _ => Ok ().
#[global] Instance plans :
  EventExecutionPlanCompiler Env string string unit (EventPredicate string string) :=
  {| supported_backends_of _ _ _ := Ok (mkExecutionBackendCapabilities true false);
     compile_event_plan _ _ p _ := Ok p |}.
#[global] Instance plan_view : EventExecutionPlanView (EventPredicate string string) string string :=
  fun p => p.

(** A missing field is an error, a string is compared by equality. *)
#[global] Instance policy : EventLeafEvaluationPolicy Env string string Value unit := {|
  evaluate_exists _ _ st := match st with Present _ => Ok true | _ => Ok false end;
  evaluate_comparison _ _ st _ v :=
    match st with
    | Present (mkValue (Some (StringValue s))) => Ok (String.eqb s v)
    | _ => Err ()
    end |}.

Definition event_with (fields : list (string * Value)) : NormalizedEvent :=
  mkNormalizedEvent "018f0000-0000-7000-8000-000000000001" "018f0000-0000-7000-8000-000000000002"
    "018f0000-0000-7000-8000-000000000003" (Some (mkTimestamp 1700000000 0)) "1.1.0" 3002 3 None None
    (Some (mkStruct fields)) "parser" "1" 1 "sha256" "" "1".

Definition str_value (s : string) : Value := mkValue (Some (StringValue s)).
Definition user (name : string) : NormalizedEventFieldView :=
  mkNormalizedEventFieldView
    (event_with [("user", mkValue (Some (StructValue (mkStruct [("name", str_value name)]))))]).

Definition is_root : DetectionExpression string string :=
  Expr_Comparison (mkComparisonExpression "user.name" Op_Eq "root").
Definition rule : DetectionExpression string string :=
  Expr_Boolean (Bool_And [is_root; Expr_Exists (mkExistsExpression "user.name")]).
Definition stages := mkStages mkIdentityEventAstOptimizer env env.
Definition compiled : CompiledEventExecutionPlan (EventPredicate string string) unit :=
  mkCompiledEventExecutionPlan (lower_event_predicate rule) ()
    (mkExecutionBackendCapabilities true false).

End Sample.

(** ** Properties *)

(** C8: a compiled plan detects what its rule says.  When the optimizer
    preserves the meaning of this rule on this event and the plan compiler
    keeps the predicate it is given, evaluating the compiled plan returns the
    AST's own result: Match or NoMatch as the expression is true or false, and
    the same policy error otherwise. *)
Theorem compiled_plan_detects_source_rule
    {Field RuleValue EventValue FieldType ValueType Profile Plan FR VR P Optimizer ProfileResolver
     PlanCompiler View Policy Error}
    `{AsRefStr Field} `{FieldTypeResolver FR FieldType} `{ValueTypeResolver VR RuleValue ValueType}
    `{ComparisonTypePolicy P FieldType ValueType} `{EventAstOptimizer Optimizer Field RuleValue}
    `{EventFieldProfileResolver ProfileResolver Field RuleValue Profile}
    `{EventExecutionPlanCompiler PlanCompiler Field RuleValue Profile Plan}
    `{EventFieldView View Field EventValue}
    `{EventLeafEvaluationPolicy Policy Field RuleValue EventValue Error}
    `{EventExecutionPlanView Plan Field RuleValue}
    e backend (fr : FR) (vr : VR) (types : P)
    (stages : EventCompilationStages Optimizer ProfileResolver PlanCompiler)
    (c : CompiledEventExecutionPlan Plan Profile) (event : View) (policy : Policy)
    (Hcompile : compile_event_execution_plan e backend fr vr types stages = Ok c)
    (Hoptimizer : forall e', optimize_event_ast (st_optimizer stages) e = Ok e' ->
       evaluate_expression event policy e' = evaluate_expression event policy e)
    (Hplan : forall p profile plan,
       compile_event_plan (st_plan_compiler stages) backend p profile = Ok plan ->
       event_predicates plan = p) :
  evaluate_event_execution_plan event policy (cp_plan c) =
    (let? b := evaluate_expression event policy e in Ok (to_evaluation_result b)) /\
  supports (cp_supported_backends c) backend = true.
Proof.
  apply compile_event_ok_iff in Hcompile as (_ & _ & e' & Hopt & _ & _ & _ & _ & Hs & Hp).
  split; [|done]. by rewrite evaluate_plan_spec, (Hplan _ _ _ Hp), evaluate_lowered, (Hoptimizer _ Hopt).
Qed.

Lemma compiled_plan_detects_source_rule_witness :
  evaluate_event_execution_plan (Sample.user "root") Sample.env (cp_plan Sample.compiled) = Ok Match /\
  evaluate_event_execution_plan (Sample.user "bob") Sample.env (cp_plan Sample.compiled) = Ok NoMatch.
Proof.
  split.
  - refine (proj1 (compiled_plan_detects_source_rule Sample.rule ClickHouse Sample.env Sample.env
      Sample.env Sample.stages Sample.compiled (Sample.user "root") Sample.env _ _ _)).
    + vm_compute. reflexivity.
    + intros e' He. injection He as <-. reflexivity.
    + intros p profile plan Hp. injection Hp as <-. reflexivity.
  - refine (proj1 (compiled_plan_detects_source_rule Sample.rule ClickHouse Sample.env Sample.env
      Sample.env Sample.stages Sample.compiled (Sample.user "bob") Sample.env _ _ _)).
    + vm_compute. reflexivity.
    + intros e' He. injection He as <-. reflexivity.
    + intros p profile plan Hp. injection Hp as <-. reflexivity.
Defined.

(** A dotted path into the OCSF event is [Present v] exactly when its
    non-empty segments lead through objects to the non-null value [v], [Null]
    exactly when a prefix leads to null, and [Absent] exactly when the path
    reaches an object that lacks the next (non-empty) member; every other
    shape is [Malformed]. *)
Theorem resolve_ocsf_field_spec (root : Struct) (path : string) :
  path <> "" ->
  let segments := split_char "." path in
  (forall v, resolve_ocsf_field root path = Present v <-> denotes root segments v /\ is_value v) /\
  (resolve_ocsf_field root path = Null <->
     exists pre post v, segments = pre ++ post /\ denotes root pre v /\ is_null v) /\
  (resolve_ocsf_field root path = Absent <->
     exists pre k post o, segments = pre ++ k :: post /\ object_at root pre o /\ k <> "" /\
       bt_get k (struct_fields o) = None).
Proof.
  intros Hp. unfold resolve_ocsf_field. rewrite (proj2 (not_empty_iff path) Hp).
  split_and!; [intros v; apply resolve_Present|apply resolve_Null|apply resolve_Absent].
Qed.

Lemma resolve_ocsf_field_spec_witness :
  resolve_ocsf_field (mkStruct [("user", mkValue (Some (StructValue (mkStruct []))))]) "user.name" = Absent.
Proof.
  refine (proj2 (proj2 (proj2 (resolve_ocsf_field_spec
    (mkStruct [("user", mkValue (Some (StructValue (mkStruct []))))]) "user.name" _))) _).
  - discriminate.
  - exists ["user"], "name", [], (mkStruct []). split; [vm_compute; reflexivity|].
    split; [right; constructor; [discriminate|vm_compute; reflexivity]|].
    split; [discriminate|reflexivity].
Defined.
