(* ===== verification/EventSignal.v ===== *)
(** * EVENT matches and their Signals

    crates/cerbero-detection-core/src/event_signal.rs and
    event_signal_materializer.rs. *)

From S2P Require Import Prelude RustStd ContractTypes Validation SignalContract RuleContract DetectionAst EventPipeline.

(** [fmt::Display] *)
Class Display (A : Type) := to_string : A -> string.
#[global] Instance Display_string : Display string := fun s => s.

(** ** event_signal.rs *)

Record EventSignalProvenance (RuleVersion : Type) := mkEventSignalProvenance {
  ep_rule_id : RuleId;
  ep_rule_version : RuleVersion;
  ep_normalized_event_id : string;
  ep_evaluated_at : Timestamp;
  ep_execution_backend : ExecutionBackend;
  ep_execution_mode : ExecutionMode;
}.
Arguments mkEventSignalProvenance {RuleVersion}.
Arguments ep_rule_id {RuleVersion}.
Arguments ep_rule_version {RuleVersion}.
Arguments ep_normalized_event_id {RuleVersion}.
Arguments ep_evaluated_at {RuleVersion}.
Arguments ep_execution_backend {RuleVersion}.
Arguments ep_execution_mode {RuleVersion}.

Inductive EventSignalEvaluationResult (RuleVersion : Type) : Type :=
| Signal_NoMatch
| Signal_Match (provenance : EventSignalProvenance RuleVersion).
Arguments Signal_NoMatch {RuleVersion}.
Arguments Signal_Match {RuleVersion}.

Inductive EventSignalEvaluationError (PolicyError : Type) : Type :=
| EventSignal_Policy (error : PolicyError)
| EventSignal_InvalidProvenance (error : ContractViolation)
| EventSignal_UnspecifiedExecutionMode.
Arguments EventSignal_Policy {PolicyError}.
Arguments EventSignal_InvalidProvenance {PolicyError}.
Arguments EventSignal_UnspecifiedExecutionMode {PolicyError}.

Definition EventSignalEvaluationError_fmt {PolicyError} `{Display PolicyError}
    (e : EventSignalEvaluationError PolicyError) : string :=
  match e with
  | EventSignal_Policy error => "EVENT evaluation failed: " +:+ to_string error
  | EventSignal_InvalidProvenance error =>
      "invalid Signal provenance: " +:+ ContractViolation_display error
  | EventSignal_UnspecifiedExecutionMode =>
      "Signal provenance requires LIVE, REPLAY, or TEST execution mode"
  end.

Class EventSignalExecutionPlanView (Plan RuleVersion : Type) := {
  signal_rule_id : Plan -> RuleId;
  signal_rule_version : Plan -> RuleVersion;
  signal_execution_backend : Plan -> ExecutionBackend;
}.

#[global] Instance ExecutionPlan_signal_view
    {PlanId RuleVersion RequiredFields Predicates Grouping Window ResourceLimits PlanHash} :
  EventSignalExecutionPlanView
    (ExecutionPlan PlanId RuleVersion RequiredFields Predicates Grouping Window ResourceLimits PlanHash)
    RuleVersion :=
  {| signal_rule_id plan := pl_rule_id plan;
     signal_rule_version plan := pl_rule_version plan;
     signal_execution_backend plan := pl_backend plan |}.

Section EventSignal.
Context {Field RuleValue RuleVersion Plan Policy Error : Type}.
Context `{AsRefStr Field} `{EventExecutionPlanView Plan Field RuleValue}.
Context `{EventSignalExecutionPlanView Plan RuleVersion}.
Context `{EventLeafEvaluationPolicy Policy Field RuleValue Value Error}.

Definition evaluate_normalized_event_for_signal (plan : Plan) (event : NormalizedEvent)
    (execution_mode : ExecutionMode) (evaluated_at : Timestamp) (policy : Policy)
    : result (EventSignalEvaluationResult RuleVersion) (EventSignalEvaluationError Error) :=
  map_err EventSignal_InvalidProvenance
    (validate_uuid_v7 "normalized_event_id" (ne_normalized_event_id event)) ;;?
  map_err EventSignal_InvalidProvenance (validate_timestamp "evaluated_at" evaluated_at) ;;?
  reject_if (bool_decide (execution_mode = ExecutionMode_Unspecified))
    EventSignal_UnspecifiedExecutionMode ;;?
  let view := mkNormalizedEventFieldView event in
  let? evaluation := map_err EventSignal_Policy (evaluate_event_execution_plan view policy plan) in
  match evaluation with
  | NoMatch => Ok Signal_NoMatch
  | Match =>
      Ok (Signal_Match (mkEventSignalProvenance (signal_rule_id plan) (signal_rule_version plan)
            (ne_normalized_event_id event) evaluated_at (signal_execution_backend plan)
            execution_mode))
  end.
End EventSignal.

(** ** event_signal_materializer.rs *)

Record EventSignalMaterializationContext := mkEventSignalMaterializationContext {
  ec_signal_id : string;
  ec_severity : string;
  ec_confidence : option string;
  ec_summary : string;
  ec_input_relation : string;
  ec_created_at : Timestamp;
  ec_source_event_time : option Timestamp;
}.

Definition contract_backend (backend : ExecutionBackend) : DetectionExecutionBackend :=
  match backend with
  | ClickHouse => DetectionExecutionBackend_Clickhouse
  | Stream => DetectionExecutionBackend_Stream
  end.

Definition event_signal {RuleVersion} `{Display RuleVersion}
    (provenance : EventSignalProvenance RuleVersion) (event : NormalizedEvent)
    (context : EventSignalMaterializationContext) : Signal :=
  mkSignal (ec_signal_id context) (ne_tenant_id event) (RuleId_as_str (ep_rule_id provenance))
    (to_string (ep_rule_version provenance)) (SignalRuleType_as_i32 SignalRuleType_Event)
    (ec_severity context) (ec_confidence context) (SignalStatus_as_i32 SignalStatus_Active)
    (ec_source_event_time context) (ec_source_event_time context) (Some (ec_created_at context))
    (ExecutionMode_as_i32 (ep_execution_mode provenance)) 1 1 (ec_summary context)
    (Some (mkSignalProvenance (Some (ep_evaluated_at provenance))
             (DetectionExecutionBackend_as_i32 (contract_backend (ep_execution_backend provenance)))))
    [mkSignalInput (ec_signal_id context) (SignalInputType_as_i32 SignalInputType_NormalizedEvent)
       (ne_normalized_event_id event) (ec_input_relation context) 0].

Definition materialize_event_signal {RuleVersion} `{Display RuleVersion}
    (provenance : EventSignalProvenance RuleVersion) (event : NormalizedEvent)
    (context : EventSignalMaterializationContext) : result Signal ContractViolation :=
  reject_if (negb (String.eqb (ep_normalized_event_id provenance) (ne_normalized_event_id event)))
    (violation "normalized_event_id" "must match EventSignalProvenance.normalized_event_id") ;;?
  let signal := event_signal provenance event context in
  validate_signal signal ;;?
  Ok signal.

(** ** Lemmas *)

Section EventSignalLemmas.
Context {Field RuleValue RuleVersion Plan Policy Error : Type}.
Context `{AsRefStr Field} `{EventExecutionPlanView Plan Field RuleValue}.
Context `{EventSignalExecutionPlanView Plan RuleVersion}.
Context `{EventLeafEvaluationPolicy Policy Field RuleValue Value Error}.

Definition event_provenance (plan : Plan) (event : NormalizedEvent) (mode : ExecutionMode)
    (at_ : Timestamp) : EventSignalProvenance RuleVersion :=
  mkEventSignalProvenance (signal_rule_id plan) (signal_rule_version plan)
    (ne_normalized_event_id event) at_ (signal_execution_backend plan) mode.

Lemma evaluate_for_signal_ok_iff (plan : Plan) event mode at_ (policy : Policy) r :
  evaluate_normalized_event_for_signal plan event mode at_ policy = Ok r <->
  uuid_v7 (ne_normalized_event_id event) /\ timestamp_ok at_ /\ mode <> ExecutionMode_Unspecified /\
  exists b, evaluate_predicate (mkNormalizedEventFieldView event) policy (event_predicates plan) = Ok b /\
    r = if b then Signal_Match (event_provenance plan event mode at_) else Signal_NoMatch.
Proof.
  unfold evaluate_normalized_event_for_signal. ok_iff. rewrite bool_decide_eq_false.
  do 3 f_equiv. rewrite evaluate_plan_spec.
  destruct (evaluate_predicate _ _ _) as [[]| |]; simpl; split;
    try (intros (b & [= <-] & ->)); try intros [= <-]; eauto; naive_solver.
Qed.
End EventSignalLemmas.

(** What a producer must supply for an EVENT match to become a Signal. *)
Definition event_context_ok (c : EventSignalMaterializationContext) : Prop :=
  uuid_v7 (ec_signal_id c) /\ has_text (ec_severity c) /\ if_some has_text (ec_confidence c) /\
  has_text (ec_summary c) /\ has_text (ec_input_relation c) /\ timestamp_ok (ec_created_at c) /\
  if_some timestamp_ok (ec_source_event_time c).

Lemma ExecutionMode_range m :
  (1 <= ExecutionMode_as_i32 m <= 3)%Z <-> m <> ExecutionMode_Unspecified.
Proof. destruct m; simpl; (split; [done || (intros; lia)|intros; (done || lia)]). Qed.

Lemma contract_backend_range b :
  (1 <= DetectionExecutionBackend_as_i32 (contract_backend b) <= 2)%Z.
Proof. destruct b; simpl; lia. Qed.

Lemma timestamp_le_refl t : timestamp_le t t = true.
Proof. unfold timestamp_le, cmp_le. by rewrite cmp_refl. Qed.

Lemma interval_ok_same t : interval_ok t t <-> if_some timestamp_ok t.
Proof.
  unfold interval_ok, if_some. destruct t as [t|]; [|naive_solver].
  rewrite timestamp_le_refl. naive_solver.
Qed.

Lemma NoDup_singleton_iff {A} (x : A) : NoDup [x] <-> True.
Proof. split; [done|intros _; apply NoDup_singleton]. Qed.

Lemma event_signal_inputs_ok {RuleVersion} `{Display RuleVersion}
    (p : EventSignalProvenance RuleVersion) event c :
  signal_inputs_ok (event_signal p event c) <->
  uuid_v7 (ne_normalized_event_id event) /\ has_text (ec_input_relation c).
Proof.
  unfold signal_inputs_ok, event_signal, signal_input_ok. simpl. rewrite NoDup_singleton_iff. split.
  - intros (_ & Hin & _). destruct (Hin 0 _ eq_refl) as (_ & _ & ? & ? & _). done.
  - intros [? ?]. split_and!; [done| |done]. intros [|i] input Hi; [|done].
    simpl in Hi. injection Hi as <-. simpl. unfold u32_max. split_and!; try (done || lia).
Qed.

(** The Signal contract of a materialized EVENT match, in terms of the inputs
    of the materializer. *)
Lemma event_signal_ok_iff {RuleVersion} `{Display RuleVersion}
    (p : EventSignalProvenance RuleVersion) event c :
  signal_ok (event_signal p event c) <->
  event_context_ok c /\ uuid_v7 (ne_tenant_id event) /\ uuid_v7 (ne_normalized_event_id event) /\
  detection_rule_id (RuleId_as_str (ep_rule_id p)) /\ has_text (to_string (ep_rule_version p)) /\
  timestamp_ok (ep_evaluated_at p) /\ ep_execution_mode p <> ExecutionMode_Unspecified.
Proof.
  unfold signal_ok, signal_identity_ok, signal_rule_counts_ok, event_context_ok.
  rewrite event_signal_inputs_ok. simpl. rewrite interval_ok_same, ExecutionMode_range.
  pose proof (contract_backend_range (ep_execution_backend p)). unfold some_and.
  unfold SIGNAL_RULE_TYPE_EVENT, SIGNAL_RULE_TYPE_THRESHOLD, SIGNAL_RULE_TYPE_CORRELATION.
  split.
  - intros ((?&?&?&?&?&?&?&?&?) & ? & (? & [= <-] & ?) & _ & _ & ? & (? & [= <-] & (? & [= <-] & ?) & _)
      & (? & ?) & _). split_and!; done.
  - intros ((?&?&?&?&?&?&?) & ?&?&?&?&?&?). split_and!; try (done || lia); eauto.
    eexists. split; [reflexivity|]. simpl. eauto.
Qed.

Lemma materialize_event_ok_iff {RuleVersion} `{Display RuleVersion}
    (p : EventSignalProvenance RuleVersion) event c s :
  materialize_event_signal p event c = Ok s <->
  ep_normalized_event_id p = ne_normalized_event_id event /\
  s = event_signal p event c /\ signal_ok s.
Proof.
  unfold materialize_event_signal. cbv zeta. ok_iff. rewrite validate_signal_ok_iff. naive_solver.
Qed.

(** ** Properties *)

(** From a match to a valid Signal.  A provenance that the evaluator
    returned, whose plan carries a parsed rule id and a printable version,
    materializes for every producer context that meets the contract and an
    event of a valid tenant; the Signal is an ACTIVE EVENT Signal with exactly
    one input, the evaluated event, and it passes the Signal validator. *)
Theorem event_match_materializes
    {Field RuleValue RuleVersion Plan Policy Error} `{AsRefStr Field}
    `{EventExecutionPlanView Plan Field RuleValue} `{EventSignalExecutionPlanView Plan RuleVersion}
    `{EventLeafEvaluationPolicy Policy Field RuleValue Value Error} `{Display RuleVersion}
    (plan : Plan) event mode at_ (policy : Policy) p (rule : string) c
    (Hmatch : evaluate_normalized_event_for_signal plan event mode at_ policy = Ok (Signal_Match p))
    (Hrule : RuleId_from_str rule = Ok (signal_rule_id plan))
    (Hversion : has_text (to_string (signal_rule_version plan)))
    (Htenant : uuid_v7 (ne_tenant_id event))
    (Hcontext : event_context_ok c) :
  exists s, materialize_event_signal p event c = Ok s /\ validate_signal s = Ok tt /\
    sg_rule_id s = rule /\ sg_tenant_id s = ne_tenant_id event /\
    sg_rule_type s = SignalRuleType_as_i32 SignalRuleType_Event /\
    si_input_id <$> sg_inputs s = [ne_normalized_event_id event].
Proof.
  apply evaluate_for_signal_ok_iff in Hmatch as (Hid & Hat & Hmode & b & _ & Hr).
  destruct b; [|done]. injection Hr as ->. apply RuleId_from_str_ok_iff in Hrule as [Hrule Hid'].
  assert (signal_ok (event_signal (event_provenance plan event mode at_) event c)) as Hok.
  { apply event_signal_ok_iff. unfold event_provenance. simpl. rewrite Hid'. done. }
  exists (event_signal (event_provenance plan event mode at_) event c). split_and!; try done.
  - by apply materialize_event_ok_iff.
  - by apply validate_signal_ok_iff.
  - simpl. by rewrite Hid'.
Qed.

Module EventSignalSample.
Definition plan : ExecutionPlan () string () (EventPredicate string string) () () () () :=
  mkExecutionPlan () (mkRuleId "CER-DET-000001") "1.0.0" ClickHouse ()
    (lower_event_predicate Sample.rule) () () () ().
Definition event : NormalizedEvent := view_event (Sample.user "root").
Definition context : EventSignalMaterializationContext :=
  mkEventSignalMaterializationContext "018f0000-0000-7000-8000-00000000000a" "HIGH" None
    "root login" "matched" (mkTimestamp 1700000002 0) None.
Definition evaluated_at : Timestamp := mkTimestamp 1700000001 0.
Definition provenance : EventSignalProvenance string :=
  mkEventSignalProvenance (mkRuleId "CER-DET-000001") "1.0.0" (ne_normalized_event_id event)
    evaluated_at ClickHouse ExecutionMode_Live.
End EventSignalSample.

Lemma event_match_materializes_witness :
  exists s, materialize_event_signal EventSignalSample.provenance EventSignalSample.event
      EventSignalSample.context = Ok s /\ validate_signal s = Ok tt /\
    sg_rule_id s = "CER-DET-000001" /\ sg_tenant_id s = ne_tenant_id EventSignalSample.event /\
    sg_rule_type s = SignalRuleType_as_i32 SignalRuleType_Event /\
    si_input_id <$> sg_inputs s = [ne_normalized_event_id EventSignalSample.event].
Proof.
  apply (event_match_materializes EventSignalSample.plan EventSignalSample.event ExecutionMode_Live
    EventSignalSample.evaluated_at Sample.env EventSignalSample.provenance "CER-DET-000001"
    EventSignalSample.context).
  - vm_compute. reflexivity.
  - vm_compute. reflexivity.
  - vm_compute. discriminate.
  - apply (validate_uuid_v7_ok_iff "tenant_id"). vm_compute. reflexivity.
  - unfold event_context_ok. split_and!.
    + apply (validate_uuid_v7_ok_iff "signal_id"). vm_compute. reflexivity.
    + vm_compute. discriminate.
    + intros a Ha. discriminate.
    + vm_compute. discriminate.
    + vm_compute. discriminate.
    + apply (validate_timestamp_ok_iff "created_at"). vm_compute. reflexivity.
    + intros a Ha. discriminate.
Defined.

