(* ===== verification/Threshold.v ===== *)
(** * THRESHOLD rules: compilation, sliding-window evaluation, Signals

    crates/cerbero-detection-core/src/threshold.rs. *)

From S2P Require Import Prelude RustStd ContractTypes Validation SignalContract RuleContract DetectionAst EventPipeline EventSignal.

(** ** Rules and plans *)

Inductive ThresholdAggregation : Set := Aggregation_Count.

Inductive ThresholdTimeBasis : Set := EventTime | IngestTime.

Inductive ThresholdLateEventPolicy : Set :=
| Accept
| AcceptWithLimit (max_lateness_millis : Z)   (* u64 *)
| IgnoreForStream.

#[global] Instance ThresholdLateEventPolicy_eq_dec : EqDecision ThresholdLateEventPolicy.
Proof. solve_decision. Defined.

Record ThresholdWindow (Field : Type) := mkThresholdWindow {
  tw_duration_millis : Z;   (* u64 *)
  tw_time_basis : ThresholdTimeBasis;
  tw_time_field : Field;
  tw_late_event_policy : ThresholdLateEventPolicy;
}.
Arguments mkThresholdWindow {Field}.
Arguments tw_duration_millis {Field}.
Arguments tw_time_basis {Field}.
Arguments tw_time_field {Field}.
Arguments tw_late_event_policy {Field}.

Record ThresholdRule (Field RuleValue : Type) := mkThresholdRule {
  thr_filter : DetectionExpression Field RuleValue;
  thr_group_by : list Field;
  thr_aggregation : ThresholdAggregation;
  thr_threshold : Z;        (* u64 *)
  thr_window : ThresholdWindow Field;
}.
Arguments mkThresholdRule {Field RuleValue}.
Arguments thr_filter {Field RuleValue}.
Arguments thr_group_by {Field RuleValue}.
Arguments thr_aggregation {Field RuleValue}.
Arguments thr_threshold {Field RuleValue}.
Arguments thr_window {Field RuleValue}.

Record CompiledThresholdExecutionPlan (Plan Profile Field : Type) :=
mkCompiledThresholdExecutionPlan {
  tp_filter : CompiledEventExecutionPlan Plan Profile;
  tp_group_by : list Field;
  tp_aggregation : ThresholdAggregation;
  tp_threshold : Z;         (* u64 *)
  tp_window : ThresholdWindow Field;
  tp_supported_backends : ExecutionBackendCapabilities;
}.
Arguments mkCompiledThresholdExecutionPlan {Plan Profile Field}.
Arguments tp_filter {Plan Profile Field}.
Arguments tp_group_by {Plan Profile Field}.
Arguments tp_aggregation {Plan Profile Field}.
Arguments tp_threshold {Plan Profile Field}.
Arguments tp_window {Plan Profile Field}.
Arguments tp_supported_backends {Plan Profile Field}.

Section ThresholdCompiler.
Context {Field RuleValue FieldType ValueType Profile Plan : Type}.
Context {FR VR P Optimizer ProfileResolver PlanCompiler : Type}.
Context `{AsRefStr Field} `{FieldTypeResolver FR FieldType} `{ValueTypeResolver VR RuleValue ValueType}.
Context `{ComparisonTypePolicy P FieldType ValueType}.
Context `{EventAstOptimizer Optimizer Field RuleValue}.
Context `{EventFieldProfileResolver ProfileResolver Field RuleValue Profile}.
Context `{EventExecutionPlanCompiler PlanCompiler Field RuleValue Profile Plan}.

(** The body of [for (index, field) in rule.group_by.iter().enumerate()] *)
Definition check_group_field (group_by : list Field) (field_resolver : FR) (p : nat * Field)
    : result unit RuleCompilationErrorKind :=
  let '(index, field) := p in
  reject_if (existsb (fun previous => String.eqb (as_ref previous) (as_ref field))
               (take index group_by)) InvalidMapping ;;?
  let? _t := require_field_type field_resolver (as_ref field) in
  Ok tt.

Definition compile_threshold_execution_plan (rule : ThresholdRule Field RuleValue)
    (backend : ExecutionBackend) (field_resolver : FR) (value_resolver : VR)
    (comparison_policy : P)
    (stages : EventCompilationStages Optimizer ProfileResolver PlanCompiler)
    : result (CompiledThresholdExecutionPlan Plan Profile Field) RuleCompilationErrorKind :=
  reject_if (bool_decide (backend <> ClickHouse)) UnsupportedBackend ;;?
  reject_if (match thr_group_by rule with [] => true | _ => false end
             || (thr_threshold rule =? 0)%Z) InvalidMapping ;;?
  reject_if ((tw_duration_millis (thr_window rule) =? 0)%Z
             || match try_from in_i64 (tw_duration_millis (thr_window rule)) with
                | None => true | Some _ => false
                end) InvalidWindow ;;?
  reject_if (bool_decide (tw_late_event_policy (thr_window rule) <> Accept)) UnsupportedBackend ;;?
  iter_m (check_group_field (thr_group_by rule) field_resolver) (enumerate (thr_group_by rule)) ;;?
  let? _t := require_field_type field_resolver (as_ref (tw_time_field (thr_window rule))) in
  let? filter := compile_event_execution_plan (thr_filter rule) backend field_resolver value_resolver
    comparison_policy stages in
  Ok (mkCompiledThresholdExecutionPlan filter (thr_group_by rule) (thr_aggregation rule)
        (thr_threshold rule) (thr_window rule) (mkExecutionBackendCapabilities true false)).
End ThresholdCompiler.

(** ** Evaluation *)

(** [ThresholdEvaluationPolicy]: the part it adds to [EventLeafEvaluationPolicy] *)
Class ThresholdEvaluationPolicy (Policy Field GroupKey Error : Type) := {
  threshold_group_key : Policy -> list Field -> NormalizedEvent -> result (option GroupKey) Error;
  threshold_event_time_millis :
    Policy -> ThresholdTimeBasis -> Field -> NormalizedEvent -> result (option Z) Error;
}.

Record ThresholdSignalProvenance (RuleVersion : Type) := mkThresholdSignalProvenance {
  tv_rule_id : RuleId;
  tv_rule_version : RuleVersion;
  tv_tenant_id : string;
  tv_normalized_event_ids : list string;
  tv_first_observed_at : Timestamp;
  tv_last_observed_at : Timestamp;
  tv_evaluated_at : Timestamp;
  tv_execution_backend : ExecutionBackend;
  tv_execution_mode : ExecutionMode;
}.
Arguments mkThresholdSignalProvenance {RuleVersion}.
Arguments tv_rule_id {RuleVersion}.
Arguments tv_rule_version {RuleVersion}.
Arguments tv_tenant_id {RuleVersion}.
Arguments tv_normalized_event_ids {RuleVersion}.
Arguments tv_first_observed_at {RuleVersion}.
Arguments tv_last_observed_at {RuleVersion}.
Arguments tv_evaluated_at {RuleVersion}.
Arguments tv_execution_backend {RuleVersion}.
Arguments tv_execution_mode {RuleVersion}.

Inductive ThresholdEvaluationError (PolicyError : Type) : Type :=
| Threshold_Policy (error : PolicyError)
| Threshold_InvalidProvenance (error : ContractViolation)
| Threshold_UnspecifiedExecutionMode.
Arguments Threshold_Policy {PolicyError}.
Arguments Threshold_InvalidProvenance {PolicyError}.
Arguments Threshold_UnspecifiedExecutionMode {PolicyError}.

Definition ThresholdEvaluationError_fmt {PolicyError} `{Display PolicyError}
    (e : ThresholdEvaluationError PolicyError) : string :=
  match e with
  | Threshold_Policy error => "THRESHOLD evaluation failed: " +:+ to_string error
  | Threshold_InvalidProvenance error =>
      "invalid THRESHOLD provenance: " +:+ ContractViolation_display error
  | Threshold_UnspecifiedExecutionMode =>
      "THRESHOLD provenance requires LIVE, REPLAY, or TEST execution mode"
  end.

Record Candidate := mkCandidate {
  ca_normalized_event_id : string;
  ca_event_time_millis : Z;   (* i64 *)
}.

#[global] Instance Candidate_eq_dec : EqDecision Candidate.
Proof. solve_decision. Defined.

Definition timestamp_from_millis {E} (value : Z) : result Timestamp E :=
  match try_from in_i32 (value mod 1000 * 1000000) with
  | Some nanos => Ok (mkTimestamp (value / 1000) nanos)
  | None => Panic "millisecond remainder always fits i32 nanos"
  end.

(** [left.event_time_millis.cmp(..).then_with(|| left.normalized_event_id.cmp(..))] *)
Definition candidate_cmp (left right : Candidate) : comparison :=
  then_with (cmp (ca_event_time_millis left) (ca_event_time_millis right))
    (cmp (ca_normalized_event_id left) (ca_normalized_event_id right)).

Section SlidingWindow.
Context {E : Type}.
Variables (candidates : list Candidate) (window_millis threshold : Z).

(** [while left <= right && candidates[right].time - candidates[left].time > window { left += 1 }] *)
Fixpoint advance_left (fuel right left : nat) : result nat E :=
  match fuel with
  | O => Panic "out of fuel"
  | S fuel =>
      if (left <=? right)%nat then
        let? r := index candidates right in
        let? l := index candidates left in
        if (window_millis <? ca_event_time_millis r - ca_event_time_millis l)%Z
        then advance_left fuel right (S left) else Ok left
      else Ok left
  end.

(** [candidates[left..=right]] *)
Definition slice_inclusive (left right : nat) : result (list Candidate) E :=
  if (left <=? S right)%nat && (right <? length candidates)%nat
  then Ok (take (S right - left) (drop left candidates)) else Panic "slice index out of range".

(** [right + 1 - left] on [usize] *)
Definition usize_sub (a b : nat) : result nat E :=
  if (b <=? a)%nat then Ok (a - b) else Panic "attempt to subtract with overflow".

(** [for right in ..]: the contributors of the first window that reaches the
    threshold, if any *)
Fixpoint scan_windows (rights : list nat) (left : nat) : result (option (list Candidate)) E :=
  match rights with
  | [] => Ok None
  | right_ :: rights =>
      let? left := advance_left (S (S right_)) right_ left in
      let? n := usize_sub (S right_) left in
      if (Z.of_nat n <? threshold)%Z then scan_windows rights left else
      let? contributors := slice_inclusive left right_ in
      Ok (Some contributors)
  end.

Definition first_window : result (option (list Candidate)) E :=
  scan_windows (seq 0 (length candidates)) 0.
End SlidingWindow.

Section ThresholdEvaluation.
Context {Field RuleValue RuleVersion GroupKey Plan Profile Policy Error : Type}.
Context `{AsRefStr Field} `{EventExecutionPlanView Plan Field RuleValue}.
Context `{EventSignalExecutionPlanView Plan RuleVersion}.
Context `{EventLeafEvaluationPolicy Policy Field RuleValue Value Error}.
Context `{ThresholdEvaluationPolicy Policy Field GroupKey Error} `{Ord GroupKey}.
Variables (plan : CompiledThresholdExecutionPlan Plan Profile Field) (policy : Policy).

Definition Groups : Type := BTreeMap (string * GroupKey) (list Candidate).

(** The filter, the grouping key and the clock of one event: [None] is a
    [continue]. *)
Definition threshold_candidate (event : NormalizedEvent)
    : result (option ((string * GroupKey) * Candidate)) (ThresholdEvaluationError Error) :=
  let view := mkNormalizedEventFieldView event in
  let? evaluation := map_err Threshold_Policy
    (evaluate_event_execution_plan view policy (cp_plan (tp_filter plan))) in
  match evaluation with
  | NoMatch => Ok None
  | Match =>
      let? group_key := map_err Threshold_Policy (threshold_group_key policy (tp_group_by plan) event) in
      match group_key with
      | None => Ok None
      | Some group_key =>
          let? event_time_millis := map_err Threshold_Policy
            (threshold_event_time_millis policy (tw_time_basis (tp_window plan))
               (tw_time_field (tp_window plan)) event) in
          match event_time_millis with
          | None => Ok None
          | Some event_time_millis =>
              Ok (Some ((ne_tenant_id event, group_key),
                        mkCandidate (ne_normalized_event_id event) event_time_millis))
          end
      end
  end.

(** The body of [for event in events] *)
Definition threshold_step (st : gset string * Groups) (event : NormalizedEvent)
    : result (gset string * Groups) (ThresholdEvaluationError Error) :=
  let '(seen_event_ids, groups) := st in
  map_err Threshold_InvalidProvenance
    (validate_uuid_v7 "normalized_event_id" (ne_normalized_event_id event)) ;;?
  map_err Threshold_InvalidProvenance (validate_uuid_v7 "tenant_id" (ne_tenant_id event)) ;;?
  if bool_decide (ne_normalized_event_id event ∈ seen_event_ids) then Ok (seen_event_ids, groups) else
  let seen_event_ids := {[ne_normalized_event_id event]} ∪ seen_event_ids in
  let? candidate := threshold_candidate event in
  match candidate with
  | None => Ok (seen_event_ids, groups)
  | Some (key, candidate) => Ok (seen_event_ids, bt_push key candidate groups)
  end.

(** The provenance of a qualifying window *)
Definition threshold_provenance (tenant_id : string) (contributors : list Candidate)
    (execution_mode : ExecutionMode) (evaluated_at : Timestamp)
    : result (ThresholdSignalProvenance RuleVersion) (ThresholdEvaluationError Error) :=
  let? first := index contributors 0 in
  let? first_observed_at := timestamp_from_millis (ca_event_time_millis first) in
  let? last_index := usize_sub (length contributors) 1 in
  let? last := index contributors last_index in
  let? last_observed_at := timestamp_from_millis (ca_event_time_millis last) in
  map_err Threshold_InvalidProvenance (validate_timestamp "first_observed_at" first_observed_at) ;;?
  map_err Threshold_InvalidProvenance (validate_timestamp "last_observed_at" last_observed_at) ;;?
  Ok (mkThresholdSignalProvenance (signal_rule_id (cp_plan (tp_filter plan)))
        (signal_rule_version (cp_plan (tp_filter plan))) tenant_id
        (ca_normalized_event_id <$> contributors) first_observed_at last_observed_at evaluated_at
        (signal_execution_backend (cp_plan (tp_filter plan))) execution_mode).

(** The body of [for ((tenant_id, _group_key), mut candidates) in groups] *)
Definition threshold_group_step (window_millis threshold : Z) (execution_mode : ExecutionMode)
    (evaluated_at : Timestamp) (matches : list (ThresholdSignalProvenance RuleVersion))
    (group : (string * GroupKey) * list Candidate)
    : result (list (ThresholdSignalProvenance RuleVersion)) (ThresholdEvaluationError Error) :=
  let '((tenant_id, _), candidates) := group in
  let candidates := sort_by candidate_cmp candidates in
  let? window := first_window candidates window_millis threshold in
  match window with
  | None => Ok matches
  | Some contributors =>
      let? provenance := threshold_provenance tenant_id contributors execution_mode evaluated_at in
      Ok (matches ++ [provenance])
  end.

Definition evaluate_threshold_normalized_events (events : list NormalizedEvent)
    (execution_mode : ExecutionMode) (evaluated_at : Timestamp)
    : result (list (ThresholdSignalProvenance RuleVersion)) (ThresholdEvaluationError Error) :=
  map_err Threshold_InvalidProvenance (validate_timestamp "evaluated_at" evaluated_at) ;;?
  reject_if (bool_decide (execution_mode = ExecutionMode_Unspecified))
    Threshold_UnspecifiedExecutionMode ;;?
  let? threshold := ok_or (try_from in_usize (tp_threshold plan))
    (Threshold_InvalidProvenance (violation "threshold" "exceeds platform collection capacity")) in
  let? window_millis := ok_or (try_from in_i64 (tw_duration_millis (tp_window plan)))
    (Threshold_InvalidProvenance
       (violation "window.duration_millis" "exceeds supported deterministic batch range")) in
  let? '(_, groups) := fold_m threshold_step events (∅, []) in
  fold_m (threshold_group_step window_millis threshold execution_mode evaluated_at) groups [].
End ThresholdEvaluation.

(** ** Materialization *)

Record ThresholdSignalMaterializationContext := mkThresholdSignalMaterializationContext {
  tc_signal_id : string;
  tc_severity : string;
  tc_confidence : option string;
  tc_summary : string;
  tc_input_relation : string;
  tc_created_at : Timestamp;
  tc_source_count : Z;   (* u64 *)
}.

Definition threshold_signal_input (context : ThresholdSignalMaterializationContext)
    (p : nat * string) : result SignalInput ContractViolation :=
  let '(index, input_id) := p in
  let? ordinal := ok_or (try_from in_u32 (Z.of_nat index))
    (violation "inputs.ordinal" "input list exceeds uint32 ordinal capacity") in
  Ok (mkSignalInput (tc_signal_id context) (SignalInputType_as_i32 SignalInputType_NormalizedEvent)
        input_id (tc_input_relation context) ordinal).

Definition threshold_signal {RuleVersion} `{Display RuleVersion}
    (provenance : ThresholdSignalProvenance RuleVersion)
    (context : ThresholdSignalMaterializationContext) (event_count : Z) (inputs : list SignalInput)
    : Signal :=
  mkSignal (tc_signal_id context) (tv_tenant_id provenance) (RuleId_as_str (tv_rule_id provenance))
    (to_string (tv_rule_version provenance)) (SignalRuleType_as_i32 SignalRuleType_Threshold)
    (tc_severity context) (tc_confidence context) (SignalStatus_as_i32 SignalStatus_Active)
    (Some (tv_first_observed_at provenance)) (Some (tv_last_observed_at provenance))
    (Some (tc_created_at context)) (ExecutionMode_as_i32 (tv_execution_mode provenance))
    (tc_source_count context) event_count (tc_summary context)
    (Some (mkSignalProvenance (Some (tv_evaluated_at provenance))
             (DetectionExecutionBackend_as_i32 (contract_backend (tv_execution_backend provenance)))))
    inputs.

Definition materialize_threshold_signal {RuleVersion} `{Display RuleVersion}
    (provenance : ThresholdSignalProvenance RuleVersion)
    (context : ThresholdSignalMaterializationContext) : result Signal ContractViolation :=
  reject_if (match tv_normalized_event_ids provenance with [] => true | _ => false end)
    (violation "normalized_event_ids" "THRESHOLD provenance requires contributing events") ;;?
  let? event_count := ok_or (try_from in_u64 (zlen (tv_normalized_event_ids provenance)))
    (violation "event_count" "contributing event list exceeds uint64 capacity") in
  let? inputs := map_m (threshold_signal_input context)
    (enumerate (tv_normalized_event_ids provenance)) in
  let signal := threshold_signal provenance context event_count inputs in
  validate_signal signal ;;?
  Ok signal.

(** ** The sliding window against its specification *)

Definition time_le (x y : Candidate) : Prop := (ca_event_time_millis x <= ca_event_time_millis y)%Z.

(** The clock of the [i]-th candidate. *)
Definition time_at (candidates : list Candidate) (i : nat) : Z :=
  from_option ca_event_time_millis 0%Z (candidates !! i).

(** The [n] candidates that end at index [r] fit in the window. *)
Definition qualifies (candidates : list Candidate) (w : Z) (n r : nat) : Prop :=
  r < length candidates /\ n <= S r /\
  (time_at candidates r - time_at candidates (S r - n) <= w)%Z.

(** [first_qualifying c w n window]: [window] is the block of [n] consecutive
    candidates with the smallest end that fits in the time window [w]. *)
Definition first_qualifying (candidates : list Candidate) (w : Z) (n : nat)
    (window : list Candidate) : Prop :=
  exists r, qualifies candidates w n r /\ (forall r', r' < r -> ~ qualifies candidates w n r') /\
    window = take n (drop (S r - n) candidates).

Section SlidingWindowLemmas.
Context {E : Type}.
Variables (candidates : list Candidate) (w : Z) (n : nat).
Hypotheses (Hsorted : StronglySorted time_le candidates) (Hw : (0 <= w)%Z) (Hn : 1 <= n).
Implicit Types i j r : nat.
Abbreviation tm := (time_at candidates).
Abbreviation adv := (advance_left (E := E) candidates w).

Lemma time_at_index i :
  i < length candidates ->
  exists c, index (E := E) candidates i = Ok c /\ ca_event_time_millis c = tm i.
Proof.
  intros [c Hc]%lookup_lt_is_Some. exists c. split; [by apply index_ok_iff|].
  unfold time_at. by rewrite Hc.
Qed.

Lemma time_at_mono i j : i <= j -> j < length candidates -> (tm i <= tm j)%Z.
Proof.
  clear Hw Hn. unfold time_at. revert i j.
  induction Hsorted as [|c l Hl IH Hc]; intros i j Hij Hj; simpl in Hj; [lia|].
  destruct i as [|i], j as [|j]; simpl; [lia| |lia|by apply IH; (done || lia)].
  destruct (lookup_lt_is_Some_2 l j) as [x Hx]; [lia|]. rewrite Hx. simpl.
  rewrite Forall_forall in Hc. apply Hc. by eapply list_elem_of_lookup_2.
Qed.

Lemma advance_left_spec fuel r left :
  r < length candidates -> left <= r -> r - left < fuel ->
  exists l, adv fuel r left = Ok l /\ left <= l <= r /\ (tm r - tm l <= w)%Z /\
    forall j, left <= j < l -> (w < tm r - tm j)%Z.
Proof.
  intros Hr. revert left. induction fuel as [|fuel IH]; intros left Hl Hf; [lia|]. simpl.
  rewrite (proj2 (Nat.leb_le left r) Hl).
  destruct (time_at_index r) as (cr & -> & Hcr); [lia|].
  destruct (time_at_index left) as (cl & -> & Hcl); [lia|]. simpl. rewrite Hcr, Hcl.
  destruct (Z.ltb_spec w (tm r - tm left)) as [Hlt|Hge].
  - destruct (decide (left = r)) as [->|Hne]; [lia|].
    destruct (IH (S left)) as (l & -> & ? & ? & Hj); [lia..|].
    exists l. split_and!; try (done || lia). intros j Hj'.
    destruct (decide (j = left)) as [->|]; [lia|]. apply Hj. lia.
  - exists left. split_and!; try (done || lia).
Qed.

(** One step of the scan, from a left end before which nothing is in reach. *)
Lemma scan_step_spec r left :
  r < length candidates -> left <= r ->
  (forall j, j < left -> (w < tm r - tm j)%Z) ->
  (forall r', r' < r -> ~ qualifies candidates w n r') ->
  exists l, adv (S (S r)) r left = Ok l /\ l <= r /\
    (forall j, j < l -> (w < tm r - tm j)%Z) /\
    (qualifies candidates w n r <-> n <= S r - l) /\ (qualifies candidates w n r -> l = S r - n).
Proof.
  intros Hr Hl Hout Hno. destruct (advance_left_spec (S (S r)) r left) as (l & Ha & ? & Hin & Hj); [lia..|].
  assert (forall j, j < l -> (w < tm r - tm j)%Z) as Hbefore.
  { intros j ?. destruct (decide (j < left)); [by apply Hout|]. apply Hj. lia. }
  assert (qualifies candidates w n r <-> n <= S r - l) as Hq.
  { unfold qualifies. split.
    - intros (_ & Hnr & Ht). destruct (decide (n <= S r - l)); [done|].
      specialize (Hbefore (S r - n)). lia.
    - intros ?. split_and!; [lia..|]. pose proof (time_at_mono l (S r - n)). lia. }
  exists l. split_and!; try (done || lia). intros Hqr. pose proof (proj1 Hq Hqr).
  destruct (decide (l = S r - n)) as [|Hne]; [done|]. exfalso.
  destruct r as [|r]; [lia|]. apply (Hno r); [lia|]. split_and!; [lia..|].
  pose proof (time_at_mono l (S r - n)). pose proof (time_at_mono r (S r)). lia.
Qed.

Lemma scan_windows_spec k r left :
  r + k = length candidates -> left <= r ->
  (forall j, j < left -> r < length candidates -> (w < tm r - tm j)%Z) ->
  (forall r', r' < r -> ~ qualifies candidates w n r') ->
  (exists window, scan_windows (E := E) candidates w (Z.of_nat n) (seq r k) left = Ok (Some window) /\
     first_qualifying candidates w n window) \/
  (scan_windows (E := E) candidates w (Z.of_nat n) (seq r k) left = Ok None /\
     forall r', ~ qualifies candidates w n r').
Proof.
  revert r left. induction k as [|k IH]; intros r left Hk Hl Hout Hno.
  - right. split; [done|]. intros r' Hq. destruct (decide (r' < r)); [by eapply Hno|].
    destruct Hq as [? _]. lia.
  - cbn [seq scan_windows].
    destruct (scan_step_spec r left) as (l & -> & Hlr & Hbefore & Hq & Hexact); [lia|done|eauto with lia|done|].
    cbn [bind]. unfold usize_sub. rewrite (proj2 (Nat.leb_le l (S r))) by lia. cbn [bind].
    destruct (Z.ltb_spec (Z.of_nat (S r - l)) (Z.of_nat n)) as [Hlt|Hge].
    + apply IH; [lia..| |].
      * intros j Hj Hr. specialize (Hbefore j Hj). pose proof (time_at_mono r (S r)). lia.
      * intros r' Hr'. destruct (decide (r' = r)) as [->|]; [rewrite Hq; lia|]. apply Hno. lia.
    + left. assert (qualifies candidates w n r) as Hqr by (apply Hq; lia).
      specialize (Hexact Hqr). subst l. unfold slice_inclusive.
      rewrite (proj2 (Nat.leb_le (S r - n) (S r))), (proj2 (Nat.ltb_lt r (length candidates))) by lia.
      cbn [andb bind]. eexists. split; [done|]. exists r. split_and!; try done.
      destruct Hqr as (_ & ? & _). f_equal. lia.
Qed.

Lemma first_window_spec :
  (exists window, first_window (E := E) candidates w (Z.of_nat n) = Ok (Some window) /\
     first_qualifying candidates w n window) \/
  (first_window (E := E) candidates w (Z.of_nat n) = Ok None /\
     forall r, ~ qualifies candidates w n r).
Proof. apply scan_windows_spec; lia. Qed.
End SlidingWindowLemmas.

(** ** Qualifying sets of candidates *)

Section Counting.
Implicit Types (l s : list Candidate) (x a b : Z).

Definition before x l : list Candidate := filter (fun c => (ca_event_time_millis c < x)%Z) l.
Definition between a b l : list Candidate :=
  filter (fun c => (a <= ca_event_time_millis c < b)%Z) l.

Lemma before_sorted_index l x i :
  StronglySorted time_le l -> i < length l -> i < length (before x l) <-> (time_at l i < x)%Z.
Proof.
  intros Hs. revert i. induction Hs as [|c l Hl IH Hc]; intros i Hi; simpl in Hi; [lia|].
  unfold before. rewrite filter_cons. destruct (decide (ca_event_time_millis c < x)%Z) as [Hlt|Hge].
  - destruct i as [|i]; unfold time_at; simpl; [lia|]. rewrite <-Nat.succ_lt_mono. apply IH. lia.
  - assert (filter (fun c => (ca_event_time_millis c < x)%Z) l = []) as ->.
    { apply elem_of_nil_inv. intros y [Hy Hin]%list_elem_of_filter. rewrite Forall_forall in Hc.
      specialize (Hc y Hin). unfold time_le in Hc. lia. }
    simpl. split; [lia|]. destruct (lookup_lt_is_Some_2 (c :: l) i) as [y Hy]; [simpl; lia|].
    unfold time_at. rewrite Hy. simpl. intros Hyx. exfalso.
    apply list_elem_of_lookup_2 in Hy as [->|Hin]%elem_of_cons; [lia|].
    rewrite Forall_forall in Hc. specialize (Hc y Hin). unfold time_le in Hc. lia.
Qed.

Lemma between_length a b l :
  (a <= b)%Z -> length (between a b l) + length (before a l) = length (before b l).
Proof.
  intros Hab. unfold between, before. induction l as [|c l IH]; [done|].
  rewrite !filter_cons. repeat case_decide; simpl; lia.
Qed.

(** Any [n] distinct candidates within the window force a qualifying block that
    ends no later than they do. *)
Lemma qualifying_set_qualifies l w n s :
  StronglySorted time_le l -> 1 <= n -> NoDup s -> s ⊆ l -> length s = n ->
  (forall c d : Candidate, c ∈ s -> d ∈ s ->
     (ca_event_time_millis d - ca_event_time_millis c <= w)%Z) ->
  exists r d, qualifies l w n r /\ (d ∈ s) /\ (time_at l r <= ca_event_time_millis d)%Z.
Proof.
  intros Hs Hn Hnd Hsub Hlen Hw. assert (s <> []) as Hne by (intros ->; simpl in Hlen; lia).
  destruct (list_least time_le s) as (c & Hc & Hmin); [unfold time_le; lia..|done|].
  destruct (list_least (flip time_le) s) as (d & Hd & Hmax); [unfold flip, time_le; lia..|done|].
  unfold flip, time_le in *. rewrite Forall_forall in Hmin, Hmax. specialize (Hw c d Hc Hd).
  set (a := ca_event_time_millis c) in *. set (b := ca_event_time_millis d) in *.
  assert (n <= length (between a (b + 1) l)) as Hcount.
  { rewrite <-Hlen. apply submseteq_length, NoDup_submseteq; [done|]. intros x Hx.
    apply list_elem_of_filter. specialize (Hmin x Hx). specialize (Hmax x Hx).
    split; [lia|by apply Hsub]. }
  specialize (Hmin d Hd). pose proof (between_length a (b + 1) l).
  set (k := length (before a l)) in *.
  assert (length (before (b + 1) l) <= length l) by apply length_filter.
  pose proof (proj1 (before_sorted_index l (b + 1) (k + n - 1) Hs ltac:(lia)) ltac:(lia)).
  exists (k + n - 1), d. split_and!; [|done|unfold b in *; lia]. split_and!; [lia..|].
  replace (S (k + n - 1) - n) with k by lia.
  destruct (Z.lt_ge_cases (time_at l k) a) as [Hlt|]; [|lia].
  apply (before_sorted_index l a k Hs) in Hlt; lia.
Qed.

Definition candidate_key (c : Candidate) : Z * string :=
  (ca_event_time_millis c, ca_normalized_event_id c).

Lemma sort_candidates_key l :
  sort_by candidate_cmp l = sort_by (fun c d => cmp (candidate_key c) (candidate_key d)) l.
Proof. reflexivity. Qed.

Lemma sort_candidates_time_sorted l : StronglySorted time_le (sort_by candidate_cmp l).
Proof.
  rewrite sort_candidates_key. eapply StronglySorted_weaken; [|apply sort_by_sorted].
  intros c d. unfold time_le. rewrite cmp_le_iff. simpl.
  destruct (Z.compare_spec (ca_event_time_millis c) (ca_event_time_millis d)); simpl; [lia..|].
  intros [|[= ? ?]]; [done|lia].
Qed.

Lemma sort_candidates_unique l1 l2 :
  l1 ≡ₚ l2 -> sort_by candidate_cmp l1 = sort_by candidate_cmp l2.
Proof.
  rewrite (sort_candidates_key l1), (sort_candidates_key l2). intros Hp.
  apply sort_by_unique; [done|].
  by intros [i1 t1] [i2 t2] _ _ [= -> ->].
Qed.

Lemma sort_candidates_perm l : sort_by candidate_cmp l ≡ₚ l.
Proof. rewrite sort_candidates_key. apply sort_by_perm. Qed.
End Counting.
