(* ===== verification/ThresholdSpec.v ===== *)
(** * THRESHOLD rules: what they promise

    The specification of crates/cerbero-detection-core/src/threshold.rs and
    the theorems that Threshold.v meets it. *)

From S2P Require Import Prelude RustStd ContractTypes Validation SignalContract RuleContract DetectionAst EventPipeline EventSignal Threshold.

(** ** Qualifying windows *)

Section Windows.
Variables (l : list Candidate) (w : Z) (n : nat).
Hypotheses (Hs : StronglySorted time_le l) (Hn : 1 <= n).

Lemma qualifying_lookup r i :
  qualifies l w n r -> i < n ->
  exists c, take n (drop (S r - n) l) !! i = Some c /\ ca_event_time_millis c = time_at l (S r - n + i).
Proof.
  intros (Hr & Hnr & _) Hi. rewrite lookup_take_lt, lookup_drop by done. unfold time_at.
  destruct (lookup_lt_is_Some_2 l (S r - n + i)) as [c Hc]; [lia|]. exists c. by rewrite Hc.
Qed.

Lemma qualifying_length r : qualifies l w n r -> length (take n (drop (S r - n) l)) = n.
Proof. intros (Hr & Hnr & _). rewrite length_take, length_drop. lia. Qed.

Lemma qualifying_last r :
  qualifies l w n r ->
  exists c, last (take n (drop (S r - n) l)) = Some c /\ ca_event_time_millis c = time_at l r.
Proof.
  intros Hq. destruct (qualifying_lookup r (n - 1) Hq) as (c & Hc & Ht); [lia|]. exists c.
  rewrite last_lookup, (qualifying_length r Hq). split; [by replace (pred n) with (n - 1) by lia|].
  rewrite Ht. f_equal. destruct Hq. lia.
Qed.

Lemma qualifying_span r c d :
  qualifies l w n r -> c ∈ take n (drop (S r - n) l) -> d ∈ take n (drop (S r - n) l) ->
  (ca_event_time_millis d - ca_event_time_millis c <= w)%Z.
Proof.
  intros Hq [i Hi]%list_elem_of_lookup [j Hj]%list_elem_of_lookup.
  pose proof (lookup_lt_Some _ _ _ Hi) as Hin. pose proof (lookup_lt_Some _ _ _ Hj) as Hjn.
  rewrite qualifying_length in Hin, Hjn by done.
  destruct (qualifying_lookup r i Hq Hin) as (c' & Hc & Htc).
  destruct (qualifying_lookup r j Hq Hjn) as (d' & Hd & Htd). simplify_eq.
  rewrite Htc, Htd. destruct Hq as (Hr & Hnr & Hw).
  pose proof (time_at_mono l Hs (S r - n) (S r - n + i)).
  pose proof (time_at_mono l Hs (S r - n + j) r). lia.
Qed.

Lemma StronglySorted_take {A} (R : A -> A -> Prop) k (l' : list A) :
  StronglySorted R l' -> StronglySorted R (take k l').
Proof.
  intros H. revert k. induction H as [|x l' Hl IH Hx]; intros [|k]; simpl; constructor; [done|].
  by apply Forall_take.
Qed.
Lemma StronglySorted_drop {A} (R : A -> A -> Prop) k (l' : list A) :
  StronglySorted R l' -> StronglySorted R (drop k l').
Proof. intros H. revert k. induction H as [|x l' Hl IH Hx]; intros [|k]; simpl; by try constructor. Qed.

Lemma window_sorted k i : StronglySorted time_le (take k (drop i l)).
Proof. by apply StronglySorted_take, StronglySorted_drop. Qed.

Lemma window_elem k i c : c ∈ take k (drop i l) -> c ∈ l.
Proof.
  rewrite !list_elem_of_lookup. intros [j Hj]. apply lookup_take_Some in Hj as [Hj _].
  rewrite lookup_drop in Hj. eauto.
Qed.
End Windows.

Lemma timestamp_from_millis_ok {E} t :
  timestamp_from_millis (E := E) t = Ok (mkTimestamp (t / 1000) (t mod 1000 * 1000000)).
Proof.
  unfold timestamp_from_millis, try_from, in_i32.
  pose proof (Z.mod_pos_bound t 1000). rewrite (proj2 (in_range_spec _ _ _)); [done|].
  unfold i32_min, i32_max. lia.
Qed.

Definition millis_timestamp (t : Z) : Timestamp := mkTimestamp (t / 1000) (t mod 1000 * 1000000).

Lemma millis_timestamp_le t u : (t <= u)%Z -> timestamp_le (millis_timestamp t) (millis_timestamp u) = true.
Proof.
  intros Htu. unfold timestamp_le, cmp_le. simpl.
  pose proof (Z.div_le_mono t u 1000 ltac:(lia) Htu).
  pose proof (Z.div_mod t 1000 ltac:(lia)). pose proof (Z.div_mod u 1000 ltac:(lia)).
  destruct (Z.compare_spec (t / 1000) (u / 1000)); simpl; [|done|lia].
  destruct (Z.compare_spec (t mod 1000 * 1000000) (u mod 1000 * 1000000)); [done..|lia].
Qed.

(** ** The specification *)

(** Keep the first event of every identity, as the [HashSet] does. *)
Fixpoint first_by_id (seen : gset string) (events : list NormalizedEvent) : list NormalizedEvent :=
  match events with
  | [] => []
  | e :: events =>
      if bool_decide (ne_normalized_event_id e ∈ seen) then first_by_id seen events
      else e :: first_by_id ({[ne_normalized_event_id e]} ∪ seen) events
  end.

(** Events of the batch that share an identity are the same event. *)
Definition consistent (events : list NormalizedEvent) : Prop :=
  forall e e', e ∈ events -> e' ∈ events ->
    ne_normalized_event_id e = ne_normalized_event_id e' -> e = e'.

Definition ids_ok (e : NormalizedEvent) : Prop :=
  uuid_v7 (ne_normalized_event_id e) /\ uuid_v7 (ne_tenant_id e).

Section FirstById.
Implicit Types (events : list NormalizedEvent) (e : NormalizedEvent) (seen : gset string).

Lemma first_by_id_elem seen events e :
  e ∈ first_by_id seen events -> (e ∈ events) /\ ne_normalized_event_id e ∉ seen.
Proof.
  revert seen. induction events as [|e' events IH]; intros seen; simpl; [by rewrite elem_of_nil|].
  case_bool_decide as Hs; [intros [??]%IH; set_solver|].
  rewrite elem_of_cons. intros [->|[??]%IH]; set_solver.
Qed.

Lemma first_by_id_covers seen events e :
  e ∈ events -> ne_normalized_event_id e ∉ seen -> consistent events ->
  e ∈ first_by_id seen events.
Proof.
  revert seen. induction events as [|e' events IH]; intros seen; [by rewrite elem_of_nil|].
  simpl. intros He Hs Hc.
  assert (consistent events) by (intros ????; apply Hc; by right).
  destruct (decide (ne_normalized_event_id e = ne_normalized_event_id e')) as [Heq|Hne].
  - assert (e = e') as ->; [apply Hc; [done|by left|done]|].
    rewrite bool_decide_eq_false_2 by done. by left.
  - apply elem_of_cons in He as [->|He]; [done|].
    case_bool_decide; [by apply IH|]. right. apply IH; [done| |done]. set_solver.
Qed.

Lemma first_by_id_NoDup seen events : NoDup (ne_normalized_event_id <$> first_by_id seen events).
Proof.
  revert seen. induction events as [|e events IH]; intros seen; simpl; [constructor|].
  case_bool_decide; [done|]. simpl. constructor; [|done].
  intros (e' & Heq & [_ Hn]%first_by_id_elem)%list_elem_of_fmap. set_solver.
Qed.

Lemma first_by_id_perm events events' :
  events ≡ₚ events' -> consistent events -> first_by_id ∅ events ≡ₚ first_by_id ∅ events'.
Proof.
  intros Hp Hc. assert (consistent events') as Hc'.
  { intros e e'. rewrite <-Hp. apply Hc. }
  apply NoDup_Permutation; [eapply NoDup_fmap_1, first_by_id_NoDup..|]. intros e. split.
  - intros [He _]%first_by_id_elem. apply first_by_id_covers; [by rewrite <-Hp|set_solver|done].
  - intros [He _]%first_by_id_elem. apply first_by_id_covers; [by rewrite Hp|set_solver|done].
Qed.
End FirstById.

Section Evaluation.
Context {Field RuleValue RuleVersion GroupKey Plan Profile Policy Error : Type}.
Context `{AsRefStr Field} `{EventExecutionPlanView Plan Field RuleValue}.
Context `{EventSignalExecutionPlanView Plan RuleVersion}.
Context `{EventLeafEvaluationPolicy Policy Field RuleValue Value Error}.
Context `{ThresholdEvaluationPolicy Policy Field GroupKey Error} `{Ord GroupKey}.
Variables (plan : CompiledThresholdExecutionPlan Plan Profile Field) (policy : Policy).
Implicit Types (events : list NormalizedEvent) (e : NormalizedEvent) (k : string * GroupKey).

(** [participates k e t]: [e] passes the rule's filter, belongs to the group
    [k] of its own tenant, and carries the governed time [t]. *)
Definition participates k e (t : Z) : Prop :=
  evaluate_predicate (mkNormalizedEventFieldView e) policy (event_predicates (cp_plan (tp_filter plan)))
    = Ok true /\
  k.1 = ne_tenant_id e /\
  threshold_group_key policy (tp_group_by plan) e = Ok (Some k.2) /\
  threshold_event_time_millis policy (tw_time_basis (tp_window plan)) (tw_time_field (tp_window plan)) e
    = Ok (Some t).

Definition batch_window : Z := tw_duration_millis (tp_window plan).
Definition batch_threshold : nat := Z.to_nat (tp_threshold plan).

(** The ranges that compilation establishes. *)
Definition plan_ok : Prop := (1 <= tp_threshold plan)%Z /\ (0 <= batch_window)%Z.

(** [reports events k cs p]: [p] reports the contributors [cs] of group [k]. *)
Definition reports events (mode : ExecutionMode) (at_ : Timestamp) k (cs : list Candidate)
    (p : ThresholdSignalProvenance RuleVersion) : Prop :=
  length cs = batch_threshold /\ tv_normalized_event_ids p = ca_normalized_event_id <$> cs /\
  NoDup (tv_normalized_event_ids p) /\
  (forall c, c ∈ cs -> exists e, (e ∈ events) /\ participates k e (ca_event_time_millis c) /\
     ne_normalized_event_id e = ca_normalized_event_id c) /\
  StronglySorted time_le cs /\
  (forall c d, c ∈ cs -> d ∈ cs -> (ca_event_time_millis d - ca_event_time_millis c <= batch_window)%Z) /\
  tv_tenant_id p = k.1 /\
  Some (tv_first_observed_at p) = millis_timestamp ∘ ca_event_time_millis <$> head cs /\
  Some (tv_last_observed_at p) = millis_timestamp ∘ ca_event_time_millis <$> last cs /\
  timestamp_ok (tv_first_observed_at p) /\ timestamp_ok (tv_last_observed_at p) /\
  tv_rule_id p = signal_rule_id (cp_plan (tp_filter plan)) /\
  tv_rule_version p = signal_rule_version (cp_plan (tp_filter plan)) /\
  tv_execution_backend p = signal_execution_backend (cp_plan (tp_filter plan)) /\
  tv_execution_mode p = mode /\ tv_evaluated_at p = at_.

(** *** Collecting the groups *)

Definition pair_of e : option ((string * GroupKey) * Candidate) :=
  match threshold_candidate plan policy e with Ok o => o | _ => None end.
#[local] Arguments pair_of : simpl never.

Lemma threshold_candidate_some_iff e k c :
  threshold_candidate plan policy e = Ok (Some (k, c)) <->
  participates k e (ca_event_time_millis c) /\ ca_normalized_event_id c = ne_normalized_event_id e.
Proof.
  unfold threshold_candidate, participates. rewrite evaluate_plan_spec. destruct k as [tenant g], c as [i t].
  destruct (evaluate_predicate _ _ _) as [[]| |]; simpl; try naive_solver.
  destruct (threshold_group_key _ _ _) as [[g'|]| |]; simpl; try naive_solver.
  destruct (threshold_event_time_millis _ _ _ _) as [[t'|]| |]; simpl; naive_solver.
Qed.

Lemma pair_of_some_iff e k c :
  pair_of e = Some (k, c) <->
  participates k e (ca_event_time_millis c) /\ ca_normalized_event_id c = ne_normalized_event_id e.
Proof.
  rewrite <-threshold_candidate_some_iff. unfold pair_of.
  destruct (threshold_candidate plan policy e); naive_solver.
Qed.

Definition evaluable e : Prop := exists o, threshold_candidate plan policy e = Ok o.

Lemma threshold_step_ok_iff st e st' :
  threshold_step plan policy st e = Ok st' <->
  ids_ok e /\
  if bool_decide (ne_normalized_event_id e ∈ st.1) then st' = st
  else evaluable e /\
    st' = ({[ne_normalized_event_id e]} ∪ st.1,
           match pair_of e with None => st.2 | Some p => bt_push p.1 p.2 st.2 end).
Proof.
  destruct st as [seen groups]. unfold threshold_step, ids_ok, evaluable, pair_of. ok_iff. simpl.
  case_bool_decide; [naive_solver|].
  destruct (threshold_candidate plan policy e) as [[[k c]|]| |]; simpl; naive_solver.
Qed.

Definition group_from (groups : Groups) (pairs : list ((string * GroupKey) * Candidate)) : Groups :=
  foldl (fun m p => bt_push p.1 p.2 m) groups pairs.

Lemma threshold_fold_ok_iff events seen groups groups' :
  (exists seen', fold_m (threshold_step plan policy) events (seen, groups) = Ok (seen', groups')) <->
  Forall ids_ok events /\ Forall evaluable (first_by_id seen events) /\
  groups' = group_from groups (omap pair_of (first_by_id seen events)).
Proof.
  revert seen groups. induction events as [|e events IH]; intros seen groups.
  { simpl. naive_solver. }
  cbn [fold_m first_by_id]. setoid_rewrite bind_ok_iff. setoid_rewrite threshold_step_ok_iff. simpl.
  case_bool_decide as Hseen; rewrite !Forall_cons.
  - specialize (IH seen groups). naive_solver.
  - specialize (IH ({[ne_normalized_event_id e]} ∪ seen)
      match pair_of e with None => groups | Some p => bt_push p.1 p.2 groups end).
    simpl. destruct (pair_of e); naive_solver.
Qed.

Definition batch_groups events : Groups := bt_group (omap pair_of (first_by_id ∅ events)).

Lemma batch_pairs_elem events k c :
  (k, c) ∈ omap pair_of (first_by_id ∅ events) ->
  exists e, (e ∈ first_by_id ∅ events) /\ participates k e (ca_event_time_millis c) /\
    ca_normalized_event_id c = ne_normalized_event_id e.
Proof. intros (e & He & Hp%pair_of_some_iff)%list_elem_of_omap. eauto. Qed.

Lemma batch_pairs_NoDup events :
  NoDup (ca_normalized_event_id <$> (omap pair_of (first_by_id ∅ events)).*2).
Proof.
  pose proof (first_by_id_NoDup ∅ events) as Hnd. induction (first_by_id ∅ events) as [|e l IH]; simpl.
  { constructor. }
  inversion Hnd as [|? ? Hn Hnd']; subst. destruct (pair_of e) as [[k c]|] eqn:E; simpl; [|by apply IH].
  constructor; [|by apply IH]. apply pair_of_some_iff in E as [_ Hid]. rewrite Hid.
  intros (c' & Hc' & ([k' ?] & -> & (e' & He' & Hp)%list_elem_of_omap)%list_elem_of_fmap)%list_elem_of_fmap.
  apply pair_of_some_iff in Hp as [_ Hid']. simpl in Hc'. apply Hn, list_elem_of_fmap. exists e'.
  split; [congruence|done].
Qed.

Lemma group_NoDup events k :
  NoDup (ca_normalized_event_id <$> group_of k (omap pair_of (first_by_id ∅ events))).
Proof. apply group_of_NoDup, batch_pairs_NoDup. Qed.

(** *** One group *)

Definition group_result (mode : ExecutionMode) (at_ : Timestamp)
    (g : (string * GroupKey) * list Candidate)
    : result (option (ThresholdSignalProvenance RuleVersion)) (ThresholdEvaluationError Error) :=
  let? window := first_window (sort_by candidate_cmp g.2) batch_window (tp_threshold plan) in
  match window with
  | None => Ok None
  | Some cs => let? p := threshold_provenance plan g.1.1 cs mode at_ in Ok (Some p)
  end.

Lemma threshold_group_step_eq mode at_ ms g :
  threshold_group_step plan batch_window (tp_threshold plan) mode at_ ms g =
  (let? o := group_result mode at_ g in
   match o with None => Ok ms | Some p => Ok (ms ++ [p]) end).
Proof.
  destruct g as [[tenant gk] cs]. unfold threshold_group_step, group_result. simpl.
  destruct (first_window _ _ _) as [[window|]| |]; simpl; [|done..].
  by destruct (threshold_provenance _ _ _ _ _).
Qed.

Lemma threshold_provenance_ok_iff tenant cs mode at_ p :
  threshold_provenance plan (Error := Error) tenant cs mode at_ = Ok p <->
  exists c d, head cs = Some c /\ last cs = Some d /\
    timestamp_ok (millis_timestamp (ca_event_time_millis c)) /\
    timestamp_ok (millis_timestamp (ca_event_time_millis d)) /\
    p = mkThresholdSignalProvenance (signal_rule_id (cp_plan (tp_filter plan)))
          (signal_rule_version (cp_plan (tp_filter plan))) tenant (ca_normalized_event_id <$> cs)
          (millis_timestamp (ca_event_time_millis c)) (millis_timestamp (ca_event_time_millis d)) at_
          (signal_execution_backend (cp_plan (tp_filter plan))) mode.
Proof.
  unfold threshold_provenance, usize_sub, index. rewrite head_lookup, last_lookup.
  destruct cs as [|c0 cs]; [naive_solver|]. simpl.
  rewrite timestamp_from_millis_ok. simpl. rewrite Nat.sub_0_r.
  destruct (lookup_lt_is_Some_2 (c0 :: cs) (length cs)) as [d Hd]; [simpl; lia|]. rewrite Hd. simpl.
  rewrite timestamp_from_millis_ok. simpl. ok_iff. unfold millis_timestamp. naive_solver.
Qed.

Lemma group_result_some events k g mode at_ p :
  plan_ok -> (k, g) ∈ batch_groups events -> group_result mode at_ (k, g) = Ok (Some p) ->
  exists cs, first_qualifying (sort_by candidate_cmp g) batch_window batch_threshold cs /\
    reports events mode at_ k cs p.
Proof.
  intros [Hn Hw] [-> Hne]%bt_group_lookup. set (g := group_of k _) in *. unfold group_result. simpl.
  assert (tp_threshold plan = Z.of_nat batch_threshold) as -> by (unfold batch_threshold; lia).
  assert (1 <= batch_threshold) as Hn1 by (unfold batch_threshold; lia).
  pose proof (sort_candidates_time_sorted g) as Hs.
  destruct (first_window_spec (E := ThresholdEvaluationError Error) (sort_by candidate_cmp g) batch_window batch_threshold Hs Hw Hn1)
    as [(cs & -> & Hq)|[-> _]]; simpl; [|done].
  intros (p' & (c & d & Hc & Hd & ? & ? & ->)%threshold_provenance_ok_iff & [= <-])%bind_ok_iff.
  exists cs. split; [done|]. destruct Hq as (r & Hq & _ & ->). unfold reports. simpl.
  rewrite Hc, Hd. split_and!; try done.
  - by eapply qualifying_length.
  - assert (NoDup (ca_normalized_event_id <$> sort_by candidate_cmp g)) as Hnd.
    { rewrite sort_candidates_perm. apply group_NoDup. }
    rewrite fmap_take, fmap_drop. eapply sublist_NoDup; [exact Hnd|].
    etrans; [apply sublist_take|apply sublist_drop].
  - intros c' Hc'%window_elem. rewrite sort_candidates_perm in Hc'.
    apply elem_of_group, batch_pairs_elem in Hc' as (e & [? _]%first_by_id_elem & ? & ?). eauto.
  - by apply window_sorted.
  - intros c' d'. by eapply qualifying_span.
Qed.

(** *** The whole batch *)

Lemma evaluate_threshold_ok_iff events mode at_ ms :
  evaluate_threshold_normalized_events plan policy events mode at_ = Ok ms <->
  timestamp_ok at_ /\ mode <> ExecutionMode_Unspecified /\
  in_usize (tp_threshold plan) = true /\ in_i64 batch_window = true /\
  Forall ids_ok events /\ Forall evaluable (first_by_id ∅ events) /\
  exists os, map_m (group_result mode at_) (batch_groups events) = Ok os /\ ms = omap id os.
Proof.
  unfold evaluate_threshold_normalized_events. ok_iff. rewrite bool_decide_eq_false. do 2 f_equiv.
  assert (forall gs, fold_m (threshold_group_step (Error := Error) plan batch_window (tp_threshold plan) mode at_) gs [] = Ok ms
    <-> exists os, map_m (group_result mode at_) gs = Ok os /\ ms = omap id os) as Hgroups.
  { intros gs. rewrite <-(fold_m_collect (group_result mode at_) gs [] ms).
    rewrite (fold_m_Forall2 _ (fun ms g => let? o := group_result mode at_ g in
      match o with None => Ok ms | Some p => Ok (ms ++ [p]) end) gs gs); [done|].
    apply Forall_Forall2_diag, Forall_forall. intros g _ ms'. apply threshold_group_step_eq. }
  rewrite bind_ok_iff. setoid_rewrite ok_or_ok_iff. setoid_rewrite bind_ok_iff at 1.
  setoid_rewrite ok_or_ok_iff. setoid_rewrite try_from_some. fold batch_window. split.
  - intros (? & [? ->] & ? & [? ->] & ([seen groups] & Hf & Hr)%bind_ok_iff).
    assert (exists seen', fold_m (threshold_step plan policy) events (∅, []) = Ok (seen', groups))
      as (? & ? & ->)%threshold_fold_ok_iff by eauto.
    apply Hgroups in Hr. done.
  - intros (? & ? & ? & ? & Hr). eexists. split; [done|]. eexists. split; [done|].
    apply Hgroups in Hr. destruct (proj2 (threshold_fold_ok_iff events ∅ []
      (batch_groups events))) as [seen Hf]; [done|].
    apply bind_ok_iff. by exists (seen, batch_groups events).
Qed.

(** Reported groups are in increasing key order, one report each. *)
Lemma collected_keys {A B : Type} (R : (string * GroupKey) * A -> option B -> Prop)
    (groups : BTreeMap (string * GroupKey) A) os :
  bt_sorted groups -> Forall2 R groups os ->
  exists ks, StronglySorted (fun k k' => cmp k k' = Lt) ks /\
    Forall (fun k => k ∈ groups.*1) ks /\
    Forall2 (fun k p => exists g, ((k, g) ∈ groups) /\ R (k, g) (Some p)) ks (omap id os).
Proof.
  intros Hs HR. revert Hs. induction HR as [|[k g] o groups os HRo HR IH]; intros Hs.
  { exists []. repeat constructor. }
  inversion Hs as [|? ? Hs' Hk]; subst. destruct (IH Hs') as (ks & Hks & Hin & Hrep).
  assert (Forall (fun k' => k' ∈ ((k, g) :: groups).*1) ks) as Hin'.
  { eapply Forall_impl; [exact Hin|]. intros k' ?. by right. }
  assert (Forall2 (fun k' p => exists g', ((k', g') ∈ (k, g) :: groups) /\ R (k', g') (Some p))
    ks (omap id os)) as Hrep'.
  { eapply Forall2_impl; [exact Hrep|]. intros k' p (g' & ? & ?). exists g'. split; [by right|done]. }
  destruct o as [p|]; [|by exists ks]. exists (k :: ks). split_and!.
  - constructor; [done|]. eapply Forall_impl; [exact Hin|].
    intros k' ([? g'] & -> & Hg')%list_elem_of_fmap. by apply (proj1 (Forall_forall _ _) Hk _ Hg').
  - constructor; [by left|done].
  - simpl. constructor; [|done]. exists g. split; [by left|done].
Qed.

Lemma evaluate_threshold_reports events mode at_ ms :
  plan_ok -> evaluate_threshold_normalized_events plan policy events mode at_ = Ok ms ->
  exists ks, StronglySorted (fun k k' => cmp k k' = Lt) ks /\
    Forall2 (fun k p => exists g cs, ((k, g) ∈ batch_groups events) /\
      first_qualifying (sort_by candidate_cmp g) batch_window batch_threshold cs /\
      reports events mode at_ k cs p) ks ms.
Proof.
  intros Hok (_ & _ & _ & _ & _ & _ & os & Hm%map_m_ok_iff & ->)%evaluate_threshold_ok_iff.
  apply collected_keys in Hm as (ks & Hks & _ & Hrep); [|apply bt_group_sorted].
  exists ks. split; [done|]. eapply Forall2_impl; [exact Hrep|].
  intros k p (g & Hg & Hp). exists g.
  destruct (group_result_some events k g mode at_ p Hok Hg Hp) as (cs & ? & ?). eauto.
Qed.

(** A group with enough events in reach is reported. *)
Lemma evaluate_threshold_complete events mode at_ ms k (s : list Candidate) :
  plan_ok -> evaluate_threshold_normalized_events plan policy events mode at_ = Ok ms ->
  NoDup s -> s ⊆ group_of k (omap pair_of (first_by_id ∅ events)) -> length s = batch_threshold ->
  (forall c d, c ∈ s -> d ∈ s -> (ca_event_time_millis d - ca_event_time_millis c <= batch_window)%Z) ->
  exists p cs c d, (p ∈ ms) /\ reports events mode at_ k cs p /\ last cs = Some c /\ (d ∈ s) /\
    (ca_event_time_millis c <= ca_event_time_millis d)%Z.
Proof.
  intros Hok (_ & _ & _ & _ & _ & _ & os & Hm & ->)%evaluate_threshold_ok_iff Hnd Hsub Hlen Hw.
  set (g := group_of k _) in *. pose proof (sort_candidates_time_sorted g) as Hs.
  assert (1 <= batch_threshold) as Hn1 by (destruct Hok; unfold batch_threshold; lia).
  destruct (qualifying_set_qualifies (sort_by candidate_cmp g) batch_window batch_threshold s)
    as (r & d & Hq & Hd & Hle); try done.
  { intros c Hc. rewrite sort_candidates_perm. by apply Hsub. }
  assert ((k, g) ∈ batch_groups events) as Hg.
  { apply bt_group_lookup. split; [done|]. intros Hg. destruct s; [simpl in Hlen; lia|].
    fold g in Hg. rewrite Hg in Hsub. specialize (Hsub c). set_solver. }
  apply map_m_ok_iff in Hm. pose proof Hg as [i Hi]%list_elem_of_lookup.
  destruct (Forall2_lookup_l _ _ _ _ _ Hm Hi) as (o & Ho & Hr).
  destruct o as [p|]; [|exfalso].
  - destruct (group_result_some events k g mode at_ p Hok Hg Hr) as (cs & Hf & Hrep).
    destruct Hf as (r0 & Hq0 & Hmin & Hcs).
    destruct (qualifying_last _ _ _ Hn1 r0 Hq0) as (c & Hc & Htc).
    exists p, cs, c, d. split_and!; try done; [|by rewrite Hcs|].
    + apply list_elem_of_omap. exists (Some p). split; [|done]. by eapply list_elem_of_lookup_2.
    + rewrite Htc. destruct (decide (r0 <= r)); [|destruct (Hmin r); [lia|done]].
      destruct Hq as (? & _). pose proof (time_at_mono _ Hs r0 r). lia.
  - unfold group_result in Hr. simpl in Hr.
    assert (tp_threshold plan = Z.of_nat batch_threshold) as E
      by (destruct Hok; unfold batch_threshold; lia). rewrite E in Hr.
    destruct (first_window_spec (E := ThresholdEvaluationError Error) (sort_by candidate_cmp g)
      batch_window batch_threshold Hs (proj2 Hok) Hn1) as [(cs & Hf & _)|[_ Hno]]; [|by eapply Hno].
    rewrite Hf in Hr. simpl in Hr. by destruct (threshold_provenance _ _ _ _ _).
Qed.

(** The same in terms of the events *)
Lemma evaluate_threshold_detects events mode at_ ms k (es : list (NormalizedEvent * Z)) :
  plan_ok -> evaluate_threshold_normalized_events plan policy events mode at_ = Ok ms ->
  consistent events -> Forall (fun p => (p.1 ∈ events) /\ participates k p.1 p.2) es ->
  NoDup (ne_normalized_event_id <$> es.*1) -> length es = batch_threshold ->
  (forall p q, p ∈ es -> q ∈ es -> (q.2 - p.2 <= batch_window)%Z) ->
  exists r cs c q, (r ∈ ms) /\ reports events mode at_ k cs r /\ last cs = Some c /\
    (q ∈ es) /\ (ca_event_time_millis c <= q.2)%Z.
Proof.
  intros Hplan Heval Hconsistent Hes Hdistinct Hcount Hwindow.
  set (f := fun p : NormalizedEvent * Z => mkCandidate (ne_normalized_event_id p.1) p.2).
  destruct (evaluate_threshold_complete events mode at_ ms k (f <$> es))
    as (r & cs & c & d & ? & ? & ? & Hd & Hle); try done.
  - apply (NoDup_fmap_1 ca_normalized_event_id). rewrite <-list_fmap_compose.
    by rewrite <-list_fmap_compose in Hdistinct.
  - intros c ([e t] & -> & Hp)%list_elem_of_fmap. rewrite Forall_forall in Hes.
    destruct (Hes _ Hp) as [He Hpart]. apply elem_of_group, list_elem_of_omap. exists e. split.
    + apply first_by_id_covers; [done|set_solver|done].
    + by apply pair_of_some_iff.
  - by rewrite length_fmap.
  - intros c d (p & -> & Hp)%list_elem_of_fmap (q & -> & Hq)%list_elem_of_fmap. by apply Hwindow.
  - apply list_elem_of_fmap in Hd as (q & -> & Hq). exists r, cs, c, q. done.
Qed.

Lemma group_result_perm mode at_ k g g' :
  g ≡ₚ g' -> group_result mode at_ (k, g) = group_result mode at_ (k, g').
Proof. intros Hg. unfold group_result. simpl. by rewrite (sort_candidates_unique g g'). Qed.

Lemma evaluate_threshold_perm events events' mode at_ ms :
  events ≡ₚ events' -> consistent events ->
  evaluate_threshold_normalized_events plan policy events mode at_ = Ok ms ->
  evaluate_threshold_normalized_events plan policy events' mode at_ = Ok ms.
Proof.
  intros Hp Hc. rewrite !evaluate_threshold_ok_iff.
  pose proof (first_by_id_perm _ _ Hp Hc) as Hfp.
  intros (? & ? & ? & ? & Hids & Hev & os & Hm & ->). split_and!; try done.
  - by rewrite <-Hp.
  - by rewrite <-Hfp.
  - exists os. split; [|done]. rewrite <-Hm. symmetry. apply map_m_Forall2.
    eapply Forall2_impl; [apply bt_group_perm; by rewrite Hfp|].
    intros [k g] [k' g'] [Hk Hg]. simpl in *. subst. by apply group_result_perm.
Qed.
End Evaluation.

(** ** Absence of panics *)

Section NoPanic.
Context {Field RuleValue RuleVersion GroupKey Plan Profile Policy Error : Type}.
Context `{AsRefStr Field} `{EventExecutionPlanView Plan Field RuleValue}.
Context `{EventSignalExecutionPlanView Plan RuleVersion}.
Context `{EventLeafEvaluationPolicy Policy Field RuleValue Value Error}.
Context `{ThresholdEvaluationPolicy Policy Field GroupKey Error} `{Ord GroupKey}.
Variables (plan : CompiledThresholdExecutionPlan Plan Profile Field) (policy : Policy).

Definition threshold_policy_no_panic : Prop :=
  leaf_policy_no_panic (EventValue := Value) (Field := Field) (RuleValue := RuleValue) policy /\
  (forall fields e, no_panic (threshold_group_key policy fields e)) /\
  (forall basis field e, no_panic (threshold_event_time_millis policy basis field e)).

Lemma threshold_candidate_no_panic e :
  threshold_policy_no_panic -> no_panic (threshold_candidate plan policy e).
Proof.
  intros (Hl & Hg & Ht). unfold threshold_candidate. rewrite evaluate_plan_spec.
  pose proof (evaluate_predicate_no_panic (mkNormalizedEventFieldView e) policy
    (event_predicates (cp_plan (tp_filter plan))) Hl).
  apply no_panic_bind; [apply no_panic_map_err, no_panic_bind; [done|by intros ???]|].
  intros []; [intros _|by intros ??]. apply no_panic_bind; [by apply no_panic_map_err|].
  intros [g|] _; [|by intros ?]. apply no_panic_bind; [by apply no_panic_map_err|].
  by intros [t|] _ m.
Qed.

Lemma group_result_no_panic mode at_ (g : (string * GroupKey) * list Candidate) :
  plan_ok plan -> no_panic (group_result (RuleVersion := RuleVersion) (Error := Error) plan mode at_ g).
Proof.
  intros [Hn Hw]. unfold group_result.
  assert (tp_threshold plan = Z.of_nat (batch_threshold plan)) as -> by (unfold batch_threshold; lia).
  destruct (first_window_spec (E := ThresholdEvaluationError Error) (sort_by candidate_cmp g.2)
    (batch_window plan) (batch_threshold plan)) as [(cs & -> & (r & Hq & _ & ->))|[-> _]]; simpl.
  - apply sort_candidates_time_sorted.
  - done.
  - unfold batch_threshold. lia.
  - assert (1 <= batch_threshold plan) as Hn1 by (unfold batch_threshold; lia).
    pose proof (qualifying_length _ _ _ Hn1 r Hq) as Hlen. set (cs := take _ _) in *.
    apply no_panic_bind; [|by intros ???]. unfold threshold_provenance, usize_sub.
    apply no_panic_bind; [apply no_panic_index; lia|]. intros c _. rewrite timestamp_from_millis_ok.
    cbn [bind]. rewrite (proj2 (Nat.leb_le 1 (length cs))) by lia. cbn [bind].
    apply no_panic_bind; [apply no_panic_index; lia|]. intros d _. rewrite timestamp_from_millis_ok.
    simpl. no_panic.
  - by intros ?.
Qed.

Lemma evaluate_threshold_no_panic events mode at_ :
  plan_ok plan -> threshold_policy_no_panic ->
  no_panic (evaluate_threshold_normalized_events (RuleVersion := RuleVersion) plan policy events mode at_).
Proof.
  intros Hok Hp. unfold evaluate_threshold_normalized_events.
  do 2 (apply no_panic_bind; [no_panic|]; intros _ _).
  apply no_panic_bind; [no_panic|]. intros t (_ & ->)%ok_or_ok_iff%try_from_some.
  apply no_panic_bind; [no_panic|]. intros w (_ & ->)%ok_or_ok_iff%try_from_some.
  apply no_panic_bind.
  - apply fold_m_no_panic. intros [seen groups] e _. unfold threshold_step.
    do 2 (apply no_panic_bind; [no_panic|]; intros _ _). apply no_panic_if; [by intros _ ?|].
    intros _. apply no_panic_bind; [by apply threshold_candidate_no_panic|]. by intros [[]|] _ ?.
  - intros [seen groups] _. apply fold_m_no_panic. intros ms g _.
    fold (batch_window plan). rewrite threshold_group_step_eq.
    apply no_panic_bind; [by apply group_result_no_panic|]. by intros [] _ ?.
Qed.
End NoPanic.

(** ** Compilation *)

Section Compilation.
Context {Field RuleValue FieldType ValueType Profile Plan : Type}.
Context {FR VR P Optimizer ProfileResolver PlanCompiler : Type}.
Context `{AsRefStr Field} `{FieldTypeResolver FR FieldType} `{ValueTypeResolver VR RuleValue ValueType}.
Context `{ComparisonTypePolicy P FieldType ValueType}.
Context `{EventAstOptimizer Optimizer Field RuleValue}.
Context `{EventFieldProfileResolver ProfileResolver Field RuleValue Profile}.
Context `{EventExecutionPlanCompiler PlanCompiler Field RuleValue Profile Plan}.

Definition resolves (fr : FR) (f : Field) : Prop := is_Some (resolve_field_type fr (as_ref f)).

Lemma require_field_type_ok_iff (fr : FR) f :
  (let? _t := require_field_type fr (as_ref f) in Ok tt) = Ok tt <-> resolves fr f.
Proof.
  unfold require_field_type, resolves. rewrite bind_ok_iff. setoid_rewrite ok_or_ok_iff.
  unfold is_Some. naive_solver.
Qed.

Lemma check_group_fields_ok_iff (g : list Field) (fr : FR) :
  iter_m (check_group_field g fr) (enumerate g) = Ok tt <->
  NoDup (as_ref <$> g) /\ Forall (resolves fr) g.
Proof.
  rewrite iter_m_ok_iff, Forall_enumerate. unfold check_group_field.
  setoid_rewrite bind_unit_ok_iff. setoid_rewrite reject_if_ok_iff.
  setoid_rewrite require_field_type_ok_iff. setoid_rewrite existsb_false_iff.
  rewrite NoDup_alt, Forall_lookup. split.
  - intros Hg. split; [|naive_solver].
    assert (forall i j s, i < j -> (as_ref <$> g) !! i = Some s -> (as_ref <$> g) !! j = Some s -> False)
      as Hlt.
    { intros i j s Hij Hi Hj. rewrite list_lookup_fmap in Hi, Hj.
      destruct (g !! i) as [f|] eqn:Ef, (g !! j) as [f'|] eqn:Ef'; simplify_eq/=.
      destruct (Hg j f' Ef') as [Hall _]. rewrite Forall_lookup in Hall.
      specialize (Hall i f). rewrite lookup_take_lt in Hall by done. specialize (Hall Ef).
      apply String.eqb_neq in Hall. congruence. }
    intros i j s Hi Hj. destruct (lt_eq_lt_dec i j) as [[|]|]; [|done|]; exfalso; eauto.
  - intros [Hnd Hres] i f Hf. split; [|by eapply Hres]. apply Forall_lookup. intros j f' Hj.
    apply lookup_take_Some in Hj as [Hj Hji]. apply String.eqb_neq. intros Heq.
    assert (j = i); [|lia]. apply (Hnd j i (as_ref f)); rewrite list_lookup_fmap.
    + rewrite Hj. simpl. by rewrite Heq.
    + by rewrite Hf.
Qed.

Lemma compile_threshold_ok_iff (rule : ThresholdRule Field RuleValue) backend (fr : FR) (vr : VR)
    (policy : P) (stages : EventCompilationStages Optimizer ProfileResolver PlanCompiler)
    (c : CompiledThresholdExecutionPlan Plan Profile Field) :
  compile_threshold_execution_plan rule backend fr vr policy stages = Ok c <->
  backend = ClickHouse /\ thr_group_by rule <> [] /\ thr_threshold rule <> 0%Z /\
  tw_duration_millis (thr_window rule) <> 0%Z /\ in_i64 (tw_duration_millis (thr_window rule)) = true /\
  tw_late_event_policy (thr_window rule) = Accept /\
  NoDup (as_ref <$> thr_group_by rule) /\ Forall (resolves fr) (thr_group_by rule) /\
  resolves fr (tw_time_field (thr_window rule)) /\
  exists filter, compile_event_execution_plan (thr_filter rule) backend fr vr policy stages = Ok filter /\
    c = mkCompiledThresholdExecutionPlan filter (thr_group_by rule) (thr_aggregation rule)
          (thr_threshold rule) (thr_window rule) (mkExecutionBackendCapabilities true false).
Proof.
  unfold compile_threshold_execution_plan. rewrite !bind_unit_ok_iff, check_group_fields_ok_iff.
  generalize (compile_event_execution_plan (thr_filter rule) backend fr vr policy stages). intros ce.
  rewrite !reject_if_ok_iff, !orb_false_iff, !bool_decide_eq_false, !Z.eqb_neq.
  rewrite bind_ok_iff. unfold require_field_type, resolves. setoid_rewrite ok_or_ok_iff.
  setoid_rewrite bind_ok_iff. setoid_rewrite ok_inj_iff.
  assert (match thr_group_by rule with [] => true | _ => false end = false <-> thr_group_by rule <> [])
    as -> by (destruct (thr_group_by rule); naive_solver).
  assert (match try_from in_i64 (tw_duration_millis (thr_window rule)) with None => true | _ => false end
    = false <-> in_i64 (tw_duration_millis (thr_window rule)) = true) as ->
    by (unfold try_from; destruct (in_i64 _); naive_solver).
  assert (~ backend <> ClickHouse <-> backend = ClickHouse) as ->
    by (destruct (decide (backend = ClickHouse)); tauto).
  assert (~ tw_late_event_policy (thr_window rule) <> Accept <->
    tw_late_event_policy (thr_window rule) = Accept) as ->
    by (destruct (decide (tw_late_event_policy (thr_window rule) = Accept)); tauto).
  split.
  - intros (? & [??] & [??] & ? & [??] & t & ? & filter & ? & <-). unfold is_Some.
    split_and!; eauto.
  - intros (? & ? & ? & ? & ? & ? & ? & ? & [t ?] & filter & ? & ->). split_and!; eauto 10.
Qed.
End Compilation.

(** ** Materialization *)

(** What a producer must supply for a THRESHOLD match of [n] events. *)
Definition threshold_context_ok (n : Z) (c : ThresholdSignalMaterializationContext) : Prop :=
  uuid_v7 (tc_signal_id c) /\ has_text (tc_severity c) /\ if_some has_text (tc_confidence c) /\
  has_text (tc_summary c) /\ has_text (tc_input_relation c) /\ timestamp_ok (tc_created_at c) /\
  (1 <= tc_source_count c <= n)%Z.

Definition threshold_input (c : ThresholdSignalMaterializationContext) (i : nat) (id : string)
    : SignalInput :=
  mkSignalInput (tc_signal_id c) 1 id (tc_input_relation c) (Z.of_nat i).

Lemma threshold_inputs_ok c (ids : list string) :
  (zlen ids <= u32_max + 1)%Z ->
  map_m (threshold_signal_input c) (enumerate ids) = Ok (imap (threshold_input c) ids).
Proof.
  intros Hlen. rewrite (map_m_pure _ (fun p => threshold_input c p.1 p.2)).
  - f_equal. unfold enumerate. rewrite fmap_imap. done.
  - intros [i id] Hi%elem_of_enumerate. apply lookup_lt_Some in Hi. unfold threshold_signal_input.
    rewrite (proj2 (try_from_some in_u32 (Z.of_nat i) (Z.of_nat i))); [done|].
    split; [|done]. unfold in_u32. apply in_range_spec. unfold zlen in Hlen. lia.
Qed.

Lemma threshold_signal_inputs_ok {RuleVersion} `{Display RuleVersion}
    (p : ThresholdSignalProvenance RuleVersion) c n :
  tv_normalized_event_ids p <> [] -> NoDup (tv_normalized_event_ids p) ->
  Forall uuid_v7 (tv_normalized_event_ids p) -> has_text (tc_input_relation c) ->
  (zlen (tv_normalized_event_ids p) <= u32_max + 1)%Z ->
  signal_inputs_ok (threshold_signal p c n (imap (threshold_input c) (tv_normalized_event_ids p))).
Proof.
  intros Hne Hnd Hids Htext Hlen. unfold signal_inputs_ok. simpl. split_and!.
  - by destruct (tv_normalized_event_ids p).
  - intros i input Hi. rewrite list_lookup_imap in Hi.
    destruct (tv_normalized_event_ids p !! i) as [id|] eqn:E; simplify_eq/=.
    unfold signal_input_ok. simpl. rewrite Forall_lookup in Hids. specialize (Hids _ _ E).
    apply lookup_lt_Some in E. unfold zlen in Hlen. split_and!; try (done || lia).
  - rewrite fmap_imap. simpl.
    replace (imap _ _) with ((fun id => (1%Z, id)) <$> tv_normalized_event_ids p).
    + apply NoDup_fmap_2_strong; [by intros ???? [= ->]|done].
    + apply list_eq. intros i. rewrite list_lookup_fmap, list_lookup_imap.
      by destruct (_ !! i).
Qed.

Lemma threshold_normalized_inputs {RuleVersion} `{Display RuleVersion}
    (p : ThresholdSignalProvenance RuleVersion) c n ids :
  zlen (normalized_inputs (threshold_signal p c n (imap (threshold_input c) ids))) = zlen ids.
Proof.
  unfold normalized_inputs. simpl. unfold zlen. f_equal. rewrite <-(length_imap (threshold_input c) ids).
  f_equal. assert (Forall (fun i => si_input_type i = 1%Z) (imap (threshold_input c) ids)) as Hall.
  { apply Forall_lookup. intros i x Hx. rewrite list_lookup_imap in Hx.
    destruct (ids !! i); by simplify_eq/=. }
  induction Hall as [|x l Hx Hl IH]; simpl; [done|]. rewrite Hx. simpl. by rewrite IH.
Qed.

(** A well-formed provenance materializes for every admissible context. *)
Lemma materialize_threshold_ok {RuleVersion} `{Display RuleVersion}
    (p : ThresholdSignalProvenance RuleVersion) c :
  tv_normalized_event_ids p <> [] -> NoDup (tv_normalized_event_ids p) ->
  Forall uuid_v7 (tv_normalized_event_ids p) -> uuid_v7 (tv_tenant_id p) ->
  (zlen (tv_normalized_event_ids p) <= u32_max + 1)%Z ->
  detection_rule_id (RuleId_as_str (tv_rule_id p)) -> has_text (to_string (tv_rule_version p)) ->
  interval_ok (Some (tv_first_observed_at p)) (Some (tv_last_observed_at p)) ->
  timestamp_ok (tv_evaluated_at p) -> tv_execution_mode p <> ExecutionMode_Unspecified ->
  threshold_context_ok (zlen (tv_normalized_event_ids p)) c ->
  exists s, materialize_threshold_signal p c = Ok s /\ validate_signal s = Ok tt /\
    si_input_id <$> sg_inputs s = tv_normalized_event_ids p /\
    sg_event_count s = zlen (tv_normalized_event_ids p).
Proof.
  intros Hne Hnd Hids Htenant Hlen Hrule Hver Hint Hat Hmode (Hid & Hsev & Hconf & Hsum & Hrel & Hcr & Hsrc).
  set (s := threshold_signal p c (zlen (tv_normalized_event_ids p))
              (imap (threshold_input c) (tv_normalized_event_ids p))).
  assert (signal_ok s) as Hok.
  { unfold signal_ok, signal_identity_ok, signal_rule_counts_ok. split_and!; try done.
    - by apply ExecutionMode_range.
    - by apply ExecutionMode_range.
    - by eexists.
    - simpl. lia.
    - simpl. lia.
    - eexists. split; [done|]. simpl. split; [by eexists|apply contract_backend_range].
    - by apply threshold_signal_inputs_ok.
    - intros _. apply threshold_normalized_inputs.
    - intros _. simpl. lia. }
  exists s. split_and!; [|by apply validate_signal_ok_iff| |done].
  - unfold materialize_threshold_signal. destruct (tv_normalized_event_ids p) as [|id ids] eqn:E; [done|].
    cbn [reject_if bind]. rewrite (proj2 (try_from_some in_u64 (zlen (id :: ids)) (zlen (id :: ids)))).
    + rewrite threshold_inputs_ok by done. cbn [ok_or bind]. fold s.
      by rewrite (proj2 (validate_signal_ok_iff s)).
    + split; [|done]. apply in_range_spec. unfold u64_max, u32_max, zlen in *. lia.
  - simpl. rewrite fmap_imap. apply list_eq. intros i. rewrite list_lookup_imap.
    by destruct (_ !! i).
Qed.

(** ** A concrete rule: two root logins of one user within a minute *)

Module ThresholdSample.

#[global] Instance policy : ThresholdEvaluationPolicy Sample.Env string string unit := {|
  threshold_group_key _ _ e :=
    match ne_ocsf_event e with
    | None => Ok None
    | Some root =>
        match resolve_ocsf_field root "user.name" with
        | Present (mkValue (Some (StringValue s))) => Ok (Some s)
        | Malformed => Err ()
        | _ => Ok None
        end
    end;
  threshold_event_time_millis _ _ _ e := Ok ((fun t => ts_seconds t * 1000)%Z <$> ne_normalized_at e);
|}.

Definition window : ThresholdWindow string := mkThresholdWindow 60000 EventTime "time" Accept.
Definition filter : CompiledEventExecutionPlan
    (ExecutionPlan () string () (EventPredicate string string) () () () ()) () :=
  mkCompiledEventExecutionPlan EventSignalSample.plan () (mkExecutionBackendCapabilities true false).
Definition plan := mkCompiledThresholdExecutionPlan filter ["user.name"] Aggregation_Count 2 window
  (mkExecutionBackendCapabilities true false).

Definition uuid (suffix : string) : string := "018f0000-0000-7000-8000-0000000000" +:+ suffix.
Definition tenant : string := uuid "03".
Definition login (id name : string) (seconds : Z) : NormalizedEvent :=
  mkNormalizedEvent (uuid id) (uuid "02") tenant (Some (mkTimestamp seconds 0)) "1.1.0" 3002 3 None None
    (Some (mkStruct [("user", mkValue (Some (StructValue (mkStruct [("name", Sample.str_value name)]))))]))
    "parser" "1" 1 "sha256" "" "1".

Definition e1 := login "11" "root" 1000.
Definition e2 := login "12" "root" 1030.
Definition e3 := login "13" "root" 1500.
Definition e4 := login "14" "bob" 1010.
Definition events : list NormalizedEvent := [e3; e2; e4; e1].
Definition at_ : Timestamp := mkTimestamp 2000 0.

Definition match_ : ThresholdSignalProvenance string :=
  mkThresholdSignalProvenance (mkRuleId "CER-DET-000001") "1.0.0" tenant [uuid "11"; uuid "12"]
    (mkTimestamp 1000 0) (mkTimestamp 1030 0) at_ ClickHouse ExecutionMode_Live.

Definition context : ThresholdSignalMaterializationContext :=
  mkThresholdSignalMaterializationContext (uuid "aa") "HIGH" None "two root logins" "contributed"
    (mkTimestamp 2001 0) 1.

(** The same identity with another clock value: a conflicting duplicate. *)
Definition e2_conflict := login "12" "root" 5000.

Lemma plan_ok_sample : plan_ok plan.
Proof. split; vm_compute; discriminate. Qed.

Lemma consistent_sample : consistent events.
Proof.
  intros e e' He He' Hid. unfold events in He, He'.
  repeat (apply elem_of_cons in He as [->|He]; [|try by apply elem_of_nil in He]).
  all: repeat (apply elem_of_cons in He' as [->|He']; [|try by apply elem_of_nil in He']).
  all: (reflexivity || discriminate Hid).
Qed.

End ThresholdSample.

(** ** Properties *)

(** A THRESHOLD rule compiles exactly when the backend is ClickHouse, the
    group-by list is non-empty, free of repeated names and schema-known, the
    threshold is positive, the window is positive and fits an [i64], late
    events are accepted, the clock field is schema-known and the filter
    compiles as an EVENT rule; the plan copies the rule and never claims
    STREAM support. *)
Theorem compile_threshold_spec
    {Field RuleValue FieldType ValueType Profile Plan FR VR P Optimizer ProfileResolver PlanCompiler}
    `{AsRefStr Field} `{FieldTypeResolver FR FieldType} `{ValueTypeResolver VR RuleValue ValueType}
    `{ComparisonTypePolicy P FieldType ValueType} `{EventAstOptimizer Optimizer Field RuleValue}
    `{EventFieldProfileResolver ProfileResolver Field RuleValue Profile}
    `{EventExecutionPlanCompiler PlanCompiler Field RuleValue Profile Plan}
    (rule : ThresholdRule Field RuleValue) backend (fr : FR) (vr : VR) (policy : P)
    (stages : EventCompilationStages Optimizer ProfileResolver PlanCompiler)
    (c : CompiledThresholdExecutionPlan Plan Profile Field) :
  compile_threshold_execution_plan rule backend fr vr policy stages = Ok c <->
  backend = ClickHouse /\ thr_group_by rule <> [] /\ thr_threshold rule <> 0%Z /\
  tw_duration_millis (thr_window rule) <> 0%Z /\ in_i64 (tw_duration_millis (thr_window rule)) = true /\
  tw_late_event_policy (thr_window rule) = Accept /\
  NoDup (as_ref <$> thr_group_by rule) /\ Forall (resolves fr) (thr_group_by rule) /\
  resolves fr (tw_time_field (thr_window rule)) /\
  exists filter, compile_event_execution_plan (thr_filter rule) backend fr vr policy stages = Ok filter /\
    c = mkCompiledThresholdExecutionPlan filter (thr_group_by rule) (thr_aggregation rule)
          (thr_threshold rule) (thr_window rule) (mkExecutionBackendCapabilities true false).
Proof. apply compile_threshold_ok_iff. Qed.

(** The two-index sliding window is exact.  On the time-sorted candidates
    of a group it terminates without panicking and returns the first block (in
    order of its end) of exactly [n] consecutive candidates whose clock values
    span at most the window, or nothing when no block fits. *)
Theorem sliding_window_finds_first_block {E} (candidates : list Candidate) (w : Z) (n : nat) :
  (0 <= w)%Z -> 1 <= n ->
  let sorted := sort_by candidate_cmp candidates in
  (exists window, first_window (E := E) sorted w (Z.of_nat n) = Ok (Some window) /\
     first_qualifying sorted w n window /\ length window = n) \/
  (first_window (E := E) sorted w (Z.of_nat n) = Ok None /\ forall r, ~ qualifies sorted w n r).
Proof.
  intros Hw Hn sorted. destruct (first_window_spec (E := E) sorted w n
    (sort_candidates_time_sorted candidates) Hw Hn) as [(window & Hf & Hq)|[Hf Hno]]; [left|by right].
  exists window. split_and!; [done..|]. destruct Hq as (r & Hq & _ & ->).
  by apply (qualifying_length sorted w n Hn r).
Qed.

Lemma sliding_window_finds_first_block_witness :
  let c i t := mkCandidate i t in
  first_window (E := unit) (sort_by candidate_cmp [c "b" 900; c "a" 0; c "d" 1000; c "c" 950]%Z) 100 3
    = Ok (Some [c "b" 900; c "c" 950; c "d" 1000]%Z).
Proof.
  cbv zeta.
  destruct (sliding_window_finds_first_block (E := unit)
    [mkCandidate "b" 900; mkCandidate "a" 0; mkCandidate "d" 1000; mkCandidate "c" 950] 100 3)
    as [(window & Hf & _)|[Hf _]].
  - lia.
  - lia.
  - vm_compute. reflexivity.
  - vm_compute in Hf. discriminate Hf.
Defined.

(** C1: every THRESHOLD match is justified.  A successful evaluation reports
    its groups in increasing (tenant, key) order and at most once each, and
    every report lists exactly [threshold] distinct events of the batch that
    pass the filter, belong to that tenant and that group, are in clock order,
    span at most the window, and bound the reported observation interval;
    rule, version, backend, mode and time are the plan's and the caller's. *)
Theorem threshold_matches_sound
    {Field RuleValue RuleVersion GroupKey Plan Profile Policy Error} `{AsRefStr Field}
    `{EventExecutionPlanView Plan Field RuleValue} `{EventSignalExecutionPlanView Plan RuleVersion}
    `{EventLeafEvaluationPolicy Policy Field RuleValue Value Error}
    `{ThresholdEvaluationPolicy Policy Field GroupKey Error} `{Ord GroupKey}
    (plan : CompiledThresholdExecutionPlan Plan Profile Field) (policy : Policy) events mode at_ ms
    (Hplan : plan_ok plan)
    (Heval : evaluate_threshold_normalized_events plan policy events mode at_ = Ok ms) :
  exists ks, StronglySorted (fun k k' => cmp k k' = Lt) ks /\
    Forall2 (fun k p => exists cs, reports plan policy events mode at_ k cs p) ks ms.
Proof.
  destruct (evaluate_threshold_reports plan policy events mode at_ ms Hplan Heval) as (ks & ? & Hr).
  exists ks. split; [done|]. eapply Forall2_impl; [exact Hr|]. intros k p (g & cs & _ & _ & ?). eauto.
Qed.

Lemma threshold_matches_sound_witness :
  exists ks, StronglySorted (fun k k' => cmp k k' = Lt) ks /\
    Forall2 (fun k p => exists cs, reports ThresholdSample.plan Sample.env ThresholdSample.events
      ExecutionMode_Live ThresholdSample.at_ k cs p) ks [ThresholdSample.match_].
Proof.
  apply (threshold_matches_sound ThresholdSample.plan Sample.env ThresholdSample.events
    ExecutionMode_Live ThresholdSample.at_ [ThresholdSample.match_]).
  - exact ThresholdSample.plan_ok_sample.
  - vm_compute. reflexivity.
Defined.

(** C10: no THRESHOLD match is missed, and the earliest one is reported.  In a
    batch without conflicting duplicates, if [threshold] distinct events of one
    group pass the filter with clock values within the window, the successful
    evaluation reports that group, and the reported window ends no later than
    the latest of those events. *)
Theorem threshold_matches_complete
    {Field RuleValue RuleVersion GroupKey Plan Profile Policy Error} `{AsRefStr Field}
    `{EventExecutionPlanView Plan Field RuleValue} `{EventSignalExecutionPlanView Plan RuleVersion}
    `{EventLeafEvaluationPolicy Policy Field RuleValue Value Error}
    `{ThresholdEvaluationPolicy Policy Field GroupKey Error} `{Ord GroupKey}
    (plan : CompiledThresholdExecutionPlan Plan Profile Field) (policy : Policy) events mode at_ ms
    (k : string * GroupKey) (es : list (NormalizedEvent * Z))
    (Hplan : plan_ok plan)
    (Heval : evaluate_threshold_normalized_events plan policy events mode at_ = Ok ms)
    (Hconsistent : consistent events)
    (Hes : Forall (fun p => (p.1 ∈ events) /\ participates plan policy k p.1 p.2) es)
    (Hdistinct : NoDup (ne_normalized_event_id <$> es.*1))
    (Hcount : length es = batch_threshold plan)
    (Hwindow : forall p q, p ∈ es -> q ∈ es -> (q.2 - p.2 <= batch_window plan)%Z) :
  exists r cs c q, (r ∈ ms) /\ reports plan policy events mode at_ k cs r /\ last cs = Some c /\
    (q ∈ es) /\ (ca_event_time_millis c <= q.2)%Z.
Proof.
  by eapply evaluate_threshold_detects.
Qed.

Lemma threshold_matches_complete_witness :
  exists r cs c q, (r ∈ [ThresholdSample.match_]) /\
    reports ThresholdSample.plan Sample.env ThresholdSample.events ExecutionMode_Live
      ThresholdSample.at_ (ThresholdSample.tenant, "root") cs r /\ last cs = Some c /\
    (q ∈ [(ThresholdSample.e2, 1030000%Z); (ThresholdSample.e1, 1000000%Z)]) /\
    (ca_event_time_millis c <= q.2)%Z.
Proof.
  apply (threshold_matches_complete ThresholdSample.plan Sample.env ThresholdSample.events
    ExecutionMode_Live ThresholdSample.at_ [ThresholdSample.match_] (ThresholdSample.tenant, "root")
    [(ThresholdSample.e2, 1030000%Z); (ThresholdSample.e1, 1000000%Z)]).
  - exact ThresholdSample.plan_ok_sample.
  - vm_compute. reflexivity.
  - exact ThresholdSample.consistent_sample.
  - repeat constructor.
  - apply NoDup_cons. split; [vm_compute; by inversion 1 as [|? ? ? Hc]; inversion Hc|].
    apply NoDup_singleton.
  - vm_compute. reflexivity.
  - intros p q Hp Hq. rewrite !elem_of_cons in Hp, Hq.
    destruct Hp as [->|[->|Hp]]; [| |by apply elem_of_nil in Hp];
    (destruct Hq as [->|[->|Hq]]; [| |by apply elem_of_nil in Hq]); vm_compute; discriminate.
Defined.

(** Input order is irrelevant for a batch without conflicting duplicates:
    every permutation of the events yields the same matches, in the same
    order. *)
Theorem threshold_order_irrelevant
    {Field RuleValue RuleVersion GroupKey Plan Profile Policy Error} `{AsRefStr Field}
    `{EventExecutionPlanView Plan Field RuleValue} `{EventSignalExecutionPlanView Plan RuleVersion}
    `{EventLeafEvaluationPolicy Policy Field RuleValue Value Error}
    `{ThresholdEvaluationPolicy Policy Field GroupKey Error} `{Ord GroupKey}
    (plan : CompiledThresholdExecutionPlan Plan Profile Field) (policy : Policy) events events' mode at_ ms
    (Hperm : events ≡ₚ events')
    (Hconsistent : consistent events)
    (Heval : evaluate_threshold_normalized_events plan policy events mode at_ = Ok ms) :
  evaluate_threshold_normalized_events plan policy events' mode at_ = Ok ms.
Proof. by apply (evaluate_threshold_perm plan policy events events'). Qed.

Lemma threshold_order_irrelevant_witness :
  evaluate_threshold_normalized_events ThresholdSample.plan Sample.env (reverse ThresholdSample.events)
    ExecutionMode_Live ThresholdSample.at_ = Ok [ThresholdSample.match_].
Proof.
  apply (threshold_order_irrelevant ThresholdSample.plan Sample.env ThresholdSample.events).
  - symmetry. apply reverse_Permutation.
  - exact ThresholdSample.consistent_sample.
  - vm_compute. reflexivity.
Defined.

(** Order matters when two events share an identity and differ.  The
    evaluator keeps whichever comes first, so the same batch in another order
    can lose its match: the documented order independence needs consistent
    duplicates. *)
Theorem threshold_order_matters_for_conflicts :
  exists events events', events ≡ₚ events' /\
    evaluate_threshold_normalized_events ThresholdSample.plan Sample.env events ExecutionMode_Live
      ThresholdSample.at_ = Ok [ThresholdSample.match_] /\
    evaluate_threshold_normalized_events ThresholdSample.plan Sample.env events' ExecutionMode_Live
      ThresholdSample.at_ = Ok [].
Proof.
  exists [ThresholdSample.e1; ThresholdSample.e2; ThresholdSample.e2_conflict],
    [ThresholdSample.e1; ThresholdSample.e2_conflict; ThresholdSample.e2].
  split_and!; [do 2 constructor|vm_compute; reflexivity..].
Qed.

(** Evaluating a compiled THRESHOLD plan never panics (no index, slice or
    subtraction goes out of range, and the loops terminate) as long as the
    policy's own callbacks do not. *)
Theorem threshold_evaluation_never_panics
    {Field RuleValue RuleVersion GroupKey Plan Profile Policy Error} `{AsRefStr Field}
    `{EventExecutionPlanView Plan Field RuleValue} `{EventSignalExecutionPlanView Plan RuleVersion}
    `{EventLeafEvaluationPolicy Policy Field RuleValue Value Error}
    `{ThresholdEvaluationPolicy Policy Field GroupKey Error} `{Ord GroupKey}
    (plan : CompiledThresholdExecutionPlan Plan Profile Field) (policy : Policy) events mode at_
    (Hplan : plan_ok plan)
    (Hpolicy : threshold_policy_no_panic (Field := Field) (RuleValue := RuleValue) policy) :
  no_panic (evaluate_threshold_normalized_events (RuleVersion := RuleVersion) plan policy events mode at_).
Proof. by apply evaluate_threshold_no_panic. Qed.

Lemma threshold_evaluation_never_panics_witness :
  no_panic (evaluate_threshold_normalized_events ThresholdSample.plan Sample.env ThresholdSample.events
    ExecutionMode_Live ThresholdSample.at_).
Proof.
  apply (threshold_evaluation_never_panics ThresholdSample.plan Sample.env).
  - exact ThresholdSample.plan_ok_sample.
  - split_and!.
    + split; [intros f [] m; discriminate|]. intros f [[[[]|]]| | |] op v m; discriminate.
    + intros fields e m. unfold threshold_group_key, ThresholdSample.policy.
      destruct (ne_ocsf_event e); [|discriminate].
      destruct (resolve_ocsf_field _ _) as [[[[]|]]| | |]; discriminate.
    + intros basis field e m. discriminate.
Defined.

(** From THRESHOLD match to valid Signal.  Whatever the evaluator reports,
    for a rule with a parsed id, a printable version and a threshold of at most
    2^32, materializes for every producer context that meets the contract: the
    Signal passes the validator, its event count is the threshold and its
    inputs are the contributing events in clock order. *)
Theorem threshold_match_materializes
    {Field RuleValue RuleVersion GroupKey Plan Profile Policy Error} `{AsRefStr Field}
    `{EventExecutionPlanView Plan Field RuleValue} `{EventSignalExecutionPlanView Plan RuleVersion}
    `{EventLeafEvaluationPolicy Policy Field RuleValue Value Error}
    `{ThresholdEvaluationPolicy Policy Field GroupKey Error} `{Ord GroupKey} `{Display RuleVersion}
    (plan : CompiledThresholdExecutionPlan Plan Profile Field) (policy : Policy) events mode at_ ms p
    (rule : string) c
    (Hplan : plan_ok plan)
    (Heval : evaluate_threshold_normalized_events plan policy events mode at_ = Ok ms)
    (Hp : p ∈ ms)
    (Hrule : RuleId_from_str rule = Ok (signal_rule_id (cp_plan (tp_filter plan))))
    (Hversion : has_text (to_string (signal_rule_version (cp_plan (tp_filter plan)))))
    (Hsize : (tp_threshold plan <= u32_max + 1)%Z)
    (Hcontext : threshold_context_ok (tp_threshold plan) c) :
  exists s, materialize_threshold_signal p c = Ok s /\ validate_signal s = Ok tt /\
    si_input_id <$> sg_inputs s = tv_normalized_event_ids p /\ sg_event_count s = tp_threshold plan.
Proof.
  destruct (evaluate_threshold_reports plan policy events mode at_ ms Hplan Heval) as (ks & _ & Hr).
  apply evaluate_threshold_ok_iff in Heval as (Hat & Hmode & _ & _ & Hids & _).
  rewrite Forall_forall in Hids. pose proof Hp as [i Hi]%list_elem_of_lookup.
  destruct (Forall2_lookup_r _ _ _ _ _ Hr Hi) as (k & _ & g & cs & _ & _ & Hrep).
  destruct Hrep as (Hlen & Hid & Hnd & Hpart & Hsorted & _ & Htenant & Hfirst & Hlast & Hf & Hl & Hrid & Hver
    & _ & Hm & Ha). apply RuleId_from_str_ok_iff in Hrule as [Hrule Hrule']. destruct Hplan as [Hn _].
  assert (zlen (tv_normalized_event_ids p) = tp_threshold plan) as Hz.
  { rewrite Hid. unfold zlen. rewrite length_fmap, Hlen. unfold batch_threshold. lia. }
  destruct cs as [|c0 cs]; [by rewrite Hid in Hz; unfold zlen in Hz; simpl in Hz; lia|].
  rewrite <-Hz. apply materialize_threshold_ok; try done.
  - by rewrite Hid.
  - rewrite Hid. apply Forall_forall. intros id (d & -> & Hd)%list_elem_of_fmap.
    destruct (Hpart d Hd) as (e & He & _ & <-). by apply Hids.
  - rewrite Htenant. destruct (Hpart c0) as (e & He & (_ & -> & _) & _); [by left|]. by apply Hids.
  - lia.
  - rewrite Hrid. by rewrite Hrule'.
  - by rewrite Hver.
  - split_and!; try done. destruct (last (c0 :: cs)) as [d|] eqn:Ed; [|done]. simplify_eq/=.
    rewrite Hfirst, Hlast. apply millis_timestamp_le. apply last_Some_elem_of, elem_of_cons in Ed as [->|Hd]; [lia|].
    inversion Hsorted as [|? ? _ Hall]; subst. rewrite Forall_forall in Hall. by apply Hall.
  - by rewrite Ha.
  - by rewrite Hm.
  - by rewrite Hz.
Qed.

Lemma threshold_match_materializes_witness :
  exists s, materialize_threshold_signal ThresholdSample.match_ ThresholdSample.context = Ok s /\
    validate_signal s = Ok tt /\
    si_input_id <$> sg_inputs s = tv_normalized_event_ids ThresholdSample.match_ /\ sg_event_count s = 2%Z.
Proof.
  apply (threshold_match_materializes ThresholdSample.plan Sample.env ThresholdSample.events
    ExecutionMode_Live ThresholdSample.at_ [ThresholdSample.match_] ThresholdSample.match_
    "CER-DET-000001" ThresholdSample.context).
  - exact ThresholdSample.plan_ok_sample.
  - vm_compute. reflexivity.
  - by left.
  - vm_compute. reflexivity.
  - vm_compute. discriminate.
  - vm_compute. discriminate.
  - unfold threshold_context_ok. split_and!.
    + apply (validate_uuid_v7_ok_iff "signal_id"). vm_compute. reflexivity.
    + vm_compute. discriminate.
    + intros a Ha. discriminate.
    + vm_compute. discriminate.
    + vm_compute. discriminate.
    + apply (validate_timestamp_ok_iff "created_at"). vm_compute. reflexivity.
    + vm_compute. discriminate.
    + vm_compute. discriminate.
Defined.
