(* ===== verification/Correlation.v ===== *)
(** * SEQUENCE correlation: compilation, evaluation, Findings

    crates/cerbero-detection-core/src/correlation.rs and
    correlation_finding_materializer.rs. *)

From S2P Require Import Prelude RustStd ContractTypes Validation SignalContract FindingContract RuleContract DetectionAst EventPipeline EventSignal Threshold.

(** ** Rules and plans *)

Record SequenceCorrelationRule (Stage JoinKey Ordering : Type) := mkSequenceCorrelationRule {
  sr_correlation_rule_id : string;
  sr_correlation_rule_version : string;
  sr_stages : list Stage;
  sr_join_keys : list JoinKey;
  sr_max_window_millis : Z;   (* u64 *)
  sr_ordering : Ordering;
  sr_configuration_hash : string;
}.
Arguments mkSequenceCorrelationRule {Stage JoinKey Ordering}.
Arguments sr_correlation_rule_id {Stage JoinKey Ordering}.
Arguments sr_correlation_rule_version {Stage JoinKey Ordering}.
Arguments sr_stages {Stage JoinKey Ordering}.
Arguments sr_join_keys {Stage JoinKey Ordering}.
Arguments sr_max_window_millis {Stage JoinKey Ordering}.
Arguments sr_ordering {Stage JoinKey Ordering}.
Arguments sr_configuration_hash {Stage JoinKey Ordering}.

Record CompiledSequenceCorrelationPlan (Stage JoinKey Ordering : Type) :=
mkCompiledSequenceCorrelationPlan {
  sq_correlation_rule_id : string;
  sq_correlation_rule_version : string;
  sq_stages : list Stage;
  sq_join_keys : list JoinKey;
  sq_max_window_millis : Z;   (* u64 *)
  sq_ordering : Ordering;
  sq_backend : ExecutionBackend;
  sq_supported_backends : ExecutionBackendCapabilities;
  sq_configuration_hash : string;
}.
Arguments mkCompiledSequenceCorrelationPlan {Stage JoinKey Ordering}.
Arguments sq_correlation_rule_id {Stage JoinKey Ordering}.
Arguments sq_correlation_rule_version {Stage JoinKey Ordering}.
Arguments sq_stages {Stage JoinKey Ordering}.
Arguments sq_join_keys {Stage JoinKey Ordering}.
Arguments sq_max_window_millis {Stage JoinKey Ordering}.
Arguments sq_ordering {Stage JoinKey Ordering}.
Arguments sq_backend {Stage JoinKey Ordering}.
Arguments sq_supported_backends {Stage JoinKey Ordering}.
Arguments sq_configuration_hash {Stage JoinKey Ordering}.

Definition text_present (value : string) : bool := negb (is_empty (trim value)).

Section SequenceCompiler.
Context {Stage JoinKey Ordering : Type} `{EqDecision JoinKey}.

Definition check_join_key (join_keys : list JoinKey) (p : nat * JoinKey)
    : result unit RuleCompilationErrorKind :=
  let '(index, join_key) := p in
  reject_if (existsb (fun previous => bool_decide (previous = join_key)) (take index join_keys))
    InvalidMapping.

Definition compile_sequence_correlation_plan (rule : SequenceCorrelationRule Stage JoinKey Ordering)
    (backend : ExecutionBackend)
    : result (CompiledSequenceCorrelationPlan Stage JoinKey Ordering) RuleCompilationErrorKind :=
  reject_if (bool_decide (backend <> ClickHouse)) UnsupportedBackend ;;?
  reject_if (negb (text_present (sr_correlation_rule_id rule))
             || negb (text_present (sr_correlation_rule_version rule))
             || negb (text_present (sr_configuration_hash rule))
             || match sr_stages rule with [] => true | _ => false end
             || match sr_join_keys rule with [] => true | _ => false end) InvalidMapping ;;?
  reject_if ((sr_max_window_millis rule =? 0)%Z
             || match try_from in_i64 (sr_max_window_millis rule) with
                | None => true | Some _ => false
                end) InvalidWindow ;;?
  iter_m (check_join_key (sr_join_keys rule)) (enumerate (sr_join_keys rule)) ;;?
  Ok (mkCompiledSequenceCorrelationPlan (sr_correlation_rule_id rule)
        (sr_correlation_rule_version rule) (sr_stages rule) (sr_join_keys rule)
        (sr_max_window_millis rule) (sr_ordering rule) backend
        (mkExecutionBackendCapabilities true false) (sr_configuration_hash rule)).
End SequenceCompiler.

(** ** Evaluation *)

Class SequenceCorrelationEvaluationPolicy (Policy Stage JoinKey Ordering GroupKey OrderKey Error : Type) := {
  stage_matches : Policy -> Stage -> Signal -> result bool Error;
  sequence_group_key : Policy -> list JoinKey -> Signal -> result (option GroupKey) Error;
  sequence_time_millis : Policy -> Signal -> result (option Z) Error;
  sequence_order_key : Policy -> Ordering -> Signal -> result (option OrderKey) Error;
}.

Record SequenceCorrelationMatch := mkSequenceCorrelationMatch {
  sm_correlation_rule_id : string;
  sm_correlation_rule_version : string;
  sm_tenant_id : string;
  sm_window_start : Timestamp;
  sm_window_end : Timestamp;
  sm_input_signal_ids : list string;
  sm_execution_backend : ExecutionBackend;
  sm_execution_mode : ExecutionMode;
  sm_configuration_hash : string;
}.

Inductive SequenceCorrelationEvaluationError (PolicyError : Type) : Type :=
| Sequence_Policy (error : PolicyError)
| Sequence_InvalidInput (error : ContractViolation)
| Sequence_UnspecifiedExecutionMode.
Arguments Sequence_Policy {PolicyError}.
Arguments Sequence_InvalidInput {PolicyError}.
Arguments Sequence_UnspecifiedExecutionMode {PolicyError}.

Definition SequenceCorrelationEvaluationError_fmt {PolicyError} `{Display PolicyError}
    (e : SequenceCorrelationEvaluationError PolicyError) : string :=
  match e with
  | Sequence_Policy error => "SEQUENCE correlation evaluation failed: " +:+ to_string error
  | Sequence_InvalidInput error =>
      "invalid SEQUENCE correlation input: " +:+ ContractViolation_display error
  | Sequence_UnspecifiedExecutionMode =>
      "SEQUENCE correlation requires LIVE, REPLAY, or TEST execution mode"
  end.

Record SequenceCandidate (OrderKey : Type) := mkSequenceCandidate {
  sc_signal_id : string;
  sc_stage_indices : list nat;   (* usize *)
  sc_time_millis : Z;            (* i64 *)
  sc_order_key : OrderKey;
}.
Arguments mkSequenceCandidate {OrderKey}.
Arguments sc_signal_id {OrderKey}.
Arguments sc_stage_indices {OrderKey}.
Arguments sc_time_millis {OrderKey}.
Arguments sc_order_key {OrderKey}.

Definition validate_execution_mode (signal : Signal) (execution_mode : ExecutionMode) : validated :=
  reject_if (negb (sg_execution_mode signal =? ExecutionMode_as_i32 execution_mode)%Z)
    (violation "signals.execution_mode" "must equal the bounded correlation evaluation mode") ;;?
  Ok tt.

(** The body of [for signal in signals] in [validate_unique_signals] *)
Definition unique_signal_step (execution_mode : ExecutionMode) (unique_signals : BTreeMap string Signal)
    (signal : Signal) : result (BTreeMap string Signal) ContractViolation :=
  validate_signal signal ;;?
  validate_execution_mode signal execution_mode ;;?
  match bt_get (sg_signal_id signal) unique_signals with
  | Some existing =>
      reject_if (bool_decide (existing <> signal))
        (violation "signals.signal_id"
           "duplicate identity carries conflicting canonical Signal content") ;;?
      Ok unique_signals
  | None => Ok (bt_insert (sg_signal_id signal) signal unique_signals)
  end.

Definition validate_unique_signals (signals : list Signal) (execution_mode : ExecutionMode)
    : result (BTreeMap string Signal) ContractViolation :=
  fold_m (unique_signal_step execution_mode) signals [].

(** *** Selecting a sequence *)

Section SelectSequence.
Context {OrderKey E : Type} `{Ord OrderKey}.
Variables (candidates : list (SequenceCandidate OrderKey)) (max_window_millis : Z).

Definition has_stage (stage_index : nat) (c : SequenceCandidate OrderKey) : bool :=
  existsb (Nat.eqb stage_index) (sc_stage_indices c).

(** The innermost loop: the first later candidate of the stage, after the last
    selected key, that keeps the window *)
Fixpoint next_selection (stage_index : nat) (last_order_key : OrderKey) (min_time max_time : Z)
    (l : list (nat * SequenceCandidate OrderKey)) : option (nat * Z * Z) :=
  match l with
  | [] => None
  | (candidate_index, candidate) :: l =>
      if negb (has_stage stage_index candidate) || cmp_le (sc_order_key candidate) last_order_key
      then next_selection stage_index last_order_key min_time max_time l else
      let candidate_min_time := Z.min min_time (sc_time_millis candidate) in
      let candidate_max_time := Z.max max_time (sc_time_millis candidate) in
      if (max_window_millis <? candidate_max_time - candidate_min_time)%Z
      then next_selection stage_index last_order_key min_time max_time l
      else Some (candidate_index, candidate_min_time, candidate_max_time)
  end.

(** [for stage_index in 1..stage_count]: [None] is [complete = false] *)
Fixpoint extend_sequence (stage_indices : list nat) (selected_indices : list nat) (last_index : nat)
    (last_order_key : OrderKey) (min_time max_time : Z) : result (option (list nat * Z * Z)) E :=
  match stage_indices with
  | [] => Ok (Some (selected_indices, min_time, max_time))
  | stage_index :: stage_indices =>
      match next_selection stage_index last_order_key min_time max_time
              (drop (S last_index) (enumerate candidates)) with
      | None => Ok None
      | Some (candidate_index, candidate_min_time, candidate_max_time) =>
          let? candidate := index candidates candidate_index in
          extend_sequence stage_indices (selected_indices ++ [candidate_index]) candidate_index
            (sc_order_key candidate) candidate_min_time candidate_max_time
      end
  end.

(** [for (start_index, start_candidate) in candidates.iter().enumerate()] *)
Fixpoint try_starts (stage_count : nat) (starts : list (nat * SequenceCandidate OrderKey))
    : result (option (list nat * Z * Z)) E :=
  match starts with
  | [] => Ok None
  | (start_index, start_candidate) :: starts =>
      if negb (has_stage 0 start_candidate) then try_starts stage_count starts else
      let? sequence := extend_sequence (seq 1 (stage_count - 1)) [start_index] start_index
        (sc_order_key start_candidate) (sc_time_millis start_candidate)
        (sc_time_millis start_candidate) in
      match sequence with
      | Some sequence => Ok (Some sequence)
      | None => try_starts stage_count starts
      end
  end.

Definition select_sequence (stage_count : nat) : result (option (list nat * Z * Z)) E :=
  try_starts stage_count (enumerate candidates).
End SelectSequence.

Section SequenceEvaluation.
Context {Stage JoinKey Ordering GroupKey OrderKey Policy Error : Type}.
Context `{SequenceCorrelationEvaluationPolicy Policy Stage JoinKey Ordering GroupKey OrderKey Error}.
Context `{Ord GroupKey} `{Ord OrderKey}.
Variables (plan : CompiledSequenceCorrelationPlan Stage JoinKey Ordering) (policy : Policy).

Definition CandidateGroups : Type :=
  BTreeMap (string * GroupKey) (list (SequenceCandidate OrderKey)).

(** The stages a Signal satisfies *)
Definition matching_stages (signal : Signal)
    : result (list nat) (SequenceCorrelationEvaluationError Error) :=
  fold_m (fun stage_indices '(stage_index, stage) =>
      let? b := map_err Sequence_Policy (stage_matches policy stage signal) in
      Ok (if b : bool then stage_indices ++ [stage_index] else stage_indices))
    (enumerate (sq_stages plan)) [].

(** Stages, join key, clock and order of one Signal: [None] is a [continue]. *)
Definition sequence_candidate (signal : Signal)
    : result (option ((string * GroupKey) * SequenceCandidate OrderKey))
        (SequenceCorrelationEvaluationError Error) :=
  let? stage_indices := matching_stages signal in
  match stage_indices with
  | [] => Ok None
  | _ =>
      let? group_key := map_err Sequence_Policy (sequence_group_key policy (sq_join_keys plan) signal) in
      match group_key with
      | None => Ok None
      | Some group_key =>
          let? time_millis := map_err Sequence_Policy (sequence_time_millis policy signal) in
          match time_millis with
          | None => Ok None
          | Some time_millis =>
              let? order_key :=
                map_err Sequence_Policy (sequence_order_key policy (sq_ordering plan) signal) in
              match order_key with
              | None => Ok None
              | Some order_key =>
                  Ok (Some ((sg_tenant_id signal, group_key),
                            mkSequenceCandidate (sg_signal_id signal) stage_indices time_millis order_key))
              end
          end
      end
  end.

Definition collect_sequence_candidates (signals : BTreeMap string Signal)
    : result CandidateGroups (SequenceCorrelationEvaluationError Error) :=
  fold_m (fun groups signal =>
      let? candidate := sequence_candidate signal in
      match candidate with
      | None => Ok groups
      | Some (key, candidate) => Ok (bt_push key candidate groups)
      end)
    (bt_values signals) [].

Definition sequence_candidate_cmp (left right : SequenceCandidate OrderKey) : comparison :=
  then_with (cmp (sc_order_key left) (sc_order_key right))
    (cmp (sc_signal_id left) (sc_signal_id right)).

(** The body of [for ((tenant_id, _group_key), mut candidates) in groups] *)
Definition sequence_group_step (max_window_millis : Z) (execution_mode : ExecutionMode)
    (matches : list SequenceCorrelationMatch)
    (group : (string * GroupKey) * list (SequenceCandidate OrderKey))
    : result (list SequenceCorrelationMatch) (SequenceCorrelationEvaluationError Error) :=
  let '((tenant_id, _), candidates) := group in
  let candidates := sort_by sequence_candidate_cmp candidates in
  let? selection := select_sequence candidates max_window_millis (length (sq_stages plan)) in
  match selection with
  | None => Ok matches
  | Some (selected_indices, min_time, max_time) =>
      let? window_start := timestamp_from_millis min_time in
      let? window_end := timestamp_from_millis max_time in
      map_err Sequence_InvalidInput (validate_timestamp "window_start" window_start) ;;?
      map_err Sequence_InvalidInput (validate_timestamp "window_end" window_end) ;;?
      let? input_signal_ids :=
        map_m (fun i => let? c := index candidates i in Ok (sc_signal_id c)) selected_indices in
      Ok (matches ++ [mkSequenceCorrelationMatch (sq_correlation_rule_id plan)
            (sq_correlation_rule_version plan) tenant_id window_start window_end input_signal_ids
            (sq_backend plan) execution_mode (sq_configuration_hash plan)])
  end.

Definition evaluate_sequence_signals (signals : list Signal) (execution_mode : ExecutionMode)
    : result (list SequenceCorrelationMatch) (SequenceCorrelationEvaluationError Error) :=
  reject_if (bool_decide (execution_mode = ExecutionMode_Unspecified))
    Sequence_UnspecifiedExecutionMode ;;?
  let? max_window_millis := ok_or (try_from in_i64 (sq_max_window_millis plan))
    (Sequence_InvalidInput
       (violation "max_window_millis" "exceeds supported deterministic batch range")) in
  let? unique_signals :=
    map_err Sequence_InvalidInput (validate_unique_signals signals execution_mode) in
  let? groups := collect_sequence_candidates unique_signals in
  fold_m (sequence_group_step max_window_millis execution_mode) groups [].
End SequenceEvaluation.

(** ** correlation_finding_materializer.rs *)

Definition SIGNAL_INPUT_TYPE : string := "SIGNAL".

Record CorrelationFindingMaterializationContext := mkCorrelationFindingMaterializationContext {
  fc_finding_id : string;
  fc_severity : string;
  fc_confidence : option string;
  fc_title : string;
  fc_description : string;
  fc_input_relation : string;
  fc_created_at : Timestamp;
}.

Definition correlation_finding (correlation_match : SequenceCorrelationMatch)
    (context : CorrelationFindingMaterializationContext) : Finding :=
  let inputs :=
    (fun signal_id => mkFindingInput (fc_finding_id context) SIGNAL_INPUT_TYPE signal_id
                        (fc_input_relation context))
    <$> sm_input_signal_ids correlation_match in
  mkFinding (fc_finding_id context) (sm_tenant_id correlation_match)
    (FindingType_as_i32 FindingType_Correlation) (FindingStatus_as_i32 FindingStatus_Open)
    (fc_severity context) (fc_confidence context) (fc_title context) (fc_description context)
    (Some (sm_window_start correlation_match)) (Some (sm_window_end correlation_match))
    (Some (fc_created_at context)) (Some (fc_created_at context)) None None
    (Some (sm_correlation_rule_id correlation_match))
    (Some (sm_correlation_rule_version correlation_match))
    (FindingDisposition_as_i32 FindingDisposition_Undetermined) None
    (ExecutionMode_as_i32 (sm_execution_mode correlation_match)) inputs
    (Some (mkFindingCorrelationProvenance (sm_correlation_rule_id correlation_match)
             (sm_correlation_rule_version correlation_match)
             (Some (sm_window_start correlation_match)) (Some (sm_window_end correlation_match))
             (sm_input_signal_ids correlation_match) (fc_finding_id context)
             (DetectionExecutionBackend_as_i32
                (contract_backend (sm_execution_backend correlation_match)))
             (ExecutionMode_as_i32 (sm_execution_mode correlation_match))
             (sm_configuration_hash correlation_match))).

Definition materialize_sequence_correlation_finding (correlation_match : SequenceCorrelationMatch)
    (context : CorrelationFindingMaterializationContext) : result Finding ContractViolation :=
  let finding := correlation_finding correlation_match context in
  validate_finding finding ;;?
  Ok finding.

(** ** Sequences: specification and greedy selection *)

Section Sequences.
Context {OrderKey : Type} `{Ord OrderKey}.
Variables (candidates : list (SequenceCandidate OrderKey)) (w : Z).

(** [follows ss i k js]: the candidates [js] realize the stages [ss] in turn, at
    increasing positions after [i] and strictly increasing order keys after [k]. *)
Fixpoint follows (ss : list nat) (i : nat) (k : OrderKey) (js : list nat) : Prop :=
  match ss, js with
  | [], [] => True
  | s :: ss, j :: js =>
      i < j /\ exists c, candidates !! j = Some c /\ s ∈ sc_stage_indices c /\
        cmp_lt k (sc_order_key c) = true /\ follows ss j (sc_order_key c) js
  | _, _ => False
  end.

Definition in_window (js : list nat) : Prop :=
  forall i j c d, i ∈ js -> j ∈ js -> candidates !! i = Some c -> candidates !! j = Some d ->
    (sc_time_millis d - sc_time_millis c <= w)%Z.

(** A sequence of [n] stages: one candidate per stage, in order, within the window. *)
Definition valid_sequence (n : nat) (js : list nat) : Prop :=
  exists i c rest, js = i :: rest /\ candidates !! i = Some c /\ 0 ∈ sc_stage_indices c /\
    follows (seq 1 (n - 1)) i (sc_order_key c) rest /\ in_window js.

Lemma has_stage_iff s (c : SequenceCandidate OrderKey) : has_stage s c = true <-> s ∈ sc_stage_indices c.
Proof.
  unfold has_stage. rewrite existsb_exists. setoid_rewrite Nat.eqb_eq.
  setoid_rewrite <-list_elem_of_In. naive_solver.
Qed.

Lemma drop_enumerate k c :
  candidates !! k = Some c -> drop k (enumerate candidates) = (k, c) :: drop (S k) (enumerate candidates).
Proof.
  intros Hk. apply drop_S. unfold enumerate. by rewrite list_lookup_imap, Hk.
Qed.

(** What makes a candidate selectable. *)
Definition eligible (s : nat) (k : OrderKey) (mn mx : Z) (c : SequenceCandidate OrderKey) : Prop :=
  s ∈ sc_stage_indices c /\ cmp_lt k (sc_order_key c) = true /\
  (Z.max mx (sc_time_millis c) - Z.min mn (sc_time_millis c) <= w)%Z.

(** [selects s k mn mx i r]: [r] is the first eligible position from [i] on. *)
Definition selects (s : nat) (k : OrderKey) (mn mx : Z) (i : nat) (r : option (nat * Z * Z)) : Prop :=
  match r with
  | Some (j, mn', mx') =>
      i <= j /\ exists c, candidates !! j = Some c /\ eligible s k mn mx c /\
        mn' = Z.min mn (sc_time_millis c) /\ mx' = Z.max mx (sc_time_millis c) /\
        (forall j' c', i <= j' < j -> candidates !! j' = Some c' -> ~ eligible s k mn mx c')
  | None => forall j c, i <= j -> candidates !! j = Some c -> ~ eligible s k mn mx c
  end.

Lemma selects_skip s k mn mx i c r :
  candidates !! i = Some c -> ~ eligible s k mn mx c -> selects s k mn mx (S i) r ->
  selects s k mn mx i r.
Proof.
  intros Hc Hno. unfold selects. destruct r as [[[j mn'] mx']|].
  - intros (? & c' & ? & ? & ? & ? & Hbefore). split; [lia|]. exists c'. split_and!; try done.
    intros j' d Hj' Hd. destruct (decide (j' = i)) as [->|]; [by simplify_eq|].
    apply (Hbefore j' d); [lia|done].
  - intros Hnone j d Hj Hd. destruct (decide (j = i)) as [->|]; [by simplify_eq|].
    apply (Hnone j d); [lia|done].
Qed.

Lemma next_selection_spec s k mn mx i :
  selects s k mn mx i (next_selection w s k mn mx (drop i (enumerate candidates))).
Proof.
  remember (length candidates - i) as fuel eqn:Hf. revert i Hf.
  induction fuel as [|fuel IH]; intros i Hf.
  - rewrite drop_ge by (rewrite length_enumerate; lia). simpl. intros j c Hij Hj.
    apply lookup_lt_Some in Hj. lia.
  - destruct (lookup_lt_is_Some_2 candidates i) as [c Hc]; [lia|].
    specialize (IH (S i) ltac:(lia)). rewrite (drop_enumerate i c Hc).
    cbn [next_selection]. cbv zeta. rewrite cmp_le_not_lt.
    pose proof (has_stage_iff s c) as Hst.
    destruct (has_stage s c); simpl;
      [|apply (selects_skip _ _ _ _ _ c); [done| |done]; intros (Hs & _); by apply Hst in Hs].
    destruct (cmp_lt k (sc_order_key c)) eqn:Ek; simpl;
      [|apply (selects_skip _ _ _ _ _ c); [done| |done]; intros (_ & Hk & _); congruence].
    destruct (Z.ltb_spec w (Z.max mx (sc_time_millis c) - Z.min mn (sc_time_millis c)));
      [apply (selects_skip _ _ _ _ _ c); [done| |done]; intros (_ & _ & ?); lia|].
    split; [lia|]. exists c. unfold eligible. split_and!; try (done || lia). by apply Hst.
Qed.

(** *** Soundness of the greedy extension *)

Definition time_of (j : nat) : Z := from_option sc_time_millis 0%Z (candidates !! j).

Lemma time_of_lookup j c : candidates !! j = Some c -> time_of j = sc_time_millis c.
Proof. unfold time_of. by intros ->. Qed.

Lemma extend_ok {E} ss sel i k mn mx : exists o, extend_sequence (E := E) candidates w ss sel i k mn mx = Ok o.
Proof.
  revert sel i k mn mx. induction ss as [|s ss IH]; intros sel i k mn mx; simpl; [eauto|].
  pose proof (next_selection_spec s k mn mx (S i)) as Hn.
  destruct (next_selection _ _ _ _ _ _) as [[[j mn'] mx']|]; [|eauto].
  destruct Hn as (_ & c & Hc & _). rewrite (proj2 (index_ok_iff _ _ _) Hc). simpl. apply IH.
Qed.

Lemma extend_sound {E} ss sel i k mn mx sel' mn' mx' :
  (mx - mn <= w)%Z -> extend_sequence (E := E) candidates w ss sel i k mn mx = Ok (Some (sel', mn', mx')) ->
  exists js, sel' = sel ++ js /\ follows ss i k js /\ (mx' - mn' <= w)%Z /\
    (mn' <= mn)%Z /\ (mx <= mx')%Z /\ Forall (fun j => (mn' <= time_of j <= mx')%Z) js /\
    mn' ∈ mn :: (time_of <$> js) /\ mx' ∈ mx :: (time_of <$> js).
Proof.
  revert sel i k mn mx. induction ss as [|s ss IH]; intros sel i k mn mx Hw; simpl.
  - intros [= <- <- <-]. exists []. rewrite app_nil_r. split_and!; try (done || lia); by left.
  - pose proof (next_selection_spec s k mn mx (S i)) as Hn.
    destruct (next_selection _ _ _ _ _ _) as [[[j mn1] mx1]|]; [|done].
    destruct Hn as (Hij & c & Hc & (Hs & Hk & Hcw) & -> & -> & _).
    rewrite (proj2 (index_ok_iff _ _ _) Hc). simpl.
    intros (js & -> & Hfol & ? & ? & ? & Hall & Hmn & Hmx)%IH; [|done].
    pose proof (time_of_lookup _ _ Hc) as Ht. rewrite <-Ht in *. exists (j :: js). rewrite <-app_assoc.
    split_and!; try (done || lia).
    + eauto.
    + constructor; [lia|done].
    + apply elem_of_cons in Hmn as [Hmn|Hmn]; [|set_solver].
      destruct (Z.min_spec mn (time_of j)) as [[_ E']|[_ E']]; rewrite Hmn, E'; set_solver.
    + apply elem_of_cons in Hmx as [Hmx|Hmx]; [|set_solver].
      destruct (Z.max_spec mx (time_of j)) as [[_ E']|[_ E']]; rewrite Hmx, E'; set_solver.
Qed.

Lemma follows_lookup ss i k js :
  follows ss i k js -> Forall (fun j => is_Some (candidates !! j)) js.
Proof.
  revert i k js. induction ss as [|s ss IH]; intros i k [|j js]; simpl; try done.
  intros (_ & c & Hc & _ & _ & ?%IH). constructor; eauto.
Qed.

(** *** The loop over start candidates *)

Definition extend_from {E} (n i : nat) (c : SequenceCandidate OrderKey)
    : result (option (list nat * Z * Z)) E :=
  extend_sequence candidates w (seq 1 (n - 1)) [i] i (sc_order_key c) (sc_time_millis c) (sc_time_millis c).

Lemma try_starts_spec {E} n i :
  (exists j c r, i <= j /\ candidates !! j = Some c /\ 0 ∈ sc_stage_indices c /\
     extend_from (E := E) n j c = Ok (Some r) /\
     try_starts (E := E) candidates w n (drop i (enumerate candidates)) = Ok (Some r) /\
     forall j' c', i <= j' < j -> candidates !! j' = Some c' -> 0 ∈ sc_stage_indices c' ->
       extend_from (E := E) n j' c' = Ok None) \/
  (try_starts (E := E) candidates w n (drop i (enumerate candidates)) = Ok None /\
     forall j c, i <= j -> candidates !! j = Some c -> 0 ∈ sc_stage_indices c ->
       extend_from (E := E) n j c = Ok None).
Proof.
  remember (length candidates - i) as fuel eqn:Hf. revert i Hf.
  induction fuel as [|fuel IH]; intros i Hf.
  - right. rewrite drop_ge by (rewrite length_enumerate; lia). split; [done|].
    intros j c Hij Hj. apply lookup_lt_Some in Hj. lia.
  - destruct (lookup_lt_is_Some_2 candidates i) as [c Hc]; [lia|].
    rewrite (drop_enumerate i c Hc). cbn [try_starts].
    destruct (IH (S i) ltac:(lia)) as [(j & d & r & Hj & Hd & Hs & Hx & -> & Hno)|[-> Hno]].
    + destruct (has_stage 0 c) eqn:E0; simpl.
      * apply has_stage_iff in E0. destruct (extend_ok (E := E) (seq 1 (n - 1)) [i] i (sc_order_key c)
          (sc_time_millis c) (sc_time_millis c)) as [[r'|] Hx']; rewrite Hx'; simpl; left.
        -- exists i, c, r'. split_and!; try (done || lia).
        -- exists j, d, r. split_and!; try (done || lia). intros j' c' Hj' Hc' Hs'.
           destruct (decide (j' = i)) as [->|]; [by simplify_eq|]. apply (Hno j'); [lia|done..].
      * left. exists j, d, r. split_and!; try (done || lia). intros j' c' Hj' Hc' Hs'.
        destruct (decide (j' = i)) as [->|]; [|apply (Hno j'); [lia|done..]].
        simplify_eq. apply has_stage_iff in Hs'. congruence.
    + destruct (has_stage 0 c) eqn:E0; simpl.
      * apply has_stage_iff in E0. destruct (extend_ok (E := E) (seq 1 (n - 1)) [i] i (sc_order_key c)
          (sc_time_millis c) (sc_time_millis c)) as [[r'|] Hx']; rewrite Hx'; simpl.
        -- left. exists i, c, r'. split_and!; try (done || lia).
        -- right. split; [done|]. intros j d Hj Hd Hs'.
           destruct (decide (j = i)) as [->|]; [by simplify_eq|]. apply (Hno j); [lia|done..].
      * right. split; [done|]. intros j d Hj Hd Hs'.
        destruct (decide (j = i)) as [->|]; [|apply (Hno j); [lia|done..]].
        simplify_eq. apply has_stage_iff in Hs'. congruence.
Qed.

Lemma select_sequence_ok {E} n : exists o, select_sequence (E := E) candidates w n = Ok o.
Proof.
  unfold select_sequence. rewrite <-(drop_0 (enumerate candidates)).
  destruct (try_starts_spec (E := E) n 0) as [(_ & _ & r & _ & _ & _ & _ & -> & _)|[-> _]]; eauto.
Qed.

Lemma select_sequence_sound {E} n js mn mx :
  (0 <= w)%Z -> select_sequence (E := E) candidates w n = Ok (Some (js, mn, mx)) ->
  valid_sequence n js /\ (mx - mn <= w)%Z /\ Forall (fun j => (mn <= time_of j <= mx)%Z) js /\
  mn ∈ time_of <$> js /\ mx ∈ time_of <$> js.
Proof.
  intros Hw. unfold select_sequence. rewrite <-(drop_0 (enumerate candidates)).
  destruct (try_starts_spec (E := E) n 0) as [(i & c & r & _ & Hc & Hs & Hx & -> & _)|[-> _]]; [|done].
  intros [= ->]. unfold extend_from in Hx. apply extend_sound in Hx as (rest & -> & Hfol & Hmw & ? & ? & Hall & Hmn & Hmx); [|lia].
  pose proof (time_of_lookup _ _ Hc) as Ht. rewrite <-Ht in *. simpl.
  assert (Forall (fun j => (mn <= time_of j <= mx)%Z) (i :: rest)) as Hall' by (constructor; [lia|done]).
  split_and!; try done. exists i, c, rest. split_and!; try done.
  intros j1 j2 c1 c2 Hj1 Hj2 Hc1 Hc2. rewrite Forall_forall in Hall'.
  rewrite <-(time_of_lookup _ _ Hc1), <-(time_of_lookup _ _ Hc2).
  pose proof (Hall' _ Hj1). pose proof (Hall' _ Hj2). simpl in *. lia.
Qed.

(** *** Optimality, when time follows the order *)

Section Monotone.
Hypothesis Hkeys : forall i j c d, i <= j -> candidates !! i = Some c -> candidates !! j = Some d ->
  cmp_le (sc_order_key c) (sc_order_key d) = true.
Hypothesis Htimes : forall i j c d, i <= j -> candidates !! i = Some c -> candidates !! j = Some d ->
  (sc_time_millis c <= sc_time_millis d)%Z.

(** The greedy choice from [i] stays at or before any realization that starts at
    or after [i]. *)
Lemma extend_dominates {E} ss sel i c js g t0 mx mn' mx' sel' p d :
  candidates !! i = Some c -> candidates !! p = Some d -> i <= p -> (t0 <= sc_time_millis c)%Z ->
  mx = sc_time_millis c -> follows ss p (sc_order_key d) js ->
  extend_sequence (E := E) candidates w ss sel i (sc_order_key c) t0 mx = Ok (Some (sel', mn', mx')) ->
  sel' = sel ++ g -> Forall2 le g js.
Proof.
  revert sel i c js g mx p d. induction ss as [|s ss IH]; intros sel i c js g mx p d Hc Hd Hip Ht0 -> Hfol; simpl.
  - destruct js; [|done]. intros [= <- _ _] Hg. destruct g; [constructor|].
    apply (f_equal length) in Hg. rewrite length_app in Hg. simpl in Hg. lia.
  - destruct js as [|j js]; [done|]. destruct Hfol as (Hpj & e & He & Hs & Hk & Hfol).
    pose proof (next_selection_spec s (sc_order_key c) t0 (sc_time_millis c) (S i)) as Hn.
    destruct (next_selection _ _ _ _ _ _) as [[[j1 mn1] mx1]|]; [|done].
    destruct Hn as (Hij & c1 & Hc1 & (Hs1 & Hk1 & Hw1) & -> & -> & Hfirst).
    rewrite (proj2 (index_ok_iff _ _ _) Hc1). simpl.
    pose proof (Htimes i j1 c c1 ltac:(lia) Hc Hc1) as Htc1.
    rewrite Z.min_l, Z.max_r by lia. intros Hext Hg.
    assert (j1 <= j) as Hle.
    { destruct (decide (j1 <= j)); [done|]. exfalso. apply (Hfirst j e); [lia|done|].
      split_and!; [done| |].
      - eapply cmp_le_lt_trans; [|exact Hk]. by apply (Hkeys i p).
      - pose proof (Htimes j j1 e c1 ltac:(lia) He Hc1). pose proof (Htimes i j c e ltac:(lia) Hc He). lia. }
    destruct (extend_sound (E := E) ss (sel ++ [j1]) j1 (sc_order_key c1) t0 (sc_time_millis c1) sel' mn' mx')
      as (js1 & Hsel & _); [lia|done|].
    assert (g = j1 :: js1) as ->.
    { rewrite Hsel, <-app_assoc in Hg. by apply app_inv_head in Hg. }
    constructor; [done|]. eapply IH; [exact Hc1|exact He|exact Hle|lia|done|exact Hfol|exact Hext|].
    by rewrite Hsel.
Qed.

(** If some realization stays in the window, the greedy extension completes. *)
Lemma extend_complete {E} ss sel i c js t0 p d :
  candidates !! i = Some c -> candidates !! p = Some d -> i <= p -> (t0 <= sc_time_millis c)%Z ->
  follows ss p (sc_order_key d) js -> Forall (fun j => (time_of j - t0 <= w)%Z) js ->
  exists r, extend_sequence (E := E) candidates w ss sel i (sc_order_key c) t0 (sc_time_millis c) = Ok (Some r).
Proof.
  revert sel i c js p d. induction ss as [|s ss IH]; intros sel i c js p d Hc Hd Hip Ht0 Hfol Hw; simpl; [eauto|].
  destruct js as [|j js]; [done|]. destruct Hfol as (Hpj & e & He & Hs & Hk & Hfol).
  apply Forall_cons in Hw as [Hwj Hw]. rewrite (time_of_lookup _ _ He) in Hwj.
  assert (eligible s (sc_order_key c) t0 (sc_time_millis c) e) as Hel.
  { split_and!; [done| |].
    - eapply cmp_le_lt_trans; [|exact Hk]. by apply (Hkeys i p).
    - pose proof (Htimes i j c e ltac:(lia) Hc He). lia. }
  pose proof (next_selection_spec s (sc_order_key c) t0 (sc_time_millis c) (S i)) as Hn.
  destruct (next_selection _ _ _ _ _ _) as [[[j1 mn1] mx1]|]; [|by destruct (Hn j e); [lia|done|]].
  destruct Hn as (Hij & c1 & Hc1 & _ & -> & -> & Hfirst).
  rewrite (proj2 (index_ok_iff _ _ _) Hc1). simpl.
  pose proof (Htimes i j1 c c1 ltac:(lia) Hc Hc1) as Htc1. rewrite Z.min_l, Z.max_r by lia.
  assert (j1 <= j) as Hle by (destruct (decide (j1 <= j)); [done|destruct (Hfirst j e); [lia|done..]]).
  eapply IH; [exact Hc1|exact He|done|lia|done|done].
Qed.

Lemma in_window_start n i c rest :
  candidates !! i = Some c -> follows (seq 1 (n - 1)) i (sc_order_key c) rest -> in_window (i :: rest) ->
  Forall (fun j => (time_of j - sc_time_millis c <= w)%Z) rest.
Proof.
  intros Hc Hfol Hw. apply Forall_forall. intros j Hj.
  pose proof (proj1 (Forall_forall _ _) (follows_lookup _ _ _ _ Hfol) j Hj) as [d Hd].
  rewrite (time_of_lookup _ _ Hd). apply (Hw i j); [by left|by right|done..].
Qed.

(** The selected sequence is, position by position, the earliest of all. *)
Lemma select_sequence_optimal {E} n js :
  (0 <= w)%Z -> valid_sequence n js ->
  exists g mn mx, select_sequence (E := E) candidates w n = Ok (Some (g, mn, mx)) /\ Forall2 le g js.
Proof.
  intros Hw (i & c & rest & -> & Hc & Hs & Hfol & Hwin).
  pose proof (in_window_start n i c rest Hc Hfol Hwin) as Hwin'.
  destruct (extend_complete (E := E) (seq 1 (n - 1)) [i] i c rest (sc_time_millis c) i c)
    as [r Hr]; try (done || lia).
  unfold select_sequence. rewrite <-(drop_0 (enumerate candidates)).
  destruct (try_starts_spec (E := E) n 0) as [(i0 & c0 & [[g mn] mx] & _ & Hc0 & Hs0 & Hx & -> & Hno)|[_ Hno]].
  - exists g, mn, mx. split; [done|].
    assert (i0 <= i) as Hle.
    { destruct (decide (i0 <= i)); [done|]. specialize (Hno i c ltac:(lia) Hc Hs).
      unfold extend_from in Hno. congruence. }
    unfold extend_from in Hx. pose proof Hx as (rest0 & -> & _)%extend_sound; [|lia].
    simpl. constructor; [done|].
    by apply (extend_dominates (E := E) (seq 1 (n - 1)) [i0] i0 c0 rest rest0 (sc_time_millis c0) (sc_time_millis c0) mn mx
      ([i0] ++ rest0) i c).
  - specialize (Hno i c ltac:(lia) Hc Hs). unfold extend_from in Hno. congruence.
Qed.
End Monotone.

(** *** Missing a sequence

    Within one start the selection never takes a choice back: when the first
    eligible candidate [x] of the second stage is out of the window of every
    candidate of the third, nothing is selected. *)
Lemma select_sequence_blocked {E} n a x :
  (forall i j c d, i <= j -> candidates !! i = Some c -> candidates !! j = Some d ->
     cmp_le (sc_order_key c) (sc_order_key d) = true) ->
  3 <= n -> x ∈ candidates -> 1 ∈ sc_stage_indices x ->
  cmp_lt (sc_order_key a) (sc_order_key x) = true ->
  (Z.abs (sc_time_millis x - sc_time_millis a) <= w)%Z ->
  (forall c, c ∈ candidates -> 0 ∈ sc_stage_indices c -> c = a) ->
  (forall c, c ∈ candidates -> 1 ∈ sc_stage_indices c ->
     c = x \/ cmp_lt (sc_order_key x) (sc_order_key c) = true) ->
  (forall c, c ∈ candidates -> 2 ∈ sc_stage_indices c ->
     (w < Z.abs (sc_time_millis c - sc_time_millis x))%Z) ->
  select_sequence (E := E) candidates w n = Ok None.
Proof.
  intros Hkeys Hn Hx Hx1 Hax Hnear Hzero Hone Htwo.
  unfold select_sequence. rewrite <-(drop_0 (enumerate candidates)).
  destruct (try_starts_spec (E := E) n 0) as [(i & c & r & _ & Hc & Hs & Hext & _ & _)|[-> _]]; [exfalso|done].
  assert (c = a) as -> by (apply Hzero; [by eapply list_elem_of_lookup_2|done]).
  unfold extend_from in Hext. replace (n - 1) with (S (S (n - 3))) in Hext by lia. cbn [seq extend_sequence] in Hext.
  pose proof (next_selection_spec 1 (sc_order_key a) (sc_time_millis a) (sc_time_millis a) (S i)) as Hsel.
  destruct (next_selection _ _ _ _ _ _) as [[[j mn] mx]|]; [|done].
  destruct Hsel as (Hij & d & Hd & (Hd1 & _) & -> & -> & Hfirst).
  assert (d = x) as ->.
  { destruct (Hone d) as [?|Hlt]; [by eapply list_elem_of_lookup_2|done..|].
    apply list_elem_of_lookup in Hx as [p Hp]. exfalso. apply (Hfirst p x); [split|done|].
    - destruct (decide (p <= i)) as [Hle|]; [|lia].
      pose proof (Hkeys p i x a Hle Hp Hc) as Hback. rewrite cmp_le_not_lt, Hax in Hback. done.
    - destruct (decide (j <= p)) as [Hle|]; [|lia].
      pose proof (Hkeys j p d x Hle Hd Hp) as Hback. rewrite cmp_le_not_lt, Hlt in Hback. done.
    - split_and!; [done..|lia]. }
  rewrite (proj2 (index_ok_iff _ _ _) Hd) in Hext. cbn [bind] in Hext.
  pose proof (next_selection_spec 2 (sc_order_key x) (Z.min (sc_time_millis a) (sc_time_millis x))
    (Z.max (sc_time_millis a) (sc_time_millis x)) (S j)) as Hsel.
  destruct (next_selection _ _ _ _ _ _) as [[[j2 mn] mx]|]; [|done].
  destruct Hsel as (_ & e & He & (He2 & _ & Hwin) & _).
  specialize (Htwo e ltac:(by eapply list_elem_of_lookup_2) He2). lia.
Qed.

End Sequences.
