(* ===== verification/CorrelationSpec.v ===== *)
(** * SEQUENCE correlation: what it promises

    The specification of crates/cerbero-detection-core/src/correlation.rs and
    correlation_finding_materializer.rs, and the theorems that Correlation.v
    meets it. *)

From S2P Require Import Prelude RustStd ContractTypes Validation SignalContract FindingContract RuleContract DetectionAst EventPipeline EventSignal Threshold ThresholdSpec Correlation.

(** ** Sequences as lists of candidates *)

Section Realizations.
Context {OrderKey : Type} `{Ord OrderKey}.
Variables (candidates : list (SequenceCandidate OrderKey)) (w : Z).
Implicit Types (c d : SequenceCandidate OrderKey).

Definition key_before c d : Prop := cmp_lt (sc_order_key c) (sc_order_key d) = true.

(** [cs] realizes the stages [ss]: one candidate per stage, strictly increasing
    order keys. *)
Definition realizes (ss : list nat) (cs : list (SequenceCandidate OrderKey)) : Prop :=
  Forall2 (fun s c => s ∈ sc_stage_indices c) ss cs /\ StronglySorted key_before cs.

Definition spans (cs : list (SequenceCandidate OrderKey)) : Prop :=
  forall c d, c ∈ cs -> d ∈ cs -> (sc_time_millis d - sc_time_millis c <= w)%Z.

Definition at_positions (js : list nat) (cs : list (SequenceCandidate OrderKey)) : Prop :=
  Forall2 (fun j c => candidates !! j = Some c) js cs.

Lemma follows_realizes ss i k js :
  follows candidates ss i k js ->
  exists cs, at_positions js cs /\ realizes ss cs /\
    Forall (fun c => cmp_lt k (sc_order_key c) = true) cs /\ StronglySorted lt js /\ Forall (lt i) js.
Proof.
  revert i k js. induction ss as [|s ss IH]; intros i k [|j js]; simpl; try done.
  - intros _. exists []. repeat split; constructor.
  - intros (Hij & c & Hc & Hs & Hk & Hfol). apply IH in Hfol as (cs & Hat & [Hr Hsort] & Hall & Hjs & Hlt).
    exists (c :: cs). split_and!; [by constructor| | |by constructor|].
    + split; by constructor.
    + constructor; [done|]. eapply Forall_impl; [exact Hall|]. intros d Hd.
      apply (cmp_le_lt_trans _ (sc_order_key c)); [|done].
      apply cmp_le_iff. left. by apply cmp_lt_iff.
    + constructor; [done|]. eapply Forall_impl; [exact Hlt|]. intros; lia.
Qed.

Lemma at_positions_elem js cs c :
  at_positions js cs -> c ∈ cs -> exists j, (j ∈ js) /\ candidates !! j = Some c.
Proof.
  intros Hat [i Hi]%list_elem_of_lookup. destruct (Forall2_lookup_r _ _ _ _ _ Hat Hi) as (j & Hj & Hc).
  exists j. split; [by eapply list_elem_of_lookup_2|done].
Qed.

Lemma valid_sequence_realizes n js :
  1 <= n -> valid_sequence candidates w n js ->
  exists cs, at_positions js cs /\ realizes (seq 0 n) cs /\ spans cs /\ StronglySorted lt js.
Proof.
  intros Hn (i & c & rest & -> & Hc & Hs & Hfol & Hw).
  apply follows_realizes in Hfol as (cs & Hat & [Hr Hsort] & Hall & Hjs & Hlt).
  assert (at_positions (i :: rest) (c :: cs)) as Hat' by (by constructor).
  exists (c :: cs). split_and!; [done| | |by constructor].
  - replace n with (S (n - 1)) by lia. split; [by constructor|]. by constructor.
  - intros d e Hd He. destruct (at_positions_elem _ _ _ Hat' Hd) as (j1 & ? & ?).
    destruct (at_positions_elem _ _ _ Hat' He) as (j2 & ? & ?). by apply (Hw j1 j2).
Qed.

Lemma at_positions_times js cs :
  at_positions js cs -> time_of candidates <$> js = sc_time_millis <$> cs.
Proof.
  induction 1 as [|j c js cs Hc Hat IH]; [done|]. rewrite !fmap_cons, IH.
  by rewrite (time_of_lookup _ _ _ Hc).
Qed.

Lemma at_positions_ids {E} js cs :
  at_positions js cs ->
  map_m (fun i => let? c := index (E := E) candidates i in Ok (sc_signal_id c)) js
    = Ok (sc_signal_id <$> cs).
Proof.
  induction 1 as [|j c js cs Hc Hat IH]; [done|]. simpl.
  rewrite (proj2 (index_ok_iff _ _ _) Hc). simpl. by rewrite IH.
Qed.

Lemma at_positions_NoDup js cs :
  StronglySorted lt js -> NoDup (sc_signal_id <$> candidates) -> at_positions js cs ->
  NoDup (sc_signal_id <$> cs).
Proof.
  intros Hjs Hnd Hat. rewrite NoDup_alt in Hnd |- *.
  assert (forall i i' id, i < i' -> (sc_signal_id <$> cs) !! i = Some id ->
    (sc_signal_id <$> cs) !! i' = Some id -> False) as Hlt.
  { intros i i' id Hii Hi Hi'. rewrite list_lookup_fmap in Hi, Hi'.
    destruct (cs !! i) as [c|] eqn:Ec, (cs !! i') as [d|] eqn:Ed; simplify_eq/=.
    destruct (Forall2_lookup_r _ _ _ _ _ Hat Ec) as (j & Hj & Hjc).
    destruct (Forall2_lookup_r _ _ _ _ _ Hat Ed) as (j' & Hj' & Hjd).
    assert (j = j') as <-.
    { apply (Hnd j j' (sc_signal_id c)); rewrite list_lookup_fmap; [by rewrite Hjc|].
      rewrite Hjd. simpl. congruence. }
    revert Hii Hj Hj'. clear -Hjs. revert i i'. induction Hjs as [|x l Hl IH Hx]; intros [|i] [|i']; simpl; try (done || lia).
    - intros _ [= ->] Hin%list_elem_of_lookup_2. rewrite Forall_forall in Hx. specialize (Hx _ Hin). lia.
    - intros. by apply (IH i i'); [lia|..]. }
  intros i i' id Hi Hi'. destruct (lt_eq_lt_dec i i') as [[|]|]; [|done|]; exfalso; eauto.
Qed.

(** Conversely, in candidates sorted by order key. *)
Hypothesis Hkeys : forall i j c d, i <= j -> candidates !! i = Some c -> candidates !! j = Some d ->
  cmp_le (sc_order_key c) (sc_order_key d) = true.

Lemma realizes_follows ss cs i c js :
  candidates !! i = Some c -> at_positions js cs -> realizes ss cs -> Forall (key_before c) cs ->
  follows candidates ss i (sc_order_key c) js.
Proof.
  revert ss i c js. induction cs as [|d cs IH]; intros ss i c js Hc Hat [Hr Hsort] Hall.
  - apply Forall2_nil_inv_r in Hat as ->. by apply Forall2_nil_inv_r in Hr as ->.
  - apply Forall2_cons_inv_r in Hat as (j & js' & Hj & Hat & ->).
    apply Forall2_cons_inv_r in Hr as (s & ss' & Hs & Hr & ->).
    apply Forall_cons in Hall as [Hcd Hall]. inversion Hsort as [|? ? Hsort' Hd]; subst. simpl. split.
    + destruct (decide (i < j)); [done|]. specialize (Hkeys j i d c ltac:(lia) Hj Hc).
      unfold key_before in Hcd. rewrite cmp_le_not_lt, Hcd in Hkeys. done.
    + exists d. split_and!; try done. by apply IH.
Qed.

Lemma realizes_valid n cs js :
  1 <= n -> at_positions js cs -> realizes (seq 0 n) cs -> spans cs -> valid_sequence candidates w n js.
Proof.
  intros Hn Hat [Hr Hsort] Hw. replace n with (S (n - 1)) in Hr by lia. simpl in Hr.
  pose proof Hr as (c & cs' & Hs & Hr' & ->)%Forall2_cons_inv_l.
  pose proof Hat as (i & rest & Hi & Hat' & ->)%Forall2_cons_inv_r.
  inversion Hsort as [|? ? Hsort' Hall]; subst. exists i, c, rest. split_and!; try done.
  - by apply (realizes_follows _ cs').
  - assert (forall j d, j ∈ i :: rest -> candidates !! j = Some d -> d ∈ c :: cs') as Hmem.
    { intros j d [k Hk]%list_elem_of_lookup Hd. destruct (Forall2_lookup_l _ _ _ _ _ Hat Hk) as (e & He & Hje).
      simplify_eq. by eapply list_elem_of_lookup_2. }
    intros j1 j2 d1 d2 Hj1 Hj2 Hd1 Hd2. apply Hw; [by apply (Hmem j1)|by apply (Hmem j2)].
Qed.
End Realizations.

(** ** Unique signals *)

Section UniqueSignals.
Implicit Types (signals : list Signal) (s : Signal) (m : BTreeMap string Signal).

(** Signals of the batch that share an identity are the same Signal. *)
Definition consistent_signals signals : Prop :=
  forall s s', s ∈ signals -> s' ∈ signals -> sg_signal_id s = sg_signal_id s' -> s = s'.

Definition admissible (mode : ExecutionMode) s : Prop :=
  signal_ok s /\ sg_execution_mode s = ExecutionMode_as_i32 mode.

(** [m] holds the Signals of [l] under their identities. *)
Definition indexes m (l : list Signal) : Prop :=
  bt_sorted m /\ forall id s, bt_get id m = Some s <-> (s ∈ l) /\ sg_signal_id s = id.

Lemma unique_signal_step_ok_iff mode m s m' :
  unique_signal_step mode m s = Ok m' <->
  admissible mode s /\
  match bt_get (sg_signal_id s) m with
  | Some s' => s' = s /\ m' = m
  | None => m' = bt_insert (sg_signal_id s) s m
  end.
Proof.
  unfold unique_signal_step, validate_execution_mode, admissible. ok_iff. rewrite validate_signal_ok_iff.
  destruct (bt_get _ _) as [s'|]; ok_iff; [|naive_solver].
  rewrite bool_decide_eq_false. destruct (decide (s' = s)); naive_solver.
Qed.

Lemma unique_signal_step_indexes mode m s m' l :
  indexes m l -> consistent_signals l -> unique_signal_step mode m s = Ok m' ->
  indexes m' (l ++ [s]) /\ consistent_signals (l ++ [s]).
Proof.
  intros [Hs Hm] Hc (_ & Hstep)%unique_signal_step_ok_iff.
  destruct (bt_get (sg_signal_id s) m) as [s'|] eqn:Eg.
  - destruct Hstep as [-> ->]. apply Hm in Eg as [Hin _].
    assert (forall x, x ∈ l ++ [s] <-> x ∈ l) as Hl by set_solver. split.
    + split; [done|]. intros id x. by rewrite Hl, Hm.
    + intros x y. rewrite !Hl. apply Hc.
  - subst m'. assert (forall x, x ∈ l -> sg_signal_id x <> sg_signal_id s) as Hfresh.
    { intros x Hx Heq. assert (bt_get (sg_signal_id s) m = Some x) as Hx'; [by apply Hm|]. congruence. }
    split.
    + split; [by apply bt_upsert_sorted|]. intros id x. unfold bt_insert.
      destruct (decide (id = sg_signal_id s)) as [->|Hne].
      * rewrite bt_get_upsert_eq by done. rewrite elem_of_app, list_elem_of_singleton. naive_solver.
      * rewrite bt_get_upsert_ne by done. rewrite Hm, elem_of_app, list_elem_of_singleton. naive_solver.
    + intros x y. rewrite !elem_of_app, !list_elem_of_singleton.
      intros [Hx| ->] [Hy| ->] Heq; [by apply Hc|..|done].
      * by destruct (Hfresh x Hx).
      * by destruct (Hfresh y Hy).
Qed.

Lemma validate_unique_signals_sound signals mode m :
  validate_unique_signals signals mode = Ok m ->
  Forall (admissible mode) signals /\ consistent_signals signals /\ indexes m signals.
Proof.
  intros Hv. apply (fold_m_inv (fun l m => Forall (admissible mode) l /\ consistent_signals l /\ indexes m l)
    _ _ _ _ Hv).
  - split_and!; [constructor|intros ??; set_solver|]. split; [constructor|]. intros id s. simpl. set_solver.
  - intros pre s t t' (Ha & Hc & Hi) Hstep.
    destruct (unique_signal_step_indexes _ _ _ _ _ Hi Hc Hstep) as [Hi' Hc']. split_and!; [|done..].
    apply unique_signal_step_ok_iff in Hstep as [? _]. apply Forall_app. split; [done|]. by constructor.
Qed.

Lemma validate_unique_signals_complete signals mode :
  Forall (admissible mode) signals -> consistent_signals signals ->
  exists m, validate_unique_signals signals mode = Ok m.
Proof.
  induction signals as [|s signals IH] using rev_ind; intros Ha Hc; [by eexists|].
  apply Forall_app in Ha as [Ha Hs]. apply Forall_inv in Hs.
  destruct IH as [m Hm]; [done|intros x y Hx Hy; apply Hc; set_solver|].
  pose proof Hm as (_ & _ & Hi)%validate_unique_signals_sound. destruct Hi as [_ Hi].
  unfold validate_unique_signals in *. rewrite fold_m_app, Hm. simpl.
  destruct (bt_get (sg_signal_id s) m) as [s'|] eqn:Eg.
  - exists m. apply bind_ok_iff. exists m. split; [|done]. apply unique_signal_step_ok_iff. rewrite Eg.
    split_and!; [done..| |done]. apply Hi in Eg as [? ?]. apply Hc; set_solver.
  - exists (bt_insert (sg_signal_id s) s m). apply bind_ok_iff. eexists. split; [|done].
    apply unique_signal_step_ok_iff. by rewrite Eg.
Qed.

Lemma validate_unique_signals_perm signals signals' mode m :
  signals ≡ₚ signals' -> validate_unique_signals signals mode = Ok m ->
  validate_unique_signals signals' mode = Ok m.
Proof.
  intros Hp (Ha & Hc & [Hs Hi])%validate_unique_signals_sound.
  destruct (validate_unique_signals_complete signals' mode) as [m' Hm'].
  { by rewrite <-Hp. } { intros s s'. rewrite <-!Hp. apply Hc. }
  rewrite Hm'. f_equal. apply validate_unique_signals_sound in Hm' as (_ & _ & [Hs' Hi']).
  apply bt_ext; [done..|]. intros id. apply option_eq. intros s. by rewrite Hi, Hi', Hp.
Qed.

Lemma indexes_values m l s : indexes m l -> s ∈ bt_values m <-> s ∈ l.
Proof.
  intros [Hs Hi]. unfold bt_values. rewrite list_elem_of_fmap. split.
  - intros ([id s'] & -> & Hin). apply bt_get_lookup in Hin; [|done]. by apply Hi in Hin as [? _].
  - intros Hin. exists (sg_signal_id s, s). split; [done|]. apply bt_get_lookup; [done|]. by apply Hi.
Qed.

Lemma indexes_NoDup m l : indexes m l -> NoDup (sg_signal_id <$> bt_values m).
Proof.
  intros [Hs Hi]. replace (sg_signal_id <$> bt_values m) with (m.*1); [by apply bt_sorted_NoDup_keys|].
  unfold bt_values. rewrite <-list_fmap_compose. apply list_fmap_ext. intros i [id s] Hin. simpl.
  apply list_elem_of_lookup_2, bt_get_lookup in Hin; [|done]. apply Hi in Hin as [_ <-]. done.
Qed.
End UniqueSignals.

(** ** Evaluation *)

Section Evaluation.
Context {Stage JoinKey Ordering GroupKey OrderKey Policy Error : Type}.
Context `{SequenceCorrelationEvaluationPolicy Policy Stage JoinKey Ordering GroupKey OrderKey Error}.
Context `{Ord GroupKey} `{Ord OrderKey}.
Variables (plan : CompiledSequenceCorrelationPlan Stage JoinKey Ordering) (policy : Policy).
Implicit Types (signals : list Signal) (s : Signal) (k : string * GroupKey)
  (c : SequenceCandidate OrderKey) (cs : list (SequenceCandidate OrderKey)).

(** [member k s c]: the policy places the Signal [s] in the group [k] of its own
    tenant, with the clock, order and stages recorded in [c]. *)
Definition member k s c : Prop :=
  sc_signal_id c = sg_signal_id s /\ k.1 = sg_tenant_id s /\
  sequence_group_key policy (sq_join_keys plan) s = Ok (Some k.2) /\
  sequence_time_millis policy s = Ok (Some (sc_time_millis c)) /\
  sequence_order_key policy (sq_ordering plan) s = Ok (Some (sc_order_key c)) /\
  (forall i, i ∈ sc_stage_indices c <->
     exists stage, sq_stages plan !! i = Some stage /\ stage_matches policy stage s = Ok true).

Definition sequence_window : Z := sq_max_window_millis plan.
Definition stage_count : nat := length (sq_stages plan).
Definition sequence_plan_ok : Prop := sq_stages plan <> [] /\ (0 <= sequence_window)%Z.

(** [correlates signals mode k cs m]: [m] reports the sequence [cs] of group [k]. *)
Definition correlates signals (mode : ExecutionMode) k cs (m : SequenceCorrelationMatch) : Prop :=
  sm_input_signal_ids m = sc_signal_id <$> cs /\ NoDup (sm_input_signal_ids m) /\
  (forall c, c ∈ cs -> exists s, (s ∈ signals) /\ member k s c) /\
  realizes (seq 0 stage_count) cs /\ spans sequence_window cs /\
  (exists mn mx, (mn ∈ sc_time_millis <$> cs) /\ (mx ∈ sc_time_millis <$> cs) /\
     Forall (fun c => (mn <= sc_time_millis c <= mx)%Z) cs /\
     sm_window_start m = millis_timestamp mn /\ sm_window_end m = millis_timestamp mx) /\
  timestamp_ok (sm_window_start m) /\ timestamp_ok (sm_window_end m) /\
  sm_tenant_id m = k.1 /\ sm_execution_mode m = mode /\ sm_execution_backend m = sq_backend plan /\
  sm_correlation_rule_id m = sq_correlation_rule_id plan /\
  sm_correlation_rule_version m = sq_correlation_rule_version plan /\
  sm_configuration_hash m = sq_configuration_hash plan.

(** *** Candidates *)

Lemma matching_stages_fold s (l : list (nat * Stage)) (acc r : list nat) :
  fold_m (fun stage_indices '(stage_index, stage) =>
      let? b := map_err Sequence_Policy (stage_matches policy stage s) in
      Ok (if b : bool then stage_indices ++ [stage_index] else stage_indices)) l acc = Ok r ->
  forall i, i ∈ r <-> i ∈ acc \/ exists stage, ((i, stage) ∈ l) /\ stage_matches policy stage s = Ok true.
Proof.
  revert acc. induction l as [|[j stage] l IH]; intros acc; simpl.
  - intros [= <-] i. split; [by left|]. intros [|(? & Hn & _)]; [done|]. by apply elem_of_nil in Hn.
  - destruct (stage_matches policy stage s) as [b| |] eqn:Eb; simpl; [|done..].
    intros Hr i. rewrite (IH _ Hr i). setoid_rewrite elem_of_cons. destruct b.
    + rewrite elem_of_app, list_elem_of_singleton. split.
      * intros [[?| ->]|(st & ? & ?)]; eauto.
      * intros [?|(st & [[= -> ->]|?] & ?)]; eauto.
    + split.
      * intros [?|(st & ? & ?)]; eauto.
      * intros [?|(st & [[= -> ->]|?] & ?)]; [eauto|congruence|eauto].
Qed.

Lemma matching_stages_spec s r :
  matching_stages (Error := Error) plan policy s = Ok r ->
  forall i, i ∈ r <->
    exists stage, sq_stages plan !! i = Some stage /\ stage_matches policy stage s = Ok true.
Proof.
  intros Hr i. rewrite (matching_stages_fold _ _ _ _ Hr i), elem_of_nil.
  setoid_rewrite elem_of_enumerate. naive_solver.
Qed.

Lemma sequence_candidate_member s k c :
  sequence_candidate plan policy s = Ok (Some (k, c)) -> member k s c.
Proof.
  unfold sequence_candidate, member.
  destruct (matching_stages plan policy s) as [r| |] eqn:Er; simpl; [|done..].
  pose proof (matching_stages_spec s r Er) as Hr. destruct r as [|i r]; [done|].
  destruct (sequence_group_key _ _ _) as [[g|]| |]; simpl; try done.
  destruct (sequence_time_millis _ _) as [[t|]| |]; simpl; try done.
  destruct (sequence_order_key _ _ _) as [[o|]| |]; simpl; try done.
  intros [= <- <-]. done.
Qed.

Definition candidate_pair s : option ((string * GroupKey) * SequenceCandidate OrderKey) :=
  match sequence_candidate plan policy s with Ok o => o | _ => None end.
#[local] Arguments candidate_pair : simpl never.

Lemma candidate_pair_iff s k c :
  candidate_pair s = Some (k, c) <-> sequence_candidate plan policy s = Ok (Some (k, c)).
Proof. unfold candidate_pair. destruct (sequence_candidate plan policy s); naive_solver. Qed.

Definition sequence_evaluable s : Prop := exists o, sequence_candidate plan policy s = Ok o.

Definition sequence_groups (m : BTreeMap string Signal) : CandidateGroups :=
  bt_group (omap candidate_pair (bt_values m)).

Lemma collect_ok_iff m groups :
  collect_sequence_candidates plan policy m = Ok groups <->
  Forall sequence_evaluable (bt_values m) /\ groups = sequence_groups m.
Proof. apply (fold_group_ok_iff (sequence_candidate plan policy)). Qed.

Lemma pairs_NoDup (l : list Signal) :
  NoDup (sg_signal_id <$> l) -> NoDup (sc_signal_id <$> (omap candidate_pair l).*2).
Proof.
  induction l as [|s l IH]; [done|]. rewrite fmap_cons, NoDup_cons. intros [Hn Hnd]. simpl.
  destruct (candidate_pair s) as [[k c]|] eqn:E; [|by apply IH].
  rewrite !fmap_cons, NoDup_cons. split; [|by apply IH]. simpl.
  apply candidate_pair_iff, sequence_candidate_member in E as [Hid _]. rewrite Hid.
  intros (c' & Heq & ([k' ?] & -> & (s' & Hs' & Hp)%list_elem_of_omap)%list_elem_of_fmap)%list_elem_of_fmap.
  apply candidate_pair_iff, sequence_candidate_member in Hp as [Hid' _]. simpl in Heq.
  apply Hn, list_elem_of_fmap. exists s'. split; [congruence|done].
Qed.

(** *** One group *)

Definition order_key_of c : OrderKey * string := (sc_order_key c, sc_signal_id c).

Lemma sort_sequence_key cs :
  sort_by sequence_candidate_cmp cs = sort_by (fun c d => cmp (order_key_of c) (order_key_of d)) cs.
Proof. reflexivity. Qed.

Lemma sort_sequence_perm cs : sort_by sequence_candidate_cmp cs ≡ₚ cs.
Proof. rewrite sort_sequence_key. apply sort_by_perm. Qed.

Lemma StronglySorted_lookup_le {A} (R : A -> A -> Prop) (l : list A) i j x y :
  StronglySorted R l -> i < j -> l !! i = Some x -> l !! j = Some y -> R x y.
Proof.
  intros Hs. revert i j. induction Hs as [|z l Hl IH Hz]; intros [|i] [|j]; simpl; try (done || lia).
  - intros _ [= <-] Hj. rewrite Forall_forall in Hz. apply Hz. by eapply list_elem_of_lookup_2.
  - intros ?. apply IH. lia.
Qed.

Lemma sort_sequence_keys cs i j c d :
  i <= j -> sort_by sequence_candidate_cmp cs !! i = Some c ->
  sort_by sequence_candidate_cmp cs !! j = Some d -> cmp_le (sc_order_key c) (sc_order_key d) = true.
Proof.
  intros Hij Hi Hj. destruct (decide (i = j)) as [->|].
  { simplify_eq. apply cmp_le_iff. by right. }
  assert (StronglySorted (fun c d => cmp_le (order_key_of c) (order_key_of d) = true)
    (sort_by sequence_candidate_cmp cs)) as Hs by (rewrite sort_sequence_key; apply sort_by_sorted).
  pose proof (StronglySorted_lookup_le _ _ i j c d Hs ltac:(lia) Hi Hj) as Hle.
  apply cmp_le_iff in Hle. apply cmp_le_iff. unfold order_key_of in Hle. simpl in Hle.
  destruct (cmp (sc_order_key c) (sc_order_key d)) eqn:E; simpl in Hle.
  - right. by apply cmp_eq_iff.
  - by left.
  - destruct Hle as [|[= -> _]]; [done|]. by right.
Qed.

Definition sequence_group_result (mode : ExecutionMode)
    (g : (string * GroupKey) * list (SequenceCandidate OrderKey))
    : result (option SequenceCorrelationMatch) (SequenceCorrelationEvaluationError Error) :=
  let candidates := sort_by sequence_candidate_cmp g.2 in
  let? selection := select_sequence candidates sequence_window stage_count in
  match selection with
  | None => Ok None
  | Some (js, mn, mx) =>
      let? ws := timestamp_from_millis mn in
      let? we := timestamp_from_millis mx in
      map_err Sequence_InvalidInput (validate_timestamp "window_start" ws) ;;?
      map_err Sequence_InvalidInput (validate_timestamp "window_end" we) ;;?
      let? ids := map_m (fun i => let? c := index candidates i in Ok (sc_signal_id c)) js in
      Ok (Some (mkSequenceCorrelationMatch (sq_correlation_rule_id plan)
            (sq_correlation_rule_version plan) g.1.1 ws we ids
            (sq_backend plan) mode (sq_configuration_hash plan)))
  end.

Lemma sequence_group_step_eq mode ms g :
  sequence_group_step (Error := Error) plan sequence_window mode ms g =
  (let? o := sequence_group_result mode g in
   match o with None => Ok ms | Some m => Ok (ms ++ [m]) end).
Proof.
  destruct g as [[tenant gk] cs]. unfold sequence_group_result, sequence_group_step, stage_count. simpl.
  destruct (select_sequence _ _ _) as [[[[js mn] mx]|]| |] eqn:Es; simpl; try done.
  rewrite !timestamp_from_millis_ok. simpl.
  destruct (validate_timestamp "window_start" _); simpl; [|done..].
  destruct (validate_timestamp "window_end" _); simpl; [|done..].
  by destruct (map_m _ _).
Qed.

Lemma sequence_group_result_some signals mp mode k g m :
  sequence_plan_ok -> indexes mp signals -> (k, g) ∈ sequence_groups mp ->
  sequence_group_result mode (k, g) = Ok (Some m) ->
  exists js mn mx cs,
    select_sequence (E := SequenceCorrelationEvaluationError Error) (sort_by sequence_candidate_cmp g)
      sequence_window stage_count = Ok (Some (js, mn, mx)) /\
    at_positions (sort_by sequence_candidate_cmp g) js cs /\ correlates signals mode k cs m.
Proof.
  intros [Hst Hw] Hmp [Hg Hne]%bt_group_lookup. unfold sequence_group_result. simpl.
  set (l := sort_by sequence_candidate_cmp g). destruct (select_sequence l _ _) as [[[[js mn] mx]|]| |] eqn:Es;
    simpl; try done.
  rewrite !timestamp_from_millis_ok. simpl. intros Hr.
  rewrite !bind_unit_ok_iff, !map_err_ok_iff, !validate_timestamp_ok_iff in Hr.
  destruct Hr as (Hs & He & Hr).
  apply select_sequence_sound in Es as (Hvalid & Hmw & Hall & Hmn & Hmx); [|done].
  apply valid_sequence_realizes in Hvalid as (cs & Hat & Hre & Hsp & Hjs);
    [|destruct (sq_stages plan) eqn:E; unfold stage_count; rewrite E; simpl; [done|lia]].
  rewrite (at_positions_ids l js cs Hat) in Hr. simpl in Hr. injection Hr as <-.
  exists js, mn, mx, cs. split_and!; [done..|]. unfold correlates. simpl.
  rewrite (at_positions_times l js cs Hat) in Hmn, Hmx. split_and!; try done.
  - apply (at_positions_NoDup l js); [done| |done]. unfold l. rewrite sort_sequence_perm, Hg.
    apply group_of_NoDup, pairs_NoDup. by eapply indexes_NoDup.
  - intros c Hc. destruct (at_positions_elem l js cs c Hat Hc) as (j & _ & Hj).
    apply list_elem_of_lookup_2 in Hj. unfold l in Hj. rewrite sort_sequence_perm, Hg in Hj.
    apply elem_of_group, list_elem_of_omap in Hj as (s & Hs' & Hp). exists s.
    split; [by apply (indexes_values mp)|]. by apply sequence_candidate_member, candidate_pair_iff.
  - exists mn, mx. split_and!; try done. apply Forall_forall. intros c Hc.
    destruct (at_positions_elem l js cs c Hat Hc) as (j & Hj & Hjc).
    rewrite <-(time_of_lookup l j c Hjc). by apply (proj1 (Forall_forall _ _) Hall).
Qed.

(** *** The whole batch *)

Lemma evaluate_sequence_ok_iff signals mode ms :
  evaluate_sequence_signals plan policy signals mode = Ok ms <->
  mode <> ExecutionMode_Unspecified /\ in_i64 sequence_window = true /\
  exists mp, validate_unique_signals signals mode = Ok mp /\
    Forall sequence_evaluable (bt_values mp) /\
    exists os, map_m (sequence_group_result mode) (sequence_groups mp) = Ok os /\ ms = omap id os.
Proof.
  unfold evaluate_sequence_signals. ok_iff. rewrite bool_decide_eq_false. f_equiv.
  rewrite bind_ok_iff. setoid_rewrite ok_or_ok_iff. setoid_rewrite try_from_some.
  assert (forall gs, fold_m (sequence_group_step (Error := Error) plan sequence_window mode) gs [] = Ok ms
    <-> exists os, map_m (sequence_group_result mode) gs = Ok os /\ ms = omap id os) as Hgroups.
  { intros gs. rewrite <-(fold_m_collect (sequence_group_result mode) gs [] ms).
    rewrite (fold_m_Forall2 _ (fun ms g => let? o := sequence_group_result mode g in
      match o with None => Ok ms | Some p => Ok (ms ++ [p]) end) gs gs); [done|].
    apply Forall_Forall2_diag, Forall_forall. intros g _ ms'. apply sequence_group_step_eq. }
  fold sequence_window. split.
  - intros (? & [? ->] & (mp & Hmp%map_err_ok_iff & (groups & [? ->]%collect_ok_iff & Hr)%bind_ok_iff)%bind_ok_iff).
    split; [done|]. exists mp. split_and!; [done..|]. by apply Hgroups.
  - intros (? & mp & Hmp & Hev & Hr). eexists. split; [done|]. apply bind_ok_iff. exists mp.
    split; [by apply map_err_ok_iff|]. apply bind_ok_iff. exists (sequence_groups mp).
    split; [by apply collect_ok_iff|]. by apply Hgroups.
Qed.

Lemma evaluate_sequence_reports signals mode ms :
  sequence_plan_ok -> evaluate_sequence_signals plan policy signals mode = Ok ms ->
  exists ks, StronglySorted (fun k k' => cmp k k' = Lt) ks /\
    Forall2 (fun k m => exists cs, correlates signals mode k cs m) ks ms.
Proof.
  intros Hok (_ & _ & mp & Hmp & _ & os & Hm%map_m_ok_iff & ->)%evaluate_sequence_ok_iff.
  apply validate_unique_signals_sound in Hmp as (_ & _ & Hi).
  apply collected_keys in Hm as (ks & Hks & _ & Hrep); [|apply bt_group_sorted].
  exists ks. split; [done|]. eapply Forall2_impl; [exact Hrep|].
  intros k m (g & Hg & Hr).
  destruct (sequence_group_result_some signals mp mode k g m Hok Hi Hg Hr) as (_ & _ & _ & cs & _ & _ & ?).
  eauto.
Qed.

(** In the group [k] of the batch, a later order key never goes back in time. *)
Definition time_follows_order signals k : Prop :=
  forall s s' c c', s ∈ signals -> s' ∈ signals ->
    sequence_candidate plan policy s = Ok (Some (k, c)) ->
    sequence_candidate plan policy s' = Ok (Some (k, c')) ->
    cmp_le (sc_order_key c) (sc_order_key c') = true -> (sc_time_millis c <= sc_time_millis c')%Z.

Lemma elem_positions (l cs : list (SequenceCandidate OrderKey)) :
  (forall c, c ∈ cs -> c ∈ l) -> exists js, at_positions l js cs.
Proof.
  induction cs as [|c cs IH]; intros Hl; [exists []; constructor|].
  destruct IH as [js Hjs]; [intros d Hd; apply Hl; by right|].
  destruct (proj1 (list_elem_of_lookup l c)) as [j Hj]; [apply Hl; by left|].
  exists (j :: js). by constructor.
Qed.

Lemma positions_dominate g js' js cs' cs :
  Forall2 le js' js -> at_positions (sort_by sequence_candidate_cmp g) js cs ->
  at_positions (sort_by sequence_candidate_cmp g) js' cs' ->
  Forall2 (fun c' c => cmp_le (sc_order_key c') (sc_order_key c) = true) cs' cs.
Proof.
  intros Hle. revert cs cs'. induction Hle as [|j' j js' js Hj Hle IH]; intros cs cs' Hat Hat'.
  - apply Forall2_nil_inv_l in Hat as ->. apply Forall2_nil_inv_l in Hat' as ->. constructor.
  - apply Forall2_cons_inv_l in Hat as (c & cs1 & Hc & Hat & ->).
    apply Forall2_cons_inv_l in Hat' as (c' & cs2 & Hc' & Hat' & ->).
    constructor; [by apply (sort_sequence_keys g j' j)|by apply IH].
Qed.

Lemma evaluate_sequence_complete signals mode ms k cs :
  sequence_plan_ok -> evaluate_sequence_signals plan policy signals mode = Ok ms ->
  time_follows_order signals k ->
  (forall c, c ∈ cs -> exists s, (s ∈ signals) /\ sequence_candidate plan policy s = Ok (Some (k, c))) ->
  realizes (seq 0 stage_count) cs -> spans sequence_window cs ->
  exists m cs', (m ∈ ms) /\ correlates signals mode k cs' m /\
    Forall2 (fun c' c => cmp_le (sc_order_key c') (sc_order_key c) = true) cs' cs.
Proof.
  intros Hok (_ & _ & mp & Hmp & _ & os & Hm & ->)%evaluate_sequence_ok_iff Hmono Hcs Hre Hsp.
  apply validate_unique_signals_sound in Hmp as (_ & _ & Hi).
  assert (1 <= stage_count) as Hn.
  { destruct Hok as [Hst _]. unfold stage_count. destruct (sq_stages plan); [done|simpl; lia]. }
  set (g := group_of k (omap candidate_pair (bt_values mp))).
  assert (forall c, c ∈ g <-> exists s, (s ∈ signals) /\ sequence_candidate plan policy s = Ok (Some (k, c))) as Hg.
  { intros c. unfold g. rewrite elem_of_group, list_elem_of_omap.
    setoid_rewrite candidate_pair_iff. setoid_rewrite (indexes_values mp signals); done. }
  set (l := sort_by sequence_candidate_cmp g).
  assert (forall c, c ∈ l <-> c ∈ g) as Hl by (intros c; unfold l; by rewrite sort_sequence_perm).
  destruct (elem_positions l cs) as [js Hat]; [intros c Hc; apply Hl, Hg; by apply Hcs|].
  assert (forall i j c d, i <= j -> l !! i = Some c -> l !! j = Some d ->
    (sc_time_millis c <= sc_time_millis d)%Z) as Htimes.
  { intros i j c d Hij Hc Hd. pose proof (sort_sequence_keys g i j c d Hij Hc Hd).
    apply list_elem_of_lookup_2, Hl, Hg in Hc as (s & ? & ?).
    apply list_elem_of_lookup_2, Hl, Hg in Hd as (s' & ? & ?). by eapply (Hmono s s'). }
  destruct (select_sequence_optimal (E := SequenceCorrelationEvaluationError Error) l sequence_window
    (sort_sequence_keys g) Htimes stage_count js) as (js' & mn & mx & Hsel & Hle); [by destruct Hok| |].
  { apply (realizes_valid l sequence_window (sort_sequence_keys g) _ cs); done. }
  assert ((k, g) ∈ sequence_groups mp) as Hgin.
  { apply bt_group_lookup. split; [done|]. intros Hnil. destruct Hre as [Hre _].
    replace stage_count with (S (stage_count - 1)) in Hre by lia.
    apply Forall2_cons_inv_l in Hre as (c & cs0 & _ & _ & ->).
    assert (c ∈ g) as Hc by (apply Hg, Hcs; by left). fold g in Hnil. rewrite Hnil in Hc.
    by apply elem_of_nil in Hc. }
  apply map_m_ok_iff in Hm. pose proof Hgin as [i Hlook]%list_elem_of_lookup.
  destruct (Forall2_lookup_l _ _ _ _ _ Hm Hlook) as (o & Ho & Hr).
  destruct o as [m|].
  - destruct (sequence_group_result_some signals mp mode k g m Hok Hi Hgin Hr)
      as (js2 & mn2 & mx2 & cs' & Hsel2 & Hat2 & Hcor). fold l in Hsel2. rewrite Hsel in Hsel2.
    injection Hsel2 as <- <- <-. exists m, cs'. split_and!; [|done|].
    + apply list_elem_of_omap. exists (Some m). split; [|done]. by eapply list_elem_of_lookup_2.
    + by apply (positions_dominate g js' js).
  - exfalso. unfold sequence_group_result in Hr. simpl in Hr. fold l in Hr. rewrite Hsel in Hr. simpl in Hr.
    rewrite !timestamp_from_millis_ok in Hr. simpl in Hr. ok_inv Hr. discriminate.
Qed.

(** The group [k] is not reported when its first eligible candidate of the second
    stage blocks the third. *)
Lemma evaluate_sequence_blocked signals mode ms k a x m s c :
  sequence_plan_ok -> evaluate_sequence_signals plan policy signals mode = Ok ms ->
  3 <= stage_count ->
  (exists s, (s ∈ signals) /\ sequence_candidate plan policy s = Ok (Some (k, x))) ->
  1 ∈ sc_stage_indices x -> cmp_lt (sc_order_key a) (sc_order_key x) = true ->
  (Z.abs (sc_time_millis x - sc_time_millis a) <= sequence_window)%Z ->
  (forall s c, s ∈ signals -> sequence_candidate plan policy s = Ok (Some (k, c)) ->
     (0 ∈ sc_stage_indices c -> c = a) /\
     (1 ∈ sc_stage_indices c -> c = x \/ cmp_lt (sc_order_key x) (sc_order_key c) = true) /\
     (2 ∈ sc_stage_indices c -> (sequence_window < Z.abs (sc_time_millis c - sc_time_millis x))%Z)) ->
  m ∈ ms -> s ∈ signals -> sequence_candidate plan policy s = Ok (Some (k, c)) ->
  ~ (sg_signal_id s ∈ sm_input_signal_ids m).
Proof.
  intros Hok (_ & _ & mp & Hmp & _ & os & Hm & ->)%evaluate_sequence_ok_iff Hn Hx Hx1 Hax Hnear Hgroup Hin Hs Hc Hid.
  apply validate_unique_signals_sound in Hmp as (_ & Hcons & Hi).
  apply list_elem_of_omap in Hin as (o & [i Ho]%list_elem_of_lookup & Heq). simpl in Heq. subst o.
  apply map_m_ok_iff in Hm. destruct (Forall2_lookup_r _ _ _ _ _ Hm Ho) as ([k' g] & Hg%list_elem_of_lookup_2 & Hr).
  destruct (sequence_group_result_some signals mp mode k' g m Hok Hi Hg Hr)
    as (js & mn & mx & cs & Hsel & Hat & (Hids & _)).
  apply bt_group_lookup in Hg as [Hg _].
  assert (forall d, d ∈ sort_by sequence_candidate_cmp g <->
    exists s, (s ∈ signals) /\ sequence_candidate plan policy s = Ok (Some (k', d))) as Hmem.
  { intros d. rewrite sort_sequence_perm, Hg, elem_of_group, list_elem_of_omap.
    setoid_rewrite candidate_pair_iff. setoid_rewrite (indexes_values mp signals); done. }
  assert (k' = k) as ->.
  { rewrite Hids in Hid. apply list_elem_of_fmap in Hid as (d & Hd & Hdcs).
    destruct (at_positions_elem _ _ _ _ Hat Hdcs) as (j & _ & (s' & Hs' & Hp)%list_elem_of_lookup_2%Hmem).
    pose proof (sequence_candidate_member _ _ _ Hp) as [Hid' _].
    assert (s' = s) as -> by (apply Hcons; congruence). congruence. }
  rewrite (select_sequence_blocked _ _ stage_count a x (sort_sequence_keys g)) in Hsel;
    try (done || (by apply Hmem)); try (intros d (s' & Hs' & Hp)%Hmem; by apply (Hgroup s' d)).
Qed.

Lemma evaluate_sequence_perm signals signals' mode ms :
  signals ≡ₚ signals' -> evaluate_sequence_signals plan policy signals mode = Ok ms ->
  evaluate_sequence_signals plan policy signals' mode = Ok ms.
Proof.
  intros Hp. rewrite !evaluate_sequence_ok_iff. intros (? & ? & mp & Hmp & ?). split_and!; [done..|].
  exists mp. split; [|done]. by eapply validate_unique_signals_perm.
Qed.

Definition sequence_policy_no_panic : Prop :=
  (forall stage s, no_panic (stage_matches policy stage s)) /\
  (forall keys s, no_panic (sequence_group_key policy keys s)) /\
  (forall s, no_panic (sequence_time_millis policy s)) /\
  (forall o s, no_panic (sequence_order_key policy o s)).

Lemma matching_stages_no_panic s : sequence_policy_no_panic -> no_panic (matching_stages plan policy s).
Proof.
  intros (Hs & _). unfold matching_stages. apply fold_m_no_panic. intros acc [i stage] _.
  apply no_panic_bind; [by apply no_panic_map_err|]. by intros b _ m.
Qed.

Lemma sequence_candidate_no_panic s :
  sequence_policy_no_panic -> no_panic (sequence_candidate plan policy s).
Proof.
  intros Hp. pose proof Hp as (_ & Hg & Ht & Ho). unfold sequence_candidate.
  apply no_panic_bind; [by apply matching_stages_no_panic|]. intros [|i r] _; [by intros ?|].
  apply no_panic_bind; [by apply no_panic_map_err|]. intros [g|] _; [|by intros ?].
  apply no_panic_bind; [by apply no_panic_map_err|]. intros [t|] _; [|by intros ?].
  apply no_panic_bind; [by apply no_panic_map_err|]. by intros [o|] _ ?.
Qed.

Lemma sequence_group_result_no_panic mode g :
  sequence_plan_ok -> no_panic (sequence_group_result mode g).
Proof.
  intros [Hst Hw]. unfold sequence_group_result. cbv zeta. set (l := sort_by sequence_candidate_cmp g.2).
  destruct (select_sequence_ok l sequence_window (E := SequenceCorrelationEvaluationError Error) stage_count)
    as [[[[js mn] mx]|] Hs]; rewrite Hs; simpl; [|by intros ?].
  rewrite !timestamp_from_millis_ok. simpl. do 2 (apply no_panic_bind; [no_panic|]; intros _ _).
  apply select_sequence_sound in Hs as (Hv & _); [|done].
  apply valid_sequence_realizes in Hv as (cs & Hat & _);
    [|unfold stage_count; destruct (sq_stages plan); [done|simpl; lia]].
  rewrite (at_positions_ids l js cs Hat). by intros ?.
Qed.

Lemma evaluate_sequence_no_panic signals mode :
  sequence_plan_ok -> sequence_policy_no_panic ->
  no_panic (evaluate_sequence_signals plan policy signals mode).
Proof.
  intros Hok Hp. unfold evaluate_sequence_signals.
  apply no_panic_bind; [no_panic|]. intros _ _.
  apply no_panic_bind; [no_panic|]. intros w (_ & ->)%ok_or_ok_iff%try_from_some.
  apply no_panic_bind.
  { apply no_panic_map_err, fold_m_no_panic. intros m s _. unfold unique_signal_step, validate_execution_mode.
    apply no_panic_bind; [apply validate_signal_no_panic|]. intros _ _.
    apply no_panic_bind; [no_panic|]. intros _ _. no_panic. }
  intros mp _. apply no_panic_bind.
  { apply fold_m_no_panic. intros groups s _. apply no_panic_bind; [by apply sequence_candidate_no_panic|].
    by intros [[]|] _ ?. }
  intros groups _. apply fold_m_no_panic. intros ms g _. fold sequence_window.
  rewrite sequence_group_step_eq. apply no_panic_bind; [by apply sequence_group_result_no_panic|].
  by intros [] _ ?.
Qed.
End Evaluation.

(** ** Compilation *)

Lemma text_present_iff v : text_present v = true <-> has_text v.
Proof. unfold text_present, has_text. rewrite negb_true_iff. apply not_empty_iff. Qed.

Lemma check_join_keys_ok_iff {JoinKey} `{EqDecision JoinKey} (l : list JoinKey) :
  iter_m (check_join_key l) (enumerate l) = Ok tt <-> NoDup l.
Proof.
  rewrite iter_m_ok_iff, Forall_enumerate. unfold check_join_key.
  setoid_rewrite reject_if_ok_iff. setoid_rewrite existsb_false_iff.
  setoid_rewrite bool_decide_eq_false. rewrite NoDup_alt. split.
  - intros Hl. assert (forall i j x, i < j -> l !! i = Some x -> l !! j = Some x -> False) as Hlt.
    { intros i j x Hij Hi Hj. specialize (Hl j x Hj). rewrite Forall_lookup in Hl.
      specialize (Hl i x). rewrite lookup_take_lt in Hl by done. by apply Hl. }
    intros i j x Hi Hj. destruct (lt_eq_lt_dec i j) as [[|]|]; [|done|]; exfalso; eauto.
  - intros Hnd i x Hx. apply Forall_lookup. intros j y [Hj Hji]%lookup_take_Some ->.
    assert (j = i); [by apply (Hnd j i x)|lia].
Qed.

Lemma compile_sequence_ok_iff {Stage JoinKey Ordering} `{EqDecision JoinKey}
    (rule : SequenceCorrelationRule Stage JoinKey Ordering) backend c :
  compile_sequence_correlation_plan rule backend = Ok c <->
  backend = ClickHouse /\ has_text (sr_correlation_rule_id rule) /\
  has_text (sr_correlation_rule_version rule) /\ has_text (sr_configuration_hash rule) /\
  sr_stages rule <> [] /\ sr_join_keys rule <> [] /\ NoDup (sr_join_keys rule) /\
  sr_max_window_millis rule <> 0%Z /\ in_i64 (sr_max_window_millis rule) = true /\
  c = mkCompiledSequenceCorrelationPlan (sr_correlation_rule_id rule)
        (sr_correlation_rule_version rule) (sr_stages rule) (sr_join_keys rule)
        (sr_max_window_millis rule) (sr_ordering rule) ClickHouse
        (mkExecutionBackendCapabilities true false) (sr_configuration_hash rule).
Proof.
  unfold compile_sequence_correlation_plan. rewrite !bind_unit_ok_iff, check_join_keys_ok_iff.
  rewrite !reject_if_ok_iff, !orb_false_iff, !negb_false_iff, !text_present_iff, bool_decide_eq_false,
    Z.eqb_neq, ok_inj_iff.
  assert (match sr_stages rule with [] => true | _ => false end = false <-> sr_stages rule <> [])
    as -> by (destruct (sr_stages rule); naive_solver).
  assert (match sr_join_keys rule with [] => true | _ => false end = false <-> sr_join_keys rule <> [])
    as -> by (destruct (sr_join_keys rule); naive_solver).
  assert (match try_from in_i64 (sr_max_window_millis rule) with None => true | _ => false end
    = false <-> in_i64 (sr_max_window_millis rule) = true) as ->
    by (unfold try_from; destruct (in_i64 _); naive_solver).
  assert (~ backend <> ClickHouse <-> backend = ClickHouse) as ->
    by (destruct (decide (backend = ClickHouse)); tauto).
  split.
  - intros (-> & ((((? & ?) & ?) & ?) & ?) & (? & ?) & ? & <-). done.
  - intros (-> & ? & ? & ? & ? & ? & ? & ? & ? & ->). done.
Qed.

(** ** Findings *)

Definition finding_context_ok (c : CorrelationFindingMaterializationContext) : Prop :=
  uuid_v7 (fc_finding_id c) /\ has_text (fc_severity c) /\ if_some has_text (fc_confidence c) /\
  has_text (fc_title c) /\ has_text (fc_description c) /\ has_text (fc_input_relation c) /\
  timestamp_ok (fc_created_at c).

(** What the Finding contract asks of a match. *)
Definition match_ok (m : SequenceCorrelationMatch) : Prop :=
  uuid_v7 (sm_tenant_id m) /\
  timestamp_ok (sm_window_start m) /\ timestamp_ok (sm_window_end m) /\
  timestamp_le (sm_window_start m) (sm_window_end m) = true /\
  sm_input_signal_ids m <> [] /\ Forall uuid_v7 (sm_input_signal_ids m) /\
  NoDup (sm_input_signal_ids m) /\ sm_execution_mode m <> ExecutionMode_Unspecified /\
  has_text (sm_correlation_rule_id m) /\ has_text (sm_correlation_rule_version m) /\
  has_text (sm_configuration_hash m).

Lemma finding_inputs_of_match m c :
  match_ok m -> finding_context_ok c -> finding_inputs_ok (correlation_finding m c).
Proof.
  intros (_ & _ & _ & _ & Hne & Hids & Hnd & _) (_ & _ & _ & _ & _ & Hrel & _).
  unfold finding_inputs_ok. simpl. split_and!.
  - by destruct (sm_input_signal_ids m).
  - apply Forall_fmap. eapply Forall_impl; [exact Hids|]. intros id Hid. by split_and!.
  - rewrite <-list_fmap_compose. apply NoDup_fmap_2_strong; [|done]. by intros ???? [= ->].
Qed.

Lemma correlation_finding_ok m c :
  match_ok m -> finding_context_ok c -> finding_ok (correlation_finding m c).
Proof.
  intros Hm Hc. pose proof (finding_inputs_of_match m c Hm Hc) as Hin.
  destruct Hm as (Ht & Hs & He & Hle & Hne & Hids & Hnd & Hmode & Hr & Hv & Hh).
  destruct Hc as (Hid & Hsev & Hconf & Htitle & Hdesc & Hrel & Hcr).
  unfold finding_ok. split_and!; try (done || lia); simpl; try (simpl; lia).
  - by exists (fc_created_at c).
  - by exists (fc_created_at c).
  - by apply ExecutionMode_range.
  - by apply ExecutionMode_range.
  - unfold type_specific_ok. simpl. split_and!; [|intros []; done|by intros [|]].
    intros _. eexists. split; [done|]. unfold correlation_provenance_ok. simpl. split_and!; try done.
    + eauto 10.
    + intros id Hin'. rewrite <-list_fmap_compose. apply list_elem_of_fmap. by exists id.
    + apply contract_backend_range.
    + apply contract_backend_range.
Qed.

Lemma correlates_match_ok {Stage JoinKey Ordering GroupKey OrderKey Policy Error}
    `{SequenceCorrelationEvaluationPolicy Policy Stage JoinKey Ordering GroupKey OrderKey Error}
    `{Ord GroupKey} `{Ord OrderKey} (plan : CompiledSequenceCorrelationPlan Stage JoinKey Ordering)
    (policy : Policy) signals mode k cs m :
  sequence_plan_ok plan -> Forall (admissible mode) signals -> mode <> ExecutionMode_Unspecified ->
  has_text (sq_correlation_rule_id plan) -> has_text (sq_correlation_rule_version plan) ->
  has_text (sq_configuration_hash plan) -> correlates plan policy signals mode k cs m -> match_ok m.
Proof.
  intros [Hst _] Hadm Hmode Hr Hv Hh (Hids & Hnd & Hmem & [Hre _] & _ & (mn & mx & Hmn & _ & Hall & Hws & Hwe)
    & Hs & He & Ht & Hm & _ & Hr' & Hv' & Hh').
  rewrite Forall_forall in Hadm. assert (forall c, c ∈ cs -> uuid_v7 (sc_signal_id c) /\ uuid_v7 k.1) as Huuid.
  { intros c Hc. destruct (Hmem c Hc) as (s & Hsig & -> & -> & _).
    destruct (Hadm s Hsig) as [((? & ? & _) & _) _]. done. }
  unfold match_ok. rewrite Hws, Hwe, Hr', Hv', Hh', Hm, Ht, Hids. rewrite Hws in Hs. rewrite Hwe in He.
  apply list_elem_of_fmap in Hmn as (c & -> & Hc). rewrite Forall_forall in Hall.
  split_and!; try done.
  - by apply (Huuid c).
  - apply millis_timestamp_le. destruct (Hall c Hc). lia.
  - by destruct cs; [apply elem_of_nil in Hc|].
  - apply Forall_fmap, Forall_forall. intros d Hd. by apply (Huuid d).
  - by rewrite <-Hids.
Qed.

Lemma evaluate_sequence_match_ok {Stage JoinKey Ordering GroupKey OrderKey Policy Error}
    `{SequenceCorrelationEvaluationPolicy Policy Stage JoinKey Ordering GroupKey OrderKey Error}
    `{Ord GroupKey} `{Ord OrderKey} (plan : CompiledSequenceCorrelationPlan Stage JoinKey Ordering)
    (policy : Policy) signals mode ms m :
  sequence_plan_ok plan -> has_text (sq_correlation_rule_id plan) ->
  has_text (sq_correlation_rule_version plan) -> has_text (sq_configuration_hash plan) ->
  evaluate_sequence_signals plan policy signals mode = Ok ms -> m ∈ ms -> match_ok m.
Proof.
  intros Hplan Hr Hv Hh Heval [i Hi]%list_elem_of_lookup.
  pose proof (evaluate_sequence_reports plan policy signals mode ms Hplan Heval) as (ks & _ & Hrep).
  apply evaluate_sequence_ok_iff in Heval as (Hmode & _ & mp & (Hadm & _ & _)%validate_unique_signals_sound & _).
  destruct (Forall2_lookup_r _ _ _ _ _ Hrep Hi) as (k & _ & cs & Hcor).
  by eapply correlates_match_ok.
Qed.

(** ** A concrete rule: three stages told apart by the Signal summary, joined on
    severity, ordered by creation time *)

Module SequenceSample.

Inductive Policy : Set := policy.

#[global] Instance sequence_policy :
  SequenceCorrelationEvaluationPolicy Policy string string unit string Z unit := {|
  stage_matches _ stage s := Ok (String.eqb (sg_summary s) stage);
  sequence_group_key _ _ s := Ok (Some (sg_severity s));
  sequence_time_millis _ s := Ok ((fun t => ts_seconds t * 1000)%Z <$> sg_first_observed_at s);
  sequence_order_key _ _ s := Ok (ts_seconds <$> sg_created_at s);
|}.

Definition rule : SequenceCorrelationRule string string unit :=
  mkSequenceCorrelationRule "CER-COR-000001" "1.0.0" ["recon"; "login"; "exfil"] ["severity"] 100000 ()
    "hash".
Definition plan : CompiledSequenceCorrelationPlan string string unit :=
  mkCompiledSequenceCorrelationPlan "CER-COR-000001" "1.0.0" ["recon"; "login"; "exfil"] ["severity"]
    100000 () ClickHouse (mkExecutionBackendCapabilities true false) "hash".

Definition uuid : string -> string := ThresholdSample.uuid.
Definition tenant : string := uuid "03".
Definition signal (id summary : string) (observed created : Z) : Signal :=
  mkSignal (uuid id) tenant "CER-DET-000001" "1" 1 "HIGH" None 1
    (Some (mkTimestamp observed 0)) (Some (mkTimestamp observed 0)) (Some (mkTimestamp created 0)) 1 1 1
    summary (Some (mkSignalProvenance (Some (mkTimestamp created 0)) 1))
    [mkSignalInput (uuid id) 1 (uuid "e1") "matched" 0].

Definition recon := signal "11" "recon" 1000 5001.
Definition early_login := signal "12" "login" 950 5002.
Definition login := signal "13" "login" 1010 5003.
Definition exfil := signal "14" "exfil" 1060 5004.
Definition batch : list Signal := [exfil; recon; login; recon].
Definition missed : list Signal := [recon; early_login; login; exfil].

Definition match_ : SequenceCorrelationMatch :=
  mkSequenceCorrelationMatch "CER-COR-000001" "1.0.0" tenant (mkTimestamp 1000 0) (mkTimestamp 1060 0)
    [uuid "11"; uuid "13"; uuid "14"] ClickHouse ExecutionMode_Live "hash".

Definition context : CorrelationFindingMaterializationContext :=
  mkCorrelationFindingMaterializationContext (uuid "f1") "HIGH" None "recon to exfil" "three stages"
    "contributed" (mkTimestamp 6000 0).

Lemma plan_ok : sequence_plan_ok plan.
Proof. split; [discriminate|vm_compute; discriminate]. Qed.

Definition candidate (id : string) (stage : nat) (observed created : Z) : SequenceCandidate Z :=
  mkSequenceCandidate (uuid id) [stage] observed created.

End SequenceSample.

(** ** Properties *)

(** C2: every SEQUENCE match is justified.  A successful evaluation reports its
    groups in increasing (tenant, join key) order, at most once each, and every
    report lists distinct Signals of the batch, one per stage in stage order,
    all of that tenant and join key, with strictly increasing order keys and
    times within the window; the reported window is exactly the earliest and
    the latest of those times. *)
Theorem sequence_matches_sound {Stage JoinKey Ordering GroupKey OrderKey Policy Error}
    `{SequenceCorrelationEvaluationPolicy Policy Stage JoinKey Ordering GroupKey OrderKey Error}
    `{Ord GroupKey} `{Ord OrderKey} (plan : CompiledSequenceCorrelationPlan Stage JoinKey Ordering)
    (policy : Policy) signals mode ms
    (Hplan : sequence_plan_ok plan)
    (Heval : evaluate_sequence_signals plan policy signals mode = Ok ms) :
  exists ks, StronglySorted (fun k k' => cmp k k' = Lt) ks /\
    Forall2 (fun k m => exists cs, correlates plan policy signals mode k cs m) ks ms.
Proof. by apply evaluate_sequence_reports. Qed.

Lemma sequence_matches_sound_witness :
  exists ks, StronglySorted (fun k k' => cmp k k' = Lt) ks /\
    Forall2 (fun k m => exists cs, correlates SequenceSample.plan SequenceSample.policy
      SequenceSample.batch ExecutionMode_Live k cs m) ks [SequenceSample.match_].
Proof.
  apply (sequence_matches_sound SequenceSample.plan SequenceSample.policy SequenceSample.batch
    ExecutionMode_Live [SequenceSample.match_]).
  - exact SequenceSample.plan_ok.
  - vm_compute. reflexivity.
Defined.

(** C11: the greedy selection is complete and optimal when time follows the
    order.  If, within a group, later order keys never go back in time, and
    some Signals of the group realize the stages in order within the window,
    then the successful evaluation reports the group, with a sequence whose
    members come no later than the given ones, stage by stage. *)
Theorem sequence_matches_complete {Stage JoinKey Ordering GroupKey OrderKey Policy Error}
    `{SequenceCorrelationEvaluationPolicy Policy Stage JoinKey Ordering GroupKey OrderKey Error}
    `{Ord GroupKey} `{Ord OrderKey} (plan : CompiledSequenceCorrelationPlan Stage JoinKey Ordering)
    (policy : Policy) signals mode ms k cs
    (Hplan : sequence_plan_ok plan)
    (Heval : evaluate_sequence_signals plan policy signals mode = Ok ms)
    (Hmono : time_follows_order plan policy signals k)
    (Hcs : forall c, c ∈ cs -> exists s, (s ∈ signals) /\ sequence_candidate plan policy s = Ok (Some (k, c)))
    (Hstages : realizes (seq 0 (stage_count plan)) cs)
    (Hwindow : spans (sequence_window plan) cs) :
  exists m cs', (m ∈ ms) /\ correlates plan policy signals mode k cs' m /\
    Forall2 (fun c' c => cmp_le (sc_order_key c') (sc_order_key c) = true) cs' cs.
Proof. by apply evaluate_sequence_complete. Qed.

Lemma sequence_matches_complete_witness :
  exists m cs', (m ∈ [SequenceSample.match_]) /\
    correlates SequenceSample.plan SequenceSample.policy SequenceSample.batch ExecutionMode_Live
      (SequenceSample.tenant, "HIGH") cs' m /\
    Forall2 (fun c' c => cmp_le (sc_order_key c') (sc_order_key c) = true) cs'
      [SequenceSample.candidate "11" 0 1000000 5001; SequenceSample.candidate "13" 1 1010000 5003;
       SequenceSample.candidate "14" 2 1060000 5004]%Z.
Proof.
  apply (sequence_matches_complete SequenceSample.plan SequenceSample.policy SequenceSample.batch
    ExecutionMode_Live [SequenceSample.match_] (SequenceSample.tenant, "HIGH")).
  - exact SequenceSample.plan_ok.
  - vm_compute. reflexivity.
  - intros s s' c c' Hs Hs' Hc Hc' Hle. unfold SequenceSample.batch in Hs, Hs'. rewrite !elem_of_cons in Hs, Hs'.
    destruct Hs as [->|[->|[->|[->|Hs]]]]; try (by apply elem_of_nil in Hs);
      destruct Hs' as [->|[->|[->|[->|Hs']]]]; try (by apply elem_of_nil in Hs');
      vm_compute in Hc, Hc'; injection Hc as <-; injection Hc' as <-; vm_compute in Hle |- *;
      (discriminate || (exfalso; discriminate Hle)).
  - intros c Hc. rewrite !elem_of_cons in Hc. destruct Hc as [->|[->|[->|Hc]]].
    + exists SequenceSample.recon. split; [right; left|vm_compute; reflexivity].
    + exists SequenceSample.login. split; [right; right; left|vm_compute; reflexivity].
    + exists SequenceSample.exfil. split; [left|vm_compute; reflexivity].
    + by apply elem_of_nil in Hc.
  - split; [repeat constructor|]. repeat (constructor; try (vm_compute; reflexivity)).
  - intros c d Hc Hd. rewrite !elem_of_cons in Hc, Hd.
    destruct Hc as [->|[->|[->|Hc]]]; try (by apply elem_of_nil in Hc);
      destruct Hd as [->|[->|[->|Hd]]]; try (by apply elem_of_nil in Hd); vm_compute; discriminate.
Defined.

(** C39: without that hypothesis the greedy selection misses sequences, in every
    plan of three stages or more and under every policy.  Let the batch hold a
    sequence [a], [b], [d], ... that realizes the stages of the plan within the
    window, and a further Signal [x] of the second stage whose order key lies
    between those of [a] and [b] and whose time is within the window of [a] but
    not of any candidate of the third stage (so its time goes back while its
    order key goes forward).  When [a] is the only candidate of the first stage
    and [x] the first of the second, the evaluation answers, and no report names
    any Signal of that group. *)
Theorem greedy_sequence_can_miss_a_match {Stage JoinKey Ordering GroupKey OrderKey Policy Error}
    `{SequenceCorrelationEvaluationPolicy Policy Stage JoinKey Ordering GroupKey OrderKey Error}
    `{Ord GroupKey} `{Ord OrderKey} (plan : CompiledSequenceCorrelationPlan Stage JoinKey Ordering)
    (policy : Policy) signals mode ms k a b d rest x
    (Hplan : sequence_plan_ok plan)
    (Heval : evaluate_sequence_signals plan policy signals mode = Ok ms)
    (Hcs : forall c, c ∈ x :: a :: b :: d :: rest ->
       exists s, (s ∈ signals) /\ sequence_candidate plan policy s = Ok (Some (k, c)))
    (Hstages : realizes (seq 0 (stage_count plan)) (a :: b :: d :: rest))
    (Hwindow : spans (sequence_window plan) (a :: b :: d :: rest))
    (Hblock : 1 ∈ sc_stage_indices x /\ cmp_lt (sc_order_key a) (sc_order_key x) = true /\
       (Z.abs (sc_time_millis x - sc_time_millis a) <= sequence_window plan)%Z)
    (Hgroup : forall s c, s ∈ signals -> sequence_candidate plan policy s = Ok (Some (k, c)) ->
       (0 ∈ sc_stage_indices c -> c = a) /\
       (1 ∈ sc_stage_indices c -> c = x \/ cmp_lt (sc_order_key x) (sc_order_key c) = true) /\
       (2 ∈ sc_stage_indices c ->
          (sequence_window plan < Z.abs (sc_time_millis c - sc_time_millis x))%Z)) :
  forall m s c, m ∈ ms -> s ∈ signals -> sequence_candidate plan policy s = Ok (Some (k, c)) ->
    ~ (sg_signal_id s ∈ sm_input_signal_ids m).
Proof.
  intros m s c. destruct Hblock as (? & ? & ?).
  apply (evaluate_sequence_blocked plan policy signals mode ms k a x); try done.
  - destruct Hstages as [Hst%Forall2_length _]. rewrite length_seq in Hst. rewrite Hst. simpl. lia.
  - apply Hcs. left.
Qed.

Lemma greedy_sequence_can_miss_a_match_witness :
  evaluate_sequence_signals SequenceSample.plan SequenceSample.policy SequenceSample.missed ExecutionMode_Live
    = Ok [] /\
  forall m s c, m ∈ [] -> s ∈ SequenceSample.missed ->
    sequence_candidate SequenceSample.plan SequenceSample.policy s =
      Ok (Some ((SequenceSample.tenant, "HIGH"), c)) ->
    ~ (sg_signal_id s ∈ sm_input_signal_ids m).
Proof.
  split; [vm_compute; reflexivity|].
  apply (greedy_sequence_can_miss_a_match SequenceSample.plan SequenceSample.policy SequenceSample.missed
    ExecutionMode_Live [] (SequenceSample.tenant, "HIGH")
    (SequenceSample.candidate "11" 0 1000000 5001) (SequenceSample.candidate "13" 1 1010000 5003)
    (SequenceSample.candidate "14" 2 1060000 5004) [] (SequenceSample.candidate "12" 1 950000 5002)).
  - exact SequenceSample.plan_ok.
  - vm_compute. reflexivity.
  - intros c Hc. rewrite !elem_of_cons in Hc. destruct Hc as [->|[->|[->|[->|Hc]]]].
    + exists SequenceSample.early_login. split; [right; left|vm_compute; reflexivity].
    + exists SequenceSample.recon. split; [left|vm_compute; reflexivity].
    + exists SequenceSample.login. split; [right; right; left|vm_compute; reflexivity].
    + exists SequenceSample.exfil. split; [right; right; right; left|vm_compute; reflexivity].
    + by apply elem_of_nil in Hc.
  - split; [repeat constructor|]. repeat (constructor; try (vm_compute; reflexivity)).
  - intros c e Hc He. rewrite !elem_of_cons in Hc, He.
    destruct Hc as [->|[->|[->|Hc]]]; try (by apply elem_of_nil in Hc);
      destruct He as [->|[->|[->|He]]]; try (by apply elem_of_nil in He); vm_compute; discriminate.
  - split_and!; [left|vm_compute; reflexivity|vm_compute; discriminate].
  - intros s c Hs Hc. unfold SequenceSample.missed in Hs. rewrite !elem_of_cons in Hs.
    destruct Hs as [->|[->|[->|[->|Hs]]]]; try (by apply elem_of_nil in Hs);
      vm_compute in Hc; injection Hc as <-; cbn [sc_stage_indices]; split_and!; intros Hst;
      rewrite ?list_elem_of_singleton in Hst; try discriminate;
      first [vm_compute; reflexivity | left; vm_compute; reflexivity | right; vm_compute; reflexivity].
Defined.

(** A successful SEQUENCE evaluation does not depend on the order (or the
    repetition pattern) in which the Signals are delivered: any permutation of
    the batch gives the same matches.  It implies that Signals sharing an
    identity were equal and that all of them were valid and of the evaluated
    mode. *)
Theorem sequence_order_irrelevant {Stage JoinKey Ordering GroupKey OrderKey Policy Error}
    `{SequenceCorrelationEvaluationPolicy Policy Stage JoinKey Ordering GroupKey OrderKey Error}
    `{Ord GroupKey} `{Ord OrderKey} (plan : CompiledSequenceCorrelationPlan Stage JoinKey Ordering)
    (policy : Policy) signals mode ms
    (Heval : evaluate_sequence_signals plan policy signals mode = Ok ms) :
  (forall signals', signals ≡ₚ signals' ->
     evaluate_sequence_signals plan policy signals' mode = Ok ms) /\
  consistent_signals signals /\ Forall (admissible mode) signals.
Proof.
  split; [intros signals' Hp; by apply (evaluate_sequence_perm plan policy signals)|].
  by apply evaluate_sequence_ok_iff in Heval as (_ & _ & mp & (? & ? & _)%validate_unique_signals_sound & _).
Qed.

Lemma sequence_order_irrelevant_witness :
  evaluate_sequence_signals SequenceSample.plan SequenceSample.policy (reverse SequenceSample.batch)
    ExecutionMode_Live = Ok [SequenceSample.match_].
Proof.
  refine (proj1 (sequence_order_irrelevant SequenceSample.plan SequenceSample.policy
    SequenceSample.batch ExecutionMode_Live [SequenceSample.match_] _) _ _).
  - vm_compute. reflexivity.
  - symmetry. apply reverse_Permutation.
Defined.

(** Evaluating a compiled SEQUENCE plan never panics, as long as the policy's
    own callbacks do not: the selected positions are always in range. *)
Theorem sequence_evaluation_never_panics {Stage JoinKey Ordering GroupKey OrderKey Policy Error}
    `{SequenceCorrelationEvaluationPolicy Policy Stage JoinKey Ordering GroupKey OrderKey Error}
    `{Ord GroupKey} `{Ord OrderKey} (plan : CompiledSequenceCorrelationPlan Stage JoinKey Ordering)
    (policy : Policy) signals mode
    (Hplan : sequence_plan_ok plan)
    (Hpolicy : sequence_policy_no_panic (Stage := Stage) (JoinKey := JoinKey) (Ordering := Ordering) policy) :
  no_panic (evaluate_sequence_signals plan policy signals mode).
Proof. by apply evaluate_sequence_no_panic. Qed.

Lemma sequence_evaluation_never_panics_witness :
  no_panic (evaluate_sequence_signals SequenceSample.plan SequenceSample.policy SequenceSample.batch
    ExecutionMode_Live).
Proof.
  apply (sequence_evaluation_never_panics SequenceSample.plan SequenceSample.policy).
  - exact SequenceSample.plan_ok.
  - split_and!.
    + intros stage s m. discriminate.
    + intros keys s m. discriminate.
    + intros s m. discriminate.
    + intros o s m. discriminate.
Defined.

(** From SEQUENCE match to valid Finding.  Whatever the evaluator reports for
    a compiled plan materializes, for every producer context that meets the
    contract, as an OPEN CORRELATION Finding that passes the Finding validator
    and names the correlated Signals, in sequence order, both as inputs and in
    its correlation provenance. *)
Theorem sequence_match_materializes {Stage JoinKey Ordering GroupKey OrderKey Policy Error}
    `{SequenceCorrelationEvaluationPolicy Policy Stage JoinKey Ordering GroupKey OrderKey Error}
    `{Ord GroupKey} `{Ord OrderKey} `{EqDecision JoinKey}
    (rule : SequenceCorrelationRule Stage JoinKey Ordering) backend
    (plan : CompiledSequenceCorrelationPlan Stage JoinKey Ordering)
    (policy : Policy) signals mode ms m c
    (Hcompile : compile_sequence_correlation_plan rule backend = Ok plan)
    (Hwindow : (0 <= sr_max_window_millis rule)%Z)
    (Heval : evaluate_sequence_signals plan policy signals mode = Ok ms)
    (Hm : m ∈ ms)
    (Hcontext : finding_context_ok c) :
  exists f, materialize_sequence_correlation_finding m c = Ok f /\ validate_finding f = Ok tt /\
    fd_finding_type f = FINDING_TYPE_CORRELATION /\
    fi_input_id <$> fd_inputs f = sm_input_signal_ids m /\
    fp_input_ids <$> fd_correlation_provenance f = Some (sm_input_signal_ids m).
Proof.
  apply compile_sequence_ok_iff in Hcompile as (_ & Hr & Hv & Hh & Hst & _ & _ & _ & _ & ->).
  assert (match_ok m) as Hok.
  { by refine (evaluate_sequence_match_ok _ policy signals mode ms m _ _ _ _ Heval Hm). }
  pose proof (proj2 (validate_finding_ok_iff _) (correlation_finding_ok m c Hok Hcontext)) as Hvalid.
  exists (correlation_finding m c). split_and!; try done.
  - unfold materialize_sequence_correlation_finding. cbv zeta. by rewrite Hvalid.
  - simpl. rewrite <-list_fmap_compose. by apply list_fmap_id.
Qed.

Lemma sequence_match_materializes_witness :
  exists f, materialize_sequence_correlation_finding SequenceSample.match_ SequenceSample.context = Ok f /\
    validate_finding f = Ok tt /\ fd_finding_type f = FINDING_TYPE_CORRELATION /\
    fi_input_id <$> fd_inputs f = sm_input_signal_ids SequenceSample.match_ /\
    fp_input_ids <$> fd_correlation_provenance f = Some (sm_input_signal_ids SequenceSample.match_).
Proof.
  apply (sequence_match_materializes SequenceSample.rule ClickHouse SequenceSample.plan SequenceSample.policy
    SequenceSample.batch ExecutionMode_Live [SequenceSample.match_] SequenceSample.match_
    SequenceSample.context).
  - vm_compute. reflexivity.
  - vm_compute. discriminate.
  - vm_compute. reflexivity.
  - by left.
  - unfold finding_context_ok. split_and!.
    + apply (validate_uuid_v7_ok_iff "finding_id"). vm_compute. reflexivity.
    + vm_compute. discriminate.
    + intros a Ha. discriminate.
    + vm_compute. discriminate.
    + vm_compute. discriminate.
    + vm_compute. discriminate.
    + apply (validate_timestamp_ok_iff "created_at"). vm_compute. reflexivity.
Defined.
