(* ===== verification/Sigma.v ===== *)
(** * The Sigma THRESHOLD importer

    crates/cerbero-detection-core/src/sigma.rs.  The YAML deserializer
    ([serde_yaml]) is a parameter: the documents of a source text, each one a
    typed document or the deserializer's message. *)

From S2P Require Import Prelude RustStd ContractTypes Validation SignalContract RuleContract DetectionAst EventPipeline EventSignal Threshold ThresholdSpec.

Record ImportedSigmaThresholdRule := mkImportedSigmaThresholdRule {
  im_rule_id : RuleId;
  im_rule_version : string;
  im_status : RuleStatus;
  im_title : string;
  im_severity : string;
  im_content_hash : string;
  im_threshold_rule : ThresholdRule string string;
}.

(** The Rust error is one rendered message; the one message built with [{:?}]
    is kept in its parts. *)
Inductive SigmaImportError : Set :=
| SigmaMessage (message : string)
| SigmaValueMismatch (field expected : string) (actual : option string).

Record SigmaLogSource := mkSigmaLogSource { ls_product : option string; ls_service : option string }.

Record SigmaDetection := mkSigmaDetection {
  sd_condition : string;
  sd_selections : BTreeMap string (BTreeMap string string);
}.

Record SigmaCountCondition := mkSigmaCountCondition { sn_gte : Z (* u64 *) }.

Record SigmaCorrelation := mkSigmaCorrelation {
  so_kind : string;
  so_rules : list string;
  so_group_by : list string;
  so_timespan : string;
  so_condition : SigmaCountCondition;
}.

Record SigmaDocument := mkSigmaDocument {
  do_title : string;
  do_id : option string;
  do_name : option string;
  do_taxonomy : option string;
  do_status : option string;
  do_logsource : option SigmaLogSource;
  do_detection : option SigmaDetection;
  do_correlation : option SigmaCorrelation;
  do_level : option string;
  do_cerbero_rule_id : option string;
  do_cerbero_rule_version : option string;
  do_cerbero_time_basis : option string;
  do_cerbero_time_field : option string;
  do_cerbero_late_event_policy : option string;
}.

(** [serde_yaml::Deserializer::from_str(source)] with [SigmaDocument::deserialize] *)
Class SerdeYaml := yaml_documents : string -> list (SigmaDocument + string).

Definition require_value (actual : option string) (expected field : string)
    : result unit SigmaImportError :=
  if bool_decide (actual = Some expected) then Ok tt
  else Err (SigmaValueMismatch field expected actual).

Definition parse_timespan_millis (value : string) : result Z SigmaImportError :=
  reject_if (str_len value <? 2)%nat (SigmaMessage "invalid Sigma timespan") ;;?
  let? '(number, unit) := split_at value (str_len value - 1) in
  let? amount :=
    ok_or match parse_unsigned in_u64 number with
          | Some amount => if (0 <? amount)%Z then Some amount else None
          | None => None
          end
      (SigmaMessage "invalid Sigma timespan amount") in
  let? multiplier :=
    (if String.eqb unit "s" then Ok 1000%Z
     else if String.eqb unit "m" then Ok 60000%Z
     else if String.eqb unit "h" then Ok 3600000%Z
     else if String.eqb unit "d" then Ok 86400000%Z
     else Err (SigmaMessage "unsupported Sigma timespan unit")) in
  ok_or (checked_mul in_u64 amount multiplier)
    (SigmaMessage "Sigma timespan overflows u64 milliseconds").

(** [documents.iter().filter(|d| d.correlation.is_some())], exactly one *)
Definition sigma_correlation (documents : list SigmaDocument)
    : result (SigmaDocument * SigmaCorrelation) SigmaImportError :=
  reject_if (length documents <? 2)%nat
    (SigmaMessage "Sigma threshold pack requires a base detection and correlation document") ;;?
  let correlations :=
    List.filter (fun d => match do_correlation d with Some _ => true | None => false end) documents in
  reject_if (negb (length correlations =? 1)%nat)
    (SigmaMessage "Sigma threshold pack requires exactly one correlation document") ;;?
  let? correlation_document := ok_or (head correlations)
    (SigmaMessage "Sigma threshold pack lost its correlation document") in
  let? correlation := ok_or (do_correlation correlation_document)
    (SigmaMessage "internal Sigma import selection lost correlation document") in
  Ok (correlation_document, correlation).

Definition check_correlation (correlation_document : SigmaDocument) (correlation : SigmaCorrelation)
    : result unit SigmaImportError :=
  require_value (do_taxonomy correlation_document) "ocsf" "correlation taxonomy" ;;?
  require_value (do_status correlation_document) "stable" "correlation status" ;;?
  reject_if (negb (String.eqb (so_kind correlation) "event_count"))
    (SigmaMessage "first Sigma threshold slice supports event_count only") ;;?
  reject_if (negb (length (so_rules correlation) =? 1)%nat)
    (SigmaMessage "first Sigma threshold slice requires exactly one referenced base rule") ;;?
  reject_if (match so_group_by correlation with [] => true | _ => false end)
    (SigmaMessage "Sigma event_count correlation requires non-empty group-by") ;;?
  reject_if (sn_gte (so_condition correlation) =? 0)%Z
    (SigmaMessage "Sigma event_count gte threshold must be greater than zero").

(** The referenced base detection and its one selection *)
Definition is_base (referenced : string) (d : SigmaDocument) : bool :=
  match do_detection d with Some _ => true | None => false end
  && (bool_decide (do_name d = Some referenced) || bool_decide (do_id d = Some referenced)).

Definition sigma_selection (documents : list SigmaDocument) (correlation : SigmaCorrelation)
    : result (BTreeMap string string) SigmaImportError :=
  let? referenced := ok_or (head (so_rules correlation))
    (SigmaMessage "first Sigma threshold slice requires one referenced base rule") in
  let? base_document := ok_or (List.find (is_base referenced) documents)
    (SigmaMessage ("Sigma correlation references unresolved base rule " +:+ referenced)) in
  require_value (do_taxonomy base_document) "ocsf" "base taxonomy" ;;?
  let? logsource := ok_or (do_logsource base_document)
    (SigmaMessage "Sigma base detection requires logsource") in
  require_value (ls_product logsource) "linux" "logsource.product" ;;?
  require_value (ls_service logsource) "sshd" "logsource.service" ;;?
  let? detection := ok_or (do_detection base_document)
    (SigmaMessage "Sigma base detection requires detection") in
  let? selection := ok_or (bt_get (sd_condition detection) (sd_selections detection))
    (SigmaMessage "first Sigma slice requires condition to name one selection") in
  reject_if (match selection with [] => true | _ => false end)
    (SigmaMessage "Sigma selection must contain at least one field") ;;?
  reject_if (existsb (contains_char "|") (fst <$> selection))
    (SigmaMessage "Sigma field modifiers are not supported by the first governed slice") ;;?
  Ok selection.

Definition sigma_comparison (p : string * string) : DetectionExpression string string :=
  Expr_Comparison (mkComparisonExpression p.1 Op_Eq p.2).

Definition sigma_filter (selection : BTreeMap string string)
    : result (DetectionExpression string string) SigmaImportError :=
  let comparisons := sigma_comparison <$> selection in
  if (length comparisons =? 1)%nat
  then ok_or (head comparisons) (SigmaMessage "Sigma selection unexpectedly became empty")
  else Ok (Expr_Boolean (Bool_And comparisons)).

Definition sigma_rule_version (document : SigmaDocument) : result string SigmaImportError :=
  let? rule_version := ok_or (do_cerbero_rule_version document)
    (SigmaMessage "missing cerbero_rule_version") in
  reject_if (match parse_unsigned in_u64 rule_version with
             | None => true
             | Some value => (value =? 0)%Z
             end)
    (SigmaMessage "cerbero_rule_version must be a positive integer string") ;;?
  Ok rule_version.

Definition sigma_time_basis (document : SigmaDocument) : result ThresholdTimeBasis SigmaImportError :=
  match do_cerbero_time_basis document with
  | Some basis =>
      if String.eqb basis "EVENT_TIME" then Ok EventTime
      else Err (SigmaMessage "first Sigma threshold slice supports EVENT_TIME only")
  | None => Err (SigmaMessage "missing cerbero_time_basis")
  end.

Definition sigma_late_event_policy (document : SigmaDocument)
    : result ThresholdLateEventPolicy SigmaImportError :=
  match do_cerbero_late_event_policy document with
  | Some policy =>
      if String.eqb policy "ACCEPT" then Ok Accept
      else Err (SigmaMessage "first Sigma threshold slice supports ACCEPT late-event policy only")
  | None => Err (SigmaMessage "missing cerbero_late_event_policy")
  end.

Definition parse_sigma_threshold_rule `{Sha256} `{SerdeYaml} (source : string)
    : result ImportedSigmaThresholdRule SigmaImportError :=
  let? documents := map_m (fun d : SigmaDocument + string =>
      match d with
      | inl document => Ok document
      | inr error => Err (SigmaMessage ("Sigma YAML syntax error: " +:+ error))
      end) (yaml_documents source) in
  let? '(correlation_document, correlation) := sigma_correlation documents in
  check_correlation correlation_document correlation ;;?
  let? selection := sigma_selection documents correlation in
  let? filter := sigma_filter selection in
  let? rule_id_text := ok_or (do_cerbero_rule_id correlation_document)
    (SigmaMessage "missing cerbero_rule_id") in
  let? rule_id :=
    map_err (fun error => SigmaMessage ("invalid cerbero_rule_id: " +:+ RuleContractError_fmt error))
      (RuleId_from_str rule_id_text) in
  let? rule_version := sigma_rule_version correlation_document in
  let? time_basis := sigma_time_basis correlation_document in
  let? time_field :=
    ok_or match do_cerbero_time_field correlation_document with
          | Some value => if is_empty value then None else Some value
          | None => None
          end
      (SigmaMessage "missing cerbero_time_field") in
  let? late_event_policy := sigma_late_event_policy correlation_document in
  let? level := ok_or (do_level correlation_document) (SigmaMessage "missing Sigma level") in
  let severity := str_to_ascii_uppercase level in
  let content_hash := sha256_lower_hex (str_bytes source) in
  let? duration_millis := parse_timespan_millis (so_timespan correlation) in
  Ok (mkImportedSigmaThresholdRule rule_id rule_version Stable (do_title correlation_document) severity
        content_hash
        (mkThresholdRule filter (so_group_by correlation) Aggregation_Count
           (sn_gte (so_condition correlation))
           (mkThresholdWindow duration_millis time_basis time_field late_event_policy))).

(** ** Timespans *)

(** The units of a timespan and their length in milliseconds. *)
Definition timespan_units : list (ascii * Z) :=
  [("s"%char, 1000); ("m"%char, 60000); ("h"%char, 3600000); ("d"%char, 86400000)]%Z.

Definition snoc (number : string) (unit : ascii) : string := number +:+ String unit EmptyString.

Lemma str_len_snoc number u : str_len (snoc number u) = S (str_len number).
Proof. unfold str_len, snoc. rewrite str_bytes_app, length_app. simpl. lia. Qed.

Lemma snoc_inv value : value = EmptyString \/ exists number u, value = snoc number u.
Proof.
  destruct (list_eq_nil_dec (str_bytes value)) as [E|E].
  - left. by apply str_bytes_inj.
  - right. destruct (exists_last E) as (l & u & El). exists (str_of_bytes l), u. apply str_bytes_inj.
    unfold snoc. by rewrite str_bytes_app, str_of_bytes_inv.
Qed.

(** [value.split_at(value.len() - 1)]: the last byte must be a character. *)
Lemma split_at_snoc {E} number u :
  split_at (E := E) (snoc number u) (str_len (snoc number u) - 1) =
  if byte_in 128 191 u then Panic "split_at: not a character boundary"
  else Ok (number, String u EmptyString).
Proof.
  rewrite str_len_snoc. simpl. rewrite Nat.sub_0_r. unfold split_at, is_char_boundary, snoc, str_len.
  rewrite str_bytes_app. simpl. rewrite list_lookup_middle by done. rewrite take_app_length, drop_app_length.
  rewrite str_bytes_inv. by destruct (byte_in 128 191 u).
Qed.

Lemma unit_multiplier u :
  (if String.eqb (String u EmptyString) "s" then Ok 1000%Z
   else if String.eqb (String u EmptyString) "m" then Ok 60000%Z
   else if String.eqb (String u EmptyString) "h" then Ok 3600000%Z
   else if String.eqb (String u EmptyString) "d" then Ok 86400000%Z
   else Err (SigmaMessage "unsupported Sigma timespan unit")) =
  match list_find (fun p => p.1 = u) timespan_units with
  | Some (_, (_, m)) => Ok m
  | None => Err (SigmaMessage "unsupported Sigma timespan unit")
  end.
Proof. destruct u as [[] [] [] [] [] [] [] []]; vm_compute; reflexivity. Qed.

Lemma timespan_unit_iff u m :
  (u, m) ∈ timespan_units <-> exists i, list_find (fun p => p.1 = u) timespan_units = Some (i, (u, m)).
Proof.
  split.
  - unfold timespan_units. rewrite !elem_of_cons, elem_of_nil.
    intros [[= -> ->]|[[= -> ->]|[[= -> ->]|[[= -> ->]|[]]]]]; eexists; vm_compute; reflexivity.
  - intros [i (Hl & _)%list_find_Some]. by eapply list_elem_of_lookup_2.
Qed.

Lemma timespan_unit_ascii u m : (u, m) ∈ timespan_units -> byte_in 128 191 u = false /\ (0 < m)%Z.
Proof.
  unfold timespan_units. rewrite !elem_of_cons, elem_of_nil.
  intros [[= -> ->]|[[= -> ->]|[[= -> ->]|[[= -> ->]|[]]]]]; by vm_compute.
Qed.

Lemma parse_timespan_snoc number u :
  number <> EmptyString ->
  parse_timespan_millis (snoc number u) =
  if byte_in 128 191 u then Panic "split_at: not a character boundary" else
  match parse_unsigned in_u64 number with
  | Some amount =>
      if (0 <? amount)%Z then
        match list_find (fun p => p.1 = u) timespan_units with
        | Some (_, (_, m)) =>
            ok_or (checked_mul in_u64 amount m) (SigmaMessage "Sigma timespan overflows u64 milliseconds")
        | None => Err (SigmaMessage "unsupported Sigma timespan unit")
        end
      else Err (SigmaMessage "invalid Sigma timespan amount")
  | None => Err (SigmaMessage "invalid Sigma timespan amount")
  end.
Proof.
  intros Hne. unfold parse_timespan_millis. rewrite split_at_snoc, str_len_snoc.
  destruct number as [|a number]; [done|]. cbn [str_len str_bytes list_ascii_of_string length].
  change (S (S (length (list_ascii_of_string number))) <? 2)%nat with false. cbn [reject_if bind].
  destruct (byte_in 128 191 u); [done|]. cbn [bind].
  destruct (parse_unsigned in_u64 (String a number)) as [amount|]; [|done].
  destruct (0 <? amount)%Z; [|done]. cbn [ok_or bind]. rewrite unit_multiplier.
  by destruct (list_find _ _) as [[? [? m]]|].
Qed.

Lemma parse_timespan_short value :
  str_len value < 2 -> parse_timespan_millis value = Err (SigmaMessage "invalid Sigma timespan").
Proof. intros Hl. unfold parse_timespan_millis. by rewrite (proj2 (Nat.ltb_lt _ _) Hl). Qed.

Lemma parse_timespan_ok_iff value ms :
  parse_timespan_millis value = Ok ms <->
  exists number u m amount, value = snoc number u /\ (u, m) ∈ timespan_units /\
    parse_unsigned in_u64 number = Some amount /\ (0 < amount)%Z /\
    ms = (amount * m)%Z /\ (ms <= u64_max)%Z.
Proof.
  assert (forall number : string, number = EmptyString \/ number <> EmptyString) as Hdec.
  { intros [|]; auto. }
  split.
  - intros Hp. destruct (snoc_inv value) as [->|(number & u & ->)]; [done|].
    destruct (Hdec number) as [->|Hne]; [by rewrite parse_timespan_short in Hp by (vm_compute; lia)|].
    rewrite parse_timespan_snoc in Hp by done. destruct (byte_in 128 191 u); [done|].
    destruct (parse_unsigned in_u64 number) as [amount|] eqn:Ea; [|done].
    destruct (Z.ltb_spec 0 amount); [|done].
    destruct (list_find _ _) as [[i [u' m]]|] eqn:Ef; [|done].
    apply ok_or_ok_iff, try_from_some in Hp as [Hr ->]. apply in_range_spec in Hr.
    pose proof Ef as (_ & Hu & _)%list_find_Some. simpl in Hu. subst u'.
    exists number, u, m, amount. split_and!; try (done || lia). apply timespan_unit_iff. eauto.
  - intros (number & u & m & amount & -> & Hu & Ha & Hpos & -> & Hmax).
    destruct (Hdec number) as [->|Hne]; [done|]. rewrite parse_timespan_snoc by done.
    pose proof (timespan_unit_ascii u m Hu) as [-> Hm]. rewrite Ha, (proj2 (Z.ltb_lt _ _) Hpos).
    apply timespan_unit_iff in Hu as [i ->]. apply ok_or_ok_iff, try_from_some. split; [|done].
    apply in_range_spec. nia.
Qed.

Lemma parse_timespan_panic_iff value :
  (exists m, parse_timespan_millis value = Panic m) <->
  exists number u, value = snoc number u /\ number <> EmptyString /\ byte_in 128 191 u = true.
Proof.
  split.
  - intros [m Hp]. destruct (snoc_inv value) as [->|(number & u & ->)]; [done|].
    destruct number as [|a number]; [by rewrite parse_timespan_short in Hp by (vm_compute; lia)|].
    exists (String a number), u. rewrite parse_timespan_snoc in Hp by done.
    destruct (byte_in 128 191 u); [done|]. exfalso.
    destruct (parse_unsigned _ _) as [amount|]; [|done]. destruct (0 <? amount)%Z; [|done].
    destruct (list_find _ _) as [[? [? k]]|]; [|done]. by destruct (checked_mul _ _ _).
  - intros (number & u & -> & Hne & Hu). rewrite parse_timespan_snoc by done. rewrite Hu. eauto.
Qed.

(** ** Imported rules *)

(** [sigma_source docs doc corr selection]: the pack [docs] has the one
    correlation document [doc] with body [corr], and the base detection it
    references selects [selection]. *)
Definition sigma_source (docs : list SigmaDocument) (doc : SigmaDocument) (corr : SigmaCorrelation)
    (selection : BTreeMap string string) : Prop :=
  2 <= length docs /\
  List.filter (fun d => match do_correlation d with Some _ => true | None => false end) docs = [doc] /\
  do_correlation doc = Some corr /\ do_taxonomy doc = Some "ocsf" /\ do_status doc = Some "stable" /\
  so_kind corr = "event_count" /\ so_group_by corr <> [] /\ sn_gte (so_condition corr) <> 0%Z /\
  exists referenced base source det, so_rules corr = [referenced] /\ (base ∈ docs) /\
    is_base referenced base = true /\ do_taxonomy base = Some "ocsf" /\
    do_logsource base = Some source /\ ls_product source = Some "linux" /\
    ls_service source = Some "sshd" /\ do_detection base = Some det /\
    bt_get (sd_condition det) (sd_selections det) = Some selection /\ selection <> [] /\
    Forall (fun field => contains_char "|" field = false) (fst <$> selection).

Lemma require_value_ok_iff actual expected field :
  require_value actual expected field = Ok tt <-> actual = Some expected.
Proof. unfold require_value. case_bool_decide; naive_solver. Qed.

Lemma sigma_correlation_ok_iff docs doc corr :
  sigma_correlation docs = Ok (doc, corr) <->
  2 <= length docs /\
  List.filter (fun d => match do_correlation d with Some _ => true | None => false end) docs = [doc] /\
  do_correlation doc = Some corr.
Proof.
  unfold sigma_correlation. cbv zeta. rewrite !bind_unit_ok_iff, !reject_if_ok_iff, Nat.ltb_ge,
    negb_false_iff, Nat.eqb_eq. set (l := List.filter _ docs). split.
  - intros (? & Hl & (d & Hd%ok_or_ok_iff & (c & Hc%ok_or_ok_iff & [= -> ->])%bind_ok_iff)%bind_ok_iff).
    destruct l as [|d' [|]]; try done. simpl in Hd. by simplify_eq.
  - intros (? & -> & Hc). split_and!; [done..|]. simpl. by rewrite Hc.
Qed.

Lemma check_correlation_ok_iff doc corr :
  check_correlation doc corr = Ok tt <->
  do_taxonomy doc = Some "ocsf" /\ do_status doc = Some "stable" /\ so_kind corr = "event_count" /\
  length (so_rules corr) = 1 /\ so_group_by corr <> [] /\ sn_gte (so_condition corr) <> 0%Z.
Proof.
  unfold check_correlation. rewrite !bind_unit_ok_iff, !require_value_ok_iff, !reject_if_ok_iff,
    !negb_false_iff, String.eqb_eq, Nat.eqb_eq, Z.eqb_neq.
  do 4 f_equiv. destruct (so_group_by corr); naive_solver.
Qed.

Lemma sigma_selection_ok docs corr selection :
  sigma_selection docs corr = Ok selection -> length (so_rules corr) = 1 ->
  exists referenced base source det, so_rules corr = [referenced] /\ (base ∈ docs) /\
    is_base referenced base = true /\ do_taxonomy base = Some "ocsf" /\
    do_logsource base = Some source /\ ls_product source = Some "linux" /\
    ls_service source = Some "sshd" /\ do_detection base = Some det /\
    bt_get (sd_condition det) (sd_selections det) = Some selection /\ selection <> [] /\
    Forall (fun field => contains_char "|" field = false) (fst <$> selection).
Proof.
  unfold sigma_selection. intros Hs Hlen. destruct (so_rules corr) as [|referenced [|]]; try done.
  simpl in Hs. apply bind_ok_iff in Hs as (base & [Hin Hbase]%ok_or_ok_iff%find_some & Hs).
  apply bind_unit_ok_iff in Hs as (Htax%require_value_ok_iff & Hs).
  apply bind_ok_iff in Hs as (source & Hsrc%ok_or_ok_iff & Hs).
  rewrite !bind_unit_ok_iff, !require_value_ok_iff in Hs. destruct Hs as (Hp & Hv & Hs).
  apply bind_ok_iff in Hs as (det & Hdet%ok_or_ok_iff & Hs).
  apply bind_ok_iff in Hs as (sel & Hsel%ok_or_ok_iff & Hs).
  rewrite !bind_unit_ok_iff, !reject_if_ok_iff, existsb_false_iff in Hs. destruct Hs as (Hne & Hmod & [= ->]).
  exists referenced, base, source, det. split_and!; try done.
  - by apply list_elem_of_In.
  - by destruct selection.
Qed.

Lemma yaml_collect l docs :
  map_m (fun d : SigmaDocument + string =>
      match d with
      | inl document => Ok document
      | inr error => Err (SigmaMessage ("Sigma YAML syntax error: " +:+ error))
      end) l = Ok docs <-> l = inl <$> docs.
Proof.
  rewrite map_m_ok_iff. split.
  - induction 1 as [|x d l docs Hx Hl IH]; [done|]. destruct x; [|done]. injection Hx as ->. by rewrite IH.
  - intros ->. apply Forall2_fmap_l, Forall_Forall2_diag, Forall_forall. done.
Qed.

Lemma sigma_filter_spec selection f :
  sigma_filter selection = Ok f -> selection <> [] ->
  well_formed f /\
  leaves f = (fun p => inl (mkComparisonExpression p.1 Op_Eq p.2)) <$> selection.
Proof.
  unfold sigma_filter. intros Hf Hne. destruct selection as [|p [|q selection]]; [by destruct Hne|simplify_eq/=..].
  - by split; [constructor|].
  - split.
    + constructor; [done|]. change (Forall well_formed (sigma_comparison <$> (p :: q :: selection))).
      apply Forall_fmap, Forall_forall. intros x _. constructor.
    + do 2 f_equal. clear Hne. induction selection as [|x selection IH]; simpl; [done|]. by f_equal.
Qed.

Section SigmaSemantics.
Context {View Policy Error EventValue : Type}.
Context `{EventFieldView View string EventValue}.
Context `{EventLeafEvaluationPolicy Policy string string EventValue Error}.
Variables (event : View) (policy : Policy).

Definition field_equals (p : string * string) : result bool Error :=
  evaluate_comparison policy p.1 (field_state event p.1) Op_Eq p.2.

Lemma sigma_filter_semantics selection f :
  sigma_filter selection = Ok f -> selection <> [] ->
  evaluate_expression event policy f = all_m field_equals selection.
Proof.
  unfold sigma_filter. intros Hf Hne. destruct selection as [|p [|q selection]]; [by destruct Hne|..].
  - simplify_eq/=. unfold field_equals. by destruct (evaluate_comparison _ _ _ _ _) as [[]| |].
  - assert (forall sel, all_m (evaluate_expression event policy) (sigma_comparison <$> sel)
      = all_m field_equals sel) as Hall.
    { intros sel. rewrite all_m_fmap. by apply all_m_ext, Forall_forall. }
    injection Hf as <-. exact (Hall (p :: q :: selection)).
Qed.
End SigmaSemantics.

(** The filter is the conjunction of the selection's equalities: it is well
    formed, these are its leaves in their order, and on every event, under every
    policy, it holds exactly when all of them do, with the first error first. *)
Definition filters_conjunction (f : DetectionExpression string string) (selection : BTreeMap string string) : Prop :=
  well_formed f /\
  leaves f = (fun p => inl (mkComparisonExpression p.1 Op_Eq p.2)) <$> selection /\
  forall (View Policy Error EventValue : Type) (fields : EventFieldView View string EventValue)
    (leaves_policy : EventLeafEvaluationPolicy Policy string string EventValue Error) (event : View) (policy : Policy),
    evaluate_expression event policy f = all_m (field_equals event policy) selection.

Lemma sigma_rule_version_ok_iff doc v :
  sigma_rule_version doc = Ok v <->
  do_cerbero_rule_version doc = Some v /\ exists n, parse_unsigned in_u64 v = Some n /\ (0 < n)%Z.
Proof.
  unfold sigma_rule_version. destruct (do_cerbero_rule_version doc) as [t|]; simpl; [|naive_solver].
  destruct (parse_unsigned in_u64 t) as [n|] eqn:E; simpl; [|naive_solver].
  assert (0 <= n)%Z by (apply parse_unsigned_in, in_range_spec in E; [lia|done]).
  destruct (Z.eqb_spec n 0); simpl; (split; [intros Hv|intros (Hv & n' & Hn & Hpos)]); try done.
  - simplify_eq. lia.
  - injection Hv as ->. split; [done|]. exists n. split; [done|lia].
  - congruence.
Qed.

(** The parts of a successful import. *)
Lemma parse_sigma_ok `{Sha256} `{SerdeYaml} source r :
  parse_sigma_threshold_rule source = Ok r ->
  exists docs doc corr selection f duration,
    yaml_documents source = inl <$> docs /\ sigma_source docs doc corr selection /\
    sigma_filter selection = Ok f /\ parse_timespan_millis (so_timespan corr) = Ok duration /\
    (exists text, do_cerbero_rule_id doc = Some text /\ RuleId_from_str text = Ok (im_rule_id r)) /\
    do_cerbero_rule_version doc = Some (im_rule_version r) /\
    (exists n, parse_unsigned in_u64 (im_rule_version r) = Some n /\ (0 < n)%Z) /\
    im_title r = do_title doc /\ (str_to_ascii_uppercase <$> do_level doc) = Some (im_severity r) /\
    im_status r = Stable /\ im_content_hash r = sha256_lower_hex (str_bytes source) /\
    exists time_field, do_cerbero_time_field doc = Some time_field /\ time_field <> "" /\
      im_threshold_rule r = mkThresholdRule f (so_group_by corr) Aggregation_Count
        (sn_gte (so_condition corr)) (mkThresholdWindow duration EventTime time_field Accept).
Proof.
  unfold parse_sigma_threshold_rule.
  intros (docs & Hdocs%yaml_collect & ([doc corr] & Hc%sigma_correlation_ok_iff & Hr)%bind_ok_iff)%bind_ok_iff.
  apply bind_unit_ok_iff in Hr as (Hcheck%check_correlation_ok_iff & Hr).
  apply bind_ok_iff in Hr as (selection & Hsel & Hr). apply bind_ok_iff in Hr as (f & Hf & Hr).
  apply bind_ok_iff in Hr as (text & Htext%ok_or_ok_iff & Hr).
  apply bind_ok_iff in Hr as (rid & Hrid%map_err_ok_iff & Hr).
  apply bind_ok_iff in Hr as (version & [Hv Hpos]%sigma_rule_version_ok_iff & Hr). apply bind_ok_iff in Hr as (basis & Hbasis & Hr).
  apply bind_ok_iff in Hr as (time_field & Htime%ok_or_ok_iff & Hr).
  apply bind_ok_iff in Hr as (late & Hlate & Hr). apply bind_ok_iff in Hr as (level & Hlevel%ok_or_ok_iff & Hr).
  cbv zeta in Hr. apply bind_ok_iff in Hr as (duration & Hd & [= <-]). simpl.
  destruct Hc as (? & ? & ?), Hcheck as (? & ? & ? & Hlen & ? & ?).
  pose proof (sigma_selection_ok _ _ _ Hsel Hlen).
  exists docs, doc, corr, selection, f, duration. split_and!; try done.
  - eauto.
  - by rewrite Hlevel.
  - exists time_field. destruct (do_cerbero_time_field doc) as [t|]; [|done].
    destruct (is_empty t) eqn:Et; [done|]. injection Htime as ->. apply not_empty_iff in Et. split_and!; [done..|].
    unfold sigma_time_basis in Hbasis. unfold sigma_late_event_policy in Hlate.
    destruct (do_cerbero_time_basis doc) as [b|]; [|done]. destruct (String.eqb b _); [|done].
    destruct (do_cerbero_late_event_policy doc) as [l|]; [|done]. destruct (String.eqb l _); [|done].
    by simplify_eq.
Qed.

(** ** A concrete pack: failed SSH logins per user *)

Module SigmaSample.

(** A digest function of the right length, for evaluation only. *)
#[export, program] Instance digest : Sha256 := {| sha256_digest _ := replicate 32 "000"%char |}.
Next Obligation. reflexivity. Qed.

Definition base : SigmaDocument :=
  mkSigmaDocument "failed ssh login" (Some "base-1") (Some "ssh_failed") (Some "ocsf") (Some "stable")
    (Some (mkSigmaLogSource (Some "linux") (Some "sshd")))
    (Some (mkSigmaDetection "selection"
             [("selection", [("status", "Failure"); ("user.name", "root")])]))
    None None None None None None None.

Definition correlation (timespan : string) : SigmaDocument :=
  mkSigmaDocument "ssh brute force" None None (Some "ocsf") (Some "stable") None None
    (Some (mkSigmaCorrelation "event_count" ["ssh_failed"] ["user.name"] timespan (mkSigmaCountCondition 5)))
    (Some "high") (Some "CER-DET-000001") (Some "1") (Some "EVENT_TIME") (Some "time") (Some "ACCEPT").

(** The text stands for the pack whose timespan it is. *)
#[export] Instance yaml : SerdeYaml := fun source => [inl base; inl (correlation source)].

Definition imported : ImportedSigmaThresholdRule :=
  mkImportedSigmaThresholdRule (mkRuleId "CER-DET-000001") "1" Stable "ssh brute force" "HIGH"
    (sha256_lower_hex [])
    (mkThresholdRule
       (Expr_Boolean (Bool_And [sigma_comparison ("status", "Failure"); sigma_comparison ("user.name", "root")]))
       ["user.name"] Aggregation_Count 5 (mkThresholdWindow 300000 EventTime "time" Accept)).

End SigmaSample.
Import SigmaSample.

(** ** Properties *)

(** A timespan parses to [ms] exactly when it is a positive decimal number
    followed by one of the units s, m, h, d, and [ms] is the number times the
    unit in milliseconds, which must fit 64 bits: leading signs other than one
    plus, other units, zero amounts and overflows are all rejected. *)
Theorem parse_timespan_spec (value : string) (ms : Z) :
  parse_timespan_millis value = Ok ms <->
  exists number u m amount, value = snoc number u /\ (u, m) ∈ timespan_units /\
    parse_unsigned in_u64 number = Some amount /\ (0 < amount)%Z /\
    ms = (amount * m)%Z /\ (ms <= u64_max)%Z.
Proof. apply parse_timespan_ok_iff. Qed.

(** The importer is not fail-closed on every timespan: the timespan parser
    panics exactly on texts of two bytes or more whose last byte is a UTF-8
    continuation byte, that is, which end in a multi-byte character. *)
Theorem parse_timespan_panics_iff (value : string) :
  (exists m, parse_timespan_millis value = Panic m) <->
  exists number u, value = snoc number u /\ number <> EmptyString /\ byte_in 128 191 u = true.
Proof. apply parse_timespan_panic_iff. Qed.

(** C32: what an imported rule is.  A successful import comes from a pack with
    exactly one stable OCSF event_count correlation document whose single
    referenced base detection is an OCSF linux/sshd document; the rule carries
    that document's parsed rule id, its version, a positive integer, its title and
    severity, the digest of the source text, a count of events against exactly the
    document's threshold, which is positive, its non-empty grouping, event time
    in its non-empty time field, accepted late events, the window of the timespan,
    and a filter that is the conjunction of exactly the selection's field
    equalities: it holds of an event, under every leaf policy, exactly when all of
    them do. *)
Theorem sigma_import_sound `{Sha256} `{SerdeYaml} (source : string) r :
  parse_sigma_threshold_rule source = Ok r ->
  exists docs doc corr selection duration,
    yaml_documents source = inl <$> docs /\ sigma_source docs doc corr selection /\
    parse_timespan_millis (so_timespan corr) = Ok duration /\
    do_cerbero_rule_id doc = Some (RuleId_as_str (im_rule_id r)) /\
    detection_rule_id (RuleId_as_str (im_rule_id r)) /\
    im_content_hash r = sha256_lower_hex (str_bytes source) /\ im_status r = Stable /\
    im_title r = do_title doc /\ (str_to_ascii_uppercase <$> do_level doc) = Some (im_severity r) /\
    do_cerbero_rule_version doc = Some (im_rule_version r) /\
    (exists n, parse_unsigned in_u64 (im_rule_version r) = Some n /\ (0 < n)%Z) /\
    thr_group_by (im_threshold_rule r) = so_group_by corr /\
    thr_aggregation (im_threshold_rule r) = Aggregation_Count /\
    thr_threshold (im_threshold_rule r) = sn_gte (so_condition corr) /\
    (in_u64 (sn_gte (so_condition corr)) = true -> (0 < thr_threshold (im_threshold_rule r))%Z) /\
    tw_duration_millis (thr_window (im_threshold_rule r)) = duration /\ (1 <= duration <= u64_max)%Z /\
    tw_late_event_policy (thr_window (im_threshold_rule r)) = Accept /\
    tw_time_basis (thr_window (im_threshold_rule r)) = EventTime /\
    do_cerbero_time_field doc = Some (tw_time_field (thr_window (im_threshold_rule r))) /\
    tw_time_field (thr_window (im_threshold_rule r)) <> "" /\
    filters_conjunction (thr_filter (im_threshold_rule r)) selection.
Proof.
  intros (docs & doc & corr & selection & f & duration & Hd & Hsrc & Hf & Ht & (text & Htext & Hid) & Hv & Hpv
    & Hti & Hsev & Hst & Hh & tf & Htf & Htf' & Hrule)%parse_sigma_ok.
  exists docs, doc, corr, selection, duration. rewrite Hrule. simpl.
  apply RuleId_from_str_ok_iff in Hid as [Hid ->]. simpl.
  pose proof Hsrc as (_ & _ & _ & _ & _ & _ & _ & Hgte & ? & ? & ? & ? & _ & _ & _ & _ & _ & _ & _ & _ & _ & Hne & _).
  destruct (sigma_filter_spec selection f Hf Hne) as [Hwf Hl].
  pose proof Ht as (n & u & m & a & _ & Hu & _ & Hpos & -> & Hmax)%parse_timespan_ok_iff.
  apply timespan_unit_ascii in Hu as [_ Hm]. split_and!; try done.
  - intros Hr%in_range_spec. lia.
  - nia.
  - split_and!; [done..|]. intros. by apply sigma_filter_semantics.
Qed.

Lemma sigma_import_sound_witness :
  exists docs doc corr selection duration,
    yaml_documents "5m" = inl <$> docs /\ sigma_source docs doc corr selection /\
    parse_timespan_millis (so_timespan corr) = Ok duration /\
    do_cerbero_rule_id doc = Some (RuleId_as_str (im_rule_id SigmaSample.imported)) /\
    detection_rule_id (RuleId_as_str (im_rule_id SigmaSample.imported)) /\
    im_content_hash SigmaSample.imported = sha256_lower_hex (str_bytes "5m") /\ im_status SigmaSample.imported = Stable /\
    im_title SigmaSample.imported = do_title doc /\ (str_to_ascii_uppercase <$> do_level doc) = Some (im_severity SigmaSample.imported) /\
    do_cerbero_rule_version doc = Some (im_rule_version SigmaSample.imported) /\
    (exists n, parse_unsigned in_u64 (im_rule_version SigmaSample.imported) = Some n /\ (0 < n)%Z) /\
    thr_group_by (im_threshold_rule SigmaSample.imported) = so_group_by corr /\
    thr_aggregation (im_threshold_rule SigmaSample.imported) = Aggregation_Count /\
    thr_threshold (im_threshold_rule SigmaSample.imported) = sn_gte (so_condition corr) /\
    (in_u64 (sn_gte (so_condition corr)) = true -> (0 < thr_threshold (im_threshold_rule SigmaSample.imported))%Z) /\
    tw_duration_millis (thr_window (im_threshold_rule SigmaSample.imported)) = duration /\ (1 <= duration <= u64_max)%Z /\
    tw_late_event_policy (thr_window (im_threshold_rule SigmaSample.imported)) = Accept /\
    tw_time_basis (thr_window (im_threshold_rule SigmaSample.imported)) = EventTime /\
    do_cerbero_time_field doc = Some (tw_time_field (thr_window (im_threshold_rule SigmaSample.imported))) /\
    tw_time_field (thr_window (im_threshold_rule SigmaSample.imported)) <> "" /\
    filters_conjunction (thr_filter (im_threshold_rule SigmaSample.imported)) selection.
Proof. apply (sigma_import_sound "5m" SigmaSample.imported). vm_compute. reflexivity. Defined.

(** An imported rule compiles for ClickHouse exactly when the schema knows
    its grouping, clock and selection fields and admits the comparisons, its
    group-by names are distinct and its window fits an [i64]; every other check
    of the THRESHOLD compiler is already established by the import. *)
Theorem sigma_import_compiles
    {FieldType ValueType Profile Plan FR VR P Optimizer ProfileResolver PlanCompiler}
    `{Sha256} `{SerdeYaml}
    `{FieldTypeResolver FR FieldType} `{ValueTypeResolver VR string ValueType}
    `{ComparisonTypePolicy P FieldType ValueType} `{EventAstOptimizer Optimizer string string}
    `{EventFieldProfileResolver ProfileResolver string string Profile}
    `{EventExecutionPlanCompiler PlanCompiler string string Profile Plan}
    (source : string) r (fr : FR) (vr : VR) (policy : P)
    (stages : EventCompilationStages Optimizer ProfileResolver PlanCompiler) :
  parse_sigma_threshold_rule source = Ok r ->
  let rule := im_threshold_rule r in
  (exists c, compile_threshold_execution_plan (Plan := Plan) rule ClickHouse fr vr policy stages = Ok c) <->
  NoDup (as_ref <$> thr_group_by rule) /\ Forall (resolves fr) (thr_group_by rule) /\
  resolves fr (tw_time_field (thr_window rule)) /\
  (tw_duration_millis (thr_window rule) <= i64_max)%Z /\
  exists filter : CompiledEventExecutionPlan Plan Profile,
    compile_event_execution_plan (thr_filter rule) ClickHouse fr vr policy stages = Ok filter.
Proof.
  intros (docs & doc & corr & selection & f & duration & _ & Hsrc & _ & Ht & _ & _ & _ & _ & _ & _ & _ & tf & _ & _
    & Hrule)%parse_sigma_ok.
  cbv zeta. rewrite Hrule. simpl. setoid_rewrite compile_threshold_ok_iff. simpl.
  destruct Hsrc as (_ & _ & _ & _ & _ & _ & Hg & Hn & _).
  pose proof Ht as (n & u & m & a & _ & Hu & _ & Hpos & -> & Hmax)%parse_timespan_ok_iff.
  apply timespan_unit_ascii in Hu as [_ Hm]. unfold in_i64. setoid_rewrite in_range_spec. split.
  - intros (c & _ & _ & _ & _ & Hr & _ & ? & ? & ? & filter & ? & _). split_and!; try done; [lia|eauto].
  - intros (? & ? & ? & ? & filter & ?). eexists. unfold i64_min.
    split_and!; try (done || lia || nia); eauto.
Qed.

Lemma sigma_import_compiles_witness :
  let rule := im_threshold_rule SigmaSample.imported in
  (exists c, compile_threshold_execution_plan rule ClickHouse Sample.env Sample.env Sample.env Sample.stages = Ok c) <->
  NoDup (as_ref <$> thr_group_by rule) /\ Forall (resolves Sample.env) (thr_group_by rule) /\
  resolves Sample.env (tw_time_field (thr_window rule)) /\
  (tw_duration_millis (thr_window rule) <= i64_max)%Z /\
  exists filter, compile_event_execution_plan (thr_filter rule) ClickHouse Sample.env Sample.env Sample.env
    Sample.stages = Ok filter.
Proof.
  apply (sigma_import_compiles "5m" SigmaSample.imported). vm_compute. reflexivity.
Defined.

(** An imported rule means its selection: on every event the filter holds
    exactly when every field of the selection equals its value, checked in the
    selection's key order with the first failure or false equality deciding. *)
Theorem sigma_filter_means_selection
    {View Policy Error EventValue} `{Sha256} `{SerdeYaml} `{EventFieldView View string EventValue}
    `{EventLeafEvaluationPolicy Policy string string EventValue Error}
    (source : string) r (event : View) (policy : Policy) :
  parse_sigma_threshold_rule source = Ok r ->
  exists docs doc corr selection, sigma_source docs doc corr selection /\
    yaml_documents source = inl <$> docs /\
    evaluate_expression event policy (thr_filter (im_threshold_rule r)) =
      all_m (field_equals event policy) selection.
Proof.
  intros (docs & doc & corr & selection & f & duration & Hd & Hsrc & Hf & _ & _ & _ & _ & _ & _ & _ & _ & tf & _ & _
    & ->)%parse_sigma_ok.
  exists docs, doc, corr, selection. split_and!; [done..|]. simpl. apply sigma_filter_semantics; [done|].
  by destruct Hsrc as (_ & _ & _ & _ & _ & _ & _ & _ & ? & ? & ? & ? & _ & _ & _ & _ & _ & _ & _ & _ & _ & Hne & _).
Qed.

Lemma sigma_filter_means_selection_witness :
  exists docs doc corr selection, sigma_source docs doc corr selection /\
    yaml_documents "5m" = inl <$> docs /\
    evaluate_expression (Sample.user "root") Sample.env (thr_filter (im_threshold_rule SigmaSample.imported)) =
      all_m (field_equals (Sample.user "root") Sample.env) selection.
Proof.
  apply (sigma_filter_means_selection "5m" SigmaSample.imported). vm_compute. reflexivity.
Defined.
