(* ===== verification/Effects.v ===== *)
(** * Effectful Rust code

    The [async] functions of the runtime read and write the outside world and
    may fail at any call.  They are modelled in a state and error monad whose
    state survives an error: [io W E A] runs in a world [W] and returns a
    [result] together with the world it leaves, whatever the result is.  The
    file also has the two proof principles used on such code: the inversion of
    successful runs, and the preservation of a preorder on worlds by every run,
    failed ones included. *)

From S2P Require Import Prelude.

Section Io.
Context {W E : Type}.

Definition io (A : Type) : Type := W -> result A E * W.

Definition io_ret {A} (a : A) : io A := fun w => (Ok a, w).

(** A pure call followed by [?] *)
Definition io_lift {A} (r : result A E) : io A := fun w => (r, w).

Definition io_bind {A B} (m : io A) (k : A -> io B) : io B := fun w =>
  match m w with
  | (Ok a, w') => k a w'
  | (Err e, w') => (Err e, w')
  | (Panic p, w') => (Panic p, w')
  end.

(** [for x in l { f(x).await?; }] *)
Fixpoint io_iter {A} (f : A -> io unit) (l : list A) : io unit :=
  match l with
  | [] => io_ret tt
  | x :: l => io_bind (f x) (fun _ => io_iter f l)
  end.

(** [for x in l { s = f(s, x).await?; }] *)
Fixpoint io_fold {A S} (f : S -> A -> io S) (l : list A) (s : S) : io S :=
  match l with
  | [] => io_ret s
  | x :: l => io_bind (f s x) (fun s' => io_fold f l s')
  end.

End Io.
Arguments io : clear implicits.

Notation "'let!' x ':=' c 'in' k" := (io_bind c (fun x => k))
  (at level 10, x name, c at level 100, k at level 200,
   format "'[v' 'let!'  x  ':='  c  'in' '/' k ']'") : rust_scope.
Notation "'let!' ' p ':=' c 'in' k" := (io_bind c (fun p => k))
  (at level 10, p strict pattern, c at level 100, k at level 200,
   format "'[v' 'let!'  ' p  ':='  c  'in' '/' k ']'") : rust_scope.
Notation "c ;;! k" := (io_bind c (fun _ => k))
  (at level 100, k at level 200, right associativity, format "'[v' c  ';;!' '/' k ']'") : rust_scope.

(** ** Successful runs *)

Section IoLemmas.
Context {W E : Type}.

Lemma io_bind_ok_iff {A B} (m : io W E A) (k : A -> io W E B) w b w' :
  io_bind m k w = (Ok b, w') <-> exists a w1, m w = (Ok a, w1) /\ k a w1 = (Ok b, w').
Proof.
  unfold io_bind. destruct (m w) as [[a|e|p] w1]; split.
  - eauto.
  - intros (a' & w1' & [= <- <-] & ?). done.
  - done.
  - by intros (a' & w1' & ? & ?).
  - done.
  - by intros (a' & w1' & ? & ?).
Qed.

Lemma io_lift_ok_iff {A} (r : result A E) (w : W) a w' :
  io_lift r w = (Ok a, w') <-> r = Ok a /\ w' = w.
Proof. unfold io_lift. split; [by intros [= -> ->]|by intros [-> ->]]. Qed.

Lemma io_ret_ok_iff {A} (x : A) (w : W) a w' :
  io_ret (E := E) x w = (Ok a, w') <-> a = x /\ w' = w.
Proof. unfold io_ret. split; [by intros [= -> ->]|by intros [-> ->]]. Qed.

Lemma io_bind_run {A B} (m : io W E A) (k : A -> io W E B) w a w1 :
  m w = (Ok a, w1) -> io_bind m k w = k a w1.
Proof. unfold io_bind. by intros ->. Qed.

(** ** Every run, failed ones included, relates the worlds by [R]. *)

Definition io_respects {A} (R : W -> W -> Prop) (m : io W E A) : Prop :=
  forall w r w', m w = (r, w') -> R w w'.

Context (R : W -> W -> Prop) `{!PreOrder R}.

Lemma respects_ret {A} (a : A) : io_respects R (io_ret a).
Proof. by intros w r w' [= _ <-]. Qed.

Lemma respects_lift {A} (r : result A E) : io_respects R (io_lift r).
Proof. by intros w r' w' [= _ <-]. Qed.

Lemma respects_bind {A B} (m : io W E A) (k : A -> io W E B) :
  io_respects R m -> (forall a, io_respects R (k a)) -> io_respects R (io_bind m k).
Proof.
  intros Hm Hk w r w'. unfold io_bind.
  destruct (m w) as [[a|e|p] w1] eqn:Hw; apply Hm in Hw; [|by intros [= _ <-]..].
  intros ?%Hk. by etrans.
Qed.

Lemma respects_fold {A S} (f : S -> A -> io W E S) l s :
  (forall s x, io_respects R (f s x)) -> io_respects R (io_fold f l s).
Proof.
  intros Hf. revert s. induction l as [|x l IH]; intros s; simpl; [apply respects_ret|].
  by apply respects_bind.
Qed.

End IoLemmas.

#[export] Hint Rewrite @io_bind_ok_iff @io_lift_ok_iff @io_ret_ok_iff : ok_iff.

(** Turns a successful run of straight-line effectful code into its steps. *)
Ltac io_inv H :=
  lazymatch type of H with
  | io_bind _ _ _ = (Ok _, _) =>
      let H1 := fresh H in
      apply io_bind_ok_iff in H as (? & ? & H1 & H); io_inv H1; io_inv H
  | io_lift _ _ = (Ok _, _) =>
      apply io_lift_ok_iff in H as [H ->]
  | io_ret _ _ = (Ok _, _) =>
      apply io_ret_ok_iff in H as [H ->]; first [subst | clear H]
  | _ => idtac
  end.
