(* ===== verification/Database.v ===== *)
(** * The analytical tables and the statements run against them

    The PostgreSQL tables that the detection runtime writes
    (migrations/postgres/000002_raw_preservation.sql and
    000006_analytical_runtime.sql) and the SQL statements it runs on them
    (crates/cerbero-detection-runtime/src/lib.rs), with the constraints of the
    schema.  A [World] holds the tables and a step counter.  The environment
    decides at every step whether the statement fails for a reason of its own
    (connection, permissions, a refused cast), and whether a failing COMMIT was
    nevertheless applied: the theorems hold for every such environment. *)

From S2P Require Import Prelude RustStd ContractTypes Validation Effects.

(** ** Rows *)

(** [detection.signals] and [investigation.findings] have the same columns.
    [uuid] columns compare by value, so they hold the lowercase text. *)
Record AnalyticalRow := mkAnalyticalRow {
  row_id : string;
  row_logical_key : string;
  row_tenant_id : string;
  row_created_at : Z * Z;          (* the seconds and nanoseconds given to to_timestamp *)
  row_payload : list ascii;
}.

Record SignalInputRow := mkSignalInputRow {
  sir_signal_id : string;
  sir_ordinal : Z;                 (* integer *)
  sir_input_type : Z;              (* smallint *)
  sir_input_id : string;
  sir_relation : string;
}.

Record FindingInputRow := mkFindingInputRow {
  fir_finding_id : string;
  fir_input_type : string;
  fir_input_id : string;
  fir_relation : string;
}.

Record FindingProvenanceRow := mkFindingProvenanceRow {
  fpr_finding_id : string;
  fpr_correlation_rule_id : string;
  fpr_correlation_rule_version : string;
  fpr_configuration_hash : string;
  fpr_input_ids : string;          (* the text cast to jsonb *)
}.

Record OutboxRow := mkOutboxRow {
  obr_message_id : string;
  obr_subject : string;
  obr_payload : list ascii;
}.

Record Tables := mkTables {
  tb_signals : list AnalyticalRow;
  tb_signal_inputs : list SignalInputRow;
  tb_findings : list AnalyticalRow;
  tb_finding_inputs : list FindingInputRow;
  tb_finding_provenance : list FindingProvenanceRow;
  tb_outbox : list OutboxRow;
}.

(** [$n::text::uuid], on the canonical texts the contracts admit *)
Definition sql_uuid (text : string) : string :=
  str_of_bytes (to_ascii_lowercase <$> str_bytes text).

(** ** Statements *)

Definition has_row {A} (p : A -> bool) (rows : list A) : bool := existsb p rows.

(** [CHECK], then [ON CONFLICT (logical_key) DO NOTHING], then the primary
    key: the rows after the statement and the count of inserted rows *)
Definition insert_analytical (row : AnalyticalRow) (rows : list AnalyticalRow)
    : result (Z * list AnalyticalRow) string :=
  reject_if (negb ((str_len (row_logical_key row) =? 64)%nat
                   && forallb is_lower_hex (str_bytes (row_logical_key row)))) "check logical_key" ;;?
  reject_if (match row_payload row with [] => true | _ => false end) "check payload" ;;?
  if has_row (fun r => String.eqb (row_logical_key r) (row_logical_key row)) rows then Ok (0%Z, rows)
  else
    reject_if (has_row (fun r => String.eqb (row_id r) (row_id row)) rows) "primary key" ;;?
    Ok (1%Z, rows ++ [row]).

Definition insert_signal_input (row : SignalInputRow) (t : Tables)
    : result (list SignalInputRow) string :=
  reject_if (sir_ordinal row <? 0)%Z "check ordinal" ;;?
  reject_if (negb (in_range 1 3 (sir_input_type row))) "check input_type" ;;?
  reject_if (is_empty (sir_input_id row)) "check input_id" ;;?
  reject_if (is_empty (sir_relation row)) "check relation" ;;?
  reject_if (has_row (fun r => String.eqb (sir_signal_id r) (sir_signal_id row)
                               && (sir_ordinal r =? sir_ordinal row)%Z) (tb_signal_inputs t))
    "primary key" ;;?
  reject_if (negb (has_row (fun r => String.eqb (row_id r) (sir_signal_id row)) (tb_signals t)))
    "foreign key" ;;?
  Ok (tb_signal_inputs t ++ [row]).

Definition insert_finding_input (row : FindingInputRow) (t : Tables)
    : result (list FindingInputRow) string :=
  reject_if (is_empty (fir_input_type row)) "check input_type" ;;?
  reject_if (is_empty (fir_input_id row)) "check input_id" ;;?
  reject_if (is_empty (fir_relation row)) "check relation" ;;?
  reject_if (has_row (fun r => String.eqb (fir_finding_id r) (fir_finding_id row)
                               && String.eqb (fir_input_type r) (fir_input_type row)
                               && String.eqb (fir_input_id r) (fir_input_id row)
                               && String.eqb (fir_relation r) (fir_relation row))
                      (tb_finding_inputs t)) "primary key" ;;?
  reject_if (negb (has_row (fun r => String.eqb (row_id r) (fir_finding_id row)) (tb_findings t)))
    "foreign key" ;;?
  Ok (tb_finding_inputs t ++ [row]).

Definition insert_finding_provenance (row : FindingProvenanceRow) (t : Tables)
    : result (list FindingProvenanceRow) string :=
  reject_if (is_empty (fpr_correlation_rule_id row)) "check correlation_rule_id" ;;?
  reject_if (is_empty (fpr_correlation_rule_version row)) "check correlation_rule_version" ;;?
  reject_if (is_empty (fpr_configuration_hash row)) "check configuration_hash" ;;?
  reject_if (has_row (fun r => String.eqb (fpr_finding_id r) (fpr_finding_id row))
               (tb_finding_provenance t)) "primary key" ;;?
  reject_if (negb (has_row (fun r => String.eqb (row_id r) (fpr_finding_id row)) (tb_findings t)))
    "foreign key" ;;?
  Ok (tb_finding_provenance t ++ [row]).

Definition insert_outbox (row : OutboxRow) (rows : list OutboxRow) : result (list OutboxRow) string :=
  reject_if (is_empty (obr_subject row)) "check subject" ;;?
  reject_if (match obr_payload row with [] => true | _ => false end) "check payload" ;;?
  reject_if (has_row (fun r => String.eqb (obr_message_id r) (obr_message_id row)) rows) "primary key" ;;?
  Ok (rows ++ [row]).

(** [SELECT payload ... WHERE logical_key = $1] read with [query_one] *)
Definition select_payload (logical_key : string) (rows : list AnalyticalRow)
    : result (list ascii) string :=
  match List.filter (fun r => String.eqb (row_logical_key r) logical_key) rows with
  | [row] => Ok (row_payload row)
  | _ => Err "query returned an unexpected number of rows"
  end.

Inductive Statement : Type :=
| BeginTransaction
| InsertSignal (row : AnalyticalRow)
| InsertSignalInput (row : SignalInputRow)
| InsertFinding (row : AnalyticalRow)
| InsertFindingInput (row : FindingInputRow)
| InsertFindingProvenance (row : FindingProvenanceRow)
| InsertOutbox (row : OutboxRow)
| SelectSignalPayload (logical_key : string)
| SelectFindingPayload (logical_key : string).

(** ** Worlds and environments *)

Record World := mkWorld { w_tables : Tables; w_step : nat }.

Class Environment := {
  statement_fault : nat -> Statement -> option string;
  commit_fault : nat -> option (string * bool);   (* the error, and whether the commit took effect *)
  uuid_at : nat -> string;                        (* Uuid::now_v7().to_string() *)
}.

(** [pub struct RuntimeError(String)] *)
Record RuntimeError := mkRuntimeError { runtime_message : string }.

Abbreviation runs := (io World RuntimeError).

Section Execution.
Context `{Environment}.

Definition tick (w : World) : World := mkWorld (w_tables w) (S (w_step w)).

Definition now_v7 : runs string := fun w => (Ok (uuid_at (w_step w)), tick w).

(** One statement of the transaction *)
Definition run_statement {A} (s : Statement) (action : Tables -> result (A * Tables) string) : runs A :=
  fun w =>
    match statement_fault (w_step w) s with
    | Some error => (Err (mkRuntimeError error), tick w)
    | None =>
        match action (w_tables w) with
        | Ok (a, t) => (Ok a, mkWorld t (S (w_step w)))
        | Err error => (Err (mkRuntimeError error), tick w)
        | Panic p => (Panic p, tick w)
        end
    end.

(** A transaction: dropped without a commit, it rolls back *)
Definition transaction {A} (body : runs A) : runs A :=
  run_statement BeginTransaction (fun t => Ok (tt, t)) ;;!
  fun w =>
    match body w with
    | (Ok a, w') =>
        match commit_fault (w_step w') with
        | None => (Ok a, tick w')
        | Some (error, applied) =>
            (Err (mkRuntimeError error),
             mkWorld (if applied then w_tables w' else w_tables w) (S (w_step w')))
        end
    | (r, w') => (r, mkWorld (w_tables w) (w_step w'))
    end.

Definition set_signals (t : Tables) rows : Tables :=
  mkTables rows (tb_signal_inputs t) (tb_findings t) (tb_finding_inputs t)
    (tb_finding_provenance t) (tb_outbox t).
Definition set_signal_inputs (t : Tables) rows : Tables :=
  mkTables (tb_signals t) rows (tb_findings t) (tb_finding_inputs t)
    (tb_finding_provenance t) (tb_outbox t).
Definition set_findings (t : Tables) rows : Tables :=
  mkTables (tb_signals t) (tb_signal_inputs t) rows (tb_finding_inputs t)
    (tb_finding_provenance t) (tb_outbox t).
Definition set_finding_inputs (t : Tables) rows : Tables :=
  mkTables (tb_signals t) (tb_signal_inputs t) (tb_findings t) rows
    (tb_finding_provenance t) (tb_outbox t).
Definition set_finding_provenance (t : Tables) rows : Tables :=
  mkTables (tb_signals t) (tb_signal_inputs t) (tb_findings t) (tb_finding_inputs t)
    rows (tb_outbox t).
Definition set_outbox (t : Tables) rows : Tables :=
  mkTables (tb_signals t) (tb_signal_inputs t) (tb_findings t) (tb_finding_inputs t)
    (tb_finding_provenance t) rows.

Definition exec_insert_signal (row : AnalyticalRow) : runs Z :=
  run_statement (InsertSignal row) (fun t =>
    let? '(n, rows) := insert_analytical row (tb_signals t) in Ok (n, set_signals t rows)).
Definition exec_insert_signal_input (row : SignalInputRow) : runs unit :=
  run_statement (InsertSignalInput row) (fun t =>
    let? rows := insert_signal_input row t in Ok (tt, set_signal_inputs t rows)).
Definition exec_insert_finding (row : AnalyticalRow) : runs Z :=
  run_statement (InsertFinding row) (fun t =>
    let? '(n, rows) := insert_analytical row (tb_findings t) in Ok (n, set_findings t rows)).
Definition exec_insert_finding_input (row : FindingInputRow) : runs unit :=
  run_statement (InsertFindingInput row) (fun t =>
    let? rows := insert_finding_input row t in Ok (tt, set_finding_inputs t rows)).
Definition exec_insert_finding_provenance (row : FindingProvenanceRow) : runs unit :=
  run_statement (InsertFindingProvenance row) (fun t =>
    let? rows := insert_finding_provenance row t in Ok (tt, set_finding_provenance t rows)).
Definition exec_insert_outbox (row : OutboxRow) : runs unit :=
  run_statement (InsertOutbox row) (fun t =>
    let? rows := insert_outbox row (tb_outbox t) in Ok (tt, set_outbox t rows)).
Definition exec_select_signal (logical_key : string) : runs (list ascii) :=
  run_statement (SelectSignalPayload logical_key) (fun t =>
    let? payload := select_payload logical_key (tb_signals t) in Ok (payload, t)).
Definition exec_select_finding (logical_key : string) : runs (list ascii) :=
  run_statement (SelectFindingPayload logical_key) (fun t =>
    let? payload := select_payload logical_key (tb_findings t) in Ok (payload, t)).

End Execution.
