(* ===== verification/Repository.v ===== *)
(** * Idempotent persistence of Signals and Findings

    crates/cerbero-detection-runtime/src/lib.rs: the logical keys, the outbox
    envelope and the two persistence transactions of
    [PostgresAnalyticalRepository].  The prost codec is a parameter. *)

From S2P Require Import Prelude RustStd ContractTypes Validation SignalContract FindingContract Effects Database.

(** [prost::Message] *)
Class Prost := {
  encode_signal : Signal -> list ascii;
  decode_signal : list ascii -> result Signal string;
  encode_finding : Finding -> list ascii;
  decode_finding : list ascii -> result Finding string;
  encode_envelope : CerberoEnvelope -> list ascii;
}.

(** [client] is the world's database connection *)
Record PostgresAnalyticalRepository := mkPostgresAnalyticalRepository {
  rep_component_version : string;
  rep_instance_id : string;
}.

Definition runtime_error (message : string) : RuntimeError := mkRuntimeError message.
Definition violation_error (v : ContractViolation) : RuntimeError :=
  runtime_error (ContractViolation_display v).
Definition int_error : RuntimeError :=
  runtime_error "out of range integral type conversion attempted".

Definition in_i16 : Z -> bool := in_range (-32768) 32767.

(** ** Logical keys *)

Definition signal_input_text (input : SignalInput) : string :=
  "|" +:+ pretty (si_ordinal input) +:+ ":" +:+ pretty (si_input_type input) +:+ ":"
      +:+ si_input_id input +:+ ":" +:+ si_relation input.

Definition signal_identity_text (signal : Signal) : string :=
  foldl (fun value input => value +:+ signal_input_text input)
    (sg_tenant_id signal +:+ "|" +:+ sg_rule_id signal +:+ "|" +:+ sg_rule_version signal +:+ "|"
     +:+ pretty (sg_rule_type signal) +:+ "|" +:+ pretty (sg_execution_mode signal))
    (sg_inputs signal).

Definition signal_logical_key `{Sha256} (signal : Signal) : string :=
  sha256_lower_hex (str_bytes (signal_identity_text signal)).

Definition finding_identity_text (finding : Finding) (p : FindingCorrelationProvenance) : string :=
  foldl (fun value input_id => value +:+ "|" +:+ input_id)
    (fd_tenant_id finding +:+ "|" +:+ fp_correlation_rule_id p +:+ "|"
     +:+ fp_correlation_rule_version p +:+ "|" +:+ pretty (fd_execution_mode finding) +:+ "|"
     +:+ fp_configuration_hash p)
    (fp_input_ids p).

Definition finding_logical_key `{Sha256} (finding : Finding) : result string RuntimeError :=
  let? provenance := ok_or (fd_correlation_provenance finding)
    (runtime_error "correlation provenance is required") in
  Ok (sha256_lower_hex (str_bytes (finding_identity_text finding provenance))).

Definition timestamp_parts (value : option Timestamp) (field : string) : result (Z * Z) RuntimeError :=
  let? value := ok_or value (runtime_error (field +:+ " is required")) in
  Ok (ts_seconds value, ts_nanos value).

(** [str::replace] of one character *)
Definition replace_char (c : ascii) (by_text : string) (s : string) : string :=
  str_of_bytes (mjoin ((fun b => if Ascii.eqb b c then str_bytes by_text else [b]) <$> str_bytes s)).

Definition quote : ascii := "034".
Definition backslash : ascii := "\".

Definition json_string (value : string) : string :=
  str_of_bytes [quote]
  +:+ replace_char quote (str_of_bytes [backslash; quote])
        (replace_char backslash (str_of_bytes [backslash; backslash]) value)
  +:+ str_of_bytes [quote].

Definition json_array (values : list string) : string :=
  "[" +:+ String.concat "," (json_string <$> values) +:+ "]".

(** ** Envelopes *)

Record EnvelopeSpec := mkEnvelopeSpec {
  es_message_type : string;
  es_payload_schema : string;
  es_type_url : string;
}.

Section Repository.
Context `{Sha256} `{Environment} `{Prost}.

Definition envelope_message (spec : EnvelopeSpec) (message_id tenant_id : string)
    (emitted_at : option Timestamp) (value : list ascii)
    (component_version instance_id : string) : CerberoEnvelope :=
  mkCerberoEnvelope "1" message_id (es_message_type spec) tenant_id
    (Some (mkProducer "cerbero-detection-runtime" component_version instance_id))
    emitted_at "" "" "" (es_payload_schema spec) (Some (mkAny (es_type_url spec) value)).

Definition envelope (spec : EnvelopeSpec) (tenant_id : string) (emitted_at : option Timestamp)
    (value : list ascii) (component_version instance_id : string) : runs CerberoEnvelope :=
  let! message_id := now_v7 in
  let envelope :=
    envelope_message spec message_id tenant_id emitted_at value component_version instance_id in
  io_lift (map_err violation_error (validate_envelope envelope)) ;;!
  io_ret envelope.

Definition persist_outbox (subject : string) (envelope : CerberoEnvelope) : runs unit :=
  exec_insert_outbox
    (mkOutboxRow (sql_uuid (ce_message_id envelope)) subject (encode_envelope envelope)).

Definition signal_spec : EnvelopeSpec :=
  mkEnvelopeSpec "SignalCreated" "cerbero.signal.v1" "type.googleapis.com/cerbero.contracts.v1.Signal".
Definition finding_spec : EnvelopeSpec :=
  mkEnvelopeSpec "FindingCreated" "cerbero.finding.v1"
    "type.googleapis.com/cerbero.contracts.v1.Finding".

(** ** [PostgresAnalyticalRepository::persist_signal] *)

Definition persist_signal_input (signal : Signal) (input : SignalInput) : runs unit :=
  let! ordinal := io_lift (ok_or (try_from in_i32 (si_ordinal input)) int_error) in
  let! input_type := io_lift (ok_or (try_from in_i16 (si_input_type input)) int_error) in
  exec_insert_signal_input
    (mkSignalInputRow (sql_uuid (sg_signal_id signal)) ordinal input_type
       (si_input_id input) (si_relation input)).

(** The statements between [client.transaction()] and [tx.commit()] *)
Definition signal_transaction (repository : PostgresAnalyticalRepository) (signal : Signal)
    (logical_key : string) (payload : list ascii) : runs (list ascii) :=
  let! created := io_lift (timestamp_parts (sg_created_at signal) "signal.created_at") in
  let! inserted := exec_insert_signal
    (mkAnalyticalRow (sql_uuid (sg_signal_id signal)) logical_key (sql_uuid (sg_tenant_id signal))
       created payload) in
  (if (inserted =? 1)%Z then
     io_iter (persist_signal_input signal) (sg_inputs signal) ;;!
     let! envelope := envelope signal_spec (sg_tenant_id signal) (sg_created_at signal) payload
       (rep_component_version repository) (rep_instance_id repository) in
     persist_outbox "cerbero.v1.signal.created" envelope
   else io_ret tt) ;;!
  exec_select_signal logical_key.

Definition persist_signal (repository : PostgresAnalyticalRepository) (signal : Signal) : runs Signal :=
  io_lift (map_err violation_error (validate_signal signal)) ;;!
  let logical_key := signal_logical_key signal in
  let payload := encode_signal signal in
  let! stored := transaction (signal_transaction repository signal logical_key payload) in
  io_lift (map_err runtime_error (decode_signal stored)).

(** ** [PostgresAnalyticalRepository::persist_finding] *)

Definition persist_finding_input (finding : Finding) (input : FindingInput) : runs unit :=
  exec_insert_finding_input
    (mkFindingInputRow (sql_uuid (fd_finding_id finding)) (fi_input_type input) (fi_input_id input)
       (fi_relation input)).

Definition persist_finding_provenance (finding : Finding) : runs unit :=
  match fd_correlation_provenance finding with
  | Some p =>
      exec_insert_finding_provenance
        (mkFindingProvenanceRow (sql_uuid (fd_finding_id finding)) (fp_correlation_rule_id p)
           (fp_correlation_rule_version p) (fp_configuration_hash p) (json_array (fp_input_ids p)))
  | None => io_ret tt
  end.

Definition finding_transaction (repository : PostgresAnalyticalRepository) (finding : Finding)
    (logical_key : string) (payload : list ascii) : runs (list ascii) :=
  let! created := io_lift (timestamp_parts (fd_created_at finding) "finding.created_at") in
  let! inserted := exec_insert_finding
    (mkAnalyticalRow (sql_uuid (fd_finding_id finding)) logical_key (sql_uuid (fd_tenant_id finding))
       created payload) in
  (if (inserted =? 1)%Z then
     io_iter (persist_finding_input finding) (fd_inputs finding) ;;!
     persist_finding_provenance finding ;;!
     let! envelope := envelope finding_spec (fd_tenant_id finding) (fd_created_at finding) payload
       (rep_component_version repository) (rep_instance_id repository) in
     persist_outbox "cerbero.v1.finding.created" envelope
   else io_ret tt) ;;!
  exec_select_finding logical_key.

Definition persist_finding (repository : PostgresAnalyticalRepository) (finding : Finding) : runs Finding :=
  io_lift (map_err violation_error (validate_finding finding)) ;;!
  let! logical_key := io_lift (finding_logical_key finding) in
  let payload := encode_finding finding in
  let! stored := transaction (finding_transaction repository finding logical_key payload) in
  io_lift (map_err runtime_error (decode_finding stored)).

End Repository.
