(* ===== verification/RepositorySpec.v ===== *)
(** * The repository refines an append-only log of distinct artifacts

    The abstract state of the analytical store is the list of the Signals and
    Findings it holds, each with the envelope that announced it.  Persisting an
    artifact appends it unless the log already has one of the same logical
    identity.  The theorems show that the transactions of [Repository] do this
    on the tables, whatever fails and wherever. *)

From S2P Require Import Prelude RustStd ContractTypes Validation SignalContract FindingContract Effects Database Repository.

Section RepositorySpec.
Context `{Sha256} `{Environment} `{Prost}.

(** ** The abstract log *)

Inductive Artifact : Type :=
| SignalArtifact (signal : Signal) (envelope : CerberoEnvelope)
| FindingArtifact (finding : Finding) (key : string) (envelope : CerberoEnvelope).

Definition created_parts (t : option Timestamp) : Z * Z :=
  match t with Some t => (ts_seconds t, ts_nanos t) | None => (0%Z, 0%Z) end.

Definition signal_row (s : Signal) : AnalyticalRow :=
  mkAnalyticalRow (sql_uuid (sg_signal_id s)) (signal_logical_key s) (sql_uuid (sg_tenant_id s))
    (created_parts (sg_created_at s)) (encode_signal s).
Definition finding_row (f : Finding) (key : string) : AnalyticalRow :=
  mkAnalyticalRow (sql_uuid (fd_finding_id f)) key (sql_uuid (fd_tenant_id f))
    (created_parts (fd_created_at f)) (encode_finding f).
Definition signal_input_row (s : Signal) (input : SignalInput) : SignalInputRow :=
  mkSignalInputRow (sql_uuid (sg_signal_id s)) (si_ordinal input) (si_input_type input)
    (si_input_id input) (si_relation input).
Definition finding_input_row (f : Finding) (input : FindingInput) : FindingInputRow :=
  mkFindingInputRow (sql_uuid (fd_finding_id f)) (fi_input_type input) (fi_input_id input)
    (fi_relation input).
Definition finding_provenance_rows (f : Finding) : list FindingProvenanceRow :=
  match fd_correlation_provenance f with
  | Some p => [mkFindingProvenanceRow (sql_uuid (fd_finding_id f)) (fp_correlation_rule_id p)
                 (fp_correlation_rule_version p) (fp_configuration_hash p)
                 (json_array (fp_input_ids p))]
  | None => []
  end.
Definition outbox_row (subject : string) (e : CerberoEnvelope) : OutboxRow :=
  mkOutboxRow (sql_uuid (ce_message_id e)) subject (encode_envelope e).

(** The rows of one artifact *)
Definition artifact_tables (a : Artifact) : Tables :=
  match a with
  | SignalArtifact s e =>
      mkTables [signal_row s] (signal_input_row s <$> sg_inputs s) [] [] []
        [outbox_row "cerbero.v1.signal.created" e]
  | FindingArtifact f key e =>
      mkTables [] [] [finding_row f key] (finding_input_row f <$> fd_inputs f)
        (finding_provenance_rows f) [outbox_row "cerbero.v1.finding.created" e]
  end.

Definition tables_app (t u : Tables) : Tables :=
  mkTables (tb_signals t ++ tb_signals u) (tb_signal_inputs t ++ tb_signal_inputs u)
    (tb_findings t ++ tb_findings u) (tb_finding_inputs t ++ tb_finding_inputs u)
    (tb_finding_provenance t ++ tb_finding_provenance u) (tb_outbox t ++ tb_outbox u).

Definition no_rows : Tables := mkTables [] [] [] [] [] [].

Definition tables_of (log : list Artifact) : Tables :=
  foldl (fun t a => tables_app t (artifact_tables a)) no_rows log.

(** What the envelope of an artifact says *)
Definition announces (spec : EnvelopeSpec) (tenant : string) (created : option Timestamp)
    (payload : list ascii) (e : CerberoEnvelope) : Prop :=
  envelope_ok e /\ ce_message_type e = es_message_type spec /\ ce_tenant_id e = tenant /\
  ce_emitted_at e = created /\ ce_payload e = Some (mkAny (es_type_url spec) payload).

Definition artifact_ok (a : Artifact) : Prop :=
  match a with
  | SignalArtifact s e =>
      signal_ok s /\ announces signal_spec (sg_tenant_id s) (sg_created_at s) (encode_signal s) e
  | FindingArtifact f key e =>
      finding_ok f /\ finding_logical_key f = Ok key /\
      announces finding_spec (fd_tenant_id f) (fd_created_at f) (encode_finding f) e
  end.

Definition unique_rows (rows : list AnalyticalRow) : Prop :=
  NoDup (row_logical_key <$> rows) /\ NoDup (row_id <$> rows).

Definition log_ok (log : list Artifact) : Prop :=
  Forall artifact_ok log /\
  unique_rows (tb_signals (tables_of log)) /\ unique_rows (tb_findings (tables_of log)).

(** ** Statements *)

Lemma run_statement_ok_iff {A} s (action : Tables -> result (A * Tables) string) w a w' :
  run_statement s action w = (Ok a, w') <->
  statement_fault (w_step w) s = None /\
  exists t, action (w_tables w) = Ok (a, t) /\ w' = mkWorld t (S (w_step w)).
Proof.
  unfold run_statement. destruct (statement_fault _ _); [split; [done|naive_solver]|].
  destruct (action (w_tables w)) as [[a' t]|e|p].
  - split; [intros [= -> <-]; eauto|]. by intros (_ & t' & [= -> ->] & ->).
  - split; [done|]. by intros (_ & t' & ? & _).
  - split; [done|]. by intros (_ & t' & ? & _).
Qed.

Lemma has_row_false {A} (p : A -> bool) rows :
  has_row p rows = false <-> forall r, r ∈ rows -> p r = false.
Proof. unfold has_row. by rewrite existsb_false_iff, Forall_forall. Qed.

Lemma has_key_false key rows :
  has_row (fun r => String.eqb (row_logical_key r) key) rows = false <->
  key ∉ (row_logical_key <$> rows).
Proof.
  rewrite has_row_false, list_elem_of_fmap. setoid_rewrite String.eqb_neq. naive_solver.
Qed.

Lemma has_id_false i rows :
  has_row (fun r => String.eqb (row_id r) i) rows = false <-> i ∉ (row_id <$> rows).
Proof.
  rewrite has_row_false, list_elem_of_fmap. setoid_rewrite String.eqb_neq. naive_solver.
Qed.

(** The insert either finds the key and does nothing, or appends a new row. *)
Lemma insert_analytical_ok row rows n rows' :
  insert_analytical row rows = Ok (n, rows') ->
  (n = 0%Z /\ rows' = rows /\ (row_logical_key row ∈ (row_logical_key <$> rows))) \/
  (n = 1%Z /\ rows' = rows ++ [row] /\ (row_logical_key row ∉ (row_logical_key <$> rows)) /\
   (row_id row ∉ (row_id <$> rows))).
Proof.
  unfold insert_analytical. intros Hi. do 2 (apply bind_unit_ok_iff in Hi as [_ Hi]).
  destruct (has_row (fun r => String.eqb (row_logical_key r) _) rows) eqn:Hk.
  - simplify_eq. left. split_and!; try done.
    destruct (decide (row_logical_key row ∈ (row_logical_key <$> rows'))) as [|Hn]; [done|].
    apply has_key_false in Hn. congruence.
  - apply bind_unit_ok_iff in Hi as [Hid%reject_if_ok_iff [= <- <-]]. right.
    apply has_key_false in Hk. by apply has_id_false in Hid.
Qed.

Lemma unique_rows_snoc row rows :
  unique_rows rows -> row_logical_key row ∉ (row_logical_key <$> rows) ->
  row_id row ∉ (row_id <$> rows) -> unique_rows (rows ++ [row]).
Proof.
  intros [Hk Hi] ??. split; rewrite fmap_app; simpl; apply NoDup_app; split_and!;
    try done; try apply NoDup_singleton; set_solver.
Qed.

Lemma select_payload_iff key rows payload :
  NoDup (row_logical_key <$> rows) ->
  select_payload key rows = Ok payload <->
  exists row, row ∈ rows /\ row_logical_key row = key /\ row_payload row = payload.
Proof.
  unfold select_payload. induction rows as [|r rows IH]; simpl; intros Hn.
  { split; [done|set_solver]. }
  apply NoDup_cons in Hn as [Hr Hn]. destruct (String.eqb_spec (row_logical_key r) key) as [<-|Hne].
  - assert (List.filter (fun x => String.eqb (row_logical_key x) (row_logical_key r)) rows = []) as ->.
    { clear IH Hn. induction rows as [|r' rows IH]; simpl; [done|].
      destruct (String.eqb_spec (row_logical_key r') (row_logical_key r)); [set_solver|].
      apply IH. set_solver. }
    split; [intros [= <-]; set_solver|]. intros (row & [->|Hin]%elem_of_cons & Hk & <-); [done|].
    destruct Hr. rewrite <-Hk. by apply list_elem_of_fmap_2.
  - rewrite IH by done. set_solver.
Qed.

Lemma unique_rows_fresh rows row r :
  unique_rows (rows ++ [row]) -> r ∈ rows -> row_logical_key r <> row_logical_key row.
Proof.
  intros [Hk _] Hr Heq. rewrite fmap_app in Hk. apply NoDup_app in Hk as (_ & Hk & _).
  apply (Hk (row_logical_key row)); [|by apply list_elem_of_singleton].
  rewrite <-Heq. by apply list_elem_of_fmap_2.
Qed.

(** ** Transactions *)

Lemma transaction_cases {A} (body : runs A) w r w' :
  transaction body w = (r, w') ->
  (w_tables w' = w_tables w /\ forall a, r <> Ok a) \/
  (exists a w1, body (tick w) = (Ok a, w1) /\ w_tables w' = w_tables w1 /\
     (r = Ok a \/ forall a', r <> Ok a')).
Proof.
  unfold transaction, io_bind, run_statement. destruct (statement_fault _ _).
  { intros [= <- <-]. by left. }
  change (mkWorld (w_tables w) (S (w_step w))) with (tick w).
  destruct (body (tick w)) as [[a|e|p] w1]; [|by intros [= <- <-]; left..].
  destruct (commit_fault _) as [[e []]|]; intros [= <- <-].
  - right. exists a, w1. eauto.
  - by left.
  - right. exists a, w1. eauto.
Qed.

Lemma envelope_run spec tenant emitted value version instance w e w' :
  envelope spec tenant emitted value version instance w = (Ok e, w') ->
  w_tables w' = w_tables w /\ announces spec tenant emitted value e.
Proof.
  unfold envelope. intros Hw. io_inv Hw. unfold now_v7 in Hw0. simplify_eq.
  split; [done|]. apply map_err_ok_iff in Hw1 as Hv. match type of Hv with _ = Ok ?u => destruct u end.
  apply validate_envelope_ok_iff in Hv. by split_and!.
Qed.

Lemma outbox_run subject e w w' :
  persist_outbox subject e w = (Ok tt, w') ->
  w_tables w' = set_outbox (w_tables w) (tb_outbox (w_tables w) ++ [outbox_row subject e]).
Proof.
  intros (_ & t & Ht & ->)%run_statement_ok_iff. apply bind_ok_iff in Ht as (rows & Hr & [= <-]).
  unfold insert_outbox in Hr. do 3 (apply bind_unit_ok_iff in Hr as [_ Hr]). by simplify_eq.
Qed.

Lemma signal_input_run s input w w' :
  persist_signal_input s input w = (Ok tt, w') ->
  w_tables w' = set_signal_inputs (w_tables w)
    (tb_signal_inputs (w_tables w) ++ [signal_input_row s input]).
Proof.
  unfold persist_signal_input. intros Hw. io_inv Hw.
  apply ok_or_ok_iff, try_from_some in Hw0 as [_ ->]. apply ok_or_ok_iff, try_from_some in Hw1 as [_ ->].
  apply run_statement_ok_iff in Hw as (_ & t & Ht & ->). apply bind_ok_iff in Ht as (rows & Hr & [= <-]).
  unfold insert_signal_input in Hr. do 6 (apply bind_unit_ok_iff in Hr as [_ Hr]). by simplify_eq.
Qed.

Lemma signal_inputs_run s inputs w w' :
  io_iter (persist_signal_input s) inputs w = (Ok tt, w') ->
  w_tables w' = set_signal_inputs (w_tables w)
    (tb_signal_inputs (w_tables w) ++ (signal_input_row s <$> inputs)).
Proof.
  revert w. induction inputs as [|input inputs IH]; intros w Hw; simpl in Hw; io_inv Hw.
  - simpl. rewrite app_nil_r. by destruct (w_tables w).
  - destruct x. apply signal_input_run in Hw0. apply IH in Hw. rewrite Hw, Hw0. simpl.
    unfold set_signal_inputs. simpl. by rewrite <-app_assoc.
Qed.

Lemma finding_input_run f input w w' :
  persist_finding_input f input w = (Ok tt, w') ->
  w_tables w' = set_finding_inputs (w_tables w)
    (tb_finding_inputs (w_tables w) ++ [finding_input_row f input]).
Proof.
  intros (_ & t & Ht & ->)%run_statement_ok_iff. apply bind_ok_iff in Ht as (rows & Hr & [= <-]).
  unfold insert_finding_input in Hr. do 5 (apply bind_unit_ok_iff in Hr as [_ Hr]). by simplify_eq.
Qed.

Lemma finding_inputs_run f inputs w w' :
  io_iter (persist_finding_input f) inputs w = (Ok tt, w') ->
  w_tables w' = set_finding_inputs (w_tables w)
    (tb_finding_inputs (w_tables w) ++ (finding_input_row f <$> inputs)).
Proof.
  revert w. induction inputs as [|input inputs IH]; intros w Hw; simpl in Hw; io_inv Hw.
  - simpl. rewrite app_nil_r. by destruct (w_tables w).
  - destruct x. apply finding_input_run in Hw0. apply IH in Hw. rewrite Hw, Hw0. simpl.
    unfold set_finding_inputs. simpl. by rewrite <-app_assoc.
Qed.

Lemma finding_provenance_run f w w' :
  persist_finding_provenance f w = (Ok tt, w') ->
  w_tables w' = set_finding_provenance (w_tables w)
    (tb_finding_provenance (w_tables w) ++ finding_provenance_rows f).
Proof.
  unfold persist_finding_provenance, finding_provenance_rows. destruct (fd_correlation_provenance f).
  - intros (_ & t & Ht & ->)%run_statement_ok_iff. apply bind_ok_iff in Ht as (rows & Hr & [= <-]).
    unfold insert_finding_provenance in Hr. do 5 (apply bind_unit_ok_iff in Hr as [_ Hr]).
    by simplify_eq.
  - intros Hw. io_inv Hw. rewrite app_nil_r. by destruct (w_tables w).
Qed.

Lemma timestamp_parts_ok t field c : timestamp_parts t field = Ok c -> c = created_parts t.
Proof. unfold timestamp_parts. destruct t; simpl; congruence. Qed.

Lemma select_signal_run key w payload w' :
  exec_select_signal key w = (Ok payload, w') ->
  w_tables w' = w_tables w /\ select_payload key (tb_signals (w_tables w)) = Ok payload.
Proof.
  intros (_ & t & Ht & ->)%run_statement_ok_iff. by apply bind_ok_iff in Ht as (p & Hp & [= <- <-]).
Qed.

Lemma select_finding_run key w payload w' :
  exec_select_finding key w = (Ok payload, w') ->
  w_tables w' = w_tables w /\ select_payload key (tb_findings (w_tables w)) = Ok payload.
Proof.
  intros (_ & t & Ht & ->)%run_statement_ok_iff. by apply bind_ok_iff in Ht as (p & Hp & [= <- <-]).
Qed.

(** Reading back a row that was just appended *)
Lemma select_appended row rows payload :
  unique_rows (rows ++ [row]) ->
  select_payload (row_logical_key row) (rows ++ [row]) = Ok payload -> payload = row_payload row.
Proof.
  intros Hu Hs. apply select_payload_iff in Hs as (row' & Hin & Hkey & <-); [|by destruct Hu].
  apply elem_of_app in Hin as [Hin|Hin]; [|by apply list_elem_of_singleton in Hin as ->].
  by destruct (unique_rows_fresh rows row row').
Qed.

(** What a transaction that reaches its COMMIT has done: nothing, when the key
    was taken, or exactly one new artifact. *)
Lemma signal_transaction_run rep s w payload w' :
  unique_rows (tb_signals (w_tables w)) ->
  signal_transaction rep s (signal_logical_key s) (encode_signal s) w = (Ok payload, w') ->
  (w_tables w' = w_tables w /\
   exists row, (row ∈ tb_signals (w_tables w)) /\ row_logical_key row = signal_logical_key s /\
               row_payload row = payload) \/
  (payload = encode_signal s /\ exists e,
   w_tables w' = tables_app (w_tables w) (artifact_tables (SignalArtifact s e)) /\
   announces signal_spec (sg_tenant_id s) (sg_created_at s) (encode_signal s) e /\
   unique_rows (tb_signals (w_tables w) ++ [signal_row s])).
Proof.
  intros Hu Hw. unfold signal_transaction in Hw.
  apply io_bind_ok_iff in Hw as (created & w1 & Hc & Hw). io_inv Hc. apply timestamp_parts_ok in Hc as ->.
  apply io_bind_ok_iff in Hw as (n & w2 & Hi & Hw). apply run_statement_ok_iff in Hi as (_ & t & Ht & ->).
  apply bind_ok_iff in Ht as ([n' rows] & Hr & [= -> <-]).
  change (mkAnalyticalRow _ _ _ _ _) with (signal_row s) in Hr.
  apply io_bind_ok_iff in Hw as ([] & w3 & Hb & [Ht3 Hs]%select_signal_run).
  apply insert_analytical_ok in Hr as [(-> & -> & Hin)|(-> & -> & Hk & Hid)]; simpl in Hb.
  - left. io_inv Hb. simpl in *. rewrite Ht3. apply select_payload_iff in Hs; [|by destruct Hu].
    split; [by destruct (w_tables w)|]. done.
  - right. pose proof (unique_rows_snoc _ _ Hu Hk Hid) as Hu'.
    apply io_bind_ok_iff in Hb as ([] & w4 & Hin%signal_inputs_run & Hb).
    apply io_bind_ok_iff in Hb as (e & w5 & [Ht5 He]%envelope_run & Ho%outbox_run).
    rewrite Ho, Ht5, Hin in Hs. simpl in Hs. apply (select_appended (signal_row s)) in Hs as ->; [|done].
    split; [done|]. exists e. split_and!; try done. rewrite Ht3, Ho, Ht5, Hin.
    unfold tables_app, set_outbox. simpl. by rewrite !app_nil_r.
Qed.

Lemma finding_transaction_run rep f key w payload w' :
  unique_rows (tb_findings (w_tables w)) ->
  finding_transaction rep f key (encode_finding f) w = (Ok payload, w') ->
  (w_tables w' = w_tables w /\
   exists row, (row ∈ tb_findings (w_tables w)) /\ row_logical_key row = key /\
               row_payload row = payload) \/
  (payload = encode_finding f /\ exists e,
   w_tables w' = tables_app (w_tables w) (artifact_tables (FindingArtifact f key e)) /\
   announces finding_spec (fd_tenant_id f) (fd_created_at f) (encode_finding f) e /\
   unique_rows (tb_findings (w_tables w) ++ [finding_row f key])).
Proof.
  intros Hu Hw. unfold finding_transaction in Hw.
  apply io_bind_ok_iff in Hw as (created & w1 & Hc & Hw). io_inv Hc. apply timestamp_parts_ok in Hc as ->.
  apply io_bind_ok_iff in Hw as (n & w2 & Hi & Hw). apply run_statement_ok_iff in Hi as (_ & t & Ht & ->).
  apply bind_ok_iff in Ht as ([n' rows] & Hr & [= -> <-]).
  change (mkAnalyticalRow _ _ _ _ _) with (finding_row f key) in Hr.
  apply io_bind_ok_iff in Hw as ([] & w3 & Hb & [Ht3 Hs]%select_finding_run).
  apply insert_analytical_ok in Hr as [(-> & -> & Hin)|(-> & -> & Hk & Hid)]; simpl in Hb.
  - left. io_inv Hb. simpl in *. rewrite Ht3. apply select_payload_iff in Hs; [|by destruct Hu].
    split; [by destruct (w_tables w)|]. done.
  - right. pose proof (unique_rows_snoc _ _ Hu Hk Hid) as Hu'.
    apply io_bind_ok_iff in Hb as ([] & w4 & Hin%finding_inputs_run & Hb).
    apply io_bind_ok_iff in Hb as ([] & w4' & Hpr%finding_provenance_run & Hb).
    apply io_bind_ok_iff in Hb as (e & w5 & [Ht5 He]%envelope_run & Ho%outbox_run).
    rewrite Ho, Ht5, Hpr, Hin in Hs. simpl in Hs.
    apply (select_appended (finding_row f key)) in Hs as ->; [|done].
    split; [done|]. exists e. split_and!; try done. rewrite Ht3, Ho, Ht5, Hpr, Hin.
    unfold tables_app, set_outbox. simpl. by rewrite !app_nil_r.
Qed.

(** ** The log *)

Lemma tables_of_snoc log a : tables_of (log ++ [a]) = tables_app (tables_of log) (artifact_tables a).
Proof. unfold tables_of. by rewrite foldl_snoc. Qed.

Lemma signal_row_elem log row :
  row ∈ tb_signals (tables_of log) <-> exists s e, (SignalArtifact s e ∈ log) /\ row = signal_row s.
Proof.
  induction log as [|a log IH] using rev_ind; [set_solver|].
  rewrite tables_of_snoc. simpl. rewrite elem_of_app, IH.
  setoid_rewrite elem_of_app. setoid_rewrite list_elem_of_singleton.
  destruct a as [s e|f key e]; simpl; [rewrite list_elem_of_singleton|]; split.
  - intros [(s' & e' & ? & ->)| ->]; eauto 10.
  - intros (s' & e' & [?|[= -> ->]] & ->); eauto 10.
  - intros [(s' & e' & ? & ->)|?%not_elem_of_nil]; [|done]. eauto 10.
  - intros (s' & e' & [?|[=]] & ->); eauto 10.
Qed.

Lemma finding_row_elem log row :
  row ∈ tb_findings (tables_of log) <->
  exists f key e, (FindingArtifact f key e ∈ log) /\ row = finding_row f key.
Proof.
  induction log as [|a log IH] using rev_ind; [set_solver|].
  rewrite tables_of_snoc. simpl. rewrite elem_of_app, IH.
  setoid_rewrite elem_of_app. setoid_rewrite list_elem_of_singleton.
  destruct a as [s e|f key e]; simpl; [|rewrite list_elem_of_singleton]; split.
  - intros [(f' & key' & e' & ? & ->)|?%not_elem_of_nil]; [|done]. eauto 10.
  - intros (f' & key' & e' & [?|[=]] & ->); eauto 10.
  - intros [(f' & key' & e' & ? & ->)| ->]; eauto 10.
  - intros (f' & key' & e' & [?|[= -> -> ->]] & ->); eauto 10.
Qed.

Lemma signal_input_elem log row :
  row ∈ tb_signal_inputs (tables_of log) -> sir_signal_id row ∈ (row_id <$> tb_signals (tables_of log)).
Proof.
  induction log as [|a log IH] using rev_ind; [set_solver|].
  rewrite tables_of_snoc. destruct a as [s e|f key e]; simpl; rewrite ?app_nil_r; [|done].
  rewrite fmap_app, !elem_of_app. intros [?%IH|(i & -> & _)%list_elem_of_fmap]; [by left|].
  right. by apply list_elem_of_singleton.
Qed.

Lemma log_ok_signal log s e :
  log_ok log -> signal_ok s ->
  announces signal_spec (sg_tenant_id s) (sg_created_at s) (encode_signal s) e ->
  unique_rows (tb_signals (tables_of log) ++ [signal_row s]) -> log_ok (log ++ [SignalArtifact s e]).
Proof.
  intros (Ha & _ & Hf) ???. unfold log_ok. rewrite tables_of_snoc. simpl. rewrite app_nil_r.
  split_and!; [apply Forall_app; split; [done|by apply Forall_singleton]|done..].
Qed.

Lemma log_ok_finding log f key e :
  log_ok log -> finding_ok f -> finding_logical_key f = Ok key ->
  announces finding_spec (fd_tenant_id f) (fd_created_at f) (encode_finding f) e ->
  unique_rows (tb_findings (tables_of log) ++ [finding_row f key]) ->
  log_ok (log ++ [FindingArtifact f key e]).
Proof.
  intros (Ha & Hs & _) ????. unfold log_ok. rewrite tables_of_snoc. simpl. rewrite app_nil_r.
  split_and!; [apply Forall_app; split; [done|by apply Forall_singleton]|done..].
Qed.

(** The Signal (Finding) the log holds under a logical key *)
Definition holds_signal (log : list Artifact) (key : string) (s : Signal) : Prop :=
  exists e, (SignalArtifact s e ∈ log) /\ signal_logical_key s = key.
Definition holds_finding (log : list Artifact) (key : string) (f : Finding) : Prop :=
  exists e, FindingArtifact f key e ∈ log.

(** [persist_signal] against the log: every call, failed ones included, either
    leaves the log as it is or appends the submitted Signal under a new key; a
    successful call returns the Signal the log holds under that key. *)
Definition signal_call (log : list Artifact) (s : Signal) (r : result Signal RuntimeError)
    (log' : list Artifact) : Prop :=
  (log' = log \/ exists e, log' = log ++ [SignalArtifact s e] /\
                   forall s0, ~ holds_signal log (signal_logical_key s) s0) /\
  (forall stored, r = Ok stored -> signal_ok s /\
     exists s0, holds_signal log' (signal_logical_key s) s0 /\
                decode_signal (encode_signal s0) = Ok stored).

Definition finding_call (log : list Artifact) (f : Finding) (r : result Finding RuntimeError)
    (log' : list Artifact) : Prop :=
  (log' = log \/ exists key e, log' = log ++ [FindingArtifact f key e] /\
                   finding_logical_key f = Ok key /\ forall f0, ~ holds_finding log key f0) /\
  (forall stored, r = Ok stored -> finding_ok f /\
     exists key f0, finding_logical_key f = Ok key /\ holds_finding log' key f0 /\
                    decode_finding (encode_finding f0) = Ok stored).

(** A transaction that returns a payload, then the decoding of that payload *)
Lemma decoded_transaction {A} (body : runs (list ascii)) (decode : list ascii -> result A string) w r w' :
  (let! stored := transaction body in io_lift (map_err runtime_error (decode stored))) w = (r, w') ->
  (w_tables w' = w_tables w /\ forall a, r <> Ok a) \/
  (exists payload w1, body (tick w) = (Ok payload, w1) /\ w_tables w' = w_tables w1 /\
     forall a, r = Ok a -> decode payload = Ok a).
Proof.
  unfold io_bind. destruct (transaction body w) as [rt wt] eqn:Ht. intros Hrun.
  assert (w_tables w' = w_tables wt /\ forall a, r = Ok a ->
    exists payload, rt = Ok payload /\ decode payload = Ok a) as [Hwt Hok].
  { destruct rt as [p|?|?]; unfold io_lift in Hrun; simplify_eq; [|done..]. split; [done|].
    intros a Hd%map_err_ok_iff. eauto. }
  rewrite Hwt. apply transaction_cases in Ht as [[Ht Hno]|(payload & w1 & Hb & Ht & Hr)].
  - left. split; [done|]. intros a (p & -> & _)%Hok. by destruct (Hno p).
  - right. exists payload, w1. split_and!; try done. intros a (p & -> & Hd)%Hok.
    destruct Hr as [[= ->]|Hr]; [done|]. by destruct (Hr p).
Qed.

Lemma persist_signal_refines rep s log w r w' :
  log_ok log -> w_tables w = tables_of log -> persist_signal rep s w = (r, w') ->
  exists log', log_ok log' /\ w_tables w' = tables_of log' /\ signal_call log s r log'.
Proof.
  intros Hlog Hw. unfold persist_signal, io_bind at 1, io_lift at 1.
  destruct (map_err _ (validate_signal s)) as [[]|?|?] eqn:Hv;
    [|intros [= <- <-]; exists log; split_and!; try done; split; [by left|done]..].
  apply map_err_ok_iff, validate_signal_ok_iff in Hv.
  intros [[Ht Hno]|(payload & w1 & Hb & Ht & Hr)]%decoded_transaction.
  { exists log. split_and!; [done|congruence|]. split; [by left|]. by intros stored ?%Hno. }
  pose proof Hlog as (_ & Hu & _). rewrite <-Hw in Hu.
  apply signal_transaction_run in Hb as [(Ht1 & row & Hin & Hk & <-)|(-> & e & Ht1 & He & Hu1)];
    [..|done]; simpl in *.
  - exists log. split_and!; [done|congruence|]. split; [by left|]. intros stored Hd%Hr. split; [done|].
    rewrite Hw in Hin. apply signal_row_elem in Hin as (s0 & e0 & Hin & ->).
    exists s0. split; [by exists e0|done].
  - exists (log ++ [SignalArtifact s e]). rewrite Hw in Ht1, Hu1.
    split_and!; [by apply log_ok_signal|by rewrite tables_of_snoc, Ht, Ht1|]. split.
    + right. exists e. split; [done|]. intros s0 (e0 & Hin & Hk).
      apply (unique_rows_fresh _ _ (signal_row s0) Hu1); [|done]. apply signal_row_elem. eauto.
    + intros stored Hd%Hr. split; [done|]. exists s. split; [|done]. exists e. split; [|done].
      apply elem_of_app. right. by apply list_elem_of_singleton.
Qed.

Lemma persist_finding_refines rep f log w r w' :
  log_ok log -> w_tables w = tables_of log -> persist_finding rep f w = (r, w') ->
  exists log', log_ok log' /\ w_tables w' = tables_of log' /\ finding_call log f r log'.
Proof.
  intros Hlog Hw. unfold persist_finding, io_bind at 1, io_lift at 1.
  destruct (map_err _ (validate_finding f)) as [[]|?|?] eqn:Hv;
    [|intros [= <- <-]; exists log; split_and!; try done; split; [by left|done]..].
  apply map_err_ok_iff, validate_finding_ok_iff in Hv. unfold io_bind at 1, io_lift at 1.
  destruct (finding_logical_key f) as [key|?|?] eqn:Hkey;
    [|intros [= <- <-]; exists log; split_and!; try done; split; [by left|done]..].
  intros [[Ht Hno]|(payload & w1 & Hb & Ht & Hr)]%decoded_transaction.
  { exists log. split_and!; [done|congruence|]. split; [by left|]. by intros stored ?%Hno. }
  pose proof Hlog as (_ & _ & Hu). rewrite <-Hw in Hu.
  apply finding_transaction_run in Hb as [(Ht1 & row & Hin & Hk & <-)|(-> & e & Ht1 & He & Hu1)];
    [..|done]; simpl in *.
  - exists log. split_and!; [done|congruence|]. split; [by left|]. intros stored Hd%Hr. split; [done|].
    rewrite Hw in Hin. apply finding_row_elem in Hin as (f0 & key0 & e0 & Hin & ->). simpl in Hk. subst.
    exists key, f0. split_and!; [done|by exists e0|done].
  - exists (log ++ [FindingArtifact f key e]). rewrite Hw in Ht1, Hu1.
    split_and!; [by apply log_ok_finding|by rewrite tables_of_snoc, Ht, Ht1|]. split.
    + right. exists key, e. split_and!; [done..|]. intros f0 (e0 & Hin).
      apply (unique_rows_fresh _ _ (finding_row f0 key) Hu1); [|done]. apply finding_row_elem. eauto.
    + intros stored Hd%Hr. split; [done|]. exists key, f. split_and!; [done| |done]. exists e.
      apply elem_of_app. right. by apply list_elem_of_singleton.
Qed.

(** ** Progress: when nothing fails from step [n] on *)

Definition quiet (n : nat) : Prop :=
  (forall m st, n <= m -> statement_fault m st = None) /\ (forall m, n <= m -> commit_fault m = None).

Lemma quiet_le n m : quiet n -> n <= m -> quiet m.
Proof. intros [Hs Hc] ?. split; intros; [apply Hs|apply Hc]; lia. Qed.

Lemma run_statement_quiet {A} s (action : Tables -> result (A * Tables) string) w a t :
  quiet (w_step w) -> action (w_tables w) = Ok (a, t) ->
  run_statement s action w = (Ok a, mkWorld t (S (w_step w))).
Proof. intros [Hq _] Ha. apply run_statement_ok_iff. split; [by apply Hq|]. eauto. Qed.

Lemma transaction_quiet {A} (body : runs A) w a w1 :
  quiet (w_step w) -> body (tick w) = (Ok a, w1) -> w_step w <= w_step w1 ->
  transaction body w = (Ok a, tick w1).
Proof.
  intros Hq Hb Hle. unfold transaction.
  rewrite (io_bind_run _ _ w tt (tick w)) by (by apply run_statement_quiet).
  rewrite Hb. destruct Hq as [_ Hc]. by rewrite Hc.
Qed.

Lemma insert_analytical_existing row rows :
  lower_hex_digest (row_logical_key row) -> row_payload row <> [] ->
  row_logical_key row ∈ (row_logical_key <$> rows) ->
  insert_analytical row rows = Ok (0%Z, rows).
Proof.
  intros [Hl Hh] Hp Hk. unfold insert_analytical. apply forallb_true_iff in Hh.
  rewrite Hl, Hh. simpl. destruct (row_payload row); [done|]. simpl.
  destruct (has_row _ rows) eqn:Hr; [done|]. by apply has_key_false in Hr.
Qed.

Lemma insert_analytical_fresh row rows :
  lower_hex_digest (row_logical_key row) -> row_payload row <> [] ->
  row_logical_key row ∉ (row_logical_key <$> rows) -> row_id row ∉ (row_id <$> rows) ->
  insert_analytical row rows = Ok (1%Z, rows ++ [row]).
Proof.
  intros [Hl Hh] Hp Hk%has_key_false Hi%has_id_false. unfold insert_analytical.
  apply forallb_true_iff in Hh. rewrite Hl, Hh. simpl. destruct (row_payload row); [done|]. simpl.
  by rewrite Hk, Hi.
Qed.

Lemma timestamp_parts_some t field :
  is_Some t -> timestamp_parts t field = Ok (created_parts t).
Proof. by intros [x ->]. Qed.

Lemma signal_created s : signal_ok s -> is_Some (sg_created_at s).
Proof. intros (_ & _ & (t & -> & _) & _). eauto. Qed.

(** A second Signal of the same logical identity is not stored: the first one
    is returned, and no table changes. *)
Lemma persist_signal_existing rep s s0 stored log w :
  log_ok log -> w_tables w = tables_of log -> quiet (w_step w) ->
  signal_ok s -> encode_signal s <> [] ->
  holds_signal log (signal_logical_key s) s0 -> decode_signal (encode_signal s0) = Ok stored ->
  exists w', persist_signal rep s w = (Ok stored, w') /\ w_tables w' = w_tables w /\
             w_step w <= w_step w'.
Proof.
  intros Hlog Hw Hq Hs Hp (e0 & Hin & Hk) Hd.
  assert (signal_row s0 ∈ tb_signals (w_tables w)) as Hrow.
  { rewrite Hw. apply signal_row_elem. eauto. }
  assert (signal_transaction rep s (signal_logical_key s) (encode_signal s) (tick w) =
    (Ok (encode_signal s0), mkWorld (w_tables w) (3 + w_step w))) as Hb.
  { unfold signal_transaction.
    rewrite (io_bind_run _ _ _ (created_parts (sg_created_at s)) (tick w)) by
      (unfold io_lift; by rewrite timestamp_parts_some by (by apply signal_created)).
    rewrite (io_bind_run _ _ _ 0%Z (mkWorld (w_tables w) (2 + w_step w))).
    2:{ apply run_statement_quiet; [eapply quiet_le; [done|simpl; lia]|].
        rewrite insert_analytical_existing; [by destruct w as [[] ?]|apply sha256_lower_hex_digest|done|].
        simpl. rewrite <-Hk. by apply (list_elem_of_fmap_2 row_logical_key _ (signal_row s0)). }
    simpl. unfold io_bind at 1, io_ret. apply run_statement_quiet; [eapply quiet_le; [done|simpl; lia]|].
    simpl. assert (select_payload (signal_logical_key s) (tb_signals (w_tables w)) =
      Ok (encode_signal s0)) as ->; [|done].
    apply select_payload_iff; [destruct Hlog as (_ & [? _] & _); by rewrite Hw|].
    exists (signal_row s0). by rewrite <-Hk. }
  unfold persist_signal. apply validate_signal_ok_iff in Hs.
  rewrite (io_bind_run _ _ _ tt w) by (unfold io_lift; by rewrite Hs).
  rewrite (io_bind_run _ _ _ (encode_signal s0) (mkWorld (w_tables w) (4 + w_step w))).
  2:{ by erewrite transaction_quiet by (done || simpl; lia). }
  unfold io_lift. rewrite Hd. simpl. eexists. split_and!; [done..|simpl; lia].
Qed.

Lemma finding_created f : finding_ok f -> is_Some (fd_created_at f).
Proof. unfold finding_ok, some_and. intros Hf. destruct_and?. naive_solver. Qed.

Lemma persist_finding_existing rep f f0 key stored log w :
  log_ok log -> w_tables w = tables_of log -> quiet (w_step w) ->
  finding_ok f -> finding_logical_key f = Ok key -> encode_finding f <> [] ->
  holds_finding log key f0 -> decode_finding (encode_finding f0) = Ok stored ->
  exists w', persist_finding rep f w = (Ok stored, w') /\ w_tables w' = w_tables w /\
             w_step w <= w_step w'.
Proof.
  intros Hlog Hw Hq Hf Hkey Hp (e0 & Hin) Hd.
  assert (finding_row f0 key ∈ tb_findings (w_tables w)) as Hrow.
  { rewrite Hw. apply finding_row_elem. eauto. }
  assert (lower_hex_digest key) as Hhex.
  { apply bind_ok_iff in Hkey as (p & _ & [= <-]). apply sha256_lower_hex_digest. }
  assert (finding_transaction rep f key (encode_finding f) (tick w) =
    (Ok (encode_finding f0), mkWorld (w_tables w) (3 + w_step w))) as Hb.
  { unfold finding_transaction.
    rewrite (io_bind_run _ _ _ (created_parts (fd_created_at f)) (tick w)) by
      (unfold io_lift; by rewrite timestamp_parts_some by (by apply finding_created)).
    rewrite (io_bind_run _ _ _ 0%Z (mkWorld (w_tables w) (2 + w_step w))).
    2:{ apply run_statement_quiet; [eapply quiet_le; [done|simpl; lia]|].
        rewrite insert_analytical_existing; [by destruct w as [[] ?]|done..|].
        simpl. by apply (list_elem_of_fmap_2 row_logical_key _ (finding_row f0 key)). }
    simpl. unfold io_bind at 1, io_ret. apply run_statement_quiet; [eapply quiet_le; [done|simpl; lia]|].
    simpl. assert (select_payload key (tb_findings (w_tables w)) = Ok (encode_finding f0)) as ->; [|done].
    apply select_payload_iff; [destruct Hlog as (_ & _ & [? _]); by rewrite Hw|].
    by exists (finding_row f0 key). }
  unfold persist_finding. apply validate_finding_ok_iff in Hf.
  rewrite (io_bind_run _ _ _ tt w) by (unfold io_lift; by rewrite Hf).
  rewrite (io_bind_run _ _ _ key w) by (unfold io_lift; by rewrite Hkey).
  rewrite (io_bind_run _ _ _ (encode_finding f0) (mkWorld (w_tables w) (4 + w_step w))).
  2:{ by erewrite transaction_quiet by (done || simpl; lia). }
  unfold io_lift. rewrite Hd. simpl. eexists. split_and!; [done..|simpl; lia].
Qed.

(** *** New artifacts *)

Definition storable_input (i : SignalInput) : Prop :=
  (0 <= si_ordinal i <= i32_max)%Z /\ (1 <= si_input_type i <= 3)%Z /\
  si_input_id i <> "" /\ si_relation i <> "".

Lemma signal_input_progress s input w :
  quiet (w_step w) -> storable_input input ->
  (forall r, r ∈ tb_signal_inputs (w_tables w) -> sir_signal_id r = sql_uuid (sg_signal_id s) ->
     sir_ordinal r <> si_ordinal input) ->
  sql_uuid (sg_signal_id s) ∈ (row_id <$> tb_signals (w_tables w)) ->
  persist_signal_input s input w =
    (Ok tt, mkWorld (set_signal_inputs (w_tables w)
       (tb_signal_inputs (w_tables w) ++ [signal_input_row s input])) (S (w_step w))).
Proof.
  intros Hq (Ho & Ht & Hi & Hr) Hnew Hfk. unfold persist_signal_input, try_from.
  assert (in_i32 (si_ordinal input) = true) as -> by
    (unfold in_i32, i32_min in *; apply in_range_spec; lia).
  assert (in_i16 (si_input_type input) = true) as -> by (unfold in_i16; apply in_range_spec; lia).
  simpl. do 2 (unfold io_bind at 1, io_lift at 1). apply run_statement_quiet; [done|].
  apply bind_ok_iff. eexists. split; [|done]. unfold insert_signal_input. simpl.
  apply not_empty_iff in Hi, Hr. rewrite Hi, Hr.
  assert ((si_ordinal input <? 0)%Z = false) as -> by lia.
  assert (in_range 1 3 (si_input_type input) = true) as -> by (apply in_range_spec; lia). simpl.
  match goal with |- context [has_row ?p (tb_signal_inputs _)] =>
    assert (has_row p (tb_signal_inputs (w_tables w)) = false) as -> end.
  { apply has_row_false. intros r Hin. apply andb_false_iff.
    destruct (String.eqb_spec (sir_signal_id r) (sql_uuid (sg_signal_id s))) as [He|]; [|by left].
    right. apply Z.eqb_neq. by apply Hnew. }
  simpl. destruct (has_row _ (tb_signals _)) eqn:Hh; [done|]. by apply has_id_false in Hh.
Qed.

Lemma signal_inputs_progress s inputs w :
  quiet (w_step w) -> Forall storable_input inputs -> NoDup (si_ordinal <$> inputs) ->
  (forall r i, r ∈ tb_signal_inputs (w_tables w) -> sir_signal_id r = sql_uuid (sg_signal_id s) ->
     (i ∈ inputs) -> sir_ordinal r <> si_ordinal i) ->
  (sql_uuid (sg_signal_id s) ∈ (row_id <$> tb_signals (w_tables w))) ->
  exists w', io_iter (persist_signal_input s) inputs w = (Ok tt, w') /\ w_step w <= w_step w'.
Proof.
  revert w. induction inputs as [|i inputs IH]; intros w Hq Hst Hnd Hnew Hfk; simpl.
  { by exists w. }
  apply Forall_cons in Hst as [Hi Hst]. apply NoDup_cons in Hnd as [Hni Hnd].
  erewrite io_bind_run; [|apply signal_input_progress; [done..| |done]; set_solver].
  match goal with |- context [io_iter _ _ ?w1] => destruct (IH w1) as (w' & -> & Hle); try done end.
  - eapply quiet_le; [done|simpl; lia].
  - simpl. intros r j [Hin| ->%list_elem_of_singleton]%elem_of_app Hid Hj; [set_solver|].
    simpl. intros Heq. apply Hni. rewrite Heq. by apply list_elem_of_fmap_2.
  - exists w'. split; [done|]. simpl in Hle. lia.
Qed.

Lemma signal_inputs_storable s :
  signal_ok s -> (zlen (sg_inputs s) <= i32_max)%Z ->
  Forall storable_input (sg_inputs s) /\ NoDup (si_ordinal <$> sg_inputs s).
Proof.
  intros (_&_&_&_&_&_&_&(_ & Hin & _)&_) Hlen. split.
  - apply Forall_lookup. intros i input Hi. pose proof (lookup_lt_Some _ _ _ Hi).
    apply Hin in Hi as (_ & Ht & Hu & Hr & Ho & _). unfold storable_input, zlen in *.
    split_and!; try lia.
    + intros Heq. destruct Hu as [Hu _]. by rewrite Heq in Hu.
    + intros Heq. by rewrite Heq in Hr.
  - apply NoDup_alt. intros i j x. rewrite !list_lookup_fmap.
    destruct (sg_inputs s !! i) eqn:Hi; [|done]. destruct (sg_inputs s !! j) eqn:Hj; [|done]. simpl.
    apply Hin in Hi as (_&_&_&_&Hi&_). apply Hin in Hj as (_&_&_&_&Hj&_). intros [= <-] [= He]. lia.
Qed.

(** What the uuid crate promises for the steps to come *)
Definition fresh_uuids (w : World) : Prop :=
  forall m, w_step w <= m ->
    uuid_v7 (uuid_at m) /\ (sql_uuid (uuid_at m) ∉ (obr_message_id <$> tb_outbox (w_tables w))).

Lemma envelope_progress spec tenant emitted value version instance w :
  uuid_v7 (uuid_at (w_step w)) -> some_and timestamp_ok emitted ->
  es_message_type spec <> "" -> es_payload_schema spec <> "" -> version <> "" ->
  envelope spec tenant emitted value version instance w =
    (Ok (envelope_message spec (uuid_at (w_step w)) tenant emitted value version instance), tick w).
Proof.
  intros Hu He Hm Hp Hv. unfold envelope. rewrite (io_bind_run _ _ _ (uuid_at (w_step w)) (tick w)) by done.
  assert (validate_envelope (envelope_message spec (uuid_at (w_step w)) tenant emitted value version instance)
    = Ok tt) as Hok.
  { apply validate_envelope_ok_iff. split_and!; try done. eexists. split; [done|]. by split. }
  by rewrite (io_bind_run _ _ _ tt (tick w)) by (unfold io_lift; by rewrite Hok).
Qed.

Lemma outbox_progress subject e w :
  quiet (w_step w) -> subject <> "" -> encode_envelope e <> [] ->
  sql_uuid (ce_message_id e) ∉ (obr_message_id <$> tb_outbox (w_tables w)) ->
  exists w', persist_outbox subject e w = (Ok tt, w') /\ w_step w' = S (w_step w).
Proof.
  intros Hq Hs Hp Hn. eexists. split; [apply run_statement_quiet; [done|]|reflexivity].
  apply bind_ok_iff. eexists. split; [|reflexivity]. unfold insert_outbox. simpl.
  apply not_empty_iff in Hs. rewrite Hs.
  assert (match encode_envelope e with [] => true | _ => false end = false) as -> by
    (by destruct (encode_envelope e)). simpl.
  destruct (has_row _ _) eqn:Hh; [|reflexivity]. exfalso. apply Hn. unfold has_row in Hh.
  apply existsb_exists in Hh as (r & Hr & <-%String.eqb_eq). apply list_elem_of_fmap_2.
  by apply list_elem_of_In.
Qed.

(** What a Signal needs to be stored where nothing fails *)
Definition storable_signal (rep : PostgresAnalyticalRepository) (s : Signal) (w : World) : Prop :=
  signal_ok s /\ (zlen (sg_inputs s) <= i32_max)%Z /\ rep_component_version rep <> "" /\
  encode_signal s <> [] /\ (forall e, ce_message_id e <> "" -> encode_envelope e <> []) /\
  (sql_uuid (sg_signal_id s) ∉ (row_id <$> tb_signals (w_tables w))).

Lemma announce_progress rep s w :
  quiet (w_step w) -> signal_ok s -> rep_component_version rep <> "" ->
  (forall e, ce_message_id e <> "" -> encode_envelope e <> []) -> fresh_uuids w ->
  exists w', (let! envelope := envelope signal_spec (sg_tenant_id s) (sg_created_at s) (encode_signal s)
                (rep_component_version rep) (rep_instance_id rep) in
              persist_outbox "cerbero.v1.signal.created" envelope) w = (Ok tt, w') /\
    w_step w <= w_step w' /\ tb_signals (w_tables w') = tb_signals (w_tables w).
Proof.
  intros Hq (_&_&Hcr&_) Hver Hpe Hu. destruct (Hu (w_step w)) as [Hv7 Hfresh]; [lia|].
  rewrite (io_bind_run _ _ _ _ _ (envelope_progress signal_spec (sg_tenant_id s) (sg_created_at s)
    (encode_signal s) _ (rep_instance_id rep) w Hv7 Hcr ltac:(done) ltac:(done) Hver)).
  match goal with |- context [persist_outbox _ ?e _] =>
    destruct (outbox_progress "cerbero.v1.signal.created" e (tick w)) as (w' & Hw' & Hs') end; try done.
  { eapply quiet_le; [done|simpl; lia]. }
  { by apply Hpe, uuid_v7_not_empty. }
  exists w'. split_and!; [done|simpl in Hs'; lia|]. by rewrite (outbox_run _ _ _ _ Hw').
Qed.

Lemma signal_transaction_fresh rep s log w :
  log_ok log -> w_tables w = tables_of log -> quiet (w_step w) -> fresh_uuids w ->
  storable_signal rep s w -> (forall s0, ~ holds_signal log (signal_logical_key s) s0) ->
  exists w', signal_transaction rep s (signal_logical_key s) (encode_signal s) (tick w) =
    (Ok (encode_signal s), w') /\ w_step w <= w_step w'.
Proof.
  intros Hlog Hw Hq Hu (Hs & Hlen & Hver & Hp & Hpe & Hid) Hno.
  destruct (signal_inputs_storable s Hs Hlen) as [Hst Hnd].
  assert (signal_logical_key s ∉ (row_logical_key <$> tb_signals (w_tables w))) as Hk.
  { rewrite Hw. intros (row & Hk & (s0 & e0 & Hin & ->)%signal_row_elem)%list_elem_of_fmap.
    by apply (Hno s0); exists e0. }
  pose (w2 := mkWorld (set_signals (w_tables w) (tb_signals (w_tables w) ++ [signal_row s])) (2 + w_step w)).
  destruct (signal_inputs_progress s (sg_inputs s) w2) as (w3 & H3 & Hle3); try done.
  { eapply quiet_le; [done|simpl; lia]. }
  { simpl. intros r i Hr He. rewrite Hw in Hr. apply signal_input_elem in Hr. rewrite <-Hw, He in Hr. done. }
  { simpl. rewrite fmap_app, elem_of_app. right. by apply list_elem_of_singleton. }
  pose proof (signal_inputs_run _ _ _ _ H3) as Ht3. simpl in Ht3, Hle3.
  destruct (announce_progress rep s w3) as (w4 & H4 & Hle4 & Ht4); try done.
  { eapply quiet_le; [done|lia]. }
  { intros m Hm. rewrite Ht3. apply Hu. lia. }
  exists (tick w4). split; [|simpl; lia]. unfold signal_transaction.
  rewrite (io_bind_run _ _ _ (created_parts (sg_created_at s)) (tick w)) by
    (unfold io_lift; by rewrite timestamp_parts_some by (by apply signal_created)).
  rewrite (io_bind_run _ _ _ 1%Z w2).
  2:{ apply run_statement_quiet; [eapply quiet_le; [done|simpl; lia]|].
      by rewrite insert_analytical_fresh by (done || apply sha256_lower_hex_digest). }
  rewrite (io_bind_run _ _ _ tt w4) by (simpl; by rewrite (io_bind_run _ _ _ tt w3)).
  apply run_statement_quiet; [eapply quiet_le; [done|lia]|]. rewrite Ht4, Ht3. simpl.
  assert (select_payload (signal_logical_key s) (tb_signals (w_tables w) ++ [signal_row s]) =
    Ok (encode_signal s)) as ->; [|done].
  apply select_payload_iff; [|exists (signal_row s); split_and!; [set_solver|done..]].
  destruct Hlog as (_ & Hn & _). rewrite <-Hw in Hn. by apply unique_rows_snoc.
Qed.

Lemma persist_signal_fresh rep s log w :
  log_ok log -> w_tables w = tables_of log -> quiet (w_step w) -> fresh_uuids w ->
  storable_signal rep s w -> decode_signal (encode_signal s) = Ok s ->
  (forall s0, ~ holds_signal log (signal_logical_key s) s0) ->
  exists e w', persist_signal rep s w = (Ok s, w') /\
    w_tables w' = tables_of (log ++ [SignalArtifact s e]).
Proof.
  intros Hlog Hw Hq Hu Hs Hd Hno.
  destruct (signal_transaction_fresh rep s log w) as (w1 & Hb & Hle); try done.
  destruct (persist_signal rep s w) as [r w'] eqn:Hrun.
  assert (r = Ok s) as ->.
  { unfold persist_signal in Hrun. destruct Hs as [Hval%validate_signal_ok_iff _].
    rewrite (io_bind_run _ _ _ tt w) in Hrun by (unfold io_lift; by rewrite Hval).
    rewrite (io_bind_run _ _ _ (encode_signal s) (tick w1)) in Hrun by
      (by erewrite transaction_quiet by done).
    unfold io_lift in Hrun. rewrite Hd in Hrun. simpl in Hrun. by simplify_eq. }
  destruct (persist_signal_refines _ _ _ _ _ _ Hlog Hw Hrun) as (log' & _ & Ht' & [[->|(e & -> & _)] Hok]).
  - destruct (Hok s) as (_ & s0 & Hs0 & _); [done|]. by destruct (Hno s0).
  - by exists e, w'.
Qed.

End RepositorySpec.
