(* ===== verification/RepositoryTheorems.v ===== *)
(** * Properties of the analytical repository

    Histories of persistence calls, logical identities, and the properties of
    [persist_signal] and [persist_finding]. *)

From S2P Require Import Prelude RustStd ContractTypes Validation SignalContract FindingContract Effects Database Repository RepositorySpec.

(** ** Histories: any number of calls by any writers, each with any outcome *)

Section Histories.
Context `{Sha256} `{Environment} `{Prost}.

Inductive persist_call : World -> World -> Prop :=
| call_signal rep s w r w' : persist_signal rep s w = (r, w') -> persist_call w w'
| call_finding rep f w r w' : persist_finding rep f w = (r, w') -> persist_call w w'.

Lemma call_extends_log w w' log :
  persist_call w w' -> log_ok log -> w_tables w = tables_of log ->
  exists more, log_ok (log ++ more) /\ w_tables w' = tables_of (log ++ more).
Proof.
  intros [rep s ? r ? Hc|rep f ? r ? Hc] Hlog Hw.
  - destruct (persist_signal_refines _ _ _ _ _ _ Hlog Hw Hc) as (log' & Hok & Ht & Hl & _).
    destruct Hl as [->|(e & -> & _)]; [exists []; by rewrite app_nil_r|eauto].
  - destruct (persist_finding_refines _ _ _ _ _ _ Hlog Hw Hc) as (log' & Hok & Ht & Hl & _).
    destruct Hl as [->|(key & e & -> & _)]; [exists []; by rewrite app_nil_r|eauto].
Qed.

Lemma history_extends_log w w' log :
  rtc persist_call w w' -> log_ok log -> w_tables w = tables_of log ->
  exists more, log_ok (log ++ more) /\ w_tables w' = tables_of (log ++ more).
Proof.
  intros Hh. revert log. induction Hh as [w|w w1 w' Hc Hh IH]; intros log Hlog Hw.
  { exists []. by rewrite app_nil_r. }
  destruct (call_extends_log _ _ _ Hc Hlog Hw) as (more & Hok & Ht).
  destruct (IH _ Hok Ht) as (more' & Hok' & Ht'). exists (more ++ more'). by rewrite app_assoc.
Qed.

Lemma outbox_length log :
  length (tb_outbox (tables_of log)) =
  length (tb_signals (tables_of log)) + length (tb_findings (tables_of log)).
Proof.
  induction log as [|a log IH] using rev_ind; [done|]. rewrite tables_of_snoc.
  destruct a; simpl; rewrite !length_app, IH; simpl; lia.
Qed.

Lemma outbox_announces log s e :
  SignalArtifact s e ∈ log -> outbox_row "cerbero.v1.signal.created" e ∈ tb_outbox (tables_of log).
Proof.
  induction log as [|a log IH] using rev_ind; [set_solver|]. rewrite tables_of_snoc.
  intros [Hin|<-%list_elem_of_singleton]%elem_of_app; simpl; apply elem_of_app; [left; by apply IH|right].
  by apply list_elem_of_singleton.
Qed.

Lemma filter_none {A} (p : A -> bool) l : (forall x, x ∈ l -> p x = false) -> List.filter p l = [].
Proof.
  induction l as [|x l IH]; intros Hp; simpl; [done|]. rewrite Hp by set_solver.
  apply IH. set_solver.
Qed.

Lemma filter_all {A} (p : A -> bool) l : (forall x, x ∈ l -> p x = true) -> List.filter p l = l.
Proof.
  induction l as [|x l IH]; intros Hp; simpl; [done|]. rewrite Hp by set_solver.
  f_equal. apply IH. set_solver.
Qed.

(** The input rows of a stored Signal are its inputs, all of them and in order. *)
Lemma stored_inputs log s e :
  NoDup (row_id <$> tb_signals (tables_of log)) -> SignalArtifact s e ∈ log ->
  List.filter (fun r => String.eqb (sir_signal_id r) (sql_uuid (sg_signal_id s)))
    (tb_signal_inputs (tables_of log)) = signal_input_row s <$> sg_inputs s.
Proof.
  induction log as [|a log IH] using rev_ind; [set_solver|]. rewrite tables_of_snoc. simpl.
  rewrite fmap_app, List.filter_app. intros (Hnd & Hdis & _)%NoDup_app.
  intros [Hin|<-%list_elem_of_singleton]%elem_of_app.
  - rewrite IH by done. rewrite (filter_none _ (tb_signal_inputs (artifact_tables a))); [by rewrite app_nil_r|].
    destruct a as [s' e'|f key e']; simpl; [|set_solver]. simpl in Hdis.
    intros r (i & -> & _)%list_elem_of_fmap. apply String.eqb_neq. simpl. intros Heq.
    apply (Hdis (sql_uuid (sg_signal_id s))); [|rewrite Heq; by apply list_elem_of_singleton].
    apply (list_elem_of_fmap_2 row_id _ (signal_row s)), signal_row_elem. eauto.
  - simpl in *. rewrite filter_none, filter_all; [done| |].
    + intros r (i & -> & _)%list_elem_of_fmap. apply String.eqb_refl.
    + intros r Hr%signal_input_elem. apply String.eqb_neq. intros Heq. rewrite Heq in Hr.
      apply (Hdis _ Hr). by apply list_elem_of_singleton.
Qed.

End Histories.

(** ** Logical identities *)

Section Identity.

Lemma uuid_v7_free c s :
  uuid_v7 s -> is_ascii_hexdigit c = false -> c <> "-"%char -> contains_char c s = false.
Proof.
  intros (_ & Hb & _) Hc Hd. unfold contains_char. apply existsb_false_iff, Forall_lookup.
  intros i b Hi. apply Hb in Hi. apply Ascii.eqb_neq. intros <-. destruct (is_hyphen_index i); congruence.
Qed.

Lemma detection_rule_id_free c s :
  detection_rule_id s -> is_ascii_digit c = false -> contains_char c RULE_ID_PREFIX = false ->
  contains_char c s = false.
Proof.
  intros (suffix & -> & Hs) Hc Hp. rewrite contains_char_app, Hp. simpl.
  apply andb_true_iff in Hs as [_ Hs]. unfold contains_char.
  apply existsb_false_iff, Forall_forall. intros b Hb. apply forallb_true_iff in Hs.
  rewrite Forall_forall in Hs. apply Hs in Hb. apply Ascii.eqb_neq. intros <-. congruence.
Qed.

(** What the logical key of a Signal is meant to identify *)
Definition input_identity (i : SignalInput) : Z * Z * string * string :=
  (si_ordinal i, si_input_type i, si_input_id i, si_relation i).
Definition signal_identity (s : Signal) :=
  (sg_tenant_id s, sg_rule_id s, sg_rule_version s, sg_rule_type s, sg_execution_mode s,
   input_identity <$> sg_inputs s).

(** The free texts of the identity do not contain the separator. *)
Definition unambiguous (s : Signal) : Prop :=
  contains_char "|" (sg_rule_version s) = false /\
  Forall (fun i => contains_char "|" (si_relation i) = false) (sg_inputs s).

Definition input_piece (i : SignalInput) : string :=
  pretty (si_ordinal i) +:+ ":" +:+ pretty (si_input_type i) +:+ ":"
    +:+ si_input_id i +:+ ":" +:+ si_relation i.

Lemma split_pieces base inputs :
  Forall (fun i => contains_char "|" (input_piece i) = false) inputs ->
  split_char "|" (foldl (fun value input => value +:+ signal_input_text input) base inputs) =
  split_char "|" base ++ (input_piece <$> inputs).
Proof.
  intros Hf. revert base. induction Hf as [|i inputs Hi Hf IH]; intros base; simpl.
  { by rewrite app_nil_r. }
  rewrite IH. change (signal_input_text i) with (String "|" (input_piece i)).
  rewrite split_char_app, (split_char_free _ (input_piece i)) by done. by rewrite <-app_assoc.
Qed.

Lemma piece_free i n id :
  signal_input_ok id n i -> contains_char "|" (si_relation i) = false ->
  contains_char "|" (input_piece i) = false.
Proof.
  intros (_ & _ & Hu & _) Hr. unfold input_piece. rewrite !contains_char_app, Hr.
  rewrite !pretty_Z_free by done. by rewrite (uuid_v7_free _ _ Hu).
Qed.

Lemma split_join c a b :
  split_char c (a +:+ String c EmptyString +:+ b) = split_char c a ++ split_char c b.
Proof. apply split_char_app. Qed.

Lemma split_identity s :
  signal_ok s -> unambiguous s ->
  split_char "|" (signal_identity_text s) =
  [sg_tenant_id s; sg_rule_id s; sg_rule_version s; pretty (sg_rule_type s);
   pretty (sg_execution_mode s)] ++ (input_piece <$> sg_inputs s).
Proof.
  intros ((_ & Ht & Hr & _) & _ & _ & _ & _ & _ & _ & (_ & Hin & _) & _) [Hv Hrel].
  unfold signal_identity_text. rewrite split_pieces.
  2:{ apply Forall_lookup. intros i input Hi. rewrite Forall_lookup in Hrel.
      eapply piece_free; eauto. }
  f_equal. rewrite !(split_join "|").
  rewrite !split_char_free; try done.
  - by apply pretty_Z_free.
  - by apply pretty_Z_free.
  - by apply detection_rule_id_free.
  - by apply uuid_v7_free.
Qed.

Lemma piece_inj i j n m id id' :
  signal_input_ok id n i -> signal_input_ok id' m j -> input_piece i = input_piece j ->
  input_identity i = input_identity j.
Proof.
  intros (_ & _ & Hi & _) (_ & _ & Hj & _) Heq. unfold input_piece in Heq.
  apply (append_sep_inj ":") in Heq as [Ho Heq]; [|by apply pretty_Z_free..].
  apply (append_sep_inj ":") in Heq as [Ht Heq]; [|by apply pretty_Z_free..].
  apply (append_sep_inj ":") in Heq as [Hid Hr]; [|by apply uuid_v7_free..].
  apply (inj pretty) in Ho, Ht. unfold input_identity. congruence.
Qed.

Lemma pieces_inj s1 s2 :
  signal_inputs_ok s1 -> signal_inputs_ok s2 ->
  input_piece <$> sg_inputs s1 = input_piece <$> sg_inputs s2 ->
  input_identity <$> sg_inputs s1 = input_identity <$> sg_inputs s2.
Proof.
  intros (_ & H1 & _) (_ & H2 & _) Heq. apply list_eq. intros i.
  apply (f_equal (.!! i)) in Heq. rewrite !list_lookup_fmap in *.
  destruct (sg_inputs s1 !! i) eqn:E1, (sg_inputs s2 !! i) eqn:E2; simpl in *; try done.
  simplify_eq. f_equal. eapply piece_inj; eauto.
Qed.

Lemma identity_text_eq s1 s2 :
  signal_identity s1 = signal_identity s2 -> signal_identity_text s1 = signal_identity_text s2.
Proof.
  unfold signal_identity, signal_identity_text. intros [= -> -> -> -> -> Heq].
  match goal with |- foldl _ ?b _ = _ => generalize b end.
  revert Heq. generalize (sg_inputs s1) (sg_inputs s2). intros l1.
  induction l1 as [|i l1 IH]; intros [|j l2]; simpl; try done.
  intros [= Ho Ht Hi Hr Heq] b. unfold signal_input_text. rewrite Ho, Ht, Hi, Hr. by apply IH.
Qed.

Lemma identity_text_inj s1 s2 :
  signal_ok s1 -> signal_ok s2 -> unambiguous s1 -> unambiguous s2 ->
  signal_identity_text s1 = signal_identity_text s2 -> signal_identity s1 = signal_identity s2.
Proof.
  intros Hs1 Hs2 Hu1 Hu2 Heq. apply (f_equal (split_char "|")) in Heq.
  rewrite !split_identity in Heq by done. injection Heq as Ht Hr Hv Hty Hm Hp.
  apply (inj pretty) in Hty, Hm. unfold signal_identity.
  rewrite Ht, Hr, Hv, Hty, Hm. f_equal. destruct Hs1 as (_&_&_&_&_&_&_&?&_).
  destruct Hs2 as (_&_&_&_&_&_&_&?&_). by apply pieces_inj.
Qed.

End Identity.

(** ** A store with two Signals of one logical identity *)

Module RepositorySample.

#[export, program] Instance digest : Sha256 := {| sha256_digest _ := replicate 32 "000"%char |}.
Next Obligation. reflexivity. Qed.

Definition event_1 : string := "018f0000-0000-7000-8000-000000000001".
Definition event_2 : string := "018f0000-0000-7000-8000-000000000002".
Definition tenant : string := "018f0000-0000-7000-8000-0000000000aa".
Definition now : Timestamp := mkTimestamp 1700000000 0.

(** A THRESHOLD Signal over the given inputs (event identity and relation) *)
Definition threshold_signal_over (id : string) (inputs : list (string * string)) : Signal :=
  mkSignal id tenant "CER-DET-000001" "1" 2 "HIGH" None 1 (Some now) (Some now) (Some now) 1 1
    (zlen inputs) "burst" (Some (mkSignalProvenance (Some now) 1))
    ((fun '(i, (event, relation)) => mkSignalInput id 1 event relation (Z.of_nat i)) <$> enumerate inputs).

Definition first_signal : Signal :=
  threshold_signal_over "018f0000-0000-7000-8000-0000000000b1" [(event_1, "INPUT"); (event_2, "INPUT")].
(** The same logical identity under another Signal id *)
Definition repeated_signal : Signal :=
  threshold_signal_over "018f0000-0000-7000-8000-0000000000b2" [(event_1, "INPUT"); (event_2, "INPUT")].
(** One input whose relation text contains the separators *)
Definition forged_signal : Signal :=
  threshold_signal_over "018f0000-0000-7000-8000-0000000000b3"
    [(event_1, "INPUT|1:1:" +:+ event_2 +:+ ":INPUT")].

#[export] Instance no_faults : Environment := {|
  statement_fault _ _ := None;
  commit_fault _ := None;
  uuid_at _ := "018f0000-0000-7000-8000-0000000000c1";
|}.

#[export] Instance codec : Prost := {|
  encode_signal s := if decide (s = first_signal) then ["001"%char] else ["002"%char];
  decode_signal bytes :=
    match bytes with
    | ["001"%char] => Ok first_signal
    | ["002"%char] => Ok repeated_signal
    | _ => Err "not a Signal"
    end;
  encode_finding _ := ["003"%char];
  decode_finding _ := Err "not a Finding";
  encode_envelope _ := ["004"%char];
|}.

Definition repository : PostgresAnalyticalRepository := mkPostgresAnalyticalRepository "1.0.0" "i-1".
Definition empty_world : World := mkWorld no_rows 0.

Lemma log_ok_nil : log_ok [].
Proof. split_and!; [constructor|split; constructor..]. Qed.

Lemma sample_quiet : quiet 0.
Proof. by split. Qed.

End RepositorySample.

(** ** Properties *)

Section RepositoryProperties.
Context `{Sha256} `{Environment} `{Prost}.

(** C4: the repository refines an append-only log of distinct artifacts.  On
    tables that hold exactly the rows of a log, any call of [persist_signal] or
    [persist_finding], successful or failed anywhere (a lost COMMIT included),
    leaves the rows of a log that is the same or has the submitted artifact
    appended under a new logical key; a successful call returns the artifact the
    log holds under that key. *)
Theorem persistence_refines_log rep log w :
  log_ok log -> w_tables w = tables_of log ->
  (forall s r w', persist_signal rep s w = (r, w') ->
     exists log', log_ok log' /\ w_tables w' = tables_of log' /\ signal_call log s r log') /\
  (forall f r w', persist_finding rep f w = (r, w') ->
     exists log', log_ok log' /\ w_tables w' = tables_of log' /\ finding_call log f r log').
Proof.
  intros Hlog Hw. split; intros x r w' Hr.
  - by eapply persist_signal_refines.
  - by eapply persist_finding_refines.
Qed.

(** Persistence is idempotent and total.  Where no statement fails, a valid
    Signal whose logical identity is already stored is answered with the Signal
    that was stored first and changes no table; a Signal of a new logical
    identity is stored with its inputs and announced once, and is returned. *)
Theorem persist_signal_idempotent rep s log w :
  log_ok log -> w_tables w = tables_of log -> quiet (w_step w) -> fresh_uuids w ->
  storable_signal rep s w ->
  (forall s0, holds_signal log (signal_logical_key s) s0 ->
     decode_signal (encode_signal s0) = Ok s0 ->
     exists w', persist_signal rep s w = (Ok s0, w') /\ w_tables w' = w_tables w) /\
  ((forall s0, ~ holds_signal log (signal_logical_key s) s0) ->
     decode_signal (encode_signal s) = Ok s ->
     exists e w', persist_signal rep s w = (Ok s, w') /\
       w_tables w' = tables_of (log ++ [SignalArtifact s e])).
Proof.
  intros Hlog Hw Hq Hu Hs. split.
  - intros s0 Hh Hd. destruct Hs as (Hok & _ & _ & Hp & _).
    destruct (persist_signal_existing rep s s0 s0 log w) as (w' & ? & ? & _); eauto.
  - intros Hno Hd. by apply persist_signal_fresh.
Qed.

(** The tables stay consistent through every history of persistence calls
    that starts from empty tables.  Logical keys and identities are unique, the
    outbox has one message per stored artifact, and every Signal row is the
    encoding of a valid Signal whose announcement is in the outbox and whose
    input rows are exactly its inputs in order. *)
Theorem store_history_invariant n w :
  rtc persist_call (mkWorld no_rows n) w ->
  let t := w_tables w in
  unique_rows (tb_signals t) /\ unique_rows (tb_findings t) /\
  length (tb_outbox t) = length (tb_signals t) + length (tb_findings t) /\
  forall row, row ∈ tb_signals t -> exists s e, row = signal_row s /\ signal_ok s /\
    announces signal_spec (sg_tenant_id s) (sg_created_at s) (row_payload row) e /\
    (outbox_row "cerbero.v1.signal.created" e ∈ tb_outbox t) /\
    List.filter (fun r => String.eqb (sir_signal_id r) (row_id row)) (tb_signal_inputs t) =
      signal_input_row s <$> sg_inputs s.
Proof.
  intros Hh. destruct (history_extends_log _ _ [] Hh) as (log & Hlog & Ht); [|done|].
  { split_and!; [constructor|split; constructor..]. }
  simpl in Hlog, Ht. cbv zeta. rewrite Ht. pose proof Hlog as (Hok & Hs & Hf). split_and!; [done..| |].
  { apply outbox_length. }
  intros row (s & e & Hin & ->)%signal_row_elem. exists s, e.
  rewrite Forall_forall in Hok. destruct (Hok _ Hin) as [Hsok Han].
  split_and!; [done..|by eapply outbox_announces|]. eapply stored_inputs; [by destruct Hs|done].
Qed.

(** The logical key of a Signal identifies what it should.  Between valid
    Signals whose free texts (rule version and input relations) avoid the
    separator, and unless SHA-256 collides on them, the keys agree exactly when
    tenant, rule, version, type, mode and the ordered inputs with their types
    and relations agree; Signal id, times, severity and counts do not matter. *)
Theorem signal_logical_key_spec s1 s2 :
  signal_ok s1 -> signal_ok s2 -> unambiguous s1 -> unambiguous s2 ->
  (signal_logical_key s1 = signal_logical_key s2 -> signal_identity_text s1 = signal_identity_text s2) ->
  signal_logical_key s1 = signal_logical_key s2 <-> signal_identity s1 = signal_identity s2.
Proof.
  intros Hs1 Hs2 Hu1 Hu2 Hhash. split.
  - intros Hk%Hhash. by apply identity_text_inj.
  - intros Hi%identity_text_eq. unfold signal_logical_key. by rewrite Hi.
Qed.

(** C38: without that restriction the key is ambiguous for every hash function:
    a valid Signal with two inputs and a valid Signal with one input, whose
    relation text spells the second, get the same logical key. *)
Theorem signal_logical_key_ambiguous :
  exists s1 s2, validate_signal s1 = Ok tt /\ validate_signal s2 = Ok tt /\
    signal_identity s1 <> signal_identity s2 /\ length (sg_inputs s1) <> length (sg_inputs s2) /\
    signal_logical_key s1 = signal_logical_key s2.
Proof.
  exists RepositorySample.first_signal, RepositorySample.forged_signal.
  split_and!; [vm_compute; reflexivity..|by intros [=]|done|].
  unfold signal_logical_key. f_equal.
Qed.

End RepositoryProperties.

(** ** The properties on the sample *)

Import RepositorySample.

Lemma persistence_refines_log_witness :
  (forall s r w', persist_signal repository s empty_world = (r, w') ->
     exists log', log_ok log' /\ w_tables w' = tables_of log' /\ signal_call [] s r log') /\
  (forall f r w', persist_finding repository f empty_world = (r, w') ->
     exists log', log_ok log' /\ w_tables w' = tables_of log' /\ finding_call [] f r log').
Proof. apply (persistence_refines_log repository [] empty_world); [apply log_ok_nil|reflexivity]. Defined.

Lemma persist_signal_idempotent_witness :
  (exists e w', persist_signal repository first_signal empty_world = (Ok first_signal, w') /\
     w_tables w' = tables_of [SignalArtifact first_signal e]).
Proof.
  apply (persist_signal_idempotent repository first_signal [] empty_world).
  - apply log_ok_nil.
  - reflexivity.
  - apply sample_quiet.
  - intros m _. split; [apply (validate_uuid_v7_ok_iff "id"); vm_compute; reflexivity|].
    apply not_elem_of_nil.
  - split_and!; [apply validate_signal_ok_iff; vm_compute; reflexivity|vm_compute; discriminate..| |].
    + intros e. vm_compute. discriminate.
    + apply not_elem_of_nil.
  - intros s0 (e & Hin & _). by apply not_elem_of_nil in Hin.
  - vm_compute. reflexivity.
Defined.

(** Two calls with Signals of one logical identity *)
Definition twice : World :=
  snd (persist_signal repository repeated_signal (snd (persist_signal repository first_signal empty_world))).

Lemma store_history_invariant_witness :
  length (tb_signals (w_tables twice)) = 1 /\
  let t := w_tables twice in
  unique_rows (tb_signals t) /\ unique_rows (tb_findings t) /\
  length (tb_outbox t) = length (tb_signals t) + length (tb_findings t) /\
  forall row, row ∈ tb_signals t -> exists s e, row = signal_row s /\ signal_ok s /\
    announces signal_spec (sg_tenant_id s) (sg_created_at s) (row_payload row) e /\
    (outbox_row "cerbero.v1.signal.created" e ∈ tb_outbox t) /\
    List.filter (fun r => String.eqb (sir_signal_id r) (row_id row)) (tb_signal_inputs t) =
      signal_input_row s <$> sg_inputs s.
Proof.
  split; [vm_compute; reflexivity|]. apply (store_history_invariant 0 twice).
  eapply rtc_l; [eapply call_signal, surjective_pairing|].
  eapply rtc_l; [eapply call_signal, surjective_pairing|]. apply rtc_refl.
Defined.

Lemma signal_logical_key_spec_witness :
  signal_logical_key first_signal = signal_logical_key repeated_signal <->
  signal_identity first_signal = signal_identity repeated_signal.
Proof.
  apply (signal_logical_key_spec first_signal repeated_signal).
  - apply validate_signal_ok_iff. vm_compute. reflexivity.
  - apply validate_signal_ok_iff. vm_compute. reflexivity.
  - split; [vm_compute; reflexivity|]. repeat (constructor; [vm_compute; reflexivity|]). constructor.
  - split; [vm_compute; reflexivity|]. repeat (constructor; [vm_compute; reflexivity|]). constructor.
  - intros _. vm_compute. reflexivity.
Defined.
