(* ===== verification/Replay.v ===== *)
(** * Replaying effectful code against a store that already has its results

    Every run of the batch driver only adds artifacts to the store ([grows]).
    [replays R m1 m2]: once [m1] has run to a result, a store that still has the
    rows it left is enough for [m2] to run, without any failure, to a related
    result and without changing a table.  The relation is closed under the
    constructs of the driver, and [persist_signal] and [persist_finding] satisfy
    it for artifacts of one logical identity. *)

From S2P Require Import Prelude RustStd ContractTypes Validation SignalContract FindingContract Effects Database Repository RepositorySpec.

Section Replay.
Context `{Sha256} `{Environment} `{Prost}.

(** The tables are those of a log. *)
Definition store_ok (t : Tables) : Prop := exists log, log_ok log /\ t = tables_of log.

Definition stored_le (t t' : Tables) : Prop :=
  tb_signals t ⊆ tb_signals t' /\ tb_findings t ⊆ tb_findings t'.

#[global] Instance stored_le_preorder : PreOrder stored_le.
Proof. split; [done|]. intros t u v [] []. split; by etrans. Qed.

Definition grows (w w' : World) : Prop :=
  store_ok (w_tables w) -> store_ok (w_tables w') /\ stored_le (w_tables w) (w_tables w').

#[global] Instance grows_preorder : PreOrder grows.
Proof.
  split; [done|]. intros w1 w2 w3 H12 H23 Hs. destruct (H12 Hs) as [Hs2 Hle].
  destruct (H23 Hs2) as [Hs3 Hle']. split; [done|by etrans].
Qed.

Lemma stored_le_app t u : stored_le t (tables_app t u).
Proof. split; simpl; set_solver. Qed.

Lemma grows_persist_signal rep s : io_respects grows (persist_signal rep s).
Proof.
  intros w r w' Hr (log & Hlog & Hw).
  destruct (persist_signal_refines _ _ _ _ _ _ Hlog Hw Hr) as (log' & Hlog' & Hw' & Hl & _).
  split; [by exists log'|]. rewrite Hw, Hw'.
  destruct Hl as [->|(e & -> & _)]; [done|]. rewrite tables_of_snoc. apply stored_le_app.
Qed.

Lemma grows_persist_finding rep f : io_respects grows (persist_finding rep f).
Proof.
  intros w r w' Hr (log & Hlog & Hw).
  destruct (persist_finding_refines _ _ _ _ _ _ Hlog Hw Hr) as (log' & Hlog' & Hw' & Hl & _).
  split; [by exists log'|]. rewrite Hw, Hw'.
  destruct Hl as [->|(key & e & -> & _)]; [done|]. rewrite tables_of_snoc. apply stored_le_app.
Qed.

Lemma grows_now_v7 : io_respects grows now_v7.
Proof. intros w r w' [= _ <-]. done. Qed.

(** ** The relation *)

Definition replays {A B} (R : A -> B -> Prop) (m1 : runs A) (m2 : runs B) : Prop :=
  forall w a w', store_ok (w_tables w) -> m1 w = (Ok a, w') ->
  forall w2, store_ok (w_tables w2) -> stored_le (w_tables w') (w_tables w2) -> quiet (w_step w2) ->
  exists b w2', m2 w2 = (Ok b, w2') /\ R a b /\ w_tables w2' = w_tables w2 /\ w_step w2 <= w_step w2'.

Lemma replays_lift {A B} (R : A -> B -> Prop) r1 r2 :
  (forall a, r1 = Ok a -> exists b, r2 = Ok b /\ R a b) -> replays R (io_lift r1) (io_lift r2).
Proof.
  intros Hr w a w' _ [Ha ->]%io_lift_ok_iff w2 _ _ _. destruct (Hr a Ha) as (b & -> & ?).
  by exists b, w2.
Qed.

Lemma replays_same {A} (r : result A RuntimeError) : replays eq (io_lift r) (io_lift r).
Proof. apply replays_lift. eauto. Qed.

Lemma replays_ret {A B} (R : A -> B -> Prop) a b : R a b -> replays R (io_ret a) (io_ret b).
Proof. intros Hab. apply (replays_lift R (Ok a) (Ok b)). intros ? [= <-]. eauto. Qed.

Lemma replays_bind {A B C D} (R : A -> B -> Prop) (S : C -> D -> Prop) m1 m2 k1 k2 :
  io_respects grows m1 -> (forall a, io_respects grows (k1 a)) ->
  replays R m1 m2 -> (forall a b, R a b -> replays S (k1 a) (k2 b)) ->
  replays S (io_bind m1 k1) (io_bind m2 k2).
Proof.
  intros Hg Hgk Hm Hk w c w' Hs (a & w1 & Ha & Hc)%io_bind_ok_iff w2 Hs2 Hle Hq.
  destruct (Hg _ _ _ Ha Hs) as [Hs1 Hle1]. destruct (Hgk _ _ _ _ Hc Hs1) as [_ Hle2].
  destruct (Hm w a w1 Hs Ha w2) as (b & w3 & H3 & Hab & Ht3 & Hst3); [done|by etrans|done|].
  destruct (Hk a b Hab w1 c w' Hs1 Hc w3) as (d & w4 & H4 & Hcd & Ht4 & Hst4).
  - by rewrite Ht3.
  - by rewrite Ht3.
  - by eapply quiet_le.
  - exists d, w4. split_and!; [by rewrite (io_bind_run _ _ _ _ _ H3)|done|congruence|lia].
Qed.

Lemma replays_fold {X Y A B} (R : A -> B -> Prop) (Q : X -> Y -> Prop) f1 f2 l1 l2 a b :
  (forall a x, io_respects grows (f1 a x)) ->
  (forall a b x y, R a b -> Q x y -> replays R (f1 a x) (f2 b y)) ->
  Forall2 Q l1 l2 -> R a b -> replays R (io_fold f1 l1 a) (io_fold f2 l2 b).
Proof.
  intros Hg Hf Hl. revert a b. induction Hl as [|x y l1 l2 Hxy Hl IH]; intros a b Hab; simpl.
  { by apply replays_ret. }
  eapply replays_bind; [apply Hg| |by eapply Hf|intros; by apply IH].
  intros. by apply respects_fold; [apply grows_preorder|].
Qed.

(** Fresh identities differ from run to run. *)
Lemma replays_now_v7 (R : string -> string -> Prop) :
  (forall n m, R (uuid_at n) (uuid_at m)) -> replays R now_v7 now_v7.
Proof.
  intros HR w a w' _ [= <- _] w2 _ _ _. exists (uuid_at (w_step w2)), (tick w2).
  split_and!; [done..|simpl; lia].
Qed.

(** ** Persistence *)

Lemma replays_persist_signal rep s1 s2 :
  (forall s, sg_signal_id s <> "" -> encode_signal s <> []) ->
  signal_logical_key s1 = signal_logical_key s2 -> (signal_ok s1 -> signal_ok s2) ->
  replays eq (persist_signal rep s1) (persist_signal rep s2).
Proof.
  intros Hne Hkey Hok w a w' (log & Hlog & Hw) Hr w2 (all & Hall & Hw2) [Hle _] Hq.
  destruct (persist_signal_refines _ _ _ _ _ _ Hlog Hw Hr) as (log' & Hlog' & Hw' & _ & Hres).
  destruct (Hres a eq_refl) as (Hs1 & s0 & (e0 & Hin & Hk0) & Hd).
  assert (signal_row s0 ∈ tb_signals (tables_of all)) as (s0' & e0' & Hin' & Heq)%signal_row_elem.
  { rewrite <-Hw2. apply Hle. rewrite Hw'. apply signal_row_elem. eauto. }
  injection Heq as _ Hk _ _ Henc.
  destruct (persist_signal_existing rep s2 s0' a all w2) as (w2' & ? & ? & ?); try done.
  - by apply Hok.
  - apply Hne, uuid_v7_not_empty. by destruct (Hok Hs1) as [[? _] _].
  - exists e0'. split; [done|]. by rewrite <-Hk, Hk0.
  - by rewrite <-Henc.
  - by exists a, w2'.
Qed.

Lemma replays_persist_finding rep f1 f2 :
  (forall f, fd_finding_id f <> "" -> encode_finding f <> []) ->
  finding_logical_key f1 = finding_logical_key f2 -> (finding_ok f1 -> finding_ok f2) ->
  replays eq (persist_finding rep f1) (persist_finding rep f2).
Proof.
  intros Hne Hkey Hok w a w' (log & Hlog & Hw) Hr w2 (all & Hall & Hw2) [_ Hle] Hq.
  destruct (persist_finding_refines _ _ _ _ _ _ Hlog Hw Hr) as (log' & Hlog' & Hw' & _ & Hres).
  destruct (Hres a eq_refl) as (Hf1 & key & f0 & Hk & (e0 & Hin) & Hd).
  assert (finding_row f0 key ∈ tb_findings (tables_of all)) as (f0' & key' & e0' & Hin' & Heq)%finding_row_elem.
  { rewrite <-Hw2. apply Hle. rewrite Hw'. apply finding_row_elem. eauto. }
  injection Heq as _ <- _ _ Henc.
  destruct (persist_finding_existing rep f2 f0' key a all w2) as (w2' & ? & ? & ?); try done.
  - by apply Hok.
  - by rewrite <-Hkey.
  - apply Hne, uuid_v7_not_empty. by destruct (Hok Hf1) as [? _].
  - by exists e0'.
  - by rewrite <-Henc.
  - by exists a, w2'.
Qed.

(** ** Postconditions on the store: what holds of the result of a successful run *)

Definition triple {A} (P : Tables -> Prop) (m : runs A) (Q : A -> Tables -> Prop) : Prop :=
  forall w a w', store_ok (w_tables w) -> P (w_tables w) -> m w = (Ok a, w') -> Q a (w_tables w').

Lemma triple_bind {A B} P Q R (m : runs A) (k : A -> runs B) :
  io_respects grows m -> triple P m Q -> (forall a, triple (Q a) (k a) R) -> triple P (io_bind m k) R.
Proof.
  intros Hg Hm Hk w b w' Hs HP (a & w1 & Ha & Hb)%io_bind_ok_iff.
  destruct (Hg _ _ _ Ha Hs) as [Hs1 _]. by apply (Hk a w1 b w' Hs1 (Hm w a w1 Hs HP Ha)).
Qed.

Lemma triple_lift {A} (P : Tables -> Prop) (r : result A RuntimeError) :
  triple P (io_lift r) (fun _ => P).
Proof. by intros w a w' _ HP [_ ->]%io_lift_ok_iff. Qed.

Lemma triple_ret {A} (P : Tables -> Prop) (Q : A -> Tables -> Prop) a :
  (forall t, P t -> Q a t) -> triple P (io_ret a) Q.
Proof. intros HQ w b w' _ HP [-> ->]%io_ret_ok_iff. by apply HQ. Qed.

Lemma triple_now_v7 P : triple P now_v7 (fun _ => P).
Proof. intros w a w' _ HP [= _ <-]. done. Qed.

Lemma triple_fold {X A} (I : A -> Tables -> Prop) (f : A -> X -> runs A) l a :
  (forall a x, io_respects grows (f a x)) -> (forall a x, triple (I a) (f a x) I) ->
  triple (I a) (io_fold f l a) I.
Proof.
  intros Hg Hf. revert a. induction l as [|x l IH]; intros a; simpl; [by apply triple_ret|].
  eapply triple_bind; [apply Hg|apply Hf|apply IH].
Qed.

(** A Signal (Finding) that the store returns for one of its rows *)
Definition durable_signal (s : Signal) (t : Tables) : Prop :=
  exists row, (row ∈ tb_signals t) /\ decode_signal (row_payload row) = Ok s.
Definition durable_finding (f : Finding) (t : Tables) : Prop :=
  exists row, (row ∈ tb_findings t) /\ decode_finding (row_payload row) = Ok f.

Definition upward (P : Tables -> Prop) : Prop := forall t t', stored_le t t' -> P t -> P t'.

Lemma upward_signals ss : upward (fun t => Forall (fun s => durable_signal s t) ss).
Proof.
  intros t t' [Hle _] Hs. eapply Forall_impl; [exact Hs|]. intros s (row & ? & ?). exists row. auto.
Qed.

Lemma upward_findings fs : upward (fun t => Forall (fun f => durable_finding f t) fs).
Proof.
  intros t t' [_ Hle] Hs. eapply Forall_impl; [exact Hs|]. intros s (row & ? & ?). exists row. auto.
Qed.

Lemma triple_persist_signal P rep s :
  upward P -> triple P (persist_signal rep s) (fun d t => P t /\ durable_signal d t).
Proof.
  intros HP w d w' Hs Hw Hr. pose proof Hs as (log & Hlog & Ht).
  destruct (grows_persist_signal _ _ _ _ _ Hr Hs) as [_ Hle]. split; [by eapply HP|].
  destruct (persist_signal_refines _ _ _ _ _ _ Hlog Ht Hr) as (log' & _ & Ht' & _ & Hres).
  destruct (Hres d eq_refl) as (_ & s0 & (e0 & Hin & _) & Hd). exists (signal_row s0). split; [|done].
  rewrite Ht'. apply signal_row_elem. eauto.
Qed.

Lemma triple_persist_finding P rep f :
  upward P -> triple P (persist_finding rep f) (fun d t => P t /\ durable_finding d t).
Proof.
  intros HP w d w' Hs Hw Hr. pose proof Hs as (log & Hlog & Ht).
  destruct (grows_persist_finding _ _ _ _ _ Hr Hs) as [_ Hle]. split; [by eapply HP|].
  destruct (persist_finding_refines _ _ _ _ _ _ Hlog Ht Hr) as (log' & _ & Ht' & _ & Hres).
  destruct (Hres d eq_refl) as (_ & key & f0 & _ & (e0 & Hin) & Hd). exists (finding_row f0 key).
  split; [|done]. rewrite Ht'. apply finding_row_elem. eauto.
Qed.

End Replay.

Create HintDb grows.
#[export] Hint Resolve grows_persist_signal grows_persist_finding grows_now_v7 : grows.

(** Straight-line effectful code over the repository only adds to the store. *)
Ltac grows :=
  repeat first
    [ solve [auto with grows nocore] | apply (respects_lift grows) | apply (respects_ret grows)
    | apply (respects_fold grows); intros
    | apply (respects_bind grows); [|intros]
    | match goal with |- io_respects _ (match ?x with _ => _ end) => destruct x end ].
