(* ===== verification/MvpRules.v ===== *)
(** * The MVP rule pack: compilation and evaluation policies

    crates/cerbero-detection-runtime/src/mvp_batch.rs: the frozen rules, the
    compilation stages and the concrete policies that instantiate the traits of
    the detection core. *)

From Stdlib Require Import SpecFloat.
From S2P Require Import Prelude RustStd ContractTypes Validation SignalContract FindingContract RuleContract DetectionAst EventPipeline EventSignal Threshold Correlation Sigma Effects Database Repository.

Definition FAILED_LOGIN_RULE_ID : string := "CER-DET-000101".
Definition SUCCESSFUL_LOGIN_RULE_ID : string := "CER-DET-000102".
Definition PRIVILEGE_ESCALATION_RULE_ID : string := "CER-DET-000103".
Definition THRESHOLD_FAILED_LOGIN_RULE_ID : string := "CER-DET-000001".
Definition ACCOUNT_COMPROMISE_RULE_ID : string := "CER-COR-0003".
Definition RULE_VERSION : string := "1".
Definition CORRELATION_RULE_VERSION : string := "2".
Definition MAX_BATCH_EVENTS : Z := 10000.

(** [include_str!("../../../rules/sigma/linux_sshd_failed_login_burst.yml")] *)
Definition THRESHOLD_SIGMA_SOURCE : string :=
"title: CERBERO Linux SSH Failed Login
id: 3f954d8c-9af7-4dcc-bacd-6bdfd2ad6b4b
name: cerbero_linux_sshd_failed_login
taxonomy: ocsf
logsource:
    product: linux
    service: sshd
detection:
    selection:
        activity_name: 'Logon'
        status: 'Failure'
    condition: selection
---
title: CERBERO Linux SSH Authentication Burst
id: b6354e60-2047-4e3a-9bb3-a6531265a2fb
status: stable
description: Detects at least ten failed SSH logins for the same user and source IP within five minutes.
author: CERBERO Project
license: Apache-2.0
taxonomy: ocsf
correlation:
    type: event_count
    rules:
        - cerbero_linux_sshd_failed_login
    group-by:
        - user.name
        - src_endpoint.ip
    timespan: 5m
    condition:
        gte: 10
level: high
cerbero_rule_id: CER-DET-000001
cerbero_rule_version: '1'
cerbero_time_basis: EVENT_TIME
cerbero_time_field: time
cerbero_late_event_policy: ACCEPT
".

Definition runtime (message : string) : RuntimeError := mkRuntimeError message.

Abbreviation MvpExpression := (DetectionExpression string string).

(** [Display for SigmaImportError] *)
Definition SigmaImportError_fmt `{DebugStr} (e : SigmaImportError) : string :=
  match e with
  | SigmaMessage message => message
  | SigmaValueMismatch field expected actual =>
      field +:+ " must be " +:+ debug_str expected +:+ ", observed "
      +:+ match actual with Some actual => "Some(" +:+ debug_str actual +:+ ")" | None => "None" end
  end.

(** ** Field and value types *)

Inductive MvpFieldType : Set := Text | Number.

#[global] Instance MvpFieldType_eq_dec : EqDecision MvpFieldType.
Proof. solve_decision. Defined.
#[global] Instance ComparisonOperator_eq_dec : EqDecision ComparisonOperator.
Proof. solve_decision. Defined.

Inductive MvpFieldResolver : Set := mkMvpFieldResolver.
Inductive MvpValueResolver : Set := mkMvpValueResolver.
Inductive MvpComparisonPolicy : Set := mkMvpComparisonPolicy.
Inductive MvpFieldProfileResolver : Set := mkMvpFieldProfileResolver.

Definition mvp_field_type (field : string) : option MvpFieldType :=
  if String.eqb field "activity_name" || String.eqb field "status"
     || String.eqb field "user.name" || String.eqb field "src_endpoint.ip"
  then Some Text
  else if String.eqb field "time" then Some Number
  else None.

#[global] Instance MvpFieldResolver_types : FieldTypeResolver MvpFieldResolver MvpFieldType :=
  fun _ field => mvp_field_type field.

#[global] Instance MvpValueResolver_types : ValueTypeResolver MvpValueResolver string MvpFieldType :=
  fun _ _ => Text.

#[global] Instance MvpComparisonPolicy_types :
  ComparisonTypePolicy MvpComparisonPolicy MvpFieldType MvpFieldType :=
  fun _ field_type operator value_type =>
    reject_if (bool_decide (field_type <> value_type)) TypeError ;;?
    reject_if (bool_decide (operator <> Op_Eq)) InvalidOperator ;;?
    Ok tt.

(** ** Field profiles *)

(** The [BTreeSet] is a [BTreeMap] without values. *)
Fixpoint collect_expression_fields (expression : MvpExpression) (fields : BTreeMap string unit)
    : BTreeMap string unit :=
  match expression with
  | Expr_Boolean boolean =>
      match boolean with
      | Bool_And children | Bool_Or children =>
          foldl (fun fields child => collect_expression_fields child fields) fields children
      | Bool_Not child => collect_expression_fields child fields
      end
  | Expr_Comparison comparison => bt_insert (cx_field comparison) tt fields
  | Expr_Exists exists_ => bt_insert (ex_field exists_) tt fields
  end.

Definition MvpProfile : Type :=
  EventFieldProfile (list string) (list string) (BTreeMap string MvpFieldType).

#[global] Instance MvpFieldProfileResolver_profile :
  EventFieldProfileResolver MvpFieldProfileResolver string string MvpProfile :=
  fun _ expression =>
    let fields := collect_expression_fields expression [] in
    let required_fields := fst <$> fields in
    let? field_types :=
      fold_m (fun field_types field =>
          let? field_type := ok_or (resolve_field_type mkMvpFieldResolver field) UnknownField in
          Ok (bt_insert field field_type field_types))
        required_fields [] in
    Ok (mkEventFieldProfile _ _ _ required_fields [] field_types).

(** ** Plans *)

Definition MvpExecutionPlan : Type :=
  ExecutionPlan string string (list string) (EventPredicate string string) unit unit unit string.
Definition MvpCompiledEventPlan : Type := CompiledEventExecutionPlan MvpExecutionPlan MvpProfile.
Definition MvpCompiledThresholdPlan : Type :=
  CompiledThresholdExecutionPlan MvpExecutionPlan MvpProfile string.

Record MvpPlanCompiler := mkMvpPlanCompiler {
  mc_plan_id : string;
  mc_rule_id : string;
  mc_rule_version : string;
  mc_plan_hash : string;
}.

#[global] Instance MvpPlanCompiler_compiler :
  EventExecutionPlanCompiler MvpPlanCompiler string string MvpProfile MvpExecutionPlan := {|
  supported_backends_of _ _ _ := Ok (mkExecutionBackendCapabilities true false);
  compile_event_plan c backend predicate field_profile :=
    let? rule_id := map_err (fun _ => InvalidMapping) (RuleId_from_str (mc_rule_id c)) in
    Ok (mkExecutionPlan (mc_plan_id c) rule_id (mc_rule_version c) backend
          (required_fields _ _ _ field_profile) predicate tt tt tt (mc_plan_hash c));
|}.

Definition mvp_and (children : list MvpExpression) : MvpExpression := Expr_Boolean (Bool_And children).
Definition mvp_eq (field value : string) : MvpExpression :=
  Expr_Comparison (mkComparisonExpression field Op_Eq value).

Definition failed_login_expression : MvpExpression :=
  mvp_and [mvp_eq "activity_name" "Logon"; mvp_eq "status" "Failure"].
Definition successful_login_expression : MvpExpression :=
  mvp_and [mvp_eq "activity_name" "Logon"; mvp_eq "status" "Success"].
Definition privilege_escalation_expression : MvpExpression :=
  mvp_eq "activity_name" "Privilege Escalation".

Inductive MvpSequenceOrdering : Set := Observed.

#[global] Instance MvpSequenceOrdering_eq_dec : EqDecision MvpSequenceOrdering.
Proof. solve_decision. Defined.

Section Compilation.
Context `{Sha256}.

Definition compile_event_rule (rule_id plan_name : string) (expression : MvpExpression)
    : result MvpCompiledEventPlan RuntimeError :=
  let compiler := mkMvpPlanCompiler plan_name rule_id RULE_VERSION (sha256_lower_hex (str_bytes plan_name)) in
  let stages := mkStages mkIdentityEventAstOptimizer mkMvpFieldProfileResolver compiler in
  map_err (fun error => runtime ("EVENT rule " +:+ rule_id +:+ " compilation failed: "
                                 +:+ RuleCompilationErrorKind_as_str error))
    (compile_event_execution_plan expression ClickHouse mkMvpFieldResolver mkMvpValueResolver
       mkMvpComparisonPolicy stages).

Definition compile_threshold_rule `{SerdeYaml} `{DebugStr} : result MvpCompiledThresholdPlan RuntimeError :=
  let? imported :=
    map_err (fun error => runtime ("Sigma THRESHOLD import failed: " +:+ SigmaImportError_fmt error))
      (parse_sigma_threshold_rule THRESHOLD_SIGMA_SOURCE) in
  reject_if (negb (String.eqb (RuleId_as_str (im_rule_id imported)) THRESHOLD_FAILED_LOGIN_RULE_ID))
    (runtime ("Sigma THRESHOLD identity drift: expected " +:+ THRESHOLD_FAILED_LOGIN_RULE_ID
              +:+ ", observed " +:+ RuleId_fmt (im_rule_id imported))) ;;?
  map_err (fun error => runtime ("Sigma STABLE rule contract failed: " +:+ RuleContractError_fmt error))
    (validate_rule_status (im_status imported) AutomatedTestCoverage_complete) ;;?
  let compiler :=
    mkMvpPlanCompiler "sigma-linux-sshd-failed-login-burst-v1" (RuleId_fmt (im_rule_id imported))
      (im_rule_version imported)
      (sha256_lower_hex (str_bytes ("sigma-threshold-clickhouse-v1:" +:+ im_content_hash imported))) in
  let stages := mkStages mkIdentityEventAstOptimizer mkMvpFieldProfileResolver compiler in
  map_err (fun error => runtime ("THRESHOLD rule compilation failed: "
                                 +:+ RuleCompilationErrorKind_as_str error))
    (compile_threshold_execution_plan (im_threshold_rule imported) ClickHouse mkMvpFieldResolver
       mkMvpValueResolver mkMvpComparisonPolicy stages).

Definition sequence_rule : SequenceCorrelationRule string string MvpSequenceOrdering :=
  mkSequenceCorrelationRule ACCOUNT_COMPROMISE_RULE_ID CORRELATION_RULE_VERSION
    [FAILED_LOGIN_RULE_ID; SUCCESSFUL_LOGIN_RULE_ID; PRIVILEGE_ESCALATION_RULE_ID]
    ["user.name"] 600000 Observed
    (sha256_lower_hex (str_bytes "mvp-account-compromise-sequence-v1")).

Definition compile_sequence_rule
    : result (CompiledSequenceCorrelationPlan string string MvpSequenceOrdering) RuntimeError :=
  map_err (fun error => runtime ("SEQUENCE rule compilation failed: "
                                 +:+ RuleCompilationErrorKind_as_str error))
    (compile_sequence_correlation_plan sequence_rule ClickHouse).
End Compilation.

(** ** Event fields *)

Record MvpPolicyError := mkMvpPolicyError { mvp_policy_message : string }.
#[global] Instance MvpPolicyError_display : Display MvpPolicyError := mvp_policy_message.

(** [f64] as the datum [m * 2^e]: the tests and the cast of [event_integer_field] *)
Definition f64_is_finite (x : f64) : bool :=
  match x with S754_zero _ | S754_finite _ _ _ => true | _ => false end.

(** [x.fract().abs() > f64::EPSILON] for a finite [x]; EPSILON is 2^-52 *)
Definition f64_fract_exceeds_epsilon (x : f64) : bool :=
  match x with
  | S754_finite _ m e =>
      if (0 <=? e)%Z then false
      else (2 ^ (- e) <? (Zpos m mod 2 ^ (- e)) * 2 ^ 52)%Z
  | _ => false
  end.

(** [x.abs() > limit] for a finite [x] and an integral [limit] *)
Definition f64_abs_exceeds (limit : Z) (x : f64) : bool :=
  match x with
  | S754_finite _ m e =>
      if (0 <=? e)%Z then (limit <? Zpos m * 2 ^ e)%Z else (limit * 2 ^ (- e) <? Zpos m)%Z
  | _ => false
  end.

(** The integral part, towards zero *)
Definition f64_trunc (x : f64) : Z :=
  match x with
  | S754_finite s m e =>
      let n := if (0 <=? e)%Z then (Zpos m * 2 ^ e)%Z else (Zpos m / 2 ^ (- e))%Z in
      if s then (- n)%Z else n
  | _ => 0%Z
  end.

(** [x as i64]: saturating, NaN is 0 *)
Definition f64_as_i64 (x : f64) : Z :=
  match x with
  | S754_nan => 0%Z
  | S754_infinity s => if s then i64_min else i64_max
  | _ => Z.max i64_min (Z.min i64_max (f64_trunc x))
  end.

Definition MAX_SAFE_INTEGER : Z := 9007199254740991.

Definition event_string_field (event : NormalizedEvent) (field : string)
    : result (option string) MvpPolicyError :=
  match field_state (mkNormalizedEventFieldView event) field with
  | Present value =>
      match value_kind value with
      | Some (StringValue value) => Ok (Some value)
      | _ => Err (mkMvpPolicyError ("field " +:+ field +:+ " is not a string"))
      end
  | Absent | Null => Ok None
  | Malformed => Err (mkMvpPolicyError ("field " +:+ field +:+ " is malformed"))
  end.

Definition event_integer_field (event : NormalizedEvent) (field : string)
    : result (option Z) MvpPolicyError :=
  match field_state (mkNormalizedEventFieldView event) field with
  | Present value =>
      match value_kind value with
      | Some (NumberValue number) =>
          if negb (f64_is_finite number) || f64_fract_exceeds_epsilon number
             || f64_abs_exceeds MAX_SAFE_INTEGER number
          then Err (mkMvpPolicyError ("field " +:+ field +:+ " is not an integral i64-compatible number"))
          else Ok (Some (f64_as_i64 number))
      | _ => Err (mkMvpPolicyError ("field " +:+ field +:+ " is not numeric"))
      end
  | Absent | Null => Ok None
  | Malformed => Err (mkMvpPolicyError ("field " +:+ field +:+ " is malformed"))
  end.

(** ** [MvpPolicy] *)

Inductive MvpPolicy : Set := mkMvpPolicy.

#[global] Instance MvpPolicy_leaves :
  EventLeafEvaluationPolicy MvpPolicy string string Value MvpPolicyError := {|
  evaluate_exists _ _ state := Ok (match state with Present _ => true | _ => false end);
  evaluate_comparison _ field state operator rule_value :=
    match state with
    | Present actual =>
        match value_kind actual with
        | Some (StringValue actual) =>
            match operator with
            | Op_Eq => Ok (String.eqb actual rule_value)
            | _ => Err (mkMvpPolicyError ("operator " +:+ ComparisonOperator_as_str operator
                                         +:+ " is unsupported by the MVP leaf policy"))
            end
        | _ => Err (mkMvpPolicyError ("field " +:+ field +:+ " is not a string for MVP comparison"))
        end
    | _ => Ok false
    end;
|}.

(** [for field in group_by]: [None] is the early [return Ok(None)] *)
Fixpoint mvp_group_key (event : NormalizedEvent) (group_by : list string)
    : result (option (list string)) MvpPolicyError :=
  match group_by with
  | [] => Ok (Some [])
  | field :: group_by =>
      let? value := event_string_field event field in
      match value with
      | None => Ok None
      | Some value =>
          let? key := mvp_group_key event group_by in
          Ok (match key with Some key => Some (value :: key) | None => None end)
      end
  end.

#[global] Instance MvpPolicy_threshold :
  ThresholdEvaluationPolicy MvpPolicy string (list string) MvpPolicyError := {|
  threshold_group_key _ group_by event := mvp_group_key event group_by;
  threshold_event_time_millis _ time_basis time_field event :=
    match time_basis with
    | EventTime => event_integer_field event time_field
    | IngestTime => Err (mkMvpPolicyError "MVP batch threshold supports EVENT_TIME only")
    end;
|}.

(** ** Times and batch events *)

Definition timestamp_to_millis_checked (timestamp : Timestamp) : result Z MvpPolicyError :=
  ok_or match checked_mul in_i64 (ts_seconds timestamp) 1000 with
        | Some millis => checked_add in_i64 millis (Z.quot (ts_nanos timestamp) 1000000)
        | None => None
        end
    (mkMvpPolicyError "timestamp milliseconds overflow i64").

Definition timestamp_millis (timestamp : option Timestamp) : Z :=
  match timestamp with
  | Some value =>
      match timestamp_to_millis_checked value with Ok millis => millis | _ => i64_min end
  | None => i64_min
  end.

Record BatchEvent := mkBatchEvent {
  be_event : NormalizedEvent;
  be_source_event_time : option Timestamp;
}.

(** ** [MvpSequencePolicy] *)

Record MvpSequencePolicy := mkMvpSequencePolicy { user_by_event_id : gmap string string }.

Definition MvpSequencePolicy_new (events : list BatchEvent) : result MvpSequencePolicy RuntimeError :=
  let? users := fold_m (fun (users : gmap string string) batch_event =>
      let? user := map_err (fun error => runtime ("user extraction failed: " +:+ to_string error))
        (event_string_field (be_event batch_event) "user.name") in
      Ok (match user with
          | Some user => <[ne_normalized_event_id (be_event batch_event) := user]> users
          | None => users
          end))
    events ∅ in
  Ok (mkMvpSequencePolicy users).

Definition mvp_sequence_time (signal : Signal) : option Z :=
  match sg_first_observed_at signal with
  | Some timestamp =>
      match timestamp_to_millis_checked timestamp with Ok millis => Some millis | _ => None end
  | None => None
  end.

#[global] Instance MvpSequencePolicy_policy :
  SequenceCorrelationEvaluationPolicy MvpSequencePolicy string string MvpSequenceOrdering
    string (Z * string) MvpPolicyError := {|
  stage_matches _ stage signal := Ok (String.eqb (sg_rule_id signal) stage);
  sequence_group_key policy join_keys signal :=
    reject_if (negb (length join_keys =? 1)%nat
               || negb (bool_decide (join_keys !! 0 = Some "user.name")))
      (mkMvpPolicyError "MVP sequence requires join key user.name") ;;?
    match List.find (fun input =>
            (si_input_type input =? SignalInputType_as_i32 SignalInputType_NormalizedEvent)%Z)
            (sg_inputs signal) with
    | None => Ok None
    | Some input => Ok (user_by_event_id policy !! si_input_id input)
    end;
  sequence_time_millis _ signal := Ok (mvp_sequence_time signal);
  sequence_order_key _ ordering signal :=
    reject_if (bool_decide (ordering <> Observed)) (mkMvpPolicyError "unsupported MVP sequence ordering") ;;?
    Ok (match mvp_sequence_time signal with
        | Some millis => Some (millis, sg_signal_id signal)
        | None => None
        end);
|}.
