(* ===== verification/MvpRulesSpec.v ===== *)
(** * What the MVP rule pack detects

    The frozen rules of [MvpRules] compile, and their plans under the MVP
    policies mean: a failed login, a successful login, a privilege escalation,
    a burst of ten failed logins of one user and address within five minutes,
    and the account-compromise sequence within ten minutes. *)

From Stdlib Require Import SpecFloat QArith Qabs.
From S2P Require Import Prelude RustStd ContractTypes Validation SignalContract FindingContract RuleContract DetectionAst EventPipeline EventSignal Threshold ThresholdSpec Correlation CorrelationSpec Sigma Effects Database Repository MvpRules.

(** The OCSF field of the event is this text. *)
Definition text_field (e : NormalizedEvent) (field text : string) : Prop :=
  field_state (mkNormalizedEventFieldView e) field = Present (mkValue (Some (StringValue text))).

Lemma event_string_field_some e field text :
  event_string_field e field = Ok (Some text) <-> text_field e field text.
Proof.
  unfold event_string_field, text_field. destruct (field_state _ field) as [[[[]|]]| | |]; naive_solver.
Qed.

Lemma comparison_true (e : NormalizedEvent) field text :
  evaluate_comparison mkMvpPolicy field (field_state (mkNormalizedEventFieldView e) field) Op_Eq text
    = Ok true <-> text_field e field text.
Proof.
  unfold text_field. simpl. destruct (field_state _ field) as [[[[]|]]| | |]; simpl; try naive_solver.
  split; [intros [= ->%String.eqb_eq]; done|intros [= ->]; by rewrite String.eqb_refl].
Qed.

Lemma all_m_true {A E} (f : A -> result bool E) l :
  all_m f l = Ok true <-> Forall (fun x => f x = Ok true) l.
Proof.
  induction l as [|x l IH]; simpl; [by split|]. rewrite Forall_cons, <-IH.
  destruct (f x) as [[]| |]; simpl; naive_solver.
Qed.

(** The conjunctions of equalities that the rules use *)
Lemma mvp_conjunction e (pairs : list (string * string)) :
  evaluate_predicate (mkNormalizedEventFieldView e) mkMvpPolicy
    (Pred_And ((fun p => Pred_Comparison p.1 Op_Eq p.2) <$> pairs)) = Ok true <->
  Forall (fun p => text_field e p.1 p.2) pairs.
Proof.
  cbn [evaluate_predicate]. rewrite all_m_fmap, all_m_true.
  apply Forall_iff. intros p. apply comparison_true.
Qed.

(** ** EVENT rules *)

Section EventRules.
Context `{Sha256}.

Definition mvp_plan (rule_id plan_name : string) (fields : list string)
    (expression : MvpExpression) : MvpExecutionPlan :=
  mkExecutionPlan plan_name (mkRuleId rule_id) RULE_VERSION ClickHouse fields
    (lower_event_predicate expression) tt tt tt (sha256_lower_hex (str_bytes plan_name)).

Definition compiled_rule (plan : MvpExecutionPlan) : MvpCompiledEventPlan :=
  mkCompiledEventExecutionPlan plan
    (mkEventFieldProfile _ _ _ (pl_required_fields _ _ _ _ _ _ _ _ plan) []
       ((fun f => (f, Text)) <$> pl_required_fields _ _ _ _ _ _ _ _ plan))
    (mkExecutionBackendCapabilities true false).

Definition failed_login_plan : MvpExecutionPlan :=
  mvp_plan FAILED_LOGIN_RULE_ID "mvp-failed-login-v1" ["activity_name"; "status"] failed_login_expression.
Definition successful_login_plan : MvpExecutionPlan :=
  mvp_plan SUCCESSFUL_LOGIN_RULE_ID "mvp-successful-login-v1" ["activity_name"; "status"]
    successful_login_expression.
Definition privilege_escalation_plan : MvpExecutionPlan :=
  mvp_plan PRIVILEGE_ESCALATION_RULE_ID "mvp-privilege-escalation-v1" ["activity_name"]
    privilege_escalation_expression.

Lemma failed_login_compiles :
  compile_event_rule FAILED_LOGIN_RULE_ID "mvp-failed-login-v1" failed_login_expression
    = Ok (compiled_rule failed_login_plan).
Proof. reflexivity. Qed.

Lemma successful_login_compiles :
  compile_event_rule SUCCESSFUL_LOGIN_RULE_ID "mvp-successful-login-v1" successful_login_expression
    = Ok (compiled_rule successful_login_plan).
Proof. reflexivity. Qed.

Lemma privilege_escalation_compiles :
  compile_event_rule PRIVILEGE_ESCALATION_RULE_ID "mvp-privilege-escalation-v1"
    privilege_escalation_expression = Ok (compiled_rule privilege_escalation_plan).
Proof. reflexivity. Qed.

(** A match of an EVENT plan, by its predicate *)
Lemma mvp_plan_matches (plan : MvpExecutionPlan) e mode at_ :
  uuid_v7 (ne_normalized_event_id e) -> timestamp_ok at_ -> mode <> ExecutionMode_Unspecified ->
  (exists p, evaluate_normalized_event_for_signal (RuleVersion := string) plan e mode at_ mkMvpPolicy
     = Ok (Signal_Match p)) <->
  evaluate_predicate (mkNormalizedEventFieldView e) mkMvpPolicy (pl_predicates plan) = Ok true.
Proof.
  intros Hid Hat Hm. setoid_rewrite evaluate_for_signal_ok_iff. split.
  - intros (p & _ & _ & _ & [] & Hb & Hr); done.
  - intros Hb. eexists. split_and!; [done..|]. exists true. split; [exact Hb|reflexivity].
Qed.

End EventRules.

(** ** The THRESHOLD rule *)

(** The two documents of rules/sigma/linux_sshd_failed_login_burst.yml *)
Definition burst_base : SigmaDocument :=
  mkSigmaDocument "CERBERO Linux SSH Failed Login" (Some "3f954d8c-9af7-4dcc-bacd-6bdfd2ad6b4b")
    (Some "cerbero_linux_sshd_failed_login") (Some "ocsf") None
    (Some (mkSigmaLogSource (Some "linux") (Some "sshd")))
    (Some (mkSigmaDetection "selection"
             [("selection", [("activity_name", "Logon"); ("status", "Failure")])]))
    None None None None None None None.

Definition burst_correlation : SigmaDocument :=
  mkSigmaDocument "CERBERO Linux SSH Authentication Burst" (Some "b6354e60-2047-4e3a-9bb3-a6531265a2fb")
    None (Some "ocsf") (Some "stable") None None
    (Some (mkSigmaCorrelation "event_count" ["cerbero_linux_sshd_failed_login"]
             ["user.name"; "src_endpoint.ip"] "5m" (mkSigmaCountCondition 10)))
    (Some "high") (Some "CER-DET-000001") (Some "1") (Some "EVENT_TIME") (Some "time") (Some "ACCEPT").

Section ThresholdRule.
Context `{Sha256} `{SerdeYaml} `{DebugStr}.

(** What a YAML reader makes of the embedded rule file *)
Hypothesis burst_documents : yaml_documents THRESHOLD_SIGMA_SOURCE = [inl burst_base; inl burst_correlation].

Definition burst_plan : MvpCompiledThresholdPlan :=
  let hash := sha256_lower_hex (str_bytes THRESHOLD_SIGMA_SOURCE) in
  mkCompiledThresholdExecutionPlan
    (compiled_rule
       (mkExecutionPlan "sigma-linux-sshd-failed-login-burst-v1" (mkRuleId THRESHOLD_FAILED_LOGIN_RULE_ID)
          "1" ClickHouse ["activity_name"; "status"] (lower_event_predicate failed_login_expression)
          tt tt tt (sha256_lower_hex (str_bytes ("sigma-threshold-clickhouse-v1:" +:+ hash)))))
    ["user.name"; "src_endpoint.ip"] Aggregation_Count 10
    (mkThresholdWindow 300000 EventTime "time" Accept) (mkExecutionBackendCapabilities true false).

Lemma threshold_rule_compiles : compile_threshold_rule = Ok burst_plan.
Proof.
  unfold compile_threshold_rule, parse_sigma_threshold_rule. rewrite burst_documents. reflexivity.
Qed.

Lemma burst_plan_ok : plan_ok burst_plan.
Proof. unfold plan_ok. simpl. unfold batch_window. simpl. lia. Qed.

(** A failed login of a user from an address, at a time in milliseconds *)
Definition failed_login (tenant user address : string) (e : NormalizedEvent) (t : Z) : Prop :=
  ne_tenant_id e = tenant /\ text_field e "activity_name" "Logon" /\ text_field e "status" "Failure" /\
  text_field e "user.name" user /\ text_field e "src_endpoint.ip" address /\
  event_integer_field e "time" = Ok (Some t).

Lemma mvp_group_key_pair e f1 f2 v1 v2 :
  mvp_group_key e [f1; f2] = Ok (Some [v1; v2]) <-> text_field e f1 v1 /\ text_field e f2 v2.
Proof.
  rewrite <-!event_string_field_some. simpl.
  destruct (event_string_field e f1) as [[]| |]; simpl; try naive_solver.
  destruct (event_string_field e f2) as [[]| |]; simpl; naive_solver.
Qed.

Lemma burst_participates tenant user address e t :
  participates burst_plan mkMvpPolicy (tenant, [user; address]) e t <->
  failed_login tenant user address e t.
Proof.
  unfold participates, failed_login. cbn [fst snd].
  change (threshold_group_key mkMvpPolicy (tp_group_by burst_plan) e) with
    (mvp_group_key e ["user.name"; "src_endpoint.ip"]).
  change (threshold_event_time_millis mkMvpPolicy (tw_time_basis (tp_window burst_plan))
    (tw_time_field (tp_window burst_plan)) e) with (event_integer_field e "time").
  rewrite mvp_group_key_pair.
  assert (evaluate_predicate (mkNormalizedEventFieldView e) mkMvpPolicy
    (event_predicates (cp_plan (tp_filter burst_plan))) = Ok true <->
    text_field e "activity_name" "Logon" /\ text_field e "status" "Failure") as ->.
  { etrans; [apply (mvp_conjunction e [("activity_name", "Logon"); ("status", "Failure")])|].
    rewrite !Forall_cons, Forall_nil. tauto. }
  split; intuition congruence.
Qed.

End ThresholdRule.

(** ** The SEQUENCE rule *)

Section SequenceRule.
Context `{Sha256}.

Definition account_compromise_plan : CompiledSequenceCorrelationPlan string string MvpSequenceOrdering :=
  mkCompiledSequenceCorrelationPlan ACCOUNT_COMPROMISE_RULE_ID CORRELATION_RULE_VERSION
    [FAILED_LOGIN_RULE_ID; SUCCESSFUL_LOGIN_RULE_ID; PRIVILEGE_ESCALATION_RULE_ID] ["user.name"] 600000
    Observed ClickHouse (mkExecutionBackendCapabilities true false)
    (sha256_lower_hex (str_bytes "mvp-account-compromise-sequence-v1")).

Lemma digest_has_text bytes : has_text (sha256_lower_hex bytes).
Proof.
  pose proof (sha256_lower_hex_digest bytes) as [Hlen Hhex]. unfold has_text. rewrite trim_graphic.
  - intros He. by rewrite He in Hlen.
  - eapply Forall_impl; [exact Hhex|]. intros b. unfold is_lower_hex, is_ascii_digit, byte_in.
    rewrite orb_true_iff, !in_range_spec. lia.
Qed.

Lemma sequence_rule_compiles : compile_sequence_rule = Ok account_compromise_plan.
Proof.
  apply map_err_ok_iff, compile_sequence_ok_iff. split_and!; try done.
  - apply digest_has_text.
  - apply NoDup_singleton.
Qed.

Lemma order_key_time (k1 k2 : Z * string) : cmp_le k1 k2 = true -> (k1.1 <= k2.1)%Z.
Proof.
  destruct k1 as [t1 i1], k2 as [t2 i2]. unfold cmp_le. simpl.
  destruct (Z.compare_spec t1 t2); simpl; intros; [lia|lia|done].
Qed.

(** The MVP order key starts with the time, so time follows the order. *)
Lemma mvp_time_follows_order (policy : MvpSequencePolicy) signals k :
  time_follows_order account_compromise_plan policy signals k.
Proof.
  intros s s' c c' _ _ Hc Hc' Hle.
  apply sequence_candidate_member in Hc as (_ & _ & _ & Ht & Ho & _).
  apply sequence_candidate_member in Hc' as (_ & _ & _ & Ht' & Ho' & _).
  simpl in Ht, Ho, Ht', Ho'. injection Ht as Ht. injection Ht' as Ht'.
  rewrite Ht in Ho. rewrite Ht' in Ho'. injection Ho as Ho. injection Ho' as Ho'.
  apply order_key_time in Hle. by rewrite <-Ho, <-Ho' in Hle.
Qed.

(** The user whose event the Signal reports *)
Definition signal_user (policy : MvpSequencePolicy) (s : Signal) : option string :=
  match List.find (fun input => (si_input_type input =? 1)%Z) (sg_inputs s) with
  | Some input => user_by_event_id policy !! si_input_id input
  | None => None
  end.

(** A Signal of the given rule about the user, observed at [t] *)
Definition observed_signal (policy : MvpSequencePolicy) (tenant user rule_id : string) (s : Signal) (t : Z)
    : Prop :=
  sg_tenant_id s = tenant /\ sg_rule_id s = rule_id /\ signal_user policy s = Some user /\
  mvp_sequence_time s = Some t.

Definition account_stages : list string :=
  [FAILED_LOGIN_RULE_ID; SUCCESSFUL_LOGIN_RULE_ID; PRIVILEGE_ESCALATION_RULE_ID].

Definition observed_at (i : nat) (s : Signal) (t : Z) : SequenceCandidate (Z * string) :=
  mkSequenceCandidate (sg_signal_id s) [i] t (t, sg_signal_id s).

Lemma observed_candidate policy tenant user i rule_id s t :
  account_stages !! i = Some rule_id -> observed_signal policy tenant user rule_id s t ->
  sequence_candidate account_compromise_plan policy s = Ok (Some ((tenant, user), observed_at i s t)).
Proof.
  intros Hi (Ht & Hr & Hu & Htime). unfold sequence_candidate.
  assert (matching_stages (Error := MvpPolicyError) account_compromise_plan policy s = Ok [i]) as ->.
  { unfold matching_stages. simpl. rewrite Hr.
    destruct i as [|[|[|i]]]; [injection Hi as <-..|done]; reflexivity. }
  simpl. unfold signal_user in Hu. destruct (List.find _ _); [|done]. rewrite Hu. simpl. rewrite Htime.
  simpl. by rewrite Ht.
Qed.

Lemma elem_of_3 {A} (x a b c : A) : x ∈ [a; b; c] -> x = a \/ x = b \/ x = c.
Proof. rewrite !elem_of_cons, elem_of_nil. tauto. Qed.

Lemma account_compromise_found (policy : MvpSequencePolicy) signals mode ms tenant user
    s1 s2 s3 t1 t2 t3 :
  evaluate_sequence_signals account_compromise_plan policy signals mode = Ok ms ->
  s1 ∈ signals -> s2 ∈ signals -> s3 ∈ signals ->
  observed_signal policy tenant user FAILED_LOGIN_RULE_ID s1 t1 ->
  observed_signal policy tenant user SUCCESSFUL_LOGIN_RULE_ID s2 t2 ->
  observed_signal policy tenant user PRIVILEGE_ESCALATION_RULE_ID s3 t3 ->
  cmp_lt (t1, sg_signal_id s1) (t2, sg_signal_id s2) = true ->
  cmp_lt (t2, sg_signal_id s2) (t3, sg_signal_id s3) = true -> (t3 - t1 <= 600000)%Z ->
  exists m cs, (m ∈ ms) /\ correlates account_compromise_plan policy signals mode (tenant, user) cs m /\
    Forall2 (fun c' c => cmp_le (sc_order_key c') (sc_order_key c) = true) cs
      [observed_at 0 s1 t1; observed_at 1 s2 t2; observed_at 2 s3 t3].
Proof.
  intros Heval H1 H2 H3 Ho1 Ho2 Ho3 H12 H23 Hw.
  pose proof (order_key_time _ _ (cmp_lt_le _ _ H12)) as L12.
  pose proof (order_key_time _ _ (cmp_lt_le _ _ H23)) as L23. simpl in L12, L23.
  eapply (evaluate_sequence_complete account_compromise_plan policy signals mode ms (tenant, user)).
  - by split.
  - done.
  - apply mvp_time_follows_order.
  - intros c [-> | [-> | ->]]%elem_of_3;
      [exists s1|exists s2|exists s3]; (split; [done|by eapply observed_candidate]).
  - split; [repeat constructor|]. repeat constructor; try done.
    apply (cmp_le_lt_trans _ _ _ (cmp_lt_le _ _ H12) H23).
  - intros c d [-> | [-> | ->]]%elem_of_3 [-> | [-> | ->]]%elem_of_3; unfold sequence_window; simpl; lia.
Qed.

(** Three Signals about one user, in the order of the stages and within ten minutes *)
Definition compromise (policy : MvpSequencePolicy) (signals : list Signal) (tenant user : string)
    (s1 s2 s3 : Signal) : Prop :=
  exists t1 t2 t3, (s1 ∈ signals) /\ (s2 ∈ signals) /\ (s3 ∈ signals) /\
    observed_signal policy tenant user FAILED_LOGIN_RULE_ID s1 t1 /\
    observed_signal policy tenant user SUCCESSFUL_LOGIN_RULE_ID s2 t2 /\
    observed_signal policy tenant user PRIVILEGE_ESCALATION_RULE_ID s3 t3 /\
    cmp_lt (t1, sg_signal_id s1) (t2, sg_signal_id s2) = true /\
    cmp_lt (t2, sg_signal_id s2) (t3, sg_signal_id s3) = true /\ (t3 - t1 <= 600000)%Z.

Lemma member_observed policy k s c i rule_id :
  member account_compromise_plan policy k s c -> i ∈ sc_stage_indices c ->
  account_stages !! i = Some rule_id ->
  observed_signal policy k.1 k.2 rule_id s (sc_time_millis c) /\
  sc_order_key c = (sc_time_millis c, sg_signal_id s) /\ sc_signal_id c = sg_signal_id s.
Proof.
  intros (Hid & Ht & Hg & Htime & Ho & Hst) Hi Hr. apply Hst in Hi as (stage & Hstage & Hm).
  change (account_stages !! i = Some stage) in Hstage. simplify_eq.
  simpl in Hm, Hg, Htime, Ho. injection Hm as Hm%String.eqb_eq. injection Htime as Htime.
  rewrite Htime in Ho. injection Ho as <-. unfold observed_signal, signal_user. split_and!; try done.
  destruct (List.find _ _); [|done]. by injection Hg as ->.
Qed.

Lemma correlates_compromise policy signals mode k cs m :
  correlates account_compromise_plan policy signals mode k cs m ->
  exists s1 s2 s3, compromise policy signals k.1 k.2 s1 s2 s3 /\ sm_tenant_id m = k.1 /\
    sm_input_signal_ids m = [sg_signal_id s1; sg_signal_id s2; sg_signal_id s3].
Proof.
  intros (-> & _ & Hcs & [Hst Hord] & Hsp & _ & _ & _ & -> & _).
  change (Forall2 (fun i c => i ∈ sc_stage_indices c) [0; 1; 2] cs) in Hst.
  apply Forall2_cons_inv_l in Hst as (c1 & ? & H1 & Hst & ->).
  apply Forall2_cons_inv_l in Hst as (c2 & ? & H2 & Hst & ->).
  apply Forall2_cons_inv_l in Hst as (c3 & ? & H3 & Hst & ->).
  apply Forall2_nil_inv_l in Hst as ->.
  destruct (Hcs c1) as (s1 & ? & Hm1); [set_solver|].
  destruct (member_observed _ _ _ _ 0 _ Hm1 H1 eq_refl) as (? & Ho1 & I1).
  destruct (Hcs c2) as (s2 & ? & Hm2); [set_solver|].
  destruct (member_observed _ _ _ _ 1 _ Hm2 H2 eq_refl) as (? & Ho2 & I2).
  destruct (Hcs c3) as (s3 & ? & Hm3); [set_solver|].
  destruct (member_observed _ _ _ _ 2 _ Hm3 H3 eq_refl) as (? & Ho3 & I3).
  exists s1, s2, s3. split; [|by rewrite <-I1, <-I2, <-I3].
  apply StronglySorted_inv in Hord as [Hord [H12 _]%Forall_cons].
  apply StronglySorted_inv in Hord as [_ [H23 _]%Forall_cons]. unfold key_before in H12, H23.
  rewrite Ho1, Ho2 in H12. rewrite Ho2, Ho3 in H23.
  exists (sc_time_millis c1), (sc_time_millis c2), (sc_time_millis c3). split_and!; try done.
  apply (Hsp c1 c3); set_solver.
Qed.

End SequenceRule.

(** ** Event times: which numbers count as milliseconds *)

(** The rational value of a finite [f64] *)
Definition f64_value (x : f64) : option Q :=
  match x with
  | S754_zero _ => Some (0 # 1)%Q
  | S754_finite s m e =>
      let n := if s then Zneg m else Zpos m in
      Some (if (0 <=? e)%Z then (n * 2 ^ e # 1)%Q else (n # Z.to_pos (2 ^ (- e)))%Q)
  | _ => None
  end.

(** [z] is [q] rounded towards zero, less than [f64::EPSILON] away, and in the
    range where [f64] represents every integer *)
Definition nearly_integral (z : Z) (q : Q) : Prop :=
  (Qabs q <= MAX_SAFE_INTEGER # 1)%Q /\ (Qabs (q - (z # 1)) <= 1 # 2 ^ 52)%Q /\
  (Qabs (z # 1) <= Qabs q)%Q.

Lemma nearly_integral_iff z n p :
  nearly_integral z (n # p) <->
  (Z.abs n <= MAX_SAFE_INTEGER * Zpos p)%Z /\ (Z.abs (n - z * Zpos p) * 2 ^ 52 <= Zpos p)%Z /\
  (Z.abs z * Zpos p <= Z.abs n)%Z.
Proof.
  unfold nearly_integral, Qle, Qabs, Qminus, Qplus, Qopp, Qnum, Qden.
  rewrite !Z.mul_1_r, !Pos.mul_1_r, Z.mul_1_l. replace (n + - z * Zpos p)%Z with (n - z * Zpos p)%Z by lia.
  done.
Qed.

Lemma nearly_integral_opp z n p : nearly_integral (- z) (- n # p) <-> nearly_integral z (n # p).
Proof.
  rewrite !nearly_integral_iff. replace (- n - - z * Zpos p)%Z with (- (n - z * Zpos p))%Z by lia.
  by rewrite !Z.abs_opp.
Qed.

Lemma nearly_integral_pos z n p :
  (0 <= n)%Z -> nearly_integral z (n # p) <->
  (n <= MAX_SAFE_INTEGER * Zpos p)%Z /\ (n mod Zpos p * 2 ^ 52 <= Zpos p)%Z /\ z = (n / Zpos p)%Z.
Proof.
  intros Hn. rewrite nearly_integral_iff, (Z.abs_eq n) by done.
  pose proof (Z.div_mod n (Zpos p)) as Hd. pose proof (Z.mod_pos_bound n (Zpos p)) as Hm. split.
  - intros (? & Hc & Hz). assert (z = n / Zpos p)%Z as Hz'.
    { apply (Z.div_unique_pos _ _ _ (n - z * Zpos p)); [|lia]. nia. }
    split_and!; [done| |done]. rewrite Z.mod_eq by lia. rewrite <-Hz'. lia.
  - intros (? & Hc & ->). split_and!; [done| |].
    + rewrite Z.mod_eq in Hc by lia. rewrite Z.abs_eq; [lia|]. lia.
    + rewrite Z.abs_eq by (apply Z.div_pos; lia). lia.
Qed.

Lemma f64_magnitude (s : bool) m e :
  exists p, f64_value (S754_finite s m e) = Some ((if s then Z.opp else id) (Zpos m * 2 ^ Z.max 0 e)%Z # p)%Q /\
    Zpos p = (2 ^ Z.max 0 (- e))%Z.
Proof.
  simpl. destruct (Z.leb_spec 0 e).
  - exists 1%positive. rewrite (Z.max_r 0 e), (Z.max_l 0 (- e)) by lia.
    split; [|done]. destruct s; [|done]. by rewrite <-Z.mul_opp_l.
  - exists (Z.to_pos (2 ^ (- e))). rewrite Z2Pos.id, (Z.max_l 0 e), (Z.max_r 0 (- e)) by lia.
    rewrite Z.mul_1_r. by destruct s.
Qed.

Lemma f64_tests s m e :
  let n := (Zpos m * 2 ^ Z.max 0 e)%Z in
  let p := (2 ^ Z.max 0 (- e))%Z in
  f64_fract_exceeds_epsilon (S754_finite s m e) = (p <? n mod p * 2 ^ 52)%Z /\
  f64_abs_exceeds MAX_SAFE_INTEGER (S754_finite s m e) = (MAX_SAFE_INTEGER * p <? n)%Z /\
  f64_trunc (S754_finite s m e) = (if s then Z.opp else id) (n / p)%Z.
Proof.
  simpl. destruct (Z.leb_spec 0 e).
  - rewrite (Z.max_r 0 e), (Z.max_l 0 (- e)) by lia. rewrite Z.mod_1_r, Z.div_1_r, Z.mul_1_r.
    by destruct s.
  - rewrite (Z.max_l 0 e), (Z.max_r 0 (- e)) by lia. rewrite Z.mul_1_r. by destruct s.
Qed.

Lemma f64_as_i64_small s m e :
  (Z.abs (f64_trunc (S754_finite s m e)) <= MAX_SAFE_INTEGER)%Z ->
  f64_as_i64 (S754_finite s m e) = f64_trunc (S754_finite s m e).
Proof. unfold f64_as_i64, MAX_SAFE_INTEGER, i64_min, i64_max. lia. Qed.

Definition f64_accepted (x : f64) : Prop :=
  f64_is_finite x = true /\ f64_fract_exceeds_epsilon x = false /\
  f64_abs_exceeds MAX_SAFE_INTEGER x = false.

Lemma f64_accepted_iff x z :
  f64_accepted x /\ f64_as_i64 x = z <-> exists q, f64_value x = Some q /\ nearly_integral z q.
Proof.
  unfold f64_accepted. destruct x as [s|s| |s m e]; simpl f64_is_finite.
  - simpl. setoid_rewrite (inj_iff Some). split.
    + intros [_ <-]. exists (0 # 1)%Q. split; [done|]. by apply nearly_integral_pos.
    + intros (q & <- & (_ & _ & ->)%nearly_integral_pos); done.
  - naive_solver.
  - naive_solver.
  - destruct (f64_tests s m e) as (-> & -> & Ht). destruct (f64_magnitude s m e) as (p & -> & Hp).
    set (n := (Zpos m * 2 ^ Z.max 0 e)%Z) in *. rewrite <-Hp in *.
    assert (0 <= n)%Z by (unfold n; lia). rewrite !Z.ltb_ge.
    assert (nearly_integral z ((if s then Z.opp else id) n # p) <->
      (n <= MAX_SAFE_INTEGER * Zpos p)%Z /\ (n mod Zpos p * 2 ^ 52 <= Zpos p)%Z /\
      z = f64_trunc (S754_finite s m e)) as Hq.
    { rewrite Ht. destruct s; simpl.
      - rewrite <-(Z.opp_involutive z) at 1. rewrite nearly_integral_opp, nearly_integral_pos by done.
        split; intros (? & ? & ?); split_and!; lia.
      - by apply nearly_integral_pos. }
    assert (n <= MAX_SAFE_INTEGER * Zpos p -> f64_as_i64 (S754_finite s m e) = f64_trunc (S754_finite s m e))%Z
      as Hcast.
    { intros Hle. apply f64_as_i64_small. rewrite Ht.
      assert (0 <= n / Zpos p <= MAX_SAFE_INTEGER)%Z by
        (split; [apply Z.div_pos; lia|apply Z.div_le_upper_bound; lia]).
      destruct s; simpl; lia. }
    split.
    + intros ((_ & ? & Hle) & <-). eexists. split; [done|]. apply Hq. rewrite Hcast by done. done.
    + intros (q & [= <-] & (Hle & ? & ->)%Hq). rewrite Hcast; done.
Qed.

Lemma event_integer_field_number e field z :
  event_integer_field e field = Ok (Some z) <->
  exists x, field_state (mkNormalizedEventFieldView e) field = Present (mkValue (Some (NumberValue x))) /\
    f64_accepted x /\ f64_as_i64 x = z.
Proof.
  unfold event_integer_field, f64_accepted.
  destruct (field_state _ field) as [[[[|x| | | |]|]]| | |]; simpl; try naive_solver.
  split.
  - destruct (f64_is_finite x) eqn:?, (f64_fract_exceeds_epsilon x) eqn:?,
      (f64_abs_exceeds MAX_SAFE_INTEGER x) eqn:?; simpl; try done. intros [= <-]. by exists x.
  - by intros (y & [= <-] & (-> & -> & ->) & <-).
Qed.

(** 1 + 2^-52, the number after 1, passes for the integer 1. *)
Definition after_one : f64 := S754_finite false 4503599627370497 (-52).

Example fraction_accepted_as_integer :
  f64_value after_one = Some (4503599627370497 # 2 ^ 52)%Q /\ f64_accepted after_one /\
  f64_as_i64 after_one = 1%Z.
Proof. unfold f64_accepted. split_and!; vm_compute; reflexivity. Qed.

(** ** Bursts *)

(** Ten failed logins of one user and address within five minutes, with their times *)
Definition burst (events : list NormalizedEvent) (tenant user address : string)
    (es : list (NormalizedEvent * Z)) : Prop :=
  Forall (fun p => (p.1 ∈ events) /\ failed_login tenant user address p.1 p.2) es /\
  NoDup (ne_normalized_event_id <$> es.*1) /\ length es = 10 /\
  (forall p q, p ∈ es -> q ∈ es -> (q.2 - p.2 <= 300000)%Z).

Lemma group_key_pair e key :
  mvp_group_key e ["user.name"; "src_endpoint.ip"] = Ok (Some key) -> exists user address, key = [user; address].
Proof.
  simpl. destruct (event_string_field e "user.name") as [[u|]| |]; simpl; [|done..].
  destruct (event_string_field e "src_endpoint.ip") as [[a|]| |]; simpl; [|done..].
  intros [= <-]. eauto.
Qed.

Section Bursts.
Context `{Sha256} `{SerdeYaml} `{DebugStr}.

Lemma reports_burst events mode at_ k cs r :
  reports burst_plan mkMvpPolicy events mode at_ k cs r ->
  exists user address es, k.2 = [user; address] /\ burst events (tv_tenant_id r) user address es /\
    tv_normalized_event_ids r = ne_normalized_event_id <$> es.*1.
Proof.
  intros (Hlen & Hids & Hnd & Hcs & _ & Hw & Ht & _). destruct k as [tenant key]. cbn [fst snd] in *.
  assert (exists user address, key = [user; address]) as (user & address & ->).
  { destruct cs as [|c cs]; [done|]. destruct (Hcs c) as (e & _ & (_ & _ & Hk & _) & _); [set_solver|].
    by apply (group_key_pair e). }
  assert (exists es, Forall2 (fun c p => (p.1 ∈ events) /\ failed_login tenant user address p.1 p.2 /\
    ne_normalized_event_id p.1 = ca_normalized_event_id c /\ p.2 = ca_event_time_millis c) cs es) as [es Hes].
  { apply Forall_exists_Forall2_l, Forall_forall. intros c Hc. destruct (Hcs c Hc) as (e & He & Hp & Hid).
    exists (e, ca_event_time_millis c). by apply burst_participates in Hp. }
  exists user, address, es. rewrite Ht. split; [done|].
  assert (tv_normalized_event_ids r = ne_normalized_event_id <$> es.*1) as Hids'.
  { rewrite Hids. clear -Hes. induction Hes as [|c p cs es (_ & _ & Hid & _) _ IH]; simpl; [done|].
    rewrite Hid. f_equal. exact IH. }
  split; [|done]. split_and!.
  - apply Forall_forall. intros p [i Hi]%list_elem_of_lookup.
    destruct (Forall2_lookup_r _ _ _ _ _ Hes Hi) as (c & _ & ? & ? & _). done.
  - by rewrite <-Hids'.
  - rewrite <-(Forall2_length _ _ _ Hes). exact Hlen.
  - intros p q [i Hi]%list_elem_of_lookup [j Hj]%list_elem_of_lookup.
    destruct (Forall2_lookup_r _ _ _ _ _ Hes Hi) as (c & Hc & _ & _ & _ & ->).
    destruct (Forall2_lookup_r _ _ _ _ _ Hes Hj) as (d & Hd & _ & _ & _ & ->).
    apply Hw; by eapply list_elem_of_lookup_2.
Qed.

Lemma bursts_exact events mode at_ ms :
  consistent events ->
  evaluate_threshold_normalized_events burst_plan mkMvpPolicy events mode at_ = Ok ms ->
  (forall r, r ∈ ms -> exists user address es, burst events (tv_tenant_id r) user address es /\
     tv_normalized_event_ids r = ne_normalized_event_id <$> es.*1) /\
  (forall tenant user address es, burst events tenant user address es ->
     exists r es', (r ∈ ms) /\ tv_tenant_id r = tenant /\ burst events tenant user address es' /\
       tv_normalized_event_ids r = ne_normalized_event_id <$> es'.*1).
Proof.
  intros Hc Heval. split.
  - intros r [i Hi]%list_elem_of_lookup.
    destruct (evaluate_threshold_reports _ _ _ _ _ _ burst_plan_ok Heval) as (ks & _ & Hr).
    destruct (Forall2_lookup_r _ _ _ _ _ Hr Hi) as (k & _ & g & cs & _ & _ & Hrep).
    destruct (reports_burst _ _ _ _ _ _ Hrep) as (user & address & es & _ & ? & ?). eauto.
  - intros tenant user address es (Hes & Hnd & Hlen & Hw).
    destruct (evaluate_threshold_detects burst_plan mkMvpPolicy events mode at_ ms
      (tenant, [user; address]) es) as (r & cs & _ & _ & Hr & Hrep & _); try done.
    + eapply Forall_impl; [exact Hes|]. intros p [? ?]. split; [done|]. by apply burst_participates.
    + destruct (reports_burst _ _ _ _ _ _ Hrep) as (u & a & es' & Hk & Hb & Hids). injection Hk as <- <-.
      assert (tv_tenant_id r = tenant) as Ht by apply Hrep. rewrite Ht in Hb. eauto 10.
Qed.

End Bursts.

(** ** A sample day *)

Module MvpSample.

#[export, program] Instance digest : Sha256 := {| sha256_digest _ := replicate 32 "000"%char |}.
Next Obligation. reflexivity. Qed.
#[export] Instance yaml : SerdeYaml := fun _ => [inl burst_base; inl burst_correlation].
#[export] Instance debug : DebugStr := fun s => s.

Definition uuid (digit : string) : string := "018f0000-0000-7000-8000-00000000000" +:+ digit.
Definition tenant : string := uuid "a".
Definition str (s : string) : Value := mkValue (Some (StringValue s)).
Definition ocsf (activity status user : string) (millis : Z) : Struct :=
  mkStruct
    [("activity_name", str activity);
     ("src_endpoint", mkValue (Some (StructValue (mkStruct [("ip", str "203.0.113.9")]))));
     ("status", str status);
     ("time", mkValue (Some (NumberValue (binary_normalize 53 1024 millis 0 false))));
     ("user", mkValue (Some (StructValue (mkStruct [("name", str user)]))))].
Definition login (digit activity status : string) (millis : Z) : NormalizedEvent :=
  mkNormalizedEvent (uuid digit) (uuid "b") tenant (Some (mkTimestamp 1700000000 0)) "1.1.0" 3002 3 None None
    (Some (ocsf activity status "root" millis)) "parser" "1" 1 "sha256" "" "1".

Definition attempts : list (NormalizedEvent * Z) :=
  (fun i => let t := (1700000000000 + 30000 * Z.of_nat i)%Z in
            (login (pretty (Z.of_nat i)) "Logon" "Failure" t, t)) <$> seq 0 10.
Definition at_ : Timestamp := mkTimestamp 1700001000 0.

(** The Signals of a failed login, a successful login and an escalation *)
Definition signal (digit rule_id : string) (seconds : Z) : Signal :=
  mkSignal (uuid digit) tenant rule_id "1" 1 "HIGH" None 1
    (Some (mkTimestamp seconds 0)) (Some (mkTimestamp seconds 0)) (Some at_) 1 1 1
    "matched" (Some (mkSignalProvenance (Some at_) 1))
    [mkSignalInput (uuid digit) 1 (uuid digit) "EVENT_MATCH" 0].
Definition failed := signal "1" FAILED_LOGIN_RULE_ID 1700000000.
Definition succeeded := signal "2" SUCCESSFUL_LOGIN_RULE_ID 1700000010.
Definition escalated := signal "3" PRIVILEGE_ESCALATION_RULE_ID 1700000400.
Definition users : MvpSequencePolicy :=
  mkMvpSequencePolicy (list_to_map [(uuid "1", "root"); (uuid "2", "root"); (uuid "3", "root")]).

Lemma burst_attempts : burst attempts.*1 tenant "root" "203.0.113.9" attempts.
Proof.
  split_and!; [| |reflexivity|].
  - apply Forall_forall. intros p Hp. split; [by apply list_elem_of_fmap_2|].
    apply list_elem_of_fmap in Hp as (i & -> & Hi%elem_of_seq). unfold failed_login.
    do 10 (destruct i as [|i]; [split_and!; vm_compute; reflexivity|]). lia.
  - apply (bool_decide_unpack _). vm_compute. exact I.
  - intros p q (i & -> & Hi%elem_of_seq)%list_elem_of_fmap (j & -> & Hj%elem_of_seq)%list_elem_of_fmap.
    cbn [snd]. lia.
Qed.

Lemma consistent_attempts : consistent attempts.*1.
Proof.
  intros e e' He He' Hid. assert (NoDup (ne_normalized_event_id <$> attempts.*1)) as Hnd
    by apply burst_attempts.
  apply list_elem_of_lookup in He as [i Hi]. apply list_elem_of_lookup in He' as [j Hj].
  assert (i = j) as ->; [|congruence].
  apply (proj1 (NoDup_alt _) Hnd i j (ne_normalized_event_id e)); rewrite list_lookup_fmap;
    [by rewrite Hi|by rewrite Hj, Hid].
Qed.

End MvpSample.

(** ** Properties *)

(** The event time is read exactly from numbers that are integral up to
    [f64::EPSILON] and whose magnitude is at most 2^53 - 1, and it is that
    number rounded towards zero; an absent or null field gives no time; every
    other value is an error. *)
Theorem event_integer_field_spec e field :
  (forall z, event_integer_field e field = Ok (Some z) <->
     exists x q, field_state (mkNormalizedEventFieldView e) field = Present (mkValue (Some (NumberValue x))) /\
       f64_value x = Some q /\ nearly_integral z q) /\
  (event_integer_field e field = Ok None <->
     field_state (mkNormalizedEventFieldView e) field = Absent \/
     field_state (mkNormalizedEventFieldView e) field = Null).
Proof.
  split.
  - intros z. rewrite event_integer_field_number. setoid_rewrite f64_accepted_iff. naive_solver.
  - unfold event_integer_field. destruct (field_state _ field) as [[[[|x| | | |]|]]| | |]; simpl; try naive_solver.
    destruct (_ || _); naive_solver.
Qed.

(** The three frozen EVENT rules compile, and each finds exactly the events
    it is named after: on an event with a valid identity, a rule matches when
    and only when the OCSF fields have the texts of its definition. *)
Theorem mvp_event_rules_mean `{Sha256} e mode at_ :
  uuid_v7 (ne_normalized_event_id e) -> timestamp_ok at_ -> mode <> ExecutionMode_Unspecified ->
  let finds (rule_id plan_name : string) (rule : MvpExpression) (fields : list (string * string)) :=
    exists plan, compile_event_rule rule_id plan_name rule = Ok plan /\
      ((exists p, evaluate_normalized_event_for_signal (RuleVersion := string) (cp_plan plan) e mode at_
          mkMvpPolicy = Ok (Signal_Match p)) <-> Forall (fun f => text_field e f.1 f.2) fields) in
  finds FAILED_LOGIN_RULE_ID "mvp-failed-login-v1" failed_login_expression
    [("activity_name", "Logon"); ("status", "Failure")] /\
  finds SUCCESSFUL_LOGIN_RULE_ID "mvp-successful-login-v1" successful_login_expression
    [("activity_name", "Logon"); ("status", "Success")] /\
  finds PRIVILEGE_ESCALATION_RULE_ID "mvp-privilege-escalation-v1" privilege_escalation_expression
    [("activity_name", "Privilege Escalation")].
Proof.
  intros Hid Hat Hm finds. unfold finds. split_and!.
  - eexists. split; [apply failed_login_compiles|]. cbn [cp_plan compiled_rule].
    rewrite mvp_plan_matches by done. apply (mvp_conjunction e [(_, _); (_, _)]).
  - eexists. split; [apply successful_login_compiles|]. cbn [cp_plan compiled_rule].
    rewrite mvp_plan_matches by done. apply (mvp_conjunction e [(_, _); (_, _)]).
  - eexists. split; [apply privilege_escalation_compiles|]. cbn [cp_plan compiled_rule].
    rewrite mvp_plan_matches, Forall_singleton by done. apply comparison_true.
Qed.

(** C19: the Sigma THRESHOLD rule fires exactly on bursts.  It compiles from the
    embedded rule file, as read by the YAML decoder, and on a batch without
    conflicting duplicates the evaluation reports, for a tenant, user and
    address, ten failed logins within five minutes whenever the batch has such
    ten, and reports nothing else. *)
Theorem burst_rule_fires_exactly_on_bursts `{Sha256} `{SerdeYaml} `{DebugStr} :
  yaml_documents THRESHOLD_SIGMA_SOURCE = [inl burst_base; inl burst_correlation] ->
  exists plan, compile_threshold_rule = Ok plan /\
  forall events mode at_ ms, consistent events ->
    evaluate_threshold_normalized_events plan mkMvpPolicy events mode at_ = Ok ms ->
    (forall r, r ∈ ms -> exists user address es, burst events (tv_tenant_id r) user address es /\
       tv_normalized_event_ids r = ne_normalized_event_id <$> es.*1) /\
    (forall tenant user address es, burst events tenant user address es ->
       exists r es', (r ∈ ms) /\ tv_tenant_id r = tenant /\ burst events tenant user address es' /\
         tv_normalized_event_ids r = ne_normalized_event_id <$> es'.*1).
Proof.
  intros Hyaml. exists burst_plan. split; [by apply threshold_rule_compiles|].
  intros events mode at_ ms. apply bursts_exact.
Qed.

(** C20: the account-compromise SEQUENCE rule compiles and, on every batch it
    evaluates, reports exactly compromises: a failed login, a successful login
    and a privilege escalation of one user of one tenant, in this strict order
    and within ten minutes.  Every match is one, and for every user with one
    there is a match. *)
Theorem account_compromise_exact `{Sha256} :
  exists plan, compile_sequence_rule = Ok plan /\
  forall (policy : MvpSequencePolicy) signals mode ms,
    evaluate_sequence_signals plan policy signals mode = Ok ms ->
    (forall m, m ∈ ms -> exists user s1 s2 s3, compromise policy signals (sm_tenant_id m) user s1 s2 s3 /\
       sm_input_signal_ids m = [sg_signal_id s1; sg_signal_id s2; sg_signal_id s3]) /\
    (forall tenant user s1 s2 s3, compromise policy signals tenant user s1 s2 s3 ->
       exists m s1' s2' s3', (m ∈ ms) /\ sm_tenant_id m = tenant /\
         compromise policy signals tenant user s1' s2' s3' /\
         sm_input_signal_ids m = [sg_signal_id s1'; sg_signal_id s2'; sg_signal_id s3']).
Proof.
  exists account_compromise_plan. split; [apply sequence_rule_compiles|].
  intros policy signals mode ms Heval. split.
  - intros m [i Hi]%list_elem_of_lookup.
    destruct (evaluate_sequence_reports account_compromise_plan policy signals mode ms) as (ks & _ & Hr);
      [done..|].
    destruct (Forall2_lookup_r _ _ _ _ _ Hr Hi) as (k & _ & cs & Hc).
    destruct (correlates_compromise _ _ _ _ _ _ Hc) as (s1 & s2 & s3 & ? & -> & ?). eauto 10.
  - intros tenant user s1 s2 s3 (t1 & t2 & t3 & ? & ? & ? & ? & ? & ? & ? & ? & ?).
    destruct (account_compromise_found policy signals mode ms tenant user s1 s2 s3 t1 t2 t3)
      as (m & cs & Hm & Hc & _); [done..|].
    destruct (correlates_compromise _ _ _ _ _ _ Hc) as (s1' & s2' & s3' & ? & ? & ?). eauto 10.
Qed.

(** ** The properties on the sample *)

Import MvpSample.

Lemma mvp_event_rules_mean_witness :
  exists plan p, compile_event_rule FAILED_LOGIN_RULE_ID "mvp-failed-login-v1" failed_login_expression = Ok plan /\
    evaluate_normalized_event_for_signal (RuleVersion := string) (cp_plan plan)
      (login "1" "Logon" "Failure" 1700000000000) ExecutionMode_Live at_ mkMvpPolicy = Ok (Signal_Match p).
Proof.
  destruct (mvp_event_rules_mean (login "1" "Logon" "Failure" 1700000000000) ExecutionMode_Live at_)
    as ((plan & Hc & Hm) & _).
  - apply (validate_uuid_v7_ok_iff "id"). vm_compute. reflexivity.
  - apply (validate_timestamp_ok_iff "at"). vm_compute. reflexivity.
  - discriminate.
  - destruct (proj2 Hm) as [p Hp]; [repeat (constructor; [vm_compute; reflexivity|]); constructor|].
    exists plan, p. by split.
Defined.

Lemma burst_rule_fires_exactly_on_bursts_witness :
  exists plan ms r, compile_threshold_rule = Ok plan /\
    evaluate_threshold_normalized_events plan mkMvpPolicy attempts.*1 ExecutionMode_Live at_ = Ok ms /\
    (r ∈ ms) /\ tv_tenant_id r = tenant.
Proof.
  destruct (burst_rule_fires_exactly_on_bursts eq_refl) as (plan & Hc & Hex).
  assert (exists ms, evaluate_threshold_normalized_events plan mkMvpPolicy attempts.*1 ExecutionMode_Live at_
    = Ok ms) as [ms Hms].
  { assert (plan = burst_plan) as ->; [|eexists; vm_compute; reflexivity].
    rewrite threshold_rule_compiles in Hc; [|reflexivity]. by injection Hc as <-. }
  destruct (proj2 (Hex _ _ _ _ consistent_attempts Hms) _ _ _ _ burst_attempts) as (r & es & ? & ? & _).
  exists plan, ms, r. by split_and!.
Defined.

Lemma account_compromise_exact_witness :
  exists plan ms m, compile_sequence_rule = Ok plan /\
    evaluate_sequence_signals plan users [escalated; failed; succeeded] ExecutionMode_Live = Ok ms /\
    (m ∈ ms) /\ sm_tenant_id m = tenant.
Proof.
  destruct account_compromise_exact as (plan & Hc & Hex).
  assert (exists ms, evaluate_sequence_signals plan users [escalated; failed; succeeded] ExecutionMode_Live
    = Ok ms) as [ms Hms].
  { rewrite sequence_rule_compiles in Hc. injection Hc as <-. eexists. vm_compute. reflexivity. }
  destruct (proj2 (Hex _ _ _ _ Hms) tenant "root" failed succeeded escalated) as (m & _ & _ & _ & ? & ? & _).
  { exists 1700000000000%Z, 1700000010000%Z, 1700000400000%Z.
    unfold observed_signal. split_and!; [set_solver| | |vm_compute; reflexivity..|vm_compute; discriminate];
      set_solver. }
  exists plan, ms, m. by split_and!.
Defined.
