(* ===== verification/MvpBatch.v ===== *)
(** * The bounded MVP batch

    crates/cerbero-detection-runtime/src/mvp_batch.rs: the request, the
    ClickHouse source and the batch driver that runs the rule pack and makes
    every result durable.  The HTTP exchange with ClickHouse and the JSON
    decoder are parameters. *)

From Stdlib Require Import SpecFloat.
From S2P Require Import Prelude RustStd ContractTypes Validation SignalContract FindingContract RuleContract DetectionAst EventPipeline EventSignal Threshold Correlation Sigma Effects Database Repository MvpRules.

(** ** Requests *)

Record MvpClickHouseConfig := mkMvpClickHouseConfig {
  ch_endpoint : string;
  ch_database : string;
  ch_user : string;
  ch_password : string;
}.

Record MvpBatchRequest := mkMvpBatchRequest {
  rq_tenant_id : string;
  rq_execution_mode : ExecutionMode;
  rq_start_millis : Z;   (* i64 *)
  rq_end_millis : Z;     (* i64 *)
  rq_max_events : Z;     (* u64 *)
  rq_evaluated_at : Timestamp;
  rq_created_at : Timestamp;
}.

Record MvpBatchResult := mkMvpBatchResult {
  rs_events_loaded : nat;   (* usize *)
  rs_signals : list Signal;
  rs_findings : list Finding;
}.

Definition validate_request (request : MvpBatchRequest) : result unit RuntimeError :=
  map_err (fun error => runtime ("invalid tenant_id: " +:+ ContractViolation_display error))
    (validate_uuid_v7 "tenant_id" (rq_tenant_id request)) ;;?
  map_err (fun error => runtime ("invalid evaluated_at: " +:+ ContractViolation_display error))
    (validate_timestamp "evaluated_at" (rq_evaluated_at request)) ;;?
  map_err (fun error => runtime ("invalid created_at: " +:+ ContractViolation_display error))
    (validate_timestamp "created_at" (rq_created_at request)) ;;?
  reject_if (bool_decide (rq_execution_mode request = ExecutionMode_Unspecified))
    (runtime "execution_mode must be LIVE, REPLAY, or TEST") ;;?
  reject_if (rq_end_millis request <? rq_start_millis request)%Z
    (runtime "batch start_millis must be <= end_millis") ;;?
  reject_if ((rq_max_events request =? 0)%Z || (MAX_BATCH_EVENTS <? rq_max_events request)%Z)
    (runtime ("max_events must be between 1 and " +:+ pretty MAX_BATCH_EVENTS)) ;;?
  Ok tt.

Definition valid_identifier (value : string) : bool :=
  match str_bytes value with
  | [] => false
  | first :: chars =>
      (Ascii.eqb first "_" || is_ascii_alphabetic first)
      && forallb (fun ch => Ascii.eqb ch "_" || is_ascii_alphanumeric ch) chars
  end.

(** ** Stored rows *)

Record StoredNormalizedRow := mkStoredNormalizedRow {
  nr_tenant_id : string;
  nr_normalized_event_id : string;
  nr_raw_event_id : string;
  nr_event_time_present : Z;      (* u8 *)
  nr_event_time_seconds : Z;      (* i64 *)
  nr_event_time_nanos : Z;        (* i32 *)
  nr_normalized_at_seconds : Z;   (* i64 *)
  nr_normalized_at_nanos : Z;     (* i32 *)
  nr_ocsf_version : string;
  nr_class_uid : Z;               (* u32 *)
  nr_category_uid : Z;            (* u32 *)
  nr_activity_id : option Z;      (* u32 *)
  nr_severity : option Z;         (* u32 *)
  nr_parser_id : string;
  nr_parser_version : string;
  nr_normalization_status : Z;    (* i32 *)
  nr_normalized_hash_algorithm : string;
  nr_normalized_hash : string;
  nr_pipeline_version : string;
  nr_ocsf_event_json : string;
}.

(** [serde_json::Value]; a number is known through [Number::as_f64] *)
Inductive JsonValue : Type :=
| JsonNull
| JsonBool (b : bool)
| JsonNumber (as_f64 : option f64)
| JsonString (s : string)
| JsonArray (values : list JsonValue)
| JsonObject (object : list (string * JsonValue)).

(** [serde_json::from_str] at the two types the source decodes *)
Class SerdeJson := {
  json_row : string -> result StoredNormalizedRow string;
  json_value : string -> result JsonValue string;
}.

(** [collect()] of pairs into the [BTreeMap] of a [Struct] *)
Definition collect_fields (pairs : list (string * Value)) : Struct :=
  mkStruct (foldl (fun m p => bt_insert p.1 p.2 m) [] pairs).

Fixpoint json_to_prost_value (value : JsonValue) : result Value RuntimeError :=
  let? kind :=
    match value with
    | JsonNull => Ok (NullValue 0)
    | JsonBool value => Ok (BoolValue value)
    | JsonNumber value =>
        let? number := ok_or value (runtime "stored OCSF number is outside protobuf Struct range") in
        Ok (NumberValue number)
    | JsonString value => Ok (StringValue value)
    | JsonArray values =>
        let? values := map_m json_to_prost_value values in
        Ok (ListValue values)
    | JsonObject object =>
        let? fields := map_m (fun '(key, value) =>
            let? value := json_to_prost_value value in Ok (key, value)) object in
        Ok (StructValue (collect_fields fields))
    end in
  Ok (mkValue (Some kind)).

Definition json_to_prost_struct (value : JsonValue) : result Struct RuntimeError :=
  match value with
  | JsonObject object =>
      let? fields := map_m (fun '(key, value) =>
          let? value := json_to_prost_value value in Ok (key, value)) object in
      Ok (collect_fields fields)
  | _ => Err (runtime "stored OCSF event root must be an object")
  end.

Definition into_batch_event `{SerdeJson} (row : StoredNormalizedRow) : result BatchEvent RuntimeError :=
  let? ocsf :=
    map_err (fun error => runtime ("stored OCSF JSON decode failed: " +:+ error))
      (json_value (nr_ocsf_event_json row)) in
  let? source_event_time :=
    (if (nr_event_time_present row =? 0)%Z then Ok None
     else if (nr_event_time_present row =? 1)%Z then
       Ok (Some (mkTimestamp (nr_event_time_seconds row) (nr_event_time_nanos row)))
     else Err (runtime ("event_time_present must be 0 or 1, observed "
                        +:+ pretty (nr_event_time_present row)))) in
  match source_event_time with
  | Some timestamp =>
      map_err (fun error => runtime ("invalid stored event_time: " +:+ ContractViolation_display error))
        (validate_timestamp "event_time" timestamp)
  | None => Ok tt
  end ;;?
  let? ocsf_event := json_to_prost_struct ocsf in
  Ok (mkBatchEvent
        (mkNormalizedEvent (nr_normalized_event_id row) (nr_raw_event_id row) (nr_tenant_id row)
           (Some (mkTimestamp (nr_normalized_at_seconds row) (nr_normalized_at_nanos row)))
           (nr_ocsf_version row) (nr_class_uid row) (nr_category_uid row) (nr_severity row)
           (nr_activity_id row) (Some ocsf_event) (nr_parser_id row) (nr_parser_version row)
           (nr_normalization_status row) (nr_normalized_hash_algorithm row) (nr_normalized_hash row)
           (nr_pipeline_version row))
        source_event_time).

(** ** [PartialEq] of events: IEEE equality on the numbers of the OCSF payload *)

Section ListEqb.
Context {A : Type} (eqb : A -> A -> bool).
Fixpoint list_eqb (l1 l2 : list A) : bool :=
  match l1, l2 with
  | [], [] => true
  | x :: l1, y :: l2 => eqb x y && list_eqb l1 l2
  | _, _ => false
  end.
End ListEqb.

Fixpoint Value_eqb (v w : Value) {struct v} : bool :=
  match v, w with
  | mkValue (Some k), mkValue (Some l) => Kind_eqb k l
  | mkValue None, mkValue None => true
  | _, _ => false
  end
with Kind_eqb (k l : Kind) {struct k} : bool :=
  match k, l with
  | NullValue n, NullValue m => (n =? m)%Z
  | NumberValue x, NumberValue y => SFeqb x y
  | StringValue s, StringValue t => String.eqb s t
  | BoolValue b, BoolValue c => Bool.eqb b c
  | StructValue s, StructValue t => Struct_eqb s t
  | ListValue vs, ListValue ws => list_eqb Value_eqb vs ws
  | _, _ => false
  end
with Struct_eqb (s t : Struct) {struct s} : bool :=
  match s, t with
  | mkStruct fs, mkStruct gs =>
      list_eqb (fun '(k, v) '(l, w) => String.eqb k l && Value_eqb v w) fs gs
  end.

Definition option_eqb {A} (eqb : A -> A -> bool) (a b : option A) : bool :=
  match a, b with Some a, Some b => eqb a b | None, None => true | _, _ => false end.

Definition NormalizedEvent_eqb (a b : NormalizedEvent) : bool :=
  String.eqb (ne_normalized_event_id a) (ne_normalized_event_id b)
  && String.eqb (ne_raw_event_id a) (ne_raw_event_id b)
  && String.eqb (ne_tenant_id a) (ne_tenant_id b)
  && bool_decide (ne_normalized_at a = ne_normalized_at b)
  && String.eqb (ne_ocsf_version a) (ne_ocsf_version b)
  && (ne_class_uid a =? ne_class_uid b)%Z && (ne_category_uid a =? ne_category_uid b)%Z
  && bool_decide (ne_severity a = ne_severity b) && bool_decide (ne_activity_id a = ne_activity_id b)
  && option_eqb Struct_eqb (ne_ocsf_event a) (ne_ocsf_event b)
  && String.eqb (ne_parser_id a) (ne_parser_id b)
  && String.eqb (ne_parser_version a) (ne_parser_version b)
  && (ne_normalization_status a =? ne_normalization_status b)%Z
  && String.eqb (ne_normalized_hash_algorithm a) (ne_normalized_hash_algorithm b)
  && String.eqb (ne_normalized_hash a) (ne_normalized_hash b)
  && String.eqb (ne_pipeline_version a) (ne_pipeline_version b).

Definition BatchEvent_eqb (a b : BatchEvent) : bool :=
  NormalizedEvent_eqb (be_event a) (be_event b)
  && bool_decide (be_source_event_time a = be_source_event_time b).

(** ** The ClickHouse source *)

Record ClickHouseNormalizedEventSource := mkClickHouseSource { cs_config : MvpClickHouseConfig }.

Definition ClickHouseNormalizedEventSource_new (config : MvpClickHouseConfig)
    : result ClickHouseNormalizedEventSource RuntimeError :=
  reject_if (negb (valid_identifier (ch_database config)))
    (runtime "ClickHouse database must be a simple identifier") ;;?
  reject_if (is_empty (trim (ch_endpoint config)) || is_empty (trim (ch_user config))
             || is_empty (ch_password config))
    (runtime "ClickHouse endpoint, user, and password are required") ;;?
  Ok (mkClickHouseSource config).

(** [reqwest]: what a GET with basic authentication and query parameters gives *)
Inductive HttpExchange : Type :=
| TransportFailed (error : string)
| ReadFailed (error : string)
| Responded (status : Z) (body : string).

Class HttpClient := http_get : MvpClickHouseConfig -> list (string * string) -> HttpExchange.

Definition load_query (database : string) : string :=
  "SELECT tenant_id, toString(normalized_event_id) AS normalized_event_id, " +:+
  "toString(raw_event_id) AS raw_event_id, event_time_present, event_time_seconds, " +:+
  "event_time_nanos, normalized_at_seconds, normalized_at_nanos, ocsf_version, " +:+
  "class_uid, category_uid, activity_id, severity, parser_id, parser_version, " +:+
  "toInt32(normalization_status) AS normalization_status, normalized_hash_algorithm, " +:+
  "normalized_hash, pipeline_version, ocsf_event_json " +:+
  "FROM " +:+ database +:+ ".normalized_events " +:+
  "WHERE tenant_id = {tenant:String} " +:+
  "AND execution_mode = {mode:UInt8} " +:+
  "AND event_time_present = 1 " +:+
  "AND (event_time_seconds * 1000 + intDiv(event_time_nanos, 1000000)) >= {start:Int64} " +:+
  "AND (event_time_seconds * 1000 + intDiv(event_time_nanos, 1000000)) <= {end:Int64} " +:+
  "ORDER BY event_time_seconds, event_time_nanos, normalized_event_id " +:+
  "LIMIT {limit:UInt64} FORMAT JSONEachRow".

(** [str::lines] *)
Definition strip_cr (line : string) : string :=
  let bytes := str_bytes line in
  match last bytes with
  | Some c => if Ascii.eqb c "013" then str_of_bytes (take (length bytes - 1) bytes) else line
  | None => line
  end.

Definition str_lines (s : string) : list string :=
  let segments := split_char "010" s in
  match last segments with
  | Some rest =>
      (strip_cr <$> take (length segments - 1) segments) ++ (if is_empty rest then [] else [rest])
  | None => []
  end.

Section Source.
Context `{SerdeJson} `{HttpClient}.

(** The body of [for line in body.lines()...] *)
Definition load_line (unique : BTreeMap string BatchEvent) (line : string)
    : result (BTreeMap string BatchEvent) RuntimeError :=
  let? row := map_err (fun error => runtime ("ClickHouse row decode failed: " +:+ error)) (json_row line) in
  let? batch_event := into_batch_event row in
  let event_id := ne_normalized_event_id (be_event batch_event) in
  match bt_get event_id unique with
  | Some existing =>
      reject_if (negb (BatchEvent_eqb existing batch_event))
        (runtime ("conflicting duplicate NormalizedEvent identity " +:+ event_id)) ;;?
      Ok unique
  | None => Ok (bt_insert event_id batch_event unique)
  end.

Definition batch_event_cmp (left right : BatchEvent) : comparison :=
  then_with (cmp (timestamp_millis (be_source_event_time left)) (timestamp_millis (be_source_event_time right)))
    (cmp (ne_normalized_event_id (be_event left)) (ne_normalized_event_id (be_event right))).

(** The rows of a response body *)
Definition load_body (body : string) : result (list BatchEvent) RuntimeError :=
  let? unique := fold_m load_line (List.filter (fun line => negb (is_empty (trim line))) (str_lines body)) [] in
  Ok (sort_by batch_event_cmp (bt_values unique)).

Definition load (source : ClickHouseNormalizedEventSource) (request : MvpBatchRequest)
    : result (list BatchEvent) RuntimeError :=
  let query := load_query (ch_database (cs_config source)) in
  let? mode := ok_or (try_from in_u8 (ExecutionMode_as_i32 (rq_execution_mode request)))
    (runtime "execution mode does not fit ClickHouse UInt8") in
  match http_get (cs_config source)
          [("query", query); ("param_tenant", rq_tenant_id request); ("param_mode", pretty mode);
           ("param_start", pretty (rq_start_millis request)); ("param_end", pretty (rq_end_millis request));
           ("param_limit", pretty (rq_max_events request))] with
  | TransportFailed error => Err (runtime ("ClickHouse transport failed: " +:+ error))
  | ReadFailed error => Err (runtime ("ClickHouse response read failed: " +:+ error))
  | Responded status body =>
      reject_if (negb (in_range 200 299 status))
        (runtime ("ClickHouse query failed with HTTP " +:+ pretty status +:+ ": " +:+ trim body)) ;;?
      load_body body
  end.
End Source.

(** ** [MvpBatchRuntime::execute] *)

Record EventPresentation := mkEventPresentation { pr_severity : string; pr_summary : string }.

Record MvpBatchRuntime := mkMvpBatchRuntime {
  rt_source : ClickHouseNormalizedEventSource;
  rt_repository : PostgresAnalyticalRepository;
}.

(** [PostgresAnalyticalRepository::connect]; [connected] is what [tokio_postgres::connect] gives *)
Definition repository_connect (connected : result unit string) (component_version instance_id : string)
    : result PostgresAnalyticalRepository RuntimeError :=
  map_err runtime_error connected ;;?
  Ok (mkPostgresAnalyticalRepository component_version instance_id).

(** [MvpBatchRuntime::connect] *)
Definition batch_connect (clickhouse : MvpClickHouseConfig) (connected : result unit string)
    (component_version instance_id : string) : result MvpBatchRuntime RuntimeError :=
  let? source := ClickHouseNormalizedEventSource_new clickhouse in
  let? repository := repository_connect connected component_version instance_id in
  Ok (mkMvpBatchRuntime source repository).

Section Execute.
Context `{Sha256} `{SerdeYaml} `{DebugStr} `{SerdeJson} `{HttpClient} `{Environment} `{Prost}.

(** One rule on one event: the durable and the sequence Signals so far *)
Definition event_rule_step (runtime_ : MvpBatchRuntime) (request : MvpBatchRequest)
    (batch_event : BatchEvent) (signals : list Signal * list Signal)
    (rule : MvpCompiledEventPlan * EventPresentation) : runs (list Signal * list Signal) :=
  let '(plan, presentation) := rule in
  let! evaluation := io_lift
    (map_err (fun error => runtime ("EVENT evaluation failed: " +:+ EventSignalEvaluationError_fmt error))
       (evaluate_normalized_event_for_signal (RuleVersion := string) (cp_plan plan) (be_event batch_event)
          (rq_execution_mode request) (rq_evaluated_at request) mkMvpPolicy)) in
  match evaluation with
  | Signal_NoMatch => io_ret signals
  | Signal_Match provenance =>
      let! signal_id := now_v7 in
      let! signal := io_lift
        (map_err (fun error => runtime ("EVENT materialization failed: " +:+ ContractViolation_display error))
           (materialize_event_signal provenance (be_event batch_event)
              (mkEventSignalMaterializationContext signal_id (pr_severity presentation) None
                 (pr_summary presentation) "EVENT_MATCH" (rq_created_at request)
                 (be_source_event_time batch_event)))) in
      let! durable := persist_signal (rt_repository runtime_) signal in
      io_ret (fst signals ++ [durable], snd signals ++ [durable])
  end.

(** One THRESHOLD match *)
Definition threshold_match_step (runtime_ : MvpBatchRuntime) (request : MvpBatchRequest)
    (signals : list Signal) (provenance : ThresholdSignalProvenance string) : runs (list Signal) :=
  let! signal_id := now_v7 in
  let! signal := io_lift
    (map_err (fun error => runtime ("THRESHOLD materialization failed: " +:+ ContractViolation_display error))
       (materialize_threshold_signal provenance
          (mkThresholdSignalMaterializationContext signal_id "HIGH" None
             "SSH authentication burst: 10 failed logins within 5 minutes" "THRESHOLD_INPUT"
             (rq_created_at request) 1))) in
  let! durable := persist_signal (rt_repository runtime_) signal in
  io_ret (signals ++ [durable]).

(** One SEQUENCE match *)
Definition sequence_match_step (runtime_ : MvpBatchRuntime) (request : MvpBatchRequest)
    (findings : list Finding) (correlation_match : SequenceCorrelationMatch) : runs (list Finding) :=
  let! finding_id := now_v7 in
  let! finding := io_lift
    (map_err (fun error => runtime ("SEQUENCE materialization failed: " +:+ ContractViolation_display error))
       (materialize_sequence_correlation_finding correlation_match
          (mkCorrelationFindingMaterializationContext finding_id "HIGH" (Some "MEDIUM")
             "Account compromise sequence"
             "Failed login followed by successful login and privilege escalation"
             "SEQUENCE_INPUT" (rq_created_at request)))) in
  let! durable := persist_finding (rt_repository runtime_) finding in
  io_ret (findings ++ [durable]).

Definition mvp_event_rules : result (list (MvpCompiledEventPlan * EventPresentation)) RuntimeError :=
  let? failed_plan :=
    compile_event_rule FAILED_LOGIN_RULE_ID "mvp-failed-login-v1" failed_login_expression in
  let? success_plan :=
    compile_event_rule SUCCESSFUL_LOGIN_RULE_ID "mvp-successful-login-v1" successful_login_expression in
  let? privilege_plan :=
    compile_event_rule PRIVILEGE_ESCALATION_RULE_ID "mvp-privilege-escalation-v1"
      privilege_escalation_expression in
  Ok [(failed_plan, mkEventPresentation "MEDIUM" "Failed login matched");
      (success_plan, mkEventPresentation "LOW" "Successful login matched");
      (privilege_plan, mkEventPresentation "HIGH" "Privilege escalation matched")].

Definition execute (runtime_ : MvpBatchRuntime) (request : MvpBatchRequest) : runs MvpBatchResult :=
  io_lift (validate_request request) ;;!
  let! events := io_lift (load (rt_source runtime_) request) in
  let! event_rules := io_lift mvp_event_rules in
  let! '(durable_signals, sequence_signals) :=
    io_fold (fun signals batch_event =>
        io_fold (event_rule_step runtime_ request batch_event) event_rules signals)
      events ([], []) in
  let! threshold_plan := io_lift compile_threshold_rule in
  let normalized_events := be_event <$> events in
  let! threshold_matches := io_lift
    (map_err (fun error => runtime ("THRESHOLD evaluation failed: " +:+ ThresholdEvaluationError_fmt error))
       (evaluate_threshold_normalized_events threshold_plan mkMvpPolicy normalized_events
          (rq_execution_mode request) (rq_evaluated_at request))) in
  let! durable_signals :=
    io_fold (threshold_match_step runtime_ request) threshold_matches durable_signals in
  let! sequence_plan := io_lift compile_sequence_rule in
  let! sequence_policy := io_lift (MvpSequencePolicy_new events) in
  let! sequence_matches := io_lift
    (map_err (fun error => runtime ("SEQUENCE evaluation failed: " +:+ SequenceCorrelationEvaluationError_fmt error))
       (evaluate_sequence_signals sequence_plan sequence_policy sequence_signals
          (rq_execution_mode request))) in
  let! durable_findings := io_fold (sequence_match_step runtime_ request) sequence_matches [] in
  io_ret (mkMvpBatchResult (length events)
            (sort_by (fun left right => cmp (sg_signal_id left) (sg_signal_id right)) durable_signals)
            (sort_by (fun left right => cmp (fd_finding_id left) (fd_finding_id right)) durable_findings)).

End Execute.
