(* ===== verification/MvpBatchSpec.v ===== *)
(** * Properties of the MVP batch

    Durability and idempotence of [execute], the meaning of the frozen rules,
    the loader, and the instances of the core's theorems at the MVP policies. *)

From Stdlib Require Import SpecFloat.
From S2P Require Import Prelude RustStd ContractTypes Validation SignalContract FindingContract RuleContract DetectionAst EventPipeline EventSignal Threshold ThresholdSpec Correlation CorrelationSpec Sigma Effects Database Repository RepositorySpec RepositoryTheorems Replay MvpRules MvpRulesSpec MvpBatch.

(** ** Requests *)

Definition request_ok (r : MvpBatchRequest) : Prop :=
  uuid_v7 (rq_tenant_id r) /\ timestamp_ok (rq_evaluated_at r) /\ timestamp_ok (rq_created_at r) /\
  rq_execution_mode r <> ExecutionMode_Unspecified /\ (rq_start_millis r <= rq_end_millis r)%Z /\
  rq_max_events r <> 0%Z /\ (rq_max_events r <= MAX_BATCH_EVENTS)%Z.

Lemma validate_request_ok_iff r : validate_request r = Ok tt <-> request_ok r.
Proof.
  unfold validate_request, request_ok. ok_iff.
  rewrite bool_decide_eq_false, Z.ltb_ge, orb_false_iff, Z.eqb_neq, Z.ltb_ge. tauto.
Qed.

(** The same batch at other times *)
Definition retimed (r : MvpBatchRequest) (evaluated created : Timestamp) : MvpBatchRequest :=
  mkMvpBatchRequest (rq_tenant_id r) (rq_execution_mode r) (rq_start_millis r) (rq_end_millis r)
    (rq_max_events r) evaluated created.

(** ** A Signal issued again: another identity, other processing times *)

Definition relabel (id : string) (i : SignalInput) : SignalInput :=
  mkSignalInput id (si_input_type i) (si_input_id i) (si_relation i) (si_ordinal i).

Definition reissued (s : Signal) (id : string) (created evaluated : Timestamp) : Signal :=
  mkSignal id (sg_tenant_id s) (sg_rule_id s) (sg_rule_version s) (sg_rule_type s) (sg_severity s)
    (sg_confidence s) (sg_status s) (sg_first_observed_at s) (sg_last_observed_at s) (Some created)
    (sg_execution_mode s) (sg_source_count s) (sg_event_count s) (sg_summary s)
    match sg_provenance s with
    | Some p => Some (mkSignalProvenance (Some evaluated) (sp_execution_backend p))
    | None => None
    end
    (relabel id <$> sg_inputs s).

Lemma relabel_inputs_ok s id created evaluated :
  signal_inputs_ok s -> signal_inputs_ok (reissued s id created evaluated).
Proof.
  intros (Hne & Hin & Hnd). unfold signal_inputs_ok. simpl. split_and!.
  - by destruct (sg_inputs s).
  - intros i input. rewrite list_lookup_fmap. destruct (sg_inputs s !! i) as [x|] eqn:Hi; [|done].
    intros [= <-]. apply Hin in Hi as (_ & ?). by split.
  - by rewrite <-list_fmap_compose.
Qed.

Lemma relabel_normalized s id created evaluated :
  zlen (normalized_inputs (reissued s id created evaluated)) = zlen (normalized_inputs s).
Proof.
  unfold normalized_inputs, zlen, reissued. cbn [sg_inputs]. by rewrite <-(length_filter_fmap (relabel id)
    (fun i => (si_input_type i =? SIGNAL_INPUT_NORMALIZED_EVENT)%Z)).
Qed.

Lemma reissued_ok s id created evaluated :
  signal_ok s -> uuid_v7 id -> timestamp_ok created -> timestamp_ok evaluated ->
  signal_ok (reissued s id created evaluated).
Proof.
  intros (Hid & Hi & Hc & Hsc & Hec & Hsum & Hp & Hin & Hrc) Hu Hcr Hev.
  unfold signal_ok. split_and!; try done.
  - unfold signal_identity_ok in *. simpl. tauto.
  - by exists created.
  - destruct Hp as (p & Hp & _ & Hb). simpl. rewrite Hp. eexists. split; [done|]. simpl.
    split; [by exists evaluated|done].
  - by apply relabel_inputs_ok.
  - unfold signal_rule_counts_ok. rewrite relabel_normalized. done.
Qed.

Lemma reissued_key `{Sha256} s id created evaluated :
  signal_logical_key s = signal_logical_key (reissued s id created evaluated).
Proof.
  unfold signal_logical_key. f_equal. f_equal. apply identity_text_eq. unfold signal_identity. simpl.
  by rewrite <-list_fmap_compose.
Qed.

(** ** Replaying a batch *)

Lemma map_m_mapped {A B C E} (f : A -> result B E) (g : A -> result C E) (h : B -> C) l ys :
  (forall x y, f x = Ok y -> g x = Ok (h y)) -> map_m f l = Ok ys -> map_m g l = Ok (h <$> ys).
Proof.
  intros Hfg. rewrite !map_m_ok_iff, Forall2_fmap_r. intros Hf.
  eapply Forall2_impl; [exact Hf|]. eauto.
Qed.

Definition retimed_match (at_ : Timestamp) (p : ThresholdSignalProvenance string)
    : ThresholdSignalProvenance string :=
  mkThresholdSignalProvenance (tv_rule_id p) (tv_rule_version p) (tv_tenant_id p)
    (tv_normalized_event_ids p) (tv_first_observed_at p) (tv_last_observed_at p) at_
    (tv_execution_backend p) (tv_execution_mode p).

Lemma omap_id_fmap {A B} (f : A -> B) (os : list (option A)) :
  omap id (option_map f <$> os) = f <$> omap id os.
Proof. induction os as [|[a|] os IH]; simpl; [done|by f_equal|done]. Qed.

(** The evaluation time does not influence which groups match. *)
Lemma threshold_retimed (plan : MvpCompiledThresholdPlan) events mode at1 at2 ms :
  timestamp_ok at2 ->
  evaluate_threshold_normalized_events plan mkMvpPolicy events mode at1 = Ok ms ->
  evaluate_threshold_normalized_events plan mkMvpPolicy events mode at2 = Ok (retimed_match at2 <$> ms).
Proof.
  intros Hat2. rewrite !evaluate_threshold_ok_iff. intros (_ & ? & ? & ? & ? & ? & os & Hos & ->).
  split_and!; try done. exists (option_map (retimed_match at2) <$> os). split.
  - revert Hos. apply map_m_mapped. intros g o. unfold group_result.
    destruct (first_window _ _ _) as [[cs|]| |]; simpl; [|by intros [= <-]|done..].
    destruct (threshold_provenance _ _ _ _ at1) as [p| |] eqn:Hp; simpl; [|done..]. intros [= <-].
    apply threshold_provenance_ok_iff in Hp as (c & d & Hc & Hd & ? & ? & ->).
    assert (threshold_provenance (Error := MvpPolicyError) plan g.1.1 cs mode at2 = Ok _) as -> by
      (apply threshold_provenance_ok_iff; exists c, d; split_and!; [done..|reflexivity]).
    done.
  - by rewrite omap_id_fmap.
Qed.

Lemma materialize_threshold_reissued p c id at_ created s :
  materialize_threshold_signal p c = Ok s -> uuid_v7 id -> timestamp_ok created -> timestamp_ok at_ ->
  materialize_threshold_signal (retimed_match at_ p)
    (mkThresholdSignalMaterializationContext id (tc_severity c) (tc_confidence c) (tc_summary c)
       (tc_input_relation c) created (tc_source_count c)) = Ok (reissued s id created at_).
Proof.
  unfold materialize_threshold_signal. intros Hm Hid Hc Hat. simpl.
  apply bind_unit_ok_iff in Hm as [Hne Hm]. apply bind_ok_iff in Hm as (n & Hn & Hm).
  apply bind_ok_iff in Hm as (inputs & Hin & Hm).
  apply bind_unit_ok_iff in Hm as [Hv [= <-]]. rewrite Hne. simpl. rewrite Hn. simpl.
  match goal with |- context [map_m (threshold_signal_input ?c2) _] =>
    apply (map_m_mapped _ (threshold_signal_input c2) (relabel id)) in Hin; [rewrite Hin|] end.
  2:{ intros [i x] y (ordinal & Ho & Hy)%bind_ok_iff. unfold threshold_signal_input. rewrite Ho.
      injection Hy as <-. done. }
  simpl. apply validate_signal_ok_iff in Hv. apply (reissued_ok _ id created at_) in Hv; [|done..].
  apply validate_signal_ok_iff in Hv.
  match goal with |- context [validate_signal ?s2] =>
    change s2 with (reissued (threshold_signal p c n inputs) id created at_) end.
  by rewrite Hv.
Qed.

Lemma Forall2_eq_refl {A} (l : list A) : Forall2 eq l l.
Proof. by apply Forall_Forall2_diag, Forall_forall. Qed.

Section ReplayBatch.
Context `{Sha256} `{SerdeYaml} `{DebugStr} `{SerdeJson} `{HttpClient} `{Environment} `{Prost}.

(** What the external crates promise *)
Hypothesis now_v7_valid : forall n, uuid_v7 (uuid_at n).
Hypothesis signal_payload : forall s, sg_signal_id s <> "" -> encode_signal s <> [].
Hypothesis finding_payload : forall f, fd_finding_id f <> "" -> encode_finding f <> [].

Variables (rt : MvpBatchRuntime) (request : MvpBatchRequest) (evaluated created : Timestamp).
Hypothesis evaluated_ok : timestamp_ok evaluated.
Hypothesis created_ok : timestamp_ok created.

Let again : MvpBatchRequest := retimed request evaluated created.

Lemma grows_event_rule_step req be acc rule : io_respects grows (event_rule_step rt req be acc rule).
Proof. destruct rule. unfold event_rule_step. grows. Qed.

Lemma grows_threshold_match_step req acc p : io_respects grows (threshold_match_step rt req acc p).
Proof. unfold threshold_match_step. grows. Qed.

Lemma grows_sequence_match_step req acc m : io_respects grows (sequence_match_step rt req acc m).
Proof. unfold sequence_match_step. grows. Qed.

#[local] Hint Resolve grows_event_rule_step grows_threshold_match_step grows_sequence_match_step : grows.

Lemma replays_event_rule_step be acc rule :
  replays eq (event_rule_step rt request be acc rule) (event_rule_step rt again be acc rule).
Proof.
  destruct rule as [plan presentation]. unfold event_rule_step.
  apply (replays_bind (fun e1 e2 =>
    (e1 = Signal_NoMatch /\ e2 = Signal_NoMatch) \/
    (e1 = Signal_Match (event_provenance (cp_plan plan) (be_event be) (rq_execution_mode request)
            (rq_evaluated_at request)) /\
     e2 = Signal_Match (event_provenance (cp_plan plan) (be_event be) (rq_execution_mode request)
            evaluated)))).
  - grows.
  - intros. grows.
  - apply replays_lift. intros e He%map_err_ok_iff.
    apply evaluate_for_signal_ok_iff in He as (? & _ & ? & b & Hb & ->).
    destruct b; eexists; (split; [apply map_err_ok_iff, evaluate_for_signal_ok_iff; eauto 10|]);
      [by right|by left].
  - intros e1 e2 [[-> ->]|[-> ->]]; [by apply replays_ret|].
    eapply (replays_bind (fun i1 i2 => uuid_v7 i2)); [grows| |by apply replays_now_v7|].
    { intros. grows. }
    intros i1 i2 Hi. eapply (replays_bind (fun s1 s2 => s2 = reissued s1 i2 created evaluated /\
      (signal_ok s1 -> signal_ok s2))); [grows| | |].
    { intros. grows. }
    + apply replays_lift. intros s Hs%map_err_ok_iff.
      apply materialize_event_ok_iff in Hs as (_ & -> & Hok). eexists.
      apply (reissued_ok _ i2 created evaluated) in Hok; [|done..].
      split; [apply map_err_ok_iff, materialize_event_ok_iff; split_and!; done|]. done.
    + intros s1 s2 [-> Hok]. eapply replays_bind; [grows|intros; grows| |].
      * by apply replays_persist_signal; [|apply reissued_key|].
      * intros d ? <-. by apply replays_ret.
Qed.

Lemma replays_threshold_match_step acc p :
  replays eq (threshold_match_step rt request acc p)
    (threshold_match_step rt again acc (retimed_match evaluated p)).
Proof.
  unfold threshold_match_step.
  eapply (replays_bind (fun i1 i2 => uuid_v7 i2)); [grows| |by apply replays_now_v7|].
  { intros. grows. }
  intros i1 i2 Hi. eapply (replays_bind (fun s1 s2 => s2 = reissued s1 i2 created evaluated));
    [grows| | |].
  { intros. grows. }
  - apply replays_lift. intros s Hs%map_err_ok_iff. eexists. split; [|done].
    apply map_err_ok_iff. by apply (materialize_threshold_reissued _ _ i2 evaluated created) in Hs.
  - intros s1 s2 ->. eapply replays_bind; [grows|intros; grows| |].
    + apply replays_persist_signal; [done|apply reissued_key|]. intros. by apply reissued_ok.
    + intros d ? <-. by apply replays_ret.
Qed.

Lemma replays_sequence_match_step acc m :
  match_ok m -> replays eq (sequence_match_step rt request acc m) (sequence_match_step rt again acc m).
Proof.
  intros Hm. unfold sequence_match_step.
  eapply (replays_bind (fun i1 i2 => uuid_v7 i2)); [grows| |by apply replays_now_v7|].
  { intros. grows. }
  intros i1 i2 Hi. eapply (replays_bind (fun f1 f2 =>
    finding_logical_key f1 = finding_logical_key f2 /\ finding_ok f2)); [grows| | |].
  { intros. grows. }
  - apply replays_lift. unfold materialize_sequence_correlation_finding. cbv zeta.
    intros f (_ & [= <-])%map_err_ok_iff%bind_unit_ok_iff. eexists.
    match goal with |- context [validate_finding (correlation_finding m ?c2)] =>
      assert (finding_ok (correlation_finding m c2)) as Hok end.
    { apply correlation_finding_ok; [done|]. unfold finding_context_ok. simpl. split_and!; try done.
      by intros a [= <-]. }
    split; [|split; [|exact Hok]; reflexivity].
    apply validate_finding_ok_iff in Hok. rewrite Hok. reflexivity.
  - intros f1 f2 [Hk Hok]. eapply replays_bind; [grows|intros; grows| |].
    + by apply replays_persist_finding.
    + intros d ? <-. by apply replays_ret.
Qed.

Lemma replays_events events rules :
  replays eq
    (io_fold (fun signals be => io_fold (event_rule_step rt request be) rules signals) events ([], []))
    (io_fold (fun signals be => io_fold (event_rule_step rt again be) rules signals) events ([], [])).
Proof.
  apply (replays_fold eq eq); [| |by apply Forall2_eq_refl|done].
  - intros. apply (respects_fold grows). intros. apply grows_event_rule_step.
  - intros acc ? be ? <- <-. apply (replays_fold eq eq); [| |by apply Forall2_eq_refl|done].
    + intros. apply grows_event_rule_step.
    + intros a ? r ? <- <-. apply replays_event_rule_step.
Qed.

Lemma compiled_sequence_rule plan :
  compile_sequence_rule = Ok plan ->
  sequence_plan_ok plan /\ has_text (sq_correlation_rule_id plan) /\
  has_text (sq_correlation_rule_version plan) /\ has_text (sq_configuration_hash plan).
Proof.
  intros Hc%map_err_ok_iff. apply compile_sequence_ok_iff in Hc as (_ & ? & ? & ? & ? & _ & _ & _ & _ & ->).
  by split_and!.
Qed.

Lemma replays_execute : replays eq (execute rt request) (execute rt again).
Proof.
  unfold execute.
  eapply replays_bind; [grows|intros; grows| |].
  { apply (replays_lift (fun _ _ => True)).
    intros [] (? & _ & _ & ? & ? & ? & ?)%validate_request_ok_iff. exists tt. split; [|done].
    apply validate_request_ok_iff. by split_and!. }
  intros _ _ _. eapply replays_bind; [grows|intros; grows|apply replays_same|].
  intros events ? <-. eapply replays_bind; [grows|intros; grows|apply replays_same|].
  intros rules ? <-. eapply replays_bind; [grows|intros; grows|apply replays_events|].
  intros [durable sequence] ? <-. eapply replays_bind; [grows|intros; grows|apply replays_same|].
  intros tplan ? <-.
  eapply (replays_bind (fun ms1 ms2 => ms2 = retimed_match evaluated <$> ms1)); [grows|intros; grows| |].
  { apply replays_lift. intros ms Hms%map_err_ok_iff. eexists. split; [|done].
    apply map_err_ok_iff. by eapply threshold_retimed. }
  intros ms ? ->. eapply (replays_bind eq); [grows|intros; grows| |].
  { apply (replays_fold eq (fun p1 p2 => p2 = retimed_match evaluated p1)); [| | |done].
    - intros. apply grows_threshold_match_step.
    - intros acc ? p ? <- ->. apply replays_threshold_match_step.
    - apply Forall2_fmap_r, Forall_Forall2_diag, Forall_forall. done. }
  intros signals ? <-.
  eapply (replays_bind (fun p1 p2 => p1 = p2 /\ compile_sequence_rule = Ok p1)); [grows|intros; grows| |].
  { apply replays_lift. eauto. }
  intros splan ? [<- Hsplan]. eapply replays_bind; [grows|intros; grows|apply replays_same|].
  intros policy ? <-.
  eapply (replays_bind (fun m1 m2 => Forall2 (fun x y => x = y /\ match_ok x) m1 m2));
    [grows|intros; grows| |].
  { apply replays_lift. intros m Hm. exists m. split; [done|]. apply map_err_ok_iff in Hm.
    destruct (compiled_sequence_rule _ Hsplan) as (? & ? & ? & ?).
    apply Forall_Forall2_diag, Forall_forall. intros x Hx. split; [done|].
    by eapply evaluate_sequence_match_ok. }
  intros m1 m2 Hm. eapply (replays_bind eq); [grows|intros; grows| |].
  { eapply (replays_fold eq (fun x y => x = y /\ match_ok x)); [| |done|done].
    - intros. apply grows_sequence_match_step.
    - intros acc ? x ? <- [<- Hx]. by apply replays_sequence_match_step. }
  intros fs ? <-. by apply replays_ret.
Qed.

End ReplayBatch.

(** ** Durability *)

Section Durability.
Context `{Sha256} `{SerdeYaml} `{DebugStr} `{SerdeJson} `{HttpClient} `{Environment} `{Prost}.
Variables (rt : MvpBatchRuntime) (request : MvpBatchRequest).

#[local] Hint Resolve grows_event_rule_step grows_threshold_match_step grows_sequence_match_step : grows.

Definition all_durable (ss : list Signal) (t : Tables) : Prop := Forall (fun s => durable_signal s t) ss.

Lemma all_durable_snoc ss s t : all_durable ss t -> durable_signal s t -> all_durable (ss ++ [s]) t.
Proof. intros. apply Forall_app. split; [done|]. by apply Forall_singleton. Qed.

Lemma triple_event_rule_step be acc rule :
  triple (all_durable acc.1) (event_rule_step rt request be acc rule) (fun acc' => all_durable acc'.1).
Proof.
  destruct rule as [plan pr]. unfold event_rule_step.
  eapply triple_bind; [grows|apply triple_lift|]. intros [|p]; [by apply triple_ret|].
  eapply triple_bind; [grows|apply triple_now_v7|]. intros id.
  eapply triple_bind; [grows|apply triple_lift|]. intros s.
  eapply triple_bind; [grows|apply triple_persist_signal, upward_signals|]. intros d.
  apply triple_ret. intros t [? ?]. by apply all_durable_snoc.
Qed.

Lemma triple_threshold_match_step acc p :
  triple (all_durable acc) (threshold_match_step rt request acc p) all_durable.
Proof.
  unfold threshold_match_step. eapply triple_bind; [grows|apply triple_now_v7|]. intros id.
  eapply triple_bind; [grows|apply triple_lift|]. intros s.
  eapply triple_bind; [grows|apply triple_persist_signal, upward_signals|]. intros d.
  apply triple_ret. intros t [? ?]. by apply all_durable_snoc.
Qed.

Lemma triple_sequence_match_step signals acc m :
  triple (fun t => all_durable signals t /\ Forall (fun f => durable_finding f t) acc)
    (sequence_match_step rt request acc m)
    (fun acc' t => all_durable signals t /\ Forall (fun f => durable_finding f t) acc').
Proof.
  unfold sequence_match_step. eapply triple_bind; [grows|apply triple_now_v7|]. intros id.
  eapply triple_bind; [grows|apply triple_lift|]. intros f.
  eapply triple_bind; [grows|apply triple_persist_finding|].
  { intros t t' Hle [? ?]. split; [by eapply upward_signals|by eapply upward_findings]. }
  intros d. apply triple_ret. intros t [[? ?] ?]. split; [done|]. apply Forall_app. split; [done|].
  by apply Forall_singleton.
Qed.

Lemma triple_execute :
  triple (fun _ => True) (execute rt request) (fun res t =>
    all_durable (rs_signals res) t /\ Forall (fun f => durable_finding f t) (rs_findings res)).
Proof.
  unfold execute. eapply triple_bind; [grows|apply triple_lift|]. intros u.
  eapply triple_bind; [grows|apply triple_lift|]. intros events.
  eapply triple_bind; [grows|apply triple_lift|]. intros rules.
  eapply (triple_bind _ (fun acc => all_durable acc.1)); [grows| |].
  { intros w a w' Hs _. apply (triple_fold (fun acc => all_durable acc.1)); [intros; grows| |done|constructor].
    intros acc be. apply (triple_fold (fun acc => all_durable acc.1)); [intros; grows|].
    intros. apply triple_event_rule_step. }
  intros [durable sequence]. eapply triple_bind; [grows|apply triple_lift|]. intros tplan.
  eapply triple_bind; [grows|apply triple_lift|]. intros ms. cbn [fst].
  eapply triple_bind; [grows|apply triple_fold; [intros; grows|apply triple_threshold_match_step]|].
  intros signals. eapply triple_bind; [grows|apply triple_lift|]. intros splan.
  eapply triple_bind; [grows|apply triple_lift|]. intros policy.
  eapply triple_bind; [grows|apply triple_lift|]. intros seqs.
  eapply (triple_bind _ (fun fs t => all_durable signals t /\ Forall (fun f => durable_finding f t) fs));
    [grows| |].
  { intros w a w' Hs Hd. apply (triple_fold (fun fs t => all_durable signals t /\
      Forall (fun f => durable_finding f t) fs)); [intros; grows| |done|by split].
    intros. apply triple_sequence_match_step. }
  intros fs. apply triple_ret. intros t [Hd Hf]. cbn [rs_signals rs_findings].
  unfold all_durable in *.
  by rewrite (sort_by_perm sg_signal_id), (sort_by_perm fd_finding_id).
Qed.

(** What a result says of the request, and the order of the results *)
Lemma execute_result_shape w res w' :
  execute rt request w = (Ok res, w') ->
  request_ok request /\
  StronglySorted (fun s s' => cmp_le (sg_signal_id s) (sg_signal_id s') = true) (rs_signals res) /\
  StronglySorted (fun f f' => cmp_le (fd_finding_id f) (fd_finding_id f') = true) (rs_findings res).
Proof.
  unfold execute. intros Hrun. io_inv Hrun.
  match type of Hrun with (let '_ := ?p in _) _ = _ => destruct p end. io_inv Hrun.
  cbn [rs_signals rs_findings].
  split_and!; [|apply (sort_by_sorted sg_signal_id)|apply (sort_by_sorted fd_finding_id)].
  apply validate_request_ok_iff.
  by match goal with H : validate_request _ = Ok ?u |- _ => destruct u end.
Qed.

Lemma grows_execute : io_respects grows (execute rt request).
Proof. unfold execute. grows. Qed.

End Durability.

(** ** The loader *)

Definition event_id (e : BatchEvent) : string := ne_normalized_event_id (be_event e).
Definition event_order (e : BatchEvent) : Z * string :=
  (timestamp_millis (be_source_event_time e), event_id e).
Definition row_lines (body : string) : list string :=
  List.filter (fun line => negb (is_empty (trim line))) (str_lines body).

Section Loader.
Context `{SerdeJson}.

(** The line decodes to the event. *)
Definition reads (line : string) (e : BatchEvent) : Prop :=
  exists row, json_row line = Ok row /\ into_batch_event row = Ok e.

(** The stored event stands for the event read: it is the first with its identity. *)
Definition represents (e e' : BatchEvent) : Prop :=
  e = e' \/ (event_id e = event_id e' /\ BatchEvent_eqb e e' = true).

Definition loaded (lines : list string) (m : BTreeMap string BatchEvent) : Prop :=
  bt_sorted m /\
  (forall id e, bt_get id m = Some e -> event_id e = id /\ exists line, (line ∈ lines) /\ reads line e) /\
  (forall line, line ∈ lines -> exists e' e, reads line e' /\ bt_get (event_id e') m = Some e /\
     represents e e').

Lemma load_line_ok_iff m line m' :
  load_line m line = Ok m' <->
  exists e, reads line e /\
    match bt_get (event_id e) m with
    | Some e0 => BatchEvent_eqb e0 e = true /\ m' = m
    | None => m' = bt_insert (event_id e) e m
    end.
Proof.
  unfold load_line, event_id. split.
  - intros (row & Hrow%map_err_ok_iff & (e & He & Hm)%bind_ok_iff)%bind_ok_iff. exists e. split; [by exists row|]. destruct (bt_get _ m) as [e0|].
    + apply bind_unit_ok_iff in Hm as [Hr%reject_if_ok_iff [= <-]].
      by rewrite negb_false_iff in Hr.
    + by injection Hm as <-.
  - intros (e & (row & Hrow & He) & Hm). rewrite Hrow. simpl. rewrite He. simpl.
    destruct (bt_get _ m) as [e0|]; [destruct Hm as [-> ->]; done|by subst m'].
Qed.

Lemma loaded_step lines line m m' :
  loaded lines m -> load_line m line = Ok m' -> loaded (lines ++ [line]) m'.
Proof.
  intros (Hs & Hget & Hall) (e & He & Hm)%load_line_ok_iff.
  destruct (bt_get (event_id e) m) as [e0|] eqn:E0.
  - destruct Hm as [Heq ->]. split_and!; [done| |].
    + intros id x Hx. destruct (Hget _ _ Hx) as (? & l & ? & ?). split; [done|]. exists l. set_solver.
    + intros l [Hl| ->%list_elem_of_singleton]%elem_of_app; [by apply Hall|].
      exists e, e0. split_and!; [done..|]. right. split; [|done]. by apply Hget in E0 as [-> _].
  - subst m'. unfold bt_insert. split_and!; [by apply bt_upsert_sorted| |].
    + intros id x. destruct (decide (id = event_id e)) as [->|Hne].
      * rewrite bt_get_upsert_eq by done. intros [= <-]. split; [done|]. exists line. set_solver.
      * rewrite bt_get_upsert_ne by done. intros (? & l & ? & ?)%Hget. split; [done|]. exists l. set_solver.
    + intros l [(x' & x & Hx & Hg & Hr)%Hall| ->%list_elem_of_singleton]%elem_of_app.
      * exists x', x. split_and!; try done. by rewrite bt_get_upsert_ne by congruence.
      * exists e, e. split_and!; [done| |by left]. by rewrite bt_get_upsert_eq.
Qed.

Lemma load_body_loaded body events :
  load_body body = Ok events ->
  exists m, loaded (row_lines body) m /\ events = sort_by batch_event_cmp (bt_values m).
Proof.
  intros (m & Hm & [= <-])%bind_ok_iff. exists m. split; [|done].
  apply (fold_m_inv loaded _ _ _ _ Hm); [|intros; by eapply loaded_step].
  split_and!; [apply bt_sorted_nil|done|set_solver].
Qed.

Lemma loaded_values lines m : loaded lines m -> event_id <$> bt_values m = m.*1.
Proof.
  intros (Hs & Hget & _). unfold bt_values. rewrite <-list_fmap_compose. apply list_fmap_ext.
  intros i [k e] Hi. simpl. apply (bt_get_lookup k e m) in Hs. apply Hget, Hs.
  by eapply list_elem_of_lookup_2.
Qed.

Lemma loaded_elem lines m e : loaded lines m -> e ∈ bt_values m <-> bt_get (event_id e) m = Some e.
Proof.
  intros (Hs & Hget & _). rewrite bt_get_lookup by done. unfold bt_values. rewrite list_elem_of_fmap. split.
  - intros ([k x] & -> & Hin). simpl. apply (bt_get_lookup k x m) in Hin as Hg; [|done].
    apply Hget in Hg as [-> _]. done.
  - intros Hin. by exists (event_id e, e).
Qed.

End Loader.

(** ** Histories of the service: persistence calls and batches, in any order *)

Section Service.
Context `{Sha256} `{SerdeYaml} `{DebugStr} `{SerdeJson} `{HttpClient} `{Environment} `{Prost}.

Inductive service_call : World -> World -> Prop :=
| call_persist w w' : persist_call w w' -> service_call w w'
| call_execute rt request w r w' : execute rt request w = (r, w') -> service_call w w'.

Lemma grows_persist_call w w' : persist_call w w' -> grows w w'.
Proof. intros [? ? ? ? ? Hr|? ? ? ? ? Hr]; [by eapply grows_persist_signal|by eapply grows_persist_finding]. Qed.

Lemma grows_service w w' : rtc service_call w w' -> grows w w'.
Proof.
  induction 1 as [|w1 w2 w3 Hc _ IH]; [done|]. etrans; [|exact IH].
  destruct Hc as [? ? Hp|? ? ? ? ? Hr]; [by apply grows_persist_call|by eapply grows_execute].
Qed.

Lemma store_ok_empty n : store_ok (w_tables (mkWorld no_rows n)).
Proof. exists []. split; [|done]. split_and!; [constructor|split; constructor..]. Qed.

End Service.

(** ** A sample batch of one failed login *)

Module BatchSample.
Export MvpSample.

Definition uuid_v7_text (n : nat) : string :=
  "018f0000-0000-7000-8000-0000000000" +:+ pretty (Z.of_nat (10 + n mod 90)).

#[export] Instance environment : Environment := {|
  statement_fault _ _ := None;
  commit_fault _ := None;
  uuid_at := uuid_v7_text;
|}.

Definition row : StoredNormalizedRow :=
  mkStoredNormalizedRow tenant (uuid "1") (uuid "b") 1 1700000000 0 1700000001 0 "1.1.0" 3002 3 None None
    "parser" "1" 1 "sha256" "" "1" "{}".
Definition payload : JsonValue :=
  JsonObject [("activity_name", JsonString "Logon"); ("status", JsonString "Failure")].

#[export] Instance json : SerdeJson := {| json_row _ := Ok row; json_value _ := Ok payload |}.
#[export] Instance http : HttpClient := fun _ _ => Responded 200 "one row".

(** The Signal the batch makes of it *)
Definition stored : Signal :=
  mkSignal (uuid_v7_text 0) tenant FAILED_LOGIN_RULE_ID "1" 1 "MEDIUM" None 1
    (Some (mkTimestamp 1700000000 0)) (Some (mkTimestamp 1700000000 0)) (Some at_) 1 1 1
    "Failed login matched" (Some (mkSignalProvenance (Some at_) 1))
    [mkSignalInput (uuid_v7_text 0) 1 (uuid "1") "EVENT_MATCH" 0].

#[export] Instance codec : Prost := {|
  encode_signal _ := ["001"%char];
  decode_signal _ := Ok stored;
  encode_finding _ := ["003"%char];
  decode_finding _ := Err "not a Finding";
  encode_envelope _ := ["004"%char];
|}.

Definition runtime_ : MvpBatchRuntime :=
  mkMvpBatchRuntime (mkClickHouseSource (mkMvpClickHouseConfig "http://localhost:8123" "cerbero" "reader" "pw"))
    (mkPostgresAnalyticalRepository "1.0.0" "i-1").
Definition request : MvpBatchRequest :=
  mkMvpBatchRequest tenant ExecutionMode_Live 1700000000000 1700000600000 100 at_ at_.
Definition result_ : MvpBatchResult := mkMvpBatchResult 1 [stored] [].
Definition empty : World := mkWorld no_rows 0.
Definition first_run : World := snd (execute runtime_ request empty).

Lemma first_run_ok : execute runtime_ request empty = (Ok result_, first_run).
Proof. vm_compute. reflexivity. Qed.

Lemma uuid_text_valid n : uuid_v7 (uuid_v7_text n).
Proof.
  apply (validate_uuid_v7_ok_iff "id"). unfold uuid_v7_text.
  assert (Forall (fun k => validate_uuid_v7 "id"
    ("018f0000-0000-7000-8000-0000000000" +:+ pretty (Z.of_nat (10 + k))) = Ok tt) (seq 0 90)) as Hall.
  { repeat (constructor; [vm_compute; reflexivity|]). constructor. }
  rewrite Forall_forall in Hall. apply Hall, elem_of_seq. pose proof (Nat.mod_upper_bound n 90). lia.
Qed.

Lemma always_quiet n : quiet n.
Proof. by split. Qed.

End BatchSample.

(** ** Properties *)

Section BatchProperties.
Context `{Sha256} `{SerdeYaml} `{DebugStr} `{SerdeJson} `{HttpClient} `{Environment} `{Prost}.

(** C5: a batch can be run again.  After any history of the service, take a run
    that succeeds, then any further history (other batches, failed calls and
    retries included); where no statement fails, running the batch again over
    the same ClickHouse answer, at other evaluation and creation times and with
    other fresh identities, succeeds with the same Signals and Findings and
    changes no table.  Fresh UUIDs are version 7, and the encoding of a message
    with an identity is not empty (prost writes every text field that is not
    empty). *)
Theorem execute_idempotent n rt request evaluated created w w1 w2 res :
  (forall k, uuid_v7 (uuid_at k)) ->
  (forall s, sg_signal_id s <> "" -> encode_signal s <> []) ->
  (forall f, fd_finding_id f <> "" -> encode_finding f <> []) ->
  timestamp_ok evaluated -> timestamp_ok created ->
  rtc service_call (mkWorld no_rows n) w -> execute rt request w = (Ok res, w1) ->
  rtc service_call w1 w2 -> quiet (w_step w2) ->
  exists w3, execute rt (retimed request evaluated created) w2 = (Ok res, w3) /\ w_tables w3 = w_tables w2.
Proof.
  intros Hu Hs Hf He Hc Hbefore Hrun Hafter Hq.
  destruct (grows_service _ _ Hbefore (store_ok_empty n)) as [Hok _].
  destruct (grows_execute rt request _ _ _ Hrun Hok) as [Hok1 _].
  destruct (grows_service _ _ Hafter Hok1) as [Hok2 Hle].
  destruct (replays_execute Hu Hs Hf rt request evaluated created He Hc w res w1 Hok Hrun w2 Hok2 Hle Hq)
    as (res' & w3 & ? & <- & ? & _). eauto.
Qed.

(** C21: results are durable before they are returned.  A batch that succeeds had
    a valid request, returns its Signals and Findings in the order of their
    identities, and each of them is what the store decodes from one of its rows,
    in every later state of the service; a batch that fails never removes or
    rewrites a stored Signal or Finding. *)
Theorem execute_durable n rt request w r w1 w2 :
  rtc service_call (mkWorld no_rows n) w -> execute rt request w = (r, w1) -> rtc service_call w1 w2 ->
  stored_le (w_tables w) (w_tables w2) /\
  forall res, r = Ok res ->
    request_ok request /\
    StronglySorted (fun s s' => cmp_le (sg_signal_id s) (sg_signal_id s') = true) (rs_signals res) /\
    StronglySorted (fun f f' => cmp_le (fd_finding_id f) (fd_finding_id f') = true) (rs_findings res) /\
    Forall (fun s => durable_signal s (w_tables w2)) (rs_signals res) /\
    Forall (fun f => durable_finding f (w_tables w2)) (rs_findings res).
Proof.
  intros Hbefore Hrun Hafter.
  destruct (grows_service _ _ Hbefore (store_ok_empty n)) as [Hok _].
  destruct (grows_execute rt request _ _ _ Hrun Hok) as [Hok1 Hle1].
  destruct (grows_service _ _ Hafter Hok1) as [_ Hle2]. split; [by etrans|]. intros res ->.
  destruct (triple_execute rt request w res w1 Hok Logic.I Hrun) as [Hd Hf].
  apply execute_result_shape in Hrun as (? & ? & ?). split_and!; try done.
  - by eapply upward_signals.
  - by eapply upward_findings.
Qed.

(** The loader keeps one event per identity, in event-time order, and drops
    nothing.  When the rows of a response load, identities are distinct, events
    are ordered by source time in milliseconds and then identity, every event is
    decoded from some line, and every line that is not blank decodes to an event
    that a loaded event of the same identity equals. *)
Theorem load_body_spec body events :
  load_body body = Ok events ->
  NoDup (event_id <$> events) /\
  StronglySorted (fun a b => cmp_le (event_order a) (event_order b) = true) events /\
  (forall e, e ∈ events -> exists line, (line ∈ row_lines body) /\ reads line e) /\
  (forall line, line ∈ row_lines body -> exists e' e, reads line e' /\ (e ∈ events) /\ represents e e').
Proof.
  intros (m & Hm & ->)%load_body_loaded. pose proof Hm as (Hs & Hget & Hall).
  change batch_event_cmp with (fun a b => cmp (event_order a) (event_order b)).
  pose proof (sort_by_perm event_order (bt_values m)) as Hp.
  split_and!.
  - rewrite Hp, (loaded_values _ _ Hm). by apply bt_sorted_NoDup_keys.
  - apply (sort_by_sorted event_order).
  - intros e. rewrite Hp, (loaded_elem _ _ _ Hm). intros He. by apply Hget in He as [_ ?].
  - intros line (e' & e & Hr & Hg & Hrep)%Hall. exists e', e. split_and!; [done| |done].
    rewrite Hp, (loaded_elem _ _ _ Hm). by apply Hget in Hg as Hid; destruct Hid as [-> _].
Qed.

End BatchProperties.

(** ** The properties on the sample *)

Import BatchSample.

Lemma execute_idempotent_witness :
  execute runtime_ request empty = (Ok result_, first_run) /\
  exists w3, execute runtime_ (retimed request (mkTimestamp 1800000000 0) (mkTimestamp 1800000001 0)) first_run
    = (Ok result_, w3) /\ w_tables w3 = w_tables first_run.
Proof.
  split; [exact first_run_ok|].
  apply (execute_idempotent 0 runtime_ request _ _ empty first_run first_run result_).
  - exact uuid_text_valid.
  - intros s _. discriminate.
  - intros f _. discriminate.
  - apply (validate_timestamp_ok_iff "t"). vm_compute. reflexivity.
  - apply (validate_timestamp_ok_iff "t"). vm_compute. reflexivity.
  - apply rtc_refl.
  - exact first_run_ok.
  - apply rtc_refl.
  - apply always_quiet.
Defined.

Lemma execute_durable_witness :
  stored_le no_rows (w_tables first_run) /\ durable_signal stored (w_tables first_run).
Proof.
  destruct (execute_durable 0 runtime_ request empty (Ok result_) first_run first_run) as [Hle Hd].
  - apply rtc_refl.
  - exact first_run_ok.
  - apply rtc_refl.
  - split; [exact Hle|]. destruct (Hd _ eq_refl) as (_ & _ & _ & Hs & _).
    exact (Forall_inv Hs).
Defined.

Lemma load_body_spec_witness :
  exists events, load_body "one row" = Ok events /\ length events = 1 /\
    NoDup (event_id <$> events) /\
    forall line, line ∈ row_lines "one row" -> exists e' e, reads line e' /\ (e ∈ events) /\ represents e e'.
Proof.
  eexists. split; [vm_compute; reflexivity|]. split; [reflexivity|].
  edestruct (load_body_spec "one row") as (? & _ & _ & ?); [vm_compute; reflexivity|]. by split.
Defined.
