(* ===== verification/RustText.v ===== *)
(** * UTF-8 text and searching in it

    The parts of [core::str] that the parsers of the normalizer use: UTF-8
    validation with its error, searching and splitting by a pattern, slices that
    panic off a character boundary, and the lemma that makes such slices safe:
    well-formed text splits into well-formed text at every byte that does not
    continue a character. *)

From S2P Require Import Prelude RustStd.

(** ** UTF-8 *)

Definition continuation : ascii -> bool := byte_in 128 191.

(** [run_utf8_validation]: the position of the first error, and the length of
    the invalid sequence ([None] when the input ends inside a character) *)
Fixpoint utf8_error (l : list ascii) (i : nat) : option (nat * option nat) :=
  match l with
  | [] => None
  | a :: l1 =>
      if byte_in 0 127 a then utf8_error l1 (i + 1)
      else if byte_in 194 223 a then
        match l1 with
        | [] => Some (i, None)
        | b :: l2 => if continuation b then utf8_error l2 (i + 2) else Some (i, Some 1)
        end
      else if byte_in 224 239 a then
        match l1 with
        | [] => Some (i, None)
        | b :: l2 =>
            if (if byte_in 224 224 a then byte_in 160 191 b
                else if byte_in 237 237 a then byte_in 128 159 b else continuation b) then
              match l2 with
              | [] => Some (i, None)
              | c :: l3 => if continuation c then utf8_error l3 (i + 3) else Some (i, Some 2)
              end
            else Some (i, Some 1)
        end
      else if byte_in 240 244 a then
        match l1 with
        | [] => Some (i, None)
        | b :: l2 =>
            if (if byte_in 240 240 a then byte_in 144 191 b
                else if byte_in 244 244 a then byte_in 128 143 b else continuation b) then
              match l2 with
              | [] => Some (i, None)
              | c :: l3 =>
                  if continuation c then
                    match l3 with
                    | [] => Some (i, None)
                    | d :: l4 => if continuation d then utf8_error l4 (i + 4) else Some (i, Some 3)
                    end
                  else Some (i, Some 2)
              end
            else Some (i, Some 1)
        end
      else Some (i, Some 1)
  end.

(** [impl Display for Utf8Error] *)
Definition Utf8Error_display (e : nat * option nat) : string :=
  match e with
  | (valid_up_to, Some error_len) =>
      "invalid utf-8 sequence of " +:+ pretty error_len +:+ " bytes from index " +:+ pretty valid_up_to
  | (valid_up_to, None) => "incomplete utf-8 byte sequence from index " +:+ pretty valid_up_to
  end.

(** [std::str::from_utf8] *)
Definition from_utf8 (bytes : list ascii) : result string string :=
  match utf8_error bytes 0 with
  | None => Ok (str_of_bytes bytes)
  | Some e => Err (Utf8Error_display e)
  end.

(** ** Searching *)

(** [str::split_once] *)
Fixpoint split_once (p s : string) : option (string * string) :=
  match strip_prefix p s with
  | Some rest => Some ("", rest)
  | None =>
      match s with
      | EmptyString => None
      | String a s =>
          match split_once p s with
          | Some (x, y) => Some (String a x, y)
          | None => None
          end
      end
  end.

(** [str::find] *)
Definition str_find (p s : string) : option nat := (fun '(before, _) => str_len before) <$> split_once p s.

(** [str::contains(&str)] *)
Definition contains_str (p s : string) : bool := match split_once p s with Some _ => true | None => false end.

(** [str::starts_with] and [str::ends_with] *)
Definition starts_with (p s : string) : bool := match strip_prefix p s with Some _ => true | None => false end.
Definition ends_with (p s : string) : bool :=
  bool_decide (drop (str_len s - str_len p) (str_bytes s) = str_bytes p).

(** [str::rfind(char)] for an ASCII character *)
Definition str_rfind (c : ascii) (s : string) : option nat :=
  foldl (fun found '(i, b) => if Ascii.eqb b c then Some i else found) None (enumerate (str_bytes s)).

(** [s.trim_end_matches(&['\r', '\n'][..])] *)
Fixpoint drop_crlf (l : list ascii) : list ascii :=
  match l with
  | a :: l' => if Ascii.eqb a "013" || Ascii.eqb a "010" then drop_crlf l' else l
  | [] => []
  end.
Definition trim_end_crlf (s : string) : string := str_of_bytes (reverse (drop_crlf (reverse (str_bytes s)))).

(** [s.split_whitespace().next()]: leading whitespace is skipped, the word ends
    at the next whitespace character *)
Fixpoint word_bytes (l : list ascii) : list ascii :=
  match l with
  | [] => []
  | a :: l1 =>
      if ws1 a
         || match l1 with b :: _ => ws2 a b | [] => false end
         || match l1 with b :: c :: _ => ws3 a b c | _ => false end
      then [] else a :: word_bytes l1
  end.
Definition first_word (s : string) : option string :=
  match word_bytes (trim_start_bytes (str_bytes s)) with
  | [] => None
  | word => Some (str_of_bytes word)
  end.

(** ** Slices: [&s[..i]] and [&s[i..]] panic off a character boundary *)

Definition slice_to {E} (s : string) (i : nat) : result string E := let? '(a, _) := split_at s i in Ok a.
Definition slice_from {E} (s : string) (i : nat) : result string E := let? '(_, b) := split_at s i in Ok b.

(** [s.get(..i)] and [s.get(i..)] *)
Definition get_to (s : string) (i : nat) : option string :=
  if is_char_boundary s i then Some (str_of_bytes (take i (str_bytes s))) else None.
Definition get_from (s : string) (i : nat) : option string :=
  if is_char_boundary s i then Some (str_of_bytes (drop i (str_bytes s))) else None.

(** ** Well-formed text *)

Inductive Utf8 : list ascii -> Prop :=
| Utf8_nil : Utf8 []
| Utf8_1 a l : byte_in 0 127 a = true -> Utf8 l -> Utf8 (a :: l)
| Utf8_2 a b l : byte_in 194 223 a = true -> continuation b = true -> Utf8 l -> Utf8 (a :: b :: l)
| Utf8_3 a b c l : byte_in 224 239 a = true -> continuation b = true -> continuation c = true ->
    Utf8 l -> Utf8 (a :: b :: c :: l)
| Utf8_4 a b c d l : byte_in 240 244 a = true -> continuation b = true -> continuation c = true ->
    continuation d = true -> Utf8 l -> Utf8 (a :: b :: c :: d :: l).

Lemma byte_in_weaken lo hi lo' hi' b :
  (lo' <= lo)%Z -> (hi <= hi')%Z -> byte_in lo hi b = true -> byte_in lo' hi' b = true.
Proof. unfold byte_in. rewrite !in_range_spec. lia. Qed.

Lemma second_byte_continuation b (p q : bool) lo hi lo' hi' :
  (128 <= lo)%Z -> (hi <= 191)%Z -> (128 <= lo')%Z -> (hi' <= 191)%Z ->
  (if p then byte_in lo hi b else if q then byte_in lo' hi' b else continuation b) = true ->
  continuation b = true.
Proof. intros. destruct p; [|destruct q; [|done]]; by eapply byte_in_weaken; [..|eassumption]. Qed.

Lemma utf8_error_None : forall l i, utf8_error l i = None -> Utf8 l.
Proof.
  fix IH 1. intros [|a l1] i; simpl; [constructor|].
  destruct (byte_in 0 127 a) eqn:E1; [intros ?; constructor; [done|by eapply IH]|].
  destruct (byte_in 194 223 a) eqn:E2.
  { destruct l1 as [|b l2]; [done|]. destruct (continuation b) eqn:Eb; [|done].
    intros ?. constructor; [done..|by eapply IH]. }
  destruct (byte_in 224 239 a) eqn:E3.
  { destruct l1 as [|b l2]; [done|]. destruct (if byte_in 224 224 a then _ else _) eqn:Eb; [|done].
    apply second_byte_continuation in Eb; [|done..].
    destruct l2 as [|c l3]; [done|]. destruct (continuation c) eqn:Ec; [|done].
    intros ?. constructor; [done..|by eapply IH]. }
  destruct (byte_in 240 244 a) eqn:E4; [|done].
  destruct l1 as [|b l2]; [done|]. destruct (if byte_in 240 240 a then _ else _) eqn:Eb; [|done].
  apply second_byte_continuation in Eb; [|done..].
  destruct l2 as [|c l3]; [done|]. destruct (continuation c) eqn:Ec; [|done].
  destruct l3 as [|d l4]; [done|]. destruct (continuation d) eqn:Ed; [|done].
  intros ?. constructor; [done..|by eapply IH].
Qed.

Lemma from_utf8_Utf8 l s : from_utf8 l = Ok s -> s = str_of_bytes l /\ Utf8 (str_bytes s).
Proof.
  unfold from_utf8. destruct (utf8_error l 0) eqn:E; [done|]. intros [= <-]. rewrite str_of_bytes_inv.
  by apply utf8_error_None in E.
Qed.

(** A position where a character begins, or the end *)
Definition boundary_head (l : list ascii) : Prop := match l with [] => True | a :: _ => continuation a = false end.

Lemma Utf8_head l : Utf8 l -> boundary_head l.
Proof.
  assert (forall lo hi a, byte_in lo hi a = true -> (hi < 128 \/ 191 < lo)%Z -> continuation a = false) as Hd.
  { intros lo hi a. unfold continuation, byte_in. rewrite in_range_spec, in_range_false. lia. }
  destruct 1; simpl; [done|..]; eapply Hd; [eassumption|lia|eassumption|lia|eassumption|lia|eassumption|lia].
Qed.

Lemma Utf8_split x y : Utf8 (x ++ y) -> boundary_head y -> Utf8 x /\ Utf8 y.
Proof.
  intros H. remember (x ++ y) as l eqn:E. revert x y E.
  induction H as [|a l Ha Hl IH|a b l Ha Hb Hl IH|a b c l Ha Hb Hc Hl IH|a b c d l Ha Hb Hc Hd Hl IH]; intros x y E Hy.
  - symmetry in E. apply app_nil in E as [-> ->]. by split; constructor.
  - destruct x as [|x0 x]; simplify_eq/=; [split; by constructor|].
    destruct (IH x y eq_refl Hy). split; [by constructor|done].
  - destruct x as [|x0 [|x1 x]]; simplify_eq/=; [split; by repeat constructor|congruence|].
    destruct (IH x y eq_refl Hy). split; [by constructor|done].
  - destruct x as [|x0 [|x1 [|x2 x]]]; simplify_eq/=; [split; by repeat constructor|congruence|congruence|].
    destruct (IH x y eq_refl Hy). split; [by constructor|done].
  - destruct x as [|x0 [|x1 [|x2 [|x3 x]]]]; simplify_eq/=;
      [split; by repeat constructor|congruence|congruence|congruence|].
    destruct (IH x y eq_refl Hy). split; [by constructor|done].
Qed.

Lemma ascii_not_continuation a : byte_in 0 127 a = true -> continuation a = false.
Proof. unfold continuation, byte_in. rewrite in_range_spec, in_range_false. lia. Qed.

(** Text splits before and after an ASCII character. *)
Lemma Utf8_at_ascii x a y : byte_in 0 127 a = true -> Utf8 (x ++ a :: y) -> Utf8 x /\ Utf8 y.
Proof.
  intros Ha H. apply Utf8_split in H as [Hx Hy]; [|by apply ascii_not_continuation]. split; [done|].
  inversion Hy; simplify_eq; [done|..]; unfold byte_in in *; rewrite in_range_spec in *; lia.
Qed.

Lemma Utf8_app x y : Utf8 x -> Utf8 y -> Utf8 (x ++ y).
Proof. intros Hx Hy. induction Hx; simpl; [done|by constructor..]. Qed.

Lemma Utf8_snoc_ascii x a : byte_in 0 127 a = true -> Utf8 x -> Utf8 (x ++ [a]).
Proof. intros Ha Hx. apply Utf8_app; [done|]. by repeat constructor. Qed.

(** ** Trimming keeps text well formed *)

Lemma ws1_ascii a : ws1 a = true -> byte_in 0 127 a = true.
Proof. unfold ws1. intros [H|H]%orb_true_iff; by eapply byte_in_weaken; [..|exact H]. Qed.

Lemma ws2_head a b : ws2 a b = true -> continuation a = false.
Proof. unfold ws2. intros [E%Z.eqb_eq _]%andb_true_iff. unfold continuation, byte_in. rewrite E. done. Qed.

Lemma ws3_head a b c : ws3 a b c = true -> continuation a = false.
Proof.
  unfold ws3, continuation, byte_in. intros H. rewrite in_range_false.
  rewrite !orb_true_iff, !andb_true_iff, !Z.eqb_eq in H. lia.
Qed.

Lemma trim_start_Utf8 : forall l, Utf8 l -> Utf8 (trim_start_bytes l).
Proof.
  fix IH 1. intros [|a l1] H; simpl; [done|].
  destruct (ws1 a) eqn:E1.
  { apply IH. by apply (Utf8_at_ascii [] a l1), proj2 in H; [|apply ws1_ascii]. }
  destruct l1 as [|b l2]; [done|]. destruct (ws2 a b) eqn:E2.
  { apply IH. inversion H; simplify_eq; try done;
      unfold ws2, byte_in in *; rewrite andb_true_iff, Z.eqb_eq in E2; destruct E2 as [Ea _];
      rewrite in_range_spec in *; lia. }
  destruct l2 as [|c l3]; [done|]. destruct (ws3 a b c) eqn:E3; [|done].
  apply IH. inversion H; simplify_eq; try done;
    unfold ws3, byte_in in *; rewrite !orb_true_iff, !andb_true_iff, !Z.eqb_eq in E3;
    rewrite in_range_spec in *; lia.
Qed.

Lemma trim_end_Utf8 : forall l, Utf8 (reverse l) -> Utf8 (reverse (trim_end_rev l)).
Proof.
  fix IH 1. intros [|c l1] H; simpl; [done|].
  destruct (ws1 c) eqn:E1.
  { apply IH. rewrite reverse_cons in H. by apply Utf8_at_ascii, proj1 in H; [|apply ws1_ascii]. }
  destruct l1 as [|b l2]; [done|]. destruct (ws2 b c) eqn:E2.
  { apply IH. rewrite !reverse_cons, <-app_assoc in H.
    apply Utf8_split, proj1 in H; [done|]. by eapply ws2_head. }
  destruct l2 as [|a l3]; [done|]. destruct (ws3 a b c) eqn:E3; [|done].
  apply IH. rewrite !reverse_cons, <-!app_assoc in H.
  apply Utf8_split, proj1 in H; [done|]. by eapply ws3_head.
Qed.

Lemma trim_Utf8 s : Utf8 (str_bytes s) -> Utf8 (str_bytes (trim s)).
Proof.
  intros H. unfold trim. rewrite str_of_bytes_inv. apply trim_end_Utf8. rewrite reverse_involutive.
  by apply trim_start_Utf8.
Qed.

Lemma trim_end_crlf_Utf8 s : Utf8 (str_bytes s) -> Utf8 (str_bytes (trim_end_crlf s)).
Proof.
  unfold trim_end_crlf. rewrite str_of_bytes_inv. rewrite <-(reverse_involutive (str_bytes s)) at 1.
  generalize (reverse (str_bytes s)). fix IH 1. intros [|a l] H; simpl; [done|].
  destruct (Ascii.eqb a "013" || Ascii.eqb a "010") eqn:E; [|done]. apply IH.
  rewrite reverse_cons in H. apply Utf8_at_ascii, proj1 in H; [done|].
  apply orb_true_iff in E as [E%Ascii.eqb_eq|E%Ascii.eqb_eq]; by subst a.
Qed.

(** ** Slices *)

Lemma split_at_boundary {E} s x y :
  str_bytes s = x ++ y -> boundary_head y ->
  split_at (E := E) s (length x) = Ok (str_of_bytes x, str_of_bytes y).
Proof.
  intros Hs Hy. unfold split_at, is_char_boundary, str_len. rewrite Hs, take_app_length, drop_app_length.
  rewrite lookup_app_r, Nat.sub_diag by done. destruct y as [|a y]; simpl.
  - by rewrite app_nil_r, Nat.eqb_refl.
  - fold (continuation a). simpl in Hy. by rewrite Hy.
Qed.

(** ** Splitting *)

Lemma append_assoc a b c : (a +:+ b) +:+ c = a +:+ b +:+ c.
Proof. apply str_bytes_inj. by rewrite !str_bytes_app, app_assoc. Qed.

Lemma split_once_Some p s a b : split_once p s = Some (a, b) -> s = a +:+ p +:+ b.
Proof.
  revert a b. induction s as [|c s IH]; intros a b; simpl.
  - destruct (strip_prefix p "") eqn:E; [|done]. intros [= <- <-]. by apply strip_prefix_Some in E.
  - destruct (strip_prefix p (String c s)) as [r|] eqn:E.
    + intros [= <- <-]. by apply strip_prefix_Some in E.
    + destruct (split_once p s) as [[x y]|] eqn:E'; [|done]. intros [= <- <-]. by rewrite (IH x y eq_refl).
Qed.

Lemma prefix_of_longer (p r u v : list ascii) : p ++ r = u ++ v -> length p <= length u -> exists t, u = p ++ t.
Proof.
  revert u. induction p as [|a p IH]; intros u; simpl; [by eauto|].
  destruct u as [|b u]; simpl; [lia|]. intros [= <- Heq] Hl. destruct (IH u Heq) as [t ->]; [lia|]. by exists t.
Qed.

(** What comes after the first occurrence does not change where it is. *)
Lemma split_once_extend p a b : split_once p (a +:+ p) = Some (a, "") -> split_once p (a +:+ p +:+ b) = Some (a, b).
Proof.
  induction a as [|c a IH]; simpl.
  - intros _. assert (strip_prefix p (p +:+ b) = Some b) as Hs by by apply strip_prefix_Some.
    destruct (p +:+ b); simpl; by rewrite Hs.
  - destruct (strip_prefix p (String c (a +:+ p))) as [r|] eqn:E; [done|].
    destruct (split_once p (a +:+ p)) as [[x y]|] eqn:E'; [|done]. intros [= -> ->].
    destruct (strip_prefix p (String c (a +:+ p +:+ b))) as [r|] eqn:E2; [|by rewrite IH].
    exfalso. apply strip_prefix_Some in E2.
    assert (str_bytes p ++ str_bytes r = str_bytes (String c (a +:+ p)) ++ str_bytes b) as Heq.
    { rewrite <-!str_bytes_app, <-E2. f_equal. change (String c (a +:+ p +:+ b) = String c ((a +:+ p) +:+ b)).
      by rewrite append_assoc. }
    apply prefix_of_longer in Heq as [t Ht].
    + rewrite <-(str_of_bytes_inv t), <-str_bytes_app in Ht. apply str_bytes_inj in Ht.
      assert (strip_prefix p (String c (a +:+ p)) = Some (str_of_bytes t)) by by apply strip_prefix_Some. congruence.
    + change (str_bytes (String c (a +:+ p))) with (c :: str_bytes (a +:+ p)). rewrite str_bytes_app.
      simpl. rewrite length_app. lia.
Qed.

Lemma split_once_found p a b : split_once p (a +:+ p +:+ b) <> None.
Proof.
  induction a as [|c a IH]; simpl.
  - assert (strip_prefix p (p +:+ b) = Some b) as Hs by by apply strip_prefix_Some.
    destruct (p +:+ b); simpl; by rewrite Hs.
  - destruct (strip_prefix p (String c (a +:+ p +:+ b))); [done|].
    destruct (split_once p (a +:+ p +:+ b)) as [[x y]|]; done.
Qed.

Lemma contains_str_iff p s : contains_str p s = true <-> exists a b, s = a +:+ p +:+ b.
Proof.
  unfold contains_str. split.
  - destruct (split_once p s) as [[a b]|] eqn:E; [|done]. intros _. exists a, b. by apply split_once_Some.
  - intros (a & b & ->). pose proof (split_once_found p a b). by destruct (split_once p (a +:+ p +:+ b)).
Qed.

Lemma contains_str_here p b : contains_str p (p +:+ b) = true.
Proof. apply contains_str_iff. by exists "", b. Qed.

Lemma contains_str_later p a b : contains_str p b = true -> contains_str p (a +:+ b) = true.
Proof. rewrite !contains_str_iff. intros (x & y & ->). exists (a +:+ x), y. by rewrite append_assoc. Qed.

(** The first occurrence of [p] in [a +:+ p] is at the end: [a] does not hold [p]. *)
Definition free_of (p a : string) : Prop := split_once p (a +:+ p) = Some (a, "").

Lemma str_find_extend p a b : free_of p a -> str_find p (a +:+ p +:+ b) = Some (str_len a).
Proof. intros Hf. unfold str_find. by rewrite (split_once_extend _ _ _ Hf). Qed.

(** ** Decimal numerals *)

Definition digits (l : list ascii) : Prop := Forall (fun a => is_ascii_digit a = true) l.

Lemma pretty_N_char_digit d :
  (d < 10)%N -> is_ascii_digit (pretty_N_char d) = true /\ digit_val (pretty_N_char d) = Z.of_N d.
Proof.
  intros Hd. assert (d ∈ (N.of_nat <$> seq 0 10)) as Hin.
  { apply list_elem_of_fmap. exists (N.to_nat d). split; [lia|]. apply elem_of_seq. lia. }
  clear Hd. revert d Hin. apply Forall_forall. repeat constructor.
Qed.

Lemma pretty_N_go_digits x s : digits (str_bytes s) -> digits (str_bytes (pretty_N_go x s)).
Proof.
  revert s. induction (N.lt_wf_0 x) as [x _ IH]; intros s Hs.
  assert (x = 0 \/ 0 < x)%N as [->|?] by lia; [done|]. rewrite pretty_N_go_step by done.
  apply IH; [by apply N.div_lt|]. constructor; [|done]. by apply pretty_N_char_digit, N.mod_lt.
Qed.

(** The numeral of a number reads back as the number. *)
Lemma parse_pretty_go (in_t : Z -> bool) x s :
  (forall n, (0 <= n <= Z.of_N x)%Z -> in_t n = true) ->
  parse_digits in_t 0 (str_bytes (pretty_N_go x s)) = parse_digits in_t (Z.of_N x) (str_bytes s).
Proof.
  revert s. induction (N.lt_wf_0 x) as [x _ IH]; intros s Hin.
  assert (x = 0 \/ 0 < x)%N as [->|Hx] by lia; [done|]. rewrite pretty_N_go_step by done.
  pose proof (N.Div0.div_mod x 10) as Hdm. pose proof (N.mod_lt x 10 ltac:(done)) as Hm.
  pose proof (N.div_lt x 10 Hx ltac:(done)) as Hlt. set (q := (x / 10)%N) in *. set (r := (x mod 10)%N) in *.
  clearbody q r. rewrite IH; [|done|intros n Hn; apply Hin; lia].
  destruct (pretty_N_char_digit r) as [Hd Hv]; [lia|]. simpl. rewrite Hd, Hv. unfold try_from.
  assert (Z.of_N q * 10 + Z.of_N r = Z.of_N x)%Z as -> by lia.
  by rewrite Hin by lia.
Qed.

Lemma pretty_N_digits (n : N) : digits (str_bytes (pretty n)) /\ pretty n <> "".
Proof.
  unfold pretty, pretty_N. case_decide as Hn; [split; [repeat constructor|done]|]. split.
  - apply pretty_N_go_digits. constructor.
  - assert (forall x s, s <> "" -> pretty_N_go x s <> "") as Hne.
    { intros x. induction (N.lt_wf_0 x) as [x _ IH]; intros s Hs.
      assert (x = 0 \/ 0 < x)%N as [->|?] by lia; [done|]. rewrite pretty_N_go_step by done.
      apply IH; [by apply N.div_lt|done]. }
    rewrite pretty_N_go_step by lia. by apply Hne.
Qed.

Lemma pretty_Z_nonneg (z : Z) : (0 <= z)%Z -> pretty z = pretty (Z.to_N z).
Proof. intros Hz. by destruct z. Qed.

Lemma parse_unsigned_pretty (in_t : Z -> bool) (z : Z) :
  (0 <= z)%Z -> (forall n, (0 <= n <= z)%Z -> in_t n = true) -> parse_unsigned in_t (pretty z) = Some z.
Proof.
  intros Hz Hin. rewrite pretty_Z_nonneg by done. destruct (pretty_N_digits (Z.to_N z)) as [Hd Hne].
  assert (parse_digits in_t 0 (str_bytes (pretty (Z.to_N z))) = Some z) as Hp.
  { unfold pretty, pretty_N. case_decide as H0.
    - simpl. unfold try_from. assert (z = 0)%Z as -> by lia. by rewrite Hin.
    - rewrite parse_pretty_go by (intros n Hn; apply Hin; lia). simpl. f_equal. lia. }
  unfold parse_unsigned. destruct (pretty (Z.to_N z)) as [|a s]; [done|]. cbn [str_bytes list_ascii_of_string] in *.
  destruct (Ascii.eqb_spec a "+") as [->|]; [|done]. apply Forall_cons in Hd as [[=] _].
Qed.

(** ** Words *)

Lemma digit_not_space a : is_ascii_digit a = true -> ws1 a = false /\ (forall b, ws2 a b = false) /\ forall b c, ws3 a b c = false.
Proof.
  intros Ha. destruct (graphic_not_space a) as (? & ? & _ & ? & _); [|done].
  by eapply byte_in_weaken; [..|exact Ha].
Qed.

Lemma word_bytes_digits l rest :
  digits l -> (rest = [] \/ exists r, rest = " "%char :: r) -> word_bytes (l ++ rest) = l.
Proof.
  intros Hl Hrest. induction Hl as [|a l Ha _ IH]; simpl.
  - destruct Hrest as [->|[r ->]]; done.
  - apply digit_not_space in Ha as (-> & H2 & H3). rewrite IH. clear -H2 H3.
    destruct (l ++ rest) as [|b [|c m]]; rewrite ?H2, ?H3; done.
Qed.

Lemma first_word_numeral (z : Z) rest :
  (0 <= z)%Z -> (rest = "" \/ exists r, rest = String " " r) -> first_word (pretty z +:+ rest) = Some (pretty z).
Proof.
  intros Hz Hrest. rewrite pretty_Z_nonneg by done. destruct (pretty_N_digits (Z.to_N z)) as [Hd Hne].
  unfold first_word. rewrite str_bytes_app.
  assert (trim_start_bytes (str_bytes (pretty (Z.to_N z)) ++ str_bytes rest)
          = str_bytes (pretty (Z.to_N z)) ++ str_bytes rest) as ->.
  { destruct (pretty (Z.to_N z)) as [|a s]; [done|]. apply trim_start_graphic.
    apply Forall_cons in Hd as [Ha _]. by eapply byte_in_weaken; [..|exact Ha]. }
  rewrite word_bytes_digits; [|done|].
  - destruct (pretty (Z.to_N z)) as [|a s]; [done|].
    change (Some (str_of_bytes (str_bytes (String a s))) = Some (String a s)). by rewrite str_bytes_inv.
  - destruct Hrest as [->|[r ->]]; [by left|right; by eexists].
Qed.

(** A character that does not occur is not found early. *)
Lemma free_of_char c a : contains_char c a = false -> free_of (String c "") a.
Proof.
  unfold free_of. induction a as [|x a IH]; simpl.
  - by rewrite Ascii.eqb_refl.
  - rewrite contains_char_cons. intros [Hx Ha]%orb_false_iff. rewrite Hx.
    by rewrite IH.
Qed.

Lemma str_len_app a b : str_len (a +:+ b) = str_len a + str_len b.
Proof. unfold str_len. by rewrite str_bytes_app, length_app. Qed.

Lemma ends_with_char c s :
  ends_with (String c "") s = true -> exists u, s = u +:+ String c "" /\ str_len s - 1 = str_len u.
Proof.
  unfold ends_with. intros Hd%bool_decide_eq_true.
  assert (s = str_of_bytes (take (str_len s - 1) (str_bytes s)) +:+ String c "") as Hs.
  { apply str_bytes_inj. rewrite str_bytes_app, str_of_bytes_inv. change (str_bytes (String c "")) with [c].
    rewrite <-(take_drop (str_len s - 1) (str_bytes s)) at 1. f_equal. exact Hd. }
  eexists. split; [exact Hs|]. apply (f_equal str_len) in Hs as Hl. rewrite str_len_app in Hl.
  change (str_len (String c "")) with 1 in Hl. lia.
Qed.
