(* ===== verification/CanonicalJson.v ===== *)
(** * JSON values and their canonical form

    [serde_json::Value] as the normalizer crate builds it ([arbitrary_precision]:
    a number is its text; no [preserve_order]: an object is a [BTreeMap]), and
    crates/cerbero-normalizer/src/canonical.rs. *)

From S2P Require Import Prelude RustStd ContractTypes Validation.

Inductive Json : Type :=
| JNull
| JBool (b : bool)
| JNumber (text : string)
| JString (text : string)
| JArray (values : list Json)
| JObject (object : BTreeMap string Json).

(** [serde_json]: the decoder, the encoder of a value, and [Number::as_f64] *)
Class JsonCodec := {
  json_from_slice : list ascii -> result Json string;
  json_to_vec : Json -> list ascii;
  number_as_f64 : string -> option f64;
}.

(** Accessors of [Value] *)
Definition json_as_object (v : Json) : option (BTreeMap string Json) :=
  match v with JObject object => Some object | _ => None end.
Definition json_as_array (v : Json) : option (list Json) :=
  match v with JArray values => Some values | _ => None end.
Definition json_as_str (v : Json) : option string :=
  match v with JString text => Some text | _ => None end.
Definition json_as_u64 (v : Json) : option Z :=
  match v with JNumber text => parse_unsigned in_u64 text | _ => None end.

(** An iterator of pairs collected into a [BTreeMap] *)
Definition collect_map {V} (pairs : list (string * V)) : BTreeMap string V :=
  foldl (fun m p => bt_insert p.1 p.2 m) [] pairs.

Fixpoint canonicalize (value : Json) : Json :=
  match value with
  | JObject object =>
      let sorted := collect_map (map (fun '(key, value) => (key, canonicalize value)) object) in
      JObject (collect_map sorted)
  | JArray values => JArray (map canonicalize values)
  | _ => value
  end.

Definition canonical_json_bytes `{JsonCodec} (value : Json) : list ascii := json_to_vec (canonicalize value).

Definition canonical_json_hash `{JsonCodec} `{Sha256} (value : Json) : string :=
  sha256_lower_hex (canonical_json_bytes value).
