(* ===== verification/CanonicalJsonSpec.v ===== *)
(** * Canonical JSON identifies exactly the reorderings of a value

    Two JSON values with distinct member names have the same canonical form if
    and only if one is obtained from the other by reordering members at any
    depth; so the canonical hash depends on the content alone. *)

From S2P Require Import Prelude RustStd ContractTypes Validation CanonicalJson.

(** ** Induction on JSON values *)

Section JsonInd.
Variable P : Json -> Prop.
Hypothesis HNull : P JNull.
Hypothesis HBool : forall b, P (JBool b).
Hypothesis HNumber : forall text, P (JNumber text).
Hypothesis HString : forall text, P (JString text).
Hypothesis HArray : forall values, Forall P values -> P (JArray values).
Hypothesis HObject : forall object, Forall (fun m => P m.2) object -> P (JObject object).

Fixpoint Json_tree_ind (v : Json) : P v :=
  match v with
  | JNull => HNull
  | JBool b => HBool b
  | JNumber text => HNumber text
  | JString text => HString text
  | JArray values =>
      HArray values ((fix go l : Forall P l :=
        match l with
        | [] => Forall_nil_2 P
        | x :: l => Forall_cons_2 P x l (Json_tree_ind x) (go l)
        end) values)
  | JObject object =>
      HObject object ((fix go (l : list (string * Json)) : Forall (fun m => P m.2) l :=
        match l with
        | [] => Forall_nil_2 _
        | (k, x) :: l => Forall_cons_2 (fun m => P m.2) (k, x) l (Json_tree_ind x) (go l)
        end) object)
  end.
End JsonInd.

(** ** Reordering members *)

Inductive same_json : Json -> Json -> Prop :=
| same_refl v : same_json v v
| same_sym v w : same_json v w -> same_json w v
| same_trans u v w : same_json u v -> same_json v w -> same_json u w
| same_swap o1 p q o2 : same_json (JObject (o1 ++ p :: q :: o2)) (JObject (o1 ++ q :: p :: o2))
| same_member o1 k v w o2 : same_json v w ->
    same_json (JObject (o1 ++ (k, v) :: o2)) (JObject (o1 ++ (k, w) :: o2))
| same_element l1 v w l2 : same_json v w ->
    same_json (JArray (l1 ++ v :: l2)) (JArray (l1 ++ w :: l2)).

#[export] Instance same_json_equivalence : Equivalence same_json.
Proof. split; [exact same_refl|exact same_sym|exact same_trans]. Qed.

(** Member names are distinct in every object, as in a decoded value. *)
Fixpoint distinct_members (v : Json) : Prop :=
  match v with
  | JArray values => foldr (fun v acc => distinct_members v /\ acc) True values
  | JObject object =>
      NoDup (object.*1) /\ foldr (fun m acc => distinct_members m.2 /\ acc) True object
  | _ => True
  end.

Lemma distinct_array values : distinct_members (JArray values) <-> Forall distinct_members values.
Proof.
  simpl. induction values as [|v l IH]; simpl; [done|]. by rewrite Forall_cons, IH.
Qed.

Lemma distinct_object object :
  distinct_members (JObject object) <-> NoDup (object.*1) /\ Forall (fun m => distinct_members m.2) object.
Proof.
  simpl. apply and_iff_compat_l. induction object as [|m l IH]; simpl; [done|]. by rewrite Forall_cons, IH.
Qed.

Lemma same_json_distinct v w : same_json v w -> distinct_members v <-> distinct_members w.
Proof.
  induction 1 as [v|v w _ IH|u v w _ IH1 _ IH2|o1 p q o2|o1 k v w o2 _ IH|l1 v w l2 _ IH].
  - done.
  - by symmetry.
  - by rewrite IH1.
  - rewrite !distinct_object. f_equiv; [|rewrite !Forall_app, !Forall_cons; tauto].
    rewrite !fmap_app, !fmap_cons. f_equiv. apply Permutation_app_head. constructor.
  - rewrite !distinct_object, !fmap_app, !fmap_cons, !Forall_app, !Forall_cons. simpl. tauto.
  - rewrite !distinct_array, !Forall_app, !Forall_cons. tauto.
Qed.

(** ** Collecting members *)

Section Collect.
Context {V : Type}.
Implicit Types l : list (string * V).

Lemma collect_map_snoc l p : collect_map (l ++ [p]) = bt_insert p.1 p.2 (collect_map l).
Proof. unfold collect_map. by rewrite foldl_app. Qed.

Lemma collect_map_sorted l : bt_sorted (collect_map l).
Proof.
  induction l as [|p l IH] using rev_ind; [constructor|]. rewrite collect_map_snoc. by apply bt_upsert_sorted.
Qed.

Lemma collect_map_elem l k v : NoDup (l.*1) -> (k, v) ∈ collect_map l <-> (k, v) ∈ l.
Proof.
  intros Hnd. rewrite <-bt_get_lookup by apply collect_map_sorted.
  induction l as [|p l IH] using rev_ind; [simpl; set_solver|].
  rewrite fmap_app, NoDup_app in Hnd. destruct Hnd as (Hnd & Hnew & _).
  rewrite collect_map_snoc. unfold bt_insert. destruct (decide (k = p.1)) as [->|Hne].
  - rewrite bt_get_upsert_eq by apply collect_map_sorted. rewrite elem_of_app, list_elem_of_singleton. split.
    + intros [= <-]. right. by destruct p.
    + intros [Hin|Heq]; [|by rewrite <-Heq]. exfalso. apply (Hnew p.1); [|simpl; set_solver].
      by apply (list_elem_of_fmap_2' _ _ (p.1, v)).
  - rewrite bt_get_upsert_ne by (done || apply collect_map_sorted). rewrite IH by done.
    rewrite elem_of_app, list_elem_of_singleton. split; [by left|]. intros [?|Heq]; [done|].
    subst p. done.
Qed.

Lemma collect_map_perm l : NoDup (l.*1) -> collect_map l ≡ₚ l.
Proof.
  intros Hnd. apply NoDup_Permutation.
  - eapply NoDup_fmap_1, bt_sorted_NoDup_keys, collect_map_sorted.
  - by eapply NoDup_fmap_1.
  - intros [k v]. by apply collect_map_elem.
Qed.

Lemma collect_map_eq l1 l2 : NoDup (l1.*1) -> l1 ≡ₚ l2 -> collect_map l1 = collect_map l2.
Proof.
  intros Hnd Hp. assert (NoDup (l2.*1)) as Hnd2 by (by rewrite <-Hp).
  apply bt_ext; [apply collect_map_sorted..|]. intros k. apply option_eq. intros v.
  rewrite !bt_get_lookup by apply collect_map_sorted. by rewrite !collect_map_elem, Hp.
Qed.

Lemma collect_map_id l : bt_sorted l -> collect_map l = l.
Proof.
  intros Hs. apply bt_ext; [apply collect_map_sorted|done|]. intros k. apply option_eq. intros v.
  rewrite !bt_get_lookup by (done || apply collect_map_sorted). apply collect_map_elem.
  by apply bt_sorted_NoDup_keys.
Qed.
End Collect.

Definition canonical_member (m : string * Json) : string * Json := (m.1, canonicalize m.2).

Lemma canonicalize_object object :
  canonicalize (JObject object) = JObject (collect_map (canonical_member <$> object)).
Proof.
  cbn [canonicalize]. rewrite collect_map_id by apply collect_map_sorted. do 2 f_equal.
  apply list_fmap_ext. by intros i [k v] _.
Qed.

Lemma canonical_keys object : (canonical_member <$> object).*1 = object.*1.
Proof. rewrite <-list_fmap_compose. by apply list_fmap_ext. Qed.

(** ** Reorderings have one canonical form *)

Lemma same_json_canonical v w :
  same_json v w -> distinct_members v -> canonicalize v = canonicalize w.
Proof.
  induction 1 as [v|v w Hs IH|u v w H1 IH1 H2 IH2|o1 p q o2|o1 k v w o2 _ IH|l1 v w l2 _ IH]; intros Hd.
  - done.
  - symmetry. apply IH. by apply (same_json_distinct _ _ Hs).
  - rewrite IH1 by done. apply IH2. by apply (same_json_distinct _ _ H1).
  - rewrite !canonicalize_object. f_equal. apply collect_map_eq.
    + rewrite canonical_keys. by apply distinct_object in Hd as [? _].
    + rewrite !fmap_app, !fmap_cons. apply Permutation_app_head. constructor.
  - rewrite !canonicalize_object, !fmap_app, !fmap_cons. unfold canonical_member at 2 5. simpl.
    rewrite IH; [done|]. apply distinct_object in Hd as [_ Hd].
    apply Forall_app in Hd as [_ Hd]. by apply Forall_cons in Hd as [? _].
  - cbn [canonicalize]. rewrite !map_app. simpl. rewrite IH; [done|]. apply distinct_array in Hd.
    apply Forall_app in Hd as [_ Hd]. by apply Forall_cons in Hd as [? _].
Qed.

Lemma same_json_perm o1 o2 : o1 ≡ₚ o2 -> same_json (JObject o1) (JObject o2).
Proof.
  intros Hp. change o1 with ([] ++ o1). change o2 with ([] ++ o2). generalize (@nil (string * Json)) as o0.
  induction Hp as [|m l1 l2 _ IH|p q l|l1 l2 l3 _ IH1 _ IH2]; intros o0.
  - done.
  - specialize (IH (o0 ++ [m])). by rewrite <-!app_assoc in IH.
  - apply same_swap.
  - by etrans; [apply IH1|apply IH2].
Qed.

Lemma same_json_members o :
  Forall (fun m => same_json m.2 (canonicalize m.2)) o -> same_json (JObject o) (JObject (canonical_member <$> o)).
Proof.
  intros H. change o with ([] ++ o) at 1. change (canonical_member <$> o) with ([] ++ (canonical_member <$> o)).
  generalize (@nil (string * Json)) as o0. induction H as [|[k v] o Hv _ IH]; intros o0; [done|].
  rewrite fmap_cons. etrans; [apply same_member, Hv|]. specialize (IH (o0 ++ [(k, canonicalize v)])).
  by rewrite <-!app_assoc in IH.
Qed.

Lemma same_json_elements l :
  Forall (fun v => same_json v (canonicalize v)) l -> same_json (JArray l) (JArray (map canonicalize l)).
Proof.
  intros H. change l with ([] ++ l) at 1. change (map canonicalize l) with ([] ++ map canonicalize l).
  generalize (@nil Json) as l0. induction H as [|v l Hv _ IH]; intros l0; [done|]. simpl.
  etrans; [apply same_element, Hv|]. specialize (IH (l0 ++ [canonicalize v])).
  by rewrite <-!app_assoc in IH.
Qed.

Lemma same_json_canonicalize v : distinct_members v -> same_json v (canonicalize v).
Proof.
  induction v as [| | | |values IH|object IH] using Json_tree_ind; intros Hd; try done.
  - apply distinct_array in Hd. apply same_json_elements. rewrite Forall_forall in *. auto.
  - apply distinct_object in Hd as [Hnd Hd]. rewrite canonicalize_object.
    etrans; [apply same_json_members; rewrite Forall_forall in *; auto|].
    symmetry. apply same_json_perm, collect_map_perm. by rewrite canonical_keys.
Qed.

(** Canonicalization identifies exactly the reorderings of a value: two JSON
    values with distinct member names have the same canonical form if and only
    if one is obtained from the other by reordering object members at any depth.
    In particular the canonical bytes and their hash do not depend on member
    order, and nothing else of the value is lost. *)
Theorem canonicalize_iff_reordered v w :
  distinct_members v -> distinct_members w -> (canonicalize v = canonicalize w <-> same_json v w).
Proof.
  intros Hv Hw. split; [|by intros Hs; apply same_json_canonical].
  intros He. etrans; [by apply same_json_canonicalize|]. rewrite He. symmetry. by apply same_json_canonicalize.
Qed.

Lemma canonicalize_iff_reordered_witness :
  canonicalize (JObject [("z", JNumber "1"); ("a", JObject [("y", JNumber "2"); ("b", JNumber "3")])])
  = canonicalize (JObject [("a", JObject [("b", JNumber "3"); ("y", JNumber "2")]); ("z", JNumber "1")]).
Proof.
  apply canonicalize_iff_reordered.
  - repeat split; apply (bool_decide_unpack (NoDup _)); vm_compute; exact I.
  - repeat split; apply (bool_decide_unpack (NoDup _)); vm_compute; exact I.
  - etrans; [apply (same_swap [])|]. apply (same_member []), (same_swap []).
Defined.
