(* ===== verification/Parser.v ===== *)
(** * The parser registry

    crates/cerbero-normalizer/src/parser.rs: parsed values and events, the
    [Parser] trait as a record of operations, selection by tier and confidence,
    the registry that catches panics, and the linux/sshd parsers. *)

From S2P Require Import Prelude RustStd RustText ContractTypes.

Definition LINUX_SSHD_PARSER_ID : string := "linux/sshd".
Definition LINUX_SSHD_PARSER_VERSION : string := "1".
Definition LINUX_SSHD_PARSER_V2_VERSION : string := "2".

(** ** Data *)

Inductive ParserTier : Type := Generic | ContentProtocol | SourceSpecific.

(** [#[derive(PartialOrd, Ord)]]: by declaration order *)
Definition tier_rank (t : ParserTier) : Z :=
  match t with Generic => 0 | ContentProtocol => 1 | SourceSpecific => 2 end.

Record ParserLimits := mkParserLimits {
  max_input_bytes : Z;
  max_depth : Z;
  max_fields : Z;
  max_string_bytes : Z;
  max_collection_length : Z;
}.

Inductive ParsingStatus : Type :=
| Parsing_Success | Parsing_Partial | Parsing_Failed | Parsing_Unsupported.

Record TimestampCandidate := mkTimestampCandidate {
  tc_value : string;
  tc_source_field : string;
  tc_timezone_assumption : option string;
  tc_precision : string;
  tc_confidence : string;
}.

Inductive ParsedValue : Type :=
| PNull
| PBool (b : bool)
| PNumber (text : string)
| PString (text : string)
| PBytes (bytes : list ascii)
| PArray (values : list ParsedValue)
| PObject (object : BTreeMap string ParsedValue).

(** [ParsedValue::object] *)
Definition parsed_object (entries : list (string * ParsedValue)) : ParsedValue :=
  PObject (foldl (fun m e => bt_insert e.1 e.2 m) [] entries).

Definition parsed_as_object (v : ParsedValue) : option (BTreeMap string ParsedValue) :=
  match v with PObject object => Some object | _ => None end.
Definition parsed_as_array (v : ParsedValue) : option (list ParsedValue) :=
  match v with PArray values => Some values | _ => None end.
Definition parsed_as_str (v : ParsedValue) : option string :=
  match v with PString text => Some text | _ => None end.
Definition parsed_as_bool (v : ParsedValue) : option bool :=
  match v with PBool b => Some b | _ => None end.
Definition parsed_as_number_str (v : ParsedValue) : option string :=
  match v with PNumber text => Some text | _ => None end.
Definition parsed_as_u64 (v : ParsedValue) : option Z :=
  parsed_as_number_str v ≫= parse_unsigned in_u64.
Definition parsed_as_bytes (v : ParsedValue) : option (list ascii) :=
  match v with PBytes bytes => Some bytes | _ => None end.
Definition parsed_get (v : ParsedValue) (key : string) : option ParsedValue :=
  parsed_as_object v ≫= bt_get key.

Record ParserCandidate := mkParserCandidate {
  pc_parser_id : string;
  pc_parser_version : string;
  pc_tier : ParserTier;
  pc_confidence : Z;   (* u8 *)
}.

Record ParserSelectionTrace := mkParserSelectionTrace {
  pt_policy : string;
  pt_candidates : list ParserCandidate;
  pt_selected_parser_id : string;
  pt_selected_parser_version : string;
}.

Record ParsedEvent := mkParsedEvent {
  pe_parser_id : string;
  pe_parser_version : string;
  pe_source_event_type : string;
  pe_fields : ParsedValue;
  pe_timestamp_candidates : list TimestampCandidate;
  pe_warnings : list string;
  pe_status : ParsingStatus;
  pe_selection : option ParserSelectionTrace;
}.

Definition parsed_field (e : ParsedEvent) (key : string) : option ParsedValue := parsed_get (pe_fields e) key.
Definition string_field (e : ParsedEvent) (key : string) : option string := parsed_field e key ≫= parsed_as_str.
Definition bool_field (e : ParsedEvent) (key : string) : option bool := parsed_field e key ≫= parsed_as_bool.
Definition u64_field (e : ParsedEvent) (key : string) : option Z := parsed_field e key ≫= parsed_as_u64.

Record ParserInput := mkParserInput {
  in_raw : list ascii;
  in_persisted : RawEventPersisted;
  in_configured_parser_id : option string;
}.

Record ParseError := mkParseError {
  pr_code : string;
  pr_message : string;
  pr_retryable : bool;
}.

(** [impl Display for ParseError] *)
Definition ParseError_display (error : ParseError) : string := pr_code error +:+ ": " +:+ pr_message error.

(** [trait Parser]; a probe returns a [u8] or panics *)
Record Parser := mkParser {
  parser_id : string;
  parser_version : string;
  parser_tier : ParserTier;
  parser_limits : ParserLimits;
  parser_probe : ParserInput -> result Z ParseError;
  parser_parse : ParserInput -> result ParsedEvent ParseError;
}.

Record ParserSelection := mkParserSelection {
  ps_parser : Parser;
  ps_trace : ParserSelectionTrace;
}.

Definition ParserRegistry : Type := list Parser.

(** ** Selection *)

(** [catch_unwind(..)]: a panic becomes the [Err] of the closure's caller *)
Definition catch_unwind {A E} (r : result A E) (panicked : E) : result A E :=
  match r with Panic _ => Err panicked | r => r end.

Definition candidate (parser : Parser) (confidence : Z) : ParserCandidate :=
  mkParserCandidate (parser_id parser) (parser_version parser) (parser_tier parser) confidence.

Definition probe_parser (parser : Parser) (input : ParserInput) : result Z ParseError :=
  catch_unwind (parser_probe parser input)
    (mkParseError "CER-PARSE-INTERNAL" ("parser " +:+ parser_id parser +:+ " panicked while probing") false).

(** [(tier, confidence)] under the tuple order *)
Definition candidate_key (c : ParserCandidate) : Z * Z := (tier_rank (pc_tier c), pc_confidence c).
Definition key_cmp (k1 k2 : Z * Z) : comparison := then_with (k1.1 ?= k2.1)%Z (k1.2 ?= k2.2)%Z.

(** The loop's [best] (index and key) and [tied] *)
Record SelectState := mkSelectState { ss_best : option (nat * (Z * Z)); ss_tied : list nat }.

Definition select_step (state : SelectState) (entry : nat * ParserCandidate) : SelectState :=
  let '(index, entry) := entry in
  if (pc_confidence entry =? 0)%Z then state
  else
    let key := candidate_key entry in
    match ss_best state with
    | None => mkSelectState (Some (index, key)) [index]
    | Some (_, incumbent) =>
        match key_cmp key incumbent with
        | Gt => mkSelectState (Some (index, key)) [index]
        | Eq => mkSelectState (ss_best state) (ss_tied state ++ [index])
        | Lt => state
        end
    end.

Definition select (registry : ParserRegistry) (input : ParserInput) : result ParserSelection ParseError :=
  match in_configured_parser_id input with
  | Some configured =>
      let? parser := ok_or (List.find (fun parser => String.eqb (parser_id parser) configured) registry)
        (mkParseError "CER-PARSE-NO-MATCH" ("configured parser " +:+ configured +:+ " is not registered") false) in
      let? confidence := probe_parser parser input in
      Ok (mkParserSelection parser
            (mkParserSelectionTrace "configured-parser" [candidate parser confidence]
               (parser_id parser) (parser_version parser)))
  | None =>
      let? candidates := map_m (fun parser =>
          let? confidence := probe_parser parser input in Ok (candidate parser confidence)) registry in
      let state := foldl select_step (mkSelectState None []) (enumerate candidates) in
      match ss_best state with
      | None =>
          Err (mkParseError "CER-PARSE-NO-MATCH" "no registered parser supports the input" false)
      | Some (best_index, _) =>
          if (1 <? length (ss_tied state))%nat then
            let? ids := map_m (fun i => let? c := index candidates i in Ok (pc_parser_id c)) (ss_tied state) in
            Err (mkParseError "CER-PARSE-NO-MATCH"
                   ("parser selection is ambiguous at the highest tier/confidence: " +:+ String.concat ", " ids) false)
          else
            let? parser := index registry best_index in
            Ok (mkParserSelection parser
                  (mkParserSelectionTrace "auto:tier-then-confidence" candidates
                     (parser_id parser) (parser_version parser)))
      end
  end.

Definition registry_parse (registry : ParserRegistry) (input : ParserInput) : result ParsedEvent ParseError :=
  let? selection := select registry input in
  let trace := ps_trace selection in
  let parser := ps_parser selection in
  let? parsed := catch_unwind (parser_parse parser input)
    (mkParseError "CER-PARSE-INTERNAL" ("parser " +:+ parser_id parser +:+ " panicked") false) in
  reject_if (negb (String.eqb (pe_parser_id parsed) (parser_id parser))
             || negb (String.eqb (pe_parser_version parsed) (parser_version parser)))
    (mkParseError "CER-PARSE-INTERNAL" "parser output identity differs from selected parser" false) ;;?
  Ok (mkParsedEvent (pe_parser_id parsed) (pe_parser_version parsed) (pe_source_event_type parsed)
        (pe_fields parsed) (pe_timestamp_candidates parsed) (pe_warnings parsed) (pe_status parsed) (Some trace)).

(** ** linux/sshd *)

Definition LINUX_SSHD_LIMITS : ParserLimits := mkParserLimits 65536 8 64 65536 64.

Inductive InvalidUserMessagePolicy : Type := LegacyUserLabel | PreserveInvalidUserLabel.

Definition sshd_malformed (message : string) : ParseError := mkParseError "CER-PARSE-MALFORMED" message false.

Definition probe_failed_password (raw : list ascii) : Z :=
  match from_utf8 raw with
  | Ok text =>
      let text := trim text in
      if contains_str "Failed password for " text && contains_str " from " text && contains_str " port " text
      then 100 else 0
  | _ => 0
  end.

Definition in_u16 : Z -> bool := in_range 0 u16_max.

Definition identity_label (invalid_user : bool) (policy : InvalidUserMessagePolicy) (username : string) : string :=
  match invalid_user, policy with
  | true, PreserveInvalidUserLabel => "invalid user " +:+ username
  | _, _ => "user " +:+ username
  end.

(** The event of a rejected password *)
Definition sshd_event (version username source_ip : string) (source_port : Z) (invalid_user : bool)
    (policy : InvalidUserMessagePolicy) : ParsedEvent :=
  mkParsedEvent LINUX_SSHD_PARSER_ID version "linux.ssh.authentication"
    (parsed_object
       [("username", PString username);
        ("source_ip", PString source_ip);
        ("source_port", PNumber (pretty source_port));
        ("authentication_succeeded", PBool false);
        ("invalid_user", PBool invalid_user);
        ("message", PString ("SSH authentication failed for " +:+ identity_label invalid_user policy username
                             +:+ " from " +:+ source_ip))])
    [] [] Parsing_Success None.

Definition parse_failed_password (text parser_version : string) (policy : InvalidUserMessagePolicy)
    : result ParsedEvent ParseError :=
  let marker := "Failed password for " in
  match str_find marker text with
  | None => Err (sshd_malformed "missing 'Failed password for' marker")
  | Some index =>
      let? after_prefix := slice_from text (index + str_len marker) in
      let? '(identity, source) := ok_or (split_once " from " after_prefix)
        (sshd_malformed "missing source address") in
      let? '(source_ip, port_and_rest) := ok_or (split_once " port " source)
        (sshd_malformed "missing source port") in
      let? source_port_text := ok_or (first_word port_and_rest) (sshd_malformed "empty source port") in
      let? source_port := ok_or (parse_unsigned in_u16 source_port_text)
        (sshd_malformed "source port is not a valid unsigned 16-bit integer") in
      let '(invalid_user, username) :=
        match strip_prefix "invalid user " identity with
        | Some user => (true, user)
        | None => (false, identity)
        end in
      reject_if (is_empty username || is_empty source_ip)
        (sshd_malformed "username and source address are required") ;;?
      Ok (sshd_event parser_version username source_ip source_port invalid_user policy)
  end.

Definition parse_linux_sshd (input : ParserInput) (parser_version : string) (policy : InvalidUserMessagePolicy)
    : result ParsedEvent ParseError :=
  reject_if (max_input_bytes LINUX_SSHD_LIMITS <? Z.of_nat (length (in_raw input)))%Z
    (mkParseError "CER-PARSE-LIMIT-EXCEEDED"
       ("linux/sshd input exceeds " +:+ pretty (max_input_bytes LINUX_SSHD_LIMITS) +:+ " bytes") false) ;;?
  let? text := map_err (fun error =>
      mkParseError "CER-PARSE-MALFORMED"
        ("linux/sshd v" +:+ parser_version +:+ " requires UTF-8 input: " +:+ error) false)
    (from_utf8 (in_raw input)) in
  parse_failed_password (trim text) parser_version policy.

Definition LinuxSshdParser : Parser :=
  mkParser LINUX_SSHD_PARSER_ID LINUX_SSHD_PARSER_VERSION SourceSpecific LINUX_SSHD_LIMITS
    (fun input => Ok (probe_failed_password (in_raw input)))
    (fun input => parse_linux_sshd input LINUX_SSHD_PARSER_VERSION LegacyUserLabel).

Definition LinuxSshdParserV2 : Parser :=
  mkParser LINUX_SSHD_PARSER_ID LINUX_SSHD_PARSER_V2_VERSION SourceSpecific LINUX_SSHD_LIMITS
    (fun input => Ok (probe_failed_password (in_raw input)))
    (fun input => parse_linux_sshd input LINUX_SSHD_PARSER_V2_VERSION PreserveInvalidUserLabel).
