(* ===== verification/ParserSpec.v ===== *)
(** * What the parser registry guarantees

    Selection picks the one parser with the highest tier and confidence, or
    fails closed; the registry returns whatever its parsers do; the linux/sshd
    parser reads back what the daemon wrote, and where it does not. *)

From S2P Require Import Prelude RustStd RustText ContractTypes Parser.

(** ** Selection *)

Definition supports (c : ParserCandidate) : Prop := pc_confidence c <> 0%Z.
#[export] Instance supports_dec c : Decision (supports c).
Proof. unfold supports. apply _. Defined.

Lemma key_cmp_eq k1 k2 : key_cmp k1 k2 = Eq <-> k1 = k2.
Proof.
  destruct k1 as [a b], k2 as [c d]. unfold key_cmp, then_with; simpl.
  destruct (Z.compare_spec a c); [rewrite Z.compare_eq_iff; naive_solver|split; [done|intros [=]; lia]..].
Qed.

Definition rank_lt (k1 k2 : Z * Z) : Prop := (k1.1 < k2.1 \/ k1.1 = k2.1 /\ k1.2 < k2.2)%Z.

Lemma key_cmp_spec k1 k2 : CompareSpec (k1 = k2) (rank_lt k1 k2) (rank_lt k2 k1) (key_cmp k1 k2).
Proof.
  destruct k1 as [a b], k2 as [c d]. unfold key_cmp, then_with, rank_lt; simpl.
  destruct (Z.compare_spec a c); [|constructor; lia..].
  destruct (Z.compare_spec b d); constructor; [congruence|lia..].
Qed.

(** The indices of the candidates at the key [k] *)
Definition at_key (k : Z * Z) (candidates : list ParserCandidate) : list nat :=
  omap (fun '(i, c) => if decide (supports c /\ candidate_key c = k) then Some i else None) (enumerate candidates).

(** After a prefix: the first best candidate, and all that tie with it *)
Definition selected (candidates : list ParserCandidate) (state : SelectState) : Prop :=
  match ss_best state with
  | None => (forall c, c ∈ candidates -> ~ supports c) /\ ss_tied state = []
  | Some (i, k) =>
      (forall c, c ∈ candidates -> supports c -> candidate_key c = k \/ rank_lt (candidate_key c) k) /\
      ss_tied state = at_key k candidates /\ head (ss_tied state) = Some i
  end.

Lemma enumerate_snoc {A} (l : list A) x : enumerate (l ++ [x]) = enumerate l ++ [(length l, x)].
Proof. unfold enumerate. rewrite imap_app. simpl. by rewrite Nat.add_0_r. Qed.

Lemma at_key_snoc k candidates c :
  at_key k (candidates ++ [c])
  = at_key k candidates ++ if decide (supports c /\ candidate_key c = k) then [length candidates] else [].
Proof. unfold at_key. rewrite enumerate_snoc, omap_app. simpl. by destruct (decide _). Qed.

Lemma elem_of_at_key i k candidates :
  i ∈ at_key k candidates <-> exists c, candidates !! i = Some c /\ supports c /\ candidate_key c = k.
Proof.
  unfold at_key. rewrite list_elem_of_omap. split.
  - intros ([j c] & Hin & Hc). destruct (decide _); simplify_eq. exists c. split; [|done].
    apply list_elem_of_lookup in Hin as [n Hn]. unfold enumerate in Hn. rewrite list_lookup_imap in Hn.
    destruct (candidates !! n) eqn:E; simplify_eq/=. done.
  - intros (c & Hc & Hs). exists (i, c). rewrite decide_True by done. split; [|done].
    apply list_elem_of_lookup. exists i. unfold enumerate. by rewrite list_lookup_imap, Hc.
Qed.

Lemma at_key_none k candidates :
  (forall c, c ∈ candidates -> supports c -> candidate_key c <> k) -> at_key k candidates = [].
Proof.
  intros H. destruct (at_key k candidates) as [|i l] eqn:E; [done|].
  assert (i ∈ at_key k candidates) as (c & Hc & Hs & Hk)%elem_of_at_key by (rewrite E; left).
  apply list_elem_of_lookup_2 in Hc. by apply H in Hc.
Qed.

Lemma rank_lt_irrefl k : ~ rank_lt k k.
Proof. unfold rank_lt. lia. Qed.

Lemma select_step_selected candidates state c :
  selected candidates state -> selected (candidates ++ [c]) (select_step state (length candidates, c)).
Proof.
  unfold selected, select_step. destruct state as [[[i k]|] tied]; simpl; intros Hsel.
  - destruct Hsel as (Hmax & Htied & Hhead). destruct (Z.eqb_spec (pc_confidence c) 0) as [H0|H0]; simpl.
    { rewrite at_key_snoc, decide_False, app_nil_r by (intros [? _]; done). split; [|done].
      intros d [Hd| ->%list_elem_of_singleton]%elem_of_app ?; [by apply Hmax|done]. }
    destruct (key_cmp_spec (candidate_key c) k) as [Heq|Hlt|Hgt]; simpl.
    + rewrite at_key_snoc, decide_True, Htied by done. split_and!; [|done|].
      * intros d [Hd| ->%list_elem_of_singleton]%elem_of_app ?; [by apply Hmax|by left].
      * rewrite <-Htied. by destruct tied.
    + rewrite at_key_snoc, decide_False, app_nil_r.
      2: { intros [_ Hk]. rewrite Hk in Hlt. by apply rank_lt_irrefl in Hlt. }
      split; [|done]. intros d [Hd| ->%list_elem_of_singleton]%elem_of_app ?; [by apply Hmax|by right].
    + rewrite at_key_snoc, decide_True, at_key_none; [| |done].
      2: { intros d Hd Hs Hk. destruct (Hmax d Hd Hs) as [He|Hl]; unfold rank_lt in *; [rewrite <-He, Hk in Hgt|rewrite Hk in Hl]; lia. }
      split_and!; [|done|done].
      intros d [Hd| ->%list_elem_of_singleton]%elem_of_app ?; [|by left]. right.
      destruct (Hmax d Hd) as [->|Hl]; [done|done|]. unfold rank_lt in *. lia.
  - destruct Hsel as [Hnone ->]. destruct (Z.eqb_spec (pc_confidence c) 0) as [H0|H0]; simpl.
    { split; [|done]. intros d [Hd| ->%list_elem_of_singleton]%elem_of_app; [by apply Hnone|].
      intros Hs. by apply Hs. }
    rewrite at_key_snoc, decide_True, at_key_none; [| |done].
    2: { intros d Hd Hs. by apply Hnone in Hd. }
    split_and!; [|done|done]. intros d [Hd| ->%list_elem_of_singleton]%elem_of_app Hs; [by apply Hnone in Hd|by left].
Qed.

Lemma select_fold candidates :
  selected candidates (foldl select_step (mkSelectState None []) (enumerate candidates)).
Proof.
  induction candidates as [|c l IH] using rev_ind; [split; [set_solver|done]|].
  rewrite enumerate_snoc, foldl_app. by apply select_step_selected.
Qed.

Lemma at_key_NoDup k candidates : NoDup (at_key k candidates).
Proof.
  induction candidates as [|c l IH] using rev_ind; [constructor|]. rewrite at_key_snoc. apply NoDup_app.
  split_and!; [done| |destruct (decide _); repeat constructor; set_solver].
  intros i (d & Hd & _)%elem_of_at_key. apply lookup_lt_Some in Hd.
  destruct (decide _); [|set_solver]. intros ->%list_elem_of_singleton. lia.
Qed.

(** The candidates the probes give *)
Definition probed (registry : ParserRegistry) (input : ParserInput) (candidates : list ParserCandidate) : Prop :=
  Forall2 (fun parser c => exists confidence, probe_parser parser input = Ok confidence /\ c = candidate parser confidence)
    registry candidates.

Lemma probe_ok_iff registry input candidates :
  map_m (fun parser => let? confidence := probe_parser parser input in Ok (candidate parser confidence)) registry
    = Ok candidates <-> probed registry input candidates.
Proof.
  rewrite map_m_ok_iff. unfold probed. split; intros H; eapply Forall2_impl; [exact H| |exact H|]; intros p c.
  - intros (n & Hn & [= <-])%bind_ok_iff. eauto.
  - intros (n & Hn & ->). apply bind_ok_iff. eauto.
Qed.

(** Candidate [i] is strictly above every other that supports the input. *)
Definition unique_best (candidates : list ParserCandidate) (i : nat) (c : ParserCandidate) : Prop :=
  candidates !! i = Some c /\ supports c /\
  forall j d, candidates !! j = Some d -> j <> i -> supports d -> rank_lt (candidate_key d) (candidate_key c).

Lemma unique_best_iff candidates i c state :
  selected candidates state ->
  (unique_best candidates i c <->
   candidates !! i = Some c /\ supports c /\ ss_tied state = [i] /\ exists k, ss_best state = Some (i, k)).
Proof.
  intros Hsel. unfold selected in Hsel. destruct state as [[[i' k]|] tied]; simpl in *.
  - destruct Hsel as (Hmax & -> & Hhead). destruct (at_key k candidates) as [|h l] eqn:E; simplify_eq/=.
    assert (i' ∈ at_key k candidates) as (c' & Hc' & Hs' & Hk')%elem_of_at_key by (rewrite E; left). split.
    + intros (Hc & Hs & Hbest). assert (i' = i) as ->.
      { destruct (decide (i' = i)) as [|Hne]; [done|]. pose proof (Hbest _ _ Hc' Hne Hs') as Hlt.
        destruct (Hmax c) as [He|Hl]; [by eapply list_elem_of_lookup_2|done|..]; unfold rank_lt in *; subst k; [|lia].
        rewrite He in Hlt. lia. }
      split_and!; [done..| |by eexists]. destruct l as [|j l]; [done|].
      assert (j ∈ at_key k candidates) as (d & Hd & Hsd & Hkd)%elem_of_at_key by (rewrite E; set_solver).
      pose proof (at_key_NoDup k candidates) as Hnd. rewrite E in Hnd. apply NoDup_cons in Hnd as [Hnin _].
      assert (j <> i) as Hne by set_solver. pose proof (Hbest _ _ Hd Hne Hsd) as Hlt.
      assert (c' = c) as -> by congruence. rewrite Hkd, <-Hk' in Hlt. by apply rank_lt_irrefl in Hlt.
    + intros (Hc & Hs & Hl & k' & [= <- <-]). assert (c' = c) as -> by congruence. injection Hl as ->.
      subst k. split_and!; [done..|]. intros j d Hd Hne Hsd.
      destruct (Hmax d) as [He|]; [by eapply list_elem_of_lookup_2|done| |done].
      assert (j ∈ at_key (candidate_key c) candidates) as Hj by (apply elem_of_at_key; eauto).
      rewrite E in Hj. set_solver.
  - destruct Hsel as [Hnone ->]. split.
    + intros (Hc & Hs & _). apply list_elem_of_lookup_2 in Hc. by apply Hnone in Hc.
    + by intros (_ & _ & _ & k & ?).
Qed.

(** Without a configured parser, selection succeeds exactly when every probe
    returns and one registered parser that supports the input is strictly above
    all others in (tier, confidence); that parser is the one selected, and the
    trace lists every candidate in registration order.  A tie at the top, or no
    candidate, is an error: selection never depends on registration order. *)
Theorem select_unique_best registry input sel :
  in_configured_parser_id input = None ->
  (select registry input = Ok sel <->
   exists candidates i c p,
     probed registry input candidates /\ unique_best candidates i c /\ registry !! i = Some p /\
     sel = mkParserSelection p
             (mkParserSelectionTrace "auto:tier-then-confidence" candidates (parser_id p) (parser_version p))).
Proof.
  intros Hc. unfold select. rewrite Hc, bind_ok_iff.
  split.
  - intros (cands & Hprobe%probe_ok_iff & Hsel). pose proof (select_fold cands) as Hfold.
    destruct (ss_best (foldl _ _ _)) as [[i k]|] eqn:Hbest; [|done].
    destruct (Nat.ltb_spec 1 (length (ss_tied (foldl select_step (mkSelectState None []) (enumerate cands)))));
      [apply bind_ok_iff in Hsel as (? & _ & ?); done|].
    apply bind_ok_iff in Hsel as (p & Hp%index_ok_iff & [= <-]).
    pose proof Hfold as Hf. unfold selected in Hf. rewrite Hbest in Hf. destruct Hf as (_ & Htied & Hhead).
    destruct (ss_tied (foldl _ _ _)) as [|h [|? ?]] eqn:Et; simplify_eq/=; [|lia].
    assert (i ∈ at_key k cands) as (c & Hci & Hs & Hk)%elem_of_at_key by (rewrite <-Htied; left).
    exists cands, i, c, p. split_and!; [done| |done..].
    apply (unique_best_iff _ _ _ _ Hfold). split_and!; [done..|]. eauto.
  - intros (cands & i & c & p & Hprobe & Hbest & Hp & ->). exists cands. split; [by apply probe_ok_iff|].
    apply (unique_best_iff _ _ _ _ (select_fold cands)) in Hbest as (_ & _ & -> & k & ->). simpl.
    apply bind_ok_iff. exists p. by rewrite index_ok_iff.
Qed.

(** ** The registry returns, whatever its parsers do *)

Lemma catch_unwind_no_panic {A E} (r : result A E) e : no_panic (catch_unwind r e).
Proof. by destruct r. Qed.

Lemma map_m_no_panic {A B E} (f : A -> result B E) l :
  (forall x, x ∈ l -> no_panic (f x)) -> no_panic (map_m f l).
Proof.
  induction l as [|x l IH]; intros Hf; simpl; [no_panic|].
  apply no_panic_bind; [set_solver|]. intros y _. apply no_panic_bind; [apply IH; set_solver|no_panic].
Qed.

Lemma select_no_panic registry input : no_panic (select registry input).
Proof.
  unfold select. destruct (in_configured_parser_id input).
  - apply no_panic_bind; [no_panic|]. intros p _. apply no_panic_bind; [apply catch_unwind_no_panic|no_panic].
  - apply no_panic_bind.
    { apply map_m_no_panic. intros p _. apply no_panic_bind; [apply catch_unwind_no_panic|no_panic]. }
    intros cands Hprobe%probe_ok_iff. pose proof (select_fold cands) as Hf. unfold selected in Hf.
    destruct (ss_best (foldl _ _ _)) as [[i k]|]; [|no_panic]. destruct Hf as (_ & Htied & Hhead).
    destruct (1 <? _)%nat.
    + apply no_panic_bind; [|no_panic]. apply map_m_no_panic. intros j Hj. rewrite Htied in Hj.
      apply elem_of_at_key in Hj as (c & Hc & _). apply no_panic_bind; [|no_panic].
      apply no_panic_index. by eapply lookup_lt_Some.
    + apply no_panic_bind; [|no_panic]. apply no_panic_index. apply Forall2_length in Hprobe as ->.
      rewrite Htied in Hhead. destruct (at_key k cands) as [|h l] eqn:E; simplify_eq/=.
      assert (i ∈ at_key k cands) as (c & Hc & _)%elem_of_at_key by (rewrite E; left). by eapply lookup_lt_Some.
Qed.

Lemma select_elem registry input sel : select registry input = Ok sel -> ps_parser sel ∈ registry.
Proof.
  unfold select. intros Hsel. destruct (in_configured_parser_id input).
  - apply bind_ok_iff in Hsel as (p & Hp%ok_or_ok_iff & Hsel).
    apply bind_ok_iff in Hsel as (? & _ & [= <-]). apply find_some in Hp as [Hp _]. by apply list_elem_of_In.
  - apply bind_ok_iff in Hsel as (cands & _ & Hsel). destruct (ss_best _) as [[i k]|]; [|done].
    destruct (1 <? _)%nat; apply bind_ok_iff in Hsel as (p & Hp & Hsel); [done|].
    simplify_eq. apply index_ok_iff in Hp. by eapply list_elem_of_lookup_2.
Qed.

Lemma registry_parse_selected registry input event :
  registry_parse registry input = Ok event ->
  exists sel, select registry input = Ok sel /\
    pe_parser_id event = parser_id (ps_parser sel) /\
    pe_parser_version event = parser_version (ps_parser sel) /\
    pe_selection event = Some (ps_trace sel) /\
    exists parsed, parser_parse (ps_parser sel) input = Ok parsed /\ pe_fields event = pe_fields parsed.
Proof.
  unfold registry_parse. intros (sel & Hsel & Hrun)%bind_ok_iff.
  apply bind_ok_iff in Hrun as (parsed & Hparsed & Hrun).
  apply bind_unit_ok_iff in Hrun as [[Hid Hv]%reject_if_ok_iff%orb_false_iff [= <-]].
  apply negb_false_iff, String.eqb_eq in Hid, Hv. exists sel. split_and!; try done. exists parsed. split; [|done].
  unfold catch_unwind in Hparsed. by destruct (parser_parse _ _).
Qed.

Lemma registry_parse_no_panic registry input : no_panic (registry_parse registry input).
Proof.
  unfold registry_parse. apply no_panic_bind; [apply select_no_panic|]. intros sel _.
  apply no_panic_bind; [apply catch_unwind_no_panic|intros; no_panic].
Qed.

(** The registry never panics, even when a registered parser panics while
    probing or parsing, and a successful parse always carries the id and the
    version of the selected parser together with the selection trace: a parser
    cannot answer under another identity. *)
Theorem registry_contains_parsers registry input :
  no_panic (registry_parse registry input) /\
  forall event, registry_parse registry input = Ok event ->
    exists sel, select registry input = Ok sel /\
      pe_parser_id event = parser_id (ps_parser sel) /\
      pe_parser_version event = parser_version (ps_parser sel) /\
      pe_selection event = Some (ps_trace sel) /\ ps_parser sel ∈ registry.
Proof.
  split; [apply registry_parse_no_panic|]. intros event (sel & Hsel & Hid & Hv & Ht & _)%registry_parse_selected.
  exists sel. by repeat split; eauto using select_elem.
Qed.

(** ** linux/sshd *)

(** What sshd writes when it rejects a password *)
Definition sshd_line (prefix : string) (invalid_user : bool) (username source_ip : string) (port : Z)
    (suffix : string) : string :=
  prefix +:+ "Failed password for " +:+ ((if invalid_user then "invalid user " else "") +:+ username)
    +:+ " from " +:+ source_ip +:+ " port " +:+ pretty port +:+ suffix.

Definition ends_word (suffix : string) : Prop := suffix = "" \/ exists rest, suffix = String " " rest.

Record line_ok (prefix : string) (invalid_user : bool) (username source_ip : string) (port : Z) (suffix : string)
    : Prop := {
  line_prefix : free_of "Failed password for " prefix;
  line_user : free_of " from " ((if invalid_user then "invalid user " else "") +:+ username);
  line_user_valid : invalid_user = false -> strip_prefix "invalid user " username = None;
  line_user_text : username <> "";
  line_ip : free_of " port " source_ip;
  line_ip_text : source_ip <> "";
  line_port : in_u16 port = true;
  line_suffix : ends_word suffix;
}.

Lemma slice_from_after {E} s a b :
  s = a +:+ b -> boundary_head (str_bytes b) -> slice_from (E := E) s (str_len a) = Ok b.
Proof.
  intros -> Hb. unfold slice_from, str_len.
  rewrite (split_at_boundary _ (str_bytes a) (str_bytes b)) by (done || apply str_bytes_app).
  simpl. by rewrite str_bytes_inv.
Qed.

Lemma slice_to_before {E} s a b :
  s = a +:+ b -> boundary_head (str_bytes b) -> slice_to (E := E) s (str_len a) = Ok a.
Proof.
  intros -> Hb. unfold slice_to, str_len.
  rewrite (split_at_boundary _ (str_bytes a) (str_bytes b)) by (done || apply str_bytes_app).
  simpl. by rewrite str_bytes_inv.
Qed.

(** Text that follows an ASCII pattern begins at a character boundary. *)
Lemma Utf8_after_pattern a p c b :
  byte_in 0 127 c = true -> Utf8 (str_bytes (a +:+ (p +:+ String c "") +:+ b)) -> Utf8 (str_bytes b).
Proof.
  intros Hc H. rewrite !str_bytes_app, <-!app_assoc, app_assoc in H. simpl in H.
  by apply Utf8_at_ascii in H as [_ ?].
Qed.

Lemma parse_sshd_line prefix invalid username ip port suffix version policy :
  line_ok prefix invalid username ip port suffix ->
  Utf8 (str_bytes (sshd_line prefix invalid username ip port suffix)) ->
  parse_failed_password (sshd_line prefix invalid username ip port suffix) version policy
  = Ok (sshd_event version username ip port invalid policy).
Proof.
  intros [Hpre Huser Hvalid Hut Hip Hipt Hport Hsuf] Hutf. unfold parse_failed_password, sshd_line in *.
  rewrite (str_find_extend _ _ _ Hpre).
  set (rest := ((if invalid then _ else _) +:+ username) +:+ " from " +:+ _) in *.
  rewrite <-str_len_app, (slice_from_after _ (prefix +:+ "Failed password for ") rest).
  2: { by rewrite append_assoc. }
  2: { apply Utf8_head. by apply (Utf8_after_pattern prefix "Failed password for" " " rest). }
  cbn [bind ok_or]. subst rest. rewrite (split_once_extend _ _ _ Huser). cbn [bind ok_or].
  rewrite (split_once_extend _ _ _ Hip). cbn [bind ok_or]. apply in_range_spec in Hport.
  rewrite first_word_numeral by (lia || done). cbn [bind ok_or].
  rewrite parse_unsigned_pretty; [|lia|intros n Hn; apply in_range_spec; lia]. cbn [bind ok_or].
  assert (is_empty username || is_empty ip = false) as He.
  { apply orb_false_iff. split; apply not_true_iff_false; by rewrite is_empty_spec. }
  destruct invalid.
  - rewrite (proj2 (strip_prefix_Some "invalid user " ("invalid user " +:+ username) username)) by done.
    by rewrite He.
  - change ("" +:+ username) with username. rewrite Hvalid by done. by rewrite He.
Qed.

Lemma probe_sshd_line prefix invalid username ip port suffix raw text :
  from_utf8 raw = Ok text -> trim text = sshd_line prefix invalid username ip port suffix ->
  probe_failed_password raw = 100%Z.
Proof.
  intros Hraw Htrim. unfold probe_failed_password. rewrite Hraw, Htrim. unfold sshd_line.
  by rewrite !contains_str_later by
    (repeat first [apply contains_str_here | apply contains_str_later]).
Qed.

(** A rejected-password line of sshd reads back as it was written: whatever
    precedes and follows it, both linux/sshd parsers claim it with confidence
    100 and return its user name, source address, port and invalid-user flag,
    for user names and addresses that do not hold the separators themselves. *)
Theorem sshd_line_round_trip prefix invalid username ip port suffix input text :
  line_ok prefix invalid username ip port suffix ->
  (Z.of_nat (length (in_raw input)) <= 65536)%Z ->
  from_utf8 (in_raw input) = Ok text -> trim text = sshd_line prefix invalid username ip port suffix ->
  parser_probe LinuxSshdParser input = Ok 100%Z /\ parser_probe LinuxSshdParserV2 input = Ok 100%Z /\
  parser_parse LinuxSshdParser input = Ok (sshd_event "1" username ip port invalid LegacyUserLabel) /\
  parser_parse LinuxSshdParserV2 input = Ok (sshd_event "2" username ip port invalid PreserveInvalidUserLabel).
Proof.
  intros Hline Hlen Hraw Htrim. pose proof (from_utf8_Utf8 _ _ Hraw) as [_ Hutf%trim_Utf8].
  rewrite Htrim in Hutf.
  pose proof (probe_sshd_line _ _ _ _ _ _ _ _ Hraw Htrim) as Hprobe.
  assert ((max_input_bytes LINUX_SSHD_LIMITS <? Z.of_nat (length (in_raw input)))%Z = false) as Hl
    by (apply Z.ltb_ge; simpl; lia).
  simpl. unfold parse_linux_sshd. rewrite Hprobe, Hl, Hraw. simpl. rewrite Htrim. split_and!; [done..| |];
    by apply parse_sshd_line.
Qed.

(** C35: The source address of a rejected password can be forged: the user name
    is chosen by the client, and a name that holds " from ADDRESS port N " makes
    the parser report that address and port, and the shortened name, instead of
    the ones sshd wrote. *)
Theorem sshd_source_forged prefix invalid name fake fake_port rest ip port suffix version policy :
  let username := name +:+ " from " +:+ fake +:+ " port " +:+ pretty fake_port +:+ " " +:+ rest in
  let tail := " " +:+ rest +:+ " from " +:+ ip +:+ " port " +:+ pretty port +:+ suffix in
  line_ok prefix invalid name fake fake_port tail ->
  Utf8 (str_bytes (sshd_line prefix invalid username ip port suffix)) ->
  parse_failed_password (sshd_line prefix invalid username ip port suffix) version policy
  = Ok (sshd_event version name fake fake_port invalid policy).
Proof.
  intros username tail Hline.
  assert (sshd_line prefix invalid username ip port suffix = sshd_line prefix invalid name fake fake_port tail) as ->.
  { unfold sshd_line, username, tail. by rewrite !append_assoc. }
  by apply parse_sshd_line.
Qed.

(** ** Examples *)

Module ParserSample.
Definition persisted : RawEventPersisted :=
  mkRawEventPersisted "" "" "" "" None None "text/plain" "" 0 "" "" "" "" None 0 "" "" "" 0 0 None.
Definition input_of (text : string) : ParserInput := mkParserInput (str_bytes text) persisted None.
Definition line : string := "sshd[7]: Failed password for invalid user admin from 10.0.0.8 port 50341 ssh2".
End ParserSample.

Import ParserSample.

Lemma select_unique_best_witness :
  exists sel, select [LinuxSshdParser] (input_of line) = Ok sel /\ ps_parser sel = LinuxSshdParser.
Proof.
  eexists. split; [|shelve].
  apply (select_unique_best [LinuxSshdParser] (input_of line)); [reflexivity|].
  exists [candidate LinuxSshdParser 100], 0, (candidate LinuxSshdParser 100), LinuxSshdParser.
  split_and!; [|split_and!; [done..|]|done|done].
  - constructor; [|constructor]. exists 100%Z. split; vm_compute; reflexivity.
  - intros [|[|j]] d Hd; done.
Unshelve.
  reflexivity.
Defined.

Lemma sshd_line_round_trip_witness :
  parser_parse LinuxSshdParser (input_of line) = Ok (sshd_event "1" "admin" "10.0.0.8" 50341 true LegacyUserLabel).
Proof.
  apply (sshd_line_round_trip "sshd[7]: " true "admin" "10.0.0.8" 50341 " ssh2" (input_of line) line).
  - split; try (vm_compute; done). right. by exists "ssh2".
  - vm_compute. discriminate.
  - vm_compute. reflexivity.
  - vm_compute. reflexivity.
Defined.

Lemma sshd_source_forged_witness :
  parse_failed_password
    "Failed password for invalid user a from 6.6.6.6 port 1 x from 10.0.0.8 port 50341 ssh2" "1" LegacyUserLabel
  = Ok (sshd_event "1" "a" "6.6.6.6" 1 true LegacyUserLabel).
Proof.
  apply (sshd_source_forged "" true "a" "6.6.6.6" 1 "x" "10.0.0.8" 50341 " ssh2").
  - split; try (vm_compute; done). right. by eexists.
  - apply (utf8_error_None _ 0). vm_compute. reflexivity.
Defined.
