(* ===== verification/ParserFormats.v ===== *)
(** * The format parsers

    crates/cerbero-normalizer/src/parser_formats.rs: generic JSON, canonical
    journald, and syslog after RFC 5424 and RFC 3164; and the registry that
    parser.rs builds from them.  The JSON, Base64 and RFC 3339 decoders are
    parameters. *)

From S2P Require Import Prelude RustStd RustText ContractTypes Validation CanonicalJson Parser.

(** [base64::engine::general_purpose::STANDARD.decode] and
    [OffsetDateTime::parse(_, &Rfc3339)], whose value is not used *)
Class FormatCodec := {
  base64_decode : list ascii -> result (list ascii) string;
  rfc3339_parse : string -> result unit string;
}.

Definition GENERIC_JSON_PARSER_ID : string := "cerbero.parser.json.generic".
Definition GENERIC_JSON_PARSER_VERSION : string := "1".
Definition SYSLOG_RFC3164_PARSER_ID : string := "cerbero.parser.syslog.rfc3164".
Definition SYSLOG_RFC3164_PARSER_VERSION : string := "1".
Definition SYSLOG_RFC5424_PARSER_ID : string := "cerbero.parser.syslog.rfc5424".
Definition SYSLOG_RFC5424_PARSER_VERSION : string := "1".
Definition JOURNALD_CANONICAL_PARSER_ID : string := "cerbero.parser.journald.canonical".
Definition JOURNALD_CANONICAL_PARSER_VERSION : string := "1".

Definition JSON_LIMITS : ParserLimits := mkParserLimits 1048576 64 8192 262144 4096.
Definition SYSLOG_LIMITS : ParserLimits := mkParserLimits 65536 8 128 65536 128.

(** ** Errors and limits *)

Definition malformed (message : string) : ParseError := mkParseError "CER-PARSE-MALFORMED" message false.
Definition invalid_timestamp (message : string) : ParseError :=
  mkParseError "CER-PARSE-INVALID-TIMESTAMP" message false.
Definition limit_exceeded (message : string) : ParseError := mkParseError "CER-PARSE-LIMIT-EXCEEDED" message false.
Definition unsupported_version (message : string) : ParseError :=
  mkParseError "CER-PARSE-UNSUPPORTED-VERSION" message false.

Definition zlen {A} (l : list A) : Z := Z.of_nat (length l).
Definition zstr_len (s : string) : Z := Z.of_nat (str_len s).

Definition ensure_input_limit (raw : list ascii) (limits : ParserLimits) : result unit ParseError :=
  reject_if (max_input_bytes limits <? zlen raw)%Z
    (limit_exceeded ("parser input exceeds " +:+ pretty (max_input_bytes limits) +:+ " bytes")).

(** [u8::is_ascii_whitespace] *)
Definition is_ascii_whitespace (a : ascii) : bool :=
  byte_in 9 10 a || byte_in 12 13 a || byte_in 32 32 a.

Fixpoint drop_ascii_whitespace (l : list ascii) : list ascii :=
  match l with
  | a :: l' => if is_ascii_whitespace a then drop_ascii_whitespace l' else l
  | [] => []
  end.
Definition trim_ascii_whitespace (value : list ascii) : list ascii :=
  reverse (drop_ascii_whitespace (reverse (drop_ascii_whitespace value))).

Definition is_prefix (p l : list ascii) : bool := bool_decide (take (length p) l = p).
Fixpoint any_window (needle haystack : list ascii) : bool :=
  is_prefix needle haystack || match haystack with [] => false | _ :: l => any_window needle l end.
Definition contains_bytes (haystack needle : list ascii) : bool :=
  match needle with [] => true | _ => any_window needle haystack end.

(** ** JSON trees *)

(** [visit]; [field_count] is threaded through the traversal *)
Fixpoint visit (limits : ParserLimits) (value : Json) (depth : Z) (field_count : Z) : result Z ParseError :=
  reject_if (max_depth limits <? depth)%Z
    (limit_exceeded ("JSON nesting depth exceeds " +:+ pretty (max_depth limits))) ;;?
  match value with
  | JNull | JBool _ => Ok field_count
  | JNumber number =>
      if (max_string_bytes limits <? zstr_len number)%Z
      then Err (limit_exceeded "JSON number representation is too large") else Ok field_count
  | JString text =>
      if (max_string_bytes limits <? zstr_len text)%Z
      then Err (limit_exceeded ("JSON string exceeds " +:+ pretty (max_string_bytes limits) +:+ " bytes"))
      else Ok field_count
  | JArray values =>
      reject_if (max_collection_length limits <? zlen values)%Z
        (limit_exceeded ("JSON array exceeds " +:+ pretty (max_collection_length limits) +:+ " elements")) ;;?
      fold_m (fun field_count value => visit limits value (depth + 1) field_count) values field_count
  | JObject object =>
      reject_if (max_collection_length limits <? zlen object)%Z
        (limit_exceeded ("JSON object exceeds " +:+ pretty (max_collection_length limits) +:+ " fields")) ;;?
      let field_count := Z.min usize_max (field_count + zlen object) in
      reject_if (max_fields limits <? field_count)%Z
        (limit_exceeded ("JSON field count exceeds " +:+ pretty (max_fields limits))) ;;?
      fold_m (fun field_count '(key, value) =>
          reject_if (max_string_bytes limits <? zstr_len key)%Z
            (limit_exceeded "JSON object key is too large") ;;?
          visit limits value (depth + 1) field_count) object field_count
  end.

Definition validate_json_tree (value : Json) (limits : ParserLimits) : result unit ParseError :=
  visit limits value 0 0 ;;? Ok tt.

Fixpoint json_to_parsed (value : Json) : ParsedValue :=
  match value with
  | JNull => PNull
  | JBool value => PBool value
  | JNumber value => PNumber value
  | JString value => PString value
  | JArray values => PArray (map json_to_parsed values)
  | JObject object =>
      PObject (collect_map (map (fun '(key, value) => (key, json_to_parsed value)) object))
  end.

(** ** Generic JSON *)

Definition text_candidate (value field precision confidence : string) : TimestampCandidate :=
  mkTimestampCandidate value field None precision confidence.

Definition json_timestamp_candidates `{FormatCodec} (value : Json) : list TimestampCandidate * list string :=
  match json_as_object value with
  | None => ([], [])
  | Some object =>
      foldl (fun '(candidates, warnings) field =>
          match bt_get field object with
          | Some (JString text) =>
              match rfc3339_parse text with
              | Ok _ => (candidates ++ [text_candidate text field "rfc3339" "high"], warnings)
              | _ =>
                  (candidates ++ [text_candidate text field "source_text" "low"],
                   warnings ++ ["JSON timestamp candidate " +:+ field
                                +:+ " is not an absolute RFC3339 value; timezone is not assumed"])
              end
          | Some (JNumber number) =>
              (candidates ++ [text_candidate number field "source_numeric_unspecified_unit" "low"],
               warnings ++ ["JSON timestamp candidate " +:+ field
                            +:+ " has no governed numeric unit; no event_time is inferred"])
          | _ => (candidates, warnings)
          end) ([], []) ["event_time"; "timestamp"; "@timestamp"]
  end.

Definition opens_json (first : option ascii) : bool :=
  match first with Some a => Ascii.eqb a "{" || Ascii.eqb a "[" | None => false end.

Definition generic_json_probe (input : ParserInput) : result Z ParseError :=
  let first := List.find (fun byte => negb (is_ascii_whitespace byte)) (in_raw input) in
  if contains_str "json" (rp_content_type (in_persisted input)) then
    Ok (if opens_json first then 60 else 35)%Z
  else if opens_json first then Ok 30%Z else Ok 0%Z.

Definition generic_json_parse `{JsonCodec} `{FormatCodec} (input : ParserInput) : result ParsedEvent ParseError :=
  ensure_input_limit (in_raw input) JSON_LIMITS ;;?
  let? value := map_err (fun error => malformed ("invalid JSON syntax: " +:+ error))
    (json_from_slice (in_raw input)) in
  validate_json_tree value JSON_LIMITS ;;?
  let '(timestamp_candidates, warnings) := json_timestamp_candidates value in
  let status := match warnings with [] => Parsing_Success | _ => Parsing_Partial end in
  Ok (mkParsedEvent GENERIC_JSON_PARSER_ID GENERIC_JSON_PARSER_VERSION "generic.json"
        (json_to_parsed value) timestamp_candidates warnings status None).

Definition GenericJsonParser `{JsonCodec} `{FormatCodec} : Parser :=
  mkParser GENERIC_JSON_PARSER_ID GENERIC_JSON_PARSER_VERSION Generic JSON_LIMITS
    generic_json_probe generic_json_parse.

(** ** Canonical journald *)

Definition ensure_journald_keys `{DebugStr} (object : BTreeMap string Json) (allowed : list string)
    : result unit ParseError :=
  match List.find (fun key => negb (bool_decide (key ∈ allowed))) (object.*1) with
  | Some key => Err (malformed ("unexpected journald canonical member " +:+ debug_str key))
  | None => Ok tt
  end.

Definition required_json_string (object : BTreeMap string Json) (field : string) : result string ParseError :=
  ok_or (bt_get field object ≫= json_as_str) (malformed ("journald field " +:+ field +:+ " must be a string")).

Definition valid_journal_field_name (value : string) : bool :=
  negb (is_empty value) && (str_len value <=? 64)%nat
  && forallb (fun byte => Ascii.eqb byte "_" || is_ascii_uppercase byte || is_ascii_digit byte) (str_bytes value).

Definition parse_journald_field `{FormatCodec} `{DebugStr} (field : Json) (limits : ParserLimits)
    : result (ParsedValue * option TimestampCandidate) ParseError :=
  let? object := ok_or (json_as_object field) (malformed "each journald field must be an object") in
  ensure_journald_keys object ["name"; "encoding"; "value"] ;;?
  let? name := required_json_string object "name" in
  reject_if (negb (valid_journal_field_name name))
    (malformed ("invalid journald field name " +:+ debug_str name)) ;;?
  let? encoding := required_json_string object "encoding" in
  let? raw_value := required_json_string object "value" in
  let? parsed_value :=
    (if String.eqb encoding "utf8" then Ok (PString raw_value)
     else if String.eqb encoding "base64" then
       let? decoded := map_err (fun error => malformed ("invalid journald base64 value: " +:+ error))
         (base64_decode (str_bytes raw_value)) in
       reject_if (max_string_bytes limits <? zlen decoded)%Z
         (limit_exceeded ("decoded journald field exceeds " +:+ pretty (max_string_bytes limits) +:+ " bytes")) ;;?
       Ok (PBytes decoded)
     else Err (malformed ("journald field encoding must be utf8 or base64, got " +:+ debug_str encoding))) in
  let? timestamp_candidate :=
    (if (String.eqb name "__REALTIME_TIMESTAMP" || String.eqb name "_SOURCE_REALTIME_TIMESTAMP")
        && String.eqb encoding "utf8" then
       reject_if (is_empty raw_value || negb (forallb is_ascii_digit (str_bytes raw_value)))
         (invalid_timestamp ("journald " +:+ name +:+ " must be Unix epoch microseconds")) ;;?
       Ok (Some (text_candidate raw_value name "microsecond" "high"))
     else Ok None) in
  Ok (parsed_object [("name", PString name); ("encoding", PString encoding); ("value", parsed_value)],
      timestamp_candidate).

Definition journald_probe (input : ParserInput) : result Z ParseError :=
  let trimmed := trim_ascii_whitespace (in_raw input) in
  Ok (if match trimmed with a :: _ => Ascii.eqb a "{" | [] => false end then
        if contains_bytes trimmed (["034"%char] ++ str_bytes "cerbero_journald_version" ++ ["034"%char])
           && contains_bytes trimmed (["034"%char] ++ str_bytes "fields" ++ ["034"%char])
        then 100 else 0
      else 0)%Z.

(** The loop over the fields; both vectors grow in order *)
Definition journald_fields `{FormatCodec} `{DebugStr} (fields : list Json)
    : result (list ParsedValue * list TimestampCandidate) ParseError :=
  fold_m (fun '(parsed_fields, timestamp_candidates) field =>
      let? '(parsed_field, timestamp_candidate) := parse_journald_field field JSON_LIMITS in
      Ok (parsed_fields ++ [parsed_field], timestamp_candidates ++ option_list timestamp_candidate))
    fields ([], []).

Definition journald_parse `{JsonCodec} `{FormatCodec} `{DebugStr} (input : ParserInput)
    : result ParsedEvent ParseError :=
  ensure_input_limit (in_raw input) JSON_LIMITS ;;?
  let? value := map_err (fun error => malformed ("invalid journald canonical JSON: " +:+ error))
    (json_from_slice (in_raw input)) in
  validate_json_tree value JSON_LIMITS ;;?
  let? root := ok_or (json_as_object value)
    (malformed "journald canonical representation must be a JSON object") in
  ensure_journald_keys root ["cerbero_journald_version"; "cursor"; "fields"] ;;?
  let? version := ok_or (bt_get "cerbero_journald_version" root ≫= json_as_u64)
    (malformed "cerbero_journald_version must be an unsigned integer") in
  reject_if (negb (version =? 1)%Z)
    (unsupported_version ("unsupported journald canonical version " +:+ pretty version)) ;;?
  let? cursor :=
    match bt_get "cursor" root with
    | None | Some JNull => Ok PNull
    | Some (JString value) => Ok (PString value)
    | Some _ => Err (malformed "journald cursor must be a string or null")
    end in
  let? fields := ok_or (bt_get "fields" root ≫= json_as_array)
    (malformed "journald canonical fields must be an array") in
  let? '(parsed_fields, timestamp_candidates) := journald_fields fields in
  Ok (mkParsedEvent JOURNALD_CANONICAL_PARSER_ID JOURNALD_CANONICAL_PARSER_VERSION "journald.entry"
        (parsed_object [("cursor", cursor); ("journal_fields", PArray parsed_fields)])
        timestamp_candidates [] Parsing_Success None).

Definition JournaldCanonicalParser `{JsonCodec} `{FormatCodec} `{DebugStr} : Parser :=
  mkParser JOURNALD_CANONICAL_PARSER_ID JOURNALD_CANONICAL_PARSER_VERSION SourceSpecific JSON_LIMITS
    journald_probe journald_parse.

(** ** Syslog *)

Record SyslogFieldSet := mkSyslogFieldSet {
  sy_pri : Z;               (* u8 *)
  sy_version : option Z;    (* u16 *)
  sy_timestamp : ParsedValue;
  sy_hostname : ParsedValue;
  sy_app_name : ParsedValue;
  sy_procid : ParsedValue;
  sy_msgid : ParsedValue;
  sy_structured_data : ParsedValue;
  sy_message : string;
}.

Definition syslog_fields (fields : SyslogFieldSet) : ParsedValue :=
  parsed_object
    [("pri", PNumber (pretty (sy_pri fields)));
     ("facility", PNumber (pretty (sy_pri fields / 8)%Z));
     ("severity", PNumber (pretty (sy_pri fields mod 8)%Z));
     ("version", match sy_version fields with Some value => PNumber (pretty value) | None => PNull end);
     ("timestamp", sy_timestamp fields);
     ("hostname", sy_hostname fields);
     ("app_name", sy_app_name fields);
     ("procid", sy_procid fields);
     ("msgid", sy_msgid fields);
     ("structured_data", sy_structured_data fields);
     ("message", PString (sy_message fields))].

Definition parse_pri_prefix (text : string) : result (Z * string) ParseError :=
  let? rest := ok_or (strip_prefix "<" text) (malformed "syslog PRI must start with '<'") in
  let? end_ := ok_or (str_find ">" rest) (malformed "syslog PRI is missing '>'") in
  let? pri_text := slice_to rest end_ in
  reject_if (is_empty pri_text || (3 <? str_len pri_text)%nat || negb (forallb is_ascii_digit (str_bytes pri_text)))
    (malformed "syslog PRI must contain 1-3 decimal digits") ;;?
  let? pri := ok_or (parse_unsigned in_u16 pri_text) (malformed "syslog PRI is not a valid integer") in
  reject_if (191 <? pri)%Z (malformed "syslog PRI must be between 0 and 191") ;;?
  let? pri := (if in_u8 pri then Ok pri else Panic "validated PRI fits u8") in
  let? after := slice_from rest (end_ + 1) in
  Ok (pri, after).

Definition take_token (input name : string) : result (string * string) ParseError :=
  let? '(token, rest) := ok_or (split_once " " input) (malformed ("RFC5424 " +:+ name +:+ " is missing")) in
  reject_if (is_empty token) (malformed ("RFC5424 " +:+ name +:+ " is empty")) ;;?
  Ok (token, rest).

Definition take_token_allow_terminal (input name : string) : result (string * string) ParseError :=
  match split_once " " input with
  | Some (token, rest) =>
      if is_empty token then Err (malformed ("RFC3164 " +:+ name +:+ " is empty")) else Ok (token, rest)
  | None =>
      if is_empty input then Err (malformed ("RFC3164 " +:+ name +:+ " is missing")) else Ok (input, "")
  end.

(** The inner loop over one element, on the bytes from [index] on: the index
    after it, and [closed], [in_quotes] and [escaped] *)
Fixpoint scan_element (bytes : list ascii) (index : nat) (in_quotes escaped : bool) : nat * bool * bool * bool :=
  match bytes with
  | [] => (index, false, in_quotes, escaped)
  | byte :: bytes =>
      if in_quotes then
        if escaped then scan_element bytes (index + 1) true false
        else if Ascii.eqb byte "\" then scan_element bytes (index + 1) true true
        else if Ascii.eqb byte "034" then scan_element bytes (index + 1) false false
        else scan_element bytes (index + 1) true false
      else if Ascii.eqb byte "034" then scan_element bytes (index + 1) true escaped
      else if Ascii.eqb byte "]" then (index + 1, true, in_quotes, escaped)
      else scan_element bytes (index + 1) false escaped
  end.

(** The outer loop; every iteration moves [index] forward, so the length of the
    input is fuel enough *)
Fixpoint scan_elements (fuel : nat) (bytes : list ascii) (index : nat) : result nat ParseError :=
  match fuel with
  | 0 => Panic "out of fuel"
  | S fuel =>
      match bytes !! index with
      | Some byte =>
          if Ascii.eqb byte "[" then
            let '(index, closed, in_quotes, escaped) := scan_element (drop (index + 1) bytes) (index + 1) false false in
            if negb closed || in_quotes || escaped
            then Err (malformed "RFC5424 STRUCTURED-DATA is not balanced")
            else scan_elements fuel bytes index
          else Ok index
      | None => Ok index
      end
  end.

(** Nothing follows the structured data, or a space and the message *)
Definition split_message (structured_data rest expected : string) : result (string * string) ParseError :=
  if is_empty rest then Ok (structured_data, "")
  else match strip_prefix " " rest with
       | Some message => Ok (structured_data, message)
       | None => Err (malformed expected)
       end.

Definition split_structured_data (input : string) : result (string * string) ParseError :=
  match strip_prefix "-" input with
  | Some rest =>
      split_message "-" rest "RFC5424 NILVALUE structured data must be followed by a space"
  | None =>
      reject_if (negb (starts_with "[" input))
        (malformed "RFC5424 STRUCTURED-DATA must be '-' or start with '['") ;;?
      let? index := scan_elements (S (str_len input)) (str_bytes input) 0 in
      let? structured_data := slice_to input index in
      let? rest := slice_from input index in
      split_message structured_data rest "RFC5424 STRUCTURED-DATA must be followed by a space"
  end.

Definition parse_rfc3164_tag_and_message (input : string)
    : result (option string * option string * string) ParseError :=
  match split_once ":" input with
  | None => Ok (None, None, input)
  | Some (tag, message) =>
      let message := match strip_prefix " " message with Some message => message | None => message end in
      let? with_procid :=
        match str_rfind "[" tag with
        | Some open =>
            if ends_with "]" tag && (0 <? open)%nat then
              let? app := slice_to tag open in
              let? upto := slice_to tag (str_len tag - 1) in
              let? procid := slice_from upto (open + 1) in
              Ok (if is_empty procid then None else Some (app, procid))
            else Ok None
        | None => Ok None
        end in
      match with_procid with
      | Some (app, procid) => Ok (Some app, Some procid, message)
      | None => Ok (if is_empty tag then None else Some tag, None, message)
      end
  end.

(** [&bytes[from..to]], in range *)
Definition byte_slice (bytes : list ascii) (from to : nat) : list ascii := take (to - from) (drop from bytes).

Definition parse_ascii_u8 (bytes : list ascii) (component : string) : result Z ParseError :=
  let? text := map_err (fun _ => invalid_timestamp ("invalid RFC3164 " +:+ component)) (from_utf8 bytes) in
  ok_or (parse_unsigned in_u8 (trim text)) (invalid_timestamp ("invalid RFC3164 " +:+ component)).

Definition MONTHS : list string :=
  ["Jan"; "Feb"; "Mar"; "Apr"; "May"; "Jun"; "Jul"; "Aug"; "Sep"; "Oct"; "Nov"; "Dec"].

Definition validate_rfc3164_timestamp (value : string) : result unit ParseError :=
  let bytes := str_bytes value in
  reject_if (negb (length bytes =? 15)%nat
             || negb (byte_is bytes 3 " ") || negb (byte_is bytes 6 " ")
             || negb (byte_is bytes 9 ":") || negb (byte_is bytes 12 ":"))
    (invalid_timestamp "RFC3164 timestamp must match 'Mmm dd HH:MM:SS'") ;;?
  reject_if (negb (bool_decide (str_of_bytes (byte_slice bytes 0 3) ∈ MONTHS)))
    (invalid_timestamp "invalid RFC3164 month") ;;?
  let? day := parse_ascii_u8 (byte_slice bytes 4 6) "day" in
  let? hour := parse_ascii_u8 (byte_slice bytes 7 9) "hour" in
  let? minute := parse_ascii_u8 (byte_slice bytes 10 12) "minute" in
  let? second := parse_ascii_u8 (byte_slice bytes 13 15) "second" in
  reject_if (negb (in_range 1 31 day) || (23 <? hour)%Z || (59 <? minute)%Z || (59 <? second)%Z)
    (invalid_timestamp "RFC3164 timestamp component out of range") ;;?
  Ok tt.

Definition looks_like_rfc3164_timestamp_shape (input : string) : bool :=
  let bytes := str_bytes input in
  (15 <=? length bytes)%nat
  && byte_is bytes 3 " " && byte_is bytes 6 " " && byte_is bytes 9 ":" && byte_is bytes 12 ":"
  && forallb is_ascii_alphabetic (take 3 bytes).

Definition token_value (value : string) : ParsedValue :=
  if String.eqb value "-" then PNull else PString value.

Definition rfc5424_time `{FormatCodec} `{DebugStr} (timestamp : string)
    : result (list TimestampCandidate * list string * ParsingStatus) ParseError :=
  if String.eqb timestamp "-" then
    Ok ([], ["RFC5424 TIMESTAMP is NILVALUE; event_time candidate unavailable"], Parsing_Partial)
  else
    map_err (fun error => invalid_timestamp ("invalid RFC5424 TIMESTAMP " +:+ debug_str timestamp +:+ ": " +:+ error))
      (rfc3339_parse timestamp) ;;?
    Ok ([text_candidate timestamp "timestamp" "rfc3339" "high"], [], Parsing_Success).

Definition parse_rfc5424 `{FormatCodec} `{DebugStr} (text : string) : result ParsedEvent ParseError :=
  let? '(pri, rest) := parse_pri_prefix text in
  let? '(version_text, rest) := take_token rest "VERSION" in
  let? version := ok_or (parse_unsigned in_u16 version_text)
    (malformed "RFC5424 VERSION must be an unsigned integer") in
  reject_if (negb (version =? 1)%Z) (unsupported_version ("unsupported RFC5424 VERSION " +:+ pretty version)) ;;?
  let? '(timestamp, rest) := take_token rest "TIMESTAMP" in
  let? '(hostname, rest) := take_token rest "HOSTNAME" in
  let? '(app_name, rest) := take_token rest "APP-NAME" in
  let? '(procid, rest) := take_token rest "PROCID" in
  let? '(msgid, rest) := take_token rest "MSGID" in
  let? '(structured_data, message) := split_structured_data rest in
  let? '(timestamp_candidates, warnings, status) := rfc5424_time timestamp in
  Ok (mkParsedEvent SYSLOG_RFC5424_PARSER_ID SYSLOG_RFC5424_PARSER_VERSION "syslog.rfc5424"
        (syslog_fields (mkSyslogFieldSet pri (Some version) (token_value timestamp) (token_value hostname)
           (token_value app_name) (token_value procid) (token_value msgid)
           (if String.eqb structured_data "-" then PNull else PString structured_data) message))
        timestamp_candidates warnings status None).

Definition optional_string (value : option string) : ParsedValue :=
  match value with Some value => PString value | None => PNull end.

Definition parse_rfc3164 (text : string) : result ParsedEvent ParseError :=
  let? '(pri, rest) := parse_pri_prefix text in
  reject_if (str_len rest <? 16)%nat (malformed "RFC3164 message is missing timestamp/hostname") ;;?
  let? timestamp := ok_or (get_to rest 15) (malformed "RFC3164 timestamp is not ASCII-compatible") in
  validate_rfc3164_timestamp timestamp ;;?
  let? after_timestamp := ok_or (get_from rest 15) (malformed "RFC3164 timestamp boundary is invalid") in
  let? after_timestamp := ok_or (strip_prefix " " after_timestamp)
    (malformed "RFC3164 timestamp must be followed by a space") in
  let? '(hostname, remainder) := take_token_allow_terminal after_timestamp "HOSTNAME" in
  let? '(app_name, procid, message) := parse_rfc3164_tag_and_message remainder in
  Ok (mkParsedEvent SYSLOG_RFC3164_PARSER_ID SYSLOG_RFC3164_PARSER_VERSION "syslog.rfc3164"
        (syslog_fields (mkSyslogFieldSet pri None (PString timestamp) (PString hostname)
           (optional_string app_name) (optional_string procid) PNull PNull message))
        [text_candidate timestamp "timestamp" "second_without_year_or_timezone" "medium"]
        ["RFC3164 timestamp has no year or timezone; source policy is required and UTC is not assumed"]
        Parsing_Partial None).

(** [let Ok((_, rest)) = parse_pri_prefix(..) else { return 0 }] *)
Definition with_pri (input : ParserInput) (k : string -> Z) : result Z ParseError :=
  match from_utf8 (in_raw input) with
  | Ok text =>
      match parse_pri_prefix (trim_end_crlf text) with
      | Ok (_, rest) => Ok (k rest)
      | Err _ => Ok 0%Z
      | Panic p => Panic p
      end
  | _ => Ok 0%Z
  end.

Definition rfc5424_probe (input : ParserInput) : result Z ParseError :=
  with_pri input (fun rest =>
    let version := default "" (head (split_char " " rest)) in
    if negb (is_empty version) && forallb is_ascii_digit (str_bytes version) then 95 else 0)%Z.

Definition rfc3164_probe (input : ParserInput) : result Z ParseError :=
  with_pri input (fun rest => if looks_like_rfc3164_timestamp_shape rest then 90 else 0)%Z.

Definition rfc5424_parse `{FormatCodec} `{DebugStr} (input : ParserInput) : result ParsedEvent ParseError :=
  ensure_input_limit (in_raw input) SYSLOG_LIMITS ;;?
  let? text := map_err (fun error => malformed ("RFC5424 input must be UTF-8: " +:+ error))
    (from_utf8 (in_raw input)) in
  parse_rfc5424 (trim_end_crlf text).

Definition rfc3164_parse (input : ParserInput) : result ParsedEvent ParseError :=
  ensure_input_limit (in_raw input) SYSLOG_LIMITS ;;?
  let? text := map_err (fun error => malformed ("RFC3164 input must be UTF-8: " +:+ error))
    (from_utf8 (in_raw input)) in
  parse_rfc3164 (trim_end_crlf text).

Definition SyslogRfc5424Parser `{FormatCodec} `{DebugStr} : Parser :=
  mkParser SYSLOG_RFC5424_PARSER_ID SYSLOG_RFC5424_PARSER_VERSION ContentProtocol SYSLOG_LIMITS
    rfc5424_probe rfc5424_parse.

Definition SyslogRfc3164Parser : Parser :=
  mkParser SYSLOG_RFC3164_PARSER_ID SYSLOG_RFC3164_PARSER_VERSION ContentProtocol SYSLOG_LIMITS
    rfc3164_probe rfc3164_parse.

(** ** The registry of parser.rs *)

Definition with_linux_sshd_version `{JsonCodec} `{FormatCodec} `{DebugStr} (version : string)
    : result ParserRegistry ParseError :=
  let? linux_sshd :=
    (if String.eqb version LINUX_SSHD_PARSER_VERSION then Ok LinuxSshdParser
     else if String.eqb version LINUX_SSHD_PARSER_V2_VERSION then Ok LinuxSshdParserV2
     else Err (unsupported_version ("unsupported governed linux/sshd parser version " +:+ version))) in
  Ok [linux_sshd; JournaldCanonicalParser; SyslogRfc5424Parser; SyslogRfc3164Parser; GenericJsonParser].

Definition register (registry : ParserRegistry) (parser : Parser) : ParserRegistry := registry ++ [parser].
