(* ===== verification/ParserFormatsSpec.v ===== *)
(** * What the format parsers accept

    The structured data of RFC 5424 against its grammar, the round trip of a
    RFC 5424 message, the limits on JSON trees, and the absence of panics in
    every built-in parser. *)

From S2P Require Import Prelude RustStd RustText ContractTypes Validation CanonicalJson CanonicalJsonSpec Parser ParserSpec ParserFormats.

(** ** The grammar of structured data *)

Abbreviation quote := "034"%char.

(** The rest of a quoted value, with its closing quote *)
Inductive sd_quoted : list ascii -> Prop :=
| quoted_end : sd_quoted [quote]
| quoted_escape c l : sd_quoted l -> sd_quoted ("\"%char :: c :: l)
| quoted_char c l : c <> quote -> c <> "\"%char -> sd_quoted l -> sd_quoted (c :: l).

(** The rest of an element, with its closing bracket *)
Inductive sd_tail : list ascii -> Prop :=
| tail_end : sd_tail ["]"%char]
| tail_quoted q l : sd_quoted q -> sd_tail l -> sd_tail (quote :: q ++ l)
| tail_char c l : c <> quote -> c <> "]"%char -> sd_tail l -> sd_tail (c :: l).

Inductive sd_elements : list ascii -> Prop :=
| elements_nil : sd_elements []
| elements_cons t l : sd_tail t -> sd_elements l -> sd_elements ("["%char :: t ++ l).

(** What the scanner still has to read, by its state *)
Definition sd_from (in_quotes escaped : bool) (t : list ascii) : Prop :=
  if in_quotes then
    exists q t', (if escaped then exists c, t = c :: q ++ t' else t = q ++ t') /\ sd_quoted q /\ sd_tail t'
  else sd_tail t.

Lemma scan_element_sound l i q e j q' e' :
  scan_element l i q e = (j, true, q', e') -> (q = false -> e = false) ->
  q' = false /\ e' = false /\ exists t rest, l = t ++ rest /\ j = i + length t /\ sd_from q e t.
Proof.
  revert i q e. induction l as [|a l IH]; intros i q e; simpl; [done|].
  assert (forall i q e, scan_element l i q e = (j, true, q', e') -> (q = false -> e = false) ->
    q' = false /\ e' = false /\ exists t rest, a :: l = (a :: t) ++ rest /\ j = i + length t /\ sd_from q e t) as IH'.
  { intros i0 q0 e0 H0 He. destruct (IH i0 q0 e0 H0 He) as (? & ? & t & rest & -> & ? & ?). split_and!; [done..|].
    by exists t, rest. }
  destruct q.
  - intros Hs _. destruct e; [|destruct (Ascii.eqb_spec a "\") as [->|Hb]; [|destruct (Ascii.eqb_spec a quote) as [->|Hq]]].
    + destruct (IH' _ _ _ Hs) as (? & ? & t & rest & Hl & -> & qq & tt & -> & Hqq & Htt); [done|]. split_and!; [done..|].
      exists (a :: qq ++ tt), rest. split_and!; [done|simpl; lia|]. exists qq, tt. split; [by exists a|done].
    + destruct (IH' _ _ _ Hs) as (? & ? & t & rest & Hl & -> & qq & tt & [c ->] & Hqq & Htt); [done|]. split_and!; [done..|].
      exists ("\"%char :: c :: qq ++ tt), rest. split_and!; [done|simpl; lia|].
      exists ("\"%char :: c :: qq), tt. split_and!; [done|by constructor|done].
    + destruct (IH' _ _ _ Hs) as (? & ? & t & rest & Hl & -> & Ht); [done|]. split_and!; [done..|].
      exists (quote :: t), rest. split_and!; [done|simpl; lia|]. exists [quote], t. split_and!; [done|constructor|done].
    + destruct (IH' _ _ _ Hs) as (? & ? & t & rest & Hl & -> & qq & tt & -> & Hqq & Htt); [done|]. split_and!; [done..|].
      exists (a :: qq ++ tt), rest. split_and!; [done|simpl; lia|].
      exists (a :: qq), tt. split_and!; [done|by constructor|done].
  - intros Hs He. rewrite He in Hs |- * by done.
    destruct (Ascii.eqb_spec a quote) as [->|Hq]; [|destruct (Ascii.eqb_spec a "]") as [->|Hb]].
    + destruct (IH' _ _ _ Hs) as (? & ? & t & rest & Hl & -> & qq & tt & -> & Hqq & Htt); [done|]. split_and!; [done..|].
      exists (quote :: qq ++ tt), rest. split_and!; [done|simpl; lia|]. by constructor.
    + injection Hs as <- <- <-. split_and!; [done..|]. exists ["]"%char], l. split_and!; [done|simpl; lia|constructor].
    + destruct (IH' _ _ _ Hs) as (? & ? & t & rest & Hl & -> & Ht); [done|]. split_and!; [done..|].
      exists (a :: t), rest. split_and!; [done|simpl; lia|]. by constructor.
Qed.

Lemma eqb_ne a b : a <> b -> Ascii.eqb a b = false.
Proof. apply Ascii.eqb_neq. Qed.

Lemma scan_quoted q rest i :
  sd_quoted q -> scan_element (q ++ rest) i true false = scan_element rest (i + length q) false false.
Proof.
  intros Hq. revert i. induction Hq as [|c l _ IH|c l H1 H2 _ IH]; intros i; simpl.
  - done.
  - rewrite IH. f_equal. lia.
  - rewrite !eqb_ne by done. rewrite IH. f_equal. lia.
Qed.

Lemma scan_tail t rest i :
  sd_tail t -> scan_element (t ++ rest) i false false = (i + length t, true, false, false).
Proof.
  intros Ht. revert i. induction Ht as [|q l Hq _ IH|c l H1 H2 _ IH]; intros i; simpl.
  - done.
  - rewrite <-app_assoc, scan_quoted, IH by done. do 3 f_equal. rewrite length_app. lia.
  - rewrite !eqb_ne by done. rewrite IH. do 3 f_equal. lia.
Qed.

Lemma sd_tail_nonempty t : sd_tail t -> 0 < length t.
Proof. destruct 1; simpl; lia. Qed.

Definition not_open (l : list ascii) : Prop := match l with a :: _ => a <> "["%char | [] => True end.

Lemma scan_elements_sound fuel bytes index j :
  scan_elements fuel bytes index = Ok j ->
  exists els rest, drop index bytes = els ++ rest /\ sd_elements els /\ j = index + length els /\ not_open rest.
Proof.
  revert index. induction fuel as [|fuel IH]; intros index; simpl; [done|].
  destruct (bytes !! index) as [a|] eqn:Ha.
  2: { intros [= <-]. exists [], []. rewrite drop_ge by (by apply lookup_ge_None). split_and!; [done|constructor|simpl; lia|done]. }
  rewrite (drop_S _ _ _ Ha). destruct (Ascii.eqb_spec a "[") as [->|Hne].
  - destruct (scan_element _ _ _ _) as [[[i c] q] e] eqn:Hs. destruct c; [|done]. simpl.
    apply scan_element_sound in Hs as (-> & -> & t & rest & Hd & -> & Ht); [|done]. simpl.
    intros (els & rest' & Hd' & Hels & -> & Hno)%IH. rewrite Nat.add_1_r in Hd.
    exists ("["%char :: t ++ els), rest'. split_and!; [|by constructor|simpl; rewrite length_app; lia|done].
    rewrite Hd. simpl. f_equal. rewrite <-app_assoc. f_equal.
    rewrite <-Hd', <-drop_drop, Nat.add_1_r, Hd. by rewrite drop_app_length.
  - intros [= <-]. exists [], (a :: drop (S index) bytes). split_and!; [done|constructor|simpl; lia|done].
Qed.

Lemma lookup_drop_head {A} (l : list A) n a m : drop n l = a :: m -> l !! n = Some a.
Proof. intros Hd. rewrite <-(Nat.add_0_r n), <-lookup_drop, Hd. done. Qed.

Lemma drop_S_tail {A} (l : list A) n a m : drop n l = a :: m -> drop (S n) l = m.
Proof. intros Hd. pose proof (lookup_drop_head _ _ _ _ Hd) as Ha. rewrite (drop_S _ _ _ Ha) in Hd. congruence. Qed.

Lemma scan_elements_complete fuel bytes index els rest :
  drop index bytes = els ++ rest -> sd_elements els -> not_open rest -> length els < fuel ->
  scan_elements fuel bytes index = Ok (index + length els).
Proof.
  intros Hd Hels. revert fuel index Hd. induction Hels as [|t l Ht _ IH]; intros fuel index Hd Hno Hf;
    (destruct fuel as [|fuel]; [simpl in Hf; lia|]); simpl.
  - rewrite Nat.add_0_r. simpl in Hd. destruct rest as [|a rest].
    + rewrite lookup_ge_None_2; [done|]. apply (f_equal length) in Hd. rewrite length_drop in Hd. simpl in Hd. lia.
    + rewrite (lookup_drop_head _ _ _ _ Hd), eqb_ne by done. done.
  - simpl in Hd. rewrite (lookup_drop_head _ _ _ _ Hd). simpl.
    rewrite Nat.add_1_r, (drop_S_tail _ _ _ _ Hd), <-app_assoc, scan_tail by done. simpl.
    rewrite IH; [f_equal; rewrite length_app; lia| |done|].
    + change (S (index + length t)) with (S index + length t).
      by rewrite <-drop_drop, (drop_S_tail _ _ _ _ Hd), <-app_assoc, drop_app_length.
    + simpl in Hf. rewrite length_app in Hf. lia.
Qed.

(** The index only moves forward, so the loop ends within the fuel. *)
Lemma scan_elements_no_panic fuel bytes index :
  length (drop index bytes) < fuel -> no_panic (scan_elements fuel bytes index).
Proof.
  revert index. induction fuel as [|fuel IH]; intros index Hf; simpl; [lia|].
  destruct (bytes !! index) as [a|] eqn:Ha; [|done]. rewrite (drop_S _ _ _ Ha) in Hf.
  destruct (Ascii.eqb a "["); [|done].
  destruct (scan_element _ _ _ _) as [[[i c] q] e] eqn:Hs. destruct c; [|done]. simpl.
  apply scan_element_sound in Hs as (-> & -> & t & rest & Hd & -> & Ht); [|done]. simpl. apply IH.
  rewrite <-drop_drop, Hd, drop_app_length. rewrite Nat.add_1_r in Hd. simpl in Hf. rewrite Hd, length_app in Hf. lia.
Qed.

Lemma sd_tail_last t : sd_tail t -> exists x, t = x ++ ["]"%char].
Proof.
  induction 1 as [|q l _ _ [x ->]|c l _ _ _ [x ->]]; [by exists []|exists (quote :: q ++ x)|by exists (c :: x)].
  simpl. by rewrite app_assoc.
Qed.

Lemma sd_elements_last els : sd_elements els -> els <> [] -> exists x, els = x ++ ["]"%char].
Proof.
  induction 1 as [|t l Ht _ IH]; [done|]. intros _. destruct l as [|b l].
  - rewrite app_nil_r. destruct (sd_tail_last t Ht) as [x ->]. by exists ("["%char :: x).
  - destruct IH as [x ->]; [done|]. exists ("["%char :: t ++ x). simpl. by rewrite app_assoc.
Qed.

Lemma sd_boundary els rest : sd_elements els -> els <> [] -> Utf8 (els ++ rest) -> boundary_head rest.
Proof.
  intros Hels Hne Hu. destruct (sd_elements_last els Hels Hne) as [x ->]. rewrite <-app_assoc in Hu.
  apply Utf8_head. by apply (Utf8_at_ascii x "]") in Hu as [_ ?].
Qed.

Lemma append_bytes s x y : str_bytes s = x ++ y <-> s = str_of_bytes x +:+ str_of_bytes y.
Proof.
  split.
  - intros H. apply str_bytes_inj. by rewrite str_bytes_app, !str_of_bytes_inv.
  - intros ->. by rewrite str_bytes_app, !str_of_bytes_inv.
Qed.

Definition sd_text (sd : string) : Prop := sd = "-" \/ sd <> "" /\ sd_elements (str_bytes sd).

(** What follows the structured data: nothing, or a space and the message *)
Definition sd_rest (rest message : string) : Prop := (rest = "" /\ message = "") \/ rest = " " +:+ message.

Lemma split_message_iff structured_data rest expected sd message :
  split_message structured_data rest expected = Ok (sd, message) <-> sd = structured_data /\ sd_rest rest message.
Proof.
  unfold split_message, sd_rest. destruct (is_empty rest) eqn:He.
  - apply is_empty_spec in He as ->. naive_solver.
  - apply not_true_iff_false in He. rewrite is_empty_spec in He.
    destruct (strip_prefix " " rest) as [m|] eqn:E.
    + apply strip_prefix_Some in E as ->. split; [intros [= -> ->]; naive_solver|].
      intros [-> [[[=] _]|Heq]]. apply (f_equal (strip_prefix " ")) in Heq. simpl in Heq. by simplify_eq.
    + split; [done|]. intros [_ [[? _]|Heq]]; [done|].
      assert (strip_prefix " " rest = Some message) by by apply strip_prefix_Some. congruence.
Qed.

Lemma sd_rest_not_open rest message : sd_rest rest message -> not_open (str_bytes rest) /\ boundary_head (str_bytes rest).
Proof. by intros [[-> _]| ->]. Qed.

Lemma sd_elements_open els : sd_elements els -> els <> [] -> exists l, els = "["%char :: l.
Proof. destruct 1; [done|]. eauto. Qed.

Lemma scan_input_iff input j :
  scan_elements (S (str_len input)) (str_bytes input) 0 = Ok j <->
  exists els rest, str_bytes input = els ++ rest /\ sd_elements els /\ j = length els /\ not_open rest.
Proof.
  split.
  - intros (els & rest & Hb & ? & -> & ?)%scan_elements_sound. rewrite drop_0 in Hb. eauto 6.
  - intros (els & rest & Hb & Hels & -> & Hno). rewrite (scan_elements_complete _ _ _ els rest); [done..|].
    unfold str_len. rewrite Hb, length_app. lia.
Qed.

(** Structured data that is not the nil value *)
Lemma sd_text_elements sd rest :
  sd_text sd -> strip_prefix "-" (sd +:+ rest) = None -> sd_elements (str_bytes sd) /\ str_bytes sd <> [].
Proof.
  intros [-> |[Hne Hels]] Hd; [|split; [done|by destruct sd]].
  by rewrite (proj2 (strip_prefix_Some "-" ("-" +:+ rest) rest)) in Hd.
Qed.

Lemma sd_text_nil sd rest rest' : sd_text sd -> "-" +:+ rest = sd +:+ rest' -> sd = "-" /\ rest = rest'.
Proof.
  intros [-> |[Hne Hels]] Heq.
  - split; [done|]. apply (f_equal (strip_prefix "-")) in Heq. simpl in Heq. by simplify_eq.
  - exfalso. apply sd_elements_open in Hels as [l Hl]; [|by destruct sd].
    apply (f_equal str_bytes) in Heq. rewrite !str_bytes_app, Hl in Heq. done.
Qed.

Lemma bracketed_data_grammar input sd message :
  Utf8 (str_bytes input) -> strip_prefix "-" input = None ->
  (split_structured_data input = Ok (sd, message) <->
   sd_text sd /\ exists rest, input = sd +:+ rest /\ sd_rest rest message).
Proof.
  intros Hu Hd. unfold split_structured_data. rewrite Hd, bind_unit_ok_iff, reject_if_ok_iff, bind_ok_iff.
  setoid_rewrite scan_input_iff. split.
  - intros (Hopen%negb_false_iff & j & (els & rest & Hb & Hels & -> & Hno) & Hsl).
    assert (els <> []) as Hne.
    { intros ->. unfold starts_with in Hopen. destruct (strip_prefix "[" input) eqn:E; [|done].
      apply strip_prefix_Some in E as ->. simpl in Hb. by subst rest. }
    unfold slice_to, slice_from in Hsl. rewrite (split_at_boundary _ els rest) in Hsl; [|done|].
    2: { eapply sd_boundary; [done..|by rewrite <-Hb]. }
    simpl in Hsl. apply split_message_iff in Hsl as [-> Hr].
    split; [right; rewrite str_of_bytes_inv; split; [by destruct els|done]|].
    exists (str_of_bytes rest). split; [by apply append_bytes|done].
  - intros [Hsd (rest & -> & Hr)]. destruct (sd_text_elements _ _ Hsd Hd) as [Hels Hne].
    destruct (sd_elements_open _ Hels Hne) as [l Hl]. pose proof (sd_rest_not_open _ _ Hr) as [Hno Hb].
    split; [destruct sd as [|c sd]; [done|]; by injection Hl as -> _|].
    exists (length (str_bytes sd)). split; [exists (str_bytes sd), (str_bytes rest); by rewrite str_bytes_app|].
    unfold slice_to, slice_from.
    rewrite (split_at_boundary _ (str_bytes sd) (str_bytes rest)) by (done || apply str_bytes_app). simpl.
    rewrite !str_bytes_inv. by apply split_message_iff.
Qed.

Lemma split_structured_data_no_panic input : Utf8 (str_bytes input) -> no_panic (split_structured_data input).
Proof.
  intros Hu. unfold split_structured_data. destruct (strip_prefix "-" input); [unfold split_message; no_panic|].
  apply no_panic_bind; [no_panic|]. intros [] Hopen%reject_if_ok_iff%negb_false_iff.
  apply no_panic_bind; [apply scan_elements_no_panic; rewrite drop_0; unfold str_len; lia|].
  intros j (els & rest & Hb & Hels & -> & Hno)%scan_input_iff. unfold slice_to, slice_from.
  assert (boundary_head rest) as Hbound.
  { rewrite Hb in Hu. destruct els as [|a els]; [by apply Utf8_head|]. by eapply sd_boundary; [exact Hels|done|]. }
  rewrite (split_at_boundary _ els rest) by done. simpl. unfold split_message. no_panic.
Qed.

Lemma split_structured_data_iff input sd message :
  Utf8 (str_bytes input) ->
  (split_structured_data input = Ok (sd, message) <->
   sd_text sd /\ exists rest, input = sd +:+ rest /\ sd_rest rest message).
Proof.
  intros Hu. destruct (strip_prefix "-" input) as [rest|] eqn:Hd; [|by apply bracketed_data_grammar].
  unfold split_structured_data. rewrite Hd, split_message_iff. apply strip_prefix_Some in Hd as ->. split.
  - intros [-> Hr]. split; [by left|by exists rest].
  - intros [Hsd (rest' & Heq & Hr)]. by destruct (sd_text_nil _ _ _ Hsd Heq) as [-> ->].
Qed.

(** C26: The scanner of RFC 5424 structured data decides its grammar: on every
    text it stops without panicking, and it returns [(sd, message)] exactly when
    the input is [sd], alone or followed by a space and the message, where [sd]
    is the nil value or a sequence of bracketed elements in which brackets inside
    quoted values and escaped quotes do not count. *)
Theorem structured_data_grammar input :
  Utf8 (str_bytes input) ->
  no_panic (split_structured_data input) /\
  forall sd message,
    split_structured_data input = Ok (sd, message) <->
    sd_text sd /\ exists rest, input = sd +:+ rest /\ sd_rest rest message.
Proof. intros Hu. split; [by apply split_structured_data_no_panic|]. intros. by apply split_structured_data_iff. Qed.

(** ** RFC 5424 messages *)

Lemma pri_length (pri : Z) : (0 <= pri <= 191)%Z -> str_len (pretty pri) <= 3.
Proof.
  intros Hp. assert (forallb (fun n => str_len (pretty (Z.of_nat n)) <=? 3)%nat (seq 0 192) = true) as Hall
    by (vm_compute; reflexivity).
  rewrite forallb_forall in Hall. apply Nat.leb_le. rewrite <-(Z2Nat.id pri) by lia. apply Hall, in_seq. lia.
Qed.

Lemma slice_parts {E} s a c b :
  s = a +:+ String c b -> byte_in 0 127 c = true -> Utf8 (str_bytes s) ->
  slice_to (E := E) s (str_len a) = Ok a /\ slice_from (E := E) s (str_len a + 1) = Ok b /\ Utf8 (str_bytes b).
Proof.
  intros -> Hc Hu. assert (Utf8 (str_bytes b)) as Hb.
  { rewrite str_bytes_app in Hu. by apply Utf8_at_ascii in Hu as [_ ?]. }
  split_and!; [|..|done].
  - eapply slice_to_before; [done|]. by apply ascii_not_continuation.
  - assert (str_len a + 1 = str_len (a +:+ String c "")) as -> by (rewrite str_len_app; done).
    apply slice_from_after; [by rewrite append_assoc|by apply Utf8_head].
Qed.

Lemma pri_digits (pri : Z) : (0 <= pri)%Z -> digits (str_bytes (pretty pri)) /\ pretty pri <> "".
Proof. intros Hp. rewrite pretty_Z_nonneg by done. apply pretty_N_digits. Qed.

Lemma parse_pri_line (pri : Z) rest :
  (0 <= pri <= 191)%Z -> Utf8 (str_bytes ("<" +:+ pretty pri +:+ ">" +:+ rest)) ->
  parse_pri_prefix ("<" +:+ pretty pri +:+ ">" +:+ rest) = Ok (pri, rest) /\ Utf8 (str_bytes rest).
Proof.
  intros Hp Hu. destruct (pri_digits pri) as [Hd Hne]; [lia|].
  assert (Utf8 (str_bytes (pretty pri +:+ ">" +:+ rest))) as Hu'.
  { by apply (Utf8_at_ascii [] "<") in Hu as [_ ?]. }
  assert (contains_char ">" (pretty pri) = false) as Hfree by (apply pretty_Z_free; done).
  destruct (slice_parts (E := ParseError) (pretty pri +:+ ">" +:+ rest) (pretty pri) ">" rest) as (Hto & Hfrom & Hr);
    [done..|]. split; [|done].
  unfold parse_pri_prefix. rewrite (proj2 (strip_prefix_Some "<" _ (pretty pri +:+ ">" +:+ rest)) eq_refl).
  cbn [bind ok_or]. rewrite str_find_extend by (by apply free_of_char). cbn [bind ok_or].
  rewrite Hto. cbn [bind].
  assert (is_empty (pretty pri) || (3 <? str_len (pretty pri))%nat
          || negb (forallb is_ascii_digit (str_bytes (pretty pri))) = false) as ->.
  { rewrite !orb_false_iff, negb_false_iff. split_and!.
    - apply not_true_iff_false. by rewrite is_empty_spec.
    - apply Nat.ltb_ge. by apply pri_length.
    - apply forallb_forall. intros x Hx%list_elem_of_In. unfold digits in Hd. rewrite Forall_forall in Hd. by apply Hd. }
  cbn [bind reject_if]. rewrite parse_unsigned_pretty by (lia || (intros n Hn; apply in_range_spec; unfold u16_max; lia)).
  cbn [bind ok_or]. assert ((191 <? pri)%Z = false) as -> by lia. cbn [bind reject_if].
  assert (in_u8 pri = true) as -> by (apply in_range_spec; unfold u8_max; lia). cbn [bind].
  by rewrite Hfrom.
Qed.

Definition token_ok (t : string) : Prop := t <> "" /\ contains_char " " t = false.

Lemma take_token_ok t rest name :
  token_ok t -> Utf8 (str_bytes (t +:+ " " +:+ rest)) ->
  take_token (t +:+ " " +:+ rest) name = Ok (t, rest) /\ Utf8 (str_bytes rest).
Proof.
  intros [Hne Hf] Hu. split.
  - unfold take_token. rewrite (split_once_extend _ _ _ (free_of_char _ _ Hf)). simpl.
    assert (is_empty t = false) as ->; [|done]. apply not_true_iff_false. by rewrite is_empty_spec.
  - rewrite !str_bytes_app in Hu. by apply Utf8_at_ascii in Hu as [_ ?].
Qed.

(** A RFC 5424 message, as a device writes it *)
Definition rfc5424_line (pri : Z) (timestamp hostname app_name procid msgid structured_data rest : string) : string :=
  "<" +:+ pretty pri +:+ ">" +:+ "1" +:+ " " +:+ timestamp +:+ " " +:+ hostname +:+ " " +:+ app_name +:+ " "
    +:+ procid +:+ " " +:+ msgid +:+ " " +:+ structured_data +:+ rest.

Definition rfc5424_event (pri : Z) (timestamp hostname app_name procid msgid structured_data message : string)
    (candidates : list TimestampCandidate) (warnings : list string) (status : ParsingStatus) : ParsedEvent :=
  mkParsedEvent SYSLOG_RFC5424_PARSER_ID SYSLOG_RFC5424_PARSER_VERSION "syslog.rfc5424"
    (syslog_fields (mkSyslogFieldSet pri (Some 1%Z) (token_value timestamp) (token_value hostname)
       (token_value app_name) (token_value procid) (token_value msgid) (token_value structured_data) message))
    candidates warnings status None.

(** C27: A RFC 5424 message reads back as it was written: for every priority,
    header tokens and well-formed structured data, the parser returns exactly the
    fields the message was built from (facility and severity from the priority),
    with the timestamp candidate that the RFC 3339 decoder accepts. *)
Theorem rfc5424_round_trip `{FormatCodec} `{DebugStr}
    (pri : Z) timestamp hostname app_name procid msgid sd rest message candidates warnings status :
  (0 <= pri <= 191)%Z -> Forall token_ok [timestamp; hostname; app_name; procid; msgid] ->
  sd_text sd -> sd_rest rest message ->
  rfc5424_time timestamp = Ok (candidates, warnings, status) ->
  let line := rfc5424_line pri timestamp hostname app_name procid msgid sd rest in
  Utf8 (str_bytes line) ->
  parse_rfc5424 line
  = Ok (rfc5424_event pri timestamp hostname app_name procid msgid sd message candidates warnings status).
Proof.
  intros Hp Htok Hsd Hr Htime line Hu. unfold parse_rfc5424, line, rfc5424_line in *.
  repeat (apply Forall_cons in Htok as [? Htok]).
  apply parse_pri_line in Hu as [-> Hu]; [|done]. cbn [bind].
  apply (take_token_ok "1" _ "VERSION") in Hu as [-> Hu]; [|done]. cbn [bind].
  assert (parse_unsigned in_u16 "1" = Some 1%Z) as -> by reflexivity. cbn [bind ok_or].
  assert ((1 =? 1)%Z = true) as -> by reflexivity. cbn [bind negb reject_if].
  apply (take_token_ok timestamp _ "TIMESTAMP") in Hu as [-> Hu]; [|done]. cbn [bind].
  apply (take_token_ok hostname _ "HOSTNAME") in Hu as [-> Hu]; [|done]. cbn [bind].
  apply (take_token_ok app_name _ "APP-NAME") in Hu as [-> Hu]; [|done]. cbn [bind].
  apply (take_token_ok procid _ "PROCID") in Hu as [-> Hu]; [|done]. cbn [bind].
  apply (take_token_ok msgid _ "MSGID") in Hu as [-> Hu]; [|done]. cbn [bind].
  rewrite (proj2 (split_structured_data_iff _ sd message Hu)) by eauto. cbn [bind]. by rewrite Htime.
Qed.

(** ** No panics

    [yields P r]: the call does not panic, and what it returns satisfies [P]. *)

Definition yields {A E} (P : A -> Prop) (r : result A E) : Prop :=
  match r with Ok a => P a | Err _ => True | Panic _ => False end.

Lemma yields_no_panic {A E} (P : A -> Prop) (r : result A E) : yields P r -> no_panic r.
Proof. by destruct r. Qed.

Lemma yields_any {A E} (r : result A E) : no_panic r -> yields (fun _ => True) r.
Proof. destruct r as [| |m]; simpl; [done..|]. intros H. by apply (H m). Qed.

Lemma yields_bind {A B E} (P : A -> Prop) (Q : B -> Prop) (r : result A E) k :
  yields P r -> (forall a, P a -> yields Q (k a)) -> yields Q (bind r k).
Proof. destruct r; simpl; auto. Qed.

Lemma yields_reject {B E} (Q : B -> Prop) b (e : E) (k : result B E) :
  (b = false -> yields Q k) -> yields Q (reject_if b e ;;? k).
Proof. destruct b; simpl; auto. Qed.

Lemma yields_ok_or {A E} (P : A -> Prop) (o : option A) (e : E) :
  (forall a, o = Some a -> P a) -> yields P (ok_or o e).
Proof. destruct o; simpl; auto. Qed.

Lemma yields_from_utf8 {E} (f : string -> E) l : yields (fun s => Utf8 (str_bytes s)) (map_err f (from_utf8 l)).
Proof.
  destruct (from_utf8 l) eqn:H; simpl; [by apply from_utf8_Utf8 in H as [_ ?]|done|].
  unfold from_utf8 in H. by destruct (utf8_error l 0).
Qed.

Abbreviation text_of := (fun s : string => Utf8 (str_bytes s)).

Lemma str_find_char_split c s i :
  str_find (String c "") s = Some i -> exists a b, s = a +:+ String c b /\ i = str_len a.
Proof.
  unfold str_find. destruct (split_once _ s) as [[a b]|] eqn:E; [|done]. intros [= <-]. exists a, b.
  split; [|done]. by apply split_once_Some in E.
Qed.

Lemma split_once_char_Utf8 c s a b :
  byte_in 0 127 c = true -> Utf8 (str_bytes s) -> split_once (String c "") s = Some (a, b) ->
  Utf8 (str_bytes a) /\ Utf8 (str_bytes b).
Proof.
  intros Hc Hu Hs. apply split_once_Some in Hs as ->. rewrite str_bytes_app in Hu. by apply Utf8_at_ascii in Hu.
Qed.

Lemma parse_pri_yields text :
  Utf8 (str_bytes text) -> yields (fun '(_, rest) => Utf8 (str_bytes rest)) (parse_pri_prefix text).
Proof.
  intros Hu. unfold parse_pri_prefix. eapply yields_bind; [apply (yields_ok_or text_of)|].
  { intros rest Hrest%strip_prefix_Some. subst text. by apply (Utf8_at_ascii [] "<") in Hu as [_ ?]. }
  intros rest Hrest. simpl in Hrest.
  eapply yields_bind; [apply (yields_ok_or _ _ _ (str_find_char_split ">" rest))|].
  intros i (a & b & Hab & ->). destruct (slice_parts (E := ParseError) rest a ">" b) as (-> & -> & Hb); [done..|].
  cbn [bind]. apply yields_reject. intros _. eapply yields_bind; [apply (yields_ok_or (fun p => in_u16 p = true))|].
  { intros p. by apply parse_unsigned_in. }
  intros pri Hpri%in_range_spec. apply yields_reject. intros Hle%Z.ltb_ge.
  assert (in_u8 pri = true) as -> by (apply in_range_spec; unfold u8_max; lia). done.
Qed.

Lemma take_token_yields input name :
  Utf8 (str_bytes input) -> yields (fun '(_, rest) => Utf8 (str_bytes rest)) (take_token input name).
Proof.
  intros Hu. unfold take_token. eapply yields_bind; [apply (yields_ok_or (fun p => Utf8 (str_bytes p.2)))|].
  - intros [a b] Hs. by apply split_once_char_Utf8 in Hs as [_ ?].
  - intros [a b] Hb. by apply yields_reject.
Qed.

Lemma parse_rfc5424_no_panic `{FormatCodec} `{DebugStr} text :
  (forall s, no_panic (rfc3339_parse s)) -> Utf8 (str_bytes text) -> no_panic (parse_rfc5424 text).
Proof.
  intros Htime Hu. apply (yields_no_panic (fun _ => True)). unfold parse_rfc5424.
  eapply yields_bind; [by apply parse_pri_yields|]. intros [pri r0] Hr0.
  eapply yields_bind; [by apply take_token_yields|]. intros [v r1] Hr1.
  eapply yields_bind; [by apply (yields_ok_or (fun _ => True))|]. intros version _. apply yields_reject. intros _.
  eapply yields_bind; [by apply take_token_yields|]. intros [? r2] Hr2. clear Hr1.
  eapply yields_bind; [by apply take_token_yields|]. intros [? r3] Hr3. clear Hr2.
  eapply yields_bind; [by apply take_token_yields|]. intros [? r4] Hr4. clear Hr3.
  eapply yields_bind; [by apply take_token_yields|]. intros [? r5] Hr5. clear Hr4.
  eapply yields_bind; [by apply take_token_yields|]. intros [? r6] Hr6. clear Hr5.
  eapply yields_bind; [apply yields_any, split_structured_data_no_panic; done|]. intros [sd message] _.
  eapply yields_bind; [apply yields_any|by intros [[] ?]].
  unfold rfc5424_time. destruct (String.eqb _ "-"); [done|]. apply no_panic_bind; [by apply no_panic_map_err|done].
Qed.

Lemma str_rfind_Some c s i :
  str_rfind c s = Some i -> exists a b, s = a +:+ String c b /\ i = str_len a.
Proof.
  unfold str_rfind. assert (forall l, foldl (fun found '(i, b) => if Ascii.eqb b c then Some i else found) None (enumerate l) = Some i ->
    exists x y, l = x ++ c :: y /\ i = length x) as Hl.
  { intros l. induction l as [|b l IH] using rev_ind; [done|]. rewrite enumerate_snoc, foldl_app. simpl.
    destruct (Ascii.eqb_spec b c) as [->|Hne]; [intros [= <-]; by exists l, []|].
    intros (x & y & -> & ->)%IH. exists x, (y ++ [b]). by rewrite <-app_assoc. }
  intros (x & y & Hs & ->)%Hl. exists (str_of_bytes x), (str_of_bytes y). split.
  - apply str_bytes_inj. rewrite str_bytes_app. simpl. by rewrite !str_of_bytes_inv.
  - unfold str_len. by rewrite str_of_bytes_inv.
Qed.

Lemma append_snoc_inv a b u (c d : ascii) :
  a +:+ String c b = u +:+ String d "" -> c <> d -> exists b', b = b' +:+ String d "" /\ u = a +:+ String c b'.
Proof.
  intros Heq Hne. apply (f_equal str_bytes) in Heq. rewrite !str_bytes_app in Heq. simpl in Heq.
  destruct (str_bytes b) as [|b0 l0 _] eqn:Eb using rev_ind.
  - apply app_inj_tail in Heq as [_ ?]. done.
  - exists (str_of_bytes l0). rewrite app_comm_cons, app_assoc in Heq. apply app_inj_tail in Heq as [Hu ->]. split.
    + apply str_bytes_inj. rewrite str_bytes_app, str_of_bytes_inv, Eb. done.
    + apply str_bytes_inj. rewrite str_bytes_app. simpl. by rewrite str_of_bytes_inv.
Qed.

Lemma tag_no_panic input : Utf8 (str_bytes input) -> no_panic (parse_rfc3164_tag_and_message input).
Proof.
  intros Hu. unfold parse_rfc3164_tag_and_message. destruct (split_once ":" input) as [[tag message]|] eqn:Hs; [|done].
  apply split_once_char_Utf8 in Hs as [Htag _]; [|done..]. apply (yields_no_panic (fun _ => True)).
  eapply (yields_bind (fun _ => True)); [|intros [[app procid]|] _; done].
  destruct (str_rfind "[" tag) as [i|] eqn:Hr; [|done]. apply str_rfind_Some in Hr as (a & b & Hab & ->).
  destruct (ends_with "]" tag) eqn:He; [|done]. destruct (0 <? str_len a)%nat; [|done]. cbn [andb].
  apply ends_with_char in He as (u & Hu' & ->).
  destruct (slice_parts (E := ParseError) tag a "[" b) as (-> & _ & _); [done..|]. cbn [bind].
  destruct (slice_parts (E := ParseError) tag u "]" "") as (-> & _ & _); [done..|]. cbn [bind].
  pose proof Hu' as Heq. rewrite Hab in Heq. apply append_snoc_inv in Heq as (b' & -> & ->); [|done].
  assert (Utf8 (str_bytes (a +:+ String "[" b'))) as Hub.
  { rewrite Hu', str_bytes_app in Htag. by apply (Utf8_at_ascii _ "]" []) in Htag as [? _]. }
  destruct (slice_parts (E := ParseError) (a +:+ String "[" b') a "[" b') as (_ & -> & _); [done..|]. done.
Qed.

Lemma get_Utf8 rest t i :
  Utf8 (str_bytes rest) -> get_from rest i = Some t -> Utf8 (str_bytes t).
Proof.
  unfold get_from, is_char_boundary. intros Hu. rewrite <-(take_drop i (str_bytes rest)) in Hu.
  destruct (str_bytes rest !! i) as [c|] eqn:Hc.
  - destruct (byte_in 128 191 c) eqn:Hb; [done|]. intros [= <-]. rewrite str_of_bytes_inv.
    apply Utf8_split in Hu as [_ ?]; [done|]. by rewrite (drop_S _ _ _ Hc).
  - destruct (i =? _)%nat; [|done]. intros [= <-]. rewrite str_of_bytes_inv.
    rewrite drop_ge by (by apply lookup_ge_None). constructor.
Qed.

Lemma parse_ascii_u8_no_panic bytes component : no_panic (parse_ascii_u8 bytes component).
Proof.
  unfold parse_ascii_u8. eapply yields_no_panic, yields_bind; [apply yields_from_utf8|].
  intros text _. by apply (yields_ok_or (fun _ => True)).
Qed.

Lemma validate_rfc3164_timestamp_no_panic value : no_panic (validate_rfc3164_timestamp value).
Proof.
  unfold validate_rfc3164_timestamp. apply no_panic_bind; [no_panic|]. intros _ _.
  apply no_panic_bind; [no_panic|]. intros _ _.
  do 4 (apply no_panic_bind; [apply parse_ascii_u8_no_panic|]; intros ? _). no_panic.
Qed.

Lemma parse_rfc3164_no_panic text : Utf8 (str_bytes text) -> no_panic (parse_rfc3164 text).
Proof.
  intros Hu. apply (yields_no_panic (fun _ => True)). unfold parse_rfc3164.
  eapply yields_bind; [by apply parse_pri_yields|]. intros [pri rest] Hrest. apply yields_reject. intros _.
  eapply yields_bind; [by apply (yields_ok_or (fun _ => True))|]. intros timestamp _.
  eapply yields_bind; [apply yields_any, validate_rfc3164_timestamp_no_panic|]. intros [] _.
  eapply yields_bind; [apply (yields_ok_or text_of); intros t; by apply get_Utf8|]. intros after Hafter.
  eapply yields_bind; [apply (yields_ok_or text_of)|].
  { intros t ->%strip_prefix_Some. by apply (Utf8_at_ascii [] " ") in Hafter as [_ ?]. }
  intros after' Hafter'.
  eapply (yields_bind (fun p => Utf8 (str_bytes p.2))).
  { unfold take_token_allow_terminal. destruct (split_once " " after') as [[token r]|] eqn:Hs.
    - apply split_once_char_Utf8 in Hs as [_ ?]; [|done..]. by destruct (is_empty token).
    - destruct (is_empty after'); [done|constructor]. }
  intros [hostname remainder] Hrem. eapply yields_bind; [apply yields_any, tag_no_panic; done|].
  by intros [[app procid] message] _.
Qed.

Lemma fold_m_no_panic' {A S E} (f : S -> A -> result S E) l s :
  Forall (fun x => forall t, no_panic (f t x)) l -> no_panic (fold_m f l s).
Proof. intros Hl. apply fold_m_no_panic. intros t x Hx. rewrite Forall_forall in Hl. by apply Hl. Qed.

Lemma visit_no_panic limits v depth n : no_panic (visit limits v depth n).
Proof.
  revert depth n. induction v as [| | | |values IH|object IH] using Json_tree_ind; intros depth n; simpl;
    (apply no_panic_bind; [no_panic|]; intros [] _); try solve [no_panic].
  - apply no_panic_bind; [no_panic|]. intros [] _. apply fold_m_no_panic'.
    eapply Forall_impl; [exact IH|]. simpl. auto.
  - apply no_panic_bind; [no_panic|]. intros [] _. apply no_panic_bind; [no_panic|]. intros [] _.
    apply fold_m_no_panic'. eapply Forall_impl; [exact IH|]. intros [k v] Hv t.
    apply no_panic_bind; [no_panic|]. intros [] _. apply Hv.
Qed.

Lemma with_pri_no_panic input k : no_panic (with_pri input k).
Proof.
  unfold with_pri. destruct (from_utf8 (in_raw input)) as [text| |] eqn:Hr; [|done..].
  apply from_utf8_Utf8 in Hr as [_ Hu%trim_end_crlf_Utf8].
  pose proof (yields_no_panic _ _ (parse_pri_yields _ Hu)) as Hp.
  destruct (parse_pri_prefix (trim_end_crlf text)) as [[? ?]| |p]; [done..|]. by destruct (Hp p).
Qed.

Lemma ensure_input_limit_no_panic raw limits : no_panic (ensure_input_limit raw limits).
Proof. unfold ensure_input_limit. no_panic. Qed.

(** The decoders return. *)
Definition codecs_return `{JsonCodec} `{FormatCodec} : Prop :=
  (forall l, no_panic (json_from_slice l)) /\ (forall l, no_panic (base64_decode l)) /\
  (forall s, no_panic (rfc3339_parse s)).

Section NoPanic.
Context `{JsonCodec} `{FormatCodec} `{DebugStr} (Hcodecs : codecs_return).

Lemma generic_json_parse_no_panic input : no_panic (generic_json_parse input).
Proof.
  destruct Hcodecs as (Hj & _ & _). unfold generic_json_parse.
  apply no_panic_bind; [apply ensure_input_limit_no_panic|]. intros [] _.
  apply no_panic_bind; [by apply no_panic_map_err|]. intros v _. apply no_panic_bind.
  - unfold validate_json_tree. apply no_panic_bind; [apply visit_no_panic|done].
  - intros [] _. by destruct (json_timestamp_candidates v).
Qed.

Lemma ensure_journald_keys_no_panic object allowed : no_panic (ensure_journald_keys object allowed).
Proof. unfold ensure_journald_keys. by destruct (List.find _ _). Qed.

Lemma parse_journald_field_no_panic field limits : no_panic (parse_journald_field field limits).
Proof.
  destruct Hcodecs as (_ & Hb & _). unfold parse_journald_field, required_json_string.
  apply no_panic_bind; [no_panic|]. intros object _.
  apply no_panic_bind; [apply ensure_journald_keys_no_panic|]. intros [] _.
  apply no_panic_bind; [no_panic|]. intros name _. apply no_panic_bind; [no_panic|]. intros [] _.
  apply no_panic_bind; [no_panic|]. intros encoding _. apply no_panic_bind; [no_panic|]. intros raw_value _.
  apply no_panic_bind.
  - apply no_panic_if; intros _; [no_panic|]. apply no_panic_if; intros _; [|no_panic].
    apply no_panic_bind; [by apply no_panic_map_err|intros; no_panic].
  - intros value _. no_panic.
Qed.

Lemma journald_parse_no_panic input : no_panic (journald_parse input).
Proof.
  destruct Hcodecs as (Hj & _ & _). unfold journald_parse.
  apply no_panic_bind; [apply ensure_input_limit_no_panic|]. intros [] _.
  apply no_panic_bind; [by apply no_panic_map_err|]. intros v _. apply no_panic_bind.
  { unfold validate_json_tree. apply no_panic_bind; [apply visit_no_panic|done]. }
  intros [] _. apply no_panic_bind; [no_panic|]. intros root _.
  apply no_panic_bind; [apply ensure_journald_keys_no_panic|]. intros [] _.
  apply no_panic_bind; [no_panic|]. intros version _. apply no_panic_bind; [no_panic|]. intros [] _.
  apply no_panic_bind; [no_panic|]. intros cursor _. apply no_panic_bind; [no_panic|]. intros fields _.
  apply no_panic_bind; [|by intros []].
  unfold journald_fields. apply fold_m_no_panic. intros [parsed candidates] field _.
  apply no_panic_bind; [apply parse_journald_field_no_panic|by intros []].
Qed.

Lemma rfc5424_parse_no_panic input : no_panic (rfc5424_parse input).
Proof.
  unfold rfc5424_parse. apply no_panic_bind; [apply ensure_input_limit_no_panic|]. intros [] _.
  eapply yields_no_panic, yields_bind; [apply yields_from_utf8|]. intros text Hu.
  apply yields_any, parse_rfc5424_no_panic; [apply Hcodecs|by apply trim_end_crlf_Utf8].
Qed.

Lemma rfc3164_parse_no_panic input : no_panic (rfc3164_parse input).
Proof.
  unfold rfc3164_parse. apply no_panic_bind; [apply ensure_input_limit_no_panic|]. intros [] _.
  eapply yields_no_panic, yields_bind; [apply yields_from_utf8|]. intros text Hu.
  by apply yields_any, parse_rfc3164_no_panic, trim_end_crlf_Utf8.
Qed.

Lemma parse_linux_sshd_no_panic input version policy : no_panic (parse_linux_sshd input version policy).
Proof.
  unfold parse_linux_sshd. apply no_panic_bind; [no_panic|]. intros [] _.
  eapply yields_no_panic, yields_bind; [apply yields_from_utf8|]. intros text Hu%trim_Utf8.
  apply yields_any. unfold parse_failed_password, str_find.
  destruct (split_once _ (trim text)) as [[a b]|] eqn:Hs; simpl fmap; [|done].
  apply split_once_Some in Hs. rewrite Hs in Hu |- *.
  rewrite <-str_len_app, (slice_from_after _ (a +:+ "Failed password for ") b); [|by rewrite append_assoc|].
  2: { by apply Utf8_head, (Utf8_after_pattern a "Failed password for" " " b). }
  cbn [bind]. apply no_panic_bind; [no_panic|]. intros [identity source] _.
  apply no_panic_bind; [no_panic|]. intros [source_ip rest] _. apply no_panic_bind; [no_panic|]. intros word _.
  apply no_panic_bind; [no_panic|]. intros port _. destruct (strip_prefix "invalid user " identity); no_panic.
Qed.

(** No built-in parser panics on any input, provided the JSON, Base64 and
    RFC 3339 decoders return: every slice is taken at a character boundary and
    every index is in range, in probes and in parses, for all byte strings. *)
Theorem builtin_parsers_never_panic version registry parser input :
  with_linux_sshd_version version = Ok registry -> parser ∈ registry ->
  no_panic (parser_probe parser input) /\ no_panic (parser_parse parser input).
Proof.
  unfold with_linux_sshd_version. intros (sshd & Hsshd & [= <-])%bind_ok_iff Hin.
  assert (no_panic (parser_probe sshd input) /\ no_panic (parser_parse sshd input)) as Hs.
  { destruct (String.eqb version LINUX_SSHD_PARSER_VERSION); [|destruct (String.eqb version LINUX_SSHD_PARSER_V2_VERSION)];
      simplify_eq/=; (split; [done|apply parse_linux_sshd_no_panic]). }
  rewrite !elem_of_cons in Hin. destruct Hin as [-> |[-> |[-> |[-> |[-> |Hin]]]]]; [done|..]; simpl.
  - split; [unfold journald_probe; no_panic|apply journald_parse_no_panic].
  - split; [apply with_pri_no_panic|apply rfc5424_parse_no_panic].
  - split; [apply with_pri_no_panic|apply rfc3164_parse_no_panic].
  - split; [unfold generic_json_probe; no_panic|apply generic_json_parse_no_panic].
  - by apply elem_of_nil in Hin.
Qed.
End NoPanic.

(** ** The limits on JSON trees *)

(** The number of object members of a value, at every depth *)
Fixpoint members (v : Json) : Z :=
  match v with
  | JArray values => foldr (fun v n => members v + n)%Z 0%Z values
  | JObject object => (zlen object + foldr (fun m n => members m.2 + n)%Z 0%Z object)%Z
  | _ => 0
  end.

(** Depth, text and collection sizes are within the limits, at every depth. *)
Fixpoint within (limits : ParserLimits) (depth : Z) (v : Json) : Prop :=
  (depth <= max_depth limits)%Z /\
  match v with
  | JNull | JBool _ => True
  | JNumber text | JString text => (zstr_len text <= max_string_bytes limits)%Z
  | JArray values =>
      (zlen values <= max_collection_length limits)%Z /\
      foldr (fun v acc => within limits (depth + 1) v /\ acc) True values
  | JObject object =>
      (zlen object <= max_collection_length limits)%Z /\
      foldr (fun m acc => ((zstr_len m.1 <= max_string_bytes limits)%Z /\ within limits (depth + 1) m.2) /\ acc)
        True object
  end.

Section Counting.
Context {A : Type} (f : Z -> A -> result Z ParseError) (Q : A -> Prop) (g : A -> Z) (M : Z).

(** A step that admits [x], adds its weight, and stays within [M] *)
Definition counts (x : A) : Prop :=
  (0 <= g x)%Z /\
  forall n n', (0 <= n <= M)%Z -> (f n x = Ok n' <-> Q x /\ n' = n + g x /\ n + g x <= M)%Z.

Lemma fold_counts l n n' :
  Forall counts l -> (0 <= n <= M)%Z ->
  (fold_m f l n = Ok n' <->
   foldr (fun x acc => Q x /\ acc) True l /\ n' = n + foldr (fun x n => g x + n) 0 l /\
   n + foldr (fun x n => g x + n) 0 l <= M)%Z.
Proof.
  intros Hl. revert n. induction Hl as [|x l [Hg Hx] Hl IH]; intros n Hn; simpl.
  - rewrite Z.add_0_r. naive_solver lia.
  - assert (0 <= foldr (fun x n => g x + n) 0 l)%Z as Hpos.
    { clear -Hl. induction Hl as [|y l [? _] _ IH]; simpl; lia. }
    rewrite bind_ok_iff. split.
    + intros (m & (HQ & -> & Hm)%Hx & Hrest); [|done]. apply IH in Hrest as (? & -> & ?); [|lia].
      split_and!; [done..| |]; lia.
    + intros ([HQ Hrest] & -> & Hle). exists (n + g x)%Z. rewrite Hx, IH by lia. split_and!; try done; lia.
Qed.
End Counting.

Lemma members_nonneg v : (0 <= members v)%Z.
Proof.
  induction v as [| | | |values IH|object IH] using Json_tree_ind; simpl; try lia.
  - induction IH; simpl; lia.
  - assert (0 <= foldr (fun m n => members m.2 + n) 0 object)%Z; [|unfold zlen; lia].
    induction IH; simpl; lia.
Qed.

Lemma visit_iff limits v depth n n' :
  (0 <= n <= max_fields limits)%Z -> (max_fields limits < usize_max)%Z ->
  (visit limits v depth n = Ok n' <->
   within limits depth v /\ n' = n + members v /\ n + members v <= max_fields limits)%Z.
Proof.
  intros Hn HM. revert depth n n' Hn.
  induction v as [| | |text|values IH|object IH] using Json_tree_ind; intros depth n n' Hn; simpl;
    rewrite bind_unit_ok_iff, reject_if_ok_iff, Z.ltb_ge.
  - rewrite ok_inj_iff. naive_solver lia.
  - rewrite ok_inj_iff. naive_solver lia.
  - destruct (Z.ltb_spec (max_string_bytes limits) (zstr_len text)); [naive_solver lia|].
    rewrite ok_inj_iff. naive_solver lia.
  - destruct (Z.ltb_spec (max_string_bytes limits) (zstr_len text)); [naive_solver lia|].
    rewrite ok_inj_iff. naive_solver lia.
  - rewrite bind_unit_ok_iff, reject_if_ok_iff, Z.ltb_ge.
    rewrite (fold_counts _ (within limits (depth + 1)) members (max_fields limits)); [tauto| |done].
    eapply Forall_impl; [exact IH|]. intros v Hv. split; [apply members_nonneg|]. intros. by apply Hv.
  - rewrite !bind_unit_ok_iff, !reject_if_ok_iff, !Z.ltb_ge.
    assert (0 <= foldr (fun m n => members m.2 + n) 0 object)%Z as Hpos.
    { clear. induction object as [|m l IH]; simpl; [done|]. pose proof (members_nonneg m.2). lia. }
    destruct (decide (n + zlen object <= max_fields limits)%Z) as [Hle|Hgt].
    2: { split; [intros (_ & _ & ? & _); lia|intros (_ & _ & ?); lia]. }
    rewrite Z.min_r by lia.
    rewrite (fold_counts _ (fun m => (zstr_len m.1 <= max_string_bytes limits)%Z /\ within limits (depth + 1) m.2)
               (fun m => members m.2) (max_fields limits)); [rewrite Z.add_assoc; tauto| |unfold zlen in *; lia].
    eapply Forall_impl; [exact IH|]. intros [k v] Hv. split; [apply members_nonneg|]. intros c c' Hc. simpl.
    rewrite bind_unit_ok_iff, reject_if_ok_iff, Z.ltb_ge, Hv by done. simpl. tauto.
Qed.

Lemma bind_err {A B E} (r : result A E) (k : A -> result B E) e :
  bind r k = Err e -> r = Err e \/ exists a, r = Ok a /\ k a = Err e.
Proof. destruct r; simpl; [eauto|intros [= ->]; by left|done]. Qed.

Lemma fold_m_err {A S E} (f : S -> A -> result S E) l s e :
  fold_m f l s = Err e -> exists t x, (x ∈ l) /\ f t x = Err e.
Proof.
  revert s. induction l as [|x l IH]; intros s; simpl; [done|].
  intros [?|(t & _ & (t' & y & ? & ?)%IH)]%bind_err; [exists s, x|exists t', y]; set_solver.
Qed.

Lemma reject_err {E} b (e e' : E) : reject_if b e = Err e' -> e' = e.
Proof. by destruct b; intros [=]. Qed.

Lemma visit_limit_error limits v depth n e :
  visit limits v depth n = Err e -> pr_code e = "CER-PARSE-LIMIT-EXCEEDED".
Proof.
  revert depth n. induction v as [| | |text|values IH|object IH] using Json_tree_ind; intros depth n; simpl;
    (intros [->%reject_err|(_ & _ & H)]%bind_err; [done|]); try done.
  - by destruct (_ <? _)%Z; simplify_eq.
  - by destruct (_ <? _)%Z; simplify_eq.
  - apply bind_err in H as [->%reject_err|(_ & _ & (t & v & Hv & H)%fold_m_err)]; [done|].
    rewrite Forall_forall in IH. by eapply IH.
  - apply bind_err in H as [->%reject_err|(_ & _ & H)]; [done|].
    apply bind_err in H as [->%reject_err|(_ & _ & (t & [k v] & Hv & H)%fold_m_err)]; [done|].
    apply bind_err in H as [->%reject_err|(_ & _ & H)]; [done|].
    rewrite Forall_forall in IH. by eapply (IH (k, v)).
Qed.

(** C28: The JSON limits are exact: a decoded tree is accepted if and only if its
    nesting depth, its texts, its arrays and objects are within the limits at
    every depth and it has at most [max_fields] object members in all, counted
    across the whole tree; otherwise the error is a limit error. *)
Theorem json_limits_exact v :
  (validate_json_tree v JSON_LIMITS = Ok tt <-> within JSON_LIMITS 0 v /\ (members v <= 8192)%Z) /\
  (forall e, validate_json_tree v JSON_LIMITS = Err e -> pr_code e = "CER-PARSE-LIMIT-EXCEEDED").
Proof.
  split.
  - unfold validate_json_tree. rewrite bind_ok_iff. setoid_rewrite visit_iff; [|simpl; lia|done].
    pose proof (members_nonneg v). simpl. split; [intros (n & (? & -> & ?) & _)|intros [? ?]]; eauto.
  - intros e. unfold validate_json_tree. destruct (visit JSON_LIMITS v 0 0) as [n|e'|p] eqn:Hv; simpl; [done| |done].
    intros [= <-]. eapply visit_limit_error; done.
Qed.

(** ** Examples *)

Module FormatSample.
#[export] Instance json : JsonCodec := {|
  json_from_slice _ := Err "EOF while parsing a value";
  json_to_vec _ := str_bytes "{}";
  number_as_f64 _ := None;
|}.
#[export] Instance formats : FormatCodec := {|
  base64_decode _ := Err "Invalid padding";
  rfc3339_parse s := if String.eqb s "2026-09-13T12:00:00Z" then Ok tt else Err "invalid";
|}.
#[export] Instance debug : DebugStr := fun s => s.
Definition sd : string := str_of_bytes (str_bytes "[id@1 k=" ++ [quote] ++ str_bytes "a]\b" ++ [quote] ++ str_bytes "]").
End FormatSample.

Import FormatSample.

Lemma structured_data_grammar_witness :
  split_structured_data (sd +:+ " hello") = Ok (sd, "hello") /\
  no_panic (split_structured_data (sd +:+ " hello")).
Proof.
  destruct (structured_data_grammar (sd +:+ " hello")) as [Hnp Hiff].
  { apply (utf8_error_None _ 0). vm_compute. reflexivity. }
  split; [|exact Hnp]. vm_compute. reflexivity.
Defined.

Lemma rfc5424_round_trip_witness :
  parse_rfc5424 (rfc5424_line 165 "2026-09-13T12:00:00Z" "host" "app" "-" "ID47" "-" " hello")
  = Ok (rfc5424_event 165 "2026-09-13T12:00:00Z" "host" "app" "-" "ID47" "-" "hello"
          [text_candidate "2026-09-13T12:00:00Z" "timestamp" "rfc3339" "high"] [] Parsing_Success).
Proof.
  apply (rfc5424_round_trip 165 "2026-09-13T12:00:00Z" "host" "app" "-" "ID47" "-" " hello" "hello").
  - lia.
  - repeat constructor; done.
  - by left.
  - by right.
  - reflexivity.
  - apply (utf8_error_None _ 0). vm_compute. reflexivity.
Defined.

Lemma builtin_parsers_never_panic_witness :
  no_panic (parser_parse SyslogRfc3164Parser (ParserSample.input_of "<13>Sep  3 10:00:00 host app[]: x")).
Proof.
  refine (proj2 (builtin_parsers_never_panic _ "1"
    [LinuxSshdParser; JournaldCanonicalParser; SyslogRfc5424Parser; SyslogRfc3164Parser; GenericJsonParser]
    SyslogRfc3164Parser _ _ _)).
  - split_and!; intros; unfold json_from_slice, base64_decode, rfc3339_parse; simpl; [done|done|by destruct (String.eqb _ _)].
  - reflexivity.
  - set_solver.
Defined.
