(* ===== verification/SourceTime.v ===== *)
(** * Source time policies

    crates/cerbero-normalizer/src/source_time.rs: the registry of UTC offsets per
    source, and the resolution of RFC 3164 timestamps, which have no year and no
    zone.  The calendar of the [time] crate is a parameter; an [OffsetDateTime]
    is its Unix timestamp and its offset. *)

From S2P Require Import Prelude RustStd RustText ContractTypes Validation CanonicalJson Parser ParserFormats.

(** The [time] crate: what the source calls, with its failures *)
Class TimeCrate := {
  (** [UtcOffset::from_hms], in seconds *)
  offset_from_hms : Z -> Z -> Z -> result Z string;
  (** [OffsetDateTime::from_unix_timestamp] *)
  from_unix_timestamp : Z -> result unit string;
  (** [utc.to_offset(offset).year()]; none outside the supported years, where it panics *)
  local_year : Z -> Z -> option Z;
  (** [Date::from_calendar_date(..).is_ok()] *)
  calendar_date : Z -> Z -> Z -> bool;
  (** [Time::from_hms] *)
  time_from_hms : Z -> Z -> Z -> result unit string;
  (** [PrimitiveDateTime::new(date, time).assume_offset(offset).unix_timestamp()] *)
  local_unix_timestamp : Z -> Z -> Z -> Z -> Z -> Z -> Z -> Z;
}.

Record SourceTimeError := mkSourceTimeError { ste_message : string }.

(** [impl Display for SourceTimeError] *)
Definition SourceTimeError_display (error : SourceTimeError) : string := ste_message error.
Definition source_time_error (message : string) : SourceTimeError := mkSourceTimeError message.

Record SourceTimePolicy := mkSourceTimePolicy {
  stp_offset : Z;   (* UtcOffset *)
  stp_offset_text : string;
}.

Definition policy_text (policy : SourceTimePolicy) : string :=
  "fixed_utc_offset=" +:+ stp_offset_text policy +:+ ";rfc3164_year=nearest_ingest_year".

Definition SourceTimePolicyRegistry : Type := BTreeMap string SourceTimePolicy.

Record EventTimeContext := mkEventTimeContext {
  etc_event_time : option Timestamp;
  etc_source : string;
  etc_assumption : option string;
}.

Definition unresolved : EventTimeContext := mkEventTimeContext None "ingest_time_fallback" None.

Definition from_persisted (persisted : RawEventPersisted) : EventTimeContext :=
  match rp_event_time persisted with
  | Some event_time => mkEventTimeContext (Some event_time) "event_time" None
  | None => unresolved
  end.

(** [&value[from..to]] of a [str] *)
Definition str_slice {E} (value : string) (from to : nat) : result string E :=
  let? upto := slice_to value to in slice_from upto from.

(** [str::parse::<i8>()] *)
Definition in_i8 : Z -> bool := in_range (-128) 127.
Definition parse_i8 (s : string) : option Z :=
  match str_bytes s with
  | a :: (_ :: _) as l =>
      if Ascii.eqb a "-" then Z.opp <$> parse_digits (fun z => in_i8 (- z)) 0 (tail l)
      else parse_unsigned in_i8 s
  | _ => parse_unsigned in_i8 s
  end.

Section SourceTime.
Context `{TimeCrate}.

Definition parse_offset (value : string) : result (Z * string) SourceTimeError :=
  let bytes := str_bytes value in
  reject_if (negb (length bytes =? 6)%nat
             || negb (byte_is bytes 0 "+" || byte_is bytes 0 "-")
             || negb (byte_is bytes 3 ":")
             || negb (forallb is_ascii_digit (byte_slice bytes 1 3))
             || negb (forallb is_ascii_digit (byte_slice bytes 4 6)))
    (source_time_error "source UTC offset must use exact +HH:MM or -HH:MM form") ;;?
  let sign := (if byte_is bytes 0 "-" then -1 else 1)%Z in
  let? hours_text := str_slice value 1 3 in
  let? hours := ok_or (parse_i8 hours_text) (source_time_error "invalid source UTC offset hour") in
  let? minutes_text := str_slice value 4 6 in
  let? minutes := ok_or (parse_i8 minutes_text) (source_time_error "invalid source UTC offset minute") in
  let? offset := map_err (fun error => source_time_error ("invalid source UTC offset: " +:+ error))
    (offset_from_hms (sign * hours) (sign * minutes) 0) in
  Ok (offset, value).

Definition parse_spec_entry (policies : SourceTimePolicyRegistry) (entry : string)
    : result SourceTimePolicyRegistry SourceTimeError :=
  let? '(source_id, offset_text) := ok_or (split_once "=" entry)
    (source_time_error "source time policy entries must use source_id=+HH:MM or source_id=-HH:MM") in
  let source_id := trim source_id in
  reject_if (is_empty source_id || contains_char "," source_id || contains_char "=" source_id)
    (source_time_error "source time policy source_id must be non-empty and cannot contain ',' or '='") ;;?
  reject_if (match bt_get source_id policies with Some _ => true | None => false end)
    (source_time_error ("duplicate source time policy for source_id " +:+ source_id)) ;;?
  let? '(offset, canonical) := parse_offset (trim offset_text) in
  Ok (bt_insert source_id (mkSourceTimePolicy offset canonical) policies).

Definition parse_spec (spec : string) : result SourceTimePolicyRegistry SourceTimeError :=
  let spec := trim spec in
  if is_empty spec then Ok [] else fold_m parse_spec_entry (split_char "," spec) [].

Definition policy_canonical (policies : SourceTimePolicyRegistry) (source_id : string) : option string :=
  policy_text <$> bt_get source_id policies.

Definition parse_component_bytes (value : list ascii) (name : string) : result Z SourceTimeError :=
  let? value := map_err (fun _ => source_time_error ("invalid RFC3164 " +:+ name)) (from_utf8 value) in
  ok_or (parse_unsigned in_u8 (trim value)) (source_time_error ("invalid RFC3164 " +:+ name)).

(** The position of a month name, from January on *)
Fixpoint month_number (names : list string) (n : Z) (name : string) : option Z :=
  match names with
  | [] => None
  | m :: names => if String.eqb name m then Some n else month_number names (n + 1) name
  end.

Definition parse_rfc3164_components (value : string) : result (Z * Z * Z * Z * Z) SourceTimeError :=
  reject_if (negb (str_len value =? 15)%nat)
    (source_time_error "RFC3164 candidate must match 'Mmm dd HH:MM:SS'") ;;?
  let bytes := str_bytes value in
  let? month := ok_or (month_number MONTHS 1 (str_of_bytes (byte_slice bytes 0 3)))
    (source_time_error "invalid RFC3164 month") in
  let? day := parse_component_bytes (byte_slice bytes 4 6) "day" in
  let? hour := parse_component_bytes (byte_slice bytes 7 9) "hour" in
  let? minute := parse_component_bytes (byte_slice bytes 10 12) "minute" in
  let? second := parse_component_bytes (byte_slice bytes 13 15) "second" in
  Ok (month, day, hour, minute, second).

(** One year of the loop; [best] is the distance and the timestamp *)
Definition try_year (month day hour minute second offset ingest : Z) (best : option (Z * Z)) (year : Z)
    : result (option (Z * Z)) SourceTimeError :=
  if calendar_date year month day then
    map_err (fun error => source_time_error ("invalid RFC3164 time: " +:+ error)) (time_from_hms hour minute second) ;;?
    let candidate := local_unix_timestamp year month day hour minute second offset in
    let distance := Z.abs (candidate - ingest) in
    Ok (match best with
        | Some (current, _) => if (distance <? current)%Z then Some (distance, candidate) else best
        | None => Some (distance, candidate)
        end)
  else Ok best.

Definition resolve_rfc3164_nearest_year (value : string) (ingest : Timestamp) (policy : SourceTimePolicy)
    : result Timestamp SourceTimeError :=
  let? '(month, day, hour, minute, second) := parse_rfc3164_components value in
  map_err (fun error => source_time_error ("invalid ingest_time: " +:+ error))
    (from_unix_timestamp (ts_seconds ingest)) ;;?
  let? base_year :=
    match local_year (ts_seconds ingest) (stp_offset policy) with
    | Some year => Ok year
    | None => Panic "local datetime out of valid range"
    end in
  let? best := fold_m (try_year month day hour minute second (stp_offset policy) (ts_seconds ingest))
    [base_year - 1; base_year; base_year + 1]%Z None in
  let? '(_, best) := ok_or best
    (source_time_error "RFC3164 timestamp cannot be resolved under the source time policy") in
  Ok (mkTimestamp best 0).

Definition resolve (policies : SourceTimePolicyRegistry) (persisted : RawEventPersisted) (parsed : ParsedEvent)
    : result EventTimeContext SourceTimeError :=
  match rp_event_time persisted with
  | Some _ => Ok (from_persisted persisted)
  | None =>
      if negb (String.eqb (pe_parser_id parsed) SYSLOG_RFC3164_PARSER_ID) then Ok unresolved
      else match bt_get (rp_source_id persisted) policies with
           | None => Ok unresolved
           | Some policy =>
               match List.find (fun c => String.eqb (tc_precision c) "second_without_year_or_timezone")
                       (pe_timestamp_candidates parsed) with
               | None => Ok unresolved
               | Some candidate =>
                   match rp_ingest_time persisted with
                   | None => Ok unresolved
                   | Some ingest_time =>
                       let? event_time := resolve_rfc3164_nearest_year (tc_value candidate) ingest_time policy in
                       Ok (mkEventTimeContext (Some event_time) "source_time_policy"
                             (Some (policy_text policy +:+ ";candidate=" +:+ tc_source_field candidate)))
                   end
               end
           end
  end.
End SourceTime.
