(* ===== verification/SourceTimeSpec.v ===== *)
(** * RFC 3164 timestamps resolve to the nearest year

    The parser's candidates always have valid components, and under the laws of
    the calendar the resolved instant is the nearest one of any year. *)

From S2P Require Import Prelude RustStd RustText ContractTypes Validation CanonicalJson Parser ParserFormats SourceTime.

(** ** The loop over the years *)

Section Nearest.
Context `{TimeCrate} (month day hour minute second offset ingest : Z).

Definition instant (year : Z) : Z := local_unix_timestamp year month day hour minute second offset.
Definition year_start (year : Z) : Z := local_unix_timestamp year 1 1 0 0 0 offset.
Definition distance (year : Z) : Z := Z.abs (instant year - ingest).

(** The state of the loop after [years] *)
Definition best_of (years : list Z) (best : option (Z * Z)) : Prop :=
  match best with
  | None => forall y, y ∈ years -> calendar_date y month day = false
  | Some (d, c) =>
      (exists y, (y ∈ years) /\ calendar_date y month day = true /\ c = instant y /\ d = distance y) /\
      forall y, y ∈ years -> calendar_date y month day = true -> (d <= distance y)%Z
  end.

Lemma try_year_best years best year :
  time_from_hms hour minute second = Ok tt -> best_of years best ->
  exists best', try_year month day hour minute second offset ingest best year = Ok best' /\
                best_of (years ++ [year]) best'.
Proof.
  intros Htime Hbest. unfold try_year. rewrite Htime. simpl. fold (instant year) (distance year).
  destruct (calendar_date year month day) eqn:Hcal.
  - eexists. split; [done|]. destruct best as [[d c]|]; simpl in Hbest.
    + destruct Hbest as [(y & Hy & Hcy & -> & ->) Hmin]. destruct (Z.ltb_spec (distance year) (distance y)); simpl.
      * split; [exists year; set_solver|]. intros y' [Hy'|Hy']%elem_of_app Hc; [|set_solver by lia].
        pose proof (Hmin y' Hy' Hc). lia.
      * split; [exists y; set_solver|]. intros y' [Hy'|Hy']%elem_of_app Hc; [by apply Hmin|set_solver by lia].
    + simpl. split; [exists year; set_solver|]. intros y' [Hy'|Hy']%elem_of_app Hc; [|set_solver by lia].
      rewrite Hbest in Hc; done.
  - exists best. split; [done|]. destruct best as [[d c]|]; simpl in *.
    + destruct Hbest as [(y & Hy & Hcy & -> & ->) Hmin]. split; [exists y; set_solver|].
      intros y' [Hy'| ->%list_elem_of_singleton]%elem_of_app Hc; [by apply Hmin|congruence].
    + intros y' [Hy'| ->%list_elem_of_singleton]%elem_of_app; [by apply Hbest|done].
Qed.

Lemma try_years_best rest years best :
  time_from_hms hour minute second = Ok tt -> best_of years best ->
  exists best', fold_m (try_year month day hour minute second offset ingest) rest best = Ok best' /\
                best_of (years ++ rest) best'.
Proof.
  intros Htime. revert years best. induction rest as [|y rest IH]; intros years best Hb; simpl.
  - rewrite app_nil_r. eauto.
  - destruct (try_year_best years best y Htime Hb) as (b & -> & Hb'). simpl.
    destruct (IH _ _ Hb') as (b' & -> & Hb''). exists b'. by rewrite <-app_assoc in Hb''.
Qed.

(** ** The laws of the calendar that the search relies on *)

(** The years the [time] crate represents *)
Definition supported (year : Z) : Prop := (-9999 <= year <= 9999)%Z.

Record calendar_laws (base_year : Z) : Prop := {
  (** a date of another year is refused *)
  law_supported : forall y, calendar_date y month day = true -> supported y;
  (** the day is in the calendar of every year that is represented (it is not 29 February) *)
  law_date : forall y, supported y -> calendar_date y month day = true;
  (** later years are later *)
  law_order : forall y1 y2, supported y1 -> supported y2 -> (y1 <= y2)%Z -> (instant y1 <= instant y2)%Z;
  (** a day of a year is not before its start, and before the start of the next *)
  law_within : forall y, supported y ->
    (year_start y <= instant y)%Z /\ (supported (y + 1) -> (instant y < year_start (y + 1))%Z);
  (** the local year of the ingest time *)
  law_base : supported base_year /\ (year_start base_year <= ingest)%Z /\
    (supported (base_year + 1) -> (ingest < year_start (base_year + 1))%Z);
}.

Lemma nearest_of_three base_year y :
  calendar_laws base_year -> supported y ->
  exists y', (y' ∈ [base_year - 1; base_year; base_year + 1]%Z) /\ supported y' /\ (distance y' <= distance y)%Z.
Proof.
  intros [_ _ Hord Hin (Hsb & Hlo & Hhi)] Hy. unfold distance, supported in *.
  destruct (decide (y < base_year)%Z) as [Hlt|Hge]; [|destruct (decide (base_year < y)%Z) as [Hgt|Hle]].
  - exists (base_year - 1)%Z. split; [set_solver|]. pose proof (Hord y (base_year - 1)%Z).
    pose proof (Hin (base_year - 1)%Z) as Hb. rewrite Z.sub_add in Hb. lia.
  - exists (base_year + 1)%Z. split; [set_solver|]. pose proof (Hord (base_year + 1)%Z y).
    pose proof (Hin (base_year + 1)%Z). lia.
  - exists base_year. split; [set_solver|]. assert (y = base_year) as -> by lia. lia.
Qed.
End Nearest.

(** C29: A RFC 3164 timestamp resolves to the nearest year: for a day that every
    year has, the resolved instant is the day and time of day of the timestamp,
    at the offset of the policy, in the year that brings it closest to the ingest
    time - closest among all years the calendar represents, not only among the
    three that are tried. *)
Theorem rfc3164_nearest_year `{TimeCrate} value ingest policy month day hour minute second base_year :
  parse_rfc3164_components value = Ok (month, day, hour, minute, second) ->
  from_unix_timestamp (ts_seconds ingest) = Ok tt ->
  local_year (ts_seconds ingest) (stp_offset policy) = Some base_year ->
  time_from_hms hour minute second = Ok tt ->
  calendar_laws month day hour minute second (stp_offset policy) (ts_seconds ingest) base_year ->
  exists year, calendar_date year month day = true /\
    resolve_rfc3164_nearest_year value ingest policy
    = Ok (mkTimestamp (local_unix_timestamp year month day hour minute second (stp_offset policy)) 0) /\
    forall other, calendar_date other month day = true ->
      (Z.abs (local_unix_timestamp year month day hour minute second (stp_offset policy) - ts_seconds ingest)
       <= Z.abs (local_unix_timestamp other month day hour minute second (stp_offset policy) - ts_seconds ingest))%Z.
Proof.
  intros Hparse Hunix Hyear Htime Hlaws. unfold resolve_rfc3164_nearest_year. rewrite Hparse. cbn [bind].
  rewrite Hunix. cbn [bind map_err]. rewrite Hyear. cbn [bind].
  destruct (try_years_best month day hour minute second (stp_offset policy) (ts_seconds ingest)
              [base_year - 1; base_year; base_year + 1]%Z [] None Htime) as (best & -> & Hbest);
    [by intros y ?%elem_of_nil|]. cbn [bind app] in Hbest |- *.
  pose proof Hlaws as [Hsup Hdate _ _ (Hsb & _)]. destruct best as [[d c]|]; simpl in Hbest.
  - destruct Hbest as [(y & _ & Hy & -> & ->) Hmin]. exists y. split_and!; [done|done|]. intros other Ho%Hsup.
    destruct (nearest_of_three month day hour minute second (stp_offset policy) (ts_seconds ingest) base_year other)
      as (y' & Hy' & Hsy' & Hle); [done|done|]. pose proof (Hmin y' Hy' (Hdate y' Hsy')).
    unfold distance, instant in *. lia.
  - exfalso. assert (calendar_date base_year month day = false) by (apply Hbest; set_solver).
    pose proof (Hdate base_year Hsb). congruence.
Qed.

(** ** The parser and the resolver agree on timestamps *)

Lemma parse_component_agrees bytes name n :
  parse_ascii_u8 bytes name = Ok n -> parse_component_bytes bytes name = Ok n /\ in_u8 n = true.
Proof.
  unfold parse_ascii_u8, parse_component_bytes. intros (text & Ht%map_err_ok_iff & Hn%ok_or_ok_iff)%bind_ok_iff.
  rewrite Ht. cbn [bind map_err]. rewrite Hn. split; [done|]. by apply parse_unsigned_in in Hn.
Qed.

Lemma month_number_range names n name :
  name ∈ names -> exists m, month_number names n name = Some m /\ (n <= m < n + Z.of_nat (length names))%Z.
Proof.
  revert n. induction names as [|x names IH]; intros n Hin; [by apply elem_of_nil in Hin|]. simpl.
  destruct (String.eqb_spec name x) as [->|Hne]; [exists n; split; [done|lia]|].
  destruct (IH (n + 1)%Z) as (m & -> & ?); [set_solver|]. exists m. split; [done|lia].
Qed.

Lemma timestamp_components_agree value :
  validate_rfc3164_timestamp value = Ok tt ->
  exists month day hour minute second,
    parse_rfc3164_components value = Ok (month, day, hour, minute, second) /\
    (1 <= month <= 12)%Z /\ (1 <= day <= 31)%Z /\ (0 <= hour <= 23)%Z /\ (0 <= minute <= 59)%Z /\ (0 <= second <= 59)%Z.
Proof.
  unfold validate_rfc3164_timestamp. intros [Hshape Hv]%bind_unit_ok_iff.
  apply bind_unit_ok_iff in Hv as [Hmonth Hv]. apply bind_ok_iff in Hv as (d & Hd & Hv).
  apply bind_ok_iff in Hv as (h & Hh & Hv). apply bind_ok_iff in Hv as (mi & Hmi & Hv).
  apply bind_ok_iff in Hv as (s & Hs & Hv). apply bind_unit_ok_iff in Hv as [Hrange _].
  apply reject_if_ok_iff, negb_false_iff, bool_decide_eq_true in Hmonth.
  apply reject_if_ok_iff in Hshape, Hrange. rewrite !orb_false_iff, !negb_false_iff in Hshape.
  rewrite !orb_false_iff, !negb_false_iff in Hrange.
  destruct Hshape as [[[[Hlen _] _] _] _], Hrange as [[[Hdr%in_range_spec Hhr%Z.ltb_ge] Hmr%Z.ltb_ge] Hsr%Z.ltb_ge].
  apply parse_component_agrees in Hd as [Hd _], Hh as [Hh [? _]%in_range_spec],
    Hmi as [Hmi [? _]%in_range_spec], Hs as [Hs [? _]%in_range_spec].
  destruct (month_number_range MONTHS 1 _ Hmonth) as (m & Hm & Hmrange).
  exists m, d, h, mi, s. unfold parse_rfc3164_components, str_len. rewrite Hlen, Hm. cbn [bind reject_if negb ok_or].
  rewrite Hd, Hh, Hmi, Hs. simpl in Hmrange. split_and!; try done; lia.
Qed.

(** The RFC 3164 parser and the source-time resolver agree: every event the
    parser returns has exactly one timestamp candidate, marked as lacking year
    and zone, and the resolver reads its month, day and time of day without an
    error, within the calendar's ranges.  A syslog event can therefore only fail
    to resolve for its date or its ingest time. *)
Theorem rfc3164_candidate_resolvable text event :
  parse_rfc3164 text = Ok event ->
  exists candidate month day hour minute second,
    pe_timestamp_candidates event = [candidate] /\ tc_precision candidate = "second_without_year_or_timezone" /\
    parse_rfc3164_components (tc_value candidate) = Ok (month, day, hour, minute, second) /\
    (1 <= month <= 12)%Z /\ (1 <= day <= 31)%Z /\ (0 <= hour <= 23)%Z /\ (0 <= minute <= 59)%Z /\ (0 <= second <= 59)%Z.
Proof.
  unfold parse_rfc3164. intros ([pri rest] & _ & H)%bind_ok_iff. apply bind_unit_ok_iff in H as [_ H].
  apply bind_ok_iff in H as (ts & _ & H). apply bind_unit_ok_iff in H as [Hts H].
  apply bind_ok_iff in H as (after & _ & H). apply bind_ok_iff in H as (after' & _ & H).
  apply bind_ok_iff in H as ([hostname remainder] & _ & H).
  apply bind_ok_iff in H as ([[app procid] message] & _ & [= <-]).
  destruct (timestamp_components_agree ts Hts) as (m & d & h & mi & s & ?).
  by exists (text_candidate ts "timestamp" "second_without_year_or_timezone" "medium"), m, d, h, mi, s.
Qed.

(** ** A proleptic Gregorian calendar *)

Module CalendarSample.

Definition days_before_year (y : Z) : Z := let z := (y - 1)%Z in (365 * z + z / 4 - z / 100 + z / 400)%Z.
Definition leap (y : Z) : bool := ((y mod 4 =? 0) && (negb (y mod 100 =? 0) || (y mod 400 =? 0)))%Z.
Definition month_lengths (y : Z) : list Z := [31; if leap y then 29 else 28; 31; 30; 31; 30; 31; 31; 30; 31; 30; 31]%Z.
Definition days_before_month (y m : Z) : Z := foldr Z.add 0%Z (take (Z.to_nat (m - 1)) (month_lengths y)).
Definition day_number (y m d : Z) : Z := (days_before_year y + days_before_month y m + d - 1)%Z.

#[export] Instance gregorian : TimeCrate := {|
  offset_from_hms h m s :=
    if in_range (-25) 25 h && in_range (-59) 59 m && in_range (-59) 59 s
    then Ok (h * 3600 + m * 60 + s)%Z else Err "component out of range";
  from_unix_timestamp t := if in_range (-377705116800) 253402300799 t then Ok tt else Err "timestamp out of range";
  local_year t offset :=
    let day := ((t + offset) / 86400 + days_before_year 1970)%Z in
    let guess := (day * 400 / 146097 + 1)%Z in
    List.find (fun y => in_range (-9999) 9999 y && (days_before_year y <=? day) && (day <? days_before_year (y + 1)))%Z
      [guess - 1; guess; guess + 1]%Z;
  calendar_date y m d :=
    in_range (-9999) 9999 y && in_range 1 12 m && in_range 1 (default 0%Z (month_lengths y !! Z.to_nat (m - 1))) d;
  time_from_hms h m s := if in_range 0 23 h && in_range 0 59 m && in_range 0 59 s then Ok tt else Err "component out of range";
  local_unix_timestamp y m d h mi s offset :=
    ((day_number y m d - day_number 1970 1 1) * 86400 + h * 3600 + mi * 60 + s - offset)%Z;
|}.

Lemma days_before_year_mono y1 y2 : (y1 <= y2)%Z -> (days_before_year y1 <= days_before_year y2)%Z.
Proof. unfold days_before_year. intros. Z.to_euclidean_division_equations. lia. Qed.

Lemma days_before_year_step y : (days_before_year y + 365 <= days_before_year (y + 1))%Z.
Proof. unfold days_before_year. Z.to_euclidean_division_equations. lia. Qed.

End CalendarSample.

Import CalendarSample.

(** 2 January read on 31 December 2025 is of 2026. *)
Lemma rfc3164_nearest_year_witness :
  exists year, calendar_date year 1 2 = true /\
    resolve_rfc3164_nearest_year "Jan  2 03:04:05" (mkTimestamp 1767139200 0) (mkSourceTimePolicy 3600 "+01:00")
    = Ok (mkTimestamp (local_unix_timestamp year 1 2 3 4 5 3600) 0) /\
    forall other, calendar_date other 1 2 = true ->
      (Z.abs (local_unix_timestamp year 1 2 3 4 5 3600 - 1767139200)
       <= Z.abs (local_unix_timestamp other 1 2 3 4 5 3600 - 1767139200))%Z.
Proof.
  apply (rfc3164_nearest_year "Jan  2 03:04:05" (mkTimestamp 1767139200 0) (mkSourceTimePolicy 3600 "+01:00")
           1 2 3 4 5 2025); [vm_compute; reflexivity..|].
  split.
  - intros y. cbn [calendar_date gregorian]. rewrite !andb_true_iff, in_range_spec. by intros [[? _] _].
  - intros y Hy. cbn [calendar_date gregorian]. unfold supported in Hy.
    rewrite (proj2 (in_range_spec (-9999) 9999 y)) by lia. reflexivity.
  - intros y1 y2 _ _ Hy%days_before_year_mono. unfold instant. cbn [local_unix_timestamp gregorian]. unfold day_number.
    change (days_before_month y1 1) with 0%Z. change (days_before_month y2 1) with 0%Z. cbn [stp_offset]. lia.
  - intros y _. pose proof (days_before_year_step y). unfold instant, year_start.
    cbn [local_unix_timestamp gregorian stp_offset]. unfold day_number.
    change (days_before_month y 1) with 0%Z. change (days_before_month (y + 1) 1) with 0%Z. lia.
  - split; [split; apply Z.leb_le; reflexivity|].
    split; [apply Z.leb_le; vm_compute; reflexivity|intros _; apply Z.ltb_lt; vm_compute; reflexivity].
Defined.

Lemma rfc3164_candidate_resolvable_witness :
  exists candidate month day hour minute second event,
    parse_rfc3164 "<13>Sep  3 10:20:30 host app[7]: hello" = Ok event /\
    pe_timestamp_candidates event = [candidate] /\
    parse_rfc3164_components (tc_value candidate) = Ok (month, day, hour, minute, second).
Proof.
  destruct (parse_rfc3164 "<13>Sep  3 10:20:30 host app[7]: hello") as [event|e|p] eqn:Hrun;
    [|vm_compute in Hrun; discriminate..].
  destruct (rfc3164_candidate_resolvable _ _ Hrun) as (c & m & d & h & mi & s & Hc & _ & Hp & _).
  exists c, m, d, h, mi, s, event. auto.
Defined.
