(* ===== verification/Mapping.v ===== *)
(** * OCSF mappings

    crates/cerbero-normalizer/src/mapping.rs: the [OcsfMapping] trait as a record
    of operations, its registry, and the mapping of rejected SSH passwords to
    OCSF Authentication events. *)

From S2P Require Import Prelude RustStd RustText ContractTypes Validation CanonicalJson Parser ParserFormats SourceTime.

Definition OCSF_VERSION : string := "1.9.0".
Definition LINUX_SSH_AUTH_MAPPING_ID : string := "linux.ssh.authentication".
Definition LINUX_SSH_AUTH_MAPPING_VERSION : string := "1".

(** cerbero.contracts.v1.NormalizationStatus *)
Inductive NormalizationStatus : Set :=
| NormalizationStatus_Unspecified | NormalizationStatus_Success | NormalizationStatus_Partial
| NormalizationStatus_Failed.

Definition NormalizationStatus_as_i32 (s : NormalizationStatus) : Z :=
  match s with
  | NormalizationStatus_Unspecified => 0
  | NormalizationStatus_Success => 1
  | NormalizationStatus_Partial => 2
  | NormalizationStatus_Failed => 3
  end.

Definition NormalizationStatus_try_from (n : Z) : option NormalizationStatus :=
  match n with
  | 0%Z => Some NormalizationStatus_Unspecified
  | 1%Z => Some NormalizationStatus_Success
  | 2%Z => Some NormalizationStatus_Partial
  | 3%Z => Some NormalizationStatus_Failed
  | _ => None
  end.

Record MappingOutput := mkMappingOutput {
  mo_mapping_id : string;
  mo_mapping_version : string;
  mo_class_uid : Z;            (* u32 *)
  mo_category_uid : Z;         (* u32 *)
  mo_activity_id : option Z;   (* u32 *)
  mo_severity : option Z;      (* u32 *)
  mo_status : NormalizationStatus;
  mo_ocsf_event : Json;
}.

Record MappingError := mkMappingError {
  me_code : string;
  me_message : string;
  me_retryable : bool;
}.

(** [impl Display for MappingError] *)
Definition MappingError_display (error : MappingError) : string := me_code error +:+ ": " +:+ me_message error.

(** [trait OcsfMapping] *)
Record OcsfMapping := mkOcsfMapping {
  mapping_id : string;
  mapping_version : string;
  mapping_parser_id : string;
  mapping_map : ParsedEvent -> RawEventPersisted -> EventTimeContext -> Z -> result MappingOutput MappingError;
}.

Definition MappingRegistry : Type := BTreeMap string OcsfMapping.

Definition register_mapping (registry : MappingRegistry) (mapping : OcsfMapping) : MappingRegistry :=
  bt_insert (mapping_parser_id mapping) mapping registry.

Definition for_parser (registry : MappingRegistry) (parser_id : string) : result OcsfMapping MappingError :=
  ok_or (bt_get parser_id registry)
    (mkMappingError "CER-NORM-MAPPING-UNSUPPORTED"
       ("no OCSF mapping is registered for parser " +:+ parser_id) false).

(** ** Required fields *)

Definition missing_field (message : string) : MappingError :=
  mkMappingError "CER-NORM-MISSING-REQUIRED-FIELD" message false.

Definition required_string (parsed : ParsedEvent) (field : string) : result string MappingError :=
  ok_or (string_field parsed field)
    (missing_field ("required parsed field " +:+ field +:+ " must be a string")).

Definition required_bool (parsed : ParsedEvent) (field : string) : result bool MappingError :=
  ok_or (bool_field parsed field)
    (missing_field ("required parsed field " +:+ field +:+ " must be a bool")).

Definition required_u16 (parsed : ParsedEvent) (field : string) : result Z MappingError :=
  let? value := ok_or (u64_field parsed field)
    (missing_field ("required parsed field " +:+ field +:+ " must be an unsigned integer")) in
  ok_or (try_from in_u16 value)
    (missing_field ("required parsed field " +:+ field +:+ " is outside uint16 range")).

Definition mapping_unix_millis (timestamp : Timestamp) : result Z MappingError :=
  let? millis_from_seconds := ok_or (checked_mul in_i64 (ts_seconds timestamp) 1000)
    (mkMappingError "CER-NORM-TIMESTAMP-RANGE" "timestamp seconds overflow milliseconds" false) in
  let millis_from_nanos := Z.quot (ts_nanos timestamp) 1000000 in
  ok_or (checked_add in_i64 millis_from_seconds millis_from_nanos)
    (mkMappingError "CER-NORM-TIMESTAMP-RANGE" "timestamp overflows milliseconds" false).

(** ** JSON as the [json!] macro builds it *)

Definition json_object (entries : list (string * Json)) : Json := JObject (collect_map entries).
Definition json_int (n : Z) : Json := JNumber (pretty n).

(** [&mut value[key]]: null becomes an object; other values that are not
    objects panic *)
Definition json_members {E} (value : Json) : result (BTreeMap string Json) E :=
  match value with
  | JObject object => Ok object
  | JNull => Ok []
  | _ => Panic "cannot access key in JSON value"
  end.

(** [value[outer][inner] = x] *)
Definition json_set_in {E} (value : Json) (outer inner : string) (x : Json) : result Json E :=
  let? object := json_members value in
  let? member := json_members (default JNull (bt_get outer object)) in
  Ok (JObject (bt_insert outer (JObject (bt_insert inner x member)) object)).

(** ** Rejected SSH passwords *)

Definition missing_ingest_time : MappingError :=
  mkMappingError "CER-NORM-MISSING-INGEST-TIME" "RawEventPersisted.ingest_time is required" false.

Definition ssh_metadata (ingest_time_millis normalized_at_unix_millis : Z) (time_source : string) : Json :=
  json_object
    [("logged_time", json_int ingest_time_millis);
     ("processed_time", json_int normalized_at_unix_millis);
     ("product", json_object [("name", JString "Cerbero Normalizer"); ("vendor_name", JString "Cerbero")]);
     ("version", JString OCSF_VERSION);
     ("cerbero_time_source", JString time_source)].

Definition ssh_ocsf_event (message source_ip username : string) (source_port : Z) (invalid_user : bool)
    (event_time_millis : Z) (metadata : Json) : Json :=
  json_object
    [("activity_id", json_int 1);
     ("activity_name", JString "Logon");
     ("auth_protocol", JString "SSH");
     ("auth_protocol_id", json_int 99);
     ("category_name", JString "Identity & Access Management");
     ("category_uid", json_int 3);
     ("class_name", JString "Authentication");
     ("class_uid", json_int 3002);
     ("is_remote", JBool true);
     ("message", JString message);
     ("metadata", metadata);
     ("service", json_object [("name", JString "sshd")]);
     ("severity", JString "Low");
     ("severity_id", json_int 2);
     ("src_endpoint", json_object [("ip", JString source_ip); ("port", json_int source_port)]);
     ("status", JString "Failure");
     ("status_detail", JString (if invalid_user then "Invalid user" else "Authentication failed"));
     ("status_id", json_int 2);
     ("time", json_int event_time_millis);
     ("type_name", JString "Authentication: Logon");
     ("type_uid", json_int 300201);
     ("user", json_object [("name", JString username)])].

Definition ssh_map (parsed : ParsedEvent) (persisted : RawEventPersisted) (event_time : EventTimeContext)
    (normalized_at_unix_millis : Z) : result MappingOutput MappingError :=
  reject_if (negb (String.eqb (pe_parser_id parsed) LINUX_SSHD_PARSER_ID)
             || negb (String.eqb (pe_source_event_type parsed) "linux.ssh.authentication"))
    (mkMappingError "CER-NORM-MAPPING-PARSER-MISMATCH"
       ("mapping does not accept parser " +:+ pe_parser_id parsed +:+ " source_event_type "
        +:+ pe_source_event_type parsed) false) ;;?
  let? username := required_string parsed "username" in
  let? source_ip := required_string parsed "source_ip" in
  let? source_port := required_u16 parsed "source_port" in
  let? invalid_user := required_bool parsed "invalid_user" in
  let? message := required_string parsed "message" in
  let? '(event_time_millis, status, time_source) :=
    match etc_event_time event_time with
    | Some resolved_event_time =>
        let? millis := mapping_unix_millis resolved_event_time in
        Ok (millis, NormalizationStatus_Success, etc_source event_time)
    | None =>
        let? ingest_time := ok_or (rp_ingest_time persisted) missing_ingest_time in
        let? millis := mapping_unix_millis ingest_time in
        Ok (millis, NormalizationStatus_Partial, "ingest_time_fallback")
    end in
  let? ingest_time := ok_or (rp_ingest_time persisted) missing_ingest_time in
  let? ingest_time_millis := mapping_unix_millis ingest_time in
  let ocsf_event := ssh_ocsf_event message source_ip username source_port invalid_user event_time_millis
    (ssh_metadata ingest_time_millis normalized_at_unix_millis time_source) in
  let? ocsf_event :=
    match etc_assumption event_time with
    | Some assumption => json_set_in ocsf_event "metadata" "cerbero_time_assumption" (JString assumption)
    | None => Ok ocsf_event
    end in
  Ok (mkMappingOutput LINUX_SSH_AUTH_MAPPING_ID LINUX_SSH_AUTH_MAPPING_VERSION 3002 3 (Some 1%Z) (Some 2%Z)
        status ocsf_event).

Definition SshAuthenticationMapping : OcsfMapping :=
  mkOcsfMapping LINUX_SSH_AUTH_MAPPING_ID LINUX_SSH_AUTH_MAPPING_VERSION LINUX_SSHD_PARSER_ID ssh_map.

Definition mappings_with_defaults : MappingRegistry := register_mapping [] SshAuthenticationMapping.
