(* ===== verification/RetryState.v ===== *)
(** * Retry lifecycles of the normalizer

    crates/cerbero-normalizer/src/retry_state.rs: the failure and state records,
    their validation, and [advance_retry_state], the reference transition of a
    retry lifecycle.  Times are nanoseconds since the Unix epoch. *)

From S2P Require Import Prelude RustStd ContractTypes Validation SignalContract.

Record NormalizerError := mkNormalizerError {
  nz_code : string;
  nz_message : string;
  nz_retryable : bool;
}.

Definition SystemTime : Type := Z.
Definition Uuid : Type := N.   (* 128 bits *)
Definition Uuid_is_nil (u : Uuid) : bool := (u =? 0)%N.

Record RetryFailure := mkRetryFailure {
  rf_consumer_name : string;
  rf_message_key : string;
  rf_message_id : option Uuid;
  rf_occurred_at : SystemTime;
  rf_retry_budget : Z;       (* u32 *)
  rf_delivery_attempt : Z;   (* i64 *)
  rf_error_code : string;
  rf_error_message : string;
  rf_error_retryable : bool;
  rf_next_retry_at : SystemTime;
}.

Record RetryState := mkRetryState {
  ry_consumer_name : string;
  ry_message_key : string;
  ry_message_id : option Uuid;
  ry_first_failure_at : SystemTime;
  ry_last_failure_at : SystemTime;
  ry_failure_count : Z;          (* u32 *)
  ry_retry_budget : Z;           (* u32 *)
  ry_last_delivery_attempt : Z;  (* i64 *)
  ry_last_error_code : string;
  ry_last_error_message : string;
  ry_last_error_retryable : bool;
  ry_next_retry_at : option SystemTime;
}.

Definition exhausted (s : RetryState) : bool := (ry_retry_budget s <=? ry_failure_count s)%Z.
Definition isolation_required (s : RetryState) : bool := exhausted s || negb (ry_last_error_retryable s).

Definition retry_state_error (message : string) : NormalizerError :=
  mkNormalizerError "CER-NORM-RETRY-STATE" message false.

Definition validate_key (consumer_name message_key : string) : result unit NormalizerError :=
  reject_if (is_empty (trim consumer_name)) (retry_state_error "retry consumer name is required") ;;?
  reject_if (is_empty (trim message_key)) (retry_state_error "retry message key is required") ;;?
  reject_if (256 <? str_len message_key)%nat (retry_state_error "retry message key exceeds 256 bytes").

Definition is_some_and {A} (o : option A) (p : A -> bool) : bool :=
  match o with Some a => p a | None => false end.

Definition validate_failure (failure : RetryFailure) : result unit NormalizerError :=
  validate_key (rf_consumer_name failure) (rf_message_key failure) ;;?
  reject_if (is_some_and (rf_message_id failure) Uuid_is_nil)
    (retry_state_error "retry message_id must not be the nil UUID when present") ;;?
  reject_if (rf_retry_budget failure =? 0)%Z (retry_state_error "retry budget must be greater than zero") ;;?
  reject_if (rf_delivery_attempt failure <? 1)%Z
    (retry_state_error "delivery attempt must be greater than zero") ;;?
  reject_if (is_empty (trim (rf_error_code failure))) (retry_state_error "retry error code is required") ;;?
  reject_if (rf_next_retry_at failure <? rf_occurred_at failure)%Z
    (retry_state_error "next retry time must not precede failure time").

Definition validate_state (state : RetryState) : result unit NormalizerError :=
  validate_key (ry_consumer_name state) (ry_message_key state) ;;?
  reject_if (is_some_and (ry_message_id state) Uuid_is_nil)
    (retry_state_error "stored retry message_id must not be the nil UUID when present") ;;?
  reject_if (ry_failure_count state =? 0)%Z
    (retry_state_error "retry failure count must be greater than zero") ;;?
  reject_if (ry_retry_budget state =? 0)%Z (retry_state_error "retry budget must be greater than zero") ;;?
  reject_if (ry_retry_budget state <? ry_failure_count state)%Z
    (retry_state_error "retry failure count exceeds captured retry budget") ;;?
  reject_if (ry_last_delivery_attempt state <? 1)%Z
    (retry_state_error "delivery attempt must be greater than zero") ;;?
  reject_if (is_empty (trim (ry_last_error_code state))) (retry_state_error "retry error code is required") ;;?
  reject_if (ry_last_failure_at state <? ry_first_failure_at state)%Z
    (retry_state_error "last failure time must not precede first failure time") ;;?
  match isolation_required state, ry_next_retry_at state with
  | true, Some _ => Err (retry_state_error "isolating retry state must not have a next retry time")
  | false, None => Err (retry_state_error "active retry state requires a next retry time")
  | false, Some next_retry_at =>
      if (next_retry_at <? ry_last_failure_at state)%Z
      then Err (retry_state_error "next retry time must not precede last failure time") else Ok tt
  | true, None => Ok tt
  end.

Definition later (left right : SystemTime) : SystemTime := if (right <=? left)%Z then left else right.

(** The state after the first failure of a lifecycle *)
Definition first_state (failure : RetryFailure) : RetryState :=
  mkRetryState (rf_consumer_name failure) (rf_message_key failure) (rf_message_id failure)
    (rf_occurred_at failure) (rf_occurred_at failure) 1 (rf_retry_budget failure)
    (rf_delivery_attempt failure) (rf_error_code failure) (rf_error_message failure)
    (rf_error_retryable failure)
    (if rf_error_retryable failure && (1 <? rf_retry_budget failure)%Z
     then Some (rf_next_retry_at failure) else None).

(** The state after a further failure *)
Definition next_state (existing : RetryState) (failure : RetryFailure) (failure_count : Z) : RetryState :=
  let last_failure_at := later (ry_last_failure_at existing) (rf_occurred_at failure) in
  let isolation := negb (rf_error_retryable failure) || (ry_retry_budget existing <=? failure_count)%Z in
  mkRetryState (ry_consumer_name existing) (ry_message_key existing)
    (match ry_message_id existing with Some id => Some id | None => rf_message_id failure end)
    (ry_first_failure_at existing) last_failure_at failure_count (ry_retry_budget existing)
    (rf_delivery_attempt failure) (rf_error_code failure) (rf_error_message failure)
    (rf_error_retryable failure)
    (if isolation then None else Some (later last_failure_at (rf_next_retry_at failure))).

(** The guard [existing_id != failure_id], when both are present *)
Definition ids_conflict (existing : RetryState) (failure : RetryFailure) : bool :=
  match ry_message_id existing, rf_message_id failure with
  | Some existing_id, Some failure_id => negb (existing_id =? failure_id)%N
  | _, _ => false
  end.

(** [u32::saturating_add] *)
Definition u32_saturating_add (a b : Z) : Z := Z.min u32_max (a + b).

Definition advance_retry_state (existing : option RetryState) (failure : RetryFailure)
    : result RetryState NormalizerError :=
  validate_failure failure ;;?
  match existing with
  | Some existing =>
      validate_state existing ;;?
      reject_if (negb (String.eqb (ry_consumer_name existing) (rf_consumer_name failure))
                 || negb (String.eqb (ry_message_key existing) (rf_message_key failure)))
        (retry_state_error "retry failure key differs from existing lifecycle") ;;?
      reject_if (isolation_required existing)
        (retry_state_error "cannot record another processing failure after isolation became required") ;;?
      reject_if (ids_conflict existing failure)
        (retry_state_error "retry message_id changed within one delivery lifecycle") ;;?
      let failure_count := u32_saturating_add (ry_failure_count existing) 1 in
      reject_if (ry_retry_budget existing <? failure_count)%Z
        (retry_state_error "cannot record another processing failure after retry budget exhaustion") ;;?
      let state := next_state existing failure failure_count in
      validate_state state ;;?
      Ok state
  | None =>
      let state := first_state failure in
      validate_state state ;;?
      Ok state
  end.

(** ** What the validators accept *)

Definition key_ok (consumer_name message_key : string) : Prop :=
  has_text consumer_name /\ has_text message_key /\ str_len message_key <= 256.

Definition failure_ok (f : RetryFailure) : Prop :=
  key_ok (rf_consumer_name f) (rf_message_key f) /\ rf_message_id f <> Some 0%N /\
  rf_retry_budget f <> 0%Z /\ (1 <= rf_delivery_attempt f)%Z /\ has_text (rf_error_code f) /\
  (rf_occurred_at f <= rf_next_retry_at f)%Z.

(** A lifecycle waits for a retry, or it is to be isolated. *)
Definition schedule_ok (s : RetryState) : Prop :=
  if isolation_required s then ry_next_retry_at s = None
  else exists t, ry_next_retry_at s = Some t /\ (ry_last_failure_at s <= t)%Z.

Definition state_ok (s : RetryState) : Prop :=
  key_ok (ry_consumer_name s) (ry_message_key s) /\ ry_message_id s <> Some 0%N /\
  ry_failure_count s <> 0%Z /\ ry_retry_budget s <> 0%Z /\ (ry_failure_count s <= ry_retry_budget s)%Z /\
  (1 <= ry_last_delivery_attempt s)%Z /\ has_text (ry_last_error_code s) /\
  (ry_first_failure_at s <= ry_last_failure_at s)%Z /\ schedule_ok s.

(** The ranges of the Rust types *)
Definition failure_typed (f : RetryFailure) : Prop := in_u32 (rf_retry_budget f) = true.
Definition state_typed (s : RetryState) : Prop :=
  in_u32 (ry_failure_count s) = true /\ in_u32 (ry_retry_budget s) = true.

Lemma validate_key_ok_iff c k : validate_key c k = Ok tt <-> key_ok c k.
Proof. unfold validate_key, key_ok. ok_iff. by rewrite Nat.ltb_ge. Qed.

Lemma not_nil_iff (o : option Uuid) : is_some_and o Uuid_is_nil = false <-> o <> Some 0%N.
Proof.
  destruct o as [u|]; simpl; [|naive_solver]. unfold Uuid_is_nil. rewrite N.eqb_neq. naive_solver.
Qed.

Lemma validate_failure_ok_iff f : validate_failure f = Ok tt <-> failure_ok f.
Proof.
  unfold validate_failure, failure_ok. ok_iff.
  by rewrite validate_key_ok_iff, not_nil_iff, Z.eqb_neq, !Z.ltb_ge.
Qed.

Lemma validate_state_ok_iff s : validate_state s = Ok tt <-> state_ok s.
Proof.
  unfold validate_state, state_ok, schedule_ok. ok_iff.
  rewrite validate_key_ok_iff, not_nil_iff, !Z.eqb_neq, !Z.ltb_ge.
  do 8 apply and_iff_compat_l. destruct (isolation_required s), (ry_next_retry_at s) as [t|]; try naive_solver.
  destruct (Z.ltb_spec t (ry_last_failure_at s)); split; [done|intros (? & [= <-] & ?); lia|eauto|done].
Qed.

Lemma later_max a b : later a b = Z.max a b.
Proof. unfold later. destruct (Z.leb_spec b a); lia. Qed.

(** ** The transition *)

Lemma first_state_ok f : failure_ok f -> failure_typed f -> state_ok (first_state f).
Proof.
  intros (? & ? & ? & ? & ? & ?) [? ?]%in_range_spec. unfold state_ok, schedule_ok, isolation_required, exhausted.
  simpl. split_and!; try done; try lia.
  destruct (Z.leb_spec (rf_retry_budget f) 1), (Z.ltb_spec 1 (rf_retry_budget f)), (rf_error_retryable f);
    simpl; try done; try lia. eauto.
Qed.

Lemma next_state_ok s f :
  state_ok s -> state_typed s -> isolation_required s = false -> failure_ok f ->
  state_ok (next_state s f (ry_failure_count s + 1)).
Proof.
  intros (Hk & Hid & Hc & Hb & Hle & Ha & Hcode & Ht & _) [[? _]%in_range_spec _] Hiso
    (Hfk & Hfid & _ & Hfa & Hfc & Hft).
  unfold isolation_required, exhausted in Hiso. apply orb_false_iff in Hiso as [Hex%Z.leb_gt _].
  unfold state_ok, schedule_ok, isolation_required, exhausted, next_state. simpl. rewrite !later_max.
  split_and!; try done; try lia.
  - by destruct (ry_message_id s).
  - destruct (ry_retry_budget s <=? ry_failure_count s + 1)%Z, (rf_error_retryable f); simpl; try done.
    eexists. split; [done|]. lia.
Qed.

Definition same_lifecycle (s : RetryState) (f : RetryFailure) : Prop :=
  ry_consumer_name s = rf_consumer_name f /\ ry_message_key s = rf_message_key f.

Lemma advance_first f :
  failure_ok f -> failure_typed f -> advance_retry_state None f = Ok (first_state f).
Proof.
  intros Hf Ht. unfold advance_retry_state. pose proof (first_state_ok f Hf Ht) as Hs.
  apply validate_failure_ok_iff in Hf. apply validate_state_ok_iff in Hs. by rewrite Hf, Hs.
Qed.

Lemma active_count s :
  state_typed s -> isolation_required s = false ->
  u32_saturating_add (ry_failure_count s) 1 = (ry_failure_count s + 1)%Z /\
  (ry_failure_count s + 1 <= ry_retry_budget s)%Z.
Proof.
  unfold state_typed, in_u32. rewrite !in_range_spec.
  intros [_ [_ Hb]] [Hex%Z.leb_gt _]%orb_false_iff. unfold u32_saturating_add. lia.
Qed.

Lemma advance_next s f :
  failure_ok f -> state_ok s -> state_typed s -> same_lifecycle s f ->
  advance_retry_state (Some s) f =
    if isolation_required s
    then Err (retry_state_error "cannot record another processing failure after isolation became required")
    else if ids_conflict s f
    then Err (retry_state_error "retry message_id changed within one delivery lifecycle")
    else Ok (next_state s f (ry_failure_count s + 1)).
Proof.
  intros Hf Hs Hty [Hc Hk]. unfold advance_retry_state. pose proof (proj2 (validate_failure_ok_iff f) Hf) as ->.
  pose proof (proj2 (validate_state_ok_iff s) Hs) as ->. rewrite Hc, Hk, !String.eqb_refl. simpl.
  destruct (isolation_required s) eqn:Hiso; simpl; [done|]. destruct (ids_conflict s f); simpl; [done|].
  destruct (active_count s Hty Hiso) as [-> Hle]. apply Z.ltb_ge in Hle as ->. simpl.
  by rewrite (proj2 (validate_state_ok_iff _) (next_state_ok s f Hs Hty Hiso Hf)).
Qed.
