(* ===== verification/Metrics.v ===== *)
(** * Metrics of the normalizer

    crates/cerbero-normalizer/src/metrics.rs: the in-memory recorder.  Its
    counters are atomics and its maps are behind mutexes; each recording is a
    sequence of updates to distinct counters, so the model applies it at once.
    The theorem compares the recorder with the log of what was recorded. *)

From S2P Require Import Prelude RustStd.

Inductive ParseMetricStatus : Type :=
| ParseMetric_Success | ParseMetric_Partial | ParseMetric_Failed | ParseMetric_Unsupported.

Inductive NormalizationMetricStatus : Type :=
| NormalizationMetric_Success | NormalizationMetric_Partial | NormalizationMetric_Failed.

#[export] Instance ParseMetricStatus_eq_dec : EqDecision ParseMetricStatus.
Proof. solve_decision. Defined.
#[export] Instance NormalizationMetricStatus_eq_dec : EqDecision NormalizationMetricStatus.
Proof. solve_decision. Defined.

(** [std::time::Duration], in nanoseconds *)
Definition Duration : Type := Z.

Definition u64_saturating_add (a b : Z) : Z := Z.min u64_max (a + b).

Definition duration_nanoseconds (value : Duration) : Z := default u64_max (try_from in_u64 value).

(** The counters; [MetricsSnapshot] has the same fields, without the atomics and locks *)
Record MemoryNormalizerMetrics := mkMemoryNormalizerMetrics {
  events_parsed_total : Z;
  events_normalized_total : Z;
  parse_success_total : Z;
  parse_partial_total : Z;
  parse_failed_total : Z;
  parse_unsupported_total : Z;
  normalization_success_total : Z;
  normalization_partial_total : Z;
  normalization_failed_total : Z;
  parser_latency_observations : Z;
  parser_latency_total_nanoseconds : Z;
  normalization_latency_observations : Z;
  normalization_latency_total_nanoseconds : Z;
  dlq_normalization_total : Z;
  parser_by_id : BTreeMap string Z;
  mapping_by_id : BTreeMap string Z;
}.

Definition metrics_default : MemoryNormalizerMetrics :=
  mkMemoryNormalizerMetrics 0 0 0 0 0 0 0 0 0 0 0 0 0 0 [] [].

Definition MetricsSnapshot : Type := MemoryNormalizerMetrics.

(** [MemoryNormalizerMetrics::snapshot], while nothing is recorded *)
Definition metrics_snapshot (m : MemoryNormalizerMetrics) : MetricsSnapshot :=
  mkMemoryNormalizerMetrics (events_parsed_total m) (events_normalized_total m) (parse_success_total m)
    (parse_partial_total m) (parse_failed_total m) (parse_unsupported_total m) (normalization_success_total m)
    (normalization_partial_total m) (normalization_failed_total m) (parser_latency_observations m)
    (parser_latency_total_nanoseconds m) (normalization_latency_observations m)
    (normalization_latency_total_nanoseconds m) (dlq_normalization_total m) (parser_by_id m) (mapping_by_id m).

Definition saturating_increment (counter value : Z) : Z := u64_saturating_add counter value.

(** An increment in one arm of a [match] *)
Definition increment_if (c : bool) (counter : Z) : Z := if c then saturating_increment counter 1 else counter.

Definition increment_map (map : BTreeMap string Z) (key : string) : BTreeMap string Z :=
  bt_upsert key (fun entry => u64_saturating_add (default 0%Z entry) 1) map.

Definition increment_some (map : BTreeMap string Z) (key : option string) : BTreeMap string Z :=
  match key with Some key => increment_map map key | None => map end.

Definition record_parse (m : MemoryNormalizerMetrics) (status : ParseMetricStatus)
    (parser_id : option string) (latency : Duration) : MemoryNormalizerMetrics :=
  mkMemoryNormalizerMetrics
    (saturating_increment (events_parsed_total m) 1)
    (events_normalized_total m)
    (increment_if (bool_decide (status = ParseMetric_Success)) (parse_success_total m))
    (increment_if (bool_decide (status = ParseMetric_Partial)) (parse_partial_total m))
    (increment_if (bool_decide (status = ParseMetric_Failed)) (parse_failed_total m))
    (increment_if (bool_decide (status = ParseMetric_Unsupported)) (parse_unsupported_total m))
    (normalization_success_total m)
    (normalization_partial_total m)
    (normalization_failed_total m)
    (saturating_increment (parser_latency_observations m) 1)
    (saturating_increment (parser_latency_total_nanoseconds m) (duration_nanoseconds latency))
    (normalization_latency_observations m)
    (normalization_latency_total_nanoseconds m)
    (dlq_normalization_total m)
    (increment_some (parser_by_id m) parser_id)
    (mapping_by_id m).

Definition record_normalization (m : MemoryNormalizerMetrics) (status : NormalizationMetricStatus)
    (mapping_id : option string) (latency : Duration) : MemoryNormalizerMetrics :=
  mkMemoryNormalizerMetrics
    (events_parsed_total m)
    (increment_if (bool_decide (status <> NormalizationMetric_Failed)) (events_normalized_total m))
    (parse_success_total m)
    (parse_partial_total m)
    (parse_failed_total m)
    (parse_unsupported_total m)
    (increment_if (bool_decide (status = NormalizationMetric_Success)) (normalization_success_total m))
    (increment_if (bool_decide (status = NormalizationMetric_Partial)) (normalization_partial_total m))
    (increment_if (bool_decide (status = NormalizationMetric_Failed)) (normalization_failed_total m))
    (parser_latency_observations m)
    (parser_latency_total_nanoseconds m)
    (saturating_increment (normalization_latency_observations m) 1)
    (saturating_increment (normalization_latency_total_nanoseconds m) (duration_nanoseconds latency))
    (dlq_normalization_total m)
    (parser_by_id m)
    (increment_some (mapping_by_id m) mapping_id).

Definition record_dlq (m : MemoryNormalizerMetrics) : MemoryNormalizerMetrics :=
  mkMemoryNormalizerMetrics
    (events_parsed_total m) (events_normalized_total m) (parse_success_total m)
    (parse_partial_total m) (parse_failed_total m) (parse_unsupported_total m)
    (normalization_success_total m) (normalization_partial_total m) (normalization_failed_total m)
    (parser_latency_observations m) (parser_latency_total_nanoseconds m)
    (normalization_latency_observations m) (normalization_latency_total_nanoseconds m)
    (saturating_increment (dlq_normalization_total m) 1) (parser_by_id m) (mapping_by_id m).

(** ** The log of recordings *)

Inductive Recording : Type :=
| RecordedParse (status : ParseMetricStatus) (parser_id : option string) (latency : Duration)
| RecordedNormalization (status : NormalizationMetricStatus) (mapping_id : option string) (latency : Duration)
| RecordedDlq.

Definition record (m : MemoryNormalizerMetrics) (r : Recording) : MemoryNormalizerMetrics :=
  match r with
  | RecordedParse status id latency => record_parse m status id latency
  | RecordedNormalization status id latency => record_normalization m status id latency
  | RecordedDlq => record_dlq m
  end.

Definition recorded (log : list Recording) : MemoryNormalizerMetrics := foldl record metrics_default log.

(** What one recording adds to a counter *)
Definition one_if (c : bool) : Z := if c then 1 else 0.
Definition is_parse (p : ParseMetricStatus -> bool) (r : Recording) : Z :=
  match r with RecordedParse status _ _ => one_if (p status) | _ => 0 end.
Definition is_normalization (p : NormalizationMetricStatus -> bool) (r : Recording) : Z :=
  match r with RecordedNormalization status _ _ => one_if (p status) | _ => 0 end.
Definition is_dlq (r : Recording) : Z := match r with RecordedDlq => 1 | _ => 0 end.
Definition parse_time (r : Recording) : Z :=
  match r with RecordedParse _ _ latency => duration_nanoseconds latency | _ => 0 end.
Definition normalization_time (r : Recording) : Z :=
  match r with RecordedNormalization _ _ latency => duration_nanoseconds latency | _ => 0 end.
Definition parse_named (id : string) (r : Recording) : Z :=
  match r with RecordedParse _ name _ => one_if (bool_decide (name = Some id)) | _ => 0 end.
Definition mapping_named (id : string) (r : Recording) : Z :=
  match r with RecordedNormalization _ name _ => one_if (bool_decide (name = Some id)) | _ => 0 end.

Definition total (f : Recording -> Z) (log : list Recording) : Z := foldl (fun n r => n + f r)%Z 0%Z log.
(** The total, held at the largest [u64] *)
Definition tally (f : Recording -> Z) (log : list Recording) : Z := Z.min u64_max (total f log).

Lemma total_snoc f log r : total f (log ++ [r]) = (total f log + f r)%Z.
Proof. unfold total. by rewrite foldl_app. Qed.

Lemma total_nonneg f log : (forall r, 0 <= f r)%Z -> (0 <= total f log)%Z.
Proof.
  intros Hf. induction log as [|r log IH] using rev_ind; [done|]. rewrite total_snoc. pose proof (Hf r). lia.
Qed.

Lemma tally_snoc f log r :
  (forall r, 0 <= f r)%Z -> tally f (log ++ [r]) = u64_saturating_add (tally f log) (f r).
Proof.
  intros Hf. unfold tally, u64_saturating_add. rewrite total_snoc. pose proof (Hf r).
  pose proof (total_nonneg f log Hf). lia.
Qed.

Lemma tally_skip f log : (forall r, 0 <= f r)%Z -> u64_saturating_add (tally f log) 0 = tally f log.
Proof. intros Hf. pose proof (total_nonneg f log Hf). unfold tally, u64_saturating_add. lia. Qed.

Lemma duration_nanoseconds_nonneg d : (0 <= duration_nanoseconds d)%Z.
Proof.
  unfold duration_nanoseconds, try_from. destruct (in_u64 d) eqn:Hd; simpl; [|done].
  by apply in_range_spec in Hd as [? _].
Qed.

Definition by_id_exact (m : BTreeMap string Z) (f : string -> Recording -> Z) (log : list Recording) : Prop :=
  forall id, default 0%Z (bt_get id m) = tally (f id) log.

Definition exact (m : MemoryNormalizerMetrics) (log : list Recording) : Prop :=
  events_parsed_total m = tally (is_parse (fun _ => true)) log /\
  events_normalized_total m = tally (is_normalization (fun s => bool_decide (s <> NormalizationMetric_Failed))) log /\
  parse_success_total m = tally (is_parse (fun s => bool_decide (s = ParseMetric_Success))) log /\
  parse_partial_total m = tally (is_parse (fun s => bool_decide (s = ParseMetric_Partial))) log /\
  parse_failed_total m = tally (is_parse (fun s => bool_decide (s = ParseMetric_Failed))) log /\
  parse_unsupported_total m = tally (is_parse (fun s => bool_decide (s = ParseMetric_Unsupported))) log /\
  normalization_success_total m = tally (is_normalization (fun s => bool_decide (s = NormalizationMetric_Success))) log /\
  normalization_partial_total m = tally (is_normalization (fun s => bool_decide (s = NormalizationMetric_Partial))) log /\
  normalization_failed_total m = tally (is_normalization (fun s => bool_decide (s = NormalizationMetric_Failed))) log /\
  parser_latency_observations m = tally (is_parse (fun _ => true)) log /\
  parser_latency_total_nanoseconds m = tally parse_time log /\
  normalization_latency_observations m = tally (is_normalization (fun _ => true)) log /\
  normalization_latency_total_nanoseconds m = tally normalization_time log /\
  dlq_normalization_total m = tally is_dlq log /\
  by_id_exact (parser_by_id m) parse_named log /\
  by_id_exact (mapping_by_id m) mapping_named log.

Definition maps_sorted (m : MemoryNormalizerMetrics) : Prop :=
  bt_sorted (parser_by_id m) /\ bt_sorted (mapping_by_id m).

Lemma increment_some_sorted m key : bt_sorted m -> bt_sorted (increment_some m key).
Proof. destruct key; [apply bt_upsert_sorted|done]. Qed.

(** An update of one name adds one to that name and leaves the others. *)
Lemma increment_some_exact m key f log r :
  bt_sorted m -> (forall id r, 0 <= f id r)%Z ->
  (forall id, f id r = one_if (bool_decide (key = Some id))) ->
  by_id_exact m f log -> by_id_exact (increment_some m key) f (log ++ [r]).
Proof.
  intros Hs Hf Hr Hm id. rewrite tally_snoc, Hr by apply Hf. destruct key as [key|]; simpl.
  - unfold increment_map. case_bool_decide as Heq; simplify_eq.
    + by rewrite bt_get_upsert_eq, Hm.
    + rewrite bt_get_upsert_ne, Hm by (done || congruence). by rewrite tally_skip by apply Hf.
  - by rewrite Hm, tally_skip by apply Hf.
Qed.

Lemma skip_exact m f log r :
  (forall id r, 0 <= f id r)%Z -> (forall id, f id r = 0%Z) ->
  by_id_exact m f log -> by_id_exact m f (log ++ [r]).
Proof. intros Hf Hr Hm id. by rewrite tally_snoc, Hr, tally_skip by apply Hf. Qed.

Lemma increment_if_tally c f log r :
  (forall r, 0 <= f r)%Z -> f r = one_if c -> increment_if c (tally f log) = tally f (log ++ [r]).
Proof. intros Hf Hr. rewrite tally_snoc, Hr by done. destruct c; [done|by rewrite tally_skip]. Qed.

Lemma increment_tally f log r v :
  (forall r, 0 <= f r)%Z -> f r = v -> saturating_increment (tally f log) v = tally f (log ++ [r]).
Proof. intros Hf <-. by rewrite tally_snoc. Qed.

Lemma keep_tally f log r : (forall r, 0 <= f r)%Z -> f r = 0%Z -> tally f log = tally f (log ++ [r]).
Proof. intros Hf Hr. by rewrite tally_snoc, Hr, tally_skip. Qed.

Lemma one_if_nonneg c : (0 <= one_if c)%Z.
Proof. by destruct c. Qed.

Create HintDb metrics.
#[export] Hint Resolve one_if_nonneg duration_nanoseconds_nonneg : metrics.
Ltac counted :=
  intros; repeat match goal with r : Recording |- _ => destruct r end; simpl; auto with metrics; try done.

Lemma record_exact m log r :
  maps_sorted m -> exact m log -> exact (record m r) (log ++ [r]).
Proof.
  intros [Hp Hn] (E1 & E2 & E3 & E4 & E5 & E6 & E7 & E8 & E9 & E10 & E11 & E12 & E13 & E14 & Hpi & Hmi).
  unfold exact. destruct r; simpl; rewrite ?E1, ?E2, ?E3, ?E4, ?E5, ?E6, ?E7, ?E8, ?E9, ?E10, ?E11, ?E12, ?E13, ?E14;
    split_and!;
    first [ apply increment_some_exact | apply skip_exact | apply increment_if_tally | apply increment_tally
          | apply keep_tally ]; counted.
Qed.

Lemma record_sorted m r : maps_sorted m -> maps_sorted (record m r).
Proof. intros []. destruct r; split; simpl; auto using increment_some_sorted. Qed.

Lemma recorded_sorted log : maps_sorted (recorded log).
Proof.
  induction log as [|r log IH] using rev_ind; [split; constructor|].
  unfold recorded. rewrite foldl_app. by apply record_sorted.
Qed.

(** Whatever is recorded, every counter and every per-id count of the
    metrics snapshot is the exact number (or the exact total of nanoseconds) of
    the recordings it is named after, held at [u64::MAX] once it is reached:
    nothing is lost, counted twice or wrapped around. *)
Theorem metrics_count_recordings log : exact (recorded log) log.
Proof.
  induction log as [|r log IH] using rev_ind; [by split_and!|].
  unfold recorded. rewrite foldl_app. apply record_exact; [apply recorded_sorted|done].
Qed.
