(* ===== verification/NormalizerWorld.v ===== *)
(** * The world of the normalizer runtime

    What the runtime of crates/cerbero-normalizer reads and writes outside its
    own memory: the retry table (migrations/postgres/000003), the metrics, and
    the effects on NATS and ClickHouse in the order they took place.  The
    [Outside] decides at every step how an exchange ends, and whether an
    exchange that reports an error took effect: the theorems hold for each. *)

From S2P Require Import Prelude RustStd ContractTypes Validation Effects RetryState Metrics.

(** ** The retry table *)

(** A row of [system.normalizer_retry_state], without [updated_at], which
    nothing reads.  [uuid] columns hold the lowercase text, times are as
    [timestamptz] holds them. *)
Record RetryRow := mkRetryRow {
  rr_consumer_name : string;
  rr_message_key : string;
  rr_message_id : option string;
  rr_first_failure_at : SystemTime;
  rr_last_failure_at : SystemTime;
  rr_failure_count : Z;          (* bigint *)
  rr_retry_budget : Z;           (* bigint *)
  rr_last_delivery_attempt : Z;  (* bigint *)
  rr_last_error_code : string;
  rr_last_error_message : string;
  rr_last_error_retryable : bool;
  rr_next_retry_at : option SystemTime;
}.

(** ** Messages *)

(** [async_nats::HeaderMap]: [insert] replaces *)
Definition HeaderMap : Type := list (string * string).
Definition header_insert (name value : string) (headers : HeaderMap) : HeaderMap :=
  List.filter (fun h => negb (String.eqb h.1 name)) headers ++ [(name, value)].
Definition header_get (name : string) (headers : HeaderMap) : option string :=
  snd <$> List.find (fun h => String.eqb h.1 name) headers.

(** What [Message::info] parses from the reply subject *)
Record MessageInfo := mkMessageInfo {
  mi_stream_sequence : Z;      (* u64 *)
  mi_consumer_sequence : Z;    (* u64 *)
  mi_delivered : Z;            (* i64 *)
}.

(** [async_nats::jetstream::Message] *)
Record Message := mkMessage {
  msg_subject : string;
  msg_headers : option HeaderMap;
  msg_payload : list ascii;
  msg_info : option MessageInfo;   (* [message.info().ok()] *)
}.

Inductive AckKind : Type := Ack | Nak (delay : Duration) | Term.

Record PubAck := mkPubAck { pa_stream : string; pa_sequence : Z (* u64 *) }.

Record ClickHouseRequest := mkClickHouseRequest {
  cr_post : bool;
  cr_query : list (string * string);
  cr_body : list ascii;
}.

Record HttpReply := mkHttpReply { hr_status : Z (* u16 *); hr_body : result string string }.

Inductive DeliverPolicy : Set := DeliverAll | DeliverNew.

(** What took place outside, in order *)
Inductive Effect : Type :=
| RetryStored (consumer_name message_key : string)
| RetryCleared (consumer_name message_key : string)
| Published (subject : string) (headers : HeaderMap) (payload : list ascii) (ack : option PubAck)
| Requested (request : ClickHouseRequest)
| Settled (message : Message) (kind : AckKind)
| ConsumerReady (consumer_name filter_subject : string) (policy : DeliverPolicy)
| ConsumerDeleted (consumer_name : string).

Record NormalizerWorld := mkNormalizerWorld {
  nw_retries : list RetryRow;
  nw_metrics : MemoryNormalizerMetrics;
  nw_effects : list Effect;
  nw_step : nat;
}.

(** An exchange that fails may still have taken effect. *)
Class Outside := {
  retry_fault : nat -> option (string * bool);
  publish_reply : nat -> string -> PubAck + (string * bool);   (* by subject *)
  settle_fault : nat -> option (string * bool);
  http_reply : nat -> ClickHouseRequest -> HttpReply + (string * bool);
  connect_fault : nat -> option string;            (* connections and stream lookups *)
  consumer_fault : nat -> option (string * bool);
  system_time_now : nat -> SystemTime;
  elapsed_time : nat -> Duration;
  now_v7_text : nat -> string;
}.

Abbreviation norm := (io NormalizerWorld NormalizerError).

Definition step_world (w : NormalizerWorld) : NormalizerWorld :=
  mkNormalizerWorld (nw_retries w) (nw_metrics w) (nw_effects w) (S (nw_step w)).
Definition log_effect (e : Effect) (w : NormalizerWorld) : NormalizerWorld :=
  mkNormalizerWorld (nw_retries w) (nw_metrics w) (nw_effects w ++ [e]) (nw_step w).
Definition set_retries (rows : list RetryRow) (w : NormalizerWorld) : NormalizerWorld :=
  mkNormalizerWorld rows (nw_metrics w) (nw_effects w) (nw_step w).
Definition set_metrics (m : MemoryNormalizerMetrics) (w : NormalizerWorld) : NormalizerWorld :=
  mkNormalizerWorld (nw_retries w) m (nw_effects w) (nw_step w).

Section Exchanges.
Context `{Outside}.

Definition now : norm SystemTime := fun w => (Ok (system_time_now (nw_step w)), step_world w).
Definition elapsed : norm Duration := fun w => (Ok (elapsed_time (nw_step w)), step_world w).
Definition new_uuid_v7 : norm string := fun w => (Ok (now_v7_text (nw_step w)), step_world w).
Definition with_metrics (f : MemoryNormalizerMetrics -> MemoryNormalizerMetrics) : norm unit := fun w =>
  (Ok tt, set_metrics (f (nw_metrics w)) w).

(** [jetstream.publish_with_headers(..).await?.await?] *)
Definition publish_with_headers (subject : string) (headers : HeaderMap) (payload : list ascii)
    (transport_error : string -> NormalizerError) : norm PubAck := fun w =>
  match publish_reply (nw_step w) subject with
  | inl ack => (Ok ack, log_effect (Published subject headers payload (Some ack)) (step_world w))
  | inr (error, stored) =>
      (Err (transport_error error),
       if stored then log_effect (Published subject headers payload None) (step_world w) else step_world w)
  end.

(** [message.ack_with(kind)] and [message.double_ack()] *)
Definition settle (message : Message) (kind : AckKind) (ack_error : string -> NormalizerError) : norm unit :=
  fun w =>
  match settle_fault (nw_step w) with
  | None => (Ok tt, log_effect (Settled message kind) (step_world w))
  | Some (error, applied) =>
      (Err (ack_error error),
       if applied then log_effect (Settled message kind) (step_world w) else step_world w)
  end.

(** [connect(..)], [get_stream(..)] and [consumer.messages()] *)
Definition connect (connect_error : string -> NormalizerError) : norm unit := fun w =>
  match connect_fault (nw_step w) with
  | None => (Ok tt, step_world w)
  | Some error => (Err (connect_error error), step_world w)
  end.

(** [stream.get_or_create_consumer(..)] and [stream.delete_consumer(..)] *)
Definition change_consumer (change : Effect) (transport_error : string -> NormalizerError) : norm unit := fun w =>
  match consumer_fault (nw_step w) with
  | None => (Ok tt, log_effect change (step_world w))
  | Some (error, applied) =>
      (Err (transport_error error), if applied then log_effect change (step_world w) else step_world w)
  end.

(** [client.get/post(..).send().await] *)
Definition send_http (request : ClickHouseRequest) (transport : string -> NormalizerError) : norm HttpReply :=
  fun w =>
  match http_reply (nw_step w) request with
  | inl reply => (Ok reply, log_effect (Requested request) (step_world w))
  | inr (error, received) =>
      (Err (transport error),
       if received then log_effect (Requested request) (step_world w) else step_world w)
  end.

End Exchanges.
