(* ===== verification/NormalizerCore.v ===== *)
(** * The normalization core

    crates/cerbero-normalizer/src/core.rs: from a persisted raw event and its
    bytes to a normalization plan: parsing, source time, mapping, hashes,
    identities, and the contracts of the results. *)

From S2P Require Import Prelude RustStd RustText ContractTypes Validation Effects CanonicalJson Parser ParserFormats SourceTime Mapping RetryState Metrics NormalizerWorld.

Definition core_invalid (message : string) : NormalizerError := mkNormalizerError "CER-NORM-INVALID" message false.

Definition from_parse (error : ParseError) : NormalizerError :=
  mkNormalizerError (pr_code error) (pr_message error) (pr_retryable error).
Definition from_mapping (error : MappingError) : NormalizerError :=
  mkNormalizerError (me_code error) (me_message error) (me_retryable error).
Definition from_source_time (error : SourceTimeError) : NormalizerError :=
  mkNormalizerError "CER-NORM-SOURCE-TIME-POLICY" (ste_message error) false.

(** ** Clocks, identifiers and metrics *)

(** [trait Clock] and [trait IdGenerator], as the calls they offer *)
Abbreviation Clock := (norm Timestamp).
Abbreviation IdGenerator := (norm string).

(** [SystemClock]; a [SystemTime] before the epoch is an error *)
Definition SystemClock `{Outside} : Clock :=
  let! time := now in
  if (time <? 0)%Z then
    io_lift (Err (mkNormalizerError "CER-NORM-CLOCK" "second time provided was later than self" true))
  else
    let! seconds := io_lift (ok_or (try_from in_i64 (time / 1000000000)%Z)
      (mkNormalizerError "CER-NORM-CLOCK" "system time seconds exceed i64" false)) in
    io_ret (mkTimestamp seconds (time mod 1000000000)%Z).

Definition FixedClock (timestamp : Timestamp) : Clock := io_ret timestamp.

Definition SystemIdGenerator `{Outside} : IdGenerator := new_uuid_v7.

(** [trait NormalizerMetrics]: the in-memory recorder, or none *)
Record MetricsSink := mkMetricsSink {
  sink_parse : ParseMetricStatus -> option string -> Duration -> norm unit;
  sink_normalization : NormalizationMetricStatus -> option string -> Duration -> norm unit;
  sink_dlq : norm unit;
}.

Definition NoopNormalizerMetrics : MetricsSink :=
  mkMetricsSink (fun _ _ _ => io_ret tt) (fun _ _ _ => io_ret tt) (io_ret tt).

Definition MemoryMetricsSink : MetricsSink :=
  mkMetricsSink
    (fun status id latency => with_metrics (fun m => record_parse m status id latency))
    (fun status id latency => with_metrics (fun m => record_normalization m status id latency))
    (with_metrics record_dlq).

(** ** Configuration and plans *)

Record NormalizerCoreConfig := mkNormalizerCoreConfig {
  nc_pipeline_version : string;
  nc_execution_mode : ExecutionMode;
}.

Record NormalizationPlan := mkNormalizationPlan {
  np_logical_key : string;
  np_resolved_event_time : option Timestamp;
  np_mapping_id : string;
  np_mapping_version : string;
  np_canonical_ocsf_json : list ascii;
  np_normalized_event : NormalizedEvent;
  np_transformation : Transformation;
}.

Record DerivationIdentity := mkDerivationIdentity {
  di_logical_key : string;
  di_parser_id : string;
  di_parser_version : string;
  di_mapping_id : string;
  di_mapping_version : string;
  di_ocsf_version : string;
  di_pipeline_version : string;
  di_configuration_hash : string;
  di_execution_mode : ExecutionMode;
}.

Record NormalizerCore := mkNormalizerCore {
  core_config : NormalizerCoreConfig;
  core_parsers : ParserRegistry;
  core_mappings : MappingRegistry;
  core_source_time_policies : SourceTimePolicyRegistry;
  core_metrics : MetricsSink;
  core_clock : Clock;
  core_ids : IdGenerator;
}.

Definition newline : string := String "010" "".

Section Core.
Context `{Sha256} `{JsonCodec} `{FormatCodec} `{DebugStr} `{TimeCrate} `{Outside}.

Definition new_with_linux_sshd_version (config : NormalizerCoreConfig) (linux_sshd_parser_version : string)
    (clock : Clock) (ids : IdGenerator) : result NormalizerCore NormalizerError :=
  reject_if (is_empty (nc_pipeline_version config)) (core_invalid "pipeline_version is required") ;;?
  reject_if (bool_decide (nc_execution_mode config = ExecutionMode_Unspecified))
    (core_invalid "execution_mode must be LIVE, REPLAY, or TEST") ;;?
  let? parsers := map_err from_parse (with_linux_sshd_version linux_sshd_parser_version) in
  Ok (mkNormalizerCore config parsers mappings_with_defaults [] NoopNormalizerMetrics clock ids).

Definition core_new (config : NormalizerCoreConfig) (clock : Clock) (ids : IdGenerator)
    : result NormalizerCore NormalizerError :=
  new_with_linux_sshd_version config LINUX_SSHD_PARSER_VERSION clock ids.

Definition set_source_time_policies (core : NormalizerCore) (policies : SourceTimePolicyRegistry) : NormalizerCore :=
  mkNormalizerCore (core_config core) (core_parsers core) (core_mappings core) policies (core_metrics core)
    (core_clock core) (core_ids core).

Definition set_core_metrics (core : NormalizerCore) (metrics : MetricsSink) : NormalizerCore :=
  mkNormalizerCore (core_config core) (core_parsers core) (core_mappings core) (core_source_time_policies core)
    metrics (core_clock core) (core_ids core).

(** ** Identities *)

Definition base_configuration_hash (config : NormalizerCoreConfig)
    (parser_id parser_version mapping_id mapping_version : string) : string :=
  sha256_lower_hex (str_bytes
    ("parser=" +:+ parser_id +:+ "@" +:+ parser_version +:+ newline
     +:+ "mapping=" +:+ mapping_id +:+ "@" +:+ mapping_version +:+ newline
     +:+ "ocsf=" +:+ OCSF_VERSION +:+ newline
     +:+ "pipeline=" +:+ nc_pipeline_version config +:+ newline
     +:+ "mode=" +:+ ExecutionMode_as_str_name (nc_execution_mode config) +:+ newline)).

Definition configuration_hash (config : NormalizerCoreConfig) : string :=
  base_configuration_hash config LINUX_SSHD_PARSER_ID LINUX_SSHD_PARSER_VERSION LINUX_SSH_AUTH_MAPPING_ID
    LINUX_SSH_AUTH_MAPPING_VERSION.

Definition configuration_hash_for (core : NormalizerCore) (persisted : RawEventPersisted)
    (parser_id parser_version mapping_id mapping_version : string) : string :=
  let base := base_configuration_hash (core_config core) parser_id parser_version mapping_id mapping_version in
  match rp_event_time persisted with
  | Some _ => base
  | None =>
      match policy_canonical (core_source_time_policies core) (rp_source_id persisted) with
      | None => base
      | Some policy =>
          sha256_lower_hex (str_bytes
            ("base_configuration=" +:+ base +:+ newline +:+ "source_time_policy=" +:+ policy +:+ newline))
      end
  end.

Definition logical_key_text (core : NormalizerCore) (persisted : RawEventPersisted)
    (parser_id parser_version mapping_id mapping_version configuration_hash : string) : string :=
  "raw_event_id=" +:+ rp_event_id persisted +:+ newline
  +:+ "parser=" +:+ parser_id +:+ "@" +:+ parser_version +:+ newline
  +:+ "mapping=" +:+ mapping_id +:+ "@" +:+ mapping_version +:+ newline
  +:+ "ocsf=" +:+ OCSF_VERSION +:+ newline
  +:+ "pipeline=" +:+ nc_pipeline_version (core_config core) +:+ newline
  +:+ "configuration=" +:+ configuration_hash +:+ newline
  +:+ "execution_mode=" +:+ ExecutionMode_as_str_name (nc_execution_mode (core_config core)) +:+ newline.

Definition logical_key_for (core : NormalizerCore) (persisted : RawEventPersisted)
    (parser_id parser_version mapping_id mapping_version : string) : string :=
  let configuration_hash := configuration_hash_for core persisted parser_id parser_version mapping_id mapping_version in
  sha256_lower_hex (str_bytes
    (logical_key_text core persisted parser_id parser_version mapping_id mapping_version configuration_hash)).

Definition logical_key (core : NormalizerCore) (persisted : RawEventPersisted) : string :=
  logical_key_for core persisted LINUX_SSHD_PARSER_ID LINUX_SSHD_PARSER_VERSION LINUX_SSH_AUTH_MAPPING_ID
    LINUX_SSH_AUTH_MAPPING_VERSION.

Definition validate_raw_bytes (persisted : RawEventPersisted) (raw : list ascii) : result unit NormalizerError :=
  let? length := ok_or (try_from in_u64 (zlen raw)) (core_invalid "raw byte length exceeds uint64") in
  reject_if (negb (length =? rp_raw_size persisted)%Z)
    (mkNormalizerError "CER-NORM-RAW-LENGTH" "Raw Store byte length does not match RawEventPersisted.raw_size" false) ;;?
  reject_if (negb (String.eqb (sha256_lower_hex raw) (rp_raw_hash persisted)))
    (mkNormalizerError "CER-NORM-RAW-HASH" "Raw Store SHA-256 does not match RawEventPersisted.raw_hash" false) ;;?
  Ok tt.

Definition validate_handoff (incoming : CerberoEnvelope) (persisted : RawEventPersisted)
    : result unit NormalizerError :=
  reject_if (negb (String.eqb (ce_message_type incoming) "RawEventPersisted"))
    (core_invalid "incoming message_type must be RawEventPersisted") ;;?
  reject_if (negb (String.eqb (ce_payload_schema incoming) "cerbero.raw_event_persisted.v1"))
    (core_invalid "incoming payload_schema must be cerbero.raw_event_persisted.v1") ;;?
  reject_if (negb (String.eqb (ce_tenant_id incoming) (rp_tenant_id persisted)))
    (core_invalid "envelope tenant_id differs from RawEventPersisted tenant_id") ;;?
  reject_if (negb (String.eqb (rp_raw_hash_algorithm persisted) "sha256"))
    (core_invalid "RawEventPersisted.raw_hash_algorithm must be sha256") ;;?
  Ok tt.

Definition parser_identity (core : NormalizerCore) (persisted : RawEventPersisted) (raw : list ascii)
    : result (string * string) NormalizerError :=
  let? selection := map_err from_parse (select (core_parsers core) (mkParserInput raw persisted None)) in
  Ok (parser_id (ps_parser selection), parser_version (ps_parser selection)).

Definition derivation_identity (core : NormalizerCore) (persisted : RawEventPersisted) (raw : list ascii)
    : result DerivationIdentity NormalizerError :=
  validate_raw_bytes persisted raw ;;?
  let? selection := map_err from_parse (select (core_parsers core) (mkParserInput raw persisted None)) in
  let parser := ps_parser selection in
  let? mapping := map_err from_mapping (for_parser (core_mappings core) (parser_id parser)) in
  let configuration_hash := configuration_hash_for core persisted (parser_id parser) (parser_version parser)
    (mapping_id mapping) (mapping_version mapping) in
  let logical_key := logical_key_for core persisted (parser_id parser) (parser_version parser)
    (mapping_id mapping) (mapping_version mapping) in
  Ok (mkDerivationIdentity logical_key (parser_id parser) (parser_version parser) (mapping_id mapping)
        (mapping_version mapping) OCSF_VERSION (nc_pipeline_version (core_config core)) configuration_hash
        (nc_execution_mode (core_config core))).

(** ** JSON to Protobuf *)

Fixpoint json_to_prost_value (value : Json) : result Value NormalizerError :=
  let? kind :=
    match value with
    | JNull => Ok (NullValue 0)
    | JBool value => Ok (BoolValue value)
    | JNumber value =>
        let? number := ok_or (number_as_f64 value)
          (core_invalid "OCSF JSON number cannot be represented as protobuf Struct number") in
        Ok (NumberValue number)
    | JString value => Ok (StringValue value)
    | JArray values =>
        let? values := map_m json_to_prost_value values in
        Ok (ListValue values)
    | JObject object =>
        let? fields := map_m (fun '(key, value) =>
            let? value := json_to_prost_value value in Ok (key, value)) object in
        Ok (StructValue (mkStruct (collect_map fields)))
    end in
  Ok (mkValue (Some kind)).

Definition json_to_prost_struct (value : Json) : result Struct NormalizerError :=
  match value with
  | JObject object =>
      let? fields := map_m (fun '(key, value) =>
          let? value := json_to_prost_value value in Ok (key, value)) object in
      Ok (mkStruct (collect_map fields))
  | _ => Err (core_invalid "OCSF event root must be a JSON object")
  end.

Definition core_unix_millis (timestamp : Timestamp) : result Z NormalizerError :=
  ok_or (checked_mul in_i64 (ts_seconds timestamp) 1000 ≫= fun value =>
         checked_add in_i64 value (Z.quot (ts_nanos timestamp) 1000000))
    (core_invalid "timestamp overflows milliseconds").

(** ** Normalization *)

Definition build_normalization_plan (core : NormalizerCore) (persisted : RawEventPersisted) (parsed : ParsedEvent)
    : norm NormalizationPlan :=
  let! mapping := io_lift (map_err from_mapping (for_parser (core_mappings core) (pe_parser_id parsed))) in
  let! event_time := io_lift (map_err from_source_time (resolve (core_source_time_policies core) persisted parsed)) in
  let! normalized_at := core_clock core in
  let! normalized_at_millis := io_lift (core_unix_millis normalized_at) in
  let! mapped := io_lift (map_err from_mapping
    (mapping_map mapping parsed persisted event_time normalized_at_millis)) in
  let canonical_ocsf_json := canonical_json_bytes (mo_ocsf_event mapped) in
  let normalized_hash := canonical_json_hash (mo_ocsf_event mapped) in
  let configuration_hash := configuration_hash_for core persisted (pe_parser_id parsed) (pe_parser_version parsed)
    (mo_mapping_id mapped) (mo_mapping_version mapped) in
  let logical_key := logical_key_for core persisted (pe_parser_id parsed) (pe_parser_version parsed)
    (mo_mapping_id mapped) (mo_mapping_version mapped) in
  let! normalized_event_id := core_ids core in
  let! transformation_id := core_ids core in
  let! ocsf_event := io_lift (json_to_prost_struct (mo_ocsf_event mapped)) in
  let normalized_event :=
    mkNormalizedEvent normalized_event_id (rp_event_id persisted) (rp_tenant_id persisted) (Some normalized_at)
      OCSF_VERSION (mo_class_uid mapped) (mo_category_uid mapped) (mo_severity mapped) (mo_activity_id mapped)
      (Some ocsf_event) (pe_parser_id parsed) (pe_parser_version parsed)
      (NormalizationStatus_as_i32 (mo_status mapped)) "sha256" normalized_hash
      (nc_pipeline_version (core_config core)) in
  io_lift (map_err (fun error =>
      mkNormalizerError "CER-NORM-CONTRACT" (ContractViolation_display error) false)
    (validate_normalized_event normalized_event)) ;;!
  let transformation :=
    mkTransformation transformation_id (rp_event_id persisted) "RawEvent" normalized_event_id "NormalizedEvent"
      ("cerbero-normalizer:" +:+ mo_mapping_id mapped) (mo_mapping_version mapped) configuration_hash
      (Some normalized_at) (Some normalized_at) 1 None
      (ExecutionMode_as_i32 (nc_execution_mode (core_config core))) in
  io_lift (map_err (fun error =>
      mkNormalizerError "CER-NORM-TRANSFORMATION-CONTRACT" (ContractViolation_display error) false)
    (validate_transformation transformation)) ;;!
  io_ret (mkNormalizationPlan logical_key (etc_event_time event_time) (mo_mapping_id mapped)
            (mo_mapping_version mapped) canonical_ocsf_json normalized_event transformation).

Definition parse_metric_status (status : ParsingStatus) : ParseMetricStatus :=
  match status with
  | Parsing_Success => ParseMetric_Success
  | Parsing_Partial => ParseMetric_Partial
  | Parsing_Failed => ParseMetric_Failed
  | Parsing_Unsupported => ParseMetric_Unsupported
  end.

Definition normalization_metric_status (status : NormalizationStatus) : NormalizationMetricStatus :=
  match status with
  | NormalizationStatus_Success => NormalizationMetric_Success
  | NormalizationStatus_Partial => NormalizationMetric_Partial
  | NormalizationStatus_Failed | NormalizationStatus_Unspecified => NormalizationMetric_Failed
  end.

(** [let result = f(); ...; result]: the result as a value *)
Definition io_result {A} (m : norm A) : norm (result A NormalizerError) := fun w =>
  match m w with
  | (Panic p, w') => (Panic p, w')
  | (r, w') => (Ok r, w')
  end.

Definition normalize (core : NormalizerCore) (incoming : CerberoEnvelope) (persisted : RawEventPersisted)
    (raw : list ascii) : norm NormalizationPlan :=
  io_lift (validate_handoff incoming persisted) ;;!
  io_lift (validate_raw_bytes persisted raw) ;;!
  let! parsed :=
    match registry_parse (core_parsers core) (mkParserInput raw persisted None) with
    | Ok parsed =>
        let! latency := elapsed in
        sink_parse (core_metrics core) (parse_metric_status (pe_status parsed)) (Some (pe_parser_id parsed)) latency ;;!
        io_ret parsed
    | Err error =>
        let status := if String.eqb (pr_code error) "CER-PARSE-NO-MATCH"
                      then ParseMetric_Unsupported else ParseMetric_Failed in
        let! latency := elapsed in
        sink_parse (core_metrics core) status None latency ;;!
        io_lift (Err (from_parse error))
    | Panic p => io_lift (Panic p)
    end in
  let! result := io_result (build_normalization_plan core persisted parsed) in
  let! latency := elapsed in
  match result with
  | Ok plan =>
      let status := default NormalizationStatus_Unspecified
        (NormalizationStatus_try_from (ne_normalization_status (np_normalized_event plan))) in
      sink_normalization (core_metrics core) (normalization_metric_status status) (Some (np_mapping_id plan)) latency
  | _ => sink_normalization (core_metrics core) NormalizationMetric_Failed None latency
  end ;;!
  io_lift result.

End Core.
