(* ===== verification/RetryStoreSpec.v ===== *)
(** * The retry store implements the retry lifecycle

    The rows of the table are exactly the encodings of valid lifecycles, one per
    key, and recording a failure is [advance_retry_state] on the lifecycle of
    its key, at the precision of the database. *)

From S2P Require Import Prelude RustStd ContractTypes Validation SignalContract Effects RetryState Metrics NormalizerWorld Database RetryStore.

(** ** What the store needs of the codecs *)

Definition id_typed (id : option Uuid) : Prop := forall u, id = Some u -> (u < 2 ^ 128)%N.

Class RetryCodecLaws `{!RetryCodec} : Prop := {
  uuid_round_trip u : (u < 2 ^ 128)%N -> uuid_parse_str (sql_uuid (uuid_to_string u)) = Ok u;
  timestamptz_mono t1 t2 : (t1 <= t2)%Z -> (timestamptz t1 <= timestamptz t2)%Z;
}.

Section Spec.
Context `{!RetryCodec} `{!Outside} `{!RetryCodecLaws}.

(** The row of a lifecycle *)
Definition state_row (s : RetryState) : RetryRow :=
  mkRetryRow (ry_consumer_name s) (ry_message_key s)
    ((fun id => sql_uuid (uuid_to_string id)) <$> ry_message_id s)
    (ry_first_failure_at s) (ry_last_failure_at s) (ry_failure_count s) (ry_retry_budget s)
    (ry_last_delivery_attempt s) (ry_last_error_code s) (ry_last_error_message s)
    (ry_last_error_retryable s) (ry_next_retry_at s).

Definition lifecycle_ok (s : RetryState) : Prop := state_ok s /\ state_typed s /\ id_typed (ry_message_id s).

Definition row_key (row : RetryRow) : string * string := (rr_consumer_name row, rr_message_key row).

(** Every row is a valid lifecycle, and there is one per key. *)
Definition store_ok (rows : list RetryRow) : Prop :=
  NoDup (row_key <$> rows) /\ Forall (fun row => exists s, lifecycle_ok s /\ row = state_row s) rows.

(** The lifecycle a table holds for a key *)
Definition lifecycle (rows : list RetryRow) (consumer_name message_key : string) : option RetryState :=
  match List.find (has_key consumer_name message_key) rows with
  | Some row => match row_to_state row with Ok s => Some s | _ => None end
  | None => None
  end.

(** The failure at the precision of the database *)
Definition stored_failure (f : RetryFailure) : RetryFailure :=
  mkRetryFailure (rf_consumer_name f) (rf_message_key f) (rf_message_id f)
    (timestamptz (rf_occurred_at f)) (rf_retry_budget f) (rf_delivery_attempt f)
    (rf_error_code f) (rf_error_message f) (rf_error_retryable f) (timestamptz (rf_next_retry_at f)).

(** The failure under the message id its lifecycle began with *)
Definition under_lifecycle_id (existing : option RetryState) (f : RetryFailure) : RetryFailure :=
  match existing with
  | Some s => mkRetryFailure (rf_consumer_name f) (rf_message_key f)
      (match ry_message_id s with Some id => Some id | None => rf_message_id f end)
      (rf_occurred_at f) (rf_retry_budget f) (rf_delivery_attempt f)
      (rf_error_code f) (rf_error_message f) (rf_error_retryable f) (rf_next_retry_at f)
  | None => f
  end.

Definition text_storable (f : RetryFailure) : Prop :=
  Forall (fun s => contains_char zero s = false)
    [rf_consumer_name f; rf_message_key f; rf_error_code f; rf_error_message f].

(** ** Rows and lifecycles *)

Lemma row_to_state_row s : lifecycle_ok s -> row_to_state (state_row s) = Ok s.
Proof.
  intros (Hs%validate_state_ok_iff & [Hc Hb] & Hid). unfold row_to_state. simpl.
  assert (match (fun id => sql_uuid (uuid_to_string id)) <$> ry_message_id s with
          | None => Ok None
          | Some text =>
              let? id := map_err (fun error => retry_state_error ("stored retry message ID is invalid: " +:+ error))
                           (uuid_parse_str text) in Ok (Some id)
          end = Ok (ry_message_id s)) as ->.
  { destruct (ry_message_id s) as [u|] eqn:E; simpl; [|done]. by rewrite uuid_round_trip by auto. }
  unfold u32_from_bigint, try_from. rewrite Hc, Hb. simpl. destruct s; simpl in *. by rewrite Hs.
Qed.

Lemma has_text_char_length s : has_text s -> char_length_positive s = true.
Proof. unfold has_text, char_length_positive. by destruct s. Qed.

(** The constraints of the table admit every valid lifecycle. *)
Lemma row_check_ok s : lifecycle_ok s -> row_check (state_row s) = true.
Proof.
  intros (((Hc & Hk & Hl) & _ & Hn & Hb & Hle & Ha & He & Ht & Hsch) &
          [[? _]%in_range_spec [? _]%in_range_spec] & _).
  unfold row_check; simpl. rewrite !andb_true_iff, !has_text_char_length, !Z.leb_le, Nat.leb_le by done.
  unfold schedule_ok, isolation_required, exhausted in Hsch. split_and!; try done; try lia.
  - destruct (ry_next_retry_at s) as [t|]; [|done]. simpl. apply Z.leb_le.
    destruct (_ || _); [done|]. destruct Hsch as (? & [= <-] & ?). lia.
  - rewrite Z.ltb_antisym. destruct (ry_retry_budget s <=? ry_failure_count s)%Z, (ry_last_error_retryable s);
      simpl in *; try (by rewrite Hsch); destruct Hsch as (? & -> & _); done.
Qed.

Lemma has_key_iff c k row : has_key c k row = true <-> row_key row = (c, k).
Proof. unfold has_key, row_key. rewrite andb_true_iff, !String.eqb_eq. split; [by intros [-> ->]|by intros [= -> ->]]. Qed.

Lemma find_row_Some rows c k row :
  List.find (has_key c k) rows = Some row -> row ∈ rows /\ row_key row = (c, k).
Proof. intros [Hin Hk]%find_some. split; [by apply list_elem_of_In|by apply has_key_iff]. Qed.

Lemma find_row_None rows c k :
  List.find (has_key c k) rows = None <-> (c, k) ∉ row_key <$> rows.
Proof.
  split.
  - intros Hf (row & Hk & Hin)%list_elem_of_fmap. apply list_elem_of_In in Hin.
    pose proof (find_none _ _ Hf _ Hin) as Hn. symmetry in Hk. apply has_key_iff in Hk. congruence.
  - intros Hn. destruct (List.find (has_key c k) rows) as [row|] eqn:E; [|done].
    apply find_row_Some in E as [Hin Hk]. destruct Hn. rewrite <-Hk. by apply list_elem_of_fmap_2.
Qed.

(** The table holds a lifecycle, or none, for every key. *)
Lemma store_find rows c k :
  store_ok rows ->
  match List.find (has_key c k) rows with
  | Some row => exists s, lifecycle rows c k = Some s /\ row = state_row s /\ lifecycle_ok s /\
                          ry_consumer_name s = c /\ ry_message_key s = k
  | None => lifecycle rows c k = None
  end.
Proof.
  intros [_ Hok]. unfold lifecycle. destruct (List.find (has_key c k) rows) as [row|] eqn:E; [|done].
  apply find_row_Some in E as [Hin Hkey]. rewrite Forall_forall in Hok.
  destruct (Hok row Hin) as (s & Hs & ->). exists s. rewrite row_to_state_row by done.
  unfold row_key in Hkey. simpl in Hkey. by simplify_eq.
Qed.

(** ** Statements on rows are transitions on lifecycles *)

Lemma stored_failure_ok f : failure_ok f -> failure_ok (stored_failure f).
Proof. intros (? & ? & ? & ? & ? & ?). split_and!; try done. by apply timestamptz_mono. Qed.

Lemma excluded_row_state f : excluded_row f = state_row (first_state (stored_failure f)).
Proof.
  unfold excluded_row, state_row, first_state; simpl. f_equal.
  rewrite Z.ltb_antisym. by destruct (rf_error_retryable f), (rf_retry_budget f <=? 1)%Z.
Qed.

Lemma updated_row_state s f :
  updated_row (state_row s) (excluded_row f) (timestamptz (rf_next_retry_at f))
  = state_row (next_state s (stored_failure f) (ry_failure_count s + 1)).
Proof.
  unfold updated_row, state_row, next_state, greatest; simpl. rewrite !later_max. f_equal.
  by destruct (ry_message_id s).
Qed.

Lemma first_lifecycle_ok f :
  failure_ok f -> failure_typed f -> id_typed (rf_message_id f) ->
  lifecycle_ok (first_state (stored_failure f)).
Proof.
  intros Hf Ht Hid. split_and!; [by apply first_state_ok; [apply stored_failure_ok|]|split; [done|apply Ht]|done].
Qed.

Lemma next_lifecycle_ok s f :
  lifecycle_ok s -> isolation_required s = false -> failure_ok f -> id_typed (rf_message_id f) ->
  lifecycle_ok (next_state s (stored_failure f) (ry_failure_count s + 1)).
Proof.
  intros (Hs & Hty & Hid) Hiso Hf Hfid. split_and!.
  - by apply next_state_ok; [| | |apply stored_failure_ok].
  - destruct Hty as [Hc Hb]. split; [|done]. destruct (active_count s (conj Hc Hb) Hiso) as [_ Hle].
    unfold in_u32 in *. rewrite in_range_spec in *. simpl. lia.
  - simpl. by destruct (ry_message_id s).
Qed.

Lemma state_row_key s : row_key (state_row s) = (ry_consumer_name s, ry_message_key s).
Proof. done. Qed.

(** The table after an update of one key *)
Definition replace_row (c k : string) (row : RetryRow) (rows : list RetryRow) : list RetryRow :=
  (fun r => if has_key c k r then row else r) <$> rows.

Lemma replace_row_keys c k row rows :
  row_key row = (c, k) -> row_key <$> replace_row c k row rows = row_key <$> rows.
Proof.
  intros Hrow. unfold replace_row. rewrite <-list_fmap_compose. apply list_fmap_ext. intros i r _. simpl.
  destruct (has_key c k r) eqn:E; [|done]. apply has_key_iff in E. congruence.
Qed.

Lemma store_ok_replace c k s rows :
  store_ok rows -> lifecycle_ok s -> ry_consumer_name s = c -> ry_message_key s = k ->
  store_ok (replace_row c k (state_row s) rows).
Proof.
  intros [Hnd Hok] Hs Hc Hk. split; [by rewrite replace_row_keys by (rewrite state_row_key; congruence)|].
  apply Forall_fmap. eapply Forall_impl; [exact Hok|]. intros r Hr. simpl. destruct (has_key c k r); eauto.
Qed.

Lemma store_ok_snoc s rows :
  store_ok rows -> lifecycle_ok s -> row_key (state_row s) ∉ row_key <$> rows -> store_ok (rows ++ [state_row s]).
Proof.
  intros [Hnd Hok] Hs Hn. split.
  - rewrite fmap_app. apply NoDup_app. split_and!; [done| |apply NoDup_singleton].
    intros x Hx ->%list_elem_of_singleton. done.
  - apply Forall_app. split; [done|]. apply Forall_singleton. eauto.
Qed.

Lemma store_ok_filter p rows : store_ok rows -> store_ok (List.filter p rows).
Proof.
  intros [Hnd Hok]. induction rows as [|r rows IH]; simpl; [done|].
  rewrite fmap_cons, NoDup_cons in Hnd. destruct Hnd as [Hn Hnd]. apply Forall_cons in Hok as [Hr Hok].
  destruct (IH Hnd Hok) as [Hnd' Hok']. destruct (p r); [|by split].
  split; [|by constructor]. rewrite fmap_cons. apply NoDup_cons. split; [|done].
  intros (r' & Hk & [Hin _]%list_elem_of_In%filter_In)%list_elem_of_fmap.
  apply Hn. rewrite Hk. apply list_elem_of_fmap_2. by apply list_elem_of_In.
Qed.

Lemma store_ok_tail r rows : store_ok (r :: rows) -> store_ok rows.
Proof.
  intros [[_ ?]%NoDup_cons [_ ?]%Forall_cons]. by split.
Qed.

Lemma find_replace_row c k row rows c' k' :
  row_key row = (c, k) -> List.find (has_key c k) rows <> None ->
  List.find (has_key c' k') (replace_row c k row rows)
  = if bool_decide ((c', k') = (c, k)) then Some row else List.find (has_key c' k') rows.
Proof.
  intros Hrow. unfold replace_row. induction rows as [|r rows IH]; simpl; [done|].
  destruct (has_key c k r) eqn:E.
  - intros _. assert (has_key c' k' row = bool_decide ((c', k') = (c, k))) as ->.
    { apply eq_bool_prop_intro. rewrite bool_decide_spec, Is_true_true, has_key_iff. naive_solver congruence. }
    assert (has_key c' k' r = bool_decide ((c', k') = (c, k))) as ->.
    { apply eq_bool_prop_intro. apply has_key_iff in E.
      rewrite bool_decide_spec, Is_true_true, has_key_iff. naive_solver congruence. }
    case_bool_decide as Hck; [done|]. clear IH. induction rows as [|q rows IH]; [done|]. simpl.
    destruct (has_key c k q) eqn:Eq; [|by destruct (has_key c' k' q)].
    apply has_key_iff in Eq.
    assert (has_key c' k' row = false) as ->.
    { apply not_true_iff_false. rewrite has_key_iff. congruence. }
    assert (has_key c' k' q = false) as ->; [|done].
    apply not_true_iff_false. rewrite has_key_iff. congruence.
  - intros Hf. destruct (has_key c' k' r) eqn:E'; [|by apply IH].
    apply has_key_iff in E'. apply not_true_iff_false in E. rewrite has_key_iff in E.
    rewrite bool_decide_eq_false_2; [done|congruence].
Qed.

Lemma find_snoc_row rows row c k :
  row_key row ∉ row_key <$> rows ->
  List.find (has_key c k) (rows ++ [row])
  = if bool_decide ((c, k) = row_key row) then Some row else List.find (has_key c k) rows.
Proof.
  intros Hn. induction rows as [|r rows IH]; simpl.
  - destruct (has_key c k row) eqn:E.
    + apply has_key_iff in E. by rewrite bool_decide_eq_true_2.
    + apply not_true_iff_false in E. rewrite has_key_iff in E. by rewrite bool_decide_eq_false_2 by congruence.
  - rewrite fmap_cons, not_elem_of_cons in Hn. destruct Hn as [Hr Hn]. rewrite IH by done.
    destruct (has_key c k r) eqn:E; [|done]. apply has_key_iff in E. rewrite bool_decide_eq_false_2; congruence.
Qed.

(** The lifecycle of one key changes, the others stay. *)
Definition set_lifecycle (c k : string) (s : option RetryState) (rows rows' : list RetryRow) : Prop :=
  forall c' k', lifecycle rows' c' k' = if bool_decide ((c', k') = (c, k)) then s else lifecycle rows c' k'.

Lemma set_lifecycle_replace c k s rows :
  lifecycle_ok s -> ry_consumer_name s = c -> ry_message_key s = k ->
  List.find (has_key c k) rows <> None ->
  set_lifecycle c k (Some s) rows (replace_row c k (state_row s) rows).
Proof.
  intros Hs Hc Hk Hf c' k'. unfold lifecycle at 1.
  rewrite find_replace_row by (rewrite ?state_row_key; congruence).
  case_bool_decide; [by rewrite row_to_state_row|done].
Qed.

Lemma set_lifecycle_snoc c k s rows :
  lifecycle_ok s -> ry_consumer_name s = c -> ry_message_key s = k ->
  List.find (has_key c k) rows = None ->
  set_lifecycle c k (Some s) rows (rows ++ [state_row s]).
Proof.
  intros Hs Hc Hk Hf c' k'. apply find_row_None in Hf. unfold lifecycle at 1.
  rewrite find_snoc_row, state_row_key, Hc, Hk by (rewrite state_row_key; congruence).
  case_bool_decide; [by rewrite row_to_state_row|done].
Qed.

Lemma set_lifecycle_same rows c k : set_lifecycle c k (lifecycle rows c k) rows rows.
Proof. intros c' k'. by case_bool_decide; simplify_eq. Qed.

Lemma sql_text_storable f :
  text_storable f ->
  iter_m sql_text [rf_consumer_name f; rf_message_key f; rf_error_code f; rf_error_message f] = Ok tt.
Proof. intros Hf. apply iter_m_ok_iff. eapply Forall_impl; [exact Hf|]. intros x Hx. unfold sql_text. by rewrite Hx. Qed.

Lemma isolation_required_row s :
  (rr_failure_count (state_row s) <? rr_retry_budget (state_row s))%Z && rr_last_error_retryable (state_row s)
  = negb (isolation_required s).
Proof.
  unfold isolation_required, exhausted. simpl. rewrite Z.ltb_antisym, negb_orb, negb_involutive. done.
Qed.

(** What the upsert returns, and the table it leaves *)
Lemma upsert_spec f rows :
  let c := rf_consumer_name f in let k := rf_message_key f in
  store_ok rows -> failure_ok f -> failure_typed f -> id_typed (rf_message_id f) -> text_storable f ->
  exists out rows', retry_state_upsert f rows = Ok (out, rows') /\ store_ok rows' /\
  match lifecycle rows c k with
  | None => out = Some (state_row (first_state (stored_failure f))) /\
            set_lifecycle c k (Some (first_state (stored_failure f))) rows rows'
  | Some s =>
      if isolation_required s then out = None /\ rows' = rows
      else let s' := next_state s (stored_failure f) (ry_failure_count s + 1) in
           out = Some (state_row s') /\ set_lifecycle c k (Some s') rows rows'
  end.
Proof.
  intros c k Hrows Hf Ht Hid Htext. unfold retry_state_upsert. rewrite sql_text_storable by done. simpl.
  pose proof (first_lifecycle_ok f Hf Ht Hid) as Hfirst.
  rewrite excluded_row_state, row_check_ok by done. simpl.
  pose proof (store_find rows c k Hrows) as Hfind. fold c k.
  destruct (List.find (has_key c k) rows) as [row|] eqn:E.
  - destruct Hfind as (s & -> & -> & Hs & Hc & Hk). rewrite isolation_required_row.
    destruct (isolation_required s) eqn:Hiso; simpl; [by exists None, rows|].
    rewrite <-excluded_row_state, updated_row_state. pose proof (next_lifecycle_ok s f Hs Hiso Hf Hid) as Hn.
    rewrite row_check_ok by done. simpl. do 2 eexists. split; [done|]. split_and!; [|done|].
    + by apply store_ok_replace.
    + apply set_lifecycle_replace; [done..|congruence].
  - rewrite Hfind. do 2 eexists. split; [done|]. split_and!; [|done|by apply set_lifecycle_snoc].
    apply store_ok_snoc; [done..|]. by apply find_row_None in E.
Qed.

(** ** The store *)

Lemma advance_under_id s f :
  failure_ok f -> lifecycle_ok s -> same_lifecycle s f ->
  advance_retry_state (Some s) (under_lifecycle_id (Some s) (stored_failure f)) =
    if isolation_required s
    then Err (retry_state_error "cannot record another processing failure after isolation became required")
    else Ok (next_state s (stored_failure f) (ry_failure_count s + 1)).
Proof.
  intros Hf (Hs & Hty & Hid) Hsame. rewrite advance_next; [|..|done|done|done].
  - destruct (isolation_required s); [done|].
    unfold ids_conflict, next_state; simpl. destruct (ry_message_id s); simpl; [|done].
    by rewrite N.eqb_refl.
  - destruct Hf as (? & ? & ? & ? & ? & ?), Hs as (_ & Hnil & _). split_and!; simpl; try done.
    + by destruct (ry_message_id s).
    + by apply timestamptz_mono.
Qed.

Definition no_retry_faults : Prop := forall n, retry_fault n = None.

Lemma load_spec w c k :
  no_retry_faults -> store_ok (nw_retries w) -> key_ok c k ->
  contains_char zero c = false -> contains_char zero k = false ->
  load c k w = (Ok (lifecycle (nw_retries w) c k), step_world w).
Proof.
  intros Hnf Hw Hkey Hc Hk. unfold load, io_bind, io_lift, run_query, retry_state_select, sql_text.
  rewrite (proj2 (validate_key_ok_iff c k) Hkey), Hc, Hk, Hnf. simpl.
  pose proof (store_find (nw_retries w) c k Hw) as Hfind.
  destruct (List.find (has_key c k) (nw_retries w)) as [row|].
  - destruct Hfind as (s & -> & -> & Hs & _). rewrite row_to_state_row by done. by destruct w.
  - rewrite Hfind. by destruct w.
Qed.

Lemma store_advances w f :
  let c := rf_consumer_name f in let k := rf_message_key f in
  let before := lifecycle (nw_retries w) c k in
  no_retry_faults -> store_ok (nw_retries w) ->
  failure_ok f -> failure_typed f -> id_typed (rf_message_id f) -> text_storable f ->
  let r := advance_retry_state before (under_lifecycle_id before (stored_failure f)) in
  exists w', record_failure f w = (r, w') /\ store_ok (nw_retries w') /\
    set_lifecycle c k (match r with Ok s => Some s | _ => before end) (nw_retries w) (nw_retries w').
Proof.
  intros c k before Hnf Hw Hf Hty Hid Htext r. unfold record_failure, io_bind, io_lift, run_query.
  rewrite (proj2 (validate_failure_ok_iff f) Hf), Hnf.
  destruct (upsert_spec f (nw_retries w) Hw Hf Hty Hid Htext) as (out & rows & -> & Hrows & Hout).
  pose proof (store_find (nw_retries w) c k Hw) as Hfind. fold c k before in Hout, Hfind |- *. subst r.
  destruct before as [s|] eqn:Hb.
  - assert (same_lifecycle s f /\ lifecycle_ok s) as [Hsame Hs].
    { destruct (List.find _ _); [|done]. destruct Hfind as (? & [= <-] & _ & ? & ? & ?). done. }
    rewrite advance_under_id by done. destruct (isolation_required s) eqn:Hiso.
    + destruct Hout as [-> ->]. simpl. destruct Hf as (Hkey & _). simpl.
      rewrite load_spec; [|done|done|done|by (inversion Htext)|by (inversion Htext as [|? ? ? Ht']; inversion Ht')].
      fold c k. simpl. unfold before in Hb. rewrite Hb, Hiso. eexists. split_and!; [done|done|]. rewrite <-Hb.
      apply set_lifecycle_same.
    + destruct Hout as [-> Hset]. simpl.
      rewrite row_to_state_row by (apply next_lifecycle_ok; done). by eexists.
  - destruct Hout as [-> Hset]. simpl. rewrite advance_first by (done || by apply stored_failure_ok).
    rewrite row_to_state_row by (apply first_lifecycle_ok; done). by eexists.
Qed.

Lemma clear_spec w c k :
  no_retry_faults -> store_ok (nw_retries w) -> key_ok c k ->
  contains_char zero c = false -> contains_char zero k = false ->
  exists w', clear c k w = (Ok tt, w') /\ store_ok (nw_retries w') /\
    set_lifecycle c k None (nw_retries w) (nw_retries w').
Proof.
  intros Hnf Hw Hkey Hc Hk. unfold clear, io_bind, io_lift, run_query, retry_state_delete, sql_text.
  rewrite (proj2 (validate_key_ok_iff c k) Hkey), Hc, Hk, Hnf. simpl. eexists.
  split_and!; [done|by apply store_ok_filter|]. simpl. intros c' k'. unfold lifecycle at 1.
  case_bool_decide as Hck.
  - simplify_eq. destruct (List.find _ _) as [row|] eqn:E; [|done].
    apply find_some in E as [[_ Hn]%filter_In He]. by rewrite He in Hn.
  - assert (List.find (has_key c' k') (List.filter (fun row => negb (has_key c k row)) (nw_retries w))
            = List.find (has_key c' k') (nw_retries w)) as ->; [|done].
    induction (nw_retries w) as [|r rows IH]; simpl; [done|].
    destruct (has_key c k r) eqn:E; simpl.
    + rewrite IH by (apply (store_ok_tail r), Hw). apply has_key_iff in E.
      destruct (has_key c' k' r) eqn:E'; [|done]. apply has_key_iff in E'. congruence.
    + destruct (has_key c' k' r); [done|]. apply IH, (store_ok_tail r), Hw.
Qed.

(** ** Every history, whatever fails *)

Lemma upsert_text f rows r : retry_state_upsert f rows = Ok r -> text_storable f.
Proof.
  unfold retry_state_upsert. intros [Ht _]%bind_unit_ok_iff. apply iter_m_ok_iff in Ht.
  eapply Forall_impl; [exact Ht|]. intros x Hx. by apply reject_if_ok_iff in Hx.
Qed.

Lemma upsert_keeps f rows out rows' :
  failure_ok f -> failure_typed f -> id_typed (rf_message_id f) ->
  retry_state_upsert f rows = Ok (out, rows') -> store_ok rows -> store_ok rows'.
Proof.
  intros Hf Ht Hid Hup Hrows. pose proof (upsert_text _ _ _ Hup) as Htext.
  destruct (upsert_spec f rows Hrows Hf Ht Hid Htext) as (out' & rows'' & Hup' & Hok & _). congruence.
Qed.

Definition keeps_store (w w' : NormalizerWorld) : Prop := store_ok (nw_retries w) -> store_ok (nw_retries w').

#[export] Instance keeps_store_preorder : PreOrder keeps_store.
Proof. split; unfold keeps_store; [by intros ?|intros ? ? ?; tauto]. Qed.

Lemma run_query_keeps {A} context effect (action : list RetryRow -> result (A * list RetryRow) string) :
  (forall rows a rows', action rows = Ok (a, rows') -> store_ok rows -> store_ok rows') ->
  io_respects keeps_store (run_query context effect action).
Proof.
  intros Ha w r w'. unfold run_query, keeps_store.
  destruct (action (nw_retries w)) as [[a t]|e|p] eqn:E, (retry_fault (nw_step w)) as [[error []]|];
    intros [= _ <-] Hw; simpl; try done; apply Ha in E; try done; destruct (effect a); done.
Qed.

Lemma load_keeps c k : io_respects keeps_store (load c k).
Proof.
  unfold load. apply respects_bind; [apply _|apply respects_lift, _|]. intros [].
  apply respects_bind; [apply _| |].
  - apply run_query_keeps. intros rows a rows' (row & _ & [= _ <-])%bind_ok_iff. done.
  - intros [row|]; [|apply respects_ret, _]. apply respects_bind; [apply _|apply respects_lift, _|].
    intros s. apply respects_ret, _.
Qed.

Lemma record_failure_keeps f :
  failure_typed f -> id_typed (rf_message_id f) -> io_respects keeps_store (record_failure f).
Proof.
  intros Hty Hid w r w'. unfold record_failure, io_bind at 1. simpl.
  destruct (validate_failure f) as [[]| |] eqn:Hv; [|by intros [= _ <-]..].
  apply validate_failure_ok_iff in Hv. apply (respects_bind keeps_store).
  - apply run_query_keeps. intros rows a rows'. by apply upsert_keeps.
  - intros [row|]; [apply respects_lift, _|]. apply respects_bind; [apply _|apply load_keeps|].
    intros [s|]; [destruct (isolation_required s)|]; apply respects_lift, _.
Qed.

Lemma clear_keeps c k : io_respects keeps_store (clear c k).
Proof.
  unfold clear. apply respects_bind; [apply _|apply respects_lift, _|]. intros [].
  apply run_query_keeps. intros rows [] rows' (t & Ht & [= <-])%bind_ok_iff Hrows.
  unfold retry_state_delete in Ht. apply bind_unit_ok_iff in Ht as [_ [_ [= <-]]%bind_unit_ok_iff].
  by apply store_ok_filter.
Qed.

Inductive StoreOp : Type :=
| OpLoad (consumer_name message_key : string)
| OpRecord (failure : RetryFailure)
| OpClear (consumer_name message_key : string).

(** The operations take values of the Rust types. *)
Definition op_typed (op : StoreOp) : Prop :=
  match op with OpRecord f => failure_typed f /\ id_typed (rf_message_id f) | _ => True end.

Definition run_op (w : NormalizerWorld) (op : StoreOp) : NormalizerWorld :=
  match op with
  | OpLoad c k => (load c k w).2
  | OpRecord f => (record_failure f w).2
  | OpClear c k => (clear c k w).2
  end.

Lemma run_op_keeps w op : op_typed op -> keeps_store w (run_op w op).
Proof.
  destruct op as [c k|f|c k]; simpl; intros Hty.
  - destruct (load c k w) as [r w'] eqn:E. by apply load_keeps in E.
  - destruct (record_failure f w) as [r w'] eqn:E. destruct Hty. by eapply record_failure_keeps in E.
  - destruct (clear c k w) as [r w'] eqn:E. by apply clear_keeps in E.
Qed.

Lemma run_ops_keep ops w : Forall op_typed ops -> keeps_store w (foldl run_op w ops).
Proof.
  intros Hops. revert w. induction Hops as [|op ops Hop _ IH]; intros w; simpl; [by intros ?|].
  etrans; [by apply run_op_keeps|apply IH].
Qed.

Lemma validate_key_no_panic c k : no_panic (validate_key c k).
Proof. unfold validate_key. no_panic. Qed.

(** A load from such a table returns its lifecycle, or the database failed, or the key is refused. *)
Lemma load_result w c k :
  store_ok (nw_retries w) ->
  (load c k w).1 = Ok (lifecycle (nw_retries w) c k) \/
  exists e, (load c k w).1 = Err e /\
    (validate_key c k = Err e \/ exists error, e = postgres_error "load retry state" error).
Proof.
  intros Hw. unfold load, io_bind, io_lift. destruct (validate_key c k) as [[]|e|p] eqn:Hv; simpl; [|by eauto|].
  - unfold run_query, retry_state_select, sql_text, reject_if.
    destruct (contains_char zero c), (contains_char zero k), (retry_fault (nw_step w)) as [[error []]|];
      simpl; eauto 7.
    left. pose proof (store_find (nw_retries w) c k Hw) as Hf.
    destruct (List.find _ _) as [row|]; simpl; [|by rewrite Hf].
    destruct Hf as (s & -> & -> & Hs & _). by rewrite row_to_state_row.
  - by apply validate_key_no_panic in Hv.
Qed.

(** ** The contract *)

(** C7: The PostgreSQL store implements a map from (consumer, message key) to
    retry lifecycles: on a table of valid rows, for valid failures whose texts hold
    no NUL character, and without database faults, [load] returns the lifecycle of the key, [record_failure] returns what the
    reference transition [advance_retry_state] returns on that lifecycle (the
    failure at the precision of the database and under the message id its
    lifecycle began with) and stores it, [clear] removes it, and no other key
    is affected. *)
Theorem retry_store_refines w f :
  let c := rf_consumer_name f in let k := rf_message_key f in
  let before := lifecycle (nw_retries w) c k in
  let r := advance_retry_state before (under_lifecycle_id before (stored_failure f)) in
  no_retry_faults -> store_ok (nw_retries w) ->
  failure_ok f -> failure_typed f -> id_typed (rf_message_id f) -> text_storable f ->
  (load c k w).1 = Ok before /\
  (exists w', record_failure f w = (r, w') /\ store_ok (nw_retries w') /\
     set_lifecycle c k (match r with Ok s => Some s | _ => before end) (nw_retries w) (nw_retries w')) /\
  (exists w', clear c k w = (Ok tt, w') /\ store_ok (nw_retries w') /\
     set_lifecycle c k None (nw_retries w) (nw_retries w')).
Proof.
  intros c k before r Hnf Hw Hf Hty Hid Htext.
  destruct Hf as (Hkey & Hf). pose proof Htext as Ht. do 2 (apply Forall_cons in Ht as [? Ht]).
  split_and!; [by rewrite load_spec|by apply store_advances; [..|split| | |]|by apply clear_spec].
Qed.

(** Through every history of loads, recorded failures and clears, whatever
    statement fails and whether or not it took effect, the table holds one valid
    lifecycle per key: a load always returns the lifecycle of its key unless the
    key is refused or the database reports an error, so a stored row is never
    undecodable. *)
Theorem retry_history_sound ops w c k :
  Forall op_typed ops -> store_ok (nw_retries w) ->
  let w' := foldl run_op w ops in
  store_ok (nw_retries w') /\
  ((load c k w').1 = Ok (lifecycle (nw_retries w') c k) \/
   exists e, (load c k w').1 = Err e /\
     (validate_key c k = Err e \/ exists error, e = postgres_error "load retry state" error)).
Proof.
  intros Hops Hw w'. assert (store_ok (nw_retries w')) by by apply run_ops_keep. split; [done|by apply load_result].
Qed.
End Spec.

Arguments no_retry_faults : clear implicits.

(** ** A codec: hexadecimal UUIDs, and microseconds from the year 2000 *)

Module RetrySample.

Fixpoint hex_digits (n : nat) (u : N) : list N :=
  match n with 0 => [] | S n => hex_digits n (u / 16) ++ [(u mod 16)%N] end.
Definition hex_value (l : list N) : N := foldl (fun acc d => acc * 16 + d)%N 0%N l.
Definition hex_of (a : ascii) : N := let n := N_of_ascii a in (if n <? 58 then n - 48 else if n <? 71 then n - 55 else n - 87)%N.

Definition hyphenate (l : list ascii) : list ascii :=
  let dash := "-"%char in
  take 8 l ++ [dash] ++ take 4 (drop 8 l) ++ [dash] ++ take 4 (drop 12 l) ++ [dash]
    ++ take 4 (drop 16 l) ++ [dash] ++ drop 20 l.

Definition not_dash (a : ascii) : bool := negb (Ascii.eqb a "-").

#[export] Instance codec : RetryCodec := {|
  uuid_to_string u := str_of_bytes (hyphenate (hex_digit <$> hex_digits 32 u));
  uuid_parse_str text :=
    let digits := List.filter not_dash (str_bytes text) in
    if bool_decide (length digits = 32) then Ok (hex_value (hex_of <$> digits)) else Err "invalid length";
  timestamptz t := (946684800000000000 + Z.quot (t - 946684800000000000) 1000 * 1000)%Z;
|}.

#[export] Instance outside : Outside := {|
  retry_fault _ := None;
  publish_reply _ _ := inl (mkPubAck "CERBERO_DLQ" 1);
  settle_fault _ := None;
  http_reply _ _ := inl (mkHttpReply 200 (Ok ""));
  connect_fault _ := None;
  consumer_fault _ := None;
  system_time_now n := (1789000000000000000 + Z.of_nat n)%Z;
  elapsed_time _ := 5%Z;
  now_v7_text _ := "01890f8e-5b7a-7cc1-98c4-dc0c0c07398f";
|}.

Lemma hex_value_digits n u : hex_value (hex_digits n u) = (u mod 16 ^ N.of_nat n)%N.
Proof.
  revert u. induction n as [|n IH]; intros u; [by rewrite N.mod_1_r|].
  simpl hex_digits. unfold hex_value. rewrite foldl_app. simpl. fold (hex_value (hex_digits n (u / 16))).
  rewrite IH, Nat2N.inj_succ, N.pow_succ_r', N.Div0.mod_mul_r. lia.
Qed.

Lemma hex_digits_length n u : length (hex_digits n u) = n.
Proof. revert u. induction n as [|n IH]; intros u; [done|]. simpl. rewrite length_app, IH. simpl. lia. Qed.

Lemma hex_digits_small n u : Forall (fun d => d < 16)%N (hex_digits n u).
Proof.
  revert u. induction n as [|n IH]; intros u; [done|]. simpl. apply Forall_app. split; [done|].
  apply Forall_singleton. by apply N.mod_lt.
Qed.

Lemma hex_digit_facts d :
  (d < 16)%N -> hex_of (hex_digit d) = d /\ not_dash (hex_digit d) = true /\ to_ascii_lowercase (hex_digit d) = hex_digit d.
Proof.
  intros Hd. assert (d ∈ (N.of_nat <$> seq 0 16)) as Hin.
  { apply list_elem_of_fmap. exists (N.to_nat d). split; [lia|]. apply elem_of_seq. lia. }
  clear Hd. revert d Hin. apply Forall_forall. repeat constructor.
Qed.

Lemma hyphenate_filter l :
  Forall (fun a => not_dash a = true) l -> List.filter not_dash (hyphenate l) = l.
Proof.
  intros Hl. assert (forall m, Forall (fun a => not_dash a = true) m -> List.filter not_dash m = m) as Hid.
  { intros m Hm. induction Hm as [|a m Ha _ IH]; simpl; [done|]. by rewrite Ha, IH. }
  assert (List.filter not_dash ["-"%char] = []) as Hdash by done.
  unfold hyphenate. rewrite !List.filter_app, Hdash, !app_nil_l, !Hid by auto using Forall_take, Forall_drop.
  change 20 with (16 + 4). rewrite <-(drop_drop l 4 16), take_drop.
  change 16 with (12 + 4). rewrite <-(drop_drop l 4 12), take_drop.
  change 12 with (8 + 4). by rewrite <-(drop_drop l 4 8), take_drop, take_drop.
Qed.

Lemma hyphenate_lower l :
  Forall (fun a => to_ascii_lowercase a = a) l -> to_ascii_lowercase <$> hyphenate l = hyphenate l.
Proof.
  intros Hl. rewrite <-(list_fmap_id (hyphenate l)) at 2. apply list_fmap_ext. intros i a Ha.
  assert (Forall (fun a => to_ascii_lowercase a = a) (hyphenate l)) as Hall.
  { unfold hyphenate. repeat (apply Forall_app; split); auto using Forall_take, Forall_drop; by repeat constructor. }
  by eapply Forall_lookup_1 in Hall.
Qed.

#[export] Instance codec_laws : RetryCodecLaws.
Proof.
  split.
  - intros u Hu. cbn [uuid_to_string uuid_parse_str codec]. unfold sql_uuid. rewrite str_of_bytes_inv.
    pose proof (hex_digits_small 32 u) as Hs.
    rewrite str_of_bytes_inv, hyphenate_lower, hyphenate_filter.
    + rewrite bool_decide_eq_true_2 by (by rewrite length_fmap, hex_digits_length).
      rewrite <-list_fmap_compose, (list_fmap_ext _ id), list_fmap_id, hex_value_digits; [|].
      * by rewrite N.mod_small.
      * intros i d Hd. by apply (Forall_lookup_1 _ _ _ _ Hs), hex_digit_facts in Hd as [? _].
    + apply Forall_fmap. eapply Forall_impl; [exact Hs|]. intros d Hd. by apply hex_digit_facts.
    + apply Forall_fmap. eapply Forall_impl; [exact Hs|]. intros d Hd. by apply hex_digit_facts.
  - intros t1 t2 Ht. simpl. pose proof (Z.quot_le_mono (t1 - 946684800000000000) (t2 - 946684800000000000) 1000).
    lia.
Qed.

Definition world0 : NormalizerWorld := mkNormalizerWorld [] metrics_default [] 0.

Definition failure_at (occurred_at : Z) (id : option Uuid) : RetryFailure :=
  mkRetryFailure "normalizer" "stream:7" id occurred_at 3 1 "CER-NORM-RAW-READ" "no such file" true
    (occurred_at + 2000000000)%Z.

(** A table with one lifecycle *)
Definition world1 : NormalizerWorld := (record_failure (failure_at 1789000000000000001 (Some 77%N)) world0).2.

Lemma failure_at_ok t id :
  id <> Some 0%N -> failure_ok (failure_at t id) /\ failure_typed (failure_at t id) /\ text_storable (failure_at t id).
Proof.
  intros Hid. split_and!; [|done|by repeat constructor].
  split_and!; simpl; try done; [split_and!; [done..|]; apply Nat.leb_le; reflexivity|lia].
Qed.

Lemma world1_ok : store_ok (nw_retries world1).
Proof.
  assert (Forall op_typed [OpRecord (failure_at 1789000000000000001 (Some 77%N))]) as Hops.
  { repeat constructor. by intros u [= <-]. }
  apply (run_ops_keep _ world0 Hops). split; [constructor|done].
Qed.

End RetrySample.

Import RetrySample.

Lemma retry_store_refines_witness :
  exists s w', record_failure (failure_at 1789000001000000999 (Some 78%N)) world1 = (Ok s, w') /\
    ry_failure_count s = 2%Z /\ ry_message_id s = Some 77%N /\ ry_last_failure_at s = 1789000001000000000%Z.
Proof.
  destruct (failure_at_ok 1789000001000000999 (Some 78%N)) as (Hf & Hty & Htext); [done|].
  destruct (retry_store_refines world1 (failure_at 1789000001000000999 (Some 78%N)))
    as (_ & (w' & Hrun & _) & _); [done|apply world1_ok|done|done|by intros u [= <-]|done|].
  eexists _, w'. split; [etrans; [exact Hrun|vm_compute; reflexivity]|by vm_compute].
Defined.

Lemma retry_history_sound_witness :
  store_ok (nw_retries (foldl run_op world1 [OpRecord (failure_at 1789000002000000000 None); OpClear "normalizer" "x"])).
Proof.
  apply (retry_history_sound _ world1 "normalizer" "stream:7"); [|apply world1_ok].
  repeat constructor. by intros u [=].
Defined.
