(* ===== verification/RetryDouble.v ===== *)
(** * The retry store behind its trait

    crates/cerbero-normalizer/src/retry_state.rs: the trait [RetryStateStore], which the
    PostgreSQL store implements for the service and an in-memory double implements for
    the unit tests.  The double and the database answer every regular history alike, so
    what the tests observe of the one holds of the other.  The tests of retry_state.rs
    run against the double, the development test of retry_state_postgres.rs against the
    table. *)

From S2P Require Import Prelude RustStd ContractTypes Validation SignalContract Effects RetryState Metrics NormalizerWorld Database RetryStore RetryStoreSpec.

(** ** The trait *)

Class RetryStateStore (W : Type) := {
  store_load : string -> string -> io W NormalizerError (option RetryState);
  store_record_failure : RetryFailure -> io W NormalizerError RetryState;
  store_clear : string -> string -> io W NormalizerError unit;
}.

#[export] Instance PostgresRetryStateStore `{!RetryCodec} `{!Outside} : RetryStateStore NormalizerWorld := {|
  store_load := load;
  store_record_failure := record_failure;
  store_clear := clear;
|}.

(** The double: a map behind a mutex *)
Definition MemoryRetryStateStore : Type := gmap (string * string) RetryState.

Definition memory_load (consumer_name message_key : string)
    : io MemoryRetryStateStore NormalizerError (option RetryState) :=
  io_lift (validate_key consumer_name message_key) ;;!
  fun states => (Ok (states !! (consumer_name, message_key)), states).

Definition memory_record_failure (failure : RetryFailure) : io MemoryRetryStateStore NormalizerError RetryState :=
  fun states =>
    let key := (rf_consumer_name failure, rf_message_key failure) in
    match advance_retry_state (states !! key) failure with
    | Ok state => (Ok state, <[key := state]> states)
    | r => (r, states)
    end.

Definition memory_clear (consumer_name message_key : string) : io MemoryRetryStateStore NormalizerError unit :=
  io_lift (validate_key consumer_name message_key) ;;!
  fun states => (Ok tt, delete (consumer_name, message_key) states).

#[export] Instance MemoryRetryStateStore_store : RetryStateStore MemoryRetryStateStore := {|
  store_load := memory_load;
  store_record_failure := memory_record_failure;
  store_clear := memory_clear;
|}.

(** ** Histories through the trait *)

Definition perform_op `{!RetryStateStore W} (op : StoreOp) : io W NormalizerError (option RetryState) :=
  match op with
  | OpLoad consumer_name message_key => store_load consumer_name message_key
  | OpRecord failure => let! state := store_record_failure failure in io_ret (Some state)
  | OpClear consumer_name message_key => store_clear consumer_name message_key ;;! io_ret None
  end.

(** The answers to a history, and the store it leaves *)
Fixpoint perform_ops `{!RetryStateStore W} (ops : list StoreOp) (w : W)
    : list (result (option RetryState) NormalizerError) * W :=
  match ops with
  | [] => ([], w)
  | op :: ops =>
      let (answer, w) := perform_op op w in
      let (answers, w) := perform_ops ops w in
      (answer :: answers, w)
  end.

(** ** The simulation *)

Section Simulation.
Context `{!RetryCodec} `{!Outside} `{!RetryCodecLaws}.

(** The message each delivery key belongs to *)
Context (message_of : string -> string -> Uuid).

Definition of_message (consumer_name message_key : string) (id : option Uuid) : Prop :=
  id = None \/ id = Some (message_of consumer_name message_key).

(** A history the service can produce: texts without NUL, times at the resolution of the
    database, and one message identity per delivery key *)
Definition op_regular (op : StoreOp) : Prop :=
  match op with
  | OpLoad c k | OpClear c k => contains_char zero c = false /\ contains_char zero k = false
  | OpRecord f =>
      failure_typed f /\ id_typed (rf_message_id f) /\ text_storable f /\ stored_failure f = f /\
      of_message (rf_consumer_name f) (rf_message_key f) (rf_message_id f)
  end.

Definition simulates (w : NormalizerWorld) (states : MemoryRetryStateStore) : Prop :=
  store_ok (nw_retries w) /\
  (forall c k, states !! (c, k) = lifecycle (nw_retries w) c k) /\
  (forall c k s, states !! (c, k) = Some s -> of_message c k (ry_message_id s)).

Lemma ids_agree s f :
  of_message (rf_consumer_name f) (rf_message_key f) (ry_message_id s) ->
  of_message (rf_consumer_name f) (rf_message_key f) (rf_message_id f) -> ids_conflict s f = false.
Proof.
  unfold ids_conflict. intros [Hs|Hs] [Hf|Hf]; rewrite Hs; try done; rewrite Hf; [done|]. by rewrite N.eqb_refl.
Qed.

(** What a key holds is a lifecycle of that key. *)
Lemma lifecycle_of_key rows c k s :
  store_ok rows -> lifecycle rows c k = Some s -> lifecycle_ok s /\ ry_consumer_name s = c /\ ry_message_key s = k.
Proof.
  intros Hrows Hs. pose proof (store_find rows c k Hrows) as Hfind. destruct (List.find _ _).
  - destruct Hfind as (s' & Heq & _ & Hok & Hkey). rewrite Heq in Hs. by simplify_eq.
  - congruence.
Qed.

(** Keeping the first identity changes nothing when there is only one. *)
Lemma advance_same_id before f :
  failure_ok f ->
  (forall s, before = Some s -> lifecycle_ok s /\ same_lifecycle s f /\ ids_conflict s f = false) ->
  advance_retry_state before (under_lifecycle_id before (stored_failure f)) = advance_retry_state before (stored_failure f).
Proof.
  intros Hf Hb. destruct before as [s|]; [|done].
  destruct (Hb s eq_refl) as (Hs & Hsame & Hids). rewrite advance_under_id by done.
  destruct Hs as (? & ? & _). rewrite advance_next; [|by apply stored_failure_ok|done..].
  change (ids_conflict s (stored_failure f)) with (ids_conflict s f). by rewrite Hids.
Qed.

Lemma advance_message_id before f s :
  failure_ok f -> failure_typed f ->
  (forall s, before = Some s -> lifecycle_ok s /\ same_lifecycle s f /\ ids_conflict s f = false) ->
  advance_retry_state before f = Ok s ->
  ry_message_id s = match before ≫= ry_message_id with Some id => Some id | None => rf_message_id f end.
Proof.
  intros Hf Hty Hb. destruct before as [s'|]; [|rewrite advance_first by done; by intros [= <-]].
  destruct (Hb s' eq_refl) as ((? & ? & _) & ? & Hids). rewrite advance_next, Hids by done.
  destruct (isolation_required s'); [done|]. by intros [= <-].
Qed.

Lemma set_simulates (w w' : NormalizerWorld) (states : MemoryRetryStateStore) (c k : string) (state : option RetryState) :
  simulates w states -> store_ok (nw_retries w') ->
  set_lifecycle c k state (nw_retries w) (nw_retries w') ->
  (forall s, state = Some s -> of_message c k (ry_message_id s)) ->
  simulates w' (partial_alter (fun _ => state) (c, k) states).
Proof.
  unfold simulates, MemoryRetryStateStore in *.
  intros (_ & Hmap & Hids) Hw' Hset Hid. split_and!; [done|..]; intros c' k'.
  - rewrite (Hset c' k'). case_bool_decide as Hkey; [rewrite Hkey; by apply lookup_partial_alter_eq|].
    by rewrite lookup_partial_alter_ne by congruence.
  - intros s. destruct (decide ((c', k') = (c, k))) as [Hkey|Hkey].
    + rewrite Hkey, lookup_partial_alter_eq. simplify_eq. apply Hid.
    + rewrite lookup_partial_alter_ne by congruence. apply Hids.
Qed.

(** PostgreSQL answers a failure as the double answers it at the precision of the database. *)
Lemma record_precise w states f :
  no_retry_faults _ -> simulates w states -> failure_typed f -> id_typed (rf_message_id f) -> text_storable f ->
  of_message (rf_consumer_name f) (rf_message_key f) (rf_message_id f) -> failure_ok f ->
  exists w', record_failure f w = ((memory_record_failure (stored_failure f) states).1, w') /\
    simulates w' (memory_record_failure (stored_failure f) states).2.
Proof.
  intros Hnf Hsim Hty Hid Htext Hmsg Hf. pose proof Hsim as (Hw & Hmap & Hids).
  destruct (store_advances w f Hnf Hw Hf Hty Hid Htext) as (w' & Hrun & Hw' & Hset).
  set (c := rf_consumer_name f) in *. set (k := rf_message_key f) in *.
  assert (forall s, lifecycle (nw_retries w) c k = Some s ->
            lifecycle_ok s /\ same_lifecycle s f /\ ids_conflict s f = false) as Hb.
  { intros s Hs. destruct (lifecycle_of_key _ _ _ _ Hw Hs) as (? & ? & ?). split_and!; [done|done|].
    apply ids_agree; [|done]. apply (Hids c k). by rewrite Hmap. }
  rewrite advance_same_id in Hrun, Hset by done. exists w'. unfold memory_record_failure.
  cbn [rf_consumer_name rf_message_key stored_failure]. fold c k. rewrite Hmap.
  destruct (advance_retry_state (lifecycle (nw_retries w) c k) (stored_failure f)) as [s|e|p] eqn:Hadv; cbn [fst snd];
    split; try exact Hrun.
  - apply (set_simulates w _ _ _ _ (Some s)); [done..|]. intros _ [= <-].
    rewrite (advance_message_id _ (stored_failure f) _ (stored_failure_ok f Hf) Hty Hb Hadv).
    destruct (lifecycle (nw_retries w) c k) as [s'|] eqn:Hs'; [|done]. cbn.
    destruct (ry_message_id s') eqn:Hi; [rewrite <-Hi; apply Hids; by rewrite Hmap|done].
  - rewrite <-(partial_alter_self states (c, k)), Hmap. apply (set_simulates w); [done..|].
    intros s Hs. apply (Hids c k). by rewrite Hmap.
  - rewrite <-(partial_alter_self states (c, k)), Hmap. apply (set_simulates w); [done..|].
    intros s Hs. apply (Hids c k). by rewrite Hmap.
Qed.

Lemma record_simulated w states f :
  no_retry_faults _ -> simulates w states -> op_regular (OpRecord f) -> failure_ok f ->
  exists w', record_failure f w = ((memory_record_failure f states).1, w') /\
    simulates w' (memory_record_failure f states).2.
Proof.
  intros Hnf Hsim (Hty & Hid & Htext & Hstored & Hmsg) Hf. pose proof (record_precise w states f Hnf Hsim Hty Hid Htext Hmsg Hf) as Hr.
  by rewrite Hstored in Hr.
Qed.

(** An input both stores refuse *)
Lemma refused_failure w states f :
  validate_failure f <> Ok tt ->
  exists r, record_failure f w = (r, w) /\ memory_record_failure f states = (r, states) /\ (forall s, r <> Ok s).
Proof.
  intros Hf. unfold record_failure, memory_record_failure, advance_retry_state, io_bind, io_lift.
  destruct (validate_failure f) as [[]|e|p]; [done|by eexists..].
Qed.

Lemma op_simulated w states op :
  no_retry_faults _ -> simulates w states -> op_regular op ->
  exists r w' states', perform_op op w = (r, w') /\ perform_op op states = (r, states') /\ simulates w' states'.
Proof.
  intros Hnf Hsim Hop. pose proof Hsim as (Hw & Hmap & Hids). destruct op as [c k|f|c k].
  - destruct Hop as [Hc Hk]. destruct (validate_key c k) as [[]|e|p] eqn:Hv.
    + exists (Ok (states !! (c, k))), (step_world w), states. split_and!.
      * cbn. rewrite Hmap. apply load_spec; try done. by apply validate_key_ok_iff.
      * cbn. unfold memory_load, io_bind, io_lift. by rewrite Hv.
      * destruct w. exact Hsim.
    + exists (Err e), w, states. cbn. unfold load, memory_load, io_bind, io_lift. by rewrite Hv.
    + by apply validate_key_no_panic in Hv.
  - cbn [perform_op store_record_failure PostgresRetryStateStore MemoryRetryStateStore_store].
    destruct (validate_failure f) as [[]|e|p] eqn:Hv.
    { destruct (record_simulated w states f) as (w' & Hrun & Hsim'); [done..|by apply validate_failure_ok_iff|].
      unfold io_bind, io_ret. rewrite Hrun. destruct (memory_record_failure f states) as [r states'].
      destruct r; by eexists _, _, _. }
    all: destruct (refused_failure w states f) as (r & Hr & Hm & Hno); [by rewrite Hv|];
      unfold io_bind; rewrite Hr, Hm; destruct r; [by destruct (Hno a)|by eexists _, _, _..].
  - destruct Hop as [Hc Hk]. cbn. unfold memory_clear.
    destruct (validate_key c k) as [[]|e|p] eqn:Hv; [| |by apply validate_key_no_panic in Hv].
    + destruct (clear_spec w c k) as (w' & Hrun & Hw' & Hset); [done..|by apply validate_key_ok_iff|done|done|].
      unfold io_bind, io_lift, io_ret. rewrite Hrun. eexists _, _, _. split_and!; [done|done|].
      by apply (set_simulates w _ _ _ _ None).
    + exists (Err e), w, states. unfold clear, io_bind, io_lift. by rewrite Hv.
Qed.
End Simulation.

(** C24: The in-memory store of the unit tests and the PostgreSQL store of the service
    implement one contract: starting from a table and a map with the same lifecycles,
    every history of loads, recorded failures and clears, refused inputs included, gets
    the same answers from both, when the database does not fail and the history is regular
    (no NUL in a text, times at the resolution of the database, one message identity per
    delivery key); and the table and the map hold the same lifecycles afterwards. *)
Theorem memory_store_answers_like_postgres `{!RetryCodec} `{!Outside} `{!RetryCodecLaws} message_of ops w states :
  no_retry_faults _ -> simulates message_of w states -> Forall (op_regular message_of) ops ->
  (perform_ops ops w).1 = (perform_ops ops states).1 /\
  simulates message_of (perform_ops ops w).2 (perform_ops ops states).2.
Proof.
  intros Hnf Hsim Hops. revert w states Hsim. induction Hops as [|op ops Hop _ IH]; intros w states Hsim; [done|].
  destruct (op_simulated message_of w states op Hnf Hsim Hop) as (r & w' & states' & Hw & Hm & Hsim').
  cbn [perform_ops]. rewrite Hw, Hm. destruct (IH w' states' Hsim') as [Ha Hs].
  destruct (perform_ops ops w'), (perform_ops ops states'). cbn in *. by subst.
Qed.

(** ** The tests of retry_state.rs, against the double *)

Module RetryTests.
Import RetrySample.

(** [UNIX_EPOCH + Duration::from_secs(n)] *)
Definition epoch_secs (seconds : Z) : SystemTime := (seconds * 1000000000)%Z.

Definition rs_failure (message_key : string) (message_id : option Uuid) (occurred_at : SystemTime)
    (retry_budget delivery_attempt : Z) (error_retryable : bool) : RetryFailure :=
  mkRetryFailure "normalizer" message_key message_id occurred_at retry_budget delivery_attempt "CER-NORM-TEST"
    "integration failure" error_retryable (occurred_at + epoch_secs 1)%Z.

Definition rs_message_id : Uuid := 2130374412345678901234567890123%N.

(** The answers of a fresh double, all of them [Ok] *)
Fixpoint unwrap_all {A E} (answers : list (result A E)) : option (list A) :=
  match answers with
  | [] => Some []
  | Ok a :: answers => cons a <$> unwrap_all answers
  | _ => None
  end.
Definition answers_of (ops : list StoreOp) : option (list (option RetryState)) :=
  unwrap_all (perform_ops ops (∅ : MemoryRetryStateStore)).1.

Definition preserves_ops : list StoreOp :=
  [OpRecord (rs_failure "stream:41" (Some rs_message_id) (epoch_secs 10) 3 1 true);
   OpRecord (rs_failure "stream:41" (Some rs_message_id) (epoch_secs 15) 9 2 true)].
Definition preserves_first_failure_and_captured_budget : bool :=
  match answers_of preserves_ops with
  | Some [Some first; Some second] =>
      (ry_failure_count first =? 1)%Z && (ry_failure_count second =? 2)%Z && (ry_retry_budget second =? 3)%Z
      && (ry_first_failure_at second =? epoch_secs 10)%Z && (ry_last_failure_at second =? epoch_secs 15)%Z
      && bool_decide (ry_message_id second = Some rs_message_id) && negb (isolation_required second)
  | _ => false
  end.

Definition budget_exhaustion_removes_next_retry : bool :=
  match answers_of
    [OpRecord (rs_failure "stream:42" None (epoch_secs 20) 2 1 true);
     OpRecord (rs_failure "stream:42" None (epoch_secs 22) 99 2 true)] with
  | Some [_; Some last] =>
      (ry_failure_count last =? 2)%Z && (ry_retry_budget last =? 2)%Z && exhausted last && isolation_required last
      && bool_decide (ry_next_retry_at last = None)
  | _ => false
  end.

Definition permanent_failure_requires_isolation_without_faking_attempt_count : bool :=
  match answers_of [OpRecord (rs_failure "payload:abc" None (epoch_secs 30) 5 1 false)] with
  | Some [Some state] =>
      (ry_failure_count state =? 1)%Z && (ry_retry_budget state =? 5)%Z && negb (exhausted state)
      && isolation_required state && bool_decide (ry_next_retry_at state = None)
  | _ => false
  end.

Definition clear_removes_completed_lifecycle : bool :=
  match answers_of
    [OpRecord (rs_failure "stream:43" None (epoch_secs 40) 3 1 true); OpClear "normalizer" "stream:43";
     OpLoad "normalizer" "stream:43"] with
  | Some [_; _; None] => true
  | _ => false
  end.

(** ** The development test of retry_state_postgres.rs, against the table

    Each step opens its own connection: the table is all that the steps share. *)

Definition pg_failure (consumer_name message_key : string) (message_id : option Uuid) (occurred_at : SystemTime)
    (retry_budget delivery_attempt : Z) (retryable : bool) : RetryFailure :=
  mkRetryFailure consumer_name message_key message_id occurred_at retry_budget delivery_attempt
    "CER-NORM-INTEGRATION-RETRY" "development retry-state integration failure" retryable
    (occurred_at + epoch_secs 1)%Z.

(** [assert!] *)
Definition check (condition : bool) : norm unit :=
  io_lift (if condition then Ok tt else Panic "assertion failed").
Definition expect {A} (value : option A) (message : string) : norm A :=
  io_lift (match value with Some a => Ok a | None => Panic message end).

Section Development.
Context (consumer primary_key sibling_key : string) (message_id : Uuid).

Definition establish_lifecycle : norm SystemTime :=
  let! at_time := now in
  let! first := record_failure (pg_failure consumer primary_key (Some message_id) at_time 3 1 true) in
  check (ry_failure_count first =? 1)%Z ;;!
  check (ry_retry_budget first =? 3)%Z ;;!
  check (negb (isolation_required first)) ;;!
  io_ret (ry_first_failure_at first).

Definition advance_to_exhaustion (persisted_first_at : SystemTime) : norm unit :=
  let! after_restart := load consumer primary_key in
  let! after_restart := expect after_restart "retry state must survive reconnect" in
  check (ry_first_failure_at after_restart =? persisted_first_at)%Z ;;!
  check (ry_retry_budget after_restart =? 3)%Z ;;!
  let! at_time := now in
  let! second := record_failure (pg_failure consumer primary_key (Some message_id) at_time 99 2 true) in
  check (ry_failure_count second =? 2)%Z ;;!
  check (ry_retry_budget second =? 3)%Z ;;!
  check (ry_first_failure_at second =? persisted_first_at)%Z ;;!
  let! at_time := now in
  let! last := record_failure (pg_failure consumer primary_key (Some message_id) at_time 99 3 true) in
  check (ry_failure_count last =? 3)%Z ;;!
  check (exhausted last) ;;!
  check (isolation_required last) ;;!
  check (bool_decide (ry_next_retry_at last = None)) ;;!
  let! at_time := now in
  let! sibling := record_failure (pg_failure consumer sibling_key (Some message_id) at_time 2 1 true) in
  check (ry_failure_count sibling =? 1)%Z ;;!
  check (bool_decide (ry_message_id sibling = Some message_id)).

Definition verify_and_clear (persisted_first_at : SystemTime) : norm unit :=
  let! durable_exhausted := load consumer primary_key in
  let! durable_exhausted := expect durable_exhausted "exhausted state must remain durable" in
  check (ry_failure_count durable_exhausted =? 3)%Z ;;!
  check (ry_retry_budget durable_exhausted =? 3)%Z ;;!
  check (ry_first_failure_at durable_exhausted =? persisted_first_at)%Z ;;!
  check (isolation_required durable_exhausted) ;;!
  let! durable_sibling := load consumer sibling_key in
  let! durable_sibling := expect durable_sibling "sibling delivery state must exist independently" in
  check (ry_failure_count durable_sibling =? 1)%Z ;;!
  check (negb (isolation_required durable_sibling)) ;;!
  clear consumer primary_key ;;!
  clear consumer sibling_key ;;!
  let! primary := load consumer primary_key in
  check (is_none primary) ;;!
  let! sibling := load consumer sibling_key in
  check (is_none sibling).

Definition retry_state_survives_reconnect_and_preserves_delivery_identity : norm unit :=
  let! persisted_first_at := establish_lifecycle in
  advance_to_exhaustion persisted_first_at ;;!
  verify_and_clear persisted_first_at.
End Development.

(** Both suites pass, and the table is empty at the end of the second. *)
Theorem retry_suites_pass :
  preserves_first_failure_and_captured_budget
  && budget_exhaustion_removes_next_retry
  && permanent_failure_requires_isolation_without_faking_attempt_count
  && clear_removes_completed_lifecycle = true /\
  let run := retry_state_survives_reconnect_and_preserves_delivery_identity "normalizer-retry-it" "stream:a"
               "stream:b" rs_message_id world0 in
  run.1 = Ok tt /\ nw_retries run.2 = [].
Proof. vm_compute. by split_and!. Qed.
End RetryTests.

Import RetrySample RetryTests.

(** The history of the first test is one the service can produce. *)
Lemma preserves_regular : Forall (op_regular (fun _ _ => rs_message_id)) preserves_ops.
Proof.
  apply Forall_cons; split; [|apply Forall_singleton];
    (split_and!; [reflexivity|by intros u [= <-]|by repeat constructor|vm_compute; reflexivity|by right]).
Qed.

Lemma fresh_stores_agree : simulates (fun _ _ => rs_message_id) world0 ∅.
Proof. split_and!; [split; constructor|done|done]. Qed.

Lemma memory_store_answers_like_postgres_witness :
  exists first second,
    (perform_ops preserves_ops world0).1 = [Ok (Some first); Ok (Some second)] /\
    (perform_ops preserves_ops (∅ : MemoryRetryStateStore)).1 = [Ok (Some first); Ok (Some second)].
Proof.
  assert (no_retry_faults outside) as Hnf by done. eexists _, _.
  rewrite (proj1 (memory_store_answers_like_postgres (fun _ _ => rs_message_id) preserves_ops world0 ∅
    Hnf fresh_stores_agree preserves_regular)).
  split; vm_compute; reflexivity.
Defined.
