(* ===== verification/RetryConcurrency.v ===== *)
(** * Concurrent clients of the retry table

    Several normalizer instances share [system.normalizer_retry_state].  A call of
    crates/cerbero-normalizer/src/retry_state_postgres.rs is one autocommitted statement,
    except [record_failure]: when its upsert returns no row it reads the row back in a
    second statement, and other clients may run in between.  The file splits the calls at
    their statements, interleaves them in a step relation and proves that every
    interleaving is a sequential history of the in-memory double, with times at the
    precision of the database: no failure is lost or counted twice, and the only trace of a race is the error of a refused failure. *)

From stdpp Require Import relations.
From S2P Require Import Prelude RustStd ContractTypes Validation SignalContract Effects RetryState Metrics NormalizerWorld Database RetryStore RetryStoreSpec RetryDouble.

Section Clients.
Context `{!RetryCodec}.

(** ** Calls, statement by statement *)

(** What an autocommitted statement answers, and the table it leaves *)
Definition statement {A} (context : string) (action : list RetryRow -> result (A * list RetryRow) string)
    (fault : option (string * bool)) (rows : list RetryRow) : result A NormalizerError * list RetryRow :=
  match action rows, fault with
  | Ok (a, t), None => (Ok a, t)
  | Ok (a, t), Some (error, true) => (Err (postgres_error context error), t)
  | _, Some (error, _) => (Err (postgres_error context error), rows)
  | Err error, None => (Err (postgres_error context error), rows)
  | Panic p, None => (Panic p, rows)
  end.

Inductive Client : Type :=
| Calling (op : StoreOp)                (* nothing sent yet *)
| Reloading (failure : RetryFailure)    (* the upsert returned no row *)
| Answered (op : StoreOp) (answer : result (option RetryState) NormalizerError).

(** The check each call makes before it sends anything *)
Definition validated (op : StoreOp) : result unit NormalizerError :=
  match op with
  | OpLoad c k | OpClear c k => validate_key c k
  | OpRecord f => validate_failure f
  end.

(** [load] *)
Definition load_statement (consumer_name message_key : string) (fault : option (string * bool)) (rows : list RetryRow)
    : result (option RetryState) NormalizerError * list RetryRow :=
  match validate_key consumer_name message_key with
  | Ok _ =>
      let (row, rows) := statement "load retry state" (fun rows =>
        let? row := retry_state_select consumer_name message_key rows in Ok (row, rows)) fault rows in
      (let? row := row in
       match row with
       | None => Ok None
       | Some row => let? state := row_to_state row in Ok (Some state)
       end, rows)
  | Err e => (Err e, rows)
  | Panic p => (Panic p, rows)
  end.

Definition isolated_error : NormalizerError :=
  retry_state_error "cannot record another processing failure after isolation became required".
Definition active_error : NormalizerError :=
  postgres_state_error "retry-state upsert returned no row for an active lifecycle".
Definition vanished_error : NormalizerError :=
  postgres_state_error "retry-state upsert returned no row and no durable state exists".

(** What a refused failure is told after the row was read back *)
Definition refusal (state : option RetryState) : NormalizerError :=
  match state with
  | Some state => if isolation_required state then isolated_error else active_error
  | None => vanished_error
  end.

(** The next statement of a call *)
Definition client_step (fault : option (string * bool)) (client : Client) (rows : list RetryRow)
    : Client * list RetryRow :=
  match client with
  | Calling op =>
      match validated op with
      | Ok _ =>
          match op with
          | OpLoad c k => let (answer, rows) := load_statement c k fault rows in (Answered op answer, rows)
          | OpRecord f =>
              let (row, rows) := statement "record retry failure" (retry_state_upsert f) fault rows in
              (match row with
               | Ok None => Reloading f
               | Ok (Some row) => Answered op (let? state := row_to_state row in Ok (Some state))
               | Err e => Answered op (Err e)
               | Panic p => Answered op (Panic p)
               end, rows)
          | OpClear c k =>
              let (answer, rows) := statement "clear retry state" (fun rows =>
                let? rows := retry_state_delete c k rows in Ok (tt, rows)) fault rows in
              (Answered op (answer ;;? Ok None), rows)
          end
      | Err e => (Answered op (Err e), rows)
      | Panic p => (Answered op (Panic p), rows)
      end
  | Reloading f =>
      let (answer, rows) := load_statement (rf_consumer_name f) (rf_message_key f) fault rows in
      (Answered (OpRecord f) (let? state := answer in Err (refusal state)), rows)
  | Answered op answer => (client, rows)
  end.

(** ** A client that runs alone is a call of the store *)

Section Alone.
Context `{!Outside}.

Lemma run_query_statement {A} context effect (action : list RetryRow -> result (A * list RetryRow) string) w :
  let out := statement context action (retry_fault (nw_step w)) (nw_retries w) in
  exists w', run_query context effect action w = (out.1, w') /\ nw_retries w' = out.2 /\ nw_step w' = S (nw_step w).
Proof.
  unfold statement, run_query. destruct (action (nw_retries w)) as [[a t]|e|p], (retry_fault (nw_step w)) as [[error []]|];
    try destruct (effect a); by eexists.
Qed.

Lemma load_alone c k w :
  let out := load_statement c k (retry_fault (nw_step w)) (nw_retries w) in
  exists w', load c k w = (out.1, w') /\ nw_retries w' = out.2.
Proof.
  unfold load_statement, load. destruct (validate_key c k) as [[]|e|p]; [|by exists w..].
  erewrite (io_bind_run (io_lift (Ok tt))) by reflexivity.
  destruct (run_query_statement "load retry state" (fun _ => None)
    (fun rows => let? row := retry_state_select c k rows in Ok (row, rows)) w) as (w' & Hrun & Hrows & _).
  cbv zeta in *. unfold io_bind. rewrite Hrun. destruct (statement _ _ _ _) as [[[row|]|e|p] rows]; simpl in *;
    [destruct (row_to_state row)|..]; by eexists.
Qed.

(** Without other clients between its statements, and with the faults the outside decides,
    a client ends with the answer and the table of the store. *)
Lemma client_alone op w r w' :
  perform_op op w = (r, w') ->
  let first := client_step (retry_fault (nw_step w)) (Calling op) (nw_retries w) in
  first = (Answered op r, nw_retries w') \/
  exists f rows, op = OpRecord f /\ first = (Reloading f, rows) /\
    client_step (retry_fault (S (nw_step w))) (Reloading f) rows = (Answered op r, nw_retries w').
Proof.
  intros Hrun. cbv zeta. destruct op as [c k|f|c k];
    cbn [perform_op store_load store_record_failure store_clear PostgresRetryStateStore] in Hrun; cbn [client_step validated].
  - left. destruct (load_alone c k w) as (w1 & Hload & Hrows). rewrite Hload in Hrun. injection Hrun as <- <-.
    rewrite Hrows. destruct (validate_key c k) as [[]|e|p] eqn:Hv; [by destruct (load_statement _ _ _ _)|..];
      unfold load_statement; by rewrite Hv.
  - unfold record_failure in Hrun. destruct (validate_failure f) as [[]|e|p]; [|left; by injection Hrun as <- <-..].
    destruct (run_query_statement "record retry failure"
      (fmap (fun _ => RetryStored (rf_consumer_name f) (rf_message_key f))) (retry_state_upsert f) w)
      as (w1 & Hq & Hrows & Hstep). cbv zeta in *.
    unfold io_bind, io_lift, io_ret in Hrun. rewrite Hq in Hrun.
    destruct (statement _ _ _ _) as [[[row|]|e|p] rows]; simpl in *.
    + left. destruct (row_to_state row); by simplify_eq/=.
    + right. exists f, rows. split_and!; [done..|].
      destruct (load_alone (rf_consumer_name f) (rf_message_key f) w1) as (w2 & Hload & Hrows2).
      rewrite Hload in Hrun. rewrite Hstep, Hrows in *.
      destruct (load_statement _ _ _ _) as [[[s|]|e|p] rows2]; simpl in *; [|by simplify_eq/=..].
      destruct (isolation_required s); by simplify_eq/=.
    + left. by simplify_eq/=.
    + left. by simplify_eq/=.
  - left. unfold clear in Hrun. destruct (validate_key c k) as [[]|e|p]; [|by injection Hrun as <- <-..].
    destruct (run_query_statement "clear retry state" (fun _ => Some (RetryCleared c k))
      (fun rows => let? rows := retry_state_delete c k rows in Ok (tt, rows)) w) as (w1 & Hq & Hrows & _). cbv zeta in *.
    unfold io_bind, io_lift, io_ret in Hrun. rewrite Hq in Hrun.
    destruct (statement _ _ _ _) as [[[]|e|p] rows]; by simplify_eq/=.
Qed.
End Alone.

(** ** Interleavings *)

(** The table, the clients, and the operations in the order they took effect *)
Record Config := mkConfig {
  cf_rows : list RetryRow;
  cf_clients : list Client;
  cf_log : list (nat * StoreOp);
}.

(** A statement whose answer is lost may have taken effect. *)
Definition took_effect (fault : option (string * bool)) : bool :=
  match fault with Some (_, applied) => applied | None => true end.

(** The texts of a call; the database takes none that holds a NUL. *)
Definition op_texts (op : StoreOp) : list string :=
  match op with
  | OpLoad c k | OpClear c k => [c; k]
  | OpRecord f => [rf_consumer_name f; rf_message_key f; rf_error_code f; rf_error_message f]
  end.
Definition op_storable (op : StoreOp) : bool := forallb (fun text => negb (contains_char zero text)) (op_texts op).

(** A call with its times at the precision of the database *)
Definition at_precision (op : StoreOp) : StoreOp :=
  match op with OpRecord f => OpRecord (stored_failure f) | _ => op end.

(** A call takes effect at its first statement. *)
Definition linearized (i : nat) (client : Client) (fault : option (string * bool)) : list (nat * StoreOp) :=
  match client with
  | Calling op =>
      match validated op with
      | Ok _ => if took_effect fault && op_storable op then [(i, at_precision op)] else []
      | _ => []
      end
  | _ => []
  end.

Context (message_of : string -> string -> Uuid).

(** A call the service can make: integers of their machine types, and one message
    identity per delivery key *)
Definition op_admissible (op : StoreOp) : Prop :=
  match op with
  | OpLoad _ _ | OpClear _ _ => True
  | OpRecord f =>
      failure_typed f /\ id_typed (rf_message_id f) /\
      of_message message_of (rf_consumer_name f) (rf_message_key f) (rf_message_id f)
  end.

Inductive step : Config -> Config -> Prop :=
| step_call rows clients log op :
    op_admissible op ->
    step (mkConfig rows clients log) (mkConfig rows (clients ++ [Calling op]) log)
| step_client rows clients log i client fault client' rows' :
    clients !! i = Some client -> client_step fault client rows = (client', rows') ->
    step (mkConfig rows clients log) (mkConfig rows' (<[i := client']> clients) (log ++ linearized i client fault)).

(** ** The sequential history *)

Definition op_key (op : StoreOp) : string * string :=
  match op with
  | OpLoad c k | OpClear c k => (c, k)
  | OpRecord f => (rf_consumer_name f, rf_message_key f)
  end.

(** Position [n] of the log is followed by a clear of its key. *)
Definition cleared_after (log : list (nat * StoreOp)) (n : nat) (key : string * string) : Prop :=
  exists m j, n < m /\ log !! m = Some (j, OpClear key.1 key.2).

(** What a client is told of an operation that took effect at position [n], where the
    sequential history answers [expected] *)
Inductive told (log : list (nat * StoreOp)) (n : nat) (key : string * string)
    : result (option RetryState) NormalizerError -> result (option RetryState) NormalizerError -> Prop :=
| told_answer expected : told log n key expected expected
| told_lost expected context error : told log n key expected (Err (postgres_error context error))
| told_raced error :
    error = active_error \/ error = vanished_error -> cleared_after log n key ->
    told log n key (Err isolated_error) (Err error).

(** What a client is told of an operation that did not take effect *)
Definition told_nothing (op : StoreOp) (answer : result (option RetryState) NormalizerError) : Prop :=
  (exists context error, answer = Err (postgres_error context error)) \/
  (exists e, validated op = Err e /\ answer = Err e).

Definition settled (log : list (nat * StoreOp)) (answers : list (result (option RetryState) NormalizerError))
    (i : nat) (op : StoreOp) (answer : result (option RetryState) NormalizerError) : Prop :=
  (exists n expected, log !! n = Some (i, at_precision op) /\ answers !! n = Some expected /\ told log n (op_key op) expected answer) \/
  ((i ∉ log.*1) /\ told_nothing op answer).

Definition isolated (states : MemoryRetryStateStore) (key : string * string) : Prop :=
  exists s, states !! key = Some s /\ isolation_required s = true.

Definition client_inv (log : list (nat * StoreOp)) (answers : list (result (option RetryState) NormalizerError))
    (states : MemoryRetryStateStore) (i : nat) (client : Client) : Prop :=
  match client with
  | Calling op => op_admissible op /\ i ∉ log.*1
  | Reloading f =>
      text_storable f /\ failure_ok f /\
      exists n, log !! n = Some (i, OpRecord (stored_failure f)) /\ answers !! n = Some (Err isolated_error) /\
        (isolated states (op_key (OpRecord f)) \/ cleared_after log n (op_key (OpRecord f)))
  | Answered op answer => settled log answers i op answer
  end.

Lemma perform_ops_snoc `{!RetryStateStore W} ops op (w : W) :
  perform_ops (ops ++ [op]) w =
    ((perform_ops ops w).1 ++ [(perform_op op (perform_ops ops w).2).1], (perform_op op (perform_ops ops w).2).2).
Proof.
  revert w. induction ops as [|o ops IH]; intros w; simpl; [by destruct (perform_op op w)|].
  destruct (perform_op o w) as [a w1]. rewrite IH. by destruct (perform_ops ops w1).
Qed.

(** ** One more effect leaves the other clients as they are *)

Lemma cleared_after_snoc log n key e : cleared_after log n key -> cleared_after (log ++ [e]) n key.
Proof. intros (m & j & ? & ?). exists m, j. split; [done|]. by apply lookup_app_l_Some. Qed.

Lemma told_snoc log n key expected answer e :
  told log n key expected answer -> told (log ++ [e]) n key expected answer.
Proof. intros []; constructor; [done|by apply cleared_after_snoc]. Qed.

(** Only a clear ends an isolation. *)
Lemma isolated_kept (states : MemoryRetryStateStore) key op :
  (forall s, states !! key = Some s -> lifecycle_ok s /\ (ry_consumer_name s, ry_message_key s) = key) ->
  isolated states key -> op <> OpClear key.1 key.2 -> isolated (perform_op op states).2 key.
Proof.
  intros Hok (s & Hs & Hiso) Hop. unfold isolated, MemoryRetryStateStore in *. destruct op as [c k|f|c k]; cbn.
  - unfold memory_load, io_bind, io_lift. destruct (validate_key c k); by exists s.
  - unfold memory_record_failure, io_bind, io_ret.
    destruct (advance_retry_state _ f) as [s'|e|p] eqn:Hadv; cbn; [|by exists s..].
    destruct (decide ((rf_consumer_name f, rf_message_key f) = key)) as [Hkey|Hkey].
    + exfalso. destruct (Hok s Hs) as ((Hst & Hty & _) & Hsk). assert (advance_retry_state (Some s) f = Ok s') as Hadv'
        by (rewrite <-Hs, <-Hkey; exact Hadv).
      assert (failure_ok f) as Hf.
      { unfold advance_retry_state in Hadv. apply bind_unit_ok_iff in Hadv as [Hv _]. by apply validate_failure_ok_iff. }
      rewrite advance_next in Hadv'; [|done..|by rewrite <-Hkey in Hsk; injection Hsk].
      by rewrite Hiso in Hadv'.
    + exists s. split; [|done]. etrans; [by apply (lookup_insert_ne (M := gmap (string * string)))|done].
  - unfold memory_clear, io_bind, io_lift, io_ret. destruct (validate_key c k); cbn; [|by exists s..].
    exists s. split; [|done]. etrans; [apply (lookup_delete_ne (M := gmap (string * string)))|done].
    intros <-. by apply Hop.
Qed.

Context `{!RetryCodecLaws}.

Definition world_of (rows : list RetryRow) : NormalizerWorld := mkNormalizerWorld rows metrics_default [] 0.

Lemma simulated_key rows states key s :
  simulates message_of (world_of rows) states -> states !! key = Some s ->
  lifecycle_ok s /\ (ry_consumer_name s, ry_message_key s) = key.
Proof.
  destruct key as [c k]. intros (Hw & Hmap & _) Hs. rewrite Hmap in Hs.
  destruct (lifecycle_of_key _ _ _ _ Hw Hs) as (? & <- & <-). done.
Qed.

Lemma client_inv_snoc rows states log answers i client j op :
  simulates message_of (world_of rows) states -> length answers = length log -> i <> j ->
  client_inv log answers states i client ->
  client_inv (log ++ [(j, op)]) (answers ++ [(perform_op op states).1]) (perform_op op states).2 i client.
Proof.
  intros Hsim Hlen Hij. assert (forall l : list (nat * StoreOp), i ∉ l.*1 -> i ∉ (l ++ [(j, op)]).*1) as Hfresh.
  { intros l Hl. rewrite fmap_app. by intros [?|?%list_elem_of_singleton]%elem_of_app. }
  destruct client as [op'|f|op' answer]; simpl.
  - intros [? ?]. auto.
  - intros (Hreg & Hf & n & Hn & Ha & Hiso). split; [exact Hreg|]. split; [exact Hf|]. exists n.
    split_and!; [by apply lookup_app_l_Some..|]. set (key := (rf_consumer_name f, rf_message_key f)) in *.
    destruct Hiso as [Hiso|Hiso]; [|right; by apply cleared_after_snoc].
    assert (op = OpClear key.1 key.2 \/ op <> OpClear key.1 key.2) as [-> |Hop].
    { destruct op as [| |c k]; [by right..|]. destruct (decide ((c, k) = key)) as [Hk|Hk].
      - left. by rewrite <-Hk.
      - right. intros [= -> ->]. by apply Hk. }
    + right. exists (length log), j. split; [by eapply lookup_lt_Some|]. by apply list_lookup_middle.
    + left. apply isolated_kept; [|done|done]. intros s. by apply (simulated_key rows).
  - intros [(n & expected & Hn & Ha & Ht)|[Hi Ht]]; [left|right; auto].
    exists n, expected. split_and!; [by apply lookup_app_l_Some..|by apply told_snoc].
Qed.

(** ** The first statement of a call *)

(** A statement that fails takes effect as it would have, or not at all. *)
Lemma faulty_statement op error (applied : bool) rows :
  validated op = Ok tt ->
  exists context, client_step (Some (error, applied)) (Calling op) rows =
    (Answered op (Err (postgres_error context error)), if applied then (client_step None (Calling op) rows).2 else rows).
Proof.
  intros Hv. unfold client_step. rewrite Hv. destruct op as [c k|f|c k]; unfold load_statement, statement.
  - simpl in Hv. rewrite Hv. exists "load retry state". destruct (retry_state_select c k rows), applied; done.
  - exists "record retry failure". destruct (retry_state_upsert f rows) as [[? ?]|?|?], applied; done.
  - exists "clear retry state". destruct (retry_state_delete c k rows), applied; done.
Qed.

Lemma reload_keeps_rows fault f rows : (client_step fault (Reloading f) rows).2 = rows.
Proof.
  unfold client_step, load_statement, statement. destruct (validate_key _ _) as [[]|e|p]; [|done..].
  destruct (retry_state_select _ _ rows) as [row|e|p], fault as [[error []]|]; done.
Qed.

(** An upsert without a row means that the lifecycle is isolated. *)
Lemma refused_isolated f rows rows' states :
  simulates message_of (world_of rows) states -> op_admissible (OpRecord f) -> text_storable f ->
  client_step None (Calling (OpRecord f)) rows = (Reloading f, rows') ->
  failure_ok f /\ rows' = rows /\ perform_op (OpRecord (stored_failure f)) states = (Err isolated_error, states) /\
  isolated states (op_key (OpRecord f)).
Proof.
  intros (Hw & Hmap & _) (Hty & Hid & _) Htext Hstep. simpl in Hstep.
  destruct (validate_failure f) as [[]|e|p] eqn:Hv; [|done..]. apply validate_failure_ok_iff in Hv.
  destruct (upsert_spec f rows Hw Hv Hty Hid Htext) as (out & rows1 & Hup & _ & Hout).
  unfold statement in Hstep. rewrite Hup in Hstep. destruct out as [row|]; [done|]. injection Hstep as <-.
  specialize (Hmap (rf_consumer_name f) (rf_message_key f)). simpl in Hmap.
  destruct (lifecycle rows (rf_consumer_name f) (rf_message_key f)) as [s|] eqn:Hl; [|by destruct Hout].
  destruct (isolation_required s) eqn:Hiso; destruct Hout as [? Hrows]; [|done].
  split_and!; [done|done| |by exists s].
  destruct (lifecycle_of_key _ _ _ _ Hw Hl) as ((? & ? & _) & ? & ?). cbn. unfold io_bind, memory_record_failure.
  replace (states !! (rf_consumer_name f, rf_message_key f)) with (Some s) by (symmetry; exact Hmap).
  rewrite advance_next, Hiso by (done || by apply stored_failure_ok). done.
Qed.

Lemma storable_texts op :
  op_storable op = true <-> Forall (fun text => contains_char zero text = false) (op_texts op).
Proof.
  unfold op_storable. rewrite forallb_forall, Forall_forall. setoid_rewrite negb_true_iff.
  by setoid_rewrite list_elem_of_In.
Qed.

Lemma key_refused {A} c k (r : result A string) :
  ~ Forall (fun text => contains_char zero text = false) [c; k] ->
  exists e, (sql_text c ;;? sql_text k ;;? r) = Err e.
Proof.
  rewrite !Forall_cons. unfold sql_text, reject_if. intros Hn.
  destruct (contains_char zero c); [by eexists|]. destruct (contains_char zero k); [by eexists|].
  destruct Hn. by split_and!.
Qed.

(** A call whose texts the database does not take changes nothing. *)
Lemma unstorable_call op fault rows :
  validated op = Ok tt -> op_storable op = false ->
  exists context error, client_step fault (Calling op) rows = (Answered op (Err (postgres_error context error)), rows).
Proof.
  intros Hv Hs. assert (~ Forall (fun text => contains_char zero text = false) (op_texts op)) as Hn
    by (rewrite <-storable_texts, Hs; done).
  unfold client_step. rewrite Hv. destruct op as [c k|f|c k]; simpl in Hv, Hn.
  - unfold load_statement, statement, retry_state_select. rewrite Hv.
    destruct (key_refused c k (Ok (List.find (has_key c k) rows)) Hn) as [e ->].
    destruct fault as [[error []]|]; by do 2 eexists.
  - unfold statement. destruct (retry_state_upsert f rows) as [r|e|p] eqn:Hup; [by apply upsert_text in Hup|..].
    + destruct fault as [[error []]|]; by do 2 eexists.
    + exfalso. revert p Hup. change (no_panic (retry_state_upsert f rows)). unfold retry_state_upsert. no_panic.
  - unfold statement, retry_state_delete.
    destruct (key_refused c k (Ok (List.filter (fun row => negb (has_key c k row)) rows)) Hn) as [e ->].
    destruct fault as [[error []]|]; by do 2 eexists.
Qed.

(** What PostgreSQL answers a call, the double answers it at the precision of the database. *)
Lemma op_precise `{!Outside} w states op :
  no_retry_faults _ -> simulates message_of w states -> op_admissible op -> op_storable op = true ->
  validated op = Ok tt ->
  exists r w' states', perform_op op w = (r, w') /\ perform_op (at_precision op) states = (r, states') /\
    simulates message_of w' states'.
Proof.
  intros Hnf Hsim Hop Hs%storable_texts Hv. destruct op as [c k|f|c k].
  - apply op_simulated; [done..|]. simpl in Hs. rewrite !Forall_cons in Hs. naive_solver.
  - destruct Hop as (Hty & Hid & Hmsg). apply validate_failure_ok_iff in Hv.
    destruct (record_precise message_of w states f Hnf Hsim Hty Hid Hs Hmsg Hv) as (w' & Hrun & Hsim').
    cbn [perform_op at_precision store_record_failure PostgresRetryStateStore MemoryRetryStateStore_store].
    unfold io_bind, io_ret. rewrite Hrun. destruct (memory_record_failure (stored_failure f) states) as [r states'].
    destruct r; by eexists _, _, _.
  - apply op_simulated; [done..|]. simpl in Hs. rewrite !Forall_cons in Hs. naive_solver.
Qed.

(** What a client may hold after an operation took effect *)
Definition after_effect (op : StoreOp) (states : MemoryRetryStateStore) (client : Client) : Prop :=
  match client with
  | Calling _ => False
  | Reloading f =>
      op = OpRecord f /\ text_storable f /\ failure_ok f /\
      (perform_op (at_precision op) states).1 = Err isolated_error /\
      isolated (perform_op (at_precision op) states).2 (op_key op)
  | Answered op' answer =>
      op' = op /\
      (answer = (perform_op (at_precision op) states).1 \/ exists context error, answer = Err (postgres_error context error))
  end.

Lemma statement_effect op rows states client rows' :
  simulates message_of (world_of rows) states -> op_admissible op -> op_storable op = true -> validated op = Ok tt ->
  client_step None (Calling op) rows = (client, rows') ->
  simulates message_of (world_of rows') (perform_op (at_precision op) states).2 /\ after_effect op states client.
Proof.
  intros Hsim Hreg Hst Hv Hstep. pose (O := RetrySample.outside).
  destruct (op_precise (world_of rows) states op) as (r & w' & states' & Hrun & Hmem & Hsim'); [done..|].
  apply client_alone in Hrun as [Hfirst|(f & rows1 & -> & Hfirst & Hre)]; cbn [retry_fault O RetrySample.outside world_of nw_retries] in Hfirst;
    rewrite Hstep in Hfirst.
  - injection Hfirst as -> ->. rewrite Hmem. split; [exact Hsim'|]. split; [done|]. left. by rewrite Hmem.
  - injection Hfirst as -> ->. pose proof (proj1 (storable_texts _) Hst) as Htext.
    destruct (refused_isolated f rows rows1 states) as (Hf & -> & Hop & Hiso); [done..|].
    unfold after_effect. cbn [at_precision]. rewrite Hop. by split_and!.
Qed.

(** ** The second statement of a refused failure *)

Lemma reload_answer fault f rows states :
  simulates message_of (world_of rows) states -> text_storable f -> failure_ok f ->
  exists answer, client_step fault (Reloading f) rows = (Answered (OpRecord f) answer, rows) /\
    (answer = Err (refusal (states !! op_key (OpRecord f))) \/
     exists context error, answer = Err (postgres_error context error)).
Proof.
  intros (Hw & Hmap & _) Htext (Hkey & _). pose (O := RetrySample.outside).
  unfold text_storable in Htext. rewrite !Forall_cons in Htext. destruct Htext as (Hc & Hk & _).
  pose proof (load_spec (world_of rows) _ _ (fun _ => eq_refl) Hw Hkey Hc Hk) as Hload.
  destruct (load_alone (rf_consumer_name f) (rf_message_key f) (world_of rows)) as (w' & Hload' & _).
  cbv zeta in Hload'. rewrite Hload in Hload'. injection Hload' as Hanswer _.
  pose proof (reload_keeps_rows fault f rows) as Hrows. unfold client_step in *.
  assert (fault = None \/ exists error applied, fault = Some (error, applied)) as [-> |(error & applied & ->)].
  { destruct fault as [[error applied]|]; eauto. }
  - change (retry_fault (nw_step (world_of rows))) with (@None (string * bool)) in Hanswer.
    change (nw_retries (world_of rows)) with rows in *.
    destruct (load_statement _ _ None rows) as [answer rows']. simpl in *. subst rows' answer.
    eexists. split; [done|]. left. simpl. by rewrite Hmap.
  - unfold load_statement, statement in *. rewrite (proj2 (validate_key_ok_iff _ _) Hkey).
    eexists. split; [|right; by exists "load retry state", error].
    destruct (retry_state_select _ _ rows), applied; done.
Qed.

(** ** The invariant *)

Lemma perform_ops_length `{!RetryStateStore W} ops (w : W) : length (perform_ops ops w).1 = length ops.
Proof.
  revert w. induction ops as [|op ops IH]; intros w; simpl; [done|]. destruct (perform_op op w) as [a w1].
  specialize (IH w1). destruct (perform_ops ops w1). simpl in *. by rewrite IH.
Qed.

Record consistent (states0 : MemoryRetryStateStore) (cf : Config) : Prop := {
  consistent_table : simulates message_of (world_of (cf_rows cf)) (perform_ops (cf_log cf).*2 states0).2;
  consistent_once : NoDup (cf_log cf).*1;
  consistent_known : Forall (fun i => i < length (cf_clients cf)) (cf_log cf).*1;
  consistent_clients : forall i client, cf_clients cf !! i = Some client ->
    client_inv (cf_log cf) (perform_ops (cf_log cf).*2 states0).1 (perform_ops (cf_log cf).*2 states0).2 i client;
}.

(** A client that moves without an effect *)
Lemma quiet_step states0 rows clients log i client' :
  consistent states0 (mkConfig rows clients log) ->
  client_inv log (perform_ops log.*2 states0).1 (perform_ops log.*2 states0).2 i client' ->
  consistent states0 (mkConfig rows (<[i := client']> clients) log).
Proof.
  intros [Ht Ho Hk Hc] Hnew. split; simpl in *; [done|done|by rewrite length_insert|].
  intros j client. rewrite list_lookup_insert_Some. intros [(<- & <- & _)|[_ Hj]]; auto.
Qed.

(** A client whose operation takes effect *)
Lemma effect_step states0 rows rows' clients log i op client' :
  let states := (perform_ops log.*2 states0).2 in
  consistent states0 (mkConfig rows clients log) -> clients !! i = Some (Calling op) ->
  simulates message_of (world_of rows') (perform_op (at_precision op) states).2 -> after_effect op states client' ->
  consistent states0 (mkConfig rows' (<[i := client']> clients) (log ++ [(i, at_precision op)])).
Proof.
  intros states [Ht Ho Hk Hc] Hi Hsim Hafter. simpl in *. destruct (Hc i _ Hi) as [Hreg Hfresh].
  assert (length (perform_ops log.*2 states0).1 = length log) as Hlen by by rewrite perform_ops_length, length_fmap.
  split; simpl; rewrite fmap_app; simpl.
  - by rewrite perform_ops_snoc.
  - apply NoDup_app. split_and!; [done| |apply NoDup_singleton]. by intros j Hj ->%list_elem_of_singleton.
  - rewrite length_insert. apply Forall_app. split; [done|]. apply Forall_singleton. by eapply lookup_lt_Some.
  - rewrite perform_ops_snoc. intros j client. simpl. fold states.
    rewrite list_lookup_insert_Some. intros [(<- & <- & _)|[Hij Hj]]; [|by apply (client_inv_snoc rows); auto].
    assert ((log ++ [(i, at_precision op)]) !! length log = Some (i, at_precision op)) as Hpos by by apply list_lookup_middle.
    assert (forall a, ((perform_ops log.*2 states0).1 ++ [a]) !! length log = Some a) as Hans.
    { intros a. rewrite <-Hlen. by apply list_lookup_middle. }
    destruct client' as [op'|f|op' answer]; [done|..]; simpl in Hafter.
    + destruct Hafter as (-> & Htext & Hf & Ha & Hiso). rewrite Ha. split; [exact Htext|]. split; [exact Hf|].
      exists (length log). split_and!; [done|by apply Hans|by left].
    + destruct Hafter as [-> Ha]. left. eexists (length log), _. split_and!; [done|by apply Hans|].
      destruct Ha as [-> |(context & error & ->)]; constructor.
Qed.

(** A refused failure is told of its isolation, unless the lifecycle was cleared meanwhile. *)
Lemma reload_told log n key (states : MemoryRetryStateStore) answer :
  isolated states key \/ cleared_after log n key ->
  answer = Err (refusal (states !! key)) \/ (exists context error, answer = Err (postgres_error context error)) ->
  told log n key (Err isolated_error) answer.
Proof.
  intros Hiso [-> |(context & error & ->)]; [|constructor]. destruct Hiso as [(s & -> & Hs)|Hclear]; simpl.
  - rewrite Hs. constructor.
  - destruct (states !! key) as [s|]; simpl; [destruct (isolation_required s)|]; [constructor|..]; apply told_raced; auto.
Qed.

Lemma validated_no_panic op : no_panic (validated op).
Proof. destruct op; simpl; [apply validate_key_no_panic| |apply validate_key_no_panic]. unfold validate_failure, validate_key. no_panic. Qed.

Lemma calling_step states0 rows clients log i op fault client' rows' :
  consistent states0 (mkConfig rows clients log) -> clients !! i = Some (Calling op) ->
  client_step fault (Calling op) rows = (client', rows') ->
  consistent states0 (mkConfig rows' (<[i := client']> clients) (log ++ linearized i (Calling op) fault)).
Proof.
  intros Hcons Hi Hstep. pose proof (consistent_table _ _ Hcons) as Hsim.
  destruct (consistent_clients _ _ Hcons i _ Hi) as [Hreg Hfresh]. simpl in Hsim, Hfresh.
  cbn [linearized]. destruct (validated op) as [[]|e|p] eqn:Hv.
  - destruct (op_storable op) eqn:Hst; rewrite ?andb_true_r, ?andb_false_r.
    2: { rewrite app_nil_r. destruct (unstorable_call op fault rows Hv Hst) as (context & error & Hun).
         rewrite Hun in Hstep. injection Hstep as <- <-. apply quiet_step; [done|]. right. split; [done|].
         left. by exists context, error. }
    destruct fault as [[error applied]|]; cbn [took_effect].
    + destruct (faulty_statement op error applied rows Hv) as [context Hf].
      destruct (client_step None (Calling op) rows) as [client1 rows1] eqn:Hnone. rewrite Hf in Hstep.
      injection Hstep as <- <-. destruct applied.
      * destruct (statement_effect _ _ _ _ _ Hsim Hreg Hst Hv Hnone) as [Hsim' _].
        apply (effect_step states0 rows rows1); [done|done|exact Hsim'|]. split; [done|]. right. by exists context, error.
      * rewrite app_nil_r. apply quiet_step; [done|]. right. split; [done|]. left. by exists context, error.
    + destruct (statement_effect _ _ _ _ _ Hsim Hreg Hst Hv Hstep) as [Hsim' Hafter]. by apply (effect_step states0 rows).
  - rewrite app_nil_r. unfold client_step in Hstep. rewrite Hv in Hstep. injection Hstep as <- <-.
    apply quiet_step; [done|]. right. split; [done|]. right. by exists e.
  - by apply validated_no_panic in Hv.
Qed.

Lemma step_consistent states0 cf cf' : step cf cf' -> consistent states0 cf -> consistent states0 cf'.
Proof.
  intros [rows clients log op Hreg|rows clients log i client fault client' rows' Hi Hstep] Hcons.
  - destruct Hcons as [Ht Ho Hk Hc]. simpl in *. split; simpl; [done|done| |].
    + eapply Forall_impl; [exact Hk|]. intros j Hj. rewrite length_app. simpl in *. lia.
    + intros j client [Hj|[Hge [Hj <-]%list_lookup_singleton_Some]]%lookup_app_Some; [auto|]. split; [done|].
      intros Hin. rewrite Forall_forall in Hk. specialize (Hk j Hin). lia.
  - pose proof (consistent_table _ _ Hcons) as Hsim. pose proof (consistent_clients _ _ Hcons i client Hi) as Hinv.
    cbn [cf_rows cf_log] in Hsim, Hinv. destruct client as [op|f|op answer].
    + by eapply calling_step.
    + destruct Hinv as (Htext & Hf & n & Hn & Ha & Hiso). simpl. rewrite app_nil_r.
      destruct (reload_answer fault f rows _ Hsim Htext Hf) as (answer & Hrun & Hanswer). rewrite Hrun in Hstep.
      injection Hstep as <- <-. apply quiet_step; [done|]. left. exists n, (Err isolated_error). split_and!; [done..|].
      by eapply reload_told.
    + injection Hstep as <- <-. simpl. rewrite app_nil_r. by apply quiet_step.
Qed.

Lemma log_grows cf cf' : rtc step cf cf' -> cf_log cf `prefix_of` cf_log cf'.
Proof.
  induction 1 as [|cf1 cf2 cf3 Hstep _ IH]; [done|]. etrans; [|exact IH]. destruct Hstep; simpl; [done|by eexists].
Qed.
End Clients.

(** C15: Any number of normalizer instances may use the retry table at once: however the
    statements of their calls interleave, and whatever answers are lost, the calls that
    took effect form a sequential history (a log that only grows, each call at its first
    statement, its times at the precision of the database) and the table holds what the
    in-memory double holds after it.  The calls are any, with nanosecond times and any
    texts (one with a NUL is refused by the database and takes no effect), but failures
    of one delivery key that name a message must name the same one.  Every answered client
    is told what the double answers at its place in the history, or that the database
    failed, or that its input is invalid; so no failure is lost or counted twice.  The one
    exception is a failure refused because its lifecycle was isolated, when another client
    clears that lifecycle before the row is read back: it gets one of the two errors for a
    row that is active or gone. *)
Theorem retry_clients_linearizable `{!RetryCodec} `{!RetryCodecLaws} message_of rows0 states0 cf :
  simulates message_of (world_of rows0) states0 -> rtc (step message_of) (mkConfig rows0 [] []) cf ->
  let history := perform_ops (cf_log cf).*2 states0 in
  simulates message_of (world_of (cf_rows cf)) history.2 /\
  NoDup (cf_log cf).*1 /\
  (forall i op answer, cf_clients cf !! i = Some (Answered op answer) -> settled (cf_log cf) history.1 i op answer) /\
  (forall cf', rtc (step message_of) cf cf' -> cf_log cf `prefix_of` cf_log cf').
Proof.
  intros Hsim Hrtc history.
  assert (consistent message_of states0 cf) as [Ht Ho _ Hc].
  { assert (consistent message_of states0 (mkConfig rows0 [] [])) as Hinit by (split; [done|constructor|constructor|done]).
    revert Hinit. induction Hrtc as [|cf1 cf2 cf3 Hstep _ IH]; [done|]. intros H1. by apply IH, (step_consistent _ _ cf1). }
  split_and!; [done|done| |apply log_grows]. intros i op answer Hi. exact (Hc i _ Hi).
Qed.

(** ** A race *)

Module RaceSample.
Import RetrySample RetryTests.

(** A scheduler: new calls, and the next statement of a client *)
Inductive Move : Type := Call (op : StoreOp) | Send (i : nat) (fault : option (string * bool)).

Definition do_move (cf : Config) (m : Move) : Config :=
  match m with
  | Call op => mkConfig (cf_rows cf) (cf_clients cf ++ [Calling op]) (cf_log cf)
  | Send i fault =>
      match cf_clients cf !! i with
      | Some client =>
          let (client', rows') := client_step fault client (cf_rows cf) in
          mkConfig rows' (<[i := client']> (cf_clients cf)) (cf_log cf ++ linearized i client fault)
      | None => cf
      end
  end.

Definition move_regular (m : Move) : Prop :=
  match m with Call op => op_admissible (fun _ _ => rs_message_id) op | Send _ _ => True end.

Lemma moves_steps moves cf : Forall move_regular moves -> rtc (step (fun _ _ => rs_message_id)) cf (foldl do_move cf moves).
Proof.
  intros Hm. revert cf. induction Hm as [|m moves Hm _ IH]; intros cf; simpl; [done|]. etrans; [|apply IH].
  destruct cf as [rows clients log], m as [op|i fault]; simpl; [by apply rtc_once, step_call|].
  destruct (clients !! i) as [client|] eqn:Hi; [|done]. destruct (client_step fault client rows) as [client' rows'] eqn:Hs.
  by apply rtc_once, step_client.
Qed.

(** A failure that needs isolation at once, and another one for the same delivery, at
    times the database does not hold exactly *)
Definition fatal : RetryFailure := rs_failure "stream:9" (Some rs_message_id) (epoch_secs 10 + 7)%Z 3 1 false.
Definition late : RetryFailure := rs_failure "stream:9" (Some rs_message_id) (epoch_secs 11 + 9)%Z 3 2 true.

(** The second failure is refused, and the lifecycle cleared before it is read back;
    the answer of the clear is lost. *)
Definition race : list Move :=
  [Call (OpRecord fatal); Call (OpRecord late); Call (OpClear "normalizer" "stream:9");
   Send 0 None; Send 1 None; Send 2 (Some ("connection reset", true)); Send 1 None].

Definition raced : Config := foldl do_move (mkConfig [] [] []) race.

Lemma race_regular : Forall move_regular race.
Proof.
  repeat apply Forall_cons_2; try exact I; try apply Forall_nil_2;
    (split_and!; [reflexivity|by intros u [= <-]|by right]).
Qed.
End RaceSample.

Import RetrySample RetryTests RaceSample.

Lemma retry_clients_linearizable_witness :
  cf_clients raced !! 1 = Some (Answered (OpRecord late) (Err vanished_error)) /\
  stored_failure late <> late /\
  cf_log raced = [(0, OpRecord (stored_failure fatal)); (1, OpRecord (stored_failure late));
                  (2, OpClear "normalizer" "stream:9")] /\
  settled (cf_log raced) (perform_ops (cf_log raced).*2 ∅).1 1 (OpRecord late) (Err vanished_error).
Proof.
  split; [vm_compute; reflexivity|]. split; [vm_compute; discriminate|]. split; [vm_compute; reflexivity|].
  apply (retry_clients_linearizable (fun _ _ => rs_message_id) [] ∅ raced fresh_stores_agree
           (moves_steps race (mkConfig [] [] []) race_regular)).
  vm_compute. reflexivity.
Defined.
