(* ===== verification/RuntimeConfig.v ===== *)
(** * Configuration of the normalizer runtime

    crates/cerbero-normalizer/src/runtime_config.rs: the configuration read from
    the environment, its checks, and what an accepted configuration guarantees
    to the delivery code. *)

From S2P Require Import Prelude RustStd RustText ContractTypes Validation SignalContract Parser SourceTime RetryState Metrics.

Inductive ReplayInput : Set := Historical | Selective.
#[global] Instance ReplayInput_eq_dec : EqDecision ReplayInput.
Proof. solve_decision. Defined.

Record RuntimeConfig := mkRuntimeConfig {
  cfg_nats_url : string;
  cfg_nats_user : string;
  cfg_nats_password : string;
  cfg_component_version : string;
  cfg_instance_id : string;
  cfg_pipeline_version : string;
  cfg_execution_mode : ExecutionMode;
  cfg_replay_input : ReplayInput;
  cfg_linux_sshd_parser_version : string;
  cfg_source_time_policies : SourceTimePolicyRegistry;
  cfg_raw_store_path : string;      (* PathBuf *)
  cfg_clickhouse_url : string;
  cfg_clickhouse_database : string;
  cfg_clickhouse_user : string;
  cfg_clickhouse_password : string;
  cfg_postgres_host : string;
  cfg_postgres_port : Z;            (* u16 *)
  cfg_postgres_database : string;
  cfg_postgres_user : string;
  cfg_postgres_password : string;
  cfg_retry_min_delay : Duration;
  cfg_retry_max_delay : Duration;
  cfg_retry_budget : Z;             (* u32 *)
}.

Definition config_error (message : string) : NormalizerError := mkNormalizerError "CER-NORM-CONFIG" message false.

Definition simple_identifier (value : string) : bool :=
  match str_bytes value with
  | [] => false
  | first :: chars =>
      (is_ascii_alphabetic first || Ascii.eqb first "_")
      && forallb (fun character => is_ascii_alphanumeric character || Ascii.eqb character "_") chars
  end.

(** The texts [validate] requires, with the names it reports *)
Definition required_texts (config : RuntimeConfig) : list (string * string) :=
  [("CERBERO_NATS_URL", cfg_nats_url config);
   ("NATS_NORMALIZER_USER", cfg_nats_user config);
   ("NATS_NORMALIZER_PASSWORD", cfg_nats_password config);
   ("CERBERO_NORMALIZER_COMPONENT_VERSION", cfg_component_version config);
   ("CERBERO_NORMALIZER_INSTANCE_ID", cfg_instance_id config);
   ("CERBERO_NORMALIZER_PIPELINE_VERSION", cfg_pipeline_version config);
   ("CLICKHOUSE_URL", cfg_clickhouse_url config);
   ("CLICKHOUSE_DB", cfg_clickhouse_database config);
   ("CLICKHOUSE_NORMALIZER_USER", cfg_clickhouse_user config);
   ("CLICKHOUSE_NORMALIZER_PASSWORD", cfg_clickhouse_password config);
   ("POSTGRES_HOST", cfg_postgres_host config);
   ("POSTGRES_DB", cfg_postgres_database config);
   ("POSTGRES_NORMALIZER_USER", cfg_postgres_user config);
   ("POSTGRES_NORMALIZER_PASSWORD", cfg_postgres_password config)].

Definition validate_config (config : RuntimeConfig) : result RuntimeConfig NormalizerError :=
  iter_m (fun '(name, value) => reject_if (is_empty (trim value)) (config_error (name +:+ " is required")))
    (required_texts config) ;;?
  reject_if (bool_decide (cfg_execution_mode config = ExecutionMode_Unspecified))
    (config_error "normalizer execution mode must not be unspecified") ;;?
  reject_if (bool_decide (cfg_execution_mode config <> ExecutionMode_Replay)
             && bool_decide (cfg_replay_input config = Selective))
    (config_error "selective replay input requires REPLAY execution mode") ;;?
  reject_if (negb (String.eqb (cfg_linux_sshd_parser_version config) "1"
                   || String.eqb (cfg_linux_sshd_parser_version config) "2"))
    (config_error "CERBERO_NORMALIZER_LINUX_SSHD_PARSER_VERSION must be 1 or 2") ;;?
  reject_if (negb (simple_identifier (cfg_clickhouse_database config)))
    (config_error "CLICKHOUSE_DB must be a simple ClickHouse identifier") ;;?
  reject_if (cfg_retry_min_delay config =? 0)%Z
    (config_error "normalizer retry minimum must be greater than zero") ;;?
  reject_if (cfg_retry_max_delay config <? cfg_retry_min_delay config)%Z
    (config_error "normalizer retry maximum must be greater than or equal to retry minimum") ;;?
  reject_if (cfg_postgres_port config =? 0)%Z (config_error "POSTGRES_PORT must be greater than zero") ;;?
  reject_if (cfg_retry_budget config =? 0)%Z
    (config_error "CERBERO_NORMALIZER_RETRY_BUDGET must be greater than zero") ;;?
  reject_if (is_empty (cfg_raw_store_path config)) (config_error "CERBERO_RAW_STORE_PATH is required") ;;?
  Ok config.

(** ** From the environment *)

Section Env.
Context `{TimeCrate}.
(** [env::var(name).ok()] *)
Variable env : string -> option string.

Definition required (name : string) : result string NormalizerError :=
  ok_or (env name ≫= fun value => if is_empty (trim value) then None else Some value)
    (config_error (name +:+ " is required")).

Definition parse_u16 (name : string) : result Z NormalizerError :=
  let? value := required name in
  ok_or (parse_unsigned in_u16 value)
    (config_error (name +:+ " must contain an integer between 0 and 65535")).

Definition parse_u32 (name : string) : result Z NormalizerError :=
  let? value := required name in
  ok_or (parse_unsigned in_u32 value) (config_error (name +:+ " must contain a non-negative integer")).

Definition parse_duration_seconds (name : string) : result Duration NormalizerError :=
  let? value := required name in
  let? seconds := ok_or (parse_unsigned in_u64 value)
    (config_error (name +:+ " must contain an integer number of seconds")) in
  Ok (seconds * 1000000000)%Z.

Definition execution_mode_of (text : string) : result ExecutionMode NormalizerError :=
  if String.eqb text "LIVE" then Ok ExecutionMode_Live
  else if String.eqb text "REPLAY" then Ok ExecutionMode_Replay
  else if String.eqb text "TEST" then Ok ExecutionMode_Test
  else Err (config_error ("CERBERO_NORMALIZER_EXECUTION_MODE must be LIVE, REPLAY, or TEST; got " +:+ text)).

Definition replay_input_of (text : string) : result ReplayInput NormalizerError :=
  if String.eqb text "HISTORICAL" then Ok Historical
  else if String.eqb text "SELECTIVE" then Ok Selective
  else Err (config_error ("CERBERO_NORMALIZER_REPLAY_INPUT must be HISTORICAL or SELECTIVE; got " +:+ text)).

Definition from_env : result RuntimeConfig NormalizerError :=
  let? dev_mode := required "CERBERO_DEV_MODE" in
  let? development :=
    if negb (String.eqb dev_mode "1") then Ok false
    else let? profile := required "CERBERO_SECURITY_PROFILE" in Ok (String.eqb profile "DEVELOPMENT") in
  reject_if (negb development)
    (config_error "cerbero-normalizer runtime is enabled only for the explicit DEVELOPMENT profile") ;;?
  let? mode_text := required "CERBERO_NORMALIZER_EXECUTION_MODE" in
  let? execution_mode := execution_mode_of mode_text in
  let? replay_input := replay_input_of (trim (default "HISTORICAL" (env "CERBERO_NORMALIZER_REPLAY_INPUT"))) in
  reject_if (bool_decide (execution_mode <> ExecutionMode_Replay) && bool_decide (replay_input = Selective))
    (config_error "CERBERO_NORMALIZER_REPLAY_INPUT=SELECTIVE requires CERBERO_NORMALIZER_EXECUTION_MODE=REPLAY") ;;?
  let? host := required "CLICKHOUSE_HOST" in
  let? port := required "CLICKHOUSE_HTTP_PORT" in
  let? nats_url := required "CERBERO_NATS_URL" in
  let? nats_user := required "NATS_NORMALIZER_USER" in
  let? nats_password := required "NATS_NORMALIZER_PASSWORD" in
  let? component_version := required "CERBERO_NORMALIZER_COMPONENT_VERSION" in
  let? instance_id := required "CERBERO_NORMALIZER_INSTANCE_ID" in
  let? pipeline_version := required "CERBERO_NORMALIZER_PIPELINE_VERSION" in
  let? linux_sshd_parser_version := required "CERBERO_NORMALIZER_LINUX_SSHD_PARSER_VERSION" in
  let? source_time_policies := map_err (fun error => config_error (ste_message error))
    (parse_spec (default "" (env "CERBERO_NORMALIZER_SOURCE_TIME_OFFSETS"))) in
  let? raw_store_path := required "CERBERO_RAW_STORE_PATH" in
  let? clickhouse_database := required "CLICKHOUSE_DB" in
  let? clickhouse_user := required "CLICKHOUSE_NORMALIZER_USER" in
  let? clickhouse_password := required "CLICKHOUSE_NORMALIZER_PASSWORD" in
  let? postgres_host := required "POSTGRES_HOST" in
  let? postgres_port := parse_u16 "POSTGRES_PORT" in
  let? postgres_database := required "POSTGRES_DB" in
  let? postgres_user := required "POSTGRES_NORMALIZER_USER" in
  let? postgres_password := required "POSTGRES_NORMALIZER_PASSWORD" in
  let? retry_min_delay := parse_duration_seconds "CERBERO_NORMALIZER_RETRY_MIN_SECONDS" in
  let? retry_max_delay := parse_duration_seconds "CERBERO_NORMALIZER_RETRY_MAX_SECONDS" in
  let? retry_budget := parse_u32 "CERBERO_NORMALIZER_RETRY_BUDGET" in
  validate_config
    (mkRuntimeConfig nats_url nats_user nats_password component_version instance_id pipeline_version
       execution_mode replay_input linux_sshd_parser_version source_time_policies raw_store_path
       ("http://" +:+ host +:+ ":" +:+ port) clickhouse_database clickhouse_user clickhouse_password
       postgres_host postgres_port postgres_database postgres_user postgres_password
       retry_min_delay retry_max_delay retry_budget).

End Env.

(** ** What an accepted configuration guarantees *)

Record config_ok (config : RuntimeConfig) : Prop := {
  config_texts : Forall (fun '(_, value) => has_text value) (required_texts config);
  config_mode : cfg_execution_mode config <> ExecutionMode_Unspecified;
  config_replay : cfg_replay_input config = Selective -> cfg_execution_mode config = ExecutionMode_Replay;
  config_sshd_version : cfg_linux_sshd_parser_version config ∈ ["1"; "2"];
  config_database : simple_identifier (cfg_clickhouse_database config) = true;
  config_min_delay : cfg_retry_min_delay config <> 0%Z;
  config_max_delay : (cfg_retry_min_delay config <= cfg_retry_max_delay config)%Z;
  config_port : cfg_postgres_port config <> 0%Z;
  config_budget : cfg_retry_budget config <> 0%Z;
  config_raw_store : cfg_raw_store_path config <> "";
}.

Lemma required_texts_iff (l : list (string * string)) :
  Forall (fun x : string * string => (let '(name, value) := x in
    reject_if (is_empty (trim value)) (config_error (name +:+ " is required"))) = Ok tt) l <->
  Forall (fun '(_, value) => has_text value) l.
Proof.
  induction l as [|[name value] l IH]; [by split|]. rewrite !Forall_cons, IH, reject_if_ok_iff, not_empty_iff. done.
Qed.

Lemma validate_config_ok_iff config config' :
  validate_config config = Ok config' <-> config' = config /\ config_ok config.
Proof.
  unfold validate_config. rewrite !bind_unit_ok_iff, !reject_if_ok_iff, iter_m_ok_iff, required_texts_iff.
  rewrite !bool_decide_eq_false, andb_false_iff, !bool_decide_eq_false, !negb_false_iff, orb_true_iff, !String.eqb_eq,
    !Z.eqb_neq, Z.ltb_ge, not_empty_iff.
  split.
  - intros (? & ? & Hr & Hv & ? & ? & ? & ? & ? & ? & [= <-]). split; [done|]. split; try done.
    + intros Hsel. destruct Hr as [Hr|Hr]; [|done]. destruct (cfg_execution_mode config); try done; by destruct Hr.
    + destruct Hv as [-> | ->]; set_solver.
  - intros [-> [? ? Hr Hv ? ? ? ? ? ?]]. split_and!; try done.
    + destruct (decide (cfg_replay_input config = Selective)) as [?|?]; [left; naive_solver|by right].
    + rewrite !elem_of_cons in Hv. set_solver.
Qed.

Lemma env_required_ok_iff (env : string -> option string) name value :
  required env name = Ok value <-> env name = Some value /\ has_text value.
Proof.
  unfold required, has_text. rewrite ok_or_ok_iff. destruct (env name) as [v|]; simpl; [|naive_solver].
  destruct (is_empty (trim v)) eqn:He.
  - split; [done|]. intros [[= ->] Ht]. by apply not_empty_iff in Ht; rewrite He in Ht.
  - apply not_empty_iff in He. naive_solver.
Qed.

Lemma parse_duration_ok env name d :
  parse_duration_seconds env name = Ok d -> (0 <= d <= u64_max * 1000000000)%Z.
Proof.
  unfold parse_duration_seconds. intros (v & _ & Hd)%bind_ok_iff.
  apply bind_ok_iff in Hd as (n & Hn%ok_or_ok_iff & [= <-]).
  apply parse_unsigned_in in Hn; [|done]. unfold in_u64 in Hn. apply in_range_spec in Hn. lia.
Qed.

Lemma parse_number_ok env name in_t error n :
  in_t 0%Z = true ->
  (let? value := required env name in ok_or (parse_unsigned in_t value) error) = Ok n -> in_t n = true.
Proof. intros H0 (v & _ & Hn%ok_or_ok_iff)%bind_ok_iff. by apply parse_unsigned_in in Hn. Qed.

(** What a configuration read from an environment is known for *)
Record started_with `{TimeCrate} (env : string -> option string) (config : RuntimeConfig) : Prop := {
  started_dev : env "CERBERO_DEV_MODE" = Some "1";
  started_profile : env "CERBERO_SECURITY_PROFILE" = Some "DEVELOPMENT";
  started_checked : config_ok config;
  started_port : in_range 1 u16_max (cfg_postgres_port config) = true;
  started_budget : in_range 1 u32_max (cfg_retry_budget config) = true;
  started_delays : (0 < cfg_retry_min_delay config <= cfg_retry_max_delay config)%Z;
  started_max : (cfg_retry_max_delay config <= u64_max * 1000000000)%Z;
}.

Lemma from_env_started `{TimeCrate} (env : string -> option string) config :
  from_env env = Ok config -> started_with env config.
Proof.
  unfold from_env. intros Hrun.
  apply bind_ok_iff in Hrun as (dev & [Hdev _]%env_required_ok_iff & Hrun).
  apply bind_ok_iff in Hrun as (development & Hprofile & Hrun).
  apply bind_unit_ok_iff in Hrun as [Hd%reject_if_ok_iff%negb_false_iff Hrun]. subst development.
  do 3 apply bind_ok_iff in Hrun as (? & _ & Hrun). apply bind_unit_ok_iff in Hrun as [_ Hrun].
  do 15 apply bind_ok_iff in Hrun as (? & _ & Hrun).
  apply bind_ok_iff in Hrun as (port & Hport & Hrun). do 3 apply bind_ok_iff in Hrun as (? & _ & Hrun).
  apply bind_ok_iff in Hrun as (dmin & Hmin%parse_duration_ok & Hrun).
  apply bind_ok_iff in Hrun as (dmax & Hmax%parse_duration_ok & Hrun).
  apply bind_ok_iff in Hrun as (budget & Hbudget & Hrun).
  apply validate_config_ok_iff in Hrun as [-> Hok]. destruct Hok as [? ? ? ? ? Hm Hle Hp Hb ?] eqn:Heq. clear Heq.
  apply parse_number_ok in Hport, Hbudget; [|done..]. unfold in_u16, in_u32 in *. rewrite !in_range_spec in *. simpl in *.
  destruct (String.eqb_spec dev "1") as [-> |]; [|done]. simpl in Hprofile.
  apply bind_ok_iff in Hprofile as (profile & [Hprofile _]%env_required_ok_iff & [= Hdev']).
  apply String.eqb_eq in Hdev' as ->. split; rewrite ?in_range_spec; simpl; done || lia.
Qed.

(** C33: The runtime only starts with a configuration its checks accept, and
    only under the explicit development profile: the delivery code may rely on
    nonempty credentials, a governed parser version and execution mode, a
    selective replay only in replay mode, a database name that is safe to place
    in a query, a positive retry budget that fits its type, and retry delays
    that are positive, ordered and representable. *)
Theorem from_env_config `{TimeCrate} (env : string -> option string) config :
  from_env env = Ok config ->
  env "CERBERO_DEV_MODE" = Some "1" /\ env "CERBERO_SECURITY_PROFILE" = Some "DEVELOPMENT" /\
  config_ok config /\ in_range 1 u16_max (cfg_postgres_port config) = true /\
  in_range 1 u32_max (cfg_retry_budget config) = true /\
  (0 < cfg_retry_min_delay config <= cfg_retry_max_delay config)%Z /\
  (cfg_retry_max_delay config <= u64_max * 1000000000)%Z.
Proof. intros [? ? ? ? ? ? ?]%from_env_started. split_and!; done || lia. Qed.
