(* ===== verification/RawStore.v ===== *)
(** * The filesystem Raw Store

    crates/cerbero-normalizer/src/raw_store.rs: the reader of durable raw bytes.
    Paths are Unix paths, split as [std::path::Path::components] splits them; the
    files themselves are a parameter, looked at anew by every read. *)

From S2P Require Import Prelude RustStd RustText ContractTypes Validation Effects RetryState Metrics NormalizerWorld.

(** ** Paths *)

(** [std::path::Component] on Unix *)
Inductive Component : Set :=
| RootDir
| CurDir
| ParentDir
| Normal (name : string).

(** A segment between separators; empty ones and inner dots are skipped *)
Definition segment_component (segment : string) : option Component :=
  if is_empty segment || String.eqb segment "." then None
  else if String.eqb segment ".." then Some ParentDir
  else Some (Normal segment).

Definition components (path : string) : list Component :=
  let segments := split_char "/" path in
  if starts_with "/" path then RootDir :: omap segment_component segments
  else match segments with
       | first :: rest =>
           if String.eqb first "." then CurDir :: omap segment_component rest
           else omap segment_component segments
       | [] => []
       end.

(** [Path::join] *)
Definition path_join (base path : string) : string :=
  if starts_with "/" path then path
  else if is_empty base || ends_with "/" base then base +:+ path
  else base +:+ "/" +:+ path.

#[global] Instance Component_eq_dec : EqDecision Component.
Proof. solve_decision. Defined.

(** [Path::starts_with] *)
Definition path_starts_with (path base : string) : bool :=
  bool_decide (take (length (components base)) (components path) = components base).

Definition is_normal (component : Component) : bool :=
  match component with Normal _ => true | _ => false end.

(** ** Files *)

(** [std::fs]; errors are the text of the [io::Error] *)
Record OpenFile := mkOpenFile {
  file_seek : Z -> result unit string;
  file_read_exact : Z -> Z -> result (list ascii) string;   (* offset, length *)
}.
Record FileSystem := mkFileSystem {
  fs_canonicalize : string -> result string string;
  fs_is_dir : string -> bool;
  fs_open : string -> result OpenFile string;
}.
Class RawFiles := files_at : nat -> FileSystem.

Definition isize_max : Z := 9223372036854775807.

(** ** The reader *)

Record FilesystemRawReader := mkFilesystemRawReader { raw_root : string }.

Definition storage_error (code message : string) (retryable : bool) : NormalizerError :=
  mkNormalizerError code message retryable.

Definition new_reader (fs : FileSystem) (root : string) : result FilesystemRawReader NormalizerError :=
  let? root := map_err (fun error =>
      storage_error "CER-NORM-RAW-ROOT" ("canonicalize Raw Store root: " +:+ error) false)
    (fs_canonicalize fs root) in
  reject_if (negb (fs_is_dir fs root))
    (storage_error "CER-NORM-RAW-ROOT" "Raw Store root is not a directory" false) ;;?
  Ok (mkFilesystemRawReader root).

Definition read (reader : FilesystemRawReader) (fs : FileSystem) (persisted : RawEventPersisted)
    : result (list ascii) NormalizerError :=
  let? relative := ok_or (strip_prefix "raw:///" (rp_storage_uri persisted))
    (storage_error "CER-NORM-RAW-URI"
       "storage_uri must use raw:/// for the DEVELOPMENT filesystem Raw Store" false) in
  reject_if (negb (forallb is_normal (components relative)))
    (storage_error "CER-NORM-RAW-URI" "storage_uri contains a non-normal path component" false) ;;?
  let candidate := path_join (raw_root reader) relative in
  let? canonical := map_err (fun error =>
      storage_error "CER-NORM-RAW-READ" ("resolve durable Raw Store object: " +:+ error) true)
    (fs_canonicalize fs candidate) in
  reject_if (negb (path_starts_with canonical (raw_root reader)))
    (storage_error "CER-NORM-RAW-URI" "storage_uri resolves outside the configured Raw Store root" false) ;;?
  let? file := map_err (fun error =>
      storage_error "CER-NORM-RAW-READ" ("open durable Raw Store object: " +:+ error) true)
    (fs_open fs canonical) in
  map_err (fun error =>
      storage_error "CER-NORM-RAW-READ" ("seek durable Raw Store object: " +:+ error) true)
    (file_seek file (rp_offset persisted)) ;;?
  let? length := ok_or (try_from in_usize (rp_length persisted))
    (storage_error "CER-NORM-RAW-LENGTH" "raw locator length exceeds this platform address space" false) in
  (if (isize_max <? length)%Z then Panic "capacity overflow" else Ok tt) ;;?
  map_err (fun error =>
      storage_error "CER-NORM-RAW-READ" ("read exact durable Raw Store bytes: " +:+ error) true)
    (file_read_exact file (rp_offset persisted) length).

Definition read_raw `{RawFiles} (reader : FilesystemRawReader) (persisted : RawEventPersisted) : norm (list ascii) :=
  fun w => (read reader (files_at (nw_step w)) persisted, step_world w).

(** ** Confinement *)

Lemma components_absolute path :
  starts_with "/" path = true -> components path = RootDir :: omap segment_component (split_char "/" path).
Proof. intros Hs. unfold components. by rewrite Hs. Qed.

Lemma starts_with_app p a b : starts_with p a = true -> starts_with p (a +:+ b) = true.
Proof.
  unfold starts_with. destruct (strip_prefix p a) as [t|] eqn:Ht; [|done]. intros _.
  apply strip_prefix_Some in Ht as ->. by rewrite append_assoc, (proj2 (strip_prefix_Some p _ (t +:+ b)) eq_refl).
Qed.

(** A joined path keeps the components of an absolute base. *)
Lemma components_join base path :
  starts_with "/" base = true -> starts_with "/" path = false ->
  components (path_join base path) = components base ++ omap segment_component (split_char "/" path).
Proof.
  intros Hb Hp. unfold path_join. rewrite Hp. assert (is_empty base = false) as -> by (by destruct base). simpl.
  destruct (ends_with "/" base) eqn:He.
  - apply ends_with_char in He as (t & -> & _). rewrite !components_absolute by (done || by apply starts_with_app).
    assert (t +:+ "/" +:+ path = t +:+ String "/" path) as Heq by done.
    rewrite append_assoc, Heq, !split_char_app, !omap_app. simpl. by rewrite app_nil_r.
  - rewrite !components_absolute by (done || by apply starts_with_app).
    assert (base +:+ "/" +:+ path = base +:+ String "/" path) as -> by done. by rewrite split_char_app, omap_app.
Qed.

(** C25: Whatever location a handoff names, the reader stays inside its Raw Store:
    the result is the same in any two file systems that agree on how the paths
    below the root resolve and on the files whose resolved path is below the
    root, so no byte of another file can reach the normalizer, neither through
    the text of the location nor through a symbolic link; and a location that is
    accepted names a path below the root. *)
Theorem raw_reads_are_confined reader fs1 fs2 persisted :
  starts_with "/" (raw_root reader) = true ->
  (forall relative, forallb is_normal (components relative) = true ->
     fs_canonicalize fs1 (path_join (raw_root reader) relative)
     = fs_canonicalize fs2 (path_join (raw_root reader) relative)) ->
  (forall path, path_starts_with path (raw_root reader) = true -> fs_open fs1 path = fs_open fs2 path) ->
  read reader fs1 persisted = read reader fs2 persisted /\
  forall relative, forallb is_normal (components relative) = true ->
    path_starts_with (path_join (raw_root reader) relative) (raw_root reader) = true.
Proof.
  intros Hroot Hcan Hopen. split.
  - unfold read. destruct (strip_prefix _ _) as [relative|]; [|done]. cbn [ok_or bind].
    destruct (forallb is_normal (components relative)) eqn:Hn; [|done]. cbn [negb reject_if bind].
    rewrite Hcan by done. destruct (fs_canonicalize fs2 _) as [canonical|e|p]; [|done..]. cbn [map_err bind].
    destruct (path_starts_with canonical (raw_root reader)) eqn:Hin; [|done]. cbn [negb reject_if bind].
    by rewrite Hopen.
  - intros relative Hn. unfold path_starts_with. apply bool_decide_eq_true. rewrite components_join; [|done|].
    + by rewrite take_app_length.
    + destruct (starts_with "/" relative) eqn:Hs; [|done]. by rewrite components_absolute in Hn.
Qed.

Module RawStoreSample.
Definition file : OpenFile :=
  mkOpenFile (fun _ => Ok tt) (fun offset length => Ok (take (Z.to_nat length) (drop (Z.to_nat offset) (str_bytes "abcdef")))).
(** The same store beside two different secrets *)
Definition files (secret : string) : FileSystem :=
  mkFileSystem (fun path => Ok path) (fun _ => true) (fun path =>
    if path_starts_with path "/var/raw" then Ok file else
    Ok (mkOpenFile (fun _ => Ok tt) (fun _ _ => Ok (str_bytes secret)))).
Definition locator (uri : string) : RawEventPersisted :=
  mkRawEventPersisted "" "" "" "" None None "" "" 3 "sha256" "" "" "" None 0 "" uri "segment" 1 3 None.
End RawStoreSample.

Lemma raw_reads_are_confined_witness :
  read (mkFilesystemRawReader "/var/raw") (RawStoreSample.files "s3cret") (RawStoreSample.locator "raw:///t/a.bin")
  = Ok (str_bytes "bcd").
Proof.
  etrans; [|reflexivity].
  apply (raw_reads_are_confined (mkFilesystemRawReader "/var/raw") (RawStoreSample.files "s3cret")
           (RawStoreSample.files "other")).
  - reflexivity.
  - reflexivity.
  - intros path Hin. cbn [raw_root] in Hin. cbn [fs_open RawStoreSample.files]. by rewrite Hin.
Defined.
