(* ===== verification/EventBus.v ===== *)
(** * The event bus of the normalizer

    crates/cerbero-normalizer/src/eventbus.rs, less the publications, which are
    in DeadLetter.v: subjects and consumers, the decoding of the raw handoff,
    and the retry delays. *)

From S2P Require Import Prelude RustStd RustText ContractTypes Validation Effects RetryState Metrics NormalizerWorld RuntimeConfig Parser SourceTime.

Definition RAW_STREAM_NAME : string := "CERBERO_RAW".
Definition ANALYTICS_STREAM_NAME : string := "CERBERO_ANALYTICS".
Definition DLQ_STREAM_NAME : string := "CERBERO_DLQ".
Definition RAW_PERSISTED_SUBJECT : string := "cerbero.v1.raw.persisted".
Definition NORMALIZED_CREATED_SUBJECT : string := "cerbero.v1.normalized.created".
Definition NORMALIZATION_DLQ_SUBJECT : string := "cerbero.v1.dlq.normalization".
Definition DLQ_SCHEMA_HEADER : string := "Cerbero-DLQ-Schema".
Definition NORMALIZER_CONSUMER_NAME : string := "normalizer".
Definition NORMALIZER_REPLAY_CONSUMER_NAME : string := "normalizer-replay".
Definition NORMALIZER_SELECTIVE_REPLAY_CONSUMER_NAME : string := "normalizer-replay-selective".
Definition NORMALIZER_TEST_CONSUMER_NAME : string := "normalizer-test".
Definition REQUEST_ID_HEADER : string := "Cerbero-Request-Id".
Definition EXECUTION_MODE_HEADER : string := "Cerbero-Execution-Mode".
Definition RAW_REPLAY_SUBJECT : string := "cerbero.v1.raw.replay".
Definition REPLAY_ROOT_DLQ_RECORD_ID_HEADER : string := "Cerbero-Replay-Root-DLQ-Record-Id".
Definition REPLAY_ATTEMPT_HEADER : string := "Cerbero-Replay-Attempt".
Definition REPLAY_SOURCE_STREAM_SEQUENCE_HEADER : string := "Cerbero-Replay-Source-Stream-Sequence".
Definition NATS_MESSAGE_ID_HEADER : string := "Nats-Msg-Id".

Definition nats_error (error : string) : NormalizerError :=
  mkNormalizerError "CER-NORM-NATS-UNAVAILABLE" error true.

(** [EventBus::connect] *)
Definition EventBus_connect `{Outside} : norm unit := connect nats_error.

(** ** Execution modes and consumers *)

Definition execution_mode_error : NormalizerError :=
  mkNormalizerError "CER-NORM-EXECUTION-MODE" "execution mode must be LIVE, REPLAY, or TEST" false.

Definition execution_mode_header_value (execution_mode : ExecutionMode) : result string NormalizerError :=
  match execution_mode with
  | ExecutionMode_Live => Ok "LIVE"
  | ExecutionMode_Replay => Ok "REPLAY"
  | ExecutionMode_Test => Ok "TEST"
  | ExecutionMode_Unspecified => Err execution_mode_error
  end.

Definition normalizer_consumer_route (execution_mode : ExecutionMode) (replay_input : ReplayInput)
    : result (string * string) NormalizerError :=
  match execution_mode, replay_input with
  | ExecutionMode_Live, _ => Ok (NORMALIZER_CONSUMER_NAME, RAW_PERSISTED_SUBJECT)
  | ExecutionMode_Replay, Historical => Ok (NORMALIZER_REPLAY_CONSUMER_NAME, RAW_PERSISTED_SUBJECT)
  | ExecutionMode_Replay, Selective => Ok (NORMALIZER_SELECTIVE_REPLAY_CONSUMER_NAME, RAW_REPLAY_SUBJECT)
  | ExecutionMode_Test, _ => Ok (NORMALIZER_TEST_CONSUMER_NAME, RAW_PERSISTED_SUBJECT)
  | ExecutionMode_Unspecified, _ => Err execution_mode_error
  end.

Definition normalizer_consumer_name (execution_mode : ExecutionMode) (replay_input : ReplayInput)
    : result string NormalizerError :=
  let? '(name, _) := normalizer_consumer_route execution_mode replay_input in Ok name.

Definition normalizer_deliver_policy (execution_mode : ExecutionMode) (replay_input : ReplayInput) : DeliverPolicy :=
  if bool_decide (execution_mode = ExecutionMode_Replay) && bool_decide (replay_input = Selective)
  then DeliverNew else DeliverAll.

(** [EventBus::consumer] *)
Definition ready_consumer `{Outside} (execution_mode : ExecutionMode) (replay_input : ReplayInput) : norm unit :=
  let! '(consumer_name, filter_subject) := io_lift (normalizer_consumer_route execution_mode replay_input) in
  let deliver_policy := normalizer_deliver_policy execution_mode replay_input in
  connect nats_error ;;!
  change_consumer (ConsumerReady consumer_name filter_subject deliver_policy) nats_error.

Definition delete_execution_consumer `{Outside} (execution_mode : ExecutionMode) (replay_input : ReplayInput)
    : norm unit :=
  if bool_decide (execution_mode = ExecutionMode_Live) then io_ret tt
  else
    let! '(consumer_name, _) := io_lift (normalizer_consumer_route execution_mode replay_input) in
    connect nats_error ;;!
    change_consumer (ConsumerDeleted consumer_name) nats_error.

(** ** The raw handoff *)

(** [prost]: the messages the runtime decodes and encodes *)
Class ProstCodec := {
  envelope_decode : list ascii -> result CerberoEnvelope string;
  envelope_encode : CerberoEnvelope -> list ascii;
  raw_persisted_decode : list ascii -> result RawEventPersisted string;
  normalized_event_encode : NormalizedEvent -> list ascii;
}.

Record IncomingRawPersisted := mkIncomingRawPersisted {
  inc_envelope : CerberoEnvelope;
  inc_persisted : RawEventPersisted;
  inc_request_id : option string;
}.

Definition validate_type_url (payload : Any) : result unit NormalizerError :=
  if ends_with "cerbero.contracts.v1.RawEventPersisted" (any_type_url payload) then Ok tt
  else Err (mkNormalizerError "CER-NORM-PAYLOAD-TYPE" ("unexpected Any type_url " +:+ any_type_url payload) false).

(** [message.headers.as_ref().and_then(|headers| headers.get(name))] *)
Definition message_header (message : Message) (name : string) : option string :=
  msg_headers message ≫= header_get name.

Definition decode_raw_persisted `{ProstCodec} (message : Message) : result IncomingRawPersisted NormalizerError :=
  let? envelope := map_err (fun error => mkNormalizerError "CER-NORM-ENVELOPE-DECODE" error false)
    (envelope_decode (msg_payload message)) in
  map_err (fun error => mkNormalizerError "CER-NORM-ENVELOPE-CONTRACT" (ContractViolation_display error) false)
    (validate_envelope envelope) ;;?
  reject_if (negb (String.eqb (ce_message_type envelope) "RawEventPersisted")
             || negb (String.eqb (ce_payload_schema envelope) "cerbero.raw_event_persisted.v1"))
    (mkNormalizerError "CER-NORM-UNSUPPORTED-CONTRACT"
       ("unsupported raw handoff type=" +:+ ce_message_type envelope +:+ " schema="
        +:+ ce_payload_schema envelope) false) ;;?
  let? payload := ok_or (ce_payload envelope)
    (mkNormalizerError "CER-NORM-ENVELOPE-CONTRACT" "raw.persisted envelope payload is required" false) in
  validate_type_url payload ;;?
  let? persisted := map_err (fun error => mkNormalizerError "CER-NORM-PAYLOAD-DECODE" error false)
    (raw_persisted_decode (any_value payload)) in
  map_err (fun error => mkNormalizerError "CER-NORM-PAYLOAD-CONTRACT" (ContractViolation_display error) false)
    (validate_raw_event_persisted persisted) ;;?
  reject_if (negb (String.eqb (rp_tenant_id persisted) (ce_tenant_id envelope)))
    (mkNormalizerError "CER-NORM-TENANT-MISMATCH"
       "envelope tenant_id differs from RawEventPersisted tenant_id" false) ;;?
  Ok (mkIncomingRawPersisted envelope persisted (message_header message REQUEST_ID_HEADER)).

(** ** Retry delays *)

Definition DURATION_MAX : Duration := (u64_max * 1000000000 + 999999999)%Z.
Definition u128_max : Z := 340282366920938463463374607431768211455.

(** [Duration::saturating_mul] *)
Definition duration_saturating_mul (d : Duration) (factor : Z) : Duration := Z.min DURATION_MAX (d * factor).

Definition retry_delay (deliveries : Z) (min max : Duration) : Duration :=
  let clamped := Z.min 20 (Z.max 0 (Z.max i64_min (deliveries - 1))) in
  let exponent := default 20%Z (try_from in_u32 clamped) in
  let factor := if (exponent <? 32)%Z then Z.shiftl 1 exponent else u32_max in
  Z.min (duration_saturating_mul min factor) max.

(** [char::to_digit(16)] *)
Definition hex_digit_val (a : ascii) : option Z :=
  if is_ascii_digit a then Some (byte_val a - 48)%Z
  else if byte_in 97 102 a then Some (byte_val a - 87)%Z
  else if byte_in 65 70 a then Some (byte_val a - 55)%Z
  else None.

(** [u64::from_str_radix(_, 16)] of a text without a sign *)
Fixpoint parse_hex (acc : Z) (l : list ascii) : option Z :=
  match l with
  | [] => Some acc
  | a :: l =>
      match hex_digit_val a with
      | Some d => match try_from in_u64 (acc * 16 + d) with Some acc => parse_hex acc l | None => None end
      | None => None
      end
  end.

Definition retry_delay_with_jitter `{Sha256} (deliveries : Z) (min max : Duration) (seed : string)
    : result Duration NormalizerError :=
  let base := retry_delay deliveries min max in
  let digest := sha256_lower_hex (str_bytes (seed +:+ ":" +:+ pretty deliveries)) in
  let? prefix := slice_to digest 16 in
  let sample := default 0%Z (parse_hex 0 (str_bytes prefix)) in
  let percentage := (80 + sample mod 41)%Z in
  let nanos := (Z.min u128_max (base * percentage) / 100)%Z in
  Ok (Z.min (Z.max (default u64_max (try_from in_u64 nanos)) min) max).
