(* ===== verification/ClickHouse.v ===== *)
(** * The ClickHouse store of normalizations

    crates/cerbero-normalizer/src/clickhouse.rs: the stored row, its construction
    from a plan and the contract messages it is read back as, and the two
    exchanges of [ClickHouseStore]. *)

From S2P Require Import Prelude RustStd RustText ContractTypes Validation Effects CanonicalJson Parser ParserFormats SourceTime Mapping RetryState Metrics NormalizerWorld NormalizerCore.

Record ClickHouseStore := mkClickHouseStore {
  st_endpoint : string;
  st_database : string;
  st_user : string;
  st_password : string;
}.

(** [ClickHouseStore::new]: building the client sends nothing *)
Definition ClickHouseStore_new (endpoint database user password : string) : ClickHouseStore :=
  mkClickHouseStore endpoint database user password.

Record StoredNormalization := mkStoredNormalization {
  sn_logical_key : string;
  sn_tenant_id : string;
  sn_normalized_event_id : string;
  sn_raw_event_id : string;
  sn_event_time_present : Z;      (* u8 *)
  sn_event_time_seconds : Z;      (* i64 *)
  sn_event_time_nanos : Z;        (* i32 *)
  sn_ingest_time_seconds : Z;     (* i64 *)
  sn_ingest_time_nanos : Z;       (* i32 *)
  sn_normalized_at_seconds : Z;   (* i64 *)
  sn_normalized_at_nanos : Z;     (* i32 *)
  sn_ocsf_version : string;
  sn_class_uid : Z;               (* u32 *)
  sn_category_uid : Z;            (* u32 *)
  sn_activity_id : option Z;      (* u32 *)
  sn_severity : option Z;         (* u32 *)
  sn_parser_id : string;
  sn_parser_version : string;
  sn_mapping_id : string;
  sn_mapping_version : string;
  sn_normalization_status : Z;    (* i32 *)
  sn_normalized_hash_algorithm : string;
  sn_normalized_hash : string;
  sn_pipeline_version : string;
  sn_ocsf_event_json : string;
  sn_transformation_id : string;
  sn_configuration_hash : string;
  sn_execution_mode : Z;          (* i32 *)
  sn_publication_message_id : string;
  sn_causation_message_id : string;
  sn_trace_id : string;
  sn_correlation_id : string;
  sn_producer_component_version : string;
  sn_producer_instance_id : string;
}.

(** [serde_json] at the row type: [to_vec] and [from_str] *)
Class RowCodec := {
  row_to_vec : StoredNormalization -> result (list ascii) string;
  row_from_str : string -> result StoredNormalization string;
}.

(** ** Errors *)

Definition clickhouse_transport (error : string) : NormalizerError :=
  mkNormalizerError "CER-NORM-CLICKHOUSE-UNAVAILABLE" error true.

Definition clickhouse_server (status : Z) (body : string) : NormalizerError :=
  mkNormalizerError "CER-NORM-CLICKHOUSE-ERROR" ("ClickHouse HTTP " +:+ pretty status +:+ ": " +:+ body)
    ((500 <=? status)%Z || (status =? 429)%Z).

Definition stored_row_invalid (message : string) : NormalizerError :=
  mkNormalizerError "CER-NORM-STORED-ROW" message false.

Definition validate_hash_key (value : string) : result unit NormalizerError :=
  if (str_len value =? 64)%nat
     && forallb (fun byte => is_ascii_hexdigit byte && negb (is_ascii_uppercase byte)) (str_bytes value)
  then Ok tt
  else Err (stored_row_invalid "logical normalization key must be lowercase SHA-256 hex").

(** ** Rows and messages *)

Section Rows.
Context `{JsonCodec}.

Definition from_plan (plan : NormalizationPlan) (persisted_event_time : option Timestamp)
    (persisted_ingest_time : Timestamp) (incoming : CerberoEnvelope)
    (publication_message_id producer_component_version producer_instance_id : string)
    : result StoredNormalization NormalizerError :=
  let event := np_normalized_event plan in
  let? normalized_at := ok_or (ne_normalized_at event)
    (stored_row_invalid "NormalizedEvent.normalized_at is required") in
  let '(event_time_present, event_time_seconds, event_time_nanos) :=
    match persisted_event_time with
    | None => (0, 0, 0)%Z
    | Some time => (1%Z, ts_seconds time, ts_nanos time)
    end in
  let transformation := np_transformation plan in
  let? ocsf_event_json := map_err (fun error => mkNormalizerError "CER-NORM-OCSF-UTF8" error false)
    (from_utf8 (np_canonical_ocsf_json plan)) in
  Ok (mkStoredNormalization (np_logical_key plan) (ne_tenant_id event) (ne_normalized_event_id event)
        (ne_raw_event_id event) event_time_present event_time_seconds event_time_nanos
        (ts_seconds persisted_ingest_time) (ts_nanos persisted_ingest_time)
        (ts_seconds normalized_at) (ts_nanos normalized_at) (ne_ocsf_version event) (ne_class_uid event)
        (ne_category_uid event) (ne_activity_id event) (ne_severity event) (ne_parser_id event)
        (ne_parser_version event) (np_mapping_id plan) (np_mapping_version plan)
        (ne_normalization_status event) (ne_normalized_hash_algorithm event) (ne_normalized_hash event)
        (ne_pipeline_version event) ocsf_event_json (tr_transformation_id transformation)
        (tr_configuration_hash transformation) (tr_execution_mode transformation) publication_message_id
        (ce_message_id incoming) (ce_trace_id incoming) (ce_correlation_id incoming)
        producer_component_version producer_instance_id).

Fixpoint stored_json_to_prost_value (value : Json) : result Value NormalizerError :=
  let? kind :=
    match value with
    | JNull => Ok (NullValue 0)
    | JBool value => Ok (BoolValue value)
    | JNumber value =>
        let? number := ok_or (number_as_f64 value)
          (stored_row_invalid "stored OCSF number cannot be represented by protobuf Struct") in
        Ok (NumberValue number)
    | JString value => Ok (StringValue value)
    | JArray values =>
        let? values := map_m stored_json_to_prost_value values in
        Ok (ListValue values)
    | JObject object =>
        let? fields := map_m (fun '(key, value) =>
            let? value := stored_json_to_prost_value value in Ok (key, value)) object in
        Ok (StructValue (mkStruct (collect_map fields)))
    end in
  Ok (mkValue (Some kind)).

Definition stored_json_to_prost_struct (value : Json) : result Struct NormalizerError :=
  match value with
  | JObject object =>
      let? fields := map_m (fun '(key, value) =>
          let? value := stored_json_to_prost_value value in Ok (key, value)) object in
      Ok (mkStruct (collect_map fields))
  | _ => Err (stored_row_invalid "stored OCSF event root must be an object")
  end.

Definition stored_normalized_event (row : StoredNormalization) : result NormalizedEvent NormalizerError :=
  let? value := map_err (fun error =>
      mkNormalizerError "CER-NORM-OCSF-DECODE" ("decode stored canonical OCSF JSON: " +:+ error) false)
    (json_from_slice (str_bytes (sn_ocsf_event_json row))) in
  let? ocsf_event := stored_json_to_prost_struct value in
  Ok (mkNormalizedEvent (sn_normalized_event_id row) (sn_raw_event_id row) (sn_tenant_id row)
        (Some (mkTimestamp (sn_normalized_at_seconds row) (sn_normalized_at_nanos row)))
        (sn_ocsf_version row) (sn_class_uid row) (sn_category_uid row) (sn_severity row)
        (sn_activity_id row) (Some ocsf_event) (sn_parser_id row) (sn_parser_version row)
        (sn_normalization_status row) (sn_normalized_hash_algorithm row) (sn_normalized_hash row)
        (sn_pipeline_version row)).

Definition stored_transformation (row : StoredNormalization) : Transformation :=
  let at_time := Some (mkTimestamp (sn_normalized_at_seconds row) (sn_normalized_at_nanos row)) in
  mkTransformation (sn_transformation_id row) (sn_raw_event_id row) "RawEvent" (sn_normalized_event_id row)
    "NormalizedEvent" ("cerbero-normalizer:" +:+ sn_mapping_id row) (sn_mapping_version row)
    (sn_configuration_hash row) at_time at_time 1 None (sn_execution_mode row).

Definition stored_execution_mode (row : StoredNormalization) : option ExecutionMode :=
  ExecutionMode_try_from (sn_execution_mode row).

Definition stored_normalization_status (row : StoredNormalization) : option NormalizationStatus :=
  NormalizationStatus_try_from (sn_normalization_status row).

End Rows.

(** ** Exchanges *)

Section Store.
Context `{RowCodec} `{Outside}.

Definition select_query (store : ClickHouseStore) (logical_key : string) : string :=
  "SELECT * FROM " +:+ st_database store +:+ ".normalized_events WHERE logical_key = '" +:+ logical_key
  +:+ "' LIMIT 1 FORMAT JSONEachRow".

Definition insert_query (store : ClickHouseStore) : string :=
  "INSERT INTO " +:+ st_database store +:+ ".normalized_events FORMAT JSONEachRow".

(** The request, its status and its body *)
Definition exchange (request : ClickHouseRequest) : norm string :=
  let! reply := send_http request clickhouse_transport in
  let! body := io_lift (map_err clickhouse_transport (hr_body reply)) in
  io_lift (reject_if (negb (in_range 200 299 (hr_status reply))) (clickhouse_server (hr_status reply) body)) ;;!
  io_ret body.

Definition find_by_logical_key (store : ClickHouseStore) (logical_key : string)
    : norm (option StoredNormalization) :=
  io_lift (validate_hash_key logical_key) ;;!
  let! body := exchange (mkClickHouseRequest false [("query", select_query store logical_key)] []) in
  let trimmed := trim body in
  if is_empty trimmed then io_ret None
  else
    let! row := io_lift (map_err (fun error =>
        mkNormalizerError "CER-NORM-CLICKHOUSE-DECODE" ("decode ClickHouse normalization row: " +:+ error) false)
      (row_from_str trimmed)) in
    io_ret (Some row).

Definition insert_and_read_back (store : ClickHouseStore) (row : StoredNormalization) : norm StoredNormalization :=
  io_lift (validate_hash_key (sn_logical_key row)) ;;!
  let! body := io_lift (map_err (fun error =>
      mkNormalizerError "CER-NORM-CLICKHOUSE-ENCODE" ("encode ClickHouse normalization row: " +:+ error) false)
    (row_to_vec row)) in
  exchange (mkClickHouseRequest true
    [("query", insert_query store); ("async_insert", "0");
     ("insert_deduplication_token", sn_logical_key row)] (body ++ ["010"%char])) ;;!
  let! found := find_by_logical_key store (sn_logical_key row) in
  io_lift (ok_or found
    (mkNormalizerError "CER-NORM-CLICKHOUSE-READBACK"
       "ClickHouse acknowledged insert but logical row was not readable" true)).

End Store.
