(* ===== verification/DeadLetter.v ===== *)
(** * Dead letters and publications

    crates/cerbero-normalizer/src/dead_letter.rs, and the two publications of
    [EventBus] in eventbus.rs. *)

From S2P Require Import Prelude RustStd RustText ContractTypes Validation Effects CanonicalJson Parser ParserFormats SourceTime Mapping RetryState Metrics NormalizerWorld NormalizerCore RuntimeConfig EventBus ClickHouse.

Definition NORMALIZATION_DLQ_SCHEMA : string := "cerbero.normalization_dlq.v1".

Record DeadLetterFailure := mkDeadLetterFailure {
  df_error_code : string;
  df_error_message : string;
  df_retryable : bool;
  df_attempt_count : Z;             (* u64 *)
  df_first_failure_at : SystemTime;
  df_last_failure_at : SystemTime;
}.

Record NormalizationDeadLetter := mkNormalizationDeadLetter {
  dl_schema_version : string;
  dl_dlq_record_id : string;
  dl_original_message_id : option string;
  dl_original_subject : string;
  dl_original_payload_sha256 : string;
  dl_consumer : string;
  dl_attempt_count : Z;             (* u64 *)
  dl_stream_sequence : option Z;    (* u64 *)
  dl_consumer_sequence : option Z;  (* u64 *)
  dl_error_code : string;
  dl_error_category : string;
  dl_failure_stage : string;
  dl_error_message : string;
  dl_retryable : bool;
  dl_first_failure_unix_ms : Z;     (* i64 *)
  dl_last_failure_unix_ms : Z;      (* i64 *)
  dl_tenant_id : option string;
  dl_raw_event_id : option string;
  dl_parser_id : option string;
  dl_parser_version : option string;
  dl_request_id : option string;
  dl_trace_id : option string;
  dl_correlation_id : option string;
  dl_replay_root_dlq_record_id : option string;
  dl_replay_attempt : option Z;     (* u32 *)
}.

(** ** Helpers *)

Definition system_time_millis (time : SystemTime) : Z :=
  if (time <? 0)%Z then 0 else default i64_max (try_from in_i64 (time / 1000000)).

(** The time of a dead letter that is made now *)
Definition unix_time_millis `{Outside} : norm Z := let! time := now in io_ret (system_time_millis time).

Definition non_empty (value : string) : option string := if is_empty value then None else Some value.

Definition dlq_source_identity (message_subject : string) (message_stream_sequence : option Z)
    (replay_root_dlq_record_id : option string) (replay_attempt replay_source_stream_sequence : option Z)
    : string * option Z :=
  if String.eqb message_subject RAW_REPLAY_SUBJECT
     && bool_decide (is_Some replay_root_dlq_record_id)
     && bool_decide (is_Some replay_attempt)
     && bool_decide (is_Some replay_source_stream_sequence)
  then (RAW_PERSISTED_SUBJECT, replay_source_stream_sequence)
  else (message_subject, message_stream_sequence).

Definition error_category (code : string) : string :=
  if starts_with "CER-PARSE-" code then "PARSING"
  else if starts_with "CER-NORM-RAW-HASH" code || starts_with "CER-NORM-RAW-LENGTH" code
          || starts_with "CER-NORM-RAW-INTEGRITY" code then "INTEGRITY"
  else if starts_with "CER-NORM-CLICKHOUSE" code || starts_with "CER-NORM-RAW-STORE" code then "STORAGE"
  else if starts_with "CER-NORM-NATS" code || starts_with "CER-NORM-PUBLISH" code then "TRANSPORT"
  else if starts_with "CER-NORM-MAPPING" code || starts_with "CER-NORM-CONTRACT" code
          || starts_with "CER-NORM-TRANSFORMATION" code || starts_with "CER-NORM-SOURCE-TIME" code
  then "NORMALIZATION"
  else "INTERNAL".

Definition failure_stage (code : string) : string :=
  if starts_with "CER-PARSE-" code then "parsing"
  else if starts_with "CER-NORM-MAPPING" code then "mapping"
  else if starts_with "CER-NORM-CLICKHOUSE" code then "normalized_storage"
  else if starts_with "CER-NORM-RAW" code then "raw_read_or_integrity"
  else if starts_with "CER-NORM-ENVELOPE" code || starts_with "CER-NORM-PAYLOAD" code
          || starts_with "CER-NORM-TENANT" code || starts_with "CER-NORM-UNSUPPORTED-CONTRACT" code
  then "handoff_validation"
  else if starts_with "CER-NORM-PUBLISH" code || starts_with "CER-NORM-NATS" code then "event_bus"
  else "normalization".

(** [result.ok()]; a panic goes through *)
Definition result_ok {A E F} (r : result A E) : result (option A) F :=
  match r with
  | Ok a => Ok (Some a)
  | Err _ => Ok None
  | Panic p => Panic p
  end.

(** ** Records *)

Section Records.
Context `{Sha256} `{ProstCodec} `{Outside}.

(** [filter(|value| *value > 0)] *)
Definition positive (value : Z) : option Z := if (0 <? value)%Z then Some value else None.

Definition from_message (message : Message) (consumer : string) (failure : DeadLetterFailure)
    (parser_identity : option (string * string)) : norm NormalizationDeadLetter :=
  let! envelope := io_lift (result_ok (envelope_decode (msg_payload message))) in
  let! persisted :=
    match envelope ≫= ce_payload with
    | Some payload => io_lift (result_ok (raw_persisted_decode (any_value payload)))
    | None => io_ret None
    end in
  let original_message_id : option string := envelope ≫= fun value => non_empty (ce_message_id value) in
  let request_id : option string := message_header message "Cerbero-Request-Id" ≫= non_empty in
  let replay_root_dlq_record_id : option string := message_header message REPLAY_ROOT_DLQ_RECORD_ID_HEADER ≫= non_empty in
  let replay_attempt : option Z :=
    (message_header message REPLAY_ATTEMPT_HEADER ≫= parse_unsigned in_u32) ≫= positive in
  let replay_source_stream_sequence : option Z :=
    (message_header message REPLAY_SOURCE_STREAM_SEQUENCE_HEADER ≫= parse_unsigned in_u64) ≫= positive in
  let '(original_subject, stream_sequence) :=
    dlq_source_identity (msg_subject message) (mi_stream_sequence <$> msg_info message)
      replay_root_dlq_record_id replay_attempt replay_source_stream_sequence in
  let! dlq_record_id := new_uuid_v7 in
  io_ret (mkNormalizationDeadLetter NORMALIZATION_DLQ_SCHEMA dlq_record_id original_message_id original_subject
            (sha256_lower_hex (msg_payload message)) consumer (df_attempt_count failure) stream_sequence
            (mi_consumer_sequence <$> msg_info message) (df_error_code failure)
            (error_category (df_error_code failure)) (failure_stage (df_error_code failure))
            (df_error_message failure) (df_retryable failure)
            (system_time_millis (df_first_failure_at failure)) (system_time_millis (df_last_failure_at failure))
            (envelope ≫= fun value => non_empty (ce_tenant_id value))
            (persisted ≫= fun value => non_empty (rp_event_id value))
            (fst <$> parser_identity) (snd <$> parser_identity) request_id
            (envelope ≫= fun value => non_empty (ce_trace_id value))
            (envelope ≫= fun value => non_empty (ce_correlation_id value))
            replay_root_dlq_record_id replay_attempt).

Definition nats_message_id (record : NormalizationDeadLetter) : string :=
  match dl_replay_root_dlq_record_id record, dl_replay_attempt record with
  | Some replay_root, Some replay_attempt =>
      "normalization-dlq:v1:replay:" +:+ replay_root +:+ ":" +:+ pretty replay_attempt +:+ ":"
      +:+ dl_original_payload_sha256 record
  | _, _ =>
      match dl_original_message_id record with
      | Some message_id =>
          "normalization-dlq:v1:" +:+ message_id +:+ ":" +:+ dl_original_payload_sha256 record
      | None =>
          match dl_stream_sequence record with
          | Some sequence => "normalization-dlq:v1:stream:" +:+ pretty sequence
          | None => "normalization-dlq:v1:payload:" +:+ dl_original_payload_sha256 record
          end
      end
  end.

End Records.

(** ** Publications *)

(** [serde_json::to_vec] of a dead letter *)
Class DeadLetterCodec := dead_letter_to_vec : NormalizationDeadLetter -> result (list ascii) string.

Section Publications.
Context `{JsonCodec} `{ProstCodec} `{DeadLetterCodec} `{Outside}.

Definition publish_contract (message : string) : NormalizerError :=
  mkNormalizerError "CER-NORM-PUBLISH-CONTRACT" message false.

(** The envelope [publish_normalized] sends *)
Definition normalized_envelope (row : StoredNormalization) : result CerberoEnvelope NormalizerError :=
  let? normalized := stored_normalized_event row in
  let payload := mkAny "type.googleapis.com/cerbero.contracts.v1.NormalizedEvent"
    (normalized_event_encode normalized) in
  let? emitted_at := ok_or (ne_normalized_at normalized)
    (publish_contract "stored NormalizedEvent.normalized_at is required") in
  let envelope :=
    mkCerberoEnvelope "1" (sn_publication_message_id row) "NormalizedEventCreated" (sn_tenant_id row)
      (Some (mkProducer "cerbero-normalizer" (sn_producer_component_version row) (sn_producer_instance_id row)))
      (Some emitted_at) (sn_trace_id row) (sn_causation_message_id row) (sn_correlation_id row)
      "cerbero.normalized_event.v1" (Some payload) in
  map_err (fun error => publish_contract (ContractViolation_display error)) (validate_envelope envelope) ;;?
  Ok envelope.

Definition normalized_headers (row : StoredNormalization) (request_id : option string)
    : result HeaderMap NormalizerError :=
  let headers := header_insert NATS_MESSAGE_ID_HEADER (sn_publication_message_id row) [] in
  let? execution_mode := ok_or (stored_execution_mode row)
    (publish_contract "stored normalization execution_mode is invalid") in
  let? mode := execution_mode_header_value execution_mode in
  let headers := header_insert EXECUTION_MODE_HEADER mode headers in
  Ok (match request_id ≫= non_empty with
      | Some request_id => header_insert REQUEST_ID_HEADER request_id headers
      | None => headers
      end).

Definition publish_normalized (row : StoredNormalization) (request_id : option string) : norm unit :=
  let! envelope := io_lift (normalized_envelope row) in
  let bytes := envelope_encode envelope in
  let! headers := io_lift (normalized_headers row request_id) in
  let! ack := publish_with_headers NORMALIZED_CREATED_SUBJECT headers bytes nats_error in
  io_lift (reject_if (negb (String.eqb (pa_stream ack) ANALYTICS_STREAM_NAME) || (pa_sequence ack =? 0)%Z)
    (mkNormalizerError "CER-NORM-PUBLISH-ACK"
       ("unexpected JetStream PubAck stream=" +:+ pa_stream ack +:+ " sequence=" +:+ pretty (pa_sequence ack)) true)).

Definition dlq_headers (record : NormalizationDeadLetter) : HeaderMap :=
  let headers := header_insert NATS_MESSAGE_ID_HEADER (nats_message_id record) [] in
  let headers := header_insert DLQ_SCHEMA_HEADER (dl_schema_version record) headers in
  match dl_request_id record with
  | Some request_id => header_insert REQUEST_ID_HEADER request_id headers
  | None => headers
  end.

Definition publish_normalization_dlq (record : NormalizationDeadLetter) : norm unit :=
  let! bytes := io_lift (map_err (fun error => mkNormalizerError "CER-NORM-DLQ-ENCODE" error false)
    (dead_letter_to_vec record)) in
  let! ack := publish_with_headers NORMALIZATION_DLQ_SUBJECT (dlq_headers record) bytes nats_error in
  io_lift (reject_if (negb (String.eqb (pa_stream ack) DLQ_STREAM_NAME) || (pa_sequence ack =? 0)%Z)
    (mkNormalizerError "CER-NORM-DLQ-PUBLISH-ACK"
       ("unexpected normalization DLQ PubAck stream=" +:+ pa_stream ack +:+ " sequence="
        +:+ pretty (pa_sequence ack)) true)).

End Publications.
