(* ===== verification/Runtime.v ===== *)
(** * The normalizer runtime

    crates/cerbero-normalizer/src/runtime.rs: one delivery, from the message to
    its settlement, and the loop of the service.  A delivery runs in [norm]: the
    retry table, the metrics and the log of outside effects, with a decision of
    the outside world at every exchange. *)

From S2P Require Import Prelude RustStd RustText ContractTypes Validation Effects CanonicalJson Parser ParserFormats SourceTime Mapping RetryState Metrics NormalizerWorld NormalizerCore RetryStore RuntimeConfig RawStore EventBus ClickHouse DeadLetter.

Record RuntimeProcessor := mkRuntimeProcessor {
  rt_config : RuntimeConfig;
  rt_raw_reader : FilesystemRawReader;
  rt_store : ClickHouseStore;
  rt_core : NormalizerCore;
  rt_metrics : MetricsSink;
}.

(** [SystemTime::checked_add]: whole seconds are an [i64] *)
Definition system_time_checked_add (time : SystemTime) (delay : Duration) : option SystemTime :=
  let sum := (time + delay)%Z in
  if in_i64 (sum / 1000000000) then Some sum else None.

Definition idempotency_conflict (message : string) : NormalizerError :=
  mkNormalizerError "CER-NORM-IDEMPOTENCY-CONFLICT" message false.

Definition derivation_error (message : string) : NormalizerError :=
  mkNormalizerError "CER-NORM-DERIVATION-IDENTITY" message false.

(** [impl Display for NormalizerError] *)
Definition NormalizerError_display (error : NormalizerError) : string :=
  nz_code error +:+ ": " +:+ nz_message error.

Definition nak_with_delay `{Outside} (message : Message) (delay : Duration) : norm unit :=
  settle message (Nak delay) (fun error => mkNormalizerError "CER-NORM-NATS-NAK" error true).

Definition parse_message_id `{RetryCodec} (value : string) : result Uuid NormalizerError :=
  map_err (fun error =>
      mkNormalizerError "CER-NORM-RETRY-STATE-IDENTITY"
        ("validated message_id could not be parsed as UUID: " +:+ error) false)
    (uuid_parse_str value).

(** ** Stored rows against identities and plans *)

Definition validate_existing_identity (row : StoredNormalization) (raw_event_id : string)
    (identity : DerivationIdentity) : result unit NormalizerError :=
  let matches :=
    String.eqb (sn_logical_key row) (di_logical_key identity)
    && String.eqb (sn_raw_event_id row) raw_event_id
    && String.eqb (sn_ocsf_version row) (di_ocsf_version identity)
    && String.eqb (sn_pipeline_version row) (di_pipeline_version identity)
    && String.eqb (sn_parser_id row) (di_parser_id identity)
    && String.eqb (sn_parser_version row) (di_parser_version identity)
    && String.eqb (sn_mapping_id row) (di_mapping_id identity)
    && String.eqb (sn_mapping_version row) (di_mapping_version identity)
    && String.eqb (sn_configuration_hash row) (di_configuration_hash identity)
    && (sn_execution_mode row =? ExecutionMode_as_i32 (di_execution_mode identity))%Z in
  if matches then Ok tt
  else Err (idempotency_conflict "stored logical normalization metadata conflicts with derivation identity").

Definition plan_identity (plan : NormalizationPlan) : result DerivationIdentity NormalizerError :=
  let? execution_mode := ok_or (ExecutionMode_try_from (tr_execution_mode (np_transformation plan)))
    (idempotency_conflict "normalization plan execution_mode is invalid") in
  let event := np_normalized_event plan in
  Ok (mkDerivationIdentity (np_logical_key plan) (ne_parser_id event) (ne_parser_version event)
        (np_mapping_id plan) (np_mapping_version plan) (ne_ocsf_version event) (ne_pipeline_version event)
        (tr_configuration_hash (np_transformation plan)) execution_mode).

Definition validate_existing_plan (row : StoredNormalization) (plan : NormalizationPlan)
    : result unit NormalizerError :=
  let? identity := plan_identity plan in
  let event := np_normalized_event plan in
  validate_existing_identity row (ne_raw_event_id event) identity ;;?
  if String.eqb (sn_normalized_hash_algorithm row) (ne_normalized_hash_algorithm event)
     && String.eqb (sn_normalized_hash row) (ne_normalized_hash event)
  then Ok tt
  else Err (idempotency_conflict "stored normalization payload metadata conflicts with normalization plan").

Section Runtime.
Context `{Sha256} `{JsonCodec} `{FormatCodec} `{DebugStr} `{TimeCrate} `{Outside}.
Context `{RetryCodec} `{ProstCodec} `{RowCodec} `{DeadLetterCodec} `{RawFiles}.

(** ** One message *)

Definition process_message (processor : RuntimeProcessor) (incoming : IncomingRawPersisted) : norm unit :=
  let config := rt_config processor in
  let core := rt_core processor in
  let persisted := inc_persisted incoming in
  let! raw := read_raw (rt_raw_reader processor) persisted in
  match derivation_identity core persisted raw with
  | Panic p => io_lift (Panic p)
  | Err preflight_error =>
      normalize core (inc_envelope incoming) persisted raw ;;!
      io_lift (Err (derivation_error
        ("derivation preflight failed but normalization succeeded: " +:+ NormalizerError_display preflight_error)))
  | Ok identity =>
      let! found := find_by_logical_key (rt_store processor) (di_logical_key identity) in
      match found with
      | Some existing =>
          io_lift (validate_existing_identity existing (rp_event_id persisted) identity) ;;!
          publish_normalized existing (inc_request_id incoming)
      | None =>
          let! plan := normalize core (inc_envelope incoming) persisted raw in
          io_lift (reject_if (negb (String.eqb (np_logical_key plan) (di_logical_key identity)))
            (derivation_error "normalization plan identity differs from deterministic preflight")) ;;!
          let! ingest_time := io_lift (ok_or (rp_ingest_time persisted)
            (mkNormalizerError "CER-NORM-MISSING-INGEST-TIME" "RawEventPersisted.ingest_time is required" false)) in
          let! publication_message_id := new_uuid_v7 in
          let! candidate := io_lift (from_plan plan (np_resolved_event_time plan) ingest_time
            (inc_envelope incoming) publication_message_id (cfg_component_version config) (cfg_instance_id config)) in
          let! stored := insert_and_read_back (rt_store processor) candidate in
          io_lift (validate_existing_plan stored plan) ;;!
          publish_normalized stored (inc_request_id incoming)
      end
  end.

Definition best_effort_parser_identity (processor : RuntimeProcessor) (message : Message)
    : norm (option (string * string)) :=
  let! incoming := io_lift (result_ok (decode_raw_persisted message)) in
  match incoming with
  | None => io_ret None
  | Some incoming =>
      let! raw := io_result (read_raw (rt_raw_reader processor) (inc_persisted incoming)) in
      match raw with
      | Ok raw => io_lift (result_ok (parser_identity (rt_core processor) (inc_persisted incoming) raw))
      | _ => io_ret None
      end
  end.

Definition delivery_identity (message : Message) : string :=
  match msg_info message with
  | None => "payload:" +:+ sha256_lower_hex (msg_payload message)
  | Some info => "stream:" +:+ pretty (mi_stream_sequence info)
  end.

Definition delivery_count (message : Message) : Z :=
  match msg_info message with None => 1 | Some info => Z.max (mi_delivered info) 1 end.

(** ** Failures *)

Definition handle_isolation (processor : RuntimeProcessor) (message : Message) (deliveries : Z)
    (failure_key : string) (state : RetryState) : norm unit :=
  let! parser_identity := best_effort_parser_identity processor message in
  let failure :=
    mkDeadLetterFailure (ry_last_error_code state) (ry_last_error_message state) (ry_last_error_retryable state)
      (default u64_max (try_from in_u64 (Z.max deliveries 1)))
      (ry_first_failure_at state) (ry_last_failure_at state) in
  let! dead_letter := from_message message (ry_consumer_name state) failure parser_identity in
  let! published := io_result (publish_normalization_dlq dead_letter) in
  match published with
  | Ok _ =>
      sink_dlq (rt_metrics processor) ;;!
      settle message Term (fun error => mkNormalizerError "CER-NORM-NATS-TERM" error true) ;;!
      clear (ry_consumer_name state) (ry_message_key state)
  | _ =>
      let! delay := io_lift (retry_delay_with_jitter deliveries (cfg_retry_min_delay (rt_config processor))
        (cfg_retry_max_delay (rt_config processor)) failure_key) in
      nak_with_delay message delay
  end.

Definition handle_processing_failure (processor : RuntimeProcessor) (message : Message) (deliveries : Z)
    (message_key consumer_name : string) (message_id : option Uuid) (error : NormalizerError) : norm unit :=
  let config := rt_config processor in
  let! delay := io_lift (retry_delay_with_jitter deliveries (cfg_retry_min_delay config)
    (cfg_retry_max_delay config) message_key) in
  let! occurred_at := now in
  let! next_retry_at := io_lift (ok_or (system_time_checked_add occurred_at delay)
    (mkNormalizerError "CER-NORM-RETRY-STATE-TIME" "normalizer retry time overflow" false)) in
  let! state := record_failure
    (mkRetryFailure consumer_name message_key message_id occurred_at (cfg_retry_budget config) deliveries
       (nz_code error) (nz_message error) (nz_retryable error) next_retry_at) in
  if negb (isolation_required state) then nak_with_delay message delay
  else handle_isolation processor message deliveries message_key state.

Definition handle_message (processor : RuntimeProcessor) (message : Message) : norm unit :=
  let config := rt_config processor in
  let deliveries := delivery_count message in
  let message_key := delivery_identity message in
  let! consumer_name := io_lift (normalizer_consumer_name (cfg_execution_mode config) (cfg_replay_input config)) in
  let! loaded := load consumer_name message_key in
  match (loaded ≫= fun state => if isolation_required state then Some state else None) with
  | Some state => handle_isolation processor message deliveries message_key state
  | None =>
      match decode_raw_persisted message with
      | Panic p => io_lift (Panic p)
      | Err error =>
          handle_processing_failure processor message deliveries message_key consumer_name None error
      | Ok incoming =>
          let! message_id := io_lift (parse_message_id (ce_message_id (inc_envelope incoming))) in
          let! outcome := io_result (process_message processor incoming) in
          match outcome with
          | Ok _ =>
              clear consumer_name message_key ;;!
              settle message Ack (fun error => mkNormalizerError "CER-NORM-NATS-ACK" error true)
          | Err error =>
              handle_processing_failure processor message deliveries message_key consumer_name
                (Some message_id) error
          | Panic p => io_lift (Panic p)
          end
      end
  end.

(** ** The service *)

Definition build_core (config : RuntimeConfig) (metrics : MetricsSink) : result NormalizerCore NormalizerError :=
  let? core := new_with_linux_sshd_version
    (mkNormalizerCoreConfig (cfg_pipeline_version config) (cfg_execution_mode config))
    (cfg_linux_sshd_parser_version config) SystemClock SystemIdGenerator in
  let core := set_source_time_policies core (cfg_source_time_policies config) in
  Ok (set_core_metrics core metrics).

(** The part of [run_with_metrics] before the loop *)
Definition start (config : RuntimeConfig) (metrics : MetricsSink) : norm RuntimeProcessor :=
  let! raw_reader := (fun w => (new_reader (files_at (nw_step w)) (cfg_raw_store_path config), step_world w)) in
  let store := ClickHouseStore_new (cfg_clickhouse_url config) (cfg_clickhouse_database config)
    (cfg_clickhouse_user config) (cfg_clickhouse_password config) in
  connect (fun error => mkNormalizerError "CER-NORM-RETRY-STATE-POSTGRES-CONNECT" error true) ;;!
  EventBus_connect ;;!
  ready_consumer (cfg_execution_mode config) (cfg_replay_input config) ;;!
  connect (fun error => mkNormalizerError "CER-NORM-NATS-CONSUME" error true) ;;!
  let! core := io_lift (build_core config metrics) in
  io_ret (mkRuntimeProcessor config raw_reader store core metrics).

Definition clean_shutdown (processor : RuntimeProcessor) : norm unit :=
  delete_execution_consumer (cfg_execution_mode (rt_config processor)) (cfg_replay_input (rt_config processor)).

(** What the loop's [select!] waits for *)
Inductive LoopInput : Type :=
| ShutdownChanged (value : option bool)          (* none: the sender is gone *)
| NextMessage (next : option (Message + string)) (* none: the stream ended *)
| PostgresEnded (error : option string).

(** One turn of the loop: whether it goes on *)
Definition loop_turn (processor : RuntimeProcessor) (input : LoopInput) : norm bool :=
  match input with
  | ShutdownChanged (Some false) => io_ret true
  | ShutdownChanged _ => clean_shutdown processor ;;! io_ret false
  | NextMessage None =>
      io_lift (Err (mkNormalizerError "CER-NORM-NATS-CLOSED" "normalizer JetStream consumer stream ended" true))
  | NextMessage (Some (inr error)) => io_lift (Err (mkNormalizerError "CER-NORM-NATS-CONSUME" error true))
  | NextMessage (Some (inl message)) => handle_message processor message ;;! io_ret true
  | PostgresEnded None =>
      io_lift (Err (mkNormalizerError "CER-NORM-RETRY-STATE-POSTGRES-CLOSED"
                      "normalizer retry-state PostgreSQL connection closed" true))
  | PostgresEnded (Some error) =>
      io_lift (Err (mkNormalizerError "CER-NORM-RETRY-STATE-POSTGRES-CONNECTION" error true))
  end.

(** The loop over the inputs it is given; [None] when it still waits *)
Fixpoint processing (processor : RuntimeProcessor) (inputs : list LoopInput) : norm (option unit) :=
  match inputs with
  | [] => io_ret None
  | input :: inputs =>
      let! continue := loop_turn processor input in
      if continue then processing processor inputs else io_ret (Some tt)
  end.

Definition run_with_metrics (config : RuntimeConfig) (metrics : MetricsSink) (inputs : list LoopInput)
    : norm (option unit) :=
  let! processor := start config metrics in
  processing processor inputs.

End Runtime.
