(* ===== verification/NormalizerCoreSpec.v ===== *)
(** * What the normalization core promises

    The plan of a normalization carries the identity its preflight announced, and
    only rejected SSH passwords have a mapping. *)

From S2P Require Import Prelude RustStd RustText ContractTypes Validation Effects CanonicalJson Parser ParserSpec ParserFormats SourceTime Mapping RetryState Metrics NormalizerWorld NormalizerCore RuntimeConfig RawStore EventBus ClickHouse DeadLetter Runtime.

(** ** Recorders and results *)

(** A recorder only touches the metrics. *)
Definition records (m : norm unit) : Prop := forall w, exists metrics, m w = (Ok tt, set_metrics metrics w).

Record sink_ok (sink : MetricsSink) : Prop := {
  sink_parse_ok status id latency : records (sink_parse sink status id latency);
  sink_normalization_ok status id latency : records (sink_normalization sink status id latency);
  sink_dlq_ok : records (sink_dlq sink);
}.

Lemma records_ret : records (io_ret tt).
Proof. intros w. exists (nw_metrics w). by destruct w. Qed.

Lemma noop_sink_ok : sink_ok NoopNormalizerMetrics.
Proof. split; intros; apply records_ret. Qed.

Lemma memory_sink_ok : sink_ok MemoryMetricsSink.
Proof. split; intros; intros w; by eexists. Qed.

Lemma io_result_iff {A} (m : norm A) w r w' :
  io_result m w = (Ok r, w') <-> m w = (r, w') /\ no_panic r.
Proof.
  unfold io_result, no_panic. destruct (m w) as [[a|e|p] w1]; split; try naive_solver congruence.
Qed.

(** ** Cores as the runtime builds them *)

Section CoreSpec.
Context `{Sha256} `{JsonCodec} `{FormatCodec} `{DebugStr} `{TimeCrate} `{Outside}.

Record core_built (core : NormalizerCore) : Prop := {
  built_mappings : core_mappings core = mappings_with_defaults;
  built_parsers : exists version, with_linux_sshd_version version = Ok (core_parsers core);
  built_mode : nc_execution_mode (core_config core) <> ExecutionMode_Unspecified;
  built_metrics : sink_ok (core_metrics core);
  built_clock : core_clock core = SystemClock;
  built_ids : core_ids core = SystemIdGenerator;
}.

Lemma build_core_built config metrics core :
  sink_ok metrics -> build_core config metrics = Ok core ->
  core_built core /\ core_metrics core = metrics /\ core_config core =
    mkNormalizerCoreConfig (cfg_pipeline_version config) (cfg_execution_mode config).
Proof.
  unfold build_core, new_with_linux_sshd_version. intros Hm (c & Hc & [= <-])%bind_ok_iff.
  apply bind_unit_ok_iff in Hc as [_ Hc]. apply bind_unit_ok_iff in Hc as [Hmode%reject_if_ok_iff Hc].
  apply bind_ok_iff in Hc as (parsers & Hp%map_err_ok_iff & [= <-]). apply bool_decide_eq_false in Hmode.
  split; [|done]. split; simpl; eauto.
Qed.

Lemma for_parser_built core id mapping :
  core_built core -> for_parser (core_mappings core) id = Ok mapping ->
  id = LINUX_SSHD_PARSER_ID /\ mapping = SshAuthenticationMapping.
Proof.
  intros Hb. rewrite (built_mappings _ Hb). unfold for_parser. rewrite ok_or_ok_iff.
  unfold mappings_with_defaults, register_mapping, bt_insert. cbn [bt_upsert bt_get mapping_parser_id SshAuthenticationMapping].
  destruct (cmp id LINUX_SSHD_PARSER_ID) eqn:Hc; [|done..]. intros [= <-]. split; [|done].
  by apply cmp_eq_iff in Hc.
Qed.

Lemma ssh_map_output parsed persisted event_time millis mapped :
  ssh_map parsed persisted event_time millis = Ok mapped ->
  mo_mapping_id mapped = LINUX_SSH_AUTH_MAPPING_ID /\ mo_mapping_version mapped = LINUX_SSH_AUTH_MAPPING_VERSION.
Proof.
  unfold ssh_map. intros Hrun. apply bind_unit_ok_iff in Hrun as [_ Hrun].
  do 5 apply bind_ok_iff in Hrun as (? & _ & Hrun). apply bind_ok_iff in Hrun as ([[? ?] ?] & _ & Hrun).
  do 3 apply bind_ok_iff in Hrun as (? & _ & Hrun). by simplify_eq.
Qed.

(** The identity of a normalization by the built-in mapping *)
Definition sshd_identity (core : NormalizerCore) (persisted : RawEventPersisted) (version : string)
    : DerivationIdentity :=
  mkDerivationIdentity
    (logical_key_for core persisted LINUX_SSHD_PARSER_ID version LINUX_SSH_AUTH_MAPPING_ID
       LINUX_SSH_AUTH_MAPPING_VERSION)
    LINUX_SSHD_PARSER_ID version LINUX_SSH_AUTH_MAPPING_ID LINUX_SSH_AUTH_MAPPING_VERSION OCSF_VERSION
    (nc_pipeline_version (core_config core))
    (configuration_hash_for core persisted LINUX_SSHD_PARSER_ID version LINUX_SSH_AUTH_MAPPING_ID
       LINUX_SSH_AUTH_MAPPING_VERSION)
    (nc_execution_mode (core_config core)).

Lemma execution_mode_round_trip m : ExecutionMode_try_from (ExecutionMode_as_i32 m) = Some m.
Proof. by destruct m. Qed.

Lemma execution_mode_of_i32 n m : ExecutionMode_try_from n = Some m -> n = ExecutionMode_as_i32 m.
Proof. unfold ExecutionMode_try_from. by repeat case_match; intros [= <-]. Qed.

Lemma resolve_sshd policies persisted parsed event_time :
  pe_parser_id parsed = LINUX_SSHD_PARSER_ID -> resolve policies persisted parsed = Ok event_time ->
  etc_event_time event_time = rp_event_time persisted /\ etc_assumption event_time = None.
Proof.
  unfold resolve. intros Hid. destruct (rp_event_time persisted) as [t|] eqn:Ht.
  - intros [= <-]. unfold from_persisted. by rewrite Ht.
  - rewrite Hid. by intros [= <-].
Qed.

(** The time the event is filed under, in milliseconds: its own, or its arrival *)
Definition event_millis (persisted : RawEventPersisted) (millis : Z) : Prop :=
  exists t, (rp_event_time persisted = Some t \/ rp_event_time persisted = None /\ rp_ingest_time persisted = Some t) /\
    mapping_unix_millis t = Ok millis.

(** The document of the built-in mapping *)
Definition sshd_document (parsed : ParsedEvent) (persisted : RawEventPersisted) (v : Json) : Prop :=
  exists message ip user port invalid millis ingest processed source,
    v = ssh_ocsf_event message ip user port invalid millis (ssh_metadata ingest processed source) /\
    string_field parsed "username" = Some user /\ string_field parsed "source_ip" = Some ip /\
    event_millis persisted millis.

Lemma ssh_map_document parsed persisted event_time millis mapped :
  etc_event_time event_time = rp_event_time persisted -> etc_assumption event_time = None ->
  ssh_map parsed persisted event_time millis = Ok mapped -> sshd_document parsed persisted (mo_ocsf_event mapped).
Proof.
  intros Ht Ha. unfold ssh_map. intros Hrun. apply bind_unit_ok_iff in Hrun as [_ Hrun].
  apply bind_ok_iff in Hrun as (user & Huser%ok_or_ok_iff & Hrun).
  apply bind_ok_iff in Hrun as (ip & Hip%ok_or_ok_iff & Hrun).
  do 3 apply bind_ok_iff in Hrun as (? & _ & Hrun). apply bind_ok_iff in Hrun as ([[time ?] ?] & Htime & Hrun).
  do 2 apply bind_ok_iff in Hrun as (? & _ & Hrun). rewrite Ha in Hrun. cbn [bind] in Hrun.
  assert (event_millis persisted time) as Hm.
  { rewrite Ht in Htime. destruct (rp_event_time persisted) as [t|] eqn:He.
    - apply bind_ok_iff in Htime as (ms & Hms & [= <- _ _]). exists t. eauto.
    - apply bind_ok_iff in Htime as (t & Hi%ok_or_ok_iff & Htime).
      apply bind_ok_iff in Htime as (ms & Hms & [= <- _ _]). exists t. eauto. }
  injection Hrun as <-. do 9 eexists. by split_and!.
Qed.

(** The checks look at what identifies the derivation. *)
Lemma existing_identity_ok_iff row raw_event_id identity :
  validate_existing_identity row raw_event_id identity = Ok tt <->
  sn_logical_key row = di_logical_key identity /\ sn_raw_event_id row = raw_event_id /\
  sn_ocsf_version row = di_ocsf_version identity /\ sn_pipeline_version row = di_pipeline_version identity /\
  sn_parser_id row = di_parser_id identity /\ sn_parser_version row = di_parser_version identity /\
  sn_mapping_id row = di_mapping_id identity /\ sn_mapping_version row = di_mapping_version identity /\
  sn_configuration_hash row = di_configuration_hash identity /\
  sn_execution_mode row = ExecutionMode_as_i32 (di_execution_mode identity).
Proof.
  unfold validate_existing_identity. destruct (_ && _) eqn:Hm.
  - rewrite !andb_true_iff, !String.eqb_eq, Z.eqb_eq in Hm. naive_solver.
  - split; [done|]. intros Hall. apply not_true_iff_false in Hm. destruct Hm.
    rewrite !andb_true_iff, !String.eqb_eq, Z.eqb_eq. naive_solver.
Qed.

(** The contents of a plan for a raw event *)
Record plan_of (core : NormalizerCore) (persisted : RawEventPersisted) (parsed : ParsedEvent)
    (plan : NormalizationPlan) : Prop := {
  plan_parser : pe_parser_id parsed = LINUX_SSHD_PARSER_ID;
  plan_parser_id : ne_parser_id (np_normalized_event plan) = LINUX_SSHD_PARSER_ID;
  plan_identity_ok : plan_identity plan = Ok (sshd_identity core persisted (pe_parser_version parsed));
  plan_event_time : np_resolved_event_time plan = rp_event_time persisted;
  plan_raw_event : ne_raw_event_id (np_normalized_event plan) = rp_event_id persisted;
  plan_tenant : ne_tenant_id (np_normalized_event plan) = rp_tenant_id persisted;
  plan_document : exists v s, sshd_document parsed persisted v /\ np_canonical_ocsf_json plan = canonical_json_bytes v /\
    json_to_prost_struct v = Ok s /\ ne_ocsf_event (np_normalized_event plan) = Some s;
  plan_transformation : exists t, ne_normalized_at (np_normalized_event plan) = Some t /\
    np_transformation plan = mkTransformation (tr_transformation_id (np_transformation plan)) (rp_event_id persisted)
      "RawEvent" (ne_normalized_event_id (np_normalized_event plan)) "NormalizedEvent"
      ("cerbero-normalizer:" +:+ np_mapping_id plan) (np_mapping_version plan)
      (tr_configuration_hash (np_transformation plan)) (Some t) (Some t) 1 None
      (tr_execution_mode (np_transformation plan));
}.

Lemma plan_built core persisted parsed w plan w' :
  core_built core -> build_normalization_plan core persisted parsed w = (Ok plan, w') ->
  plan_of core persisted parsed plan.
Proof.
  intros Hb Hrun. unfold build_normalization_plan in Hrun. io_inv Hrun.
  match goal with Hf : map_err from_mapping (for_parser _ _) = Ok _ |- _ =>
    apply map_err_ok_iff, (for_parser_built _ _ _ Hb) in Hf as [Hid ->] end.
  match goal with Ht : map_err from_source_time _ = Ok _ |- _ =>
    apply map_err_ok_iff, (resolve_sshd _ _ _ _ Hid) in Ht as [Htime Hassume] end.
  match goal with Hm : map_err from_mapping (mapping_map _ _ _ _ _) = Ok _ |- _ =>
    apply map_err_ok_iff in Hm; pose proof (ssh_map_document _ _ _ _ _ Htime Hassume Hm) as Hdoc;
    apply ssh_map_output in Hm as [Hmid Hmv] end.
  split; [done|done| |done|done|done|by do 2 eexists|by eexists].
  unfold plan_identity. simpl. rewrite execution_mode_round_trip. simpl.
  unfold sshd_identity. by rewrite Hid, Hmid, Hmv.
Qed.

Lemma normalize_ok core incoming persisted raw w plan w' :
  normalize core incoming persisted raw w = (Ok plan, w') ->
  validate_handoff incoming persisted = Ok tt /\ validate_raw_bytes persisted raw = Ok tt /\
  exists parsed w1 w2, registry_parse (core_parsers core) (mkParserInput raw persisted None) = Ok parsed /\
    build_normalization_plan core persisted parsed w1 = (Ok plan, w2).
Proof.
  unfold normalize. intros Hrun.
  apply io_bind_ok_iff in Hrun as ([] & ? & [Hh ->]%io_lift_ok_iff & Hrun).
  apply io_bind_ok_iff in Hrun as ([] & ? & [Hr ->]%io_lift_ok_iff & Hrun).
  apply io_bind_ok_iff in Hrun as (parsed & w1 & Hparse & Hrun).
  split_and!; [done..|]. 
  apply io_bind_ok_iff in Hrun as (r & w2 & [Hplan _]%io_result_iff & Hrun).
  apply io_bind_ok_iff in Hrun as (? & ? & _ & Hrun). apply io_bind_ok_iff in Hrun as ([] & ? & _ & Hrun).
  apply io_lift_ok_iff in Hrun as [-> ->]. exists parsed, w1, w2. split; [|done].
  destruct (registry_parse _ _) as [e|e|p].
  - io_inv Hparse. by simplify_eq.
  - apply io_bind_ok_iff in Hparse as (? & ? & _ & Hparse). apply io_bind_ok_iff in Hparse as ([] & ? & _ & Hparse).
    by apply io_lift_ok_iff in Hparse as [? _].
  - by apply io_lift_ok_iff in Hparse as [? _].
Qed.

Lemma plan_of_preflight core persisted raw parsed plan :
  core_built core -> validate_raw_bytes persisted raw = Ok tt ->
  registry_parse (core_parsers core) (mkParserInput raw persisted None) = Ok parsed ->
  plan_of core persisted parsed plan ->
  derivation_identity core persisted raw = Ok (sshd_identity core persisted (pe_parser_version parsed)) /\
  np_logical_key plan = di_logical_key (sshd_identity core persisted (pe_parser_version parsed)).
Proof.
  intros Hb Hraw (sel & Hsel & Hpid & Hpv & _)%registry_parse_selected [Hid _ Hpi _ _ _ _ _]. split.
  - unfold derivation_identity. rewrite Hraw, Hsel. cbn [bind map_err]. rewrite <-Hpid, Hid.
    unfold for_parser. rewrite (built_mappings _ Hb). cbn [bind map_err]. rewrite <-Hpv. reflexivity.
  - unfold plan_identity in Hpi. destruct (ExecutionMode_try_from _); [|done]. injection Hpi; intros; done.
Qed.

(** C23: When the core normalizes an event, the derivation identity computed
    before the store is consulted succeeds and is exactly the identity the plan
    carries: the logical key under which the runtime looks up, stores and
    compares a normalization is one and the same, and the runtime's guards
    against a differing preflight cannot fire. *)
Theorem normalize_matches_preflight core incoming persisted raw w plan w' :
  core_built core -> normalize core incoming persisted raw w = (Ok plan, w') ->
  exists identity, derivation_identity core persisted raw = Ok identity /\
    plan_identity plan = Ok identity /\ np_logical_key plan = di_logical_key identity /\
    ne_raw_event_id (np_normalized_event plan) = rp_event_id persisted.
Proof.
  intros Hb (_ & Hraw & parsed & w1 & w2 & Hparse & Hplan)%normalize_ok.
  apply (plan_built _ _ _ _ _ _ Hb) in Hplan. eexists.
  destruct (plan_of_preflight core persisted raw parsed plan) as [? ?]; [done..|].
  split_and!; [done|apply Hplan|done|apply Hplan].
Qed.

Lemma unmapped_plan core persisted parsed w :
  core_built core -> pe_parser_id parsed <> LINUX_SSHD_PARSER_ID ->
  build_normalization_plan core persisted parsed w =
    (Err (mkNormalizerError "CER-NORM-MAPPING-UNSUPPORTED"
            ("no OCSF mapping is registered for parser " +:+ pe_parser_id parsed) false), w).
Proof.
  intros Hb Hid. unfold build_normalization_plan, io_bind, io_lift. unfold for_parser.
  rewrite (built_mappings _ Hb). destruct (bt_get _ _) as [m|] eqn:Hg; [|done].
  destruct (for_parser_built core (pe_parser_id parsed) m) as [? _]; [done| |done].
  unfold for_parser. by rewrite (built_mappings _ Hb), Hg.
Qed.

Lemma normalize_unmapped core incoming persisted raw w parsed :
  core_built core -> validate_handoff incoming persisted = Ok tt -> validate_raw_bytes persisted raw = Ok tt ->
  registry_parse (core_parsers core) (mkParserInput raw persisted None) = Ok parsed ->
  pe_parser_id parsed <> LINUX_SSHD_PARSER_ID ->
  exists w', normalize core incoming persisted raw w =
    (Err (mkNormalizerError "CER-NORM-MAPPING-UNSUPPORTED"
            ("no OCSF mapping is registered for parser " +:+ pe_parser_id parsed) false), w').
Proof.
  intros Hb Hh Hr Hp Hid. unfold normalize. rewrite Hh, Hr, Hp.
  do 2 (erewrite (io_bind_run (io_lift (Ok tt))) by reflexivity).
  destruct (sink_parse_ok _ (built_metrics _ Hb) (parse_metric_status (pe_status parsed))
              (Some (pe_parser_id parsed)) (elapsed_time (nw_step w)) (step_world w)) as [m Hm].
  erewrite io_bind_run; [|erewrite io_bind_run by reflexivity; erewrite io_bind_run by exact Hm; reflexivity].
  erewrite io_bind_run by (apply io_result_iff; split; [by apply unmapped_plan|done]).
  erewrite io_bind_run by reflexivity. cbn beta iota.
  match goal with |- context [sink_normalization _ ?st ?id ?l] =>
    destruct (sink_normalization_ok _ (built_metrics _ Hb) st id l (step_world (set_metrics m (step_world w))))
      as [m' Hm'] end.
  erewrite io_bind_run by exact Hm'. by eexists.
Qed.

(** Normalization is closed over the governed mapping: a plan exists only
    for an event of linux/sshd, with the event time the raw event had and no
    other; an event that any other parser of the registry accepts fails
    permanently at mapping selection, so a well-formed log of an unmapped family
    never yields a normalized event and is never retried. *)
Theorem normalize_only_governed_mapping core incoming persisted raw w r w' :
  core_built core -> normalize core incoming persisted raw w = (r, w') ->
  (forall plan, r = Ok plan ->
     ne_parser_id (np_normalized_event plan) = LINUX_SSHD_PARSER_ID /\
     np_resolved_event_time plan = rp_event_time persisted) /\
  (forall parsed, validate_handoff incoming persisted = Ok tt -> validate_raw_bytes persisted raw = Ok tt ->
     registry_parse (core_parsers core) (mkParserInput raw persisted None) = Ok parsed ->
     pe_parser_id parsed <> LINUX_SSHD_PARSER_ID ->
     exists message, r = Err (mkNormalizerError "CER-NORM-MAPPING-UNSUPPORTED" message false)).
Proof.
  intros Hb Hrun. split.
  - intros plan ->. apply normalize_ok in Hrun as (_ & _ & parsed & w1 & w2 & _ & Hplan).
    by destruct (plan_built _ _ _ _ _ _ Hb Hplan).
  - intros parsed Hh Hr Hp Hid. destruct (normalize_unmapped core incoming persisted raw w parsed) as [w1 Hw];
      [done..|]. rewrite Hw in Hrun. injection Hrun as <- _. eauto.
Qed.
End CoreSpec.
