(* ===== verification/Traces.v ===== *)
(** * Traces of the runtime's effects

    A run only appends to the log of outside effects.  [emits m Q] says that
    whatever the outside world decides, the result of [m] and the effects it
    appended satisfy [Q]; the lemmas follow the structure of the code. *)

From S2P Require Import Prelude RustStd ContractTypes Validation Effects CanonicalJson Parser ParserFormats SourceTime Mapping RetryState Metrics NormalizerWorld NormalizerCore RetryStore RuntimeConfig RawStore EventBus ClickHouse DeadLetter Runtime NormalizerCoreSpec.

Lemma io_bind_err {A B} (m : norm A) (k : A -> norm B) w e w1 : m w = (Err e, w1) -> io_bind m k w = (Err e, w1).
Proof. unfold io_bind. by intros ->. Qed.

Lemma io_bind_panic {A B} (m : norm A) (k : A -> norm B) w p w1 : m w = (Panic p, w1) -> io_bind m k w = (Panic p, w1).
Proof. unfold io_bind. by intros ->. Qed.

Section Emits.
Context {A : Type}.
Implicit Types (m : norm A) (Q : result A NormalizerError -> list Effect -> Prop).

Definition emits m Q : Prop :=
  forall w r w', m w = (r, w') -> exists es, nw_effects w' = nw_effects w ++ es /\ Q r es.

Lemma emits_mono m Q Q' : emits m Q -> (forall r es, Q r es -> Q' r es) -> emits m Q'.
Proof. intros Hm HQ w r w' (es & ? & ?)%Hm. eauto. Qed.

Lemma emits_ret (a : A) Q : Q (Ok a) [] -> emits (io_ret a) Q.
Proof. intros HQ w r w' [= <- <-]. exists []. by rewrite app_nil_r. Qed.

Lemma emits_lift (x : result A NormalizerError) Q : Q x [] -> emits (io_lift x) Q.
Proof. intros HQ w r w' [= <- <-]. exists []. by rewrite app_nil_r. Qed.
End Emits.

Lemma emits_bind {A B} (m : norm A) (k : A -> norm B) Q1 Q :
  emits m Q1 ->
  (forall a es1, Q1 (Ok a) es1 -> emits (k a) (fun r es2 => Q r (es1 ++ es2))) ->
  (forall e es, Q1 (Err e) es -> Q (Err e) es) -> (forall p es, Q1 (Panic p) es -> Q (Panic p) es) ->
  emits (io_bind m k) Q.
Proof.
  intros Hm Hk He Hp w r w'. unfold io_bind. destruct (m w) as [[a|e|p] w1] eqn:Hw; apply Hm in Hw as (es1 & Heq & HQ).
  - intros (es2 & Heq2 & HQ2)%(Hk a es1 HQ). exists (es1 ++ es2). by rewrite Heq2, Heq, app_assoc.
  - intros [= <- <-]. eauto.
  - intros [= <- <-]. eauto.
Qed.

Lemma emits_result {A} (m : norm A) Q :
  emits m Q ->
  emits (io_result m) (fun r es =>
    match r with Ok r => Q r es /\ no_panic r | Err _ => False | Panic p => Q (Panic p) es end).
Proof.
  intros Hm w r w'. unfold io_result. destruct (m w) as [[a|e|p] w1] eqn:Hw;
    apply Hm in Hw as (es & ? & ?); intros [= <- <-]; exists es; by split_and!.
Qed.

(** Every effect of the run satisfies [P]. *)
Definition only {A} (P : Effect -> Prop) (m : norm A) : Prop := emits m (fun _ es => Forall P es).

Section Only.
Variable P : Effect -> Prop.

Lemma only_bind {A B} (m : norm A) (k : A -> norm B) : only P m -> (forall a, only P (k a)) -> only P (io_bind m k).
Proof.
  intros Hm Hk. eapply emits_bind; [exact Hm| |done|done]. intros a es1 H1. eapply emits_mono; [apply Hk|].
  intros r es2 H2. by apply Forall_app.
Qed.

Lemma only_ret {A} (a : A) : only P (io_ret a).
Proof. by apply emits_ret, Forall_nil. Qed.

Lemma only_lift {A} (r : result A NormalizerError) : only P (io_lift r).
Proof. by apply emits_lift, Forall_nil. Qed.

Lemma only_result {A} (m : norm A) : only P m -> only P (io_result m).
Proof. intros Hm. eapply emits_mono; [by apply emits_result|]. intros [r|e|p] es; [by intros [? _]|done|done]. Qed.

Lemma only_records (m : norm unit) : records m -> only P m.
Proof.
  intros Hm w r w'. destruct (Hm w) as [metrics ->]. intros [= <- <-]. exists []. rewrite app_nil_r.
  split; [done|constructor].
Qed.

(** A step that logs nothing *)
Lemma only_step {A} (f : NormalizerWorld -> result A NormalizerError) : only P (fun w => (f w, step_world w)).
Proof. intros w r w' [= <- <-]. exists []. rewrite app_nil_r. split; [done|constructor]. Qed.

Lemma only_query `{Outside} {A} context (effect : A -> option Effect) action :
  (forall a e, effect a = Some e -> P e) -> only P (run_query context effect action).
Proof.
  intros He w r w'. unfold run_query.
  assert (forall a t, exists es, nw_effects (step_world (match effect a with Some e => log_effect e (set_retries t w)
    | None => set_retries t w end)) = nw_effects w ++ es /\ Forall P es) as Happ.
  { intros a t. destruct (effect a) as [e|] eqn:Ha.
    - exists [e]. split; [done|]. constructor; [by eapply He|constructor].
    - exists []. rewrite app_nil_r. split; [done|constructor]. }
  assert (exists es, nw_effects (step_world w) = nw_effects w ++ es /\ Forall P es) as Hno.
  { exists []. rewrite app_nil_r. split; [done|constructor]. }
  destruct (action (nw_retries w)) as [[a t]|e|p], (retry_fault (nw_step w)) as [[error [|]]|];
    intros [= <- <-]; done.
Qed.
End Only.

(** ** Runs that settle nothing *)

Definition settles (e : Effect) : bool := match e with Settled _ _ => true | _ => false end.
Definition quiet (es : list Effect) : Prop := Forall (fun e => settles e = false) es.
Definition silent {A} (m : norm A) : Prop := only (fun e => settles e = false) m.

Lemma quiet_app es1 es2 : quiet (es1 ++ es2) <-> quiet es1 /\ quiet es2.
Proof. apply Forall_app. Qed.

Lemma silent_bind {A B} (m : norm A) (k : A -> norm B) : silent m -> (forall a, silent (k a)) -> silent (io_bind m k).
Proof. apply only_bind. Qed.

(** ** Runs that do not touch the retry table either *)

Definition calmly (w w' : NormalizerWorld) : Prop :=
  nw_retries w' = nw_retries w /\ exists es, nw_effects w' = nw_effects w ++ es /\ quiet es.

#[export] Instance calmly_preorder : PreOrder calmly.
Proof.
  split.
  - intros w. split; [done|]. exists []. rewrite app_nil_r. split; [done|constructor].
  - intros w1 w2 w3 [Hr1 (es1 & He1 & Hq1)] [Hr2 (es2 & He2 & Hq2)]. split; [congruence|].
    exists (es1 ++ es2). rewrite He2, He1, app_assoc. split; [done|by apply quiet_app].
Qed.

Definition calm {A} (m : norm A) : Prop := io_respects calmly m.

Lemma calm_silent {A} (m : norm A) : calm m -> silent m.
Proof. intros Hm w r w' Hrun. by destruct (Hm w r w' Hrun) as [_ ?]. Qed.

Lemma calm_retries {A} (m : norm A) w r w' : calm m -> m w = (r, w') -> nw_retries w' = nw_retries w.
Proof. intros Hm Hrun. by destruct (Hm w r w' Hrun). Qed.

Lemma calm_ret {A} (a : A) : calm (io_ret a).
Proof. apply respects_ret, _. Qed.

Lemma calm_lift {A} (r : result A NormalizerError) : calm (io_lift r).
Proof. apply respects_lift, _. Qed.

Lemma calm_bind {A B} (m : norm A) (k : A -> norm B) : calm m -> (forall a, calm (k a)) -> calm (io_bind m k).
Proof. apply respects_bind, _. Qed.

Lemma calm_result {A} (m : norm A) : calm m -> calm (io_result m).
Proof.
  intros Hm w r w'. unfold io_result. destruct (m w) as [[a|e|p] w1] eqn:Hw; apply Hm in Hw; by intros [= <- <-].
Qed.

Lemma calm_records (m : norm unit) : records m -> calm m.
Proof. intros Hm w r w'. destruct (Hm w) as [metrics ->]. intros [= <- <-]. by apply (reflexivity (R := calmly) w). Qed.

(** A step of the outside world, with or without a quiet effect *)
Lemma calmly_step w : calmly w (step_world w).
Proof. split; [done|]. exists []. rewrite app_nil_r. split; [done|constructor]. Qed.

Lemma calmly_log e w : settles e = false -> calmly w (log_effect e (step_world w)).
Proof. intros He. split; [done|]. exists [e]. split; [done|by repeat constructor]. Qed.

Lemma calm_pure_step {A} (f : NormalizerWorld -> result A NormalizerError) : calm (fun w => (f w, step_world w)).
Proof. intros w r w' [= <- <-]. apply calmly_step. Qed.

(** Predicates on the end of a run that earlier quiet effects leave alone *)
Record absorbs (Q : result unit NormalizerError -> list Effect -> Prop) : Prop := {
  absorbs_prefix r es0 es : quiet es0 -> Q r es -> Q r (es0 ++ es);
  absorbs_failed r es : quiet es -> r <> Ok tt -> Q r es;
}.

Lemma emits_silent_run {A} (m : norm A) (k : A -> norm unit) Q :
  absorbs Q -> silent m -> (forall a w w', m w = (Ok a, w') -> emits (k a) Q) -> emits (io_bind m k) Q.
Proof.
  intros [Hpre Hfail] Hm Hk w r w'. unfold io_bind.
  destruct (m w) as [[a|e|p] w1] eqn:Hw; pose proof Hw as (es1 & Heq & Hq)%Hm.
  - intros (es2 & Heq2 & HQ)%(Hk a w w1 Hw). exists (es1 ++ es2). rewrite Heq2, Heq, app_assoc. split; [done|by apply Hpre].
  - intros [= <- <-]. exists es1. split; [done|by apply Hfail].
  - intros [= <- <-]. exists es1. split; [done|by apply Hfail].
Qed.

Lemma emits_silent_bind {A} (m : norm A) (k : A -> norm unit) Q :
  absorbs Q -> silent m -> (forall a, emits (k a) Q) -> emits (io_bind m k) Q.
Proof. intros Hq Hm Hk. by apply emits_silent_run. Qed.

Lemma emits_lift_failed (r : result unit NormalizerError) Q : absorbs Q -> r <> Ok tt -> emits (io_lift r) Q.
Proof. intros [_ Hf] Hr. apply emits_lift, Hf; [constructor|done]. Qed.

Lemma emits_lift_bind {A} (x : result A NormalizerError) (k : A -> norm unit) Q :
  absorbs Q -> (forall a, x = Ok a -> emits (k a) Q) -> emits (io_bind (io_lift x) k) Q.
Proof.
  intros [_ Hf] Hk w r w'. unfold io_bind, io_lift. destruct x as [a|e|p].
  - by apply Hk.
  - intros [= <- <-]. exists []. rewrite app_nil_r. split; [done|]. apply Hf; [constructor|done].
  - intros [= <- <-]. exists []. rewrite app_nil_r. split; [done|]. apply Hf; [constructor|done].
Qed.

Create HintDb calm.
#[export] Hint Resolve calm_ret calm_lift calm_bind calm_result : calm.
#[export] Hint Resolve calm_silent | 5 : calm.
#[export] Hint Extern 1 (calm (match ?x with _ => _ end)) => destruct x : calm.
#[export] Hint Extern 1 (calm (let '(_, _) := ?x in _)) => destruct x : calm.

Section Calm.
Context `{Outside} `{RawFiles}.

Lemma calm_now : calm now.
Proof. apply calm_pure_step. Qed.
Lemma calm_elapsed : calm elapsed.
Proof. apply calm_pure_step. Qed.
Lemma calm_uuid : calm new_uuid_v7.
Proof. apply calm_pure_step. Qed.
Lemma calm_read reader persisted : calm (read_raw reader persisted).
Proof. apply calm_pure_step. Qed.

Lemma calm_publish subject headers payload err : calm (publish_with_headers subject headers payload err).
Proof.
  intros w r w'. unfold publish_with_headers.
  destruct (publish_reply (nw_step w) subject) as [ack|[error [|]]]; intros [= <- <-];
    by first [apply calmly_step|apply calmly_log].
Qed.

Lemma calm_http request err : calm (send_http request err).
Proof.
  intros w r w'. unfold send_http.
  destruct (http_reply (nw_step w) request) as [reply|[error [|]]]; intros [= <- <-];
    by first [apply calmly_step|apply calmly_log].
Qed.

Lemma calm_connect err : calm (connect err).
Proof.
  intros w r w'. unfold connect. destruct (connect_fault (nw_step w)); intros [= <- <-];
    apply calmly_step.
Qed.

Lemma calm_change_consumer change err : settles change = false -> calm (change_consumer change err).
Proof.
  intros Hc w r w'. unfold change_consumer. destruct (consumer_fault (nw_step w)) as [[error [|]]|]; intros [= <- <-];
    by first [apply calmly_step|apply calmly_log].
Qed.

Lemma silent_query {A} context (effect : A -> option Effect) action :
  (forall a e, effect a = Some e -> settles e = false) -> silent (run_query context effect action).
Proof. apply only_query. Qed.

End Calm.

#[export] Hint Resolve calm_now calm_elapsed calm_uuid calm_read calm_publish calm_http calm_connect : calm.
