(* ===== verification/DeliverySpec.v ===== *)
(** * The delivery protocol

    What a delivery does to the outside world: messages are settled once, and
    only after the publication that replaces them is acknowledged. *)

From S2P Require Import Prelude RustStd RustText ContractTypes Validation Effects CanonicalJson Parser ParserFormats SourceTime Mapping RetryState Metrics NormalizerWorld NormalizerCore RetryStore RuntimeConfig RawStore EventBus ClickHouse DeadLetter Runtime NormalizerCoreSpec Traces.

(** ** Retry delays *)

Section Delays.
Context `{Sha256}.

(** Doubling from the minimum, at most twenty times, up to the maximum *)
Definition backoff (deliveries : Z) (min max : Duration) : Duration :=
  Z.min (min * 2 ^ Z.min 20 (Z.max 0 (deliveries - 1))) max.

Lemma retry_delay_backoff deliveries (min max : Duration) :
  (max <= DURATION_MAX)%Z -> (i64_min <= deliveries)%Z ->
  retry_delay deliveries min max = backoff deliveries min max.
Proof.
  intros Hmax Hd. unfold retry_delay, duration_saturating_mul, backoff.
  rewrite (Z.max_assoc 0), (Z.max_l 0 i64_min) by (unfold i64_min; lia).
  set (c := Z.min 20 (Z.max 0 (deliveries - 1))). assert (0 <= c <= 20)%Z as Hc by lia.
  unfold try_from. assert (in_u32 c = true) as -> by (apply in_range_spec; unfold u32_max; lia). simpl.
  destruct (Z.ltb_spec c 32); [|lia]. rewrite Z.shiftl_mul_pow2 by lia. lia.
Qed.

Lemma backoff_range deliveries (min max : Duration) :
  (0 <= min <= max)%Z -> (min <= backoff deliveries min max <= max)%Z.
Proof.
  intros Hm. unfold backoff. set (c := Z.min 20 (Z.max 0 (deliveries - 1))).
  assert (1 <= 2 ^ c)%Z by (apply (Z.pow_le_mono_r 2 0 c); lia). nia.
Qed.

Lemma digest_prefix bytes : exists prefix, slice_to (E := NormalizerError) (sha256_lower_hex bytes) 16 = Ok prefix.
Proof.
  destruct (sha256_lower_hex_digest bytes) as [Hlen Hhex]. unfold slice_to, split_at, is_char_boundary.
  destruct (str_bytes (sha256_lower_hex bytes) !! 16) as [a|] eqn:Ha.
  - apply (Forall_lookup_1 _ _ _ _ Hhex) in Ha.
    assert (byte_in 128 191 a = false) as ->; [|by eexists].
    unfold is_lower_hex, is_ascii_digit, byte_in, in_range in *. lia.
  - apply lookup_ge_None in Ha. unfold str_len in Hlen. lia.
Qed.

Lemma jittered_delay deliveries (min max : Duration) seed :
  (0 <= min <= max)%Z -> (max <= DURATION_MAX)%Z -> (i64_min <= deliveries)%Z ->
  exists percentage, (80 <= percentage <= 120)%Z /\
    retry_delay_with_jitter deliveries min max seed =
      Ok (Z.min (Z.max (Z.min u64_max (backoff deliveries min max * percentage / 100)) min) max).
Proof.
  intros Hm Hmax Hd. unfold retry_delay_with_jitter. rewrite retry_delay_backoff by done.
  destruct (digest_prefix (str_bytes (seed +:+ ":" +:+ pretty deliveries))) as [prefix ->]. cbn [bind].
  set (sample := default 0%Z (parse_hex 0 (str_bytes prefix))).
  exists (80 + sample mod 41)%Z. pose proof (Z.mod_pos_bound sample 41).
  pose proof (backoff_range deliveries min max Hm) as Hb.
  assert (DURATION_MAX * 120 <= u128_max)%Z as Hu by done.
  rewrite (Z.min_r u128_max) by nia. split; [lia|]. do 3 f_equal. unfold try_from, in_u64, in_range.
  set (n := (backoff deliveries min max * (80 + sample mod 41) / 100)%Z).
  assert (0 <= n)%Z by (apply Z.div_pos; nia).
  destruct (Z.leb_spec 0 n), (Z.leb_spec n u64_max); simpl; lia.
Qed.

(** The delay before a retry is always defined and lies between the
    configured minimum and maximum; away from the 64-bit nanosecond limit it is
    within twenty percent of the exponential backoff, which doubles with each
    delivery until it reaches the maximum. *)
Theorem retry_delay_bounds deliveries (min max : Duration) seed :
  (0 <= min <= max)%Z -> (max <= DURATION_MAX)%Z -> (i64_min <= deliveries)%Z ->
  exists delay, retry_delay_with_jitter deliveries min max seed = Ok delay /\ (min <= delay <= max)%Z /\
    (backoff deliveries min max * 120 / 100 <= u64_max ->
     backoff deliveries min max * 80 / 100 <= delay <=
       Z.max min (backoff deliveries min max * 120 / 100))%Z.
Proof.
  intros Hm Hmax Hd. destruct (jittered_delay deliveries min max seed Hm Hmax Hd) as (p & Hp & ->).
  pose proof (backoff_range deliveries min max Hm) as Hb. set (b := backoff deliveries min max) in *.
  assert (b * 80 / 100 <= b * p / 100 <= b * 120 / 100)%Z by (split; apply Z.div_le_mono; nia).
  assert (b * 80 / 100 <= max)%Z by (apply Z.div_le_upper_bound; nia).
  eexists. split; [done|]. split; lia.
Qed.

End Delays.

(** ** Settlement *)

Section Settlement.
Context `{Sha256} `{JsonCodec} `{FormatCodec} `{DebugStr} `{TimeCrate} `{Outside}.
Context `{RetryCodec} `{ProstCodec} `{RowCodec} `{DeadLetterCodec} `{RawFiles}.

Definition accepted (stream : string) (ack : PubAck) : Prop := pa_stream ack = stream /\ pa_sequence ack <> 0%Z.

(** The normalized event of the raw event [raw_event_id] was published, as the
    stored row says it, and stored by its stream. *)
Definition event_published (raw_event_id : string) (es : list Effect) : Prop :=
  exists row request_id envelope headers ack,
    sn_raw_event_id row = raw_event_id /\ normalized_envelope row = Ok envelope /\
    normalized_headers row request_id = Ok headers /\
    Published NORMALIZED_CREATED_SUBJECT headers (envelope_encode envelope) (Some ack) ∈ es /\
    accepted ANALYTICS_STREAM_NAME ack.

(** The message decodes, and the normalized event of the raw event it hands over
    was published. *)
Definition normalized_published (message : Message) (es : list Effect) : Prop :=
  exists incoming, decode_raw_persisted message = Ok incoming /\
    event_published (rp_event_id (inc_persisted incoming)) es.

(** A dead letter about the message was published and stored by its stream. *)
Definition dead_lettered (message : Message) (es : list Effect) : Prop :=
  exists record payload ack,
    Published NORMALIZATION_DLQ_SUBJECT (dlq_headers record) payload (Some ack) ∈ es /\
    accepted DLQ_STREAM_NAME ack /\ dead_letter_to_vec record = Ok payload /\
    dl_original_payload_sha256 record = sha256_lower_hex (msg_payload message).

(** What a settlement rests on, among the effects before it *)
Definition backed (config : RuntimeConfig) (message : Message) (kind : AckKind) (es : list Effect) : Prop :=
  match kind with
  | Ack => normalized_published message es
  | Term => dead_lettered message es
  | Nak delay => (cfg_retry_min_delay config <= delay <= cfg_retry_max_delay config)%Z
  end.

(** The effects of one delivery: at most one settlement, of its message *)
Inductive delivered (config : RuntimeConfig) (message : Message) : list Effect -> Prop :=
| delivered_unsettled es : quiet es -> delivered config message es
| delivered_settled es1 kind es2 :
    quiet es1 -> backed config message kind es1 -> quiet es2 ->
    delivered config message (es1 ++ Settled message kind :: es2).

(** A delivery that ends well was settled. *)
Definition delivery (config : RuntimeConfig) (message : Message) (r : result unit NormalizerError)
    (es : list Effect) : Prop :=
  delivered config message es /\ (r = Ok tt -> exists kind, Settled message kind ∈ es).

Lemma event_published_mono id es1 es2 :
  (forall e, e ∈ es1 -> e ∈ es2) -> event_published id es1 -> event_published id es2.
Proof. intros Hsub (row & request_id & env & h & ack & ? & ? & ? & ? & ?). exists row, request_id, env, h, ack. split_and!; eauto. Qed.

Lemma backed_mono config message kind es1 es2 :
  (forall e, e ∈ es1 -> e ∈ es2) -> backed config message kind es1 -> backed config message kind es2.
Proof.
  intros Hsub. destruct kind; simpl; [|done|].
  - intros (incoming & Hd & Hpub). exists incoming. split; [done|]. by eapply event_published_mono.
  - intros (rec & p & ack & ? & ?). exists rec, p, ack. eauto.
Qed.

Lemma delivery_prefix config message r es0 es :
  quiet es0 -> delivery config message r es -> delivery config message r (es0 ++ es).
Proof.
  intros Hq [Hd Hs]. split.
  - destruct Hd as [es Hes|es1 kind es2 Hq1 Hb Hq2].
    + apply delivered_unsettled, quiet_app. eauto.
    + rewrite app_assoc. apply delivered_settled; [by apply quiet_app| |done].
      eapply backed_mono; [|exact Hb]. set_solver.
  - intros [kind Hk]%Hs. exists kind. set_solver.
Qed.

Lemma delivery_failed config message r es : quiet es -> r <> Ok tt -> delivery config message r es.
Proof. intros Hq Hr. split; [by apply delivered_unsettled|done]. Qed.

Lemma delivery_absorbs config message : absorbs (delivery config message).
Proof. split; [intros; by apply delivery_prefix|intros; by apply delivery_failed]. Qed.

Lemma emits_settle message kind err :
  emits (settle message kind err) (fun r es => es = [Settled message kind] \/ es = [] /\ r <> Ok tt).
Proof.
  intros w r w'. unfold settle. destruct (settle_fault (nw_step w)) as [[error [|]]|]; intros [= <- <-].
  - eexists. split; [reflexivity|by left].
  - exists []. rewrite app_nil_r. split; [done|by right].
  - eexists. split; [reflexivity|by left].
Qed.

(** The settlement, after effects that back it and before quiet ones *)
Lemma delivery_settle config message kind err es1 (k : norm unit) :
  quiet es1 -> backed config message kind es1 -> silent k ->
  emits (io_bind (settle message kind err) (fun _ => k)) (fun r es => delivery config message r (es1 ++ es)).
Proof.
  intros Hq Hb Hk. eapply emits_bind; [apply emits_settle| | |].
  - intros [] es [-> |[_ Hn]]; [|done]. eapply emits_mono; [exact Hk|]. intros r es2 Hq2. split.
    + by apply delivered_settled.
    + intros _. exists kind. set_solver.
  - intros e es [-> |[-> _]]; [|rewrite app_nil_r; by apply delivery_failed]. split; [|done].
    by apply delivered_settled; [..|constructor].
  - intros e es [-> |[-> _]]; [|rewrite app_nil_r; by apply delivery_failed]. split; [|done].
    by apply delivered_settled; [..|constructor].
Qed.

Lemma delivery_settle_last config message kind err es1 :
  quiet es1 -> backed config message kind es1 ->
  emits (settle message kind err) (fun r es => delivery config message r (es1 ++ es)).
Proof.
  intros Hq Hb. eapply emits_mono; [apply emits_settle|]. intros r es [-> |[-> Hr]].
  - split; [by apply delivered_settled; [..|constructor]|]. intros _. exists kind. set_solver.
  - rewrite app_nil_r. by apply delivery_failed.
Qed.

(** ** Exchanges that settle nothing *)

Lemma silent_load consumer key : silent (load consumer key).
Proof.
  unfold load. apply silent_bind; [auto with calm|]. intros _. apply silent_bind; [by apply silent_query|].
  intros [row|]; auto with calm.
Qed.

Lemma silent_clear consumer key : silent (clear consumer key).
Proof.
  unfold clear. apply silent_bind; [auto with calm|]. intros _. apply silent_query. by intros ? ? [= <-].
Qed.

Lemma silent_record_failure failure : silent (record_failure failure).
Proof.
  unfold record_failure. apply silent_bind; [auto with calm|]. intros _. apply silent_bind.
  - apply silent_query. by intros [row|] e [= <-].
  - intros [row|]; [auto with calm|]. apply silent_bind; [apply silent_load|]. auto with calm.
Qed.

Lemma calm_exchange request : calm (exchange request).
Proof. unfold exchange. repeat (apply calm_bind; [auto with calm|intros ?]). auto with calm. Qed.

Lemma calm_find store key : calm (find_by_logical_key store key).
Proof.
  unfold find_by_logical_key. apply calm_bind; [auto with calm|intros _].
  apply calm_bind; [apply calm_exchange|intros body]. destruct (is_empty (trim body)); auto with calm.
Qed.

Lemma calm_insert store row : calm (insert_and_read_back store row).
Proof.
  unfold insert_and_read_back. do 2 (apply calm_bind; [auto with calm|intros ?]).
  apply calm_bind; [apply calm_exchange|intros _]. apply calm_bind; [apply calm_find|]. auto with calm.
Qed.

Lemma calm_clock : calm SystemClock.
Proof. unfold SystemClock. apply calm_bind; [auto with calm|]. intros t. destruct (t <? 0)%Z; auto with calm. Qed.

Lemma calm_plan core persisted parsed : core_built core -> calm (build_normalization_plan core persisted parsed).
Proof.
  intros Hb. unfold build_normalization_plan. rewrite (built_clock _ Hb), (built_ids _ Hb).
  do 2 (apply calm_bind; [auto with calm|intros ?]). apply calm_bind; [apply calm_clock|intros ?].
  repeat (apply calm_bind; [auto with calm; apply calm_uuid|intros ?]). auto with calm.
Qed.

Lemma calm_normalize core incoming persisted raw :
  core_built core -> calm (normalize core incoming persisted raw).
Proof.
  intros Hb. unfold normalize. destruct (built_metrics _ Hb) as [Hp Hn _].
  do 2 (apply calm_bind; [auto with calm|intros ?]). apply calm_bind.
  - destruct (registry_parse _ _); [| |auto with calm];
      (apply calm_bind; [auto with calm|intros ?]; apply calm_bind; [by apply calm_records|auto with calm]).
  - intros parsed. apply calm_bind; [by apply calm_result, calm_plan|intros r].
    apply calm_bind; [auto with calm|intros ?]. apply calm_bind; [|auto with calm].
    destruct r; by apply calm_records.
Qed.

Lemma calm_best_effort processor message : calm (best_effort_parser_identity processor message).
Proof.
  unfold best_effort_parser_identity. apply calm_bind; [auto with calm|intros [incoming|]; [|auto with calm]].
  apply calm_bind; [auto with calm|intros raw]. destruct raw; auto with calm.
Qed.

(** ** Publications *)

Lemma emits_publish subject headers payload err :
  emits (publish_with_headers subject headers payload err) (fun r es =>
    quiet es /\ forall ack, r = Ok ack -> es = [Published subject headers payload (Some ack)]).
Proof.
  intros w r w'. unfold publish_with_headers. destruct (publish_reply (nw_step w) subject) as [ack|[error [|]]];
    intros [= <- <-].
  - eexists. split; [reflexivity|]. split; [by repeat constructor|]. by intros ? [= ->].
  - eexists. split; [reflexivity|]. split; [by repeat constructor|done].
  - exists []. rewrite app_nil_r. split; [done|]. split; [constructor|done].
Qed.

(** The acknowledgement both publications check *)
Lemma emits_acknowledged subject headers payload stream error Q :
  absorbs Q ->
  (forall ack, accepted stream ack -> Q (Ok tt) [Published subject headers payload (Some ack)]) ->
  emits (let! ack := publish_with_headers subject headers payload nats_error in
         io_lift (reject_if (negb (String.eqb (pa_stream ack) stream) || (pa_sequence ack =? 0)%Z) (error ack))) Q.
Proof.
  intros Hq HQ. eapply emits_bind; [apply emits_publish| | |].
  - intros ack es [Hes Hack]. apply emits_lift. rewrite app_nil_r.
    destruct (reject_if _ _) as [[]|e|p] eqn:Hr; [|by apply (absorbs_failed _ Hq)..].
    rewrite (Hack ack eq_refl). apply reject_if_ok_iff, orb_false_iff in Hr as [Hs Hn]. apply HQ.
    apply negb_false_iff, String.eqb_eq in Hs. by apply Z.eqb_neq in Hn.
  - intros e es [Hes _]. by apply (absorbs_failed _ Hq).
  - intros e es [Hes _]. by apply (absorbs_failed _ Hq).
Qed.

Definition publishes (raw_event_id : string) (r : result unit NormalizerError) (es : list Effect) : Prop :=
  quiet es /\ (r = Ok tt -> event_published raw_event_id es).

Lemma publishes_absorbs raw_event_id : absorbs (publishes raw_event_id).
Proof.
  split.
  - intros r es0 es Hq [Hes Hp]. split; [by apply quiet_app|]. intros Hpub%Hp.
    eapply event_published_mono; [|exact Hpub]. set_solver.
  - intros r es Hq Hr. by split.
Qed.

Lemma emits_publish_normalized row request_id raw_event_id :
  sn_raw_event_id row = raw_event_id -> emits (publish_normalized row request_id) (publishes raw_event_id).
Proof.
  intros Hid. unfold publish_normalized. pose proof (publishes_absorbs raw_event_id) as Ha.
  apply emits_lift_bind; [done|intros envelope Henv]. apply emits_lift_bind; [done|intros headers Hheaders].
  apply emits_acknowledged; [done|]. intros ack Hack. split; [by repeat constructor|].
  intros _. exists row, request_id, envelope, headers, ack. split_and!; try done. by apply list_elem_of_singleton.
Qed.

(** A dead letter about a payload with this digest was published. *)
Definition dead_letters (digest : string) (r : result unit NormalizerError) (es : list Effect) : Prop :=
  quiet es /\ (r = Ok tt -> forall message,
    sha256_lower_hex (msg_payload message) = digest -> dead_lettered message es).

Lemma dead_letters_absorbs digest : absorbs (dead_letters digest).
Proof.
  split; [|intros r es Hq Hr; by split].
  intros r es0 es Hq [Hes Hp]. split; [by apply quiet_app|]. intros Hr message Hm.
  destruct (Hp Hr message Hm) as (rec & p & ack & ? & ?). exists rec, p, ack. set_solver.
Qed.

Lemma emits_publish_dlq record :
  emits (publish_normalization_dlq record) (dead_letters (dl_original_payload_sha256 record)).
Proof.
  unfold publish_normalization_dlq. apply emits_lift_bind; [apply dead_letters_absorbs|].
  intros bytes Hb%map_err_ok_iff. apply emits_acknowledged; [apply dead_letters_absorbs|].
  intros ack Hack. split; [by repeat constructor|]. intros _ message Hm.
  exists record, bytes, ack. split; [by apply list_elem_of_singleton|done].
Qed.

Lemma emits_from_message message consumer failure identity :
  emits (from_message message consumer failure identity) (fun r es => quiet es /\
    forall record, r = Ok record -> dl_original_payload_sha256 record = sha256_lower_hex (msg_payload message)).
Proof.
  unfold from_message. eapply emits_bind; [apply calm_silent, calm_lift| |done|done]. intros envelope es1 Hq1.
  eapply emits_bind.
  - instantiate (1 := fun _ es => quiet es).
    destruct (envelope ≫= ce_payload); [apply calm_silent, calm_lift|apply calm_silent, calm_ret].
  - intros persisted es2 Hq2. destruct (dlq_source_identity _ _ _ _ _).
    eapply emits_bind; [apply calm_silent, calm_uuid| |intros; by rewrite !quiet_app|intros; by rewrite !quiet_app].
    intros id es3 Hq3. apply emits_ret. rewrite app_nil_r, !quiet_app. split; [done|]. by intros ? [= <-].
  - intros. by rewrite quiet_app.
  - intros. by rewrite quiet_app.
Qed.

Lemma emits_process_message processor incoming :
  core_built (rt_core processor) ->
  emits (process_message processor incoming) (publishes (rp_event_id (inc_persisted incoming))).
Proof.
  intros Hb. pose proof (publishes_absorbs (rp_event_id (inc_persisted incoming))) as Ha. unfold process_message.
  apply emits_silent_bind; [done|apply calm_silent, calm_read|intros raw].
  destruct (derivation_identity _ _ _) as [identity|e|p]; [| |by apply emits_lift_failed].
  - apply emits_silent_bind; [done|apply calm_silent, calm_find|intros [existing|]].
    + apply emits_lift_bind; [done|intros [] (_ & Hid & _)%existing_identity_ok_iff]. by apply emits_publish_normalized.
    + apply emits_silent_run; [done|by apply calm_silent, calm_normalize|intros plan w w' Hn].
      do 4 (apply emits_silent_bind; [done|auto with calm|intros ?]).
      apply emits_silent_bind; [done|apply calm_silent, calm_insert|intros stored].
      apply emits_lift_bind; [done|intros [] Hvalid]. apply emits_publish_normalized.
      apply normalize_ok in Hn as (_ & _ & parsed & w1 & w2 & _ & Hplan%(plan_built _ _ _ _ _ _ Hb)).
      rewrite <-(plan_raw_event _ _ _ _ Hplan). unfold validate_existing_plan in Hvalid.
      apply bind_ok_iff in Hvalid as (id & _ & [(_ & Hid & _)%existing_identity_ok_iff _]%bind_unit_ok_iff). exact Hid.
  - apply emits_silent_bind; [done|by apply calm_silent, calm_normalize|intros plan]. by apply emits_lift_failed.
Qed.

(** ** Deliveries *)

Record processor_ok (processor : RuntimeProcessor) : Prop := {
  processor_core : core_built (rt_core processor);
  processor_metrics : sink_ok (rt_metrics processor);
  processor_delays :
    (0 <= cfg_retry_min_delay (rt_config processor) <= cfg_retry_max_delay (rt_config processor))%Z;
  processor_max_delay : (cfg_retry_max_delay (rt_config processor) <= DURATION_MAX)%Z;
}.

Lemma emits_nak processor message deliveries key es1 :
  processor_ok processor -> (i64_min <= deliveries)%Z -> quiet es1 ->
  emits (let! delay := io_lift (retry_delay_with_jitter deliveries (cfg_retry_min_delay (rt_config processor))
           (cfg_retry_max_delay (rt_config processor)) key) in nak_with_delay message delay)
    (fun r es => delivery (rt_config processor) message r (es1 ++ es)).
Proof.
  intros [_ _ Hd Hm] Hdel Hq. destruct (jittered_delay deliveries _ _ key Hd Hm Hdel) as (p & _ & ->).
  unfold nak_with_delay. intros w r w'. unfold io_bind, io_lift. apply delivery_settle_last; [done|]. simpl. lia.
Qed.

Lemma emits_handle_isolation processor message deliveries key state :
  processor_ok processor -> (i64_min <= deliveries)%Z ->
  emits (handle_isolation processor message deliveries key state) (delivery (rt_config processor) message).
Proof.
  intros Hp Hdel. pose proof (delivery_absorbs (rt_config processor) message) as Ha. unfold handle_isolation.
  apply emits_silent_bind; [done|apply calm_silent, calm_best_effort|intros identity].
  eapply emits_bind; [apply emits_from_message| | intros ? ? [? _]; by apply delivery_failed..].
  intros record es1 [Hq1 Hrec]. specialize (Hrec record eq_refl).
  eapply emits_bind; [apply emits_result, emits_publish_dlq| |done|].
  - intros published es2 [[Hq2 Hdl] _]. destruct published as [[]|e|p].
    + eapply emits_mono; [|intros r es Hes; rewrite app_assoc; exact Hes].
      eapply emits_bind; [apply calm_silent, calm_records, (sink_dlq_ok _ (processor_metrics _ Hp))| | |].
      * intros [] es3 Hq3. eapply emits_mono; [|intros r es Hes; rewrite app_assoc; exact Hes].
        apply delivery_settle; [by rewrite !quiet_app| |apply silent_clear].
        eapply backed_mono; [|by apply (Hdl eq_refl)]. set_solver.
      * intros e es Hq. apply delivery_failed; [by rewrite !quiet_app|done].
      * intros e es Hq. apply delivery_failed; [by rewrite !quiet_app|done].
    + eapply emits_mono; [|intros r es Hes; rewrite app_assoc; exact Hes].
      apply emits_nak; [done..|by rewrite quiet_app].
    + eapply emits_mono; [|intros r es Hes; rewrite app_assoc; exact Hes].
      apply emits_nak; [done..|by rewrite quiet_app].
  - intros p es [Hq _]. by apply delivery_failed; [apply quiet_app|].
Qed.

Lemma emits_handle_failure processor message deliveries key consumer id error :
  processor_ok processor -> (i64_min <= deliveries)%Z ->
  emits (handle_processing_failure processor message deliveries key consumer id error)
    (delivery (rt_config processor) message).
Proof.
  intros Hp Hdel. pose proof (delivery_absorbs (rt_config processor) message) as Ha.
  unfold handle_processing_failure.
  destruct (jittered_delay deliveries _ _ key (processor_delays _ Hp) (processor_max_delay _ Hp) Hdel)
    as (percentage & _ & Hd).
  apply emits_lift_bind; [done|intros delay Hdelay].
  apply emits_silent_bind; [done|auto with calm|intros occurred_at].
  apply emits_silent_bind; [done|auto with calm|intros next_retry_at].
  apply emits_silent_bind; [done|apply silent_record_failure|intros state].
  destruct (negb (isolation_required state)); [|by apply emits_handle_isolation].
  apply (delivery_settle_last _ _ _ _ []); [constructor|]. rewrite Hd in Hdelay.
  destruct (processor_delays _ Hp). simpl. simplify_eq. lia.
Qed.

Lemma delivery_count_range message : (i64_min <= delivery_count message)%Z.
Proof. unfold delivery_count, i64_min. destruct (msg_info message); lia. Qed.

Lemma emits_handle_message processor message :
  processor_ok processor -> emits (handle_message processor message) (delivery (rt_config processor) message).
Proof.
  intros Hp. pose proof (delivery_absorbs (rt_config processor) message) as Ha.
  pose proof (delivery_count_range message) as Hdel. unfold handle_message.
  apply emits_silent_bind; [done|auto with calm|intros consumer].
  apply emits_silent_bind; [done|apply silent_load|intros loaded].
  destruct (loaded ≫= _) as [state|]; [by apply emits_handle_isolation|].
  destruct (decode_raw_persisted message) as [incoming|e|p] eqn:Hdec;
    [|by apply emits_handle_failure|by apply emits_lift_failed].
  apply emits_silent_bind; [done|auto with calm|intros id].
  eapply emits_bind; [apply emits_result, emits_process_message, processor_core, Hp| |done|].
  - intros outcome es1 [[Hq1 Hpub] _]. destruct outcome as [[]|e|p].
    + eapply emits_bind; [apply silent_clear| | |].
      * intros [] es2 Hq2. eapply emits_mono; [|intros r es Hes; rewrite app_assoc; exact Hes].
        apply delivery_settle_last; [by apply quiet_app|].
        eapply (backed_mono _ _ Ack es1); [set_solver|]. exists incoming. split; [done|by apply Hpub].
      * intros e es Hq. apply delivery_failed; [by rewrite !quiet_app|done].
      * intros e es Hq. apply delivery_failed; [by rewrite !quiet_app|done].
    + eapply emits_mono; [by apply emits_handle_failure|]. intros r es. by apply delivery_prefix.
    + apply emits_lift. rewrite app_nil_r. by apply delivery_failed.
  - intros p es [Hq _]. by apply delivery_failed.
Qed.

(** C3: Every delivery settles its message at most once and nothing else, and
    exactly once when it is handled without error, whatever the database, the
    message bus, ClickHouse and the clock answer: an acknowledgement only comes
    after the normalized event of the raw event this very message hands over,
    which the analytics stream stored, a termination only after a dead letter about this very payload that the dead letter stream
    stored, and a negative acknowledgement asks for a delay within the
    configured bounds. *)
Theorem delivery_settles_once processor message w r w' :
  processor_ok processor -> handle_message processor message w = (r, w') ->
  exists es, nw_effects w' = nw_effects w ++ es /\ delivered (rt_config processor) message es /\
    (r = Ok tt -> exists kind, Settled message kind ∈ es).
Proof. intros Hp Hrun. by destruct (emits_handle_message processor message Hp w r w' Hrun) as (es & ? & ? & ?); eauto. Qed.

(** ** The service *)

Definition handed_out (inputs : list LoopInput) : list Message :=
  omap (fun input => match input with NextMessage (Some (inl message)) => Some message | _ => None end) inputs.

(** Every settlement is of a message handed out and rests on effects since the
    settlement before it; there are no more settlements than deliveries. *)
Definition vouched (config : RuntimeConfig) (messages : list Message) (es : list Effect) : Prop :=
  (forall es1 message kind es2, es = es1 ++ Settled message kind :: es2 ->
     message ∈ messages /\ exists es0 es', es1 = es0 ++ es' /\ quiet es' /\ backed config message kind es') /\
  length (List.filter settles es) <= length messages.

Lemma quiet_unsettled es1 message kind es2 : ~ quiet (es1 ++ Settled message kind :: es2).
Proof. unfold quiet. rewrite Forall_app, Forall_cons. naive_solver. Qed.

Lemma quiet_filter es : quiet es -> List.filter settles es = [].
Proof. induction 1 as [|e es He Hes IH]; simpl; [done|]. by rewrite He. Qed.

Lemma quiet_vouched config messages es : quiet es -> vouched config messages es.
Proof.
  intros Hq. split; [|rewrite quiet_filter by done; simpl; lia].
  intros es1 message kind es2 ->. by apply quiet_unsettled in Hq.
Qed.

Lemma delivered_vouched config message es : delivered config message es -> vouched config [message] es.
Proof.
  intros [es' Hq|es1 kind es2 Hq1 Hb Hq2]; [by apply quiet_vouched|]. split.
  - intros es1' m k es2' Heq. apply app_eq_inv in Heq as [(l & -> & Heq)|(l & -> & Heq)].
    + destruct l as [|e l]; simplify_eq/=; [rewrite app_nil_r in *; split; [left|by exists [], es1']|].
      by apply quiet_unsettled in Hq1.
    + destruct l as [|e l]; simplify_eq/=; [rewrite app_nil_r; split; [left|by exists [], es1]|].
      by apply quiet_unsettled in Hq2.
  - rewrite List.filter_app. simpl. rewrite !quiet_filter by done. simpl. lia.
Qed.

Lemma vouched_app config ms1 ms2 es1 es2 :
  vouched config ms1 es1 -> vouched config ms2 es2 -> vouched config (ms1 ++ ms2) (es1 ++ es2).
Proof.
  intros [Hv1 Hn1] [Hv2 Hn2]. split.
  - intros a m k b Heq. apply app_eq_inv in Heq as [(l & -> & Heq)|(l & -> & Heq)].
    + destruct l as [|e l]; simplify_eq/=.
      * destruct (Hv2 [] m k b eq_refl) as (? & es0 & es' & [-> ->]%symmetry%app_eq_nil & Hq & Hb). split; [set_solver|].
        exists a, []. by rewrite !app_nil_r.
      * destruct (Hv1 a m k l eq_refl) as [? ?]. split; [set_solver|done].
    + destruct (Hv2 l m k b Heq) as (? & es0 & es' & -> & Hq & Hb). split; [set_solver|].
      exists (es1 ++ es0), es'. by rewrite app_assoc.
  - rewrite List.filter_app, !length_app. lia.
Qed.

Lemma calm_ready_consumer mode input : calm (ready_consumer mode input).
Proof.
  unfold ready_consumer. apply calm_bind; [auto with calm|intros [name subject]].
  apply calm_bind; [apply calm_connect|intros _]. by apply calm_change_consumer.
Qed.

Lemma calm_clean_shutdown processor : calm (clean_shutdown processor).
Proof.
  unfold clean_shutdown, delete_execution_consumer. destruct (bool_decide _); [auto with calm|].
  apply calm_bind; [auto with calm|intros [name subject]].
  apply calm_bind; [apply calm_connect|intros _]. by apply calm_change_consumer.
Qed.

Lemma emits_loop_turn processor input :
  processor_ok processor ->
  emits (loop_turn processor input) (fun _ es => vouched (rt_config processor) (handed_out [input]) es).
Proof.
  intros Hp. assert (forall A (m : norm A), silent m ->
    emits m (fun _ es => vouched (rt_config processor) (handed_out [input]) es)) as Hs.
  { intros A m Hm. eapply emits_mono; [exact Hm|]. intros r es. apply quiet_vouched. }
  destruct input as [[[|]|]|[[message|error]|]|[error|]]; cbn [loop_turn]; try (apply Hs; solve [auto with calm]).
  - apply Hs, calm_silent, calm_bind; [apply calm_clean_shutdown|auto with calm].
  - apply Hs, calm_silent, calm_bind; [apply calm_clean_shutdown|auto with calm].
  - eapply emits_bind; [apply (emits_handle_message _ message Hp)| | |].
    + intros [] es [Hd _]. apply emits_ret. rewrite app_nil_r. by apply delivered_vouched.
    + intros e es [Hd _]. by apply delivered_vouched.
    + intros e es [Hd _]. by apply delivered_vouched.
Qed.

Lemma handed_out_cons input inputs : handed_out (input :: inputs) = handed_out [input] ++ handed_out inputs.
Proof. by destruct input as [?|[[?|?]|]|?]. Qed.

Lemma vouched_prefix config ms1 ms2 es : vouched config ms1 es -> vouched config (ms1 ++ ms2) es.
Proof.
  intros Hv. rewrite <-(app_nil_r es). apply vouched_app; [done|]. apply quiet_vouched. constructor.
Qed.

Lemma emits_processing processor inputs :
  processor_ok processor ->
  emits (processing processor inputs) (fun _ es => vouched (rt_config processor) (handed_out inputs) es).
Proof.
  intros Hp. induction inputs as [|input inputs IH].
  - apply emits_ret, quiet_vouched. constructor.
  - rewrite handed_out_cons. cbn [processing]. eapply emits_bind; [by apply emits_loop_turn| | |].
    + intros continue es1 Hv. destruct continue.
      * eapply emits_mono; [exact IH|]. intros r es2 Hv2. by apply vouched_app.
      * apply emits_ret. rewrite app_nil_r. by apply vouched_prefix.
    + intros e es Hv. by apply vouched_prefix.
    + intros e es Hv. by apply vouched_prefix.
Qed.

Lemma calm_start config metrics : calm (start config metrics).
Proof.
  unfold start. apply calm_bind; [apply calm_pure_step|intros reader].
  do 2 (apply calm_bind; [apply calm_connect|intros _]). apply calm_bind; [apply calm_ready_consumer|intros _].
  apply calm_bind; [apply calm_connect|intros _]. auto with calm.
Qed.

Definition runnable (config : RuntimeConfig) : Prop :=
  config_ok config /\ (0 <= cfg_retry_min_delay config)%Z /\ (cfg_retry_max_delay config <= DURATION_MAX)%Z.

Lemma start_ok config metrics w processor w' :
  runnable config -> sink_ok metrics -> start config metrics w = (Ok processor, w') ->
  processor_ok processor /\ rt_config processor = config.
Proof.
  intros (Hc & Hmin & Hmax) Hm Hrun. unfold start in Hrun. io_inv Hrun.
  match goal with Hb : build_core _ _ = Ok _ |- _ => apply (build_core_built _ _ _ Hm) in Hb as (Hb & _ & _) end.
  split; [|done]. split; simpl; try done. split; [done|by apply config_max_delay].
Qed.

(** Over a run of the service, what was settled was handed out and has been dealt with. *)
Lemma service_vouched config metrics inputs w r w' :
  runnable config -> sink_ok metrics -> run_with_metrics config metrics inputs w = (r, w') ->
  exists es, nw_effects w' = nw_effects w ++ es /\ vouched config (handed_out inputs) es.
Proof.
  intros Hc Hm Hrun. unfold run_with_metrics, io_bind in Hrun.
  destruct (start config metrics w) as [[processor|e|p] w1] eqn:Hw;
    destruct (calm_start _ _ _ _ _ Hw) as (_ & es1 & Heq1 & Hq1).
  - destruct (start_ok _ _ _ _ _ Hc Hm Hw) as [Hp <-].
    destruct (emits_processing _ inputs Hp _ _ _ Hrun) as (es2 & Heq2 & Hv).
    exists (es1 ++ es2). rewrite Heq2, Heq1, app_assoc. split; [done|].
    apply (vouched_app _ [] _ es1); [by apply quiet_vouched|done].
  - simplify_eq. exists es1. split; [done|by apply quiet_vouched].
  - simplify_eq. exists es1. split; [done|by apply quiet_vouched].
Qed.

End Settlement.
