(* ===== verification/DeliveryLiveness.v ===== *)
(** * Deliveries in a healthy environment

    With a database, a message bus and a clock that answer, every delivery is
    settled, and a message that cannot be processed is dead-lettered within its
    retry budget. *)

From S2P Require Import Prelude RustStd RustText ContractTypes Validation SignalContract Effects CanonicalJson Parser ParserSpec ParserFormats SourceTime Mapping RetryState Metrics NormalizerWorld NormalizerCore Database RetryStore RetryStoreSpec RuntimeConfig RawStore EventBus ClickHouse DeadLetter Runtime NormalizerCoreSpec Traces DeliverySpec.

(** ** Delivery keys *)

Lemma pretty_N_go_length k (x : N) s :
  (x < 10 ^ N.of_nat k)%N -> str_len (pretty_N_go x s) <= k + str_len s.
Proof.
  revert x s. induction k as [|k IH]; intros x s Hx.
  - assert (x = 0)%N as -> by (simpl in Hx; lia). done.
  - assert (x = 0 \/ 0 < x)%N as [-> |?] by lia; [rewrite pretty_N_go_0; lia|]. rewrite pretty_N_go_step by done.
    etrans; [apply IH|].
    + apply N.Div0.div_lt_upper_bound. rewrite Nat2N.inj_succ, N.pow_succ_r' in Hx. lia.
    + unfold str_len. simpl. lia.
Qed.

Lemma pretty_u64_length (n : Z) : in_u64 n = true -> str_len (pretty n) <= 20.
Proof.
  intros [? Hn]%in_range_spec. rewrite pretty_Z_nonneg by done. unfold pretty, pretty_N.
  case_decide; [unfold str_len; simpl; lia|]. pose proof (pretty_N_go_length 20 (Z.to_N n) "") as Hl.
  change (str_len "") with 0 in Hl. rewrite Nat.add_0_r in Hl. apply Hl.
  unfold u64_max in Hn. apply N2Z.inj_lt. rewrite Z2N.id by lia. etrans; [apply Z.lt_succ_r, Hn|]. by vm_compute.
Qed.

(** Visible characters only *)
Definition graphic (s : string) : Prop := Forall (fun b => byte_in 33 126 b = true) (str_bytes s).

Lemma graphic_text s : graphic s -> s <> "" -> has_text s /\ contains_char zero s = false.
Proof.
  intros Hg Hs. split; [unfold has_text; by rewrite trim_graphic|]. unfold contains_char.
  apply not_true_iff_false. rewrite existsb_exists. intros (b & Hb & He). apply Ascii.eqb_eq in He as <-.
  apply list_elem_of_In in Hb. by eapply Forall_forall in Hg; [|exact Hb].
Qed.

Lemma digits_graphic s : digits (str_bytes s) -> graphic s.
Proof.
  intros Hd. eapply Forall_impl; [exact Hd|]. intros b. unfold is_ascii_digit, byte_in. rewrite !in_range_spec. lia.
Qed.

Section Keys.
Context `{Sha256}.

Definition message_typed (message : Message) : Prop :=
  forall info, msg_info message = Some info -> in_u64 (mi_stream_sequence info) = true.

Lemma delivery_key_ok message :
  message_typed message ->
  has_text (delivery_identity message) /\ str_len (delivery_identity message) <= 256 /\
  contains_char zero (delivery_identity message) = false.
Proof.
  intros Ht. assert (graphic (delivery_identity message) /\ str_len (delivery_identity message) <= 256) as [Hg Hl].
  { unfold delivery_identity, graphic. destruct (msg_info message) as [info|] eqn:Hi.
    - specialize (Ht info Hi). rewrite str_bytes_app, str_len_app. split.
      + apply Forall_app. split; [vm_compute; by repeat constructor|]. apply digits_graphic.
        rewrite pretty_Z_nonneg by (apply in_range_spec in Ht; lia). apply pretty_N_digits.
      + pose proof (pretty_u64_length _ Ht). change (str_len "stream:") with 7. lia.
    - destruct (sha256_lower_hex_digest (msg_payload message)) as [Hl Hx]. rewrite str_bytes_app, str_len_app. split.
      + apply Forall_app. split; [vm_compute; by repeat constructor|]. eapply Forall_impl; [exact Hx|].
        intros b. unfold is_lower_hex, is_ascii_digit, byte_in. rewrite orb_true_iff, !in_range_spec. lia.
      + change (str_len "payload:") with 8. lia. }
  destruct (graphic_text _ Hg) as [? ?]; [|done].
  unfold delivery_identity. by destruct (msg_info message).
Qed.
End Keys.

(** The [uuid] crate parses what the contracts accept *)
Class UuidParseLaws `{!RetryCodec} : Prop := {
  uuid_parse_v7 text : uuid_v7 text -> exists u, uuid_parse_str text = Ok u /\ u <> 0%N /\ (u < 2 ^ 128)%N;
}.

Section Liveness.
Context `{Sha256} `{JsonCodec} `{FormatCodec} `{DebugStr} `{TimeCrate} `{!Outside}.
Context `{!RetryCodec} `{ProstCodec} `{RowCodec} `{DeadLetterCodec} `{RawFiles} `{!RetryCodecLaws} `{!UuidParseLaws}.

(** ** Exchanges that leave the retry table alone *)

Lemma calm_publish_normalized row request_id : calm (publish_normalized row request_id).
Proof. unfold publish_normalized. repeat (apply calm_bind; [auto with calm|intros ?]). auto with calm. Qed.

Lemma calm_process_message processor incoming :
  core_built (rt_core processor) -> calm (process_message processor incoming).
Proof.
  intros Hb. unfold process_message. apply calm_bind; [auto with calm|intros raw].
  destruct (derivation_identity _ _ _) as [identity|e|p]; [| |auto with calm].
  - apply calm_bind; [apply calm_find|intros [existing|]].
    + apply calm_bind; [auto with calm|intros _]. apply calm_publish_normalized.
    + apply calm_bind; [by apply calm_normalize|intros plan]. do 4 (apply calm_bind; [auto with calm|intros ?]).
      apply calm_bind; [apply calm_insert|intros stored]. apply calm_bind; [auto with calm|intros _].
      apply calm_publish_normalized.
  - apply calm_bind; [by apply calm_normalize|auto with calm].
Qed.

(** ** The environment *)

Record healthy (processor : RuntimeProcessor) : Prop := {
  healthy_retries n : retry_fault n = None;
  healthy_settlement n : settle_fault n = None;
  healthy_dlq n : exists ack, publish_reply n NORMALIZATION_DLQ_SUBJECT = inl ack /\ accepted DLQ_STREAM_NAME ack;
  healthy_encoder record : exists bytes, dead_letter_to_vec record = Ok bytes;
  healthy_decoders bytes : no_panic (envelope_decode bytes) /\ no_panic (raw_persisted_decode bytes);
  healthy_clock n :
    (i64_min * 1000000000 <= system_time_now n)%Z /\
    ((system_time_now n + cfg_retry_max_delay (rt_config processor)) / 1000000000 <= i64_max)%Z;
}.

(** Reading the raw bytes of a message returns, with bytes or an error. *)
Definition readable (processor : RuntimeProcessor) (message : Message) : Prop :=
  forall n incoming, decode_raw_persisted message = Ok incoming ->
    no_panic (read (rt_raw_reader processor) (files_at n) (inc_persisted incoming)).

Lemma result_ok_returns {A E F} (r : result A E) : no_panic r -> exists o, result_ok (F := F) r = Ok o.
Proof. destruct r as [a|e|p]; simpl; eauto. intros Hp. by destruct (Hp p). Qed.

Lemma validate_envelope_no_panic envelope : no_panic (validate_envelope envelope).
Proof. unfold validate_envelope. no_panic. Qed.

Lemma validate_raw_event_persisted_no_panic event : no_panic (validate_raw_event_persisted event).
Proof.
  unfold validate_raw_event_persisted, validate_sha256_metadata. no_panic.
Qed.

Lemma decode_no_panic processor message : healthy processor -> no_panic (decode_raw_persisted message).
Proof.
  intros Hh. unfold decode_raw_persisted. apply no_panic_bind.
  - apply no_panic_map_err. apply (healthy_decoders _ Hh).
  - intros envelope _. apply no_panic_bind; [apply no_panic_map_err, validate_envelope_no_panic|intros _ _].
    apply no_panic_bind; [no_panic|intros _ _]. apply no_panic_bind; [no_panic|intros payload _].
    apply no_panic_bind; [unfold validate_type_url; no_panic|intros _ _].
    apply no_panic_bind; [apply no_panic_map_err, (healthy_decoders _ Hh)|intros persisted _].
    apply no_panic_bind; [apply no_panic_map_err, validate_raw_event_persisted_no_panic|intros _ _]. no_panic.
Qed.

Lemma best_effort_returns processor message w :
  healthy processor -> readable processor message ->
  exists identity w', best_effort_parser_identity processor message w = (Ok identity, w') /\ calmly w w'.
Proof.
  intros Hh Hr. assert (exists identity w', best_effort_parser_identity processor message w = (Ok identity, w'))
    as (identity & w' & Hrun); [|exists identity, w'; split; [done|exact (calm_best_effort _ _ _ _ _ Hrun)]].
  unfold best_effort_parser_identity. pose proof (decode_no_panic processor message Hh) as Hd.
  unfold readable in Hr. destruct (decode_raw_persisted message) as [incoming|e|p]; [|by do 2 eexists|by destruct (Hd p)].
  specialize (Hr (nw_step w) incoming eq_refl). erewrite io_bind_run by reflexivity. cbn beta iota.
  unfold io_bind, io_result, read_raw. destruct (read _ _ _) as [raw|e|p]; [|by do 2 eexists|by destruct (Hr p)].
  unfold io_lift, parser_identity. destruct (select _ _) as [sel|e|p] eqn:Hs; [by do 2 eexists..|].
  by apply select_no_panic in Hs.
Qed.

Lemma from_message_returns processor message consumer failure identity w :
  healthy processor ->
  exists record w', from_message message consumer failure identity w = (Ok record, w') /\ calmly w w'.
Proof.
  intros Hh. unfold from_message.
  destruct (result_ok_returns (F := NormalizerError) (envelope_decode (msg_payload message))) as [envelope ->];
    [apply (healthy_decoders _ Hh)|].
  erewrite io_bind_run by reflexivity.
  assert (exists persisted, (match envelope ≫= ce_payload with
    | Some payload => io_lift (result_ok (raw_persisted_decode (any_value payload)))
    | None => io_ret None end : norm (option RawEventPersisted)) w = (Ok persisted, w)) as [persisted Hp].
  { destruct (envelope ≫= ce_payload) as [payload|]; [|by eexists].
    destruct (result_ok_returns (F := NormalizerError) (raw_persisted_decode (any_value payload))) as [o ->];
      [apply (healthy_decoders _ Hh)|by eexists]. }
  erewrite io_bind_run by exact Hp. destruct (dlq_source_identity _ _ _ _ _) as [subject sequence].
  do 2 eexists. split; [reflexivity|apply calmly_step].
Qed.

Lemma publish_dlq_succeeds processor record w :
  healthy processor -> exists w', publish_normalization_dlq record w = (Ok tt, w') /\ calmly w w'.
Proof.
  intros Hh. unfold publish_normalization_dlq. destruct (healthy_encoder _ Hh record) as [bytes ->].
  erewrite io_bind_run by reflexivity. unfold io_bind, publish_with_headers.
  destruct (healthy_dlq _ Hh (nw_step w)) as (ack & -> & Hs & Hn). unfold io_lift. rewrite Hs, String.eqb_refl.
  apply Z.eqb_neq in Hn. rewrite Hn. eexists. split; [reflexivity|by apply calmly_log].
Qed.

Lemma settle_succeeds processor message kind err w :
  healthy processor -> settle message kind err w = (Ok tt, log_effect (Settled message kind) (step_world w)).
Proof. intros Hh. unfold settle. by rewrite (healthy_settlement _ Hh). Qed.

(** The settlement of a delivery, and the lifecycle it leaves *)
Definition settled_as (message : Message) (kind : AckKind) (c k : string) (after : option RetryState)
    (w w' : NormalizerWorld) : Prop :=
  store_ok (nw_retries w') /\ set_lifecycle c k after (nw_retries w) (nw_retries w') /\
  exists es1 es2, nw_effects w' = nw_effects w ++ es1 ++ Settled message kind :: es2 /\ quiet es1 /\ quiet es2.

Definition plain_key (c k : string) : Prop :=
  key_ok c k /\ contains_char zero c = false /\ contains_char zero k = false.

Lemma isolation_terminates processor message deliveries key state w :
  processor_ok processor -> healthy processor -> readable processor message -> store_ok (nw_retries w) ->
  plain_key (ry_consumer_name state) (ry_message_key state) ->
  exists w', handle_isolation processor message deliveries key state w = (Ok tt, w') /\
    settled_as message Term (ry_consumer_name state) (ry_message_key state) None w w'.
Proof.
  intros Hp Hh Hread Hw (Hkey & Hc & Hk). unfold handle_isolation.
  destruct (best_effort_returns processor message w Hh Hread) as (identity & w1 & Hr1 & Hq1).
  erewrite io_bind_run by exact Hr1.
  match goal with |- context [from_message message ?c ?f identity] =>
    destruct (from_message_returns processor message c f identity w1 Hh) as (record & w2 & Hr2 & Hq2) end.
  erewrite io_bind_run by exact Hr2.
  destruct (publish_dlq_succeeds processor record w2 Hh) as (w3 & Hr3 & Hq3).
  erewrite io_bind_run by (apply io_result_iff; split; [exact Hr3|done]). cbn beta iota.
  destruct (sink_dlq_ok _ (processor_metrics _ Hp) w3) as [metrics Hm]. erewrite io_bind_run by exact Hm.
  erewrite io_bind_run by (by eapply settle_succeeds).
  assert (calmly w (set_metrics metrics w3)) as [Hret (es & Hes & Hq)].
  { etrans; [exact Hq1|]. etrans; [exact Hq2|]. exact Hq3. }
  set (w4 := log_effect (Settled message Term) (step_world (set_metrics metrics w3))).
  assert (nw_retries w4 = nw_retries w) as Hw4 by exact Hret.
  destruct (clear_spec w4 (ry_consumer_name state) (ry_message_key state)) as (w5 & Hclear & Hok & Hset);
    [exact (healthy_retries _ Hh)|by rewrite Hw4|done|done|done|].
  rewrite Hw4 in Hset. destruct (silent_clear _ _ _ _ _ Hclear) as (es2 & Hes2 & Hq').
  exists w5. split; [exact Hclear|]. split_and!; [done|done|]. exists es, es2. split_and!; [|done|done].
  rewrite Hes2. simpl. simpl in Hes. by rewrite Hes, <-!app_assoc.
Qed.

(** ** A failing delivery *)

Definition storable (error : NormalizerError) : Prop :=
  has_text (nz_code error) /\ contains_char zero (nz_code error) = false /\
  contains_char zero (nz_message error) = false.

(** The lifecycle after one more failure *)
Definition advanced (config : RuntimeConfig) (c k : string) (before : option RetryState) (s : RetryState) : Prop :=
  ry_consumer_name s = c /\ ry_message_key s = k /\
  ry_failure_count s = match before with Some s0 => (ry_failure_count s0 + 1)%Z | None => 1%Z end /\
  ry_retry_budget s = match before with Some s0 => ry_retry_budget s0 | None => cfg_retry_budget config end.

Definition active (before : option RetryState) : Prop := forall s, before = Some s -> isolation_required s = false.

Lemma lifecycle_sound rows c k s :
  store_ok rows -> lifecycle rows c k = Some s ->
  lifecycle_ok s /\ ry_consumer_name s = c /\ ry_message_key s = k.
Proof.
  intros Hrows Hl. pose proof (store_find rows c k Hrows) as Hf. destruct (List.find _ _) as [row|].
  - destruct Hf as (s' & Hs' & -> & Hok & Hc & Hk). rewrite Hl in Hs'. by injection Hs' as <-.
  - by rewrite Hl in Hf.
Qed.

Lemma record_advances config w f :
  let c := rf_consumer_name f in let k := rf_message_key f in
  let before := lifecycle (nw_retries w) c k in
  (forall n, retry_fault n = None) -> store_ok (nw_retries w) -> active before ->
  failure_ok f -> failure_typed f -> id_typed (rf_message_id f) -> text_storable f ->
  rf_retry_budget f = cfg_retry_budget config ->
  exists s w', record_failure f w = (Ok s, w') /\ advanced config c k before s /\
    ry_last_error_retryable s = rf_error_retryable f /\ store_ok (nw_retries w') /\ set_lifecycle c k (Some s) (nw_retries w) (nw_retries w').
Proof.
  intros c k before Hnf Hw Ha Hf Hty Hid Ht Hb.
  destruct (store_advances w f Hnf Hw Hf Hty Hid Ht) as (w' & Hrun & Hok & Hset).
  fold c k before in Hrun, Hset. destruct before as [s0|] eqn:Hbefore.
  - destruct (lifecycle_sound _ _ _ _ Hw Hbefore) as (Hs0 & Hc & Hk).
    rewrite (advance_under_id s0 f Hf Hs0), (Ha s0 eq_refl) in Hrun, Hset by done.
    eexists _, w'. split; [exact Hrun|]. split_and!; try done.
  - simpl in Hrun, Hset. rewrite advance_first in Hrun, Hset by (done || by apply stored_failure_ok).
    eexists _, w'. split; [exact Hrun|]. by split_and!.
Qed.

Record failing_delivery (processor : RuntimeProcessor) (deliveries : Z) (key c : string) (id : option Uuid)
    (error : NormalizerError) : Prop := {
  fd_key : plain_key c key;
  fd_deliveries : (1 <= deliveries)%Z;
  fd_budget : in_range 1 u32_max (cfg_retry_budget (rt_config processor)) = true;
  fd_id : id <> Some 0%N /\ id_typed id;
  fd_error : storable error;
}.

(** The failure record of a delivery *)
Definition failure_of (processor : RuntimeProcessor) (deliveries : Z) (key c : string) (id : option Uuid)
    (error : NormalizerError) (t : SystemTime) (delay : Duration) : RetryFailure :=
  mkRetryFailure c key id t (cfg_retry_budget (rt_config processor)) deliveries
    (nz_code error) (nz_message error) (nz_retryable error) (t + delay)%Z.

Lemma failure_unfolds processor message deliveries key c id error w :
  processor_ok processor -> healthy processor -> (1 <= deliveries)%Z ->
  exists t delay, (0 <= delay)%Z /\
    handle_processing_failure processor message deliveries key c id error w =
    (let! state := record_failure (failure_of processor deliveries key c id error t delay) in
     if negb (isolation_required state) then nak_with_delay message delay
     else handle_isolation processor message deliveries key state) (step_world w).
Proof.
  intros Hp Hh Hdel. unfold handle_processing_failure.
  destruct (jittered_delay deliveries _ _ key (processor_delays _ Hp) (processor_max_delay _ Hp))
    as (percentage & _ & Hdelay); [unfold i64_min; lia|].
  set (delay := Z.min _ _) in Hdelay. pose proof (processor_delays _ Hp) as Hbounds.
  assert (0 <= delay <= cfg_retry_max_delay (rt_config processor))%Z as Hd by lia. clearbody delay.
  rewrite Hdelay. erewrite io_bind_run by reflexivity. erewrite io_bind_run by reflexivity.
  set (t := system_time_now (nw_step w)). exists t, delay. split; [lia|].
  assert (system_time_checked_add t delay = Some (t + delay)%Z) as ->; [|by erewrite io_bind_run by reflexivity].
  unfold system_time_checked_add. destruct (healthy_clock _ Hh (nw_step w)) as [Hlo Hhi]. fold t in Hlo, Hhi.
  assert (in_i64 ((t + delay) / 1000000000) = true) as ->; [|done]. apply in_range_spec. split.
  - apply Z.div_le_lower_bound; lia.
  - etrans; [|exact Hhi]. apply Z.div_le_mono; lia.
Qed.

Lemma failure_of_ok processor deliveries key c id error t delay :
  key_ok c key -> (1 <= deliveries)%Z -> in_range 1 u32_max (cfg_retry_budget (rt_config processor)) = true ->
  id <> Some 0%N -> has_text (nz_code error) -> (0 <= delay)%Z ->
  failure_ok (failure_of processor deliveries key c id error t delay) /\
  failure_typed (failure_of processor deliveries key c id error t delay).
Proof.
  intros Hk Hd Hb%in_range_spec Hid Hc Hdelay. split.
  - split_and!; simpl; try done; lia.
  - apply in_range_spec. simpl. lia.
Qed.

Lemma failure_settles processor message deliveries key c id error w :
  processor_ok processor -> healthy processor -> readable processor message -> store_ok (nw_retries w) ->
  failing_delivery processor deliveries key c id error -> active (lifecycle (nw_retries w) c key) ->
  exists s w', handle_processing_failure processor message deliveries key c id error w = (Ok tt, w') /\
    advanced (rt_config processor) c key (lifecycle (nw_retries w) c key) s /\
    ry_last_error_retryable s = nz_retryable error /\
    if isolation_required s then settled_as message Term c key None w w'
    else exists delay, settled_as message (Nak delay) c key (Some s) w w'.
Proof.
  intros Hp Hh Hread Hw [Hkey Hdel Hbudget [Hnil Hid] Herr] Ha.
  destruct (failure_unfolds processor message deliveries key c id error w Hp Hh Hdel) as (t & delay & Hd & ->).
  destruct Hkey as (Hkey & Hc & Hk), Herr as (Hcode & Hzc & Hzm).
  destruct (failure_of_ok processor deliveries key c id error t delay) as [Hf Hty]; [done..|].
  destruct (record_advances (rt_config processor) (step_world w) (failure_of processor deliveries key c id error t delay))
    as (s & w1 & Hrec & Hadv & Hretry & Hok & Hset);
    [exact (healthy_retries _ Hh)|done|done|done|done|done|by repeat constructor|done|].
  erewrite io_bind_run by exact Hrec. simpl in Hadv, Hset.
  destruct (silent_record_failure _ _ _ _ Hrec) as (es1 & Hes1 & Hq1). simpl in Hes1.
  exists s. destruct (isolation_required s) eqn:Hiso; simpl.
  - destruct Hadv as (Hsc & Hsk & Hcount & Hbud).
    destruct (isolation_terminates processor message deliveries key s w1)
      as (w2 & Hrun & Hok2 & Hset2 & es2 & es3 & Hes & Hq2 & Hq3); [done|done|done|done|by rewrite Hsc, Hsk|].
    exists w2. split; [exact Hrun|]. split; [done|]. split; [done|]. rewrite Hsc, Hsk in Hset2. split_and!; [done| |].
    + intros c' k'. rewrite Hset2. case_bool_decide; [done|]. rewrite Hset. by case_bool_decide.
    + exists (es1 ++ es2), es3. rewrite Hes, Hes1, <-!app_assoc. split_and!; [done|by apply quiet_app|done].
  - eexists. split; [unfold nak_with_delay; by eapply settle_succeeds|]. split; [done|]. split; [done|]. exists delay.
    split_and!; [done|done|]. exists es1, []. simpl. rewrite Hes1. split_and!; [by rewrite <-app_assoc|done|constructor].
Qed.

(** ** Every delivery *)

Lemma decoded_message_id message incoming :
  decode_raw_persisted message = Ok incoming -> uuid_v7 (ce_message_id (inc_envelope incoming)).
Proof.
  unfold decode_raw_persisted. intros (envelope & _ & Hrun)%bind_ok_iff.
  apply bind_unit_ok_iff in Hrun as [He%map_err_ok_iff%validate_envelope_ok_iff Hrun].
  apply bind_unit_ok_iff in Hrun as [_ Hrun]. apply bind_ok_iff in Hrun as (payload & _ & Hrun).
  apply bind_unit_ok_iff in Hrun as [_ Hrun]. apply bind_ok_iff in Hrun as (persisted & _ & Hrun).
  apply bind_unit_ok_iff in Hrun as [_ Hrun]. apply bind_unit_ok_iff in Hrun as [_ [= <-]].
  by destruct He as (_ & ? & _).
Qed.

(** The configuration names a consumer. *)
Definition consumer_of (processor : RuntimeProcessor) (c : string) : Prop :=
  normalizer_consumer_name (cfg_execution_mode (rt_config processor)) (cfg_replay_input (rt_config processor)) = Ok c.

Lemma consumer_name_plain processor c :
  consumer_of processor c -> has_text c /\ contains_char zero c = false.
Proof.
  unfold consumer_of, normalizer_consumer_name, normalizer_consumer_route.
  destruct (cfg_execution_mode (rt_config processor)), (cfg_replay_input (rt_config processor)); simpl;
    intros [= <-]; (split; [done|reflexivity]).
Qed.

Record orderly (processor : RuntimeProcessor) (message : Message) : Prop := {
  orderly_typed : message_typed message;
  orderly_readable : readable processor message;
  orderly_decode e : decode_raw_persisted message = Err e -> storable e;
  orderly_process incoming w r w' :
    decode_raw_persisted message = Ok incoming -> process_message processor incoming w = (r, w') ->
    no_panic r /\ forall e, r = Err e -> storable e;
}.

(** How a delivery in the lifecycle [before] may end *)
Definition outcome (processor : RuntimeProcessor) (message : Message) (c : string) (w w' : NormalizerWorld)
    (kind : AckKind) : Prop :=
  let k := delivery_identity message in
  match kind with
  | Ack | Term => settled_as message kind c k None w w'
  | Nak _ => exists s, settled_as message kind c k (Some s) w w' /\ isolation_required s = false /\
      advanced (rt_config processor) c k (lifecycle (nw_retries w) c k) s
  end.

Definition unprocessable (processor : RuntimeProcessor) (message : Message) : Prop :=
  forall incoming w w', decode_raw_persisted message = Ok incoming -> process_message processor incoming w <> (Ok tt, w').

Lemma settled_as_start message kind c k after w1 w2 w3 :
  calmly w1 w2 -> settled_as message kind c k after w2 w3 -> settled_as message kind c k after w1 w3.
Proof.
  intros [Hr (es & He & Hq)] (Hok & Hset & es1 & es2 & Hes & Hq1 & Hq2). rewrite Hr in Hset.
  split_and!; [done|done|]. exists (es ++ es1), es2. rewrite Hes, He, <-!app_assoc.
  split_and!; [done|by apply quiet_app|done].
Qed.

Lemma failure_outcome processor message c id error w0 w :
  processor_ok processor -> healthy processor -> readable processor message -> calmly w0 w ->
  store_ok (nw_retries w) ->
  failing_delivery processor (delivery_count message) (delivery_identity message) c id error ->
  active (lifecycle (nw_retries w0) c (delivery_identity message)) ->
  exists kind w', handle_processing_failure processor message (delivery_count message) (delivery_identity message)
      c id error w = (Ok tt, w') /\ outcome processor message c w0 w' kind /\ kind <> Ack.
Proof.
  intros Hp Hh Hread Hcalm Hw Hfd Ha. pose proof (proj1 Hcalm) as Hr. rewrite <-Hr in Ha.
  destruct (failure_settles processor message (delivery_count message) (delivery_identity message) c id error w)
    as (s & w' & Hrun & Hadv & _ & Hs); [done..|]. rewrite Hr in Hadv.
  destruct (isolation_required s) eqn:Hiso.
  - exists Term, w'. split_and!; [done| |done]. by apply (settled_as_start _ _ _ _ _ w0 w).
  - destruct Hs as [delay Hs]. exists (Nak delay), w'. split_and!; [done| |done].
    exists s. split_and!; [|done|done]. by apply (settled_as_start _ _ _ _ _ w0 w).
Qed.

Lemma delivery_count_positive message : (1 <= delivery_count message)%Z.
Proof. unfold delivery_count. destruct (msg_info message); lia. Qed.

(** A delivery whose lifecycle is active, after the load *)
Definition attempt (processor : RuntimeProcessor) (message : Message) (c : string) : norm unit :=
  match decode_raw_persisted message with
  | Panic p => io_lift (Panic p)
  | Err error =>
      handle_processing_failure processor message (delivery_count message) (delivery_identity message) c None error
  | Ok incoming =>
      let! message_id := io_lift (parse_message_id (ce_message_id (inc_envelope incoming))) in
      let! outcome := io_result (process_message processor incoming) in
      match outcome with
      | Ok _ =>
          clear c (delivery_identity message) ;;!
          settle message Ack (fun error => mkNormalizerError "CER-NORM-NATS-ACK" error true)
      | Err error =>
          handle_processing_failure processor message (delivery_count message) (delivery_identity message) c
            (Some message_id) error
      | Panic p => io_lift (Panic p)
      end
  end.

Lemma acknowledged processor message c k w :
  healthy processor -> plain_key c k -> store_ok (nw_retries w) ->
  exists w', (clear c k ;;! settle message Ack (fun error => mkNormalizerError "CER-NORM-NATS-ACK" error true)) w
    = (Ok tt, w') /\ settled_as message Ack c k None w w'.
Proof.
  intros Hh (Hk & Hcz & Hkz) Hw.
  destruct (clear_spec w c k) as (w1 & Hclear & Hok & Hset); [exact (healthy_retries _ Hh)|done..|].
  destruct (silent_clear _ _ _ _ _ Hclear) as (es & Hes & Hq).
  eexists. split; [erewrite io_bind_run by exact Hclear; by eapply settle_succeeds|].
  split_and!; [done|done|]. exists es, []. simpl. rewrite Hes, <-app_assoc. split_and!; [done|done|constructor].
Qed.

Lemma attempt_outcome processor message c w :
  processor_ok processor -> healthy processor -> orderly processor message ->
  plain_key c (delivery_identity message) ->
  in_range 1 u32_max (cfg_retry_budget (rt_config processor)) = true -> store_ok (nw_retries w) ->
  active (lifecycle (nw_retries w) c (delivery_identity message)) ->
  exists kind w', attempt processor message c w = (Ok tt, w') /\
    outcome processor message c w w' kind /\ (unprocessable processor message -> kind <> Ack).
Proof.
  intros Hp Hh Ho Hkey Hbudget Hw Ha. pose proof (decode_no_panic processor message Hh) as Hnp.
  pose proof (delivery_count_positive message) as Hdel. unfold attempt, unprocessable.
  destruct (decode_raw_persisted message) as [incoming|e|p] eqn:Hdec; [| |by destruct (Hnp p)].
  - destruct (uuid_parse_v7 _ (decoded_message_id _ _ Hdec)) as (u & Hu & Hnil & Huty).
    unfold parse_message_id. rewrite Hu. erewrite io_bind_run by reflexivity.
    destruct (process_message processor incoming w) as [r w1] eqn:Hrun.
    destruct (orderly_process _ _ Ho _ _ _ _ Hdec Hrun) as [Hr He].
    pose proof (calm_process_message _ _ (processor_core _ Hp) _ _ _ Hrun) as Hcalm.
    assert (store_ok (nw_retries w1)) as Hw1 by (by rewrite (proj1 Hcalm)).
    erewrite io_bind_run by (by apply io_result_iff). destruct r as [[]|e|p]; [| |by destruct (Hr p)].
    + destruct (acknowledged processor message c (delivery_identity message) w1) as (w2 & Hrun2 & Hs); [done..|].
      exists Ack, w2. split_and!; [done|by apply (settled_as_start _ _ _ _ _ w w1)|].
      intros Hun. by destruct (Hun incoming w w1 eq_refl).
    + destruct (failure_outcome processor message c (Some u) e w w1) as (kind & w2 & ? & ? & ?);
        [done..|apply orderly_readable, Ho|done|done| |done|by exists kind, w2].
      split; try done; [split; [congruence|by intros ? [= <-]]|by apply He].
  - destruct (failure_outcome processor message c None e w w) as (kind & w2 & ? & ? & ?);
      [done..|apply orderly_readable, Ho|done|done| |done|by exists kind, w2].
    split; try done. by apply (orderly_decode _ _ Ho).
Qed.

Lemma message_key_plain processor message c :
  consumer_of processor c -> message_typed message -> plain_key c (delivery_identity message).
Proof.
  intros [Hct Hcz]%consumer_name_plain (Hkt & Hkl & Hkz)%delivery_key_ok. done.
Qed.

Lemma handle_message_loaded processor message c w :
  (forall n, retry_fault n = None) -> consumer_of processor c -> message_typed message -> store_ok (nw_retries w) ->
  handle_message processor message w =
    match lifecycle (nw_retries w) c (delivery_identity message) ≫=
            fun state => if isolation_required state then Some state else None with
    | Some state =>
        handle_isolation processor message (delivery_count message) (delivery_identity message) state (step_world w)
    | None => attempt processor message c (step_world w)
    end.
Proof.
  intros Hnf Hc Ht Hw. destruct (message_key_plain _ _ _ Hc Ht) as (Hkey & Hcz & Hkz).
  unfold handle_message. rewrite Hc. erewrite io_bind_run by reflexivity.
  erewrite io_bind_run by (by apply load_spec). by destruct (_ ≫= _).
Qed.

Lemma delivery_outcome processor message c w :
  processor_ok processor -> healthy processor -> consumer_of processor c -> orderly processor message ->
  in_range 1 u32_max (cfg_retry_budget (rt_config processor)) = true -> store_ok (nw_retries w) ->
  exists kind w', handle_message processor message w = (Ok tt, w') /\
    outcome processor message c w w' kind /\ (unprocessable processor message -> kind <> Ack).
Proof.
  intros Hp Hh Hc Ho Hbudget Hw. pose proof (orderly_typed _ _ Ho) as Ht.
  pose proof (message_key_plain _ _ _ Hc Ht) as Hkey. set (k := delivery_identity message) in *.
  rewrite (handle_message_loaded processor message c w (healthy_retries _ Hh)) by done. fold k.
  assert (calmly w (step_world w)) as Hstep by apply calmly_step.
  destruct (lifecycle (nw_retries w) c k ≫= _) as [s0|] eqn:Hiso.
  - destruct (lifecycle (nw_retries w) c k) as [s|] eqn:Hl; [|done]. simpl in Hiso.
    destruct (isolation_required s); [|done]. injection Hiso as ->.
    destruct (lifecycle_sound _ _ _ _ Hw Hl) as (_ & Hsc & Hsk).
    destruct (isolation_terminates processor message (delivery_count message) k s0 (step_world w))
      as (w' & Hrun & Hs); [done|done|apply orderly_readable, Ho|done|by rewrite Hsc, Hsk|].
    exists Term, w'. split_and!; [done| |done]. rewrite Hsc, Hsk in Hs.
    by apply (settled_as_start _ _ _ _ _ w (step_world w)).
  - destruct (attempt_outcome processor message c (step_world w)) as (kind & w' & Hrun & Hout & Hun);
      [done|done|done|done|done|done| |exists kind, w'; split_and!; [exact Hrun| |done]].
    + fold k. simpl. intros s Hs. rewrite Hs in Hiso. simpl in Hiso. by destruct (isolation_required s).
    + destruct kind; simpl in Hout |- *; [by apply (settled_as_start _ _ _ _ _ w (step_world w))| |
        by apply (settled_as_start _ _ _ _ _ w (step_world w))].
      destruct Hout as (s & Hs & ? & ?). exists s. split_and!; [|done|done].
      by apply (settled_as_start _ _ _ _ _ w (step_world w)).
Qed.

(** C17: With a database, a bus and a clock that answer and a positive retry
    budget, every delivery of an orderly message returns and settles it exactly
    once, whether it decodes or not and whether its processing succeeds or fails:
    it is acknowledged or terminated and its retry lifecycle removed, or it is
    given back with a lifecycle that counts one more failure and leaves room for
    another.  Orderly messages are those whose handling does not panic and whose
    error texts the retry table can store (a code that is not blank, no NUL
    character); what becomes of the others is stated below, at the error texts
    with a NUL and at the lengths that panic. *)
Theorem healthy_delivery_settles processor message c w :
  processor_ok processor -> healthy processor -> consumer_of processor c -> orderly processor message ->
  in_range 1 u32_max (cfg_retry_budget (rt_config processor)) = true -> store_ok (nw_retries w) ->
  exists kind w', handle_message processor message w = (Ok tt, w') /\ outcome processor message c w w' kind.
Proof.
  intros Hp Hh Hc Ho Hb Hw. destruct (delivery_outcome processor message c w) as (kind & w' & ? & ? & _); [done..|].
  by exists kind, w'.
Qed.

(** A terminated delivery has published its dead letter. *)
Lemma terminated_dead_lettered processor message w w' c k after :
  processor_ok processor -> handle_message processor message w = (Ok tt, w') ->
  settled_as message Term c k after w w' ->
  exists es, nw_effects w' = nw_effects w ++ es /\ dead_lettered message es.
Proof.
  intros Hp Hrun (_ & _ & es1 & es2 & Hes & Hq1 & Hq2).
  destruct (emits_handle_message processor message Hp _ _ _ Hrun) as (es & Hes' & Hd & _). exists es. split; [done|].
  rewrite Hes in Hes'. apply app_inv_head in Hes'. destruct Hd as [es Hq|es3 kind es4 Hq3 Hbacked Hq4].
  - rewrite <-Hes' in Hq. apply quiet_app in Hq as [_ [Hs _]%Forall_cons]. done.
  - assert (kind = Term) as ->.
    { assert (Settled message Term ∈ es3 ++ Settled message kind :: es4) as Hin by (rewrite <-Hes'; set_solver).
      unfold quiet in *. rewrite Forall_forall in Hq3, Hq4.
      apply elem_of_app in Hin as [Hin%Hq3|[[= ->]|Hin%Hq4]%elem_of_cons]; done. }
    eapply (backed_mono (rt_config processor) message Term); [|exact Hbacked]. set_solver.
Qed.

(** ** Messages that cannot be processed *)

Definition remaining (config : RuntimeConfig) (before : option RetryState) : Z :=
  match before with
  | Some s => (ry_retry_budget s - ry_failure_count s)%Z
  | None => cfg_retry_budget config
  end.

Record poison (processor : RuntimeProcessor) (key : string) (message : Message) : Prop := {
  poison_key : delivery_identity message = key;
  poison_orderly : orderly processor message;
  poison_fails : unprocessable processor message;
}.

Lemma active_remaining s : isolation_required s = false -> (0 < ry_retry_budget s - ry_failure_count s)%Z.
Proof. intros [Hex%Z.leb_gt _]%orb_false_iff. lia. Qed.

Lemma poison_terminated processor c key messages w :
  processor_ok processor -> healthy processor -> consumer_of processor c ->
  in_range 1 u32_max (cfg_retry_budget (rt_config processor)) = true ->
  Forall (poison processor key) messages -> store_ok (nw_retries w) ->
  (0 < remaining (rt_config processor) (lifecycle (nw_retries w) c key) <= Z.of_nat (length messages))%Z ->
  exists before message after w1 w2, messages = before ++ message :: after /\
    io_iter (handle_message processor) before w = (Ok tt, w1) /\
    handle_message processor message w1 = (Ok tt, w2) /\ settled_as message Term c key None w1 w2.
Proof.
  intros Hp Hh Hc Hb. revert w. induction messages as [|m ms IH]; intros w Hms Hw Hrem; simpl in Hrem; [lia|].
  apply Forall_cons in Hms as [[Hk Ho Hun] Hms].
  destruct (delivery_outcome processor m c w) as (kind & w' & Hrun & Hout & Hack); [done..|]. specialize (Hack Hun).
  unfold outcome in Hout. rewrite Hk in Hout. destruct kind as [|delay|]; [done| |].
  - destruct Hout as (s & (Hok & Hset & _) & Hact & _ & _ & Hcount & Hbud).
    destruct (IH w') as (before & message & after & w1 & w2 & -> & Hbefore & Hm & Hs); [done|done| |].
    + rewrite Hset, bool_decide_eq_true_2 by done. simpl. apply active_remaining in Hact.
      destruct (lifecycle (nw_retries w) c key); simpl in *; lia.
    + exists (m :: before), message, after, w1, w2. split_and!; [done| |done|done].
      simpl. by erewrite io_bind_run by exact Hrun.
  - exists [], m, ms, w, w'. by split_and!.
Qed.

(** C6: A message that can never be processed is out of the way after at most as
    many deliveries as the retry budget: in a healthy environment one of its
    first deliveries publishes its dead letter, terminates it and removes its
    lifecycle, and every delivery before returns without error, so such a message
    cannot block the consumer.  It is stated of orderly messages (every delivery
    is of one with the same delivery key): handling them does not panic and their
    error texts can be stored, with a code that is not blank and no NUL character.
    A text with a NUL and a length that panics escape the budget, as stated
    below. *)
Theorem dead_letter_within_budget processor c key messages w :
  processor_ok processor -> healthy processor -> consumer_of processor c ->
  in_range 1 u32_max (cfg_retry_budget (rt_config processor)) = true ->
  Forall (poison processor key) messages -> store_ok (nw_retries w) ->
  lifecycle (nw_retries w) c key = None ->
  Z.of_nat (length messages) = cfg_retry_budget (rt_config processor) ->
  exists before message after w1 w2, messages = before ++ message :: after /\
    io_iter (handle_message processor) before w = (Ok tt, w1) /\
    handle_message processor message w1 = (Ok tt, w2) /\ settled_as message Term c key None w1 w2 /\
    exists es, nw_effects w2 = nw_effects w1 ++ es /\ dead_lettered message es.
Proof.
  intros Hp Hh Hc Hb Hms Hw Hl Hn.
  destruct (poison_terminated processor c key messages w) as (before & message & after & w1 & w2 & ? & ? & Hrun & Hs);
    try done.
  - rewrite Hl. simpl. apply in_range_spec in Hb. lia.
  - exists before, message, after, w1, w2. split_and!; try done. by eapply terminated_dead_lettered.
Qed.

(** ** Isolated messages *)

(** What a delivery of an isolated message may do outside *)
Definition dead_letters_only (message : Message) (c k : string) (e : Effect) : Prop :=
  match e with
  | Published subject _ _ _ => subject = NORMALIZATION_DLQ_SUBJECT
  | Settled message' kind => message' = message /\ kind <> Ack
  | RetryCleared c' k' => c' = c /\ k' = k
  | _ => False
  end.

Lemma only_publish (P : Effect -> Prop) subject headers payload err :
  (forall ack, P (Published subject headers payload ack)) -> only P (publish_with_headers subject headers payload err).
Proof.
  intros HP w r w'. unfold publish_with_headers.
  destruct (publish_reply (nw_step w) subject) as [ack|[error [|]]]; intros [= <- <-];
    [by eexists; split; [reflexivity|repeat constructor]..|].
  exists []. rewrite app_nil_r. split; [done|constructor].
Qed.

Lemma only_settle (P : Effect -> Prop) message kind err : P (Settled message kind) -> only P (settle message kind err).
Proof.
  intros HP. eapply emits_mono; [apply emits_settle|]. intros r es [-> |[-> _]]; [by repeat constructor|constructor].
Qed.

Lemma only_isolation processor message deliveries key state :
  processor_ok processor ->
  only (dead_letters_only message (ry_consumer_name state) (ry_message_key state))
    (handle_isolation processor message deliveries key state).
Proof.
  intros Hp. set (P := dead_letters_only _ _ _). unfold handle_isolation, best_effort_parser_identity.
  apply only_bind; [|intros identity].
  { apply only_bind; [apply only_lift|intros [incoming|]; [|apply only_ret]].
    apply only_bind; [apply only_result, only_step|intros raw]. destruct raw; [apply only_lift|apply only_ret..]. }
  apply only_bind; [|intros record].
  { unfold from_message. apply only_bind; [apply only_lift|intros envelope].
    apply only_bind; [destruct (envelope ≫= ce_payload); [apply only_lift|apply only_ret]|intros persisted].
    destruct (dlq_source_identity _ _ _ _ _). apply only_bind; [apply only_step|intros id]. apply only_ret. }
  apply only_bind; [|intros published].
  { apply only_result. unfold publish_normalization_dlq. apply only_bind; [apply only_lift|intros bytes].
    apply only_bind; [by apply only_publish|intros ack]. apply only_lift. }
  assert (forall delay, only P (nak_with_delay message delay)) as Hnak by (intros; by apply only_settle).
  destruct published as [[]|e|p]; [|by apply only_bind; [apply only_lift|]..].
  apply only_bind; [apply only_records, sink_dlq_ok, processor_metrics, Hp|intros _].
  apply only_bind; [by apply only_settle|intros _]. unfold clear. apply only_bind; [apply only_lift|intros _].
  apply only_query. by intros a e [= <-].
Qed.

(** Once a message is to be isolated it is never processed again: whatever
    the environment answers, a further delivery sends nothing to ClickHouse,
    publishes no normalized event, records no further failure and does not
    acknowledge; all it may do is publish the dead letter, settle the message as
    terminated or to be delivered again, and remove its lifecycle. *)
Theorem isolated_message_only_dead_lettered processor message c s w r w' :
  processor_ok processor -> consumer_of processor c -> message_typed message -> store_ok (nw_retries w) ->
  lifecycle (nw_retries w) c (delivery_identity message) = Some s -> isolation_required s = true ->
  handle_message processor message w = (r, w') ->
  exists es, nw_effects w' = nw_effects w ++ es /\
    Forall (dead_letters_only message c (delivery_identity message)) es.
Proof.
  intros Hp Hc Ht Hw Hl Hiso Hrun. unfold handle_message in Hrun. rewrite Hc in Hrun.
  erewrite (io_bind_run (io_lift (Ok c))) in Hrun by reflexivity. unfold io_bind in Hrun.
  destruct (load c (delivery_identity message) w) as [loaded w1] eqn:Hload.
  assert (only (fun _ => False) (load c (delivery_identity message))) as Honly.
  { unfold load. apply only_bind; [apply only_lift|intros _]. apply only_bind; [by apply only_query|].
    intros [row|]; [apply only_bind; [apply only_lift|intros ?]; apply only_ret|apply only_ret]. }
  destruct (Honly _ _ _ Hload) as (es1 & Hes1 & Hq1).
  assert (es1 = []) as -> by (by destruct Hq1). rewrite app_nil_r in Hes1.
  destruct (load_result w c (delivery_identity message) Hw) as [Hok|(e & He & _)];
    rewrite Hload in *; simpl in *; subst loaded.
  - rewrite Hl in Hrun. simpl in Hrun. rewrite Hiso in Hrun.
    destruct (lifecycle_sound _ _ _ _ Hw Hl) as (_ & <- & Hk). 
    apply (only_isolation _ _ _ _ _ Hp) in Hrun as (es & Hes & Hall). rewrite Hk in Hall. exists es.
    by rewrite Hes, Hes1.
  - injection Hrun as <- <-. exists []. rewrite app_nil_r. split; [done|constructor].
Qed.

(** ** Messages that are never settled *)

Lemma active_attempt processor message c w :
  (forall n, retry_fault n = None) -> consumer_of processor c -> message_typed message -> store_ok (nw_retries w) ->
  active (lifecycle (nw_retries w) c (delivery_identity message)) ->
  handle_message processor message w = attempt processor message c (step_world w).
Proof.
  intros Hnf Hc Ht Hw Ha. rewrite (handle_message_loaded _ _ c w Hnf) by done.
  destruct (lifecycle _ _ _) as [s|]; [|done]. simpl. by rewrite (Ha s eq_refl).
Qed.

Lemma unstorable_failure f w :
  (forall n, retry_fault n = None) -> failure_ok f -> ~ text_storable f ->
  exists error, record_failure f w = (Err (postgres_error "record retry failure" error), step_world w).
Proof.
  intros Hnf Hf Ht. unfold record_failure, io_bind, io_lift, run_query.
  rewrite (proj2 (validate_failure_ok_iff f) Hf), Hnf.
  destruct (retry_state_upsert f (nw_retries w)) as [[out rows]|e|p] eqn:Hu; [by apply upsert_text in Hu|by eexists|].
  exfalso. revert p Hu. change (no_panic (retry_state_upsert f (nw_retries w))). unfold retry_state_upsert. no_panic.
Qed.

(** The attempt at a message in the world [w] ends in the error [e] and the world [w1]. *)
Definition attempt_fails (processor : RuntimeProcessor) (message : Message) (e : NormalizerError)
    (w w1 : NormalizerWorld) : Prop :=
  decode_raw_persisted message = Err e /\ w1 = w \/
  exists incoming, decode_raw_persisted message = Ok incoming /\ process_message processor incoming w = (Err e, w1).

Lemma unstorable_attempt processor message c id e w :
  processor_ok processor -> healthy processor -> consumer_of processor c -> message_typed message ->
  in_range 1 u32_max (cfg_retry_budget (rt_config processor)) = true -> id <> Some 0%N ->
  has_text (nz_code e) -> contains_char zero (nz_message e) = true ->
  exists error w', handle_processing_failure processor message (delivery_count message) (delivery_identity message) c
      id e w = (Err error, w') /\
    nz_code error = "CER-NORM-RETRY-STATE-POSTGRES" /\ nw_retries w' = nw_retries w /\ nw_effects w' = nw_effects w.
Proof.
  intros Hp Hh Hc Ht Hb Hid Hcode Hz. pose proof (message_key_plain _ _ _ Hc Ht) as (Hkey & _ & _).
  pose proof (delivery_count_positive message) as Hdel.
  destruct (failure_unfolds processor message (delivery_count message) (delivery_identity message) c id e w Hp Hh Hdel)
    as (t & delay & Hd & ->).
  destruct (failure_of_ok processor (delivery_count message) (delivery_identity message) c id e t delay) as [Hf _];
    [done..|].
  destruct (unstorable_failure _ (step_world w) (healthy_retries _ Hh) Hf) as [error Herr].
  { intros Hs. unfold text_storable in Hs. rewrite !Forall_cons in Hs. simpl in Hs. destruct Hs as (_ & _ & _ & Hs & _).
    by rewrite Hz in Hs. }
  do 2 eexists. split; [by apply io_bind_err, Herr|done].
Qed.

(** C36: A delivery that fails with an error text that holds a NUL character is not
    settled, whether the message does not decode or its processing fails, and
    whatever its active retry lifecycle: the retry table cannot store the text, so
    even where every dependency answers the delivery ends in a database error and
    adds nothing to what processing did, neither a dead letter nor a settlement.
    The retry table is as before, so the failure is not counted and the message
    is never isolated for it. *)
Theorem nul_error_text_never_settles processor message c e w w1 :
  processor_ok processor -> healthy processor -> consumer_of processor c -> message_typed message ->
  in_range 1 u32_max (cfg_retry_budget (rt_config processor)) = true -> store_ok (nw_retries w) ->
  active (lifecycle (nw_retries w) c (delivery_identity message)) ->
  attempt_fails processor message e (step_world w) w1 ->
  has_text (nz_code e) -> contains_char zero (nz_message e) = true ->
  exists error w', handle_message processor message w = (Err error, w') /\
    nz_code error = "CER-NORM-RETRY-STATE-POSTGRES" /\ nw_retries w' = nw_retries w /\
    nw_effects w' = nw_effects w1 /\ exists es, nw_effects w1 = nw_effects w ++ es /\ quiet es.
Proof.
  intros Hp Hh Hc Ht Hb Hw Ha Hfails Hcode Hz.
  rewrite (active_attempt _ _ c w (healthy_retries _ Hh)) by done.
  unfold attempt. destruct Hfails as [[-> ->]|(incoming & Hdec & Hrun)].
  - destruct (unstorable_attempt processor message c None e (step_world w)) as (error & w' & Hfail & ? & ? & ?);
      [done..|]. exists error, w'. split_and!; try done. exists []. rewrite app_nil_r. split; [done|constructor].
  - rewrite Hdec. destruct (uuid_parse_v7 _ (decoded_message_id _ _ Hdec)) as (u & Hu & Hnil & _).
    unfold parse_message_id. rewrite Hu. erewrite io_bind_run by reflexivity.
    erewrite io_bind_run by (by apply io_result_iff).
    destruct (calm_process_message _ _ (processor_core _ Hp) _ _ _ Hrun) as (Hret & Hes).
    destruct (unstorable_attempt processor message c (Some u) e w1) as (error & w' & Hfail & ? & Hret' & ?);
      [done..|congruence|done|done|]. exists error, w'. split_and!; try done. by rewrite Hret', Hret.
Qed.

(** C37: A well-formed handoff that declares a length above [isize::MAX] makes
    the runtime panic while it allocates the read buffer, once the object it
    names resolves and opens: no failure is recorded and nothing is settled, so
    the message comes back and panics again. *)
Theorem oversized_length_panics processor message incoming c w relative canonical file :
  healthy processor -> consumer_of processor c -> message_typed message -> store_ok (nw_retries w) ->
  lifecycle (nw_retries w) c (delivery_identity message) = None ->
  decode_raw_persisted message = Ok incoming ->
  rp_storage_uri (inc_persisted incoming) = "raw:///" +:+ relative ->
  forallb is_normal (components relative) = true ->
  let fs := files_at (S (nw_step w)) in let root := raw_root (rt_raw_reader processor) in
  fs_canonicalize fs (path_join root relative) = Ok canonical -> path_starts_with canonical root = true ->
  fs_open fs canonical = Ok file -> file_seek file (rp_offset (inc_persisted incoming)) = Ok tt ->
  (isize_max < rp_length (inc_persisted incoming) <= u64_max)%Z ->
  exists w', handle_message processor message w = (Panic "capacity overflow", w') /\
    nw_retries w' = nw_retries w /\ nw_effects w' = nw_effects w.
Proof.
  intros Hh Hc Ht Hw Hl Hdec Huri Hnorm fs root Hcan Hin Hopen Hseek Hlen.
  rewrite (active_attempt _ _ c w (healthy_retries _ Hh)) by (done || by rewrite Hl).
  unfold attempt. rewrite Hdec.
  destruct (uuid_parse_v7 _ (decoded_message_id _ _ Hdec)) as (u & Hu & _).
  unfold parse_message_id. rewrite Hu. erewrite io_bind_run by reflexivity.
  assert (read (rt_raw_reader processor) fs (inc_persisted incoming) = Panic "capacity overflow") as Hread.
  { unfold read. rewrite Huri, (proj2 (strip_prefix_Some _ _ _) eq_refl). cbn [ok_or bind]. rewrite Hnorm. cbn [negb reject_if bind].
    fold root. rewrite Hcan. cbn [map_err bind]. rewrite Hin. cbn [negb reject_if bind]. rewrite Hopen.
    cbn [map_err bind]. rewrite Hseek. cbn [map_err bind]. unfold try_from, in_usize.
    rewrite (proj2 (in_range_spec _ _ _)) by (unfold isize_max, usize_max in *; lia). cbn [ok_or bind].
    destruct (Z.ltb_spec isize_max (rp_length (inc_persisted incoming))); [done|lia]. }
  assert (process_message processor incoming (step_world w) = (Panic "capacity overflow", step_world (step_world w)))
    as Hrun.
  { apply io_bind_panic. unfold read_raw. change (files_at (nw_step (step_world w))) with fs. by rewrite Hread. }
  eexists. split; [apply io_bind_panic; unfold io_result; by rewrite Hrun|done].
Qed.

End Liveness.
