(* ===== verification/StoredRowSpec.v ===== *)
(** * Stored rows carry their plans

    What the runtime reads back from ClickHouse is the normalization it stored:
    the row of a plan decodes to the plan's messages, and it is accepted by the
    checks that guard a redelivery. *)

From S2P Require Import Prelude RustStd RustText ContractTypes Validation SignalContract Effects CanonicalJson CanonicalJsonSpec Parser ParserFormats SourceTime Mapping RetryState Metrics NormalizerWorld NormalizerCore Database RuntimeConfig RawStore EventBus ClickHouse DeadLetter Runtime NormalizerCoreSpec.

Section Values.
Context `{JsonCodec}.

Lemma json_object_ok_iff {E} (conv : Json -> result Value E) (object : list (string * Json)) (fields : list (string * Value)) :
  map_m (fun '(key, value) => let? value := conv value in Ok (key, value)) object = Ok fields <->
  Forall2 (fun (m : string * Json) (f : string * Value) => m.1 = f.1 /\ conv m.2 = Ok f.2) object fields.
Proof.
  rewrite map_m_ok_iff. split; intros Hall; (eapply Forall2_impl; [exact Hall|]); intros [k v] [k' x]; simpl.
  - intros (y & Hy & [= <- <-])%bind_ok_iff. done.
  - intros [-> Hv]. by rewrite Hv.
Qed.

(** The conversion of a reordered object gives the same map. *)
Lemma canonical_object_fields (conv : Json -> result Value NormalizerError)
    (object : list (string * Json)) (fields : list (string * Value)) :
  NoDup (object.*1) ->
  Forall2 (fun m f => m.1 = f.1 /\ conv (canonicalize m.2) = Ok f.2) object fields ->
  exists fields', Forall2 (fun m f => m.1 = f.1 /\ conv m.2 = Ok f.2) (collect_map (canonical_member <$> object)) fields' /\
    collect_map fields' = collect_map fields.
Proof.
  intros Hnd Hall. pose proof (canonical_keys object) as Hkeys.
  assert (Forall2 (fun m f => m.1 = f.1 /\ conv m.2 = Ok f.2) (canonical_member <$> object) fields) as Hc
    by (by apply Forall2_fmap_l).
  assert (canonical_member <$> object ≡ₚ collect_map (canonical_member <$> object)) as Hperm
    by (symmetry; apply collect_map_perm; by rewrite Hkeys).
  destruct (Permutation_Forall2 Hperm Hc) as (fields' & Hp & Hall'). exists fields'. split; [done|]. symmetry. apply collect_map_eq; [|done].
  assert (object.*1 = fields.*1) as <-; [|done].
  clear -Hall. induction Hall as [|[k v] [k' x] l l' [Hk _] _ IH]; [done|]. rewrite !fmap_cons. by f_equal.
Qed.

Lemma stored_value_canonical v x :
  distinct_members v -> json_to_prost_value v = Ok x -> stored_json_to_prost_value (canonicalize v) = Ok x.
Proof.
  revert x. induction v as [|b|t|t|values IH|object IH] using Json_tree_ind; intros x Hd Hx.
  - done.
  - done.
  - cbn [json_to_prost_value stored_json_to_prost_value canonicalize] in *. by destruct (number_as_f64 t).
  - done.
  - cbn [json_to_prost_value stored_json_to_prost_value canonicalize] in *.
    apply bind_ok_iff in Hx as (kind & (vs & Hvs%map_m_ok_iff & [= <-])%bind_ok_iff & [= <-]).
    rewrite (proj2 (map_m_ok_iff _ _ vs)); [done|]. apply Forall2_fmap_l. apply distinct_array in Hd.
    induction Hvs as [|v y l l' Hv _ IHl]; [constructor|]. apply Forall_cons in IH as [IHv IH].
    apply Forall_cons in Hd as [Hdv Hd]. constructor; [by apply IHv|by apply IHl].
  - rewrite canonicalize_object. cbn [json_to_prost_value stored_json_to_prost_value] in *.
    apply bind_ok_iff in Hx as (kind & (fs & Hfs%json_object_ok_iff & [= <-])%bind_ok_iff & [= <-]).
    apply distinct_object in Hd as [Hnd Hd].
    destruct (canonical_object_fields stored_json_to_prost_value object fs) as (fs' & Hall & Heq); [done| |].
    + clear Hnd. induction Hfs as [|[k v] [k' y] l l' [Hk Hv] _ IHl]; [constructor|].
      apply Forall_cons in IH as [IHv IH]. apply Forall_cons in Hd as [Hdv Hd]. constructor; [|by apply IHl].
      split; [done|by apply IHv].
    + rewrite (proj2 (json_object_ok_iff _ _ fs') Hall). cbn [bind]. by rewrite Heq.
Qed.

Lemma stored_struct_canonical v s :
  distinct_members v -> json_to_prost_struct v = Ok s -> stored_json_to_prost_struct (canonicalize v) = Ok s.
Proof.
  intros Hd Hs. assert (json_to_prost_value v = Ok (mkValue (Some (StructValue s)))) as Hv.
  { destruct v as [| | | | |object]; try done. cbn [json_to_prost_struct json_to_prost_value] in *.
    apply bind_ok_iff in Hs as (fs & -> & [= <-]). done. }
  apply stored_value_canonical in Hv; [|done]. destruct v as [| | | | |object]; try done.
  rewrite canonicalize_object in *. cbn [stored_json_to_prost_struct stored_json_to_prost_value] in *.
  apply bind_ok_iff in Hv as (kind & (fs & -> & [= <-])%bind_ok_iff & [= <-]). done.
Qed.

End Values.

(** ** Rows of plans *)

Lemma distinct_json_object entries :
  NoDup (entries.*1) -> Forall (fun m => distinct_members m.2) entries -> distinct_members (json_object entries).
Proof.
  intros Hnd Hall. unfold json_object. apply distinct_object. rewrite (collect_map_perm entries Hnd). done.
Qed.

(** Objects whose names are literals *)
Ltac distinct_literals :=
  apply distinct_json_object;
  [apply (bool_decide_unpack (NoDup _)); vm_compute; exact I
  |repeat apply Forall_cons_2; cbn [snd]; try exact I; try apply Forall_nil_2; try distinct_literals].

Lemma sshd_document_distinct parsed persisted v : sshd_document parsed persisted v -> distinct_members v.
Proof.
  intros (? & ? & ? & ? & ? & ? & ? & ? & ? & -> & _). unfold ssh_ocsf_event, ssh_metadata. distinct_literals.
Qed.

(** What the UUID columns of the table give back *)
Definition read_back (row : StoredNormalization) : StoredNormalization :=
  mkStoredNormalization (sn_logical_key row) (sn_tenant_id row) (sql_uuid (sn_normalized_event_id row))
    (sql_uuid (sn_raw_event_id row)) (sn_event_time_present row) (sn_event_time_seconds row)
    (sn_event_time_nanos row) (sn_ingest_time_seconds row) (sn_ingest_time_nanos row)
    (sn_normalized_at_seconds row) (sn_normalized_at_nanos row) (sn_ocsf_version row) (sn_class_uid row)
    (sn_category_uid row) (sn_activity_id row) (sn_severity row) (sn_parser_id row) (sn_parser_version row)
    (sn_mapping_id row) (sn_mapping_version row) (sn_normalization_status row)
    (sn_normalized_hash_algorithm row) (sn_normalized_hash row) (sn_pipeline_version row)
    (sn_ocsf_event_json row) (sql_uuid (sn_transformation_id row)) (sn_configuration_hash row)
    (sn_execution_mode row) (sql_uuid (sn_publication_message_id row)) (sql_uuid (sn_causation_message_id row))
    (sn_trace_id row) (sn_correlation_id row) (sn_producer_component_version row) (sn_producer_instance_id row).

Section Rows.
Context `{Sha256} `{JsonCodec} `{FormatCodec} `{DebugStr} `{TimeCrate} `{Outside}.

Lemma from_plan_ok plan event_time ingest incoming id version instance row :
  from_plan plan event_time ingest incoming id version instance = Ok row ->
  exists t json, ne_normalized_at (np_normalized_event plan) = Some t /\
    from_utf8 (np_canonical_ocsf_json plan) = Ok json /\
    row = mkStoredNormalization (np_logical_key plan) (ne_tenant_id (np_normalized_event plan))
        (ne_normalized_event_id (np_normalized_event plan)) (ne_raw_event_id (np_normalized_event plan))
        (sn_event_time_present row) (sn_event_time_seconds row) (sn_event_time_nanos row)
        (ts_seconds ingest) (ts_nanos ingest) (ts_seconds t) (ts_nanos t)
        (ne_ocsf_version (np_normalized_event plan)) (ne_class_uid (np_normalized_event plan))
        (ne_category_uid (np_normalized_event plan)) (ne_activity_id (np_normalized_event plan))
        (ne_severity (np_normalized_event plan)) (ne_parser_id (np_normalized_event plan))
        (ne_parser_version (np_normalized_event plan)) (np_mapping_id plan) (np_mapping_version plan)
        (ne_normalization_status (np_normalized_event plan)) (ne_normalized_hash_algorithm (np_normalized_event plan))
        (ne_normalized_hash (np_normalized_event plan)) (ne_pipeline_version (np_normalized_event plan)) json
        (tr_transformation_id (np_transformation plan)) (tr_configuration_hash (np_transformation plan))
        (tr_execution_mode (np_transformation plan)) id (ce_message_id incoming) (ce_trace_id incoming)
        (ce_correlation_id incoming) version instance.
Proof.
  unfold from_plan. intros (t & Ht%ok_or_ok_iff & Hrun)%bind_ok_iff.
  destruct event_time; simpl in Hrun; apply bind_ok_iff in Hrun as (json & Hj%map_err_ok_iff & [= <-]); by exists t, json.
Qed.

Lemma from_utf8_bytes l s : from_utf8 l = Ok s -> str_bytes s = l.
Proof. intros [-> _]%from_utf8_Utf8. apply str_of_bytes_inv. Qed.

(** The JSON text of the plan is read as the document it was written for. *)
Definition reads_back (plan : NormalizationPlan) : Prop :=
  forall v, np_canonical_ocsf_json plan = canonical_json_bytes v ->
    json_from_slice (np_canonical_ocsf_json plan) = Ok (canonicalize v).

Lemma stored_document core incoming persisted raw w plan w' event_time ingest id version instance row :
  core_built core -> normalize core incoming persisted raw w = (Ok plan, w') ->
  from_plan plan event_time ingest incoming id version instance = Ok row -> reads_back plan ->
  exists v s, json_from_slice (str_bytes (sn_ocsf_event_json row)) = Ok v /\
    stored_json_to_prost_struct v = Ok s /\ ne_ocsf_event (np_normalized_event plan) = Some s.
Proof.
  intros Hb (_ & _ & parsed & w1 & w2 & _ & Hplan)%normalize_ok Hrow Hjson.
  destruct (plan_built _ _ _ _ _ _ Hb Hplan) as [_ _ _ _ _ _ (v & s & Hv & Hcanon & Hs & Hev) _].
  apply from_plan_ok in Hrow as (t' & json & _ & Hutf & ->). exists (canonicalize v), s.
  cbn [sn_ocsf_event_json]. rewrite (from_utf8_bytes _ _ Hutf), (Hjson v Hcanon).
  by rewrite (stored_struct_canonical v s) by (done || by eapply sshd_document_distinct).
Qed.

(** The row the runtime stores for a plan decodes back to the plan: the
    normalized event that is published from the stored row, on the first delivery
    and on every redelivery, is the one the core produced, with its OCSF document
    rebuilt from the canonical JSON text, and so is the transformation record. *)
Theorem stored_row_round_trip core incoming persisted raw w plan w' event_time ingest id version instance row :
  core_built core -> normalize core incoming persisted raw w = (Ok plan, w') ->
  from_plan plan event_time ingest incoming id version instance = Ok row ->
  (forall v, np_canonical_ocsf_json plan = canonical_json_bytes v ->
     json_from_slice (np_canonical_ocsf_json plan) = Ok (canonicalize v)) ->
  stored_normalized_event row = Ok (np_normalized_event plan) /\ stored_transformation row = np_transformation plan.
Proof.
  intros Hb Hn Hrow Hjson.
  destruct (stored_document _ _ _ _ _ _ _ _ _ _ _ _ _ Hb Hn Hrow Hjson) as (v & s & Hv & Hs & Hev).
  apply normalize_ok in Hn as (_ & _ & parsed & w1 & w2 & _ & Hplan).
  destruct (plan_built _ _ _ _ _ _ Hb Hplan) as [_ _ _ _ Hraw _ _ (t & Ht & Htr)]. split.
  - unfold stored_normalized_event. rewrite Hv. cbn [map_err bind]. rewrite Hs. cbn [bind].
    apply from_plan_ok in Hrow as (t' & json & Ht' & _ & ->). destruct (np_normalized_event plan). simpl in *.
    destruct t'. by subst.
  - apply from_plan_ok in Hrow as (t' & json & Ht' & _ & ->). rewrite Ht in Ht'. injection Ht' as <-.
    unfold stored_transformation. rewrite Htr. simpl. destruct t. by rewrite Hraw.
Qed.

(** A stored normalization is recognized: the row of a plan, as the UUID
    columns give it back, passes the check against the plan and, on a redelivery,
    the check against the recomputed identity, exactly when the identity of the
    raw event is in lower case; an upper-case identity, which the contracts
    accept, is refused as an idempotency conflict for good. *)
Theorem stored_row_accepted core incoming persisted raw w plan w' event_time ingest id version instance row :
  core_built core -> normalize core incoming persisted raw w = (Ok plan, w') ->
  from_plan plan event_time ingest incoming id version instance = Ok row ->
  exists identity, derivation_identity core persisted raw = Ok identity /\
    (validate_existing_plan (read_back row) plan = Ok tt <-> sql_uuid (rp_event_id persisted) = rp_event_id persisted) /\
    (validate_existing_identity (read_back row) (rp_event_id persisted) identity = Ok tt <->
       sql_uuid (rp_event_id persisted) = rp_event_id persisted).
Proof.
  intros Hb (_ & Hraw & parsed & w1 & w2 & Hparse & Hplan)%normalize_ok Hrow.
  apply (plan_built _ _ _ _ _ _ Hb) in Hplan. destruct (plan_of_preflight core persisted raw parsed plan) as [Hpre Hkey];
    [done..|]. exists (sshd_identity core persisted (pe_parser_version parsed)). split; [done|].
  destruct Hplan as [_ _ Hpi _ Hrawid _ _].
  apply from_plan_ok in Hrow as (t & json & _ & _ & ->).
  unfold validate_existing_plan. rewrite Hpi. cbn [bind].
  set (identity := sshd_identity core persisted (pe_parser_version parsed)) in *. clearbody identity.
  unfold plan_identity in Hpi. destruct (ExecutionMode_try_from _) as [mode|] eqn:Hmode; [|done].
  injection Hpi as <-. apply execution_mode_of_i32 in Hmode.
  rewrite bind_unit_ok_iff, !existing_identity_ok_iff. simpl. rewrite Hrawid, !String.eqb_refl. simpl. naive_solver.
Qed.
End Rows.
