(* ===== verification/Derivations.v ===== *)
(** * One derivation, many deliveries

    docs/normalization/first-vertical.md promises that redeliveries of one raw event
    converge on the derivation that is already stored: the row is inserted under
    [insert_deduplication_token = logical_key], read back after every insert and published
    with the [publication_message_id] it holds.  The file states what the table does for
    one logical key (a row that is there stays, a second insert of its key is dropped) and
    proves the promise for deliveries by any number of workers; and it shows where two
    workers that normalize the same event at once do not converge. *)

From S2P Require Import Prelude RustStd RustText ContractTypes Validation SignalContract Effects CanonicalJson Parser ParserSpec ParserFormats SourceTime Mapping RetryState Metrics NormalizerWorld NormalizerCore Database RetryStore RetryStoreSpec RuntimeConfig RawStore EventBus ClickHouse DeadLetter Runtime NormalizerCoreSpec Traces DeliverySpec DeliveryLiveness StoredRowSpec.

(** ** The rows of one logical key *)

(** What can happen to them: nothing, or the first insert *)
Inductive cell_step : option StoredNormalization -> option StoredNormalization -> Prop :=
| cell_kept cell : cell_step cell cell
| cell_inserted row : cell_step None (Some row).

(** What the table holds for a key over time *)
Definition timeline (cell : nat -> option StoredNormalization) : Prop := forall t, cell_step (cell t) (cell (S t)).

Lemma cell_stays cell t d row : timeline cell -> cell t = Some row -> cell (d + t) = Some row.
Proof. intros Hcell Ht. induction d as [|d IH]; [done|]. simpl. destruct (Hcell (d + t)); congruence. Qed.

Lemma cell_stable cell t1 t2 row1 row2 :
  timeline cell -> cell t1 = Some row1 -> cell t2 = Some row2 -> row1 = row2.
Proof.
  intros Hcell H1 H2. apply (cell_stays _ _ t2) in H1; [|done]. apply (cell_stays _ _ t1) in H2; [|done].
  rewrite Nat.add_comm in H2. congruence.
Qed.

(** A read of the key that returns a row returns the one it held at some time. *)
Definition reads_from `{RowCodec} `{Outside} (store : ClickHouseStore) (key : string)
    (cell : nat -> option StoredNormalization) : Prop :=
  forall n reply body row,
    http_reply n (mkClickHouseRequest false [("query", select_query store key)] []) = inl reply ->
    hr_body reply = Ok body -> in_range 200 299 (hr_status reply) = true -> is_empty (trim body) = false ->
    row_from_str (trim body) = Ok row -> exists t, cell t = Some row.

(** ** The logical key of a delivery *)

Section Keys.
Context `{Sha256} `{JsonCodec} `{FormatCodec} `{DebugStr}.

Definition sshd_version (core : NormalizerCore) : string :=
  match core_parsers core with parser :: _ => parser_version parser | [] => "" end.

(** The key is that of the only mapped parser, whatever the raw bytes are. *)
Lemma derivation_key `{TimeCrate} `{Outside} core persisted raw identity :
  core_built core -> derivation_identity core persisted raw = Ok identity ->
  identity = sshd_identity core persisted (sshd_version core).
Proof.
  intros Hb Hid. unfold derivation_identity in Hid. apply bind_unit_ok_iff in Hid as [_ Hid].
  apply bind_ok_iff in Hid as (selection & Hsel%map_err_ok_iff & Hid).
  apply bind_ok_iff in Hid as (mapping & [Hp ->]%map_err_ok_iff%(for_parser_built _ _ _ Hb) & [= <-]).
  apply select_elem in Hsel. destruct (built_parsers _ Hb) as [version Hv].
  unfold with_linux_sshd_version in Hv. apply bind_ok_iff in Hv as (sshd & Hsshd & [= Hparsers]).
  assert (ps_parser selection = sshd) as Hs.
  { rewrite <-Hparsers in Hsel. apply elem_of_cons in Hsel as [?|Hsel]; [done|].
    exfalso. revert Hp. apply (Forall_forall (fun p => parser_id p <> LINUX_SSHD_PARSER_ID) _ ) with (2 := Hsel).
    by repeat constructor. }
  unfold sshd_identity, sshd_version. rewrite Hp, <-Hparsers, Hs. done.
Qed.

Record same_derivation (core1 core2 : NormalizerCore) : Prop := {
  same_config : core_config core1 = core_config core2;
  same_version : sshd_version core1 = sshd_version core2;
  same_policies : core_source_time_policies core1 = core_source_time_policies core2;
}.

Definition key_of (core : NormalizerCore) (persisted : RawEventPersisted) : string :=
  logical_key_for core persisted LINUX_SSHD_PARSER_ID (sshd_version core) LINUX_SSH_AUTH_MAPPING_ID
    LINUX_SSH_AUTH_MAPPING_VERSION.

Lemma same_key core1 core2 persisted : same_derivation core1 core2 -> key_of core1 persisted = key_of core2 persisted.
Proof.
  intros [Hc Hv Hp]. unfold key_of, logical_key_for, logical_key_text, configuration_hash_for. by rewrite Hc, Hv, Hp.
Qed.
End Keys.

(** ** What a delivery publishes *)

Section Publishing.
Context `{Sha256} `{JsonCodec} `{FormatCodec} `{DebugStr} `{TimeCrate} {outside : Outside}.
Context `{!RetryCodec} `{ProstCodec} `{RowCodec} `{DeadLetterCodec} `{RawFiles}.

(** The payload and the message identity are those of a stored row. *)
Definition publishes_row (row : StoredNormalization) (headers : HeaderMap) (payload : list ascii) : Prop :=
  (exists envelope, normalized_envelope row = Ok envelope /\ payload = envelope_encode envelope) /\
  header_get NATS_MESSAGE_ID_HEADER headers = Some (sn_publication_message_id row).

Lemma normalized_headers_id row request_id headers :
  normalized_headers row request_id = Ok headers ->
  header_get NATS_MESSAGE_ID_HEADER headers = Some (sn_publication_message_id row).
Proof.
  unfold normalized_headers. intros (mode & _ & (value & _ & [= <-])%bind_ok_iff)%bind_ok_iff.
  destruct (request_id ≫= non_empty); reflexivity.
Qed.

Section Cell.
Context (cell : nat -> option StoredNormalization).

Definition from_cell (e : Effect) : Prop :=
  match e with
  | Published subject headers payload _ =>
      subject = NORMALIZED_CREATED_SUBJECT -> exists t row, cell t = Some row /\ publishes_row row headers payload
  | _ => True
  end.

Lemma only_http (P : Effect -> Prop) request err : P (Requested request) -> only P (send_http request err).
Proof.
  intros HP w r w'. unfold send_http. destruct (http_reply (nw_step w) request) as [reply|[error [|]]]; intros [= <- <-];
    [by eexists; split; [reflexivity|repeat constructor]..|]. exists []. rewrite app_nil_r. split; [done|constructor].
Qed.

Lemma only_exchange (P : Effect -> Prop) request : P (Requested request) -> only P (exchange request).
Proof.
  intros HP. unfold exchange. apply only_bind; [by apply only_http|intros reply].
  do 2 (apply only_bind; [apply only_lift|intros ?]). apply only_ret.
Qed.

Lemma only_clock (P : Effect -> Prop) : only P SystemClock.
Proof.
  unfold SystemClock. apply only_bind; [apply only_step|intros t]. destruct (t <? 0)%Z; [apply only_lift|].
  repeat (apply only_bind; [apply only_lift|intros ?]). first [apply only_ret|apply only_lift].
Qed.

Lemma only_plan (P : Effect -> Prop) core persisted parsed :
  core_built core -> only P (build_normalization_plan core persisted parsed).
Proof.
  intros Hb. unfold build_normalization_plan. rewrite (built_clock _ Hb), (built_ids _ Hb).
  do 2 (apply only_bind; [apply only_lift|intros ?]). apply only_bind; [apply only_clock|intros ?].
  repeat (apply only_bind; [first [apply only_lift|apply only_step]|intros ?]). apply only_ret.
Qed.

Lemma only_normalize (P : Effect -> Prop) core incoming persisted raw :
  core_built core -> only P (normalize core incoming persisted raw).
Proof.
  intros Hb. unfold normalize. destruct (built_metrics _ Hb) as [Hp Hn _].
  do 2 (apply only_bind; [apply only_lift|intros ?]). apply only_bind.
  - destruct (registry_parse _ _); [| |apply only_lift];
      (apply only_bind; [apply only_step|intros ?]; apply only_bind; [by apply only_records|intros ?]);
      [apply only_ret|apply only_lift].
  - intros parsed. apply only_bind; [by apply only_result, only_plan|intros r].
    apply only_bind; [apply only_step|intros ?]. apply only_bind; [|intros; apply only_lift].
    destruct r; by apply only_records.
Qed.

(** A continuation that relies on what the first part returned *)
Lemma only_bind_ok {A B} (P : Effect -> Prop) (R : A -> Prop) (m : norm A) (k : A -> norm B) :
  only P m -> (forall w a w', m w = (Ok a, w') -> R a) -> (forall a, R a -> only P (k a)) -> only P (io_bind m k).
Proof.
  intros Hm HR Hk. eapply (emits_bind m k (fun r es => Forall P es /\ forall a, r = Ok a -> R a)); [| |by intros ? ? []..].
  - intros w r w' Hrun. destruct (Hm _ _ _ Hrun) as (es & ? & ?). exists es. split_and!; [done..|].
    intros a ->. by eapply HR.
  - intros a es1 [Hes1 HRa]. eapply emits_mono; [apply Hk, HRa, eq_refl|]. intros r es2 Hes2. by apply Forall_app.
Qed.

Lemma only_lift_bind {A B} (P : Effect -> Prop) (r : result A NormalizerError) (k : A -> norm B) :
  (forall a, r = Ok a -> only P (k a)) -> only P (io_bind (io_lift r) k).
Proof. apply only_bind_ok; [apply only_lift|]. by intros w a w' [-> _]%io_lift_ok_iff. Qed.

(** *** Reads *)

Lemma only_find store key : only from_cell (find_by_logical_key store key).
Proof.
  unfold find_by_logical_key. apply only_bind; [apply only_lift|intros _].
  apply only_bind; [by apply only_exchange|intros body]. destruct (is_empty (trim body)); [apply only_ret|].
  apply only_bind; [apply only_lift|intros row; apply only_ret].
Qed.

Lemma found_row store key w row w' :
  reads_from store key cell -> find_by_logical_key store key w = (Ok (Some row), w') -> exists t, cell t = Some row.
Proof.
  intros Hreads Hrun. unfold find_by_logical_key, exchange in Hrun.
  apply io_bind_ok_iff in Hrun as ([] & w0 & [_ ->]%io_lift_ok_iff & Hrun).
  apply io_bind_ok_iff in Hrun as (body & w1 & Hx & Hrun).
  apply io_bind_ok_iff in Hx as (reply & w2 & Hsend & Hx).
  apply io_bind_ok_iff in Hx as (body' & w3 & [Hb%map_err_ok_iff ->]%io_lift_ok_iff & Hx).
  apply io_bind_ok_iff in Hx as ([] & w4 & [Hstatus%reject_if_ok_iff ->]%io_lift_ok_iff & [= -> ->]).
  unfold send_http in Hsend. destruct (http_reply (nw_step w) _) as [reply'|[error [|]]] eqn:Hreply; simplify_eq.
  destruct (is_empty (trim body)) eqn:He; [done|].
  apply io_bind_ok_iff in Hrun as (row' & w5 & [Hrow%map_err_ok_iff ->]%io_lift_ok_iff & [= -> _]).
  apply (Hreads _ _ _ _ Hreply Hb); [by destruct (in_range _ _ _)|done|done].
Qed.

Lemma only_insert store row : only from_cell (insert_and_read_back store row).
Proof.
  unfold insert_and_read_back. do 2 (apply only_bind; [apply only_lift|intros ?]).
  apply only_bind; [by apply only_exchange|intros _]. apply only_bind; [apply only_find|intros found]. apply only_lift.
Qed.

Lemma inserted_row store row w stored w' :
  reads_from store (sn_logical_key row) cell -> insert_and_read_back store row w = (Ok stored, w') ->
  exists t, cell t = Some stored.
Proof.
  intros Hreads Hrun. unfold insert_and_read_back in Hrun.
  apply io_bind_ok_iff in Hrun as ([] & w0 & _ & Hrun). apply io_bind_ok_iff in Hrun as (body & w1 & _ & Hrun).
  apply io_bind_ok_iff in Hrun as (answer & w2 & _ & Hrun). apply io_bind_ok_iff in Hrun as (found & w3 & Hfind & Hrun).
  apply io_lift_ok_iff in Hrun as [Hfound%ok_or_ok_iff _]. subst found. by eapply found_row.
Qed.

(** *** Publications *)

Lemma only_publish_normalized row request_id t :
  cell t = Some row -> only from_cell (publish_normalized row request_id).
Proof.
  intros Hcell. unfold publish_normalized. apply only_lift_bind. intros envelope Henv.
  apply only_lift_bind. intros headers Hheaders. apply only_bind; [|intros ack; apply only_lift].
  apply only_publish. intros ack _. exists t, row. split; [done|]. split; [by eexists|].
  by eapply normalized_headers_id.
Qed.

Lemma only_process_message processor incoming :
  core_built (rt_core processor) ->
  reads_from (rt_store processor) (key_of (rt_core processor) (inc_persisted incoming)) cell ->
  only from_cell (process_message processor incoming).
Proof.
  intros Hb Hreads. unfold process_message. apply only_bind; [apply only_step|intros raw].
  destruct (derivation_identity _ _ _) as [identity|e|p] eqn:Hid; [| |apply only_lift].
  - apply (derivation_key _ _ _ _ Hb) in Hid. replace (key_of _ _) with (di_logical_key identity) in Hreads by (by subst).
    clear Hid. eapply only_bind_ok; [apply only_find| |].
    { intros w found w' Hrun. instantiate (1 := fun found => forall row, found = Some row -> exists t, cell t = Some row).
      intros row ->. by eapply found_row. }
    intros [existing|] Hfound.
    + destruct (Hfound existing eq_refl) as [t Ht]. apply only_bind; [apply only_lift|intros _].
      by eapply only_publish_normalized.
    + apply only_bind; [by apply only_normalize|intros plan].
      apply only_lift_bind. intros [] Hkey%reject_if_ok_iff.
      apply only_bind; [apply only_lift|intros ingest]. apply only_bind; [apply only_step|intros id].
      apply only_lift_bind. intros candidate Hcand.
      eapply (only_bind_ok _ (fun stored => exists t, cell t = Some stored)); [apply only_insert| |].
      * intros w stored w' Hrun. eapply inserted_row; [|exact Hrun].
        assert (sn_logical_key candidate = np_logical_key plan) as ->.
        { by apply from_plan_ok in Hcand as (? & ? & _ & _ & ->). }
        by apply negb_false_iff, String.eqb_eq in Hkey as ->.
      * intros stored [t Ht]. apply only_bind; [apply only_lift|intros _]. by eapply only_publish_normalized.
  - apply only_bind; [by apply only_normalize|intros plan]. apply only_lift.
Qed.

(** *** Deliveries *)

Lemma only_mono {A} (P Q : Effect -> Prop) (m : norm A) : (forall e, P e -> Q e) -> only P m -> only Q m.
Proof. intros HPQ Hm. eapply emits_mono; [exact Hm|]. intros r es Hes. eapply Forall_impl; [exact Hes|exact HPQ]. Qed.

Lemma only_load (P : Effect -> Prop) c k : only P (load c k).
Proof.
  unfold load. apply only_bind; [apply only_lift|intros _]. apply only_bind; [by apply only_query|].
  intros [row|]; [apply only_bind; [apply only_lift|intros ?]; apply only_ret|apply only_ret].
Qed.

Lemma only_record (P : Effect -> Prop) f :
  P (RetryStored (rf_consumer_name f) (rf_message_key f)) -> only P (record_failure f).
Proof.
  intros HP. unfold record_failure. apply only_bind; [apply only_lift|intros _].
  apply only_bind; [apply only_query; by intros [row|] e [= <-]|intros [row|]; [apply only_lift|]].
  apply only_bind; [apply only_load|intros [s|]; [destruct (isolation_required s)|]; apply only_lift].
Qed.

Lemma isolation_from_cell processor message deliveries key state :
  processor_ok processor -> only from_cell (handle_isolation processor message deliveries key state).
Proof.
  intros Hp. eapply only_mono; [|by apply only_isolation]. intros [] He; simpl in *; try done. by subst.
Qed.

Lemma failure_from_cell processor message deliveries key c id error :
  processor_ok processor -> only from_cell (handle_processing_failure processor message deliveries key c id error).
Proof.
  intros Hp. unfold handle_processing_failure. apply only_bind; [apply only_lift|intros delay].
  apply only_bind; [apply only_step|intros t]. apply only_bind; [apply only_lift|intros next].
  apply only_bind; [by apply only_record|intros state].
  destruct (isolation_required state); simpl; [by apply isolation_from_cell|by apply only_settle].
Qed.

Lemma only_handle_message processor message :
  processor_ok processor ->
  (forall incoming, decode_raw_persisted message = Ok incoming ->
     reads_from (rt_store processor) (key_of (rt_core processor) (inc_persisted incoming)) cell) ->
  only from_cell (handle_message processor message).
Proof.
  intros Hp Hreads. unfold handle_message. apply only_bind; [apply only_lift|intros c].
  apply only_bind; [apply only_load|intros loaded]. destruct (loaded ≫= _); [by apply isolation_from_cell|].
  destruct (decode_raw_persisted message) as [incoming|e|p]; [|by apply failure_from_cell|apply only_lift].
  apply only_bind; [apply only_lift|intros id]. apply only_bind.
  - apply only_result, only_process_message; [apply Hp|by apply Hreads].
  - intros [[]|e|p]; [|by apply failure_from_cell|apply only_lift].
    apply only_bind; [|intros _; by apply only_settle]. unfold clear. apply only_bind; [apply only_lift|intros _].
    apply only_query. by intros a e [= <-].
Qed.
End Cell.

(** One delivery of a raw event: a worker, the message it was handed, the effects of
    handling it, whatever the result *)
Record delivers (processor : RuntimeProcessor) (incoming : IncomingRawPersisted)
    (cell : nat -> option StoredNormalization) (es : list Effect) : Prop := {
  delivers_ok : processor_ok processor;
  delivers_reads : reads_from (rt_store processor) (key_of (rt_core processor) (inc_persisted incoming)) cell;
  delivers_run : exists message w r w', decode_raw_persisted message = Ok incoming /\
    handle_message processor message w = (r, w') /\ nw_effects w' = nw_effects w ++ es;
}.

Lemma delivers_from_cell processor incoming cell es headers payload ack :
  delivers processor incoming cell es -> Published NORMALIZED_CREATED_SUBJECT headers payload ack ∈ es ->
  exists t row, cell t = Some row /\ publishes_row row headers payload.
Proof.
  intros [Hp Hreads (message & w & r & w' & Hdec & Hrun & Hes)] Hin.
  assert (only (from_cell cell) (handle_message processor message)) as Honly.
  { apply only_handle_message; [done|]. intros i Hi. rewrite Hdec in Hi. by injection Hi as <-. }
  destruct (Honly _ _ _ Hrun) as (es' & Hes' & Hall). rewrite Hes in Hes'. apply app_inv_head in Hes' as <-.
  rewrite Forall_forall in Hall. by apply (Hall _ Hin).
Qed.
End Publishing.

(** C14: Redeliveries converge, whoever handles them: take any two deliveries of one raw
    event, by workers with the same derivation settings and with clocks, identifiers,
    failures and interleavings of their own, reading a table that keeps the first row of a
    logical key.  Every normalized event the one publishes has the same payload, byte for
    byte, and the same [Nats-Msg-Id] as every normalized event the other publishes, so
    JetStream stores one message and a consumer never sees two identities for one
    derivation. *)
Theorem redeliveries_publish_alike `{Sha256} `{JsonCodec} `{FormatCodec} `{DebugStr} `{TimeCrate}
    `{!RetryCodec} `{ProstCodec} `{RowCodec} `{DeadLetterCodec} `{RawFiles}
    (here there : Outside) processor1 processor2 incoming1 incoming2 cell es1 es2 :
  timeline cell -> same_derivation (rt_core processor1) (rt_core processor2) ->
  inc_persisted incoming1 = inc_persisted incoming2 ->
  delivers (outside := here) processor1 incoming1 cell es1 ->
  delivers (outside := there) processor2 incoming2 cell es2 ->
  key_of (rt_core processor1) (inc_persisted incoming1) = key_of (rt_core processor2) (inc_persisted incoming2) /\
  forall headers1 payload1 ack1 headers2 payload2 ack2,
    Published NORMALIZED_CREATED_SUBJECT headers1 payload1 ack1 ∈ es1 ->
    Published NORMALIZED_CREATED_SUBJECT headers2 payload2 ack2 ∈ es2 ->
    payload1 = payload2 /\
    exists id, header_get NATS_MESSAGE_ID_HEADER headers1 = Some id /\ header_get NATS_MESSAGE_ID_HEADER headers2 = Some id.
Proof.
  intros Hcell Hsame Hraw Hd1 Hd2. split; [rewrite Hraw; by apply same_key|].
  intros headers1 payload1 ack1 headers2 payload2 ack2 Hin1 Hin2.
  destruct (delivers_from_cell _ _ _ _ _ _ _ Hd1 Hin1) as (t1 & row1 & Ht1 & (env1 & He1 & ->) & Hid1).
  destruct (delivers_from_cell _ _ _ _ _ _ _ Hd2 Hin2) as (t2 & row2 & Ht2 & (env2 & He2 & ->) & Hid2).
  destruct (cell_stable _ _ _ _ _ Hcell Ht1 Ht2). split; [congruence|]. eauto.
Qed.

(** ** Two workers at once *)

(** The clock is part of what is hashed *)
Definition object_get (name : string) (v : Json) : option Json :=
  match v with JObject object => bt_get name object | _ => None end.
Definition processed_time (v : Json) : option Json := object_get "metadata" v ≫= object_get "processed_time".

Section Race.
Context `{Sha256} `{JsonCodec} `{FormatCodec} `{DebugStr} `{TimeCrate}.

(** The milliseconds at which a plan was made *)
Definition made_at (plan : NormalizationPlan) (millis : Z) : Prop :=
  exists t, ne_normalized_at (np_normalized_event plan) = Some t /\ core_unix_millis t = Ok millis.

(** The hash tells the documents of two plans apart, unless they are the same. *)
Definition hash_distinguishes (plan1 plan2 : NormalizationPlan) : Prop :=
  forall v1 v2, np_canonical_ocsf_json plan1 = canonical_json_bytes v1 -> np_canonical_ocsf_json plan2 = canonical_json_bytes v2 ->
    ne_normalized_hash (np_normalized_event plan1) = ne_normalized_hash (np_normalized_event plan2) ->
    canonicalize v1 = canonicalize v2.

Lemma ssh_processed message ip user port invalid time ingest processed source :
  processed_time (canonicalize (ssh_ocsf_event message ip user port invalid time (ssh_metadata ingest processed source)))
  = Some (json_int processed).
Proof. reflexivity. Qed.

Lemma ssh_map_processed parsed persisted event_time millis mapped :
  etc_assumption event_time = None -> ssh_map parsed persisted event_time millis = Ok mapped ->
  processed_time (canonicalize (mo_ocsf_event mapped)) = Some (json_int millis).
Proof.
  intros Ha. unfold ssh_map. intros Hrun. apply bind_unit_ok_iff in Hrun as [_ Hrun].
  do 5 apply bind_ok_iff in Hrun as (? & _ & Hrun). apply bind_ok_iff in Hrun as ([[? ?] ?] & _ & Hrun).
  do 2 apply bind_ok_iff in Hrun as (? & _ & Hrun). rewrite Ha in Hrun. injection Hrun as <-. apply ssh_processed.
Qed.

Lemma plan_processed `{Outside} core incoming persisted raw w plan w' millis :
  core_built core -> normalize core incoming persisted raw w = (Ok plan, w') -> made_at plan millis ->
  exists v, np_canonical_ocsf_json plan = canonical_json_bytes v /\
    processed_time (canonicalize v) = Some (json_int millis).
Proof.
  intros Hb (_ & _ & parsed & w1 & w2 & _ & Hplan)%normalize_ok (t & Ht & Hm).
  unfold build_normalization_plan in Hplan. io_inv Hplan.
  match goal with Hf : map_err from_mapping (for_parser _ _) = Ok _ |- _ =>
    apply map_err_ok_iff, (for_parser_built _ _ _ Hb) in Hf as [Hid ->] end.
  match goal with Hs : map_err from_source_time _ = Ok _ |- _ =>
    apply map_err_ok_iff, (resolve_sshd _ _ _ _ Hid) in Hs as [Htime Hassume] end.
  match goal with Hp : map_err from_mapping (mapping_map _ _ _ _ _) = Ok _ |- _ =>
    apply map_err_ok_iff, (ssh_map_processed _ _ _ _ _ Hassume) in Hp as Hdoc end.
  simpl in *. simplify_eq. eexists. split; [done|]. congruence.
Qed.

(** A worker made this plan for the raw event, and this row for the plan. *)
Record row_of {outside : Outside} (core : NormalizerCore) (incoming : CerberoEnvelope) (persisted : RawEventPersisted)
    (plan : NormalizationPlan) (row : StoredNormalization) : Prop := {
  row_of_core : core_built core;
  row_of_plan : exists raw w w', normalize core incoming persisted raw w = (Ok plan, w');
  row_of_row : exists event_time ingest id version instance,
    from_plan plan event_time ingest incoming id version instance = Ok row;
}.
End Race.

Section Racing.
Context `{Sha256} `{JsonCodec} `{FormatCodec} `{DebugStr} `{TimeCrate} {outside : Outside}.
Context `{!RetryCodec} `{ProstCodec} `{RowCodec} `{DeadLetterCodec} `{RawFiles} `{!RetryCodecLaws} `{!UuidParseLaws}.

(** A delivery that finds no row, makes a plan, and reads [stored] back after its insert *)
Definition stores_into (processor : RuntimeProcessor) (incoming : IncomingRawPersisted) (w : NormalizerWorld)
    (plan : NormalizationPlan) (stored : StoredNormalization) (w' : NormalizerWorld) : Prop :=
  let persisted := inc_persisted incoming in
  exists raw w1 w2 w3 ingest candidate,
    read_raw (rt_raw_reader processor) persisted w = (Ok raw, w1) /\
    find_by_logical_key (rt_store processor) (key_of (rt_core processor) persisted) w1 = (Ok None, w2) /\
    normalize (rt_core processor) (inc_envelope incoming) persisted raw w2 = (Ok plan, w3) /\
    rp_ingest_time persisted = Some ingest /\
    from_plan plan (np_resolved_event_time plan) ingest (inc_envelope incoming) (now_v7_text (nw_step w3))
      (cfg_component_version (rt_config processor)) (cfg_instance_id (rt_config processor)) = Ok candidate /\
    insert_and_read_back (rt_store processor) candidate (step_world w3) = (Ok stored, w').

Lemma conflicting_hash stored plan :
  sn_normalized_hash stored <> ne_normalized_hash (np_normalized_event plan) ->
  (exists identity, plan_identity plan = Ok identity) ->
  exists m, validate_existing_plan stored plan = Err (idempotency_conflict m) /\ contains_char zero m = false.
Proof.
  intros Hne [identity Hi]. unfold validate_existing_plan. rewrite Hi. cbn [bind].
  unfold validate_existing_identity. destruct (_ && _); cbn [bind]; [|by eexists].
  apply String.eqb_neq in Hne. rewrite Hne, andb_false_r. by eexists.
Qed.

Lemma conflicting_delivery processor incoming w plan stored w' :
  core_built (rt_core processor) -> stores_into processor incoming w plan stored w' ->
  sn_normalized_hash stored <> ne_normalized_hash (np_normalized_event plan) ->
  exists m, process_message processor incoming w = (Err (idempotency_conflict m), w') /\ contains_char zero m = false.
Proof.
  intros Hb (raw & w1 & w2 & w3 & ingest & candidate & Hread & Hfind & Hnorm & Hingest & Hcand & Hins) Hne.
  pose proof Hnorm as (_ & Hraw & parsed & w4 & w5 & Hparse & Hplan)%normalize_ok.
  apply (plan_built _ _ _ _ _ _ Hb) in Hplan.
  destruct (plan_of_preflight _ _ _ _ _ Hb Hraw Hparse Hplan) as [Hid Hkey].
  pose proof (derivation_key _ _ _ _ Hb Hid) as Hsshd.
  destruct (conflicting_hash stored plan Hne) as (m & Hconf & Hm); [eexists; apply Hplan|].
  exists m. split; [|done]. unfold process_message. erewrite io_bind_run by exact Hread. rewrite Hid. rewrite Hsshd in *.
  erewrite io_bind_run by exact Hfind. cbn beta iota. erewrite io_bind_run by exact Hnorm.
  rewrite Hkey, String.eqb_refl. erewrite io_bind_run by reflexivity. rewrite Hingest.
  erewrite io_bind_run by reflexivity. erewrite io_bind_run by reflexivity.
  rewrite Hcand. erewrite io_bind_run by reflexivity. erewrite io_bind_run by exact Hins.
  rewrite Hconf. reflexivity.
Qed.

(** A failure that is not worth a retry ends the delivery at once. *)
Lemma permanent_failure_terminates processor message incoming c error w w1 :
  processor_ok processor -> healthy processor -> consumer_of processor c -> message_typed message ->
  readable processor message -> in_range 1 u32_max (cfg_retry_budget (rt_config processor)) = true ->
  store_ok (nw_retries w) -> active (lifecycle (nw_retries w) c (delivery_identity message)) ->
  decode_raw_persisted message = Ok incoming -> process_message processor incoming (step_world w) = (Err error, w1) ->
  storable error -> nz_retryable error = false ->
  exists w', handle_message processor message w = (Ok tt, w') /\
    settled_as message Term c (delivery_identity message) None w w'.
Proof.
  intros Hp Hh Hc Ht Hread Hb Hw Ha Hdec Hrun Hst Hperm.
  rewrite (active_attempt _ _ c w (healthy_retries _ Hh)) by done. unfold attempt. rewrite Hdec.
  destruct (uuid_parse_v7 _ (decoded_message_id _ _ Hdec)) as (u & Hu & Hnil & Huty).
  unfold parse_message_id. rewrite Hu. erewrite io_bind_run by reflexivity.
  erewrite io_bind_run by (by apply io_result_iff).
  pose proof (calm_process_message _ _ (processor_core _ Hp) _ _ _ Hrun) as Hcalm.
  assert (calmly w w1) as Hcalm1 by (etrans; [apply calmly_step|exact Hcalm]).
  assert (nw_retries w1 = nw_retries w) as Hret by apply Hcalm1.
  destruct (failure_settles processor message (delivery_count message) (delivery_identity message) c (Some u) error w1)
    as (s & w' & Hfail & _ & Hretry & Hs); [done..| | |by rewrite Hret|].
  - by rewrite Hret.
  - split; [by apply (message_key_plain processor)|apply delivery_count_positive|done|split; [congruence|by intros ? [= <-]]|done].
  - exists w'. split; [exact Hfail|]. apply (settled_as_start _ _ _ _ _ w w1); [done|].
    unfold isolation_required in Hs. rewrite Hretry, Hperm, orb_true_r in Hs. exact Hs.
Qed.
End Racing.

(** C34: Two workers that normalize one raw event at the same time do not converge: when
    both miss the first lookup, the one that inserts second reads back the row of the
    first, and since the normalized hash covers [metadata.processed_time], the clock of the
    worker, the row conflicts with its own plan.  The error is permanent: the message is
    terminated with a dead letter on that delivery, although its normalized event is
    stored. *)
Theorem racing_worker_dead_letters `{Sha256} `{JsonCodec} `{FormatCodec} `{DebugStr} `{TimeCrate}
    `{!RetryCodec} `{ProstCodec} `{RowCodec} `{DeadLetterCodec} `{RawFiles} `{!RetryCodecLaws} `{!UuidParseLaws}
    (there here : Outside) processor message incoming c w plan w1 core' incoming' plan' row' millis millis' :
  processor_ok processor -> healthy processor -> consumer_of processor c -> message_typed message ->
  readable processor message -> in_range 1 u32_max (cfg_retry_budget (rt_config processor)) = true ->
  store_ok (nw_retries w) -> lifecycle (nw_retries w) c (delivery_identity message) = None ->
  decode_raw_persisted message = Ok incoming ->
  row_of (outside := there) core' incoming' (inc_persisted incoming) plan' row' ->
  stores_into (outside := here) processor incoming (step_world w) plan (read_back row') w1 ->
  made_at plan' millis' -> made_at plan millis -> millis' <> millis -> hash_distinguishes plan' plan ->
  exists w', handle_message processor message w = (Ok tt, w') /\
    settled_as message Term c (delivery_identity message) None w w' /\
    exists es, nw_effects w' = nw_effects w ++ es /\ dead_lettered message es.
Proof.
  intros Hp Hh Hc Ht Hread Hb Hw Hl Hdec [Hcore' (raw' & w2 & w3 & Hn') (time' & ingest' & id' & version' & instance' & Hrow')]
    Hstores Hm' Hm Hne Hhash. pose proof (processor_core _ Hp) as Hcore.
  assert (sn_normalized_hash (read_back row') <> ne_normalized_hash (np_normalized_event plan)) as Hconf.
  { pose proof Hstores as (raw & w4 & w5 & w6 & ingest & candidate & _ & _ & Hn & _).
    destruct (plan_processed _ _ _ _ _ _ _ _ Hcore' Hn' Hm') as (v' & Hv' & Hp').
    destruct (plan_processed _ _ _ _ _ _ _ _ Hcore Hn Hm) as (v & Hv & Hpt).
    apply from_plan_ok in Hrow' as (t & json & _ & _ & ->). simpl. intros Heq.
    rewrite (Hhash _ _ Hv' Hv Heq), Hpt in Hp'. injection Hp' as Heq'. by apply (inj pretty) in Heq'. }
  destruct (conflicting_delivery _ _ _ _ _ _ Hcore Hstores Hconf) as (m & Hrun & Hz).
  destruct (permanent_failure_terminates processor message incoming c (idempotency_conflict m) w w1)
    as (w' & Hhandle & Hs); [done..| |done|done| |done|].
  - by rewrite Hl.
  - by split_and!.
  - exists w'. split; [done|]. split; [done|]. by eapply terminated_dead_lettered.
Qed.
