(* ===== verification/DeadLetterSpec.v ===== *)
(** * Identities of dead letters

    The deduplication identity under which a dead letter is published. *)

From S2P Require Import Prelude RustStd RustText ContractTypes Validation Effects CanonicalJson Parser ParserFormats SourceTime Mapping RetryState Metrics NormalizerWorld NormalizerCore RuntimeConfig EventBus ClickHouse DeadLetter.

Section Identity.
Context `{Sha256} `{ProstCodec} `{Outside}.

(** The same stored message, delivered again *)
Definition redelivered (m m' : Message) : Prop :=
  msg_subject m' = msg_subject m /\ msg_headers m' = msg_headers m /\ msg_payload m' = msg_payload m /\
  mi_stream_sequence <$> msg_info m' = mi_stream_sequence <$> msg_info m.

Record same_dead_letter (r r' : NormalizationDeadLetter) : Prop := {
  same_message_id : dl_original_message_id r' = dl_original_message_id r;
  same_subject : dl_original_subject r' = dl_original_subject r;
  same_payload : dl_original_payload_sha256 r' = dl_original_payload_sha256 r;
  same_sequence : dl_stream_sequence r' = dl_stream_sequence r;
  same_root : dl_replay_root_dlq_record_id r' = dl_replay_root_dlq_record_id r;
  same_attempt : dl_replay_attempt r' = dl_replay_attempt r;
}.

Lemma from_message_redelivered m m' c c' f f' i i' w w' r r' w1 w1' :
  redelivered m m' -> from_message m c f i w = (Ok r, w1) -> from_message m' c' f' i' w' = (Ok r', w1') ->
  same_dead_letter r r'.
Proof.
  intros (Hs & Hh & Hp & Hi). unfold from_message, message_header. rewrite Hs, Hh, Hp, Hi. intros Hr Hr'.
  apply io_bind_ok_iff in Hr as (e & ? & [He _]%io_lift_ok_iff & Hr).
  apply io_bind_ok_iff in Hr' as (e' & ? & [He' _]%io_lift_ok_iff & Hr').
  rewrite He in He'. injection He' as <-.
  apply io_bind_ok_iff in Hr as (? & ? & _ & Hr). apply io_bind_ok_iff in Hr' as (? & ? & _ & Hr').
  destruct (dlq_source_identity _ _ _ _ _) as [subject sequence].
  apply io_bind_ok_iff in Hr as (? & ? & _ & [-> _]%io_ret_ok_iff).
  apply io_bind_ok_iff in Hr' as (? & ? & _ & [-> _]%io_ret_ok_iff). done.
Qed.

Lemma from_message_digest m c f i w r w' :
  from_message m c f i w = (Ok r, w') -> dl_original_payload_sha256 r = sha256_lower_hex (msg_payload m).
Proof.
  unfold from_message. intros Hr. apply io_bind_ok_iff in Hr as (? & ? & _ & Hr).
  apply io_bind_ok_iff in Hr as (? & ? & _ & Hr). destruct (dlq_source_identity _ _ _ _ _).
  by apply io_bind_ok_iff in Hr as (? & ? & _ & [-> _]%io_ret_ok_iff).
Qed.

Lemma suffix_inj (a b x y : string) : str_len x = str_len y -> a +:+ x = b +:+ y -> a = b /\ x = y.
Proof.
  intros Hl Heq. apply (f_equal str_bytes) in Heq. rewrite !str_bytes_app in Heq.
  apply app_inj_2 in Heq as [Ha Hx]; [|done]. by apply str_bytes_inj in Ha, Hx.
Qed.

Lemma prefix_inj (p a b : string) : p +:+ a = p +:+ b -> a = b.
Proof.
  intros Heq. apply (f_equal str_bytes) in Heq. rewrite !str_bytes_app in Heq. by apply app_inv_head, str_bytes_inj in Heq.
Qed.

(** Dead letters are deduplicated by content: two deliveries of one stored
    message publish under the same identity, whatever failed, on whichever
    attempt, so a repeated publication is recognized by the stream; and two
    messages with an identity of their own that are no replays publish under the
    same identity only when both their message identity and the digest of their
    payload agree, so a reused message identity never hides another payload. *)
Theorem dead_letter_identity m m' c c' f f' i i' w w' r r' w1 w1' :
  from_message m c f i w = (Ok r, w1) -> from_message m' c' f' i' w' = (Ok r', w1') ->
  (redelivered m m' -> nats_message_id r' = nats_message_id r) /\
  (forall id id', dl_original_message_id r = Some id -> dl_original_message_id r' = Some id' ->
     dl_replay_root_dlq_record_id r = None -> dl_replay_root_dlq_record_id r' = None ->
     nats_message_id r' = nats_message_id r ->
     id' = id /\ sha256_lower_hex (msg_payload m') = sha256_lower_hex (msg_payload m)).
Proof.
  intros Hr Hr'. split.
  - intros Hre. destruct (from_message_redelivered _ _ _ _ _ _ _ _ _ _ _ _ _ _ Hre Hr Hr') as [H1' H2' H3' H4' H5' H6'].
    unfold nats_message_id. by rewrite H1', H3', H4', H5', H6'.
  - intros id id' Hid Hid' Hn Hn'. unfold nats_message_id. rewrite Hn, Hn', Hid, Hid'.
    rewrite (from_message_digest _ _ _ _ _ _ _ Hr), (from_message_digest _ _ _ _ _ _ _ Hr').
    destruct (sha256_lower_hex_digest (msg_payload m)) as [Hl _], (sha256_lower_hex_digest (msg_payload m')) as [Hl' _].
    intros Heq. apply prefix_inj in Heq. apply suffix_inj in Heq as [-> Heq].
    + split; [done|]. by apply (prefix_inj ":") in Heq.
    + rewrite !str_len_app. by rewrite Hl, Hl'.
Qed.
End Identity.
