(* ===== verification/PipelineSpec.v ===== *)
(** * From a log line to a detection

    The normalizer and the detection rules meet in the OCSF document: what the
    normalizer makes of a rejected password is what the failed-login rules count. *)

From Stdlib Require Import SpecFloat.
From S2P Require Import Prelude RustStd RustText ContractTypes Validation SignalContract DetectionAst EventPipeline EventSignal Effects MvpRules MvpRulesSpec CanonicalJson CanonicalJsonSpec Parser ParserSpec ParserFormats SourceTime Mapping RetryState Metrics NormalizerWorld NormalizerCore RuntimeConfig RawStore EventBus ClickHouse DeadLetter Runtime NormalizerCoreSpec StoredRowSpec.

Section Pipeline.
Context `{Sha256} `{JsonCodec} `{FormatCodec} `{DebugStr} `{TimeCrate} `{Outside}.

(** A member of a document in the [Struct] of its event *)
Lemma struct_member entries s k v :
  NoDup (entries.*1) -> (k, v) ∈ entries -> NormalizerCore.json_to_prost_struct (json_object entries) = Ok s ->
  exists x, NormalizerCore.json_to_prost_value v = Ok x /\ bt_get k (struct_fields s) = Some x.
Proof.
  intros Hnd Hin Hs. unfold json_object in Hs. cbn [NormalizerCore.json_to_prost_struct] in Hs.
  apply bind_ok_iff in Hs as (fs & Hfs%json_object_ok_iff & [= <-]).
  rewrite <-collect_map_elem in Hin by done. apply list_elem_of_lookup_1 in Hin as [i Hi].
  destruct (Forall2_lookup_l _ _ _ _ _ Hfs Hi) as ([k' x] & Hx & Hk & Hv). simpl in Hk, Hv. subst k'.
  exists x. split; [done|]. cbn [struct_fields]. apply bt_get_lookup; [apply collect_map_sorted|].
  apply collect_map_elem; [|by eapply list_elem_of_lookup_2].
  assert (fs.*1 = (collect_map entries).*1) as ->.
  { clear -Hfs. induction Hfs as [|[? ?] [? ?] l l' [Hk _] _ IH]; [done|]. rewrite !fmap_cons. by f_equal. }
  apply bt_sorted_NoDup_keys, collect_map_sorted.
Qed.

Lemma struct_value entries x :
  NormalizerCore.json_to_prost_value (json_object entries) = Ok x ->
  exists s, x = mkValue (Some (StructValue s)) /\ NormalizerCore.json_to_prost_struct (json_object entries) = Ok s.
Proof.
  unfold json_object. cbn [NormalizerCore.json_to_prost_struct NormalizerCore.json_to_prost_value].
  intros (kind & (fs & -> & [= <-])%bind_ok_iff & [= <-])%bind_ok_iff. by eexists.
Qed.

Lemma denoted_field e s path v :
  ne_ocsf_event e = Some s -> path <> "" -> denotes s (split_char "." path) v -> is_value v ->
  field_state (mkNormalizedEventFieldView e) path = Present v.
Proof.
  intros He Hp Hd Hv. unfold field_state, NormalizedEventFieldView_view, resolve_ocsf_field, as_ref, AsRefStr_string.
  simpl. rewrite He. apply not_empty_iff in Hp as ->. by apply resolve_Present.
Qed.

Lemma text_value (v : Value) t : v = mkValue (Some (StringValue t)) -> is_value v.
Proof. intros ->. by exists (StringValue t). Qed.

Local Ltac member := cbv beta; first [by apply list_elem_of_here | apply list_elem_of_further; member].

(** The fields the rules look at *)
Lemma document_fields e s message ip user port invalid millis metadata :
  ne_ocsf_event e = Some s ->
  NormalizerCore.json_to_prost_struct (ssh_ocsf_event message ip user port invalid millis metadata) = Ok s ->
  text_field e "activity_name" "Logon" /\ text_field e "status" "Failure" /\
  text_field e "user.name" user /\ text_field e "src_endpoint.ip" ip /\
  exists x, number_as_f64 (pretty millis) = Some x /\
    field_state (mkNormalizedEventFieldView e) "time" = Present (mkValue (Some (NumberValue x))).
Proof.
  intros He Hs. unfold ssh_ocsf_event in Hs.
  match type of Hs with NormalizerCore.json_to_prost_struct (json_object ?l) = _ => set (entries := l) in Hs end.
  assert (NoDup (entries.*1)) as Hnd by (apply (bool_decide_unpack (NoDup _)); vm_compute; exact I).
  assert (forall k t, k <> "" -> split_char "." k = [k] -> (k, JString t) ∈ entries -> text_field e k t) as Htext.
  { intros k t Hk Hsplit Hin. destruct (struct_member _ _ _ _ Hnd Hin Hs) as (x & [= <-] & Hget).
    eapply denoted_field; [done|done| |by eapply text_value]. rewrite Hsplit. by apply denotes_last. }
  assert (forall outer inner k t, k = outer +:+ "." +:+ inner -> split_char "." k = [outer; inner] -> outer <> "" -> inner <> "" ->
    forall l, (outer, json_object l) ∈ entries -> NoDup (l.*1) -> (inner, JString t) ∈ l -> text_field e k t) as Hnested.
  { intros outer inner k t -> Hsplit Ho Hi l Hin Hndl Hinl.
    destruct (struct_member _ _ _ _ Hnd Hin Hs) as (x & Hx & Hget).
    apply struct_value in Hx as (s' & -> & Hs'). destruct (struct_member _ _ _ _ Hndl Hinl Hs') as (y & [= <-] & Hget').
    eapply denoted_field; [done|by destruct outer| |by eapply text_value]. rewrite Hsplit.
    eapply denotes_down; [done|done|]. by apply denotes_last. }
  split_and!.
  - apply Htext; [done|reflexivity|]. unfold entries. clear. member.
  - apply Htext; [done|reflexivity|]. unfold entries. clear. member.
  - eapply (Hnested "user" "name"); [reflexivity|reflexivity|done|done| | |].
    + unfold entries. clear. member.
    + apply NoDup_singleton.
    + member.
  - eapply (Hnested "src_endpoint" "ip"); [reflexivity|reflexivity|done|done| | |].
    + unfold entries. clear. member.
    + apply (bool_decide_unpack (NoDup _)); vm_compute; exact I.
    + member.
  - assert (("time", json_int millis) ∈ entries) as Hin by (unfold entries; clear; member).
    destruct (struct_member _ _ _ _ Hnd Hin Hs) as (x & Hx & Hget). unfold json_int in Hx.
    cbn [NormalizerCore.json_to_prost_value] in Hx. destruct (number_as_f64 (pretty millis)) as [n|]; [|done].
    injection Hx as <-. exists n. split; [done|]. eapply denoted_field; [done|done| |by exists (NumberValue n)].
    by apply denotes_last.
Qed.

(** The governed sshd parser, in either version, is the only one of its name. *)
Lemma sshd_parser_built core parser :
  core_built core -> parser ∈ core_parsers core -> parser_id parser = LINUX_SSHD_PARSER_ID ->
  exists version policy, forall input, parser_parse parser input = parse_linux_sshd input version policy.
Proof.
  intros Hb Hin Hid. destruct (built_parsers _ Hb) as [version Hv]. unfold with_linux_sshd_version in Hv.
  apply bind_ok_iff in Hv as (sshd & Hsshd & [= Hps]). rewrite <-Hps in Hin.
  repeat (apply elem_of_cons in Hin as [-> | Hin]; [try done|]); [|by apply elem_of_nil in Hin].
  destruct (String.eqb version _); [|destruct (String.eqb version _); [|done]];
    injection Hsshd as <-; by do 2 eexists.
Qed.

Lemma sshd_fields parsed version username ip port invalid policy :
  pe_fields parsed = pe_fields (sshd_event version username ip port invalid policy) ->
  string_field parsed "username" = Some username /\ string_field parsed "source_ip" = Some ip.
Proof. intros Hf. unfold string_field, parsed_field. rewrite Hf. by split. Qed.

(** JSON integers that fit a float without loss are read as themselves. *)
Definition exact_integers : Prop :=
  forall t x, (Z.abs t <= MAX_SAFE_INTEGER)%Z -> number_as_f64 (pretty t) = Some x ->
    f64_accepted x /\ f64_as_i64 x = t.

(** Any event that carries the tenant and the document of the plan is a failed
    login, at the one time the raw event has. *)
Lemma event_millis_fun persisted t t' : event_millis persisted t -> event_millis persisted t' -> t = t'.
Proof. intros (x & Hx & Hm) (y & Hy & Hn). destruct Hx as [Hx|[Hx Hx']], Hy as [Hy|[Hy Hy']]; congruence. Qed.

Lemma rejected_password_document core incoming persisted raw w plan w' text prefix invalid user ip port suffix :
  exact_integers -> core_built core ->
  normalize core incoming persisted raw w = (Ok plan, w') ->
  from_utf8 raw = Ok text -> trim text = sshd_line prefix invalid user ip port suffix ->
  line_ok prefix invalid user ip port suffix ->
  ne_tenant_id (np_normalized_event plan) = rp_tenant_id persisted /\
  exists t, event_millis persisted t /\ forall e, (Z.abs t <= MAX_SAFE_INTEGER)%Z ->
    ne_tenant_id e = rp_tenant_id persisted -> ne_ocsf_event e = ne_ocsf_event (np_normalized_event plan) ->
    failed_login (rp_tenant_id persisted) user ip e t.
Proof.
  intros Hexact Hb (_ & _ & parsed & w1 & w2 & Hparse & Hplan)%normalize_ok Hutf Htrim Hok.
  pose proof (from_utf8_Utf8 _ _ Hutf) as [_ Hline%trim_Utf8].
  apply (plan_built _ _ _ _ _ _ Hb) in Hplan. destruct Hplan as [Hid _ _ _ _ Htenant (v & s & Hdoc & _ & Hs & He) _].
  apply registry_parse_selected in Hparse as (sel & Hsel & Hpid & _ & _ & out & Hout & Hfields).
  apply select_elem in Hsel. destruct (sshd_parser_built core (ps_parser sel)) as (version & policy & Hp);
    [done|done|congruence|].
  rewrite Hp in Hout. unfold parse_linux_sshd in Hout. apply bind_unit_ok_iff in Hout as [_ Hout].
  cbn [in_raw] in Hout. rewrite Hutf in Hout. cbn [map_err bind] in Hout. rewrite Htrim in Hout, Hline.
  rewrite parse_sshd_line in Hout by done. injection Hout as <-. apply sshd_fields in Hfields as [Huser Hip].
  destruct Hdoc as (message & ip' & user' & port' & inv' & t & i & p & src & -> & Hu' & Hi' & Ht).
  rewrite Huser in Hu'. rewrite Hip in Hi'. injection Hu' as <-. injection Hi' as <-.
  split; [done|]. exists t. split; [done|]. intros e Hbound Hte Hee. rewrite He in Hee.
  destruct (document_fields _ _ _ _ _ _ _ _ _ Hee Hs) as (Ha & Hst & Hname & Haddr & x & Hx & Htime).
  destruct (Hexact t x Hbound Hx) as [Hacc Hval].
  unfold failed_login. split_and!; [done..|]. apply event_integer_field_number. by exists x.
Qed.

(** The normalizer and the detection rules agree on a rejected password.
    When the core normalizes a line sshd wrote for a rejected password, the
    normalized event is a failed login, in the sense of the burst and
    success-after-failures rules, of exactly the tenant of the raw event and the
    user and address in the line, at the event time of the raw event (its
    arrival when it has none), as long as that time is an integer the JSON
    number carries without loss. *)
Theorem rejected_password_is_failed_login core incoming persisted raw w plan w'
    text prefix invalid user ip port suffix :
  exact_integers -> core_built core ->
  normalize core incoming persisted raw w = (Ok plan, w') ->
  from_utf8 raw = Ok text -> trim text = sshd_line prefix invalid user ip port suffix ->
  line_ok prefix invalid user ip port suffix ->
  exists t, event_millis persisted t /\
    ((Z.abs t <= MAX_SAFE_INTEGER)%Z -> failed_login (rp_tenant_id persisted) user ip (np_normalized_event plan) t).
Proof.
  intros Hexact Hb Hn Hutf Htrim Hok.
  destruct (rejected_password_document _ _ _ _ _ _ _ _ _ _ _ _ _ _ Hexact Hb Hn Hutf Htrim Hok) as (Ht & t & Hm & Hf).
  exists t. split; [done|]. intros Hbound. by apply Hf.
Qed.
End Pipeline.
