(* ===== verification/NormalizerMain.v ===== *)
(** * The normalizer's process

    crates/cerbero-normalizer/src/main.rs: the configuration, the shutdown signal,
    the run, and how the process ends. *)

From S2P Require Import Prelude RustStd RustText ContractTypes Validation Effects CanonicalJson Parser ParserFormats SourceTime Mapping RetryState Metrics NormalizerWorld NormalizerCore RetryStore RuntimeConfig RawStore EventBus ClickHouse DeadLetter Runtime NormalizerCoreSpec Traces DeliverySpec.

(** What the process leaves behind: its exit code and its lines on standard error *)
Inductive ProcessEnd : Type :=
| Exit (code : Z) (stderr : list string)
| Panicked (message : string).

(** What the task that waits for Ctrl-C does to the watch channel: it sends, or,
    when the handler cannot be installed, ends and drops the sender *)
Definition signal_input (ctrl_c_ok : bool) : LoopInput :=
  if ctrl_c_ok then ShutdownChanged (Some true) else ShutdownChanged None.

Section Main.
Context `{Sha256} `{JsonCodec} `{FormatCodec} `{DebugStr} `{TimeCrate} `{Outside}.
Context `{RetryCodec} `{ProstCodec} `{RowCodec} `{DeadLetterCodec} `{RawFiles}.

(** [run]: with the metrics kept in memory *)
Definition run (config : RuntimeConfig) (inputs : list LoopInput) : norm (option unit) :=
  run_with_metrics config MemoryMetricsSink inputs.

(** [main]; no end while the service waits *)
Definition normalizer_main (env : string -> option string) (inputs : list LoopInput) (w : NormalizerWorld)
    : option ProcessEnd * NormalizerWorld :=
  match from_env env with
  | Err error => (Some (Exit 2 ["cerbero-normalizer configuration error: " +:+ NormalizerError_display error]), w)
  | Panic p => (Some (Panicked p), w)
  | Ok config =>
      match run config inputs w with
      | (Ok (Some _), w) => (Some (Exit 0 []), w)
      | (Ok None, w) => (None, w)
      | (Err error, w) => (Some (Exit 1 ["cerbero-normalizer runtime error: " +:+ NormalizerError_display error]), w)
      | (Panic p, w) => (Some (Panicked p), w)
      end
  end.

(** The loop only returns without an error when it was told to stop, or when
    nobody is left who could tell it. *)
Definition stop_request (input : LoopInput) : Prop :=
  match input with ShutdownChanged value => value <> Some false | _ => False end.

Lemma processing_stopped processor inputs w w' :
  processing processor inputs w = (Ok (Some tt), w') -> Exists stop_request inputs.
Proof.
  revert w. induction inputs as [|input inputs IH]; intros w; [done|]. cbn [processing].
  intros (continue & w1 & Hturn & Hrest)%io_bind_ok_iff.
  destruct continue; [right; by eapply IH|]. left.
  destruct input as [[[]|]|[[|]|]|[|]]; try done; cbn [loop_turn] in Hturn;
    apply io_bind_ok_iff in Hturn as (? & ? & _ & Hturn); done.
Qed.

(** C12: Over the whole life of the process, from its environment through any
    sequence of deliveries, shutdown requests and failing connections, no message
    is lost: every settlement is of a message that was handed out; an
    acknowledgement or a termination rests on a publication of its own, made
    since the settlement before it and stored by its stream, for the former the
    normalized event of the raw event that this very message hands over, for the
    latter the dead letter of this very payload; a message given back asks for a
    delay within the configured bounds; and there are never more settlements than
    deliveries.  A configuration that is refused ends the process with code 2
    before it does anything, and it ends with success only when it was asked to
    stop. *)
Theorem process_loses_no_message env inputs w finish w' :
  normalizer_main env inputs w = (finish, w') ->
  exists es, nw_effects w' = nw_effects w ++ es /\
    match from_env env with
    | Ok config => vouched config (handed_out inputs) es
    | Err error =>
        es = [] /\ finish = Some (Exit 2 ["cerbero-normalizer configuration error: " +:+ NormalizerError_display error])
    | Panic p => es = [] /\ finish = Some (Panicked p)
    end /\
    (forall stderr, finish = Some (Exit 0 stderr) -> stderr = [] /\ Exists stop_request inputs).
Proof.
  unfold normalizer_main. destruct (from_env env) as [config|error|p] eqn:Henv;
    [|intros [= <- <-]; exists []; by rewrite app_nil_r..].
  apply from_env_started in Henv. destruct Henv as [_ _ Hc _ _ Hd Hm].
  destruct (run config inputs w) as [r w1] eqn:Hrun. intros Hfin.
  assert (w' = w1) as -> by (by destruct r as [[[]|]| |]; simplify_eq/=).
  destruct (service_vouched config MemoryMetricsSink inputs w r w1) as (es & Heq & Hv);
    [split_and!; [done|lia|]|apply memory_sink_ok|exact Hrun|].
  { etrans; [exact Hm|]. vm_compute. discriminate. }
  exists es. split; [done|]. split; [done|]. intros stderr ->.
  destruct r as [[[]|]|e|p]; try done. injection Hfin as <-. split; [done|].
  unfold run, run_with_metrics in Hrun. apply io_bind_ok_iff in Hrun as (processor & w2 & _ & Hrun).
  by eapply processing_stopped.
Qed.
End Main.
