(* ===== verification/RuntimeSample.v ===== *)
(** * A normalizer at work

    A concrete runtime: one rejected password in a Raw Store, a message bus, a
    database and an analytical store that answer, codecs that know the documents
    involved.  The theorems about deliveries are applied to it. *)

From Stdlib Require Import SpecFloat.
From S2P Require Import Prelude RustStd RustText ContractTypes Validation SignalContract Effects MvpRules MvpRulesSpec CanonicalJson Parser ParserSpec ParserFormats ParserFormatsSpec SourceTime SourceTimeSpec Mapping RetryState Metrics NormalizerWorld NormalizerCore RetryStore RetryStoreSpec RuntimeConfig RawStore EventBus ClickHouse DeadLetter Runtime NormalizerCoreSpec Traces DeliverySpec DeliveryLiveness StoredRowSpec DeadLetterSpec PipelineSpec NormalizerMain.

#[global] Instance Json_eq_dec : EqDecision Json.
Proof.
  refine (fix go (a b : Json) := let _ : EqDecision Json := @go in
    match a, b with
    | JNull, JNull => left eq_refl
    | JBool x, JBool y => cast_if (decide (x = y))
    | JNumber x, JNumber y => cast_if (decide (x = y))
    | JString x, JString y => cast_if (decide (x = y))
    | JArray x, JArray y => cast_if (decide (x = y))
    | JObject x, JObject y => cast_if (decide (x = y))
    | _, _ => right _
    end); congruence.
Defined.

Module RuntimeSample.
Import CalendarSample.
Export RetrySample.

#[export] Instance digests : Sha256 := {|
  sha256_digest _ := replicate 32 "000"%char;
  sha256_digest_length _ := eq_refl;
|}.
Definition zeros : string := sha256_lower_hex [].

(** ** The raw event *)

Definition line : string := "sshd[7]: Failed password for invalid user admin from 10.0.0.8 port 50341 ssh2".
Definition raw : list ascii := str_bytes line.
Definition millis : Z := 1788999990000.

Definition handoff (id uri : string) (offset length : Z) : RawEventPersisted :=
  mkRawEventPersisted id "acme" "auth-log" "" (Some (mkTimestamp 1788999990 0)) (Some (mkTimestamp 1788999995 0))
    "text/plain" "utf-8" length "sha256" zeros "tcp" "" None 0 "p1" uri "segment" offset length
    (Some (mkTimestamp 1788999996 0)).
Definition event_id : string := "01890f8e-5b7a-7cc1-98c4-dc0c0c07398e".
Definition persisted : RawEventPersisted := handoff event_id "raw:///acme/1.bin" 0 (Z.of_nat (length raw)).
(** A length that only fits the field *)
Definition oversized : RawEventPersisted := handoff event_id "raw:///acme/1.bin" 0 9223372036854775808.

Definition envelope (type_url content : string) : CerberoEnvelope :=
  mkCerberoEnvelope "1" "01890f8e-5b7a-7cc1-98c4-dc0c0c07398d" "RawEventPersisted" "acme"
    (Some (mkProducer "cerbero-ingest" "1" "i1")) (Some (mkTimestamp 1788999996 0)) "trace" "" "corr"
    "cerbero.raw_event_persisted.v1" (Some (mkAny type_url (str_bytes content))).
Definition type_url : string := "type.googleapis.com/cerbero.contracts.v1.RawEventPersisted".
Definition nul_type_url : string := String zero "cerbero.contracts.v1.RawEvent".

(** ** Codecs *)

Definition document : Json :=
  ssh_ocsf_event "SSH authentication failed for user admin from 10.0.0.8" "10.0.0.8" "admin" 50341 true millis
    (ssh_metadata 1788999995000 1789000000000 "event_time").
Definition document_bytes : list ascii := str_bytes "{document}".

(** The integers of the document *)
Definition integers : list Z := [1; 2; 3; 99; 3002; 50341; 300201; millis; 1788999995000; 1789000000000]%Z.

#[export] Instance json : JsonCodec := {|
  json_from_slice bytes :=
    if decide (bytes = document_bytes) then Ok (canonicalize document) else Err "expected value";
  json_to_vec v := if decide (v = canonicalize document) then document_bytes else str_bytes "null";
  number_as_f64 text :=
    (fun n => binary_normalize 53 1024 n 0 false) <$> List.find (fun n => String.eqb (pretty n) text) integers;
|}.
#[export] Instance formats : FormatCodec := {|
  base64_decode _ := Err "Invalid padding";
  rfc3339_parse _ := Err "invalid";
|}.
#[export] Instance debug : DebugStr := fun s => s.

#[export] Instance prost : ProstCodec := {|
  envelope_decode bytes :=
    if decide (bytes = str_bytes "sshd") then Ok (envelope type_url "sshd")
    else if decide (bytes = str_bytes "oversized") then Ok (envelope type_url "oversized")
    else if decide (bytes = str_bytes "nul") then Ok (envelope nul_type_url "sshd")
    else Err "invalid wire type";
  envelope_encode _ := str_bytes "envelope";
  raw_persisted_decode bytes :=
    if decide (bytes = str_bytes "sshd") then Ok persisted
    else if decide (bytes = str_bytes "oversized") then Ok oversized else Err "invalid tag";
  normalized_event_encode _ := str_bytes "event";
|}.
#[export] Instance dead_letters_codec : DeadLetterCodec := fun _ => Ok (str_bytes "{}").

Definition file : OpenFile :=
  mkOpenFile (fun _ => Ok tt) (fun offset length => Ok (take (Z.to_nat length) (drop (Z.to_nat offset) raw))).
#[export] Instance raw_files : RawFiles := fun _ =>
  mkFileSystem (fun path => Ok path) (fun _ => true) (fun _ => Ok file).

(** ** The outside world *)

(** The first exchange with ClickHouse finds nothing, later ones find the row. *)
#[export] Instance bus : Outside := {|
  retry_fault _ := None;
  publish_reply _ subject :=
    if String.eqb subject NORMALIZATION_DLQ_SUBJECT then inl (mkPubAck DLQ_STREAM_NAME 1)
    else inl (mkPubAck ANALYTICS_STREAM_NAME 1);
  settle_fault _ := None;
  http_reply n request := inl (mkHttpReply 200 (Ok (if cr_post request || (n <? 4)%nat then "" else "row")));
  connect_fault _ := None;
  consumer_fault _ := None;
  system_time_now _ := 1789000000000000000%Z;
  elapsed_time _ := 5%Z;
  now_v7_text _ := "01890f8e-5b7a-7cc1-98c4-dc0c0c07398f";
|}.

(** ** The processor *)

Definition env_entries : list (string * string) :=
  [("CERBERO_DEV_MODE", "1"); ("CERBERO_SECURITY_PROFILE", "DEVELOPMENT");
   ("CERBERO_NORMALIZER_EXECUTION_MODE", "LIVE"); ("CLICKHOUSE_HOST", "localhost"); ("CLICKHOUSE_HTTP_PORT", "8123");
   ("CERBERO_NATS_URL", "nats://localhost"); ("NATS_NORMALIZER_USER", "n"); ("NATS_NORMALIZER_PASSWORD", "p");
   ("CERBERO_NORMALIZER_COMPONENT_VERSION", "1"); ("CERBERO_NORMALIZER_INSTANCE_ID", "i1");
   ("CERBERO_NORMALIZER_PIPELINE_VERSION", "p1"); ("CERBERO_NORMALIZER_LINUX_SSHD_PARSER_VERSION", "1");
   ("CERBERO_NORMALIZER_SOURCE_TIME_OFFSETS", "auth-log=+02:00");
   ("CERBERO_RAW_STORE_PATH", "/var/raw"); ("CLICKHOUSE_DB", "cerbero"); ("CLICKHOUSE_NORMALIZER_USER", "n");
   ("CLICKHOUSE_NORMALIZER_PASSWORD", "p"); ("POSTGRES_HOST", "localhost"); ("POSTGRES_PORT", "5432");
   ("POSTGRES_DB", "cerbero"); ("POSTGRES_NORMALIZER_USER", "n"); ("POSTGRES_NORMALIZER_PASSWORD", "p");
   ("CERBERO_NORMALIZER_RETRY_MIN_SECONDS", "1"); ("CERBERO_NORMALIZER_RETRY_MAX_SECONDS", "60");
   ("CERBERO_NORMALIZER_RETRY_BUDGET", "3")].
Definition environment (name : string) : option string :=
  snd <$> List.find (fun e => String.eqb e.1 name) env_entries.

Definition config : RuntimeConfig :=
  mkRuntimeConfig "nats://localhost" "n" "p" "1" "i1" "p1" ExecutionMode_Live Historical "1"
    [("auth-log", mkSourceTimePolicy 7200 "+02:00")] "/var/raw" "http://localhost:8123" "cerbero" "n" "p"
    "localhost" 5432 "cerbero" "n" "p" 1000000000%Z 60000000000%Z 3.

Definition core : NormalizerCore :=
  mkNormalizerCore (mkNormalizerCoreConfig "p1" ExecutionMode_Live)
    [LinuxSshdParser; JournaldCanonicalParser; SyslogRfc5424Parser; SyslogRfc3164Parser; GenericJsonParser]
    mappings_with_defaults (cfg_source_time_policies config) NoopNormalizerMetrics SystemClock SystemIdGenerator.

(** The row of the sample event, and a store that holds nothing else *)
Definition row : result StoredNormalization NormalizerError :=
  let? plan := (normalize core (envelope type_url "sshd") persisted raw world0).1 in
  from_plan plan (np_resolved_event_time plan) (mkTimestamp 1788999995 0) (envelope type_url "sshd")
    "01890f8e-5b7a-7cc1-98c4-dc0c0c07398f" "1" "i1".
#[export] Instance rows : RowCodec := {|
  row_to_vec _ := Ok (str_bytes "row");
  row_from_str text :=
    if String.eqb text "row" then map_err NormalizerError_display row else Err "expected value";
|}.

Definition processor : RuntimeProcessor :=
  mkRuntimeProcessor config (mkFilesystemRawReader "/var/raw")
    (mkClickHouseStore "http://localhost:8123" "cerbero" "n" "p") core NoopNormalizerMetrics.

(** The third delivery of a payload as message 7 of the stream *)
Definition delivered_payload (payload : string) : Message :=
  mkMessage "cerbero.raw.persisted" None (str_bytes payload) (Some (mkMessageInfo 7 9 3)).
Definition consumer : string := NORMALIZER_CONSUMER_NAME.

(** ** The sample meets the assumptions *)

Lemma core_is_built : core_built core.
Proof.
  split; [reflexivity|by exists "1"|done|apply noop_sink_ok|reflexivity|reflexivity].
Qed.

Lemma processor_is_ok : processor_ok processor.
Proof. split; [apply core_is_built|apply noop_sink_ok|done|done]. Qed.

Lemma config_is_ok : config_ok config.
Proof. by apply (proj1 (validate_config_ok_iff config config)). Qed.

Lemma config_is_runnable : runnable config.
Proof. split_and!; [apply config_is_ok|done|done]. Qed.

Lemma processor_is_healthy : healthy processor.
Proof.
  split; try done.
  - intros n. by eexists.
  - intros record. by eexists.
  - intros bytes. split; cbn [envelope_decode raw_persisted_decode prost]; repeat case_decide; no_panic.
Qed.

Lemma store_is_empty : store_ok (nw_retries world0).
Proof. split; constructor. Qed.

Lemma payload_typed payload : message_typed (delivered_payload payload).
Proof. intros info [= <-]. reflexivity. Qed.

(** A payload that does not decode *)
Lemma garbage_poison : poison processor "stream:7" (delivered_payload "garbage").
Proof.
  assert (decode_raw_persisted (delivered_payload "garbage")
          = Err (mkNormalizerError "CER-NORM-ENVELOPE-DECODE" "invalid wire type" false)) as Hd by reflexivity.
  split; [reflexivity| |].
  - split; [apply payload_typed| | |].
    + intros n incoming. by rewrite Hd.
    + intros e. rewrite Hd. intros [= <-]. split_and!; [done|reflexivity|reflexivity].
    + intros incoming w r w'. by rewrite Hd.
  - intros incoming w w'. by rewrite Hd.
Qed.

(** A rejected password, whether its row is stored or not *)
Lemma sshd_orderly : orderly processor (delivered_payload "sshd").
Proof.
  eassert (decode_raw_persisted (delivered_payload "sshd") = Ok _) as Hd by (vm_compute; reflexivity).
  split; [apply payload_typed| | |].
  - intros n incoming. rewrite Hd. intros [= <-]. vm_compute. discriminate.
  - intros e. by rewrite Hd.
  - intros incoming [retries metrics effects step] r w'. rewrite Hd. intros [= <-] Hrun.
    assert (r = Ok tt) as ->; [|by split].
    do 4 (destruct step as [|step]; [vm_compute in Hrun; by injection Hrun as <- _|]).
    vm_compute in Hrun; by injection Hrun as <- _.
Qed.

(** Parsing reads every text the contracts accept as a UUID. *)
Lemma hex_of_digit c : is_ascii_hexdigit c = true -> not_dash c = true /\ (hex_of c < 16)%N.
Proof. destruct c as [[] [] [] [] [] [] [] []]; by intros. Qed.

Lemma hex_value_snoc l d : hex_value (l ++ [d]) = (hex_value l * 16 + d)%N.
Proof. unfold hex_value. by rewrite foldl_app. Qed.

Lemma hex_value_bound l : Forall (fun d => d < 16)%N l -> (hex_value l < 16 ^ N.of_nat (length l))%N.
Proof.
  induction l as [|d l IH] using rev_ind; [done|]. intros [Hl Hd]%Forall_app. specialize (IH Hl). rewrite Forall_singleton in Hd.
  rewrite hex_value_snoc, length_app, Nat.add_1_r, Nat2N.inj_succ, N.pow_succ_r'. lia.
Qed.

Lemma hex_value_positive l d : d ∈ l -> d <> 0%N -> hex_value l <> 0%N.
Proof.
  intros Hin Hd. induction l as [|e l IH] using rev_ind; [by apply elem_of_nil in Hin|]. rewrite hex_value_snoc.
  apply elem_of_app in Hin as [Hin%IH| ->%list_elem_of_singleton]; lia.
Qed.

Lemma filter_hyphens bytes :
  length bytes = 36 ->
  (forall i c, bytes !! i = Some c -> if is_hyphen_index i then c = "-"%char else is_ascii_hexdigit c = true) ->
  let digits := List.filter not_dash bytes in
  length digits = 32 /\ Forall (fun c => is_ascii_hexdigit c = true) digits /\
  (forall c, bytes !! 14 = Some c -> c ∈ digits).
Proof.
  intros Hlen Hc. do 36 (destruct bytes as [|? bytes]; [done|]). destruct bytes; [|done].
  let rec facts n :=
    match n with
    | 36 => idtac
    | _ => let Hn := fresh "Hn" in pose proof (Hc n _ eq_refl) as Hn; cbn [is_hyphen_index Nat.eqb orb] in Hn;
        let m := eval compute in (S n) in facts m
    end in facts 0. clear Hc Hlen.
  repeat match goal with Heq : _ = "-"%char |- _ => subst end.
  assert (forall c l, is_ascii_hexdigit c = true -> List.filter not_dash (c :: l) = c :: List.filter not_dash l) as Hhex.
  { intros c l Hc. cbn [List.filter]. by rewrite (proj1 (hex_of_digit c Hc)). }
  assert (forall l, List.filter not_dash ("-"%char :: l) = List.filter not_dash l) as Hdash by done.
  cbv zeta. repeat first [rewrite Hhex by assumption | rewrite Hdash].
  split_and!; [reflexivity|by repeat constructor|].
  intros c [= <-]. do 12 apply list_elem_of_further. apply list_elem_of_here.
Qed.

#[export] Instance parse_laws : UuidParseLaws.
Proof.
  split. intros text (Hlen & Hall & H14 & _). cbn [uuid_parse_str codec].
  destruct (filter_hyphens _ Hlen Hall) as (Hl & Hd & Hin).
  rewrite bool_decide_eq_true_2 by exact Hl. eexists. split; [done|]. split.
  - apply (hex_value_positive _ 7%N); [|done]. apply list_elem_of_fmap. exists "7"%char. split; [done|by apply Hin].
  - change (2 ^ 128)%N with (16 ^ N.of_nat 32)%N. rewrite <-Hl, <-(length_fmap hex_of). apply hex_value_bound, Forall_fmap.
    eapply Forall_impl; [exact Hd|]. intros c [_ Hlt]%hex_of_digit. exact Hlt.
Qed.
End RuntimeSample.


Import CalendarSample RuntimeSample.

(** ** Configuration and delays *)

Lemma from_env_config_witness :
  from_env environment = Ok config /\ in_range 1 u32_max (cfg_retry_budget config) = true.
Proof.
  assert (from_env environment = Ok config) as Henv by (vm_compute; reflexivity).
  split; [exact Henv|]. by apply (from_env_config environment config Henv).
Defined.

Lemma retry_delay_bounds_witness :
  exists delay, retry_delay_with_jitter 3 1000000000%Z 60000000000%Z "seed" = Ok delay /\
    (1000000000 <= delay <= 60000000000)%Z.
Proof.
  destruct (retry_delay_bounds 3 1000000000%Z 60000000000%Z "seed") as (delay & Hd & Hb & _);
    [done..|]. exists delay. by split.
Defined.

(** ** Normalization *)

Lemma normalize_matches_preflight_witness :
  exists plan w' identity,
    normalize core (envelope type_url "sshd") persisted raw world0 = (Ok plan, w') /\
    derivation_identity core persisted raw = Ok identity /\ plan_identity plan = Ok identity.
Proof.
  do 2 eexists. eassert (normalize core (envelope type_url "sshd") persisted raw world0 = (Ok _, _)) as Hrun
    by (vm_compute; reflexivity).
  destruct (normalize_matches_preflight _ _ _ _ _ _ _ core_is_built Hrun) as (identity & Hd & Hp & _).
  exists identity. split_and!; [exact Hrun|exact Hd|exact Hp].
Defined.

(** A syslog message is parsed, and has no mapping. *)
Lemma normalize_only_governed_mapping_witness :
  let raw := str_bytes "<13>Sep  3 10:00:00 host app[1]: started" in
  let persisted := handoff event_id "raw:///acme/2.bin" 0 (Z.of_nat (length raw)) in
  exists message, (normalize core (envelope type_url "sshd") persisted raw world0).1 =
    Err (mkNormalizerError "CER-NORM-MAPPING-UNSUPPORTED" message false).
Proof.
  intros raw persisted.
  eassert (registry_parse (core_parsers core) (mkParserInput raw persisted None) = Ok _) as Hparse
    by (vm_compute; reflexivity).
  destruct (normalize core (envelope type_url "sshd") persisted raw world0) as [r w'] eqn:Hrun.
  destruct (normalize_only_governed_mapping _ _ _ _ _ _ _ core_is_built Hrun) as [_ Hun].
  apply (Hun _ eq_refl eq_refl Hparse). discriminate.
Defined.

Lemma stored_row_round_trip_witness :
  exists plan w' stored,
    normalize core (envelope type_url "sshd") persisted raw world0 = (Ok plan, w') /\ row = Ok stored /\
    stored_normalized_event stored = Ok (np_normalized_event plan) /\
    stored_transformation stored = np_transformation plan.
Proof.
  destruct (normalize core (envelope type_url "sshd") persisted raw world0) as [r w'] eqn:Hrun.
  destruct r as [plan|e|p]; [|exfalso; vm_compute in Hrun; discriminate Hrun..].
  destruct row as [stored|e|p] eqn:Hrow; [|exfalso; vm_compute in Hrow; discriminate Hrow..].
  assert (from_plan plan (np_resolved_event_time plan) (mkTimestamp 1788999995 0) (envelope type_url "sshd")
    "01890f8e-5b7a-7cc1-98c4-dc0c0c07398f" "1" "i1" = Ok stored) as Hfrom
    by (rewrite <-Hrow; unfold row; rewrite Hrun; reflexivity).
  exists plan, w', stored. split_and!; [done|done|..];
    apply (stored_row_round_trip _ _ _ _ _ _ _ _ _ _ _ _ _ core_is_built Hrun Hfrom).
  all: assert (np_canonical_ocsf_json plan = document_bytes) as ->
    by (vm_compute in Hrun; injection Hrun as <- _; vm_compute; reflexivity).
  all: intros v; unfold canonical_json_bytes; cbn [json_to_vec json_from_slice json];
    (destruct (decide (canonicalize v = canonicalize document)) as [-> |]; [|done]); intros _; reflexivity.
Defined.

Lemma stored_row_accepted_witness :
  exists plan stored identity,
    row = Ok stored /\ derivation_identity core persisted raw = Ok identity /\
    validate_existing_plan (read_back stored) plan = Ok tt /\
    validate_existing_identity (read_back stored) event_id identity = Ok tt.
Proof.
  destruct (normalize core (envelope type_url "sshd") persisted raw world0) as [r w'] eqn:Hrun.
  destruct r as [plan|e|p]; [|exfalso; vm_compute in Hrun; discriminate Hrun..].
  destruct row as [stored|e|p] eqn:Hrow; [|exfalso; vm_compute in Hrow; discriminate Hrow..].
  assert (from_plan plan (np_resolved_event_time plan) (mkTimestamp 1788999995 0) (envelope type_url "sshd")
    "01890f8e-5b7a-7cc1-98c4-dc0c0c07398f" "1" "i1" = Ok stored) as Hfrom
    by (rewrite <-Hrow; unfold row; rewrite Hrun; reflexivity).
  destruct (stored_row_accepted _ _ _ _ _ _ _ _ _ _ _ _ _ core_is_built Hrun Hfrom) as (identity & Hid & Hplan & Hsame).
  exists plan, stored, identity. split_and!; [done|done|by apply Hplan; vm_compute|by apply Hsame; vm_compute].
Defined.

Lemma integers_exact : exact_integers.
Proof.
  intros t x _. cbn [number_as_f64 json].
  destruct (List.find _ integers) as [n|] eqn:Hf; [|done]. intros [= <-].
  apply find_some in Hf as [Hin%list_elem_of_In Heq%String.eqb_eq]. apply (inj pretty) in Heq as ->.
  revert t Hin. apply Forall_forall.
  repeat (apply Forall_cons; split; [by split_and!|]). constructor.
Qed.

Lemma rejected_password_is_failed_login_witness :
  exists plan w' t, normalize core (envelope type_url "sshd") persisted raw world0 = (Ok plan, w') /\
    event_millis persisted t /\ failed_login "acme" "admin" "10.0.0.8" (np_normalized_event plan) t.
Proof.
  destruct (normalize core (envelope type_url "sshd") persisted raw world0) as [r w'] eqn:Hrun.
  destruct r as [plan|e|p]; [|exfalso; vm_compute in Hrun; discriminate Hrun..].
  destruct (rejected_password_is_failed_login core (envelope type_url "sshd") persisted raw world0 plan w'
    line "sshd[7]: " true "admin" "10.0.0.8" 50341 " ssh2" integers_exact core_is_built Hrun)
    as (t & Ht & Hlogin); [reflexivity|reflexivity| |].
  - split; try done; try (vm_compute; congruence). right. by eexists.
  - exists plan, w', t. split_and!; [done|done|]. apply Hlogin.
    destruct Ht as (time & [Htime|[? _]] & Hm); [|done]. injection Htime as <-. vm_compute in Hm. injection Hm as <-.
    vm_compute. congruence.
Defined.

(** ** Deliveries *)

Lemma delivery_settles_once_witness :
  exists w', handle_message processor (delivered_payload "sshd") world0 = (Ok tt, w') /\
    exists es kind, nw_effects w' = es /\ delivered config (delivered_payload "sshd") es /\
      Settled (delivered_payload "sshd") kind ∈ es.
Proof.
  destruct (handle_message processor (delivered_payload "sshd") world0) as [r w'] eqn:Hrun.
  assert (r = Ok tt) as -> by (vm_compute in Hrun; injection Hrun as <- _; reflexivity).
  destruct (delivery_settles_once processor (delivered_payload "sshd") world0 (Ok tt) w' processor_is_ok Hrun)
    as (es & Heq & Hd & Hs).
  destruct (Hs eq_refl) as [kind Hk]. exists w'. split; [reflexivity|].
  exists es, kind. split_and!; [exact Heq|exact Hd|exact Hk].
Defined.

(** A run that handles a message, one that is a dead letter, and stops *)
Lemma process_loses_no_message_witness :
  let inputs := [NextMessage (Some (inl (delivered_payload "sshd"))); NextMessage (Some (inl (delivered_payload "garbage")));
                 signal_input true] in
  exists w', normalizer_main environment inputs world0 = (Some (Exit 0 []), w') /\
    vouched config [delivered_payload "sshd"; delivered_payload "garbage"] (nw_effects w').
Proof.
  intros inputs. destruct (normalizer_main environment inputs world0) as [finish w'] eqn:Hrun.
  destruct (process_loses_no_message environment inputs world0 finish w' Hrun) as (es & Heq & Hv & _).
  assert (finish = Some (Exit 0 [])) as -> by (vm_compute in Hrun; injection Hrun as <- _; reflexivity).
  exists w'. split; [reflexivity|]. rewrite Heq.
  assert (from_env environment = Ok config) as Henv by (vm_compute; reflexivity). rewrite Henv in Hv. exact Hv.
Defined.

(** A signal handler that cannot be installed stops the service, with success. *)
Example lost_signal_handler_stops_the_service :
  (normalizer_main environment [signal_input false] world0).1 = Some (Exit 0 []).
Proof. vm_compute. reflexivity. Qed.

Lemma healthy_delivery_settles_witness :
  (exists kind w', handle_message processor (delivered_payload "garbage") world0 = (Ok tt, w') /\
     outcome processor (delivered_payload "garbage") consumer world0 w' kind) /\
  (exists kind w', handle_message processor (delivered_payload "sshd") world0 = (Ok tt, w') /\
     outcome processor (delivered_payload "sshd") consumer world0 w' kind).
Proof.
  split; apply (fun message => healthy_delivery_settles processor message consumer world0 processor_is_ok
           processor_is_healthy eq_refl);
    [apply garbage_poison|reflexivity|apply store_is_empty|apply sshd_orderly|reflexivity|apply store_is_empty].
Defined.

Lemma dead_letter_within_budget_witness :
  let messages := replicate 3 (delivered_payload "garbage") in
  exists before message after w1 w2, messages = before ++ message :: after /\
    io_iter (handle_message processor) before world0 = (Ok tt, w1) /\
    handle_message processor message w1 = (Ok tt, w2) /\ settled_as message Term consumer "stream:7" None w1 w2 /\
    exists es, nw_effects w2 = nw_effects w1 ++ es /\ dead_lettered message es.
Proof.
  intros messages. apply (dead_letter_within_budget processor consumer "stream:7" messages world0 processor_is_ok
    processor_is_healthy eq_refl eq_refl); [|apply store_is_empty|reflexivity|reflexivity].
  repeat (apply Forall_cons; split; [apply garbage_poison|]). constructor.
Defined.

(** After a failure that is not worth a retry, and a dead letter that failed *)
Definition isolated : RetryState :=
  mkRetryState consumer "stream:7" None 1789000000000000000%Z 1789000000000000000%Z 1 3 3
    "CER-NORM-ENVELOPE-DECODE" "invalid wire type" false None.
Definition isolated_world : NormalizerWorld := mkNormalizerWorld [state_row isolated] metrics_default [] 0.

Lemma isolated_store : store_ok (nw_retries isolated_world).
Proof.
  split; [apply NoDup_singleton|]. apply Forall_singleton. exists isolated. split; [|done].
  split_and!; [|done..]. by apply validate_state_ok_iff.
Qed.

Lemma isolated_message_only_dead_lettered_witness :
  exists r w', handle_message processor (delivered_payload "sshd") isolated_world = (r, w') /\
    Forall (dead_letters_only (delivered_payload "sshd") consumer "stream:7") (nw_effects w').
Proof.
  destruct (handle_message processor (delivered_payload "sshd") isolated_world) as [r w'] eqn:Hrun.
  destruct (isolated_message_only_dead_lettered processor (delivered_payload "sshd") consumer isolated isolated_world
    r w' processor_is_ok eq_refl (payload_typed "sshd") isolated_store) as (es & Heq & Hes);
    [vm_compute; reflexivity|reflexivity|exact Hrun|].
  exists r, w'. split; [reflexivity|]. rewrite Heq. exact Hes.
Defined.

Lemma nul_error_text_never_settles_witness :
  exists error w', handle_message processor (delivered_payload "nul") world0 = (Err error, w') /\
    nz_code error = "CER-NORM-RETRY-STATE-POSTGRES" /\ nw_retries w' = [] /\ nw_effects w' = [] /\
    exists es, [] = [] ++ es /\ quiet es.
Proof.
  apply (nul_error_text_never_settles processor (delivered_payload "nul") consumer
    (mkNormalizerError "CER-NORM-PAYLOAD-TYPE" ("unexpected Any type_url " +:+ nul_type_url) false) world0
    (step_world world0) processor_is_ok processor_is_healthy eq_refl (payload_typed "nul") eq_refl store_is_empty);
    [done|left; split; [vm_compute; reflexivity|reflexivity]|done|reflexivity].
Defined.

Lemma oversized_length_panics_witness :
  exists w', handle_message processor (delivered_payload "oversized") world0 = (Panic "capacity overflow", w') /\
    nw_retries w' = [] /\ nw_effects w' = [].
Proof.
  apply (oversized_length_panics processor (delivered_payload "oversized")
    (mkIncomingRawPersisted (envelope type_url "oversized") oversized None) consumer world0 "acme/1.bin"
    "/var/raw/acme/1.bin" file processor_is_healthy eq_refl (payload_typed "oversized") store_is_empty eq_refl);
    try (vm_compute; reflexivity). split; vm_compute; congruence.
Defined.

Lemma dead_letter_identity_witness :
  let failure := mkDeadLetterFailure "CER-NORM-ENVELOPE-DECODE" "invalid wire type" false 1 0%Z 0%Z in
  let m := delivered_payload "garbage" in
  let m' := mkMessage (msg_subject m) None (msg_payload m) (Some (mkMessageInfo 7 12 4)) in
  exists r r' w1 w2, from_message m consumer failure None world0 = (Ok r, w1) /\
    from_message m' consumer failure None world0 = (Ok r', w2) /\ nats_message_id r' = nats_message_id r.
Proof.
  intros failure m m'.
  destruct (from_message m consumer failure None world0) as [[r|e|p] w1] eqn:H1;
    [|exfalso; vm_compute in H1; discriminate H1..].
  destruct (from_message m' consumer failure None world0) as [[r'|e|p] w2] eqn:H2;
    [|exfalso; vm_compute in H2; discriminate H2..].
  destruct (dead_letter_identity m m' consumer consumer failure failure None None world0 world0 r r' w1 w2 H1 H2)
    as [Hsame _].
  exists r, r', w1, w2. split_and!; [reflexivity|reflexivity|]. apply Hsame. by vm_compute.
Defined.
