(* ===== verification/DerivationSample.v ===== *)
(** * Two workers on one event

    The sample normalizer of RuntimeSample with a digest that tells two documents apart
    and workers with clocks of their own: one stores and publishes, one redelivers, one
    races.  The theorems of Derivations are applied to them. *)

From S2P Require Import Prelude RustStd RustText ContractTypes Validation SignalContract Effects CanonicalJson Parser ParserFormats SourceTime SourceTimeSpec Mapping RetryState Metrics NormalizerWorld NormalizerCore RetryStore RetryStoreSpec RuntimeConfig RawStore EventBus ClickHouse DeadLetter Runtime NormalizerCoreSpec Traces DeliverySpec DeliveryLiveness StoredRowSpec Derivations RuntimeSample.

Module DerivationSample.
Export CalendarSample RuntimeSample.

#[export] Instance race_digests : Sha256 := {|
  sha256_digest bytes := replicate 32 (if decide (bytes = str_bytes "null") then "001"%char else "000"%char);
  sha256_digest_length _ := length_replicate 32 _;
|}.

Definition sshd_message : Message := delivered_payload "sshd".
Definition incoming : IncomingRawPersisted := mkIncomingRawPersisted (envelope type_url "sshd") persisted None.

(** The plan and the row of the worker that is first *)
Definition first_plan : result NormalizationPlan NormalizerError :=
  (normalize core (envelope type_url "sshd") persisted raw world0).1.
Definition first_row : result StoredNormalization NormalizerError :=
  let? plan := first_plan in
  from_plan plan (np_resolved_event_time plan) (mkTimestamp 1788999995 0) (envelope type_url "sshd")
    "01890f8e-5b7a-7cc1-98c4-dc0c0c07398f" "1" "i1".
Definition stored_row : option StoredNormalization :=
  match first_row with Ok row => Some (read_back row) | _ => None end.

#[export] Instance race_rows : RowCodec := {|
  row_to_vec _ := Ok (str_bytes "row");
  row_from_str text :=
    match stored_row with
    | Some row => if String.eqb text "row" then Ok row else Err "expected value"
    | None => Err "expected value"
    end;
|}.

(** A bus like that of the first worker, with another clock, other identifiers, and the
    row in the table from a given step on *)
Definition late_bus (stored_from : nat) : Outside := {|
  retry_fault _ := None;
  publish_reply _ subject :=
    if String.eqb subject NORMALIZATION_DLQ_SUBJECT then inl (mkPubAck DLQ_STREAM_NAME 1)
    else inl (mkPubAck ANALYTICS_STREAM_NAME 1);
  settle_fault _ := None;
  http_reply n request := inl (mkHttpReply 200 (Ok (if cr_post request || (n <? stored_from)%nat then "" else "row")));
  connect_fault _ := None;
  consumer_fault _ := None;
  system_time_now _ := 1788999995000000000%Z;
  elapsed_time _ := 5%Z;
  now_v7_text _ := "01890f8e-5b7a-7cc1-98c4-dc0c0c073990";
|}.

(** Nothing, then the row *)
Definition sample_cell (t : nat) : option StoredNormalization := match t with 0 => None | S _ => stored_row end.

Lemma row_is_stored : exists row, first_row = Ok row /\ stored_row = Some (read_back row).
Proof. eexists. split; [vm_compute; reflexivity|]. unfold stored_row. vm_compute. reflexivity. Qed.

Lemma sample_timeline : timeline sample_cell.
Proof.
  destruct row_is_stored as (row & _ & Hrow). intros [|t]; simpl; [|constructor]. rewrite Hrow. constructor.
Qed.

Lemma sample_reads (O : Outside) key :
  (forall n request, exists text, http_reply n request = inl (mkHttpReply 200 (Ok text)) /\ (text = "" \/ text = "row")) ->
  reads_from (rt_store processor) key sample_cell.
Proof.
  intros HO n reply body row Hreply Hbody _ Hne Hrow. edestruct HO as (text & Htext & Hcase).
  rewrite Htext in Hreply. injection Hreply as <-. injection Hbody as <-. destruct Hcase as [-> | ->]; [done|].
  exists 1. destruct row_is_stored as (row' & _ & Hst). cbn [row_from_str race_rows sample_cell] in Hrow |- *.
  rewrite Hst in *. by injection Hrow as <-.
Qed.

(** The worker of another bus: its clock and its identifiers are those of the bus *)
Definition worker (O : Outside) : RuntimeProcessor :=
  mkRuntimeProcessor config (mkFilesystemRawReader "/var/raw")
    (mkClickHouseStore "http://localhost:8123" "cerbero" "n" "p")
    (mkNormalizerCore (core_config core) (core_parsers core) (core_mappings core) (core_source_time_policies core)
       NoopNormalizerMetrics SystemClock SystemIdGenerator) NoopNormalizerMetrics.

Lemma worker_ok (O : Outside) : processor_ok (worker O).
Proof.
  split; [|apply noop_sink_ok|done|done].
  split; [reflexivity|by exists "1"|done|apply noop_sink_ok|reflexivity|reflexivity].
Qed.

Lemma late_bus_answers stored_from n request :
  exists text, http_reply (Outside := late_bus stored_from) n request = inl (mkHttpReply 200 (Ok text)) /\
    (text = "" \/ text = "row").
Proof. eexists. split; [reflexivity|]. destruct (_ || _); auto. Qed.

(** The first worker finds nothing, stores the row and publishes it; a redelivery on
    another worker finds it; a racing worker finds nothing before its own insert. *)
Definition redelivered : Outside := late_bus 0.
Definition raced : Outside := late_bus 4.

End DerivationSample.

Import DerivationSample.

(** The identity under which a run published a normalized event *)
Definition published_id (es : list Effect) : option (list ascii * option string) :=
  foldr (fun e found => match e with
    | Published subject headers payload _ =>
        if String.eqb subject NORMALIZED_CREATED_SUBJECT
        then Some (payload, header_get NATS_MESSAGE_ID_HEADER headers) else found
    | _ => found
    end) None es.

Lemma published_elem es payload id :
  published_id es = Some (payload, id) ->
  exists headers ack, Published NORMALIZED_CREATED_SUBJECT headers payload ack ∈ es /\
    header_get NATS_MESSAGE_ID_HEADER headers = id.
Proof.
  induction es as [|e es IH]; simpl; [done|].
  assert (published_id es = Some (payload, id) -> exists headers ack,
    Published NORMALIZED_CREATED_SUBJECT headers payload ack ∈ e :: es /\ header_get NATS_MESSAGE_ID_HEADER headers = id)
    as Hrest by (intros (headers & ack & ? & ?)%IH; exists headers, ack; split; [by right|done]).
  destruct e as [| |subject headers payload' ack| | | |]; try done.
  destruct (String.eqb_spec subject NORMALIZED_CREATED_SUBJECT) as [-> |]; [|done].
  intros [= -> <-]. exists headers, ack. split; [left|done].
Qed.

Lemma redeliveries_publish_alike_witness :
  let es1 := nw_effects (handle_message (H4 := bus) processor sshd_message world0).2 in
  let es2 := nw_effects (handle_message (H4 := redelivered) (worker redelivered) sshd_message world0).2 in
  exists payload id, published_id es1 = Some (payload, Some id) /\ published_id es2 = Some (payload, Some id) /\
    key_of core persisted = key_of (rt_core (worker redelivered)) persisted.
Proof.
  intros es1 es2.
  assert (exists p1 i1, published_id es1 = Some (p1, Some i1)) as (p1 & i1 & Hp1) by (vm_compute; by do 2 eexists).
  assert (exists p2 i2, published_id es2 = Some (p2, Some i2)) as (p2 & i2 & Hp2) by (vm_compute; by do 2 eexists).
  destruct (redeliveries_publish_alike bus redelivered processor (worker redelivered) incoming incoming sample_cell es1 es2)
    as [Hkey Hsame]; [apply sample_timeline|by split|done| | |].
  - split; [apply processor_is_ok|apply sample_reads|].
    + intros n request. eexists. split; [reflexivity|]. destruct (_ || _); auto.
    + exists sshd_message, world0. do 2 eexists. split; [vm_compute; reflexivity|]. split; [apply surjective_pairing|done].
  - split; [apply worker_ok|apply (sample_reads redelivered), late_bus_answers|].
    exists sshd_message, world0. do 2 eexists. split; [vm_compute; reflexivity|]. split; [apply surjective_pairing|done].
  - destruct (published_elem _ _ _ Hp1) as (h1 & a1 & Hin1 & Hid1). destruct (published_elem _ _ _ Hp2) as (h2 & a2 & Hin2 & Hid2).
    destruct (Hsame _ _ _ _ _ _ Hin1 Hin2) as [-> (id & Hh1 & Hh2)].
    exists p2, id. rewrite Hp1, Hp2. split_and!; [congruence|congruence|exact Hkey].
Defined.

Lemma worker_is_healthy : healthy (H4 := raced) (worker raced).
Proof.
  split; try done.
  - intros n. by eexists.
  - intros record. by eexists.
  - intros bytes. split; cbn [envelope_decode raw_persisted_decode prost]; repeat case_decide; no_panic.
Qed.

Lemma racing_worker_dead_letters_witness :
  exists w', handle_message (H4 := raced) (worker raced) sshd_message world0 = (Ok tt, w') /\
    settled_as sshd_message Term consumer "stream:7" None world0 w' /\
    exists es, nw_effects w' = nw_effects world0 ++ es /\ dead_lettered sshd_message es.
Proof.
  eassert (first_plan = Ok _) as Hplan' by (vm_compute; reflexivity).
  eassert (first_row = Ok _) as Hrow' by (vm_compute; reflexivity).
  match type of Hrow' with _ = Ok ?row =>
    eassert (stores_into (outside := raced) (worker raced) incoming (step_world world0) _ (read_back row) _) as Hstores
      by (do 6 eexists; do 5 (split; [vm_compute; reflexivity|]); vm_compute; reflexivity)
  end.
  eapply (racing_worker_dead_letters bus raced (worker raced) sshd_message incoming consumer world0 _ _ core
    (envelope type_url "sshd") _ _ 1788999995000 1789000000000 (worker_ok raced) worker_is_healthy eq_refl
    (payload_typed "sshd")); [| | | | | |exact Hstores| | | |].
  - intros n i Hi. vm_compute in Hi. injection Hi as <-. vm_compute. by intros p.
  - reflexivity.
  - apply store_is_empty.
  - reflexivity.
  - vm_compute. reflexivity.
  - split; [apply core_is_built| |].
    + exists raw, world0, (normalize core (envelope type_url "sshd") persisted raw world0).2.
      etrans; [apply surjective_pairing|]. apply (f_equal2 pair); [exact Hplan'|reflexivity].
    + exists (Some (mkTimestamp 1788999990 0)), (mkTimestamp 1788999995 0), "01890f8e-5b7a-7cc1-98c4-dc0c0c07398f", "1", "i1".
      vm_compute. reflexivity.
  - exists (mkTimestamp 1789000000 0). split; vm_compute; reflexivity.
  - exists (mkTimestamp 1788999995 0). split; vm_compute; reflexivity.
  - done.
  - intros v1 v2 _ _ Heq. exfalso. vm_compute in Heq. discriminate Heq.
Defined.
