(* ===== verification/Contracts.v ===== *)
(** * The whole of the v1 contracts

    crates/cerbero-common/src/generated: the enumerations and messages that
    ContractTypes does not already hold (cases, incidents, entities, risk, audit),
    the names and numbers of every enumeration, and the field attributes of every
    message.  An enumeration is an instance of one class, a message is described by
    the attributes the bindings carry; the theorems say that numbers and names
    identify the members of an enumeration, and tags and names the fields of a
    message. *)

From S2P Require Import Prelude RustStd ContractTypes Mapping.

(** ** Enumerations *)

Inductive CaseStatus : Set :=
| CaseStatus_Unspecified | CaseStatus_Open | CaseStatus_Triage | CaseStatus_Investigating | CaseStatus_OnHold
| CaseStatus_Response | CaseStatus_Resolved | CaseStatus_Closed.

Definition CaseStatus_as_i32 (e : CaseStatus) : Z :=
  match e with
  | CaseStatus_Unspecified => 0
  | CaseStatus_Open => 1
  | CaseStatus_Triage => 2
  | CaseStatus_Investigating => 3
  | CaseStatus_OnHold => 4
  | CaseStatus_Response => 5
  | CaseStatus_Resolved => 6
  | CaseStatus_Closed => 7
  end.

Definition CaseStatus_try_from (n : Z) : option CaseStatus :=
  match n with
  | 0%Z => Some CaseStatus_Unspecified
  | 1%Z => Some CaseStatus_Open
  | 2%Z => Some CaseStatus_Triage
  | 3%Z => Some CaseStatus_Investigating
  | 4%Z => Some CaseStatus_OnHold
  | 5%Z => Some CaseStatus_Response
  | 6%Z => Some CaseStatus_Resolved
  | 7%Z => Some CaseStatus_Closed
  | _ => None
  end.

Definition CaseStatus_as_str_name (e : CaseStatus) : string :=
  match e with
  | CaseStatus_Unspecified => "CASE_STATUS_UNSPECIFIED"
  | CaseStatus_Open => "CASE_STATUS_OPEN"
  | CaseStatus_Triage => "CASE_STATUS_TRIAGE"
  | CaseStatus_Investigating => "CASE_STATUS_INVESTIGATING"
  | CaseStatus_OnHold => "CASE_STATUS_ON_HOLD"
  | CaseStatus_Response => "CASE_STATUS_RESPONSE"
  | CaseStatus_Resolved => "CASE_STATUS_RESOLVED"
  | CaseStatus_Closed => "CASE_STATUS_CLOSED"
  end.

Definition CaseStatus_from_str_name (value : string) : option CaseStatus :=
  if String.eqb value "CASE_STATUS_UNSPECIFIED" then Some CaseStatus_Unspecified
  else if String.eqb value "CASE_STATUS_OPEN" then Some CaseStatus_Open
  else if String.eqb value "CASE_STATUS_TRIAGE" then Some CaseStatus_Triage
  else if String.eqb value "CASE_STATUS_INVESTIGATING" then Some CaseStatus_Investigating
  else if String.eqb value "CASE_STATUS_ON_HOLD" then Some CaseStatus_OnHold
  else if String.eqb value "CASE_STATUS_RESPONSE" then Some CaseStatus_Response
  else if String.eqb value "CASE_STATUS_RESOLVED" then Some CaseStatus_Resolved
  else if String.eqb value "CASE_STATUS_CLOSED" then Some CaseStatus_Closed
  else None.

Inductive CasePriority : Set :=
| CasePriority_Unspecified | CasePriority_P1Critical | CasePriority_P2High | CasePriority_P3Medium
| CasePriority_P4Low.

Definition CasePriority_as_i32 (e : CasePriority) : Z :=
  match e with
  | CasePriority_Unspecified => 0
  | CasePriority_P1Critical => 1
  | CasePriority_P2High => 2
  | CasePriority_P3Medium => 3
  | CasePriority_P4Low => 4
  end.

Definition CasePriority_try_from (n : Z) : option CasePriority :=
  match n with
  | 0%Z => Some CasePriority_Unspecified
  | 1%Z => Some CasePriority_P1Critical
  | 2%Z => Some CasePriority_P2High
  | 3%Z => Some CasePriority_P3Medium
  | 4%Z => Some CasePriority_P4Low
  | _ => None
  end.

Definition CasePriority_as_str_name (e : CasePriority) : string :=
  match e with
  | CasePriority_Unspecified => "CASE_PRIORITY_UNSPECIFIED"
  | CasePriority_P1Critical => "CASE_PRIORITY_P1_CRITICAL"
  | CasePriority_P2High => "CASE_PRIORITY_P2_HIGH"
  | CasePriority_P3Medium => "CASE_PRIORITY_P3_MEDIUM"
  | CasePriority_P4Low => "CASE_PRIORITY_P4_LOW"
  end.

Definition CasePriority_from_str_name (value : string) : option CasePriority :=
  if String.eqb value "CASE_PRIORITY_UNSPECIFIED" then Some CasePriority_Unspecified
  else if String.eqb value "CASE_PRIORITY_P1_CRITICAL" then Some CasePriority_P1Critical
  else if String.eqb value "CASE_PRIORITY_P2_HIGH" then Some CasePriority_P2High
  else if String.eqb value "CASE_PRIORITY_P3_MEDIUM" then Some CasePriority_P3Medium
  else if String.eqb value "CASE_PRIORITY_P4_LOW" then Some CasePriority_P4Low
  else None.

Inductive CaseDisposition : Set :=
| CaseDisposition_Unspecified | CaseDisposition_Undetermined | CaseDisposition_ConfirmedIncident
| CaseDisposition_BenignActivity | CaseDisposition_FalsePositive | CaseDisposition_Duplicate
| CaseDisposition_Test | CaseDisposition_Other.

Definition CaseDisposition_as_i32 (e : CaseDisposition) : Z :=
  match e with
  | CaseDisposition_Unspecified => 0
  | CaseDisposition_Undetermined => 1
  | CaseDisposition_ConfirmedIncident => 2
  | CaseDisposition_BenignActivity => 3
  | CaseDisposition_FalsePositive => 4
  | CaseDisposition_Duplicate => 5
  | CaseDisposition_Test => 6
  | CaseDisposition_Other => 7
  end.

Definition CaseDisposition_try_from (n : Z) : option CaseDisposition :=
  match n with
  | 0%Z => Some CaseDisposition_Unspecified
  | 1%Z => Some CaseDisposition_Undetermined
  | 2%Z => Some CaseDisposition_ConfirmedIncident
  | 3%Z => Some CaseDisposition_BenignActivity
  | 4%Z => Some CaseDisposition_FalsePositive
  | 5%Z => Some CaseDisposition_Duplicate
  | 6%Z => Some CaseDisposition_Test
  | 7%Z => Some CaseDisposition_Other
  | _ => None
  end.

Definition CaseDisposition_as_str_name (e : CaseDisposition) : string :=
  match e with
  | CaseDisposition_Unspecified => "CASE_DISPOSITION_UNSPECIFIED"
  | CaseDisposition_Undetermined => "CASE_DISPOSITION_UNDETERMINED"
  | CaseDisposition_ConfirmedIncident => "CASE_DISPOSITION_CONFIRMED_INCIDENT"
  | CaseDisposition_BenignActivity => "CASE_DISPOSITION_BENIGN_ACTIVITY"
  | CaseDisposition_FalsePositive => "CASE_DISPOSITION_FALSE_POSITIVE"
  | CaseDisposition_Duplicate => "CASE_DISPOSITION_DUPLICATE"
  | CaseDisposition_Test => "CASE_DISPOSITION_TEST"
  | CaseDisposition_Other => "CASE_DISPOSITION_OTHER"
  end.

Definition CaseDisposition_from_str_name (value : string) : option CaseDisposition :=
  if String.eqb value "CASE_DISPOSITION_UNSPECIFIED" then Some CaseDisposition_Unspecified
  else if String.eqb value "CASE_DISPOSITION_UNDETERMINED" then Some CaseDisposition_Undetermined
  else if String.eqb value "CASE_DISPOSITION_CONFIRMED_INCIDENT" then Some CaseDisposition_ConfirmedIncident
  else if String.eqb value "CASE_DISPOSITION_BENIGN_ACTIVITY" then Some CaseDisposition_BenignActivity
  else if String.eqb value "CASE_DISPOSITION_FALSE_POSITIVE" then Some CaseDisposition_FalsePositive
  else if String.eqb value "CASE_DISPOSITION_DUPLICATE" then Some CaseDisposition_Duplicate
  else if String.eqb value "CASE_DISPOSITION_TEST" then Some CaseDisposition_Test
  else if String.eqb value "CASE_DISPOSITION_OTHER" then Some CaseDisposition_Other
  else None.

Inductive IntegrityStatus : Set :=
| IntegrityStatus_Unspecified | IntegrityStatus_IntegrityUnverified | IntegrityStatus_IntegrityValid
| IntegrityStatus_IntegrityInvalid.

Definition IntegrityStatus_as_i32 (e : IntegrityStatus) : Z :=
  match e with
  | IntegrityStatus_Unspecified => 0
  | IntegrityStatus_IntegrityUnverified => 1
  | IntegrityStatus_IntegrityValid => 2
  | IntegrityStatus_IntegrityInvalid => 3
  end.

Definition IntegrityStatus_try_from (n : Z) : option IntegrityStatus :=
  match n with
  | 0%Z => Some IntegrityStatus_Unspecified
  | 1%Z => Some IntegrityStatus_IntegrityUnverified
  | 2%Z => Some IntegrityStatus_IntegrityValid
  | 3%Z => Some IntegrityStatus_IntegrityInvalid
  | _ => None
  end.

Definition IntegrityStatus_as_str_name (e : IntegrityStatus) : string :=
  match e with
  | IntegrityStatus_Unspecified => "INTEGRITY_STATUS_UNSPECIFIED"
  | IntegrityStatus_IntegrityUnverified => "INTEGRITY_UNVERIFIED"
  | IntegrityStatus_IntegrityValid => "INTEGRITY_VALID"
  | IntegrityStatus_IntegrityInvalid => "INTEGRITY_INVALID"
  end.

Definition IntegrityStatus_from_str_name (value : string) : option IntegrityStatus :=
  if String.eqb value "INTEGRITY_STATUS_UNSPECIFIED" then Some IntegrityStatus_Unspecified
  else if String.eqb value "INTEGRITY_UNVERIFIED" then Some IntegrityStatus_IntegrityUnverified
  else if String.eqb value "INTEGRITY_VALID" then Some IntegrityStatus_IntegrityValid
  else if String.eqb value "INTEGRITY_INVALID" then Some IntegrityStatus_IntegrityInvalid
  else None.

Definition NormalizationStatus_as_str_name (e : NormalizationStatus) : string :=
  match e with
  | NormalizationStatus_Unspecified => "NORMALIZATION_STATUS_UNSPECIFIED"
  | NormalizationStatus_Success => "NORMALIZATION_STATUS_SUCCESS"
  | NormalizationStatus_Partial => "NORMALIZATION_STATUS_PARTIAL"
  | NormalizationStatus_Failed => "NORMALIZATION_STATUS_FAILED"
  end.

Definition NormalizationStatus_from_str_name (value : string) : option NormalizationStatus :=
  if String.eqb value "NORMALIZATION_STATUS_UNSPECIFIED" then Some NormalizationStatus_Unspecified
  else if String.eqb value "NORMALIZATION_STATUS_SUCCESS" then Some NormalizationStatus_Success
  else if String.eqb value "NORMALIZATION_STATUS_PARTIAL" then Some NormalizationStatus_Partial
  else if String.eqb value "NORMALIZATION_STATUS_FAILED" then Some NormalizationStatus_Failed
  else None.

Inductive TransformationStatus : Set :=
| TransformationStatus_Unspecified | TransformationStatus_Success | TransformationStatus_Failed.

Definition TransformationStatus_as_i32 (e : TransformationStatus) : Z :=
  match e with
  | TransformationStatus_Unspecified => 0
  | TransformationStatus_Success => 1
  | TransformationStatus_Failed => 2
  end.

Definition TransformationStatus_try_from (n : Z) : option TransformationStatus :=
  match n with
  | 0%Z => Some TransformationStatus_Unspecified
  | 1%Z => Some TransformationStatus_Success
  | 2%Z => Some TransformationStatus_Failed
  | _ => None
  end.

Definition TransformationStatus_as_str_name (e : TransformationStatus) : string :=
  match e with
  | TransformationStatus_Unspecified => "TRANSFORMATION_STATUS_UNSPECIFIED"
  | TransformationStatus_Success => "TRANSFORMATION_STATUS_SUCCESS"
  | TransformationStatus_Failed => "TRANSFORMATION_STATUS_FAILED"
  end.

Definition TransformationStatus_from_str_name (value : string) : option TransformationStatus :=
  if String.eqb value "TRANSFORMATION_STATUS_UNSPECIFIED" then Some TransformationStatus_Unspecified
  else if String.eqb value "TRANSFORMATION_STATUS_SUCCESS" then Some TransformationStatus_Success
  else if String.eqb value "TRANSFORMATION_STATUS_FAILED" then Some TransformationStatus_Failed
  else None.

Inductive EntityType : Set :=
| EntityType_Unspecified | EntityType_Host | EntityType_User | EntityType_Account | EntityType_Ip
| EntityType_Process | EntityType_File | EntityType_Container | EntityType_Service | EntityType_Application.

Definition EntityType_as_i32 (e : EntityType) : Z :=
  match e with
  | EntityType_Unspecified => 0
  | EntityType_Host => 1
  | EntityType_User => 2
  | EntityType_Account => 3
  | EntityType_Ip => 4
  | EntityType_Process => 5
  | EntityType_File => 6
  | EntityType_Container => 7
  | EntityType_Service => 8
  | EntityType_Application => 9
  end.

Definition EntityType_try_from (n : Z) : option EntityType :=
  match n with
  | 0%Z => Some EntityType_Unspecified
  | 1%Z => Some EntityType_Host
  | 2%Z => Some EntityType_User
  | 3%Z => Some EntityType_Account
  | 4%Z => Some EntityType_Ip
  | 5%Z => Some EntityType_Process
  | 6%Z => Some EntityType_File
  | 7%Z => Some EntityType_Container
  | 8%Z => Some EntityType_Service
  | 9%Z => Some EntityType_Application
  | _ => None
  end.

Definition EntityType_as_str_name (e : EntityType) : string :=
  match e with
  | EntityType_Unspecified => "ENTITY_TYPE_UNSPECIFIED"
  | EntityType_Host => "ENTITY_TYPE_HOST"
  | EntityType_User => "ENTITY_TYPE_USER"
  | EntityType_Account => "ENTITY_TYPE_ACCOUNT"
  | EntityType_Ip => "ENTITY_TYPE_IP"
  | EntityType_Process => "ENTITY_TYPE_PROCESS"
  | EntityType_File => "ENTITY_TYPE_FILE"
  | EntityType_Container => "ENTITY_TYPE_CONTAINER"
  | EntityType_Service => "ENTITY_TYPE_SERVICE"
  | EntityType_Application => "ENTITY_TYPE_APPLICATION"
  end.

Definition EntityType_from_str_name (value : string) : option EntityType :=
  if String.eqb value "ENTITY_TYPE_UNSPECIFIED" then Some EntityType_Unspecified
  else if String.eqb value "ENTITY_TYPE_HOST" then Some EntityType_Host
  else if String.eqb value "ENTITY_TYPE_USER" then Some EntityType_User
  else if String.eqb value "ENTITY_TYPE_ACCOUNT" then Some EntityType_Account
  else if String.eqb value "ENTITY_TYPE_IP" then Some EntityType_Ip
  else if String.eqb value "ENTITY_TYPE_PROCESS" then Some EntityType_Process
  else if String.eqb value "ENTITY_TYPE_FILE" then Some EntityType_File
  else if String.eqb value "ENTITY_TYPE_CONTAINER" then Some EntityType_Container
  else if String.eqb value "ENTITY_TYPE_SERVICE" then Some EntityType_Service
  else if String.eqb value "ENTITY_TYPE_APPLICATION" then Some EntityType_Application
  else None.

Inductive FindingEntityRole : Set :=
| FindingEntityRole_Unspecified | FindingEntityRole_Subject | FindingEntityRole_Source
| FindingEntityRole_Destination | FindingEntityRole_Actor | FindingEntityRole_Target
| FindingEntityRole_Affected | FindingEntityRole_Related.

Definition FindingEntityRole_as_i32 (e : FindingEntityRole) : Z :=
  match e with
  | FindingEntityRole_Unspecified => 0
  | FindingEntityRole_Subject => 1
  | FindingEntityRole_Source => 2
  | FindingEntityRole_Destination => 3
  | FindingEntityRole_Actor => 4
  | FindingEntityRole_Target => 5
  | FindingEntityRole_Affected => 6
  | FindingEntityRole_Related => 7
  end.

Definition FindingEntityRole_try_from (n : Z) : option FindingEntityRole :=
  match n with
  | 0%Z => Some FindingEntityRole_Unspecified
  | 1%Z => Some FindingEntityRole_Subject
  | 2%Z => Some FindingEntityRole_Source
  | 3%Z => Some FindingEntityRole_Destination
  | 4%Z => Some FindingEntityRole_Actor
  | 5%Z => Some FindingEntityRole_Target
  | 6%Z => Some FindingEntityRole_Affected
  | 7%Z => Some FindingEntityRole_Related
  | _ => None
  end.

Definition FindingEntityRole_as_str_name (e : FindingEntityRole) : string :=
  match e with
  | FindingEntityRole_Unspecified => "FINDING_ENTITY_ROLE_UNSPECIFIED"
  | FindingEntityRole_Subject => "FINDING_ENTITY_ROLE_SUBJECT"
  | FindingEntityRole_Source => "FINDING_ENTITY_ROLE_SOURCE"
  | FindingEntityRole_Destination => "FINDING_ENTITY_ROLE_DESTINATION"
  | FindingEntityRole_Actor => "FINDING_ENTITY_ROLE_ACTOR"
  | FindingEntityRole_Target => "FINDING_ENTITY_ROLE_TARGET"
  | FindingEntityRole_Affected => "FINDING_ENTITY_ROLE_AFFECTED"
  | FindingEntityRole_Related => "FINDING_ENTITY_ROLE_RELATED"
  end.

Definition FindingEntityRole_from_str_name (value : string) : option FindingEntityRole :=
  if String.eqb value "FINDING_ENTITY_ROLE_UNSPECIFIED" then Some FindingEntityRole_Unspecified
  else if String.eqb value "FINDING_ENTITY_ROLE_SUBJECT" then Some FindingEntityRole_Subject
  else if String.eqb value "FINDING_ENTITY_ROLE_SOURCE" then Some FindingEntityRole_Source
  else if String.eqb value "FINDING_ENTITY_ROLE_DESTINATION" then Some FindingEntityRole_Destination
  else if String.eqb value "FINDING_ENTITY_ROLE_ACTOR" then Some FindingEntityRole_Actor
  else if String.eqb value "FINDING_ENTITY_ROLE_TARGET" then Some FindingEntityRole_Target
  else if String.eqb value "FINDING_ENTITY_ROLE_AFFECTED" then Some FindingEntityRole_Affected
  else if String.eqb value "FINDING_ENTITY_ROLE_RELATED" then Some FindingEntityRole_Related
  else None.

Inductive ErrorCategory : Set :=
| ErrorCategory_Unspecified | ErrorCategory_Validation | ErrorCategory_Authentication
| ErrorCategory_Authorization | ErrorCategory_RateLimit | ErrorCategory_Conflict | ErrorCategory_Parsing
| ErrorCategory_Normalization | ErrorCategory_Storage | ErrorCategory_Transport | ErrorCategory_Dependency
| ErrorCategory_Integrity | ErrorCategory_Internal.

Definition ErrorCategory_as_i32 (e : ErrorCategory) : Z :=
  match e with
  | ErrorCategory_Unspecified => 0
  | ErrorCategory_Validation => 1
  | ErrorCategory_Authentication => 2
  | ErrorCategory_Authorization => 3
  | ErrorCategory_RateLimit => 4
  | ErrorCategory_Conflict => 5
  | ErrorCategory_Parsing => 6
  | ErrorCategory_Normalization => 7
  | ErrorCategory_Storage => 8
  | ErrorCategory_Transport => 9
  | ErrorCategory_Dependency => 10
  | ErrorCategory_Integrity => 11
  | ErrorCategory_Internal => 12
  end.

Definition ErrorCategory_try_from (n : Z) : option ErrorCategory :=
  match n with
  | 0%Z => Some ErrorCategory_Unspecified
  | 1%Z => Some ErrorCategory_Validation
  | 2%Z => Some ErrorCategory_Authentication
  | 3%Z => Some ErrorCategory_Authorization
  | 4%Z => Some ErrorCategory_RateLimit
  | 5%Z => Some ErrorCategory_Conflict
  | 6%Z => Some ErrorCategory_Parsing
  | 7%Z => Some ErrorCategory_Normalization
  | 8%Z => Some ErrorCategory_Storage
  | 9%Z => Some ErrorCategory_Transport
  | 10%Z => Some ErrorCategory_Dependency
  | 11%Z => Some ErrorCategory_Integrity
  | 12%Z => Some ErrorCategory_Internal
  | _ => None
  end.

Definition ErrorCategory_as_str_name (e : ErrorCategory) : string :=
  match e with
  | ErrorCategory_Unspecified => "ERROR_CATEGORY_UNSPECIFIED"
  | ErrorCategory_Validation => "VALIDATION"
  | ErrorCategory_Authentication => "AUTHENTICATION"
  | ErrorCategory_Authorization => "AUTHORIZATION"
  | ErrorCategory_RateLimit => "RATE_LIMIT"
  | ErrorCategory_Conflict => "CONFLICT"
  | ErrorCategory_Parsing => "PARSING"
  | ErrorCategory_Normalization => "NORMALIZATION"
  | ErrorCategory_Storage => "STORAGE"
  | ErrorCategory_Transport => "TRANSPORT"
  | ErrorCategory_Dependency => "DEPENDENCY"
  | ErrorCategory_Integrity => "INTEGRITY"
  | ErrorCategory_Internal => "INTERNAL"
  end.

Definition ErrorCategory_from_str_name (value : string) : option ErrorCategory :=
  if String.eqb value "ERROR_CATEGORY_UNSPECIFIED" then Some ErrorCategory_Unspecified
  else if String.eqb value "VALIDATION" then Some ErrorCategory_Validation
  else if String.eqb value "AUTHENTICATION" then Some ErrorCategory_Authentication
  else if String.eqb value "AUTHORIZATION" then Some ErrorCategory_Authorization
  else if String.eqb value "RATE_LIMIT" then Some ErrorCategory_RateLimit
  else if String.eqb value "CONFLICT" then Some ErrorCategory_Conflict
  else if String.eqb value "PARSING" then Some ErrorCategory_Parsing
  else if String.eqb value "NORMALIZATION" then Some ErrorCategory_Normalization
  else if String.eqb value "STORAGE" then Some ErrorCategory_Storage
  else if String.eqb value "TRANSPORT" then Some ErrorCategory_Transport
  else if String.eqb value "DEPENDENCY" then Some ErrorCategory_Dependency
  else if String.eqb value "INTEGRITY" then Some ErrorCategory_Integrity
  else if String.eqb value "INTERNAL" then Some ErrorCategory_Internal
  else None.

Definition SignalRuleType_try_from (n : Z) : option SignalRuleType :=
  match n with
  | 0%Z => Some SignalRuleType_Unspecified
  | 1%Z => Some SignalRuleType_Event
  | 2%Z => Some SignalRuleType_Threshold
  | 3%Z => Some SignalRuleType_Correlation
  | _ => None
  end.

Definition SignalRuleType_as_str_name (e : SignalRuleType) : string :=
  match e with
  | SignalRuleType_Unspecified => "SIGNAL_RULE_TYPE_UNSPECIFIED"
  | SignalRuleType_Event => "SIGNAL_RULE_TYPE_EVENT"
  | SignalRuleType_Threshold => "SIGNAL_RULE_TYPE_THRESHOLD"
  | SignalRuleType_Correlation => "SIGNAL_RULE_TYPE_CORRELATION"
  end.

Definition SignalRuleType_from_str_name (value : string) : option SignalRuleType :=
  if String.eqb value "SIGNAL_RULE_TYPE_UNSPECIFIED" then Some SignalRuleType_Unspecified
  else if String.eqb value "SIGNAL_RULE_TYPE_EVENT" then Some SignalRuleType_Event
  else if String.eqb value "SIGNAL_RULE_TYPE_THRESHOLD" then Some SignalRuleType_Threshold
  else if String.eqb value "SIGNAL_RULE_TYPE_CORRELATION" then Some SignalRuleType_Correlation
  else None.

Definition SignalStatus_try_from (n : Z) : option SignalStatus :=
  match n with
  | 0%Z => Some SignalStatus_Unspecified
  | 1%Z => Some SignalStatus_Active
  | 2%Z => Some SignalStatus_Suppressed
  | 3%Z => Some SignalStatus_Promoted
  | 4%Z => Some SignalStatus_Invalidated
  | _ => None
  end.

Definition SignalStatus_as_str_name (e : SignalStatus) : string :=
  match e with
  | SignalStatus_Unspecified => "SIGNAL_STATUS_UNSPECIFIED"
  | SignalStatus_Active => "SIGNAL_STATUS_ACTIVE"
  | SignalStatus_Suppressed => "SIGNAL_STATUS_SUPPRESSED"
  | SignalStatus_Promoted => "SIGNAL_STATUS_PROMOTED"
  | SignalStatus_Invalidated => "SIGNAL_STATUS_INVALIDATED"
  end.

Definition SignalStatus_from_str_name (value : string) : option SignalStatus :=
  if String.eqb value "SIGNAL_STATUS_UNSPECIFIED" then Some SignalStatus_Unspecified
  else if String.eqb value "SIGNAL_STATUS_ACTIVE" then Some SignalStatus_Active
  else if String.eqb value "SIGNAL_STATUS_SUPPRESSED" then Some SignalStatus_Suppressed
  else if String.eqb value "SIGNAL_STATUS_PROMOTED" then Some SignalStatus_Promoted
  else if String.eqb value "SIGNAL_STATUS_INVALIDATED" then Some SignalStatus_Invalidated
  else None.

Definition SignalInputType_try_from (n : Z) : option SignalInputType :=
  match n with
  | 0%Z => Some SignalInputType_Unspecified
  | 1%Z => Some SignalInputType_NormalizedEvent
  | 2%Z => Some SignalInputType_Signal
  | 3%Z => Some SignalInputType_Entity
  | _ => None
  end.

Definition SignalInputType_as_str_name (e : SignalInputType) : string :=
  match e with
  | SignalInputType_Unspecified => "SIGNAL_INPUT_TYPE_UNSPECIFIED"
  | SignalInputType_NormalizedEvent => "SIGNAL_INPUT_TYPE_NORMALIZED_EVENT"
  | SignalInputType_Signal => "SIGNAL_INPUT_TYPE_SIGNAL"
  | SignalInputType_Entity => "SIGNAL_INPUT_TYPE_ENTITY"
  end.

Definition SignalInputType_from_str_name (value : string) : option SignalInputType :=
  if String.eqb value "SIGNAL_INPUT_TYPE_UNSPECIFIED" then Some SignalInputType_Unspecified
  else if String.eqb value "SIGNAL_INPUT_TYPE_NORMALIZED_EVENT" then Some SignalInputType_NormalizedEvent
  else if String.eqb value "SIGNAL_INPUT_TYPE_SIGNAL" then Some SignalInputType_Signal
  else if String.eqb value "SIGNAL_INPUT_TYPE_ENTITY" then Some SignalInputType_Entity
  else None.

Definition DetectionExecutionBackend_try_from (n : Z) : option DetectionExecutionBackend :=
  match n with
  | 0%Z => Some DetectionExecutionBackend_Unspecified
  | 1%Z => Some DetectionExecutionBackend_Clickhouse
  | 2%Z => Some DetectionExecutionBackend_Stream
  | _ => None
  end.

Definition DetectionExecutionBackend_as_str_name (e : DetectionExecutionBackend) : string :=
  match e with
  | DetectionExecutionBackend_Unspecified => "DETECTION_EXECUTION_BACKEND_UNSPECIFIED"
  | DetectionExecutionBackend_Clickhouse => "DETECTION_EXECUTION_BACKEND_CLICKHOUSE"
  | DetectionExecutionBackend_Stream => "DETECTION_EXECUTION_BACKEND_STREAM"
  end.

Definition DetectionExecutionBackend_from_str_name (value : string) : option DetectionExecutionBackend :=
  if String.eqb value "DETECTION_EXECUTION_BACKEND_UNSPECIFIED" then Some DetectionExecutionBackend_Unspecified
  else if String.eqb value "DETECTION_EXECUTION_BACKEND_CLICKHOUSE" then Some DetectionExecutionBackend_Clickhouse
  else if String.eqb value "DETECTION_EXECUTION_BACKEND_STREAM" then Some DetectionExecutionBackend_Stream
  else None.

Definition FindingType_try_from (n : Z) : option FindingType :=
  match n with
  | 0%Z => Some FindingType_Unspecified
  | 1%Z => Some FindingType_Detection
  | 2%Z => Some FindingType_Threshold
  | 3%Z => Some FindingType_Correlation
  | 4%Z => Some FindingType_Analytical
  | _ => None
  end.

Definition FindingType_as_str_name (e : FindingType) : string :=
  match e with
  | FindingType_Unspecified => "FINDING_TYPE_UNSPECIFIED"
  | FindingType_Detection => "FINDING_TYPE_DETECTION"
  | FindingType_Threshold => "FINDING_TYPE_THRESHOLD"
  | FindingType_Correlation => "FINDING_TYPE_CORRELATION"
  | FindingType_Analytical => "FINDING_TYPE_ANALYTICAL"
  end.

Definition FindingType_from_str_name (value : string) : option FindingType :=
  if String.eqb value "FINDING_TYPE_UNSPECIFIED" then Some FindingType_Unspecified
  else if String.eqb value "FINDING_TYPE_DETECTION" then Some FindingType_Detection
  else if String.eqb value "FINDING_TYPE_THRESHOLD" then Some FindingType_Threshold
  else if String.eqb value "FINDING_TYPE_CORRELATION" then Some FindingType_Correlation
  else if String.eqb value "FINDING_TYPE_ANALYTICAL" then Some FindingType_Analytical
  else None.

Definition FindingStatus_try_from (n : Z) : option FindingStatus :=
  match n with
  | 0%Z => Some FindingStatus_Unspecified
  | 1%Z => Some FindingStatus_Open
  | 2%Z => Some FindingStatus_Acknowledged
  | 3%Z => Some FindingStatus_Suppressed
  | 4%Z => Some FindingStatus_Resolved
  | 5%Z => Some FindingStatus_Invalidated
  | _ => None
  end.

Definition FindingStatus_as_str_name (e : FindingStatus) : string :=
  match e with
  | FindingStatus_Unspecified => "FINDING_STATUS_UNSPECIFIED"
  | FindingStatus_Open => "FINDING_STATUS_OPEN"
  | FindingStatus_Acknowledged => "FINDING_STATUS_ACKNOWLEDGED"
  | FindingStatus_Suppressed => "FINDING_STATUS_SUPPRESSED"
  | FindingStatus_Resolved => "FINDING_STATUS_RESOLVED"
  | FindingStatus_Invalidated => "FINDING_STATUS_INVALIDATED"
  end.

Definition FindingStatus_from_str_name (value : string) : option FindingStatus :=
  if String.eqb value "FINDING_STATUS_UNSPECIFIED" then Some FindingStatus_Unspecified
  else if String.eqb value "FINDING_STATUS_OPEN" then Some FindingStatus_Open
  else if String.eqb value "FINDING_STATUS_ACKNOWLEDGED" then Some FindingStatus_Acknowledged
  else if String.eqb value "FINDING_STATUS_SUPPRESSED" then Some FindingStatus_Suppressed
  else if String.eqb value "FINDING_STATUS_RESOLVED" then Some FindingStatus_Resolved
  else if String.eqb value "FINDING_STATUS_INVALIDATED" then Some FindingStatus_Invalidated
  else None.

Definition FindingDisposition_try_from (n : Z) : option FindingDisposition :=
  match n with
  | 0%Z => Some FindingDisposition_Unspecified
  | 1%Z => Some FindingDisposition_Undetermined
  | 2%Z => Some FindingDisposition_TruePositive
  | 3%Z => Some FindingDisposition_BenignTruePositive
  | 4%Z => Some FindingDisposition_FalsePositive
  | 5%Z => Some FindingDisposition_Duplicate
  | 6%Z => Some FindingDisposition_TestActivity
  | _ => None
  end.

Definition FindingDisposition_as_str_name (e : FindingDisposition) : string :=
  match e with
  | FindingDisposition_Unspecified => "FINDING_DISPOSITION_UNSPECIFIED"
  | FindingDisposition_Undetermined => "FINDING_DISPOSITION_UNDETERMINED"
  | FindingDisposition_TruePositive => "FINDING_DISPOSITION_TRUE_POSITIVE"
  | FindingDisposition_BenignTruePositive => "FINDING_DISPOSITION_BENIGN_TRUE_POSITIVE"
  | FindingDisposition_FalsePositive => "FINDING_DISPOSITION_FALSE_POSITIVE"
  | FindingDisposition_Duplicate => "FINDING_DISPOSITION_DUPLICATE"
  | FindingDisposition_TestActivity => "FINDING_DISPOSITION_TEST_ACTIVITY"
  end.

Definition FindingDisposition_from_str_name (value : string) : option FindingDisposition :=
  if String.eqb value "FINDING_DISPOSITION_UNSPECIFIED" then Some FindingDisposition_Unspecified
  else if String.eqb value "FINDING_DISPOSITION_UNDETERMINED" then Some FindingDisposition_Undetermined
  else if String.eqb value "FINDING_DISPOSITION_TRUE_POSITIVE" then Some FindingDisposition_TruePositive
  else if String.eqb value "FINDING_DISPOSITION_BENIGN_TRUE_POSITIVE" then Some FindingDisposition_BenignTruePositive
  else if String.eqb value "FINDING_DISPOSITION_FALSE_POSITIVE" then Some FindingDisposition_FalsePositive
  else if String.eqb value "FINDING_DISPOSITION_DUPLICATE" then Some FindingDisposition_Duplicate
  else if String.eqb value "FINDING_DISPOSITION_TEST_ACTIVITY" then Some FindingDisposition_TestActivity
  else None.

Inductive IncidentStatus : Set :=
| IncidentStatus_Unspecified | IncidentStatus_Open | IncidentStatus_Triaged | IncidentStatus_Investigating
| IncidentStatus_Contained | IncidentStatus_Resolved | IncidentStatus_Closed | IncidentStatus_Invalidated.

Definition IncidentStatus_as_i32 (e : IncidentStatus) : Z :=
  match e with
  | IncidentStatus_Unspecified => 0
  | IncidentStatus_Open => 1
  | IncidentStatus_Triaged => 2
  | IncidentStatus_Investigating => 3
  | IncidentStatus_Contained => 4
  | IncidentStatus_Resolved => 5
  | IncidentStatus_Closed => 6
  | IncidentStatus_Invalidated => 7
  end.

Definition IncidentStatus_try_from (n : Z) : option IncidentStatus :=
  match n with
  | 0%Z => Some IncidentStatus_Unspecified
  | 1%Z => Some IncidentStatus_Open
  | 2%Z => Some IncidentStatus_Triaged
  | 3%Z => Some IncidentStatus_Investigating
  | 4%Z => Some IncidentStatus_Contained
  | 5%Z => Some IncidentStatus_Resolved
  | 6%Z => Some IncidentStatus_Closed
  | 7%Z => Some IncidentStatus_Invalidated
  | _ => None
  end.

Definition IncidentStatus_as_str_name (e : IncidentStatus) : string :=
  match e with
  | IncidentStatus_Unspecified => "INCIDENT_STATUS_UNSPECIFIED"
  | IncidentStatus_Open => "INCIDENT_STATUS_OPEN"
  | IncidentStatus_Triaged => "INCIDENT_STATUS_TRIAGED"
  | IncidentStatus_Investigating => "INCIDENT_STATUS_INVESTIGATING"
  | IncidentStatus_Contained => "INCIDENT_STATUS_CONTAINED"
  | IncidentStatus_Resolved => "INCIDENT_STATUS_RESOLVED"
  | IncidentStatus_Closed => "INCIDENT_STATUS_CLOSED"
  | IncidentStatus_Invalidated => "INCIDENT_STATUS_INVALIDATED"
  end.

Definition IncidentStatus_from_str_name (value : string) : option IncidentStatus :=
  if String.eqb value "INCIDENT_STATUS_UNSPECIFIED" then Some IncidentStatus_Unspecified
  else if String.eqb value "INCIDENT_STATUS_OPEN" then Some IncidentStatus_Open
  else if String.eqb value "INCIDENT_STATUS_TRIAGED" then Some IncidentStatus_Triaged
  else if String.eqb value "INCIDENT_STATUS_INVESTIGATING" then Some IncidentStatus_Investigating
  else if String.eqb value "INCIDENT_STATUS_CONTAINED" then Some IncidentStatus_Contained
  else if String.eqb value "INCIDENT_STATUS_RESOLVED" then Some IncidentStatus_Resolved
  else if String.eqb value "INCIDENT_STATUS_CLOSED" then Some IncidentStatus_Closed
  else if String.eqb value "INCIDENT_STATUS_INVALIDATED" then Some IncidentStatus_Invalidated
  else None.

(** What the bindings give for an enumeration, and what a decoder relies on *)
Class ProtoEnum (A : Type) := {
  members : list A;
  as_i32 : A -> Z;
  try_from_i32 : Z -> option A;
  as_str_name : A -> string;
  from_str_name : string -> option A;
}.
Class ProtoEnumLaws (A : Type) `{ProtoEnum A} : Prop := {
  members_all e : e ∈ members;
  try_from_iff n e : try_from_i32 n = Some e <-> as_i32 e = n;
  from_str_name_iff s e : from_str_name s = Some e <-> as_str_name e = s;
  zero_member : exists e, as_i32 e = 0%Z;
}.

#[global] Instance CaseStatus_enum : ProtoEnum CaseStatus := {|
  members := [CaseStatus_Unspecified; CaseStatus_Open; CaseStatus_Triage; CaseStatus_Investigating;
                CaseStatus_OnHold; CaseStatus_Response; CaseStatus_Resolved; CaseStatus_Closed];
  as_i32 := CaseStatus_as_i32; try_from_i32 := CaseStatus_try_from;
  as_str_name := CaseStatus_as_str_name; from_str_name := CaseStatus_from_str_name;
|}.
#[global] Instance CasePriority_enum : ProtoEnum CasePriority := {|
  members := [CasePriority_Unspecified; CasePriority_P1Critical; CasePriority_P2High; CasePriority_P3Medium;
                CasePriority_P4Low];
  as_i32 := CasePriority_as_i32; try_from_i32 := CasePriority_try_from;
  as_str_name := CasePriority_as_str_name; from_str_name := CasePriority_from_str_name;
|}.
#[global] Instance CaseDisposition_enum : ProtoEnum CaseDisposition := {|
  members := [CaseDisposition_Unspecified; CaseDisposition_Undetermined; CaseDisposition_ConfirmedIncident;
                CaseDisposition_BenignActivity; CaseDisposition_FalsePositive;
                CaseDisposition_Duplicate; CaseDisposition_Test; CaseDisposition_Other];
  as_i32 := CaseDisposition_as_i32; try_from_i32 := CaseDisposition_try_from;
  as_str_name := CaseDisposition_as_str_name; from_str_name := CaseDisposition_from_str_name;
|}.
#[global] Instance IntegrityStatus_enum : ProtoEnum IntegrityStatus := {|
  members := [IntegrityStatus_Unspecified; IntegrityStatus_IntegrityUnverified; IntegrityStatus_IntegrityValid;
                IntegrityStatus_IntegrityInvalid];
  as_i32 := IntegrityStatus_as_i32; try_from_i32 := IntegrityStatus_try_from;
  as_str_name := IntegrityStatus_as_str_name; from_str_name := IntegrityStatus_from_str_name;
|}.
#[global] Instance NormalizationStatus_enum : ProtoEnum NormalizationStatus := {|
  members := [NormalizationStatus_Unspecified; NormalizationStatus_Success; NormalizationStatus_Partial;
                NormalizationStatus_Failed];
  as_i32 := NormalizationStatus_as_i32; try_from_i32 := NormalizationStatus_try_from;
  as_str_name := NormalizationStatus_as_str_name; from_str_name := NormalizationStatus_from_str_name;
|}.
#[global] Instance TransformationStatus_enum : ProtoEnum TransformationStatus := {|
  members := [TransformationStatus_Unspecified; TransformationStatus_Success; TransformationStatus_Failed];
  as_i32 := TransformationStatus_as_i32; try_from_i32 := TransformationStatus_try_from;
  as_str_name := TransformationStatus_as_str_name; from_str_name := TransformationStatus_from_str_name;
|}.
#[global] Instance ExecutionMode_enum : ProtoEnum ExecutionMode := {|
  members := [ExecutionMode_Unspecified; ExecutionMode_Live; ExecutionMode_Replay; ExecutionMode_Test];
  as_i32 := ExecutionMode_as_i32; try_from_i32 := ExecutionMode_try_from;
  as_str_name := ExecutionMode_as_str_name; from_str_name := ExecutionMode_from_str_name;
|}.
#[global] Instance EntityType_enum : ProtoEnum EntityType := {|
  members := [EntityType_Unspecified; EntityType_Host; EntityType_User; EntityType_Account; EntityType_Ip;
                EntityType_Process; EntityType_File; EntityType_Container; EntityType_Service;
                EntityType_Application];
  as_i32 := EntityType_as_i32; try_from_i32 := EntityType_try_from;
  as_str_name := EntityType_as_str_name; from_str_name := EntityType_from_str_name;
|}.
#[global] Instance FindingEntityRole_enum : ProtoEnum FindingEntityRole := {|
  members := [FindingEntityRole_Unspecified; FindingEntityRole_Subject; FindingEntityRole_Source;
                FindingEntityRole_Destination; FindingEntityRole_Actor; FindingEntityRole_Target;
                FindingEntityRole_Affected; FindingEntityRole_Related];
  as_i32 := FindingEntityRole_as_i32; try_from_i32 := FindingEntityRole_try_from;
  as_str_name := FindingEntityRole_as_str_name; from_str_name := FindingEntityRole_from_str_name;
|}.
#[global] Instance ErrorCategory_enum : ProtoEnum ErrorCategory := {|
  members := [ErrorCategory_Unspecified; ErrorCategory_Validation; ErrorCategory_Authentication;
                ErrorCategory_Authorization; ErrorCategory_RateLimit; ErrorCategory_Conflict;
                ErrorCategory_Parsing; ErrorCategory_Normalization; ErrorCategory_Storage;
                ErrorCategory_Transport; ErrorCategory_Dependency; ErrorCategory_Integrity;
                ErrorCategory_Internal];
  as_i32 := ErrorCategory_as_i32; try_from_i32 := ErrorCategory_try_from;
  as_str_name := ErrorCategory_as_str_name; from_str_name := ErrorCategory_from_str_name;
|}.
#[global] Instance SignalRuleType_enum : ProtoEnum SignalRuleType := {|
  members := [SignalRuleType_Unspecified; SignalRuleType_Event; SignalRuleType_Threshold;
                SignalRuleType_Correlation];
  as_i32 := SignalRuleType_as_i32; try_from_i32 := SignalRuleType_try_from;
  as_str_name := SignalRuleType_as_str_name; from_str_name := SignalRuleType_from_str_name;
|}.
#[global] Instance SignalStatus_enum : ProtoEnum SignalStatus := {|
  members := [SignalStatus_Unspecified; SignalStatus_Active; SignalStatus_Suppressed; SignalStatus_Promoted;
                SignalStatus_Invalidated];
  as_i32 := SignalStatus_as_i32; try_from_i32 := SignalStatus_try_from;
  as_str_name := SignalStatus_as_str_name; from_str_name := SignalStatus_from_str_name;
|}.
#[global] Instance SignalInputType_enum : ProtoEnum SignalInputType := {|
  members := [SignalInputType_Unspecified; SignalInputType_NormalizedEvent; SignalInputType_Signal;
                SignalInputType_Entity];
  as_i32 := SignalInputType_as_i32; try_from_i32 := SignalInputType_try_from;
  as_str_name := SignalInputType_as_str_name; from_str_name := SignalInputType_from_str_name;
|}.
#[global] Instance DetectionExecutionBackend_enum : ProtoEnum DetectionExecutionBackend := {|
  members := [DetectionExecutionBackend_Unspecified; DetectionExecutionBackend_Clickhouse;
                DetectionExecutionBackend_Stream];
  as_i32 := DetectionExecutionBackend_as_i32; try_from_i32 := DetectionExecutionBackend_try_from;
  as_str_name := DetectionExecutionBackend_as_str_name; from_str_name := DetectionExecutionBackend_from_str_name;
|}.
#[global] Instance FindingType_enum : ProtoEnum FindingType := {|
  members := [FindingType_Unspecified; FindingType_Detection; FindingType_Threshold; FindingType_Correlation;
                FindingType_Analytical];
  as_i32 := FindingType_as_i32; try_from_i32 := FindingType_try_from;
  as_str_name := FindingType_as_str_name; from_str_name := FindingType_from_str_name;
|}.
#[global] Instance FindingStatus_enum : ProtoEnum FindingStatus := {|
  members := [FindingStatus_Unspecified; FindingStatus_Open; FindingStatus_Acknowledged; FindingStatus_Suppressed;
                FindingStatus_Resolved; FindingStatus_Invalidated];
  as_i32 := FindingStatus_as_i32; try_from_i32 := FindingStatus_try_from;
  as_str_name := FindingStatus_as_str_name; from_str_name := FindingStatus_from_str_name;
|}.
#[global] Instance FindingDisposition_enum : ProtoEnum FindingDisposition := {|
  members := [FindingDisposition_Unspecified; FindingDisposition_Undetermined; FindingDisposition_TruePositive;
                FindingDisposition_BenignTruePositive; FindingDisposition_FalsePositive;
                FindingDisposition_Duplicate; FindingDisposition_TestActivity];
  as_i32 := FindingDisposition_as_i32; try_from_i32 := FindingDisposition_try_from;
  as_str_name := FindingDisposition_as_str_name; from_str_name := FindingDisposition_from_str_name;
|}.
#[global] Instance IncidentStatus_enum : ProtoEnum IncidentStatus := {|
  members := [IncidentStatus_Unspecified; IncidentStatus_Open; IncidentStatus_Triaged;
                IncidentStatus_Investigating; IncidentStatus_Contained; IncidentStatus_Resolved;
                IncidentStatus_Closed; IncidentStatus_Invalidated];
  as_i32 := IncidentStatus_as_i32; try_from_i32 := IncidentStatus_try_from;
  as_str_name := IncidentStatus_as_str_name; from_str_name := IncidentStatus_from_str_name;
|}.

(** ** Messages *)

Record AuditEvent := mkAuditEvent {
  au_audit_event_id : string;
  au_tenant_id : string;
  au_event_type : string;
  au_actor_type : string;
  au_actor_id : string;
  au_action : string;
  au_object_type : string;
  au_object_id : string;
  au_request_id : option string;
  au_occurred_at : option Timestamp;
  au_reason : option string;
  au_before_state : option Struct;
  au_after_state : option Struct;
  au_result : string;
  au_metadata : option Struct;
}.

Record Case := mkCase {
  cs_case_id : string;
  cs_tenant_id : string;
  cs_case_number : string;
  cs_status : Z;   (* i32 *)
  cs_priority : Z;   (* i32 *)
  cs_title : string;
  cs_description : string;
  cs_owner_user_id : option string;
  cs_created_by : string;
  cs_created_at : option Timestamp;
  cs_updated_at : option Timestamp;
  cs_closed_at : option Timestamp;
  cs_disposition : Z;   (* i32 *)
  cs_closure_reason : option string;
  cs_version : Z;   (* u64 *)
  cs_incident_ids : list string;
  cs_finding_ids : list string;
  cs_entity_ids : list string;
}.

Record Entity := mkEntity {
  en_entity_id : string;
  en_tenant_id : string;
  en_entity_type : Z;   (* i32 *)
  en_canonical_key : string;
  en_first_seen : option Timestamp;
  en_last_seen : option Timestamp;
  en_criticality : option string;
  en_attributes : option Struct;
  en_risk_score : string;
}.

Record FindingEntity := mkFindingEntity {
  fe_finding_id : string;
  fe_entity_id : string;
  fe_role : Z;   (* i32 *)
  fe_confidence : option string;
}.

Record RiskContribution := mkRiskContribution {
  rc_contribution_id : string;
  rc_tenant_id : string;
  rc_entity_id : string;
  rc_finding_id : string;
  rc_amount : string;
  rc_severity : string;
  rc_confidence : option string;
  rc_reason : string;
  rc_rule_id : option string;
  rc_rule_version : option string;
  rc_created_at : option Timestamp;
  rc_expires_at : option Timestamp;
}.

Record Incident := mkIncident {
  in_incident_id : string;
  in_tenant_id : string;
  in_status : Z;   (* i32 *)
  in_severity : string;
  in_confidence : option string;
  in_title : string;
  in_description : string;
  in_first_seen : option Timestamp;
  in_last_seen : option Timestamp;
  in_created_at : option Timestamp;
  in_updated_at : option Timestamp;
  in_correlation_reason : option string;
  in_correlation_rule_id : option string;
  in_correlation_rule_version : option string;
  in_window_start : option Timestamp;
  in_window_end : option Timestamp;
  in_owner_user_id : option string;
  in_disposition : option string;
  in_version : Z;   (* u64 *)
  in_finding_ids : list string;
}.

(** ** The fields of every message: name, type, cardinality and tag *)

Inductive FieldType : Set :=
| StringField | BytesField | BoolField | Uint32Field | Uint64Field
| EnumerationField (name : string) | MessageField (name : string) | StringMapField.
Inductive Cardinality : Set := Singular | Optional | Repeated.
Record FieldDescriptor := mkField {
  fld_name : string;
  fld_type : FieldType;
  fld_cardinality : Cardinality;
  fld_tag : Z;
}.

Definition AuditEvent_fields : list FieldDescriptor :=
  [mkField "audit_event_id" StringField Singular 1;
   mkField "tenant_id" StringField Singular 2;
   mkField "event_type" StringField Singular 3;
   mkField "actor_type" StringField Singular 4;
   mkField "actor_id" StringField Singular 5;
   mkField "action" StringField Singular 6;
   mkField "object_type" StringField Singular 7;
   mkField "object_id" StringField Singular 8;
   mkField "request_id" StringField Optional 9;
   mkField "occurred_at" (MessageField "Timestamp") Optional 10;
   mkField "reason" StringField Optional 11;
   mkField "before_state" (MessageField "Struct") Optional 12;
   mkField "after_state" (MessageField "Struct") Optional 13;
   mkField "result" StringField Singular 14;
   mkField "metadata" (MessageField "Struct") Optional 15].

Definition Case_fields : list FieldDescriptor :=
  [mkField "case_id" StringField Singular 1;
   mkField "tenant_id" StringField Singular 2;
   mkField "case_number" StringField Singular 3;
   mkField "status" (EnumerationField "CaseStatus") Singular 4;
   mkField "priority" (EnumerationField "CasePriority") Singular 5;
   mkField "title" StringField Singular 6;
   mkField "description" StringField Singular 7;
   mkField "owner_user_id" StringField Optional 8;
   mkField "created_by" StringField Singular 9;
   mkField "created_at" (MessageField "Timestamp") Optional 10;
   mkField "updated_at" (MessageField "Timestamp") Optional 11;
   mkField "closed_at" (MessageField "Timestamp") Optional 12;
   mkField "disposition" (EnumerationField "CaseDisposition") Singular 13;
   mkField "closure_reason" StringField Optional 14;
   mkField "version" Uint64Field Singular 15;
   mkField "incident_ids" StringField Repeated 16;
   mkField "finding_ids" StringField Repeated 17;
   mkField "entity_ids" StringField Repeated 18].

Definition Producer_fields : list FieldDescriptor :=
  [mkField "component" StringField Singular 1;
   mkField "component_version" StringField Singular 2;
   mkField "instance_id" StringField Singular 3].

Definition Entity_fields : list FieldDescriptor :=
  [mkField "entity_id" StringField Singular 1;
   mkField "tenant_id" StringField Singular 2;
   mkField "entity_type" (EnumerationField "EntityType") Singular 3;
   mkField "canonical_key" StringField Singular 4;
   mkField "first_seen" (MessageField "Timestamp") Optional 5;
   mkField "last_seen" (MessageField "Timestamp") Optional 6;
   mkField "criticality" StringField Optional 7;
   mkField "attributes" (MessageField "Struct") Optional 8;
   mkField "risk_score" StringField Singular 9].

Definition FindingEntity_fields : list FieldDescriptor :=
  [mkField "finding_id" StringField Singular 1;
   mkField "entity_id" StringField Singular 2;
   mkField "role" (EnumerationField "FindingEntityRole") Singular 3;
   mkField "confidence" StringField Optional 4].

Definition RiskContribution_fields : list FieldDescriptor :=
  [mkField "contribution_id" StringField Singular 1;
   mkField "tenant_id" StringField Singular 2;
   mkField "entity_id" StringField Singular 3;
   mkField "finding_id" StringField Singular 4;
   mkField "amount" StringField Singular 5;
   mkField "severity" StringField Singular 6;
   mkField "confidence" StringField Optional 7;
   mkField "reason" StringField Singular 8;
   mkField "rule_id" StringField Optional 9;
   mkField "rule_version" StringField Optional 10;
   mkField "created_at" (MessageField "Timestamp") Optional 11;
   mkField "expires_at" (MessageField "Timestamp") Optional 12].

Definition CerberoEnvelope_fields : list FieldDescriptor :=
  [mkField "contract_version" StringField Singular 1;
   mkField "message_id" StringField Singular 2;
   mkField "message_type" StringField Singular 3;
   mkField "tenant_id" StringField Singular 4;
   mkField "producer" (MessageField "Producer") Optional 5;
   mkField "emitted_at" (MessageField "Timestamp") Optional 6;
   mkField "trace_id" StringField Singular 7;
   mkField "causation_id" StringField Singular 8;
   mkField "correlation_id" StringField Singular 9;
   mkField "payload_schema" StringField Singular 10;
   mkField "payload" (MessageField "Any") Optional 11].

Definition CerberoError_fields : list FieldDescriptor :=
  [mkField "code" StringField Singular 1;
   mkField "category" (EnumerationField "ErrorCategory") Singular 2;
   mkField "message" StringField Singular 3;
   mkField "retryable" BoolField Singular 4;
   mkField "component" StringField Singular 5;
   mkField "request_id" StringField Singular 6;
   mkField "metadata" StringMapField Singular 7].

Definition SignalProvenance_fields : list FieldDescriptor :=
  [mkField "evaluated_at" (MessageField "Timestamp") Optional 1;
   mkField "execution_backend" (EnumerationField "DetectionExecutionBackend") Singular 2].

Definition SignalInput_fields : list FieldDescriptor :=
  [mkField "signal_id" StringField Singular 1;
   mkField "input_type" (EnumerationField "SignalInputType") Singular 2;
   mkField "input_id" StringField Singular 3;
   mkField "relation" StringField Singular 4;
   mkField "ordinal" Uint32Field Singular 5].

Definition Signal_fields : list FieldDescriptor :=
  [mkField "signal_id" StringField Singular 1;
   mkField "tenant_id" StringField Singular 2;
   mkField "rule_id" StringField Singular 3;
   mkField "rule_version" StringField Singular 4;
   mkField "rule_type" (EnumerationField "SignalRuleType") Singular 5;
   mkField "severity" StringField Singular 6;
   mkField "confidence" StringField Optional 7;
   mkField "status" (EnumerationField "SignalStatus") Singular 8;
   mkField "first_observed_at" (MessageField "Timestamp") Optional 9;
   mkField "last_observed_at" (MessageField "Timestamp") Optional 10;
   mkField "created_at" (MessageField "Timestamp") Optional 11;
   mkField "execution_mode" (EnumerationField "ExecutionMode") Singular 12;
   mkField "source_count" Uint64Field Singular 13;
   mkField "event_count" Uint64Field Singular 14;
   mkField "summary" StringField Singular 15;
   mkField "provenance" (MessageField "SignalProvenance") Optional 16;
   mkField "inputs" (MessageField "SignalInput") Repeated 17].

Definition FindingInput_fields : list FieldDescriptor :=
  [mkField "finding_id" StringField Singular 1;
   mkField "input_type" StringField Singular 2;
   mkField "input_id" StringField Singular 3;
   mkField "relation" StringField Singular 4].

Definition FindingCorrelationProvenance_fields : list FieldDescriptor :=
  [mkField "correlation_rule_id" StringField Singular 1;
   mkField "correlation_rule_version" StringField Singular 2;
   mkField "window_start" (MessageField "Timestamp") Optional 3;
   mkField "window_end" (MessageField "Timestamp") Optional 4;
   mkField "input_ids" StringField Repeated 5;
   mkField "output_finding_id" StringField Singular 6;
   mkField "execution_backend" (EnumerationField "DetectionExecutionBackend") Singular 7;
   mkField "execution_mode" (EnumerationField "ExecutionMode") Singular 8;
   mkField "configuration_hash" StringField Singular 9].

Definition Finding_fields : list FieldDescriptor :=
  [mkField "finding_id" StringField Singular 1;
   mkField "tenant_id" StringField Singular 2;
   mkField "finding_type" (EnumerationField "FindingType") Singular 3;
   mkField "status" (EnumerationField "FindingStatus") Singular 4;
   mkField "severity" StringField Singular 5;
   mkField "confidence" StringField Optional 6;
   mkField "title" StringField Singular 7;
   mkField "description" StringField Singular 8;
   mkField "first_seen" (MessageField "Timestamp") Optional 9;
   mkField "last_seen" (MessageField "Timestamp") Optional 10;
   mkField "created_at" (MessageField "Timestamp") Optional 11;
   mkField "updated_at" (MessageField "Timestamp") Optional 12;
   mkField "primary_rule_id" StringField Optional 13;
   mkField "primary_rule_version" StringField Optional 14;
   mkField "correlation_rule_id" StringField Optional 15;
   mkField "correlation_rule_version" StringField Optional 16;
   mkField "disposition" (EnumerationField "FindingDisposition") Singular 17;
   mkField "metadata" (MessageField "Struct") Optional 18;
   mkField "execution_mode" (EnumerationField "ExecutionMode") Singular 19;
   mkField "inputs" (MessageField "FindingInput") Repeated 20;
   mkField "correlation_provenance" (MessageField "FindingCorrelationProvenance") Optional 21].

Definition Incident_fields : list FieldDescriptor :=
  [mkField "incident_id" StringField Singular 1;
   mkField "tenant_id" StringField Singular 2;
   mkField "status" (EnumerationField "IncidentStatus") Singular 3;
   mkField "severity" StringField Singular 4;
   mkField "confidence" StringField Optional 5;
   mkField "title" StringField Singular 6;
   mkField "description" StringField Singular 7;
   mkField "first_seen" (MessageField "Timestamp") Optional 8;
   mkField "last_seen" (MessageField "Timestamp") Optional 9;
   mkField "created_at" (MessageField "Timestamp") Optional 10;
   mkField "updated_at" (MessageField "Timestamp") Optional 11;
   mkField "correlation_reason" StringField Optional 12;
   mkField "correlation_rule_id" StringField Optional 13;
   mkField "correlation_rule_version" StringField Optional 14;
   mkField "window_start" (MessageField "Timestamp") Optional 15;
   mkField "window_end" (MessageField "Timestamp") Optional 16;
   mkField "owner_user_id" StringField Optional 17;
   mkField "disposition" StringField Optional 18;
   mkField "version" Uint64Field Singular 19;
   mkField "finding_ids" StringField Repeated 20].

Definition NormalizedEvent_fields : list FieldDescriptor :=
  [mkField "normalized_event_id" StringField Singular 1;
   mkField "raw_event_id" StringField Singular 2;
   mkField "tenant_id" StringField Singular 3;
   mkField "normalized_at" (MessageField "Timestamp") Optional 4;
   mkField "ocsf_version" StringField Singular 5;
   mkField "class_uid" Uint32Field Singular 6;
   mkField "category_uid" Uint32Field Singular 7;
   mkField "severity" Uint32Field Optional 8;
   mkField "activity_id" Uint32Field Optional 9;
   mkField "ocsf_event" (MessageField "Struct") Optional 10;
   mkField "parser_id" StringField Singular 11;
   mkField "parser_version" StringField Singular 12;
   mkField "normalization_status" (EnumerationField "NormalizationStatus") Singular 13;
   mkField "normalized_hash_algorithm" StringField Singular 14;
   mkField "normalized_hash" StringField Singular 15;
   mkField "pipeline_version" StringField Singular 16].

Definition RawEvent_fields : list FieldDescriptor :=
  [mkField "event_id" StringField Singular 1;
   mkField "tenant_id" StringField Singular 2;
   mkField "source_id" StringField Singular 3;
   mkField "sensor_id" StringField Singular 4;
   mkField "event_time" (MessageField "Timestamp") Optional 5;
   mkField "ingest_time" (MessageField "Timestamp") Optional 6;
   mkField "content_type" StringField Singular 7;
   mkField "encoding" StringField Singular 8;
   mkField "raw_payload" BytesField Singular 9;
   mkField "raw_size" Uint64Field Singular 10;
   mkField "raw_hash_algorithm" StringField Singular 11;
   mkField "raw_hash" StringField Singular 12;
   mkField "transport" StringField Singular 13;
   mkField "remote_identity" StringField Singular 14;
   mkField "sequence_number" Uint64Field Optional 15;
   mkField "integrity_status" (EnumerationField "IntegrityStatus") Singular 16;
   mkField "pipeline_version" StringField Singular 17].

Definition RawEventPersisted_fields : list FieldDescriptor :=
  [mkField "event_id" StringField Singular 1;
   mkField "tenant_id" StringField Singular 2;
   mkField "source_id" StringField Singular 3;
   mkField "sensor_id" StringField Singular 4;
   mkField "event_time" (MessageField "Timestamp") Optional 5;
   mkField "ingest_time" (MessageField "Timestamp") Optional 6;
   mkField "content_type" StringField Singular 7;
   mkField "encoding" StringField Singular 8;
   mkField "raw_size" Uint64Field Singular 9;
   mkField "raw_hash_algorithm" StringField Singular 10;
   mkField "raw_hash" StringField Singular 11;
   mkField "transport" StringField Singular 12;
   mkField "remote_identity" StringField Singular 13;
   mkField "sequence_number" Uint64Field Optional 14;
   mkField "integrity_status" (EnumerationField "IntegrityStatus") Singular 15;
   mkField "pipeline_version" StringField Singular 16;
   mkField "storage_uri" StringField Singular 17;
   mkField "segment_id" StringField Singular 18;
   mkField "offset" Uint64Field Singular 19;
   mkField "length" Uint64Field Singular 20;
   mkField "persisted_at" (MessageField "Timestamp") Optional 21].

Definition Transformation_fields : list FieldDescriptor :=
  [mkField "transformation_id" StringField Singular 1;
   mkField "input_object_id" StringField Singular 2;
   mkField "input_object_type" StringField Singular 3;
   mkField "output_object_id" StringField Singular 4;
   mkField "output_object_type" StringField Singular 5;
   mkField "component" StringField Singular 6;
   mkField "component_version" StringField Singular 7;
   mkField "configuration_hash" StringField Singular 8;
   mkField "started_at" (MessageField "Timestamp") Optional 9;
   mkField "completed_at" (MessageField "Timestamp") Optional 10;
   mkField "status" (EnumerationField "TransformationStatus") Singular 11;
   mkField "error" (MessageField "CerberoError") Optional 12;
   mkField "execution_mode" (EnumerationField "ExecutionMode") Singular 13].

Definition contract_messages : list (string * list FieldDescriptor) :=
  [("AuditEvent", AuditEvent_fields);
   ("Case", Case_fields);
   ("Producer", Producer_fields);
   ("Entity", Entity_fields);
   ("FindingEntity", FindingEntity_fields);
   ("RiskContribution", RiskContribution_fields);
   ("CerberoEnvelope", CerberoEnvelope_fields);
   ("CerberoError", CerberoError_fields);
   ("SignalProvenance", SignalProvenance_fields);
   ("SignalInput", SignalInput_fields);
   ("Signal", Signal_fields);
   ("FindingInput", FindingInput_fields);
   ("FindingCorrelationProvenance", FindingCorrelationProvenance_fields);
   ("Finding", Finding_fields);
   ("Incident", Incident_fields);
   ("NormalizedEvent", NormalizedEvent_fields);
   ("RawEvent", RawEvent_fields);
   ("RawEventPersisted", RawEventPersisted_fields);
   ("Transformation", Transformation_fields)].

(** ** Laws *)

#[local] Ltac enum_laws enum tried named zero :=
  split;
  [ intros []; simpl; repeat first [apply list_elem_of_here | apply list_elem_of_further]
  | intros n e; split;
    [ cbn [try_from_i32 as_i32 enum]; unfold tried; intros Hn; repeat case_match; simplify_eq; reflexivity
    | intros <-; by destruct e ]
  | intros s e; split;
    [ cbn [from_str_name as_str_name enum]; unfold named; intros Hs;
      repeat match type of Hs with
        | (if ?b then _ else _) = _ =>
            let Hq := fresh in destruct b eqn:Hq; [apply String.eqb_eq in Hq; injection Hs as <-; symmetry; exact Hq|clear Hq]
        end; discriminate
    | intros <-; by destruct e ]
  | exists zero; reflexivity ].

#[global] Instance CaseStatus_enum_laws : ProtoEnumLaws CaseStatus.
Proof. enum_laws CaseStatus_enum CaseStatus_try_from CaseStatus_from_str_name CaseStatus_Unspecified. Qed.
#[global] Instance CasePriority_enum_laws : ProtoEnumLaws CasePriority.
Proof. enum_laws CasePriority_enum CasePriority_try_from CasePriority_from_str_name CasePriority_Unspecified. Qed.
#[global] Instance CaseDisposition_enum_laws : ProtoEnumLaws CaseDisposition.
Proof. enum_laws CaseDisposition_enum CaseDisposition_try_from CaseDisposition_from_str_name CaseDisposition_Unspecified. Qed.
#[global] Instance IntegrityStatus_enum_laws : ProtoEnumLaws IntegrityStatus.
Proof. enum_laws IntegrityStatus_enum IntegrityStatus_try_from IntegrityStatus_from_str_name IntegrityStatus_Unspecified. Qed.
#[global] Instance NormalizationStatus_enum_laws : ProtoEnumLaws NormalizationStatus.
Proof. enum_laws NormalizationStatus_enum NormalizationStatus_try_from NormalizationStatus_from_str_name NormalizationStatus_Unspecified. Qed.
#[global] Instance TransformationStatus_enum_laws : ProtoEnumLaws TransformationStatus.
Proof. enum_laws TransformationStatus_enum TransformationStatus_try_from TransformationStatus_from_str_name TransformationStatus_Unspecified. Qed.
#[global] Instance ExecutionMode_enum_laws : ProtoEnumLaws ExecutionMode.
Proof. enum_laws ExecutionMode_enum ExecutionMode_try_from ExecutionMode_from_str_name ExecutionMode_Unspecified. Qed.
#[global] Instance EntityType_enum_laws : ProtoEnumLaws EntityType.
Proof. enum_laws EntityType_enum EntityType_try_from EntityType_from_str_name EntityType_Unspecified. Qed.
#[global] Instance FindingEntityRole_enum_laws : ProtoEnumLaws FindingEntityRole.
Proof. enum_laws FindingEntityRole_enum FindingEntityRole_try_from FindingEntityRole_from_str_name FindingEntityRole_Unspecified. Qed.
#[global] Instance ErrorCategory_enum_laws : ProtoEnumLaws ErrorCategory.
Proof. enum_laws ErrorCategory_enum ErrorCategory_try_from ErrorCategory_from_str_name ErrorCategory_Unspecified. Qed.
#[global] Instance SignalRuleType_enum_laws : ProtoEnumLaws SignalRuleType.
Proof. enum_laws SignalRuleType_enum SignalRuleType_try_from SignalRuleType_from_str_name SignalRuleType_Unspecified. Qed.
#[global] Instance SignalStatus_enum_laws : ProtoEnumLaws SignalStatus.
Proof. enum_laws SignalStatus_enum SignalStatus_try_from SignalStatus_from_str_name SignalStatus_Unspecified. Qed.
#[global] Instance SignalInputType_enum_laws : ProtoEnumLaws SignalInputType.
Proof. enum_laws SignalInputType_enum SignalInputType_try_from SignalInputType_from_str_name SignalInputType_Unspecified. Qed.
#[global] Instance DetectionExecutionBackend_enum_laws : ProtoEnumLaws DetectionExecutionBackend.
Proof. enum_laws DetectionExecutionBackend_enum DetectionExecutionBackend_try_from DetectionExecutionBackend_from_str_name DetectionExecutionBackend_Unspecified. Qed.
#[global] Instance FindingType_enum_laws : ProtoEnumLaws FindingType.
Proof. enum_laws FindingType_enum FindingType_try_from FindingType_from_str_name FindingType_Unspecified. Qed.
#[global] Instance FindingStatus_enum_laws : ProtoEnumLaws FindingStatus.
Proof. enum_laws FindingStatus_enum FindingStatus_try_from FindingStatus_from_str_name FindingStatus_Unspecified. Qed.
#[global] Instance FindingDisposition_enum_laws : ProtoEnumLaws FindingDisposition.
Proof. enum_laws FindingDisposition_enum FindingDisposition_try_from FindingDisposition_from_str_name FindingDisposition_Unspecified. Qed.
#[global] Instance IncidentStatus_enum_laws : ProtoEnumLaws IncidentStatus.
Proof. enum_laws IncidentStatus_enum IncidentStatus_try_from IncidentStatus_from_str_name IncidentStatus_Unspecified. Qed.

(** ** The contracts as a whole *)

Record EnumDescriptor := mkEnumDescriptor {
  ed_name : string;
  ed_type : Type;
  ed_enum : ProtoEnum ed_type;
}.
#[local] Existing Instance ed_enum.

Definition contract_enums : list EnumDescriptor :=
  [mkEnumDescriptor "CaseStatus" CaseStatus _;
   mkEnumDescriptor "CasePriority" CasePriority _;
   mkEnumDescriptor "CaseDisposition" CaseDisposition _;
   mkEnumDescriptor "IntegrityStatus" IntegrityStatus _;
   mkEnumDescriptor "NormalizationStatus" NormalizationStatus _;
   mkEnumDescriptor "TransformationStatus" TransformationStatus _;
   mkEnumDescriptor "ExecutionMode" ExecutionMode _;
   mkEnumDescriptor "EntityType" EntityType _;
   mkEnumDescriptor "FindingEntityRole" FindingEntityRole _;
   mkEnumDescriptor "ErrorCategory" ErrorCategory _;
   mkEnumDescriptor "SignalRuleType" SignalRuleType _;
   mkEnumDescriptor "SignalStatus" SignalStatus _;
   mkEnumDescriptor "SignalInputType" SignalInputType _;
   mkEnumDescriptor "DetectionExecutionBackend" DetectionExecutionBackend _;
   mkEnumDescriptor "FindingType" FindingType _;
   mkEnumDescriptor "FindingStatus" FindingStatus _;
   mkEnumDescriptor "FindingDisposition" FindingDisposition _;
   mkEnumDescriptor "IncidentStatus" IncidentStatus _].

Definition value_names (d : EnumDescriptor) : list string := as_str_name <$> (members : list (ed_type d)).
Definition value_numbers (d : EnumDescriptor) : list Z := as_i32 <$> (members : list (ed_type d)).

(** Well-known messages the contracts embed *)
Definition well_known : list string := ["Timestamp"; "Struct"; "Any"].

(** A tag Protobuf allows, and a type that exists *)
Definition field_ok (f : FieldDescriptor) : Prop :=
  (1 <= fld_tag f < 2 ^ 29)%Z /\ ~ (19000 <= fld_tag f <= 19999)%Z
  /\ match fld_type f with
     | EnumerationField name => name ∈ ed_name <$> contract_enums
     | MessageField name => name ∈ well_known ++ contract_messages.*1
     | _ => True
     end.
#[global] Instance field_ok_dec f : Decision (field_ok f).
Proof. unfold field_ok. destruct (fld_type f); apply _. Defined.

Definition message_ok (fields : list FieldDescriptor) : Prop :=
  NoDup (fld_tag <$> fields) /\ NoDup (fld_name <$> fields) /\ Forall field_ok fields.

(** In every enumeration of the v1 contracts the number and the name of a
    member determine it, and only its own number and name are accepted for it
    ([try_from] and [from_str_name] invert [as i32] and [as_str_name] exactly); 0,
    which an absent field decodes to, is a member; and no two members of any of
    the enumerations share a name, as their package requires. *)
Theorem contract_enums_round_trip :
  Forall (fun d => (forall e : ed_type d, try_from_i32 (as_i32 e) = Some e /\ from_str_name (as_str_name e) = Some e)
                   /\ (forall n (e : ed_type d), try_from_i32 n = Some e -> as_i32 e = n)
                   /\ (forall s (e : ed_type d), from_str_name s = Some e -> as_str_name e = s)
                   /\ 0%Z ∈ value_numbers d) contract_enums
  /\ NoDup (contract_enums ≫= value_names).
Proof.
  split; [|apply (bool_decide_unpack (NoDup _)); vm_compute; exact I].
  repeat apply Forall_cons_2; try apply Forall_nil_2;
    (split; [intros e; split; [by apply try_from_iff|by apply from_str_name_iff]|];
     split; [intros n e; apply try_from_iff|]; split; [intros s e; apply from_str_name_iff|]; apply list_elem_of_here).
Qed.

(** The fields of every message of the v1 contracts can be told apart on the
    wire and by name: tags and names are distinct within a message, every tag is
    one that Protobuf allows, and every enumeration or message a field names exists. *)
Theorem contract_fields_well_formed : Forall (fun m => message_ok m.2) contract_messages.
Proof.
  repeat apply Forall_cons_2; try apply Forall_nil_2;
    (split; [apply (bool_decide_unpack (NoDup _)); vm_compute; exact I|];
     split; [apply (bool_decide_unpack (NoDup _)); vm_compute; exact I|];
     apply (bool_decide_unpack (Forall field_ok _)); vm_compute; exact I).
Qed.
