(* ===== verification/Tui.v ===== *)
(** * The terminal interface

    crates/cerbero-tui/src/main.rs: the command line, the API client, the state
    of the views, the key map, what is drawn, and the two threads of the
    interactive mode (the loop that owns the screen and the worker that talks to
    the API) with the channels between them. *)

From S2P Require Import Prelude RustStd RustText CanonicalJson.

Definition TENANT_HEADER : string := "X-Cerbero-Tenant-ID".
Definition VIEWS : list string :=
  ["Overview"; "Events"; "Search"; "Findings"; "Incidents"; "Cases"; "Entities"; "ATT&CK"; "Rules"; "Agents"; "System"].

(** ** Messages *)

Record SearchTimeRange := mkSearchTimeRange { tr_from : string; tr_to : string }.
Record SearchSort := mkSearchSort { so_field : string; so_direction : string }.
Record SearchRequest := mkSearchRequest {
  rq_query : string;
  rq_time_range : SearchTimeRange;
  rq_cursor : string;
  rq_limit : Z;                  (* usize *)
  rq_sort : list SearchSort;
}.
Record SearchExecution := mkSearchExecution {
  ex_request_id : string;
  ex_partial_result : bool;
  ex_truncated : bool;
  ex_timed_out : bool;
}.
Record EventItem := mkEventItem {
  it_normalized_event_id : string;
  it_tenant_id : string;
  it_event_time : string;
  it_severity_id : option Z;     (* u32 *)
  it_ocsf_event : Json;
}.
Record SearchResponse := mkSearchResponse {
  rs_items : list EventItem;
  rs_next_cursor : string;
  rs_execution : SearchExecution;
}.

(** ** The command line *)

Record Cli := mkCli {
  cl_snapshot : bool;
  cl_query : string;
  cl_from : option string;
  cl_to : option string;
  cl_limit : Z;                  (* usize *)
}.

(** [impl Display for ParseIntError], for an unsigned type: the first character
    that is no digit, or the first that overflows *)
Fixpoint parse_digits_error (in_t : Z -> bool) (acc : Z) (l : list ascii) : string :=
  match l with
  | [] => ""
  | a :: l =>
      if is_ascii_digit a then
        match try_from in_t (acc * 10 + digit_val a) with
        | Some acc => parse_digits_error in_t acc l
        | None => "number too large to fit in target type"
        end
      else "invalid digit found in string"
  end.
Definition ParseIntError_display (in_t : Z -> bool) (s : string) : string :=
  match str_bytes s with
  | [] => "cannot parse integer from empty string"
  | [a] => parse_digits_error in_t 0 [a]
  | a :: l => parse_digits_error in_t 0 (if Ascii.eqb a "+" then l else a :: l)
  end.

Definition parse_usize (s : string) : result Z string :=
  ok_or (parse_unsigned in_usize s) (ParseIntError_display in_usize s).

(** The loop over the arguments; nothing when the help was asked for, where the
    process prints it and exits with success *)
Fixpoint parse_arguments (arguments : list string) (cli : Cli) : result (option Cli) string :=
  match arguments with
  | [] => Ok (Some cli)
  | argument :: arguments =>
      if String.eqb argument "--snapshot" then
        parse_arguments arguments (mkCli true (cl_query cli) (cl_from cli) (cl_to cli) (cl_limit cli))
      else if String.eqb argument "--query" then
        match arguments with
        | value :: arguments =>
            parse_arguments arguments (mkCli (cl_snapshot cli) value (cl_from cli) (cl_to cli) (cl_limit cli))
        | [] => Err "--query requires a value"
        end
      else if String.eqb argument "--from" then
        match arguments with
        | value :: arguments =>
            parse_arguments arguments (mkCli (cl_snapshot cli) (cl_query cli) (Some value) (cl_to cli) (cl_limit cli))
        | [] => Err "--from requires a value"
        end
      else if String.eqb argument "--to" then
        match arguments with
        | value :: arguments =>
            parse_arguments arguments (mkCli (cl_snapshot cli) (cl_query cli) (cl_from cli) (Some value) (cl_limit cli))
        | [] => Err "--to requires a value"
        end
      else if String.eqb argument "--limit" then
        match arguments with
        | value :: arguments =>
            let? limit := parse_usize value in
            parse_arguments arguments (mkCli (cl_snapshot cli) (cl_query cli) (cl_from cli) (cl_to cli) limit)
        | [] => Err "--limit requires a value"
        end
      else if String.eqb argument "--help" || String.eqb argument "-h" then Ok None
      else Err ("unknown argument: " +:+ argument)
  end.

Definition is_set {A} (o : option A) : bool := match o with Some _ => true | None => false end.

(** [Cli::parse], from the arguments after the program name *)
Definition parse_cli (arguments : list string) : result (option Cli) string :=
  let? parsed := parse_arguments arguments (mkCli false "" None None 50) in
  match parsed with
  | None => Ok None
  | Some cli =>
      reject_if (xorb (is_set (cl_from cli)) (is_set (cl_to cli))) "--from and --to must be supplied together" ;;?
      reject_if (negb (in_range 1 200 (cl_limit cli))) "--limit must be 1..200" ;;?
      Ok (Some cli)
  end.

(** ** The API client *)

Record ApiClient := mkApiClient { ac_base_url : string; ac_tenant_id : string }.

(** [str::trim_end_matches('/')] *)
Fixpoint drop_slashes (l : list ascii) : list ascii :=
  match l with
  | a :: l' => if Ascii.eqb a "/" then drop_slashes l' else l
  | [] => []
  end.
Definition trim_end_slashes (s : string) : string := str_of_bytes (reverse (drop_slashes (reverse (str_bytes s)))).

(** [ApiClient::from_env]; [env] is [env::var], [build] the [reqwest] client *)
Definition client_from_env (env : string -> result string string) (build : result unit string)
    : result ApiClient string :=
  let? base_url := env "CERBERO_TUI_API_URL" in
  let? tenant_id := env "CERBERO_TUI_TENANT_ID" in
  reject_if (negb (starts_with "http://127.0.0.1:" base_url || starts_with "http://localhost:" base_url))
    "Step 32 DEVELOPMENT TUI requires a loopback CERBERO_TUI_API_URL" ;;?
  build ;;?
  Ok (mkApiClient (trim_end_slashes base_url) tenant_id).

(** What [search] sends, and what may come back: the status, the X-Request-ID
    header, the body as text and the body decoded from JSON *)
Record ApiRequest := mkApiRequest { ar_url : string; ar_header : string * string; ar_body : SearchRequest }.
Inductive ApiReply : Type :=
| TransportFailed (error : string)
| Replied (status : Z) (request_id : option string) (text : option string) (decoded : SearchResponse + string).

Definition api_request (client : ApiClient) (request : SearchRequest) : ApiRequest :=
  mkApiRequest (ac_base_url client +:+ "/api/v1/search") (TENANT_HEADER, ac_tenant_id client) request.

Definition search (reply : ApiReply) : result SearchResponse string :=
  match reply with
  | TransportFailed error => Err ("API transport error: " +:+ error)
  | Replied status request_id text decoded =>
      if negb (in_range 200 299 status) then
        let body := default "unable to read API error" text in
        Err ("API " +:+ pretty status +:+ ": " +:+ trim body +:+ " (request " +:+ default "" request_id +:+ ")")
      else
        match decoded with
        | inl response => Ok response
        | inr error => Err ("API response decode error: " +:+ error)
        end
  end.

(** ** The state of the views *)

Record App := mkApp {
  ap_tenant_id : string;
  ap_view_index : nat;           (* usize *)
  ap_query : string;
  ap_editing : bool;
  ap_loading : bool;
  ap_items : list EventItem;
  ap_next_cursor : string;
  ap_status : string;
  ap_request_id : string;
  ap_partial : bool;
  ap_from : string;
  ap_to : string;
  ap_limit : Z;                  (* usize *)
}.

Definition set_view (v : nat) (a : App) : App :=
  mkApp (ap_tenant_id a) v (ap_query a) (ap_editing a) (ap_loading a) (ap_items a) (ap_next_cursor a) (ap_status a)
    (ap_request_id a) (ap_partial a) (ap_from a) (ap_to a) (ap_limit a).
Definition set_query (q : string) (a : App) : App :=
  mkApp (ap_tenant_id a) (ap_view_index a) q (ap_editing a) (ap_loading a) (ap_items a) (ap_next_cursor a)
    (ap_status a) (ap_request_id a) (ap_partial a) (ap_from a) (ap_to a) (ap_limit a).
Definition set_editing (e : bool) (a : App) : App :=
  mkApp (ap_tenant_id a) (ap_view_index a) (ap_query a) e (ap_loading a) (ap_items a) (ap_next_cursor a)
    (ap_status a) (ap_request_id a) (ap_partial a) (ap_from a) (ap_to a) (ap_limit a).
Definition set_loading (l : bool) (a : App) : App :=
  mkApp (ap_tenant_id a) (ap_view_index a) (ap_query a) (ap_editing a) l (ap_items a) (ap_next_cursor a)
    (ap_status a) (ap_request_id a) (ap_partial a) (ap_from a) (ap_to a) (ap_limit a).
Definition set_cursor (c : string) (a : App) : App :=
  mkApp (ap_tenant_id a) (ap_view_index a) (ap_query a) (ap_editing a) (ap_loading a) (ap_items a) c
    (ap_status a) (ap_request_id a) (ap_partial a) (ap_from a) (ap_to a) (ap_limit a).
Definition set_status (s : string) (a : App) : App :=
  mkApp (ap_tenant_id a) (ap_view_index a) (ap_query a) (ap_editing a) (ap_loading a) (ap_items a)
    (ap_next_cursor a) s (ap_request_id a) (ap_partial a) (ap_from a) (ap_to a) (ap_limit a).

(** [time]: the clock, [OffsetDateTime - Duration] (none: it panics) and the RFC 3339 format *)
Class UtcClock := {
  now_utc : Z;                                 (* nanoseconds *)
  datetime_sub : Z -> Z -> option Z;
  format_rfc3339 : Z -> result string string;
}.

Definition default_time_range `{UtcClock} : result (string * string) string :=
  let to := now_utc in
  match datetime_sub to (15 * 60 * 1000000000) with
  | None => Panic "resulting value is out of range"
  | Some from =>
      let? from := format_rfc3339 from in
      let? to := format_rfc3339 to in
      Ok (from, to)
  end.

(** [App::new] *)
Definition new_app `{UtcClock} (tenant_id : string) (cli : Cli) : result App string :=
  let? '(from, to) :=
    match cl_from cli, cl_to cli with
    | Some from, Some to => Ok (from, to)
    | _, _ => default_time_range
    end in
  Ok (mkApp tenant_id 2 (cl_query cli) false false [] "" "ready" "" false from to (cl_limit cli)).

(** [App::request] *)
Definition request (a : App) (cursor : string) : SearchRequest :=
  mkSearchRequest (ap_query a) (mkSearchTimeRange (ap_from a) (ap_to a)) cursor (ap_limit a)
    [mkSearchSort "event_time" "desc"].

Definition apply_search (a : App) (response : SearchResponse) : App :=
  let execution := rs_execution response in
  mkApp (ap_tenant_id a) (ap_view_index a) (ap_query a) (ap_editing a) false (rs_items response)
    (rs_next_cursor response) (pretty (Z.of_nat (length (rs_items response))) +:+ " result(s)")
    (ex_request_id execution)
    (ex_partial_result execution || ex_truncated execution || ex_timed_out execution)
    (ap_from a) (ap_to a) (ap_limit a).

Definition apply_error (a : App) (error : string) : App := set_status error (set_loading false a).

(** ** Keys *)

(** A [char] is the text that encodes it. *)
Inductive KeyCode : Type := Esc | Enter | Backspace | Tab | BackTab | Up | Down | Char (character : string) | OtherKey.
Record KeyEvent := mkKeyEvent { ke_code : KeyCode; ke_control : bool }.

Inductive Action : Type :=
| Quit | NextView | PreviousView | BeginSearchEdit | CommitSearch | CancelEdit | DeleteLast | Insert (character : string)
| Refresh | NextPage | NoAction.

Definition keymap (key : KeyEvent) (editing : bool) : Action :=
  if editing then
    match ke_code key with
    | Esc => CancelEdit
    | Enter => CommitSearch
    | Backspace => DeleteLast
    | Char character => if ke_control key then NoAction else Insert character
    | _ => NoAction
    end
  else
    match ke_code key with
    | Char character =>
        if String.eqb character "q" then Quit
        else if String.eqb character "/" then BeginSearchEdit
        else if String.eqb character "r" then Refresh
        else if String.eqb character "n" then NextPage
        else NoAction
    | Tab | Down => NextView
    | BackTab | Up => PreviousView
    | _ => NoAction
    end.

(** [String::pop] *)
Fixpoint pop_rev (l : list ascii) : list ascii :=
  match l with
  | [] => []
  | a :: l => if continuation a then pop_rev l else l
  end.
Definition str_pop (s : string) : string := str_of_bytes (reverse (pop_rev (reverse (str_bytes s)))).

(** What an action does to the state, what it sends, and whether the loop goes on *)
Definition perform (action : Action) (a : App) : App * option SearchRequest * bool :=
  match action with
  | Quit => (a, None, false)
  | NextView => (set_view ((ap_view_index a + 1) mod length VIEWS) a, None, true)
  | PreviousView => (set_view ((ap_view_index a + length VIEWS - 1) mod length VIEWS) a, None, true)
  | BeginSearchEdit => (set_status "editing query" (set_editing true (set_view 2 a)), None, true)
  | CommitSearch =>
      let a := set_status "loading search" (set_cursor "" (set_loading true (set_editing false a))) in
      (a, Some (request a ""), true)
  | CancelEdit => (set_status "query edit cancelled" (set_editing false a), None, true)
  | DeleteLast => (set_query (str_pop (ap_query a)) a, None, true)
  | Insert character => (set_query (ap_query a +:+ character) a, None, true)
  | Refresh =>
      let a := set_status "refreshing" (set_loading true a) in
      (a, Some (request a ""), true)
  | NextPage =>
      if is_empty (ap_next_cursor a) then (a, None, true)
      else
        let a := set_status "loading next page" (set_loading true a) in
        (a, Some (request a (ap_next_cursor a)), true)
  | NoAction => (a, None, true)
  end.

(** ** Drawing *)

Definition json_get (key : string) (v : Json) : option Json := json_as_object v ≫= bt_get key.

Definition event_user (item : EventItem) : string :=
  default "-" ((json_get "user" (it_ocsf_event item) ≫= json_get "name") ≫= json_as_str).
Definition event_message (item : EventItem) : string :=
  default "-" (json_get "message" (it_ocsf_event item) ≫= json_as_str).

(** The widgets of a frame, from top to bottom, with their titles and texts *)
Inductive Widget : Type :=
| Paragraph (title : option string) (text : string)
| ListOf (title : option string) (lines : list string).

Definition line_feed : string := String "010" "".

Definition render_navigation (a : App) : Widget :=
  ListOf (Some "Views")
    ((fun '(index, view) => (if (index =? ap_view_index a)%nat then "> " else "  ") +:+ view) <$> enumerate VIEWS).

Definition event_row (item : EventItem) : string :=
  it_event_time item +:+ "  sev=" +:+ match it_severity_id item with None => "-" | Some value => pretty value end
  +:+ "  user=" +:+ event_user item +:+ "  " +:+ event_message item +:+ "  " +:+ it_normalized_event_id item.

Definition render_events (a : App) : list Widget :=
  [Paragraph (Some (if ap_editing a then "Query [editing]" else "Query")) (ap_query a);
   ListOf (Some "NormalizedEvents") (event_row <$> ap_items a)].

Definition render_workspace (a : App) : result (list Widget) string :=
  let? view := index VIEWS (ap_view_index a) in
  if String.eqb view "Search" || String.eqb view "Events" then Ok (render_events a)
  else
    Ok [Paragraph (Some view)
          (view +:+ line_feed +:+ line_feed +:+ "This canonical view is reserved in the v1 navigation." +:+ line_feed
           +:+ "Step 32 first vertical makes Search/Events operational through the API.")].

Definition footer_text (a : App) : string :=
  ap_status a +:+ "  request=" +:+ (if is_empty (ap_request_id a) then "-" else ap_request_id a)
  +:+ "  / edit  r refresh  n next  Tab views  q quit" +:+ (if ap_partial a then "  PARTIAL" else "").

Definition render (a : App) : result (list Widget) string :=
  let? view := index VIEWS (ap_view_index a) in
  let header := Paragraph None ("CERBERO" +:+ "  tenant=" +:+ ap_tenant_id a +:+ "  view=" +:+ view +:+ "  "
    +:+ (if ap_loading a then "LOADING" else "READY")) in
  let? workspace := render_workspace a in
  Ok (header :: render_navigation a :: workspace ++ [Paragraph None (footer_text a)]).

(** ** The interactive mode

    Two threads: the loop, and [api_worker].  The state between two steps of
    either, with the contents of the two channels. *)

Inductive Worker : Type := Idle | Busy (request : SearchRequest) | Gone.
Inductive Phase : Type := Drawing | Draining | Polling | Closing | Returned (outcome : result unit string).

Record Session := mkSession {
  se_app : App;
  se_phase : Phase;
  se_commands : list SearchRequest;
  se_worker : Worker;
  se_results : list (result SearchResponse string);
}.

Inductive TuiEvent : Type := Key (key : KeyEvent) | OtherEvent.

(** Who moves, and what the terminal and the API answer *)
Inductive Move : Type :=
| Draw (outcome : result unit string)
| Receive
| Poll (outcome : result (option TuiEvent) string)   (* none: nothing within the timeout *)
| ShowCursor (outcome : result unit string)
| WorkerReceives
| WorkerAnswers (reply : ApiReply)
| WorkerPanics.

(** What took place *)
Inductive Observation : Type :=
| Sent (request : SearchRequest)
| Exchanged (exchange : ApiRequest) (answer : result SearchResponse string)
| Applied (answer : result SearchResponse string)
| Drawn (frame : list Widget).

Definition with_app (a : App) (p : Phase) (s : Session) : Session :=
  mkSession a p (se_commands s) (se_worker s) (se_results s).
Definition at_phase (p : Phase) (s : Session) : Session := with_app (se_app s) p s.

(** [command_tx.send(..)]: fails when the worker is gone *)
Definition send (r : SearchRequest) (s : Session) : result Session string :=
  match se_worker s with
  | Gone => Err "API worker stopped"
  | _ => Ok (mkSession (se_app s) (se_phase s) (se_commands s ++ [r]) (se_worker s) (se_results s))
  end.

Definition apply_answer (a : App) (answer : result SearchResponse string) : App :=
  match answer with
  | Ok response => apply_search a response
  | Err error => apply_error a error
  | Panic _ => a
  end.

Definition handle_key (key : KeyEvent) (s : Session) : Session * list Observation :=
  let '(a, command, continue) := perform (keymap key (ap_editing (se_app s))) (se_app s) in
  let s := with_app a (if continue then Drawing else Closing) s in
  match command with
  | None => (s, [])
  | Some r =>
      match send r s with
      | Ok s => (s, [Sent r])
      | Err error => (at_phase (Returned (Err error)) s, [])
      | Panic p => (at_phase (Returned (Panic p)) s, [])
      end
  end.

(** One step of the loop or of the worker; none when it is not enabled *)
Definition tui_step (client : ApiClient) (s : Session) (m : Move) : option (Session * list Observation) :=
  match m, se_phase s, se_worker s with
  | Draw outcome, Drawing, _ =>
      match render (se_app s), outcome with
      | Ok frame, Ok _ => Some (at_phase Draining s, [Drawn frame])
      | Ok _, Err error => Some (at_phase (Returned (Err error)) s, [])
      | Err error, _ => Some (at_phase (Returned (Err error)) s, [])
      | Panic p, _ | _, Panic p => Some (at_phase (Returned (Panic p)) s, [])
      end
  | Receive, Draining, _ =>
      match se_results s with
      | answer :: results =>
          Some (mkSession (apply_answer (se_app s) answer) Draining (se_commands s) (se_worker s) results,
                [Applied answer])
      | [] => Some (at_phase Polling s, [])
      end
  | Poll outcome, Polling, _ =>
      match outcome with
      | Ok (Some (Key key)) => Some (handle_key key s)
      | Ok _ => Some (at_phase Drawing s, [])
      | Err error => Some (at_phase (Returned (Err error)) s, [])
      | Panic p => Some (at_phase (Returned (Panic p)) s, [])
      end
  | ShowCursor outcome, Closing, _ => Some (at_phase (Returned outcome) s, [])
  | WorkerReceives, _, Idle =>
      match se_commands s with
      | r :: commands => Some (mkSession (se_app s) (se_phase s) commands (Busy r) (se_results s), [])
      | [] => None
      end
  | WorkerAnswers reply, _, Busy r =>
      let answer := search reply in
      Some (mkSession (se_app s) (se_phase s) (se_commands s) Idle (se_results s ++ [answer]),
            [Exchanged (api_request client r) answer])
  | WorkerPanics, _, Busy _ => Some (mkSession (se_app s) (se_phase s) [] Gone (se_results s), [])
  | _, _, _ => None
  end.

Definition is_returned (s : Session) : bool := match se_phase s with Returned _ => true | _ => false end.

(** The moves in order, until the loop returns or a move is not enabled *)
Fixpoint run_moves (client : ApiClient) (moves : list Move) (s : Session) : option (Session * list Observation) :=
  match moves with
  | [] => Some (s, [])
  | m :: moves =>
      if is_returned s then None
      else
        match tui_step client s m with
        | None => None
        | Some (s, o) =>
            match run_moves client moves s with
            | None => None
            | Some (s, os) => Some (s, o ++ os)
            end
        end
  end.

(** The session before the loop: the first search is on its way. *)
Definition first_session (a : App) : Session :=
  mkSession (set_status "loading search" (set_loading true a)) Drawing [request a ""] Idle [].

(** *** The terminal *)

Record TerminalMode := mkTerminalMode { tm_raw : bool; tm_alternate : bool }.
(** The outcomes of the terminal's own calls *)
Record TerminalCalls := mkTerminalCalls {
  tc_enable_raw : result unit string;
  tc_enter_alternate : result unit string;
  tc_new : result unit string;
  tc_disable_raw : bool;          (* whether it succeeds *)
  tc_leave_alternate : bool;
}.

(** [TerminalGuard::enter] *)
Definition enter (calls : TerminalCalls) (mode : TerminalMode) : result unit string * TerminalMode :=
  match tc_enable_raw calls with
  | Ok _ =>
      let mode := mkTerminalMode true (tm_alternate mode) in
      match tc_enter_alternate calls with
      | Ok _ => (Ok tt, mkTerminalMode true true)
      | failed => (failed, mode)
      end
  | failed => (failed, mode)
  end.

(** [impl Drop for TerminalGuard] *)
Definition drop_guard (calls : TerminalCalls) (mode : TerminalMode) : TerminalMode :=
  mkTerminalMode (tm_raw mode && negb (tc_disable_raw calls)) (tm_alternate mode && negb (tc_leave_alternate calls)).

(** [run_interactive]: the outcome, none while it runs, and the mode of the terminal *)
Definition run_interactive `{UtcClock} (client : ApiClient) (cli : Cli) (calls : TerminalCalls) (moves : list Move)
    (mode : TerminalMode) : option (result unit string) * TerminalMode :=
  match enter calls mode with
  | (Ok _, mode) =>
      match (tc_new calls ;;? new_app (ac_tenant_id client) cli) with
      | Ok a =>
          match run_moves client moves (first_session a) with
          | Some (s, _) =>
              match se_phase s with
              | Returned outcome => (Some outcome, drop_guard calls mode)
              | _ => (None, mode)
              end
          | None => (None, mode)
          end
      | Err error => (Some (Err error), drop_guard calls mode)
      | Panic p => (Some (Panic p), drop_guard calls mode)
      end
  | (Err error, mode) => (Some (Err error), mode)
  | (Panic p, mode) => (Some (Panic p), mode)
  end.

(** ** The snapshot mode, and the process *)

Definition snapshot_lines (client : ApiClient) (cli : Cli) (response : SearchResponse) : list string :=
  ["CERBERO Search snapshot tenant=" +:+ ac_tenant_id client;
   "query=" +:+ cl_query cli;
   "request_id=" +:+ ex_request_id (rs_execution response);
   "partial=" +:+ (if ex_partial_result (rs_execution response) then "true" else "false")]
  ++ ((fun item => it_normalized_event_id item +:+ " | tenant=" +:+ it_tenant_id item +:+ " | " +:+ it_event_time item
         +:+ " | user=" +:+ event_user item +:+ " | " +:+ event_message item) <$> rs_items response).

(** The exchange and the lines printed *)
Definition snapshot `{UtcClock} (client : ApiClient) (cli : Cli) (reply : ApiRequest -> ApiReply)
    : result (ApiRequest * list string) string :=
  let? a := new_app (ac_tenant_id client) cli in
  let exchange := api_request client (request a "") in
  let? response := search (reply exchange) in
  Ok (exchange, snapshot_lines client cli response).

Inductive Ran : Type :=
| HelpPrinted
| SnapshotRan (outcome : result (ApiRequest * list string) string)
| InteractiveRan (outcome : option (result unit string)) (mode : TerminalMode).

(** [main] *)
Definition tui_main `{UtcClock} (arguments : list string) (env : string -> result string string)
    (build : result unit string) (reply : ApiRequest -> ApiReply) (calls : TerminalCalls) (moves : list Move)
    (mode : TerminalMode) : result Ran string :=
  let? parsed := parse_cli arguments in
  match parsed with
  | None => Ok HelpPrinted
  | Some cli =>
      let? client := client_from_env env build in
      if cl_snapshot cli then Ok (SnapshotRan (snapshot client cli reply))
      else
        let '(outcome, mode) := run_interactive client cli calls moves mode in
        Ok (InteractiveRan outcome mode)
  end.
