(* ===== verification/TuiSpec.v ===== *)
(** * The terminal interface: its theorems

    The two threads of the interactive mode as one machine: the state of the
    views is always drawable, every request asks for what the command line asked
    for, requests are answered in the order they were sent and answers are shown
    in the order they came; what the screen says when nothing is outstanding, and
    that it can always get there.  Then the command line and the terminal. *)

From S2P Require Import Prelude RustStd RustText CanonicalJson Tui.

(** ** What was observed *)

Fixpoint sent_requests (os : list Observation) : list SearchRequest :=
  match os with
  | [] => []
  | Sent r :: os => r :: sent_requests os
  | _ :: os => sent_requests os
  end.
Fixpoint exchanges (os : list Observation) : list (ApiRequest * result SearchResponse string) :=
  match os with
  | [] => []
  | Exchanged x answer :: os => (x, answer) :: exchanges os
  | _ :: os => exchanges os
  end.
Fixpoint applied (os : list Observation) : list (result SearchResponse string) :=
  match os with
  | [] => []
  | Applied answer :: os => answer :: applied os
  | _ :: os => applied os
  end.
Definition in_flight (s : Session) : list SearchRequest :=
  match se_worker s with Busy r => [r] | _ => [] end.
(** Requests not answered, and answers not shown *)
Definition outstanding (s : Session) : nat := length (in_flight s ++ se_commands s) + length (se_results s).

(** The items on the screen after these answers *)
Definition items_after (answers : list (result SearchResponse string)) : list EventItem :=
  foldl (fun items answer => match answer with Ok response => rs_items response | _ => items end) [] answers.
(** A page is the first, or continues a response that was shown. *)
Definition known_cursor (answers : list (result SearchResponse string)) (cursor : string) : Prop :=
  cursor = "" \/ exists response, Ok response ∈ answers /\ cursor = rs_next_cursor response.

(** ** The invariant of a session *)

Section Invariant.
Context (client : ApiClient) (a0 : App).

Definition first_request : SearchRequest := request a0 "".
Definition asks_as_configured (r : SearchRequest) : Prop :=
  rq_limit r = ap_limit a0 /\ rq_time_range r = mkSearchTimeRange (ap_from a0) (ap_to a0)
  /\ rq_sort r = [mkSearchSort "event_time" "desc"].

Record view_ok (a : App) : Prop := mkViewOk {
  vo_view : ap_view_index a < length VIEWS;
  vo_editing : ap_editing a = true -> ap_view_index a = 2;
  vo_limit : ap_limit a = ap_limit a0;
  vo_from : ap_from a = ap_from a0;
  vo_to : ap_to a = ap_to a0;
  vo_tenant : ap_tenant_id a = ap_tenant_id a0;
}.

Record session_ok (s : Session) (os : list Observation) : Prop := mkSessionOk {
  so_view : view_ok (se_app s);
  so_sent : exists lost,
    api_request client <$> first_request :: sent_requests os
    = (exchanges os).*1 ++ (api_request client <$> lost ++ in_flight s ++ se_commands s)
    /\ (se_worker s <> Gone -> lost = []);
  so_answers : (exchanges os).*2 = applied os ++ se_results s;
  so_answered : Forall no_panic (exchanges os).*2;
  so_loading : ap_loading (se_app s) = true -> se_worker s <> Gone -> outstanding s > 0;
  so_items : ap_items (se_app s) = items_after (applied os);
  so_cursor : known_cursor (applied os) (ap_next_cursor (se_app s));
  so_asked : Forall asks_as_configured (sent_requests os);
  so_pages : Forall (fun r => known_cursor (applied os) (rq_cursor r)) (sent_requests os);
}.
End Invariant.

(** ** Every step keeps it *)

Lemma sent_requests_app os os' : sent_requests (os ++ os') = sent_requests os ++ sent_requests os'.
Proof. induction os as [|[] os IH]; simpl; by rewrite ?IH. Qed.
Lemma exchanges_app os os' : exchanges (os ++ os') = exchanges os ++ exchanges os'.
Proof. induction os as [|[] os IH]; simpl; by rewrite ?IH. Qed.
Lemma applied_app os os' : applied (os ++ os') = applied os ++ applied os'.
Proof. induction os as [|[] os IH]; simpl; by rewrite ?IH. Qed.

#[local] Ltac observed :=
  rewrite ?sent_requests_app, ?exchanges_app, ?applied_app; cbn [sent_requests exchanges applied]; rewrite ?app_nil_r.

Lemma known_cursor_app answers more cursor : known_cursor answers cursor -> known_cursor (answers ++ more) cursor.
Proof. intros [->|(response & Hin & ->)]; [by left|right]. exists response. rewrite elem_of_app. eauto. Qed.

Lemma search_no_panic reply : no_panic (search reply).
Proof. intros m. destruct reply as [|status id text [|]]; [done|..]; simpl; by destruct (in_range 200 299 status). Qed.

Definition moves_view (action : Action) : bool :=
  match action with NextView | PreviousView => true | _ => false end.

Lemma keymap_editing key : moves_view (keymap key true) = false.
Proof. destruct key as [[] []]; reflexivity. Qed.

Lemma perform_view a0 key a a' command continue :
  view_ok a0 a -> perform (keymap key (ap_editing a)) a = (a', command, continue) -> view_ok a0 a'.
Proof.
  intros [Hview Hedit Hl Hf Ht Htn] Hp.
  assert (moves_view (keymap key (ap_editing a)) = true -> ap_editing a = false) as Hm.
  { destruct (ap_editing a); [by rewrite keymap_editing|done]. }
  assert (forall n, n mod length VIEWS < length VIEWS) as Hmod by (intros n; by apply Nat.mod_upper_bound).
  assert (2 < length VIEWS) by (simpl; lia).
  destruct (keymap key (ap_editing a)); cbn [perform moves_view] in *;
    try (destruct (is_empty (ap_next_cursor a))); injection Hp as <- <- <-;
    (constructor; cbn [set_view set_editing set_status set_loading set_cursor set_query ap_view_index ap_editing ap_limit
       ap_from ap_to ap_tenant_id]; first [done | apply Hmod | (rewrite Hm by done; done)]).
Qed.

Lemma perform_command action a a' command continue :
  perform action a = (a', command, continue) ->
  ap_items a' = ap_items a /\ (ap_next_cursor a' = "" \/ ap_next_cursor a' = ap_next_cursor a)
  /\ match command with
     | None => ap_loading a' = ap_loading a
     | Some r => exists cursor, r = request a' cursor /\ (cursor = "" \/ cursor = ap_next_cursor a)
     end.
Proof.
  intros Hp. destruct action; simpl in Hp; try (destruct (is_empty (ap_next_cursor a))); simplify_eq/=; eauto 8.
Qed.

Lemma run_moves_ind client s0 (P : Session -> list Observation -> Prop) :
  P s0 [] ->
  (forall s os m s' o, P s os -> is_returned s = false -> tui_step client s m = Some (s', o) -> P s' (os ++ o)) ->
  forall moves s os, run_moves client moves s0 = Some (s, os) -> P s os.
Proof.
  intros H0 Hstep moves.
  assert (forall s1 o1, P s1 o1 -> forall s os, run_moves client moves s1 = Some (s, os) -> P s (o1 ++ os)) as Hgen.
  { induction moves as [|m moves IH]; intros s1 o1 H1 s os; simpl.
    - intros [= <- <-]. by rewrite app_nil_r.
    - destruct (is_returned s1) eqn:Er; [done|]. destruct (tui_step client s1 m) as [[s2 o2]|] eqn:Es; [|done].
      destruct (run_moves client moves s2) as [[s3 o3]|] eqn:Em; [|done]. intros [= <- <-].
      rewrite (assoc_L (++)). eapply IH; [|exact Em]. by eapply Hstep. }
  intros s os. by apply (Hgen s0 []).
Qed.

Lemma run_moves_app client moves1 moves2 s s1 o1 :
  run_moves client moves1 s = Some (s1, o1) ->
  run_moves client (moves1 ++ moves2) s
  = match run_moves client moves2 s1 with Some (s2, o2) => Some (s2, o1 ++ o2) | None => None end.
Proof.
  revert s o1. induction moves1 as [|m moves1 IH]; intros s o1; simpl.
  - intros [= -> <-]. by destruct (run_moves client moves2 s1) as [[??]|].
  - destruct (is_returned s); [done|]. destruct (tui_step client s m) as [[s' o']|]; [|done].
    destruct (run_moves client moves1 s') as [[s'' o'']|] eqn:E; [|done]. intros [= -> <-].
    rewrite (IH s' o'' E). destruct (run_moves client moves2 s1) as [[??]|]; [|done]. by rewrite (assoc_L (++)).
Qed.

Section Steps.
Context (client : ApiClient) (a0 : App).
#[local] Abbreviation ok := (session_ok client a0).

(** The phase and the drawing are no part of the invariant. *)
Lemma session_ok_phase p s os o :
  sent_requests o = [] -> exchanges o = [] -> applied o = [] -> ok s os -> ok (at_phase p s) (os ++ o).
Proof. intros H1 H2 H3 Hok. destruct Hok. by split; observed; rewrite ?H1, ?H2, ?H3, ?app_nil_r. Qed.

Lemma session_ok_receive s os answer results :
  ok s os -> se_results s = answer :: results ->
  ok (mkSession (apply_answer (se_app s) answer) Draining (se_commands s) (se_worker s) results)
    (os ++ [Applied answer]).
Proof.
  intros [Hv Hs Ha Hp Hl Hi Hc Hq Hpg] Hr. split; observed; cbn [se_app se_worker se_commands se_results]; try done.
  - destruct Hv. by destruct answer.
  - by rewrite Ha, Hr, <- (assoc_L (++)).
  - destruct answer as [r|e|p]; simpl; [done|done|]. exfalso.
    rewrite Ha, Hr, Forall_app, Forall_cons in Hp. destruct Hp as (_ & Hp & _). by eapply Hp.
  - unfold items_after in *. rewrite foldl_app. by destruct answer.
  - destruct answer as [r|e|p]; [|by apply known_cursor_app..].
    right. exists r. rewrite elem_of_app, list_elem_of_singleton. auto.
  - eapply Forall_impl; [exact Hpg|]. intros r. apply known_cursor_app.
Qed.

(** Where the action sends nothing, or cannot send because the worker is gone *)
Lemma session_ok_quiet s os a p :
  ok s os -> view_ok a0 a -> ap_items a = ap_items (se_app s) -> known_cursor (applied os) (ap_next_cursor a) ->
  (ap_loading a = ap_loading (se_app s) \/ se_worker s = Gone) -> ok (with_app a p s) os.
Proof.
  intros [_ Hs Ha Hp Hl Hi Hc Hq Hpg] Hv Hitems Hcur Hload. split; cbn [with_app se_app se_worker se_results]; try done.
  - intros Hlo Hw. apply Hl; [|done]. by destruct Hload as [<-|].
  - congruence.
Qed.

Lemma session_ok_sent s os a p cursor :
  ok s os -> view_ok a0 a -> ap_items a = ap_items (se_app s) -> known_cursor (applied os) (ap_next_cursor a) ->
  known_cursor (applied os) cursor -> se_worker s <> Gone ->
  ok (mkSession a p (se_commands s ++ [request a cursor]) (se_worker s) (se_results s))
    (os ++ [Sent (request a cursor)]).
Proof.
  intros [_ Hs Ha Hp Hl Hi Hc Hq Hpg] Hv Hitems Hcur Hcr Hw.
  split; observed; cbn [se_app se_worker se_results se_commands]; try done.
  - destruct Hs as (lost & Hs & Hg). exists lost. split; [|done]. rewrite app_comm_cons, fmap_app, Hs.
    rewrite !fmap_app, <- !(assoc_L (++)). done.
  - intros _ _. unfold outstanding. simpl. rewrite !length_app. simpl. lia.
  - congruence.
  - apply Forall_app. split; [done|]. apply Forall_singleton. destruct Hv. unfold asks_as_configured. simpl.
    repeat split; congruence.
  - apply Forall_app. split; [done|]. by apply Forall_singleton.
Qed.

Lemma session_ok_key key s os s' o :
  ok s os -> handle_key key s = (s', o) -> ok s' (os ++ o).
Proof.
  intros Hok. unfold handle_key. destruct (perform _ _) as [[a' command] continue] eqn:Hp.
  pose proof (so_view _ _ _ _ Hok) as Hv. pose proof (so_cursor _ _ _ _ Hok) as Hc.
  pose proof (perform_view _ _ _ _ _ _ Hv Hp) as Hv'. apply perform_command in Hp as (Hitems & Hcursor & Hcmd).
  assert (known_cursor (applied os) (ap_next_cursor a')) as Hc' by (destruct Hcursor as [-> | ->]; [by left|done]).
  destruct command as [r|]; [|intros [= <- <-]; rewrite app_nil_r; apply session_ok_quiet; by auto].
  destruct Hcmd as (cursor & -> & Hcr).
  assert (known_cursor (applied os) cursor) by (destruct Hcr as [-> | ->]; [by left|done]).
  unfold send. cbn [with_app se_worker]. destruct (se_worker s) eqn:Hw.
  3:{ intros [= <- <-]. rewrite app_nil_r.
    apply (session_ok_quiet s os a' (Returned (Err "API worker stopped")) Hok Hv' Hitems Hc'). by right. }
  all: intros [= <- <-]; cbn [with_app se_app se_phase se_commands se_results];
    rewrite <- Hw; apply session_ok_sent; by rewrite ?Hw.
Qed.

Lemma session_ok_worker_receives s os r commands :
  ok s os -> se_worker s = Idle -> se_commands s = r :: commands ->
  ok (mkSession (se_app s) (se_phase s) commands (Busy r) (se_results s)) os.
Proof.
  intros [Hv Hs Ha Hp Hl Hi Hc Hq Hpg] Hw Hcs. unfold outstanding, in_flight in *. rewrite Hw, Hcs in *.
  split; try done.
  - destruct Hs as (lost & Hs & Hg). exists lost. split; [done|]. intros _. by apply Hg.
  - intros _ _. unfold outstanding. simpl. lia.
Qed.

Lemma session_ok_worker_answers s os r reply :
  ok s os -> se_worker s = Busy r ->
  ok (mkSession (se_app s) (se_phase s) (se_commands s) Idle (se_results s ++ [search reply]))
    (os ++ [Exchanged (api_request client r) (search reply)]).
Proof.
  intros [Hv Hs Ha Hp Hl Hi Hc Hq Hpg] Hw. unfold outstanding, in_flight in *. rewrite Hw in *.
  split; observed; cbn [se_app se_worker se_results se_commands]; try done.
  - destruct Hs as (lost & Hs & Hg). specialize (Hg ltac:(done)). subst lost. exists []. split; [|done].
    rewrite Hs, !fmap_app. simpl. by rewrite <- (assoc_L (++)).
  - by rewrite fmap_app, Ha, (assoc_L (++)).
  - rewrite fmap_app. apply Forall_app. split; [done|]. apply Forall_singleton. apply search_no_panic.
  - intros _ _. unfold outstanding. simpl. rewrite !length_app. simpl. lia.
Qed.

Lemma session_ok_worker_panics s os r :
  ok s os -> se_worker s = Busy r -> ok (mkSession (se_app s) (se_phase s) [] Gone (se_results s)) os.
Proof.
  intros [Hv Hs Ha Hp Hl Hi Hc Hq Hpg] Hw. unfold in_flight in *. rewrite Hw in *. split; try done.
  destruct Hs as (lost & Hs & _). exists (lost ++ [r] ++ se_commands s). split; [|done]. simpl. by rewrite app_nil_r.
Qed.

Lemma session_ok_loop s os m s' o :
  ok s os -> match m with WorkerReceives | WorkerAnswers _ | WorkerPanics => False | _ => True end ->
  tui_step client s m = Some (s', o) -> ok s' (os ++ o).
Proof.
  intros Hok Hm. unfold tui_step. destruct m as [outcome| |outcome|outcome| | |]; try done;
    destruct (se_phase s) eqn:Hph; try done.
  - destruct (render (se_app s)), outcome; intros [= <- <-]; by apply session_ok_phase.
  - destruct (se_results s) eqn:Hr; intros [= <- <-]; [by apply session_ok_phase|by apply session_ok_receive].
  - destruct outcome as [[[key|]|]|e|p]; [|intros [= <- <-]; by apply session_ok_phase..].
    destruct (handle_key key s) eqn:Hk. intros [= <- <-]. by eapply session_ok_key.
  - intros [= <- <-]. by apply session_ok_phase.
Qed.

Lemma session_ok_step s os m s' o :
  ok s os -> tui_step client s m = Some (s', o) -> ok s' (os ++ o).
Proof.
  intros Hok Hst. destruct m; try (by eapply session_ok_loop; [| |exact Hst]).
  all: unfold tui_step in Hst; destruct (se_worker s) eqn:Hw; try (destruct (se_phase s); done).
  - destruct (se_commands s) as [|r commands] eqn:Hcs; [by destruct (se_phase s)|].
    assert (Hst' : Some (mkSession (se_app s) (se_phase s) commands (Busy r) (se_results s), []) = Some (s', o))
      by (by destruct (se_phase s)).
    injection Hst' as <- <-. rewrite app_nil_r. by apply session_ok_worker_receives.
  - assert (Hst' : Some (mkSession (se_app s) (se_phase s) (se_commands s) Idle (se_results s ++ [search reply]),
      [Exchanged (api_request client request) (search reply)]) = Some (s', o)) by (by destruct (se_phase s)).
    injection Hst' as <- <-. by apply session_ok_worker_answers.
  - assert (Hst' : Some (mkSession (se_app s) (se_phase s) [] Gone (se_results s), []) = Some (s', o))
      by (by destruct (se_phase s)).
    injection Hst' as <- <-. rewrite app_nil_r. by eapply session_ok_worker_panics.
Qed.
End Steps.

(** ** A whole session *)

Lemma new_app_fields `{UtcClock} tenant cli a :
  new_app tenant cli = Ok a ->
  ap_tenant_id a = tenant /\ ap_view_index a = 2 /\ ap_editing a = false /\ ap_query a = cl_query cli
  /\ ap_limit a = cl_limit cli /\ ap_items a = [] /\ ap_next_cursor a = ""
  /\ (forall from to, cl_from cli = Some from -> cl_to cli = Some to -> ap_from a = from /\ ap_to a = to).
Proof.
  unfold new_app. intros ([from to] & Hr & [= <-])%bind_ok_iff. simpl. repeat split; intros; simplify_eq/=; try done.
  all: destruct (cl_from cli), (cl_to cli); by simplify_eq/=.
Qed.

Lemma session_reaches `{UtcClock} client cli a moves s os :
  new_app (ac_tenant_id client) cli = Ok a -> run_moves client moves (first_session a) = Some (s, os) ->
  session_ok client a s os.
Proof.
  intros (_ & Hv & He & _ & _ & Hi & Hc & _)%new_app_fields.
  apply (run_moves_ind client (first_session a) (session_ok client a)).
  - split; simpl; try done.
    + split; simpl; rewrite ?Hv, ?He; done || lia.
    + by exists [].
    + intros _ _. unfold outstanding. simpl. lia.
    + by left.
  - intros s1 os1 m s2 o Hok _ Hst. by eapply session_ok_step.
Qed.

Lemma render_total a : ap_view_index a < length VIEWS -> exists frame, render a = Ok frame.
Proof.
  intros (view & Hview%(index_ok_iff (E := string)))%lookup_lt_is_Some. unfold render, render_workspace.
  rewrite Hview. cbn [bind].
  destruct (String.eqb view "Search" || String.eqb view "Events"); cbn [bind]; eauto.
Qed.

Lemma parse_cli_valid arguments cli :
  parse_cli arguments = Ok (Some cli) ->
  is_set (cl_from cli) = is_set (cl_to cli) /\ (1 <= cl_limit cli <= 200)%Z.
Proof.
  unfold parse_cli. intros ([c|] & _ & Hc)%bind_ok_iff; [|done].
  apply bind_unit_ok_iff in Hc as [Hft%reject_if_ok_iff [Hl%reject_if_ok_iff [= <-]]%bind_unit_ok_iff].
  apply negb_false_iff, in_range_spec in Hl. split; [|done]. by destruct (is_set (cl_from c)), (is_set (cl_to c)).
Qed.

(** C22: whatever the keys, the API and the terminal do, and in whatever order the
    two threads move: the loop can always draw its state without a panic; the
    query is edited in the Search view only; every search asks for the limit of
    the command line, between 1 and 200, its time range and the newest events
    first, and for the first page or the page after a response that was shown;
    and every exchange goes to the search path of the configured API for the
    configured tenant. *)
Theorem interactive_session_invariant `{UtcClock} arguments cli client a moves s os :
  parse_cli arguments = Ok (Some cli) -> new_app (ac_tenant_id client) cli = Ok a ->
  run_moves client moves (first_session a) = Some (s, os) ->
  (exists frame, render (se_app s) = Ok frame)
  /\ (ap_editing (se_app s) = true -> VIEWS !! ap_view_index (se_app s) = Some "Search")
  /\ Forall (fun r =>
       rq_limit r = cl_limit cli /\ (1 <= rq_limit r <= 200)%Z
       /\ (forall from to, cl_from cli = Some from -> cl_to cli = Some to -> rq_time_range r = mkSearchTimeRange from to)
       /\ rq_sort r = [mkSearchSort "event_time" "desc"] /\ known_cursor (applied os) (rq_cursor r))
       (request a "" :: sent_requests os)
  /\ Forall (fun x =>
       ar_url x.1 = ac_base_url client +:+ "/api/v1/search" /\ ar_header x.1 = (TENANT_HEADER, ac_tenant_id client)
       /\ ar_body x.1 ∈ request a "" :: sent_requests os) (exchanges os).
Proof.
  intros (_ & Hlim)%parse_cli_valid Hnew Hrun.
  pose proof (session_reaches _ _ _ _ _ _ Hnew Hrun) as [Hv (lost & Hs & _) _ _ _ _ _ Hq Hp].
  apply new_app_fields in Hnew as (_ & _ & _ & _ & Hl & _ & _ & Hft).
  split; [apply render_total, Hv|]. split; [by intros ->%(vo_editing _ _ Hv)|]. split.
  - apply Forall_cons. split.
    { rewrite <- Hl in *. repeat split; [apply Hlim..| |by left]. intros from to Hf Ht. simpl.
      by destruct (Hft from to Hf Ht) as [-> ->]. }
    apply Forall_forall. intros r Hr. rewrite Forall_forall in Hq, Hp. destruct (Hq r Hr) as (El & Et & Es).
    rewrite El, Et, Hl. repeat split; [apply Hlim..| |done|by apply Hp]. intros from to Hf Ht.
    by destruct (Hft from to Hf Ht) as [-> ->].
  - apply Forall_forall. intros [x answer] Hx. simpl.
    assert (x ∈ api_request client <$> first_request a :: sent_requests os) as (r & -> & Hr)%list_elem_of_fmap.
    { rewrite Hs. apply elem_of_app. left. apply list_elem_of_fmap. by exists (x, answer). }
    done.
Qed.

Lemma items_after_last answers answer response :
  answer = Ok response -> items_after (answers ++ [answer]) = rs_items response.
Proof. intros ->. unfold items_after. by rewrite foldl_app. Qed.

Lemma outstanding_zero s : outstanding s = 0 -> in_flight s ++ se_commands s = [] /\ se_results s = [].
Proof. unfold outstanding. intros E. split; apply nil_length_inv; lia. Qed.

(** C13: searches are answered in the order they were sent and their answers shown
    in the order they came, none twice and none left out, as long as the worker
    thread lives (it ends early only when a library call panics): what was sent is what
    was exchanged with the API, what the worker holds and what waits for it, and
    what was answered is what was applied and what waits for the loop.  When
    nothing is outstanding the header no longer says LOADING, the last exchange
    is that of the last search sent and, where it succeeded, the events on the
    screen are those of its response. *)
Theorem searches_answered_in_order `{UtcClock} client cli a moves s os :
  new_app (ac_tenant_id client) cli = Ok a -> run_moves client moves (first_session a) = Some (s, os) ->
  se_worker s <> Gone ->
  api_request client <$> request a "" :: sent_requests os
    = (exchanges os).*1 ++ (api_request client <$> in_flight s ++ se_commands s)
  /\ (exchanges os).*2 = applied os ++ se_results s
  /\ ap_items (se_app s) = items_after (applied os)
  /\ (outstanding s = 0 ->
      ap_loading (se_app s) = false
      /\ exists r answer, last (request a "" :: sent_requests os) = Some r
         /\ last (exchanges os) = Some (api_request client r, answer)
         /\ (forall response, answer = Ok response -> ap_items (se_app s) = rs_items response)).
Proof.
  intros Hnew Hrun Hw. pose proof (session_reaches _ _ _ _ _ _ Hnew Hrun) as [_ (lost & Hs & Hg) Ha _ Hl Hi _ _ _].
  rewrite (Hg Hw) in Hs. split; [exact Hs|]. split; [done|]. split; [done|].
  intros H0. split; [destruct (ap_loading (se_app s)); [specialize (Hl eq_refl Hw); lia|done]|].
  apply outstanding_zero in H0 as [E0 E1]. change ([] ++ ?l) with l in Hs.
  rewrite E0, app_nil_r in Hs. rewrite E1, app_nil_r in Ha.
  apply (f_equal last) in Hs. rewrite !fmap_last in Hs.
  destruct (last (request a "" :: sent_requests os)) as [r|] eqn:El; [|by apply last_None in El].
  change (first_request a) with (request a "") in Hs. rewrite El in Hs.
  destruct (last (exchanges os)) as [[x answer]|] eqn:Ex; [|done]. simpl in Hs. injection Hs as <-.
  exists r, answer. split; [done|]. split; [done|]. intros response Hr.
  apply last_Some in Ex as (before & Ex). rewrite Hi, <- Ha, Ex, fmap_app. by apply items_after_last.
Qed.

(** ** Settling *)

(** The worker answers what waits, the loop comes round to its channel and empties it. *)
Definition answering (reply : SearchRequest -> ApiReply) (s : Session) : list Move :=
  (WorkerAnswers ∘ reply <$> in_flight s)
  ++ (se_commands s ≫= (fun r => [WorkerReceives; WorkerAnswers (reply r)])).
Definition coming_round (p : Phase) : list Move :=
  match p with
  | Drawing => [Draw (Ok tt)]
  | Polling => [Poll (Ok None); Draw (Ok tt)]
  | _ => []
  end.
Definition settling (reply : SearchRequest -> ApiReply) (s : Session) : list Move :=
  answering reply s ++ coming_round (se_phase s) ++ replicate (outstanding s) Receive.

Definition looping (p : Phase) : bool := match p with Drawing | Draining | Polling => true | _ => false end.

Section Settling.
Context (client : ApiClient) (reply : SearchRequest -> ApiReply).

Lemma looping_not_returned s : looping (se_phase s) = true -> is_returned s = false.
Proof. unfold is_returned. by destruct (se_phase s). Qed.

Lemma worker_receives_step s r commands :
  se_worker s = Idle -> se_commands s = r :: commands ->
  tui_step client s WorkerReceives = Some (mkSession (se_app s) (se_phase s) commands (Busy r) (se_results s), []).
Proof. intros Hw Hc. unfold tui_step. rewrite Hw, Hc. by destruct (se_phase s). Qed.

Lemma worker_answers_step s r answer :
  se_worker s = Busy r ->
  tui_step client s (WorkerAnswers answer)
  = Some (mkSession (se_app s) (se_phase s) (se_commands s) Idle (se_results s ++ [search answer]),
          [Exchanged (api_request client r) (search answer)]).
Proof. intros Hw. unfold tui_step. rewrite Hw. by destruct (se_phase s). Qed.

Lemma run_moves_step m moves s s1 o1 s2 o2 :
  looping (se_phase s) = true -> tui_step client s m = Some (s1, o1) ->
  run_moves client moves s1 = Some (s2, o2) -> run_moves client (m :: moves) s = Some (s2, o1 ++ o2).
Proof. intros Hp Hs Hr. cbn [run_moves]. by rewrite (looping_not_returned s Hp), Hs, Hr. Qed.

Lemma answering_commands commands : forall a p results, looping p = true ->
  exists os, run_moves client (commands ≫= (fun r => [WorkerReceives; WorkerAnswers (reply r)]))
    (mkSession a p commands Idle results)
  = Some (mkSession a p [] Idle (results ++ (search ∘ reply <$> commands)), os).
Proof.
  induction commands as [|r commands IH]; intros a p results Hp; [exists []; simpl; by rewrite app_nil_r|].
  destruct (IH a p (results ++ [search (reply r)]) Hp) as (os & Hos). rewrite <- (assoc_L (++)) in Hos.
  eexists. cbn [mbind list_bind app].
  eapply run_moves_step; [done|by apply worker_receives_step|].
  eapply run_moves_step; [done|by apply worker_answers_step|exact Hos].
Qed.

Lemma answering_all s :
  looping (se_phase s) = true -> se_worker s <> Gone ->
  exists os, run_moves client (answering reply s) s
  = Some (mkSession (se_app s) (se_phase s) [] Idle
            (se_results s ++ (search ∘ reply <$> in_flight s ++ se_commands s)), os).
Proof.
  intros Hp Hw. unfold answering, in_flight. destruct s as [a p commands [|r|] results]; simpl in Hp, Hw; [| |done].
  - by apply answering_commands.
  - destruct (answering_commands commands a p (results ++ [search (reply r)]) Hp) as (os & Hos).
    rewrite <- (assoc_L (++)) in Hos. eexists. cbn [se_worker fmap list_fmap app].
    eapply run_moves_step; [done|by apply worker_answers_step|exact Hos].
Qed.

Lemma coming_round_drains s :
  looping (se_phase s) = true -> ap_view_index (se_app s) < length VIEWS ->
  exists os, run_moves client (coming_round (se_phase s)) s = Some (at_phase Draining s, os).
Proof.
  intros Hp (frame & Hf)%render_total. destruct s as [a p commands w results]. simpl in *.
  destruct p; try done; simpl; rewrite ?Hf; eexists; reflexivity.
Qed.

Lemma receiving results : forall a commands w,
  exists os, run_moves client (replicate (length results) Receive) (mkSession a Draining commands w results)
  = Some (mkSession (foldl apply_answer a results) Draining commands w [], os).
Proof.
  induction results as [|answer results IH]; intros a commands w; simpl; [eauto|].
  destruct (IH (apply_answer a answer) commands w) as (os & ->). eauto.
Qed.

Lemma settles s :
  looping (se_phase s) = true -> se_worker s <> Gone -> ap_view_index (se_app s) < length VIEWS ->
  exists os, run_moves client (settling reply s) s
  = Some (mkSession (foldl apply_answer (se_app s) (se_results s ++ (search ∘ reply <$> in_flight s ++ se_commands s)))
            Draining [] Idle [], os).
Proof.
  intros Hp Hw Hv. destruct (answering_all s Hp Hw) as (o1 & H1). unfold settling.
  rewrite (run_moves_app _ _ _ _ _ _ H1). set (s1 := mkSession _ _ _ _ _).
  destruct (coming_round_drains s1 Hp Hv) as (o2 & H2). rewrite (run_moves_app _ _ _ _ _ _ H2).
  destruct (receiving (se_results s1) (se_app s) [] Idle) as (o3 & H3).
  assert (length (se_results s1) = outstanding s) as E.
  { simpl. unfold outstanding. rewrite length_app, length_fmap. lia. }
  rewrite <- E. unfold at_phase, with_app. simpl in *. rewrite H3. eauto.
Qed.
End Settling.

Lemma apply_answers_keep answers : forall a,
  ap_query (foldl apply_answer a answers) = ap_query a /\ ap_editing (foldl apply_answer a answers) = ap_editing a
  /\ ap_view_index (foldl apply_answer a answers) = ap_view_index a.
Proof.
  induction answers as [|answer answers IH]; intros a; [done|]. cbn [foldl].
  destruct (IH (apply_answer a answer)) as (-> & -> & ->). by destruct answer.
Qed.

Lemma settling_length reply s : length (settling reply s) <= 3 * outstanding s + 2.
Proof.
  unfold settling, answering. rewrite !length_app, length_fmap, length_replicate.
  assert (length (se_commands s ≫= (fun r => [WorkerReceives; WorkerAnswers (reply r)])) = 2 * length (se_commands s)) as ->.
  { induction (se_commands s) as [|r l IH]; [done|]. cbn [mbind list_bind]. rewrite length_app, IH. simpl. lia. }
  assert (length (coming_round (se_phase s)) <= 2) by (destruct (se_phase s); simpl; lia).
  unfold outstanding. rewrite length_app. lia.
Qed.

(** C18: a session whose worker lives and that is not being closed can always
    settle, whatever the API answers: within three moves for every search or
    answer outstanding and two more to come round the loop, without a key
    pressed, every search is answered, every answer is shown, and the screen no
    longer says LOADING; the query, the view and the edit in progress are as
    they were. *)
Theorem session_settles `{UtcClock} client cli a moves s os reply :
  new_app (ac_tenant_id client) cli = Ok a -> run_moves client moves (first_session a) = Some (s, os) ->
  looping (se_phase s) = true -> se_worker s <> Gone ->
  exists more s' os',
    length more <= 3 * outstanding s + 2
    /\ run_moves client (moves ++ more) (first_session a) = Some (s', os ++ os')
    /\ outstanding s' = 0 /\ ap_loading (se_app s') = false /\ se_phase s' = Draining
    /\ ap_query (se_app s') = ap_query (se_app s) /\ ap_view_index (se_app s') = ap_view_index (se_app s)
    /\ ap_editing (se_app s') = ap_editing (se_app s)
    /\ se_app s' = foldl apply_answer (se_app s) (se_results s ++ (search ∘ reply <$> in_flight s ++ se_commands s)).
Proof.
  intros Hnew Hrun Hp Hw. pose proof (session_reaches _ _ _ _ _ _ Hnew Hrun) as Hok.
  destruct (settles client reply s Hp Hw (vo_view _ _ (so_view _ _ _ _ Hok))) as (os' & Hs').
  pose proof (run_moves_app _ moves (settling reply s) _ _ _ Hrun) as Hall. rewrite Hs' in Hall.
  pose proof (session_reaches _ _ _ _ _ _ Hnew Hall) as Hok'.
  set (s' := mkSession _ _ _ _ _) in *. exists (settling reply s), s', os'.
  destruct (apply_answers_keep (se_results s ++ (search ∘ reply <$> in_flight s ++ se_commands s)) (se_app s)) as (Hq & He & Hv).
  repeat split; try done; [apply settling_length|..].
  - pose proof (so_loading _ _ _ _ Hok') as Hl. destruct (ap_loading (se_app s')); [|done].
    specialize (Hl eq_refl ltac:(done)). unfold outstanding in Hl. simpl in Hl. lia.
Qed.

(** ** Typing *)

Definition key (code : KeyCode) : KeyEvent := mkKeyEvent code false.
Definition pressing (keys : list KeyEvent) (a : App) : App :=
  foldl (fun a k => (perform (keymap k (ap_editing a)) a).1.1) a keys.

(** A character: a byte that starts one, and the bytes that continue it *)
Definition is_char (c : string) : Prop :=
  exists lead rest, str_bytes c = lead :: rest /\ continuation lead = false /\ Forall (fun b => continuation b = true) rest.

Lemma pop_rev_char rest lead l :
  Forall (fun b => continuation b = true) rest -> continuation lead = false ->
  pop_rev (rest ++ lead :: l) = l.
Proof. intros Hr Hl. induction Hr as [|b rest Hb _ IH]; simpl; [by rewrite Hl|by rewrite Hb]. Qed.

Lemma str_pop_char s c : is_char c -> str_pop (s +:+ c) = s.
Proof.
  intros (lead & rest & Hc & Hl & Hr). unfold str_pop. rewrite str_bytes_app, Hc.
  rewrite reverse_app, reverse_cons, <- (assoc_L (++)). simpl. rewrite pop_rev_char; [|by apply Forall_reverse|done].
  rewrite reverse_involutive. apply str_bytes_inj, str_of_bytes_inv.
Qed.

Lemma pressing_app keys1 keys2 a : pressing (keys1 ++ keys2) a = pressing keys2 (pressing keys1 a).
Proof. apply foldl_app. Qed.

Lemma append_nil_r s : s +:+ "" = s.
Proof. apply str_bytes_inj. by rewrite str_bytes_app, app_nil_r. Qed.

Lemma set_query_set q1 q2 a : set_query q1 (set_query q2 a) = set_query q1 a.
Proof. done. Qed.
Lemma set_query_same a : set_query (ap_query a) a = a.
Proof. by destruct a. Qed.

Definition typed (cs : list string) : string := foldr String.append "" cs.

Lemma typing_inserts cs : forall a, ap_editing a = true ->
  pressing (key ∘ Char <$> cs) a = set_query (ap_query a +:+ typed cs) a.
Proof.
  induction cs as [|c cs IH]; intros a He; cbn [fmap list_fmap pressing foldl typed foldr].
  - by rewrite append_nil_r, set_query_same.
  - fold (typed cs). rewrite He. cbn [keymap key ke_code ke_control perform fst compose].
    change (foldl ?f ?x ?l) with (pressing l x). rewrite IH by done. rewrite set_query_set. simpl.
    by rewrite append_assoc.
Qed.

Lemma typed_app cs cs' : typed (cs ++ cs') = typed cs +:+ typed cs'.
Proof. induction cs as [|c cs IH]; simpl; [done|]. by rewrite IH, append_assoc. Qed.

Lemma erasing cs : Forall is_char cs -> forall a q, ap_editing a = true ->
  pressing (replicate (length cs) (key Backspace)) (set_query (q +:+ typed cs) a) = set_query q a.
Proof.
  induction cs as [|c cs IH] using rev_ind; intros Hcs a q He; [simpl; by rewrite append_nil_r|].
  apply Forall_app in Hcs as [Hcs [Hc _]%Forall_cons].
  rewrite length_app, Nat.add_comm, typed_app. cbn [length Nat.add replicate pressing foldl].
  change (ap_editing (set_query ?q a)) with (ap_editing a). rewrite He.
  cbn [keymap key ke_code ke_control perform fst typed foldr]. change (foldl ?f ?x ?l) with (pressing l x).
  rewrite set_query_set. cbn [set_query ap_query]. rewrite append_nil_r, <- append_assoc, str_pop_char by done. by apply IH.
Qed.

(** Typing characters into the query and pressing Backspace as often gives back
    the state it started from, whatever characters they are; typing them and
    pressing Enter sends a search for the query so extended, for its first page. *)
Theorem typing_round_trip a cs :
  ap_editing a = true -> Forall is_char cs ->
  pressing ((key ∘ Char <$> cs) ++ replicate (length cs) (key Backspace)) a = a
  /\ exists a', perform (keymap (key Enter) true) (pressing (key ∘ Char <$> cs) a)
       = (a', Some (mkSearchRequest (ap_query a +:+ typed cs) (mkSearchTimeRange (ap_from a) (ap_to a)) "" (ap_limit a)
                      [mkSearchSort "event_time" "desc"]), true)
     /\ ap_editing a' = false /\ ap_loading a' = true /\ ap_query a' = ap_query a +:+ typed cs.
Proof.
  intros He Hcs. rewrite pressing_app, typing_inserts by done. split.
  - rewrite erasing by done. apply set_query_same.
  - eexists. by split; [reflexivity|].
Qed.

Lemma typing_round_trip_witness :
  exists a, ap_editing a = true /\ pressing ((key ∘ Char <$> ["a"; "é"]) ++ replicate 2 (key Backspace)) a = a
    /\ ap_query (pressing (key ∘ Char <$> ["a"; "é"]) a) = "user:aé".
Proof.
  exists (mkApp "tenant" 2 "user:" true false [] "" "editing query" "" false "f" "t" 50).
  split; [reflexivity|]. split; [|reflexivity].
  apply (typing_round_trip (mkApp "tenant" 2 "user:" true false [] "" "editing query" "" false "f" "t" 50) ["a"; "é"]);
    [reflexivity|].
  apply Forall_cons. split; [exists "a"%char, []; by repeat split|].
  apply Forall_cons. split; [|apply Forall_nil; exact I].
  exists "195"%char, ["169"%char]. split; [reflexivity|]. split; [reflexivity|]. by apply Forall_singleton.
Defined.

(** ** What the screen says that is not so *)

Definition ok_key (k : KeyEvent) : Move := Poll (Ok (Some (Key k))).
Definition round : list Move := [Draw (Ok tt); Receive].

Lemma run_chain client moves1 moves2 s s1 o1 s2 o2 :
  run_moves client moves1 s = Some (s1, o1) -> run_moves client moves2 s1 = Some (s2, o2) ->
  run_moves client (moves1 ++ moves2) s = Some (s2, o1 ++ o2).
Proof. intros H1 H2. by rewrite (run_moves_app _ _ _ _ _ _ H1), H2. Qed.

Lemma round_step client a commands w results :
  ap_view_index a < length VIEWS ->
  exists frame, run_moves client round (mkSession a Drawing commands w results)
    = Some (match results with
            | [] => mkSession a Polling commands w []
            | answer :: results => mkSession (apply_answer a answer) Draining commands w results
            end, Drawn frame :: match results with [] => [] | answer :: _ => [Applied answer] end).
Proof.
  intros (frame & Hf)%render_total. exists frame. unfold round. cbn [run_moves is_returned se_phase].
  unfold tui_step at 1. cbn [se_phase se_app]. rewrite Hf. by destruct results.
Qed.

Lemma render_header a :
  ap_view_index a = 2 ->
  exists rest, render a
    = Ok (Paragraph None ("CERBERO" +:+ "  tenant=" +:+ ap_tenant_id a +:+ "  view=" +:+ "Search" +:+ "  "
                          +:+ (if ap_loading a then "LOADING" else "READY")) :: rest).
Proof. intros Hv. unfold render, render_workspace. rewrite Hv. cbn [index VIEWS lookup list_lookup bind]. eexists. reflexivity. Qed.

Lemma ready_header a tenant :
  ap_tenant_id a = tenant -> ap_view_index a = 2 -> ap_loading a = false ->
  exists rest, render a = Ok (Paragraph None ("CERBERO  tenant=" +:+ tenant +:+ "  view=Search  READY") :: rest).
Proof. intros <- (rest & Hr)%render_header Hl. rewrite Hl in Hr. exists rest. exact Hr. Qed.

Lemma key_step client k a commands w results :
  run_moves client [ok_key k] (mkSession a Polling commands w results)
  = let '(s, o) := handle_key k (mkSession a Polling commands w results) in Some (s, o ++ []).
Proof. unfold ok_key. cbn [run_moves is_returned se_phase tui_step]. by destruct (handle_key k _). Qed.

(** C40: a search that is committed while another is on its way is not what the
    screen shows next: the answer to the first search clears the LOADING mark and
    fills the list under the new query, while the new search has not even reached
    the API.  The code keeps one flag for any number of searches, and nothing in an
    answer says which search it answers. *)
Theorem stale_search_shown_as_ready `{UtcClock} client cli a c request_id text response :
  new_app (ac_tenant_id client) cli = Ok a ->
  exists s os,
    run_moves client
      (round ++ [ok_key (key (Char "/"))] ++ round ++ [ok_key (key (Char c))] ++ round ++ [ok_key (key Enter)]
       ++ [WorkerReceives; WorkerAnswers (Replied 200 request_id text (inl response))] ++ round) (first_session a)
    = Some (s, os)
    /\ exchanges os = [(api_request client (request a ""), Ok response)]
    /\ ap_query (se_app s) = ap_query a +:+ c
    /\ ap_items (se_app s) = rs_items response
    /\ ap_loading (se_app s) = false
    /\ se_commands s = [mkSearchRequest (ap_query a +:+ c) (mkSearchTimeRange (ap_from a) (ap_to a)) "" (ap_limit a)
         [mkSearchSort "event_time" "desc"]]
    /\ exists rest, render (se_app s)
         = Ok (Paragraph None ("CERBERO  tenant=" +:+ ac_tenant_id client +:+ "  view=Search  READY") :: rest).
Proof.
  intros (Ht & Hv & He & _)%new_app_fields. destruct a as [tenant v q e l items cursor status id partial from to limit].
  simpl in Ht, Hv, He. subst. unfold first_session.
  assert (2 < length VIEWS) as H2 by (simpl; lia).
  edestruct round_step as (f1 & R1); [|edestruct round_step as (f2 & R2); [|edestruct round_step as (f3 & R3);
    [|edestruct round_step as (f4 & R4)]]].
  5:{ eexists. eexists. split.
      { eapply run_chain; [exact R1|]. eapply run_chain; [rewrite key_step; reflexivity|].
        eapply run_chain; [exact R2|]. eapply run_chain; [rewrite key_step; reflexivity|].
        eapply run_chain; [exact R3|]. eapply run_chain; [rewrite key_step; reflexivity|].
        eapply run_chain; [reflexivity|exact R4]. }
      do 5 (split; [reflexivity|]). apply ready_header; reflexivity. }
  all: exact H2.
Qed.

(** Leaving the edit of the query with Esc does not take the edit back, though
    the status line says it was cancelled: the query keeps what was typed, and the
    next page is then asked for with the edited query and the cursor of the
    response to the query before it. *)
Theorem cancelled_edit_is_kept a c :
  ap_editing a = false -> ap_next_cursor a <> "" ->
  let cancelled := pressing [key (Char "/"); key (Char c); key Esc] a in
  ap_status cancelled = "query edit cancelled"
  /\ ap_query cancelled = ap_query a +:+ c
  /\ exists a', perform (keymap (key (Char "n")) (ap_editing cancelled)) cancelled
       = (a', Some (mkSearchRequest (ap_query a +:+ c) (mkSearchTimeRange (ap_from a) (ap_to a)) (ap_next_cursor a)
                      (ap_limit a) [mkSearchSort "event_time" "desc"]), true).
Proof.
  destruct a as [tenant v q e l items [|b cursor] status id partial from to limit]; intros He Hn; simpl in He, Hn; [done|].
  subst. vm_compute. repeat split. eexists. reflexivity.
Qed.

(** ** The command line *)

Definition cli_arguments (cli : Cli) : list string :=
  (if cl_snapshot cli then ["--snapshot"] else []) ++ ["--query"; cl_query cli]
  ++ match cl_from cli with Some from => ["--from"; from] | None => [] end
  ++ match cl_to cli with Some to => ["--to"; to] | None => [] end
  ++ ["--limit"; pretty (cl_limit cli)].

(** The command line is read as it was meant: the options written out for any
    choice of mode, query, time range and limit that is allowed (the two ends of
    the range together, a limit between 1 and 200) parse to that choice, values
    that look like options included; and whatever parses is allowed. *)
Theorem cli_round_trip cli :
  (is_set (cl_from cli) = is_set (cl_to cli) /\ (1 <= cl_limit cli <= 200)%Z
   <-> parse_cli (cli_arguments cli) = Ok (Some cli))
  /\ (forall arguments, parse_cli arguments = Ok (Some cli) -> parse_cli (cli_arguments cli) = Ok (Some cli)).
Proof.
  assert (is_set (cl_from cli) = is_set (cl_to cli) /\ (1 <= cl_limit cli <= 200)%Z ->
          parse_cli (cli_arguments cli) = Ok (Some cli)) as Hparse.
  { intros [Hft Hl]. unfold parse_cli. destruct cli as [snap q from to limit]. simpl in Hft, Hl.
    assert (parse_arguments (cli_arguments (mkCli snap q from to limit)) (mkCli false "" None None 50)
            = Ok (Some (mkCli snap q from to limit))) as ->.
    { unfold cli_arguments. destruct snap, from, to; try done; simpl; unfold parse_usize;
        rewrite parse_unsigned_pretty by (lia || (intros n Hn; apply in_range_spec; unfold usize_max, u64_max; lia)); reflexivity. }
    cbn [bind cl_from cl_to cl_limit]. rewrite Hft, xorb_nilpotent. apply in_range_spec in Hl. by rewrite Hl. }
  split; [split; [exact Hparse|apply parse_cli_valid]|]. by intros arguments Hp%parse_cli_valid%Hparse.
Qed.

(** ** The API's address *)

(** RFC 3986: the host of an [http] URL is what follows the user information in
    the authority, up to the port. *)
Fixpoint before_any (stops : list ascii) (s : string) : string :=
  match s with
  | String b s => if existsb (Ascii.eqb b) stops then "" else String b (before_any stops s)
  | EmptyString => ""
  end.
Definition url_host (url : string) : option string :=
  (fun rest =>
     let authority := before_any ["/"; "?"; "#"]%char rest in
     before_any [":"%char] match split_once "@" authority with Some (_, host) => host | None => authority end)
  <$> strip_prefix "http://" url.

Definition has_none (stops : list ascii) (s : string) : bool := forallb (fun c => negb (contains_char c s)) stops.

Lemma has_none_cons stops b s : has_none stops (String b s) = negb (existsb (Ascii.eqb b) stops) && has_none stops s.
Proof.
  induction stops as [|c stops IH]; [done|]. unfold has_none in *. cbn [forallb existsb].
  rewrite IH, contains_char_cons, Ascii.eqb_sym.
  by destruct (Ascii.eqb b c), (existsb (Ascii.eqb b) stops), (contains_char c s).
Qed.

Lemma before_any_app stops s t : has_none stops s = true -> before_any stops (s +:+ t) = s +:+ before_any stops t.
Proof.
  induction s as [|b s IH]; [done|]. rewrite has_none_cons. intros [Hb%negb_true_iff Hs]%andb_true_iff.
  change (String b s +:+ t) with (String b (s +:+ t)). cbn [before_any]. rewrite Hb, IH by done. done.
Qed.

Lemma trim_end_slashes_last s b : Ascii.eqb b "/" = false -> trim_end_slashes (s +:+ String b "") = s +:+ String b "".
Proof.
  intros Hb. unfold trim_end_slashes. rewrite str_bytes_app, reverse_app. cbn [str_bytes list_ascii_of_string].
  rewrite reverse_singleton. cbn [app drop_slashes]. rewrite Hb. apply str_bytes_inj.
  by rewrite str_of_bytes_inv, reverse_cons, reverse_involutive, str_bytes_app.
Qed.

(** The check that keeps the development client on the loopback interface
    compares the text of the URL and not its host: a URL whose user information
    begins like a loopback address passes it, though its host is any other, and the
    client then sends the tenant's searches there. *)
Theorem loopback_check_bypassed password host env tenant :
  has_none ["/"; "?"; "#"; "@"]%char password = true -> has_none ["/"; "?"; "#"; "@"; ":"]%char host = true ->
  let url := "http://127.0.0.1:" +:+ password +:+ "@" +:+ host +:+ ":8080" in
  env "CERBERO_TUI_API_URL" = Ok url -> env "CERBERO_TUI_TENANT_ID" = Ok tenant ->
  url_host url = Some host
  /\ exists client, client_from_env env (Ok tt) = Ok client
     /\ forall r, ar_url (api_request client r) = url +:+ "/api/v1/search".
Proof.
  intros Hp Hh url Hurl Ht. unfold has_none in Hp, Hh. cbn [forallb] in Hp, Hh.
  rewrite !andb_true_iff, !negb_true_iff in Hp. rewrite !andb_true_iff, !negb_true_iff in Hh.
  destruct Hp as (Hp1 & Hp2 & Hp3 & Hp4 & _), Hh as (Hh1 & Hh2 & Hh3 & _ & Hh5 & _). split.
  - unfold url_host.
    assert (strip_prefix "http://" url = Some (("127.0.0.1:" +:+ password) +:+ "@" +:+ (host +:+ ":8080"))) as ->
      by (apply strip_prefix_Some; rewrite append_assoc; reflexivity).
    cbn [fmap option_fmap option_map]. f_equal.
    rewrite (before_any_app _ ("127.0.0.1:" +:+ password)), (before_any_app _ "@"), (before_any_app _ host)
      by (unfold has_none; cbn [forallb]; rewrite ?contains_char_app, ?Hp1, ?Hp2, ?Hp3, ?Hh1, ?Hh2, ?Hh3; reflexivity).
    change (before_any ["/"; "?"; "#"]%char ":8080") with ":8080".
    rewrite split_once_extend by (apply free_of_char; by rewrite contains_char_app, Hp4).
    rewrite before_any_app by (unfold has_none; cbn [forallb]; by rewrite Hh5). by rewrite append_nil_r.
  - unfold client_from_env. rewrite Hurl, Ht. cbn [bind].
    exists (mkApiClient url tenant). split; [|done].
    assert (trim_end_slashes url = url) as Htrim.
    { subst url. change ":8080" with (":808" +:+ "0"). rewrite <- !append_assoc. by apply trim_end_slashes_last. }
    rewrite Htrim. assert (starts_with "http://127.0.0.1:" url = true) as ->; [|reflexivity].
    unfold starts_with. by rewrite (proj2 (strip_prefix_Some "http://127.0.0.1:" url (password +:+ "@" +:+ host +:+ ":8080"))).
Qed.

(** ** The terminal *)

Definition succeeded (r : result unit string) : bool := match r with Ok _ => true | _ => false end.

(** However the interactive mode ends, by a key, an error or a panic, it leaves
    the terminal as it found it, where the terminal can leave raw mode and the
    alternate screen at all and both had been entered; while it runs they stay
    entered.  If entering the alternate screen fails, raw mode stays on: no guard
    exists yet to switch it off. *)
Theorem terminal_mode_restored `{UtcClock} client cli calls moves outcome mode :
  tc_disable_raw calls = true -> tc_leave_alternate calls = true ->
  run_interactive client cli calls moves (mkTerminalMode false false) = (outcome, mode) ->
  match outcome with
  | None => mode = mkTerminalMode true true
  | Some _ =>
      mode = mkTerminalMode
        (succeeded (tc_enable_raw calls) && negb (succeeded (tc_enter_alternate calls))) false
  end.
Proof.
  intros Hd Hl. unfold run_interactive, enter, drop_guard. rewrite Hd, Hl.
  destruct (tc_enable_raw calls) as [[]|e|p]; [|by intros [= <- <-]..].
  destruct (tc_enter_alternate calls) as [[]|e|p]; [|by intros [= <- <-]..]. simpl.
  destruct (_ ;;? _) as [a|e|p]; [|by intros [= <- <-]..].
  destruct (run_moves client moves (first_session a)) as [[s os]|]; [|by intros [= <- <-]].
  by destruct (se_phase s); intros [= <- <-].
Qed.

(** ** A concrete session *)

Definition sample_clock : UtcClock := {|
  now_utc := 1735689600000000000;
  datetime_sub t d := Some (t - d)%Z;
  format_rfc3339 t := Ok (if (t =? 1735689600000000000)%Z then "2025-01-01T00:00:00Z" else "2024-12-31T23:45:00Z");
|}.
Definition sample_client : ApiClient := mkApiClient "http://localhost:8080" "tenant-1".
Definition sample_cli : Cli := mkCli false "user:root" None None 20.
Definition sample_new_app : result App string := @new_app sample_clock "tenant-1" sample_cli.
Definition sample_app : App :=
  mkApp "tenant-1" 2 "user:root" false false [] "" "ready" "" false "2024-12-31T23:45:00Z" "2025-01-01T00:00:00Z" 20.
Definition sample_item : EventItem :=
  mkEventItem "event-1" "tenant-1" "2024-12-31T23:50:00Z" (Some 3%Z) (JObject [("message", JString "Failed password")]).
Definition sample_response : SearchResponse :=
  mkSearchResponse [sample_item] "cursor-2" (mkSearchExecution "request-1" false false false).
Definition sample_reply : ApiReply := Replied 200 (Some "request-1") None (inl sample_response).
(** The first search is answered and shown, its next page is asked for, and the query is edited meanwhile. *)
Definition sample_moves : list Move :=
  [WorkerReceives; WorkerAnswers sample_reply; Draw (Ok tt); Receive; Receive; ok_key (key (Char "n"));
   Draw (Ok tt); Receive; ok_key (key (Char "/")); WorkerReceives].

Lemma sample_new_app_ok : sample_new_app = Ok sample_app.
Proof. reflexivity. Qed.
Lemma sample_cli_ok : parse_cli ["--query"; "user:root"; "--limit"; "20"] = Ok (Some sample_cli).
Proof. reflexivity. Qed.

Definition sample_run (moves : list Move) : option (Session * list Observation) :=
  run_moves sample_client moves (first_session sample_app).
Definition run_session (moves : list Move) : Session :=
  match sample_run moves with Some (s, _) => s | None => first_session sample_app end.
Definition run_observed (moves : list Move) : list Observation :=
  match sample_run moves with Some (_, os) => os | None => [] end.

Lemma sample_runs : sample_run sample_moves = Some (run_session sample_moves, run_observed sample_moves).
Proof. vm_compute. reflexivity. Qed.

Lemma interactive_session_invariant_witness :
  sent_requests (run_observed sample_moves)
    = [mkSearchRequest "user:root" (mkSearchTimeRange "2024-12-31T23:45:00Z" "2025-01-01T00:00:00Z") "cursor-2" 20
         [mkSearchSort "event_time" "desc"]]
  /\ exists frame, render (se_app (run_session sample_moves)) = Ok frame.
Proof.
  split; [vm_compute; reflexivity|].
  exact (proj1 (@interactive_session_invariant sample_clock _ sample_cli sample_client sample_app sample_moves _ _
                  sample_cli_ok sample_new_app_ok sample_runs)).
Defined.

Lemma searches_answered_in_order_witness :
  ap_items (se_app (run_session sample_moves)) = [sample_item]
  /\ in_flight (run_session sample_moves) <> []
  /\ (exchanges (run_observed sample_moves)).*2
     = applied (run_observed sample_moves) ++ se_results (run_session sample_moves).
Proof.
  split; [vm_compute; reflexivity|]. split; [vm_compute; discriminate|].
  refine (proj1 (proj2 (@searches_answered_in_order sample_clock sample_client sample_cli sample_app sample_moves _ _
                          sample_new_app_ok sample_runs _))).
  vm_compute. discriminate.
Defined.

Lemma session_settles_witness :
  outstanding (run_session sample_moves) = 1
  /\ exists more s' os', length more <= 5
     /\ run_moves sample_client (sample_moves ++ more) (first_session sample_app) = Some (s', os')
     /\ ap_loading (se_app s') = false.
Proof.
  split; [vm_compute; reflexivity|].
  destruct (@session_settles sample_clock sample_client sample_cli sample_app sample_moves (run_session sample_moves)
              (run_observed sample_moves) (fun _ => TransportFailed "timed out") sample_new_app_ok sample_runs)
    as (more & s' & os' & Hlen & Hrun & _ & Hl & _);
    [vm_compute; reflexivity|vm_compute; discriminate|].
  exists more, s', (run_observed sample_moves ++ os'). split; [exact Hlen|]. split; [exact Hrun|exact Hl].
Defined.

Lemma stale_search_shown_as_ready_witness :
  exists s os, sample_run
      (round ++ [ok_key (key (Char "/"))] ++ round ++ [ok_key (key (Char "x"))] ++ round ++ [ok_key (key Enter)]
       ++ [WorkerReceives; WorkerAnswers sample_reply] ++ round) = Some (s, os)
    /\ ap_query (se_app s) = "user:rootx" /\ ap_loading (se_app s) = false /\ ap_items (se_app s) = [sample_item].
Proof.
  destruct (@stale_search_shown_as_ready sample_clock sample_client sample_cli sample_app "x" (Some "request-1") None
              sample_response sample_new_app_ok) as (s & os & Hrun & _ & Hq & Hi & Hl & _).
  exists s, os. split; [exact Hrun|]. split; [exact Hq|]. split; [exact Hl|exact Hi].
Defined.

Lemma cancelled_edit_is_kept_witness :
  ap_query (pressing [key (Char "/"); key (Char "x"); key Esc] (apply_search sample_app sample_response)) = "user:rootx".
Proof.
  refine (proj1 (proj2 (cancelled_edit_is_kept (apply_search sample_app sample_response) "x" _ _)));
    [reflexivity|discriminate].
Defined.

Lemma loopback_check_bypassed_witness :
  url_host "http://127.0.0.1:x@siem.example:8080" = Some "siem.example".
Proof.
  refine (proj1 (loopback_check_bypassed "x" "siem.example"
    (fun name => if String.eqb name "CERBERO_TUI_API_URL" then Ok "http://127.0.0.1:x@siem.example:8080" else Ok "tenant-1")
    "tenant-1" _ _ _ _)); reflexivity.
Defined.

Lemma terminal_mode_restored_witness :
  @run_interactive sample_clock sample_client sample_cli (mkTerminalCalls (Ok tt) (Ok tt) (Ok tt) true true)
      [Draw (Err "broken pipe")] (mkTerminalMode false false)
    = (Some (Err "broken pipe"), mkTerminalMode false false)
  /\ (@run_interactive sample_clock sample_client sample_cli (mkTerminalCalls (Ok tt) (Err "broken pipe") (Ok tt) true true)
      [] (mkTerminalMode false false)).2 = mkTerminalMode true false.
Proof.
  split; [vm_compute; reflexivity|].
  refine (@terminal_mode_restored sample_clock sample_client sample_cli
    (mkTerminalCalls (Ok tt) (Err "broken pipe") (Ok tt) true true) [] (Some (Err "broken pipe")) _ _ _ _); reflexivity.
Defined.

(** ** The unit tests of main.rs *)

Module TuiTests.

#[local] Instance Action_eq_dec : EqDecision Action.
Proof. solve_decision. Defined.

Definition tt_key (code : KeyCode) : KeyEvent := mkKeyEvent code false.

Definition keymap_keeps_essential_workflow_keyboard_only : bool :=
  bool_decide (keymap (tt_key Tab) false = NextView)
  && bool_decide (keymap (tt_key (Char "/")) false = BeginSearchEdit)
  && bool_decide (keymap (tt_key Enter) true = CommitSearch)
  && bool_decide (keymap (tt_key (Char "q")) false = Quit).

Definition canonical_navigation_contains_locked_primary_views : bool :=
  bool_decide (VIEWS =
    ["Overview"; "Events"; "Search"; "Findings"; "Incidents"; "Cases"; "Entities"; "ATT&CK"; "Rules"; "Agents"; "System"]).

(** The screen is drawn: [render] does not panic, and shows the event. *)
Definition search_view_renders_on_test_backend `{UtcClock} : bool :=
  let cli := mkCli false ("user.name == " +:+ String "034" ("jdoe" +:+ String "034" "")) (Some "2033-05-18T03:33:00Z") (Some "2033-05-18T03:34:00Z") 50 in
  match new_app "018f47a2-4b00-7a00-8000-00000000f001" cli with
  | Ok app =>
      let item := mkEventItem "018f47a2-4b00-7a00-8000-00000000f101" (ap_tenant_id app) "2033-05-18T03:33:20Z" (Some 2%Z)
        (JObject [("message", JString "test"); ("user", JObject [("name", JString "jdoe")])]) in
      match render (mkApp (ap_tenant_id app) (ap_view_index app) (ap_query app) (ap_editing app) (ap_loading app) [item]
                      (ap_next_cursor app) (ap_status app) (ap_request_id app) (ap_partial app) (ap_from app) (ap_to app)
                      (ap_limit app)) with
      | Ok widgets => existsb (fun w => match w with
                                        | ListOf (Some title) rows => String.eqb title "NormalizedEvents" && (length rows =? 1)%nat
                                        | _ => false end) widgets
      | _ => false
      end
  | _ => false
  end.

(** The suite passes. *)
Theorem tui_suite_passes `{UtcClock} :
  keymap_keeps_essential_workflow_keyboard_only && canonical_navigation_contains_locked_primary_views
  && search_view_renders_on_test_backend = true.
Proof. vm_compute. reflexivity. Qed.
End TuiTests.
