(* ===== verification/EndToEnd.v ===== *)
(** * From a rejected password to an alert

    The two programs share one table: the normalizer writes the row of a plan, the
    batch loader of the detection runtime selects it and rebuilds the event.  The
    event the rules see is the one the normalizer made, and so ten rejected
    passwords that the normalizer took from sshd's log are a burst for the
    THRESHOLD rule. *)

From Stdlib Require Import SpecFloat.
From S2P Require Import Prelude RustStd RustText ContractTypes Validation SignalContract DetectionAst EventPipeline EventSignal Threshold ThresholdSpec Sigma Effects Database Repository MvpRules MvpRulesSpec MvpBatch MvpBatchSpec CanonicalJson CanonicalJsonSpec Parser ParserSpec ParserFormats SourceTime Mapping RetryState Metrics NormalizerWorld NormalizerCore RuntimeConfig RawStore EventBus ClickHouse DeadLetter Runtime NormalizerCoreSpec StoredRowSpec PipelineSpec.

(** ** One JSON value, two programs *)

Section Conversions.
Context `{JsonCodec}.

(** The value as the detection runtime knows it: a number through [as_f64] *)
Fixpoint known (v : Json) : JsonValue :=
  match v with
  | JNull => JsonNull
  | JBool b => JsonBool b
  | JNumber text => JsonNumber (number_as_f64 text)
  | JString text => JsonString text
  | JArray values => JsonArray (known <$> values)
  | JObject object => JsonObject ((fun '(k, v) => (k, known v)) <$> object)
  end.

Definition same_ok {A E F} (r : result A E) (r' : result A F) : Prop := forall a, r = Ok a <-> r' = Ok a.

Lemma same_ok_bind {A B E F} (r : result A E) (r' : result A F) (k : A -> result B E) (k' : A -> result B F) :
  same_ok r r' -> (forall a, same_ok (k a) (k' a)) -> same_ok (bind r k) (bind r' k').
Proof.
  intros Hr Hk b. rewrite !bind_ok_iff. split; intros (a & Ha & Hb); exists a; split;
    [by apply Hr|by apply Hk|by apply Hr|by apply Hk].
Qed.

Lemma same_ok_refl_ok {A E F} (a : A) : same_ok (@Ok A E a) (@Ok A F a).
Proof. intros b. split; by intros [= ->]. Qed.

Lemma same_ok_map_m {A A' B E F} (f : A -> result B E) (g : A' -> result B F) (c : A -> A') l :
  Forall (fun a => same_ok (f a) (g (c a))) l -> same_ok (map_m f l) (map_m g (c <$> l)).
Proof.
  intros Hall bs. rewrite !map_m_ok_iff, Forall2_fmap_l. revert bs.
  induction Hall as [|a l Ha _ IH]; intros bs; [by split; intros Hb; inversion Hb; constructor|].
  split; intros Hb; inversion Hb; subst; constructor; by first [apply Ha|apply IH].
Qed.

Lemma same_ok_sym {A E F} (r : result A E) (r' : result A F) : same_ok r r' -> same_ok r' r.
Proof. intros Hr a. by rewrite (Hr a). Qed.

Lemma collect_fields_map fields : collect_fields fields = mkStruct (collect_map fields).
Proof. reflexivity. Qed.

(** Members are converted alike where their values are. *)
Lemma same_ok_members {A A' E F} (f : A -> result Value E) (g : A' -> result Value F) (c : A -> A')
    (members : list (string * A)) :
  Forall (fun m => same_ok (f m.2) (g (c m.2))) members ->
  same_ok (map_m (fun '(key, value) => let? value := f value in Ok (key, value)) members)
    (map_m (fun '(key, value) => let? value := g value in Ok (key, value)) ((fun '(k, v) => (k, c v)) <$> members)).
Proof.
  intros Hall. apply same_ok_map_m. eapply Forall_impl; [exact Hall|]. intros [k v] Hv. simpl.
  apply same_ok_bind; [exact Hv|]. intros x. apply same_ok_refl_ok.
Qed.

Lemma value_conversions_agree v :
  same_ok (NormalizerCore.json_to_prost_value v) (stored_json_to_prost_value v) /\
  same_ok (stored_json_to_prost_value v) (MvpBatch.json_to_prost_value (known v)).
Proof.
  induction v as [|b|t|t|values IH|object IH] using Json_tree_ind.
  1, 2, 4: split; apply same_ok_refl_ok.
  - split; cbn; destruct (number_as_f64 t); done || apply same_ok_refl_ok.
  - apply Forall_and in IH as [IH1 IH2]. split; (apply same_ok_bind; [|intros; apply same_ok_refl_ok]);
      (apply same_ok_bind; [|intros; apply same_ok_refl_ok]).
    + pose proof (same_ok_map_m _ _ id _ IH1) as Hm. by rewrite list_fmap_id in Hm.
    + exact (same_ok_map_m _ _ known _ IH2).
  - apply Forall_and in IH as [IH1 IH2]. split; (apply same_ok_bind; [|intros; apply same_ok_refl_ok]).
    + apply same_ok_bind; [|intros; apply same_ok_refl_ok].
      pose proof (same_ok_members _ _ id object IH1) as Hm.
      rewrite (list_fmap_ext _ id) in Hm; [by rewrite list_fmap_id in Hm|]. by intros ? [].
    + cbn [known]. apply same_ok_bind; [exact (same_ok_members _ _ known _ IH2)|].
      intros fields. rewrite collect_fields_map. apply same_ok_refl_ok.
Qed.

Lemma struct_of_value {A E} (m : result A E) (f : A -> Struct) s :
  (let? kind := (let? fields := m in Ok (StructValue (f fields))) in Ok (mkValue (Some kind)))
    = Ok (mkValue (Some (StructValue s))) <-> (let? fields := m in Ok (f fields)) = Ok s.
Proof. destruct m; cbn [bind]; naive_solver. Qed.

Lemma core_conversion v s :
  NormalizerCore.json_to_prost_struct v = Ok s <-> stored_json_to_prost_struct v = Ok s.
Proof.
  destruct v as [| | | | |object]; try done.
  etrans; [symmetry; apply (struct_of_value _ (fun fields => mkStruct (collect_map fields)))|].
  etrans; [exact (proj1 (value_conversions_agree (JObject object)) _)|].
  apply (struct_of_value _ (fun fields => mkStruct (collect_map fields))).
Qed.

Lemma loader_conversion v s :
  stored_json_to_prost_struct v = Ok s <-> MvpBatch.json_to_prost_struct (known v) = Ok s.
Proof.
  destruct v as [| | | | |object]; try done.
  etrans; [symmetry; apply (struct_of_value _ (fun fields => mkStruct (collect_map fields)))|].
  etrans; [exact (proj2 (value_conversions_agree (JObject object)) _)|]. apply (struct_of_value _ collect_fields).
Qed.

(** The three conversions of a JSON document to a Protobuf [Struct], written
    once in the core, once for stored rows and once in the batch loader, agree: they
    accept the same documents and give the same [Struct]; and the order in which a
    document lists its members, which the canonical text changes, does not matter. *)
Theorem json_conversions_agree v s :
  (NormalizerCore.json_to_prost_struct v = Ok s <-> stored_json_to_prost_struct v = Ok s) /\
  (stored_json_to_prost_struct v = Ok s <-> MvpBatch.json_to_prost_struct (known v) = Ok s) /\
  (distinct_members v -> NormalizerCore.json_to_prost_struct v = Ok s ->
     MvpBatch.json_to_prost_struct (known (canonicalize v)) = Ok s).
Proof.
  split; [apply core_conversion|]. split; [apply loader_conversion|].
  intros Hd Hs. by apply loader_conversion, stored_struct_canonical.
Qed.
End Conversions.

(** ** One row, two programs *)

(** What the loader's query selects of a row: the columns it names, the UUID
    columns as text *)
Definition selected_row (row : StoredNormalization) : StoredNormalizedRow :=
  mkStoredNormalizedRow (sn_tenant_id row) (sql_uuid (sn_normalized_event_id row)) (sql_uuid (sn_raw_event_id row))
    (sn_event_time_present row) (sn_event_time_seconds row) (sn_event_time_nanos row)
    (sn_normalized_at_seconds row) (sn_normalized_at_nanos row) (sn_ocsf_version row) (sn_class_uid row)
    (sn_category_uid row) (sn_activity_id row) (sn_severity row) (sn_parser_id row) (sn_parser_version row)
    (sn_normalization_status row) (sn_normalized_hash_algorithm row) (sn_normalized_hash row)
    (sn_pipeline_version row) (sn_ocsf_event_json row).

(** The event with its identities as the UUID columns give them back *)
Definition stored_identities (e : NormalizedEvent) : NormalizedEvent :=
  mkNormalizedEvent (sql_uuid (ne_normalized_event_id e)) (sql_uuid (ne_raw_event_id e)) (ne_tenant_id e)
    (ne_normalized_at e) (ne_ocsf_version e) (ne_class_uid e) (ne_category_uid e) (ne_severity e) (ne_activity_id e)
    (ne_ocsf_event e) (ne_parser_id e) (ne_parser_version e) (ne_normalization_status e)
    (ne_normalized_hash_algorithm e) (ne_normalized_hash e) (ne_pipeline_version e).

Section Handover.
Context `{Sha256} `{JsonCodec} `{FormatCodec} `{DebugStr} `{TimeCrate} `{Outside} `{SerdeJson}.

(** [serde_json] reads one text as one value, from bytes and from text. *)
Definition one_decoder : Prop :=
  forall text v, json_from_slice (str_bytes text) = Ok v -> json_value text = Ok (known v).

Lemma validated_event_time persisted t :
  validate_raw_event_persisted persisted = Ok tt -> rp_event_time persisted = Some t ->
  validate_timestamp "event_time" t = Ok tt.
Proof.
  unfold validate_raw_event_persisted. intros Hval Ht. do 2 apply bind_unit_ok_iff in Hval as [_ Hval].
  apply bind_unit_ok_iff in Hval as [Htime _]. by rewrite Ht in Htime.
Qed.

Lemma selected_row_event core incoming persisted raw w plan w' ingest id version instance row t :
  one_decoder -> core_built core -> normalize core incoming persisted raw w = (Ok plan, w') ->
  rp_event_time persisted = Some t -> validate_timestamp "event_time" t = Ok tt ->
  from_plan plan (np_resolved_event_time plan) ingest incoming id version instance = Ok row -> reads_back plan ->
  into_batch_event (selected_row row) = Ok (mkBatchEvent (stored_identities (np_normalized_event plan)) (Some t)).
Proof.
  intros Hone Hb Hn Ht Hval Hrow Hjson.
  destruct (stored_document _ _ _ _ _ _ _ _ _ _ _ _ _ Hb Hn Hrow Hjson) as (v & s & Hv & Hs%loader_conversion & Hev).
  apply normalize_ok in Hn as (_ & _ & parsed & w1 & w2 & _ & Hplan).
  destruct (plan_built _ _ _ _ _ _ Hb Hplan) as [_ _ _ Htime _ _ _ _]. rewrite Htime, Ht in Hrow.
  unfold into_batch_event, selected_row. cbn [nr_ocsf_event_json]. rewrite (Hone _ _ Hv). cbn [map_err bind].
  assert (sn_event_time_present row = 1%Z /\ sn_event_time_seconds row = ts_seconds t /\
          sn_event_time_nanos row = ts_nanos t) as (Hp & Hsec & Hnan).
  { unfold from_plan in Hrow. apply bind_ok_iff in Hrow as (? & _ & Hrow).
    by apply bind_ok_iff in Hrow as (? & _ & [= <-]). }
  cbn [nr_event_time_present nr_event_time_seconds nr_event_time_nanos]. rewrite Hp, Hsec, Hnan. cbn [Z.eqb bind].
  assert (mkTimestamp (ts_seconds t) (ts_nanos t) = t) as -> by (by destruct t). cbn. rewrite Hval. cbn [map_err bind].
  rewrite Hs. cbn [bind]. do 2 f_equal. unfold stored_identities.
  apply from_plan_ok in Hrow as (n & json & Hn & _ & ->). cbn. rewrite Hev, Hn. by destruct n.
Qed.

(** C16: The event the detection rules see is the event the normalizer made: for a
    raw event with a time of its own, the row stored for its plan, as the loader's
    query selects it, is rebuilt to the plan's normalized event, in all its fields
    and its whole OCSF document, at that time; only the two UUIDs come back in
    lower case. *)
Theorem stored_event_reaches_detection core incoming persisted raw w plan w' ingest id version instance row t :
  one_decoder -> core_built core -> normalize core incoming persisted raw w = (Ok plan, w') ->
  validate_raw_event_persisted persisted = Ok tt -> rp_event_time persisted = Some t ->
  from_plan plan (np_resolved_event_time plan) ingest incoming id version instance = Ok row -> reads_back plan ->
  into_batch_event (selected_row row) = Ok (mkBatchEvent (stored_identities (np_normalized_event plan)) (Some t)) /\
  (sql_uuid (ne_normalized_event_id (np_normalized_event plan)) = ne_normalized_event_id (np_normalized_event plan) ->
   sql_uuid (rp_event_id persisted) = rp_event_id persisted ->
   stored_identities (np_normalized_event plan) = np_normalized_event plan).
Proof.
  intros Hone Hb Hn Hval Ht Hrow Hjson. split.
  - eapply selected_row_event; try done. by eapply validated_event_time.
  - intros Hid1 Hid2. apply normalize_ok in Hn as (_ & _ & parsed & w1 & w2 & _ & Hplan).
    destruct (plan_built _ _ _ _ _ _ Hb Hplan) as [_ _ _ _ Hraw _ _ _]. rewrite <- Hraw in Hid2.
    unfold stored_identities. rewrite Hid1, Hid2. by destruct (np_normalized_event plan).
Qed.

(** ** Ten rejected passwords *)

(** A row the normalizer stored for a rejected password in sshd's log, the event
    the loader rebuilds from it, and its time *)
Definition rejected_attempt (tenant user ip : string) (row : StoredNormalization) (e : BatchEvent) (t : Z) : Prop :=
  exists core incoming persisted raw w plan w' text prefix invalid port suffix ingest id version instance time,
    core_built core /\ validate_raw_event_persisted persisted = Ok tt /\
    normalize core incoming persisted raw w = (Ok plan, w') /\
    from_utf8 raw = Ok text /\ trim text = sshd_line prefix invalid user ip port suffix /\
    line_ok prefix invalid user ip port suffix /\
    rp_tenant_id persisted = tenant /\ rp_event_time persisted = Some time /\ mapping_unix_millis time = Ok t /\
    (Z.abs t <= MAX_SAFE_INTEGER)%Z /\
    from_plan plan (np_resolved_event_time plan) ingest incoming id version instance = Ok row /\ reads_back plan /\
    e = mkBatchEvent (stored_identities (np_normalized_event plan)) (Some time).

Lemma rejected_attempt_event tenant user ip row e t :
  one_decoder -> exact_integers -> rejected_attempt tenant user ip row e t ->
  into_batch_event (selected_row row) = Ok e /\ failed_login tenant user ip (be_event e) t.
Proof.
  intros Hone Hexact (core & incoming & persisted & raw & w & plan & w' & text & prefix & invalid & port & suffix & ingest
    & id & version & instance & time & Hb & Hval & Hn & Hutf & Htrim & Hok & Hten & Htime & Hms & Hbound & Hrow & Hjson & ->).
  split; [eapply selected_row_event; try done; by eapply validated_event_time|].
  destruct (rejected_password_document _ _ _ _ _ _ _ _ _ _ _ _ _ _ Hexact Hb Hn Hutf Htrim Hok) as (Ht & t' & Hm & Hf).
  assert (t' = t) as -> by (eapply event_millis_fun; [done|]; exists time; auto).
  rewrite <- Hten. by apply Hf.
Qed.

(** No other row of the response has the identity of the event [e]. *)
Definition sole_row (body : string) (e : BatchEvent) : Prop :=
  forall line e', line ∈ row_lines body -> reads line e' -> event_id e' = event_id e -> e' = e.

Lemma loaded_batch body batch :
  load_body body = Ok batch ->
  (forall line e, line ∈ row_lines body -> reads line e -> sole_row body e -> e ∈ batch) /\
  consistent (be_event <$> batch).
Proof.
  intros (m & Hm & ->)%load_body_loaded.
  assert (forall e, e ∈ sort_by batch_event_cmp (bt_values m) <-> bt_get (event_id e) m = Some e) as Helem.
  { intros e. rewrite <- (loaded_elem _ _ e Hm). pose proof (sort_by_perm event_order (bt_values m)) as Hp.
    change (sort_by _ (bt_values m)) with (sort_by batch_event_cmp (bt_values m)) in Hp. by rewrite Hp. }
  split.
  - intros line e Hline Hr Hu. apply Helem. destruct Hm as (_ & Hget & Hall).
    destruct (Hall line Hline) as (e1 & e2 & Hr1 & Hg & _).
    assert (e1 = e) as -> by (destruct Hr as (? & ? & ?), Hr1 as (? & ? & ?); congruence).
    destruct (Hget _ _ Hg) as (Hid & line2 & Hl2 & Hr2). rewrite Hg. f_equal. by apply (Hu line2).
  - intros e e' (b & -> & Hb%Helem)%list_elem_of_fmap (b' & -> & Hb'%Helem)%list_elem_of_fmap Hid.
    unfold event_id in *. rewrite Hid in Hb. congruence.
Qed.

(** C9: Ten lines sshd wrote for rejected passwords of one user from one address, of
    valid raw events of one tenant within five minutes, raise the alert: once each is
    normalized and stored, and the response to the loader's query holds their rows
    among any others, every successful evaluation of the Sigma THRESHOLD rule on the
    loaded batch reports a burst of that tenant, user and address.  The lines are well
    formed: the prefix holds no second 'Failed password for ', the user name is not
    empty, is not read as part of the 'invalid user ' mark and holds no ' from ' (one
    that does can forge the address, as stated at the parser), the address is not empty
    and holds no ' port ', the port is a 16-bit number that ends its word.  Event times
    are below 2^53 ms, no different row shares an identity with the ten, the JSON codecs
    read back what they wrote with exact integers, and the YAML reader reads the rule
    file.  The evaluation can fail on other rows whose fields have another type. *)
Theorem rejected_passwords_are_detected `{SerdeYaml} tenant user ip
    (attempts : list (StoredNormalization * BatchEvent * Z)) body batch :
  one_decoder -> exact_integers -> yaml_documents THRESHOLD_SIGMA_SOURCE = [inl burst_base; inl burst_correlation] ->
  Forall (fun '(row, e, t) => rejected_attempt tenant user ip row e t /\ sole_row body e /\
            exists line, line ∈ row_lines body /\ json_row line = Ok (selected_row row)) attempts ->
  length attempts = 10 -> NoDup ((fun a => event_id a.1.2) <$> attempts) ->
  (forall a b, a ∈ attempts -> b ∈ attempts -> (b.2 - a.2 <= 300000)%Z) ->
  load_body body = Ok batch ->
  exists plan, compile_threshold_rule = Ok plan /\
  forall mode at_ ms, evaluate_threshold_normalized_events plan mkMvpPolicy (be_event <$> batch) mode at_ = Ok ms ->
    exists r es, r ∈ ms /\ tv_tenant_id r = tenant /\ burst (be_event <$> batch) tenant user ip es /\
      tv_normalized_event_ids r = ne_normalized_event_id <$> es.*1.
Proof.
  intros Hone Hexact Hyaml Hall Hlen Hnd Hw Hload. exists burst_plan. split; [by apply threshold_rule_compiles|].
  intros mode at_ ms Heval. destruct (loaded_batch body batch Hload) as [Hin Hc].
  apply (proj2 (bursts_exact _ _ _ _ Hc Heval) tenant user ip ((fun a => (be_event a.1.2, a.2)) <$> attempts)).
  split_and!.
  - apply Forall_fmap. eapply Forall_impl; [exact Hall|]. intros [[row e] t] (Ha & Hu & line & Hl & Hr). simpl.
    destruct (rejected_attempt_event _ _ _ _ _ _ Hone Hexact Ha) as [He Hf]. split; [|done].
    apply list_elem_of_fmap. exists e. split; [done|]. apply (Hin line); [done| |done]. by exists (selected_row row).
  - rewrite <- !list_fmap_compose. exact Hnd.
  - by rewrite length_fmap.
  - intros p q (a & -> & Ha)%list_elem_of_fmap (b & -> & Hb)%list_elem_of_fmap. by apply Hw.
Qed.
End Handover.
