(* ===== verification/EndToEndSample.v ===== *)
(** * Ten rejected passwords, concretely

    Ten deliveries of a rejected password are normalized, stored and loaded, and
    the burst rule reports them: the theorems of EndToEnd applied. *)

From Stdlib Require Import SpecFloat.
From S2P Require Import Prelude RustStd RustText ContractTypes Validation SignalContract DetectionAst EventPipeline EventSignal Threshold ThresholdSpec Sigma Effects Database Repository MvpRules MvpRulesSpec MvpBatch MvpBatchSpec CanonicalJson CanonicalJsonSpec Parser ParserSpec ParserFormats SourceTime SourceTimeSpec Mapping RetryState Metrics NormalizerWorld NormalizerCore RetryStoreSpec RuntimeConfig RawStore EventBus ClickHouse DeadLetter Runtime NormalizerCoreSpec StoredRowSpec PipelineSpec RuntimeSample EndToEnd.

Module EndToEndSample.
Import CalendarSample RuntimeSample.

Definition tenant : string := "018f0000-0000-7000-8000-00000000000a".
Definition delivered : RawEventPersisted :=
  mkRawEventPersisted event_id tenant "auth-log" "" (Some (mkTimestamp 1788999990 0)) (Some (mkTimestamp 1788999995 0))
    "text/plain" "utf-8" (Z.of_nat (length raw)) "sha256" zeros "tcp" "" None 0 "p1" "raw:///acme/1.bin" "segment" 0
    (Z.of_nat (length raw)) (Some (mkTimestamp 1788999996 0)).
Definition incoming : CerberoEnvelope :=
  mkCerberoEnvelope "1" "01890f8e-5b7a-7cc1-98c4-dc0c0c07398d" "RawEventPersisted" tenant
    (Some (mkProducer "cerbero-ingest" "1" "i1")) (Some (mkTimestamp 1788999996 0)) "trace" "" "corr"
    "cerbero.raw_event_persisted.v1" (Some (mkAny type_url (str_bytes "sshd"))).

(** Identities that advance with the clock *)
Definition attempt_id (n : nat) : string :=
  "018f0000-0000-7000-8000-0000000000" +:+ pretty (Z.of_nat (10 + n mod 90)).
#[export] Instance outside : Outside := {|
  retry_fault _ := None;
  publish_reply _ _ := inl (mkPubAck ANALYTICS_STREAM_NAME 1);
  settle_fault _ := None;
  http_reply _ _ := inl (mkHttpReply 200 (Ok ""));
  connect_fault _ := None;
  consumer_fault _ := None;
  system_time_now _ := 1789000000000000000%Z;
  elapsed_time _ := 5%Z;
  now_v7_text := attempt_id;
|}.
Definition the_core : NormalizerCore :=
  mkNormalizerCore (mkNormalizerCoreConfig "p1" ExecutionMode_Live)
    [LinuxSshdParser; JournaldCanonicalParser; SyslogRfc5424Parser; SyslogRfc3164Parser; GenericJsonParser]
    mappings_with_defaults (cfg_source_time_policies config) NoopNormalizerMetrics SystemClock SystemIdGenerator.

Lemma the_core_built : core_built the_core.
Proof. split; [reflexivity|by exists "1"|done|apply noop_sink_ok|reflexivity|reflexivity]. Qed.

(** ** The deliveries *)

Definition world (i : nat) : NormalizerWorld := mkNormalizerWorld [] (nw_metrics world0) [] (9 * i).
Definition run (i : nat) : result NormalizationPlan NormalizerError * NormalizerWorld :=
  normalize the_core incoming delivered raw (world i).
Definition first_plan : NormalizationPlan.
Proof. let x := eval vm_compute in (run 0).1 in match x with Ok ?p => exact p end. Defined.
Definition plan (i : nat) : NormalizationPlan := match (run i).1 with Ok p => p | _ => first_plan end.
Definition stores (i : nat) : result StoredNormalization NormalizerError :=
  from_plan (plan i) (np_resolved_event_time (plan i)) (mkTimestamp 1788999995 0) incoming (attempt_id i) "1" "i1".
Definition first_row : StoredNormalization.
Proof. let x := eval vm_compute in (stores 0) in match x with Ok ?r => exact r end. Defined.
Definition stored (i : nat) : StoredNormalization := match stores i with Ok r => r | _ => first_row end.
Definition seen (i : nat) : BatchEvent :=
  mkBatchEvent (stored_identities (np_normalized_event (plan i))) (Some (mkTimestamp 1788999990 0)).

#[export] Instance serde : SerdeJson := {|
  json_row text :=
    match List.find (fun i => String.eqb text (pretty (Z.of_nat i))) (seq 0 10) with
    | Some i => Ok (selected_row (stored i))
    | None => Err "expected value"
    end;
  json_value text :=
    if decide (str_bytes text = document_bytes) then Ok (known (canonicalize document)) else Err "expected value";
|}.
#[export] Instance yaml : SerdeYaml := fun _ => [inl burst_base; inl burst_correlation].

Lemma serde_one_decoder : one_decoder.
Proof.
  intros text v. cbn [json_from_slice json json_value serde].
  destruct (decide (str_bytes text = document_bytes)); [by intros [= <-]|done].
Qed.

Lemma runs_ok : Forall (fun i => (exists w', run i = (Ok (plan i), w')) /\ stores i = Ok (stored i) /\
    np_canonical_ocsf_json (plan i) = document_bytes /\
    ne_normalized_event_id (np_normalized_event (plan i)) = attempt_id (9 * i + 2)) (seq 0 10).
Proof.
  repeat (apply Forall_cons; split; [split; [eexists; vm_compute; reflexivity|vm_compute; split_and!; reflexivity]|]).
  constructor.
Qed.

Lemma plan_reads_back i : i < 10 -> reads_back (plan i).
Proof.
  intros Hi. pose proof runs_ok as Hall. rewrite Forall_forall in Hall.
  destruct (Hall i) as (_ & _ & Hj & _); [apply elem_of_seq; lia|]. unfold reads_back. rewrite Hj.
  intros v. unfold canonical_json_bytes. cbn [json_to_vec json_from_slice json].
  destruct (decide (canonicalize v = canonicalize document)) as [-> |]; [|done]. intros _. reflexivity.
Qed.

Lemma sample_line_ok : line_ok "sshd[7]: " true "admin" "10.0.0.8" 50341 " ssh2".
Proof. split; try done; try (vm_compute; congruence). right. by eexists. Qed.

Lemma attempt_rejected i : i < 10 -> rejected_attempt tenant "admin" "10.0.0.8" (stored i) (seen i) millis.
Proof.
  intros Hi. pose proof runs_ok as Hall. rewrite Forall_forall in Hall.
  destruct (Hall i) as ((w' & Hrun) & Hrow & _); [apply elem_of_seq; lia|].
  exists the_core, incoming, delivered, raw, (world i), (plan i), w', line, "sshd[7]: ", true, 50341%Z, " ssh2",
    (mkTimestamp 1788999995 0), (attempt_id i), "1", "i1", (mkTimestamp 1788999990 0).
  split; [apply the_core_built|]. split; [vm_compute; reflexivity|]. split; [exact Hrun|]. split; [reflexivity|].
  split; [reflexivity|]. split; [apply sample_line_ok|].
  split; [reflexivity|]. split; [reflexivity|]. split; [vm_compute; reflexivity|]. split; [vm_compute; discriminate|].
  split; [exact Hrow|]. split; [by apply plan_reads_back|reflexivity].
Qed.

Lemma seen_id i : i < 10 -> MvpBatchSpec.event_id (seen i) = attempt_id (9 * i + 2).
Proof.
  intros Hi. do 10 (destruct i as [|i]; [vm_compute; reflexivity|]). lia.
Qed.

Definition attempts : list (StoredNormalization * BatchEvent * Z) := (fun i => (stored i, seen i, millis)) <$> seq 0 10.
Definition body : string := String.concat (String "010" "") ((fun i => pretty (Z.of_nat i)) <$> seq 0 10).
Definition rebuilt : list BatchEvent := match load_body body with Ok batch => batch | _ => [] end.

Lemma body_lines : row_lines body = (fun i => pretty (Z.of_nat i)) <$> seq 0 10.
Proof. vm_compute. reflexivity. Qed.

Lemma line_reads i e : i < 10 -> reads (pretty (Z.of_nat i)) e -> e = seen i.
Proof.
  intros Hi (row & Hr & He). destruct (rejected_attempt_event _ _ _ _ _ _ serde_one_decoder integers_exact (attempt_rejected i Hi)) as [Hs _].
  assert (json_row (pretty (Z.of_nat i)) = Ok (selected_row (stored i))) as Hj.
  { do 10 (destruct i as [|i]; [reflexivity|]). lia. }
  rewrite Hj in Hr. injection Hr as <-. rewrite Hs in He. by injection He.
Qed.

Lemma attempt_ids_distinct i j : i < 10 -> j < 10 -> attempt_id (9 * i + 2) = attempt_id (9 * j + 2) -> i = j.
Proof.
  intros Hi Hj. unfold attempt_id. intros Heq%(f_equal (fun s => drop 34 (str_bytes s))).
  rewrite !str_bytes_app in Heq. rewrite !drop_app_length' in Heq by reflexivity. apply str_bytes_inj in Heq.
  apply (inj pretty) in Heq. rewrite !Nat.mod_small in Heq by lia. lia.
Qed.

Lemma body_unique i : i < 10 -> sole_row body (seen i).
Proof.
  intros Hi l e. rewrite body_lines. intros (j & -> & Hj%elem_of_seq)%list_elem_of_fmap.
  intros ->%line_reads; [|lia]. rewrite !seen_id by lia. intros ->%attempt_ids_distinct; [done|lia..].
Qed.

Lemma body_loads : load_body body = Ok rebuilt.
Proof. vm_compute. reflexivity. Qed.

Definition evaluated_at : Timestamp := mkTimestamp 1789000100 0.

Lemma rejected_passwords_are_detected_witness :
  exists plan ms r, compile_threshold_rule = Ok plan /\
    evaluate_threshold_normalized_events plan mkMvpPolicy (be_event <$> rebuilt) ExecutionMode_Live evaluated_at = Ok ms /\
    r ∈ ms /\ tv_tenant_id r = tenant.
Proof.
  destruct (rejected_passwords_are_detected tenant "admin" "10.0.0.8" attempts body rebuilt serde_one_decoder
    integers_exact eq_refl) as (plan & Hc & Hdet); [| | | |exact body_loads|].
  - apply Forall_fmap, Forall_forall. intros i Hi%elem_of_seq. split_and!; [apply attempt_rejected; lia|apply body_unique; lia|].
    exists (pretty (Z.of_nat i)). split.
    + rewrite body_lines. apply list_elem_of_fmap. exists i. split; [done|]. by apply elem_of_seq.
    + do 10 (destruct i as [|i]; [reflexivity|]). lia.
  - reflexivity.
  - apply (bool_decide_unpack (NoDup _)). vm_compute. exact I.
  - intros a b (i & -> & _)%list_elem_of_fmap (j & -> & _)%list_elem_of_fmap. cbn. lia.
  - assert (exists ms, evaluate_threshold_normalized_events plan mkMvpPolicy (be_event <$> rebuilt) ExecutionMode_Live
      evaluated_at = Ok ms) as [ms Hms].
    { rewrite threshold_rule_compiles in Hc by reflexivity. injection Hc as <-. eexists. vm_compute. reflexivity. }
    destruct (Hdet _ _ _ Hms) as (r & es & Hr & Ht & _). exists plan, ms, r. by split_and!.
Defined.

Lemma stored_event_reaches_detection_witness :
  exists t, into_batch_event (selected_row (stored 3)) = Ok (mkBatchEvent (np_normalized_event (plan 3)) (Some t)).
Proof.
  pose proof runs_ok as Hall. rewrite Forall_forall in Hall.
  destruct (Hall 3) as ((w' & Hrun) & Hrow & _); [apply elem_of_seq; lia|].
  destruct (stored_event_reaches_detection the_core incoming delivered raw (world 3) (plan 3) w'
    (mkTimestamp 1788999995 0) (attempt_id 3) "1" "i1" (stored 3) (mkTimestamp 1788999990 0) serde_one_decoder
    the_core_built Hrun) as [He Hid]; [vm_compute; reflexivity|reflexivity|exact Hrow|apply plan_reads_back; lia|].
  exists (mkTimestamp 1788999990 0). rewrite Hid in He; [exact He|vm_compute; reflexivity..].
Defined.

Lemma json_conversions_agree_witness :
  exists s, MvpBatch.json_to_prost_struct (known (canonicalize document)) = Ok s.
Proof.
  destruct (NormalizerCore.json_to_prost_struct document) as [s|e|p] eqn:Hs;
    [|exfalso; vm_compute in Hs; discriminate Hs..].
  exists s. apply (proj2 (proj2 (json_conversions_agree document s))); [|exact Hs].
  unfold document, ssh_ocsf_event, ssh_metadata. distinct_literals.
Defined.
End EndToEndSample.
