(* ===== verification/DetectionTests.v ===== *)
(** * The test suites of the detection core

    The unit tests of cerbero-detection-core (threshold.rs, correlation.rs, type_checker.rs,
    event_compiler.rs, event_evaluator.rs, event_signal.rs and the materializers), with
    their fixtures: the policies, resolvers and compilers they implement are further
    instances of the classes the core is written against, and every test is a check
    the model computes.  The tests bind the model to the behaviour the authors
    recorded. *)

From Stdlib Require Import SpecFloat.
From S2P Require Import Prelude RustStd RustText ContractTypes Validation SignalContract FindingContract RuleContract DetectionAst EventPipeline EventSignal Threshold Correlation.

(** ** Shared helpers *)

(** [{index:012x}] *)
Fixpoint hex_digits (n : nat) (value : Z) : string :=
  match n with
  | O => ""
  | S n => hex_digits n (value / 16) +:+ default "?" (String.get (Z.to_nat (value mod 16)) "0123456789abcdef" ≫= fun a => Some (String a ""))
  end.
Definition hex12 (value : Z) : string := hex_digits 12 value.

Definition is_ok_and {A E} (p : A -> bool) (r : result A E) : bool := match r with Ok a => p a | _ => false end.
Definition is_err_and {A E} (p : E -> bool) (r : result A E) : bool := match r with Err e => p e | _ => false end.
Definition none_left {A} (l : list A) : bool := match l with [] => true | _ => false end.

(** ** threshold.rs *)

Module ThresholdTests.

Definition TH_TENANT_ID : string := "018f47a2-4b00-7a00-8000-000000000401".
Definition TH_SIGNAL_ID : string := "018f47a2-4b00-7a00-8000-000000000402".

Inductive ThresholdTestType : Set := Text | Number.
#[global] Instance ThresholdTestType_eq_dec : EqDecision ThresholdTestType.
Proof. solve_decision. Defined.

Record ThresholdTestFieldResolver := mkThresholdTestFieldResolver { tf_fields : list (string * ThresholdTestType) }.
#[export] Instance ThresholdTestFieldResolver_types : FieldTypeResolver ThresholdTestFieldResolver ThresholdTestType := fun r field =>
  snd <$> List.find (fun f => String.eqb f.1 field) (tf_fields r).

Inductive ThresholdTestValueResolver : Set := mkThresholdTestValueResolver.
#[export] Instance ThresholdTestValueResolver_types : ValueTypeResolver ThresholdTestValueResolver string ThresholdTestType := fun _ _ => Text.

Inductive ThresholdTestComparisonPolicy : Set := mkThresholdTestComparisonPolicy.
#[export] Instance ThresholdTestComparisonPolicy_policy : ComparisonTypePolicy ThresholdTestComparisonPolicy ThresholdTestType ThresholdTestType :=
  fun _ field_type operator value_type =>
    reject_if (bool_decide (field_type <> value_type) || bool_decide (operator <> Op_Eq)) TypeError.

Definition ThresholdTestProfile : Type := EventFieldProfile (list string) (list string) (list (string * ThresholdTestType)).
Definition ThresholdTestPlan : Type :=
  ExecutionPlan string Z (list string) (EventPredicate string string) unit unit unit string.

Definition th_test_fields : list (string * ThresholdTestType) :=
  [("status", Text); ("src_endpoint.ip", Text); ("user.name", Text); ("time", Number)].

Inductive ThresholdTestProfileResolver : Set := mkThresholdTestProfileResolver.
#[export] Instance ThresholdTestProfileResolver_profiles :
  EventFieldProfileResolver ThresholdTestProfileResolver string string ThresholdTestProfile := fun _ _ =>
  Ok (mkEventFieldProfile _ _ _ ["status"; "src_endpoint.ip"; "user.name"; "time"] [] th_test_fields).

(** The counter of calls, as whether a call is allowed at all *)
Record ThresholdTestPlanCompiler := mkThresholdTestPlanCompiler { tpc_callable : bool }.
#[export] Instance ThresholdTestPlanCompiler_plans :
  EventExecutionPlanCompiler ThresholdTestPlanCompiler string string ThresholdTestProfile ThresholdTestPlan := {|
  supported_backends_of _ _ _ := Ok (mkExecutionBackendCapabilities true true);
  compile_event_plan compiler backend predicate field_profile :=
    if tpc_callable compiler then
      let? rule_id := map_err (fun _ => TypeError) (RuleId_from_str "CER-DET-000001") in
      Ok (mkExecutionPlan "threshold-filter-plan" rule_id 1%Z backend (required_fields _ _ _ field_profile) predicate
            tt tt tt "threshold-filter-plan-hash")
    else Panic "the plan compiler was called";
|}.

Inductive ThresholdTestPolicy : Set := mkThresholdTestPolicy.
#[export] Instance ThresholdTestPolicy_leaves : EventLeafEvaluationPolicy ThresholdTestPolicy string string Value Empty_set := {|
  evaluate_exists _ _ state := Ok (match state with Present _ => true | _ => false end);
  evaluate_comparison _ _ state operator rule_value :=
    match state with
    | Present (mkValue (Some (StringValue actual))) =>
        Ok (bool_decide (operator = Op_Eq) && String.eqb actual rule_value)
    | _ => Ok false
    end;
|}.

Definition ocsf_number_to_i64 (value : f64) : option Z :=
  match value with
  | S754_zero _ => Some 0%Z
  | S754_finite sign mantissa exponent =>
      let magnitude :=
        if (0 <=? exponent)%Z then Some (Zpos mantissa * 2 ^ exponent)%Z
        else if (Zpos mantissa mod 2 ^ (- exponent) =? 0)%Z then Some (Zpos mantissa / 2 ^ (- exponent))%Z
        else None in
      match magnitude with
      | Some magnitude => try_from in_i64 (if sign then - magnitude else magnitude)%Z
      | None => None
      end
  | _ => None
  end.
Definition i64_to_ocsf_number (value : Z) : f64 := binary_normalize 53 1024 value 0 false.

Fixpoint th_string_fields (view : NormalizedEventFieldView) (group_by : list string) : option (list string) :=
  match group_by with
  | [] => Some []
  | field :: group_by =>
      match field_state view field with
      | Present (mkValue (Some (StringValue value))) => cons value <$> th_string_fields view group_by
      | _ => None
      end
  end.

#[export] Instance ThresholdTestPolicy_threshold : ThresholdEvaluationPolicy ThresholdTestPolicy string (list string) Empty_set := {|
  threshold_group_key _ group_by event := Ok (th_string_fields (mkNormalizedEventFieldView event) group_by);
  threshold_event_time_millis _ _ time_field event :=
    match field_state (mkNormalizedEventFieldView event) time_field with
    | Present (mkValue (Some (NumberValue value))) => Ok (ocsf_number_to_i64 value)
    | _ => Ok None
    end;
|}.

Definition th_field_resolver : ThresholdTestFieldResolver := mkThresholdTestFieldResolver th_test_fields.

Definition th_rule : ThresholdRule string string :=
  mkThresholdRule (Expr_Comparison (mkComparisonExpression "status" Op_Eq "Failure"))
    ["src_endpoint.ip"; "user.name"] Aggregation_Count 10
    (mkThresholdWindow 300000 EventTime "time" Accept).

Definition th_compiled_with (callable : bool) (backend : ExecutionBackend)
    : result (CompiledThresholdExecutionPlan ThresholdTestPlan ThresholdTestProfile string) RuleCompilationErrorKind :=
  compile_threshold_execution_plan th_rule backend th_field_resolver mkThresholdTestValueResolver mkThresholdTestComparisonPolicy
    (mkStages mkIdentityEventAstOptimizer mkThresholdTestProfileResolver (mkThresholdTestPlanCompiler callable)).

Definition th_nested_string (field child value : string) : string * Value :=
  (field, mkValue (Some (StructValue (mkStruct [(child, mkValue (Some (StringValue value)))])))).

Definition th_event (index : Z) (user ip : string) (time_millis : Z) : NormalizedEvent :=
  mkNormalizedEvent ("018f47a2-4b00-7a00-8000-" +:+ hex12 index) "" TH_TENANT_ID None "" 0 0 None None
    (Some (mkStruct [th_nested_string "src_endpoint" "ip" ip;
                     ("status", mkValue (Some (StringValue "Failure")));
                     ("time", mkValue (Some (NumberValue (i64_to_ocsf_number time_millis))));
                     th_nested_string "user" "name" user])) "" "" 0 "" "" "".

Definition th_events (count : nat) : list NormalizedEvent :=
  (fun index => th_event (Z.of_nat index + 1) "admin" "10.0.0.8" (1789000000000 + Z.of_nat index * 20000)) <$> seq 0 count.

Definition th_evaluated_at : Timestamp := mkTimestamp 1800000000 0.

Definition th_evaluate (events : list NormalizedEvent) (mode : ExecutionMode)
    : result (list (ThresholdSignalProvenance Z)) (ThresholdEvaluationError Empty_set + RuleCompilationErrorKind) :=
  let? plan := map_err inr (th_compiled_with true ClickHouse) in
  map_err inl (evaluate_threshold_normalized_events plan mkThresholdTestPolicy events mode th_evaluated_at).

Definition compiler_rejects_stream_without_approximating_semantics : bool :=
  is_err_and (fun e => match e with UnsupportedBackend => true | _ => false end) (th_compiled_with false Stream).

Definition ten_matches_nine_does_not_and_duplicate_does_not_extra_count : bool :=
  is_ok_and (fun ten => (length ten =? 1)%nat
      && match ten with m :: _ => (length (tv_normalized_event_ids m) =? 10)%nat | [] => false end)
    (th_evaluate (th_events 10) ExecutionMode_Live)
  && is_ok_and none_left (th_evaluate (th_events 9) ExecutionMode_Live)
  && is_ok_and none_left (th_evaluate (th_events 9 ++ take 1 (th_events 9)) ExecutionMode_Live).

Definition out_of_order_and_replay_remain_deterministic_and_isolated : bool :=
  match th_evaluate (th_events 10) ExecutionMode_Live, th_evaluate (reverse (th_events 10)) ExecutionMode_Replay with
  | Ok (live :: _), Ok (replay :: _) =>
      bool_decide (tv_normalized_event_ids live = tv_normalized_event_ids replay)
      && bool_decide (tv_first_observed_at live = tv_first_observed_at replay)
      && bool_decide (tv_last_observed_at live = tv_last_observed_at replay)
      && bool_decide (tv_execution_mode live = ExecutionMode_Live)
      && bool_decide (tv_execution_mode replay = ExecutionMode_Replay)
  | _, _ => false
  end.

Definition grouping_prevents_cross_user_false_threshold : bool :=
  let mixed :=
    ((fun index => th_event (Z.of_nat index + 1) "admin" "10.0.0.8" (1789000000000 + Z.of_nat index * 20000)) <$> seq 0 5)
    ++ ((fun index => th_event (Z.of_nat index + 100) "root" "10.0.0.8" (1789000000000 + Z.of_nat index * 20000)) <$> seq 0 5) in
  is_ok_and none_left (th_evaluate mixed ExecutionMode_Live).

#[export] Instance Display_Z : Display Z := fun z => pretty z.

Definition threshold_match_materializes_canonical_signal_with_all_inputs : bool :=
  match th_evaluate (th_events 10) ExecutionMode_Replay with
  | Ok (provenance :: _) =>
      is_ok_and (fun signal =>
          (sg_rule_type signal =? SignalRuleType_as_i32 SignalRuleType_Threshold)%Z
          && (sg_event_count signal =? 10)%Z && (length (sg_inputs signal) =? 10)%nat
          && (sg_execution_mode signal =? ExecutionMode_as_i32 ExecutionMode_Replay)%Z
          && bool_decide (is_Some (sg_first_observed_at signal)) && bool_decide (is_Some (sg_last_observed_at signal))
          && is_ok_and (fun _ => true) (validate_signal signal))
        (materialize_threshold_signal provenance
           (mkThresholdSignalMaterializationContext TH_SIGNAL_ID "HIGH" (Some "HIGH") "10 failed SSH logins within 5m"
              "THRESHOLD_MATCH" (mkTimestamp 1800000010 0) 1))
  | _ => false
  end.

(** The suite passes. *)
Theorem threshold_suite_passes :
  compiler_rejects_stream_without_approximating_semantics
  && ten_matches_nine_does_not_and_duplicate_does_not_extra_count
  && out_of_order_and_replay_remain_deterministic_and_isolated
  && grouping_prevents_cross_user_false_threshold
  && threshold_match_materializes_canonical_signal_with_all_inputs = true.
Proof. vm_compute. reflexivity. Qed.
End ThresholdTests.

(** ** correlation.rs *)

Module CorrelationTests.

Definition TENANT_A : string := "018f47a2-4b00-7a00-8000-000000000501".
Definition TENANT_B : string := "018f47a2-4b00-7a00-8000-000000000502".

Inductive SequenceTestOrdering : Set := Observed.
Inductive SequenceTestPolicy : Set := mkSequenceTestPolicy.

Definition first_observed_millis (signal : Signal) : option Z :=
  (fun t => ts_seconds t * 1000 + Z.quot (ts_nanos t) 1000000)%Z <$> sg_first_observed_at signal.

#[export] Instance SequenceTestPolicy_policy :
  SequenceCorrelationEvaluationPolicy SequenceTestPolicy string string SequenceTestOrdering string Z Empty_set := {|
  stage_matches _ stage signal := Ok (String.eqb (sg_rule_id signal) stage);
  sequence_group_key _ join_keys signal :=
    if bool_decide (join_keys <> ["user.name"]) then Ok None else Ok (strip_prefix "user=" (sg_summary signal));
  sequence_time_millis _ signal := Ok (first_observed_millis signal);
  sequence_order_key _ _ signal := Ok (first_observed_millis signal);
|}.

Definition co_rule : SequenceCorrelationRule string string SequenceTestOrdering :=
  mkSequenceCorrelationRule "CER-COR-0003" "2" ["CER-DET-000101"; "CER-DET-000102"; "CER-DET-000103"] ["user.name"]
    600000 Observed "test-sequence-config-v1".

Definition millis_timestamp (value : Z) : Timestamp :=
  match timestamp_from_millis (E := Empty_set) value with Ok timestamp => timestamp | _ => mkTimestamp 0 0 end.

Definition co_signal (index : Z) (tenant_id rule_id user : string) (time_millis : Z) (execution_mode : ExecutionMode)
    : Signal :=
  let signal_id := "018f47a2-4b00-7a00-8000-" +:+ hex12 index in
  let input_id := "018f47a2-4b00-7a00-8001-" +:+ hex12 index in
  let observed := millis_timestamp time_millis in
  let created := millis_timestamp (time_millis + 1000) in
  mkSignal signal_id tenant_id rule_id "1" (SignalRuleType_as_i32 SignalRuleType_Event) "MEDIUM" None
    (SignalStatus_as_i32 SignalStatus_Active) (Some observed) (Some observed) (Some created)
    (ExecutionMode_as_i32 execution_mode) 1 1 ("user=" +:+ user)
    (Some (mkSignalProvenance (Some created) (DetectionExecutionBackend_as_i32 DetectionExecutionBackend_Clickhouse)))
    [mkSignalInput signal_id (SignalInputType_as_i32 SignalInputType_NormalizedEvent) input_id "EVENT_MATCH" 0].

Definition co_sequence (tenant_id user : string) (mode : ExecutionMode) : list Signal :=
  [co_signal 1 tenant_id "CER-DET-000101" user 1789000000000 mode;
   co_signal 2 tenant_id "CER-DET-000102" user 1789000060000 mode;
   co_signal 3 tenant_id "CER-DET-000103" user 1789000120000 mode].

Definition co_evaluate (signals : list Signal) (mode : ExecutionMode)
    : result (list SequenceCorrelationMatch)
        (SequenceCorrelationEvaluationError Empty_set + RuleCompilationErrorKind) :=
  let? plan := map_err inr (compile_sequence_correlation_plan co_rule ClickHouse) in
  map_err inl (evaluate_sequence_signals plan mkSequenceTestPolicy signals mode).

Definition invalid_input (field : string)
    (e : SequenceCorrelationEvaluationError Empty_set + RuleCompilationErrorKind) : bool :=
  match e with inl (Sequence_InvalidInput violation) => String.eqb (cv_field violation) field | _ => false end.

Definition compiler_rejects_stream_without_approximating_stateful_semantics : bool :=
  is_err_and (fun e => match e with UnsupportedBackend => true | _ => false end)
    (compile_sequence_correlation_plan co_rule Stream).

Definition complete_sequence_matches_and_incomplete_sequence_does_not : bool :=
  let signals := co_sequence TENANT_A "jdoe" ExecutionMode_Live in
  is_ok_and (fun matches =>
      match matches with
      | [m] =>
          (length (sm_input_signal_ids m) =? 3)%nat && String.eqb (sm_correlation_rule_id m) "CER-COR-0003"
          && String.eqb (sm_correlation_rule_version m) "2" && String.eqb (sm_tenant_id m) TENANT_A
          && bool_decide (sm_execution_backend m = ClickHouse) && bool_decide (sm_execution_mode m = ExecutionMode_Live)
      | _ => false
      end) (co_evaluate signals ExecutionMode_Live)
  && is_ok_and none_left (co_evaluate (take 2 signals) ExecutionMode_Live).

Definition order_window_user_and_tenant_boundaries_prevent_false_matches : bool :=
  let live := ExecutionMode_Live in
  let signals := co_sequence TENANT_A "jdoe" live in
  is_ok_and none_left
    (co_evaluate (<[1 := co_signal 22 TENANT_A "CER-DET-000102" "jdoe" 1788999900000 live]> signals) live)
  && is_ok_and none_left
    (co_evaluate (<[2 := co_signal 23 TENANT_A "CER-DET-000103" "jdoe" 1789000601000 live]> signals) live)
  && is_ok_and none_left
    (co_evaluate [co_signal 31 TENANT_A "CER-DET-000101" "jdoe" 1789000000000 live;
                  co_signal 32 TENANT_A "CER-DET-000102" "root" 1789000060000 live;
                  co_signal 33 TENANT_A "CER-DET-000103" "jdoe" 1789000120000 live] live)
  && is_ok_and none_left
    (co_evaluate [co_signal 41 TENANT_A "CER-DET-000101" "jdoe" 1789000000000 live;
                  co_signal 42 TENANT_B "CER-DET-000102" "jdoe" 1789000060000 live;
                  co_signal 43 TENANT_A "CER-DET-000103" "jdoe" 1789000120000 live] live).

#[global] Instance SequenceCorrelationMatch_eq_dec : EqDecision SequenceCorrelationMatch.
Proof. solve_decision. Defined.

Definition duplicates_and_input_reordering_remain_deterministic : bool :=
  let ordered := co_sequence TENANT_A "jdoe" ExecutionMode_Live in
  match co_evaluate ordered ExecutionMode_Live,
        co_evaluate (reverse ordered ++ take 1 ordered) ExecutionMode_Live with
  | Ok expected, Ok actual => bool_decide (expected = actual)
  | _, _ => false
  end.

Definition with_summary (summary : string) (s : Signal) : Signal :=
  mkSignal (sg_signal_id s) (sg_tenant_id s) (sg_rule_id s) (sg_rule_version s) (sg_rule_type s) (sg_severity s)
    (sg_confidence s) (sg_status s) (sg_first_observed_at s) (sg_last_observed_at s) (sg_created_at s)
    (sg_execution_mode s) (sg_source_count s) (sg_event_count s) summary (sg_provenance s) (sg_inputs s).
Definition with_signal_id (signal_id : string) (s : Signal) : Signal :=
  mkSignal signal_id (sg_tenant_id s) (sg_rule_id s) (sg_rule_version s) (sg_rule_type s) (sg_severity s)
    (sg_confidence s) (sg_status s) (sg_first_observed_at s) (sg_last_observed_at s) (sg_created_at s)
    (sg_execution_mode s) (sg_source_count s) (sg_event_count s) (sg_summary s) (sg_provenance s) (sg_inputs s).

Definition conflicting_duplicate_identity_fails_closed : bool :=
  let signals := co_sequence TENANT_A "jdoe" ExecutionMode_Live in
  is_err_and (invalid_input "signals.signal_id")
    (co_evaluate (signals ++ (with_summary "user=root" <$> take 1 signals)) ExecutionMode_Live).

Definition live_and_replay_inputs_are_isolated : bool :=
  is_err_and (invalid_input "signals.execution_mode")
    (co_evaluate (co_sequence TENANT_A "jdoe" ExecutionMode_Live) ExecutionMode_Replay)
  && is_ok_and (fun matches =>
       match matches with [m] => bool_decide (sm_execution_mode m = ExecutionMode_Replay) | _ => false end)
       (co_evaluate (co_sequence TENANT_A "jdoe" ExecutionMode_Replay) ExecutionMode_Replay).

Definition invalid_canonical_signal_fails_closed : bool :=
  let signals := co_sequence TENANT_A "jdoe" ExecutionMode_Live in
  is_err_and (invalid_input "signal_id")
    (co_evaluate ((with_signal_id "not-a-uuid" <$> take 1 signals) ++ drop 1 signals) ExecutionMode_Live).

Definition test_fixture_signals_satisfy_canonical_signal_contract : bool :=
  forallb (fun signal => is_ok_and (fun _ => true) (validate_signal signal))
    (co_sequence TENANT_A "jdoe" ExecutionMode_Test).

(** The suite passes. *)
Theorem correlation_suite_passes :
  compiler_rejects_stream_without_approximating_stateful_semantics
  && complete_sequence_matches_and_incomplete_sequence_does_not
  && order_window_user_and_tenant_boundaries_prevent_false_matches
  && duplicates_and_input_reordering_remain_deterministic
  && conflicting_duplicate_identity_fails_closed
  && live_and_replay_inputs_are_isolated
  && invalid_canonical_signal_fails_closed
  && test_fixture_signals_satisfy_canonical_signal_contract = true.
Proof. vm_compute. reflexivity. Qed.
End CorrelationTests.

(** ** type_checker.rs and event_compiler.rs: the fixtures they share *)

Module CompilerTests.

Inductive CompilerTestType : Set := CtNumber | CtText.
#[global] Instance CompilerTestType_eq_dec : EqDecision CompilerTestType.
Proof. solve_decision. Defined.

Record CompilerTestFieldResolver := mkCompilerTestFieldResolver { ct_fields : list (string * CompilerTestType) }.
#[export] Instance CompilerTestFieldResolver_types : FieldTypeResolver CompilerTestFieldResolver CompilerTestType :=
  fun r field => snd <$> List.find (fun f => String.eqb f.1 field) (ct_fields r).

Inductive CompilerTestValueResolver : Set := mkCompilerTestValueResolver.
#[export] Instance CompilerTestValueResolver_types :
  ValueTypeResolver CompilerTestValueResolver string CompilerTestType := fun _ value =>
  match parse_unsigned in_u64 value with Some _ => CtNumber | None => CtText end.

Inductive CompilerTestComparisonPolicy : Set := mkCompilerTestComparisonPolicy.
#[export] Instance CompilerTestComparisonPolicy_policy :
  ComparisonTypePolicy CompilerTestComparisonPolicy CompilerTestType CompilerTestType :=
  fun _ field_type operator value_type =>
    reject_if (bool_decide (operator = Op_Contains) && bool_decide (field_type <> CtText)) InvalidOperator ;;?
    reject_if (bool_decide (field_type <> value_type)) TypeError.

Definition comparison (field : string) (operator : ComparisonOperator) (value : string)
    : DetectionExpression string string := Expr_Comparison (mkComparisonExpression field operator value).
Definition exists_field (field : string) : DetectionExpression string string :=
  Expr_Exists (mkExistsExpression field).

#[global] Instance RuleCompilationErrorKind_eq_dec : EqDecision RuleCompilationErrorKind.
Proof. solve_decision. Defined.

(** *** type_checker.rs *)

Definition tk_field_resolver : CompilerTestFieldResolver :=
  mkCompilerTestFieldResolver [("process.name", CtText); ("process.pid", CtNumber)].
Definition type_checks (expression : DetectionExpression string string) : result unit RuleCompilationErrorKind :=
  type_check_expression tk_field_resolver mkCompilerTestValueResolver mkCompilerTestComparisonPolicy expression.

Definition comparison_type_check_accepts_schema_compatible_types : bool :=
  is_ok_and (fun _ => true) (type_checks (comparison "process.pid" Op_Eq "42")).
Definition comparison_type_check_rejects_incompatible_types : bool :=
  is_err_and (fun e => bool_decide (e = TypeError)) (type_checks (comparison "process.pid" Op_Eq "powershell.exe")).
Definition comparison_type_check_rejects_invalid_operator_for_field_type : bool :=
  is_err_and (fun e => bool_decide (e = InvalidOperator)) (type_checks (comparison "process.pid" Op_Contains "42")).
Definition type_check_rejects_unknown_fields_in_exists_and_comparison : bool :=
  forallb (fun expression => is_err_and (fun e => bool_decide (e = UnknownField)) (type_checks expression))
    [exists_field "unknown.field"; comparison "unknown.field" Op_Eq "value"].
Definition type_check_recurses_through_boolean_tree : bool :=
  is_err_and (fun e => bool_decide (e = TypeError))
    (type_checks (Expr_Boolean (Bool_And
       [exists_field "process.name";
        Expr_Boolean (Bool_Not (comparison "process.pid" Op_Eq "powershell.exe"))]))).

(** *** event_compiler.rs

    The counters of calls become whether a stage may be called: a stage that the
    test expects not to run panics if it does. *)

Definition CompilerTestProfile : Type :=
  EventFieldProfile (list string) (list string) (list (string * CompilerTestType)).
Definition CompilerTestPlan : Type :=
  ExecutionPlan string string (list string) (EventPredicate string string) unit unit unit string.

Record CompilerTestOptimizer := mkCompilerTestOptimizer {
  cto_callable : bool;
  cto_failure : option RuleCompilationErrorKind;
}.
#[export] Instance CompilerTestOptimizer_optimizer : EventAstOptimizer CompilerTestOptimizer string string :=
  fun optimizer expression =>
    if cto_callable optimizer then
      match cto_failure optimizer with Some failure => Err failure | None => Ok expression end
    else Panic "the optimizer was called".

Record CompilerTestProfileResolver := mkCompilerTestProfileResolver { ctp_callable : bool }.
#[export] Instance CompilerTestProfileResolver_profiles :
  EventFieldProfileResolver CompilerTestProfileResolver string string CompilerTestProfile := fun resolver _ =>
  if ctp_callable resolver then
    Ok (mkEventFieldProfile _ _ _ ["process.name"] ["user.name"] [("process.name", CtText); ("user.name", CtText)])
  else Panic "the profile resolver was called".

Record CompilerTestPlanCompiler := mkCompilerTestPlanCompiler { ctc_callable : bool }.
#[export] Instance CompilerTestPlanCompiler_plans :
  EventExecutionPlanCompiler CompilerTestPlanCompiler string string CompilerTestProfile CompilerTestPlan := {|
  supported_backends_of _ _ _ := Ok (mkExecutionBackendCapabilities true false);
  compile_event_plan compiler backend predicate field_profile :=
    if ctc_callable compiler then
      match RuleId_from_str "CER-DET-000001" with
      | Ok rule_id =>
          Ok (mkExecutionPlan "opaque-event-plan" rule_id "opaque-rule-version" backend
                (required_fields _ _ _ field_profile) predicate tt tt tt "opaque-plan-hash")
      | _ => Panic "valid rule id"
      end
    else Panic "the plan compiler was called";
|}.

Definition cm_field_resolver : CompilerTestFieldResolver :=
  mkCompilerTestFieldResolver [("process.name", CtText); ("process.pid", CtNumber); ("user.name", CtText)].
Definition valid_expression : DetectionExpression string string :=
  Expr_Boolean (Bool_And [comparison "process.name" Op_Eq "powershell.exe"; exists_field "user.name"]).

(** The compilation with an optimizer, and whether the later stages may run *)
Definition compiles (expression : DetectionExpression string string) (backend : ExecutionBackend)
    (optimizer : CompilerTestOptimizer) (profile plan : bool)
    : result (CompiledEventExecutionPlan CompilerTestPlan CompilerTestProfile) RuleCompilationErrorKind :=
  compile_event_execution_plan expression backend cm_field_resolver mkCompilerTestValueResolver
    mkCompilerTestComparisonPolicy
    (mkStages optimizer (mkCompilerTestProfileResolver profile) (mkCompilerTestPlanCompiler plan)).
Definition optimizer : CompilerTestOptimizer := mkCompilerTestOptimizer true None.
Definition idle_optimizer : CompilerTestOptimizer := mkCompilerTestOptimizer false None.

Definition predicate_dec : forall p q : EventPredicate string string, {p = q} + {p <> q}.
Proof.
  refine (fix go (p q : EventPredicate string string) := let _ : EqDecision (EventPredicate string string) := @go in
    match p, q with
    | Pred_And x, Pred_And y => cast_if (decide (x = y))
    | Pred_Or x, Pred_Or y => cast_if (decide (x = y))
    | Pred_Not x, Pred_Not y => cast_if (decide (x = y))
    | Pred_Comparison f o v, Pred_Comparison f' o' v' =>
        cast_if_and3 (decide (f = f')) (decide (o = o')) (decide (v = v'))
    | Pred_Exists f, Pred_Exists f' => cast_if (decide (f = f'))
    | _, _ => right _
    end); congruence.
Defined.
#[global] Instance EventPredicate_eq_dec : EqDecision (EventPredicate string string) := predicate_dec.

Definition valid_event_ast_materializes_plan_with_field_profile : bool :=
  is_ok_and (fun compiled =>
      String.eqb (RuleId_as_str (pl_rule_id (cp_plan compiled))) "CER-DET-000001"
      && bool_decide (pl_backend (cp_plan compiled) = ClickHouse)
      && supports (cp_supported_backends compiled) ClickHouse
      && negb (supports (cp_supported_backends compiled) Stream)
      && bool_decide (pl_required_fields _ _ _ _ _ _ _ _ (cp_plan compiled) = ["process.name"])
      && bool_decide (pl_predicates (cp_plan compiled)
           = Pred_And [Pred_Comparison "process.name" Op_Eq "powershell.exe"; Pred_Exists "user.name"])
      && bool_decide (optional_fields _ _ _ (cp_field_profile compiled) = ["user.name"])
      && bool_decide (field_types _ _ _ (cp_field_profile compiled)
           = [("process.name", CtText); ("user.name", CtText)]))
    (compiles valid_expression ClickHouse optimizer true true).

Definition event_ast_lowering_preserves_nested_boolean_semantics : bool :=
  is_ok_and (fun compiled =>
      bool_decide (pl_predicates (cp_plan compiled)
        = Pred_Or [Pred_Exists "user.name"; Pred_Not (Pred_Comparison "process.name" Op_Eq "cmd.exe")]))
    (compiles (Expr_Boolean (Bool_Or [exists_field "user.name";
                 Expr_Boolean (Bool_Not (comparison "process.name" Op_Eq "cmd.exe"))])) ClickHouse optimizer true true).

Definition invalid_structure_fails_before_profile_or_plan_materialization : bool :=
  is_err_and (fun e => bool_decide (e = SyntaxError))
    (compiles (Expr_Boolean (Bool_And [])) ClickHouse idle_optimizer false false).
Definition type_failure_fails_before_profile_or_plan_materialization : bool :=
  is_err_and (fun e => bool_decide (e = TypeError))
    (compiles (comparison "process.pid" Op_Eq "powershell.exe") ClickHouse idle_optimizer false false).
Definition unknown_field_fails_before_profile_or_plan_materialization : bool :=
  is_err_and (fun e => bool_decide (e = UnknownField))
    (compiles (exists_field "unknown.field") ClickHouse idle_optimizer false false).
Definition optimizer_failure_fails_before_profile_or_plan_materialization : bool :=
  is_err_and (fun e => bool_decide (e = ResourcePolicyViolation))
    (compiles valid_expression ClickHouse (mkCompilerTestOptimizer true (Some ResourcePolicyViolation)) false false).
Definition unsupported_backend_fails_before_plan_materialization : bool :=
  is_err_and (fun e => bool_decide (e = UnsupportedBackend))
    (compiles valid_expression Stream optimizer true false).

(** Both suites pass. *)
Theorem compiler_suites_pass :
  comparison_type_check_accepts_schema_compatible_types
  && comparison_type_check_rejects_incompatible_types
  && comparison_type_check_rejects_invalid_operator_for_field_type
  && type_check_rejects_unknown_fields_in_exists_and_comparison
  && type_check_recurses_through_boolean_tree
  && valid_event_ast_materializes_plan_with_field_profile
  && event_ast_lowering_preserves_nested_boolean_semantics
  && invalid_structure_fails_before_profile_or_plan_materialization
  && type_failure_fails_before_profile_or_plan_materialization
  && unknown_field_fails_before_profile_or_plan_materialization
  && optimizer_failure_fails_before_profile_or_plan_materialization
  && unsupported_backend_fails_before_plan_materialization = true.
Proof. vm_compute. reflexivity. Qed.
End CompilerTests.

(** ** event_evaluator.rs *)

Module EvaluatorTests.

Inductive EvaluatorTestValue : Set := TvText (text : string) | TvNull | TvMalformed.
Record EvaluatorTestEvent := mkEvaluatorTestEvent { te_fields : list (string * EvaluatorTestValue) }.
#[export] Instance EvaluatorTestEvent_view : EventFieldView EvaluatorTestEvent string EvaluatorTestValue :=
  fun event field =>
    match snd <$> List.find (fun f => String.eqb f.1 field) (te_fields event) with
    | Some TvNull => Null
    | Some TvMalformed => Malformed
    | Some value => Present value
    | None => Absent
    end.

(** The counter of leaves, as whether a test for existence may be reached *)
Record EvaluatorTestPolicy := mkEvaluatorTestPolicy { etp_exists_reached : bool }.
#[export] Instance EvaluatorTestPolicy_leaves :
  EventLeafEvaluationPolicy EvaluatorTestPolicy string string EvaluatorTestValue Empty_set := {|
  evaluate_exists policy _ state :=
    if etp_exists_reached policy then Ok (match state with Present _ => true | _ => false end)
    else Panic "the second leaf was evaluated";
  evaluate_comparison _ _ state operator rule_value :=
    match state with
    | Present (TvText actual) =>
        Ok (match operator with
            | Op_Eq => String.eqb actual rule_value
            | Op_Contains => contains_str rule_value actual
            | _ => false
            end)
    | _ => Ok false
    end;
|}.

Record EvaluatorTestPlan := mkEvaluatorTestPlan { etp_predicates : EventPredicate string string }.
#[export] Instance EvaluatorTestPlan_view : EventExecutionPlanView EvaluatorTestPlan string string := etp_predicates.

Definition ev_event : EvaluatorTestEvent :=
  mkEvaluatorTestEvent
    [("process.name", TvText "powershell.exe");
     ("process.command_line", TvText "powershell.exe -EncodedCommand AAAA");
     ("user.null", TvNull); ("user.malformed", TvMalformed)].

Definition evaluates (exists_reached : bool) (predicates : EventPredicate string string)
    : result EventEvaluationResult Empty_set :=
  evaluate_event_execution_plan ev_event (mkEvaluatorTestPolicy exists_reached) (mkEvaluatorTestPlan predicates).
Definition is_match (r : EventEvaluationResult) : bool := match r with Match => true | NoMatch => false end.

Definition event_plan_evaluates_boolean_match_and_no_match : bool :=
  is_ok_and is_match (evaluates true (Pred_And
    [Pred_Comparison "process.name" Op_Eq "powershell.exe";
     Pred_Comparison "process.command_line" Op_Contains "-EncodedCommand";
     Pred_Not (Pred_Exists "user.name")]))
  && is_ok_and (fun r => negb (is_match r)) (evaluates true (Pred_Comparison "process.name" Op_Eq "cmd.exe")).

Definition evaluator_short_circuits_boolean_predicates : bool :=
  is_ok_and (fun r => negb (is_match r)) (evaluates false (Pred_And
    [Pred_Comparison "process.name" Op_Eq "cmd.exe"; Pred_Exists "process.command_line"])).

Definition field_view_preserves_absent_null_and_malformed_states : bool :=
  match field_state (Value := EvaluatorTestValue) ev_event "missing.field",
        field_state (Value := EvaluatorTestValue) ev_event "user.null",
        field_state (Value := EvaluatorTestValue) ev_event "user.malformed" with
  | Absent, Null, Malformed => true
  | _, _, _ => false
  end.

Definition leaf_policy_owns_missing_and_null_behavior : bool :=
  is_ok_and (fun r => negb (is_match r)) (evaluates true (Pred_Exists "missing.field"))
  && is_ok_and (fun r => negb (is_match r)) (evaluates true (Pred_Exists "user.null")).

(** The suite passes. *)
Theorem evaluator_suite_passes :
  event_plan_evaluates_boolean_match_and_no_match
  && evaluator_short_circuits_boolean_predicates
  && field_view_preserves_absent_null_and_malformed_states
  && leaf_policy_owns_missing_and_null_behavior = true.
Proof. vm_compute. reflexivity. Qed.
End EvaluatorTests.

(** ** event_signal.rs, event_signal_materializer.rs and correlation_finding_materializer.rs *)

Module SignalTests.
Import ThresholdTests.

(** [NormalizedEvent { .., ..Default::default() }] *)
Definition default_event (normalized_event_id tenant_id : string) (ocsf_event : option Struct) : NormalizedEvent :=
  mkNormalizedEvent normalized_event_id "" tenant_id None "" 0 0 None None ocsf_event "" "" 0 "" "" "".

Definition test_rule_id : RuleId :=
  match RuleId_from_str "CER-DET-000001" with Ok rule_id => rule_id | _ => mkRuleId "" end.

(** *** event_signal.rs; its policy is the leaf policy of the THRESHOLD suite *)

Definition es_plan (expected_status : string) (backend : ExecutionBackend) : ThresholdTestPlan :=
  mkExecutionPlan "event-signal-plan" test_rule_id 7%Z backend ["status"]
    (Pred_Comparison "status" Op_Eq expected_status) tt tt tt "event-signal-plan-hash".
Definition es_event (status normalized_event_id : string) : NormalizedEvent :=
  default_event normalized_event_id "" (Some (mkStruct [("status", mkValue (Some (StringValue status)))])).
Definition es_evaluated_at : Timestamp := mkTimestamp 1800000000 123000000.
Definition es_evaluate (expected : string) (backend : ExecutionBackend) (id : string) (mode : ExecutionMode)
    (evaluated_at : Timestamp)
    : result (EventSignalEvaluationResult Z) (EventSignalEvaluationError Empty_set) :=
  evaluate_normalized_event_for_signal (es_plan expected backend) (es_event "Failure" id) mode evaluated_at
    mkThresholdTestPolicy.
Definition es_id : string := "018f47a2-4b00-7a00-8000-000000000001".

Definition matching_event_preserves_frozen_signal_provenance : bool :=
  is_ok_and (fun r =>
      match r with
      | Signal_Match provenance =>
          String.eqb (RuleId_as_str (ep_rule_id provenance)) "CER-DET-000001"
          && (ep_rule_version provenance =? 7)%Z && String.eqb (ep_normalized_event_id provenance) es_id
          && bool_decide (ep_evaluated_at provenance = es_evaluated_at)
          && bool_decide (ep_execution_backend provenance = ClickHouse)
          && bool_decide (ep_execution_mode provenance = ExecutionMode_Replay)
      | Signal_NoMatch => false
      end) (es_evaluate "Failure" ClickHouse es_id ExecutionMode_Replay es_evaluated_at).

Definition non_matching_event_does_not_materialize_signal_provenance : bool :=
  is_ok_and (fun r => match r with Signal_NoMatch => true | _ => false end)
    (es_evaluate "Success" Stream es_id ExecutionMode_Live es_evaluated_at).

Definition invalid_provenance (field : string) (e : EventSignalEvaluationError Empty_set) : bool :=
  match e with EventSignal_InvalidProvenance violation => String.eqb (cv_field violation) field | _ => false end.

Definition invalid_normalized_event_identity_fails_closed : bool :=
  is_err_and (invalid_provenance "normalized_event_id")
    (es_evaluate "Failure" Stream "not-a-uuid" ExecutionMode_Live es_evaluated_at).
Definition unspecified_execution_mode_fails_closed : bool :=
  is_err_and (fun e => match e with EventSignal_UnspecifiedExecutionMode => true | _ => false end)
    (es_evaluate "Failure" Stream es_id ExecutionMode_Unspecified es_evaluated_at).
Definition invalid_evaluation_timestamp_fails_closed : bool :=
  is_err_and (invalid_provenance "evaluated_at")
    (es_evaluate "Failure" Stream es_id ExecutionMode_Test (mkTimestamp 253402300800 0)).

(** *** event_signal_materializer.rs *)

Definition MAT_SIGNAL_ID : string := "018f47a2-4b00-7a00-8000-000000000201".
Definition MAT_TENANT_ID : string := "018f47a2-4b00-7a00-8000-000000000202".
Definition MAT_EVENT_ID : string := "018f47a2-4b00-7a00-8000-000000000203".
Definition at_seconds (seconds : Z) : Timestamp := mkTimestamp seconds 0.

Definition mat_event : NormalizedEvent := default_event MAT_EVENT_ID MAT_TENANT_ID None.
Definition mat_provenance (normalized_event_id : string) (backend : ExecutionBackend) : EventSignalProvenance Z :=
  mkEventSignalProvenance test_rule_id 7%Z normalized_event_id (at_seconds 1800000010) backend ExecutionMode_Replay.
Definition mat_context (signal_id : string) (source_event_time : option Timestamp) : EventSignalMaterializationContext :=
  mkEventSignalMaterializationContext signal_id "HIGH" (Some "LOW") "failed SSH login matched" "MATCHED"
    (at_seconds 1800000020) source_event_time.

Definition event_match_materializes_canonical_signal : bool :=
  let observed_at := at_seconds 1800000000 in
  is_ok_and (fun signal =>
      String.eqb (sg_signal_id signal) MAT_SIGNAL_ID && String.eqb (sg_tenant_id signal) MAT_TENANT_ID
      && String.eqb (sg_rule_id signal) "CER-DET-000001" && String.eqb (sg_rule_version signal) "7"
      && (sg_rule_type signal =? SignalRuleType_as_i32 SignalRuleType_Event)%Z
      && String.eqb (sg_severity signal) "HIGH" && bool_decide (sg_confidence signal = Some "LOW")
      && (sg_status signal =? SignalStatus_as_i32 SignalStatus_Active)%Z
      && bool_decide (sg_first_observed_at signal = Some observed_at)
      && bool_decide (sg_last_observed_at signal = Some observed_at)
      && (sg_execution_mode signal =? ExecutionMode_as_i32 ExecutionMode_Replay)%Z
      && (sg_source_count signal =? 1)%Z && (sg_event_count signal =? 1)%Z
      && bool_decide (sp_execution_backend <$> sg_provenance signal
           = Some (DetectionExecutionBackend_as_i32 DetectionExecutionBackend_Clickhouse))
      && match sg_inputs signal with
         | [input] =>
             (si_input_type input =? SignalInputType_as_i32 SignalInputType_NormalizedEvent)%Z
             && String.eqb (si_input_id input) MAT_EVENT_ID && (si_ordinal input =? 0)%Z
         | _ => false
         end
      && is_ok_and (fun _ => true) (validate_signal signal))
    (materialize_event_signal (mat_provenance MAT_EVENT_ID ClickHouse) mat_event
       (mat_context MAT_SIGNAL_ID (Some observed_at))).

Definition missing_source_event_time_is_preserved_as_missing : bool :=
  is_ok_and (fun signal =>
      bool_decide (sg_first_observed_at signal = None) && bool_decide (sg_last_observed_at signal = None)
      && bool_decide (sp_execution_backend <$> sg_provenance signal
           = Some (DetectionExecutionBackend_as_i32 DetectionExecutionBackend_Stream)))
    (materialize_event_signal (mat_provenance MAT_EVENT_ID Stream) mat_event (mat_context MAT_SIGNAL_ID None)).

Definition violates (field : string) (e : ContractViolation) : bool := String.eqb (cv_field e) field.

Definition event_identity_mismatch_fails_closed : bool :=
  is_err_and (violates "normalized_event_id")
    (materialize_event_signal (mat_provenance "018f47a2-4b00-7a00-8000-000000000204" Stream) mat_event
       (mat_context MAT_SIGNAL_ID None)).
Definition canonical_validator_rejects_invalid_producer_context : bool :=
  is_err_and (violates "signal_id")
    (materialize_event_signal (mat_provenance MAT_EVENT_ID Stream) mat_event (mat_context "not-a-uuid" None)).
Definition canonical_validator_rejects_invalid_tenant_propagation : bool :=
  is_err_and (violates "tenant_id")
    (materialize_event_signal (mat_provenance MAT_EVENT_ID Stream) (default_event MAT_EVENT_ID "not-a-uuid" None)
       (mat_context MAT_SIGNAL_ID None)).

(** *** correlation_finding_materializer.rs *)

Definition FINDING_ID : string := "018f47a2-4b00-7a00-8000-000000000701".
Definition FINDING_TENANT_ID : string := "018f47a2-4b00-7a00-8000-000000000702".
Definition SIGNAL_A : string := "018f47a2-4b00-7a00-8000-000000000703".
Definition SIGNAL_B : string := "018f47a2-4b00-7a00-8000-000000000704".
Definition SIGNAL_C : string := "018f47a2-4b00-7a00-8000-000000000705".

Definition fm_match (input_signal_ids : list string) (mode : ExecutionMode) : SequenceCorrelationMatch :=
  mkSequenceCorrelationMatch "CER-COR-0003" "2" FINDING_TENANT_ID (at_seconds 1800000000) (at_seconds 1800000120)
    input_signal_ids ClickHouse mode "sequence-config-v1".
Definition fm_context (finding_id : string) : CorrelationFindingMaterializationContext :=
  mkCorrelationFindingMaterializationContext finding_id "HIGH" (Some "MEDIUM") "Account compromise sequence"
    "Failed login followed by success and privilege escalation" "SEQUENCE_INPUT" (at_seconds 1800000130).

Definition sequence_match_materializes_canonical_correlation_finding : bool :=
  let signals := [SIGNAL_A; SIGNAL_B; SIGNAL_C] in
  is_ok_and (fun finding =>
      String.eqb (fd_finding_id finding) FINDING_ID && String.eqb (fd_tenant_id finding) FINDING_TENANT_ID
      && (fd_finding_type finding =? FindingType_as_i32 FindingType_Correlation)%Z
      && (fd_status finding =? FindingStatus_as_i32 FindingStatus_Open)%Z
      && (fd_disposition finding =? FindingDisposition_as_i32 FindingDisposition_Undetermined)%Z
      && (fd_execution_mode finding =? ExecutionMode_as_i32 ExecutionMode_Replay)%Z
      && bool_decide (fd_first_seen finding = Some (at_seconds 1800000000))
      && bool_decide (fd_last_seen finding = Some (at_seconds 1800000120))
      && bool_decide (fd_created_at finding = Some (at_seconds 1800000130))
      && bool_decide (fd_updated_at finding = fd_created_at finding)
      && bool_decide (fd_primary_rule_id finding = None) && bool_decide (fd_primary_rule_version finding = None)
      && bool_decide (fd_correlation_rule_id finding = Some "CER-COR-0003")
      && bool_decide (fd_correlation_rule_version finding = Some "2")
      && bool_decide (fi_input_id <$> fd_inputs finding = signals)
      && forallb (fun input => String.eqb (fi_input_type input) "SIGNAL"
           && String.eqb (fi_relation input) "SEQUENCE_INPUT" && String.eqb (fi_finding_id input) FINDING_ID)
           (fd_inputs finding)
      && match fd_correlation_provenance finding with
         | Some provenance =>
             bool_decide (fp_input_ids provenance = signals)
             && String.eqb (fp_output_finding_id provenance) FINDING_ID
             && (fp_execution_backend provenance
                 =? DetectionExecutionBackend_as_i32 DetectionExecutionBackend_Clickhouse)%Z
             && (fp_execution_mode provenance =? ExecutionMode_as_i32 ExecutionMode_Replay)%Z
             && String.eqb (fp_configuration_hash provenance) "sequence-config-v1"
         | None => false
         end
      && is_ok_and (fun _ => true) (validate_finding finding))
    (materialize_sequence_correlation_finding (fm_match signals ExecutionMode_Replay) (fm_context FINDING_ID)).

Definition invalid_producer_identity_fails_canonical_validation : bool :=
  is_err_and (violates "finding_id")
    (materialize_sequence_correlation_finding (fm_match [SIGNAL_A; SIGNAL_B; SIGNAL_C] ExecutionMode_Replay)
       (fm_context "not-a-uuid")).
Definition duplicate_correlation_inputs_fail_closed : bool :=
  is_err_and (violates "inputs")
    (materialize_sequence_correlation_finding (fm_match [SIGNAL_A; SIGNAL_A] ExecutionMode_Replay) (fm_context FINDING_ID)).
Definition finding_unspecified_execution_mode_fails_closed : bool :=
  is_err_and (violates "execution_mode")
    (materialize_sequence_correlation_finding (fm_match [SIGNAL_A; SIGNAL_B; SIGNAL_C] ExecutionMode_Unspecified)
       (fm_context FINDING_ID)).

(** The three suites pass. *)
Theorem signal_suites_pass :
  matching_event_preserves_frozen_signal_provenance
  && non_matching_event_does_not_materialize_signal_provenance
  && invalid_normalized_event_identity_fails_closed
  && unspecified_execution_mode_fails_closed
  && invalid_evaluation_timestamp_fails_closed
  && event_match_materializes_canonical_signal
  && missing_source_event_time_is_preserved_as_missing
  && event_identity_mismatch_fails_closed
  && canonical_validator_rejects_invalid_producer_context
  && canonical_validator_rejects_invalid_tenant_propagation
  && sequence_match_materializes_canonical_correlation_finding
  && invalid_producer_identity_fails_canonical_validation
  && duplicate_correlation_inputs_fail_closed
  && finding_unspecified_execution_mode_fails_closed = true.
Proof. vm_compute. reflexivity. Qed.
End SignalTests.
