(* ===== verification/NormalizerTests.v ===== *)
(** * The test suites of the normalizer

    The unit tests of cerbero-normalizer (parser.rs, metrics.rs, canonical.rs,
    source_time.rs, mapping.rs, core.rs, runtime_config.rs, dead_letter.rs, eventbus.rs,
    raw_store.rs) with their fixtures, as checks the model computes.  The tests use the
    crates around the normalizer on a few concrete inputs; the instances of the first
    section say what these crates answer there. *)

From Stdlib Require Import SpecFloat.
From S2P Require Import Prelude RustStd RustText ContractTypes Validation SignalContract Effects CanonicalJson Parser ParserFormats SourceTime SourceTimeSpec Mapping RetryState Metrics NormalizerWorld NormalizerCore RuntimeConfig RawStore EventBus DeadLetter.

Module NormalizerTests.
Import CalendarSample.

(** ** The crates, where the tests use them *)

(** A digest that separates the texts of the tests *)
Definition checksum (bytes : list ascii) : Z :=
  foldl (fun h c => (h * 257 + Z.of_N (N_of_ascii c) + 1) mod 2 ^ 256)%Z 7%Z bytes.
Fixpoint low_bytes (n : nat) (z : Z) : list ascii :=
  match n with O => [] | S n => ascii_of_N (Z.to_N (z mod 256)) :: low_bytes n (z / 256) end.
Lemma low_bytes_length n z : length (low_bytes n z) = n.
Proof. revert z. induction n as [|n IH]; intros z; simpl; [done|]. by rewrite IH. Qed.
#[export] Instance test_digests : Sha256 := {|
  sha256_digest bytes := low_bytes 32 (checksum bytes);
  sha256_digest_length bytes := low_bytes_length 32 (checksum bytes);
|}.

(** Compact JSON, for texts without characters to escape *)
Definition dquote : ascii := "034".
Definition quoted (text : string) : string := String dquote (text +:+ String dquote "").
Fixpoint json_text (value : Json) : string :=
  match value with
  | JNull => "null"
  | JBool b => if b then "true" else "false"
  | JNumber text => text
  | JString text => quoted text
  | JArray values => "[" +:+ String.concat "," (map json_text values) +:+ "]"
  | JObject object =>
      "{" +:+ String.concat "," (map (fun '(key, value) => quoted key +:+ ":" +:+ json_text value) object) +:+ "}"
  end.

(** The documents of the tests *)
Definition journald_document : Json := json_object [("cerbero_journald_version", JNumber "1"); ("fields", JArray [])].
Definition login_document : Json := json_object [("event", JString "login")].
#[export] Instance test_json : JsonCodec := {|
  json_from_slice bytes :=
    match List.find (fun document => bool_decide (str_bytes (json_text document) = bytes))
            [journald_document; login_document] with
    | Some document => Ok document
    | None => Err "expected value"
    end;
  json_to_vec value := str_bytes (json_text value);
  number_as_f64 text := (fun n => binary_normalize 53 1024 n 0 false) <$> parse_unsigned in_u64 text;
|}.
#[export] Instance test_formats : FormatCodec := {|
  base64_decode _ := Err "Invalid padding";
  rfc3339_parse _ := Err "invalid";
|}.
#[export] Instance test_debug : DebugStr := quoted.
#[export] Instance test_outside : Outside := {|
  retry_fault _ := None;
  publish_reply _ _ := inl (mkPubAck ANALYTICS_STREAM_NAME 1);
  settle_fault _ := None;
  http_reply _ _ := inl (mkHttpReply 200 (Ok ""));
  connect_fault _ := None;
  consumer_fault _ := None;
  system_time_now _ := 1789000002000000000%Z;
  elapsed_time _ := 5%Z;
  now_v7_text n := "01995000-0000-7000-8000-0000000000" +:+ pretty (10 + Z.of_nat n)%Z;
|}.

(** ** Shared helpers *)

(** [assert_eq!] on an option of texts *)
Definition is_text (o : option string) (text : string) : bool := bool_decide (o = Some text).
Definition passes {A E} (p : A -> bool) (r : result A E) : bool := match r with Ok a => p a | _ => false end.
Definition rejects {A E} (p : E -> bool) (r : result A E) : bool := match r with Err e => p e | _ => false end.

(** [RawEventPersisted { .., ..Default::default() }] *)
Definition default_persisted (source_id : string) (event_time ingest_time : option Timestamp) (content_type : string)
    : RawEventPersisted :=
  mkRawEventPersisted "" "" source_id "" event_time ingest_time content_type "" 0 "" "" "" "" None 0 "" "" "" 0 0 None.
Definition nothing_persisted : RawEventPersisted := default_persisted "" None None "".

(** ** parser.rs *)

Definition pt_input (bytes : string) (persisted : RawEventPersisted) : ParserInput :=
  mkParserInput (str_bytes bytes) persisted None.

Definition governed_line : string := "Failed password for invalid user admin from 10.0.0.8 port 50341 ssh2".

Definition sshd_parser_handles_governed_vertical_fixture : bool :=
  passes (fun parsed =>
      is_text (string_field parsed "username") "admin" && is_text (string_field parsed "source_ip") "10.0.0.8"
      && bool_decide (u64_field parsed "source_port" = Some 50341%Z)
      && bool_decide (bool_field parsed "invalid_user" = Some true)
      && bool_decide (bool_field parsed "authentication_succeeded" = Some false))
    (parser_parse LinuxSshdParser (pt_input governed_line nothing_persisted)).

Definition sshd_v2_preserves_invalid_user_semantics_and_version : bool :=
  passes (fun parsed =>
      String.eqb (pe_parser_id parsed) LINUX_SSHD_PARSER_ID
      && String.eqb (pe_parser_version parsed) LINUX_SSHD_PARSER_V2_VERSION
      && is_text (string_field parsed "message") "SSH authentication failed for invalid user admin from 10.0.0.8")
    (parser_parse LinuxSshdParserV2 (pt_input governed_line nothing_persisted)).

Definition parse_error_is (code : string) (e : ParseError) : bool := String.eqb (pr_code e) code && negb (pr_retryable e).

Definition registry_rejects_unknown_governed_sshd_version : bool :=
  rejects (parse_error_is "CER-PARSE-UNSUPPORTED-VERSION") (with_linux_sshd_version "999").

Definition malformed_sshd_is_permanent : bool :=
  rejects (parse_error_is "CER-PARSE-MALFORMED")
    (parser_parse LinuxSshdParser (pt_input "Failed password for admin" nothing_persisted)).

(** [ParserRegistry::with_defaults] *)
Definition parsers_with_defaults : result ParserRegistry ParseError := with_linux_sshd_version LINUX_SSHD_PARSER_VERSION.

Definition registry_selection_is_explainable_and_deterministic : bool :=
  passes (fun selection =>
      String.eqb (parser_id (ps_parser selection)) LINUX_SSHD_PARSER_ID
      && String.eqb (parser_version (ps_parser selection)) LINUX_SSHD_PARSER_VERSION
      && String.eqb (pt_policy (ps_trace selection)) "auto:tier-then-confidence")
    (let? registry := parsers_with_defaults in
     select registry (pt_input "Failed password for admin from 10.0.0.8 port 22 ssh2" nothing_persisted)).

Definition configured_parser_has_priority : bool :=
  let persisted := default_persisted "" None None "application/json" in
  passes (fun selection =>
      String.eqb (parser_id (ps_parser selection)) GENERIC_JSON_PARSER_ID
      && String.eqb (pt_policy (ps_trace selection)) "configured-parser")
    (let? registry := parsers_with_defaults in
     select registry
       (mkParserInput (str_bytes (json_text journald_document)) persisted (Some GENERIC_JSON_PARSER_ID))).

Definition test_limits : ParserLimits := mkParserLimits 64 1 1 64 1.
Definition TieParser (id : string) : Parser :=
  mkParser id "1" Generic test_limits (fun _ => Ok 50%Z) (fun _ => Panic "selection must fail before parsing").
Definition PanicParser : Parser :=
  mkParser "test/panic" "1" SourceSpecific test_limits (fun _ => Ok 100%Z) (fun _ => Panic "parser bug").
Definition PanicProbeParser : Parser :=
  mkParser "test/panic-probe" "1" Generic test_limits (fun _ => Panic "probe bug") (fun _ => Panic "probe must fail first").

Definition mentions (code word : string) (e : ParseError) : bool :=
  String.eqb (pr_code e) code && contains_str word (pr_message e).

Definition equal_highest_candidates_fail_closed : bool :=
  rejects (mentions "CER-PARSE-NO-MATCH" "ambiguous")
    (select (register (register [] (TieParser "test/a")) (TieParser "test/b")) (pt_input "x" nothing_persisted)).
Definition parser_panics_are_contained : bool :=
  rejects (mentions "CER-PARSE-INTERNAL" "panicked")
    (registry_parse (register [] PanicParser) (pt_input "x" nothing_persisted)).
Definition probe_panics_are_contained : bool :=
  rejects (mentions "CER-PARSE-INTERNAL" "probing")
    (select (register [] PanicProbeParser) (pt_input "x" nothing_persisted)).

(** The suite passes. *)
Theorem parser_suite_passes :
  sshd_parser_handles_governed_vertical_fixture
  && sshd_v2_preserves_invalid_user_semantics_and_version
  && registry_rejects_unknown_governed_sshd_version
  && malformed_sshd_is_permanent
  && registry_selection_is_explainable_and_deterministic
  && configured_parser_has_priority
  && equal_highest_candidates_fail_closed
  && parser_panics_are_contained
  && probe_panics_are_contained = true.
Proof. vm_compute. reflexivity. Qed.

(** ** metrics.rs *)

Definition memory_metrics_are_backend_neutral_and_bounded_by_governed_ids : bool :=
  let metrics := record_parse metrics_default ParseMetric_Partial (Some "cerbero.parser.syslog.rfc3164") 2000000%Z in
  let metrics := record_normalization metrics NormalizationMetric_Success (Some "linux.ssh.authentication") 3000000%Z in
  let snapshot := metrics_snapshot (record_dlq metrics) in
  (events_parsed_total snapshot =? 1)%Z && (parse_partial_total snapshot =? 1)%Z
  && (events_normalized_total snapshot =? 1)%Z && (normalization_success_total snapshot =? 1)%Z
  && (dlq_normalization_total snapshot =? 1)%Z
  && bool_decide (bt_get "cerbero.parser.syslog.rfc3164" (parser_by_id snapshot) = Some 1%Z)
  && bool_decide (bt_get "linux.ssh.authentication" (mapping_by_id snapshot) = Some 1%Z)
  && (parser_latency_observations snapshot =? 1)%Z && (normalization_latency_observations snapshot =? 1)%Z.

(** ** canonical.rs *)

(** Members in the order they are written, which [canonicalize] has to sort *)
Definition canonical_json_sorts_nested_object_keys : bool :=
  let left := JObject [("z", JNumber "1"); ("a", JObject [("y", JNumber "2"); ("b", JNumber "3")])] in
  let right := JObject [("a", JObject [("b", JNumber "3"); ("y", JNumber "2")]); ("z", JNumber "1")] in
  let expected :=
    "{" +:+ quoted "a" +:+ ":{" +:+ quoted "b" +:+ ":3," +:+ quoted "y" +:+ ":2}," +:+ quoted "z" +:+ ":1}" in
  bool_decide (canonical_json_bytes left = canonical_json_bytes right)
  && String.eqb (str_of_bytes (canonical_json_bytes left)) expected
  && String.eqb (canonical_json_hash left) (canonical_json_hash right).

(** ** source_time.rs *)

Definition parsed_rfc3164 (parser_id source_event_type : string) : ParsedEvent :=
  mkParsedEvent parser_id "1" source_event_type PNull
    [mkTimestampCandidate "Oct 11 22:14:15" "timestamp" None "second_without_year_or_timezone" "medium"] []
    Parsing_Partial None.
Definition rfc3164_event : ParsedEvent := parsed_rfc3164 "cerbero.parser.syslog.rfc3164" "syslog.rfc3164".

Definition configured_offset_resolves_rfc3164_without_mutating_ingest_time : bool :=
  let expected := local_unix_timestamp 2026 10 11 22 14 15 (-14400) in
  let ingest := mkTimestamp (expected + 7200) 123 in
  passes (fun resolution =>
      bool_decide (ts_seconds <$> etc_event_time resolution = Some expected)
      && String.eqb (etc_source resolution) "source_time_policy"
      && match etc_assumption resolution with
         | Some assumption => contains_str "rfc3164_year=nearest_ingest_year" assumption
         | None => false
         end)
    (let? registry := parse_spec "source-a=-04:00" in
     resolve registry (default_persisted "source-a" None (Some ingest) "") rfc3164_event).

Definition falls_back (resolution : EventTimeContext) : bool :=
  bool_decide (etc_event_time resolution = None) && String.eqb (etc_source resolution) "ingest_time_fallback".
Definition ingested_at (seconds : Z) : RawEventPersisted :=
  default_persisted "source-a" None (Some (mkTimestamp seconds 0)) "".

Definition rfc3164_policy_does_not_resolve_another_parser_with_matching_precision_text : bool :=
  passes falls_back
    (let? registry := parse_spec "source-a=-04:00" in
     resolve registry (ingested_at 1800000000) (parsed_rfc3164 "cerbero.parser.future.example" "future.example")).
Definition missing_source_policy_keeps_timestamp_unresolved : bool :=
  passes falls_back (resolve [] (ingested_at 1800000000) rfc3164_event).
Definition policy_spec_rejects_duplicate_source_ids : bool :=
  rejects (fun error => contains_str "duplicate" (ste_message error)) (parse_spec "source-a=-04:00,source-a=+00:00").

(** ** mapping.rs *)

Definition mp_parsed : result ParsedEvent ParseError := parser_parse LinuxSshdParser (pt_input governed_line nothing_persisted).
Definition mp_persisted (event_time : option Timestamp) : RawEventPersisted :=
  default_persisted "" event_time (Some (mkTimestamp 1789000001 0)) "".
Definition mp_map (persisted : RawEventPersisted) (event_time : EventTimeContext) : result MappingOutput MappingError :=
  match mp_parsed with
  | Ok parsed => mapping_map SshAuthenticationMapping parsed persisted event_time 1789000002000
  | _ => Panic "the fixture parses"
  end.

(** [value[key]] *)
Definition json_at (value : Json) (key : string) : Json := default JNull (json_as_object value ≫= bt_get key).
Definition metadata_text (output : MappingOutput) (key : string) : option string :=
  json_as_str (json_at (json_at (mo_ocsf_event output) "metadata") key).
Definition status_is (output : MappingOutput) (status : NormalizationStatus) : bool :=
  (NormalizationStatus_as_i32 (mo_status output) =? NormalizationStatus_as_i32 status)%Z.

Definition maps_governed_sshd_vertical_to_authentication : bool :=
  let persisted := mp_persisted (Some (mkTimestamp 1789000000 0)) in
  passes (fun output =>
      (mo_class_uid output =? 3002)%Z && (mo_category_uid output =? 3)%Z
      && bool_decide (mo_activity_id output = Some 1%Z) && status_is output NormalizationStatus_Success
      && bool_decide (json_as_u64 (json_at (mo_ocsf_event output) "auth_protocol_id") = Some 99%Z)
      && is_text (metadata_text output "version") OCSF_VERSION)
    (mp_map persisted (from_persisted persisted)).

Definition missing_event_time_is_explicitly_partial : bool :=
  let persisted := mp_persisted None in
  passes (fun output =>
      status_is output NormalizationStatus_Partial
      && is_text (metadata_text output "cerbero_time_source") "ingest_time_fallback")
    (mp_map persisted (from_persisted persisted)).

Definition source_policy_time_is_explicitly_provenanced : bool :=
  let assumption := "fixed_utc_offset=-04:00;rfc3164_year=nearest_ingest_year" in
  passes (fun output =>
      status_is output NormalizationStatus_Success
      && is_text (metadata_text output "cerbero_time_source") "source_time_policy"
      && is_text (metadata_text output "cerbero_time_assumption") assumption)
    (mp_map (mp_persisted None)
       (mkEventTimeContext (Some (mkTimestamp 1789000000 0)) "source_time_policy" (Some assumption))).

(** The four suites pass. *)
Theorem mapping_suites_pass :
  memory_metrics_are_backend_neutral_and_bounded_by_governed_ids
  && canonical_json_sorts_nested_object_keys
  && configured_offset_resolves_rfc3164_without_mutating_ingest_time
  && rfc3164_policy_does_not_resolve_another_parser_with_matching_precision_text
  && missing_source_policy_keeps_timestamp_unresolved
  && policy_spec_rejects_duplicate_source_ids
  && maps_governed_sshd_vertical_to_authentication
  && missing_event_time_is_explicitly_partial
  && source_policy_time_is_explicitly_provenanced = true.
Proof. vm_compute. reflexivity. Qed.

(** ** core.rs *)

Definition core_persisted (raw content_type : string) : RawEventPersisted :=
  let length := Z.of_nat (str_len raw) in
  mkRawEventPersisted "01995000-0000-7000-8000-000000000002" "tenant-a" "source-a" ""
    (Some (mkTimestamp 1789000000 0)) (Some (mkTimestamp 1789000001 0)) content_type "" length "sha256"
    (sha256_lower_hex (str_bytes raw)) "" "" None 0 "ingest-v1" "raw:///tenant-a/2026/09/13/12/x/raw.bin"
    "01995000-0000-7000-8000-000000000002" 0 length (Some (mkTimestamp 1789000001 1)).
Definition core_envelope : CerberoEnvelope :=
  mkCerberoEnvelope "1" "01995000-0000-7000-8000-000000000003" "RawEventPersisted" "tenant-a" None None "" "" ""
    "cerbero.raw_event_persisted.v1" None.

Definition core_world : NormalizerWorld := mkNormalizerWorld [] metrics_default [] 0.

(** A core on the fixed clock, with identities from the outside *)
Definition core_with (pipeline_version : string) (mode : ExecutionMode) (sshd_version : string)
    : result NormalizerCore NormalizerError :=
  new_with_linux_sshd_version (mkNormalizerCoreConfig pipeline_version mode) sshd_version
    (FixedClock (mkTimestamp 1789000002 0)) SystemIdGenerator.
Definition core_normalize (core : result NormalizerCore NormalizerError) (raw content_type : string)
    (w : NormalizerWorld) : result NormalizationPlan NormalizerError * NormalizerWorld :=
  match core with
  | Ok core => normalize core core_envelope (core_persisted raw content_type) (str_bytes raw) w
  | Err e => (Err e, w)
  | Panic p => (Panic p, w)
  end.

Definition first_vertical_builds_normalized_event_and_provenance : bool :=
  passes (fun plan =>
      let event := np_normalized_event plan in
      let transformation := np_transformation plan in
      (ne_class_uid event =? 3002)%Z && (ne_category_uid event =? 3)%Z
      && bool_decide (ne_activity_id event = Some 1%Z)
      && (ne_normalization_status event =? NormalizationStatus_as_i32 NormalizationStatus_Success)%Z
      && String.eqb (ne_normalized_hash_algorithm event) "sha256"
      && String.eqb (tr_input_object_id transformation) (rp_event_id (core_persisted governed_line ""))
      && String.eqb (tr_output_object_id transformation) (ne_normalized_event_id event)
      && (tr_execution_mode transformation =? ExecutionMode_as_i32 ExecutionMode_Live)%Z
      && String.eqb (ne_normalized_hash event) (sha256_lower_hex (np_canonical_ocsf_json plan)))
    (core_normalize (core_with "normalizer-v1" ExecutionMode_Live LINUX_SSHD_PARSER_VERSION) governed_line ""
       core_world).1.

Definition logical_identity_changes_for_replay_and_pipeline_change : bool :=
  let persisted := core_persisted "Failed password for admin from 10.0.0.8 port 22 ssh2" "" in
  match core_with "v1" ExecutionMode_Live LINUX_SSHD_PARSER_VERSION,
        core_with "v1" ExecutionMode_Replay LINUX_SSHD_PARSER_VERSION,
        core_with "v2" ExecutionMode_Live LINUX_SSHD_PARSER_VERSION with
  | Ok live, Ok replay, Ok next_pipeline =>
      negb (String.eqb (logical_key live persisted) (logical_key replay persisted))
      && negb (String.eqb (logical_key live persisted) (logical_key next_pipeline persisted))
  | _, _, _ => false
  end.

(** The second core runs in the world the first one left, so its identities are its own. *)
Definition parser_v2_creates_a_distinct_historical_derivation_without_rewriting_v1 : bool :=
  let v1 := core_with "normalizer-v1" ExecutionMode_Live LINUX_SSHD_PARSER_VERSION in
  let v2 := core_with "normalizer-v1" ExecutionMode_Live LINUX_SSHD_PARSER_V2_VERSION in
  let (n1, w) := core_normalize v1 governed_line "" core_world in
  let (n2, _) := core_normalize v2 governed_line "" w in
  match v1, n1, n2 with
  | Ok v1, Ok n1, Ok n2 =>
      let e1 := np_normalized_event n1 in
      let e2 := np_normalized_event n2 in
      String.eqb (ne_raw_event_id e1) (ne_raw_event_id e2)
      && String.eqb (ne_parser_version e1) "1" && String.eqb (ne_parser_version e2) "2"
      && String.eqb (np_logical_key n1) (logical_key v1 (core_persisted governed_line ""))
      && negb (String.eqb (np_logical_key n1) (np_logical_key n2))
      && negb (String.eqb (ne_normalized_hash e1) (ne_normalized_hash e2))
      && negb (String.eqb (ne_normalized_event_id e1) (ne_normalized_event_id e2))
  | _, _, _ => false
  end.

Definition error_is (code : string) (e : NormalizerError) : bool := String.eqb (nz_code e) code.

Definition parse_only_parser_does_not_create_false_normalization : bool :=
  rejects (fun e => error_is "CER-NORM-MAPPING-UNSUPPORTED" e && negb (nz_retryable e))
    (core_normalize (core_with "normalizer-v1" ExecutionMode_Live LINUX_SSHD_PARSER_VERSION)
       (json_text login_document) "application/json" core_world).1.

(** ** runtime_config.rs *)

Definition rc_config (mode : ExecutionMode) (input : ReplayInput) (sshd_version : string)
    (retry_min_delay retry_max_delay retry_budget : Z) : RuntimeConfig :=
  mkRuntimeConfig "nats://127.0.0.1:4222" "u" "p" "dev" "normalizer-1" "normalizer-v1" mode input sshd_version []
    "var/raw" "http://127.0.0.1:8123" "cerbero" "normalizer" "secret" "127.0.0.1" 5432 "cerbero" "normalizer" "secret"
    (retry_min_delay * 1000000000)%Z (retry_max_delay * 1000000000)%Z retry_budget.
Definition rejected_config (config : RuntimeConfig) : bool := rejects (error_is "CER-NORM-CONFIG") (validate_config config).

Definition validate_rejects_inverted_retry_range : bool :=
  rejected_config (rc_config ExecutionMode_Live Historical "1" 5 1 5).
Definition validate_rejects_unknown_governed_sshd_parser_version : bool :=
  rejected_config (rc_config ExecutionMode_Replay Historical "3" 1 5 5).
Definition validate_rejects_zero_retry_budget : bool :=
  rejects (fun e => error_is "CER-NORM-CONFIG" e
                    && String.eqb (nz_message e) "CERBERO_NORMALIZER_RETRY_BUDGET must be greater than zero")
    (validate_config (rc_config ExecutionMode_Live Historical "1" 1 5 0)).
Definition validate_rejects_selective_replay_input_outside_replay_mode : bool :=
  rejected_config (rc_config ExecutionMode_Live Selective "1" 1 5 5).
Definition validate_accepts_governed_source_time_policy_registry : bool :=
  passes (fun policies =>
      is_text (policy_canonical policies "source-a") "fixed_utc_offset=-04:00;rfc3164_year=nearest_ingest_year")
    (parse_spec "source-a=-04:00,source-b=+05:30").

(** ** dead_letter.rs *)

Definition dl_record (message_id : option string) (payload_hash : string) (sequence : option Z)
    (replay_root : option string) (replay_attempt : option Z) : NormalizationDeadLetter :=
  mkNormalizationDeadLetter NORMALIZATION_DLQ_SCHEMA "01995000-0000-7000-8000-000000000001" message_id
    "cerbero.v1.raw.persisted" payload_hash "normalizer" 1 sequence (Some 1%Z) "CER-NORM-ENVELOPE-CONTRACT"
    "NORMALIZATION" "handoff_validation" "invalid envelope" false 1 1 None None None None None None None
    replay_root replay_attempt.
Definition repeat_char (a : ascii) (n : nat) : string := str_of_bytes (replicate n a).
Definition same_identity (r1 r2 : NormalizationDeadLetter) : bool := String.eqb (nats_message_id r1) (nats_message_id r2).

Definition dlq_dedup_identity_does_not_collapse_distinct_payloads_with_reused_message_id : bool :=
  let hash_a := repeat_char "a" 64 in
  let hash_b := repeat_char "b" 64 in
  let reused := Some "reused-invalid-id" in
  let replayed sequence attempt := dl_record reused hash_a (Some sequence) (Some "root-dlq") (Some attempt) in
  let first := dl_record reused hash_a (Some 7%Z) None None in
  same_identity first (dl_record reused hash_a (Some 8%Z) None None)
  && negb (same_identity first (dl_record reused hash_b (Some 9%Z) None None))
  && negb (same_identity (dl_record None hash_a (Some 11%Z) None None) (dl_record None hash_a (Some 12%Z) None None))
  && same_identity (replayed 21%Z 1%Z) (replayed 22%Z 1%Z)
  && negb (same_identity (replayed 21%Z 1%Z) (replayed 23%Z 2%Z)).

Definition selective_replay_dlq_preserves_original_raw_locator : bool :=
  let locate := dlq_source_identity RAW_REPLAY_SUBJECT (Some 900%Z) (Some "root-dlq") (Some 2%Z) in
  bool_decide (locate (Some 42%Z) = (RAW_PERSISTED_SUBJECT, Some 42%Z))
  && bool_decide (locate None = (RAW_REPLAY_SUBJECT, Some 900%Z)).

Definition category_mapping_keeps_stable_low_cardinality_classes : bool :=
  String.eqb (error_category "CER-PARSE-MALFORMED") "PARSING"
  && String.eqb (error_category "CER-NORM-MAPPING-UNSUPPORTED") "NORMALIZATION"
  && String.eqb (error_category "CER-NORM-RAW-HASH") "INTEGRITY"
  && String.eqb (error_category "CER-NORM-CLICKHOUSE-UNAVAILABLE") "STORAGE"
  && String.eqb (error_category "CER-NORM-NATS-UNAVAILABLE") "TRANSPORT".

(** ** eventbus.rs *)

Definition routed_to (mode : ExecutionMode) (input : ReplayInput) (consumer subject : string) : bool :=
  passes (fun route => bool_decide (route = (consumer, subject))) (normalizer_consumer_route mode input).

Definition replay_routes_keep_historical_and_selective_consumers_disjoint : bool :=
  routed_to ExecutionMode_Replay Historical NORMALIZER_REPLAY_CONSUMER_NAME RAW_PERSISTED_SUBJECT
  && routed_to ExecutionMode_Replay Selective NORMALIZER_SELECTIVE_REPLAY_CONSUMER_NAME RAW_REPLAY_SUBJECT
  && routed_to ExecutionMode_Live Selective NORMALIZER_CONSUMER_NAME RAW_PERSISTED_SUBJECT.

Definition delivers_new (policy : DeliverPolicy) : bool := match policy with DeliverNew => true | DeliverAll => false end.
Definition selective_replay_starts_at_new_messages_only : bool :=
  delivers_new (normalizer_deliver_policy ExecutionMode_Replay Selective)
  && negb (delivers_new (normalizer_deliver_policy ExecutionMode_Replay Historical))
  && negb (delivers_new (normalizer_deliver_policy ExecutionMode_Live Historical)).

Definition jitter_is_deterministic_bounded_and_not_below_minimum : bool :=
  let min := 1000000000%Z in
  let max := 30000000000%Z in
  passes (fun delay => (min <=? delay)%Z && (delay <=? max)%Z) (retry_delay_with_jitter 3 min max "message-a").

(** ** raw_store.rs: a root with one file *)

Definition rs_root : string := "/tmp/raw".
Definition rs_path : string := "/tmp/raw/tenant/2026/09/13/12/segment/raw.bin".
Definition rs_files : FileSystem :=
  let bytes := str_bytes "abcdef" in
  mkFileSystem
    (fun path => if String.eqb path rs_root || String.eqb path rs_path then Ok path else Err "No such file")
    (fun path => String.eqb path rs_root)
    (fun path =>
       if String.eqb path rs_path then
         Ok (mkOpenFile (fun _ => Ok tt) (fun offset length =>
               let read := take (Z.to_nat length) (drop (Z.to_nat offset) bytes) in
               if bool_decide (Z.of_nat (List.length read) = length) then Ok read else Err "failed to fill whole buffer"))
       else Err "No such file").
Definition rs_locator (uri : string) (offset length : Z) : RawEventPersisted :=
  mkRawEventPersisted "" "" "" "" None None "" "" 0 "" "" "" "" None 0 "" uri "" offset length None.
Definition rs_read (persisted : RawEventPersisted) : result (list ascii) NormalizerError :=
  let? reader := new_reader rs_files rs_root in RawStore.read reader rs_files persisted.

Definition reader_resolves_governed_raw_uri_and_range : bool :=
  passes (fun bytes => String.eqb (str_of_bytes bytes) "bcd")
    (rs_read (rs_locator "raw:///tenant/2026/09/13/12/segment/raw.bin" 1 3)).
Definition reader_rejects_path_escape : bool :=
  rejects (error_is "CER-NORM-RAW-URI") (rs_read (rs_locator "raw:///../outside" 0 1)).

(** The suites pass. *)
(** [FixedIdGenerator]: the queue the tests draw identities from *)
Definition FixedIdGenerator : Type := list string.
Definition FixedIdGenerator_new (values : list string) : FixedIdGenerator := values.
Definition fixed_new_uuid_v7 : io FixedIdGenerator NormalizerError string := fun values =>
  match values with
  | value :: values => (Ok value, values)
  | [] => (Err (mkNormalizerError "CER-NORM-ID-EXHAUSTED" "test ID generator is exhausted" false), [])
  end.

(** [n] identities in a row *)
Fixpoint draw (n : nat) : io FixedIdGenerator NormalizerError (list string) :=
  match n with
  | 0 => io_ret []
  | S n => let! id := fixed_new_uuid_v7 in let! ids := draw n in io_ret (id :: ids)
  end.

(** The generator hands out its values in order, each once, and then refuses for good. *)
Lemma fixed_ids_in_order ids rest :
  draw (length ids) (FixedIdGenerator_new (ids ++ rest)) = (Ok ids, rest) /\
  forall n, exists e, draw (length ids + S n) (FixedIdGenerator_new ids) = (Err e, []) /\ nz_retryable e = false.
Proof.
  induction ids as [|id ids [IH IHe]]; [by split; [|intros n; eexists]|]. split.
  - simpl. unfold io_bind. simpl. unfold FixedIdGenerator_new in *. by rewrite IH.
  - intros n. destruct (IHe n) as (e & He & Hr). exists e. split; [|done]. simpl. unfold io_bind at 1. simpl.
    unfold io_bind, FixedIdGenerator_new in *. by rewrite He.
Qed.

Theorem runtime_suites_pass :
  first_vertical_builds_normalized_event_and_provenance
  && logical_identity_changes_for_replay_and_pipeline_change
  && parser_v2_creates_a_distinct_historical_derivation_without_rewriting_v1
  && parse_only_parser_does_not_create_false_normalization
  && validate_rejects_inverted_retry_range
  && validate_rejects_unknown_governed_sshd_parser_version
  && validate_rejects_zero_retry_budget
  && validate_rejects_selective_replay_input_outside_replay_mode
  && validate_accepts_governed_source_time_policy_registry
  && dlq_dedup_identity_does_not_collapse_distinct_payloads_with_reused_message_id
  && selective_replay_dlq_preserves_original_raw_locator
  && category_mapping_keeps_stable_low_cardinality_classes
  && replay_routes_keep_historical_and_selective_consumers_disjoint
  && selective_replay_starts_at_new_messages_only
  && jitter_is_deterministic_bounded_and_not_below_minimum
  && reader_resolves_governed_raw_uri_and_range
  && reader_rejects_path_escape = true.
Proof. vm_compute. reflexivity. Qed.
End NormalizerTests.
