(* ===== verification/RuleTests.v ===== *)
(** * The test suites of the rule language and of the stable rule

    The unit tests of cerbero-detection-core (ast.rs, validator.rs, rule_contract.rs,
    compiler_contract.rs, execution_plan.rs, event_optimizer.rs, sigma.rs) and the tests
    that mvp_batch.rs runs over the datasets of tests/detections/CER-DET-000001, as checks
    the model computes.  The datasets are the rows of the files. *)

From Stdlib Require Import SpecFloat.
From S2P Require Import Prelude RustStd RustText ContractTypes Validation SignalContract RuleContract DetectionAst EventPipeline Threshold Sigma Database MvpRules MvpRulesSpec CanonicalJson DetectionTests.

(** ** The rule language *)

Module LanguageTests.
Import CompilerTests.

Definition detection_expression_kinds_match_frozen_contract : bool :=
  forallb (fun '(value, expected) => String.eqb (DetectionExpressionKind_as_str value) expected)
    [(Kind_Boolean, "BOOLEAN"); (Kind_Comparison, "COMPARISON"); (Kind_Exists, "EXISTS");
     (Kind_Selection, "SELECTION"); (Kind_Threshold, "THRESHOLD"); (Kind_Aggregation, "AGGREGATION");
     (Kind_Sequence, "SEQUENCE"); (Kind_Join, "JOIN"); (Kind_Absence, "ABSENCE")].

Definition boolean_operators_match_frozen_contract : bool :=
  forallb (fun '(value, expected) => String.eqb (BooleanOperator_as_str value) expected)
    [(BooleanOperator_And, "AND"); (BooleanOperator_Or, "OR"); (BooleanOperator_Not, "NOT")].

Definition comparison_operators_match_frozen_contract : bool :=
  forallb (fun '(value, expected) => String.eqb (ComparisonOperator_as_str value) expected)
    [(Op_Eq, "EQ"); (Op_Ne, "NE"); (Op_Gt, "GT"); (Op_Gte, "GTE"); (Op_Lt, "LT"); (Op_Lte, "LTE"); (Op_In, "IN");
     (Op_NotIn, "NOT_IN"); (Op_Contains, "CONTAINS"); (Op_StartsWith, "STARTS_WITH"); (Op_EndsWith, "ENDS_WITH");
     (Op_Matches, "MATCHES")].

Definition structural_nodes_preserve_backend_neutral_shape : bool :=
  let comparison := comparison "process.name" Op_Eq "powershell.exe" in
  let exists_ := exists_field "user.name" in
  let expression := Expr_Boolean (Bool_And [comparison; exists_]) in
  String.eqb (DetectionExpressionKind_as_str (DetectionExpression_kind comparison)) "COMPARISON"
  && String.eqb (DetectionExpressionKind_as_str (DetectionExpression_kind exists_)) "EXISTS"
  && String.eqb (DetectionExpressionKind_as_str (DetectionExpression_kind expression)) "BOOLEAN"
  && match expression with
     | Expr_Boolean boolean => String.eqb (BooleanOperator_as_str (BooleanExpression_operator boolean)) "AND"
     | _ => false
     end.

Definition not_structurally_contains_exactly_one_child : bool :=
  match Expr_Boolean (Bool_Not (exists_field "user.name")) with
  | Expr_Boolean (Bool_Not (Expr_Exists child)) => String.eqb (ex_field child) "user.name"
  | _ => false
  end.

(** *** validator.rs *)

Definition empty_boolean (operator : BooleanOperator) (r : result unit AstValidationError) : bool :=
  is_err_and (fun '(EmptyBooleanExpression found) =>
    String.eqb (BooleanOperator_as_str found) (BooleanOperator_as_str operator)) r.
Definition structurally_valid (expression : DetectionExpression string string) : bool :=
  is_ok_and (fun _ => true) (validate_expression expression).
Definition va_exists : DetectionExpression string string := exists_field "user.name".

Definition empty_and_or_fail_closed : bool :=
  empty_boolean BooleanOperator_And (validate_expression (Field := string) (Value := string) (Expr_Boolean (Bool_And [])))
  && empty_boolean BooleanOperator_Or (validate_expression (Field := string) (Value := string) (Expr_Boolean (Bool_Or []))).
Definition single_child_and_or_remain_valid_until_stricter_policy_is_defined : bool :=
  structurally_valid (Expr_Boolean (Bool_And [va_exists])) && structurally_valid (Expr_Boolean (Bool_Or [va_exists])).
Definition validator_recurses_through_boolean_tree : bool :=
  empty_boolean BooleanOperator_And
    (validate_expression (Field := string) (Value := string) (Expr_Boolean (Bool_Not (Expr_Boolean (Bool_And []))))).
Definition leaf_nodes_are_structurally_valid_before_type_checking : bool := structurally_valid va_exists.

(** *** rule_contract.rs *)

Definition rule_id_requires_stable_cerbero_detection_format : bool :=
  forallb (fun value => is_ok_and (fun rule_id =>
        String.eqb (RuleId_as_str rule_id) value && String.eqb (RuleId_fmt rule_id) value) (RuleId_from_str value))
    ["CER-DET-000001"; "CER-DET-999999"]
  && forallb (fun value =>
        is_err_and (fun e => match e with InvalidRuleId => true | _ => false end) (RuleId_from_str value))
      ["CER-DET-00001"; "CER-DET-0000001"; "CER-DET-00A001"; "cer-det-000001"; " CER-DET-000001"; "CER-DET-000001 "].

Definition rule_status_strings_match_frozen_contract : bool :=
  forallb (fun '(value, expected) => String.eqb (RuleStatus_as_str value) expected)
    [(Experimental, "EXPERIMENTAL"); (Testing, "TESTING"); (Stable, "STABLE"); (Deprecated, "DEPRECATED");
     (Disabled, "DISABLED")].

Definition stable_rules_require_complete_automated_test_coverage : bool :=
  is_err_and (fun e => match e with StableRequiresAutomatedTests => true | _ => false end)
    (validate_rule_status Stable (mkAutomatedTestCoverage true true false))
  && is_ok_and (fun _ => true) (validate_rule_status Stable AutomatedTestCoverage_complete).

Definition pre_stable_rules_may_have_incomplete_test_coverage : bool :=
  let no_tests := mkAutomatedTestCoverage false false false in
  is_ok_and (fun _ => true) (validate_rule_status Experimental no_tests)
  && is_ok_and (fun _ => true) (validate_rule_status Testing no_tests).

(** *** compiler_contract.rs *)

Record ContractTestFieldResolver := mkContractTestFieldResolver { cc_fields : list (string * string) }.
#[export] Instance ContractTestFieldResolver_types : FieldTypeResolver ContractTestFieldResolver string :=
  fun r field => snd <$> List.find (fun f => String.eqb f.1 field) (cc_fields r).

Definition compilation_error_strings_match_frozen_contract : bool :=
  forallb (fun '(value, expected) => String.eqb (RuleCompilationErrorKind_as_str value) expected)
    [(SyntaxError, "SYNTAX_ERROR"); (UnknownField, "UNKNOWN_FIELD"); (TypeError, "TYPE_ERROR");
     (InvalidOperator, "INVALID_OPERATOR"); (InvalidWindow, "INVALID_WINDOW");
     (UnsupportedBackend, "UNSUPPORTED_BACKEND"); (InvalidMapping, "INVALID_MAPPING");
     (ResourcePolicyViolation, "RESOURCE_POLICY_VIOLATION")].

Definition field_type_resolution_is_schema_owned : bool :=
  let resolver :=
    mkContractTestFieldResolver [("process.name", "schema-string-type"); ("event_time", "schema-time-type")] in
  is_ok_and (fun t => String.eqb t "schema-string-type") (require_field_type resolver "process.name")
  && is_ok_and (fun t => String.eqb t "schema-time-type") (require_field_type resolver "event_time").

Definition unknown_field_fails_closed : bool :=
  is_err_and (fun e => bool_decide (e = UnknownField))
    (require_field_type (FieldType := string) (mkContractTestFieldResolver []) "source_specific.hidden_field").

(** *** execution_plan.rs and event_optimizer.rs *)

Definition execution_backend_strings_match_frozen_contract : bool :=
  String.eqb (ExecutionBackend_as_str ClickHouse) "CLICKHOUSE" && String.eqb (ExecutionBackend_as_str Stream) "STREAM".

Definition execution_backend_capabilities_explicitly_declare_support : bool :=
  let clickhouse_only := mkExecutionBackendCapabilities true false in
  let both := mkExecutionBackendCapabilities true true in
  supports clickhouse_only ClickHouse && negb (supports clickhouse_only Stream)
  && supports both ClickHouse && supports both Stream.

(** [TestGrouping], [TestWindow] and [TestResourceLimits] have one value each. *)
Definition execution_plan_preserves_backend_neutral_contract_shape : bool :=
  is_ok_and (fun rule_id =>
      let plan := mkExecutionPlan "opaque-plan-id" rule_id "opaque-rule-version" ClickHouse
        ["process.name"; "process.command_line"] "opaque-predicates" tt tt tt "opaque-plan-hash" in
      String.eqb (pl_plan_id plan) "opaque-plan-id" && String.eqb (RuleId_as_str (pl_rule_id plan)) "CER-DET-000001"
      && String.eqb (pl_rule_version plan) "opaque-rule-version" && bool_decide (pl_backend plan = ClickHouse)
      && bool_decide (pl_required_fields _ _ _ _ _ _ _ _ plan = ["process.name"; "process.command_line"])
      && String.eqb (pl_predicates plan) "opaque-predicates"
      && String.eqb (pl_plan_hash _ _ _ _ _ _ _ _ plan) "opaque-plan-hash")
    (RuleId_from_str "CER-DET-000001").

Definition identity_event_optimizer_preserves_ast : bool :=
  is_ok_and (fun e =>
      match e with
      | Expr_Comparison c =>
          String.eqb (cx_field c) "process.name" && String.eqb (cx_value c) "powershell.exe"
          && String.eqb (ComparisonOperator_as_str (cx_operator c)) "EQ"
      | _ => false
      end)
    (optimize_event_ast mkIdentityEventAstOptimizer (comparison "process.name" Op_Eq "powershell.exe")).

(** The suites pass. *)
Theorem language_suites_pass :
  detection_expression_kinds_match_frozen_contract
  && boolean_operators_match_frozen_contract
  && comparison_operators_match_frozen_contract
  && structural_nodes_preserve_backend_neutral_shape
  && not_structurally_contains_exactly_one_child
  && empty_and_or_fail_closed
  && single_child_and_or_remain_valid_until_stricter_policy_is_defined
  && validator_recurses_through_boolean_tree
  && leaf_nodes_are_structurally_valid_before_type_checking
  && rule_id_requires_stable_cerbero_detection_format
  && rule_status_strings_match_frozen_contract
  && stable_rules_require_complete_automated_test_coverage
  && pre_stable_rules_may_have_incomplete_test_coverage
  && compilation_error_strings_match_frozen_contract
  && field_type_resolution_is_schema_owned
  && unknown_field_fails_closed
  && execution_backend_strings_match_frozen_contract
  && execution_backend_capabilities_explicitly_declare_support
  && execution_plan_preserves_backend_neutral_contract_shape
  && identity_event_optimizer_preserves_ast = true.
Proof. vm_compute. reflexivity. Qed.
End LanguageTests.

(** ** sigma.rs and the stable rule *)

Module StableRuleTests.

(** [serde_yaml] on the rule file and on the three variants of the tests *)
Definition replace_once (from to source : string) : string :=
  match split_once from source with Some (a, b) => a +:+ to +:+ b | None => source end.
Definition temporal_source : string := replace_once "type: event_count" "type: temporal" THRESHOLD_SIGMA_SOURCE.
Definition taxonomy_source : string := replace_once "taxonomy: ocsf" "taxonomy: sigma" THRESHOLD_SIGMA_SOURCE.
Definition identity_source : string := replace_once "CER-DET-000001" "CER-DET-1" THRESHOLD_SIGMA_SOURCE.

Definition correlation_document (kind rule_id : string) : SigmaDocument :=
  mkSigmaDocument "CERBERO Linux SSH Authentication Burst" (Some "b6354e60-2047-4e3a-9bb3-a6531265a2fb")
    None (Some "ocsf") (Some "stable") None None
    (Some (mkSigmaCorrelation kind ["cerbero_linux_sshd_failed_login"] ["user.name"; "src_endpoint.ip"] "5m"
             (mkSigmaCountCondition 10)))
    (Some "high") (Some rule_id) (Some "1") (Some "EVENT_TIME") (Some "time") (Some "ACCEPT").
Definition base_document (taxonomy : string) : SigmaDocument :=
  mkSigmaDocument "CERBERO Linux SSH Failed Login" (Some "3f954d8c-9af7-4dcc-bacd-6bdfd2ad6b4b")
    (Some "cerbero_linux_sshd_failed_login") (Some taxonomy) None (Some (mkSigmaLogSource (Some "linux") (Some "sshd")))
    (Some (mkSigmaDetection "selection" [("selection", [("activity_name", "Logon"); ("status", "Failure")])]))
    None None None None None None None.

#[export] Instance rule_yaml : SerdeYaml := fun source =>
  if String.eqb source THRESHOLD_SIGMA_SOURCE then [inl (base_document "ocsf"); inl (correlation_document "event_count" "CER-DET-000001")]
  else if String.eqb source temporal_source then [inl (base_document "ocsf"); inl (correlation_document "temporal" "CER-DET-000001")]
  else if String.eqb source taxonomy_source then [inl (base_document "sigma"); inl (correlation_document "event_count" "CER-DET-000001")]
  else if String.eqb source identity_source then [inl (base_document "ocsf"); inl (correlation_document "event_count" "CER-DET-1")]
  else [].
#[export] Instance rule_digest : Sha256 := {|
  sha256_digest _ := replicate 32 "000"%char;
  sha256_digest_length _ := eq_refl;
|}.
#[export] Instance rule_debug : DebugStr := fun text => String "034" (text +:+ String "034" "").

Definition stable_sigma_rule_maps_to_governed_threshold_contract : bool :=
  is_ok_and (fun imported =>
      let rule := im_threshold_rule imported in
      String.eqb (RuleId_as_str (im_rule_id imported)) "CER-DET-000001"
      && String.eqb (im_rule_version imported) "1" && bool_decide (im_status imported = Stable)
      && String.eqb (im_severity imported) "HIGH" && (str_len (im_content_hash imported) =? 64)%nat
      && match thr_aggregation rule with Count => true end
      && (thr_threshold rule =? 10)%Z && bool_decide (thr_group_by rule = ["user.name"; "src_endpoint.ip"])
      && (tw_duration_millis (thr_window rule) =? 300000)%Z
      && match tw_time_basis (thr_window rule) with EventTime => true | _ => false end
      && String.eqb (tw_time_field (thr_window rule)) "time"
      && match tw_late_event_policy (thr_window rule) with Accept => true | _ => false end)
    (parse_sigma_threshold_rule THRESHOLD_SIGMA_SOURCE).

Definition import_fails_with (text source : string) : bool :=
  is_err_and (fun e => contains_str text (SigmaImportError_fmt e)) (parse_sigma_threshold_rule source).
Definition sigma_import_fails_closed_for_unsupported_correlation_type : bool :=
  import_fails_with "event_count only" temporal_source.
Definition sigma_import_fails_closed_for_non_ocsf_taxonomy : bool := import_fails_with "base taxonomy" taxonomy_source.
Definition sigma_import_rejects_invalid_cerbero_rule_identity : bool :=
  import_fails_with "invalid cerbero_rule_id" identity_source.

(** *** The datasets *)

Record FixtureEvent := mkFixtureEvent {
  fx_event_id : string;
  fx_user : option string;
  fx_source_ip : option string;
  fx_activity_name : string;
  fx_status : string;
  fx_event_time_ms : Json;
}.

Definition fixture_ten_failed : list FixtureEvent :=
  [mkFixtureEvent "p00" (Some "alice") (Some "10.0.0.8") "Logon" "Failure" (JNumber "1789000000000");
   mkFixtureEvent "p01" (Some "alice") (Some "10.0.0.8") "Logon" "Failure" (JNumber "1789000020000");
   mkFixtureEvent "p02" (Some "alice") (Some "10.0.0.8") "Logon" "Failure" (JNumber "1789000040000");
   mkFixtureEvent "p03" (Some "alice") (Some "10.0.0.8") "Logon" "Failure" (JNumber "1789000060000");
   mkFixtureEvent "p04" (Some "alice") (Some "10.0.0.8") "Logon" "Failure" (JNumber "1789000080000");
   mkFixtureEvent "p05" (Some "alice") (Some "10.0.0.8") "Logon" "Failure" (JNumber "1789000100000");
   mkFixtureEvent "p06" (Some "alice") (Some "10.0.0.8") "Logon" "Failure" (JNumber "1789000120000");
   mkFixtureEvent "p07" (Some "alice") (Some "10.0.0.8") "Logon" "Failure" (JNumber "1789000140000");
   mkFixtureEvent "p08" (Some "alice") (Some "10.0.0.8") "Logon" "Failure" (JNumber "1789000160000");
   mkFixtureEvent "p09" (Some "alice") (Some "10.0.0.8") "Logon" "Failure" (JNumber "1789000180000")].

Definition fixture_nine_failed : list FixtureEvent :=
  [mkFixtureEvent "n00" (Some "bob") (Some "10.0.0.9") "Logon" "Failure" (JNumber "1789000000000");
   mkFixtureEvent "n01" (Some "bob") (Some "10.0.0.9") "Logon" "Failure" (JNumber "1789000020000");
   mkFixtureEvent "n02" (Some "bob") (Some "10.0.0.9") "Logon" "Failure" (JNumber "1789000040000");
   mkFixtureEvent "n03" (Some "bob") (Some "10.0.0.9") "Logon" "Failure" (JNumber "1789000060000");
   mkFixtureEvent "n04" (Some "bob") (Some "10.0.0.9") "Logon" "Failure" (JNumber "1789000080000");
   mkFixtureEvent "n05" (Some "bob") (Some "10.0.0.9") "Logon" "Failure" (JNumber "1789000100000");
   mkFixtureEvent "n06" (Some "bob") (Some "10.0.0.9") "Logon" "Failure" (JNumber "1789000120000");
   mkFixtureEvent "n07" (Some "bob") (Some "10.0.0.9") "Logon" "Failure" (JNumber "1789000140000");
   mkFixtureEvent "n08" (Some "bob") (Some "10.0.0.9") "Logon" "Failure" (JNumber "1789000160000")].

Definition fixture_duplicates : list FixtureEvent :=
  [mkFixtureEvent "p00" (Some "alice") (Some "10.0.0.8") "Logon" "Failure" (JNumber "1789000000000");
   mkFixtureEvent "p01" (Some "alice") (Some "10.0.0.8") "Logon" "Failure" (JNumber "1789000020000");
   mkFixtureEvent "p02" (Some "alice") (Some "10.0.0.8") "Logon" "Failure" (JNumber "1789000040000");
   mkFixtureEvent "p03" (Some "alice") (Some "10.0.0.8") "Logon" "Failure" (JNumber "1789000060000");
   mkFixtureEvent "p04" (Some "alice") (Some "10.0.0.8") "Logon" "Failure" (JNumber "1789000080000");
   mkFixtureEvent "p05" (Some "alice") (Some "10.0.0.8") "Logon" "Failure" (JNumber "1789000100000");
   mkFixtureEvent "p06" (Some "alice") (Some "10.0.0.8") "Logon" "Failure" (JNumber "1789000120000");
   mkFixtureEvent "p07" (Some "alice") (Some "10.0.0.8") "Logon" "Failure" (JNumber "1789000140000");
   mkFixtureEvent "p08" (Some "alice") (Some "10.0.0.8") "Logon" "Failure" (JNumber "1789000160000");
   mkFixtureEvent "p09" (Some "alice") (Some "10.0.0.8") "Logon" "Failure" (JNumber "1789000180000");
   mkFixtureEvent "p00" (Some "alice") (Some "10.0.0.8") "Logon" "Failure" (JNumber "1789000000000")].

Definition fixture_out_of_order : list FixtureEvent :=
  [mkFixtureEvent "p09" (Some "alice") (Some "10.0.0.8") "Logon" "Failure" (JNumber "1789000180000");
   mkFixtureEvent "p01" (Some "alice") (Some "10.0.0.8") "Logon" "Failure" (JNumber "1789000020000");
   mkFixtureEvent "p07" (Some "alice") (Some "10.0.0.8") "Logon" "Failure" (JNumber "1789000140000");
   mkFixtureEvent "p00" (Some "alice") (Some "10.0.0.8") "Logon" "Failure" (JNumber "1789000000000");
   mkFixtureEvent "p08" (Some "alice") (Some "10.0.0.8") "Logon" "Failure" (JNumber "1789000160000");
   mkFixtureEvent "p02" (Some "alice") (Some "10.0.0.8") "Logon" "Failure" (JNumber "1789000040000");
   mkFixtureEvent "p06" (Some "alice") (Some "10.0.0.8") "Logon" "Failure" (JNumber "1789000120000");
   mkFixtureEvent "p03" (Some "alice") (Some "10.0.0.8") "Logon" "Failure" (JNumber "1789000060000");
   mkFixtureEvent "p05" (Some "alice") (Some "10.0.0.8") "Logon" "Failure" (JNumber "1789000100000");
   mkFixtureEvent "p04" (Some "alice") (Some "10.0.0.8") "Logon" "Failure" (JNumber "1789000080000")].

Definition fixture_late_events : list FixtureEvent :=
  [mkFixtureEvent "p01" (Some "alice") (Some "10.0.0.8") "Logon" "Failure" (JNumber "1789000020000");
   mkFixtureEvent "p02" (Some "alice") (Some "10.0.0.8") "Logon" "Failure" (JNumber "1789000040000");
   mkFixtureEvent "p03" (Some "alice") (Some "10.0.0.8") "Logon" "Failure" (JNumber "1789000060000");
   mkFixtureEvent "p04" (Some "alice") (Some "10.0.0.8") "Logon" "Failure" (JNumber "1789000080000");
   mkFixtureEvent "p05" (Some "alice") (Some "10.0.0.8") "Logon" "Failure" (JNumber "1789000100000");
   mkFixtureEvent "p06" (Some "alice") (Some "10.0.0.8") "Logon" "Failure" (JNumber "1789000120000");
   mkFixtureEvent "p07" (Some "alice") (Some "10.0.0.8") "Logon" "Failure" (JNumber "1789000140000");
   mkFixtureEvent "p08" (Some "alice") (Some "10.0.0.8") "Logon" "Failure" (JNumber "1789000160000");
   mkFixtureEvent "p09" (Some "alice") (Some "10.0.0.8") "Logon" "Failure" (JNumber "1789000180000");
   mkFixtureEvent "p00" (Some "alice") (Some "10.0.0.8") "Logon" "Failure" (JNumber "1789000000000")].

Definition fixture_missing_fields : list FixtureEvent :=
  [mkFixtureEvent "p00" (Some "alice") (Some "10.0.0.8") "Logon" "Failure" (JNumber "1789000000000");
   mkFixtureEvent "p01" (Some "alice") (Some "10.0.0.8") "Logon" "Failure" (JNumber "1789000020000");
   mkFixtureEvent "p02" (Some "alice") (Some "10.0.0.8") "Logon" "Failure" (JNumber "1789000040000");
   mkFixtureEvent "p03" (Some "alice") (Some "10.0.0.8") "Logon" "Failure" (JNumber "1789000060000");
   mkFixtureEvent "p04" (Some "alice") (Some "10.0.0.8") "Logon" "Failure" (JNumber "1789000080000");
   mkFixtureEvent "p05" (Some "alice") (Some "10.0.0.8") "Logon" "Failure" (JNumber "1789000100000");
   mkFixtureEvent "p06" (Some "alice") (Some "10.0.0.8") "Logon" "Failure" (JNumber "1789000120000");
   mkFixtureEvent "p07" (Some "alice") (Some "10.0.0.8") "Logon" "Failure" (JNumber "1789000140000");
   mkFixtureEvent "p08" (Some "alice") (Some "10.0.0.8") "Logon" "Failure" (JNumber "1789000160000");
   mkFixtureEvent "p09" (Some "alice") None "Logon" "Failure" (JNumber "1789000180000")].

Definition fixture_strange_encoding : list FixtureEvent :=
  [mkFixtureEvent "u00" (Some "álïçé�") (Some "2001:db8::8") "Logon" "Failure" (JNumber "1789000000000");
   mkFixtureEvent "u01" (Some "álïçé�") (Some "2001:db8::8") "Logon" "Failure" (JNumber "1789000020000");
   mkFixtureEvent "u02" (Some "álïçé�") (Some "2001:db8::8") "Logon" "Failure" (JNumber "1789000040000");
   mkFixtureEvent "u03" (Some "álïçé�") (Some "2001:db8::8") "Logon" "Failure" (JNumber "1789000060000");
   mkFixtureEvent "u04" (Some "álïçé�") (Some "2001:db8::8") "Logon" "Failure" (JNumber "1789000080000");
   mkFixtureEvent "u05" (Some "álïçé�") (Some "2001:db8::8") "Logon" "Failure" (JNumber "1789000100000");
   mkFixtureEvent "u06" (Some "álïçé�") (Some "2001:db8::8") "Logon" "Failure" (JNumber "1789000120000");
   mkFixtureEvent "u07" (Some "álïçé�") (Some "2001:db8::8") "Logon" "Failure" (JNumber "1789000140000");
   mkFixtureEvent "u08" (Some "álïçé�") (Some "2001:db8::8") "Logon" "Failure" (JNumber "1789000160000");
   mkFixtureEvent "u09" (Some "álïçé�") (Some "2001:db8::8") "Logon" "Failure" (JNumber "1789000180000")].

Definition fixture_invalid_timestamp : list FixtureEvent :=
  [mkFixtureEvent "p00" (Some "alice") (Some "10.0.0.8") "Logon" "Failure" (JNumber "1789000000000");
   mkFixtureEvent "p01" (Some "alice") (Some "10.0.0.8") "Logon" "Failure" (JNumber "1789000020000");
   mkFixtureEvent "p02" (Some "alice") (Some "10.0.0.8") "Logon" "Failure" (JNumber "1789000040000");
   mkFixtureEvent "p03" (Some "alice") (Some "10.0.0.8") "Logon" "Failure" (JNumber "1789000060000");
   mkFixtureEvent "p04" (Some "alice") (Some "10.0.0.8") "Logon" "Failure" (JNumber "1789000080000");
   mkFixtureEvent "p05" (Some "alice") (Some "10.0.0.8") "Logon" "Failure" (JNumber "1789000100000");
   mkFixtureEvent "p06" (Some "alice") (Some "10.0.0.8") "Logon" "Failure" (JNumber "1789000120000");
   mkFixtureEvent "p07" (Some "alice") (Some "10.0.0.8") "Logon" "Failure" (JNumber "1789000140000");
   mkFixtureEvent "p08" (Some "alice") (Some "10.0.0.8") "Logon" "Failure" (JNumber "1789000160000");
   mkFixtureEvent "p09" (Some "alice") (Some "10.0.0.8") "Logon" "Failure" (JString "not-a-timestamp")].

Definition prost_string (value : string) : Value := mkValue (Some (StringValue value)).
Definition prost_number (value : f64) : Value := mkValue (Some (NumberValue value)).
Definition prost_struct (fields : BTreeMap string Value) : Value := mkValue (Some (StructValue (mkStruct fields))).

(** [Uuid::now_v7().to_string()], fresh at every call *)
Definition fresh_uuid (n : Z) : string := "018f47a2-4b00-7a00-8000-" +:+ hex12 n.

Definition fixture_time (time : Json) : result Value Empty_set :=
  match time with
  | JNumber text =>
      match parse_unsigned in_u64 text with
      | Some n => Ok (prost_number (binary_normalize 53 1024 n 0 false))
      | None => Panic "fixture time must fit f64"
      end
  | JString value => Ok (prost_string value)
  | _ => Panic "unsupported fixture time value"
  end.

(** The identities given out so far, the next one, and the row *)
Definition fixture_step (tenant_id : string) (state : list (string * string) * Z) (row : FixtureEvent)
    : result (list (string * string) * Z * NormalizedEvent) Empty_set :=
  let '(logical_ids, next) := state in
  let '(normalized_event_id, logical_ids, next) :=
    match List.find (fun p => String.eqb p.1 (fx_event_id row)) logical_ids with
    | Some (_, id) => (id, logical_ids, next)
    | None => (fresh_uuid next, (fx_event_id row, fresh_uuid next) :: logical_ids, (next + 1)%Z)
    end in
  let fields := bt_insert "status" (prost_string (fx_status row))
    (bt_insert "activity_name" (prost_string (fx_activity_name row)) []) in
  let fields := match fx_user row with
    | Some user => bt_insert "user" (prost_struct [("name", prost_string user)]) fields
    | None => fields end in
  let fields := match fx_source_ip row with
    | Some source_ip => bt_insert "src_endpoint" (prost_struct [("ip", prost_string source_ip)]) fields
    | None => fields end in
  let? time := fixture_time (fx_event_time_ms row) in
  let fields := bt_insert "time" time fields in
  Ok (logical_ids, (next + 1)%Z,
      mkNormalizedEvent normalized_event_id (fresh_uuid next) tenant_id (Some (mkTimestamp 1789000001 0)) "1.9.0" 3002 3
        (Some 2%Z) (Some 1%Z) (Some (mkStruct fields)) "stable-sigma-test" "1" 1 "sha256"
        (str_of_bytes (replicate 64 "0"%char)) "step33-stable-sigma").

Fixpoint materialize_rows (tenant_id : string) (state : list (string * string) * Z) (fixture : list FixtureEvent)
    : result (list NormalizedEvent) Empty_set :=
  match fixture with
  | [] => Ok []
  | row :: fixture =>
      let? '(state, event) := fixture_step tenant_id state row in
      let? events := materialize_rows tenant_id state fixture in
      Ok (event :: events)
  end.
Definition materialize_fixture (fixture : list FixtureEvent) (tenant_id : string)
    : result (list NormalizedEvent) Empty_set := materialize_rows tenant_id ([], 16%Z) fixture.

Definition stable_evaluate (fixture : list FixtureEvent)
    : result (list (ThresholdSignalProvenance string)) string :=
  let? events := map_err (fun e : Empty_set => match e with end) (materialize_fixture fixture (fresh_uuid 1)) in
  let? plan := map_err runtime_message compile_threshold_rule in
  map_err ThresholdEvaluationError_fmt
    (evaluate_threshold_normalized_events plan mkMvpPolicy events ExecutionMode_Replay (mkTimestamp 1789000600 0)).

(** One match with ten events *)
Definition ten_contributors (r : result (list (ThresholdSignalProvenance string)) string) : bool :=
  is_ok_and (fun matches =>
    match matches with [m] => (length (tv_normalized_event_ids m) =? 10)%nat | _ => false end) r.

Definition stable_sigma_positive_and_negative_datasets_execute_real_threshold_plan : bool :=
  ten_contributors (stable_evaluate fixture_ten_failed)
  && is_ok_and (fun matches =>
       forallb (fun m => String.eqb (RuleId_as_str (tv_rule_id m)) THRESHOLD_FAILED_LOGIN_RULE_ID
                         && String.eqb (tv_rule_version m) "1") matches) (stable_evaluate fixture_ten_failed)
  && is_ok_and none_left (stable_evaluate fixture_nine_failed).
Definition stable_sigma_duplicate_out_of_order_and_late_inputs_are_deterministic : bool :=
  forallb (fun fixture => ten_contributors (stable_evaluate fixture))
    [fixture_duplicates; fixture_out_of_order; fixture_late_events].
Definition stable_sigma_missing_group_field_does_not_false_positive : bool :=
  is_ok_and none_left (stable_evaluate fixture_missing_fields).
Definition stable_sigma_unicode_group_key_is_deterministic : bool :=
  ten_contributors (stable_evaluate fixture_strange_encoding).
Definition stable_sigma_invalid_timestamp_fails_closed : bool :=
  is_err_and (contains_str "field time is not numeric") (stable_evaluate fixture_invalid_timestamp).

(** The suites pass on the model, the frozen rule and the datasets. *)
Theorem stable_rule_suites_pass :
  stable_sigma_rule_maps_to_governed_threshold_contract
  && sigma_import_fails_closed_for_unsupported_correlation_type
  && sigma_import_fails_closed_for_non_ocsf_taxonomy
  && sigma_import_rejects_invalid_cerbero_rule_identity
  && stable_sigma_positive_and_negative_datasets_execute_real_threshold_plan
  && stable_sigma_duplicate_out_of_order_and_late_inputs_are_deterministic
  && stable_sigma_missing_group_field_does_not_false_positive
  && stable_sigma_unicode_group_key_is_deterministic
  && stable_sigma_invalid_timestamp_fails_closed = true.
Proof. vm_compute. reflexivity. Qed.
End StableRuleTests.
