(* ===== verification/CrateRoots.v ===== *)
(** * Crate roots

    What the roots of the crates hold beside their module declarations: the identity of
    the product and of its components (crates/cerbero-common/src/lib.rs,
    cerbero-detection-core/src/lib.rs, cerbero-integrity/src/lib.rs) and the agent, a
    program that prints one line (cerbero-agent/src/main.rs). *)

From S2P Require Import Prelude RustStd.

Definition PROJECT_NAME : string := "CERBERO".
Definition ARCHITECTURE_BASELINE : string := "v1.0".
Definition repository_baseline : string := ARCHITECTURE_BASELINE.

(** [component_name] of the two crates *)
Definition detection_core_component_name : string := "cerbero-detection-core".
Definition integrity_component_name : string := "cerbero-integrity".

(** The lines [main] of the agent prints *)
Definition agent_main : list string :=
  [PROJECT_NAME +:+ " cerbero-agent bootstrap (architecture " +:+ repository_baseline +:+ ")"].

(** ** The tests of the four crates *)

Definition bootstrap_identity_is_stable : bool :=
  String.eqb PROJECT_NAME "CERBERO" && String.eqb repository_baseline "v1.0".
Definition common_baseline_is_available : bool := String.eqb repository_baseline "v1.0".
Definition detection_component_identity_is_stable : bool :=
  String.eqb detection_core_component_name "cerbero-detection-core".
Definition integrity_component_identity_is_stable : bool := String.eqb integrity_component_name "cerbero-integrity".

Lemma crate_roots_pass :
  bootstrap_identity_is_stable && common_baseline_is_available && detection_component_identity_is_stable
  && integrity_component_identity_is_stable = true /\
  agent_main = ["CERBERO cerbero-agent bootstrap (architecture v1.0)"].
Proof. by vm_compute. Qed.
